(* ===== verification/_CoqProject ===== *)
-Q . S2P
Prelude.v
PyFloat.v
Exact.v
PyData.v
Schema.v
Ranges.v
Cursor.v
Safety.v
Contract.v
AsterixCommon.v
Bds.v
Gillham.v
TrackViews.v
Octets.v
Outline.v
PyText.v
PyNum.v
Wire.v
Sapient.v
Services.v
Supervisor.v
Dedup.v
Echoes.v
Markers.v
Fusion.v
FusionFacts.v
Views.v
SapientOut.v
Framing.v
SapientLink.v
Records.v
Blocks.v
Trust.v
TrustChain.v
TrustStore.v
Acl.v
ManagedAcl.v
TrustFacts.v
Cat001.v
Cat002.v
Cat004.v
Cat007.v
Cat008.v
Cat009.v
Cat010.v
Cat011.v
Cat015.v
Cat016.v
Cat017.v
Cat018.v
Cat019.v
Cat020.v
Cat021.v
Cat023.v
Cat025.v
Cat032.v
Cat034.v
Cat048.v
Cat062.v
Cat063.v
Cat065.v
Cat150.v
Cat205.v
Cat240.v
Cat247.v
WireFacts.v
SapientFacts.v
Pipeline.v
Receivers.v
TrackReceivers.v
Radars.v
ViewsFacts.v
LinkFacts.v
Link16.v
Gmti.v
GmtiFacts.v
Klv.v
Vsm.v
TakLayer.v
TakFacts.v
