(* ===== verification/Prelude.v ===== *)
(** * EFDI: a model of its data path

    EFDI takes what sensors and partner systems send, decodes it to tracks and
    puts each track on a Zenoh fabric in several views, merges the tracks of
    different radars, and keeps its host services running. The program is
    Python; this library models the parts that decide what is published, under
    which identity, and what happens on input nobody expected. The main ones
    of the theorems named below carry their claim (C<n>) where they are stated.

    ** How the program fits together, and where each part is

    Octets come in over TCP, UDP or a raw Zenoh sample. A protocol bridge cuts
    them to frames, decodes each frame to dictionaries (tracks), and publishes
    every dictionary as a SAPIENT report, a JSON sample, a typed protobuf
    sample and an envelope with the octets it came from. The fusion bridge
    subscribes to the tracks, keeps caches of them and announces merged tracks
    and copies to be held back. The TAK layer subscribes to both and draws
    them on the maps of TAK clients. The control agent and the supervisor
    start these bridges and layers and restart them.

    - The language. [PyData] (values, dictionaries in insertion order,
      formatting), [PyFloat] and [Exact] (binary64, [round]), [PyText] and
      [PyNum] are the Python the source uses. [exc] below is a
      call that may raise; [Cursor] is the style of the ASTERIX decoders, a
      read position and a dictionary that is being filled, with loops, [break]
      and [return], and its weakest-precondition logic.
    - The contract of published data. [Schema] is a type system for
      dictionaries, [Contract] the messages of compose/protocols/vendors/
      random/proto/cat.proto in it, [Ranges] and [Safety] the classes and the
      automation ([wp_auto]) that prove a decoder against its schema.
    - compose/protocols/vendors/asterix/cat.py: [AsterixCommon] and [Bds]
      (helpers the file repeats per category), [Gillham] (Mode-C altitudes),
      [Cat001] ... one file per category with its [_catN_decode...] functions,
      its decoder and its handler, [Records] (the loop over the records of a
      block), [Framing] (TCP, UDP and raw framing) and [Pipeline] (framing and
      handler of each category composed, as in [_handle_conn] and [run_udp]),
      [Receivers] (the receive loops of the service categories),
      [TrackReceivers] (those of the categories of [Blocks]) and [Radars]
      (what the handler of CAT-034 keeps per radar, its threads, and the radar
      sites that CAT-048 places its plots with).
      [Framing] also has the octet side of compose/bridges/vendors/random/
      udp_ingress_bridge.py.
    - compose/protocols/vendors/random/track_views.py: [TrackViews] (keys and
      the source envelope), [Views] (the typed and raw messages) and, with the
      encoding half of compose/protocols/vendors/sapient/flex335.py,
      [SapientOut] (detection reports, identities, [publish_dual]).
    - compose/protocols/vendors/sapient/flex335.py: [Wire] (the protobuf wire
      format), [Sapient] ([SapientDecoder]) and [SapientLink] (frames,
      [_publish], [_consume], raw samples).
    - compose/protocols/vendors/stanag/stanag.py: [Link16] (STANAG 5516),
      [Gmti] (4607), [Klv] (4609, with what compose/bridges/vendors/milspec/
      4609_bridge.py puts on the raw topic) and [Vsm] (4586), over the octets
      and bit fields of [Octets]; the theorems about [Gmti] are in
      [GmtiFacts].
    - compose/protocols/vendors/random/fusion.py: [Dedup] (ghost and twin
      filters, marker memory), [Echoes] (own tracks coming back, announced
      suppressions), [Markers] (strike and twin indexes), [Fusion]
      ([TrackFuser]) and [FusionFacts].
    - compose/layers/vendors/tak/tak_layer.py: [TakLayer] (a track as a
      Cursor-on-Target event, with the XML writer, airframe.py and
      ground_unit.py; the handlers; trails; the dead-reckoning thread, whose
      steps interleave with the handlers) and [TakFacts]. [Outline] is the
      simplification of polygons it calls, geo_simplify.py.
    - compose/control: [Services] (the catalogue and status of services in
      admin_control.py) and [Supervisor] (supervisor.py).
    - compose/zenoh-admin/api, who may say what on the fabric: [Trust]
      (trust_types.py, trust_identity.py: key scopes and grants), [TrustChain]
      (trust_crypto.py and [verify_trust_chain]), [TrustStore]
      (trust_store.py, the lifecycle of trust_api.py and the tables of
      models.py), [Acl] (acl_policy.py), [ManagedAcl] (managed_acl.py) and
      [TrustFacts] (what holds of a store after any run).

    ** State and effects

    A decoder's dictionary and position are the state of [cur]. A class of the
    source is a Record ([decoder] and [node_state] in [Sapient], the filters of
    [Dedup], [fuser] in [Fusion], the supervisor's entries in [Supervisor])
    and a method a function on it; what a method publishes is a list of
    samples beside the result, in order, so that a method that raises half way
    keeps what it published before; the module [Actions] is this style as a
    monad, with its Hoare triples. Readings of the clock, of the random
    source and of the operating system are arguments. Shared state that two
    threads of the source use is guarded there by a lock; the model runs one
    handler at a time. The dead-reckoning thread of [TakLayer] gives its lock
    back between reading a list and using it, and there the model interleaves
    ([layer_run]); its round over the trails, which takes no lock, is one step.

    ** What the theorems show

    - Decoders and handlers: whatever the octets, a handler raises only what
      its statement names (most raise nothing), publishes each record of a
      block once, in order, with the octets it was read from, and every
      dictionary conforms to its message, so that the typed view loses nothing
      ([cat048_handler_ok] and its siblings; [service_receivers_never_stop]
      and [cat007_datagram_stops_receiver] for the receivers around them).
      Where a category decides per record, each record goes to the topic its
      content calls for ([record_receivers]).
    - Radar sites: a site CAT-034 announces reaches CAT-048 and places the
      plots of exactly that radar ([site_reaches_plots]); radars on one feed do
      not disturb each other ([radars_independent]) and get one thread of each
      kind ([threads_start_once]).
    - Framing: a TCP connection and a datagram yield exactly the blocks their
      octets start with, however the network cuts them ([tcp_frames_exact],
      [udp_frames_exact], [tcp_end_to_end]); the ingress bridge republishes
      octet for octet ([ingress_exact]).
    - SAPIENT: fields written are the fields read ([wire_roundtrip]); the
      decoder keeps its invariant and raises ValueError alone
      ([sapient_decoder_safe]); the life of a remembered object
      ([object_lifetime]); a whole connection ([sapient_connection]).
    - STANAG: what was sent is what is published, for Link 16 packets
      ([link16_exact]), GMTI packets ([gmti_packet_exact]) and KLV local sets
      ([local_set_roundtrip]); packets do not depend on how a stream is cut
      ([klv_stream_exact], [vsm_paths_agree]); nothing on the network stops
      the receivers ([link16_receiver_never_stops], [gmti_sample_total]); and
      where the code does otherwise ([ppli_west_turned], [gmti_uid_shared],
      [klv_length_rewritten], [klv_position_mixed], [vsm_octet_holds_back]).
    - Views: keys determine and separate objects ([semantic_topic_exact],
      [view_key_exact], [object_id_exact]), every located record gets every
      view ([records_get_every_view]), and which do not ([typed_view_lost]).
    - Fusion: the tables of the filters as refinements of plain
      specifications ([first_address_wins], [marker_memory_refines],
      [strike_merge_exact], [best_named_copy_stays]), the one-to-one match
      with NEPTUN, handoff groups, and behaviour that surprises
      ([adsb_never_fused], [association_sticks], [null_icao_stops_timer]).
    - Trust: an accepted proof is a chain of ever narrower grants
      ([trust_chain_sound], [grant_subset_exact]), the proofs a store exports
      are accepted ([exported_proof_accepted]), the router's access control is
      what the grants say ([acl_exact]); and where the code does otherwise
      ([anchor_scope_unchecked], [decommission_freezes_acl],
      [quarantine_outlasts_restore]).
    - Outlines: the simplification ends, keeps the ends, the order and the
      tolerance ([douglas_peucker_exact], [simplify_ring_exact]).
    - TAK: a deleted contact stays deleted ([deleted_stays_deleted]), an event
      fits what a server takes ([shape_cots_exact]), trails go with their
      markers ([orphan_trails_exact]), and what goes wrong
      ([string_position_stops_reckoning], [tombstone_races_reckoning]).
    - Supervision: exactly what a sweep starts or adopts, service by service
      ([sweep_acts_only_when_called_for]), that it ends and what can end it
      early ([sweep_ends]), the backoff to the last failure Python can compute,
      and the invariant of reachable supervisor states.

    ** Fuel and bounds

    Python's loops over octets are [while_] with fuel [fuel_of data], two more
    than the octets there are; every iteration that goes on has read one, and
    the helper contracts of [Safety] prove that [OutOfFuel] is not among the
    outcomes. Frame and field loops take one more than the length of their
    buffer, for the same reason ([frames_loop], [fields_loop]); a varint is at most
    ten octets, as in the source; [wait_fuel] (64) exceeds the polls of a start
    script's pid file before its deadline. [OutOfFuel] is a value of [exn] of
    its own, so a theorem that lists the exceptions of a function also states
    that the fuel is enough.

    ** Parameters and their hypotheses

    The C mathematics library ([Libm]; [LibmOk] assumes that atan2 and hypot
    give a result and that the others raise ValueError alone, and nothing of
    the numbers), the protobuf runtime ([Protobuf]; [ProtobufOk] assumes that a
    field takes the values of its type, the errors of its setters and that a
    message serializes), the cryptography library, pydantic's reading of
    documents and json ([Pki]; [PkiOk] assumes that a fingerprint is 64
    hexadecimal digits), the hash behind uuid5, [repr] of a float,
    the start script and the clock. Theorems with such a class among their
    hypotheses have a witness with a concrete instance. No axiom is assumed.

    ** Not modelled

    - Of cat.py: the older decoder of I062/380 with its altitude helpers, which
      nothing calls, the category loader, sockets and command lines.
    - Of flex335.py: the connect and listen loops, peer rules, and the
      registration and status messages of the SAPIENT encoder. Of
      track_views.py: reading a source message back.
    - Of admin_control.py: the HTTP interface, environment editing and PKI
      calls, which are I/O on the host.
    - Of stanag.py: opening sessions and sockets, reconnections, the thread
      that sends heartbeats to a VSM.
    - Of tak_layer.py: the text panel of a marker ([_build_remarks], a
      parameter), the icons, the sender, and [run] with its signals.
    - The other protocols (nffi, aartos, the JSON vendors), the TAK alert and
      SitaWare layers and the vendor bridges: each is a separate process that
      meets the modelled parts only through the fabric. Of zenoh-admin, what
      issues keys and certificates, edits the configuration of routers and
      serves pages.
    - Digits outside ASCII, and regular expressions on text outside ASCII,
      where the file that uses them says so; the text of warnings and log lines. *)

From Stdlib Require Export ZArith Lia List String Ascii Bool.
From Stdlib Require Export Strings.Byte.
From stdpp Require Export prelude.
Export ListNotations.

#[global] Open Scope Z_scope.

(** ** Exceptions and results

    A Python function that can raise is a function into [exc A]. *)
Inductive exn :=
| IndexError
| KeyError
| TypeError
| StructError          (* struct.error, a direct subclass of Exception *)
| ValueError           (* ValueError, UnicodeDecodeError and math domain errors *)
| EOFError
| OverflowError
| OSError
| AttributeError
| ZeroDivisionError
| TrustVerifyError     (* trust_crypto.py, a subclass of ValueError *)
| TrustStoreError      (* trust_store.py, a subclass of ValueError *)
| IntegrityError       (* SQLAlchemy: a unique column has the value already *)
| HTTPException (status_code : Z)
| OutOfFuel.           (* not Python: a loop of the model ran out of fuel *)

Inductive exc (A : Type) :=
| Ok (a : A)
| Raise (e : exn).
Arguments Ok {A} _.
Arguments Raise {A} _.

#[export] Instance exn_eq_dec : EqDecision exn.
Proof. solve_decision. Defined.

Definition exc_bind {A B} (m : exc A) (f : A -> exc B) : exc B :=
  match m with
  | Ok a => f a
  | Raise e => Raise e
  end.

Declare Scope py_scope.
(** String literals without the rest of [string_scope]; concatenation of strings, [a + b]. *)
String Notation string string_of_list_byte list_byte_of_string : py_scope.
Infix "+:+" := String.append (at level 60, right associativity) : py_scope.
Delimit Scope py_scope with py.

Notation "'let?' x ':=' m 'in' k" := (exc_bind m (fun x => k))
  (at level 10, x pattern, m at level 100, k at level 200) : py_scope.
Open Scope py_scope.

(** ** Bytes

    [bytes] objects are lists of machine bytes; an element is read as an int
    in [0, 256). *)
Abbreviation bytes := (list byte).

Definition byte_val (b : byte) : Z := Z.of_N (Byte.to_N b).

Lemma byte_val_range b : 0 <= byte_val b < 256.
Proof.
  unfold byte_val. pose proof (Byte.to_N_bounded b). lia.
Qed.

(** [len(data)] *)
Definition len {A} (l : list A) : Z := Z.of_nat (length l).

Lemma len_nonneg {A} (l : list A) : 0 <= len l.
Proof. unfold len. lia. Qed.

Lemma len_app {A} (l k : list A) : len (l ++ k) = len l + len k.
Proof. unfold len. rewrite length_app. lia. Qed.

Lemma len_cons {A} (x : A) l : len (x :: l) = 1 + len l.
Proof. unfold len. cbn [length]. lia. Qed.

(** The Python bytes literal whose elements are the given ints (mod 256). *)
Definition of_ints (l : list Z) : bytes :=
  map (fun z => match Byte.of_N (Z.to_N (z mod 256)) with
                | Some b => b
                | None => x00
                end) l.

(** [data[i]]: a negative index counts from the end, an index out of range
    raises IndexError. *)
Definition index {A} (l : list A) (i : Z) : exc A :=
  let j := if i <? 0 then i + len l else i in
  if (j <? 0) then Raise IndexError
  else match nth_error l (Z.to_nat j) with
       | Some x => Ok x
       | None => Raise IndexError
       end.

Definition byte_at (data : bytes) (i : Z) : exc Z :=
  let? b := index data i in Ok (byte_val b).

Lemma index_ok {A} (l : list A) i :
  0 <= i < len l -> exists x, index l i = Ok x /\ nth_error l (Z.to_nat i) = Some x.
Proof.
  unfold index, len. intros [H0 H1].
  replace (i <? 0) with false by lia. cbn zeta. replace (i <? 0) with false by lia.
  destruct (nth_error l (Z.to_nat i)) as [x|] eqn:E; [eauto|].
  apply nth_error_None in E. lia.
Qed.

Lemma byte_at_ok data i :
  0 <= i < len data -> exists b, byte_at data i = Ok b /\ 0 <= b < 256.
Proof.
  intros H. destruct (index_ok data i H) as (x & E & _).
  unfold byte_at. rewrite E. cbn. eauto using byte_val_range.
Qed.

(** [data[a:b]] for a, b >= 0: both bounds are clipped to the length. *)
Definition slice {A} (l : list A) (a b : Z) : list A :=
  firstn (Z.to_nat (b - a)) (skipn (Z.to_nat a) l).

Lemma len_slice {A} (l : list A) a b :
  0 <= a <= b -> b <= len l -> len (slice l a b) = b - a.
Proof.
  unfold len, slice. intros. rewrite length_firstn, length_skipn. lia.
Qed.

Lemma len_slice_le {A} (l : list A) a b : 0 <= a <= b -> len (slice l a b) <= b - a.
Proof. unfold len, slice. intros. rewrite length_firstn. lia. Qed.

(** [int.from_bytes(raw, "big")] *)
Definition int_from_bytes (raw : bytes) : Z :=
  fold_left (fun acc b => acc * 256 + byte_val b) raw 0.

Lemma fold_bytes_range raw acc k :
  0 <= acc < 2 ^ k -> 0 <= k ->
  0 <= fold_left (fun acc b => acc * 256 + byte_val b) raw acc < 2 ^ (k + 8 * len raw).
Proof.
  revert acc k. induction raw as [|b raw IH]; intros acc k Hacc Hk; cbn [fold_left].
  - by replace (k + 8 * len []) with k by (unfold len; cbn; lia).
  - pose proof (byte_val_range b).
    replace (k + 8 * len (b :: raw)) with ((k + 8) + 8 * len raw)
      by (rewrite len_cons; lia).
    apply IH; [|lia]. rewrite Z.pow_add_r by lia. change (2 ^ 8) with 256. nia.
Qed.

Lemma int_from_bytes_range raw : 0 <= int_from_bytes raw < 2 ^ (8 * len raw).
Proof. apply (fold_bytes_range raw 0 0); lia. Qed.

(** The two's complement reading of a [w]-bit word. *)
Definition sign_extend (w n : Z) : Z := if n <? 2 ^ (w - 1) then n else n - 2 ^ w.

Lemma sign_extend_range w n :
  0 < w -> 0 <= n < 2 ^ w -> - 2 ^ (w - 1) <= sign_extend w n < 2 ^ (w - 1).
Proof.
  intros Hw Hn. unfold sign_extend.
  assert (2 ^ w = 2 * 2 ^ (w - 1)) by
    (rewrite <- Z.pow_succ_r by lia; f_equal; lia).
  destruct (Z.ltb_spec n (2 ^ (w - 1))); lia.
Qed.

(** [struct.unpack(">H", raw)[0]] and its siblings: struct.error unless the
    buffer has exactly the format's size. *)
Definition unpack_u (size : Z) (raw : bytes) : exc Z :=
  if len raw =? size then Ok (int_from_bytes raw) else Raise StructError.
Definition unpack_s (size : Z) (raw : bytes) : exc Z :=
  let? n := unpack_u size raw in Ok (sign_extend (8 * size) n).

Lemma unpack_u_ok size raw :
  len raw = size -> unpack_u size raw = Ok (int_from_bytes raw).
Proof. intros H. unfold unpack_u. by rewrite H, Z.eqb_refl. Qed.

(** [bool(b & mask)] *)
Definition bit (b mask : Z) : bool := negb (Z.land b mask =? 0).

Lemma land_range a m : 0 <= m -> 0 <= Z.land a m <= m.
Proof.
  intros Hm. split; [apply Z.land_nonneg; lia|].
  assert (Z.ldiff (Z.land a m) m = 0) as E.
  { apply Z.bits_inj'. intros n Hn. rewrite Z.ldiff_spec, Z.land_spec, Z.bits_0.
    by destruct (Z.testbit a n), (Z.testbit m n). }
  pose proof (Z.sub_nocarry_ldiff m (Z.land a m) E).
  assert (0 <= Z.ldiff m (Z.land a m)) by (apply Z.ldiff_nonneg; lia).
  lia.
Qed.

Lemma shiftr_range n k w :
  0 <= k -> 0 <= w -> 0 <= n < 2 ^ (k + w) -> 0 <= Z.shiftr n k < 2 ^ w.
Proof.
  intros Hk Hw Hn. rewrite Z.shiftr_div_pow2 by lia.
  rewrite Z.pow_add_r in Hn by lia. split; [apply Z.div_pos; lia|].
  apply Z.div_lt_upper_bound; lia.
Qed.

Lemma lor_range a b w :
  0 <= w -> 0 <= a < 2 ^ w -> 0 <= b < 2 ^ w -> 0 <= Z.lor a b < 2 ^ w.
Proof.
  intros Hw Ha Hb.
  assert (Z.lor a b = Z.lor a b mod 2 ^ w) as ->.
  { rewrite <- Z.land_ones, Z.land_lor_distr_l, !Z.land_ones, !Z.mod_small by lia. done. }
  apply Z.mod_pos_bound. lia.
Qed.

(** ** Computations over a state

    A handler of the program reads and updates a state, sends on the way, and
    may raise; what was done before an exception stays done. *)
Module Actions.
Section Actions.
Context {state out : Type}.

Definition act (A : Type) : Type := state -> state * list out * exc A.

Definition ret {A} (a : A) : act A := fun s => (s, [], Ok a).
Definition bind {A B} (m : act A) (k : A -> act B) : act B := fun s =>
  let '(s', o, r) := m s in
  match r with
  | Ok a => let '(s'', o', r') := k a s' in (s'', o ++ o', r')
  | Raise e => (s', o, Raise e)
  end.
Definition lift {A} (m : exc A) : act A := fun s => (s, [], m).
Definition gets {A} (g : state -> A) : act A := fun s => (s, [], Ok (g s)).
Definition modify (g : state -> state) : act unit := fun s => (g s, [], Ok tt).
Definition emit (o : out) : act unit := fun s => (s, [o], Ok tt).
Definition when (b : bool) (m : act unit) : act unit := if b then m else ret tt.
Fixpoint for_each {A} (l : list A) (body : A -> act unit) : act unit :=
  match l with [] => ret tt | x :: l' => bind (body x) (fun _ => for_each l' body) end.
End Actions.
Arguments act : clear implicits.

Declare Scope act_scope.
Delimit Scope act_scope with act.
Notation "x <- m ;; k" := (bind m (fun x => k)) (at level 100, m at next level, right associativity) : act_scope.
Notation "m ;; k" := (bind m (fun _ => k)) (at level 100, right associativity) : act_scope.

(** *** A program logic

    [hoare I O m Q]: from a state of the invariant [I], the computation stays in
    it, puts only samples of [O], and what it returns satisfies [Q]. *)
Section Logic.
Context {state out : Type}.
Variables (I : state -> Prop) (O : out -> Prop).

Definition hoare {A} (m : act state out A) (Q : A -> Prop) : Prop :=
  forall f, I f ->
    let '(f', sent, r) := m f in I f' /\ Forall O sent /\ (forall a, r = Ok a -> Q a).

Lemma hoare_ret {A} (a : A) (Q : A -> Prop) : Q a -> hoare (ret a) Q.
Proof. intros HQ f Hf. split_and!; [done|constructor|]. by intros ? [= <-]. Qed.

Lemma hoare_bind {A B} (m : act state out A) (k : A -> act state out B) Q R :
  hoare m R -> (forall a, R a -> hoare (k a) Q) -> hoare (bind m k) Q.
Proof.
  intros Hm Hk f Hf. unfold bind. specialize (Hm f Hf). destruct (m f) as [[f' sent] [a|e]].
  - destruct Hm as (Hf' & Hout & HR). specialize (Hk a (HR a eq_refl) f' Hf').
    destruct (k a f') as [[f'' sent'] r]. destruct Hk as (? & ? & ?). split_and!; [done|by apply Forall_app|done].
  - destruct Hm as (Hf' & Hout & _). by split_and!.
Qed.

Lemma hoare_lift {A} (m : exc A) (Q : A -> Prop) : (forall a, m = Ok a -> Q a) -> hoare (lift m) Q.
Proof. intros HQ f Hf. split_and!; [done|constructor|done]. Qed.

Lemma hoare_read {A} (g : state -> exc A) (Q : A -> Prop) :
  (forall f a, I f -> g f = Ok a -> Q a) -> hoare (fun f => (f, [], g f)) Q.
Proof. intros HQ f Hf. split_and!; [done|constructor|]. intros a. by apply HQ. Qed.

Lemma hoare_gets {A} (g : state -> A) (Q : A -> Prop) : (forall f, I f -> Q (g f)) -> hoare (gets g) Q.
Proof. intros HQ f Hf. split_and!; [done|constructor|]. intros a [= <-]. by apply HQ. Qed.

Lemma hoare_modify (g : state -> state) : (forall f, I f -> I (g f)) -> hoare (modify g) (fun _ => True).
Proof. intros Hg f Hf. split_and!; [by apply Hg|constructor|done]. Qed.

Lemma hoare_emit p : O p -> hoare (emit p) (fun _ => True).
Proof. intros Hp f Hf. split_and!; [done|by repeat constructor|done]. Qed.

Lemma hoare_when b m : hoare m (fun _ => True) -> hoare (when b m) (fun _ => True).
Proof. intros Hm. destruct b; [done|by apply hoare_ret]. Qed.

Lemma hoare_for_each {A} (l : list A) body :
  (forall x, hoare (body x) (fun _ => True)) -> hoare (for_each l body) (fun _ => True).
Proof.
  intros Hb. induction l as [|x l IH]; cbn [for_each]; [by apply hoare_ret|].
  by apply (hoare_bind _ _ _ (fun _ => True)).
Qed.

Lemma hoare_weaken {A} (m : act state out A) (Q R : A -> Prop) : hoare m Q -> (forall a, Q a -> R a) -> hoare m R.
Proof.
  intros Hm HR f Hf. specialize (Hm f Hf). destruct (m f) as [[f' sent] r]. destruct Hm as (? & ? & ?). eauto.
Qed.
End Logic.

Create HintDb hoare.
#[export] Hint Resolve hoare_ret hoare_lift hoare_when hoare_for_each : hoare.

(** Run the rules forward; what is left are the updates and the puts. *)
Ltac hoare_step :=
  match goal with
  | |- hoare _ _ (bind _ _) _ => eapply (hoare_bind _ _ _ _ _ (fun _ => True)); [|intros ? _]
  | |- hoare _ _ (ret _) _ => apply hoare_ret
  | |- hoare _ _ (lift _) _ => apply hoare_lift
  | |- hoare _ _ (when _ _) _ => apply hoare_when
  | |- hoare _ _ (for_each _ _) _ => apply hoare_for_each; intros
  | |- hoare _ _ (gets _) _ => apply hoare_gets
  | |- hoare _ _ (modify _) _ => apply hoare_modify
  | |- hoare _ _ (emit _) _ => apply hoare_emit
  | |- hoare _ _ (match ?x with _ => _ end) _ => destruct x
  | |- hoare _ _ (let _ := _ in _) _ => cbv zeta
  | |- hoare _ _ (fun f => (f, [], _)) _ => apply hoare_read
  end.
End Actions.
