(* ===== verification/PyFloat.v ===== *)
(** * Python floats

    A Python float is an IEEE-754 binary64 number.  It is modelled by
    [spec_float] of the Standard Library at precision 53 and maximal exponent
    1024, so every operation below is the correctly rounded one the
    interpreter performs, computed inside the kernel and without axioms.

    [py_round] is [round(x, n)]: the decimal with [n] digits nearest to the
    exact value of [x], ties to even, read back as the nearest float, which is
    what CPython's dtoa/strtod pair computes. *)

From Stdlib Require Import SpecFloat.
From S2P Require Import Prelude.

Abbreviation float := spec_float.

Definition prec := 53.
Definition emax := 1024.

Definition fl (z : Z) : float := binary_normalize prec emax z 0 false.

Definition fadd : float -> float -> float := SFadd prec emax.
Definition fsub : float -> float -> float := SFsub prec emax.
Definition fmul : float -> float -> float := SFmul prec emax.
Definition fdiv_raw : float -> float -> float := SFdiv prec emax.

(** The float nearest to the rational [n / d], for [0 < d]: Python's [n / d]
    on ints, and the value of a decimal literal. *)
Definition fratio (n d : Z) : float :=
  match n with
  | 0 => S754_zero false
  | _ => let '(q, e, l) := SFdiv_core_binary prec emax (Z.abs n) 0 d 0 in
         binary_round_aux prec emax (n <? 0) q e l
  end.

(** The literal [m] * 10^-[k], as in 22.5 = [dec 225 1]. *)
Definition dec (m k : Z) : float := fratio m (10 ^ k).

Definition is_fzero (x : float) : bool :=
  match x with S754_zero _ => true | _ => false end.
Definition is_finite (x : float) : bool :=
  match x with S754_zero _ | S754_finite _ _ _ => true | _ => false end.

Definition flt (x y : float) : bool := SFltb x y.
Definition fle (x y : float) : bool := SFleb x y.
Definition feq (x y : float) : bool := SFeqb x y.

(** [x in [a, b]]; false for a NaN. *)
Definition fbetween (a x b : float) : bool := fle a x && fle x b.

(** [n / d] rounded to the nearest integer, ties to even, for [0 <= n], [0 < d]. *)
Definition div_even (n d : Z) : Z :=
  let q := n / d in
  let r := n mod d in
  match 2 * r ?= d with
  | Lt => q
  | Gt => q + 1
  | Eq => if Z.even q then q else q + 1
  end.

(** [round(abs(x) * 10**k)] for a finite [x = m * 2^e], exactly. *)
Definition scaled_round (m : positive) (e k : Z) : Z :=
  if 0 <=? e then Z.pos m * 2 ^ e * 10 ^ k
  else div_even (Z.pos m * 10 ^ k) (2 ^ (- e)).

Definition py_round (x : float) (k : Z) : float :=
  match x with
  | S754_finite s m e =>
      let q := scaled_round m e k in
      if q =? 0 then S754_zero s else fratio (if s then - q else q) (10 ^ k)
  | _ => x
  end.

(** [round(x)], an int; OverflowError on an infinity, ValueError on a NaN. *)
Definition py_round_int (x : float) : exc Z :=
  match x with
  | S754_zero _ => Ok 0
  | S754_finite s m e => let q := scaled_round m e 0 in Ok (if s then - q else q)
  | S754_infinity _ => Raise OverflowError
  | S754_nan => Raise ValueError
  end.

(** [int(x)] of a float: toward zero; OverflowError on an infinity, ValueError
    on a NaN. *)
Definition int_of_float (x : float) : exc Z :=
  match x with
  | S754_zero _ => Ok 0
  | S754_finite s m e =>
      let n := if 0 <=? e then Z.pos m * 2 ^ e else Z.pos m / 2 ^ (- e) in
      Ok (if s then - n else n)
  | S754_infinity _ => Raise OverflowError
  | S754_nan => Raise ValueError
  end.

(** [bool(x)] *)
Definition ftruth (x : float) : bool := negb (is_fzero x).

(** [fl] and the scalings of the decoders are exact on the integers a sensor
    field can hold. *)
Example round_half_even : py_round (dec 125 3) 2 = dec 12 2.
Proof. vm_compute. reflexivity. Qed.
Example round_negative_zero : py_round (dec (-1) 3) 2 = S754_zero true.
Proof. vm_compute. reflexivity. Qed.

(** [math.radians] and [math.degrees] multiply by the constants the
    interpreter computes from [math.pi]. *)
Definition math_pi : float := dec 3141592653589793 15.
Definition radians (x : float) : float := fmul x (fdiv_raw math_pi (fl 180)).
Definition degrees (x : float) : float := fmul x (fdiv_raw (fl 180) math_pi).

(** [x % y] for [y <> 0]: C's fmod, moved to the sign of [y]. *)
Definition fmod (x y : float) : float :=
  match x, y with
  | S754_finite sx mx ex, S754_finite sy my ey =>
      let e := Z.min ex ey in
      let nx := Z.pos mx * 2 ^ (ex - e) in
      let ny := Z.pos my * 2 ^ (ey - e) in
      let r := nx mod ny in
      if r =? 0 then S754_zero sy
      else
        let f := binary_normalize prec emax (if sx then - r else r) e false in
        if Bool.eqb sx sy then f else fadd f y
  | S754_zero _, S754_finite sy _ _ => S754_zero sy
  | S754_finite sx _ _, S754_infinity sy => if Bool.eqb sx sy then x else y
  | S754_zero _, S754_infinity sy => S754_zero sy
  | _, _ => S754_nan
  end.

(** The C library's functions are not part of the source: an interpreter is
    given by its [Libm]. A function raises ValueError outside its domain. *)
Class Libm := {
  m_sin : float -> exc float;
  m_cos : float -> exc float;
  m_asin : float -> exc float;
  m_atan2 : float -> float -> exc float;
  m_hypot : float -> float -> exc float;
  m_pow : float -> float -> exc float;
}.

(** [x ** y] on floats is the C library's [pow]; [math.sqrt] is the correctly
    rounded one of IEEE-754. *)
Definition math_sqrt (x : float) : exc float :=
  if flt x (S754_zero false) then Raise ValueError else Ok (SFsqrt prec emax x).

(** An int converted to float: OverflowError when it rounds to an infinity. *)
Definition float_of_int (n : Z) : exc float :=
  if Z.abs n <? 2 ^ 1024 - 2 ^ 970 then Ok (fl n) else Raise OverflowError.

(** [min(a, b)] and [max(a, b)] *)
Definition fmin (a b : float) : float := if flt b a then b else a.
Definition fmax (a b : float) : float := if flt a b then b else a.

(** The documented behaviour the decoders rely on: [atan2] and [hypot] give a
    result for all arguments, the others raise nothing but ValueError. *)
Class LibmOk `{Libm} : Prop := {
  m_sin_err x e : m_sin x = Raise e -> e = ValueError;
  m_cos_err x e : m_cos x = Raise e -> e = ValueError;
  m_asin_err x e : m_asin x = Raise e -> e = ValueError;
  m_atan2_total x y : exists r, m_atan2 x y = Ok r;
  m_hypot_total x y : exists r, m_hypot x y = Ok r;
}.

(** A concrete instance, for evaluating the decoders: the small-angle
    approximations, with [asin] and [sin] defined where C defines them. *)
Definition small_angle_libm : Libm := {|
  m_sin x := if is_finite x then Ok x else Raise ValueError;
  m_cos x := if is_finite x then Ok (fl 1) else Raise ValueError;
  m_asin x := if fbetween (fl (-1)) x (fl 1) then Ok x else Raise ValueError;
  m_atan2 y x := Ok y;
  m_hypot x y := Ok (fadd x y);
  m_pow x y := Ok (fmul x x);
|}.

Lemma small_angle_libm_ok : @LibmOk small_angle_libm.
Proof.
  split; intros; cbn [m_sin m_cos m_asin m_atan2 m_hypot m_pow small_angle_libm] in *;
    repeat case_match; first [congruence|eauto].
Qed.

Example fmod_ex : fmod (dec (-905) 1) (fl 360) = dec 2695 1.
Proof. vm_compute. reflexivity. Qed.

Lemma is_finite_round x k : is_finite (py_round x k) = true -> is_finite x = true.
Proof. by destruct x. Qed.
