(* ===== verification/Exact.v ===== *)
(** * Exact float arithmetic of sensor fields

    A field's integer times or over a power of two is computed without
    rounding: [fl] is exact below 2^53, and so is a product whose odd part is
    below 2^53.  [canon s m j] is the float of value [m * 2^j]. *)

From Stdlib Require Import SpecFloat.
From S2P Require Import Prelude PyFloat.

Definition digits2 (m : positive) : Z := Z.pos (digits2_pos m).

Definition canon (s : bool) (m : positive) (j : Z) : float :=
  S754_finite s (Z.to_pos (Z.pos m * 2 ^ (53 - digits2 m))) (j + digits2 m - 53).

Lemma digits2_bounds m : 2 ^ (digits2 m - 1) <= Z.pos m < 2 ^ digits2 m.
Proof.
  unfold digits2. induction m as [m IH|m IH|]; cbn [digits2_pos]; [| |by cbn];
    rewrite Pos2Z.inj_succ;
    replace (Z.succ (Z.pos (digits2_pos m)) - 1) with (Z.succ (Z.pos (digits2_pos m) - 1)) by lia;
    rewrite !Z.pow_succ_r by lia; lia.
Qed.

Lemma digits2_unique m d : 0 < d -> 2 ^ (d - 1) <= Z.pos m < 2 ^ d -> digits2 m = d.
Proof.
  intros Hd Hm. pose proof (digits2_bounds m).
  assert (digits2 m - 1 < d) by (apply (Z.pow_lt_mono_r_iff 2); [lia|lia|]; unfold digits2 in *; lia).
  assert (d - 1 < digits2 m) by (apply (Z.pow_lt_mono_r_iff 2); [lia|unfold digits2; lia|]; lia).
  lia.
Qed.

Lemma digits2_le m d : 0 <= d -> Z.pos m < 2 ^ d -> digits2 m <= d.
Proof.
  intros Hd Hm. pose proof (digits2_bounds m).
  assert (digits2 m - 1 < d); [|lia]. apply (Z.pow_lt_mono_r_iff 2); [lia|lia|]. lia.
Qed.

Lemma digits2_shift m M j : 0 <= j -> Z.pos M = Z.pos m * 2 ^ j -> digits2 M = digits2 m + j.
Proof.
  intros Hj HM. pose proof (digits2_bounds m) as Hm. assert (0 < digits2 m) by (unfold digits2; lia).
  apply digits2_unique; [lia|]. rewrite HM.
  replace (digits2 m + j - 1) with (digits2 m - 1 + j) by lia. rewrite !Z.pow_add_r by lia.
  assert (0 < 2 ^ j) by lia. nia.
Qed.

(** Shifting out zeros. *)
Lemma iter_pos_nat {A} (f : A -> A) p x : SpecFloat.iter_pos f p x = Nat.iter (Pos.to_nat p) f x.
Proof.
  revert x. induction p as [p IH|p IH|]; intros x; cbn [SpecFloat.iter_pos]; [| |done]; rewrite !IH.
  - rewrite Pos2Nat.inj_xI. replace (S (2 * Pos.to_nat p)) with (Pos.to_nat p + (Pos.to_nat p + 1))%nat by lia.
    by rewrite !Nat.iter_add.
  - rewrite Pos2Nat.inj_xO. replace (2 * Pos.to_nat p)%nat with (Pos.to_nat p + Pos.to_nat p)%nat by lia.
    by rewrite Nat.iter_add.
Qed.

Lemma shr_1_even z : 0 < z -> shr_1 (Build_shr_record (2 * z) false false) = Build_shr_record z false false.
Proof. by destruct z. Qed.

Lemma shr_exact z e n : 0 < z -> 0 <= n ->
  shr (Build_shr_record (z * 2 ^ n) false false) e n = (Build_shr_record z false false, e + n).
Proof.
  intros Hz Hn. destruct n as [|p|p]; cbn [shr]; [do 2 f_equal; lia| |lia].
  f_equal. rewrite iter_pos_nat, <- (positive_nat_Z p). induction (Pos.to_nat p) as [|k IH].
  - change (Z.of_nat 0) with 0. by rewrite Z.pow_0_r, Z.mul_1_r.
  - rewrite Nat.iter_succ_r, Nat2Z.inj_succ, Z.pow_succ_r by lia.
    replace (z * (2 * 2 ^ Z.of_nat k)) with (2 * (z * 2 ^ Z.of_nat k)) by lia.
    by rewrite shr_1_even by (assert (0 < 2 ^ Z.of_nat k) by lia; nia).
Qed.

(** Rounding a mantissa with at most 53 significant bits changes nothing. *)
Lemma round_exact s m M j E :
  0 <= j -> Z.pos M = Z.pos m * 2 ^ j -> digits2 m <= 53 <= digits2 m + j ->
  -1074 <= E + digits2 m + j - 53 <= 971 ->
  binary_round_aux prec emax s (Z.pos M) E loc_Exact = canon s m (E + j).
Proof.
  intros Hj HM Hd HE. pose proof (digits2_shift _ _ _ Hj HM) as HdM.
  set (n := digits2 m + j - 53) in *. set (z := Z.pos m * 2 ^ (53 - digits2 m)).
  assert (0 < z) as Hz by (subst z; assert (0 < 2 ^ (53 - digits2 m)) by lia; nia).
  assert (Z.pos M = z * 2 ^ n) as HMz.
  { subst z n. rewrite HM, <- Z.mul_assoc, <- Z.pow_add_r by lia. do 2 f_equal. lia. }
  assert (forall e, -1074 <= e -> fexp prec emax (53 + e) = e) as Hf.
  { intros e He. unfold fexp, prec, emin, emax. lia. }
  unfold binary_round_aux, shr_fexp. cbn [Zdigits2 shr_record_of_loc].
  fold (digits2 M). rewrite HdM. replace (digits2 m + j + E) with (53 + (E + n)) by lia.
  rewrite Hf by lia. replace (E + n - E) with n by lia. rewrite HMz, shr_exact by lia.
  cbn [shr_m loc_of_shr_record round_nearest_even].
  assert (z = Z.pos m * 2 ^ (53 - digits2 m)) as Hzm by done. clearbody z.
  destruct z as [|z|z]; [lia| |lia]. cbn [Zdigits2]. fold (digits2 z).
  rewrite (digits2_shift m z (53 - digits2 m)) by lia.
  replace (digits2 m + (53 - digits2 m) + (E + n)) with (53 + (E + n)) by lia.
  rewrite Hf, Z.sub_diag by lia. cbn [shr shr_m]. unfold canon. rewrite <- Hzm.
  replace (E + n <=? emax - prec) with true by (unfold emax, prec; lia).
  f_equal. lia.
Qed.

(** The float of an integer below 2^53. *)
Lemma fl_exact m : Z.pos m < 2 ^ 53 ->
  fl (Z.pos m) = canon false m 0 /\ fl (Z.neg m) = canon true m 0.
Proof.
  intros Hm. assert (0 < digits2 m) by (unfold digits2; lia).
  pose proof (digits2_le m 53 ltac:(lia) Hm) as Hd.
  assert (forall s, binary_round prec emax s m 0 = canon s m 0) as Hr; [|split; apply Hr].
  intros s. unfold binary_round, shl_align. fold (digits2 m).
  replace (fexp prec emax (digits2 m + 0) - 0) with (- (53 - digits2 m))
    by (unfold fexp, prec, emin, emax; lia).
  replace (fexp prec emax (digits2 m + 0)) with (digits2 m - 53)
    by (unfold fexp, prec, emin, emax; lia).
  destruct (53 - digits2 m) as [|p|p] eqn:Ep; [| |lia].
  - change (- 0) with 0. cbv beta iota. rewrite (round_exact s m m 0 0); [done|lia|by rewrite Z.mul_1_r|lia|lia].
  - change (- Z.pos p) with (Z.neg p). cbv beta iota. rewrite (round_exact s m _ (Z.pos p)); [f_equal; lia|lia| |lia|lia].
    clear. induction p using Pos.peano_ind; [cbn; lia|].
    rewrite Pos.iter_succ, Pos2Z.inj_succ, Z.pow_succ_r by lia. lia.
Qed.

Lemma digits2_mul m c : digits2 m + digits2 c - 1 <= digits2 (m * c) <= digits2 m + digits2 c.
Proof.
  pose proof (digits2_bounds m). pose proof (digits2_bounds c). pose proof (digits2_bounds (m * c)).
  rewrite Pos2Z.inj_mul in *.
  assert (0 < digits2 m /\ 0 < digits2 c /\ 0 < digits2 (m * c)) by (unfold digits2; lia).
  split.
  - assert (digits2 m - 1 + (digits2 c - 1) < digits2 (m * c)); [|lia].
    apply (Z.pow_lt_mono_r_iff 2); [lia|lia|]. rewrite Z.pow_add_r by lia. nia.
  - apply digits2_le; [lia|]. rewrite Pos2Z.inj_mul, Z.pow_add_r by lia. nia.
Qed.

(** A product with at most 53 significant bits is exact. *)
Lemma fmul_exact s m i c j :
  digits2 m <= 53 -> digits2 c <= 53 -> digits2 (m * c) <= 53 -> -1000 <= i + j <= 900 ->
  fmul (canon s m i) (canon false c j) = canon s (m * c) (i + j).
Proof.
  intros Hm Hc Hmc Hij. unfold fmul, canon at 1 2, SFmul. rewrite xorb_false_r.
  pose proof (digits2_mul m c). set (a := 53 - digits2 m). set (b := 53 - digits2 c).
  assert (0 < 2 ^ a /\ 0 < 2 ^ b) as [Ha Hb] by lia.
  assert (0 < digits2 (m * c)) by (unfold digits2; lia).
  rewrite (round_exact s (m * c) _ (a + b)); [f_equal; lia|lia| |lia|lia].
  rewrite !Pos2Z.inj_mul, !Z2Pos.id, Z.pow_add_r by lia. lia.
Qed.

Lemma div_even_scale n d c : 0 < d -> 0 < c -> div_even (n * c) (d * c) = div_even n d.
Proof.
  intros Hd Hc. unfold div_even. rewrite Z.div_mul_cancel_r, Zmult_mod_distr_r by lia.
  replace (2 * (n mod d * c)) with (2 * (n mod d) * c) by lia. by rewrite <- Zmult_compare_compat_r by lia.
Qed.

(** [round(x)] of a binary fraction. *)
Lemma round_int_exact s m k : digits2 m <= 53 -> 0 < k ->
  py_round_int (canon s m (- k)) = let q := div_even (Z.pos m) (2 ^ k) in Ok (if s then - q else q).
Proof.
  intros Hm Hk. unfold py_round_int, canon, scaled_round.
  assert (0 < 2 ^ (53 - digits2 m)) by lia.
  destruct (Z.leb_spec 0 (- k + digits2 m - 53)); [lia|]. cbv zeta.
  rewrite Z2Pos.id by lia. change (10 ^ 0) with 1. rewrite Z.mul_1_r.
  replace (- (- k + digits2 m - 53)) with (k + (53 - digits2 m)) by lia.
  by rewrite Z.pow_add_r, div_even_scale by lia.
Qed.

Lemma div_even_range n d : 0 <= n -> 0 < d -> 0 <= div_even n d /\ 2 * d * div_even n d <= 2 * n + d.
Proof.
  intros Hn Hd. unfold div_even. pose proof (Z.div_mod n d ltac:(lia)). pose proof (Z.mod_pos_bound n d Hd).
  assert (0 <= n / d) by (apply Z.div_pos; lia).
  destruct (Z.compare_spec (2 * (n mod d)) d); [destruct (Z.even _)| |]; split; nia.
Qed.

(** Two positive numbers compare as their values do. *)
Lemma canon_bounds m : 2 ^ 52 <= Z.pos (Z.to_pos (Z.pos m * 2 ^ (53 - digits2 m))) < 2 ^ 53 \/ 53 < digits2 m.
Proof.
  destruct (Z.le_gt_cases (digits2 m) 53) as [H|H]; [left|by right].
  pose proof (digits2_bounds m). assert (0 < digits2 m) by (unfold digits2; lia).
  assert (0 < 2 ^ (53 - digits2 m)) by lia. rewrite Z2Pos.id by nia.
  assert (2 ^ 53 = 2 ^ digits2 m * 2 ^ (53 - digits2 m)) as -> by (rewrite <- Z.pow_add_r by lia; f_equal; lia).
  assert (2 ^ 52 = 2 ^ (digits2 m - 1) * 2 ^ (53 - digits2 m)) as -> by (rewrite <- Z.pow_add_r by lia; f_equal; lia).
  nia.
Qed.

Lemma flt_canon a i b j k : digits2 a <= 53 -> digits2 b <= 53 -> k <= i -> k <= j ->
  flt (canon false a i) (canon false b j) = (Z.pos a * 2 ^ (i - k) <? Z.pos b * 2 ^ (j - k)).
Proof.
  intros Ha Hb Hi Hj. unfold flt, SFltb, canon, SFcompare.
  destruct (canon_bounds a) as [Ba|]; [|lia]. destruct (canon_bounds b) as [Bb|]; [|lia].
  assert (0 < digits2 a /\ 0 < digits2 b) as [Da Db] by (unfold digits2; lia).
  set (ma := Z.to_pos (Z.pos a * _)) in *. set (mb := Z.to_pos (Z.pos b * _)) in *.
  assert (Z.pos ma = Z.pos a * 2 ^ (53 - digits2 a)) as Ea by (subst ma; rewrite Z2Pos.id; nia).
  assert (Z.pos mb = Z.pos b * 2 ^ (53 - digits2 b)) as Eb by (subst mb; rewrite Z2Pos.id; nia).
  set (ea := i + digits2 a - 53). set (eb := j + digits2 b - 53).
  assert (Z.pos a * 2 ^ (i - k) * 2 ^ 53 = Z.pos ma * 2 ^ (ea - k + 53)) as Sa.
  { rewrite Ea, <- !Z.mul_assoc, <- !Z.pow_add_r by (subst ea; lia). do 2 f_equal. subst ea. lia. }
  assert (Z.pos b * 2 ^ (j - k) * 2 ^ 53 = Z.pos mb * 2 ^ (eb - k + 53)) as Sb.
  { rewrite Eb, <- !Z.mul_assoc, <- !Z.pow_add_r by (subst eb; lia). do 2 f_equal. subst eb. lia. }
  assert (0 <= ea - k + 53 /\ 0 <= eb - k + 53) as [Na Nb] by (subst ea eb; lia).
  assert (forall m1 m2 e1 e2, 0 <= e1 -> e1 < e2 -> 2 ^ 52 <= m1 < 2 ^ 53 -> 2 ^ 52 <= m2 < 2 ^ 53 -> m1 * 2 ^ e1 < m2 * 2 ^ e2) as Hlt.
  { intros m1 m2 e1 e2 He Hlt B1 B2. replace e2 with (e1 + (1 + (e2 - e1 - 1))) by lia. rewrite !Z.pow_add_r by lia.
    assert (1 <= 2 ^ (e2 - e1 - 1)) as Hd by lia. assert (0 < 2 ^ e1) as He1 by lia. change (2 ^ 1) with 2.
    clear -B1 B2 Hd He1. set (p := 2 ^ e1) in *. set (q := 2 ^ (e2 - e1 - 1)) in *.
    replace (m2 * (p * (2 * q))) with ((m2 * 2 * q) * p) by ring. apply Z.mul_lt_mono_pos_r; [done|].
    assert (m2 * 2 * 1 <= m2 * 2 * q) by (apply Z.mul_le_mono_nonneg_l; lia). lia. }
  destruct (Z.compare_spec ea eb) as [E|E|E].
  - assert (Z.pos a * 2 ^ (i - k) * 2 ^ 53 = Z.pos ma * 2 ^ (eb - k + 53)) as Sa' by (rewrite Sa, E; done).
    assert (0 < 2 ^ (eb - k + 53)) by lia. fold (Pos.compare ma mb). destruct (Pos.compare_spec ma mb); nia.
  - pose proof (Hlt _ _ (ea - k + 53) (eb - k + 53) ltac:(lia) ltac:(lia) Ba Bb). lia.
  - pose proof (Hlt _ _ (eb - k + 53) (ea - k + 53) ltac:(lia) ltac:(lia) Bb Ba). lia.
Qed.

(** ** Rounding adds little *)
Lemma shr_floor n : forall r e, 0 <= shr_m r -> 0 <= n ->
  shr_m (fst (shr r e n)) = shr_m r / 2 ^ n /\ snd (shr r e n) = e + n.
Proof.
  intros r e Hr Hn. destruct n as [|p|p]; [|cbn [shr fst snd]|lia].
  { cbn [shr fst snd]. rewrite Z.pow_0_r, Z.div_1_r. lia. }
  split; [|done]. rewrite iter_pos_nat, <- (positive_nat_Z p).
  assert (forall k r, 0 <= shr_m r -> 0 <= shr_m (Nat.iter k shr_1 r) /\ shr_m (Nat.iter k shr_1 r) = shr_m r / 2 ^ Z.of_nat k) as Hk.
  2: { exact (proj2 (Hk (Pos.to_nat p) r Hr)). }
  clear. induction k as [|k IH]; intros r Hr.
  - change (Z.of_nat 0) with 0. rewrite Z.pow_0_r, Z.div_1_r. by split.
  - rewrite Nat.iter_succ. destruct (IH r Hr) as [H0 H1]. assert (0 < 2 ^ Z.of_nat k) by (apply Z.pow_pos_nonneg; lia).
    rewrite Nat2Z.inj_succ, Z.pow_succ_r, (Z.mul_comm 2) by lia. rewrite <- Z.div_div, <- H1 by lia.
    destruct (Nat.iter k shr_1 r) as [z b c]. cbn [shr_m] in *. clear -H0. split.
    + destruct z as [|[q|q|]|]; cbn [shr_1 shr_m]; lia.
    + rewrite <- Z.div2_div. destruct z as [|[q|q|]|]; cbn [shr_1 shr_m]; done || lia.
Qed.

Lemma round_nearest_le m l : m <= round_nearest_even m l <= m + 1.
Proof. destruct l as [|[]]; cbn [round_nearest_even]; try lia. destruct (Z.even m); lia. Qed.

(** The exponent of the rounded value is no smaller, and the value exceeds the exact one by less than one part in 2^52. *)
Lemma round_upper m e : -1074 <= e ->
  match binary_round_aux prec emax false (Z.pos m) e loc_Exact with
  | S754_finite s M E => s = false /\ e <= E /\ Z.pos M * 2 ^ (E - e) * 2 ^ 52 <= Z.pos m * (2 ^ 52 + 1)
  | S754_zero s | S754_infinity s => s = false
  | S754_nan => False
  end.
Proof.
  intros He. unfold binary_round_aux. unfold shr_fexp at 1. cbn [Zdigits2 shr_record_of_loc]. fold (digits2 m).
  pose proof (digits2_bounds m) as Hm. assert (0 < digits2 m) as Hd by (unfold digits2; lia).
  set (n1 := fexp prec emax (digits2 m + e) - e).
  assert (n1 <= 0 \/ (0 < n1 /\ n1 = digits2 m - 53)) as Hn1 by (subst n1; unfold fexp, emin, prec, emax; lia).
  assert (exists R e1, (let '(mrs', e') := shr {| shr_m := Z.pos m; shr_r := false; shr_s := false |} e n1 in
      (round_nearest_even (shr_m mrs') (loc_of_shr_record mrs'), e')) = (R, e1) /\ 0 <= R /\ e <= e1 /\ R * 2 ^ (e1 - e) * 2 ^ 52 <= Z.pos m * (2 ^ 52 + 1)) as (R & e1 & Hr & HR & He1 & Hb).
  { destruct Hn1 as [Hn|[Hn Hn']].
    - exists (Z.pos m), e. split; [|rewrite Z.sub_diag, Z.pow_0_r; lia]. destruct n1; [done|lia|done].
    - pose proof (shr_floor n1 {| shr_m := Z.pos m; shr_r := false; shr_s := false |} e ltac:(cbn; lia) ltac:(lia)) as [H1 H2].
      destruct (shr _ e n1) as [mrs e']. cbn [fst snd shr_m] in *. eexists _, _. split; [done|]. subst e'.
      pose proof (round_nearest_le (shr_m mrs) (loc_of_shr_record mrs)) as Hrn. rewrite H1 in Hrn |- *.
      assert (0 < 2 ^ n1) as Hp by lia. pose proof (Z.mul_div_le (Z.pos m) (2 ^ n1) Hp).
      assert (0 <= Z.pos m / 2 ^ n1) by (apply Z.div_pos; lia). split; [lia|]. split; [lia|].
      replace (e + n1 - e) with n1 by lia. assert (2 ^ n1 * 2 ^ 52 <= Z.pos m).
      { rewrite <- Z.pow_add_r by lia. replace (n1 + 52) with (digits2 m - 1) by lia. lia. }
      nia. }
  destruct (shr _ e n1) as [mrs e']. injection Hr as HR' ->. rewrite HR'.
  unfold shr_fexp. cbn [shr_record_of_loc]. set (n2 := fexp prec emax (Zdigits2 R + e1) - e1).
  assert (exists M E, (let '(mrs'', e'') := shr {| shr_m := R; shr_r := false; shr_s := false |} e1 n2 in (shr_m mrs'', e'')) = (M, E) /\ 0 <= M /\ e <= E /\
      M * 2 ^ (E - e) * 2 ^ 52 <= Z.pos m * (2 ^ 52 + 1)) as (M & E & Hs & HM & HE & Hb').
  { destruct (Z.le_gt_cases n2 0) as [Hn|Hn].
    - exists R, e1. split; [destruct n2; [done|lia|done]|done].
    - pose proof (shr_floor n2 {| shr_m := R; shr_r := false; shr_s := false |} e1 ltac:(cbn; lia) ltac:(lia)) as [H1 H2].
      destruct (shr _ e1 n2) as [mrs' e'']. cbn [fst snd shr_m] in *. eexists _, _. split; [done|]. rewrite H1, H2.
      assert (0 < 2 ^ n2) as Hp by lia. pose proof (Z.mul_div_le R (2 ^ n2) Hp). split; [apply Z.div_pos; lia|]. split; [lia|].
      replace (e1 + n2 - e) with (n2 + (e1 - e)) by lia. rewrite Z.pow_add_r by lia.
      assert (0 < 2 ^ (e1 - e)) by lia. nia. }
  destruct (shr _ e1 n2) as [mrs' e'']. injection Hs as HM' ->. rewrite HM'.
  destruct M as [|M|M]; [done| |lia]. destruct (E <=? _); [|done]. done.
Qed.

(** Of a positive integer, in units of 2^-1074. *)
Lemma fl_upper m :
  match fl (Z.pos m) with
  | S754_finite s M E => s = false /\ -60 <= E /\ Z.pos M * 2 ^ (E + 1074) * 2 ^ 52 <= Z.pos m * 2 ^ 1074 * (2 ^ 52 + 1)
  | S754_zero s | S754_infinity s => s = false
  | S754_nan => False
  end.
Proof.
  unfold fl, binary_normalize, binary_round.
  assert (exists mz ez, shl_align m 0 (fexp prec emax (Z.pos (digits2_pos m) + 0)) = (mz, ez) /\ -60 <= ez <= 0 /\ Z.pos mz = Z.pos m * 2 ^ (- ez)) as (mz & ez & -> & Hez & Hmz).
  { unfold shl_align. set (d := fexp _ _ _). assert (-60 <= d) as Hd by (subst d; unfold fexp, emin, prec, emax; lia). rewrite Z.sub_0_r.
    destruct d as [|p|p]; [exists m, 0; split_and!; [done|lia|lia|cbn; lia]..|]. exists (Pos.iter xO m p), (Z.neg p). split_and!; [done|lia|lia|].
    change (- Z.neg p) with (Z.pos p). clear. induction p using Pos.peano_ind; [cbn; lia|]. rewrite Pos.iter_succ, Pos2Z.inj_succ, Z.pow_succ_r by lia. lia. }
  pose proof (round_upper mz ez ltac:(lia)) as Hr. destruct (binary_round_aux _ _ _ _ _ _) as [s|s| |s M E]; [done|done|done|].
  destruct Hr as (-> & HE & Hb). split; [done|]. split; [lia|].
  replace (E + 1074) with (E - ez + (ez + 1074)) by lia. rewrite Z.pow_add_r by lia.
  assert (0 < 2 ^ (ez + 1074)) as Hp by (apply Z.pow_pos_nonneg; lia).
  assert (Z.pos m * 2 ^ 1074 = Z.pos mz * 2 ^ (ez + 1074)) as -> by (rewrite Hmz, <- Z.mul_assoc, <- Z.pow_add_r by lia; do 2 f_equal; lia).
  nia.
Qed.

(** [int(b * 0.95)] is less than [b]. *)
Lemma nineteen_twentieths b n : 0 < b -> int_of_float (fmul (fl b) (dec 95 2)) = Ok n -> n < b.
Proof.
  intros Hb Hn. destruct b as [|m|m]; [lia| |lia]. pose proof (fl_upper m) as Hf.
  assert (dec 95 2 = S754_finite false 8556839292003942 (-53)) as Hc by (vm_compute; reflexivity). rewrite Hc in Hn.
  destruct (fl (Z.pos m)) as [s|s| |s M E]; [|done|done|].
  { subst s. cbn in Hn. injection Hn as <-. lia. }
  destruct Hf as (-> & HE & Hm). unfold fmul, SFmul in Hn. cbn [xorb] in Hn.
  pose proof (round_upper (M * 8556839292003942) (E + -53) ltac:(lia)) as Hr.
  destruct (binary_round_aux _ _ _ _ _ _) as [s|s| |s M2 E2]; [|done|done|].
  { subst s. cbn in Hn. injection Hn as <-. lia. }
  destruct Hr as (-> & HE2 & Hm2). cbn [int_of_float] in Hn. injection Hn as Hn.
  assert (n * 2 ^ 1127 <= Z.pos M2 * 2 ^ (E2 + 1127)) as Hfl.
  { subst n. destruct (Z.leb_spec 0 E2).
    - rewrite Z.pow_add_r by lia. lia.
    - pose proof (Z.mul_div_le (Z.pos M2) (2 ^ (- E2)) ltac:(apply Z.pow_pos_nonneg; lia)) as Hd.
      replace 1127 with (- E2 + (E2 + 1127)) at 1 by lia. rewrite Z.pow_add_r by lia.
      assert (0 < 2 ^ (E2 + 1127)) by (apply Z.pow_pos_nonneg; lia). nia. }
  assert (Z.pos M2 * 2 ^ (E2 + 1127) * 2 ^ 52 <= Z.pos M * 2 ^ (E + 1074) * 8556839292003942 * (2 ^ 52 + 1)) as H2.
  { replace (E2 + 1127) with (E2 - (E + -53) + (E + 1074)) by lia. rewrite Z.pow_add_r by lia.
    assert (0 < 2 ^ (E + 1074)) by (apply Z.pow_pos_nonneg; lia). rewrite Pos2Z.inj_mul in Hm2. nia. }
  assert (2 ^ 1127 = 2 ^ 1074 * 2 ^ 53) as E1 by (rewrite <- Z.pow_add_r by lia; done).
  assert (0 < 2 ^ 1074) as HK by (apply Z.pow_pos_nonneg; lia).
  rewrite E1 in Hfl. set (K := 2 ^ 1074) in *. clearbody K. clear E1 Hm2 HE HE2 Hn Hc.
  set (a := Z.pos M2 * 2 ^ (E2 + 1127)) in *. set (v := Z.pos M * 2 ^ (E + 1074)) in *. clearbody a v.
  apply Z.nle_gt. intros Hle. assert (Z.pos m * K <= n * K) by (apply Z.mul_le_mono_nonneg_r; lia). lia.
Qed.

(** ** The order of floats *)

(** Where a float stands among the others: its sign class, then its exponent,
    then its mantissa. *)
Definition frank (x : float) : Z * Z * Z :=
  match x with
  | S754_infinity true => (-2, 0, 0)
  | S754_finite true m e => (-1, - e, Z.neg m)
  | S754_zero _ | S754_nan => (0, 0, 0)
  | S754_finite false m e => (1, e, Z.pos m)
  | S754_infinity false => (2, 0, 0)
  end.

Definition rank_lt (a b : Z * Z * Z) : Prop :=
  fst (fst a) < fst (fst b) \/ fst (fst a) = fst (fst b) /\
  (snd (fst a) < snd (fst b) \/ snd (fst a) = snd (fst b) /\ snd a < snd b).

Lemma frank_compare x y : x <> S754_nan -> y <> S754_nan ->
  match SFcompare x y with
  | Some Lt => rank_lt (frank x) (frank y)
  | Some Eq => frank x = frank y
  | Some Gt => rank_lt (frank y) (frank x)
  | None => False
  end.
Proof.
  destruct x as [[]|[]| |[] mx ex], y as [[]|[]| |[] my ey]; try done; intros _ _;
    cbn [SFcompare]; unfold rank_lt; cbn [frank fst snd]; try (done || lia).
  all: pose proof (Z.compare_spec ex ey) as He; destruct (ex ?= ey)%Z; inversion He; subst; cbn [CompOpp]; try lia.
  all: change (Pos.compare_cont Eq mx my) with (mx ?= my)%positive; pose proof (Pos.compare_spec mx my) as Hm; destruct (mx ?= my)%positive; inversion Hm; subst; cbn [CompOpp]; first [done|lia].
Qed.

Lemma flt_rank x y : x <> S754_nan -> y <> S754_nan -> flt x y = true <-> rank_lt (frank x) (frank y).
Proof.
  intros Hx Hy. pose proof (frank_compare x y Hx Hy) as H. unfold flt, SFltb. unfold rank_lt in *.
  destruct (SFcompare x y) as [[]|]; try done; (split; [done|]); [rewrite H; lia|lia].
Qed.

Lemma feq_rank x y : x <> S754_nan -> y <> S754_nan -> feq x y = true <-> frank x = frank y.
Proof.
  intros Hx Hy. pose proof (frank_compare x y Hx Hy) as H. unfold feq, SFeqb. unfold rank_lt in *.
  destruct (SFcompare x y) as [[]|]; try done; (split; [done|]); intros E; rewrite E in H; lia.
Qed.

Lemma fle_rank x y : x <> S754_nan -> y <> S754_nan ->
  fle x y = true <-> rank_lt (frank x) (frank y) \/ frank x = frank y.
Proof.
  intros Hx Hy. pose proof (frank_compare x y Hx Hy) as H. unfold fle, SFleb. unfold rank_lt in *.
  destruct (SFcompare x y) as [[]|]; [split; [by right|done]|split; [by left|done]| |done].
  split; [done|]. intros [Hl|E]; [lia|]. rewrite E in H. lia.
Qed.

Lemma fle_trans x y z : x <> S754_nan -> y <> S754_nan -> z <> S754_nan ->
  fle x y = true -> fle y z = true -> fle x z = true.
Proof.
  intros Hx Hy Hz. rewrite !fle_rank by done. unfold rank_lt.
  intros [H1|H1] [H2|H2]; [left; lia|left; rewrite <- H2; lia|left; rewrite H1; lia|right; congruence].
Qed.

Lemma fle_of_not_flt x y : x <> S754_nan -> y <> S754_nan -> flt x y = false -> fle y x = true.
Proof.
  intros Hx Hy. unfold flt, SFltb. pose proof (frank_compare x y Hx Hy) as H. rewrite fle_rank by done.
  destruct (SFcompare x y) as [[]|]; try done; intros _; [right; by symmetry|by left].
Qed.

Lemma fle_of_flt x y : flt x y = true -> fle x y = true.
Proof. unfold flt, fle, SFltb, SFleb. by destruct (SFcompare x y) as [[]|]. Qed.
