(* ===== verification/Schema.v ===== *)
(** * Record schemas

    A decoder builds a dictionary key by key.  A [schema] says which keys may
    occur and what their values may be; [wt] is the invariant that a
    dictionary conforms to it, with distinct keys.  Both are executable, so a
    concrete record is checked by computation. *)

From S2P Require Import Prelude PyFloat PyData.

Inductive ty :=
| TNone
| TBool
| TTrue                          (* the flag is only ever set to True *)
| TInt (lo hi : Z)               (* lo <= n <= hi *)
| TFloat
| TStr
| TOneOf (names : list string)
| TList (t : ty)
| TDict (fields : list (string * ty))
| TMap (t : ty)                  (* a dictionary with any keys *)
| TEither (t1 t2 : ty).

Abbreviation schema := (list (string * ty)).

Fixpoint field_ty (s : schema) (k : string) : option ty :=
  match s with
  | [] => None
  | (k', t) :: s' => if String.eqb k' k then Some t else field_ty s' k
  end.

Definition selem (s : string) (l : list string) : bool := existsb (String.eqb s) l.

Fixpoint has_ty (t : ty) (v : value) {struct v} : bool :=
  let fix at_scalar (t : ty) : bool :=
    match t, v with
    | TNone, VNone => true
    | TBool, VBool _ => true
    | TTrue, VBool b => b
    | TInt lo hi, VInt n => (lo <=? n) && (n <=? hi)
    | TFloat, VFloat _ => true
    | TStr, VStr _ => true
    | TOneOf names, VStr s => selem s names
    | TList t', VList l => forallb (has_ty t') l
    | TDict fs, VDict d =>
        forallb (fun kv => match field_ty fs (fst kv) with
                           | Some t' => has_ty t' (snd kv)
                           | None => false
                           end) d
    | TMap t', VDict d => forallb (fun kv => has_ty t' (snd kv)) d
    | TEither t1 t2, _ => at_scalar t1 || at_scalar t2
    | _, _ => false
    end in
  at_scalar t.

(** One key and its value conform to the schema. *)
Definition field_ok (s : schema) (k : string) (v : value) : bool :=
  match field_ty s k with
  | Some t => has_ty t v
  | None => false
  end.

Definition fields_ok (s : schema) (d : dict) : bool :=
  forallb (fun kv => field_ok s (fst kv) (snd kv)) d.

Definition wt (s : schema) (d : dict) : Prop :=
  NoDup (keys d) /\ fields_ok s d = true.

Lemma wt_nil s : wt s [].
Proof. split; [apply NoDup_nil_2|done]. Qed.

Lemma fields_ok_dset s k v d :
  fields_ok s d = true -> field_ok s k v = true -> fields_ok s (dset k v d) = true.
Proof.
  unfold fields_ok. intros Hd Hv. induction d as [|[k' v'] d IHd]; cbn in *.
  - by rewrite Hv.
  - apply andb_true_iff in Hd as [Hk Hd].
    destruct (String.eqb k' k); cbn; rewrite ?Hv, ?Hk; auto.
Qed.

Lemma has_ty_map_dset t k v d :
  has_ty (TMap t) (VDict d) = true -> has_ty t v = true -> has_ty (TMap t) (VDict (dset k v d)) = true.
Proof.
  cbn. intros Hd Hv. induction d as [|[k' v'] d IHd]; cbn in *; [by rewrite Hv|].
  apply andb_true_iff in Hd as [Hk Hd].
  destruct (String.eqb k' k); cbn; rewrite ?Hv, ?Hk; auto.
Qed.

Lemma wt_dset s k v d : wt s d -> field_ok s k v = true -> wt s (dset k v d).
Proof. intros [Hn Hf] Hv. split; [by apply keys_dset_NoDup|by apply fields_ok_dset]. Qed.

Lemma wt_dsetdefault s k v d :
  wt s d -> field_ok s k v = true -> wt s (dsetdefault k v d).
Proof. intros Hd Hv. unfold dsetdefault. destruct (dmem k d); [done|by apply wt_dset]. Qed.

Lemma wt_dupdate s d e : wt s d -> fields_ok s e = true -> wt s (dupdate d e).
Proof.
  unfold dupdate. revert d. induction e as [|[k v] e IHe]; intros d Hd He; cbn in *; [done|].
  apply andb_true_iff in He as [Hv He]. apply IHe; [by apply wt_dset|done].
Qed.

Lemma fields_ok_get s d k v : fields_ok s d = true -> dget d k = Some v -> field_ok s k v = true.
Proof.
  unfold fields_ok. induction d as [|[k' v'] d IHd]; cbn; [done|].
  intros [Hk Hd]%andb_true_iff. destruct (String.eqb k' k) eqn:E; [|auto].
  apply String.eqb_eq in E as ->. by intros [= ->].
Qed.

(** What a well-typed record says about one of its fields. *)
Lemma wt_get s d k v t :
  wt s d -> dget d k = Some v -> field_ty s k = Some t -> has_ty t v = true.
Proof.
  intros [_ Hf] Hk Ht. pose proof (fields_ok_get _ _ _ _ Hf Hk) as H.
  unfold field_ok in H. by rewrite Ht in H.
Qed.

Lemma ditem_float s d k :
  fields_ok s d = true -> field_ty s k = Some TFloat -> dmem k d = true ->
  exists x, ditem d k = Ok (VFloat x).
Proof.
  unfold dmem, ditem. intros Hd Ht Hk. destruct (dget d k) as [v|] eqn:E; [|done].
  pose proof (fields_ok_get _ _ _ _ Hd E) as Hv. unfold field_ok in Hv. rewrite Ht in Hv.
  destruct v; try done. eauto.
Qed.

(** A dictionary given by its keys and values. *)
Fixpoint distinct_keys (l : list string) : bool :=
  match l with [] => true | k :: l' => negb (selem k l') && distinct_keys l' end.

Lemma distinct_keys_NoDup l : distinct_keys l = true -> NoDup l.
Proof.
  induction l as [|k l IH]; cbn; [intros _; apply NoDup_nil_2|].
  intros [Hk Hl]%andb_true_iff. apply NoDup_cons. split; [|auto]. intros Hin%list_elem_of_In.
  unfold selem in Hk. apply negb_true_iff in Hk. rewrite <- not_true_iff_false, existsb_exists in Hk.
  apply Hk. exists k. by rewrite String.eqb_refl.
Qed.

Lemma wt_literal s d : distinct_keys (keys d) = true -> fields_ok s d = true -> wt s d.
Proof. intros Hk Hf. split; [by apply distinct_keys_NoDup|done]. Qed.

(** A sub-dictionary stored under a key, and a list of them. *)
Lemma has_ty_dict fs d : has_ty (TDict fs) (VDict d) = fields_ok fs d.
Proof. done. Qed.

Lemma has_ty_list_app t l1 l2 :
  has_ty (TList t) (VList (l1 ++ l2)) = has_ty (TList t) (VList l1) && has_ty (TList t) (VList l2).
Proof. cbn. apply forallb_app. Qed.

(** A schema included in another one: its records conform to the larger. *)
Definition sub_schema (s1 s2 : schema) : Prop :=
  forall k v, field_ok s1 k v = true -> field_ok s2 k v = true.

Lemma sub_fields_ok s1 s2 d : sub_schema s1 s2 -> fields_ok s1 d = true -> fields_ok s2 d = true.
Proof.
  intros Hs. unfold fields_ok. rewrite !forallb_forall. intros H [k v] Hin.
  apply Hs. by apply (H (k, v)).
Qed.

Lemma field_ty_app s1 s2 k :
  field_ty (s1 ++ s2) k = match field_ty s1 k with Some t => Some t | None => field_ty s2 k end.
Proof.
  induction s1 as [|[k' t] s1 IHs]; cbn; [done|]. by destruct (String.eqb k' k).
Qed.

Lemma sub_schema_app_l s1 s2 : sub_schema s1 (s1 ++ s2).
Proof.
  intros k v. unfold field_ok. rewrite field_ty_app. by destruct (field_ty s1 k).
Qed.

(** Strings read from a table or a tuple of names. *)
Lemma tget_or_in l t k dflt :
  forallb (fun s => selem s l) (dflt :: map snd t) = true -> selem (tget_or t k dflt) l = true.
Proof.
  cbn. intros [Hd Ht]%andb_true_iff. unfold tget_or.
  induction t as [|[k' s] t IHt]; cbn in *; [done|].
  apply andb_true_iff in Ht as [Hs Ht]. destruct (k' =? k); [done|by apply IHt].
Qed.

(** ** Inclusion of types

    [ty_le t1 t2 = true] when every value of [t1] is one of [t2]; it is what a
    schema inherits when it is included in another one, and is decided by
    computation on the two schemas. *)
Fixpoint ty_le (t1 : ty) {struct t1} : ty -> bool :=
  fix below (t2 : ty) {struct t2} : bool :=
    match t1, t2 with
    | TEither a b, _ => ty_le a t2 && ty_le b t2
    | _, TEither a b => below a || below b
    | TNone, TNone => true
    | TBool, TBool => true
    | TTrue, TTrue => true
    | TTrue, TBool => true
    | TInt lo hi, TInt lo' hi' => (lo' <=? lo) && (hi <=? hi')
    | TFloat, TFloat => true
    | TStr, TStr => true
    | TOneOf _, TStr => true
    | TOneOf l, TOneOf l' => forallb (fun s => selem s l') l
    | TList a, TList b => ty_le a b
    | TMap a, TMap b => ty_le a b
    | TDict fs, TDict fs' =>
        (fix all (fs : list (string * ty)) : bool :=
           match fs with
           | [] => true
           | (k, t) :: fs1 =>
               match field_ty fs' k with Some t' => ty_le t t' | None => false end && all fs1
           end) fs
    | _, _ => false
    end.

Definition schema_le (s1 s2 : schema) : bool :=
  forallb (fun kt => match field_ty s2 (fst kt) with
                     | Some t => ty_le (snd kt) t
                     | None => false
                     end) s1.

Lemma field_ty_In s k t : field_ty s k = Some t -> In (k, t) s.
Proof.
  induction s as [|[k' t'] s IHs]; cbn; [done|].
  destruct (String.eqb_spec k' k) as [->|]; [intros [= ->]; auto|auto].
Qed.

Lemma selem_In s l : selem s l = true <-> In s l.
Proof.
  unfold selem. rewrite existsb_exists. split; [|eauto using String.eqb_refl].
  intros (x & Hx & ->%String.eqb_eq). done.
Qed.

Section ty_rect.
Context (P : ty -> Prop)
  (HN : P TNone) (HB : P TBool) (HT : P TTrue) (HI : forall lo hi, P (TInt lo hi)) (HF : P TFloat) (HS : P TStr)
  (HO : forall l, P (TOneOf l)) (HL : forall t, P t -> P (TList t))
  (HD : forall fs, Forall (fun kt => P (snd kt)) fs -> P (TDict fs)) (HM : forall t, P t -> P (TMap t))
  (HE : forall a b, P a -> P b -> P (TEither a b)).

Fixpoint ty_ind' (t : ty) : P t :=
  match t with
  | TNone => HN | TBool => HB | TTrue => HT | TInt lo hi => HI lo hi | TFloat => HF | TStr => HS
  | TOneOf l => HO l
  | TList t => HL t (ty_ind' t)
  | TDict fs => HD fs ((fix go (fs : list (string * ty)) : Forall (fun kt => P (snd kt)) fs :=
      match fs with
      | [] => Forall_nil_2 _
      | kt :: fs1 => Forall_cons_2 _ kt fs1 (ty_ind' (snd kt)) (go fs1)
      end) fs)
  | TMap t => HM t (ty_ind' t)
  | TEither a b => HE a b (ty_ind' a) (ty_ind' b)
  end.
End ty_rect.

Lemma has_ty_either t1 t2 v : has_ty (TEither t1 t2) v = has_ty t1 v || has_ty t2 v.
Proof. by destruct v. Qed.

Lemma ty_le_sound t1 t2 v : ty_le t1 t2 = true -> has_ty t1 v = true -> has_ty t2 v = true.
Proof.
  revert t2 v. induction t1 as [| | |lo hi| | |l|t1 IH1|fs IHfs|t1 IHm|a b IHa IHb] using ty_ind'; intros t2;
    induction t2 as [| | |lo' hi'| | |l'|t2 IH2|fs' IHfs'|t2 IHm'|a' b' IHa' IHb'] using ty_ind'; intros v Hle Hv;
    cbn in Hle; try done;
    try (rewrite has_ty_either in Hv; apply andb_true_iff in Hle as [Hl1 Hl2]; apply orb_true_iff in Hv as [Hv|Hv]; eauto; fail);
    try (rewrite has_ty_either; apply orb_true_iff in Hle as [Hle|Hle]; apply orb_true_iff;
           [left; by apply IHa'|right; by apply IHb']; fail);
    destruct v; cbn in Hv |- *; try done.
  - lia.
  - rewrite selem_In in *. rewrite forallb_forall in Hle. by apply selem_In, Hle.
  - rewrite forallb_forall in *. eauto.
  - rewrite forallb_forall in *. intros [k v] Hin. specialize (Hv _ Hin). cbn in *.
    clear Hin IHfs'. induction fs as [|[k' t'] fs IH]; cbn in *; [done|].
    apply andb_true_iff in Hle as [Hk Hle]. inversion IHfs as [|? ? Ht Hfs]; subst.
    destruct (String.eqb_spec k' k) as [->|]; [|by apply IH].
    destruct (field_ty fs' k); [|done]. cbn in Ht. eauto.
  - rewrite forallb_forall in *. intros kv Hin. eauto.
Qed.

Lemma schema_le_sub s1 s2 : schema_le s1 s2 = true -> sub_schema s1 s2.
Proof.
  unfold schema_le, sub_schema, field_ok. rewrite forallb_forall. intros Hle k v.
  destruct (field_ty s1 k) as [t|] eqn:Ht; [|done]. apply field_ty_In in Ht.
  specialize (Hle _ Ht). cbn [fst snd] in Hle.
  destruct (field_ty s2 k); [|done]. by apply ty_le_sound.
Qed.

Lemma fields_ok_le s1 s2 d : schema_le s1 s2 = true -> fields_ok s1 d = true -> fields_ok s2 d = true.
Proof. intros H. by apply sub_fields_ok, schema_le_sub. Qed.

Lemma wt_le s1 s2 d : schema_le s1 s2 = true -> wt s1 d -> wt s2 d.
Proof. intros H [Hn Hf]. split; [done|]. by eapply fields_ok_le. Qed.

Lemma fields_ok_app s d1 d2 : fields_ok s (d1 ++ d2) = fields_ok s d1 && fields_ok s d2.
Proof. apply forallb_app. Qed.

#[export] Hint Resolve wt_nil : schema.
