(* ===== verification/Ranges.v ===== *)
(** * Ranges of integer expressions

    [InRange e lo hi] is found by instance search from the shape of [e]. *)

From S2P Require Import Prelude PyFloat PyData Schema.

Class InRange (e lo hi : Z) : Prop := in_range : lo <= e <= hi.
#[export] Hint Mode InRange ! - - : typeclass_instances.

#[export] Instance in_range_byte b : InRange (byte_val b) 0 255.
Proof. unfold InRange. pose proof (byte_val_range b). lia. Qed.

#[export] Instance in_range_land_r a m : TCEq (0 <=? m) true -> InRange (Z.land a m) 0 m.
Proof.
  intros H%TCEq_eq. apply Z.leb_le in H. by apply land_range.
Qed.

#[export] Instance in_range_add a b la ha lb hb :
  InRange a la ha -> InRange b lb hb -> InRange (a + b) (la + lb) (ha + hb) | 5.
Proof. unfold InRange. lia. Qed.

#[export] Instance in_range_sub a b la ha lb hb :
  InRange a la ha -> InRange b lb hb -> InRange (a - b) (la - hb) (ha - lb) | 5.
Proof. unfold InRange. lia. Qed.

#[export] Instance in_range_mul a la ha k :
  InRange a la ha -> TCEq (0 <=? k) true -> InRange (a * k) (la * k) (ha * k) | 5.
Proof. unfold InRange. intros Ha H%TCEq_eq. apply Z.leb_le in H. nia. Qed.

#[export] Instance in_range_shiftr a la ha k :
  InRange a la ha -> TCEq (0 <=? k) true ->
  InRange (Z.shiftr a k) (Z.shiftr la k) (Z.shiftr ha k) | 5.
Proof.
  unfold InRange. intros Ha H%TCEq_eq. apply Z.leb_le in H.
  rewrite !Z.shiftr_div_pow2 by lia. split; apply Z.div_le_mono; lia.
Qed.

#[export] Instance in_range_shiftl a la ha k :
  InRange a la ha -> TCEq (0 <=? k) true ->
  InRange (Z.shiftl a k) (Z.shiftl la k) (Z.shiftl ha k) | 5.
Proof.
  unfold InRange. intros Ha H%TCEq_eq. apply Z.leb_le in H.
  rewrite !Z.shiftl_mul_pow2 by lia. nia.
Qed.

Definition lor_bound (ha hb : Z) : Z := 2 ^ (Z.log2 (Z.max ha hb) + 1) - 1.

#[export] Instance in_range_lor a b la ha lb hb :
  InRange a la ha -> InRange b lb hb -> TCEq ((0 <=? la) && (0 <=? lb)) true ->
  InRange (Z.lor a b) 0 (lor_bound ha hb) | 5.
Proof.
  unfold InRange, lor_bound. intros Ha Hb [H1%Z.leb_le H2%Z.leb_le]%TCEq_eq%andb_true_iff.
  set (w := Z.log2 (Z.max ha hb) + 1).
  assert (0 <= w) by (unfold w; pose proof (Z.log2_nonneg (Z.max ha hb)); lia).
  assert (Z.max ha hb < 2 ^ w).
  { destruct (decide (Z.max ha hb = 0)) as [->|].
    - apply Z.pow_pos_nonneg; lia.
    - unfold w. apply Z.log2_spec. lia. }
  pose proof (lor_range a b w ltac:(lia) ltac:(lia) ltac:(lia)). lia.
Qed.

(** [x - m if x & s else x]: the sign extension the decoders write inline. *)
Definition sign_ok (hi s m : Z) : bool :=
  (0 <? s) && (hi <=? 2 * s - 1) && (m =? 2 * s) && (s =? 2 ^ Z.log2 s).

Lemma bit_pow2 x k : 0 <= k -> 0 <= x < 2 ^ (k + 1) -> bit x (2 ^ k) = (2 ^ k <=? x).
Proof.
  intros Hk Hx. unfold bit.
  assert (Z.land x (2 ^ k) = 2 ^ k * (x / 2 ^ k)) as ->.
  { apply Z.bits_inj'. intros n Hn. rewrite Z.land_spec, Z.pow2_bits_eqb by lia.
    rewrite Z.mul_comm, <- Z.shiftr_div_pow2, <- Z.shiftl_mul_pow2 by lia.
    destruct (Z.eqb_spec k n) as [->|Hne].
    - rewrite andb_true_r, Z.shiftl_spec, Z.shiftr_spec by lia. f_equal. lia.
    - rewrite andb_false_r, Z.shiftl_spec by lia.
      destruct (Z.lt_ge_cases n k); [by rewrite Z.testbit_neg_r by lia|].
      rewrite Z.shiftr_spec by lia. replace (n - k + k) with n by lia.
      symmetry. rewrite <- (Z.mod_small x (2 ^ (k + 1))) by lia.
      apply Z.mod_pow2_bits_high. lia. }
  rewrite Z.pow_add_r in Hx by lia. change (2 ^ 1) with 2 in Hx.
  assert (0 < 2 ^ k) by lia.
  assert (0 <= x / 2 ^ k < 2) by
    (split; [apply Z.div_pos|apply Z.div_lt_upper_bound]; lia).
  pose proof (Z.div_mod x (2 ^ k) ltac:(lia)) as Hd.
  pose proof (Z.mod_pos_bound x (2 ^ k) ltac:(lia)).
  assert (x / 2 ^ k = 0 \/ x / 2 ^ k = 1) as [Hq|Hq] by lia; rewrite Hq in *; lia.
Qed.

#[export] Instance in_range_sign x lo hi s m :
  InRange x lo hi -> TCEq ((0 <=? lo) && sign_ok hi s m) true ->
  InRange (if bit x s then x - m else x) (- s) (s - 1) | 1.
Proof.
  unfold InRange, sign_ok. intros Hx H%TCEq_eq.
  rewrite !andb_true_iff in H. destruct H as [H0 [[[H1 H2] H3] H4]].
  apply Z.ltb_lt in H1. apply Z.leb_le in H0, H2. apply Z.eqb_eq in H3, H4.
  assert (0 <= Z.log2 s) by apply Z.log2_nonneg.
  rewrite H4 at 1 2 3. rewrite bit_pow2; [|done|rewrite Z.pow_add_r by lia; rewrite <- H4; lia].
  rewrite <- H4. destruct (Z.leb_spec s x); lia.
Qed.

#[export] Instance in_range_sign_extend w x lo hi :
  InRange x lo hi -> TCEq ((0 <=? lo) && ((0 <? w) && (hi <? 2 ^ w))) true ->
  InRange (sign_extend w x) (- 2 ^ (w - 1)) (2 ^ (w - 1) - 1).
Proof.
  unfold InRange. intros Hx H%TCEq_eq. rewrite !andb_true_iff in H. destruct H as [H0 [H1 H2]].
  apply Z.leb_le in H0. apply Z.ltb_lt in H1, H2. pose proof (sign_extend_range w x ltac:(lia) ltac:(lia)). lia.
Qed.

#[export] Instance in_range_if (c : bool) a b la ha lb hb :
  InRange a la ha -> InRange b lb hb ->
  InRange (if c then a else b) (Z.min la lb) (Z.max ha hb) | 5.
Proof. unfold InRange. destruct c; lia. Qed.

#[export] Instance in_range_max a b la ha lb hb :
  InRange a la ha -> InRange b lb hb -> InRange (Z.max a b) (Z.max la lb) (Z.max ha hb) | 5.
Proof. unfold InRange. lia. Qed.

#[export] Instance in_range_min a b la ha lb hb :
  InRange a la ha -> InRange b lb hb -> InRange (Z.min a b) (Z.min la lb) (Z.min ha hb) | 5.
Proof. unfold InRange. lia. Qed.

(** Literals last, so that they do not shadow the other shapes. *)
Ltac is_Z_literal e :=
  lazymatch e with
  | Z0 => idtac
  | Zpos _ => idtac
  | Zneg _ => idtac
  end.
Lemma in_range_lit n : InRange n n n.
Proof. unfold InRange. lia. Qed.
#[export] Hint Extern 1 (InRange ?e _ _) => (is_Z_literal e; exact (in_range_lit e)) : typeclass_instances.

Lemma in_range_weaken e lo hi lo' hi' :
  InRange e lo' hi' -> (lo <=? lo') && (hi' <=? hi) = true -> lo <= e <= hi.
Proof. unfold InRange. lia. Qed.

Lemma has_ty_int e lo hi lo' hi' :
  InRange e lo' hi' -> (lo <=? lo') && (hi' <=? hi) = true ->
  has_ty (TInt lo hi) (VInt e) = true.
Proof.
  intros He Hb. pose proof (in_range_weaken _ _ _ _ _ He Hb). cbn. lia.
Qed.
