(* ===== verification/Cursor.v ===== *)
(** * Decoders over a cursor

    The ASTERIX decoders are Python functions with two mutable locals: the
    read position [pos] and the dictionary being filled ([msg], [track] or
    [out]).  [cur R A] is such a piece of code, run at a position and a
    dictionary: it continues with a value, leaves the enclosing [for] loop
    ([Break]), returns from the function ([Ret]) or raises ([Exc]).

    The second half is the program logic: [wp m p d Q B T E] says that [m] run
    at position [p] on dictionary [d] ends in [Q], [B], [T] or [E] according to
    how it leaves. *)

From S2P Require Import Prelude PyFloat PyData Schema Ranges.

Inductive outcome (R A : Type) :=
| Next (a : A) (p : Z) (d : dict)
| Break (p : Z) (d : dict)
| Ret (r : R)
| Exc (e : exn).
Arguments Next {R A} _ _ _.
Arguments Break {R A} _ _.
Arguments Ret {R A} _.
Arguments Exc {R A} _.

Definition cur (R A : Type) := Z -> dict -> outcome R A.

Definition ret {R A} (a : A) : cur R A := fun p d => Next a p d.

Definition bind {R A B} (m : cur R A) (k : A -> cur R B) : cur R B := fun p d =>
  match m p d with
  | Next a p' d' => k a p' d'
  | Break p' d' => Break p' d'
  | Ret r => Ret r
  | Exc e => Exc e
  end.

Declare Scope cur_scope.
Delimit Scope cur_scope with cur.
Notation "x <- m ;; k" := (bind m (fun x => k))
  (at level 100, m at next level, right associativity) : cur_scope.
Notation "m ;; k" := (bind m (fun _ => k))
  (at level 100, right associativity) : cur_scope.
Open Scope cur_scope.

(** ** Statements *)

Definition skip {R} : cur R unit := ret tt.
Definition break_ {R A} : cur R A := fun p d => Break p d.
(** [return f(pos, d)] *)
Definition return_ {R A} (f : Z -> dict -> R) : cur R A := fun p d => Ret (f p d).
Definition raise_ {R A} (e : exn) : cur R A := fun _ _ => Exc e.
Definition lift {R A} (m : exc A) : cur R A := fun p d =>
  match m with Ok a => Next a p d | Raise e => Exc e end.
(** [if c: m] *)
Definition when {R} (c : bool) (m : cur R unit) : cur R unit := if c then m else skip.

(** [pos], [pos += n], [pos = n] *)
Definition tell {R} : cur R Z := fun p d => Next p p d.
Definition adv {R} (n : Z) : cur R unit := fun p d => Next tt (p + n) d.
Definition seek {R} (n : Z) : cur R unit := fun _ d => Next tt n d.

(** [d[k] = v], [d.setdefault(k, v)], [d.update(e)], [d.get(k)] *)
Definition set_ {R} (k : string) (v : value) : cur R unit := fun p d => Next tt p (dset k v d).
Definition setdefault_ {R} (k : string) (v : value) : cur R unit :=
  fun p d => Next tt p (dsetdefault k v d).
Definition update_ {R} (e : dict) : cur R unit := fun p d => Next tt p (dupdate d e).
Definition get_ {R} (k : string) : cur R (option value) := fun p d => Next (dget d k) p d.
Definition has_ {R} (k : string) : cur R bool := fun p d => Next (dmem k d) p d.

Section Reading.
Context {R : Type} (data : bytes).

(** [pos + n > len(data)]; [pos >= len(data)] is [short 1]. *)
Definition short (n : Z) : cur R bool := fun p d => Next (len data <? p + n) p d.

(** [if pos + n > len(data): otherwise] *)
Definition need (n : Z) (otherwise : cur R unit) : cur R unit :=
  fun p d => if len data <? p + n then otherwise p d else Next tt p d.

(** [data[pos + k]] *)
Definition at_ (k : Z) : cur R Z := fun p d => lift (byte_at data (p + k)) p d.

(** [f(data[pos + a:pos + b])] *)
Definition on_slice {A} (a b : Z) (f : bytes -> exc A) : cur R A :=
  fun p d => lift (f (slice data (p + a) (p + b))) p d.
End Reading.

(** A callee that reads [data] from [pos] and returns its result with the new
    position: [x, pos = f(data, pos)]. *)
Definition call {R A} (f : Z -> exc (A * Z)) : cur R A := fun p d =>
  match f p with
  | Ok (a, p') => Next a p' d
  | Raise e => Exc e
  end.

(** A callee that only moves the position: [pos = f(data, pos)]. *)
Definition goto {R} (f : Z -> exc Z) : cur R unit := fun p d =>
  match f p with
  | Ok p' => Next tt p' d
  | Raise e => Exc e
  end.

(** A callee that also fills the caller's dictionary:
    [pos = f(data, pos, msg)]. *)
Definition call_on {R} (f : Z -> dict -> exc (dict * Z)) : cur R unit := fun p d =>
  match f p d with
  | Ok (d', p') => Next tt p' d'
  | Raise e => Exc e
  end.

(** A callee that may decline: [result = f(data, pos); if result is None:
    otherwise; x, pos = result]. *)
Definition call_opt {R A} (f : Z -> exc (option (A * Z))) (otherwise : cur R A) : cur R A := fun p d =>
  match f p with
  | Ok (Some (a, p')) => Next a p' d
  | Ok None => otherwise p d
  | Raise e => Exc e
  end.

(** [try: x, pos = f(data, pos)  except ValueError: otherwise] *)
Definition try_call {R A} (f : Z -> exc (A * Z)) (otherwise : cur R A) : cur R A := fun p d =>
  match f p with
  | Ok (a, p') => Next a p' d
  | Raise ValueError => otherwise p d
  | Raise e => Exc e
  end.

(** [try: x = m  except ValueError: otherwise], of a computation on values. *)
Definition try_lift {R A} (m : exc A) (otherwise : cur R A) : cur R A := fun p d =>
  match m with
  | Ok a => Next a p d
  | Raise ValueError => otherwise p d
  | Raise e => Exc e
  end.

(** ** Loops *)

Fixpoint for_each {R X} (xs : list X) (body : X -> cur R unit) : cur R unit :=
  match xs with
  | [] => skip
  | x :: xs' => fun p d =>
      match body x p d with
      | Next _ p' d' => for_each xs' body p' d'
      | Break p' d' => Next tt p' d'
      | Ret r => Ret r
      | Exc e => Exc e
      end
  end.

Definition enumerate {X} (xs : list X) : list (Z * X) :=
  combine (map Z.of_nat (seq 0 (length xs))) xs.

(** A loop that threads a local through its iterations: an iteration says
    whether it falls through to the next one or leaves the loop. *)
Inductive step (A : Type) :=
| more (a : A)
| stop (a : A).
Arguments more {A} _.
Arguments stop {A} _.

(** [for _ in range(n)] *)
Fixpoint for_range {R A} (n : nat) (body : A -> cur R (step A)) (a : A) : cur R A :=
  match n with
  | O => ret a
  | S n' => s <- body a ;;
            match s with
            | more a' => for_range n' body a'
            | stop a' => ret a'
            end
  end.

(** [while ...], with fuel: running out of it is an exception no Python
    program sees, so a decoder proved not to raise terminates. *)
Fixpoint while_ {R A} (fuel : nat) (body : A -> cur R (step A)) (a : A) : cur R A :=
  match fuel with
  | O => raise_ OutOfFuel
  | S fuel' => s <- body a ;;
               match s with
               | more a' => while_ fuel' body a'
               | stop a' => ret a'
               end
  end.

(** The fuel of a loop that reads at least one octet per iteration. *)
Definition fuel_of (data : bytes) : nat := S (S (length data)).

(** ** Extension chains

    ASTERIX chains octets by their least significant bit (FX).  The source
    walks a chain with one of these loops. *)
Section Chains.
Context {R : Type} (data : bytes).

(** [while pos < len(data): b = data[pos]; pos += 1; xs.append(f(b));
    if not b & 1: break] *)
Definition fx_octets {A} (f : Z -> A) : cur R (list A) :=
  while_ (fuel_of data) (fun xs =>
    none <- short data 1 ;;
    if none then ret (stop xs) else
    b <- at_ data 0 ;;
    adv 1 ;;
    let xs := xs ++ [f b] in
    ret (if negb (bit b 0x01) then stop xs else more xs)) [].

(** The same over two-octet words. *)
Definition fx_words {A} (f : Z -> A) : cur R (list A) :=
  while_ (fuel_of data) (fun xs =>
    none <- short data 2 ;;
    if none then ret (stop xs) else
    w <- on_slice data 0 2 (unpack_u 2) ;;
    adv 2 ;;
    let xs := xs ++ [f w] in
    ret (if negb (bit w 0x0001) then stop xs else more xs)) [].

(** [while b & 1: if pos >= len(data): break; b = data[pos]; pos += 1;
    xs.append(b)] *)
Definition fx_more (b : Z) : cur R (list Z) :=
  r <- while_ (fuel_of data) (fun '(b, xs) =>
    if negb (bit b 0x01) then ret (stop (b, xs)) else
    none <- short data 1 ;;
    if none then ret (stop (b, xs)) else
    b <- at_ data 0 ;;
    adv 1 ;;
    ret (more (b, xs ++ [b]))) (b, []) ;;
  ret (snd r).

(** [while b & 1: if pos >= len(data): otherwise; b = data[pos]; pos += 1;
    extent += 1; body], where [otherwise] is [skip] for a [break]. *)
Definition fx_each (b : Z) (otherwise : cur R unit) (body : Z -> Z -> cur R unit) : cur R unit :=
  while_ (fuel_of data) (fun '(b, extent) =>
    if negb (bit b 0x01) then ret (stop (b, extent)) else
    none <- short data 1 ;;
    if none then otherwise ;; ret (stop (b, extent)) else
    b <- at_ data 0 ;;
    adv 1 ;;
    body (extent + 1) b ;;
    ret (more (b, extent + 1))) (b, 0) ;;
  skip.
End Chains.

(** Running the body of a function whose last statement gives its result. *)
Definition run {R} (m : cur R R) (p : Z) (d : dict) : exc R :=
  match m p d with
  | Next r _ _ => Ok r
  | Ret r => Ok r
  | Exc e => Raise e
  | Break _ _ => Raise OutOfFuel     (* a [break] outside a loop: excluded by [wp] *)
  end.

(** ** Program logic *)

Definition wp {R A} (m : cur R A) (p : Z) (d : dict)
    (Q : A -> Z -> dict -> Prop) (B : Z -> dict -> Prop)
    (T : R -> Prop) (E : exn -> Prop) : Prop :=
  match m p d with
  | Next a p' d' => Q a p' d'
  | Break p' d' => B p' d'
  | Ret r => T r
  | Exc e => E e
  end.

Definition noB : Z -> dict -> Prop := fun _ _ => False.
Definition noE : exn -> Prop := fun _ => False.

(** The judgement for functions into [exc]. *)
Definition returns {A} (m : exc A) (Q : A -> Prop) (E : exn -> Prop) : Prop :=
  match m with Ok a => Q a | Raise e => E e end.

Lemma returns_weaken {A} (m : exc A) (Q Q' : A -> Prop) (E E' : exn -> Prop) :
  returns m Q E -> (forall a, Q a -> Q' a) -> (forall e, E e -> E' e) -> returns m Q' E'.
Proof. destruct m; cbn; auto. Qed.

Lemma run_returns {R} (m : cur R R) p d (T : R -> Prop) E :
  wp m p d (fun r _ _ => T r) noB T E -> returns (run m p d) T E.
Proof. unfold wp, run, returns, noB. destruct (m p d); tauto. Qed.

Section Rules.
Context {R : Type}.
Implicit Types (p : Z) (d : dict) (B : Z -> dict -> Prop) (T : R -> Prop) (E : exn -> Prop).

Lemma wp_weaken {A} (m : cur R A) p d (Q Q' : A -> Z -> dict -> Prop) (B B' : Z -> dict -> Prop) T E :
  wp m p d Q B T E -> (forall a p' d', Q a p' d' -> Q' a p' d') ->
  (forall p' d', B p' d' -> B' p' d') -> wp m p d Q' B' T E.
Proof. unfold wp. destruct (m p d); auto. Qed.

Lemma wp_ret {A} (a : A) p d (Q : A -> Z -> dict -> Prop) B T E :
  Q a p d -> wp (ret a) p d Q B T E.
Proof. done. Qed.

Lemma wp_bind {A C} (m : cur R A) (k : A -> cur R C) p d (Q : C -> Z -> dict -> Prop) B T E :
  wp m p d (fun a p' d' => wp (k a) p' d' Q B T E) B T E -> wp (bind m k) p d Q B T E.
Proof. unfold wp, bind. destruct (m p d); auto. Qed.

Lemma wp_skip p d (Q : unit -> Z -> dict -> Prop) B T E : Q tt p d -> wp skip p d Q B T E.
Proof. done. Qed.

Lemma wp_break {A} p d (Q : A -> Z -> dict -> Prop) B T E : B p d -> wp break_ p d Q B T E.
Proof. done. Qed.

Lemma wp_return {A} f p d (Q : A -> Z -> dict -> Prop) B T E :
  T (f p d) -> wp (return_ f) p d Q B T E.
Proof. done. Qed.

Lemma wp_raise {A} e p d (Q : A -> Z -> dict -> Prop) B T E : E e -> wp (raise_ e) p d Q B T E.
Proof. done. Qed.

Lemma wp_lift {A} (m : exc A) p d (Q : A -> Z -> dict -> Prop) B T E :
  returns m (fun a => Q a p d) E -> wp (lift m) p d Q B T E.
Proof. unfold wp, lift, returns. by destruct m. Qed.

Lemma wp_tell p d (Q : Z -> Z -> dict -> Prop) B T E : Q p p d -> wp tell p d Q B T E.
Proof. done. Qed.

Lemma wp_adv n p d (Q : unit -> Z -> dict -> Prop) B T E :
  Q tt (p + n) d -> wp (adv n) p d Q B T E.
Proof. done. Qed.

Lemma wp_seek n p d (Q : unit -> Z -> dict -> Prop) B T E :
  Q tt n d -> wp (seek n) p d Q B T E.
Proof. done. Qed.

Lemma wp_set S k v p d (Q : unit -> Z -> dict -> Prop) B T E :
  wt S d -> field_ok S k v = true -> (forall d', wt S d' -> Q tt p d') ->
  wp (set_ k v) p d Q B T E.
Proof. intros Hd Hv HQ. apply HQ. by apply wt_dset. Qed.

Lemma wp_setdefault S k v p d (Q : unit -> Z -> dict -> Prop) B T E :
  wt S d -> field_ok S k v = true -> (forall d', wt S d' -> Q tt p d') ->
  wp (setdefault_ k v) p d Q B T E.
Proof. intros Hd Hv HQ. apply HQ. by apply wt_dsetdefault. Qed.

Lemma wp_update S e p d (Q : unit -> Z -> dict -> Prop) B T E :
  wt S d -> fields_ok S e = true -> (forall d', wt S d' -> Q tt p d') ->
  wp (update_ e) p d Q B T E.
Proof. intros Hd Hv HQ. apply HQ. by apply wt_dupdate. Qed.

Lemma wp_get S k p d (Q : option value -> Z -> dict -> Prop) B T E :
  wt S d -> (forall o, (forall v, o = Some v -> field_ok S k v = true) -> Q o p d) ->
  wp (get_ k) p d Q B T E.
Proof. intros [_ Hd] HQ. apply HQ. intros v. by apply fields_ok_get. Qed.

Lemma wp_has k p d (Q : bool -> Z -> dict -> Prop) B T E :
  (forall b, Q b p d) -> wp (has_ k) p d Q B T E.
Proof. intros HQ. apply HQ. Qed.

Lemma wp_short data n p d (Q : bool -> Z -> dict -> Prop) B T E :
  (len data < p + n -> Q true p d) -> (p + n <= len data -> Q false p d) ->
  wp (short data n) p d Q B T E.
Proof. unfold wp, short. destruct (Z.ltb_spec (len data) (p + n)); auto. Qed.

Lemma wp_need data n (o : cur R unit) p d (Q : unit -> Z -> dict -> Prop) B T E :
  (len data < p + n -> wp o p d Q B T E) ->
  (p + n <= len data -> Q tt p d) ->
  wp (need data n o) p d Q B T E.
Proof. unfold wp, need. destruct (Z.ltb_spec (len data) (p + n)); intros H1 H2; [by apply H1|by apply H2]. Qed.

Lemma wp_at data k p d (Q : Z -> Z -> dict -> Prop) B T E :
  0 <= p + k -> p + k < len data -> (forall b, InRange b 0 255 -> Q b p d) ->
  wp (at_ data k) p d Q B T E.
Proof.
  intros H0 H1 HQ. destruct (byte_at_ok data (p + k)) as (b & Hb & Hr); [lia|].
  unfold wp, at_, lift. rewrite Hb. apply HQ. unfold InRange. lia.
Qed.

(** Branches that meet again: a conditional statement that leaves the position
    alone, and one that may move it forward. *)
Lemma wp_join_same S (m : cur R unit) p d (Q : unit -> Z -> dict -> Prop) B T E :
  wp m p d (fun _ p' d' => p' = p /\ wt S d') B T E ->
  (forall d', wt S d' -> Q tt p d') -> wp m p d Q B T E.
Proof.
  intros Hm HQ. eapply wp_weaken; [exact Hm| |auto].
  intros [] p' d' [-> Hd']. auto.
Qed.

Lemma wp_join_move (data : bytes) S (m : cur R unit) p d (Q : unit -> Z -> dict -> Prop) B T E :
  wp m p d (fun _ p' d' => p <= p' <= len data /\ wt S d') B T E ->
  (forall p' d', p <= p' <= len data -> wt S d' -> Q tt p' d') -> wp m p d Q B T E.
Proof.
  intros Hm HQ. eapply wp_weaken; [exact Hm| |auto].
  intros [] p' d' [? Hd']. auto.
Qed.

Lemma enumerate_nonneg {X} (xs : list X) i x : In (i, x) (enumerate xs) -> 0 <= i.
Proof.
  intros H%in_combine_l. apply in_map_iff in H as (n & <- & _). lia.
Qed.

Lemma enumerate_In {X} (xs : list X) i x : In (i, x) (enumerate xs) -> In x xs.
Proof. unfold enumerate. apply in_combine_r. Qed.

(** [for x in xs]: an invariant of the position and the dictionary. *)
Lemma wp_for_each {X} (I : Z -> dict -> Prop) (xs : list X) (body : X -> cur R unit)
    p d (Q : unit -> Z -> dict -> Prop) B T E :
  (forall x p d, In x xs -> I p d -> wp (body x) p d (fun _ => I) I T E) ->
  I p d -> (forall p' d', I p' d' -> Q tt p' d') ->
  wp (for_each xs body) p d Q B T E.
Proof.
  intros Hbody HI HQ. revert p d Hbody HI.
  induction xs as [|x xs IH]; intros p d Hbody HI; [by apply HQ|].
  pose proof (Hbody x p d (in_eq _ _) HI) as Hx. unfold wp in Hx |- *. cbn.
  destruct (body x p d); [|by apply HQ|done|done].
  apply IH; [|done]. intros y p2 d2 Hy. apply Hbody. by right.
Qed.

(** [for _ in range(n)] with an accumulator. *)
Lemma wp_for_range {A} (I : A -> Z -> dict -> Prop) n (body : A -> cur R (step A)) a
    p d (Q : A -> Z -> dict -> Prop) B T E :
  (forall a p d, I a p d ->
     wp (body a) p d (fun s p' d' => match s with more a' | stop a' => I a' p' d' end) B T E) ->
  I a p d -> (forall a' p' d', I a' p' d' -> Q a' p' d') ->
  wp (for_range n body a) p d Q B T E.
Proof.
  intros Hbody HI HQ. revert a p d HI. induction n as [|n IH]; intros a p d HI; [by apply HQ|].
  cbn. apply wp_bind. eapply wp_weaken; [by apply Hbody| |done].
  intros [a'|a'] p' d' HI'; [by apply IH|by apply HQ].
Qed.

(** [while]: every iteration that goes on moves the position forward, within
    the data. *)
Lemma wp_while {A} (data : bytes) (I : A -> Z -> dict -> Prop) fuel (body : A -> cur R (step A)) a
    p d (Q : A -> Z -> dict -> Prop) B T E :
  (forall a p d, I a p d -> p <= len data ->
     wp (body a) p d (fun s p' d' =>
       match s with
       | more a' => I a' p' d' /\ p < p' <= len data
       | stop a' => Q a' p' d'
       end) B T E) ->
  I a p d -> p <= len data -> len data - p < Z.of_nat fuel ->
  wp (while_ fuel body a) p d Q B T E.
Proof.
  intros Hbody. revert a p d. induction fuel as [|fuel IH]; intros a p d HI Hp Hf; [lia|].
  cbn [while_]. apply wp_bind. eapply wp_weaken; [by apply Hbody| |done].
  intros [a'|a'] p' d'; [|done]. intros [HI' Hp']. apply IH; [done|lia|lia].
Qed.
End Rules.

Lemma fuel_of_enough (data : bytes) p : 0 <= p -> len data - p < Z.of_nat (fuel_of data).
Proof. unfold fuel_of, len. lia. Qed.

Section ChainRules.
Context {R : Type}.
Implicit Types (p : Z) (d : dict) (B : Z -> dict -> Prop) (T : R -> Prop) (E : exn -> Prop).

Lemma wp_fx_octets {A} (P : A -> Prop) data (f : Z -> A) p d (Q : list A -> Z -> dict -> Prop) B T E :
  (forall b, InRange b 0 255 -> P (f b)) -> 0 <= p <= len data ->
  (forall xs p', p <= p' <= len data -> Forall P xs -> Q xs p' d) ->
  wp (fx_octets data f) p d Q B T E.
Proof.
  intros Hf Hp HQ.
  apply (wp_while data (fun xs p' d' => Forall P xs /\ p <= p' /\ d' = d)); [|auto with lia|lia|].
  2: { apply fuel_of_enough. lia. }
  intros xs p' d' (Hxs & Hp' & ->) Hlen. apply wp_bind, wp_short; intros Hs.
  - apply wp_ret, HQ; [lia|done].
  - apply wp_bind, wp_at; [lia|lia|]. intros b Hb. apply wp_bind, wp_adv, wp_ret.
    assert (Forall P (xs ++ [f b])) by (apply Forall_app; split; [done|]; by constructor; [apply Hf|]).
    destruct (negb _); cbv iota; [apply HQ; [lia|done]|]. split_and!; try done; lia.
Qed.

Lemma wp_fx_words {A} (P : A -> Prop) data (f : Z -> A) p d (Q : list A -> Z -> dict -> Prop) B T E :
  (forall w, InRange w 0 65535 -> P (f w)) -> 0 <= p <= len data ->
  (forall xs p', p <= p' <= len data -> Forall P xs -> Q xs p' d) ->
  wp (fx_words data f) p d Q B T E.
Proof.
  intros Hf Hp HQ.
  apply (wp_while data (fun xs p' d' => Forall P xs /\ p <= p' /\ d' = d)); [|auto with lia|lia|].
  2: { apply fuel_of_enough. lia. }
  intros xs p' d' (Hxs & Hp' & ->) Hlen. apply wp_bind, wp_short; intros Hs.
  - apply wp_ret, HQ; [lia|done].
  - apply wp_bind, wp_lift.
    assert (len (slice data (p' + 0) (p' + 2)) = 2) as Hl by (rewrite len_slice; lia).
    rewrite (unpack_u_ok 2) by done. pose proof (int_from_bytes_range (slice data (p' + 0) (p' + 2))) as Hr.
    rewrite Hl in Hr. cbn. change (2 ^ (8 * 2)) with 65536 in Hr. set (w := int_from_bytes _) in *.
    assert (P (f w)) by (apply Hf; unfold InRange; lia).
    assert (Forall P (xs ++ [f w])) by (apply Forall_app; split; [done|]; by constructor).
    destruct (negb _); cbv iota; [apply HQ; [lia|done]|]. split_and!; try done; lia.
Qed.

Lemma wp_fx_more data b p d (Q : list Z -> Z -> dict -> Prop) B T E :
  0 <= p <= len data ->
  (forall xs p', p <= p' <= len data -> Forall (fun x => InRange x 0 255) xs -> Q xs p' d) ->
  wp (fx_more data b) p d Q B T E.
Proof.
  intros Hp HQ. apply wp_bind.
  apply (wp_while data (fun s p' d' => Forall (fun x => InRange x 0 255) (snd s) /\ p <= p' /\ d' = d));
    [|cbn; auto with lia|lia|].
  2: { apply fuel_of_enough. lia. }
  intros [b' xs] p' d' (Hxs & Hp' & ->) Hlen. cbn [snd] in Hxs.
  destruct (negb _); [by apply wp_ret, wp_ret, HQ; [lia|]|].
  apply wp_bind, wp_short; intros Hs; [by apply wp_ret, wp_ret, HQ; [lia|]|].
  apply wp_bind, wp_at; [lia|lia|]. intros c Hc. apply wp_bind, wp_adv, wp_ret. cbn.
  split_and!; try done; try lia. apply Forall_app. split; [done|]. by constructor.
Qed.

Lemma wp_fx_each S data b o body p d (Q : unit -> Z -> dict -> Prop) B T E :
  wt S d -> 0 <= p <= len data ->
  (forall p' d', p <= p' <= len data -> wt S d' ->
     wp o p' d' (fun _ p'' d'' => p'' = p' /\ wt S d'') B T E) ->
  (forall extent b p' d', p <= p' <= len data -> InRange b 0 255 -> wt S d' ->
     wp (body extent b) p' d' (fun _ p'' d'' => p'' = p' /\ wt S d'') B T E) ->
  (forall p' d', p <= p' <= len data -> wt S d' -> Q tt p' d') ->
  wp (fx_each data b o body) p d Q B T E.
Proof.
  intros Hd Hp Ho Hb HQ. apply wp_bind.
  apply (wp_while data (fun _ p' d' => p <= p' /\ wt S d')); [|auto with lia|lia|].
  2: { apply fuel_of_enough. lia. }
  intros [b' ext] p' d' (Hp' & Hd') Hlen.
  destruct (negb _); [by apply wp_ret, wp_skip, HQ; [lia|]|].
  apply wp_bind, wp_short; intros Hs.
  - apply wp_bind. eapply wp_weaken; [by apply Ho; [lia|]| |auto].
    intros _ p1 d1 [-> Hd1]. apply wp_ret, wp_skip, HQ; [lia|done].
  - apply wp_bind, wp_at; [lia|lia|]. intros c Hc. apply wp_bind, wp_adv, wp_bind.
    eapply wp_weaken; [apply Hb; [lia|done|done]| |auto].
    intros _ p1 d1 [-> Hd1]. apply wp_ret. split; [split; [lia|done]|lia].
Qed.
End ChainRules.
