(* ===== verification/Safety.v ===== *)
(** * Contracts of decoder helpers, and the automation

    A helper's contract is an instance of one of the classes below, so that the
    proof of a decoder finds it by instance search; [wp_auto] runs the program
    logic of [Cursor] forward, proving bounds with [lia], ranges with
    [InRange] and field types by evaluating the schema. *)

From S2P Require Import Prelude PyFloat PyData Schema Ranges Cursor.

(** ** Contracts *)

(** A function of a slice of exactly [n] octets. *)
Class SliceOk {A} (f : bytes -> exc A) (n : Z) (P : A -> Prop) : Prop :=
  slice_ok : forall raw, len raw = n -> returns (f raw) P noE.
#[export] Hint Mode SliceOk ! ! - - : typeclass_instances.

(** A function that reads from a position and moves it forward, within the
    data. *)
Class CallOk {A} (data : bytes) (f : Z -> exc (A * Z)) (P : A -> Prop) : Prop :=
  call_ok : forall p, 0 <= p <= len data ->
    returns (f p) (fun '(a, p') => p <= p' <= len data /\ P a) noE.
#[export] Hint Mode CallOk ! - ! - : typeclass_instances.

(** The same where the caller has already checked that [n] octets are left. *)
Class CallNeedOk {A} (data : bytes) (f : Z -> exc (A * Z)) (n : Z) (P : A -> Prop) : Prop :=
  call_need_ok : forall p, 0 <= p -> p + n <= len data ->
    returns (f p) (fun '(a, p') => p <= p' <= len data /\ P a) noE.
#[export] Hint Mode CallNeedOk ! - ! - - : typeclass_instances.

Class GotoOk (data : bytes) (f : Z -> exc Z) : Prop :=
  goto_ok : forall p, 0 <= p <= len data -> returns (f p) (fun p' => p <= p' <= len data) noE.

(** The same for a function that may decline. *)
Class CallOptOk {A} (data : bytes) (f : Z -> exc (option (A * Z))) (P : A -> Prop) : Prop :=
  call_opt_ok : forall p, 0 <= p <= len data ->
    returns (f p) (fun o => match o with
                            | Some (a, p') => p <= p' <= len data /\ P a
                            | None => True
                            end) noE.
#[export] Hint Mode CallOptOk ! - ! - : typeclass_instances.

(** A function that may raise ValueError, which its caller catches. *)
Class TryOk {A} (data : bytes) (f : Z -> exc (A * Z)) (P : A -> Prop) : Prop :=
  try_ok : forall p, 0 <= p <= len data ->
    returns (f p) (fun '(a, p') => p <= p' <= len data /\ P a) (fun e => e = ValueError).
#[export] Hint Mode TryOk ! - ! - : typeclass_instances.

(** What a computation that may decline returns when it does not. *)
Class SomeOk {A} (o : option A) (P : A -> Prop) : Prop := some_ok : forall a, o = Some a -> P a.
#[export] Hint Mode SomeOk ! ! - : typeclass_instances.

(** A list long enough for a constant index. *)
Class LenGe {A} (l : list A) (n : Z) : Prop := len_ge : n <= len l.
#[export] Hint Mode LenGe ! ! - : typeclass_instances.

(** A computation on values, such as a lookup in a tuple of names. *)
Class LiftOk {A} (m : exc A) (P : A -> Prop) (E : exn -> Prop) : Prop := lift_ok : returns m P E.
#[export] Hint Mode LiftOk ! ! - - : typeclass_instances.

(** A function that fills the caller's dictionary. *)
Class CallOnOk (data : bytes) (f : Z -> dict -> exc (dict * Z)) (S : schema) : Prop :=
  call_on_ok : forall p d, 0 <= p <= len data -> wt S d ->
    returns (f p d) (fun '(d', p') => p <= p' <= len data /\ wt S d') noE.

(** Where a statement leaves the cursor. *)
Definition inside (data : bytes) (S : schema) (p : Z) : Z -> dict -> Prop :=
  fun p' d' => p <= p' <= len data /\ wt S d'.

(** What a helper that builds a dictionary returns. *)
Definition fills (data : bytes) (S : schema) (p : Z) (r : dict * Z) : Prop :=
  fields_ok S (fst r) = true /\ p <= snd r <= len data.

(** What the decoder of one record returns: the record, and a position past
    the start of it. *)
Definition record_result (data : bytes) (S : schema) (p0 : Z) (r : dict * Z) : Prop :=
  wt S (fst r) /\ p0 < snd r <= len data.

Section Rules.
Context {R : Type}.
Implicit Types (p : Z) (d : dict) (B : Z -> dict -> Prop) (T : R -> Prop) (E : exn -> Prop).

Lemma wp_let {X A} (e : X) (m : X -> cur R A) p d (Q : A -> Z -> dict -> Prop) B T E :
  (forall x, x = e -> wp (m x) p d Q B T E) -> wp (let x := e in m x) p d Q B T E.
Proof. intros H. by apply H. Qed.

Lemma wp_on_slice {A} data a b (f : bytes -> exc A) n P p d (Q : A -> Z -> dict -> Prop) B T E :
  SliceOk f n P -> 0 <= p + a -> a <= b -> p + b <= len data -> b - a = n ->
  (forall x, P x -> Q x p d) -> wp (on_slice data a b f) p d Q B T E.
Proof.
  intros Hf H0 Hab H1 Hn HQ. apply wp_lift.
  eapply returns_weaken; [apply Hf|done|done].
  rewrite len_slice; lia.
Qed.

Lemma wp_call {A} data (f : Z -> exc (A * Z)) P p d (Q : A -> Z -> dict -> Prop) B T E :
  CallOk data f P -> 0 <= p <= len data ->
  (forall a p', p <= p' <= len data -> P a -> Q a p' d) -> wp (call f) p d Q B T E.
Proof.
  intros Hf Hp HQ. specialize (Hf p Hp). unfold wp, call, returns in *.
  destruct (f p) as [[a p']|e]; [|done]. destruct Hf. auto.
Qed.

Lemma wp_call_need {A} data (f : Z -> exc (A * Z)) n P p d (Q : A -> Z -> dict -> Prop) B T E :
  CallNeedOk data f n P -> 0 <= p -> p + n <= len data ->
  (forall a p', p <= p' <= len data -> P a -> Q a p' d) -> wp (call f) p d Q B T E.
Proof.
  intros Hf Hp Hn HQ. specialize (Hf p Hp Hn). unfold wp, call, returns in *.
  destruct (f p) as [[a p']|e]; [|done]. destruct Hf. auto.
Qed.

Lemma wp_lift_ok {A} (m : exc A) P (E' : exn -> Prop) p d (Q : A -> Z -> dict -> Prop) B T E :
  LiftOk m P E' -> (forall e, E' e -> E e) -> (forall a, P a -> Q a p d) ->
  wp (lift m) p d Q B T E.
Proof. intros Hm HE HQ. apply wp_lift. by eapply returns_weaken; [apply Hm|exact HQ|exact HE]. Qed.

Lemma wp_try_lift {A} (m : exc A) P (E' : exn -> Prop) (o : cur R A) p d (Q : A -> Z -> dict -> Prop) B T E :
  LiftOk m P E' -> (forall e, E' e -> e = ValueError \/ E e) -> wp o p d Q B T E -> (forall a, P a -> Q a p d) ->
  wp (try_lift m o) p d Q B T E.
Proof.
  intros Hm HE Ho HQ. unfold LiftOk, wp, try_lift, returns in *. destruct m as [a|e]; [auto|].
  destruct (HE e Hm) as [->|He]; [exact Ho|]. destruct e; done.
Qed.

(** A tuple indexed under a test of the caller's own. *)
Lemma wp_index_guard {A} (l : list A) i lo hi p d (Q : A -> Z -> dict -> Prop) B T E :
  InRange i lo hi -> (0 <=? lo) = true -> (i <? len l) = true -> (forall x, Q x p d) ->
  wp (lift (index l i)) p d Q B T E.
Proof.
  unfold InRange. intros H0 Hlo Hi HQ. apply wp_lift. destruct (index_ok l i) as (x & -> & _); [lia|]. apply HQ.
Qed.

Lemma wp_goto data (f : Z -> exc Z) p d (Q : unit -> Z -> dict -> Prop) B T E :
  GotoOk data f -> 0 <= p <= len data ->
  (forall p', p <= p' <= len data -> Q tt p' d) -> wp (goto f) p d Q B T E.
Proof.
  intros Hf Hp HQ. specialize (Hf p Hp). unfold wp, goto, returns in *.
  destruct (f p) as [p'|e]; [auto|done].
Qed.

Lemma wp_call_opt {A} data (f : Z -> exc (option (A * Z))) P (o : cur R A) p d
    (Q : A -> Z -> dict -> Prop) B T E :
  CallOptOk data f P -> 0 <= p <= len data -> wp o p d Q B T E ->
  (forall a p', p <= p' <= len data -> P a -> Q a p' d) -> wp (call_opt f o) p d Q B T E.
Proof.
  intros Hf Hp Ho HQ. specialize (Hf p Hp). unfold wp, call_opt, returns in *.
  destruct (f p) as [[[a p']|]|e]; [|done|done]. destruct Hf. auto.
Qed.

Lemma wp_try_call {A} data (f : Z -> exc (A * Z)) P (o : cur R A) p d
    (Q : A -> Z -> dict -> Prop) B T E :
  TryOk data f P -> 0 <= p <= len data -> wp o p d Q B T E ->
  (forall a p', p <= p' <= len data -> P a -> Q a p' d) -> wp (try_call f o) p d Q B T E.
Proof.
  intros Hf Hp Ho HQ. specialize (Hf p Hp). unfold wp, try_call, returns in *.
  destruct (f p) as [[a p']|e]; [destruct Hf; auto|]. by subst.
Qed.

Lemma wp_call_on data f S p d (Q : unit -> Z -> dict -> Prop) B T E :
  CallOnOk data f S -> 0 <= p <= len data -> wt S d ->
  (forall d' p', p <= p' <= len data -> wt S d' -> Q tt p' d') -> wp (call_on f) p d Q B T E.
Proof.
  intros Hf Hp Hd HQ. specialize (Hf p d Hp Hd). unfold wp, call_on, returns in *.
  destruct (f p d) as [[d' p']|e]; [|done]. destruct Hf. auto.
Qed.
End Rules.

(** ** Slices *)

#[export] Instance slice_ok_pure {A} (f : bytes -> A) n : SliceOk (fun raw => Ok (f raw)) n (fun _ => True) | 20.
Proof. done. Qed.

#[export] Instance slice_ok_int n :
  SliceOk (fun raw => Ok (int_from_bytes raw)) n (fun v => InRange v 0 (2 ^ (8 * n) - 1)) | 5.
Proof.
  intros raw Hn. cbn [returns].
  pose proof (int_from_bytes_range raw). rewrite Hn in *. unfold InRange. lia.
Qed.

#[export] Instance slice_ok_unpack_u n : SliceOk (unpack_u n) n (fun v => InRange v 0 (2 ^ (8 * n) - 1)).
Proof.
  intros raw Hn. rewrite unpack_u_ok by done. cbn.
  pose proof (int_from_bytes_range raw). rewrite Hn in *. unfold InRange. lia.
Qed.

#[export] Instance slice_ok_unpack_s n :
  TCEq (0 <? n) true ->
  SliceOk (unpack_s n) n (fun v => InRange v (- 2 ^ (8 * n - 1)) (2 ^ (8 * n - 1) - 1)).
Proof.
  intros H0%TCEq_eq raw Hn. apply Z.ltb_lt in H0. unfold unpack_s. rewrite unpack_u_ok by done. cbn.
  pose proof (int_from_bytes_range raw) as Hr. rewrite Hn in Hr.
  pose proof (sign_extend_range (8 * n) _ ltac:(lia) Hr). unfold InRange. lia.
Qed.

#[export] Instance lift_ok_index (l : list string) i lo hi :
  InRange i lo hi -> TCEq ((0 <=? lo) && (hi <? len l)) true ->
  LiftOk (index l i) (fun s => In s l) noE.
Proof.
  intros Hi H%TCEq_eq. unfold InRange in Hi. unfold LiftOk.
  destruct (index_ok l i) as (s & -> & Hs); [lia|]. by apply nth_error_In in Hs.
Qed.

#[export] Instance lift_ok_index_len {A} (l : list A) n i lo hi :
  LenGe l n -> InRange i lo hi -> TCEq ((0 <=? lo) && (hi <? n)) true ->
  LiftOk (index l i) (fun _ => True) noE | 10.
Proof.
  unfold LenGe, InRange. intros Hl Hi H%TCEq_eq.
  destruct (index_ok l i) as (x & E & _); [lia|]. unfold LiftOk. by rewrite E.
Qed.

(** ** Field types *)
Lemma field_okI s k v t : field_ty s k = Some t -> has_ty t v = true -> field_ok s k v = true.
Proof. unfold field_ok. by intros ->. Qed.

Lemma fields_ok_cons s k v d :
  field_ok s k v = true -> fields_ok s d = true -> fields_ok s ((k, v) :: d) = true.
Proof. unfold fields_ok. cbn. by intros -> ->. Qed.

Lemma has_ty_map {A} t (f : A -> value) (P : A -> Prop) l :
  Forall P l -> (forall x, P x -> has_ty t (f x) = true) ->
  has_ty (TList t) (VList (map f l)) = true.
Proof. intros Hl Hf. cbn. induction Hl; cbn; [done|]. by rewrite Hf. Qed.

Lemma has_ty_map_any {A} t (f : A -> value) l :
  (forall x, has_ty t (f x) = true) -> has_ty (TList t) (VList (map f l)) = true.
Proof. intros Hf. apply (has_ty_map _ _ (fun _ => True)); [by apply Forall_forall|auto]. Qed.

Lemma has_ty_snoc t l v :
  has_ty (TList t) (VList l) = true -> has_ty t v = true ->
  has_ty (TList t) (VList (l ++ [v])) = true.
Proof. rewrite has_ty_list_app. intros ->. cbn. by intros ->. Qed.

Lemma has_ty_one_of_in names s : selem s names = true -> has_ty (TOneOf names) (VStr s) = true.
Proof. done. Qed.

(** A dictionary a decoder merges into its record, by its schema. *)
Class DictOk (d : dict) (S : schema) : Prop := dict_ok : fields_ok S d = true.
#[export] Hint Mode DictOk ! - : typeclass_instances.

Lemma one_of_in names l s :
  In s l -> forallb (fun x => selem x names) l = true -> has_ty (TOneOf names) (VStr s) = true.
Proof. intros Hs Hl. rewrite forallb_forall in Hl. by apply Hl. Qed.

(** ** Automation *)
Create HintDb wp_err.
Ltac solve_ty :=
  cbv beta;
  lazymatch goal with
  | |- has_ty TBool (VBool _) = true => reflexivity
  | |- has_ty TFloat (VFloat _) = true => reflexivity
  | |- has_ty TStr (VStr _) = true => reflexivity
  | |- has_ty (TInt _ _) (VInt _) = true =>
      eapply has_ty_int; [typeclasses eauto | vm_compute; reflexivity]
  | |- has_ty (TEither _ _) _ = true =>
      rewrite has_ty_either; apply orb_true_iff; first [left; solve [solve_ty] | right; solve [solve_ty]]
  | |- has_ty (TOneOf _) (VStr (tget_or _ _ _)) = true =>
      apply has_ty_one_of_in, tget_or_in; vm_compute; reflexivity
  | H : In ?s _ |- has_ty (TOneOf _) (VStr ?s) = true =>
      apply (one_of_in _ _ _ H); vm_compute; reflexivity
  | |- has_ty (TOneOf _) (VStr (if ?c then _ else _)) = true => destruct c; solve_ty
  | |- has_ty (TMap _) (VDict (dset _ _ _)) = true => apply has_ty_map_dset; solve_ty
  | |- has_ty (TDict _) (VDict _) = true =>
      first [assumption | rewrite has_ty_dict; solve_fields]
  | |- has_ty (TList _) (VList (_ ++ [_])) = true => apply has_ty_snoc; solve_ty
  | |- has_ty (TList _) (VList (map _ _)) = true =>
      first [ apply has_ty_map_any; intros; solve_ty
            | eapply has_ty_map; [eassumption | cbv beta; intros; solve_ty] ]
  | |- has_ty _ _ = true => first [ assumption | vm_compute; reflexivity ]
  end
with solve_field :=
  lazymatch goal with
  | |- field_ok ?S ?k ?v = true =>
      let o := eval vm_compute in (field_ty S k) in
      lazymatch o with
      | Some ?t => apply (field_okI S k v t eq_refl); solve_ty
      | None => fail "no field" k "in" S
      end
  end
with solve_fields :=
  lazymatch goal with
  | |- fields_ok _ (_ :: _) = true => apply fields_ok_cons; [solve_field | solve_fields]
  | |- fields_ok _ [] = true => reflexivity
  | H : wt ?S ?d |- fields_ok ?S ?d = true => exact (proj2 H)
  | H : fields_ok ?S ?d = true |- fields_ok ?S' ?d = true =>
      apply (fields_ok_le S S'); [vm_compute; reflexivity | exact H]
  | |- fields_ok _ _ = true =>
            first [ assumption
                  | eapply fields_ok_le; [|apply dict_ok]; vm_compute; reflexivity
                  | vm_compute; reflexivity ]
  end.

(** Bounds: [lia] over the positions, the length and the ranges, and nothing else. *)
Ltac wp_lia :=
  unfold InRange in *;
  repeat match goal with
         | H : wt _ _ |- _ => clear H
         | H : fields_ok _ _ = true |- _ => clear H
         | H : has_ty _ _ = true |- _ => clear H
         | H : In _ _ |- _ => clear H
         end;
  lia.

(** [lo <= e <= hi] by the range of [e]. *)
Ltac in_range := cbv beta; eapply in_range_weaken; [typeclasses eauto | vm_compute; reflexivity].

(** The elements of an extension chain, with their range when they are ints. *)
Ltac wp_pick_octets f :=
  lazymatch type of f with
  | Z -> Z => eapply (wp_fx_octets (fun v => InRange v _ _)); [intros ? ?; cbv beta; typeclasses eauto | | ]
  | _ => apply (wp_fx_octets (fun _ => True)); [done | | ]
  end.
Ltac wp_pick_words f :=
  lazymatch type of f with
  | Z -> Z => eapply (wp_fx_words (fun v => InRange v _ _)); [intros ? ?; cbv beta; typeclasses eauto | | ]
  | _ => apply (wp_fx_words (fun _ => True)); [done | | ]
  end.

Ltac wp_done :=
  cbv beta iota; cbn [fst snd]; unfold inside, fills, record_result in *;
  repeat match goal with
         | |- _ /\ _ => split
         | |- forall _, _ => intro
         | H : Some _ = Some _ |- _ => injection H as <-
         | H : None = Some _ |- _ => discriminate H
         end; cbn [fst snd];
  first [ assumption | wp_lia | done | solve_ty | solve_fields | idtac ].

Ltac wp_intro_post :=
  cbv beta iota;
  repeat match goal with
         | |- True -> _ => intros _
         | |- (_ /\ _) -> _ => let H1 := fresh "H" in let H2 := fresh "H" in intros [H1 H2]; revert H2; revert H1
         | |- InRange _ ?lo ?hi -> _ =>
             let lo' := eval vm_compute in lo in let hi' := eval vm_compute in hi in
             let H := fresh "Hr" in intros H;
             match type of H with InRange ?x _ _ => change (InRange x lo' hi') in H end
         | |- ?P -> _ => lazymatch type of P with Prop => let H := fresh "Hp" in intros H end
         end.

(** One step of the program logic. *)
Ltac wp_rule :=
  lazymatch goal with
  | |- wp (bind (if _ then _ else _) _) _ _ _ _ _ _ => apply wp_bind; wp_join
  | |- wp (bind (when _ _) _) _ _ _ _ _ _ => apply wp_bind; wp_join
  | |- wp (bind _ _) _ _ _ _ _ _ => apply wp_bind
  | |- wp (ret _) _ _ _ _ _ _ => apply wp_ret
  | |- wp skip _ _ _ _ _ _ => apply wp_skip
  | |- wp break_ _ _ _ _ _ _ => apply wp_break
  | |- wp (return_ _) _ _ _ _ _ _ => apply wp_return
  | |- wp tell _ _ _ _ _ _ => apply wp_tell
  | |- wp (seek _) _ _ _ _ _ _ => apply wp_seek
  | |- wp (raise_ _) _ _ _ _ _ _ => apply wp_raise
  | |- wp (adv _) _ _ _ _ _ _ => apply wp_adv
  | |- wp (set_ (if ?c then _ else _) _) _ _ _ _ _ _ => destruct c
  | |- wp (set_ _ _) _ _ _ _ _ _ =>
      eapply wp_set; [eassumption | solve_field | let d := fresh "d" in let H := fresh "Hd" in intros d H]
  | |- wp (setdefault_ _ _) _ _ _ _ _ _ =>
      eapply wp_setdefault; [eassumption | solve_field | let d := fresh "d" in let H := fresh "Hd" in intros d H]
  | |- wp (update_ _) _ _ _ _ _ _ =>
      eapply wp_update; [eassumption | solve_fields | let d := fresh "d" in let H := fresh "Hd" in intros d H]
  | |- wp (get_ _) _ _ _ _ _ _ => eapply wp_get; [eassumption | intros]
  | |- wp (has_ _) _ _ _ _ _ _ => apply wp_has; intros
  | |- wp (short _ _) _ _ _ _ _ _ => apply wp_short; intros
  | |- wp (need _ _ _) _ _ _ _ _ _ => apply wp_need; intros
  | |- wp (at_ _ _) _ _ _ _ _ _ => apply wp_at; [wp_lia | wp_lia | intros]
  | |- wp (on_slice _ _ _ _) _ _ _ _ _ _ =>
      eapply wp_on_slice; [typeclasses eauto | wp_lia | wp_lia | wp_lia | reflexivity | intro; wp_intro_post]
  | |- wp (call _) _ _ _ _ _ _ =>
      first
        [ eapply wp_call; [typeclasses eauto | wp_lia | do 2 intro; intros ?Hp; wp_intro_post]
        | eapply wp_call_need; [typeclasses eauto | wp_lia | wp_lia | do 2 intro; intros ?Hp; wp_intro_post] ]
  | |- wp (lift _) _ _ _ _ _ _ =>
      first
        [ eapply wp_lift_ok; [typeclasses eauto | first [by intros | eauto with wp_err] | intro; wp_intro_post]
        | eapply wp_index_guard; [typeclasses eauto | vm_compute; reflexivity | assumption | intros] ]
  | |- wp (try_lift _ _) _ _ _ _ _ _ =>
      eapply wp_try_lift; [typeclasses eauto | first [by left | by intros ? [] | by intros; left | by right; eauto with wp_err] | | intro; wp_intro_post]
  | |- wp (goto _) _ _ _ _ _ _ =>
      eapply wp_goto; [typeclasses eauto | wp_lia | intros]
  | |- wp (call_opt _ _) _ _ _ _ _ _ =>
      eapply wp_call_opt; [typeclasses eauto | wp_lia | | do 2 intro; intros ?Hp; wp_intro_post]
  | |- wp (try_call _ _) _ _ _ _ _ _ =>
      eapply wp_try_call; [typeclasses eauto | wp_lia | | do 2 intro; intros ?Hp; wp_intro_post]
  | |- wp (call_on _) _ _ _ _ _ _ =>
      eapply wp_call_on; [typeclasses eauto | wp_lia | eassumption |
                          let d := fresh "d" in let H := fresh "Hd" in intros d ? ? H]
  | |- wp (fx_octets _ ?f) _ _ _ _ _ _ =>
      wp_pick_octets f; [wp_lia | intros ? ? ?Hp ?Hl]
  | |- wp (fx_words _ ?f) _ _ _ _ _ _ =>
      wp_pick_words f; [wp_lia | intros ? ? ?Hp ?Hl]
  | |- wp (fx_more _ _) _ _ _ _ _ _ => apply wp_fx_more; [wp_lia | intros ? ? ?Hp ?Hl]
  | |- wp (fx_each _ _ _ _) _ _ _ _ _ _ =>
      eapply wp_fx_each;
        [ eassumption | wp_lia
        | let d := fresh "d" in let H := fresh "Hd" in intros ? d ?Hp H; solve [wp_auto]
        | let d := fresh "d" in let H := fresh "Hd" in intros ? ? ? d ?Hp ?Hr H; solve [wp_auto]
        | let d := fresh "d" in let H := fresh "Hd" in intros ? d ?Hp H ]
  | |- wp (for_range _ _ _) _ _ _ _ _ _ => wp_loop
  | |- wp (when ?c _) _ _ _ _ _ _ => unfold when; destruct c
  | |- wp (if ?c then _ else _) _ _ _ _ _ _ => destruct c eqn:?
  | |- wp (match ?x with _ => _ end) _ _ _ _ _ _ =>
      first
        [ let Hs := fresh "Hs" in
          eassert (SomeOk x _) as Hs by (typeclasses eauto);
          destruct x; [specialize (Hs _ eq_refl); cbv beta in Hs | clear Hs]
        | destruct x ]
  | |- wp (let x := ?e in _) _ _ _ _ _ _ =>
      first
        [ let Hr := fresh "Hr" in
          eassert (InRange e _ _) as Hr by (typeclasses eauto);
          apply wp_let; let x := fresh "x" in let Hx := fresh "Hx" in intros x Hx;
          rewrite <- Hx in Hr;
          match type of Hr with InRange _ ?lo ?hi =>
            let lo' := eval vm_compute in lo in let hi' := eval vm_compute in hi in
            change (InRange x lo' hi') in Hr end;
          clear Hx
        | lazymatch type of e with
          | float => apply wp_let; let x := fresh "x" in intros x _
          | string =>
              try match e with if ?c then _ else _ => destruct c end;
              apply wp_let; let x := fresh "x" in intros x ->
          | _ => apply wp_let; let x := fresh "x" in intros x ->
          end ]
  end;
  cbv beta iota
with wp_join :=
  match goal with
  | H : wt ?S ?d, HL : context [@len byte ?D] |- wp _ _ ?d _ _ _ _ =>
      first
        [ eapply (wp_join_same S); [solve [wp_auto] | let d := fresh "d" in let H := fresh "Hd" in intros d H]
        | eapply (wp_join_move D S); [wp_auto; wp_done | let d := fresh "d" in let H := fresh "Hd" in intros ? d ? H] ]
  end
(** A [for _ in range(n)] loop: the accumulated list or dictionary has the type
    of the field it is stored in, and the cursor stays inside. *)
with wp_loop :=
  match goal with
  | H : wt ?S ?d |- wp (@for_range _ (list value) _ _ _) ?p ?d ?Q _ _ _ =>
      match Q with
      | context [set_ ?key (VList _)] =>
          let o := eval vm_compute in (field_ty S key) in
          match o with
          | Some ?t => wp_loop_with S p (fun a => has_ty t (VList a) = true)
          end
      end
  | H : wt ?S ?d |- wp (@for_range _ dict _ _ _) ?p ?d ?Q _ _ _ =>
      match Q with
      | context [set_ ?key (VDict _)] =>
          let o := eval vm_compute in (field_ty S key) in
          match o with
          | Some ?t => wp_loop_with S p (fun a => has_ty t (VDict a) = true)
          end
      end
  | H : wt ?S ?d |- wp (@for_range _ unit _ _ _) ?p ?d _ _ _ _ => wp_loop_with S p (fun _ : unit => True)
  end
with wp_loop_with S p I :=
  match goal with
  | |- wp (for_range _ ?body _) _ _ _ _ _ _ =>
      let go data :=
          eapply (wp_for_range (fun a p' d' => I a /\ (p <= p' <= len data /\ wt S d')));
            [ let d := fresh "d" in intros ? ? d (?Hi & ?Hp & ?Hd); wp_auto; wp_done
            | cbv beta; split_and!; first [done | lia | assumption]
            | let d := fresh "d" in intros ? ? d (?Hi & ?Hp & ?Hd) ] in
      match body with
      | context [short ?data _] => go data
      | context [need ?data _ _] => go data
      end
  end
with wp_auto := repeat wp_rule; try wp_done.

(** A loop over a constant list of names, [for index, name in enumerate(names)],
    one iteration at a time. *)
Ltac wp_names :=
  match goal with
  | H : wt ?S ?d, HL : context [@len byte ?D] |- wp (for_each (enumerate _) _) ?p ?d _ _ _ _ =>
      apply (wp_for_each (fun p' d' => p <= p' <= len D /\ wt S d'));
        [ let i := fresh "i" in let x := fresh "x" in let d := fresh "d" in
          let Hin := fresh "Hin" in let Hp := fresh "Hp" in let Hd := fresh "Hd" in
          intros [i x] ? d Hin [Hp Hd];
          vm_compute in Hin;
          repeat (destruct Hin as [[= <- <-]|Hin]; [lazy [Z.eqb Pos.eqb orb andb]; wp_auto; wp_done|]);
          destruct Hin
        | split; [wp_lia | assumption]
        | let d := fresh "d" in let Hp := fresh "Hp" in let Hd := fresh "Hd" in intros ? d [Hp Hd] ]
  end.

(** The items of a record: [wp_auto] with loops over names. *)
Ltac wp_record :=
  repeat match goal with
         | |- wp (for_each (enumerate _) _) _ _ _ _ _ _ => wp_names
         | |- _ => wp_rule
         end; try wp_done.

(** The branches of a decoder, one per field reference number. *)
Ltac by_items tac :=
  repeat (match goal with
          | |- wp (if ?c then _ else _) _ _ _ _ _ _ => destruct c
          end; [tac|]);
  wp_auto.

(** ** Proving a contract *)
Lemma call_ok_run {A} (data : bytes) (m : cur (A * Z) (A * Z)) (P : A -> Prop) p :
  0 <= p <= len data ->
  wp m p [] (fun r _ _ => p <= snd r <= len data /\ P (fst r)) noB
    (fun r => p <= snd r <= len data /\ P (fst r)) noE ->
  returns (run m p []) (fun '(a, p') => p <= p' <= len data /\ P a) noE.
Proof.
  intros Hp Hm. apply run_returns in Hm. eapply returns_weaken; [exact Hm| |done].
  by intros [a p'].
Qed.

(** A function that builds a dictionary of its own, and one that may decline. *)
Lemma call_ok_dict (data : bytes) S (m : cur (dict * Z) (dict * Z)) p :
  0 <= p <= len data ->
  (wt S [] -> wp m p [] (fun r _ _ => fills data S p r) noB (fills data S p) noE) ->
  returns (run m p []) (fun '(d, p') => p <= p' <= len data /\ fields_ok S d = true) noE.
Proof.
  intros Hp Hm. specialize (Hm (wt_nil S)). apply run_returns in Hm.
  eapply returns_weaken; [exact Hm| |done]. intros [d p'] [H1 H2]. by split.
Qed.

Lemma call_opt_ok_dict (data : bytes) S (m : cur (option (dict * Z)) (option (dict * Z))) p :
  0 <= p <= len data ->
  (wt S [] -> wp m p [] (fun o _ _ => forall r, o = Some r -> fills data S p r) noB
                (fun o => forall r, o = Some r -> fills data S p r) noE) ->
  returns (run m p [])
    (fun o => match o with
              | Some (d, p') => p <= p' <= len data /\ fields_ok S d = true
              | None => True
              end) noE.
Proof.
  intros Hp Hm. specialize (Hm (wt_nil S)). apply run_returns in Hm.
  eapply returns_weaken; [exact Hm| |done]. intros [[d p']|] H; [|done].
  destruct (H _ eq_refl) as [H1 H2]. by split.
Qed.

(** A function that builds a list of records in a [for _ in range(rep)] loop. *)
Ltac wp_list p t :=
  pose proof (wt_nil []);
  repeat (first [ wp_rule
                | wp_loop_with (@nil (string * ty)) p (fun a => has_ty (TList t) (VList a) = true) ]);
  wp_done.
