(* ===== verification/Contract.v ===== *)
(** * The published contract

    The protobuf messages of compose/protocols/vendors/random/proto/cat.proto,
    one schema per message, and what it means that a decoded record keeps to
    its message: a value that does not fit its field is dropped from the
    protobuf view without a trace ([_assign] of track_views.py), and so is a
    key the message does not name, which cat.proto allows for nested values
    only. *)

From S2P Require Import Prelude PyFloat PyData Schema.

Definition uint32 : ty := TInt 0 4294967295.
Definition int32 : ty := TInt (-2147483648) 2147483647.
Definition double : ty := TEither TFloat (TInt (-9007199254740992) 9007199254740992).

(** A nested value: cat.proto leaves those to the JSON view. *)
Definition nested (v : value) : bool :=
  match v with VList _ | VDict _ => true | _ => false end.
Definition nested_ty (t : ty) : bool :=
  match t with TList _ | TDict _ | TMap _ => true | _ => false end.

(** Every scalar of the record is a field of the message and fits its type.
    [skip] lists the keys the caller maps itself ([_ts], [_src], position). *)
Definition conforms (message : schema) (skip : list string) (d : dict) : bool :=
  forallb (fun kv =>
    selem (fst kv) skip ||
    match field_ty message (fst kv) with
    | Some t => has_ty t (snd kv)
    | None => nested (snd kv)
    end) d.

(** The same, decided on a schema. *)
Definition covered (message : schema) (skip : list string) (s : schema) : bool :=
  forallb (fun kt =>
    selem (fst kt) skip ||
    match field_ty message (fst kt) with
    | Some t => ty_le (snd kt) t
    | None => nested_ty (snd kt)
    end) s.

Lemma nested_has_ty t v : nested_ty t = true -> has_ty t v = true -> nested v = true.
Proof. by destruct t, v. Qed.

Lemma covered_conforms message skip s d :
  covered message skip s = true -> wt s d -> conforms message skip d = true.
Proof.
  unfold covered, conforms, wt, fields_ok. rewrite !forallb_forall.
  intros Hc [_ Hf] [k v] Hin. cbn [fst snd]. specialize (Hf _ Hin). cbn [fst snd] in Hf.
  unfold field_ok in Hf. destruct (field_ty s k) as [t|] eqn:Ht; [|done].
  apply field_ty_In in Ht. specialize (Hc _ Ht). cbn [fst snd] in Hc.
  destruct (selem k skip); [done|]. destruct (field_ty message k).
  - by eapply ty_le_sound.
  - by eapply nested_has_ty.
Qed.

Definition AsterixCat1Track : schema :=
  [("sac", uint32); ("sic", uint32); ("is_track", TBool); ("simulated", TBool); ("ssr_psr", TStr);
   ("antenna", uint32); ("spi", TBool); ("fixed_transponder", TBool); ("test_target", TBool);
   ("emergency", TStr); ("military_emergency", TBool); ("military_id", TBool);
   ("track_num", uint32); ("rho_nm", double); ("theta_deg", double); ("x_nm", double);
   ("y_nm", double); ("speed_ms", double); ("heading_deg", double); ("mode3a_squawk", TStr);
   ("mode3a_validated", TBool); ("mode3a_garbled", TBool); ("mode3a_smoothed", TBool);
   ("mode2_squawk", TStr); ("mode2_validated", TBool); ("mode2_garbled", TBool);
   ("mode2_smoothed", TBool); ("alt_baro_ft", double); ("altitude_validated", TBool);
   ("altitude_garbled", TBool); ("tod_trunc_s", double); ("doppler_speed_ms", double);
   ("received_power_dbm", int32); ("mode_c_gray_code", uint32); ("mode_c_validated", TBool);
   ("mode_c_garbled", TBool); ("confirmed", TBool); ("radar_type", TStr); ("maneuvering", TBool);
   ("doubtful_association", TBool); ("rdp_chain", uint32); ("ghost_track", TBool);
   ("x_pulse_mode3a", TBool); ("x_pulse_modec", TBool); ("x_pulse_mode2", TBool)].

Definition AsterixCat2Status : schema :=
  [("sac", uint32); ("sic", uint32); ("msg_type", TStr); ("sector_deg", double); ("tod_s", double);
   ("antenna_rotation_s", double); ("window_rho_start_nm", double); ("window_rho_end_nm", double);
   ("window_theta_start_deg", double); ("window_theta_end_deg", double); ("range_error_nm", double);
   ("azimuth_error_deg", double)].

Definition AsterixCat4Alert : schema :=
  [("sac", uint32); ("sic", uint32); ("msg_type", TStr); ("tod_s", double); ("alert_id", uint32);
   ("area_status_populated", TBool); ("area_status", TStr); ("alert_status_raw", uint32);
   ("track_num_1", uint32); ("track_num_2", uint32); ("aircraft1_callsign", TStr);
   ("aircraft1_mode3a_squawk", TStr); ("aircraft1_wgs84_lat_deg", double);
   ("aircraft1_wgs84_lon_deg", double); ("aircraft1_wgs84_alt_ft", double);
   ("aircraft1_cart_x_m", double); ("aircraft1_cart_y_m", double); ("aircraft1_cart_z_ft", double);
   ("aircraft1_time_to_threshold_s", double); ("aircraft1_distance_to_threshold_m", double);
   ("aircraft1_mode_s_id", TStr); ("aircraft1_flight_plan_number", uint32);
   ("aircraft1_cleared_fl", double); ("aircraft2_callsign", TStr);
   ("aircraft2_mode3a_squawk", TStr); ("aircraft2_wgs84_lat_deg", double);
   ("aircraft2_wgs84_lon_deg", double); ("aircraft2_wgs84_alt_ft", double);
   ("aircraft2_cart_x_m", double); ("aircraft2_cart_y_m", double); ("aircraft2_cart_z_ft", double);
   ("aircraft2_time_to_threshold_s", double); ("aircraft2_distance_to_threshold_m", double);
   ("aircraft2_mode_s_id", TStr); ("aircraft2_flight_plan_number", uint32);
   ("aircraft2_cleared_fl", double); ("conflict_military_airspace", TBool);
   ("conflict_civil_airspace", TBool); ("conflict_fast_lateral_divergence", TBool);
   ("conflict_fast_vertical_divergence", TBool); ("conflict_major_separation", TBool);
   ("conflict_crossed", TBool); ("conflict_diverging", TBool); ("conflict_table_id", uint32);
   ("conflict_properties_raw", uint32); ("conflict_severity_high", TBool);
   ("conflict_probability_pct", double); ("conflict_duration_s", double);
   ("vertical_deviation_ft", double); ("longitudinal_deviation_m", double);
   ("transversal_deviation_m", double)].

Definition AsterixCat7Track : schema :=
  [("sac", uint32); ("sic", uint32); ("dest_sac", uint32); ("dest_sic", uint32); ("msg_type", TStr);
   ("is_uplink", TBool); ("tod_s", double); ("request_high_priority", TBool);
   ("request_number", uint32); ("report_type", TStr); ("simulated", TBool); ("rdp_chain", uint32);
   ("spi", TBool); ("field_monitor", TBool); ("test_target", TBool); ("extended_range", TBool);
   ("x_pulse_present", TBool); ("military_emergency", TBool); ("military_id", TBool);
   ("mode4", TStr); ("adsb_populated", TBool); ("adsb_available", TBool); ("scn_populated", TBool);
   ("scn_available", TBool); ("pai_populated", TBool); ("pai_available", TBool);
   ("acasvx_populated", TBool); ("acasvx_version", uint32); ("poxpr_populated", TBool);
   ("poxpr_available", TBool); ("poact_populated", TBool); ("poact_active", TBool);
   ("dtfxpr_populated", TBool); ("dtfxpr_supported", TBool); ("dtfact_populated", TBool);
   ("dtfact_active", TBool); ("irmxpr_populated", TBool); ("irmxpr_capable", TBool);
   ("irmact_populated", TBool); ("irmact_active", TBool); ("rho_nm", double); ("theta_deg", double);
   ("x_nm", double); ("y_nm", double); ("mode3a_squawk", TStr); ("mode3a_validated", TBool);
   ("mode3a_garbled", TBool); ("flight_level", double); ("fl_validated", TBool);
   ("fl_garbled", TBool); ("icao24", TStr); ("callsign", TStr); ("track_num", uint32);
   ("speed_ms", double); ("heading_deg", double); ("confirmed", TBool); ("radar_type", TStr);
   ("low_confidence", TBool); ("horizontal_maneuver", TBool); ("climb_descend", TStr);
   ("end_of_track", TBool); ("ghost_track", TBool); ("neighboring_node", TBool);
   ("slant_range_corrected", TBool); ("sigma_x_nm", double); ("sigma_y_nm", double);
   ("sigma_speed_ms", double); ("sigma_heading_deg", double); ("mode_c_gray_code", uint32);
   ("mode_c_validated", TBool); ("mode_c_garbled", TBool); ("height_3d_ft", double);
   ("comm_capability", TStr); ("flight_status", TStr); ("si_capable", TBool);
   ("mode_s_service_capable", TBool); ("altitude_resolution_25ft", TBool);
   ("aircraft_id_capable", TBool); ("bds10_raw", uint32); ("acas_ra_raw", TStr);
   ("mode1_validated", TBool); ("mode1_garbled", TBool); ("mode1_smoothed", TBool);
   ("mode1_code", TStr); ("mode2_squawk", TStr); ("mode2_validated", TBool);
   ("mode2_garbled", TBool); ("window_rho_start_nm", double); ("window_rho_end_nm", double);
   ("window_theta_start_deg", double); ("window_theta_end_deg", double)].

Definition AsterixCat8Weather : schema :=
  [("sac", uint32); ("sic", uint32); ("msg_type", TStr); ("coord_system", TStr);
   ("intensity", uint32); ("shading_deg", double); ("test_vector", TBool);
   ("error_condition", TBool); ("contour_coord_system", TStr); ("contour_intensity", uint32);
   ("contour_position", TStr); ("contour_serial_number", uint32); ("tod_s", double);
   ("scaling_factor", int32); ("reduction_stage", uint32); ("total_items", uint32)].

Definition AsterixCat9Weather : schema :=
  [("sac", uint32); ("sic", uint32); ("msg_type", TStr); ("coord_system", TStr);
   ("intensity", uint32); ("shading_deg", double); ("step_number", uint32); ("tod_s", double);
   ("scaling_factor", int32); ("reduction_stage", uint32); ("vector_count", uint32)].

Definition AsterixCat10Track : schema :=
  [("sac", uint32); ("sic", uint32); ("msg_type", TStr); ("track_num", uint32); ("icao24", TStr);
   ("callsign", TStr); ("squawk", TStr); ("cart_x_m", double); ("cart_y_m", double);
   ("speed_ms", double); ("heading_deg", double); ("delete_track", TBool); ("target_type", TStr);
   ("acas_multi_threat", TBool); ("acas_ra_active", TBool); ("acas_ra_corrective", TBool);
   ("acas_ra_hex", TStr); ("acas_ra_sense", TStr); ("acas_ra_terminated", TBool);
   ("accel_east_ms2", double); ("accel_north_ms2", double); ("alt_hold", TBool);
   ("approach_mode", TBool); ("azimuth_deg", double); ("baro_alt_m", double);
   ("baro_setting_mb", double); ("baro_vr_fpm", (TInt (- 2 ^ 63) (2 ^ 63 - 1)));
   ("bds_gs_kt", double); ("channel", (TInt (- 2 ^ 63) (2 ^ 63 - 1)));
   ("coasting", (TInt (- 2 ^ 63) (2 ^ 63 - 1))); ("confirmed", TBool); ("corrupted_reply", TBool);
   ("differential_correction", TBool); ("diversity_degraded", TBool); ("field_monitor", TBool);
   ("flight_level", double); ("geo_alt_m", double); ("ghost_track", TBool);
   ("ias_kt", (TInt (- 2 ^ 63) (2 ^ 63 - 1))); ("in_trouble", TBool);
   ("ivv_fpm", (TInt (- 2 ^ 63) (2 ^ 63 - 1))); ("lat_deg", double); ("lon_deg", double);
   ("loop_status", TStr); ("mach", double); ("mag_hdg_deg", double); ("manoeuvring", TBool);
   ("measured_height_ft", double); ("movement", TStr); ("on_ground", TBool);
   ("orientation_deg", double); ("overload", TBool);
   ("preprogrammed_message", (TInt (- 2 ^ 63) (2 ^ 63 - 1)));
   ("primary_amplitude", (TInt (- 2 ^ 63) (2 ^ 63 - 1)));
   ("range_m", (TInt (- 2 ^ 63) (2 ^ 63 - 1))); ("roll_deg", double);
   ("sel_alt_fms_ft", (TInt (- 2 ^ 63) (2 ^ 63 - 1)));
   ("sel_alt_mcp_ft", (TInt (- 2 ^ 63) (2 ^ 63 - 1))); ("sensor_type", TStr); ("sigma_x_m", double);
   ("sigma_xy_m2", double); ("sigma_y_m", double); ("simulated", TBool);
   ("smoothed_position", TBool); ("spi", TBool); ("system_status", TStr);
   ("target_length_m", (TInt (- 2 ^ 63) (2 ^ 63 - 1)));
   ("target_width_m", (TInt (- 2 ^ 63) (2 ^ 63 - 1))); ("tas_kt", double); ("test_target", TBool);
   ("test_target_failure", TBool); ("time_source_invalid", TBool); ("tod_s", double);
   ("track_rate_degs", double); ("transponder_ground_bit", TBool); ("true_track_deg", double);
   ("vehicle_fleet", TStr); ("velocity_east_ms", double); ("velocity_north_ms", double);
   ("vnav_active", TBool)].

Definition AsterixCat10SensorStatus : schema :=
  [("sac", uint32); ("sic", uint32); ("status", TStr)].

Definition AsterixCat20Track : schema :=
  [("sac", uint32); ("sic", uint32); ("track_num", uint32); ("icao24", TStr); ("callsign", TStr);
   ("squawk", TStr); ("x_m", double); ("y_m", double); ("measured_height_ft", double);
   ("acas_multi_threat", TBool); ("acas_ra_active", TBool); ("acas_ra_corrective", TBool);
   ("acas_ra_hex", TStr); ("acas_ra_sense", TStr); ("acas_ra_terminated", TBool);
   ("accel_east_ms2", double); ("accel_north_ms2", double); ("address_format", TStr);
   ("alt_baro_ft", (TInt (- 2 ^ 63) (2 ^ 63 - 1))); ("alt_baro_garbled", TBool);
   ("alt_baro_invalid", TBool); ("alt_geom_ft", (TInt (- 2 ^ 63) (2 ^ 63 - 1)));
   ("alt_hold", TBool); ("approach_mode", TBool); ("baro_setting_mb", double);
   ("baro_vr_fpm", (TInt (- 2 ^ 63) (2 ^ 63 - 1))); ("bds_gs_kt", double);
   ("channel", (TInt (- 2 ^ 63) (2 ^ 63 - 1))); ("coasting", TBool); ("comms_acas_raw", TStr);
   ("confirmed", TBool); ("contributing_device_masks", TList TStr); ("corrupted_reply", TBool);
   ("dop_x", double); ("dop_xy", double); ("dop_y", double); ("field_monitor", TBool);
   ("fleet_id", (TInt (- 2 ^ 63) (2 ^ 63 - 1))); ("ghost_track", TBool); ("heading_deg", double);
   ("height_accuracy_m", double); ("ias_kt", (TInt (- 2 ^ 63) (2 ^ 63 - 1))); ("in_trouble", TBool);
   ("ivv_fpm", (TInt (- 2 ^ 63) (2 ^ 63 - 1))); ("lat_deg", double); ("lon_deg", double);
   ("mach", double); ("mag_hdg_deg", double); ("manoeuvring", TBool);
   ("mlat_technologies", TList TStr); ("mode1", TStr); ("mode2", TStr);
   ("mode_c_alt_ft", (TInt (- 2 ^ 63) (2 ^ 63 - 1))); ("on_ground", TBool);
   ("pos_accuracy_x_m", double); ("pos_accuracy_y_m", double); ("pos_correlation", double);
   ("preprog_msg", TStr); ("roll_deg", double); ("sel_alt_fms_ft", (TInt (- 2 ^ 63) (2 ^ 63 - 1)));
   ("sel_alt_mcp_ft", (TInt (- 2 ^ 63) (2 ^ 63 - 1))); ("simulated", TBool);
   ("smoothed_position", TBool); ("speed_ms", double); ("spi", TBool); ("squawk_from_track", TBool);
   ("squawk_garbled", TBool); ("squawk_invalid", TBool); ("tas_kt", double); ("test_target", TBool);
   ("tod_s", double); ("track_rate_degs", double); ("true_track_deg", double);
   ("velocity_east_ms", double); ("velocity_north_ms", double); ("vertical_trend", TStr);
   ("vnav_active", TBool); ("warning_error_codes", TList TStr)].

Definition AsterixCat21Track : schema :=
  [("sac", uint32); ("sic", uint32); ("icao24", TStr); ("callsign", TStr); ("squawk", TStr);
   ("emitter_category", uint32); ("alt_geom_ft", double); ("alt_baro_ft", double);
   ("mops_version", uint32); ("nac_p", uint32); ("nac_v", uint32); ("sil", uint32);
   ("acas_multi_threat", TBool); ("acas_ra_active", TBool); ("acas_ra_corrective", TBool);
   ("acas_ra_hex", TStr); ("acas_ra_sense", TStr); ("acas_ra_terminated", TBool);
   ("addr_type", TStr); ("air_ref_velocity_capable", TBool);
   ("aircraft_operational_status_raw", (TInt (- 2 ^ 63) (2 ^ 63 - 1))); ("alert", TStr);
   ("alt_hold", TStr); ("alt_res", TStr); ("altitude_hold_mode", TBool); ("approach_mode", TBool);
   ("autopilot", TStr); ("baro_setting_mb", TStr); ("baro_vr_fpm", double); ("bds_gs_kt", double);
   ("cdti_airborne_operational", TBool); ("cdti_surface_operational", TBool);
   ("class_b2_low_power", TBool); ("confidence_level", (TInt (- 2 ^ 63) (2 ^ 63 - 1)));
   ("cpr_validation_failed", TBool); ("data_age_acas_ra_s", double);
   ("data_age_air_speed_s", double); ("data_age_aircraft_status_s", double);
   ("data_age_amplitude_s", double); ("data_age_baro_vr_s", double);
   ("data_age_final_altitude_s", double); ("data_age_flight_level_s", double);
   ("data_age_geo_vr_s", double); ("data_age_geometric_height_s", double);
   ("data_age_ground_vector_s", double); ("data_age_mag_heading_s", double);
   ("data_age_met_s", double); ("data_age_mode3a_s", double); ("data_age_quality_s", double);
   ("data_age_roll_s", double); ("data_age_selected_altitude_s", double);
   ("data_age_surface_capabilities_s", double); ("data_age_target_descriptor_s", double);
   ("data_age_target_id_s", double); ("data_age_target_status_s", double);
   ("data_age_track_angle_rate_s", double); ("data_age_trajectory_s", double);
   ("data_age_true_air_speed_s", double); ("diff_correction", TStr);
   ("differential_correction", TBool); ("emitter_category_str", TStr); ("field_monitor", TBool);
   ("final_alt_ft", (TInt (- 2 ^ 63) (2 ^ 63 - 1))); ("geo_vr_fpm", double);
   ("ground_speed_range_exceeded", TBool); ("ground_station_nogo", TBool);
   ("gva", (TInt (- 2 ^ 63) (2 ^ 63 - 1))); ("heading_deg", double); ("ias_kt", double);
   ("ident_switch", TBool); ("iff", TStr); ("independent_position_check_failed", TBool);
   ("intent_change", TBool); ("ivv_fpm", (TInt (- 2 ^ 63) (2 ^ 63 - 1))); ("lat_deg", double);
   ("link_tech", TStr); ("link_technology", TStr); ("list_lookup_suspect", TBool);
   ("lnav_engaged", TBool); ("local_position_jump", TBool); ("lon_deg", double); ("mach", double);
   ("mag_hdg_deg", double); ("managed_vertical_mode", TBool);
   ("maximum_bits_corrected", (TInt (- 2 ^ 63) (2 ^ 63 - 1)));
   ("message_amplitude_dbm", (TInt (- 2 ^ 63) (2 ^ 63 - 1))); ("mil_emergency", TBool);
   ("mil_ident", TStr); ("mops_version_unsupported", TBool);
   ("nic", (TInt (- 2 ^ 63) (2 ^ 63 - 1))); ("nic_baro", TBool); ("on_ground", TBool);
   ("pic", (TInt (- 2 ^ 63) (2 ^ 63 - 1))); ("pic_direct", TBool);
   ("position_offset_applied", TBool); ("position_reception_time_hp", double);
   ("position_reception_time_s", double); ("position_time_s", double);
   ("priority_status", (TInt (- 2 ^ 63) (2 ^ 63 - 1))); ("range_check_fail", TStr);
   ("range_check_failed", TBool); ("range_check_passed_cpr_pending", TBool);
   ("receiver_id", (TInt (- 2 ^ 63) (2 ^ 63 - 1))); ("receiving_atc_services", TBool);
   ("report_period_s", double); ("report_transmission_time_s", double); ("roll_deg", double);
   ("sda", (TInt (- 2 ^ 63) (2 ^ 63 - 1))); ("sel_alt_fms_ft", TStr); ("sel_alt_mcp_ft", TStr);
   ("selected_alt_ft", (TInt (- 2 ^ 63) (2 ^ 63 - 1))); ("selected_alt_source", TStr);
   ("selected_alt_source_available", TBool); ("selected_altitude_unavailable", TBool);
   ("service_id", (TInt (- 2 ^ 63) (2 ^ 63 - 1))); ("signal_amplitude_dbm", TStr);
   ("sil_per_sample", TBool); ("simulated", TBool); ("single_antenna", TBool); ("speed_ms", double);
   ("spi", TBool); ("surface_length_width_code", (TInt (- 2 ^ 63) (2 ^ 63 - 1)));
   ("surface_vehicle", TStr); ("target_state_report_capable", TBool); ("tas_kt", double);
   ("tas_range_exceeded", TBool); ("tcas_operational", TBool); ("tcas_ra", TStr);
   ("temp_c", double); ("test_target", TBool); ("tod_accuracy_s", TStr); ("tod_s", TStr);
   ("total_bits_corrected", (TInt (- 2 ^ 63) (2 ^ 63 - 1))); ("track_angle_rate_degs", double);
   ("track_num", (TInt (- 2 ^ 63) (2 ^ 63 - 1))); ("track_rate_degs", double);
   ("trajectory_change_capability", TStr); ("true_track_deg", double);
   ("turbulence", (TInt (- 2 ^ 63) (2 ^ 63 - 1))); ("velocity_reception_time_hp", double);
   ("velocity_reception_time_s", double); ("velocity_time_s", double);
   ("vertical_rate_range_exceeded", TBool); ("vnav_active", TStr);
   ("wind_dir_deg", (TInt (- 2 ^ 63) (2 ^ 63 - 1)));
   ("wind_speed_kt", (TInt (- 2 ^ 63) (2 ^ 63 - 1)))].

Definition AsterixCat34Status : schema :=
  [("sac", uint32); ("sic", uint32); ("msg_type", TStr); ("sector_deg", double);
   ("antenna_azimuth_deg", double); ("rotation_s", double); ("system_status", TStr);
   ("processing_status", TStr); ("sys_nogo", TBool); ("rdp_chain_2", TBool); ("rdp_restart", TBool);
   ("sys_ovl_rdp", TBool); ("sys_ovl_xmt", TBool); ("sys_msc_connected", TBool);
   ("sys_tsv_invalid", TBool); ("psr_status", TStr); ("ssr_status", TStr); ("mds_status", TStr);
   ("rdp_reduction_level", uint32); ("xmt_reduction_level", uint32);
   ("psr_reduction_level", uint32); ("ssr_reduction_level", uint32);
   ("mds_reduction_level", uint32); ("site_lat", double); ("site_lon", double);
   ("site_alt_m", double); ("collimation_rng_nm", double); ("collimation_az_deg", double);
   ("coverage_az_end_deg", double); ("coverage_az_start_deg", double);
   ("coverage_rho_end_nm", double); ("coverage_rho_start_nm", double); ("data_filter", TStr);
   ("heading_deg", TStr); ("mds_antenna", (TInt (- 2 ^ 63) (2 ^ 63 - 1))); ("mds_channel", TStr);
   ("mds_cluster_state", TBool); ("mds_dlf_channel", (TInt (- 2 ^ 63) (2 ^ 63 - 1)));
   ("mds_dlf_overload", TBool); ("mds_msc_connected", TBool); ("mds_overload", TBool);
   ("mds_scf_channel", (TInt (- 2 ^ 63) (2 ^ 63 - 1))); ("mds_scf_overload", TBool);
   ("msg_counts", TStr); ("psr_antenna", (TInt (- 2 ^ 63) (2 ^ 63 - 1))); ("psr_channel", TStr);
   ("psr_msc_connected", TBool); ("psr_overload", TBool); ("psr_polarization", TStr);
   ("psr_stc_map", (TInt (- 2 ^ 63) (2 ^ 63 - 1))); ("radar_clock_s", TStr); ("speed_ms", TStr);
   ("ssr_antenna", (TInt (- 2 ^ 63) (2 ^ 63 - 1))); ("ssr_channel", TStr);
   ("ssr_msc_connected", TBool); ("ssr_overload", TBool); ("tod_s", double)].

Definition AsterixCat48Track : schema :=
  [("sac", uint32); ("sic", uint32); ("track_num", uint32); ("icao24", TStr); ("callsign", TStr);
   ("squawk", TStr); ("range_nm", double); ("azimuth_deg", double); ("alt_baro_ft", double);
   ("track_sensor", TStr); ("confirmed", TBool); ("track_end", TBool); ("acas_multi_threat", TBool);
   ("acas_ra_active", TBool); ("acas_ra_corrective", TBool); ("acas_ra_hex", TStr);
   ("acas_ra_sense", TStr); ("acas_ra_terminated", TBool); ("aic", TBool); ("alert", TBool);
   ("alt_3d_ft", (TInt (- 2 ^ 63) (2 ^ 63 - 1))); ("alt_baro_garbled", TBool);
   ("alt_baro_invalid", TBool); ("alt_hold", TBool); ("altitude_25ft", TBool);
   ("approach_mode", TBool); ("baro_setting_mb", double);
   ("baro_vr_fpm", (TInt (- 2 ^ 63) (2 ^ 63 - 1))); ("bds10_b1a", TBool);
   ("bds10_b1b", (TInt (- 2 ^ 63) (2 ^ 63 - 1))); ("bds_gs_kt", double); ("cart_x_nm", double);
   ("cart_y_nm", double); ("com_capability", (TInt (- 2 ^ 63) (2 ^ 63 - 1)));
   ("detection_type", TStr); ("doppler_ambiguity_ms", (TInt (- 2 ^ 63) (2 ^ 63 - 1)));
   ("doppler_doubtful", TBool); ("doppler_frequency_mhz", (TInt (- 2 ^ 63) (2 ^ 63 - 1)));
   ("doppler_kt", double); ("doppler_ms", (TInt (- 2 ^ 63) (2 ^ 63 - 1)));
   ("doppler_raw_ms", (TInt (- 2 ^ 63) (2 ^ 63 - 1))); ("extended_range", TBool);
   ("field_monitor", TBool); ("heading_deg", double); ("ias_kt", (TInt (- 2 ^ 63) (2 ^ 63 - 1)));
   ("iff", TStr); ("interrogator_code_capability", TStr);
   ("ivv_fpm", (TInt (- 2 ^ 63) (2 ^ 63 - 1))); ("lat_deg", double); ("lon_deg", double);
   ("mach", double); ("mag_hdg_deg", double); ("mil_emergency", TBool); ("mil_ident", TBool);
   ("mode1", TStr); ("mode1_garbled", TBool); ("mode1_invalid", TBool);
   ("mode1_quality_mask", (TInt (- 2 ^ 63) (2 ^ 63 - 1))); ("mode1_smoothed", TBool);
   ("mode2", TStr); ("mode2_garbled", TBool); ("mode2_invalid", TBool);
   ("mode2_quality_mask", (TInt (- 2 ^ 63) (2 ^ 63 - 1))); ("mode2_smoothed", TBool);
   ("mode_c_alt_ft", (TInt (- 2 ^ 63) (2 ^ 63 - 1))); ("mssc", TBool); ("on_ground", TBool);
   ("psr_amplitude_dbm", (TInt (- 2 ^ 63) (2 ^ 63 - 1))); ("psr_runlength_deg", double);
   ("psr_ssr_az_diff_deg", double); ("psr_ssr_range_diff_nm", double); ("radar_id", TStr);
   ("rdp_chain", TBool); ("roll_deg", double); ("sel_alt_fms_ft", (TInt (- 2 ^ 63) (2 ^ 63 - 1)));
   ("sel_alt_mcp_ft", (TInt (- 2 ^ 63) (2 ^ 63 - 1))); ("simulated", TBool);
   ("slant_range_correction", TBool); ("speed_ms", double); ("spi", TBool);
   ("squawk_garbled", TBool); ("squawk_invalid", TBool); ("squawk_not_extracted", TBool);
   ("squawk_quality_mask", (TInt (- 2 ^ 63) (2 ^ 63 - 1)));
   ("ssr_amplitude_dbm", (TInt (- 2 ^ 63) (2 ^ 63 - 1)));
   ("ssr_reply_count", (TInt (- 2 ^ 63) (2 ^ 63 - 1))); ("ssr_runlength_deg", double);
   ("supported_by_neighbour_node", TBool); ("target_type", TStr); ("tas_kt", double);
   ("test_target", TBool); ("tod_s", double); ("track_doubtful", TBool); ("track_ghost", TBool);
   ("track_manoeuvre", TBool); ("track_rate_degs", double); ("track_sigma_heading_deg", double);
   ("track_sigma_v_kt", double); ("track_sigma_x_nm", double); ("track_sigma_y_nm", double);
   ("track_tentative", TBool); ("transponder_status", TStr); ("true_track_deg", double);
   ("vertical_trend", TStr); ("vnav_active", TBool); ("warning_error_names", TList TStr);
   ("we_conditions", TList TStr); ("x_pulse", TBool)].

Definition AsterixCat16Status : schema :=
  [("sac", uint32); ("sic", uint32); ("service_id", uint32); ("msg_type", TStr); ("tod_s", double);
   ("reporting_period_s", uint32); ("height_m", double)].

Definition AsterixCat25Status : schema :=
  [("sac", uint32); ("sic", uint32); ("report_type_raw", uint32); ("event_driven", TBool);
   ("message_id", uint32); ("service_id", uint32); ("service_designator", TStr); ("tod_s", double);
   ("nogo", TBool); ("ops_mode", TStr); ("overall_status", TStr); ("system_status", TStr);
   ("service_status", TStr); ("height_m", double)].

Definition AsterixCat63Status : schema :=
  [("sac", uint32); ("sic", uint32); ("service_id", uint32); ("tod_s", double);
   ("sensor_sac", uint32); ("sensor_sic", uint32); ("connection_status", TStr); ("psr_nogo", TBool);
   ("ssr_nogo", TBool); ("mds_nogo", TBool); ("ads_nogo", TBool); ("mlt_nogo", TBool);
   ("operational_release_inhibited", TBool); ("overload_processor", TBool);
   ("overload_transmission", TBool); ("monitoring_disconnected", TBool);
   ("time_source_invalid", TBool); ("no_plot_warning", TBool); ("test_target_failure", TBool);
   ("spoofing_suspected", TBool); ("time_stamping_bias_ms", int32); ("ssr_range_gain", double);
   ("ssr_range_bias_nm", double); ("ssr_azimuth_bias_deg", double); ("psr_range_gain", double);
   ("psr_range_bias_nm", double); ("psr_azimuth_bias_deg", double);
   ("psr_elevation_bias_deg", double)].

Definition AsterixCat65Status : schema :=
  [("sac", uint32); ("sic", uint32); ("msg_type", TStr); ("service_id", uint32); ("tod_s", double);
   ("batch_number", uint32); ("sdps_status", TStr); ("overload", TBool);
   ("time_source_invalid", TBool); ("processing_system", TStr); ("track_renumbering_toggle", TBool);
   ("service_status_report", TStr)].

Definition AsterixCat240Status : schema :=
  [("sac", uint32); ("sic", uint32); ("msg_type", TStr); ("sequence_number", uint32);
   ("video_summary", TStr); ("start_azimuth_deg", double); ("end_azimuth_deg", double);
   ("start_range_cells", uint32); ("cell_duration_ns", uint32); ("cell_duration_fs", uint32);
   ("compression_applied", TBool); ("bit_resolution", TStr); ("valid_octets", uint32);
   ("valid_cells", uint32); ("video_block_hex", TStr); ("video_block_cells", uint32);
   ("tod_s", double)].

Definition AsterixCat247Status : schema :=
  [("sac", uint32); ("sic", uint32); ("service_id", uint32); ("tod_s", double)].

Definition AsterixCat19Status : schema :=
  [("sac", uint32); ("sic", uint32); ("msg_type", TStr); ("tod_s", double); ("nogo", TStr);
   ("overload", TBool); ("time_source_invalid", TBool); ("test_target_failure", TBool);
   ("site_lat", double); ("site_lon", double); ("site_alt_m", double);
   ("undulation_m", (TInt (- 2 ^ 63) (2 ^ 63 - 1)))].

Definition AsterixCat23Status : schema :=
  [("sac", uint32); ("sic", uint32); ("report_type", TStr); ("service_id", uint32);
   ("service_type", TStr); ("tod_s", double); ("nogo", TBool); ("overload_processor", TBool);
   ("overload_comms", TBool); ("monitoring_connected", TBool); ("time_source_invalid", TBool);
   ("spoofing_suspected", TBool); ("track_id_renumbered", TBool);
   ("status_report_period_s", uint32); ("cat021_report_period_s", double);
   ("service_class", uint32); ("service_status_report_period_s", uint32);
   ("operational_range_nm", uint32); ("service_status", TStr)].

Definition AsterixCat150Status : schema :=
  [("sac", uint32); ("sic", uint32); ("dest_centre", uint32); ("dest_workstation", uint32);
   ("source_centre", uint32); ("source_workstation", uint32); ("msg_type", TStr);
   ("plan_ref_number", uint32); ("callsign", TStr); ("present_squawk", TStr); ("next_squawk", TStr);
   ("departure_airport", TStr); ("destination_airport", TStr); ("general_air_traffic", TBool);
   ("operational_air_traffic", TBool); ("complete_flight_plan", TBool);
   ("short_flight_plan", TBool); ("in_hold", TBool); ("rvsm_equipped", TBool);
   ("rvsm_capable", TBool); ("rvsm_exempted", TBool); ("number_of_aircraft", TStr);
   ("aircraft_type", TStr); ("wake_turbulence_cat", TStr); ("cleared_flight_level", TStr);
   ("controller_id", TStr); ("field_18", TStr); ("correlated_track_num", uint32);
   ("max_plan_count", uint32); ("number_of_plans", uint32)].

Definition AsterixCat32Status : schema :=
  [("server_sac", uint32); ("server_sic", uint32); ("user_number", uint32); ("sac", uint32);
   ("sic", uint32); ("family", TStr); ("nature", TStr); ("nature_raw", uint32); ("tod_s", double);
   ("track_num", uint32); ("squawk", TStr); ("callsign", TStr); ("plan_number", uint32);
   ("gat_oat", TStr); ("flight_rules", TStr); ("special_priority_raw", uint32);
   ("departure_airport", TStr); ("destination_airport", TStr); ("cleared_flight_level", double);
   ("control_centre", uint32); ("control_position", uint32); ("aircraft_type", TStr);
   ("wake_turbulence_cat", TStr); ("ifps_id_type", TStr); ("ifps_id_number", uint32);
   ("rvsm", TStr); ("high_priority_flight", TBool); ("runway", TStr); ("aircraft_stand", TStr);
   ("stand_status", TStr); ("stand_availability", TStr); ("sid", TStr); ("star", TStr)].

Definition AsterixCat11Track : schema :=
  [("sac", uint32); ("sic", uint32); ("msg_type", TStr); ("service_id", uint32); ("tod_s", double);
   ("cart_x_m", double); ("cart_y_m", double); ("velocity_east_ms", double);
   ("velocity_north_ms", double); ("speed_ms", double); ("heading_deg", double);
   ("accel_east_ms2", double); ("accel_north_ms2", double); ("squawk", TStr); ("sti", TStr);
   ("callsign", TStr); ("icao24", TStr); ("com", TStr); ("flight_status", TStr); ("ssc", TBool);
   ("altitude_reporting", TBool); ("aircraft_id_capability", TBool);
   ("bds10_bit_array_available", TBool); ("bds10_bit_array_raw", uint32);
   ("altitude_capability", TBool); ("mode_s_specific_service", TBool);
   ("dte_sub_addressing", TBool); ("aircraft_type", TStr); ("emitter_category", TStr);
   ("vdl_mode4", TBool); ("mode_s_datalink", TBool); ("uat_datalink", TBool); ("roll_deg", double);
   ("true_track_deg", double); ("bds_gs_kt", double); ("track_rate_degs", double);
   ("tas_kt", double); ("mag_hdg_deg", double); ("ias_kt", uint32); ("mach", double);
   ("baro_vr_fpm", int32); ("ivv_fpm", int32); ("sel_alt_mcp_ft", uint32);
   ("sel_alt_fms_ft", uint32); ("baro_setting_mb", double); ("vnav_active", TBool);
   ("alt_hold", TBool); ("approach_mode", TBool); ("acas_ra_active", TBool); ("acas_ra_hex", TStr);
   ("acas_ra_sense", TStr); ("acas_ra_corrective", TBool); ("acas_ra_terminated", TBool);
   ("acas_multi_threat", TBool); ("track_num", uint32); ("monosensor", TBool);
   ("ground_bit", TBool); ("geometric_alt_more_reliable", TBool); ("height_source", TStr);
   ("confirmed", TBool); ("simulated", TBool); ("track_service_end", TBool);
   ("track_service_begin", TBool); ("mode4_friend_foe", TStr); ("military_emergency", TBool);
   ("military_identification", TBool); ("amalgamated", TBool); ("spi", TBool); ("coasting", TBool);
   ("flight_plan_correlated", TBool); ("adsb_inconsistent", TBool); ("psr_update_stale", TBool);
   ("ssr_update_stale", TBool); ("mode_s_update_stale", TBool); ("ads_update_stale", TBool);
   ("special_used_code", TBool); ("mode_a_conflict", TBool); ("track_age_psr_s", double);
   ("track_age_ssr_s", double); ("track_age_mda_s", double); ("track_age_mfl_s", double);
   ("track_age_mds_s", double); ("track_age_ads_s", double); ("track_age_adb_s", double);
   ("track_age_md1_s", double); ("track_age_md2_s", double); ("track_age_lop_s", double);
   ("track_age_trk_s", double); ("track_age_mul_s", double); ("phase_of_flight", TStr);
   ("flight_level", double); ("qnh_correction", TBool); ("baro_flight_level", double);
   ("geo_alt_ft", double); ("climb_rate_fpm", double); ("target_length_m", uint32);
   ("orientation_deg", double); ("target_width_m", uint32); ("callsign_fpl", TStr);
   ("ifps_id_type_raw", uint32); ("ifps_id_number", uint32); ("gat_oat_raw", uint32);
   ("fr1_fr2_raw", uint32); ("rvsm_raw", uint32); ("hpr", TBool); ("time_of_arrival", TStr);
   ("wake_turbulence_cat", TStr); ("departure_airport", TStr); ("destination_airport", TStr);
   ("runway", TStr); ("cleared_flight_level", double); ("control_centre", uint32);
   ("control_position", uint32); ("aircraft_stand", TStr); ("emp_raw", uint32); ("avl_raw", uint32);
   ("vehicle_fleet", TStr); ("on_ground", TBool); ("in_trouble", TBool);
   ("preprogrammed_message", TStr); ("pos_accuracy_x_m", double); ("pos_accuracy_y_m", double);
   ("pos_accuracy_lat_deg", double); ("pos_accuracy_lon_deg", double);
   ("height_accuracy_m", double); ("vel_accuracy_x_ms", double); ("vel_accuracy_y_ms", double);
   ("rate_accuracy_ms", double); ("accel_accuracy_x_ms2", double); ("accel_accuracy_y_ms2", double);
   ("alert_acknowledged", TBool); ("alert_severity", TStr); ("alert_type", uint32);
   ("alert_number", uint32); ("fpps_sac", uint32); ("fpps_sic", uint32)].

Definition AsterixCat15Track : schema :=
  [("sac", uint32); ("sic", uint32); ("msg_type", TStr); ("event_driven", TBool);
   ("service_id", uint32); ("momu", TStr); ("ttax", TStr); ("scd", TStr); ("tod_s", double);
   ("track_num", uint32); ("in_blind_zone", TBool); ("in_blanked_zone", TBool);
   ("terminated_by_user", TBool); ("coasted_position", TBool); ("coasted_height", TBool);
   ("confirmed", TBool); ("update_period_s", double); ("target_length_m", double);
   ("target_width_m", double); ("target_height_m", double); ("orientation_deg", double);
   ("pair_id", uint32); ("observation_num", uint32); ("hpos_resolution_x_m", double);
   ("hpos_resolution_y_m", double); ("hpos_resolution_corr_xy", double);
   ("hpos_precision_x_m", double); ("hpos_precision_y_m", double);
   ("hpos_precision_corr_xy", double); ("geo_height_m", double);
   ("geo_height_resolution_m", double); ("geo_height_precision_m", double);
   ("geo_height_ci_6_upper_m", uint32); ("geo_height_ci_6_lower_m", uint32);
   ("geo_height_ci_9_upper_m", uint32); ("geo_height_ci_9_lower_m", uint32);
   ("corr_geo_height_hp_x", double); ("corr_geo_height_hp_y", double);
   ("corr_geo_height_hv_x", double); ("corr_geo_height_hv_y", double);
   ("corr_geo_height_ha_x", double); ("corr_geo_height_ha_y", double); ("hvel_x_ms", double);
   ("hvel_y_ms", double); ("hvel_resolution_x_ms", double); ("hvel_resolution_y_ms", double);
   ("hvel_resolution_corr_xy", double); ("hvel_precision_x_ms", double);
   ("hvel_precision_y_ms", double); ("hvel_precision_corr_xy", double);
   ("corr_hvel_x_hpos_x", double); ("corr_hvel_x_hpos_y", double); ("corr_hvel_y_hpos_x", double);
   ("corr_hvel_y_hpos_y", double); ("haccel_x_ms2", double); ("haccel_y_ms2", double);
   ("haccel_precision_x_ms2", double); ("haccel_precision_y_ms2", double);
   ("haccel_precision_corr_xy", double); ("corr_haccel_x_hpos_x", double);
   ("corr_haccel_x_hpos_y", double); ("corr_haccel_y_hpos_x", double);
   ("corr_haccel_y_hpos_y", double); ("corr_haccel_x_hvel_x", double);
   ("corr_haccel_x_hvel_y", double); ("corr_haccel_y_hvel_x", double);
   ("corr_haccel_y_hvel_y", double); ("vvel_ms", double); ("vvel_resolution_ms", double);
   ("vvel_precision_ms", double); ("corr_vvel_geo_height", double); ("corr_vvel_hp_x", double);
   ("corr_vvel_hp_y", double); ("corr_vvel_hv_x", double); ("corr_vvel_hv_y", double);
   ("corr_vvel_ha_x", double); ("corr_vvel_ha_y", double); ("vaccel_ms2", double);
   ("vaccel_precision_ms2", double); ("corr_vaccel_geo_height", double);
   ("corr_vaccel_vvel", double); ("corr_vaccel_hp_x", double); ("corr_vaccel_hp_y", double);
   ("corr_vaccel_hv_x", double); ("corr_vaccel_hv_y", double); ("corr_vaccel_ha_x", double);
   ("corr_vaccel_ha_y", double); ("range_m", double); ("range_resolution_m", double);
   ("range_precision_m", double); ("range_rate_ms", double); ("range_rate_resolution_ms", double);
   ("range_rate_precision_ms", double); ("corr_range_rate_range", double);
   ("range_accel_ms2", double); ("range_accel_precision_ms2", double);
   ("corr_range_accel_range", double); ("corr_range_accel_range_rate", double);
   ("doppler_vel_ms", double); ("doppler_vel_precision_ms", double); ("doppler_accel_ms2", double);
   ("doppler_accel_precision_ms2", double); ("corr_doppler_accel_vel", double);
   ("corr_doppler_vel_range", double); ("corr_doppler_vel_range_rate", double);
   ("corr_doppler_vel_range_accel", double); ("corr_doppler_accel_range", double);
   ("corr_doppler_accel_range_rate", double); ("corr_doppler_accel_range_accel", double);
   ("azimuth_deg", double); ("azimuth_resolution_deg", double); ("azimuth_precision_deg", double);
   ("azimuth_rate_degs", double); ("azimuth_rate_precision_degs", double);
   ("corr_azimuth_rate_azimuth", double); ("azimuth_extent_start_deg", double);
   ("azimuth_extent_end_deg", double); ("elevation_deg", double);
   ("elevation_resolution_deg", double); ("elevation_precision_deg", double);
   ("elevation_rate_degs", double); ("elevation_rate_precision_degs", double);
   ("corr_elevation_rate_elevation", double); ("elevation_extent_start_deg", double);
   ("elevation_extent_end_deg", double); ("direct_path_power_db", int32);
   ("direct_path_snr_db", int32); ("reflected_path_power_db", int32);
   ("reflected_path_snr_db", int32)].

Definition AsterixCat17Track : schema :=
  [("sac", uint32); ("sic", uint32); ("dest_sac", uint32); ("dest_sic", uint32); ("msg_type", TStr);
   ("icao24", TStr); ("duplicate_address_ref", uint32); ("tod_s", double);
   ("squawk_not_validated", TBool); ("squawk_garbled", TBool); ("squawk_smoothed", TBool);
   ("squawk", TStr); ("flight_level_not_validated", TBool); ("flight_level_garbled", TBool);
   ("flight_level", double); ("ground_speed_kt", double); ("heading_deg", double);
   ("comm_capability", TStr); ("si_capable", TBool); ("coasted", TBool);
   ("flight_level_predicted", TBool); ("cluster_command_state", uint32)].

Definition AsterixCat18Track : schema :=
  [("sac", uint32); ("sic", uint32); ("dest_sac", uint32); ("dest_sic", uint32); ("msg_type", TStr);
   ("cause", TStr); ("diagnostic", TStr); ("icao24", TStr); ("packet_number", uint32);
   ("packet_priority", uint32); ("packet_type", TStr); ("mode_s_packet_hex", TStr);
   ("gicb_periodicity_s", uint32); ("gicb_priority", uint32); ("gicb_periodicity_strict", TBool);
   ("gicb_async_update", TBool); ("gicb_no_extraction", TBool); ("gicb_reply_destination", TStr);
   ("gicb_number", uint32); ("bds_code", TStr); ("acas_ra_active", TBool); ("acas_ra_hex", TStr);
   ("acas_ra_sense", TStr); ("acas_ra_corrective", TBool); ("acas_ra_terminated", TBool);
   ("acas_multi_threat", TBool); ("sel_alt_mcp_ft", uint32); ("sel_alt_fms_ft", uint32);
   ("baro_setting_mb", double); ("vnav_active", TBool); ("alt_hold", TBool);
   ("approach_mode", TBool); ("mag_hdg_deg", double); ("ias_kt", uint32); ("mach", double);
   ("baro_vr_fpm", int32); ("ivv_fpm", int32); ("roll_deg", double); ("true_track_deg", double);
   ("bds_gs_kt", double); ("track_rate_degs", double); ("tas_kt", double);
   ("gicb_extracted_hex", TStr); ("tod_s", double); ("uplink_mask", TBool);
   ("downlink_mask", TBool); ("uplink_stop", TBool); ("downlink_stop", TBool);
   ("uplink_disabled_default", TBool); ("downlink_disabled_default", TBool);
   ("uplink_disabled_current", TBool); ("downlink_disabled_current", TBool);
   ("exit_indication", TBool); ("interrogator_control_locked", TBool); ("comm_capability", TStr);
   ("capability_report_hex", TStr); ("range_nm", double); ("azimuth_deg", double);
   ("cart_x_nm", double); ("cart_y_nm", double); ("broadcast_number", uint32);
   ("broadcast_priority", uint32); ("broadcast_power", uint32); ("broadcast_duration_s", uint32);
   ("broadcast_coverage_raw", TStr); ("broadcast_prefix_raw", uint32);
   ("broadcast_message_hex", TStr); ("previous_ii_code", uint32); ("current_ii_code", uint32);
   ("callsign", TStr); ("squawk_not_validated", TBool); ("squawk_garbled", TBool); ("squawk", TStr);
   ("flight_level_not_validated", TBool); ("flight_level_garbled", TBool); ("flight_level", double);
   ("ground_speed_kt", double); ("heading_deg", double); ("on_ground", TBool);
   ("cqf_supported", TBool); ("cqf_defined", TBool); ("cqf", uint32);
   ("cqf_calculation_method", uint32)].

Definition AsterixCat205Track : schema :=
  [("sac", uint32); ("sic", uint32); ("service_id", uint32); ("msg_type", TStr); ("tod_s", double);
   ("report_number", uint32); ("radio_channel", TStr); ("cart_x_m", double); ("cart_y_m", double);
   ("local_bearing_deg", double); ("system_bearing_deg", double);
   ("measurement_quality_raw", uint32); ("position_uncertainty_m", uint32);
   ("conflicting_lat_deg", double); ("conflicting_lon_deg", double);
   ("conflicting_cart_x_m", double); ("conflicting_cart_y_m", double);
   ("conflicting_position_uncertainty_m", uint32); ("track_num", uint32); ("sensor_id", uint32);
   ("signal_level_dbuv", double); ("signal_quality", uint32); ("signal_elevation_deg", double)].

Definition Cat62Track : schema :=
  [("sac", uint32); ("sic", uint32); ("service_id", uint32); ("tod_s", double); ("lat_deg", double);
   ("lon_deg", double); ("x_m", double); ("y_m", double); ("vx_ms", double); ("vy_ms", double);
   ("speed_ms", double); ("heading_deg", double); ("ax_ms2", double); ("ay_ms2", double);
   ("squawk", TStr); ("track_num", uint32); ("track_monosensor", TBool); ("confirmed", TBool);
   ("measured_alt_ft", double); ("calc_geo_alt_ft", double); ("calc_baro_alt_ft", double);
   ("acas_multi_threat", TStr); ("acas_ra_corrective", TStr); ("acas_ra_sense", TStr);
   ("acas_ra_terminated", TStr); ("aircraft_geo_alt_ft", double); ("aircraft_lat_deg", double);
   ("aircraft_lon_deg", double); ("aircraft_stand", TStr); ("aircraft_type", TStr);
   ("alt_baro_ft", TStr); ("alt_discrepancy", TBool); ("alt_hold", TStr); ("amalgamated", TStr);
   ("approach_mode", TStr); ("baro_alt_accuracy_ft", (TInt (- 2 ^ 63) (2 ^ 63 - 1)));
   ("baro_setting_mb", double); ("baro_vr_fpm", double); ("bds_gs_kt", TStr); ("calc_alt_ft", TStr);
   ("callsign", TStr); ("cleared_fl", double); ("current_fl", TStr); ("departure_icao", TStr);
   ("destination_icao", TStr); ("emergency_code", TStr); ("emergency_str", TStr);
   ("emitter_category", (TInt (- 2 ^ 63) (2 ^ 63 - 1)));
   ("final_alt_ft", (TInt (- 2 ^ 63) (2 ^ 63 - 1))); ("fleet_id", (TInt (- 2 ^ 63) (2 ^ 63 - 1)));
   ("flight_gat", TStr); ("flight_plan_callsign", TStr); ("flight_rules", TStr);
   ("fp_callsign", TStr); ("fp_correlated", TStr); ("geo_alt_accuracy_ft", double);
   ("geo_vr_fpm", double); ("height_src", TStr); ("high_priority", TStr); ("ias_kt", double);
   ("icao24", TStr); ("ivv_fpm", TStr); ("lateral_trend", TStr); ("mach", double);
   ("mag_hdg_deg", double); ("meas_alt_ft", (TInt (- 2 ^ 63) (2 ^ 63 - 1)));
   ("meas_az_deg", double); ("meas_range_nm", double); ("measured_by", TStr);
   ("mil_emergency", TStr); ("mil_ident", TStr); ("mode1", TStr); ("mode2", TStr);
   ("mode5_active", TStr); ("mode5_data", TStr); ("mode5_iff", TStr); ("mode_c_alt_ft", TStr);
   ("pos_accuracy_lat_m", TStr); ("pos_accuracy_lon_m", TStr); ("pos_accuracy_x_m", double);
   ("pos_accuracy_y_m", double); ("qnh_corrected", TBool); ("roll_deg", double); ("runway", TStr);
   ("rvsm", TStr); ("sel_alt_fms_ft", TStr); ("sel_alt_mcp_ft", TStr);
   ("selected_alt_ft", (TInt (- 2 ^ 63) (2 ^ 63 - 1))); ("sid", TStr); ("simulated", TStr);
   ("speed_trend", TStr); ("spi", TStr); ("stand_docking", TStr); ("stand_occupied", TStr);
   ("star", TStr); ("target_length_m", (TInt (- 2 ^ 63) (2 ^ 63 - 1)));
   ("target_orientation_deg", double); ("target_width_m", (TInt (- 2 ^ 63) (2 ^ 63 - 1)));
   ("tas_kt", (TInt (- 2 ^ 63) (2 ^ 63 - 1))); ("temp_c", double); ("track_age_ads_b_es_s", double);
   ("track_age_ads_c_s", double); ("track_age_loop_s", double); ("track_age_lop_s", TStr);
   ("track_age_mlat_s", double); ("track_age_mlt_s", TStr); ("track_age_mode_s_s", double);
   ("track_age_psr_s", double); ("track_age_ssr_s", double); ("track_age_track_s", double);
   ("track_age_uat_s", double); ("track_age_vdl4_s", double); ("track_angle_rate_degs", double);
   ("track_begin", TBool); ("track_coasting", TStr); ("track_end", TStr); ("track_rate_degs", TStr);
   ("track_tentative", TStr); ("true_track_deg", TStr);
   ("turbulence", (TInt (- 2 ^ 63) (2 ^ 63 - 1))); ("vertical_rate_fpm", double);
   ("vertical_trend", TStr); ("vnav_active", TStr); ("wake_turb_cat", TStr);
   ("wind_dir_deg", (TInt (- 2 ^ 63) (2 ^ 63 - 1)));
   ("wind_speed_kt", (TInt (- 2 ^ 63) (2 ^ 63 - 1))); ("fpps_sac", uint32); ("fpps_sic", uint32);
   ("ifps_id_type", uint32); ("ifps_flight_id", uint32); ("runway_nu1", uint32);
   ("runway_nu2", uint32); ("control_centre", uint32); ("control_position", uint32);
   ("stand_emplacement", uint32); ("stand_availability", uint32);
   ("pre_emergency_squawk_valid", TBool); ("pre_emergency_squawk", TStr);
   ("pre_emergency_callsign", TStr)].
