(* ===== verification/AsterixCommon.v ===== *)
(** * Helpers shared by the ASTERIX categories

    cat.py repeats these functions, with the same text, once per category; each
    category file gives them the category's name again. *)

From S2P Require Import Prelude PyFloat PyData Schema Ranges Cursor Safety Contract.

(** ** Numbers *)
Definition u16 : bytes -> exc Z := unpack_u 2.
Definition s16 : bytes -> exc Z := unpack_s 2.
Definition s32 : bytes -> exc Z := unpack_s 4.
Definition s8 : bytes -> exc Z := unpack_s 1.

Definition s24 (raw : bytes) : exc Z :=
  let v := int_from_bytes raw in
  Ok (if bit v (Z.shiftl 1 23) then v - Z.shiftl 1 24 else v).

#[export] Instance slice_ok_u16 : SliceOk u16 2 (fun v => InRange v 0 65535).
Proof. exact (slice_ok_unpack_u 2). Qed.
#[export] Instance slice_ok_s16 : SliceOk s16 2 (fun v => InRange v (-32768) 32767).
Proof. exact (slice_ok_unpack_s 2 _). Qed.
#[export] Instance slice_ok_s32 : SliceOk s32 4 (fun v => InRange v (-2147483648) 2147483647).
Proof. exact (slice_ok_unpack_s 4 _). Qed.
#[export] Instance slice_ok_s8 : SliceOk s8 1 (fun v => InRange v (-128) 127).
Proof. exact (slice_ok_unpack_s 1 _). Qed.

(** ** FSPEC *)

(** The seven presence bits of an octet, most significant first. *)
Definition fspec_bits (byte : Z) : list bool :=
  map (fun shift => bit byte (Z.shiftl 1 shift)) [7; 6; 5; 4; 3; 2; 1].

Definition parse_fspec (data : bytes) (pos : Z) : exc (list bool * Z) :=
  run (bits <- while_ (fuel_of data) (fun bits =>
         none <- short data 1 ;;
         if none then ret (stop bits) else
         byte <- at_ data 0 ;;
         adv 1 ;;
         let bits := bits ++ fspec_bits byte in
         ret (if negb (bit byte 0x01) then stop bits else more bits)) [] ;;
       return_ (fun pos _ => (bits, pos))) pos [].

(** ** Length-prefixed fields *)
Definition skip_len_field (data : bytes) (pos : Z) : exc Z :=
  if len data <=? pos then Ok (len data) else
  let? length := byte_at data pos in
  Ok (if (1 <=? length) && (pos + length <=? len data) then pos + length else len data).

(** ** FX-chained octets: seven data bits and an extension bit each *)
Definition decode_fx_repetitive (data : bytes) (pos : Z) : exc (list Z * Z) :=
  run (items <- fx_octets data (fun b => Z.shiftr b 1) ;;
       return_ (fun pos _ => (items, pos))) pos [].

#[export] Instance parse_fspec_ok data :
  CallOk data (parse_fspec data) (fun _ => True).
Proof.
  intros p Hp. apply call_ok_run; [done|]. apply wp_bind.
  apply (wp_while data (fun _ p' _ => p <= p')); [|lia|lia|apply fuel_of_enough; lia].
  intros bits p' d' Hp' Hlen. repeat wp_rule; [by wp_done|].
  destruct (negb _); cbv iota; [repeat wp_rule; by wp_done|lia].
Qed.

#[export] Instance decode_fx_repetitive_ok data :
  CallOk data (decode_fx_repetitive data) (Forall (fun v => InRange v 0 127)).
Proof.
  intros p Hp. apply call_ok_run; [done|]. apply wp_bind.
  apply (wp_fx_octets (fun v => InRange v 0 127)); [intros; red; in_range|done|].
  intros. by wp_auto.
Qed.

#[export] Instance skip_len_field_ok data : GotoOk data (skip_len_field data).
Proof.
  intros p Hp. unfold skip_len_field.
  destruct (Z.leb_spec (len data) p); [cbn; lia|].
  destruct (byte_at_ok data p) as (b & -> & Hb); [lia|]. cbn.
  destruct (Z.leb_spec 1 b), (Z.leb_spec (p + b) (len data)); cbn; lia.
Qed.

(** ** Names and numbers in fields *)

(** [_asterix_source]: the reporting sensor's SAC-SIC. *)
Definition sac_sic (v : option value) : Z :=
  match v with Some (VInt n) => n | _ => 0 end.
Definition _asterix_source (track : dict) : string :=
  fmt_d 3 (sac_sic (dget track "sac")) +:+ "-" +:+ fmt_d 3 (sac_sic (dget track "sic")).

Definition string_of (l : list ascii) : string := string_of_list_ascii l.

(** The 64 characters of the ICAO 6-bit alphabet. *)
Definition CHARSET_6BIT : list ascii :=
  list_ascii_of_string "@ABCDEFGHIJKLMNOPQRSTUVWXYZ[\]^_ !" ++ [ascii_of_N 34] ++
  list_ascii_of_string "#$%&'()*+,-./0123456789:;<=>?".

Fixpoint exc_map {A B} (f : A -> exc B) (l : list A) : exc (list B) :=
  match l with
  | [] => Ok []
  | x :: l' => let? y := f x in let? ys := exc_map f l' in Ok (y :: ys)
  end.

Definition decode_callsign (raw : bytes) : exc string :=
  let bits := int_from_bytes raw in
  let? cs := exc_map (fun i => index CHARSET_6BIT (Z.land (Z.shiftr bits (i * 6)) 0x3F))
                     [7; 6; 5; 4; 3; 2; 1; 0] in
  Ok (strip (string_of cs)).

Lemma exc_map_ok {A B} (f : A -> exc B) l :
  (forall x, exists y, f x = Ok y) -> exists ys, exc_map f l = Ok ys.
Proof.
  intros Hf. induction l as [|x l [ys IH]]; cbn; [eauto|].
  destruct (Hf x) as [y ->]. cbn. rewrite IH. cbn. eauto.
Qed.

#[export] Instance decode_callsign_ok n : SliceOk decode_callsign n (fun _ => True).
Proof.
  intros raw _. unfold decode_callsign. cbv zeta.
  destruct (exc_map_ok (fun i => index CHARSET_6BIT (Z.land (Z.shiftr (int_from_bytes raw) (i * 6)) 0x3F))
              [7; 6; 5; 4; 3; 2; 1; 0]) as [cs ->]; [|done].
  intros i. pose proof (land_range (Z.shiftr (int_from_bytes raw) (i * 6)) 0x3F ltac:(lia)).
  destruct (index_ok CHARSET_6BIT (Z.land (Z.shiftr (int_from_bytes raw) (i * 6)) 0x3F)) as (c & Hc & _);
    [|eauto]. change (len CHARSET_6BIT) with 64. lia.
Qed.

(** ** Positions *)
Section Geo.
Context `{Libm}.

Definition polar_to_wgs84 (radar_lat radar_lon range_nm azimuth_deg : float) : exc (float * float) :=
  let d := fmul range_nm (fl 1852) in
  let R := fl 6371000 in
  let lat1 := radians radar_lat in
  let lon1 := radians radar_lon in
  let az := radians azimuth_deg in
  let? sin_lat1 := m_sin lat1 in
  let? cos_dR := m_cos (fdiv_raw d R) in
  let? cos_lat1 := m_cos lat1 in
  let? sin_dR := m_sin (fdiv_raw d R) in
  let? cos_az := m_cos az in
  let? lat2 := m_asin (fadd (fmul sin_lat1 cos_dR) (fmul (fmul cos_lat1 sin_dR) cos_az)) in
  let? sin_az := m_sin az in
  let? sin_lat2 := m_sin lat2 in
  let? a := m_atan2 (fmul (fmul sin_az sin_dR) cos_lat1) (fsub cos_dR (fmul sin_lat1 sin_lat2)) in
  Ok (degrees lat2, degrees (fadd lon1 a)).

Definition cartesian_to_wgs84 (origin_lat origin_lon x_m y_m : float) : exc (float * float) :=
  let lat := fadd origin_lat (fdiv_raw y_m (fl 111320)) in
  let? c := m_cos (radians origin_lat) in
  let lon_scale := fmul (fl 111320) c in
  let lon := fadd origin_lon (if ftruth lon_scale then fdiv_raw x_m lon_scale else fl 0) in
  Ok (lat, lon).
End Geo.

(** Sums of a [Libm] computation raise only ValueError. *)
Definition value_error (e : exn) : Prop := e = ValueError.

Lemma returns_bind {A B} (m : exc A) (f : A -> exc B) Q E :
  returns m (fun a => returns (f a) Q E) E -> returns (exc_bind m f) Q E.
Proof. by destruct m. Qed.

Lemma m_atan2_err `{LibmOk} x y e : m_atan2 x y = Raise e -> e = ValueError.
Proof. destruct (m_atan2_total x y) as [r ->]. done. Qed.

#[export] Instance lift_ok_atan2 `{LibmOk} x y : LiftOk (m_atan2 x y) (fun _ => True) noE.
Proof. unfold LiftOk. by destruct (m_atan2_total x y) as [r ->]. Qed.
#[export] Instance lift_ok_hypot `{LibmOk} x y : LiftOk (m_hypot x y) (fun _ => True) noE.
Proof. unfold LiftOk. by destruct (m_hypot_total x y) as [r ->]. Qed.

Ltac libm :=
  repeat first
    [ progress cbv zeta | apply returns_bind
    | match goal with
      | |- returns (?f ?x) _ _ => destruct (f x) eqn:?; cbn
      | |- returns (?f ?x ?y) _ _ => destruct (f x y) eqn:?; cbn
      end ];
  unfold value_error;
  eauto using m_sin_err, m_cos_err, m_asin_err, m_atan2_err.

Lemma polar_to_wgs84_err `{LibmOk} a b c d : returns (polar_to_wgs84 a b c d) (fun _ => True) value_error.
Proof. unfold polar_to_wgs84. libm. Qed.

Lemma cartesian_to_wgs84_err `{LibmOk} a b c d :
  returns (cartesian_to_wgs84 a b c d) (fun _ => True) value_error.
Proof. unfold cartesian_to_wgs84. libm. Qed.

#[export] Instance lift_ok_polar `{LibmOk} a b c d :
  LiftOk (polar_to_wgs84 a b c d) (fun _ => True) value_error.
Proof. apply polar_to_wgs84_err. Qed.
#[export] Instance lift_ok_cartesian `{LibmOk} a b c d :
  LiftOk (cartesian_to_wgs84 a b c d) (fun _ => True) value_error.
Proof. apply cartesian_to_wgs84_err. Qed.

(** The only exception of a decoder that georeferences: ValueError of the C
    library, when a radar site is configured. *)
Definition geo_error (lat lon : option float) (e : exn) : Prop :=
  e = ValueError /\ is_Some lat /\ is_Some lon.

Lemma geo_error_some a b e : value_error e -> geo_error (Some a) (Some b) e.
Proof. intros H. split_and!; eauto. Qed.
#[export] Hint Resolve geo_error_some : wp_err.

(** ** Pulse quality bits, one flag per name, first name most significant *)
Definition pulse_quality (names : list string) (raw : Z) : dict :=
  fold_left (fun quality '(index, name) =>
    let shift := len names - 1 - index in
    dset name (VBool (bit raw (Z.shiftl 1 shift))) quality) (enumerate names) [].

(** The names of the twelve pulses. *)
Definition CONF_PULSES_ABCD : list string :=
  ["qa4"; "qa2"; "qa1"; "qb4"; "qb2"; "qb1"; "qc4"; "qc2"; "qc1"; "qd4"; "qd2"; "qd1"].
Definition conf_schema : schema := map (fun name => (name, TBool)) CONF_PULSES_ABCD.

Lemma pulse_quality_ok names raw :
  forallb (fun name => match field_ty conf_schema name with Some TBool => true | _ => false end) names
    = true ->
  fields_ok conf_schema (pulse_quality names raw) = true.
Proof.
  intros Hn. unfold pulse_quality. set (n := len names). clearbody n.
  assert (forall l d, (forall i x, In (i, x) l -> In x names) -> wt conf_schema d ->
    wt conf_schema (fold_left (fun quality '(index, name) =>
      let shift := n - 1 - index in
      dset name (VBool (bit raw (Z.shiftl 1 shift))) quality) l d)) as Hl.
  { induction l as [|[i x] l IHl]; intros d Hin Hd; [done|]. cbn [fold_left].
    apply IHl; [intros; eapply Hin; by right|]. apply wt_dset; [done|].
    rewrite forallb_forall in Hn. specialize (Hn x (Hin i x (in_eq _ _))).
    unfold field_ok. by destruct (field_ty conf_schema x) as [[]|]. }
  apply Hl; [|apply wt_nil]. intros i x. apply enumerate_In.
Qed.

(** ** The frame decoders

    [for frn, present in enumerate(fspec): if not present: continue; item] *)
Definition for_fspec {R} (fspec : list bool) (item : Z -> cur R unit) : cur R unit :=
  for_each (enumerate fspec) (fun '(frn, present) =>
    if negb present then skip else item frn).

(** [bool(msg)] and [msg if msg else None] *)
Definition nonempty {A} (l : list A) : bool := match l with [] => false | _ => true end.
Definition msg_or_none (msg : dict) : option dict := if nonempty msg then Some msg else None.

(** What a frame decoder returns: nothing, or a record of schema [S]. *)
Definition record_of (S : schema) (o : option dict) : Prop :=
  match o with Some d => wt S d /\ d <> [] | None => True end.

(** An item keeps the cursor inside the data and the record in its schema, or
    ends in [T] or [E]. *)
Definition item_ok {R} (data : bytes) (S : schema) (T : R -> Prop) (E : exn -> Prop)
    (m : cur R unit) : Prop :=
  forall p d, 0 <= p <= len data -> wt S d ->
    wp m p d (fun _ => inside data S p) (inside data S p) T E.

Lemma item_ok_weaken {R} data S (T T' : R -> Prop) (E E' : exn -> Prop) m :
  (forall r, T r -> T' r) -> (forall e, E e -> E' e) -> item_ok data S T E m -> item_ok data S T' E' m.
Proof.
  intros HT HE Hm p d Hp Hd. specialize (Hm p d Hp Hd). unfold wp in *. destruct (m p d); auto.
Qed.

Lemma wp_for_fspec {R} data S (T : R -> Prop) E B fspec item p d :
  (forall frn, 0 <= frn -> item_ok data S T E (item frn)) -> 0 <= p <= len data -> wt S d ->
  wp (for_fspec fspec item) p d (fun _ => inside data S p) B T E.
Proof.
  intros Hi Hp Hd. apply (wp_for_each (inside data S p)); [| |done].
  - intros [frn present] p' d' Hin%enumerate_nonneg [Hp' Hd'].
    destruct (negb present); [by apply wp_skip|].
    eapply wp_weaken; [apply Hi; [done|lia|done]| |].
    + intros _ p2 d2 [? ?]. split; [lia|done].
    + intros p2 d2 [? ?]. split; [lia|done].
  - split; [lia|done].
Qed.

(** The items after the first ones, when their tags depend on the message. *)
Lemma wp_tagged_items {R} data S (T : R -> Prop) E B fspec items (item : string -> cur R unit) p d :
  (forall tag, item_ok data S T E (item tag)) -> 0 <= p <= len data -> wt S d ->
  wp (for_fspec fspec (fun offset =>
        if len items <=? offset then goto (skip_len_field data) else
        tag <- lift (index items offset) ;;
        item tag)) p d (fun _ => inside data S p) B T E.
Proof.
  intros Hi. apply wp_for_fspec. intros offset Hoffset p2 d2 Hp2 Hd2.
  destruct (Z.leb_spec (len items) offset).
  - eapply (wp_goto data); [apply skip_len_field_ok|done|]. intros p' Hp'. split; [lia|done].
  - apply wp_bind, wp_lift. destruct (index_ok items offset) as (tag & -> & _); [lia|].
    by apply Hi.
Qed.

Lemma msg_or_none_ok S d : wt S d -> record_of S (msg_or_none d).
Proof. intros H. by destruct d. Qed.

(** A frame decoder is safe when its items are. *)
Lemma frame_ok data S E fspec pos d item :
  0 <= pos <= len data -> wt S d ->
  (forall frn, 0 <= frn -> item_ok data S (record_of S) E (item frn)) ->
  returns (run (for_fspec fspec item ;; return_ (fun _ msg => msg_or_none msg)) pos d)
    (record_of S) E.
Proof.
  intros Hp Hd Hi. apply run_returns, wp_bind.
  eapply wp_weaken; [by eapply wp_for_fspec| |done].
  intros _ p' d' [_ Hd']. by apply wp_return, msg_or_none_ok.
Qed.

Lemma frame_decoder_ok data S E (parse : bytes -> Z -> exc (list bool * Z)) item :
  CallOk data (parse data) (fun _ => True) ->
  (forall frn, 0 <= frn -> item_ok data S (record_of S) E (item frn)) ->
  returns (if len data <? 1 then Ok None else
           let? (fspec, pos) := parse data 0 in
           run (for_fspec fspec item ;; return_ (fun _ msg => msg_or_none msg)) pos [])
    (record_of S) E.
Proof.
  intros Hparse Hi. destruct (len data <? 1); [done|]. apply returns_bind.
  eapply returns_weaken; [apply Hparse; pose proof (len_nonneg data); lia| |done].
  intros [fspec pos] [Hp _]. apply (frame_ok data); [lia|apply wt_nil|done].
Qed.

(** ** Publishing *)

(** A sample handed to [publish_dual]: its topic and its record. *)
Definition sample : Type := string * dict.

(** The handlers stamp a record with the receive time and the edition. *)
Definition stamp (now : float) (src : string) (msg : dict) : dict :=
  dset "_src" (VStr src) (dset "_ts" (VFloat now) msg).

Definition stamp_schema : schema := [("_ts", TFloat); ("_src", TStr)].

Lemma wt_stamp S S' now src d :
  schema_le S S' && schema_le stamp_schema S' = true -> wt S d -> wt S' (stamp now src d).
Proof.
  intros [HS Hst]%andb_true_iff Hd. unfold stamp.
  pose proof (schema_le_sub _ _ Hst) as Hsub.
  apply wt_dset; [apply wt_dset; [by apply (wt_le S)|]|]; by apply Hsub.
Qed.

(** A sample of schema [S] is on the topic its own SAC/SIC give, and keeps to
    the contract of its protobuf message; the stamp and the position travel in
    the NormalizedTrack every message wraps. *)
Definition normalized_keys : list string := ["_ts"; "_src"; "lat_deg"; "lon_deg"].
Definition samples_ok (topic : string -> string) (S message : schema) (out : list sample) : Prop :=
  Forall (fun s => fst s = topic (_asterix_source (snd s)) /\ wt S (snd s) /\
                   conforms message normalized_keys (snd s) = true) out.

Lemma samples_one topic S message d :
  covered message normalized_keys S = true -> wt S d ->
  samples_ok topic S message [(topic (_asterix_source d), d)].
Proof.
  intros Hc Hd. constructor; [|constructor]. cbn [fst snd].
  split_and!; [done|done|by eapply covered_conforms].
Qed.

(** The handler of a frame category that drops records without a position. *)
Lemma located_handler_ok decode (S S' message : schema) topic now src E (adjust : dict -> dict) :
  returns decode (record_of S) E ->
  (forall d, wt S d -> wt S' (adjust d)) ->
  schema_le S' S' && schema_le stamp_schema S' && covered message normalized_keys S' = true ->
  returns (let? o := decode in
           match o with
           | None => Ok []
           | Some msg =>
               let msg := adjust msg in
               if negb (dmem "lat_deg" msg) || negb (dmem "lon_deg" msg) then Ok [] else
               let msg := stamp now src msg in Ok [(topic (_asterix_source msg), msg)]
           end) (fun out => len out <= 1 /\ samples_ok topic S' message out) E.
Proof.
  intros Hd Ha [Hs Hc]%andb_true_iff. apply returns_bind.
  eapply returns_weaken; [exact Hd| |done].
  intros [msg|] Hr; [|split; [done|constructor]]. destruct Hr as [Hr _]. cbv zeta.
  case_match; (split; [done|]); [constructor|].
  apply samples_one; [done|]. apply (wt_stamp S'); [done|by apply Ha].
Qed.

(** The handler of a frame category: decode, stamp, publish. [finish] is what
    the handler does to the record in between, [identity] where it takes the
    SAC/SIC of the topic from. *)
Lemma finished_handler_ok decode (S S' message : schema) (topic : string -> string) now src (finish identity : dict -> dict) E :
  returns decode (record_of S) E ->
  (forall d, wt S' d -> wt S' (finish d)) ->
  schema_le S S' && schema_le stamp_schema S' && covered message normalized_keys S' = true ->
  returns (let? o := decode in
           match o with
           | None => Ok []
           | Some msg =>
               let msg := finish (stamp now src msg) in
               Ok [(topic (_asterix_source (identity msg)), msg)]
           end)
    (fun out => len out <= 1 /\
       Forall (fun s => fst s = topic (_asterix_source (identity (snd s))) /\ wt S' (snd s) /\
                        conforms message normalized_keys (snd s) = true) out) E.
Proof.
  intros Hd Hf [Hs Hc]%andb_true_iff. apply returns_bind.
  eapply returns_weaken; [exact Hd| |done].
  intros [msg|] Hr; (split; [done|]); [|constructor]. destruct Hr as [Hr _].
  pose proof (Hf _ (wt_stamp S S' now src _ Hs Hr)) as Hw.
  constructor; [|constructor]. cbn [fst snd]. split_and!; [done|done|by eapply covered_conforms].
Qed.

Lemma frame_handler_ok decode (S S' message : schema) topic now src E :
  returns decode (record_of S) E ->
  schema_le S S' && schema_le stamp_schema S' && covered message normalized_keys S' = true ->
  returns (let? o := decode in
           match o with
           | None => Ok []
           | Some msg => let msg := stamp now src msg in Ok [(topic (_asterix_source msg), msg)]
           end) (fun out => len out <= 1 /\ samples_ok topic S' message out) E.
Proof. intros Hd. by apply (finished_handler_ok decode S S' message topic now src (fun d => d) (fun d => d)). Qed.
