(* ===== verification/Bds.v ===== *)
(** * Mode-S registers and Gillham altitudes

    The decoders of the Mode-S Comm-B registers (BDS 1,0 to 6,0), shared word
    for word by the categories that carry them, and the two versions of the
    Mode-C altitude decoder in cat.py. *)

From S2P Require Import Prelude PyFloat PyData Schema Ranges Cursor Safety AsterixCommon.

(** ** Register fields

    [_bit], [_uns] and [_sgn] count the 56 payload bits from 1, most
    significant first. *)
Definition _bit (v n : Z) : Z := Z.land (Z.shiftr v (56 - n)) 1.
Definition _uns (v a b : Z) : Z :=
  Z.land (Z.shiftr v (56 - b)) (Z.shiftl 1 (b - a + 1) - 1).
Definition _sgn (v a b : Z) : Z :=
  let w := b - a + 1 in
  let r := _uns v a b in
  if Z.shiftl 1 (w - 1) <=? r then r - Z.shiftl 1 w else r.

Definition flag (v n : Z) : bool := negb (_bit v n =? 0).
(** [if c: out[k] = v] *)
Definition if_ (c : bool) (d : dict) : dict := if c then d else [].

#[export] Instance in_range_uns v a b :
  TCEq (a <=? b) true -> InRange (_uns v a b) 0 (2 ^ (b - a + 1) - 1).
Proof.
  intros H%TCEq_eq. apply Z.leb_le in H. unfold InRange, _uns.
  rewrite Z.shiftl_mul_pow2 by lia. rewrite Z.mul_1_l. apply land_range.
  pose proof (Z.pow_pos_nonneg 2 (b - a + 1)). lia.
Qed.

#[export] Instance in_range_sgn v a b :
  TCEq (a <=? b) true -> InRange (_sgn v a b) (- 2 ^ (b - a)) (2 ^ (b - a) - 1).
Proof.
  intros H. pose proof (in_range_uns v a b H) as Hr. apply TCEq_eq, Z.leb_le in H.
  unfold InRange, _sgn in *. rewrite !Z.shiftl_mul_pow2, !Z.mul_1_l by lia.
  replace (b - a + 1 - 1) with (b - a) by lia.
  rewrite Z.pow_add_r, Z.pow_1_r in * by lia.
  destruct (Z.leb_spec (2 ^ (b - a)) (_uns v a b)); lia.
Qed.

Definition decode_bds10 (mb : bytes) : dict :=
  let v := int_from_bytes (slice mb 0 7) in
  [("dlc_continuation_flag", VBool (flag v 9));
   ("overlay_command_capability", VBool (flag v 15));
   ("acas_operational", VBool (flag v 16));
   ("mode_s_subnetwork_version", VInt (_uns v 17 23));
   ("transponder_level5", VBool (flag v 24));
   ("mode_s_specific_services", VBool (flag v 25));
   ("uplink_elm_throughput", VInt (_uns v 26 28));
   ("downlink_elm_throughput", VInt (_uns v 29 32));
   ("aircraft_id_capability", VBool (flag v 33));
   ("squitter_capability", VBool (flag v 34));
   ("surveillance_id_capability", VBool (flag v 35));
   ("common_usage_gicb_capability", VBool (flag v 36));
   ("acas_hybrid_surveillance", VBool (flag v 37));
   ("acas_resolution_advisory", VBool (flag v 38));
   ("acas_rtca_version", VInt (_uns v 39 40));
   ("dte_status", VInt (_uns v 41 56))].

Definition BDS17_CAPABILITY : list string :=
  ["0,5"; "0,6"; "0,7"; "0,8"; "0,9"; "0,A"; "2,0"; "2,1";
   "4,0"; "4,1"; "4,2"; "4,3"; "4,4"; "4,5"; "4,8"; "5,0";
   "5,1"; "5,2"; "5,3"; "5,4"; "5,5"; "5,6"; "5,F"; "6,0"].

Definition decode_bds17 (mb : bytes) : dict :=
  let v := int_from_bytes (slice mb 0 7) in
  [("supported_bds",
    VList (map (fun ic => VStr (snd ic))
      (filter (fun ic => negb (Z.land (Z.shiftr v (56 - (fst ic + 1))) 1 =? 0))
        (enumerate BDS17_CAPABILITY))))].

Definition decode_bds30 (mb : bytes) : dict :=
  if len mb <? 7 then [] else
  let v := int_from_bytes (slice mb 0 7) in
  if negb (flag v 9) then [] else
  let corrective := flag v 10 in
  let downward := flag v 11 in
  [("acas_ra_active", VBool true); ("acas_ra_hex", VStr (fmt_x 14 v))] ++
  if_ corrective [("acas_ra_sense", VStr (if downward then "DESCEND" else "CLIMB"));
                  ("acas_ra_corrective", VBool true)] ++
  [("acas_ra_terminated", VBool (flag v 27)); ("acas_multi_threat", VBool (flag v 28))].

Definition decode_bds40 (mb : bytes) : dict :=
  let v := int_from_bytes (slice mb 0 7) in
  if_ (flag v 1) [("sel_alt_mcp_ft", VInt (_uns v 2 13 * 16))] ++
  if_ (flag v 14) [("sel_alt_fms_ft", VInt (_uns v 15 26 * 16))] ++
  if_ (flag v 27) [("baro_setting_mb",
    VFloat (py_round (fadd (fmul (fl (_uns v 28 39)) (dec 1 1)) (fl 800)) 1))] ++
  if_ (flag v 48)
    (if_ (flag v 49) [("vnav_active", VBool true)] ++
     if_ (flag v 50) [("alt_hold", VBool true)] ++
     if_ (flag v 51) [("approach_mode", VBool true)]).

Definition decode_bds50 (mb : bytes) : dict :=
  let v := int_from_bytes (slice mb 0 7) in
  if_ (flag v 1) [("roll_deg",
    VFloat (py_round (fdiv_raw (fmul (fl (_sgn v 2 11)) (fl 45)) (fl 256)) 1))] ++
  if_ (flag v 12) [("true_track_deg",
    VFloat (py_round (fdiv_raw (fmul (fl (_uns v 13 23)) (fl 360)) (fl 2048)) 2))] ++
  if_ (flag v 24) [("bds_gs_kt", VFloat (py_round (fmul (fl (_uns v 25 34)) (fl 2)) 0))] ++
  if_ (flag v 35) [("track_rate_degs",
    VFloat (py_round (fdiv_raw (fmul (fl (_sgn v 36 45)) (fl 8)) (fl 256)) 2))] ++
  if_ (flag v 46) [("tas_kt", VFloat (py_round (fmul (fl (_uns v 47 56)) (fl 2)) 0))].

Definition decode_bds60 (mb : bytes) : dict :=
  let v := int_from_bytes (slice mb 0 7) in
  if_ (flag v 1) [("mag_hdg_deg",
    VFloat (py_round (fdiv_raw (fmul (fl (_uns v 2 12)) (fl 360)) (fl 2048)) 2))] ++
  if_ (flag v 13) [("ias_kt", VInt (_uns v 14 23))] ++
  if_ (flag v 24) [("mach",
    VFloat (py_round (fdiv_raw (fmul (fl (_uns v 25 34)) (dec 2048 3)) (fl 512)) 3))] ++
  if_ (flag v 35) [("baro_vr_fpm", VInt (_sgn v 36 45 * 32))] ++
  if_ (flag v 46) [("ivv_fpm", VInt (_sgn v 47 56 * 32))].

(** What the registers contribute to a track. *)
Definition bds10_schema : schema :=
  [("dlc_continuation_flag", TBool); ("overlay_command_capability", TBool);
   ("acas_operational", TBool); ("mode_s_subnetwork_version", TInt 0 127);
   ("transponder_level5", TBool); ("mode_s_specific_services", TBool);
   ("uplink_elm_throughput", TInt 0 7); ("downlink_elm_throughput", TInt 0 15);
   ("aircraft_id_capability", TBool); ("squitter_capability", TBool);
   ("surveillance_id_capability", TBool); ("common_usage_gicb_capability", TBool);
   ("acas_hybrid_surveillance", TBool); ("acas_resolution_advisory", TBool);
   ("acas_rtca_version", TInt 0 3); ("dte_status", TInt 0 65535)].

Definition bds_schema : schema :=
  bds10_schema ++
  [("supported_bds", TList TStr);
   ("acas_ra_active", TTrue); ("acas_ra_hex", TStr); ("acas_ra_sense", TOneOf ["DESCEND"; "CLIMB"]);
   ("acas_ra_corrective", TTrue); ("acas_ra_terminated", TBool); ("acas_multi_threat", TBool);
   ("sel_alt_mcp_ft", TInt 0 65520); ("sel_alt_fms_ft", TInt 0 65520); ("baro_setting_mb", TFloat);
   ("vnav_active", TTrue); ("alt_hold", TTrue); ("approach_mode", TTrue);
   ("roll_deg", TFloat); ("true_track_deg", TFloat); ("bds_gs_kt", TFloat);
   ("track_rate_degs", TFloat); ("tas_kt", TFloat);
   ("mag_hdg_deg", TFloat); ("ias_kt", TInt 0 1023); ("mach", TFloat);
   ("baro_vr_fpm", TInt (-16384) 16352); ("ivv_fpm", TInt (-16384) 16352)].

Lemma if_ok S c d : fields_ok S d = true -> fields_ok S (if_ c d) = true.
Proof. by destruct c. Qed.

Lemma fields_ok_app_intro S d1 d2 :
  fields_ok S d1 = true -> fields_ok S d2 = true -> fields_ok S (d1 ++ d2) = true.
Proof. rewrite fields_ok_app. by intros -> ->. Qed.

Ltac solve_reg :=
  cbv zeta;
  repeat match goal with
         | |- fields_ok _ (if _ then _ else _) = true => case_match
         | |- fields_ok _ (_ ++ _) = true => apply fields_ok_app_intro
         | |- fields_ok _ (if_ _ _) = true => apply if_ok
         end;
  solve_fields.

#[export] Instance decode_bds10_ok mb : DictOk (decode_bds10 mb) bds_schema.
Proof. unfold DictOk, decode_bds10. solve_reg. Qed.
#[export] Instance decode_bds17_ok mb : DictOk (decode_bds17 mb) bds_schema.
Proof. unfold DictOk, decode_bds17. solve_reg. Qed.
#[export] Instance decode_bds30_ok mb : DictOk (decode_bds30 mb) bds_schema.
Proof. unfold DictOk, decode_bds30. solve_reg. Qed.
#[export] Instance decode_bds40_ok mb : DictOk (decode_bds40 mb) bds_schema.
Proof. unfold DictOk, decode_bds40. solve_reg. Qed.
#[export] Instance decode_bds50_ok mb : DictOk (decode_bds50 mb) bds_schema.
Proof. unfold DictOk, decode_bds50. solve_reg. Qed.
#[export] Instance decode_bds60_ok mb : DictOk (decode_bds60 mb) bds_schema.
Proof. unfold DictOk, decode_bds60. solve_reg. Qed.
