(* ===== verification/Gillham.v ===== *)
(** * Gillham-coded Mode-C altitudes

    cat.py decodes the Mode-C word twice: [_cat48__gillham_to_ft] for CAT-048
    and [gillham_to_ft], the older text CAT-020 and CAT-062 keep.  [encode] is
    the code ICAO Annex 10 assigns to an altitude. *)

From S2P Require Import Prelude PyFloat PyData Schema Ranges Cursor Safety.

(** [(code >> n) & 1] *)
Definition bit_of (code n : Z) : Z := Z.land (Z.shiftr code n) 1.
Definition is1 (b : Z) : bool := negb (b =? 0).

(** Reflected-Gray-code to binary, most significant bit first. *)
Definition _gray_fold (bits : list Z) : Z :=
  snd (fold_left (fun '(acc, out) b =>
    let acc := Z.lxor acc b in (acc, Z.lor (Z.shiftl out 1) acc)) bits (0, 0)).

Definition _cat48__gillham_to_ft (code : Z) : option Z :=
  let v := bit_of code 15 in
  let g := bit_of code 14 in
  if is1 v || is1 g then None else
  let c1 := bit_of code 11 in
  let a1 := bit_of code 10 in
  let c2 := bit_of code 9 in
  let a2 := bit_of code 8 in
  let c4 := bit_of code 7 in
  let a4 := bit_of code 6 in
  let b1 := bit_of code 5 in
  let d1 := bit_of code 4 in
  let b2 := bit_of code 3 in
  let d2 := bit_of code 2 in
  let b4 := bit_of code 1 in
  let d4 := Z.land code 1 in
  if is1 d1 then None else
  let n_c := _gray_fold [c1; c2; c4] in
  if (n_c =? 0) || (n_c =? 5) || (n_c =? 6) then None else
  let n_c := if n_c =? 7 then 5 else n_c in
  let n500 := _gray_fold [d2; d4; a1; a2; a4; b1; b2; b4] in
  let n_c := if is1 (n500 mod 2) then 6 - n_c else n_c in
  Some (n500 * 500 + n_c * 100 - 1300).

(** [_cat20__gillham_to_ft] and [_cat62__gillham_to_ft] *)
Definition _gc3 (a b c : Z) : Z :=
  let x := a in
  let y := Z.lxor x b in
  let z := Z.lxor y c in
  x * 4 + y * 2 + z.

Definition gillham_to_ft (code : Z) : option Z :=
  let v := bit_of code 15 in
  let g := bit_of code 14 in
  if is1 v || is1 g then None else
  let C1 := bit_of code 13 in let A1 := bit_of code 12 in let C2 := bit_of code 11 in
  let B1 := bit_of code 10 in let D1 := bit_of code 9 in let B2 := bit_of code 8 in
  let D2 := bit_of code 7 in let B4 := bit_of code 6 in let A4 := bit_of code 5 in
  let C4 := bit_of code 2 in
  if is1 D1 && is1 D2 then None else
  let n_b := _gc3 B1 B2 B4 in
  let n_a := A1 * 2 + A4 in
  let n_c := _gc3 C1 C2 C4 in
  if (n_c =? 0) || (5 <? n_c) then None else
  let n500 := n_b * 4 + (if is1 (n_b mod 2) then n_a else 3 - n_a) in
  Some (n500 * 500 + (n_c - 1) * 100 - 1200).

Definition _cat20__gillham_to_ft := gillham_to_ft.
Definition _cat62__gillham_to_ft := gillham_to_ft.

(** ** The code of an altitude *)

Definition gray (n : Z) : Z := Z.lxor n (Z.shiftr n 1).

(** The altitude in units of 100 ft above -1200 ft splits into a 500 ft group
    and a position within it, which runs backwards in the odd groups. *)
Definition n500_of (alt : Z) : Z := (alt + 1200) / 500.
Definition n100_of (alt : Z) : Z :=
  let r := (alt + 1200) mod 500 / 100 + 1 in
  if Z.odd (n500_of alt) then 6 - r else r.

(** The Gray code of the 100 ft count: 5 is transmitted as 7. *)
Definition c_pulses (alt : Z) : Z :=
  gray (if n100_of alt =? 5 then 7 else n100_of alt).

Definition encode (alt : Z) : Z :=
  let gd := gray (n500_of alt) in
  let gc := c_pulses alt in
  let b (x n : Z) := Z.land (Z.shiftr x n) 1 in
  Z.shiftl (b gc 2) 11 + Z.shiftl (b gd 5) 10 + Z.shiftl (b gc 1) 9 + Z.shiftl (b gd 4) 8 +
  Z.shiftl (b gc 0) 7 + Z.shiftl (b gd 3) 6 + Z.shiftl (b gd 2) 5 +
  Z.shiftl (b gd 1) 3 + Z.shiftl (b gd 7) 2 + Z.shiftl (b gd 0) 1 + b gd 6.

(** The altitudes the code covers: -1200 to 126700 ft in steps of 100. *)
Definition altitude (alt : Z) : bool :=
  (-1200 <=? alt) && (alt <=? 126700) && ((alt + 1200) mod 100 =? 0).

(** The 12 pulse bits are all the decoder reads of a valid word. *)
Definition pulses (code : Z) : Z := Z.land code 0xFFF.

Lemma bit_of_testbit code n : 0 <= n -> bit_of code n = Z.b2z (Z.testbit code n).
Proof.
  intros Hn. unfold bit_of. change 1 with (Z.ones 1). rewrite Z.land_ones by lia.
  by rewrite Z.testbit_spec', Z.shiftr_div_pow2 by lia.
Qed.

Lemma bit_of_pulses code n : 0 <= n < 12 -> bit_of (pulses code) n = bit_of code n.
Proof.
  intros Hn. rewrite !bit_of_testbit by lia. unfold pulses. change 0xFFF with (Z.ones 12).
  rewrite Z.land_spec, Z.testbit_ones_nonneg by lia.
  destruct (Z.ltb_spec n 12); [by rewrite andb_true_r|lia].
Qed.

Lemma pulses_range code : 0 <= pulses code < 4096.
Proof. unfold pulses. pose proof (land_range code 0xFFF ltac:(lia)). lia. Qed.

(** A property of the words below [n], checked one by one. *)
Fixpoint below (n : nat) (p : Z -> bool) : bool :=
  match n with
  | O => true
  | S n' => p (Z.of_nat n') && below n' p
  end.

Lemma below_spec n p z : below n p = true -> 0 <= z < Z.of_nat n -> p z = true.
Proof.
  induction n as [|n IH]; [lia|]. cbn. intros [Hp Hn]%andb_true_iff Hz.
  destruct (decide (z = Z.of_nat n)) as [->|]; [done|apply IH; [done|lia]].
Qed.

(** On a word without V and G the decoder sees the pulses only. *)
Lemma gillham_pulses code :
  bit_of code 15 = 0 -> bit_of code 14 = 0 ->
  _cat48__gillham_to_ft code = _cat48__gillham_to_ft (pulses code).
Proof.
  intros H15 H14. unfold _cat48__gillham_to_ft. rewrite H15, H14.
  change (Z.land code 1) with (bit_of code 0). change (Z.land (pulses code) 1) with (bit_of (pulses code) 0).
  assert (forall n, 12 <= n -> bit_of (pulses code) n = 0) as Hz.
  { intros n Hn. rewrite bit_of_testbit by lia. unfold pulses. change 0xFFF with (Z.ones 12).
    rewrite Z.land_spec, Z.testbit_ones_nonneg by lia.
    destruct (Z.ltb_spec n 12); [lia|by rewrite andb_false_r]. }
  by rewrite (Hz 15), (Hz 14), !bit_of_pulses by lia.
Qed.

Definition decodes_back (code : Z) : bool :=
  match _cat48__gillham_to_ft code with
  | Some alt => altitude alt && (encode alt =? code)
  | None => true
  end.

Lemma decodes_back_all : below 4096 decodes_back = true.
Proof. vm_compute. reflexivity. Qed.

Definition encodes_back (k : Z) : bool :=
  let alt := k * 100 - 1200 in
  match _cat48__gillham_to_ft (encode alt) with
  | Some alt' => (alt' =? alt) && (pulses (encode alt) =? encode alt)
  | None => false
  end.

Lemma encodes_back_all : below 1280 encodes_back = true.
Proof. vm_compute. reflexivity. Qed.

Lemma altitude_step alt : altitude alt = true -> exists k, 0 <= k < 1280 /\ alt = k * 100 - 1200.
Proof.
  unfold altitude. rewrite !andb_true_iff, !Z.leb_le, Z.eqb_eq. intros [[H1 H2] H3].
  exists ((alt + 1200) / 100). pose proof (Z.div_mod (alt + 1200) 100 ltac:(lia)). split; [|lia].
  split; [apply Z.div_pos; lia|apply Z.div_lt_upper_bound; lia].
Qed.

Lemma encodes_back_true k :
  encodes_back k = true ->
  _cat48__gillham_to_ft (encode (k * 100 - 1200)) = Some (k * 100 - 1200) /\
  pulses (encode (k * 100 - 1200)) = encode (k * 100 - 1200).
Proof.
  unfold encodes_back. cbv zeta. destruct (_cat48__gillham_to_ft _) as [a|]; [|done].
  rewrite andb_true_iff, !Z.eqb_eq. by intros [-> ->].
Qed.

Lemma gillham_encode alt :
  altitude alt = true -> _cat48__gillham_to_ft (encode alt) = Some alt /\ pulses (encode alt) = encode alt.
Proof.
  intros (k & Hk & ->)%altitude_step.
  apply encodes_back_true, (below_spec 1280); [exact encodes_back_all|lia].
Qed.

(** A decoded word is the code of its altitude. *)
Lemma gillham_sound code alt :
  _cat48__gillham_to_ft code = Some alt ->
  altitude alt = true /\ bit_of code 15 = 0 /\ bit_of code 14 = 0 /\ pulses code = encode alt.
Proof.
  intros Hd. assert (bit_of code 15 = 0 /\ bit_of code 14 = 0) as [H15 H14].
  { revert Hd. unfold _cat48__gillham_to_ft, is1.
    destruct (Z.eqb_spec (bit_of code 15) 0), (Z.eqb_spec (bit_of code 14) 0); done. }
  rewrite gillham_pulses in Hd by done.
  pose proof (below_spec _ _ _ decodes_back_all (pulses_range code)) as H.
  unfold decodes_back in H. rewrite Hd in H. apply andb_true_iff in H as [Ha He%Z.eqb_eq]. done.
Qed.

#[export] Instance gillham_range code :
  SomeOk (_cat48__gillham_to_ft code) (fun alt => InRange alt (-1200) 126700).
Proof. intros alt [Ha _]%gillham_sound. unfold altitude in Ha. unfold InRange. lia. Qed.

Lemma gc3_range a b c : 0 <= a <= 1 -> 0 <= b <= 1 -> 0 <= c <= 1 -> 0 <= _gc3 a b c <= 7.
Proof.
  intros. assert (a = 0 \/ a = 1) as [->| ->] by lia; assert (b = 0 \/ b = 1) as [->| ->] by lia;
    assert (c = 0 \/ c = 1) as [->| ->] by lia; vm_compute; split; discriminate.
Qed.

Lemma bit_of_range code n : 0 <= bit_of code n <= 1.
Proof. apply land_range. lia. Qed.

(** What the older copies can report. *)
#[export] Instance gillham_old_range code :
  SomeOk (gillham_to_ft code) (fun alt => InRange alt (-1200) 14700).
Proof.
  intros alt. unfold gillham_to_ft. destruct (_ || _); [done|]. cbv zeta. destruct (_ && _); [done|].
  set (n_b := _gc3 (bit_of code 10) _ _). set (n_c := _gc3 (bit_of code 13) _ _).
  assert (0 <= n_b <= 7) by (apply gc3_range; apply bit_of_range).
  assert (0 <= n_c <= 7) by (apply gc3_range; apply bit_of_range).
  pose proof (bit_of_range code 12). pose proof (bit_of_range code 5).
  destruct (Z.eqb_spec n_c 0), (Z.ltb_spec 5 n_c); try done. cbn [orb].
  intros [= <-]. unfold InRange. destruct (is1 _); lia.
Qed.

(** C28: the CAT-048 Mode-C decoder inverts the Gillham code exactly: a word decodes to
    an altitude if and only if its V and G bits are clear and its twelve pulse
    bits are the code of that altitude, for all 1280 altitudes from -1200 to
    126700 ft; every other word is rejected. *)
Theorem gillham_exact code alt :
  _cat48__gillham_to_ft code = Some alt <->
  altitude alt = true /\ bit_of code 15 = 0 /\ bit_of code 14 = 0 /\ pulses code = encode alt.
Proof.
  split; [apply gillham_sound|].
  intros (Ha & H15 & H14 & He). rewrite gillham_pulses, He by done. by apply gillham_encode.
Qed.

(** The older copies of the decoder disagree with it on the same item: the
    code of 36 000 ft is read as another altitude. *)
Lemma gillham_copies_disagree :
  _cat48__gillham_to_ft (encode 36000) = Some 36000 /\
  _cat20__gillham_to_ft (encode 36000) <> Some 36000 /\
  _cat62__gillham_to_ft (encode 36000) <> Some 36000.
Proof. vm_compute. split_and!; done. Qed.
