(* ===== verification/TrackViews.v ===== *)
(** * Topics and views of a track

    compose/protocols/vendors/random/track_views.py: the key expression of a
    track ([semantic_topic]), of each of its views ([view_key]), and the data
    block that carries a record's source octets ([asterix_data_block]).  A digit
    of a version tail is ASCII; the source takes one of any script. *)

From S2P Require Import Prelude PyFloat PyData Schema.

(** ** Key segments *)

(** [s.split("/")] and ["/".join(parts)] *)
Fixpoint split (s : string) : list string :=
  match s with
  | EmptyString => [""]
  | String c s' =>
      if Ascii.eqb c "/"%char then "" :: split s'
      else match split s' with
           | p :: ps => String c p :: ps
           | [] => [String c ""]
           end
  end.

Definition join (parts : list string) : string := String.concat "/" parts.

Fixpoint all_chars (f : ascii -> bool) (s : string) : bool :=
  match s with EmptyString => true | String c s' => f c && all_chars f s' end.

(** A segment: text without a slash. *)
Definition segment (s : string) : bool := all_chars (fun c => negb (Ascii.eqb c "/"%char)) s.

(** [part[:1] == "v" and part[1:].isdigit()] *)
Definition is_version (part : string) : bool :=
  match part with
  | String c digits =>
      Ascii.eqb c "v"%char && negb (String.eqb digits "") && all_chars is_digit digits
  | EmptyString => false
  end.

Definition _FORMATS : list string := ["json"; "sapient"; "proto"; "raw"].
Definition _VERSION_TAIL : string := "tracks/v1".

(** [strip_version] and [add_version]; [rev parts] starts with [parts[-1]]. *)
Definition strip_version (topic : string) : string :=
  match rev (split topic) with
  | version :: tracks :: rest =>
      if String.eqb tracks "tracks" && is_version version then join (rev rest) else topic
  | _ => topic
  end.

Definition add_version (topic : string) : string :=
  if negb (String.eqb (strip_version topic) topic) then topic else topic +:+ "/" +:+ _VERSION_TAIL.

(** The segments before the view segment and the version tail. *)
Definition view_base (topic : string) : list string :=
  let parts := split (strip_version topic) in
  match rev parts with
  | last :: rest => if selem last _FORMATS then rev rest else parts
  | [] => parts
  end.

Definition view_key (topic fmt : string) : string :=
  let base := join (view_base topic) in
  let stem := if String.eqb fmt "json" then base else base +:+ "/" +:+ fmt in
  stem +:+ "/" +:+ _VERSION_TAIL.

Definition _has_format (topic : string) : bool :=
  match rev (split (strip_version topic)) with
  | last :: _ => selem last _FORMATS
  | [] => false
  end.

Definition dual_topic (topic : string) : string := view_key topic "proto".
Definition native_topic (topic : string) : string := view_key topic "raw".

(** ** A track's own key *)
Definition _LEGACY_TAIL : list string :=
  ["json"; "sapient"; "proto"; "raw"; "native"; "tracks"; "status"; "alerts"; "features";
   "routes"; "observations"].
Definition _ID_KEYS : list string :=
  ["registration"; "icao24"; "mmsi"; "uid"; "callsign"; "track_num"; "track_number"; "radar_id";
   "object_id"].
Definition _TYPE_KEYS : list string :=
  ["aircraft_type"; "type"; "vehicle_type"; "sapient_class"; "remote_id_ua_type"; "object_class";
   "ship_type"].

(** The characters a slug keeps: letters and digits of any script, [._-]. *)
Definition slug_point (c : Z) : bool := alnum_point c || existsb (Z.eqb c) [46; 95; 45].

Section Naming.
(** [str(v)] of a float, a list or a dictionary. *)
Variable repr : value -> string.

Definition py_str (v : value) : string :=
  match v with
  | VNone => "None"
  | VBool b => if b then "True" else "False"
  | VInt n => str_int n
  | VStr s => s
  | _ => repr v
  end.

Definition _slug (v : value) (fallback : string) : string :=
  let text := match v with VNone => "" | _ => lower (strip (py_str v)) end in
  let out := strip_chars ["-"%char] (utf8_encode (map (fun c => if slug_point c then c else 45) (code_points text))) in
  let cut := take_chars 64 out in
  if String.eqb cut "" then fallback else cut.

Definition object_type (track : dict) : string :=
  let fix first keys :=
    match keys with
    | [] => "unknown"
    | key :: keys' =>
        match dget track key with
        | Some (VStr s) => if String.eqb (strip s) "" then first keys' else _slug (VStr s) "unknown"
        | _ => first keys'
        end
    end in
  first _TYPE_KEYS.

(** [value not in (None, "", 0)]: False and 0.0 are equal to 0. *)
Definition names_object (v : value) : bool :=
  match v with
  | VNone => false
  | VStr s => negb (String.eqb s "")
  | VInt n => negb (n =? 0)
  | VBool b => b
  | VFloat x => ftruth x
  | _ => true
  end.

Definition object_id (track : dict) : string :=
  let fix first keys :=
    match keys with
    | [] => "unknown"
    | key :: keys' =>
        match dget track key with
        | Some v => if names_object v then _slug v "unknown" else first keys'
        | None => first keys'
        end
    end in
  first _ID_KEYS.

(** [while parts and parts[-1] in _LEGACY_TAIL: parts.pop()], on the reversed
    list. *)
Fixpoint drop_legacy (rev_parts : list string) : list string :=
  match rev_parts with
  | part :: rest => if selem part _LEGACY_TAIL then drop_legacy rest else rev_parts
  | [] => []
  end.

(** The segments of a publisher's prefix. *)
Definition prefix_parts (prefix : string) : list string :=
  let parts := List.filter (fun p => negb (String.eqb p "")) (split (strip_version prefix)) in
  rev (drop_legacy (rev parts)).

Definition semantic_topic (prefix : string) (track : dict) : string :=
  join (prefix_parts prefix ++ [object_type track; object_id track]).
End Naming.

(** ** Source octets *)
Definition asterix_data_block (category : Z) (record : bytes) : exc bytes :=
  let total := 3 + len record in
  if negb ((0 <=? category) && (category <=? 255)) || (0xFFFF <? total) then Raise ValueError
  else Ok (of_ints [category; Z.shiftr total 8; total] ++ record).

(** ** Segments and keys *)
Lemma split_cons s : exists p ps, split s = p :: ps.
Proof.
  induction s as [|c s (p & ps & IH)]; cbn; [eauto|]. destruct (Ascii.eqb _ _); [eauto|].
  rewrite IH. eauto.
Qed.

Lemma split_segments s : Forall (fun p => segment p = true) (split s).
Proof.
  induction s as [|c s IH]; cbn; [by constructor|].
  destruct (Ascii.eqb c "/"%char) eqn:E; [by constructor|].
  destruct (split_cons s) as (p & ps & Hs). rewrite Hs in *. inversion_clear IH as [|? ? Hp Hps].
  constructor; [|done]. unfold segment in *. cbn. by rewrite E, Hp.
Qed.

Lemma concat_cons sep p ps :
  String.concat sep (p :: ps) = match ps with [] => p | _ => p +:+ sep +:+ String.concat sep ps end.
Proof. by destruct ps. Qed.

Lemma join_split s : join (split s) = s.
Proof.
  induction s as [|c s IH]; cbn [split]; [done|]. destruct (split_cons s) as (p & ps & Hs).
  rewrite Hs in *. unfold join in *. destruct (Ascii.eqb_spec c "/"%char) as [->|].
  - rewrite concat_cons. cbn [String.append]. by rewrite IH.
  - rewrite concat_cons in *. destruct ps; cbn; by rewrite <- IH.
Qed.

(** Cutting a text at a slash. *)
Lemma split_slash a b : split (a +:+ "/" +:+ b) = split a ++ split b.
Proof.
  induction a as [|c a IH]; [done|]. cbn [String.append split]. cbn in IH. rewrite IH.
  destruct (Ascii.eqb _ _); [done|]. by destruct (split_cons a) as (p & ps & ->).
Qed.

Lemma split_segment s : segment s = true -> split s = [s].
Proof.
  induction s as [|c s IH]; [done|]. unfold segment in *. cbn.
  intros [Hc Hs]%andb_true_iff. rewrite (IH Hs). by destruct (Ascii.eqb _ _).
Qed.

Lemma split_join ps : ps <> [] -> Forall (fun p => segment p = true) ps -> split (join ps) = ps.
Proof.
  intros Hn H. induction H as [|p ps Hp H IH]; [done|]. unfold join in *. rewrite concat_cons.
  destruct ps as [|q ps]; [by apply split_segment|].
  rewrite split_slash, (split_segment _ Hp), IH by done. done.
Qed.

Lemma split_inj a b : split a = split b -> a = b.
Proof. intros E. by rewrite <- (join_split a), <- (join_split b), E. Qed.

Lemma selem_segment f : selem f _FORMATS = true -> segment f = true.
Proof.
  unfold selem. rewrite existsb_exists. intros (x & Hx & ->%String.eqb_eq).
  cbn in Hx. by destruct Hx as [<-|[<-|[<-|[<-|[]]]]].
Qed.

(** ** The version tail *)
Lemma strip_version_tail t : strip_version (t +:+ "/" +:+ _VERSION_TAIL) = t.
Proof.
  unfold strip_version. rewrite split_slash, rev_app_distr. cbn.
  by rewrite rev_involutive, join_split.
Qed.

Lemma tail_ne t : t +:+ "/" +:+ _VERSION_TAIL <> t.
Proof.
  intros E%(f_equal String.length). revert E. induction t as [|c t IH]; cbn in *; [done|].
  intros [= E]. by apply IH.
Qed.

(** The version tail is added once and stripped exactly: stripping what
    [add_version] made gives the key without its version, and adding twice is
    adding once. *)
Lemma version_tail_ok topic :
  strip_version (add_version topic) = strip_version topic /\
  add_version (add_version topic) = add_version topic /\
  (strip_version topic = topic -> add_version topic = topic +:+ "/tracks/v1").
Proof.
  unfold add_version. destruct (String.eqb_spec (strip_version topic) topic) as [E|E]; cbn [negb].
  - rewrite strip_version_tail, E.
    destruct (String.eqb_spec topic (topic +:+ "/" +:+ _VERSION_TAIL)) as [E'|_]; [|done].
    by destruct (tail_ne topic).
  - by rewrite (proj2 (String.eqb_neq _ _) E).
Qed.

(** ** Views

    A key an object may have: unversioned, its last segment no view's name. *)
Definition plain (key : string) : bool :=
  String.eqb (strip_version key) key && negb (_has_format key).

(** The key of a view before its version tail. *)
Definition view_stem (key fmt : string) : string :=
  if String.eqb fmt "json" then key else key +:+ "/" +:+ fmt.

Lemma view_base_plain key : plain key = true -> view_base key = split key.
Proof.
  unfold plain, view_base, _has_format. intros [->%String.eqb_eq H]%andb_true_iff.
  destruct (rev (split key)); [done|]. by destruct (selem _ _).
Qed.

Lemma view_key_stem key fmt : plain key = true ->
  view_key key fmt = view_stem key fmt +:+ "/" +:+ _VERSION_TAIL.
Proof. intros H. unfold view_key. by rewrite view_base_plain, join_split. Qed.

Lemma strip_view_key key fmt : plain key = true ->
  strip_version (view_key key fmt) = view_stem key fmt.
Proof. intros H. by rewrite view_key_stem, strip_version_tail. Qed.

(** A view's stem gives back the key. *)
Lemma view_base_stem key fmt : plain key = true -> selem fmt _FORMATS = true ->
  view_base (view_key key fmt) = split key.
Proof.
  intros Hk Hf. pose proof (view_base_plain _ Hk) as Hb. revert Hb.
  unfold view_base at 2. rewrite strip_view_key by done. unfold view_stem.
  assert (strip_version key = key) as Hs.
  { unfold plain in Hk. apply andb_true_iff in Hk as [Hk _]. by apply String.eqb_eq. }
  destruct (String.eqb fmt "json"); intros Hb.
  - unfold view_base in Hb. by rewrite Hs in Hb.
  - by rewrite split_slash, (split_segment fmt), rev_app_distr by (by apply selem_segment);
      cbn [rev app]; rewrite Hf, rev_involutive.
Qed.

(** The views of an object share its key and nothing else: the key of a
    view is computed back to any other view's (so publishing on a view's own
    key is idempotent), and two (key, view) pairs never share a topic. *)
Theorem view_key_exact key key' fmt fmt' :
  plain key = true -> plain key' = true ->
  selem fmt _FORMATS = true -> selem fmt' _FORMATS = true ->
  view_key (view_key key fmt) fmt' = view_key key fmt' /\
  (view_key key fmt = view_key key' fmt' -> key = key' /\ fmt = fmt').
Proof.
  intros Hk Hk' Hf Hf'. split.
  - unfold view_key at 1 3. by rewrite view_base_stem, view_base_plain.
  - intros E. assert (key = key') as ->.
    { apply split_inj. by rewrite <- (view_base_stem key fmt), E, view_base_stem. }
    split; [done|]. apply (f_equal strip_version) in E. rewrite !strip_view_key in E by done.
    revert E. unfold view_stem.
    destruct (String.eqb_spec fmt "json") as [->|], (String.eqb_spec fmt' "json") as [->|]; [done| | |].
    + intros E%(f_equal split). rewrite split_slash in E. apply (f_equal length) in E.
      rewrite length_app in E. destruct (split_cons fmt') as (? & ? & Hs). rewrite Hs in E. cbn in E. lia.
    + intros E%(f_equal split). rewrite split_slash in E. apply (f_equal length) in E.
      rewrite length_app in E. destruct (split_cons fmt) as (? & ? & Hs). rewrite Hs in E. cbn in E. lia.
    + intros E%(f_equal split). rewrite !split_slash in E. by apply app_inv_head, split_inj in E.
Qed.

Lemma view_key_exact_witness :
  plain "efdi/air/opensky/unknown/aircraft/a320/ly-abc" = true /\
  (view_key "efdi/air/opensky/unknown/aircraft/a320/ly-abc" "json" =
   view_key "efdi/air/opensky/unknown/aircraft/a320/ly-abd" "proto" ->
   "efdi/air/opensky/unknown/aircraft/a320/ly-abc"%py = "efdi/air/opensky/unknown/aircraft/a320/ly-abd"%py /\
   "json"%py = "proto"%py).
Proof.
  split; [reflexivity|].
  apply (view_key_exact "efdi/air/opensky/unknown/aircraft/a320/ly-abc"
           "efdi/air/opensky/unknown/aircraft/a320/ly-abd" "json" "proto"); reflexivity.
Defined.

(** ** Object keys *)

(** The octets of a slug, and its text. *)
Definition slug_char (c : ascii) : bool :=
  (128 <=? N_of_ascii c)%N || is_alpha c || is_digit c || existsb (Ascii.eqb c) ["."%char; "_"%char; "-"%char].
Definition slug_text (s : string) : bool := all_chars slug_char s && negb (String.eqb s "").

Lemma all_chars_concat f a b : all_chars f (a +:+ b) = all_chars f a && all_chars f b.
Proof. induction a as [|c a IH]; [done|]. change ((String c a) +:+ b) with (String c (a +:+ b)). cbn. by rewrite IH, andb_assoc. Qed.

Lemma all_chars_impl (f g : ascii -> bool) s :
  (forall c, f c = true -> g c = true) -> all_chars f s = true -> all_chars g s = true.
Proof.
  intros Hfg. induction s as [|c s IH]; cbn; [done|]. rewrite !andb_true_iff.
  intros [Hc Hs]. split; [by apply Hfg|by apply IH].
Qed.

Lemma all_chars_lstrip f g s : all_chars f s = true -> all_chars f (lstrip g s) = true.
Proof.
  induction s as [|c s IH]; cbn; [done|]. intros [Hc Hs]%andb_true_iff.
  destruct (g c); [by apply IH|]. cbn. by rewrite Hc.
Qed.

Lemma all_chars_rstrip f g s : all_chars f s = true -> all_chars f (rstrip g s) = true.
Proof.
  induction s as [|c s IH]; cbn; [done|]. intros [Hc Hs]%andb_true_iff. specialize (IH Hs).
  destruct (rstrip g s); [destruct (g c)|]; cbn in *; rewrite ?Hc; done.
Qed.

Lemma all_chars_take f n s : all_chars f s = true -> all_chars f (take_chars n s) = true.
Proof.
  revert n. induction s as [|c s IH]; intros n; cbn; [done|]. intros [Hc Hs]%andb_true_iff.
  destruct (is_cont c); cbn; [by rewrite Hc, IH|]. destruct n; cbn; [done|]. by rewrite Hc, IH.
Qed.

Lemma count_take n s : (count_chars (take_chars n s) <= n)%nat.
Proof.
  revert n. induction s as [|c s IH]; intros n; cbn; [lia|]. destruct (is_cont c) eqn:Hc; cbn; [by rewrite Hc|].
  destruct n as [|n]; cbn; [lia|]. rewrite Hc. specialize (IH n). lia.
Qed.

Lemma all_chars_encode f cs : Forall (fun c => all_chars f (utf8_char c) = true) cs -> all_chars f (utf8_encode cs) = true.
Proof.
  unfold utf8_encode. induction 1 as [|c cs Hc _ IH]; [done|]. cbn [map String.concat].
  destruct (map utf8_char cs) as [|x xs]; [done|]. change ("" +:+ ?a)%py with a. by rewrite !all_chars_concat, Hc.
Qed.

Lemma high_octet n : 128 <= n < 256 -> slug_char (char_of n) = true.
Proof.
  intros Hn. unfold slug_char, char_of. rewrite N_ascii_embedding by lia.
  replace (128 <=? Z.to_N n)%N with true; [done|]. symmetry. apply N.leb_le. lia.
Qed.

Lemma alnum_bound c : in_ranges alphanumeric c = true -> c < 0x110000.
Proof.
  unfold in_ranges. rewrite existsb_exists. intros ([a b] & Hin & [_ Hb]%andb_true_iff).
  assert (forallb (fun kv => snd kv <? 0x110000) alphanumeric = true) as Hall by (vm_compute; reflexivity).
  rewrite forallb_forall in Hall. specialize (Hall _ Hin). cbn [snd] in Hall. lia.
Qed.

Lemma slug_point_char c : slug_point c = true -> all_chars slug_char (utf8_char c) = true.
Proof.
  unfold slug_point, alnum_point. destruct (Z.ltb_spec c 128) as [Hc|Hc].
  - intros H. assert (0 <= c) as H0.
    { destruct (Z.leb_spec 0 c); [done|]. cbn [existsb] in H. lia. }
    assert (forallb (fun n => let c := Z.of_nat n in
      negb (((48 <=? c) && (c <=? 57) || (65 <=? c) && (c <=? 90) || (97 <=? c) && (c <=? 122)) || existsb (Z.eqb c) [46; 95; 45]) ||
      all_chars slug_char (utf8_char c)) (seq 0 128) = true) as Hall by (vm_compute; reflexivity).
    rewrite forallb_forall in Hall. specialize (Hall (Z.to_nat c)). cbv zeta in Hall.
    rewrite Z2Nat.id, H in Hall by lia. apply Hall, in_seq. lia.
  - intros [H%alnum_bound|H]%orb_true_iff; [|cbn [existsb] in H; lia]. unfold utf8_char.
    destruct (Z.ltb_spec c 128); [lia|]. destruct (Z.ltb_spec c 2048); [|destruct (Z.ltb_spec c 65536)]; cbn [all_chars];
      rewrite !high_octet; try done; Z.to_euclidean_division_equations; lia.
Qed.

Lemma slug_char_segment c : slug_char c = true -> negb (Ascii.eqb c "/"%char) = true.
Proof. by destruct (Ascii.eqb_spec c "/"%char) as [->|]. Qed.

Lemma slug_segment s : slug_text s = true -> segment s = true.
Proof.
  unfold slug_text. intros [H _]%andb_true_iff. exact (all_chars_impl _ _ _ slug_char_segment H).
Qed.

Section Keys.
Variable repr : value -> string.

Lemma slug_ok v :
  slug_text (_slug repr v "unknown") = true /\ (count_chars (_slug repr v "unknown") <= 64)%nat.
Proof.
  unfold _slug. cbv zeta. set (text := code_points _). set (out := strip_chars _ _).
  assert (all_chars slug_char out = true) as Ho.
  { apply all_chars_rstrip, all_chars_lstrip, all_chars_encode. apply Forall_map, Forall_true. intros c.
    destruct (slug_point c) eqn:E; [by apply slug_point_char|done]. }
  pose proof (all_chars_take _ 64 _ Ho) as Hp. pose proof (count_take 64 out).
  destruct (String.eqb (take_chars 64 out) "") eqn:E; [split; [done|by apply Nat.leb_le]|].
  split; [|done]. unfold slug_text. by rewrite Hp, E.
Qed.

Definition named (s : string) : Prop := slug_text s = true /\ (count_chars s <= 64)%nat.

Lemma unknown_named : named "unknown".
Proof. split; [done|by apply Nat.leb_le]. Qed.

Lemma object_type_named track : named (object_type repr track).
Proof.
  unfold object_type. induction _TYPE_KEYS as [|k ks IH]; [apply unknown_named|].
  destruct (dget track k) as [[]|]; try exact IH.
  destruct (String.eqb _ _); [exact IH|apply slug_ok].
Qed.

Lemma object_id_named track : named (object_id repr track).
Proof.
  unfold object_id. induction _ID_KEYS as [|k ks IH]; [apply unknown_named|].
  destruct (dget track k) as [v|]; [|exact IH]. destruct (names_object v); [apply slug_ok|exact IH].
Qed.
End Keys.

Definition key_segment (s : string) : Prop := segment s = true /\ s <> ""%py.

Lemma drop_legacy_Forall (P : string -> Prop) ps : Forall P ps -> Forall P (drop_legacy ps).
Proof.
  intros H. induction H as [|p ps Hp H IH]; cbn [drop_legacy]; [done|].
  destruct (selem p _LEGACY_TAIL); [done|by constructor].
Qed.

Lemma prefix_parts_ok prefix : Forall key_segment (prefix_parts prefix).
Proof.
  apply Forall_rev, drop_legacy_Forall, Forall_rev.
  pose proof (split_segments (strip_version prefix)) as H. induction H as [|p ps Hp _ IH]; cbn; [done|].
  destruct (String.eqb_spec p ""); cbn; [done|]. by constructor.
Qed.

Lemma named_segment s : named s -> key_segment s.
Proof.
  intros [H _]. split; [by apply slug_segment|]. intros ->. discriminate H.
Qed.

(** The segments of a track's key. *)
Lemma semantic_topic_parts repr prefix t :
  Forall key_segment (prefix_parts prefix ++ [object_type repr t; object_id repr t]).
Proof.
  apply Forall_app. split; [apply prefix_parts_ok|].
  by repeat apply Forall_cons_2;
    [apply named_segment, object_type_named|apply named_segment, object_id_named|].
Qed.

Lemma semantic_topic_split repr prefix t :
  split (semantic_topic repr prefix t) = prefix_parts prefix ++ [object_type repr t; object_id repr t].
Proof.
  apply split_join; [by destruct (prefix_parts prefix)|].
  eapply Forall_impl; [apply semantic_topic_parts|]. by intros ? [].
Qed.

(** A track's key is the publisher's prefix, cleaned, followed by the
    track's type and identity; no segment is empty, and type and identity are
    1 to 64 letters and digits of any script, dots, underscores and hyphens.  So two tracks of
    a publisher have the same key only when type and identity agree. *)
Theorem semantic_topic_exact repr prefix track track' :
  split (semantic_topic repr prefix track) =
    prefix_parts prefix ++ [object_type repr track; object_id repr track] /\
  Forall key_segment (split (semantic_topic repr prefix track)) /\
  named (object_type repr track) /\ named (object_id repr track) /\
  (semantic_topic repr prefix track = semantic_topic repr prefix track' ->
   object_type repr track = object_type repr track' /\ object_id repr track = object_id repr track').
Proof.
  pose proof (fun t => semantic_topic_split repr prefix t) as E.
  pose proof (fun t => semantic_topic_parts repr prefix t) as Hs.
  rewrite E. split_and!; [done|apply Hs|apply object_type_named|apply object_id_named|].
  intros H%(f_equal split). rewrite !E in H. by apply app_inv_head in H as [= -> ->].
Qed.

Lemma semantic_topic_exact_witness :
  let repr := fun _ : value => ""%py in
  let t := [("callsign", VStr "LYA"); ("track_num", VInt 7)] in
  let t' := [("_ts", VInt 1); ("callsign", VStr "LYA ")] in
  semantic_topic repr "efdi/air/001-002/radar/unknown/aircraft" t =
    semantic_topic repr "efdi/air/001-002/radar/unknown/aircraft" t' /\
  object_id repr t = object_id repr t'.
Proof.
  split; [reflexivity|].
  apply (semantic_topic_exact (fun _ => ""%py) "efdi/air/001-002/radar/unknown/aircraft"
    [("callsign", VStr "LYA"); ("track_num", VInt 7)] [("_ts", VInt 1); ("callsign", VStr "LYA ")]).
  reflexivity.
Defined.

(** An identity that is a view's name is taken for that view: tracks whose
    call signs are RAW and PROTO have different keys, but publish every view
    on the same topics, which carry no identity. *)
Lemma view_named_ids_collide :
  let repr := fun _ : value => ""%py in
  let prefix := "efdi/air/001-002/radar/unknown/aircraft"%py in
  let key callsign := semantic_topic repr prefix [("callsign", VStr callsign)] in
  key "RAW" <> key "PROTO" /\
  forall fmt, view_key (key "RAW") fmt = view_key (key "PROTO") fmt /\
              view_key (key "RAW") fmt = view_key (prefix +:+ "/unknown") fmt.
Proof.
  cbv zeta. split; [by vm_compute|]. intros fmt. unfold view_key.
  replace (view_base (semantic_topic _ _ [("callsign", VStr "RAW")]))
    with ["efdi"; "air"; "001-002"; "radar"; "unknown"; "aircraft"; "unknown"]%py by reflexivity.
  split; reflexivity.
Qed.

(** ** Data blocks *)

Lemma byte_val_of_N n b : Byte.of_N n = Some b -> byte_val b = Z.of_N n.
Proof. intros H. unfold byte_val. f_equal. by apply Byte.to_of_N. Qed.

Lemma of_ints_cons z l : exists b, of_ints (z :: l) = b :: of_ints l /\ byte_val b = z mod 256.
Proof.
  unfold of_ints. cbn [map]. eexists. split; [done|].
  pose proof (Z.mod_pos_bound z 256 ltac:(lia)).
  destruct (Byte.of_N (Z.to_N (z mod 256))) as [b|] eqn:E.
  - rewrite (byte_val_of_N _ _ E). lia.
  - apply Byte.of_N_None_iff in E. lia.
Qed.

(** A record becomes a data block whose header gives its category and the
    length of the block, and whose payload is the record, octet for octet; a
    category that is no octet, or a record that does not fit the 16-bit
    length, raises ValueError, and nothing else does. *)
Lemma asterix_data_block_exact category record :
  match asterix_data_block category record with
  | Ok block =>
      len block = 3 + len record /\ byte_at block 0 = Ok category /\
      unpack_u 2 (slice block 1 3) = Ok (len block) /\ skipn 3 block = record
  | Raise e => e = ValueError /\ (category < 0 \/ 255 < category \/ 0xFFFF < 3 + len record)
  end.
Proof.
  unfold asterix_data_block. cbv zeta. pose proof (len_nonneg record) as Hl.
  destruct (Z.leb_spec 0 category), (Z.leb_spec category 255), (Z.ltb_spec 0xFFFF (3 + len record));
    cbn [andb orb negb]; try (split; [done|lia]).
  destruct (of_ints_cons category [Z.shiftr (3 + len record) 8; 3 + len record]) as (b0 & -> & Hb0).
  destruct (of_ints_cons (Z.shiftr (3 + len record) 8) [3 + len record]) as (b1 & -> & Hb1).
  destruct (of_ints_cons (3 + len record) []) as (b2 & -> & Hb2).
  change (of_ints []) with (@nil byte). cbn [app]. rewrite !len_cons.
  rewrite Z.mod_small in Hb0 by lia.
  split_and!; [lia| | |done].
  - by change (Ok (byte_val b0) = Ok category); rewrite Hb0.
  - change (Ok ((0 * 256 + byte_val b1) * 256 + byte_val b2) = Ok (1 + (1 + (1 + len record)))).
    rewrite Hb1, Hb2. f_equal.
    rewrite Z.shiftr_div_pow2 by lia. change (2 ^ 8) with 256.
    assert (0 <= (3 + len record) / 256 < 256)
      by (split; [apply Z.div_pos; lia|apply Z.div_lt_upper_bound; lia]).
    rewrite (Z.mod_small (_ / 256)) by lia.
    pose proof (Z.div_mod (3 + len record) 256 ltac:(lia)). lia.
Qed.
