(* ===== verification/Octets.v ===== *)
(** * Octets and bit fields

    Numbers as octets, slices of concatenations, and the fields of a number
    seen as a string of bits: what the framing and the bit readers of the
    STANAG decoders share. *)

From S2P Require Import Prelude TrackViews.
#[local] Open Scope Z_scope.

(** ** Numbers as octets *)

(** The [size] octets of [n], most significant first. *)
Fixpoint be (size : nat) (n : Z) : bytes :=
  match size with
  | O => []
  | S size' => be size' (n / 256) ++ of_ints [n]
  end.

(** [n.to_bytes(size, "big")] *)
Definition to_bytes (n size : Z) : exc bytes :=
  if (0 <=? n) && (n <? 2 ^ (8 * size)) then Ok (be (Z.to_nat size) n) else Raise OverflowError.

(** [int.from_bytes(raw, "little")] *)
Definition le_value (raw : bytes) : Z := int_from_bytes (rev raw).
(** The [size] octets of [n], least significant first. *)
Definition le (size : nat) (n : Z) : bytes := rev (be size n).

Lemma of_ints_one n : exists b, of_ints [n] = [b] /\ byte_val b = n mod 256.
Proof. destruct (of_ints_cons n []) as (b & E & H). exists b. split; [exact E|exact H]. Qed.

Lemma of_ints_app l k : of_ints (l ++ k) = of_ints l ++ of_ints k.
Proof. apply map_app. Qed.

Lemma length_of_ints l : length (of_ints l) = length l.
Proof. apply length_map. Qed.

Lemma length_be size n : length (be size n) = size.
Proof. revert n. induction size; intros n; [done|]. cbn [be]. rewrite length_app, IHsize, length_of_ints. cbn. lia. Qed.

Lemma len_be size n : len (be size n) = Z.of_nat size.
Proof. unfold len. by rewrite length_be. Qed.

Lemma len_le size n : len (le size n) = Z.of_nat size.
Proof. unfold len, le. by rewrite length_rev, length_be. Qed.

Lemma fold_bytes_app raw acc :
  fold_left (fun acc b => acc * 256 + byte_val b) raw acc = acc * 2 ^ (8 * len raw) + int_from_bytes raw.
Proof.
  unfold int_from_bytes. revert acc. induction raw as [|b raw IH]; intros acc; cbn [fold_left].
  - change (2 ^ (8 * len (@nil byte))) with 1. lia.
  - rewrite IH, (IH (0 * 256 + byte_val b)), len_cons, Z.mul_add_distr_l, Z.pow_add_r by (pose proof (len_nonneg raw); lia).
    change (2 ^ (8 * 1)) with 256. ring.
Qed.

Lemma int_from_bytes_app a b : int_from_bytes (a ++ b) = int_from_bytes a * 2 ^ (8 * len b) + int_from_bytes b.
Proof. unfold int_from_bytes at 1. rewrite fold_left_app. by rewrite fold_bytes_app. Qed.

Lemma int_from_bytes_one b : int_from_bytes [b] = byte_val b.
Proof. reflexivity. Qed.

Lemma int_from_be size n : int_from_bytes (be size n) = n mod 2 ^ (8 * Z.of_nat size).
Proof.
  revert n. induction size as [|size IH]; intros n.
  - cbn. by rewrite Z.mod_1_r.
  - cbn [be]. destruct (of_ints_one n) as (b & -> & Hb). rewrite int_from_bytes_app, IH, int_from_bytes_one, Hb.
    change (2 ^ (8 * len [b])) with 256.
    replace (8 * Z.of_nat (S size)) with (8 + 8 * Z.of_nat size) by lia. rewrite Z.pow_add_r by lia.
    change (2 ^ 8) with 256. rewrite Z.rem_mul_r by lia. ring.
Qed.

Lemma int_from_be_small size n : 0 <= n < 2 ^ (8 * Z.of_nat size) -> int_from_bytes (be size n) = n.
Proof. intros H. rewrite int_from_be. by apply Z.mod_small. Qed.

Lemma le_value_small size n : 0 <= n < 2 ^ (8 * Z.of_nat size) -> le_value (le size n) = n.
Proof. intros H. unfold le_value, le. rewrite rev_involutive. by apply int_from_be_small. Qed.

Lemma byte_val_of_ints b : of_ints [byte_val b] = [b].
Proof. by destruct b. Qed.

Lemma be_int raw : be (length raw) (int_from_bytes raw) = raw.
Proof.
  induction raw as [|b raw IH] using rev_ind; [done|].
  rewrite length_app, Nat.add_comm. cbn [length Nat.add be]. rewrite int_from_bytes_app, int_from_bytes_one.
  change (2 ^ (8 * len [b])) with 256. pose proof (byte_val_range b).
  replace (of_ints [int_from_bytes raw * 256 + byte_val b]) with [b].
  - f_equal. rewrite Z.div_add_l by lia. rewrite Z.div_small by lia. by rewrite Z.add_0_r.
  - destruct (of_ints_one (int_from_bytes raw * 256 + byte_val b)) as (c & -> & Hc). f_equal.
    rewrite Z.add_comm, Z.mod_add, Z.mod_small in Hc by lia.
    pose proof (byte_val_of_ints b) as E1. rewrite <- Hc in E1. rewrite byte_val_of_ints in E1. congruence.
Qed.

Lemma int_from_bytes_inj a b : length a = length b -> int_from_bytes a = int_from_bytes b -> a = b.
Proof. intros Hl H. rewrite <- (be_int a), <- (be_int b). congruence. Qed.

Lemma to_bytes_ok n size : 0 <= n < 2 ^ (8 * size) -> 0 <= size -> to_bytes n size = Ok (be (Z.to_nat size) n).
Proof. intros H Hs. unfold to_bytes. replace ((0 <=? n) && (n <? 2 ^ (8 * size))) with true by lia. done. Qed.

(** ** Slices *)
Lemma slice_mid {A} (a b c : list A) i j : i = len a -> j = len a + len b -> slice (a ++ b ++ c) i j = b.
Proof.
  intros -> ->. unfold slice, len. rewrite Nat2Z.id. rewrite drop_app_length.
  apply take_app_length'. lia.
Qed.

Lemma slice_first {A} (b c : list A) j : j = len b -> slice (b ++ c) 0 j = b.
Proof. intros ->. exact (slice_mid [] b c 0 (len b) eq_refl eq_refl). Qed.

Lemma slice_all {A} (l : list A) : slice l 0 (len l) = l.
Proof. rewrite <- (app_nil_r l) at 1. by apply slice_first. Qed.

Lemma slice_to_end {A} (a b : list A) i j : i = len a -> j = len (a ++ b) -> slice (a ++ b) i j = b.
Proof. intros -> ->. rewrite <- (app_nil_r b) at 1. apply slice_mid; [done|]. by rewrite len_app. Qed.


Lemma index_mid {A} (a : list A) b c i : i = len a -> index (a ++ b :: c) i = Ok b.
Proof.
  intros ->. unfold index. pose proof (len_nonneg a). replace (len a <? 0) with false by lia.
  cbn zeta. replace (len a <? 0) with false by lia. unfold len. rewrite Nat2Z.id.
  rewrite nth_error_app2, Nat.sub_diag by lia. done.
Qed.

Lemma byte_at_mid (a : bytes) b c i : i = len a -> byte_at (a ++ b :: c) i = Ok (byte_val b).
Proof. intros H. unfold byte_at. by rewrite (index_mid a). Qed.

Lemma byte_at_head b (c : bytes) : byte_at (b :: c) 0 = Ok (byte_val b).
Proof. reflexivity. Qed.

Lemma slice_app_l {A} (a b : list A) i j : 0 <= i <= j -> j <= len a -> slice (a ++ b) i j = slice a i j.
Proof.
  intros Hi Hj. unfold slice, len in *. rewrite drop_app_le by lia. apply take_app_le. rewrite length_skipn. lia.
Qed.

Lemma len_slice_clip {A} (l : list A) a b : 0 <= a <= b -> len (slice l a b) = Z.max 0 (Z.min b (len l) - a).
Proof. unfold len, slice. intros. rewrite length_firstn, length_skipn. lia. Qed.

(** ** Bit fields

    [get v total off width]: of a number of [total] bits, the [width] bits
    that start [off] bits from the most significant one. *)
Definition get (v total off width : Z) : Z := (v / 2 ^ (total - off - width)) mod 2 ^ width.

Lemma get_range v total off width : 0 <= width -> 0 <= get v total off width < 2 ^ width.
Proof. intros H. apply Z.mod_pos_bound. lia. Qed.

(** The number whose fields, from the most significant one, have the given
    values and widths. *)
Definition pack (fields : list (Z * Z)) : Z :=
  fold_left (fun acc '(v, w) => acc * 2 ^ w + v) fields 0.
Definition widths (fields : list (Z * Z)) : Z := fold_right (fun '(_, w) n => w + n) 0 fields.
Definition fits_width (f : Z * Z) : Prop := 0 <= snd f /\ 0 <= fst f < 2 ^ snd f.

Lemma widths_app a b : widths (a ++ b) = widths a + widths b.
Proof. induction a as [|[v w] a IH]; [done|]. cbn [app widths fold_right]. fold (widths (a ++ b)). fold (widths a). lia. Qed.

Lemma widths_nonneg fs : Forall fits_width fs -> 0 <= widths fs.
Proof. induction 1 as [|[v w] fs [Hw _] _ IH]; [done|]. cbn in *. fold (widths fs). lia. Qed.

Lemma pack_from fs acc : Forall fits_width fs ->
  fold_left (fun acc '(v, w) => acc * 2 ^ w + v) fs acc = acc * 2 ^ widths fs + pack fs.
Proof.
  intros H. revert acc. unfold pack. induction H as [|[v w] fs [Hw Hv] Hfs IH]; intros acc; cbn [fold_left widths fold_right].
  - lia.
  - cbn [fst snd] in *. fold (widths fs). rewrite IH, (IH (0 * 2 ^ w + v)). pose proof (widths_nonneg fs Hfs).
    rewrite Z.pow_add_r by lia. ring.
Qed.

Lemma pack_app a b : Forall fits_width b -> pack (a ++ b) = pack a * 2 ^ widths b + pack b.
Proof. intros Hb. unfold pack at 1. rewrite fold_left_app. by apply pack_from. Qed.

Lemma pack_range fs : Forall fits_width fs -> 0 <= pack fs < 2 ^ widths fs.
Proof.
  induction fs as [|[v w] fs IH] using rev_ind; intros H; [cbn; lia|].
  apply Forall_app in H as [Hf Hv]. rewrite Forall_singleton in Hv. destruct Hv as [Hw Hv]. cbn [fst snd] in *.
  rewrite pack_app, widths_app by (repeat constructor; cbn; lia). specialize (IH Hf).
  replace (widths [(v, w)]) with w by (cbn; lia). replace (pack [(v, w)]) with v by (cbn; lia).
  rewrite Z.pow_add_r by (try apply widths_nonneg; try done; lia). nia.
Qed.

(** A field of the packed number is what was packed there. *)
Lemma get_pack before v w after total off :
  Forall fits_width (before ++ (v, w) :: after) -> off = widths before -> total = widths before + w + widths after ->
  get (pack (before ++ (v, w) :: after)) total off w = v.
Proof.
  intros H -> ->. pose proof H as H'. apply Forall_app in H' as [Hb Hva]. apply Forall_cons_1 in Hva as [Hv Ha].
  assert (fits_width (v, w)) as Hv' by exact Hv. destruct Hv as [Hw Hv]. cbn [fst snd] in *.
  rewrite pack_app by (by constructor). change ((v, w) :: after) with ([(v, w)] ++ after) at 2.
  rewrite pack_app by done. replace (pack [(v, w)]) with v by (cbn; lia).
  assert (widths ((v, w) :: after) = w + widths after) as -> by done.
  pose proof (pack_range after Ha). pose proof (widths_nonneg after Ha). unfold get.
  replace (widths before + w + widths after - widths before - w) with (widths after) by lia.
  rewrite Z.pow_add_r by lia.
  replace (pack before * (2 ^ w * 2 ^ widths after) + (v * 2 ^ widths after + pack after))
    with (pack after + (pack before * 2 ^ w + v) * 2 ^ widths after) by ring.
  rewrite Z.div_add, Z.div_small by lia. rewrite Z.add_0_l, Z.add_comm, Z.mod_add by lia. by apply Z.mod_small.
Qed.

(** Adjacent fields are one field. *)
Lemma get_join v total off w1 w2 : 0 <= w1 -> 0 <= w2 -> 0 <= off -> off + w1 + w2 <= total ->
  get v total off (w1 + w2) = get v total off w1 * 2 ^ w2 + get v total (off + w1) w2.
Proof.
  intros H1 H2 Ho Ht. unfold get. set (k := total - off - w1 - w2).
  replace (total - off - (w1 + w2)) with k by lia. replace (total - off - w1) with (k + w2) by lia.
  replace (total - (off + w1) - w2) with k by lia.
  rewrite !Z.pow_add_r, <- Z.div_div by lia. rewrite (Z.mul_comm (2 ^ w1)), Z.rem_mul_r by lia. ring.
Qed.

(** Masks and shifts. *)
Lemma mask_mod v w : 0 <= w -> Z.land v (Z.shiftl 1 w - 1) = v mod 2 ^ w.
Proof. intros H. rewrite Z.shiftl_1_l, <- Z.land_ones by lia. f_equal. rewrite Z.ones_equiv. lia. Qed.

Lemma lor_concat a b n : 0 <= n -> 0 <= b < 2 ^ n -> Z.lor (Z.shiftl a n) b = a * 2 ^ n + b.
Proof.
  intros Hn Hb. rewrite <- Z.shiftl_mul_pow2 by lia. symmetry.
  rewrite <- Z.lxor_lor, <- Z.add_nocarry_lxor; [done| |].
  all: apply Z.bits_inj'; intros k Hk; rewrite Z.land_spec, Z.bits_0, Z.shiftl_spec by lia.
  all: destruct (Z.lt_ge_cases k n); [by rewrite Z.testbit_neg_r by lia|].
  all: assert (Z.testbit b k = false) as ->; [|by rewrite andb_false_r].
  all: destruct (Z.eq_dec b 0) as [->|]; [apply Z.bits_0|apply Z.bits_above_log2; [lia|]].
  all: apply Z.log2_lt_pow2; [lia|]; eapply Z.lt_le_trans; [apply Hb|apply Z.pow_le_mono_r; lia].
Qed.
