(* ===== verification/Outline.v ===== *)
(** * Outlines of regions

    compose/protocols/vendors/random/geo_simplify.py: the Douglas-Peucker
    simplification of a ring, the repair of a ring that crosses itself, and
    the area. Coordinates are floats, as a GeoJSON file writes them; points are
    pairs (the source's points are two-element lists), and none is NaN where
    the source sorts. *)

From Stdlib Require Import Sorted.
From S2P Require Import Prelude PyFloat.
#[local] Open Scope Z_scope.
#[local] Open Scope nat_scope.

Abbreviation place := (float * float)%type.

Definition float_eq (p q : place) : bool := feq (fst p) (fst q) && feq (snd p) (snd q).
Definition fabsolute (x : float) : float := SpecFloat.SFabs x.

(** [x / y] on floats *)
Definition fdivide (x y : float) : exc float := if is_fzero y then Raise ZeroDivisionError else Ok (fdiv_raw x y).

Section Outline.
Context `{Libm}.

Definition half : float := dec 5 1.

Definition _perp (p a b : place) : exc float :=
  let '(x, y) := p in
  let '(x1, y1) := a in
  let '(x2, y2) := b in
  let dx := fsub x2 x1 in
  let dy := fsub y2 y1 in
  if feq dx dy && feq dy (fl 0) then
    let? ex := m_pow (fsub x x1) (fl 2) in
    let? ey := m_pow (fsub y y1) (fl 2) in
    m_pow (fadd ex ey) half
  else
    let? d := m_pow (fadd (fmul dx dx) (fmul dy dy)) half in
    fdivide (fabsolute (fsub (fadd (fsub (fmul dy x) (fmul dx y)) (fmul x2 y1)) (fmul y2 x1))) d.

(** ** Douglas-Peucker *)
Section Points.
Variable points : list place.

(** [_perp(points[k], points[i], points[j])] *)
Definition perp_at (k i j : nat) : exc float :=
  match nth_error points k, nth_error points i, nth_error points j with
  | Some p, Some a, Some b => _perp p a b
  | _, _, _ => Raise IndexError
  end.

(** The inner loop, over [i] to the last index before [hi]. *)
Fixpoint farthest (n i lo hi : nat) (far : option nat) (far_d : float) : exc (option nat) :=
  match n with
  | O => Ok far
  | S n' =>
      let? d := perp_at i lo hi in
      if flt far_d d then farthest n' (S i) lo hi (Some i) d else farthest n' (S i) lo hi far far_d
  end.

(** The stack's top is the head of the list; a marked index is [true] in [keep]. *)
Fixpoint mark (far : nat) (keep : list bool) : list bool :=
  match keep, far with
  | [], _ => []
  | _ :: keep', O => true :: keep'
  | b :: keep', S far' => b :: mark far' keep'
  end.

Fixpoint peucker_loop (fuel : nat) (eps : float) (stack : list (nat * nat)) (keep : list bool) : exc (list bool) :=
  match fuel with
  | O => Raise OutOfFuel
  | S fuel' =>
      match stack with
      | [] => Ok keep
      | (lo, hi) :: stack' =>
          let? far := farthest (hi - S lo) (S lo) lo hi None eps in
          match far with
          | Some far => peucker_loop fuel' eps ((far, hi) :: (lo, far) :: stack') (mark far keep)
          | None => peucker_loop fuel' eps stack' keep
          end
      end
  end.

Definition kept_indices (keep : list bool) : list nat := List.filter (fun i => nth i keep false) (seq 0 (length keep)).

Definition _douglas_peucker (eps : float) : exc (list nat) :=
  let n := length points in
  if n =? 0 then Raise IndexError else
  let keep := mark (n - 1) (mark 0 (repeat false n)) in
  let? keep := peucker_loop (2 * n + 1) eps [(0, n - 1)] keep in
  Ok (kept_indices keep).

(** ** What is kept *)
Abbreviation marked keep i := (nth i keep false = true).

Lemma mark_nth far keep i : nth i (mark far keep) false = if (i =? far) && (far <? length keep) then true else nth i keep false.
Proof.
  revert far i. induction keep as [|b keep IH]; intros far i; cbn [mark length].
  - change (far <? 0) with false. rewrite andb_false_r. by destruct i, far.
  - destruct far as [|far], i as [|i]; cbn [nth mark]; done.
Qed.

Lemma length_mark far keep : length (mark far keep) = length keep.
Proof. revert far. induction keep as [|b keep IH]; intros [|far]; cbn [mark length]; auto. Qed.

(** A gap whose points are all within [eps] of its chord. *)
Definition flat (eps : float) (i j : nat) : Prop := forall k, i < k < j -> exists d, perp_at k i j = Ok d /\ flt eps d = false.

Lemma farthest_ok eps n : forall i lo hi far far_d, i + n = hi -> lo < i ->
  (far = None -> far_d = eps /\ forall k, lo < k < i -> exists d, perp_at k lo hi = Ok d /\ flt eps d = false) ->
  (forall f, far = Some f -> lo < f < hi) ->
  match farthest n i lo hi far far_d with
  | Ok None => flat eps lo hi
  | Ok (Some f) => lo < f < hi
  | Raise e => exists k, lo < k < hi /\ perp_at k lo hi = Raise e
  end.
Proof.
  induction n as [|n IH]; intros i lo hi far far_d Hi Hlo Hn Hs; cbn [farthest].
  - destruct far as [f|]; [by apply Hs|]. intros k Hk. apply (Hn eq_refl). lia.
  - destruct (perp_at i lo hi) as [d|e] eqn:Ed; cbn [exc_bind]; [|exists i; split; [lia|done]].
    destruct (flt far_d d) eqn:Ef; apply IH; try lia; try done.
    + intros f [= <-]. lia.
    + intros ->. destruct (Hn eq_refl) as [-> Hk]. split; [done|]. intros k Hk'.
      destruct (decide (k = i)) as [->|]; [by exists d|]. apply Hk. lia.
Qed.

(** Consecutive kept indices are waiting on the stack or flat. *)
Record gaps_covered (eps : float) (stack : list (nat * nat)) (keep : list bool) : Prop := {
  c_length : length keep = length points;
  c_first : marked keep 0;
  c_last : marked keep (length points - 1);
  c_nodup : NoDup stack;
  c_stack lo hi : In (lo, hi) stack -> lo <= hi < length points /\ marked keep lo /\ marked keep hi /\ forall k, lo < k < hi -> ~ marked keep k;
  c_gaps i j : i < j < length points -> marked keep i -> marked keep j -> (forall k, i < k < j -> ~ marked keep k) -> In (i, j) stack \/ flat eps i j;
}.

Lemma covered_flat eps lo hi stack keep : gaps_covered eps ((lo, hi) :: stack) keep -> flat eps lo hi -> gaps_covered eps stack keep.
Proof.
  intros [H0 H1 H2 H3 H4 H5] Hf. split; try done.
  - by inversion H3.
  - intros l h Hin. apply H4. by right.
  - intros i j Hij Hi Hj Hk. destruct (H5 i j Hij Hi Hj Hk) as [[[= <- <-]|?]|?]; auto.
Qed.

Lemma covered_split eps lo hi far stack keep : gaps_covered eps ((lo, hi) :: stack) keep -> lo < far < hi ->
  gaps_covered eps ((far, hi) :: (lo, far) :: stack) (mark far keep) /\ ~ marked keep far.
Proof.
  intros [H0 H1 H2 H3 H4 H5] Hf. destruct (H4 lo hi) as (Hb & Hlo & Hhi & Hno); [by left|].
  assert (~ marked keep far) as Hfar by (apply Hno; lia). split; [|done].
  assert (forall i, marked (mark far keep) i <-> i = far \/ marked keep i) as Hm.
  { intros i. rewrite mark_nth, H0. destruct (Nat.eqb_spec i far) as [->|Hne]; cbn [andb].
    - destruct (Nat.ltb_spec far (length points)); [|lia]. split; auto.
    - split; auto. by intros [?|?]. }
  assert (forall l h, In (l, h) stack -> ~ (l < far < h)) as Hout.
  { intros l h Hin Hlh. destruct (H4 l h) as (Hb' & Hl' & Hh' & Hno'); [by right|].
    assert (l = lo) as -> by (destruct (Nat.lt_trichotomy l lo) as [?|[?|?]]; [destruct (Hno' lo); [lia|done]|done|destruct (Hno l); [lia|done]]).
    assert (h = hi) as -> by (destruct (Nat.lt_trichotomy h hi) as [?|[?|?]]; [destruct (Hno h); [lia|done]|done|destruct (Hno' hi); [lia|done]]).
    inversion H3 as [|? ? Hni]; subst. by apply Hni, list_elem_of_In. }
  split.
  - by rewrite length_mark.
  - apply Hm. by right.
  - apply Hm. by right.
  - inversion H3 as [|? ? Hni Hnd]; subst. apply NoDup_cons. split; [|apply NoDup_cons; split; [|done]].
    + intros Hin%list_elem_of_In. destruct Hin as [[= -> ->]|Hin]; [lia|]. destruct (H4 far hi) as (_ & Hc & _); [by right|]. done.
    + intros Hin%list_elem_of_In. destruct (H4 lo far) as (_ & _ & Hc & _); [by right|]. done.
  - intros l h [[= <- <-]|[[= <- <-]|Hin]].
    + split; [lia|]. split; [apply Hm; by left|]. split; [apply Hm; by right|]. intros k Hk [->|Hk']%Hm; [lia|]. apply (Hno k); [lia|done].
    + split; [lia|]. split; [apply Hm; by right|]. split; [apply Hm; by left|]. intros k Hk [->|Hk']%Hm; [lia|]. apply (Hno k); [lia|done].
    + destruct (H4 l h) as (Hb' & Hl' & Hh' & Hno'); [by right|]. split; [done|]. split; [apply Hm; by right|]. split; [apply Hm; by right|].
      intros k Hk [->|Hk']%Hm; [by apply (Hout l h)|]. by apply (Hno' k).
  - intros i j Hij Hi%Hm Hj%Hm Hk.
    assert (forall k, i < k < j -> k <> far /\ ~ marked keep k) as Hk' by (intros k Hk1; specialize (Hk k Hk1); rewrite Hm in Hk; tauto).
    destruct Hi as [->|Hi], Hj as [->|Hj]; [lia| | |].
    + left. left. f_equal. destruct (Nat.lt_trichotomy j hi) as [?|[?|?]]; [destruct (Hno j); [lia|done]|done|destruct (Hk' hi) as [_ []]; [lia|done]].
    + left. right. left. f_equal. destruct (Nat.lt_trichotomy i lo) as [?|[?|?]]; [destruct (Hk' lo) as [_ []]; [lia|done]|done|destruct (Hno i); [lia|done]].
    + destruct (H5 i j Hij Hi Hj) as [[[= -> ->]|Hin]|Hfl]; [intros k Hk2; by apply Hk'|destruct (Hk' far); [lia|done]|left; right; by right|by right].
Qed.

(** How much is left to do: a split marks an index and waits for one gap more. *)
Definition unmarked (keep : list bool) : nat := length (List.filter negb keep).

Lemma unmarked_mark far keep : nth far keep true = false -> S (unmarked (mark far keep)) = unmarked keep.
Proof.
  unfold unmarked. revert far. induction keep as [|b keep IH]; intros [|far]; cbn [mark nth List.filter]; try done.
  - intros ->. done.
  - intros Hf. destruct b; cbn [negb List.filter length]; by rewrite <- (IH far Hf).
Qed.

Lemma peucker_loop_ok eps fuel : forall stack keep, gaps_covered eps stack keep -> 2 * unmarked keep + length stack < fuel ->
  match peucker_loop fuel eps stack keep with
  | Ok keep' => gaps_covered eps [] keep'
  | Raise e => exists i j k, i < k < j /\ j < length points /\ perp_at k i j = Raise e
  end.
Proof.
  induction fuel as [|fuel IH]; intros [|[lo hi] stack] keep Hc Hf; cbn [length] in Hf; try lia; cbn [peucker_loop]; [done|].
  destruct (c_stack _ _ _ Hc lo hi) as (Hb & _ & Hhi & _); [by left|].
  pose proof (farthest_ok eps (hi - S lo) (S lo) lo hi None eps) as Hfar.
  destruct (decide (lo = hi)) as [->|Hne].
  - replace (hi - S hi) with 0 by lia. cbn [farthest exc_bind]. apply IH; [|lia].
    apply (covered_flat _ hi hi); [done|]. intros k. lia.
  - specialize (Hfar ltac:(lia) ltac:(lia) ltac:(intros _; split; [done|lia]) ltac:(done)).
    destruct (farthest _ _ _ _ _ _) as [[f|]|e]; cbn [exc_bind].
    + destruct (covered_split _ _ _ f _ _ Hc Hfar) as [Hc' Hn]. apply IH; [done|]. cbn [length].
      assert (nth f keep true = false) as Hn'.
      { rewrite (nth_indep _ _ false); [by apply not_true_is_false|]. rewrite (c_length _ _ _ Hc). lia. }
      rewrite <- (unmarked_mark _ _ Hn') in Hf. lia.
    + apply IH; [by eapply covered_flat|lia].
    + destruct Hfar as (k & Hk & He). exists lo, hi, k. split; [lia|]. split; [lia|done].
Qed.

Lemma covered_start eps : points <> [] ->
  gaps_covered eps [(0, length points - 1)] (mark (length points - 1) (mark 0 (repeat false (length points)))).
Proof.
  intros Hp. assert (0 < length points) as Hn by (destruct points; [done|cbn [length]; lia]).
  assert (forall i, nth i (mark (length points - 1) (mark 0 (repeat false (length points)))) false = true <->
                    i = 0 \/ i = length points - 1) as Hm.
  { intros i. rewrite !mark_nth, length_mark, repeat_length, nth_repeat.
    destruct (Nat.ltb_spec (length points - 1) (length points)), (Nat.ltb_spec 0 (length points)); try lia. rewrite !andb_true_r.
    destruct (Nat.eqb_spec i (length points - 1)); [split; auto|]. destruct (Nat.eqb_spec i 0); [split; auto|]. split; [done|tauto]. }
  split.
  - by rewrite !length_mark, repeat_length.
  - apply Hm. by left.
  - apply Hm. by right.
  - apply NoDup_singleton.
  - intros lo hi [[= <- <-]|[]]. split; [lia|]. split; [apply Hm; by left|]. split; [apply Hm; by right|].
    intros k Hk [->| ->]%Hm; lia.
  - intros i j Hij [->| ->]%Hm [->| ->]%Hm _; try lia. left. by left.
Qed.

Lemma unmarked_le far keep : unmarked (mark far keep) <= unmarked keep.
Proof.
  unfold unmarked. revert far. induction keep as [|b keep IH]; intros [|far]; cbn [mark List.filter]; try done.
  - destruct b; cbn [negb length]; lia.
  - specialize (IH far). destruct b; cbn [negb length]; lia.
Qed.

Lemma unmarked_start n : 0 < n -> unmarked (mark (n - 1) (mark 0 (repeat false n))) < n.
Proof.
  intros Hn. pose proof (unmarked_le (n - 1) (mark 0 (repeat false n))).
  assert (unmarked (repeat false n) = n) as Hr by (unfold unmarked; clear; induction n as [|n IH]; [done|cbn; by f_equal]).
  assert (S (unmarked (mark 0 (repeat false n))) = unmarked (repeat false n)) as Hs by (apply unmarked_mark; destruct n; [lia|done]).
  lia.
Qed.

Lemma in_kept keep i : In i (kept_indices keep) <-> nth i keep false = true.
Proof.
  unfold kept_indices. rewrite filter_In, in_seq. split; [by intros [_ Hx]|]. intros Hm. split; [|done].
  destruct (Nat.lt_ge_cases i (length keep)); [lia|]. by rewrite nth_overflow in Hm.
Qed.

Lemma kept_sorted keep : StronglySorted lt (kept_indices keep).
Proof.
  unfold kept_indices. generalize 0. generalize (fun i => nth i keep false). induction (length keep) as [|n IH]; intros f a; cbn [seq List.filter]; [constructor|].
  destruct (f a); [|apply IH]. constructor; [apply IH|]. apply Forall_forall. intros x Hx. apply list_elem_of_In, filter_In in Hx as [Hx%in_seq _]. lia.
Qed.

Lemma douglas_peucker_ok eps (Hp : points <> []) :
  match _douglas_peucker eps with
  | Ok kept => StronglySorted lt kept /\ In 0 kept /\ In (length points - 1) kept /\ (forall i, In i kept -> i < length points) /\
      forall i j, In i kept -> In j kept -> i < j -> (forall k, i < k < j -> ~ In k kept) -> flat eps i j
  | Raise e => exists i j k, i < k < j /\ j < length points /\ perp_at k i j = Raise e
  end.
Proof.
  unfold _douglas_peucker. destruct (Nat.eqb_spec (length points) 0) as [E|Hn]; [by destruct points|].
  pose proof (peucker_loop_ok eps (2 * length points + 1) _ _ (covered_start eps Hp)) as Hl.
  pose proof (unmarked_start (length points)). specialize (Hl ltac:(cbn [length]; lia)).
  destruct (peucker_loop _ _ _ _) as [keep|e]; cbn [exc_bind]; [|exact Hl].
  destruct Hl as [C0 C1 C2 _ _ C5]. split; [apply kept_sorted|]. rewrite !in_kept. split; [done|]. split; [done|]. split.
  - intros i Hi%in_kept. rewrite <- C0. destruct (Nat.lt_ge_cases i (length keep)); [done|]. by rewrite nth_overflow in Hi.
  - intros i j Hi%in_kept Hj%in_kept Hij Hk. destruct (C5 i j) as [[]|]; try done.
    + split; [done|]. rewrite <- C0. destruct (Nat.lt_ge_cases j (length keep)); [done|]. by rewrite nth_overflow in Hj.
    + intros k Hk' Hm. apply (Hk k Hk'). by apply in_kept.
Qed.

(** C26: the Douglas-Peucker simplification ends, and does what it is for:
    the indices kept are in order, the first and the last point stay, and every
    point left out is no farther than [eps] from the chord between the kept points
    around it; an exception can only be that of a distance. *)
Theorem douglas_peucker_exact eps (Hp : points <> []) :
  match _douglas_peucker eps with
  | Ok kept => StronglySorted lt kept /\ In 0 kept /\ In (length points - 1) kept /\ (forall i, In i kept -> i < length points) /\
      forall i j, In i kept -> In j kept -> i < j -> (forall k, i < k < j -> ~ In k kept) -> flat eps i j
  | Raise e => exists i j k, i < k < j /\ j < length points /\ perp_at k i j = Raise e
  end.
Proof. by apply douglas_peucker_ok. Qed.
End Points.

(** ** Rings that cross themselves *)
Definition _orient (a b c : place) : float :=
  fsub (fmul (fsub (snd c) (snd a)) (fsub (fst b) (fst a))) (fmul (fsub (snd b) (snd a)) (fsub (fst c) (fst a))).

(** The ends of side_of [i] of the closed ring [points]. *)
Definition side_of (points : list place) (i : nat) : place * place :=
  let origin := (fl 0, fl 0) in (nth i points origin, nth ((i + 1) mod length points) points origin).
Definition left_end (points : list place) (i : nat) : float := let (a, b) := side_of points i in fmin (fst a) (fst b).
Definition right_end (points : list place) (i : nat) : float := let (a, b) := side_of points i in fmax (fst a) (fst b).

(** [sorted] is stable. *)
Fixpoint insert_by (key : nat -> float) (i : nat) (l : list nat) : list nat :=
  match l with
  | [] => [i]
  | j :: l' => if flt (key j) (key i) then j :: insert_by key i l' else i :: l
  end.
Definition sorted_by (key : nat -> float) (l : list nat) : list nat := foldr (insert_by key) [] l.

Definition properly_cross (points : list place) (i j : nat) : bool :=
  let (a, b) := side_of points i in
  let (c, d) := side_of points j in
  flt (fmul (_orient a b c) (_orient a b d)) (fl 0) && flt (fmul (_orient c d a) (_orient c d b)) (fl 0).

Definition neighbours (n i j : nat) : bool := ((i + 1) mod n =? j) || ((j + 1) mod n =? i).

Fixpoint crossings_of (points : list place) (i : nat) (later : list nat) : list (nat * nat) :=
  match later with
  | [] => []
  | j :: later' =>
      if flt (right_end points i) (left_end points j) then []
      else if neighbours (length points) i j then crossings_of points i later'
      else if properly_cross points i j then (i, j) :: crossings_of points i later' else crossings_of points i later'
  end.

Fixpoint sweep_segments (points : list place) (segs : list nat) : list (nat * nat) :=
  match segs with
  | [] => []
  | i :: segs' => crossings_of points i segs' ++ sweep_segments points segs'
  end.

Definition _crossings (points : list place) : list (nat * nat) :=
  sweep_segments points (sorted_by (left_end points) (seq 0 (length points))).

(** ** A ring of about so many points *)
Definition pick (points : list place) (kept : list nat) : list place := omap (nth_error points) kept.

Fixpoint eps_loop (fuel : nat) (points : list place) (max_vertices : Z) (eps : float) (kept : list nat) : exc (list nat) :=
  match fuel with
  | O => Raise OutOfFuel
  | S fuel' =>
      if ((max_vertices - 1 <? Z.of_nat (length kept))%Z && flt eps (fl 5))%bool then
        let? kept := _douglas_peucker points eps in
        eps_loop fuel' points max_vertices (fmul eps (dec 16 1)) kept
      else Ok kept
  end.

(** The points put back along side_of [k] of the simplified ring. *)
Definition put_back (n : nat) (kept : list nat) (k i : nat) : bool :=
  let lo := nth k kept 0 in
  let hi := nth ((k + 1) mod length kept) kept 0 in
  if lo <? hi then (lo <=? i) && (i <=? hi) else (lo <=? i) && (i <? n).

Definition repaired (points : list place) (kept : list nat) (crossed : list nat) : list nat :=
  List.filter (fun i => existsb (Nat.eqb i) kept || existsb (fun k => put_back (length points) kept k i) crossed) (seq 0 (length points)).

Fixpoint repair (rounds : nat) (points : list place) (kept : list nat) : list nat :=
  match rounds with
  | O => kept
  | S rounds' =>
      match flat_map (fun pair => [fst pair; snd pair]) (_crossings (pick points kept)) with
      | [] => kept
      | crossed => repair rounds' points (repaired points kept crossed)
      end
  end.

Definition open_ring (ring : list place) : exc (list place) :=
  match ring with
  | [] => Raise IndexError
  | first :: _ => Ok (if float_eq first (List.last ring first) then removelast ring else ring)
  end.

(** [simplify_ring] from the points of the open ring on. *)
Definition simplify_points (points : list place) (max_vertices : Z) : exc (list place) :=
  let? kept := eps_loop 64 points max_vertices (dec 5 4) (seq 0 (length points)) in
  let kept := if length kept <? length points then repair 8 points kept else kept in
  match pick points kept with
  | [] => Raise IndexError
  | (first :: _) as simplified => Ok (simplified ++ [first])
  end.

Definition simplify_ring (ring : list place) (max_vertices : Z) : exc (list place) :=
  let? points := open_ring ring in
  simplify_points points max_vertices.

(** [zip(ring, ring[1:] + ring[:1])] *)
Definition ring_area (ring : list place) : float :=
  let products := zip_with (fun a b : place => fsub (fmul (fst a) (snd b)) (fmul (fst b) (snd a))) ring (tl ring ++ firstn 1 ring) in
  fdiv_raw (fabsolute (fold_left fadd products (fl 0))) (fl 2).

(** ** What a simplified ring is *)

(** Indices in order, the first point among them. *)
Definition selection (points : list place) (kept : list nat) : Prop :=
  StronglySorted lt kept /\ (forall i, In i kept -> i < length points) /\ In 0 kept.

Lemma filter_selection points f : 0 < length points -> f 0 = true -> selection points (List.filter f (seq 0 (length points))).
Proof.
  intros Hn Hf. split; [|split].
  - generalize 0. induction (length points) as [|n IH]; intros a; cbn [seq List.filter]; [constructor|].
    assert (forall b, StronglySorted lt (List.filter f (seq b n))) as Hs; [|destruct (f a); [constructor; [apply Hs|]|apply Hs]].
    { clear. induction n as [|n IH]; intros b; cbn [seq List.filter]; [constructor|]. destruct (f b); [|apply IH]. constructor; [apply IH|].
      apply Forall_forall. intros x Hx. apply list_elem_of_In, filter_In in Hx as [Hx%in_seq _]. lia. }
    apply Forall_forall. intros x Hx. apply list_elem_of_In, filter_In in Hx as [Hx%in_seq _]. lia.
  - intros i Hi. apply filter_In in Hi as [Hi%in_seq _]. lia.
  - apply filter_In. split; [apply in_seq; lia|done].
Qed.

Lemma all_selection points : 0 < length points -> selection points (seq 0 (length points)).
Proof.
  intros Hn. pose proof (filter_selection points (fun _ => true) Hn eq_refl) as Hs.
  enough (List.filter (fun _ => true) (seq 0 (length points)) = seq 0 (length points)) as E by (by rewrite E in Hs).
  generalize (seq 0 (length points)). induction l as [|x l IH]; cbn; [done|by f_equal].
Qed.

Lemma repair_selection points rounds : 0 < length points -> forall kept, selection points kept -> selection points (repair rounds points kept).
Proof.
  intros Hn. induction rounds as [|rounds IH]; intros kept Hk; cbn [repair]; [done|].
  destruct (flat_map _ _) as [|k crossed]; [done|]. apply IH, filter_selection; [done|]. destruct Hk as (_ & _ & Hk).
  apply orb_true_iff. left. apply existsb_exists. by exists 0.
Qed.

(** The bound on [eps] is passed after twenty rounds. *)
Definition eps_after (n : nat) : float := Nat.iter n (fun eps => fmul eps (dec 16 1)) (dec 5 4).
Lemma eps_after_20 : flt (eps_after 20) (fl 5) = false.
Proof. vm_compute. reflexivity. Qed.

Definition perp_raises (points : list place) (e : exn) : Prop :=
  exists i j k, i < k < j /\ j < length points /\ perp_at points k i j = Raise e.

Lemma eps_loop_ok points max_vertices : 0 < length points -> forall n left kept, n + left = 20 -> selection points kept ->
  match eps_loop (S left + 43) points max_vertices (eps_after n) kept with
  | Ok kept => selection points kept
  | Raise e => perp_raises points e
  end.
Proof.
  intros Hn n left. revert n. induction left as [|left IH]; intros n kept Hs Hk; cbn [Nat.add eps_loop].
  - replace n with 20 by lia. rewrite eps_after_20. by rewrite andb_false_r.
  - destruct (_ && _); [|done]. assert (points <> []) as Hp by (by destruct points; [cbn in Hn; lia|]).
    pose proof (douglas_peucker_ok points (eps_after n) Hp) as Hd.
    destruct (_douglas_peucker points (eps_after n)) as [kept'|e]; cbn [exc_bind]; [|exact Hd].
    destruct Hd as (D1 & D2 & _ & D4 & _). change (fmul (eps_after n) (dec 16 1)) with (eps_after (S n)). apply IH; [lia|]. by split.
Qed.

Lemma pick_selection points kept : selection points kept -> length (pick points kept) = length kept /\ head (pick points kept) = head points.
Proof.
  intros (Hs & Hb & H0). assert (forall l, (forall i, In i l -> i < length points) -> length (pick points l) = length l) as Hl.
  { induction l as [|i l IH]; intros Hi; cbn; [done|]. destruct (nth_error points i) as [p|] eqn:E; cbn.
    - f_equal. apply IH. intros j Hj. apply Hi. by right.
    - apply nth_error_None in E. specialize (Hi i ltac:(by left)). lia. }
  split; [by apply Hl|]. destruct Hs as [|i l Hs Hi]; [destruct H0|].
  assert (i = 0) as ->. { destruct H0 as [|Hin]; [done|]. rewrite Forall_forall in Hi. specialize (Hi 0 ltac:(by apply list_elem_of_In)). lia. }
  specialize (Hb 0 ltac:(by left)). destruct points as [|p points]; [cbn in Hb; lia|]. done.
Qed.

Lemma pick_all points : pick points (seq 0 (length points)) = points.
Proof.
  assert (forall pre, pick (pre ++ points) (seq (length pre) (length points)) = points) as Hp; [|exact (Hp [])].
  induction points as [|p points IH]; intros pre; cbn [length seq pick omap list_omap]; [done|].
  rewrite nth_error_app2, Nat.sub_diag by lia. cbn [nth_error]. f_equal.
  specialize (IH (pre ++ [p])). rewrite <- app_assoc, length_app, Nat.add_1_r in IH. exact IH.
Qed.

(** C40: [simplify_ring] ends, with a closed ring of the ring's own points in
    their order, starting where the ring started; a ring that has few enough
    points comes back as it is; the only errors are a ring without points, and
    those of a distance. *)
Theorem simplify_ring_exact ring max_vertices :
  match simplify_ring ring max_vertices with
  | Ok out => exists points first kept, open_ring ring = Ok points /\ head points = Some first /\
      selection points kept /\ out = pick points kept ++ [first] /\
      ((Z.of_nat (length points) <= max_vertices - 1)%Z -> out = points ++ [first])
  | Raise e => (e = IndexError /\ (open_ring ring = Raise IndexError \/ open_ring ring = Ok [])) \/
      exists points, open_ring ring = Ok points /\ perp_raises points e
  end.
Proof.
  unfold simplify_ring, simplify_points. destruct (open_ring ring) as [points|e] eqn:Er; cbn [exc_bind].
  2: { left. destruct ring; [|done]. injection Er as <-. auto. }
  destruct (decide (points = [])) as [->|Hp].
  { cbn [length seq]. assert (eps_loop 64 [] max_vertices (dec 5 4) [] = Ok [] \/ eps_loop 64 [] max_vertices (dec 5 4) [] = Raise IndexError) as [-> | ->].
    - cbn [eps_loop]. destruct (_ && _); [by right|by left].
    - left. auto.
    - left. auto. }
  assert (0 < length points) as Hn by (destruct points; [done|cbn; lia]).
  pose proof (eps_loop_ok points max_vertices Hn 0 20 _ eq_refl (all_selection points Hn)) as He.
  change (eps_loop 64 points max_vertices (dec 5 4)) with (eps_loop (21 + 43) points max_vertices (eps_after 0)).
  destruct (eps_loop (21 + 43) _ _ _ _) as [kept|e] eqn:Ek; cbn [exc_bind]; [|right; by exists points].
  set (kept' := if length kept <? length points then repair 8 points kept else kept).
  assert (selection points kept') as Hk by (subst kept'; destruct (_ <? _); [by apply repair_selection|done]).
  destruct (pick_selection points kept' Hk) as [Hl Hh]. destruct points as [|first points]; [done|].
  destruct (pick (first :: points) kept') as [|p simplified] eqn:Ep; [done|]. injection Hh as ->.
  exists (first :: points), first, kept'. rewrite Ep. split; [done|]. split; [done|]. split; [exact Hk|]. split; [done|].
  intros Hmax. assert (kept = seq 0 (length (first :: points))) as Hkept.
  { change (21 + 43) with 64 in Ek. cbn [eps_loop] in Ek. rewrite length_seq in Ek. destruct (Z.ltb_spec (max_vertices - 1) (Z.of_nat (length (first :: points)))); [lia|].
    by injection Ek as <-. }
  subst kept'. rewrite Hkept, length_seq in Ep. rewrite Nat.ltb_irrefl, pick_all in Ep. by rewrite <- Ep.
Qed.
End Outline.

(** A C library whose [pow] is exact on the two exponents the source uses. *)
Definition outline_libm : Libm := {|
  m_sin x := Ok x; m_cos x := Ok x; m_asin x := Ok x; m_atan2 y x := Ok y; m_hypot x y := Ok x;
  m_pow x y := Ok (if feq y half then SpecFloat.SFsqrt prec emax x else fmul x x);
|}.

(** A bent line: the bend is a tenth off the chord, the other points less. *)
Definition sample_line : list place := [(fl 0, fl 0); (fl 1, dec 1 2); (fl 2, dec 1 1); (fl 3, dec 4 2); (fl 4, fl 0)].

Lemma douglas_peucker_exact_witness :
  sample_line <> [] /\ @_douglas_peucker outline_libm sample_line (dec 5 2) = Ok [0; 2; 4] /\
  @flat outline_libm sample_line (dec 5 2) 0 2.
Proof.
  split; [done|]. pose proof (@douglas_peucker_exact outline_libm sample_line (dec 5 2) ltac:(done)) as Hd.
  assert (@_douglas_peucker outline_libm sample_line (dec 5 2) = Ok [0; 2; 4]) as E by (vm_compute; reflexivity).
  rewrite E in Hd. split; [exact E|]. destruct Hd as (_ & _ & _ & _ & Hd). apply (Hd 0 2 ltac:(by left) ltac:(by right; left) ltac:(lia)).
  intros k Hk Hin. assert (k = 1) as -> by lia. cbn in Hin. lia.
Defined.

(** A zigzag twenty degrees wide keeps eight of its ten points and is closed where four are asked for. *)
Definition zigzag : list place := map (fun i => (fl (Z.of_nat i), if Nat.even i then fl 0 else fl 20)) (seq 0 10).
Lemma simplify_ring_exceeds : exists out, @simplify_ring outline_libm zigzag 4 = Ok out /\ length out = 9.
Proof. eexists. split; [vm_compute; reflexivity|]. reflexivity. Qed.
