(* ===== verification/PyText.v ===== *)
(** * Python text

    The [str] methods the source's bookkeeping uses (the decoders' own text
    functions are in [PyData]), and what the source does to text by code point:
    strict UTF-8 decoding, upper and lower case, splitting at white space and
    cutting to a length.  A [str] is its UTF-8 encoding. *)

From S2P Require Import Prelude PyFloat PyData Schema TrackViews.

Definition startswith (pre s : string) : bool := String.prefix pre s.

(** [s.endswith(suf)] *)
Definition endswith (suf s : string) : bool :=
  let n := String.length s in
  let k := String.length suf in
  (k <=? n)%nat && String.eqb (substring (n - k) k s) suf.

(** [pat in s] *)
Definition contains (pat s : string) : bool :=
  match String.index 0 pat s with Some _ => true | None => false end.

(** [s.split(sep)] for separators of one character, given by a test. *)
Fixpoint split_by (sep : ascii -> bool) (s : string) : list string :=
  match s with
  | EmptyString => [""]
  | String c s' =>
      if sep c then "" :: split_by sep s'
      else match split_by sep s' with
           | p :: ps => String c p :: ps
           | [] => [String c ""]
           end
  end.

(** [int(s)] for a stripped string: an optional sign, then digits, with single
    underscores between them; at most 4300 digits. *)
Fixpoint int_digits (s : string) (acc n : Z) (after_digit : bool) : option Z :=
  match s with
  | EmptyString => if after_digit && (n <=? 4300) then Some acc else None
  | String c s' =>
      if is_digit c then int_digits s' (10 * acc + (Z.of_N (N_of_ascii c) - 48)) (n + 1) true
      else if Ascii.eqb c "_"%char && after_digit then int_digits s' acc n false
      else None
  end.

Definition parse_int (s : string) : option Z :=
  match s with
  | String "-" s' => option_map Z.opp (int_digits s' 0 0 false)
  | String "+" s' => int_digits s' 0 0 false
  | _ => int_digits s 0 0 false
  end.

Example parse_int_ex : map parse_int ["4711"; "-1_0"; "_1"; "1_"; ""; "12 3"]%py =
  [Some 4711; Some (-10); None; None; None; None].
Proof. reflexivity. Qed.
Example endswith_ex : endswith "/tracks/v1" "efdi/air/x/tracks/v1" = true /\ endswith "abc" "bc" = false.
Proof. split; reflexivity. Qed.

(** The value of the digits written by [digits] is the number. *)
Lemma all_chars_app f a b : all_chars f (a +:+ b) = all_chars f a && all_chars f b.
Proof. induction a as [|c a IH]; cbn; [done|]. by rewrite IH, andb_assoc. Qed.

Lemma append_assoc a b c : (a +:+ b) +:+ c = a +:+ (b +:+ c).
Proof. induction a as [|x a IH]; cbn; [done|]. by rewrite IH. Qed.

Lemma length_append a b : String.length (a +:+ b) = (String.length a + String.length b)%nat.
Proof. induction a as [|x a IH]; cbn; [done|]. by rewrite IH. Qed.

Lemma substring_append a b : substring (String.length a) (String.length b) (a +:+ b) = b.
Proof.
  induction a as [|x a IH]; cbn; [|exact IH].
  induction b as [|y b IHb]; cbn; [done|]. by rewrite IHb.
Qed.

Lemma endswith_append suf s : endswith suf (s +:+ suf) = true.
Proof.
  unfold endswith. cbv zeta. rewrite length_append.
  replace (String.length suf <=? String.length s + String.length suf)%nat with true
    by (symmetry; apply Nat.leb_le; lia).
  replace (String.length s + String.length suf - String.length suf)%nat with (String.length s) by lia.
  by rewrite substring_append, String.eqb_refl.
Qed.

(** ** Text by code points *)

(** [s.split()] *)
Fixpoint words (cs : list Z) (word : list Z) : list (list Z) :=
  match cs with
  | [] => match word with [] => [] | _ => [rev word] end
  | c :: cs' =>
      if space_point c then match word with [] => words cs' [] | _ => rev word :: words cs' [] end
      else words cs' (c :: word)
  end.

(** [" ".join(parts)] *)
Fixpoint joined (parts : list (list Z)) : list Z :=
  match parts with
  | [] => []
  | [p] => p
  | p :: parts' => p ++ 32 :: joined parts'
  end.

(** [" ".join(s.split())] *)
Definition squeeze (s : string) : string := utf8_encode (joined (words (code_points s) [])).

(** "ž U+2003 x" *)
Example squeeze_ex :
  utf8_decode [197; 190; 32; 226; 128; 131; 120] = Some [382; 32; 8195; 120] /\
  utf8_decode [192; 128] = None /\ utf8_decode [237; 160; 128] = None /\
  words [382; 32; 8195; 120] [] = [[382]; [120]].
Proof. repeat split; vm_compute; reflexivity. Qed.

