(* ===== verification/PyNum.v ===== *)
(** * Numbers that came out of JSON

    An attribute of a track is an int or a float; Python's arithmetic between
    ints is exact, and compares an int with a float exactly. *)

From Stdlib Require Import SpecFloat.
From S2P Require Import Prelude PyFloat PyData Schema TrackViews PyText.

Inductive number := NInt (z : Z) | NFloat (x : float).

(** A value as an operand of arithmetic or of an ordering. *)
Definition as_number (v : value) : exc number :=
  match v with
  | VInt z => Ok (NInt z)
  | VFloat x => Ok (NFloat x)
  | VBool b => Ok (NInt (if b then 1 else 0))
  | _ => Raise TypeError
  end.

Definition to_float (n : number) : exc float :=
  match n with NInt z => float_of_int z | NFloat x => Ok x end.

Definition arith (on_int : Z -> Z -> Z) (on_float : float -> float -> float) (a b : number) : exc number :=
  match a, b with
  | NInt x, NInt y => Ok (NInt (on_int x y))
  | _, _ => let? x := to_float a in let? y := to_float b in Ok (NFloat (on_float x y))
  end.

Definition nsub : number -> number -> exc number := arith Z.sub fsub.
Definition nmul : number -> number -> exc number := arith Z.mul fmul.

Definition nabs (a : number) : number :=
  match a with NInt z => NInt (Z.abs z) | NFloat x => NFloat (SFabs x) end.

(** [a % m] for a positive int [m]. *)
Definition nmod (a : number) (m : Z) : number :=
  match a with NInt z => NInt (z mod m) | NFloat x => NFloat (fmod x (fl m)) end.

(** How an int compares with the exact value of a float; not at all with a NaN. *)
Definition cmp_int_float (z : Z) (x : float) : option comparison :=
  match x with
  | S754_zero _ => Some (z ?= 0)
  | S754_finite s m e =>
      let n := if s then Z.neg m else Z.pos m in
      Some (if 0 <=? e then z ?= n * 2 ^ e else z * 2 ^ (- e) ?= n)
  | S754_infinity s => Some (if s then Gt else Lt)
  | S754_nan => None
  end.

Definition ncompare (a b : number) : option comparison :=
  match a, b with
  | NInt x, NInt y => Some (x ?= y)
  | NFloat x, NFloat y => SFcompare x y
  | NInt x, NFloat y => cmp_int_float x y
  | NFloat x, NInt y => option_map CompOpp (cmp_int_float y x)
  end.

Definition nlt (a b : number) : bool := match ncompare a b with Some Lt => true | _ => false end.
Definition nle (a b : number) : bool := match ncompare a b with Some (Lt | Eq) => true | _ => false end.

(** [a == b] on JSON values *)
Definition number_of (v : value) : option number :=
  match as_number v with Ok n => Some n | Raise _ => None end.

Fixpoint py_eq (a b : value) {struct a} : bool :=
  match a, b with
  | VNone, VNone => true
  | VStr s, VStr t => String.eqb s t
  | VList l, VList m =>
      (fix go (l m : list value) : bool :=
         match l, m with
         | [], [] => true
         | x :: l', y :: m' => py_eq x y && go l' m'
         | _, _ => false
         end) l m
  | VDict d, VDict e =>
      (len d =? len e) &&
      (fix go (d : dict) : bool :=
         match d with
         | [] => true
         | (k, v) :: d' => match dget e k with Some w => py_eq v w | None => false end && go d'
         end) d
  | _, _ => match number_of a, number_of b with
            | Some x, Some y => match ncompare x y with Some Eq => true | _ => false end
            | _, _ => false
            end
  end.

(** A value as a dictionary key. *)
Definition hashable (v : value) : bool := match v with VList _ | VDict _ => false | _ => true end.

(** [a / b] *)
Definition ndiv (a b : number) : exc float :=
  let? x := to_float a in
  let? y := to_float b in
  if is_fzero y then Raise ZeroDivisionError else Ok (fdiv_raw x y).

Definition nadd : number -> number -> exc number := arith Z.add fadd.

(** Comparisons of two values. *)
Definition vcompare (test : number -> number -> bool) (a b : value) : exc bool :=
  let? x := as_number a in
  let? y := as_number b in
  Ok (test x y).

Example nlt_ex : nlt (NInt (2 ^ 53)) (NFloat (fl (2 ^ 53))) = false /\
                 nlt (NFloat (dec 5 1)) (NInt 1) = true.
Proof. split; vm_compute; reflexivity. Qed.

(** ** [float(s)]

    Decimal literals with an optional sign, fraction and exponent, single
    underscores between digits, and the names of the special values. *)

(** The digits at the start of [s]: their value, their number, the rest. *)
Fixpoint lex_digits (s : string) (acc n : Z) (after_digit : bool) : option (Z * Z * string) :=
  match s with
  | String c s' =>
      if is_digit c then lex_digits s' (10 * acc + (Z.of_N (N_of_ascii c) - 48)) (n + 1) true
      else if Ascii.eqb c "_"%char then
        match after_digit, s' with
        | true, String c' _ => if is_digit c' then lex_digits s' acc n false else None
        | _, _ => None
        end
      else Some (acc, n, s)
  | EmptyString => Some (acc, n, s)
  end.

Definition lex_exponent (s : string) : option Z :=
  match s with
  | EmptyString => Some 0
  | String c s' => if Ascii.eqb c "e"%char then parse_int s' else None
  end.

(** [x * 10^k] for a decimal mantissa [m] of any sign. *)
Definition scale10 (m k : Z) : float := if 0 <=? k then fratio (m * 10 ^ k) 1 else fratio m (10 ^ (- k)).

Definition unsigned_float (s : string) : option float :=
  if selem s ["inf"; "infinity"] then Some (S754_infinity false)
  else if String.eqb s "nan" then Some S754_nan
  else match lex_digits s 0 0 false with
       | Some (m, n, String "." s') =>
           match s' with
           | String "_" _ => None
           | _ => match lex_digits s' m 0 false with
                  | Some (m', n', rest) =>
                      if (n + n' =? 0) then None
                      else match lex_exponent rest with Some e => Some (scale10 m' (e - n')) | None => None end
                  | None => None
                  end
           end
       | Some (m, n, rest) =>
           if n =? 0 then None
           else match lex_exponent rest with Some e => Some (scale10 m e) | None => None end
       | None => None
       end.

Definition parse_float (s : string) : option float :=
  match lower (strip s) with
  | String "-" s' => option_map SFopp (unsigned_float s')
  | String "+" s' => unsigned_float s'
  | s' => unsigned_float s'
  end.

(** [float(v)] *)
Definition float_of (v : value) : exc float :=
  match v with
  | VFloat x => Ok x
  | VInt z => float_of_int z
  | VBool b => Ok (fl (if b then 1 else 0))
  | VStr s => match parse_float s with Some x => Ok x | None => Raise ValueError end
  | _ => Raise TypeError
  end.

Example parse_float_ex :
  map parse_float ["1.5"; " -2e3 "; ".5"; "1_0"; "1e"; "."; "INF"; "5."; "1._5"]%py =
  [Some (dec 15 1); Some (fl (-2000)); Some (dec 5 1); Some (fl 10); None; None;
   Some (S754_infinity false); Some (fl 5); None].
Proof. vm_compute. reflexivity. Qed.

(** * Dictionaries of the program's own state

    A [dict] whose values are not JSON, in insertion order: assignment to a key
    that is there keeps its place, deletion and reinsertion moves it to the
    end. *)
Abbreviation odict V := (list (string * V)).

Section ODict.
Context {V : Type}.
Implicit Types (d : odict V) (k : string) (v : V).

Fixpoint oget d k : option V :=
  match d with
  | [] => None
  | (k', v) :: d' => if String.eqb k' k then Some v else oget d' k
  end.

Fixpoint oset k v d : odict V :=
  match d with
  | [] => [(k, v)]
  | (k', v') :: d' => if String.eqb k' k then (k, v) :: d' else (k', v') :: oset k v d'
  end.

(** [d.pop(k, None)] *)
Definition opop k d : odict V := List.filter (fun kv => negb (String.eqb (fst kv) k)) d.

(** [d.setdefault(k, v)], the dictionary *)
Definition osetdefault k v d : odict V := match oget d k with Some _ => d | None => oset k v d end.

Lemma oget_oset k v d k' : oget (oset k v d) k' = if String.eqb k k' then Some v else oget d k'.
Proof.
  induction d as [|[k1 v1] d IH]; cbn; [done|].
  destruct (String.eqb_spec k1 k) as [->|Hne]; cbn.
  - by destruct (String.eqb k k').
  - rewrite IH. destruct (String.eqb_spec k1 k') as [->|]; [|done].
    destruct (String.eqb_spec k k') as [->|]; done.
Qed.

Lemma oget_opop k d k' : oget (opop k d) k' = if String.eqb k k' then None else oget d k'.
Proof.
  unfold opop. induction d as [|[k1 v1] d IH]; cbn; [by destruct (String.eqb k k')|].
  destruct (String.eqb_spec k1 k) as [->|Hne]; cbn [negb oget].
  - rewrite IH. by destruct (String.eqb k k').
  - rewrite IH. destruct (String.eqb_spec k1 k') as [->|]; [|done].
    destruct (String.eqb_spec k k') as [->|]; done.
Qed.

Lemma oget_osetdefault k v d k' :
  oget (osetdefault k v d) k' =
  if String.eqb k k' then Some (default v (oget d k)) else oget d k'.
Proof.
  unfold osetdefault. destruct (oget d k) as [v'|] eqn:E; cbn [default].
  - destruct (String.eqb_spec k k') as [->|]; done.
  - by rewrite oget_oset.
Qed.

Lemma oget_map (f : string -> V -> V) d k :
  oget (map (fun kv => (fst kv, f (fst kv) (snd kv))) d) k = option_map (f k) (oget d k).
Proof.
  induction d as [|[k1 v1] d IH]; cbn; [done|].
  destruct (String.eqb_spec k1 k) as [->|]; [done|exact IH].
Qed.

Lemma oget_In d k v : oget d k = Some v -> In (k, v) d.
Proof.
  induction d as [|[k1 v1] d IH]; cbn; [done|].
  destruct (String.eqb_spec k1 k) as [->|]; [intros [= ->]; by left|right; auto].
Qed.
End ODict.
