(* ===== verification/Wire.v ===== *)
(** * The protobuf wire format

    compose/protocols/vendors/sapient/flex335.py reads and writes protobuf
    messages by hand: varints, fields, texts, floats and times. *)

From Stdlib Require Import SpecFloat.
From S2P Require Import Prelude PyFloat PyData Schema TrackViews PyText PyNum.

(** ** Varints *)

(** [for _ in range(10)]: [n] more octets. *)
Fixpoint varint_loop (n : nat) (data : bytes) (offset value shift : Z) : exc (Z * Z) :=
  match n with
  | O => Raise ValueError
  | S n' =>
      if len data <=? offset then Raise ValueError else
      let? b := byte_at data offset in
      let offset := offset + 1 in
      let value := Z.lor value (Z.shiftl (Z.land b 0x7F) shift) in
      if negb (bit b 0x80) then Ok (value, offset) else varint_loop n' data offset value (shift + 7)
  end.

Definition _read_varint (data : bytes) (offset : Z) : exc (Z * Z) := varint_loop 10 data offset 0 0.

Fixpoint encode_loop (fuel : nat) (v : Z) : exc bytes :=
  match fuel with
  | O => Raise OutOfFuel
  | S fuel' =>
      if 0x80 <=? v then
        let? rest := encode_loop fuel' (Z.shiftr v 7) in
        Ok (of_ints [Z.lor (Z.land v 0x7F) 0x80] ++ rest)
      else if v <? 0 then Raise ValueError else Ok (of_ints [v])
  end.

(** [bytearray.append] raises ValueError for a negative number. *)
Definition _encode_varint (v : Z) : exc bytes := encode_loop (S (Z.to_nat (Z.log2 v))) v.

Definition _encode_bytes (number : Z) (v : bytes) : exc bytes :=
  let? tag := _encode_varint (Z.lor (Z.shiftl number 3) 2) in
  let? size := _encode_varint (len v) in
  Ok (tag ++ size ++ v).

(** ** Fields *)
Inductive wire_value := WInt (n : Z) | WBytes (b : bytes).
Record WireField := { number : Z; wire_type : Z; value_of : wire_value }.

(** [int.from_bytes(raw, "little")] *)
Definition int_from_le (raw : bytes) : Z := int_from_bytes (rev raw).

(** One field from [offset] on, and where the next starts. *)
Definition read_field (data : bytes) (offset : Z) : exc (WireField * Z) :=
  let? (tag, offset) := _read_varint data offset in
  let n := Z.shiftr tag 3 in
  let w := Z.land tag 0x07 in
  if n =? 0 then Raise ValueError else
  if w =? 0 then
    let? (v, offset) := _read_varint data offset in
    Ok ({| number := n; wire_type := w; value_of := WInt v |}, offset)
  else if w =? 1 then
    let stop := offset + 8 in
    if len data <? stop then Raise ValueError else
    Ok ({| number := n; wire_type := w; value_of := WInt (int_from_le (slice data offset stop)) |}, stop)
  else if w =? 2 then
    let? (length, offset) := _read_varint data offset in
    let stop := offset + length in
    if len data <? stop then Raise ValueError else
    Ok ({| number := n; wire_type := w; value_of := WBytes (slice data offset stop) |}, stop)
  else if w =? 5 then
    let stop := offset + 4 in
    if len data <? stop then Raise ValueError else
    Ok ({| number := n; wire_type := w; value_of := WInt (int_from_le (slice data offset stop)) |}, stop)
  else Raise ValueError.

Fixpoint fields_loop (fuel : nat) (data : bytes) (offset : Z) : exc (list WireField) :=
  match fuel with
  | O => Raise OutOfFuel
  | S fuel' =>
      if len data <=? offset then Ok [] else
      let? (f, offset) := read_field data offset in
      let? fs := fields_loop fuel' data offset in
      Ok (f :: fs)
  end.

(** [_field_list(data)]: what [iter_fields] yields. *)
Definition _field_list (data : bytes) : exc (list WireField) := fields_loop (S (length data)) data 0.

Definition is_field (n w : Z) (f : WireField) : bool := (number f =? n) && (wire_type f =? w).

Definition _first (fields : list WireField) (n w : Z) : option wire_value :=
  option_map value_of (find (is_field n w) fields).

Definition _all (fields : list WireField) (n w : Z) : list wire_value :=
  map value_of (List.filter (is_field n w) fields).

(** [isinstance(v, int)] and [isinstance(v, bytes)] *)
Definition as_int (v : option wire_value) : option Z := match v with Some (WInt n) => Some n | _ => None end.
Definition as_bytes (v : option wire_value) : option bytes := match v with Some (WBytes b) => Some b | _ => None end.

(** ** Scalars *)
Definition _text (v : option wire_value) : option string :=
  match v with
  | Some (WBytes b) =>
      match utf8_decode (map byte_val b) with
      | Some cs =>
          match joined (words cs []) with
          | [] => None
          | cs => Some (utf8_encode (firstn 512 cs))
          end
      | None => None
      end
  | _ => None
  end.

(** The binary64 and binary32 numbers with the given bits. *)
Definition float64_of_bits (n : Z) : float :=
  let s := Z.testbit n 63 in
  let e := Z.land (Z.shiftr n 52) 2047 in
  let m := Z.land n (2 ^ 52 - 1) in
  if e =? 2047 then (if m =? 0 then S754_infinity s else S754_nan)
  else
    let m' := if e =? 0 then m else m + 2 ^ 52 in
    match m' with
    | Zpos p => S754_finite s p (Z.max e 1 - 1075)
    | _ => S754_zero s
    end.

Definition float32_of_bits (n : Z) : float :=
  let s := Z.testbit n 31 in
  let e := Z.land (Z.shiftr n 23) 255 in
  let m := Z.land n (2 ^ 23 - 1) in
  if e =? 255 then (if m =? 0 then S754_infinity s else S754_nan)
  else
    let m' := if e =? 0 then m else m + 2 ^ 23 in
    if m' =? 0 then S754_zero s
    else binary_normalize prec emax (if s then - m' else m') (Z.max e 1 - 150) false.

(** [n.to_bytes(size, "little")] raises OverflowError. *)
Definition _double (v : option wire_value) : exc (option float) :=
  match v with
  | Some (WInt n) =>
      if 2 ^ 64 <=? n then Raise OverflowError else
      let x := float64_of_bits n in Ok (if is_finite x then Some x else None)
  | _ => Ok None
  end.

Definition _float (v : option wire_value) : exc (option float) :=
  match v with
  | Some (WInt n) =>
      if 2 ^ 32 <=? n then Raise OverflowError else
      let x := float32_of_bits n in Ok (if is_finite x then Some x else None)
  | _ => Ok None
  end.

(** [time.time()] is [now] where no fallback is given. *)
Definition _timestamp (v : option wire_value) (now : float) : exc float :=
  match v with
  | Some (WBytes b) =>
      let? fields := _field_list b in
      let nanos := match _first fields 2 0 with Some (WInt n) => Some n | Some (WBytes (_ :: _)) => None | _ => Some 0 end in
      match as_int (_first fields 1 0), nanos with
      | Some seconds, Some nanos =>
          if 1000000000 <=? nanos then Ok now else
          let? s := float_of_int seconds in
          Ok (fadd s (fdiv_raw (fl nanos) (fl 1000000000)))
      | _, _ => Ok now
      end
  | _ => Ok now
  end.

Example float64_ex : float64_of_bits 0x3FF8000000000000 = dec 15 1 /\ float64_of_bits 0x8000000000000000 = S754_zero true /\
  float32_of_bits 0x3FC00000 = dec 15 1 /\ float32_of_bits 1 = fratio 1 (2 ^ 149).
Proof. repeat split; vm_compute; reflexivity. Qed.
Example varint_ex : _encode_varint 300 = Ok (of_ints [0xAC; 0x02]) /\ _read_varint (of_ints [0xAC; 0x02]) 0 = Ok (300, 2).
Proof. split; vm_compute; reflexivity. Qed.

(** ** Writing

    [registration_ack]: a framed message, at the time [now]. *)
Definition utf8_bytes (s : string) : bytes := list_byte_of_string s.

(** [_encode_varint(number << 3) + _encode_varint(value)], as the source spells
    it with the tags 8 and 16. *)
Definition _encode_int (number v : Z) : exc bytes :=
  let? tag := _encode_varint (Z.shiftl number 3) in
  let? octets := _encode_varint v in
  Ok (tag ++ octets).

(** [struct.pack("<I", n)] *)
Definition pack_le32 (n : Z) : exc bytes :=
  if (0 <=? n) && (n <? 2 ^ 32)
  then Ok (of_ints [Z.land n 255; Z.land (Z.shiftr n 8) 255; Z.land (Z.shiftr n 16) 255; Z.land (Z.shiftr n 24) 255])
  else Raise StructError.

Definition ack_envelope (seconds nanos : Z) (bridge_node_id destination_id : string) (accepted : bool) : exc bytes :=
  let? s := _encode_int 1 seconds in
  let? n := if nanos =? 0 then Ok [] else _encode_int 2 nanos in
  let? ack := _encode_int 1 (if accepted then 1 else 0) in
  let? f1 := _encode_bytes 1 (s ++ n) in
  let? f2 := _encode_bytes 2 (utf8_bytes bridge_node_id) in
  let? f3 := _encode_bytes 3 (utf8_bytes destination_id) in
  let? f5 := _encode_bytes 5 ack in
  Ok (f1 ++ f2 ++ f3 ++ f5).

Definition registration_ack (now : float) (bridge_node_id destination_id : string) (accepted : bool) : exc bytes :=
  let? seconds := int_of_float now in
  let? nanos := int_of_float (fmul (fsub now (fl seconds)) (fl 1000000000)) in
  let? envelope := ack_envelope seconds nanos bridge_node_id destination_id accepted in
  let? size := pack_le32 (len envelope) in
  Ok (size ++ envelope).
