(* ===== verification/Sapient.v ===== *)
(** * The SAPIENT decoder

    compose/protocols/vendors/sapient/flex335.py, [SapientDecoder]: protobuf
    envelopes of the BSI Flex 335 standard become track records.  The decoder
    keeps what the nodes registered and the last report of each object.  A
    handler is a computation over that state which may raise ValueError half
    way; the text of a warning is not kept, only that there is one. *)

From Stdlib Require Import SpecFloat.
From S2P Require Import Prelude PyFloat PyData Schema TrackViews PyText PyNum Wire.
From coqutil Require Import Datatypes.RecordSetters.
Import OCamlLikeNotations.
#[local] Open Scope Z_scope.
#[local] Open Scope py_scope.

Definition MAX_FRAME_BYTES : Z := 1048576.
Definition MAX_OBJECTS : Z := 20000.

Definition _CONTENT_FIELDS : table :=
  [(4, "registration"); (5, "registration_ack"); (6, "status_report"); (7, "detection_report"); (8, "task");
   (9, "task_ack"); (10, "alert"); (11, "alert_ack"); (12, "error")].
Definition _NODE_TYPES : table :=
  [(1, "other"); (2, "radar"); (3, "lidar"); (4, "camera"); (5, "seismic"); (6, "acoustic"); (7, "proximity_sensor");
   (8, "passive_rf"); (9, "human"); (10, "chemical"); (11, "biological"); (12, "radiation"); (13, "kinetic");
   (14, "jammer"); (15, "cyber"); (16, "ldew"); (17, "rfdew"); (18, "mobile_node"); (19, "pointable_node");
   (20, "fusion_node")].
Definition _SYSTEM_STATES : table := [(0, "unspecified"); (1, "ok"); (2, "warning"); (3, "error"); (5, "goodbye")].
Definition _ALERT_TYPES : table :=
  [(0, "unspecified"); (1, "information"); (2, "warning"); (3, "critical"); (4, "error"); (5, "fatal");
   (6, "mode_change")].
Definition _ALERT_STATUS : table :=
  [(0, "unspecified"); (1, "active"); (2, "acknowledge"); (3, "reject"); (4, "ignore"); (5, "clear")].
Definition _ALERT_PRIORITY : table := [(0, "unspecified"); (1, "low"); (2, "medium"); (3, "high")].
Definition _SAPIENT_INFO : table := [(0, "unspecified"); (1, "new"); (2, "unchanged")].
Definition _POWER_SOURCES : table :=
  [(0, "unspecified"); (1, "other"); (2, "mains"); (3, "internal_battery"); (4, "external_battery"); (5, "generator");
   (6, "solar_pv"); (7, "wind_turbine"); (8, "fuel_cell")].
Definition _POWER_STATUS : table := [(0, "unspecified"); (1, "ok"); (2, "fault")].
Definition _STATUS_LEVELS : table := [(0, "unspecified"); (2, "information"); (3, "warning"); (4, "error")].
Definition _STATUS_TYPES : table :=
  [(0, "unspecified"); (1, "internal_fault"); (2, "external_fault"); (3, "illumination"); (4, "weather"); (5, "clutter");
   (6, "exposure"); (7, "motion_sensitivity"); (8, "ptz_status"); (9, "pd"); (10, "far"); (11, "not_detecting");
   (12, "platform"); (13, "other")].
Definition _TASK_STATUS : table :=
  [(0, "unspecified"); (1, "accepted"); (2, "rejected"); (3, "completed"); (4, "failed")].
Definition _ALERT_ACK_STATUS : table := [(0, "unspecified"); (1, "accepted"); (2, "rejected"); (3, "cancelled")].
Definition _TASK_CONTROL : table := [(0, "unspecified"); (1, "start"); (2, "stop"); (3, "pause")].
Definition _DELETE_STATES : list string :=
  ["clear"; "closed"; "delete"; "deleted"; "end"; "ended"; "lost"; "removed"; "terminated"].

(** [names.get(n, prefix + str(n))] *)
Definition enum_name (names : table) (prefix : string) (n : Z) : string := tget_or names n (prefix +:+ str_int n).

(** ** State *)
Record node_state := {
  name : option string;
  icd_version : option string;
  node_types : list string;
  latitude : option float;
  longitude : option float;
  altitude_m : option float;
  horizontal_speed_units : option Z;
  vertical_speed_units : option Z;
  capabilities : list value;
  status_interval_s : option float;
  dependent_nodes : list string;
  reporting_region_count : Z;
  config_data : list value;
}.

Definition new_node : node_state := {|
  name := None; icd_version := None; node_types := []; latitude := None; longitude := None; altitude_m := None;
  horizontal_speed_units := None; vertical_speed_units := None; capabilities := []; status_interval_s := None;
  dependent_nodes := []; reporting_region_count := 0; config_data := [] |}.

(** The cache of objects, oldest first; a key is (node, object). *)
Abbreviation object_cache := (list ((string * string) * dict)).

Record decoder := { nodes : odict node_state; objects : object_cache }.
Definition new_decoder : decoder := {| nodes := []; objects := [] |}.

Definition same_key (a b : string * string) : bool := String.eqb (fst a) (fst b) && String.eqb (snd a) (snd b).
Definition cache_get (key : string * string) (c : object_cache) : option dict :=
  option_map snd (find (fun kv => same_key (fst kv) key) c).
Definition cache_pop (key : string * string) (c : object_cache) : object_cache :=
  List.filter (fun kv => negb (same_key (fst kv) key)) c.

(** Store, move to the end, and drop the oldest over the bound. *)
Definition cache_put (key : string * string) (track : dict) (c : object_cache) : object_cache :=
  let c := cache_pop key c ++ [(key, track)] in
  skipn (Z.to_nat (len c - MAX_OBJECTS)) c.

Record sapient_event := { kind : string; node_id : string; at_time : float; track : option dict; warned : bool }.

(** ** Parts of messages *)

(** Optional keys of a record. *)
Definition set_text (k : string) (o : option string) (d : dict) : dict :=
  match o with Some s => dset k (VStr s) d | None => d end.
Definition set_float (k : string) (o : option float) (d : dict) : dict :=
  match o with Some f => dset k (VFloat f) d | None => d end.
Definition set_rounded (k : string) (digits : Z) (o : option float) (d : dict) : dict :=
  set_float k (option_map (fun f => py_round f digits) o) d.
Definition set_int (k : string) (o : option Z) (d : dict) : dict :=
  match o with Some n => dset k (VInt n) d | None => d end.
Definition set_named (k : string) (names : table) (prefix : string) (o : option Z) (d : dict) : dict :=
  match o with Some n => dset k (VStr (enum_name names prefix n)) d | None => d end.
Definition set_list (k : string) (l : list value) (d : dict) : dict :=
  match l with [] => d | _ => dset k (VList l) d end.
Definition text_value (o : option string) : value := match o with Some s => VStr s | None => VNone end.

(** [for value in values: fields = _field_list(value); ...]: what the body
    appends, if anything. *)
Fixpoint collect {A} (values : list wire_value) (body : list WireField -> exc (option A)) : exc (list A) :=
  match values with
  | [] => Ok []
  | WBytes b :: values' =>
      let? fields := _field_list b in
      let? item := body fields in
      let? items := collect values' body in
      Ok (match item with Some a => a :: items | None => items end)
  | WInt _ :: _ => Raise TypeError
  end.

Definition first_text (fields : list WireField) (n : Z) : option string := _text (_first fields n 2).
Definition texts (fields : list WireField) (n : Z) (limit : nat) : list string :=
  omap (fun v => _text (Some v)) (firstn limit (_all fields n 2)).

Section Decoder.
Context `{Libm}.

(** [lat, lon, altitude, metadata] *)
Abbreviation position := (float * float * option float * dict)%type.

Definition _decode_location (raw : bytes) : exc position :=
  let? fields := _field_list raw in
  let? x := _double (_first fields 1 1) in
  let? y := _double (_first fields 2 1) in
  let? z := _double (_first fields 3 1) in
  let coordinate_system := as_int (_first fields 7 0) in
  let datum := as_int (_first fields 8 0) in
  match x, y with
  | Some x, Some y =>
      let? (lon, lat, cs) := match coordinate_system with
                             | Some 1 => Ok (x, y, 1)
                             | Some 2 => Ok (degrees x, degrees y, 2)
                             | _ => Raise ValueError
                             end in
      let? datum := match datum with Some 1 => Ok 1 | Some 2 => Ok 2 | _ => Raise ValueError end in
      if negb (fbetween (fl (-90)) lat (fl 90) && fbetween (fl (-180)) lon (fl 180)) then Raise ValueError else
      let metadata := [("sapient_location_coordinate_system", VInt cs); ("sapient_location_datum", VInt datum);
                       ("altitude_reference", VStr (if datum =? 1 then "wgs84_ellipsoid" else "wgs84_geoid"))] in
      let? x_error := _double (_first fields 4 1) in
      let? y_error := _double (_first fields 5 1) in
      let? z_error := _double (_first fields 6 1) in
      Ok (lat, lon, z, set_float "alt_error_m" z_error (set_float "lat_error" y_error (set_float "lon_error" x_error metadata)))
  | _, _ => Raise ValueError
  end.

(** [elevation, azimuth, distance, metadata] *)
Definition _decode_range_bearing (raw : bytes) : exc (float * float * float * dict) :=
  let? fields := _field_list raw in
  let? elevation := _double (_first fields 1 1) in
  let elevation := match elevation with Some e => if ftruth e then e else fl 0 | None => fl 0 end in
  let? azimuth := _double (_first fields 2 1) in
  let? distance := _double (_first fields 3 1) in
  let coordinate_system := as_int (_first fields 7 0) in
  let datum := as_int (_first fields 8 0) in
  match azimuth, distance with
  | Some azimuth, Some distance =>
      let? (azimuth, elevation, km) := match coordinate_system with
                                       | Some 1 => Ok (azimuth, elevation, false)
                                       | Some 2 => Ok (degrees azimuth, degrees elevation, false)
                                       | Some 3 => Ok (azimuth, elevation, true)
                                       | Some 4 => Ok (degrees azimuth, degrees elevation, true)
                                       | _ => Raise ValueError
                                       end in
      let distance := if km : bool then fmul distance (fl 1000) else distance in
      match datum with
      | Some 1 =>
          let turned := fmod azimuth (fl 360) in
          Ok (elevation, turned, distance,
              [("sapient_range_m", VFloat (py_round distance 2)); ("sapient_azimuth_deg", VFloat (py_round turned 3));
               ("sapient_elevation_deg", VFloat (py_round elevation 3)); ("sapient_range_bearing_datum", VInt 1)])
      | _ => Raise ValueError
      end
  | _, _ => Raise ValueError
  end.

Definition _project (origin : node_state) (elevation azimuth distance : float) : exc (float * float * option float) :=
  match latitude origin, longitude origin with
  | Some lat0, Some lon0 =>
      let? c := m_cos (radians elevation) in
      let horizontal := fmul distance c in
      let angular := fdiv_raw horizontal (dec 63710088 1) in
      let bearing := radians azimuth in
      let lat1 := radians lat0 in
      let lon1 := radians lon0 in
      let? sin_lat1 := m_sin lat1 in
      let? cos_angular := m_cos angular in
      let? cos_lat1 := m_cos lat1 in
      let? sin_angular := m_sin angular in
      let? cos_bearing := m_cos bearing in
      let? lat2 := m_asin (fadd (fmul sin_lat1 cos_angular) (fmul (fmul cos_lat1 sin_angular) cos_bearing)) in
      let? sin_bearing := m_sin bearing in
      let? sin_lat2 := m_sin lat2 in
      let? turn := m_atan2 (fmul (fmul sin_bearing sin_angular) cos_lat1) (fsub cos_angular (fmul sin_lat1 sin_lat2)) in
      let lon2 := fadd lon1 turn in
      let? altitude := match altitude_m origin with
                       | Some a => let? s := m_sin (radians elevation) in Ok (Some (fadd a (fmul distance s)))
                       | None => Ok None
                       end in
      Ok (degrees lat2, fsub (fmod (fadd (degrees lon2) (fl 540)) (fl 360)) (fl 180), altitude)
  | _, _ => Raise ValueError
  end.

Definition _decode_info (values : list wire_value) : exc dict :=
  let? items := collect (firstn 64 values) (fun fields =>
    Ok (match first_text fields 1, first_text fields 2 with
        | Some key, Some item => Some (take_chars 96 key, VStr (take_chars 256 item))
        | _, _ => None
        end)) in
  Ok (dupdate [] items).

Definition _decode_classification (fields : list WireField) : exc dict :=
  let result := [("type", VStr (default "unknown" (first_text fields 1)))] in
  let? confidence := _float (_first fields 2 5) in
  let result := set_rounded "confidence" 4 confidence result in
  let? sub_classes := collect (firstn 16 (_all fields 3 2)) (fun sub_fields =>
    match first_text sub_fields 1 with
    | Some sub_type =>
        let? sub_confidence := _float (_first sub_fields 2 5) in
        Ok (Some (VDict (set_int "level" (as_int (_first sub_fields 3 0))
                           (set_rounded "confidence" 4 sub_confidence [("type", VStr sub_type)]))))
    | None => Ok None
    end) in
  Ok (set_list "sub_classes" sub_classes result).

(** [item.get("confidence", -1.0)] *)
Definition confidence_key (item : dict) : float :=
  match dget item "confidence" with Some (VFloat f) => f | _ => fl (-1) end.

Fixpoint max_class (best : dict) (items : list dict) : dict :=
  match items with
  | [] => best
  | item :: items' => max_class (if flt (confidence_key best) (confidence_key item) then item else best) items'
  end.

Definition _primary_class (classifications : list dict) : string :=
  match classifications with
  | [] => "unknown"
  | c :: cs => match dget (max_class c cs) "type" with Some (VStr s) => lower s | _ => "" end
  end.

Definition _decode_signals (values : list wire_value) : exc (list value) :=
  collect (firstn 16 values) (fun fields =>
    let? amplitude := _float (_first fields 1 5) in
    let? start := _float (_first fields 2 5) in
    let? centre := _float (_first fields 3 5) in
    let? stop := _float (_first fields 4 5) in
    let? duration := _float (_first fields 5 5) in
    let signal := set_float "pulse_duration" duration (set_float "stop_frequency" stop
      (set_float "centre_frequency" centre (set_float "start_frequency" start (set_float "amplitude" amplitude [])))) in
    Ok (match signal with [] => None | _ => Some (VDict signal) end)).

Definition _TIME_UNITS_S : list (Z * float) :=
  [(1, dec 1 9); (2, dec 1 6); (3, dec 1 3); (4, fl 1); (5, fl 60); (6, fl 3600); (7, fl 86400)].

Definition _duration_seconds (units : option Z) (amount : option float) : option float :=
  match units, amount with
  | Some units, Some amount =>
      option_map (fun us => py_round (fmul amount (snd us)) 6) (find (fun us => fst us =? units) _TIME_UNITS_S)
  | _, _ => None
  end.

Definition _speed_scale (units : option Z) : option float :=
  match units with
  | Some 1 => Some (fl 1)
  | Some 2 => Some (fdiv_raw (fl 1) (dec 36 1))
  | _ => None
  end.

Definition _clean_class (s : string) : string :=
  squeeze (smap (fun c => if Ascii.eqb c "_" || Ascii.eqb c "-" then " "%char else c) (lower s)).

Definition deleting (state : option string) : bool := selem (_clean_class (default "" state)) _DELETE_STATES.
End Decoder.

(** ** Computations over a node's state *)
Definition nm (A : Type) : Type := node_state -> node_state * exc A.

Definition nret {A} (a : A) : nm A := fun n => (n, Ok a).
Definition nbind {A B} (m : nm A) (k : A -> nm B) : nm B := fun n =>
  let (n', r) := m n in match r with Ok a => k a n' | Raise e => (n', Raise e) end.
Definition nlift {A} (m : exc A) : nm A := fun n => (n, m).
Definition nset (g : node_state -> node_state) : nm unit := fun n => (g n, Ok tt).
Definition nget {A} (g : node_state -> A) : nm A := fun n => (n, Ok (g n)).

Declare Scope nm_scope.
Notation "x <- m ;; k" := (nbind m (fun x => k)) (at level 100, m at next level, right associativity) : nm_scope.
Notation "m ;; k" := (nbind m (fun _ => k)) (at level 100, right associativity) : nm_scope.
#[local] Open Scope nm_scope.

(** The list grows while the loop runs, so an error keeps its beginning. *)
Fixpoint append_each (values : list wire_value) (body : list WireField -> option value) (push : value -> node_state -> node_state) :
    nm unit :=
  match values with
  | [] => nret tt
  | WBytes b :: values' =>
      fields <- nlift (_field_list b) ;;
      nset (fun n => match body fields with Some v => push v n | None => n end) ;;
      append_each values' body push
  | WInt _ :: _ => nlift (Raise TypeError)
  end.

(** The (horizontal, vertical) units of the velocities a node's modes define. *)
Definition velocity_units (definition_fields : list WireField) : exc (option (option Z * option Z)) :=
  match as_bytes (_first definition_fields 6 2) with
  | None => Ok None
  | Some velocity_type =>
      let? type_fields := _field_list velocity_type in
      match as_bytes (_first type_fields 4 2) with
      | None => Ok None
      | Some enu_units =>
          let? units_fields := _field_list enu_units in
          Ok (Some (as_int (_first units_fields 1 0), as_int (_first units_fields 2 0)))
      end
  end.

Definition mode_units (fields : list WireField) : exc (list (option Z * option Z)) :=
  let? modes := collect (firstn 32 (_all fields 7 2)) (fun mode_fields =>
    let? units := collect (firstn 32 (_all mode_fields 10 2)) velocity_units in Ok (Some units)) in
  Ok (concat modes).

(** The unit, when the modes agree on one. *)
Definition single_unit (units : list (option Z)) : option Z :=
  match remove_dups (omap (fun u => match u with Some 1 => Some 1 | Some 2 => Some 2 | _ => None end) units) with
  | [u] => Some u
  | _ => None
  end.

Definition capability (cap_fields : list WireField) : option value :=
  match first_text cap_fields 1, first_text cap_fields 2 with
  | Some category, Some cap_type =>
      Some (VDict (set_text "units" (first_text cap_fields 4) (set_text "value" (first_text cap_fields 3)
        [("category", VStr category); ("type", VStr cap_type)])))
  | _, _ => None
  end.

Definition config_entry (cfg_fields : list WireField) : option value :=
  match first_text cfg_fields 1, first_text cfg_fields 2 with
  | Some manufacturer, Some model =>
      Some (VDict (set_text "software_version" (first_text cfg_fields 5)
        (set_text "hardware_version" (first_text cfg_fields 4) (set_text "serial_number" (first_text cfg_fields 3)
        [("manufacturer", VStr manufacturer); ("model", VStr model)]))))
  | _, _ => None
  end.

Definition or_else {A} (a b : option A) : option A := match a with Some _ => a | None => b end.

Definition _registration (data : bytes) : nm unit :=
  fields <- nlift (_field_list data) ;;
  nset (fun n => { n with icd_version := or_else (first_text fields 2) (icd_version n);
                          name := or_else (first_text fields 4) (or_else (first_text fields 3) (name n)) }) ;;
  types <- nlift (collect (firstn 16 (_all fields 1 2)) (fun definition =>
                    Ok (option_map (enum_name _NODE_TYPES "type_") (as_int (_first definition 1 0))))) ;;
  nset (fun n => match types with [] => n | _ => { n with node_types := types } end) ;;
  units <- nlift (mode_units fields) ;;
  nset (fun n => { n with horizontal_speed_units := single_unit (map fst units);
                          vertical_speed_units := single_unit (map snd units);
                          capabilities := [] }) ;;
  append_each (firstn 32 (_all fields 5 2)) capability (fun v n => { n with capabilities ::= fun l => l ++ [v] }) ;;
  match as_bytes (_first fields 6 2) with
  | None => nret tt
  | Some status_def =>
      sd_fields <- nlift (_field_list status_def) ;;
      nset (fun n => { n with status_interval_s := None }) ;;
      match as_bytes (_first sd_fields 1 2) with
      | None => nret tt
      | Some interval =>
          duration_fields <- nlift (_field_list interval) ;;
          amount <- nlift (_float (_first duration_fields 3 5)) ;;
          nset (fun n => { n with status_interval_s := _duration_seconds (as_int (_first duration_fields 1 0)) amount })
      end
  end ;;
  nset (fun n => { n with dependent_nodes := texts fields 8 64; reporting_region_count := len (_all fields 9 2);
                          config_data := [] }) ;;
  append_each (firstn 16 (_all fields 10 2)) config_entry (fun v n => { n with config_data ::= fun l => l ++ [v] }).

(** ** Status reports *)
Definition status_entry (status_fields : list WireField) : exc (option value) :=
  let entry := set_text "value" (first_text status_fields 3)
    (set_named "type" _STATUS_TYPES "type_" (as_int (_first status_fields 4 0))
    (set_named "level" _STATUS_LEVELS "level_" (as_int (_first status_fields 1 0)) [])) in
  Ok (match entry with [] => None | _ => Some (VDict entry) end).

Definition power_keys (fields : list WireField) (track : dict) : exc dict :=
  match as_bytes (_first fields 6 2) with
  | None => Ok track
  | Some power =>
      let? power_fields := _field_list power in
      Ok (set_named "sapient_power_status" _POWER_STATUS "status_" (as_int (_first power_fields 5 0))
         (set_named "sapient_power_source" _POWER_SOURCES "source_" (as_int (_first power_fields 4 0))
         (set_int "sapient_power_level_pct" (as_int (_first power_fields 3 0)) track)))
  end.

Definition set_count (k : string) (n : Z) (d : dict) : dict := if n =? 0 then d else dset k (VInt n) d.

Section Reports.
Context `{Libm}.

Definition status_track (node_id : string) (node : node_state) (lat lon sent_at : float) (fields : list WireField) :
    exc dict :=
  let state := as_int (_first fields 2 0) in
  let track := [("_ts", VFloat sent_at); ("_src", VStr "SAPIENT FLEX 335"); ("uid", VStr ("sapient-node-" +:+ node_id));
                ("sensor_id", VStr node_id);
                ("callsign", VStr (match name node with
                                   | Some s => s
                                   | None => "SAPIENT-" +:+ last_chars 8 node_id
                                   end));
                ("lat_deg", VFloat (py_round lat 7)); ("lon_deg", VFloat (py_round lon 7));
                ("sapient_message_type", VStr "status_report");
                ("sapient_node_types", VList (map VStr (node_types node)));
                ("sapient_icd_version", text_value (icd_version node))] in
  let track := set_rounded "geo_alt_m" 2 (altitude_m node) track in
  let track := set_text "sapient_report_id" (first_text fields 1) track in
  let track := set_named "sensor_status" _SYSTEM_STATES "state_" state track in
  let track := match state with Some 5 => dset "_delete" (VBool true) track | _ => track end in
  let track := set_text "sensor_mode" (first_text fields 5) track in
  let track := set_named "sapient_info" _SAPIENT_INFO "info_" (as_int (_first fields 3 0)) track in
  let track := set_text "sapient_active_task_id" (first_text fields 4) track in
  let? track := power_keys fields track in
  let track := match _first fields 8 2 with
               | Some _ => dset "sapient_field_of_view_present" (VBool true) track
               | None => track
               end in
  let track := set_count "sapient_obscuration_count" (len (_all fields 10 2)) track in
  let track := set_count "sapient_coverage_count" (len (_all fields 12 2)) track in
  let? statuses := collect (firstn 32 (_all fields 11 2)) status_entry in
  Ok (set_list "sapient_status" statuses track).

Definition _status (node_id : string) (sent_at : float) (data : bytes) : nm (option dict) :=
  fields <- nlift (_field_list data) ;;
  match as_bytes (_first fields 7 2) with
  | Some location =>
      p <- nlift (_decode_location location) ;;
      let '(lat, lon, alt, _) := p in
      nset (fun n => { n with latitude := Some lat; longitude := Some lon; altitude_m := alt })
  | None => nret tt
  end ;;
  node <- nget (fun n => n) ;;
  match latitude node, longitude node with
  | Some lat, Some lon => track <- nlift (status_track node_id node lat lon sent_at fields) ;; nret (Some track)
  | _, _ => nret None
  end.

(** ** Detections *)
Definition _position (node : node_state) (fields : list WireField) : exc (float * float * option float * dict) :=
  match as_bytes (_first fields 6 2) with
  | Some location => _decode_location location
  | None =>
      match as_bytes (_first fields 5 2) with
      | Some range_bearing =>
          let? (elevation, azimuth, distance, metadata) := _decode_range_bearing range_bearing in
          let? (lat, lon, altitude) := _project node elevation azimuth distance in
          Ok (lat, lon, altitude, metadata)
      | None => Raise ValueError
      end
  end.

(** The position of a report: where it says, or, for a report that ends an
    object without saying where, the object's last one. *)
Definition report_position (node : node_state) (cached : option dict) (state : option string) (fields : list WireField) :
    exc (value * value * value * dict) :=
  match _position node fields with
  | Ok (lat, lon, altitude, metadata) =>
      Ok (VFloat lat, VFloat lon, match altitude with Some a => VFloat a | None => VNone end, metadata)
  | Raise ValueError =>
      match cached with
      | Some c =>
          if deleting state then
            let? lat := ditem c "lat_deg" in
            let? lon := ditem c "lon_deg" in
            Ok (lat, lon, dget_or c "geo_alt_m" VNone, [])
          else Raise ValueError
      | None => Raise ValueError
      end
  | Raise e => Raise e
  end.

(** [round(v, digits)] of a float. *)
Definition round_value (v : value) (digits : Z) : exc value :=
  match v with VFloat f => Ok (VFloat (py_round f digits)) | _ => Raise TypeError end.

Definition prediction_keys (node : node_state) (fields : list WireField) (track : dict) : exc dict :=
  match as_bytes (_first fields 9 2) with
  | None => Ok track
  | Some prediction =>
      let? pred_fields := _field_list prediction in
      match (match as_bytes (_first pred_fields 2 2), as_bytes (_first pred_fields 1 2) with
             | Some location, _ => let? (lat, lon, alt, _) := _decode_location location in Ok (Some (lat, lon, alt))
             | None, Some rb =>
                 let? (elevation, azimuth, distance, _) := _decode_range_bearing rb in
                 let? p := _project node elevation azimuth distance in Ok (Some p)
             | None, None => Ok None
             end) with
      | Ok (Some (lat, lon, alt)) =>
          Ok (set_rounded "sapient_predicted_alt_m" 2 alt
               (dset "sapient_predicted_lon_deg" (VFloat (py_round lon 7))
                 (dset "sapient_predicted_lat_deg" (VFloat (py_round lat 7)) track)))
      | Ok None | Raise ValueError => Ok track
      | Raise e => Raise e
      end
  end.

Definition behaviour (b_fields : list WireField) : exc (option value) :=
  match first_text b_fields 1 with
  | Some b_type =>
      let? conf := _float (_first b_fields 2 5) in
      Ok (Some (VDict (set_rounded "confidence" 4 conf [("type", VStr b_type)])))
  | None => Ok None
  end.

Definition associated_file (af_fields : list WireField) : exc (option value) :=
  Ok (match first_text af_fields 2 with
      | Some url => Some (VDict [("type", VStr (default "unknown" (first_text af_fields 1))); ("url", VStr url)])
      | None => None
      end).

Definition related_detection (fields : list WireField) : exc (option value) :=
  Ok (match first_text fields 2, first_text fields 3 with
      | Some node, Some object => Some (VDict [("node_id", VStr node); ("object_id", VStr object)])
      | _, _ => None
      end).

Definition velocity_keys (node : node_state) (fields : list WireField) (track : dict) : exc dict :=
  match as_bytes (_first fields 19 2) with
  | None => Ok track
  | Some velocity =>
      let? velocity_fields := _field_list velocity in
      let? east := _double (_first velocity_fields 1 1) in
      let? north := _double (_first velocity_fields 2 1) in
      let? up := _double (_first velocity_fields 3 1) in
      let? track := match east, north, _speed_scale (horizontal_speed_units node) with
                    | Some east, Some north, Some scale =>
                        let east := fmul east scale in
                        let north := fmul north scale in
                        let? speed := m_hypot east north in
                        let? heading := m_atan2 east north in
                        Ok (dset "heading_deg" (VFloat (py_round (fmod (degrees heading) (fl 360)) 2))
                             (dset "speed_ms" (VFloat (py_round speed 3)) track))
                    | _, _, _ => Ok track
                    end in
      Ok (match up, _speed_scale (vertical_speed_units node) with
          | Some up, Some scale => dset "vertical_rate_ms" (VFloat (py_round (fmul up scale) 3)) track
          | _, _ => track
          end)
  end.
End Reports.

Section Detections.
Context `{Libm}.

Definition classifications_of (fields : list WireField) : exc (list dict) :=
  collect (firstn 32 (_all fields 11 2)) (fun fs => let? c := _decode_classification fs in Ok (Some c)).

(** The keys a detection always has. *)
Definition detection_base (node_id object_id object_class : string) (display_id : option string) (sent_at : float)
    (lat lon : value) (classifications : list dict) (node : node_state) : dict :=
  [("_ts", VFloat sent_at); ("_src", VStr "SAPIENT FLEX 335");
   ("uid", VStr ("sapient-" +:+ node_id +:+ "-" +:+ object_id)); ("sensor_id", VStr node_id);
   ("object_id", VStr object_id);
   ("callsign", VStr (default (upper object_class +:+ "-" +:+ last_chars 8 object_id) display_id));
   ("lat_deg", lat); ("lon_deg", lon); ("sapient_message_type", VStr "detection_report");
   ("sapient_class", VStr object_class); ("sapient_classifications", VList (map VDict classifications));
   ("sapient_node_types", VList (map VStr (node_types node)))].

Definition set_dict (k : string) (sub : dict) (d : dict) : dict := match sub with [] => d | _ => dset k (VDict sub) d end.

(** The keys after the position: state, altitude, confidence and the rest. *)
Definition detection_keys (node : node_state) (state : option string) (altitude : value) (fields : list WireField)
    (track : dict) : exc dict :=
  let track := set_text "sapient_report_id" (first_text fields 1) track in
  let track := match state with
               | Some s => let track := dset "sapient_state" (VStr s) track in
                           if deleting state then dset "_delete" (VBool true) track else track
               | None => track
               end in
  let? track := match altitude with
                | VNone => Ok track
                | _ => let? a := round_value altitude 2 in Ok (dset "geo_alt_m" a track)
                end in
  let? confidence := _float (_first fields 7 5) in
  let track := set_rounded "detection_confidence" 4 confidence track in
  let track := set_text "colour" (first_text fields 22) track in
  let? track_info := _decode_info (_all fields 8 2) in
  let? object_info := _decode_info (_all fields 10 2) in
  let track := set_dict "sapient_object_info" object_info (set_dict "sapient_track_info" track_info track) in
  let? signals := _decode_signals (_all fields 14 2) in
  let track := set_list "sapient_signals" signals track in
  let track := set_text "sapient_task_id" (first_text fields 3) track in
  let? track := prediction_keys node fields track in
  let? behaviours := collect (firstn 16 (_all fields 12 2)) behaviour in
  let track := set_list "sapient_behaviour" behaviours track in
  let? files := collect (firstn 16 (_all fields 13 2)) associated_file in
  let track := set_list "sapient_associated_files" files track in
  let? associated := collect (firstn 32 (_all fields 15 2)) related_detection in
  let track := set_list "sapient_associated_detections" associated track in
  let? derived := collect (firstn 32 (_all fields 16 2)) related_detection in
  let track := set_list "sapient_derived_detections" derived track in
  let track := set_text "sapient_id" (first_text fields 23) track in
  velocity_keys node fields track.

(** The track of a detection, or why there is none. *)
Definition detection_track (node_id : string) (node : node_state) (cached : option dict) (sent_at : float)
    (fields : list WireField) : exc dict :=
  let object_id := default "unknown" (first_text fields 2) in
  let state := first_text fields 4 in
  let? (lat, lon, altitude, position_meta) := report_position node cached state fields in
  let? classifications := classifications_of fields in
  let object_class := _primary_class classifications in
  let? lat := round_value lat 7 in
  let? lon := round_value lon 7 in
  let track := dupdate (detection_base node_id object_id object_class (first_text fields 23) sent_at lat lon
                          classifications node) position_meta in
  detection_keys node state altitude fields track.

(** [_detection]: the track, and the cache after it. *)
Definition _detection (node_id : string) (node : node_state) (sent_at : float) (data : bytes) (cache : object_cache) :
    object_cache * exc dict :=
  match _field_list data with
  | Raise e => (cache, Raise e)
  | Ok fields =>
      let key := (node_id, default "unknown" (first_text fields 2)) in
      match detection_track node_id node (cache_get key cache) sent_at fields with
      | Raise e => (cache, Raise e)
      | Ok track =>
          (if truthy (dget_or track "_delete" VNone) then cache_pop key cache else cache_put key track cache, Ok track)
      end
  end.

(** ** Alerts *)
Definition _alert (node_id : string) (node : node_state) (sent_at : float) (data : bytes) : exc dict :=
  let? fields := _field_list data in
  let? (lat, lon, altitude, position_meta) := _position node fields in
  let alert_id := default "unknown" (first_text fields 1) in
  let status := as_int (_first fields 3 0) in
  let description := first_text fields 4 in
  let track := dupdate
    [("_ts", VFloat sent_at); ("_src", VStr "SAPIENT FLEX 335");
     ("uid", VStr ("sapient-alert-" +:+ node_id +:+ "-" +:+ alert_id)); ("sensor_id", VStr node_id);
     ("object_id", VStr alert_id); ("callsign", VStr (default "SAPIENT ALERT" description));
     ("lat_deg", VFloat (py_round lat 7)); ("lon_deg", VFloat (py_round lon 7));
     ("sapient_message_type", VStr "alert"); ("sapient_class", VStr "alert")] position_meta in
  let track := set_rounded "geo_alt_m" 2 altitude track in
  let track := set_named "sapient_alert_type" _ALERT_TYPES "" (as_int (_first fields 2 0)) track in
  let track := set_named "sapient_alert_status" _ALERT_STATUS "" status track in
  let track := match status with
               | Some n => if String.eqb (enum_name _ALERT_STATUS "" n) "clear" then dset "_delete" (VBool true) track else track
               | None => track
               end in
  let track := set_named "sapient_alert_priority" _ALERT_PRIORITY "" (as_int (_first fields 8 0)) track in
  let? confidence := _float (_first fields 10 5) in
  let track := set_rounded "detection_confidence" 4 confidence track in
  let track := set_text "description" description track in
  let track := set_text "sapient_region_id" (first_text fields 7) track in
  let? files := collect (firstn 16 (_all fields 11 2)) associated_file in
  let track := set_list "sapient_associated_files" files track in
  let? associated := collect (firstn 32 (_all fields 12 2)) related_detection in
  let track := set_list "sapient_associated_detections" associated track in
  Ok (set_text "sapient_additional_information" (first_text fields 13) track).

(** ** Messages that are only logged *)
Definition text_list (l : list string) : list value := map VStr l.

Definition _registration_ack (data : bytes) : exc dict :=
  let? fields := _field_list data in
  let accepted := match as_int (_first fields 1 0) with Some n => negb (n =? 0) | None => false end in
  Ok (set_list "reasons" (text_list (texts fields 3 16)) [("accepted", VBool accepted)]).

Definition _task (data : bytes) : exc dict :=
  let? fields := _field_list data in
  let info := set_named "control" _TASK_CONTROL "control_" (as_int (_first fields 6 0))
    (set_text "task_description" (first_text fields 3) (set_text "task_name" (first_text fields 2)
    (set_text "task_id" (first_text fields 1) []))) in
  let? regions := collect (firstn 16 (_all fields 7 2)) (fun r_fields =>
    Ok (match first_text r_fields 2, first_text r_fields 3 with
        | None, None => None
        | region_id, region_name =>
            Some (VDict [("region_id", text_value region_id); ("region_name", text_value region_name)])
        end)) in
  let info := set_list "regions" regions info in
  match as_bytes (_first fields 8 2) with
  | None => Ok info
  | Some command =>
      let? cmd_fields := _field_list command in
      Ok (set_text "command_parameter" (first_text cmd_fields 8)
           (set_text "command_mode_change" (first_text cmd_fields 5)
             (set_text "command_request" (first_text cmd_fields 1) info)))
  end.

Definition _task_ack (data : bytes) : exc dict :=
  let? fields := _field_list data in
  Ok (set_list "reasons" (text_list (texts fields 5 16))
       (set_named "task_status" _TASK_STATUS "status_" (as_int (_first fields 2 0))
         (set_text "task_id" (first_text fields 1) []))).

Definition _alert_ack (data : bytes) : exc dict :=
  let? fields := _field_list data in
  Ok (set_list "reasons" (text_list (texts fields 4 16))
       (set_named "alert_ack_status" _ALERT_ACK_STATUS "status_" (as_int (_first fields 5 0))
         (set_text "alert_id" (first_text fields 1) []))).

Definition _error (data : bytes) : exc dict :=
  let? fields := _field_list data in
  let info := [("messages", VList (text_list (texts fields 3 32)))] in
  Ok (match as_bytes (_first fields 1 2) with Some packet => dset "packet_bytes" (VInt (len packet)) info | None => info end).

(** ** Envelopes *)
Definition content_fields (fields : list WireField) : list WireField :=
  List.filter (fun f => match tget _CONTENT_FIELDS (number f) with Some _ => wire_type f =? 2 | None => false end) fields.

(** A report whose ValueError becomes a warning. *)
Definition report_event (kind node_id : string) (sent_at : float) (r : exc dict) : exc sapient_event :=
  match r with
  | Ok track => Ok {| kind := kind; node_id := node_id; at_time := sent_at; track := Some track; warned := false |}
  | Raise ValueError => Ok {| kind := kind; node_id := node_id; at_time := sent_at; track := None; warned := true |}
  | Raise e => Raise e
  end.

Definition quiet_event (kind node_id : string) (sent_at : float) (r : exc (option dict)) : exc sapient_event :=
  let? track := r in
  Ok {| kind := kind; node_id := node_id; at_time := sent_at; track := track; warned := false |}.

(** The content message of one node. *)
Definition handle_content (kind node_id : string) (sent_at : float) (raw : bytes) (d : decoder) : decoder * exc sapient_event :=
  let node := default new_node (oget (nodes d) node_id) in
  let logged (info : exc dict) := (d, let? _ := info in quiet_event kind node_id sent_at (Ok None)) in
  if String.eqb kind "registration" then
    let (node', r) := _registration raw node in
    ({ d with nodes ::= oset node_id node' }, let? _ := r in quiet_event kind node_id sent_at (Ok None))
  else if String.eqb kind "status_report" then
    let (node', r) := _status node_id sent_at raw node in
    ({ d with nodes ::= oset node_id node' }, quiet_event kind node_id sent_at r)
  else if String.eqb kind "detection_report" then
    let (cache, r) := _detection node_id node sent_at raw (objects d) in
    ({ d with objects := cache }, report_event kind node_id sent_at r)
  else if String.eqb kind "alert" then (d, report_event kind node_id sent_at (_alert node_id node sent_at raw))
  else if String.eqb kind "registration_ack" then logged (_registration_ack raw)
  else if String.eqb kind "task" then logged (_task raw)
  else if String.eqb kind "task_ack" then logged (_task_ack raw)
  else if String.eqb kind "alert_ack" then logged (_alert_ack raw)
  else if String.eqb kind "error" then logged (_error raw)
  else (d, quiet_event kind node_id sent_at (Ok None)).

Definition decode (data : bytes) (now : float) (d : decoder) : decoder * exc sapient_event :=
  if (len data =? 0) || (MAX_FRAME_BYTES <? len data) then (d, Raise ValueError) else
  match (let? fields := _field_list data in
         let node_id := default "unknown" (first_text fields 2) in
         let? sent_at := _timestamp (_first fields 1 2) now in
         match content_fields fields with
         | [content] =>
             let? kind := tindex _CONTENT_FIELDS (number content) in
             Ok (node_id, sent_at, kind, value_of content)
         | _ => Raise ValueError
         end) with
  | Raise e => (d, Raise e)
  | Ok (node_id, sent_at, kind, WBytes raw) =>
      handle_content kind node_id sent_at raw { d with nodes ::= osetdefault node_id new_node }
  | Ok (_, _, _, WInt _) => (d, Raise TypeError)
  end.
End Detections.

(** ** Topics *)
Definition _modality (repr : value -> string) (track : dict) : string :=
  match dget_or track "sapient_node_types" VNone with
  | VList (t :: _) => py_str repr t
  | _ => "unknown"
  end.

Definition _ENTITIES : list (list string * (string * string)) :=
  [(["drone"; "uas"; "uav"; "quadcopter"], ("air", "uav"));
   (["aircraft"; "aeroplane"; "airplane"; "helicopter"], ("air", "aircraft"));
   (["boat"; "ship"; "vessel"; "watercraft"], ("sea", "vessel"));
   (["person"; "human"; "pedestrian"], ("land", "person"));
   (["car"; "truck"; "vehicle"], ("land", "vehicle"));
   (["emitter"; "rf"; "signal"], ("land", "sensor"))].

Definition entity_of (object_class : string) : string * string :=
  match find (fun e => existsb (fun token => contains token object_class) (fst e)) _ENTITIES with
  | Some (_, e) => e
  | None => ("air", "aircraft")
  end.

Definition topic_for_track (repr : value -> string) (topic_root : string) (track : dict) : string :=
  match dget_or track "sapient_message_type" VNone with
  | VStr "status_report" => topic_root +:+ "/land/sapient/" +:+ _modality repr track +:+ "/neutral/sensor"
  | _ =>
      let v := dget_or track "sapient_class" VNone in
      let object_class := _clean_class (if truthy v then py_str repr v else "unknown") in
      let (domain, entity) := entity_of object_class in
      topic_root +:+ "/" +:+ domain +:+ "/sapient/" +:+ _modality repr track +:+ "/unknown/" +:+ entity
  end.
