(* ===== verification/Services.v ===== *)
(** * The catalogue and the status of the host's services

    compose/control/admin_control.py: which services exist, which script backs
    each, and what their pid files and /proc say about them. *)

From S2P Require Import Prelude PyFloat PyData Schema TrackViews PyText.
From stdpp Require Import gmap strings sorting.
#[local] Open Scope Z_scope.
#[local] Open Scope py_scope.

(** ** The catalogue *)
(** The names of [SERVICE_SPECS], all distinct. *)
Definition SERVICE_NAMES : list string :=
  ["zenoh"; "admin-control"; "cert-renewer"; "meteolt"; "dronuradaras"; "dangausakis"; "mapa";
   "deepstate"; "geoconfirmed"; "dronestrikemap"; "mainline_terminal"; "mavlink-command";
   "asterix"; "track-fusion"; "nffi"; "ffi"; "sapient"; "stanag4586"; "stanag4609"; "stanag5516";
   "cap"; "mqtt"; "aartos"; "sparkplug"; "sensor-health"; "mission-route"; "sapient-raw";
   "stanag4586-raw"; "stanag4609-raw"; "stanag5516-raw"; "mqtt-raw"; "aartos-raw";
   "aartos-wifi-raw"; "mediamtx"; "tak_layer"; "tak_alert_layer"; "tak-bridge"; "sitaware";
   "nffi-bridge"; "ffi-bridge"; "sitaware_layer"; "nffi_layer"; "ffi_layer"; "intcore_layer";
   "intcore-bridge"; "backbone-bridge"; "backbone_layer"; "generic_json"; "geojson";
   "camera_sites"; "socbx"; "palantir"; "tacvox"; "tytan"; "usareur"; "skylord"; "kyber"; "fpv";
   "ita_efdi"; "udl-platform-geolocation"; "video-zenoh-bridge"].

Definition SERVICE_SOURCES : list (string * string) :=
  [("zenoh", "(container) efdi-pod-zenoh-router");
   ("admin-control", "admin_control.py");
   ("cert-renewer", "(managed) step-ca certificate renewal");
   ("meteolt", "bridges/vendors/meteolt/meteolt_forecast_bridge.py");
   ("dronuradaras", "bridges/vendors/mainline/dronuradaras_bridge.py");
   ("dangausakis", "bridges/vendors/dangausakis/dangausakis_bridge.py");
   ("deepstate", "bridges/vendors/deepstate/deepstate_bridge.py");
   ("mapa", "bridges/vendors/mapa/mapa_bridge.py");
   ("dronestrikemap", "bridges/vendors/dronestrikemap/dronestrikemap_bridge.py");
   ("geoconfirmed", "bridges/vendors/geoconfirmed/geoconfirmed_bridge.py");
   ("mainline_terminal", "bridges/vendors/mainline/terminal_bridge.py");
   ("mavlink-command", "bridges/vendors/mavlink/mavlink_command_bridge.py");
   ("asterix", "protocols/vendors/asterix/cat.py");
   ("track-fusion", "protocols/vendors/random/fusion.py");
   ("nffi", "protocols/vendors/nffi/nffi.py");
   ("ffi", "protocols/vendors/nffi/ffi.py");
   ("nffi-bridge", "bridges/vendors/nffi/nffi_bridge.py");
   ("ffi-bridge", "bridges/vendors/nffi/ffi_bridge.py");
   ("sapient", "protocols/vendors/sapient/flex335.py");
   ("stanag4586", "protocols/vendors/stanag/stanag.py");
   ("stanag4609", "protocols/vendors/stanag/stanag.py");
   ("stanag5516", "protocols/vendors/stanag/stanag.py");
   ("cap", "protocols/vendors/random/cap.py");
   ("mqtt", "protocols/vendors/random/mqtt_json.py");
   ("aartos", "protocols/vendors/aartos/aartos_json.py");
   ("sparkplug", "protocols/vendors/sparkplug/sparkplug.py");
   ("sensor-health", "protocols/vendors/random/sensor_health.py");
   ("mission-route", "protocols/vendors/random/mission_route.py");
   ("sapient-raw", "bridges/vendors/sapient/flex335_bridge.py");
   ("stanag4586-raw", "bridges/vendors/milspec/4586_bridge.py");
   ("stanag4609-raw", "bridges/vendors/milspec/4609_bridge.py");
   ("stanag5516-raw", "bridges/vendors/milspec/5516_bridge.py");
   ("mqtt-raw", "bridges/vendors/random/mqtt_bridge.py");
   ("aartos-raw", "bridges/vendors/aaronia/aartos_bridge.py");
   ("aartos-wifi-raw", "bridges/vendors/aaronia/aartos_bridge.py");
   ("mediamtx", "bridges/vendors/mediamtx/mediamtx");
   ("tak_layer", "layers/vendors/tak/tak_layer.py");
   ("tak_alert_layer", "layers/vendors/tak/tak_alert_layer.py");
   ("tak-bridge", "bridges/vendors/tak/tak_bridge.py");
   ("sitaware", "bridges/vendors/sitaware/sitaware_bridge.py");
   ("sitaware_layer", "layers/vendors/tak/systematic/sitaware_layer.py");
   ("nffi_layer", "layers/vendors/tak/systematic/nffi_layer.py");
   ("ffi_layer", "layers/vendors/tak/systematic/ffi_layer.py");
   ("intcore_layer", "layers/vendors/tak/random/intcore_layer.py");
   ("intcore-bridge", "bridges/vendors/intcore/intcore_bridge.py");
   ("backbone-bridge", "bridges/vendors/random/backbone_bridge.py");
   ("backbone_layer", "layers/vendors/tak/random/backbone_layer.py");
   ("generic_json", "protocols/vendors/random/generic_json.py");
   ("geojson", "protocols/vendors/random/geojson.py");
   ("camera_sites", "protocols/vendors/random/camera_sites.py");
   ("socbx", "protocols/vendors/socbx/socbx.py");
   ("palantir", "protocols/vendors/palantir/palantir.py");
   ("tacvox", "protocols/vendors/tacvox/tacvox.py");
   ("tytan", "protocols/vendors/tytan/tytan.py");
   ("usareur", "protocols/vendors/usareur/usareur.py");
   ("skylord", "protocols/vendors/skylord/skylord.py");
   ("kyber", "protocols/vendors/kyber/kyber.py");
   ("fpv", "protocols/vendors/fpv/fpv.py");
   ("ita_efdi", "protocols/vendors/ita_efdi/ita_efdi.py");
   ("udl-platform-geolocation", "protocols/vendors/udl/platform_geolocation.py");
   ("video-zenoh-bridge", "bridges/vendors/random/video_zenoh_bridge.py")].

Definition _SERVICE_REQUIRED_KEYS : list (string * list string) :=
  [("sitaware", ["SITAWARE_URL"; "SITAWARE_API_PATH"]);
   ("intcore_layer", ["INTCORE_URL"; "INTCORE_API_KEY"; "INTCORE_TOPIC_ID"]);
   ("nffi_layer", ["NFFI_LAYER_CONNECT"]);
   ("ffi_layer", ["FFI_LAYER_CONNECT"]);
   ("nffi-bridge", ["NFFI_HOST"; "NFFI_PORT"]);
   ("ffi-bridge", ["FFI_HOST"; "FFI_PORT"])].

Fixpoint sget {A} (t : list (string * A)) (k : string) (dflt : A) : A :=
  match t with
  | [] => dflt
  | (k', a) :: t' => if String.eqb k' k then a else sget t' k dflt
  end.

Definition source_of (name : string) : string := sget SERVICE_SOURCES name "".

(** [_C2_EGRESS] is empty. *)
Definition _service_kind (name source : string) : string :=
  if startswith "layers/" source then "layer"
  else if startswith "protocols/" source then "protocol"
  else if startswith "bridges/" source then "bridge"
  else "infrastructure".

(** ** The host

    What the control code reads: a pid file is absent, unreadable ([None]) or
    holds text; a process has a pid and a command line, unless that cannot be
    read; [environ] are the settings, unless their file is not UTF-8; [prereqs]
    is what start.sh reports, unless that cannot be decoded; [docker_ps] is the
    router's status, unless docker fails; [nvg_health] is the state the feed
    probe of sitaware-hq-nvg, a name of no catalogue, reduces to;
    [launcher_state] is the file of the saved selection; and [pid_write] is what
    becomes of writing a pid file. *)
Record process := { p_pid : Z; p_cmdline : option string }.

Inductive saved := NoFile | NotText | Lines (lines : list string).

(** A file is written, cannot be opened, or is emptied and then cannot be
    filled. *)
Inductive write := Written | Refused | Emptied.

Record world := {
  pidfiles : gmap string (option string);
  procs : list process;
  environ : exc (gmap string string);
  prereqs : exc (gmap string (bool * string));
  docker_ps : option string;
  nvg_health : string;
  launcher_state : saved;
  pid_write : string -> write;
  clock : float;
}.

Definition alive (w : world) (pid : Z) : bool := existsb (fun p => p_pid p =? pid) (procs w).

(** [Path(f"/proc/{pid}").exists()]: a name longer than a file name may be is an
    error of its own. *)
Definition proc_exists (w : world) (pid : Z) : exc bool :=
  if 255 <? Z.of_nat (String.length (str_int pid)) then Raise OSError else Ok (alive w pid).

Definition cmdline (w : world) (pid : Z) : option string :=
  match find (fun p => p_pid p =? pid) (procs w) with Some p => p_cmdline p | None => None end.

Definition _pid_record (w : world) (name : string) : option Z * bool :=
  match pidfiles w !! name with
  | Some (Some text) =>
      match parse_int (strip text) with
      | Some pid => if pid <=? 0 then (None, true) else (Some pid, true)
      | None => (None, false)
      end
  | _ => (None, false)
  end.

Definition nul : ascii := ascii_of_N 0.

(** The octets above 127 that [decode(..., "replace")] changes occur in no
    source path, so text is compared as octets. *)
Definition _pid_is_service (w : world) (pid : Z) (name : string) : bool :=
  let source := source_of name in
  if negb (endswith ".py" source) then true else
  match cmdline w pid with
  | None => false
  | Some raw => contains source (smap (fun c => if Ascii.eqb c nul then " "%char else c) raw)
  end.

Definition _blocked_reason (w : world) (name : string) : exc string :=
  let? reported := prereqs w in
  let '(ready, hint) := default (true, ""%py) (reported !! name) in
  Ok (if ready then "" else if String.eqb hint "" then "required configuration is missing" else hint).

(** ** Status *)
Record svc := { running : bool; status : string; pid : option Z }.

Definition _BUNDLE_CHILD_PIDFILES (name : string) : bool := String.eqb name "asterix".

(** The pid files of the bundle's children that exist. *)
Definition children (w : world) : list (option string) :=
  map snd (List.filter (fun kv => startswith "asterix-cat" (fst kv)
                                  || selem (fst kv) ["asterix-bridge"; "udp-ingress"])
                       (map_to_list (pidfiles w))).

Definition child_up (w : world) (text : option string) : exc bool :=
  match text with
  | None => Ok false
  | Some text => match parse_int (strip text) with
                 | Some pid => if 0 <? pid then proc_exists w pid else Ok false
                 | None => Ok false
                 end
  end.

(** How many children are up. *)
Fixpoint count_up (w : world) (present : list (option string)) : exc Z :=
  match present with
  | [] => Ok 0
  | text :: present' =>
      let? up := child_up w text in
      let? n := count_up w present' in
      Ok (if up : bool then n + 1 else n)
  end.

Definition _bundle_status (w : world) : exc svc :=
  let present := children w in
  if len present =? 0 then Ok {| running := false; status := "stopped"; pid := None |} else
  let? up := count_up w present in
  let down := len present - up in
  Ok (if negb (up =? 0) && (down =? 0) then {| running := true; status := "running"; pid := None |}
      else if negb (up =? 0) && negb (down =? 0) then {| running := true; status := "degraded"; pid := None |}
      else {| running := false; status := "crashed"; pid := None |}).

Definition configured (values : gmap string string) (key : string) : bool :=
  negb (String.eqb (default ""%py (values !! key)) "").

(** Which keys a service needs; [sitaware] needs none when it discovers. *)
Definition required_keys (values : gmap string string) (name : string) : list string :=
  if String.eqb name "sitaware" && String.eqb (default ""%py (values !! "SITAWARE_DISCOVER"%py)) "1"
  then [] else sget _SERVICE_REQUIRED_KEYS name [].

Definition _service_status (w : world) (name : string) : exc svc :=
  if _BUNDLE_CHILD_PIDFILES name then _bundle_status w else
  let '(pid, pid_file_present) := _pid_record w name in
  let? values := environ w in
  if negb (forallb (configured values) (required_keys values name))
  then Ok {| running := false; status := "needs-config"; pid := None |} else
  let? reason := _blocked_reason w name in
  let? blocked := if String.eqb reason "" then Ok false
                  else let? up := match pid with Some p => proc_exists w p | None => Ok false end in Ok (negb up) in
  if blocked : bool then Ok {| running := false; status := "needs-config"; pid := None |} else
  if String.eqb name "zenoh" then
    match docker_ps w with
    | None => Ok {| running := false; status := "unavailable"; pid := None |}
    | Some out =>
        let text := if String.eqb (strip out) "" then "stopped"%py else strip out in
        Ok {| running := contains "up" (lower text) || contains "healthy" (lower text);
              status := text; pid := None |}
    end else
  let? pid_alive := match pid with
                    | Some p => let? up := proc_exists w p in Ok (up && _pid_is_service w p name)
                    | None => Ok false
                    end in
  if pid_alive : bool then
    Ok {| running := true;
          status := if String.eqb name "sitaware-hq-nvg" then nvg_health w else "running"; pid := pid |}
  else if pid_file_present then Ok {| running := false; status := "crashed"; pid := pid |}
  else Ok {| running := false; status := "stopped"; pid := None |}.

(** [_selected()]: the saved selection, less unknown names; a file that is not
    UTF-8 is an error. *)
Definition _selected (w : world) : exc (list string) :=
  let? lines := match launcher_state w with
                | NoFile => Ok []
                | NotText => Raise ValueError
                | Lines lines => Ok lines
                end in
  Ok match find (startswith "SELECTED_SERVICES=") lines with
     | None => []
     | Some line =>
         let raw := substring 18 (String.length line) line in
         List.filter (fun item => selem item SERVICE_NAMES) (split_by (Ascii.eqb ","%char) raw)
     end.

(** ** Facts *)

(** A service is reported running only if its pid file names a process that
    exists and runs it. *)
Lemma running_pid w name s : _BUNDLE_CHILD_PIDFILES name = false -> String.eqb name "zenoh" = false ->
  _service_status w name = Ok s -> running s = true ->
  exists p, fst (_pid_record w name) = Some p /\ alive w p = true /\ _pid_is_service w p name = true.
Proof.
  unfold _service_status. intros -> ->. destruct (_pid_record w name) as [o b].
  destruct (environ w) as [values|]; [|done]. cbn [exc_bind].
  destruct (forallb _ _); cbn [negb]; [|by intros [= <-]].
  destruct (_blocked_reason w name) as [reason|]; [|done]. cbn [exc_bind].
  destruct (if String.eqb reason "" then _ else _) as [[]|]; [by intros [= <-]| |done]. cbn [exc_bind].
  destruct o as [p|]; [|by destruct b; intros [= <-]]. unfold proc_exists.
  destruct (255 <? _); [done|]. cbn [exc_bind].
  destruct (alive w p) eqn:Ha, (_pid_is_service w p name) eqn:Hs; cbn [andb];
    [|by destruct b; intros [= <-]..]. intros _ _. by exists p.
Qed.
