(* ===== verification/Supervisor.v ===== *)
(** * The supervisor

    compose/control/supervisor.py: which services are restarted, when, and
    with which delay after failed attempts. *)

From Stdlib Require Import SpecFloat.
From S2P Require Import Prelude PyFloat PyData Schema TrackViews PyText Services.
From stdpp Require Import gmap strings sorting.
#[local] Open Scope Z_scope.
#[local] Open Scope py_scope.

Definition STABLE_AFTER_S : float := fl 60.
Definition BACKOFF_BASE_S : float := fl 15.
Definition BACKOFF_MAX_S : float := fl 600.
Definition SUPERVISED_KINDS : list string := ["bridge"; "protocol"; "layer"].

Definition name_le (a b : string) : Prop := String.leb a b = true.
#[export] Instance name_le_dec a b : Decision (name_le a b).
Proof. unfold name_le. solve_decision. Defined.

Definition supervised (name : string) : bool :=
  selem (_service_kind name (source_of name)) SUPERVISED_KINDS.

Definition supervisable : list string := merge_sort name_le (List.filter supervised SERVICE_NAMES).

Definition _backoff (failures : Z) : exc float :=
  let? factor := float_of_int (2 ^ Z.max 0 (failures - 1)) in
  Ok (fmin (fmul BACKOFF_BASE_S factor) BACKOFF_MAX_S).

(** ** Stray processes *)

(** [Path(p).name] *)
Definition path_name (p : string) : string :=
  List.last (List.filter (fun part => negb (String.eqb part "" || String.eqb part ".")) (TrackViews.split p)) "".

Definition runs_script (source : string) (raw : string) : bool :=
  match List.filter (fun part => negb (String.eqb part "")) (split_by (Ascii.eqb nul) raw) with
  | interpreter :: (_ :: _) as args =>
      startswith "python" (path_name interpreter) &&
      existsb (fun arg => String.eqb arg source || endswith ("/" +:+ source) arg) args
  | _ => false
  end.

Definition orphan_pids (self : Z) (w : world) (name : string) : list Z :=
  let source := source_of name in
  if negb (endswith ".py" source) then [] else
  let known := match pidfiles w !! name with
               | Some (Some text) => parse_int (strip text)
               | _ => None
               end in
  map p_pid (List.filter (fun p =>
    negb (bool_decide (known = Some (p_pid p))) && negb (p_pid p =? self) &&
    match p_cmdline p with Some raw => runs_script source raw | None => false end) (procs w)).

(** ** One sweep *)
Record entry := { failures : Z; next_attempt : float; started_at : float }.
Definition new_entry : entry := {| failures := 0; next_attempt := fl 0; started_at := fl 0 |}.
Abbreviation state := (gmap string entry).

Inductive action := Restart (name : string) | Adopt (name : string) (pid : Z).
Definition action_name (a : action) : string := match a with Restart n => n | Adopt n _ => n end.

(** [(PID_DIR / f"{name}.pid").write_text(text)] *)
Definition set_pidfile (name : string) (text : string) (w : world) : world * exc unit :=
  let holding text :=
    {| pidfiles := <[name := Some text]> (pidfiles w); procs := procs w; environ := environ w;
       prereqs := prereqs w; docker_ps := docker_ps w; nvg_health := nvg_health w;
       launcher_state := launcher_state w; pid_write := pid_write w; clock := clock w |} in
  match pid_write w name with
  | Written => (holding text, Ok tt)
  | Refused => (w, Raise OSError)
  | Emptied => (holding ""%py, Raise OSError)
  end.

Section Sweep.
(** What [start.sh --service name] does to the host, and whether it reports
    success, unless its output cannot be decoded; what happens during half a
    second; the supervisor's own pid. *)
Variable run_script : string -> world -> world * exc bool.
Variable pause : world -> world.
Variable self : Z.

(** Polls left before [_wait_running] gives up on the model's side; half a
    second each, eight seconds take seventeen. *)
Definition wait_fuel : nat := 64.

Fixpoint wait_loop (fuel : nat) (deadline : float) (name : string) (w : world) : world * exc bool :=
  match fuel with
  | O => (w, Raise OutOfFuel)
  | S fuel' =>
      match _service_status w name with
      | Raise x => (w, Raise x)
      | Ok st =>
          if running st then (w, Ok true)
          else if fle deadline (clock w) then (w, Ok false)
          else wait_loop fuel' deadline name (pause w)
      end
  end.

Definition _wait_running (name : string) (w : world) : world * exc bool :=
  wait_loop wait_fuel (fadd (clock w) (fl 8)) name w.

(** Does this sweep want the service up? *)
Definition wanted (start_stopped : bool) (selected : list string) (name : string) (st : svc) : bool :=
  String.eqb (status st) "crashed" ||
  start_stopped && String.eqb (status st) "stopped" && selem name selected.

(** The restart itself: the service's entry afterwards, even when an exception
    leaves the sweep. *)
Definition restart (name : string) (e : entry) (w : world) : entry * world * exc unit :=
  let '(w1, ok) := run_script name w in
  let '(w2, up) := match ok with Ok true => _wait_running name w1 | _ => (w1, ok) end in
  match up with
  | Raise x => (e, w2, Raise x)
  | Ok true => ({| failures := 0; next_attempt := fl 0; started_at := clock w2 |}, w2, Ok tt)
  | Ok false =>
      let n := failures e + 1 in
      match _backoff n with
      | Raise x => ({| failures := n; next_attempt := next_attempt e; started_at := started_at e |}, w2, Raise x)
      | Ok delay => ({| failures := n; next_attempt := fadd (clock w2) delay; started_at := fl 0 |}, w2, Ok tt)
      end
  end.

(** The probation window of a running service. *)
Definition settle (now : float) (e : entry) : entry :=
  if negb (failures e =? 0) && ftruth (started_at e) && fle STABLE_AFTER_S (fsub now (started_at e))
  then {| failures := 0; next_attempt := next_attempt e; started_at := fl 0 |} else e.

Section Service.
Variables (now : float) (selected : list string) (start_stopped dry_run : bool).

Definition sweep_one (name : string) (st : svc) (e : entry) (w : world) : entry * world * list action * exc unit :=
  if running st then (settle now e, w, [], Ok tt)
  else if negb (wanted start_stopped selected name st) then (e, w, [], Ok tt)
  else if flt now (next_attempt e) then (e, w, [], Ok tt)
  else match orphan_pids self w name with
       | pid :: _ =>
           if dry_run then (e, w, [], Ok tt)
           else let '(w', r) := set_pidfile name (str_int pid +:+ String (ascii_of_N 10) "") w in
                (e, w', [Adopt name pid], r)
       | [] =>
           if dry_run then (e, w, [], Ok tt)
           else let '(e', w', r) := restart name e w in (e', w', [Restart name], r)
       end.

Fixpoint sweep_names (names : list string) (st : state) (w : world) : state * world * list action * exc unit :=
  match names with
  | [] => (st, w, [], Ok tt)
  | name :: names' =>
      match _service_status w name with
      | Raise x => (st, w, [], Raise x)
      | Ok status =>
          let '(e, w', acts, r) := sweep_one name status (default new_entry (st !! name)) w in
          let st' := <[name := e]> st in
          match r with
          | Raise x => (st', w', acts, Raise x)
          | Ok _ => let '(st'', w'', acts', r') := sweep_names names' st' w' in (st'', w'', acts ++ acts', r')
          end
      end
  end.
End Service.

Definition sweep (start_stopped dry_run : bool) (st : state) (w : world) : state * world * list action * exc unit :=
  match _selected w with
  | Raise x => (st, w, [], Raise x)
  | Ok selected => sweep_names (clock w) selected start_stopped dry_run supervisable st w
  end.

(** The states of [main]'s loop: a sweep keeps what it did when it raises, and
    the host changes arbitrarily between sweeps. *)
Inductive reachable : state -> Prop :=
| reach_init : reachable ∅
| reach_sweep st start_stopped dry_run w st' w' acts r :
    reachable st -> sweep start_stopped dry_run st w = (st', w', acts, r) -> reachable st'.
End Sweep.

(** ** Backoff *)
Definition sf_eqb (x y : float) : bool :=
  match x, y with
  | S754_finite s m e, S754_finite s' m' e' => Bool.eqb s s' && (Z.pos m =? Z.pos m') && (e =? e')
  | S754_zero s, S754_zero s' | S754_infinity s, S754_infinity s' => Bool.eqb s s'
  | S754_nan, S754_nan => true
  | _, _ => false
  end.

Lemma sf_eqb_eq x y : sf_eqb x y = true -> x = y.
Proof.
  destruct x, y; cbn -[Z.eqb]; try done.
  1,2: by intros ->%Bool.eqb_prop.
  intros [[->%Bool.eqb_prop [= ->]%Z.eqb_eq]%andb_true_iff ->%Z.eqb_eq]%andb_true_iff. done.
Qed.

(** The delay in seconds after [n] failures in a row. *)
Definition delay (n : Z) : Z := Z.min (15 * 2 ^ Z.max 0 (n - 1)) 600.

Definition backoff_is_delay (n : Z) : bool :=
  match _backoff n with Ok x => sf_eqb x (fl (delay n)) | Raise _ => false end.

Lemma backoff_small n : n <= 1024 -> _backoff n = Ok (fl (delay n)).
Proof.
  intros Hn.
  assert (forallb (fun k => backoff_is_delay (Z.of_nat k)) (seq 0 1025) = true) as Hall
    by (vm_compute; reflexivity).
  assert (backoff_is_delay (Z.max 0 n) = true) as H.
  { rewrite forallb_forall in Hall. specialize (Hall (Z.to_nat n)). rewrite in_seq in Hall.
    replace (Z.max 0 n) with (Z.of_nat (Z.to_nat n)) by lia. apply Hall. lia. }
  unfold backoff_is_delay, _backoff, delay in *.
  replace (Z.max 0 (Z.max 0 n - 1)) with (Z.max 0 (n - 1)) in H by lia.
  destruct (float_of_int _); cbn [exc_bind] in *; [|done]. by rewrite (sf_eqb_eq _ _ H).
Qed.

Lemma backoff_large n : 1025 <= n -> _backoff n = Raise OverflowError.
Proof.
  intros Hn. unfold _backoff, float_of_int.
  replace (Z.abs (2 ^ Z.max 0 (n - 1)) <? 2 ^ 1024 - 2 ^ 970) with false; [done|].
  symmetry. apply Z.ltb_ge. rewrite Z.abs_eq by (apply Z.pow_nonneg; lia).
  transitivity (2 ^ 1024); [pose proof (Z.pow_nonneg 2 970); lia|]. apply Z.pow_le_mono_r; lia.
Qed.

(** the delay after [n] failures in a row is 15 s, doubled with each one
    and capped at 600 s; from the 1025th failure on it is not computed at all:
    [_backoff] raises OverflowError. *)
Theorem backoff_exact n :
  if n <=? 1024 then _backoff n = Ok (fl (delay n)) /\ 15 <= delay n <= 600 /\ delay n <= delay (n + 1)
  else _backoff n = Raise OverflowError.
Proof.
  destruct (Z.leb_spec n 1024); [|apply backoff_large; lia].
  split; [by apply backoff_small|]. unfold delay.
  pose proof (Z.pow_pos_nonneg 2 (Z.max 0 (n - 1)) ltac:(lia) ltac:(lia)).
  pose proof (Z.pow_le_mono_r 2 (Z.max 0 (n - 1)) (Z.max 0 (n + 1 - 1)) ltac:(lia) ltac:(lia)). lia.
Qed.

Lemma backoff_ok n : n <= 1024 -> exists x, _backoff n = Ok x.
Proof. intros H. eexists. by apply backoff_small. Qed.

(** ** What every entry satisfies *)
Definition entry_ok (e : entry) : Prop :=
  0 <= failures e /\ (failures e = 0 -> next_attempt e = fl 0) /\ (failures e = 0 \/ started_at e = fl 0).

Lemma new_entry_ok : entry_ok new_entry.
Proof. by split; [|split; [|left]]. Qed.

Lemma settle_id now e : entry_ok e -> settle now e = e.
Proof.
  intros (_ & _ & [H|H]); unfold settle; rewrite H; [done|].
  by rewrite andb_false_r.
Qed.

Section Facts.
Variables (run_script : string -> world -> world * exc bool) (pause : world -> world) (self : Z).
Implicit Types (st : state) (w : world) (e : entry).

Lemma restart_ok name e w : entry_ok e -> entry_ok (fst (fst (restart run_script pause name e w))).
Proof.
  intros He. unfold restart. destruct (run_script name w) as [w1 ok].
  destruct (match ok with Ok true => _ | _ => _ end) as [w2 [[]|x]]; [by split; [|split; [|left]]| |done].
  cbv zeta. destruct He as (H0 & H1 & H2). destruct (_backoff (failures e + 1)) as [d|x] eqn:E; cbn [fst].
  - split; cbn; [lia|]. split; [lia|by right].
  - destruct (Z.leb_spec (failures e + 1) 1024) as [Hle|Hgt].
    + destruct (backoff_ok _ Hle) as [y Hy]. congruence.
    + split; cbn; [lia|]. split; [lia|]. destruct H2; [lia|by right].
Qed.

Lemma sweep_one_ok now selected ss dry name s e w :
  entry_ok e -> entry_ok (fst (fst (fst (sweep_one run_script pause self now selected ss dry name s e w)))).
Proof.
  intros He. unfold sweep_one.
  destruct (running _); [by rewrite settle_id|].
  destruct (negb _); [done|]. destruct (flt _ _); [done|].
  destruct (orphan_pids _ _ _); destruct dry; try done.
  - pose proof (restart_ok name e w He). by destruct (restart _ _ _ _ _) as [[e' w'] r].
  - by destruct (set_pidfile _ _ _).
Qed.

Definition state_ok st : Prop := forall name e, st !! name = Some e -> entry_ok e.

Lemma sweep_names_ok now selected ss dry names st w :
  state_ok st ->
  state_ok (fst (fst (fst (sweep_names run_script pause self now selected ss dry names st w)))).
Proof.
  revert st w. induction names as [|name names IH]; intros st w Hst; cbn [sweep_names]; [done|].
  destruct (_service_status w name) as [s|]; [|done].
  assert (entry_ok (default new_entry (st !! name))) as He.
  { destruct (st !! name) as [e|] eqn:E; [by apply (Hst name)|apply new_entry_ok]. }
  pose proof (sweep_one_ok now selected ss dry name s _ w He) as H1.
  destruct (sweep_one _ _ _ _ _ _ _ _ _ _ _) as [[[e w1] acts] r]. cbn [fst] in H1.
  assert (state_ok (<[name := e]> st)) as Hst'.
  { intros n e' [[<- <-]|[_ H]]%lookup_insert_Some; [done|by apply (Hst n)]. }
  destruct r as [[]|x]; [|done]. specialize (IH (<[name := e]> st) w1 Hst').
  by destruct (sweep_names _ _ _ _ _ _ _ _ _ _) as [[[st2 w2] acts2] r2].
Qed.

Lemma reachable_ok st : reachable run_script pause self st -> state_ok st.
Proof.
  induction 1 as [|st ss dry w st' w' acts r _ IH E]; [by intros ? ? ?%lookup_empty_Some|].
  unfold sweep in E. destruct (_selected w) as [selected|]; [|by injection E as <- <- <- <-].
  pose proof (sweep_names_ok (clock w) selected ss dry supervisable st w IH) as H. by rewrite E in H.
Qed.
End Facts.

(** Backoff counts failed starts only.  In every state the supervisor can
    reach, an entry with a start time has no failures, so the probation window
    never applies (a running service's entry is never changed), and an entry
    without failures is due at once: a service that comes up and dies again is
    restarted by every sweep that finds it dead, however soon it died. *)
Theorem died_young_restarts_at_once run_script pause self st name e :
  reachable run_script pause self st -> st !! name = Some e ->
  (failures e = 0 \/ started_at e = fl 0) /\
  (forall now, settle now e = e) /\
  (failures e = 0 -> forall now selected ss s w,
     flt now (fl 0) = false -> running s = false -> status s = "crashed"%py -> orphan_pids self w name = [] ->
     snd (fst (sweep_one run_script pause self now selected ss false name s e w)) = [Restart name]).
Proof.
  intros Hr He. pose proof (reachable_ok _ _ _ _ Hr _ _ He) as Hok.
  split_and!; [apply Hok|intros now; by apply settle_id|].
  intros H0 now selected ss s w Hnow Hrun Hst Ho. destruct Hok as (_ & Hdue & _).
  unfold sweep_one, wanted. rewrite Hrun, Hst, Ho, (Hdue H0), Hnow.
  cbn [String.eqb orb negb]. by destruct (restart _ _ _ _ _) as [[e' w'] r].
Qed.

(** ** What a sweep does *)

Lemma filter_split {A} (f : A -> bool) l :
  match List.filter f l with
  | [] => forall x, In x l -> f x = false
  | x :: _ => exists before after, l = before ++ x :: after /\ f x = true /\ forall y, In y before -> f y = false
  end.
Proof.
  induction l as [|a l IH]; cbn [List.filter]; [by intros x []|].
  destruct (f a) eqn:Ha; [by exists [], l; split_and!|].
  destruct (List.filter f l) as [|x r]; [by intros x [<-|Hx]; auto|].
  destruct IH as (before & after & -> & Hx & Hb). exists (a :: before), after. split_and!; [done..|].
  intros y [<-|Hy]; auto.
Qed.

Section Actions.
Variables (run_script : string -> world -> world * exc bool) (pause : world -> world) (self : Z).

(** A process that runs a service's script, and is neither the one its pid file
    names nor the supervisor. *)
Definition stray (w : world) (name : string) (p : process) : Prop :=
  endswith ".py" (source_of name) = true /\
  (forall text, pidfiles w !! name = Some (Some text) -> parse_int (strip text) <> Some (p_pid p)) /\
  p_pid p <> self /\
  exists raw, p_cmdline p = Some raw /\ runs_script (source_of name) raw = true.

Lemma orphan_pids_spec w name :
  match orphan_pids self w name with
  | [] => forall p, In p (procs w) -> ~ stray w name p
  | pid :: _ => exists before p after, pid = p_pid p /\ procs w = before ++ p :: after /\ stray w name p /\
                  forall q, In q before -> ~ stray w name q
  end.
Proof.
  unfold orphan_pids. cbv zeta. destruct (endswith ".py" (source_of name)) eqn:Hpy; cbn [negb].
  2: { intros p _ (H & _). by rewrite Hpy in H. }
  set (known := match pidfiles w !! name with Some (Some text) => _ | _ => None end).
  match goal with |- context [List.filter ?f _] => set (own := f) end.
  assert (forall p, own p = true <-> stray w name p) as Hown.
  { intros p. subst own. cbn beta. unfold stray. rewrite !andb_true_iff, !negb_true_iff, bool_decide_eq_false, Z.eqb_neq.
    assert (known <> Some (p_pid p) <-> forall text, pidfiles w !! name = Some (Some text) -> parse_int (strip text) <> Some (p_pid p)) as ->.
    { subst known. destruct (pidfiles w !! name) as [[text|]|]; [|by split..].
      split; [by intros H text' [= <-]|by intros H; apply H]. }
    destruct (p_cmdline p) as [raw|].
    - split; [intros [[H1 H2] H3]; split_and!; eauto|]. intros (_ & H1 & H2 & raw' & [= <-] & H3). done.
    - split; [by intros [_ H]|by intros (_ & _ & _ & raw' & H & _)]. }
  clearbody own. assert (forall p, own p = false <-> ~ stray w name p) as Hnot.
  { intros p. rewrite <- Hown. by destruct (own p). }
  pose proof (filter_split own (procs w)) as Hf. destruct (List.filter own (procs w)) as [|p rest]; cbn [map].
  - intros p Hp. by apply Hnot, Hf.
  - destruct Hf as (before & after & E & Hp & Hb). exists before, p, after. split_and!; [done..|by apply Hown|].
    intros q Hq. by apply Hnot, Hb.
Qed.

Variables (now : float) (selected : list string) (ss dry : bool).

(** The service is dead, and wanted: it has crashed or, in a boot sweep, is
    stopped and selected. *)
Definition dead (w : world) (name : string) : Prop :=
  exists s, _service_status w name = Ok s /\ running s = false /\
    (status s = "crashed"%py \/ ss = true /\ status s = "stopped"%py /\ selem name selected = true).

(** What the host [w] and a service's entry call for: the service is dead and
    its delay has passed; where no stray process runs its script it is
    started, and otherwise the first of them is adopted. *)
Inductive called_for (w : world) (e : entry) (name : string) : action -> Prop :=
| cf_restart : dead w name -> flt now (next_attempt e) = false ->
    (forall p, In p (procs w) -> ~ stray w name p) -> called_for w e name (Restart name)
| cf_adopt before p after : dead w name -> flt now (next_attempt e) = false ->
    procs w = before ++ p :: after -> stray w name p -> (forall q, In q before -> ~ stray w name q) ->
    called_for w e name (Adopt name (p_pid p)).

Lemma wanted_spec name s :
  wanted ss selected name s = true <->
  status s = "crashed"%py \/ ss = true /\ status s = "stopped"%py /\ selem name selected = true.
Proof. unfold wanted. rewrite orb_true_iff, !andb_true_iff, !String.eqb_eq. tauto. Qed.

Lemma dead_spec w name s : _service_status w name = Ok s ->
  dead w name <-> running s = false /\ wanted ss selected name s = true.
Proof.
  intros E. unfold dead. rewrite wanted_spec, E. split; [by intros (? & [= <-] & ?)|by eauto].
Qed.

Lemma called_for_status w e name a : called_for w e name a -> dead w name /\ flt now (next_attempt e) = false.
Proof. by destruct 1. Qed.

Lemma called_for_unique w e name a b : called_for w e name a -> called_for w e name b -> a = b.
Proof.
  assert (forall before p after before' p' after', procs w = before ++ p :: after -> procs w = before' ++ p' :: after' ->
    stray w name p -> (forall q, In q before' -> ~ stray w name q) -> In p before' \/ (exists l, before = before' ++ l)) as Hcmp.
  { intros before p after before' p' after' -> E Hp Hb. revert before' E Hb.
    induction before as [|x before IH]; intros [|y before'] E Hb; cbn [app] in E; [by right; exists []| | |].
    - injection E as <- _. left. by left.
    - right. by eexists.
    - injection E as <- E. destruct (IH before' E) as [H|[l ->]]; [by intros q Hq; apply Hb; right|by left; right|by right; exists l]. }
  intros [Hd Hf Hn|before p after Hd Hf E Hp Hb] [Hd' Hf' Hn'|before' p' after' Hd' Hf' E' Hp' Hb']; [done| | |].
  - destruct (Hn p'); [rewrite E'; apply in_elt|done].
  - destruct (Hn' p); [rewrite E; apply in_elt|done].
  - destruct (Hcmp _ _ _ _ _ _ E E' Hp Hb') as [H|[l Hl]]; [by destruct (Hb' p)|].
    destruct (Hcmp _ _ _ _ _ _ E' E Hp' Hb) as [H|[l' Hl']]; [by destruct (Hb p')|].
    subst before. assert (l = []) as ->.
    { rewrite <- app_assoc in Hl'. rewrite <- (app_nil_r before') in Hl' at 1. apply app_inv_head in Hl'.
      by destruct l. }
    rewrite app_nil_r in E. rewrite E in E'. apply app_inv_head in E'. by injection E' as ->.
Qed.

(** A service's turn: it acts exactly as the host calls for, and a turn without
    an action leaves the host as it is. *)
Lemma sweep_one_actions name s e w e' w' acts r :
  _service_status w name = Ok s ->
  sweep_one run_script pause self now selected ss dry name s e w = (e', w', acts, r) ->
  (forall a, In a acts <-> dry = false /\ called_for w e name a) /\ (length acts <= 1)%nat /\
  Forall (fun a => action_name a = name) acts /\ (acts = [] -> w' = w /\ r = Ok tt).
Proof.
  intros Hs. pose proof (dead_spec w name s Hs) as Hdead. unfold sweep_one.
  assert (~ (dry = false /\ dead w name /\ flt now (next_attempt e) = false) -> forall e0,
    (e0, w, [], Ok tt) = (e', w', acts, r) ->
    (forall a, In a acts <-> dry = false /\ called_for w e name a) /\ (length acts <= 1)%nat /\
    Forall (fun a => action_name a = name) acts /\ (acts = [] -> w' = w /\ r = Ok tt)) as Hidle.
  { intros Hn e0 [= <- <- <- <-]. split_and!; [|cbn; lia|constructor|done]. intros a. split; [done|].
    intros [Hd Ha%called_for_status]. tauto. }
  destruct (running s) eqn:Hrun; [apply Hidle; rewrite Hdead; intuition congruence|].
  destruct (wanted ss selected name s) eqn:Hw; cbn [negb]; [|apply Hidle; rewrite Hdead; intuition congruence].
  assert (dead w name) as Hd by (by apply Hdead). clear Hdead.
  destruct (flt now (next_attempt e)) eqn:Hdue; [apply Hidle; intuition congruence|].
  pose proof (orphan_pids_spec w name) as Ho.
  destruct dry; [destruct (orphan_pids self w name); apply Hidle; intuition congruence|].
  assert (forall a, called_for w e name a -> (forall b, In b [a] <-> false = false /\ called_for w e name b)) as Hone.
  { intros a Ha b. split; [by intros [<-|[]]|]. intros [_ Hb]. left. by eapply called_for_unique. }
  destruct (orphan_pids self w name) as [|pid pids].
  - destruct (restart _ _ _ _ _) as [[e2 w2] r2]. intros [= <- <- <- <-].
    split_and!; [apply Hone; by constructor|cbn; lia|by repeat constructor|done].
  - destruct Ho as (before & p & after & -> & Hp & Hst & Hb). destruct (set_pidfile _ _ _) as [w2 r2]. intros [= <- <- <- <-].
    split_and!; [apply Hone; by econstructor|cbn; lia|by repeat constructor|done].
Qed.

Abbreviation run := (sweep_names run_script pause self now selected ss dry).

Lemma sweep_names_app xs ys st w :
  run (xs ++ ys) st w =
  let '(st1, w1, before, r1) := run xs st w in
  match r1 with
  | Raise x => (st1, w1, before, Raise x)
  | Ok _ => let '(st2, w2, after, r2) := run ys st1 w1 in (st2, w2, before ++ after, r2)
  end.
Proof.
  revert st w. induction xs as [|x xs IH]; intros st w; cbn [app sweep_names].
  { by destruct (run ys st w) as [[[st2 w2] after] r2]. }
  destruct (_service_status w x) as [s|]; [|done].
  destruct (sweep_one _ _ _ _ _ _ _ _ _ _ _) as [[[e w1] acts1] [[]|?]]; [|done].
  rewrite IH. destruct (run xs _ w1) as [[[st2 w2] before] [[]|?]]; [|done].
  destruct (run ys st2 w2) as [[[st3 w3] after] r3]. by rewrite app_assoc.
Qed.

(** Actions are named after the services of the sweep, each once. *)
Lemma sweep_names_names names st w st' w' acts r :
  NoDup names -> run names st w = (st', w', acts, r) ->
  Forall (fun a => In (action_name a) names) acts /\ NoDup (map action_name acts) /\
  (forall n, ~ In n names -> st' !! n = st !! n).
Proof.
  revert st w st' w' acts r. induction names as [|name names IH]; intros st w st' w' acts r Hnd; cbn [sweep_names].
  { intros [= <- <- <- <-]. split_and!; [constructor|apply NoDup_nil_2|done]. }
  apply NoDup_cons in Hnd as [Hnin Hnd]. rewrite list_elem_of_In in Hnin.
  destruct (_service_status w name) as [s|] eqn:Es.
  2: { intros [= <- <- <- <-]. split_and!; [constructor|apply NoDup_nil_2|done]. }
  destruct (sweep_one _ _ _ _ _ _ _ _ _ _ _) as [[[e w1] acts1] r1] eqn:E1.
  destruct (sweep_one_actions _ _ _ _ _ _ _ _ Es E1) as (_ & Hl & Hn & _).
  assert (forall n, ~ In n (name :: names) -> <[name := e]> st !! n = st !! n) as Hst.
  { intros n Hx. apply lookup_insert_ne. intros ->. apply Hx. by left. }
  assert (NoDup (map action_name acts1)) as Hnd1.
  { destruct acts1 as [|a [|? ?]]; cbn in *; [apply NoDup_nil_2|apply NoDup_singleton|lia]. }
  assert (Forall (fun a => In (action_name a) (name :: names)) acts1) as Hn1.
  { eapply Forall_impl; [exact Hn|]. intros a ->. by left. }
  destruct r1 as [[]|x]; [|by intros [= <- <- <- <-]].
  destruct (run names _ w1) as [[[st2 w2] acts2] r2] eqn:E2.
  destruct (IH _ _ _ _ _ _ Hnd E2) as (Hn2 & Hd2 & Hst2). intros [= <- <- <- <-]. split_and!.
  - apply Forall_app. split; [done|]. eapply Forall_impl; [exact Hn2|]. intros a Ha. by right.
  - rewrite map_app. apply NoDup_app. split_and!; [done| |done].
    intros n. rewrite !list_elem_of_In, !in_map_iff. intros (a & <- & Ha) (a' & Heq & Ha').
    rewrite Forall_forall in Hn, Hn2. rewrite <- list_elem_of_In in Ha, Ha'. apply Hnin.
    rewrite <- (Hn a Ha), <- Heq. by apply Hn2.
  - intros n Hx. rewrite Hst2 by (intros ?; apply Hx; by right). by apply Hst.
Qed.

(** The turn of one service of a sweep, in the host as the turns before it left
    it. *)
Lemma sweep_turn earlier name later st w st' w' acts r :
  NoDup (earlier ++ name :: later) -> run (earlier ++ name :: later) st w = (st', w', acts, r) ->
  let '(st1, w1, before, r1) := run earlier st w in
  exists own rest, acts = before ++ own ++ rest /\
    Forall (fun a => In (action_name a) earlier) before /\ Forall (fun a => In (action_name a) later) rest /\
    (forall a, In a own <-> r1 = Ok tt /\ dry = false /\ called_for w1 (default new_entry (st !! name)) name a) /\
    (own = [] -> snd (fst (fst (run (earlier ++ [name]) st w))) = w1).
Proof.
  intros Hnd E. rewrite sweep_names_app in E. rewrite sweep_names_app.
  apply NoDup_app in Hnd as (Hnd & Hdis & [_ Hnd2]%NoDup_cons).
  assert (~ In name earlier) as Hnin by (rewrite <- list_elem_of_In; intros H; apply (Hdis name H); apply elem_of_cons; by left).
  destruct (run earlier st w) as [[[st1 w1] before] r1] eqn:E1.
  destruct (sweep_names_names _ _ _ _ _ _ _ Hnd E1) as (Hb & _ & Hst). rewrite <- (Hst name Hnin).
  destruct r1 as [[]|x].
  2: { injection E as <- <- <- <-. exists [], []. rewrite app_nil_r. split_and!; [done..|constructor| |done].
       intros a. split; [done|by intros [? _]]. }
  cbn [sweep_names] in *. destruct (_service_status w1 name) as [s|x] eqn:Es.
  2: { injection E as <- <- <- <-. exists [], []. split_and!; [done..|constructor| |done]. intros a. split; [done|].
       intros (_ & _ & ((s & Hs & _) & _)%called_for_status). congruence. }
  destruct (sweep_one _ _ _ _ _ _ _ _ _ _ _) as [[[e w2] own] r2] eqn:E2.
  destruct (sweep_one_actions _ _ _ _ _ _ _ _ Es E2) as (Hown & _ & _ & Hidle).
  assert (forall a, In a own <-> Ok tt = Ok tt /\ dry = false /\ called_for w1 (default new_entry (st1 !! name)) name a) as Ho.
  { intros a. rewrite Hown. tauto. }
  assert (exists rest, acts = before ++ own ++ rest /\ Forall (fun a => In (action_name a) later) rest) as (rest & -> & Hr).
  { destruct r2 as [[]|x]; [|injection E as <- <- <- <-; exists []; rewrite app_nil_r; split; [done|constructor]].
    destruct (run later _ w2) as [[[st3 w3] rest] r3] eqn:E3. injection E as <- <- <- <-. exists rest. split; [done|].
    by apply (sweep_names_names _ _ _ _ _ _ _ Hnd2 E3). }
  exists own, rest. split_and!; [done..|]. intros Hnil. destruct (Hidle Hnil) as [-> ->]. done.
Qed.
End Actions.

Lemma supervisable_NoDup : NoDup supervisable.
Proof. apply (bool_decide_unpack _). vm_compute. exact I. Qed.

Lemma supervisable_kind name : In name supervisable -> supervised name = true.
Proof. rewrite <- list_elem_of_In. unfold supervisable. rewrite merge_sort_Permutation, list_elem_of_In. by intros [_ H]%filter_In. Qed.

(** C12: a sweep gives each bridge, protocol and layer its turn, in order, and
    acts at no other service and on none twice.  At its turn, in the host as the
    turns before it left it, a service is acted on if and only if it is dead
    (crashed or, in a boot sweep, stopped and selected) and the delay of its
    entry has passed: it is started where no stray process runs its script, and
    otherwise the first stray is adopted.  A turn without an action leaves the
    host as it is, a dry run has none, and an exception ends the sweep: the
    turns after it have none. *)
Theorem sweep_acts_only_when_called_for run_script pause self start_stopped dry_run st w st' w' acts r :
  sweep run_script pause self start_stopped dry_run st w = (st', w', acts, r) ->
  NoDup (map action_name acts) /\ Forall (fun a => supervised (action_name a) = true) acts /\
  match _selected w with
  | Raise x => acts = [] /\ w' = w /\ r = Raise x
  | Ok selected =>
      forall earlier name later, supervisable = earlier ++ name :: later ->
      let run names := sweep_names run_script pause self (clock w) selected start_stopped dry_run names st w in
      let '(_, w1, before, r1) := run earlier in
      exists own rest, acts = before ++ own ++ rest /\
        Forall (fun a => In (action_name a) earlier) before /\ Forall (fun a => In (action_name a) later) rest /\
        (forall a, In a own <-> r1 = Ok tt /\ dry_run = false /\
           called_for self (clock w) selected start_stopped w1 (default new_entry (st !! name)) name a) /\
        (own = [] -> snd (fst (fst (run (earlier ++ [name])))) = w1)
  end.
Proof.
  unfold sweep. destruct (_selected w) as [selected|x].
  2: { intros [= <- <- <- <-]. split_and!; [apply NoDup_nil_2|constructor|done..]. }
  intros E. destruct (sweep_names_names _ _ _ _ _ _ _ _ _ _ _ _ _ _ supervisable_NoDup E) as (Hn & Hd & _). split_and!; [done| |].
  - eapply Forall_impl; [exact Hn|]. intros a. apply supervisable_kind.
  - intros earlier name later Hs. cbv zeta. rewrite Hs in E. eapply sweep_turn; [|exact E]. rewrite <- Hs. apply supervisable_NoDup.
Qed.

(** ** A sweep ends *)

(** Let [time] tell the values of the host's clock.  [time.sleep(0.5)] lets
    half a second pass, so that at most sixty-three of them pass the eight
    seconds of [_wait_running]. *)
Definition time_passes (time : float -> Prop) (pause : world -> world) : Prop :=
  forall w, time (clock w) -> time (clock (pause w)) /\
    exists n, (n < wait_fuel)%nat /\ fle (fadd (clock w) (fl 8)) (clock (Nat.iter n pause w)) = true.

(** The start script leaves a clock that tells the time. *)
Definition keeps_time (time : float -> Prop) (run_script : string -> world -> world * exc bool) : Prop :=
  forall name w, time (clock w) -> time (clock (fst (run_script name w))).

Section Ends.
Variables (run_script : string -> world -> world * exc bool) (pause : world -> world) (self : Z).
Variable time : float -> Prop.
Hypothesis pause_advances : time_passes time pause.
Hypothesis run_told : keeps_time time run_script.
Abbreviation told w := (time (clock w)).

(** Errors of the host: a status that cannot be told, a start script whose
    output cannot be read, a pid file that cannot be written, a saved selection
    that is not text. *)
Definition host_error (x : exn) : Prop :=
  (exists w name, _service_status w name = Raise x) \/ (exists w name, snd (run_script name w) = Raise x) \/
  x = OSError \/ x = ValueError.

Lemma set_pidfile_ok name text w :
  clock (fst (set_pidfile name text w)) = clock w /\
  (snd (set_pidfile name text w) = Ok tt \/ snd (set_pidfile name text w) = Raise OSError).
Proof. unfold set_pidfile. destruct (pid_write w name); auto. Qed.

Lemma wait_loop_ends fuel deadline name w n :
  told w -> (n < fuel)%nat -> fle deadline (clock (Nat.iter n pause w)) = true ->
  let '(w', r) := wait_loop pause fuel deadline name w in told w' /\ forall x, r = Raise x -> host_error x.
Proof.
  revert fuel w. induction n as [|n IH]; intros fuel w Hw Hn Hd; (destruct fuel as [|fuel]; [lia|]); cbn [wait_loop];
    (destruct (_service_status w name) as [s|x] eqn:Es;
      [|split; [done|by intros x' [= <-]; left; eauto]]); (destruct (running s); [done|]).
  - change (Nat.iter 0 pause w) with w in Hd. by rewrite Hd.
  - destruct (fle deadline (clock w)); [done|].
    apply IH; [by apply pause_advances|lia|]. by rewrite <- Nat.iter_succ_r.
Qed.

Lemma wait_ends name w : told w ->
  let '(w', r) := _wait_running pause name w in told w' /\ forall x, r = Raise x -> host_error x.
Proof.
  intros Hw. destruct (pause_advances w Hw) as (_ & n & Hn & Hd). by apply (wait_loop_ends _ _ _ _ n).
Qed.

Definition expected (name : string) (e : entry) (r : exc unit) : Prop :=
  forall x, r = Raise x -> host_error x \/ x = OverflowError /\ 1024 <= failures e.

Lemma restart_ends name e w : told w ->
  let '(e', w', r) := restart run_script pause name e w in told w' /\ expected name e r.
Proof.
  intros Hw. unfold restart. pose proof (run_told name w Hw) as Hw1.
  destruct (run_script name w) as [w1 ok] eqn:Er. cbn [fst] in Hw1.
  assert (let '(w2, up) := match ok with Ok true => _wait_running pause name w1 | _ => (w1, ok) end in
    told w2 /\ forall x, up = Raise x -> host_error x) as H.
  { destruct ok as [[]|x]; [by apply wait_ends|done|]. split; [done|]. intros x' [= <-]. right; left.
    exists w, name. by rewrite Er. }
  destruct (match ok with Ok true => _ | _ => _ end) as [w2 [[]|x]]; destruct H as [Hw2 Hx]; [done| |].
  - cbv zeta. destruct (Z.leb_spec (failures e + 1) 1024).
    + rewrite backoff_small by lia. done.
    + rewrite backoff_large by lia. split; [done|]. intros x [= <-]. right. split; [done|lia].
  - split; [done|]. intros x' [= <-]. left. by apply Hx.
Qed.

Lemma sweep_one_ends now selected ss dry name s e w :
  told w -> let '(e', w', acts, r) := sweep_one run_script pause self now selected ss dry name s e w in
  told w' /\ expected name e r.
Proof.
  intros Hw. unfold sweep_one. destruct (running _); [done|]. destruct (negb _); [done|]. destruct (flt _ _); [done|].
  destruct (orphan_pids _ _ _); destruct dry; try done.
  - pose proof (restart_ends name e w Hw) as H. by destruct (restart _ _ _ _ _) as [[e2 w2] r2].
  - match goal with |- context [set_pidfile ?n ?x w] => pose proof (set_pidfile_ok n x w) as H; destruct (set_pidfile n x w) as [w2 r2] end.
    destruct H as [Hc [H|H]]; cbn [fst snd] in *; subst r2; rewrite Hc; (split; [done|]); [done|].
    intros x [= <-]. left. right; right. by left.
Qed.

Lemma sweep_names_ends now selected ss dry names st w :
  told w -> NoDup names ->
  let '(st', w', acts, r) := sweep_names run_script pause self now selected ss dry names st w in
  forall x, r = Raise x -> host_error x \/
    x = OverflowError /\ exists name, name ∈ names /\ 1024 <= failures (default new_entry (st !! name)).
Proof.
  intros Hw Hnd. revert st w Hw. induction Hnd as [|name names Hnin Hnd IH] using NoDup_ind; intros st w Hw; cbn [sweep_names]; [done|].
  destruct (_service_status w name) as [s|x] eqn:Es; [|intros x' [= <-]; by left; left; eauto].
  pose proof (sweep_one_ends now selected ss dry name s (default new_entry (st !! name)) w Hw) as H1.
  destruct (sweep_one _ _ _ _ _ _ _ _ _ _ _) as [[[e w1] acts1] r1]. destruct H1 as [Hw1 Hr1].
  destruct r1 as [[]|x].
  - specialize (IH (<[name := e]> st) w1 Hw1). destruct (sweep_names _ _ _ _ _ _ _ _ _ _) as [[[st2 w2] acts2] r2].
    intros x Hx. destruct (IH x Hx) as [H|(-> & n & Hn & Hf)]; [by left|]. right. split; [done|]. exists n.
    rewrite lookup_insert_ne in Hf by (by intros ->). split; [by apply elem_of_cons; right|done].
  - intros x' [= <-]. destruct (Hr1 x eq_refl) as [H|[-> Hf]]; [by left|]. right. split; [done|]. exists name.
    split; [by apply elem_of_cons; left|done].
Qed.
End Ends.

(** Where time passes, a sweep ends; an exception that leaves it is an error of
    the host, or OverflowError from a service that has failed to start 1024 times
    in a row. *)
Lemma sweep_ends run_script pause self time start_stopped dry_run st w :
  time_passes time pause -> keeps_time time run_script -> time (clock w) ->
  forall x, snd (sweep run_script pause self start_stopped dry_run st w) = Raise x ->
  host_error run_script x \/
  x = OverflowError /\ exists name, name ∈ supervisable /\ 1024 <= failures (default new_entry (st !! name)).
Proof.
  intros Hp Hr Hw. unfold sweep. destruct (_selected w) as [selected|x] eqn:Es.
  - pose proof (sweep_names_ends run_script pause self time Hp Hr (clock w) selected start_stopped dry_run _ st w Hw supervisable_NoDup) as H.
    destruct (sweep_names _ _ _ _ _ _ _ _ _ _) as [[[st' w'] acts] r]. exact H.
  - intros x' [= <-]. left. right; right; right. unfold _selected in Es. by destruct (launcher_state w); try discriminate; injection Es as <-.
Qed.

(** A host in which everything can be read and written. *)
Definition set_clock (t : float) (w : world) : world :=
  {| pidfiles := pidfiles w; procs := procs w; environ := environ w; prereqs := prereqs w;
     docker_ps := docker_ps w; nvg_health := nvg_health w; launcher_state := launcher_state w;
     pid_write := pid_write w; clock := t |}.

Definition idle_host (pids : list (string * string)) (ps : list process) (t : Z) : world :=
  {| pidfiles := list_to_map (map (fun kv => (fst kv, Some (snd kv))) pids); procs := ps;
     environ := Ok ∅; prereqs := Ok ∅; docker_ps := None; nvg_health := ""; launcher_state := NoFile;
     pid_write := fun _ => Written; clock := fl t |}.

(** ** A service that keeps failing *)
Section Starved.
Variables (run_script : string -> world -> world * exc bool) (pause : world -> world) (self : Z).
Variables (bad : world -> Prop) (name : string).

(** In the [bad] worlds [name] is crashed and its start fails; nothing the
    supervisor does for other services changes that. *)
Record stays_down : Prop := {
  down w : bad w -> orphan_pids self w name = [] /\ snd (run_script name w) = Ok false /\
    exists s, _service_status w name = Ok s /\ running s = false /\ status s = "crashed"%py;
  down_run n w : bad w -> bad (fst (run_script n w));
  down_pause w : bad w -> bad (pause w);
  down_adopt n text w : n <> name -> bad w -> bad (fst (set_pidfile n text w));
}.
Hypothesis Hdown : stays_down.

Lemma wait_bad fuel deadline n w : bad w -> bad (fst (wait_loop pause fuel deadline n w)).
Proof.
  revert w. induction fuel as [|fuel IH]; intros w Hw; cbn [wait_loop]; [done|].
  destruct (_service_status w n) as [s|]; [|done].
  destruct (running _); [done|]. destruct (fle _ _); [done|].
  apply IH. by apply (down_pause Hdown).
Qed.

Lemma restart_bad n e w e' w' r : bad w -> restart run_script pause n e w = (e', w', r) -> bad w'.
Proof.
  intros Hw. unfold restart. pose proof (down_run Hdown n w Hw) as H1.
  destruct (run_script n w) as [w1 ok]. cbn [fst] in H1.
  assert (bad (fst match ok with Ok true => _wait_running pause n w1 | _ => (w1, ok) end)) as H2
    by (destruct ok as [[]|]; [by apply wait_bad|done..]).
  destruct (match ok with Ok true => _ | _ => _ end) as [w2 [[]|x]]; cbn [fst] in H2; try (by intros [= _ <- _]).
  cbv zeta. by destruct (_backoff _); intros [= _ <- _].
Qed.

Lemma sweep_one_bad now selected ss dry n s e w e' w' acts r :
  n <> name -> bad w -> sweep_one run_script pause self now selected ss dry n s e w = (e', w', acts, r) -> bad w'.
Proof.
  intros Hn Hw. unfold sweep_one. destruct (running _); [by intros [= _ <- _ _]|].
  destruct (negb _); [by intros [= _ <- _ _]|]. destruct (flt _ _); [by intros [= _ <- _ _]|].
  destruct (orphan_pids _ _ _); destruct dry; try (by intros [= _ <- _ _]).
  - destruct (restart _ _ _ _ _) as [[e2 w2] r2] eqn:E. intros [= _ <- _ _]. by eapply restart_bad.
  - match goal with |- context [set_pidfile ?n ?x w] => pose proof (down_adopt Hdown n x w Hn Hw) as H; destruct (set_pidfile n x w) as [w2 r2] end.
    by intros [= _ <- _ _].
Qed.

(** The sweep stops at the failing service. *)
Lemma sweep_one_starved now selected ss s e w :
  bad w -> _service_status w name = Ok s -> 1024 <= failures e -> flt now (next_attempt e) = false ->
  exists w', sweep_one run_script pause self now selected ss false name s e w =
    ({| failures := failures e + 1; next_attempt := next_attempt e; started_at := started_at e |},
     w', [Restart name], Raise OverflowError) /\ bad w'.
Proof.
  intros Hw Es Hf Hdue. destruct (down Hdown w Hw) as (Ho & Hk & s' & Es' & Hr & Hs).
  assert (s' = s) as -> by congruence.
  unfold sweep_one, wanted. rewrite Hr, Hs, Ho, Hdue. cbn [String.eqb Ascii.eqb orb negb].
  unfold restart. pose proof (down_run Hdown name w Hw) as Hb.
  destruct (run_script name w) as [w1 ok]. cbn [fst snd] in Hk, Hb. subst ok. cbv zeta.
  rewrite backoff_large by lia. eauto.
Qed.

Lemma sweep_names_starved now selected ss pre post st w st' w' acts r :
  NoDup (pre ++ name :: post) -> bad w ->
  1024 <= failures (default new_entry (st !! name)) ->
  flt now (next_attempt (default new_entry (st !! name))) = false ->
  sweep_names run_script pause self now selected ss false (pre ++ name :: post) st w = (st', w', acts, r) ->
  r <> Ok tt /\ bad w' /\ Forall (fun a => ~ In (action_name a) post) acts /\
  (forall n, In n post -> st' !! n = st !! n) /\
  1024 <= failures (default new_entry (st' !! name)) /\
  next_attempt (default new_entry (st' !! name)) = next_attempt (default new_entry (st !! name)).
Proof.
  revert st w st' w' acts r. induction pre as [|n pre IH]; intros st w st' w' acts r Hnd Hw Hf Hdue; cbn [app sweep_names].
  - destruct (down Hdown w Hw) as (_ & _ & s & Es & _). rewrite Es.
    destruct (sweep_one_starved now selected ss s _ w Hw Es Hf Hdue) as (w2 & -> & Hw2). intros [= <- <- <- <-].
    apply NoDup_cons in Hnd as [Hnin _]. rewrite list_elem_of_In in Hnin. split_and!; [done|done|by repeat constructor| | |].
    + intros n Hn. apply lookup_insert_ne. by intros ->.
    + rewrite lookup_insert_eq. cbn. lia.
    + by rewrite lookup_insert_eq.
  - apply NoDup_cons in Hnd as [Hnin Hnd]. rewrite list_elem_of_In, in_app_iff in Hnin. cbn [In] in Hnin.
    assert (n <> name) as Hnn by (intros ->; tauto). destruct (_service_status w n) as [s|x] eqn:Es.
    2: { intros [= <- <- <- <-]. split_and!; [done|done|constructor|done..]. }
    destruct (sweep_one _ _ _ _ _ _ _ _ _ _ _) as [[[e w1] acts1] r1] eqn:E1.
    assert (bad w1) as Hw1 by (by eapply sweep_one_bad; [exact Hnn|exact Hw|exact E1]).
    destruct (sweep_one_actions _ _ _ _ _ _ _ _ _ _ _ _ _ _ _ Es E1) as (_ & _ & Ha & _).
    assert (Forall (fun a => ~ In (action_name a) post) acts1) as Hacts1.
    { eapply Forall_impl; [exact Ha|]. intros a ->. tauto. }
    assert (forall m, n <> m -> <[n := e]> st !! m = st !! m) as Hne by (intros m Hm; by apply lookup_insert_ne).
    destruct r1 as [[]|x].
    + destruct (sweep_names _ _ _ _ _ _ _ _ _ _) as [[[st2 w2] acts2] r2] eqn:E2.
      eapply IH in E2 as (H1 & H2 & H3 & H4 & H5 & H6); [|done|done|by rewrite Hne..].
      intros [= <- <- <- <-]. rewrite Hne in H6 by done. split_and!; [done|done|by apply Forall_app|..]; [|done|done].
      intros m Hm. rewrite (H4 m Hm). apply Hne. intros ->. tauto.
    + intros [= <- <- <- <-]. rewrite !Hne by done. split_and!; [done..| |done|done].
      intros m Hm. apply Hne. intros ->. tauto.
Qed.
End Starved.

(** A service that has failed to start 1024 times in a row, and keeps
    failing, starves the services after it: every sweep that finds it due is
    cut short by an exception before it reaches them, and leaves it due. *)
Lemma failing_service_starves_others run_script pause self bad pre name post start_stopped st w :
  supervisable = pre ++ name :: post -> stays_down run_script pause self bad name -> bad w ->
  1024 <= failures (default new_entry (st !! name)) ->
  flt (clock w) (next_attempt (default new_entry (st !! name))) = false ->
  let '(st', w', acts, r) := sweep run_script pause self start_stopped false st w in
  r <> Ok tt /\ bad w' /\ Forall (fun a => ~ In (action_name a) post) acts /\
  (forall n, In n post -> st' !! n = st !! n) /\
  1024 <= failures (default new_entry (st' !! name)) /\
  next_attempt (default new_entry (st' !! name)) = next_attempt (default new_entry (st !! name)).
Proof.
  intros Hs Hd Hw Hf Hdue. unfold sweep. destruct (_selected w) as [selected|]; [|by split_and!].
  rewrite Hs. destruct (sweep_names _ _ _ _ _ _ _ _ _ _) as [[[st' w'] acts] r] eqn:E.
  eapply sweep_names_starved; [exact Hd| |exact Hw|exact Hf|exact Hdue|exact E].
  rewrite <- Hs. apply supervisable_NoDup.
Qed.

(** A host where [cap] leaves its pid file behind and never starts, while
    [tak_layer] has crashed too. *)
Definition cap_down (w : world) : Prop :=
  pidfiles w !! "cap"%py = Some (Some "77"%py) /\ procs w = [] /\ environ w = Ok ∅ /\ prereqs w = Ok ∅.

Lemma cap_stays_down : stays_down (fun _ w => (w, Ok false)) (fun w => w) 1 cap_down "cap".
Proof.
  split; [|done|done|].
  - intros w (Hp & Hprocs & He & Hq). split_and!; [|done|].
    { unfold orphan_pids. rewrite Hp, Hprocs. destruct (negb _); reflexivity. }
    exists {| running := false; status := "crashed"; pid := Some 77 |}. split_and!; [|done|done].
    unfold _service_status, _pid_record. change (_BUNDLE_CHILD_PIDFILES "cap") with false.
    rewrite Hp, He. unfold _blocked_reason. rewrite Hq. unfold proc_exists, alive. rewrite Hprocs. reflexivity.
  - intros n text w Hn (Hp & Hprocs & He & Hq). unfold set_pidfile.
    destruct (pid_write w n); (split_and!; [|done..]); cbn [fst pidfiles]; by rewrite ?lookup_insert_ne.
Qed.

Lemma failing_service_starves_others_witness :
  let st := <["cap" := {| failures := 1024; next_attempt := fl 0; started_at := fl 0 |}]> (∅ : state) in
  let w := idle_host [("cap", "77"); ("tak_layer", "78")]%py [] 1000 in
  let '(st', w', acts, r) := sweep (fun _ w => (w, Ok false)) (fun w => w) 1 false false st w in
  option_map status (match _service_status w "tak_layer" with Ok s => Some s | _ => None end) = Some "crashed"%py /\
  r <> Ok tt /\ Forall (fun a => action_name a <> "tak_layer"%py) acts.
Proof.
  cbv zeta.
  pose proof (failing_service_starves_others (fun _ w => (w, Ok false)) (fun w => w) 1 cap_down
    (firstn 7 supervisable) "cap" (skipn 8 supervisable) false
    (<["cap" := {| failures := 1024; next_attempt := fl 0; started_at := fl 0 |}]> (∅ : state))
    (idle_host [("cap", "77"); ("tak_layer", "78")]%py [] 1000)) as H.
  destruct (sweep _ _ _ _ _ _ _) as [[[st' w'] acts] r].
  destruct H as (H1 & _ & H2 & _); [vm_compute; reflexivity|apply cap_stays_down|by split_and!|
    vm_compute; congruence|vm_compute; reflexivity|].
  split_and!; [vm_compute; reflexivity|done|].
  eapply Forall_impl; [exact H2|]. intros a Ha Hn. apply Ha. rewrite Hn. rewrite <- list_elem_of_In.
  apply (bool_decide_unpack _). vm_compute. exact I.
Defined.

(** ** Adopting another service's process *)

(** The octets of /proc/<pid>/cmdline. *)
Definition argv (args : list string) : string :=
  String.concat "" (map (fun a => a +:+ String nul "") args).

(** The STANAG 4586 decoder has crashed; the 4609 decoder, which start.sh runs
    from the same script, is up as process 200. *)
Definition two_decoders : world :=
  idle_host [("stanag4586", "100"); ("stanag4609", "200")]%py
    [{| p_pid := 200;
        p_cmdline := Some (argv ["/opt/efdi/compose/venv/bin/python3";
          "/opt/efdi/compose/protocols/vendors/stanag/stanag.py"; "--proto"; "4609"; "--zenoh-raw"]) |}]
    1000.

(** services that share a script are taken for each other's strays: a
    sweep finds the crashed STANAG 4586 decoder, adopts the process of the
    4609 decoder for it instead of starting it, and reports it running from
    then on; no later sweep acts, whatever the start script would do. *)
Theorem sibling_process_adopted run_script pause :
  _service_status two_decoders "stanag4586" = Ok {| running := false; status := "crashed"; pid := Some 100 |} /\
  let res := sweep run_script pause 1 false false ∅ two_decoders in
  let '(st, w) := fst (fst res) in
  snd (fst res) = [Adopt "stanag4586" 200] /\ snd res = Ok tt /\
  _service_status w "stanag4586" = Ok {| running := true; status := "running"; pid := Some 200 |} /\
  snd (fst (sweep run_script pause 1 false false st w)) = [].
Proof. vm_compute. split_and!; reflexivity. Qed.

(** A pid file that holds no number marks a service as stopped, not crashed. *)
Lemma corrupt_pidfile_is_stopped w name text s :
  _BUNDLE_CHILD_PIDFILES name = false -> String.eqb name "zenoh" = false ->
  pidfiles w !! name = Some (Some text) -> parse_int (strip text) = None ->
  _service_status w name = Ok s -> status s <> "crashed"%py.
Proof.
  intros Hb Hz Hp Ht. unfold _service_status. rewrite Hb. unfold _pid_record. rewrite Hp, Ht, Hz.
  destruct (environ w) as [values|]; [|done]. cbn [exc_bind]. destruct (negb _); [by intros [= <-]|].
  destruct (_blocked_reason w name) as [reason|]; [|done]. cbn [exc_bind].
  by destruct (String.eqb reason ""); cbn [exc_bind negb]; intros [= <-].
Qed.

(** [cap] has crashed, beside a stray of its own script; [tak_layer] has crashed
    too; the router is none of the supervisor's business. *)
Definition sample_host : world :=
  idle_host [("cap", "77"); ("tak_layer", "78"); ("zenoh", "9")]%py
    [{| p_pid := 5; p_cmdline := Some (argv ["/usr/bin/python3"; "compose/protocols/vendors/random/cap.py"]) |}] 1000.

Lemma sweep_acts_only_when_called_for_witness :
  exists st w r, sweep (fun _ w => (w, Ok false)) (fun w => w) 1 false false ∅ sample_host =
    (st, w, [Adopt "cap" 5; Restart "tak_layer"], r) /\
  Forall (fun a => supervised (action_name a) = true) [Adopt "cap" 5; Restart "tak_layer"] /\
  called_for 1 (fl 1000) [] false sample_host new_entry "cap" (Adopt "cap" 5).
Proof.
  destruct (sweep (fun _ w => (w, Ok false)) (fun w => w) 1 false false ∅ sample_host) as [[[st w] acts] r] eqn:E.
  assert (acts = [Adopt "cap" 5; Restart "tak_layer"]) as ->.
  { change acts with (snd (fst (st, w, acts, r))). rewrite <- E. vm_compute. reflexivity. }
  exists st, w, r. split; [reflexivity|].
  destruct (sweep_acts_only_when_called_for _ _ _ _ _ _ _ _ _ _ _ E) as (_ & Hk & H). split; [exact Hk|].
  change (_selected sample_host) with (@Ok (list string) []) in H. cbv beta iota in H.
  specialize (H (firstn 7 supervisable) "cap"%py (skipn 8 supervisable) ltac:(vm_compute; reflexivity)). cbv zeta beta in H.
  assert (sweep_names (fun _ w => (w, Ok false)) (fun w => w) 1 (clock sample_host) [] false false (firstn 7 supervisable) ∅ sample_host =
    (fold_left (fun st n => <[n := new_entry]> st) (firstn 7 supervisable) ∅, sample_host, [], Ok tt)) as E1 by (vm_compute; reflexivity).
  rewrite E1 in H. destruct H as (own & rest & Ha & _ & Hr & Hown & _). cbn [app] in Ha.
  apply Hown. destruct own as [|a own]; cbn [app] in Ha; [|injection Ha as <- _; by left].
  subst rest. apply Forall_cons_1 in Hr as [Hr _]. exfalso. revert Hr. rewrite <- list_elem_of_In.
  apply (bool_decide_unpack _). vm_compute. exact I.
Defined.

Lemma died_young_restarts_at_once_witness :
  let run := fun (_ : string) (w : world) => (fst (set_pidfile "cap" "78" w), Ok true) in
  let w := idle_host [("cap", "77")]%py [] 1000 in
  exists st, reachable run (set_clock (fl 2000)) 1 st /\
    exists e, st !! "cap"%py = Some e /\ (failures e = 0 \/ started_at e = fl 0).
Proof.
  cbv zeta. set (run := fun _ _ => _).
  destruct (sweep run (set_clock (fl 2000)) 1 false false ∅ (idle_host [("cap", "77")]%py [] 1000))
    as [[[st w] acts] r] eqn:E.
  exists st. assert (reachable run (set_clock (fl 2000)) 1 st) as Hr
    by (eapply reach_sweep; [apply reach_init|exact E]).
  split; [done|].
  assert (is_Some (st !! "cap"%py)) as [e He].
  { change st with (fst (fst (fst (st, w, acts, r)))). rewrite <- E. eexists. vm_compute. reflexivity. }
  exists e. split; [done|]. by destruct (died_young_restarts_at_once _ _ _ _ _ _ Hr He).
Defined.
