(* ===== verification/Dedup.v ===== *)
(** * Filters against copies

    compose/protocols/vendors/random/fusion.py: [GhostFilter] (copies of an
    aircraft under a corrupted address), [TwinFilter] (a second record without
    an address) and [MarkerMemory] (the last declared identity of a marker).
    Each keeps tables keyed by text, with the time an entry was last seen; the
    time is an argument, as in the source. *)

From Stdlib Require Import SpecFloat Sorted.
From S2P Require Import Prelude PyFloat PyData Schema TrackViews PyText PyNum.
From stdpp Require Import gmap strings.
#[local] Open Scope Z_scope.
#[local] Open Scope py_scope.

(** [now - t <= window] *)
Definition within (window now t : float) : bool := fle (fsub now t) window.

(** [(v or "").strip().upper()]: AttributeError unless [v] is a string or
    falsy. *)
Definition name_text (v : value) : exc string :=
  if negb (truthy v) then Ok "" else
  match v with VStr s => Ok (upper (strip s)) | _ => Raise AttributeError end.

(** ** [GhostFilter] *)
Definition MAX_BITS : Z := 2.
Definition WINDOW_S : float := fl 600.

Definition hex_digit (c : ascii) : option Z :=
  let n := Z.of_N (N_of_ascii c) in
  if (48 <=? n) && (n <=? 57) then Some (n - 48)
  else if (65 <=? n) && (n <=? 70) then Some (n - 55)
  else if (97 <=? n) && (n <=? 102) then Some (n - 87)
  else None.

Fixpoint hex_digits (s : string) (acc : Z) (after_digit : bool) : option Z :=
  match s with
  | EmptyString => if after_digit then Some acc else None
  | String c s' =>
      match hex_digit c with
      | Some d => hex_digits s' (16 * acc + d) true
      | None => if Ascii.eqb c "_"%char && after_digit then hex_digits s' acc false else None
      end
  end.

Definition hex_body (s : string) : option Z :=
  match s with
  | String "0" (String x s') =>
      if Ascii.eqb (lower_char x) "x"%char
      then match s' with String "_" s'' => hex_digits s'' 0 false | _ => hex_digits s' 0 false end
      else hex_digits s 0 false
  | _ => hex_digits s 0 false
  end.

(** [int(v, 16)] *)
Definition int16_of (v : value) : exc Z :=
  match v with
  | VStr s =>
      let o := match strip s with
               | String "-" s' => option_map Z.opp (hex_body s')
               | String "+" s' => hex_body s'
               | s' => hex_body s'
               end in
      match o with Some n => Ok n | None => Raise ValueError end
  | _ => Raise TypeError
  end.

Fixpoint ones (p : positive) : Z :=
  match p with xH => 1 | xO p' => ones p' | xI p' => 1 + ones p' end.

(** [bin(n).count("1")] *)
Definition bit_count (n : Z) : Z := match n with 0 => 0 | Zpos p | Zneg p => ones p end.

(** Two addresses a bit flip could have made of one. *)
Definition near (a b : Z) : bool := bit_count (Z.lxor a b) <=? MAX_BITS.

Abbreviation sightings := (gmap Z float).
Abbreviation ghosts := (gmap string sightings).

Definition addresses (known : sightings) : list Z := map fst (map_to_list known).

Definition knows (address : Z) (known : sightings) : bool := bool_decide (is_Some (known !! address)).

(** The keys of a record. *)
Definition ghost_keys (callsign registration : string) : list string :=
  (if String.eqb callsign "" then [] else ["C:" +:+ callsign]) ++
  (if String.eqb registration "" then [] else ["R:" +:+ registration]).

Section Ghost.
Variable window : float.

(** The unexpired sightings of a key. *)
Definition fresh (now : float) (st : ghosts) (key : string) : sightings :=
  filter (fun kv => within window now (snd kv) = true) (default ∅ (st !! key)).

Definition is_copy (address : Z) (known : sightings) : bool :=
  negb (knows address known) && existsb (near address) (addresses known).

(** [self._seen[key] = known] for each key of the record, in order. *)
Fixpoint register (keys : list string) (now : float) (address : Z) (ghost : bool) (old st : ghosts) : ghosts :=
  match keys with
  | [] => st
  | key :: keys' =>
      let known := fresh now old key in
      let known := if knows address known || negb ghost then <[address := now]> known else known in
      register keys' now address ghost old (<[key := known]> st)
  end.

Definition is_ghost (st : ghosts) (icao24 callsign : value) (now : float) (registration : value) :
    exc (ghosts * bool) :=
  let? c := name_text callsign in
  let? r := name_text registration in
  let keys := ghost_keys c r in
  if (len keys =? 0) || negb (truthy icao24) then Ok (st, false) else
  let? address := int16_of icao24 in
  let ghost := existsb (fun key => is_copy address (fresh now st key)) keys in
  let st := register keys now address ghost st st in
  Ok (if 20000 <? Z.of_nat (size st) then filter (fun kv => snd kv <> ∅) st else st, ghost).

(** *** Addresses of one key keep their distance *)
Definition spaced (known : sightings) : Prop :=
  forall a b, is_Some (known !! a) -> is_Some (known !! b) -> a <> b -> near a b = false.

Definition ghosts_ok (st : ghosts) : Prop := forall key known, st !! key = Some known -> spaced known.

Lemma near_sym a b : near a b = near b a.
Proof. unfold near. by rewrite Z.lxor_comm. Qed.

Lemma knows_true a known : knows a known = true <-> is_Some (known !! a).
Proof. unfold knows. apply bool_decide_eq_true. Qed.

Lemma addresses_spec a known : In a (addresses known) <-> is_Some (known !! a).
Proof.
  unfold addresses. rewrite in_map_iff. split.
  - intros ([a' t] & <- & H). apply list_elem_of_In, elem_of_map_to_list in H. eauto.
  - intros [t H]. exists (a, t). split; [done|]. by apply list_elem_of_In, elem_of_map_to_list.
Qed.

Lemma is_copy_false address known :
  is_copy address known = false <->
  is_Some (known !! address) \/ forall b, is_Some (known !! b) -> near address b = false.
Proof.
  unfold is_copy. rewrite andb_false_iff, negb_false_iff, knows_true.
  split; (intros [H|H]; [by left|right]).
  - intros b Hb. apply addresses_spec in Hb. apply not_true_iff_false. intros Hn.
    apply not_true_iff_false in H. apply H, existsb_exists. eauto.
  - apply not_true_iff_false. intros (b & Hb & Hn)%existsb_exists.
    apply addresses_spec, H in Hb. congruence.
Qed.

Lemma spaced_fresh now st key : ghosts_ok st -> spaced (fresh now st key).
Proof.
  intros Hst a b [t Ha] [u Hb] Hne. unfold fresh in *.
  apply map_lookup_filter_Some in Ha as [Ha _]. apply map_lookup_filter_Some in Hb as [Hb _].
  destruct (st !! key) as [known|] eqn:E; cbn [default] in *; [|by apply lookup_empty_Some in Ha].
  apply (Hst key known); eauto.
Qed.

Lemma spaced_insert address now known :
  spaced known -> is_copy address known = false -> spaced (<[address := now]> known).
Proof.
  intros Hs Hc%is_copy_false a b [t Ha] [u Hb] Hne.
  apply lookup_insert_Some in Ha as [[<- _]|[Hna Ha]]; apply lookup_insert_Some in Hb as [[<- _]|[Hnb Hb]].
  - done.
  - destruct Hc as [Hc|Hc]; [apply Hs|apply Hc]; eauto.
  - rewrite near_sym. destruct Hc as [Hc|Hc]; [apply Hs|apply Hc]; eauto.
  - apply Hs; eauto.
Qed.

Lemma register_ok keys now address ghost old st :
  ghosts_ok old -> ghosts_ok st ->
  (ghost = false -> forall key, key ∈ keys -> is_copy address (fresh now old key) = false) ->
  ghosts_ok (register keys now address ghost old st).
Proof.
  intros Hold. revert st. induction keys as [|key keys IH]; intros st Hst Hg; cbn [register]; [done|].
  apply IH; [|intros Hf k Hk; apply Hg; [done|by apply elem_of_cons; right]].
  intros k known [[<- <-]|[_ H]]%lookup_insert_Some; [|by eapply Hst].
  pose proof (spaced_fresh now old key Hold) as Hs.
  destruct (knows address (fresh now old key)) eqn:Hk; cbn [orb].
  - apply spaced_insert; [done|]. apply is_copy_false. left. by apply knows_true.
  - destruct ghost; cbn [negb]; [done|]. apply spaced_insert; [done|]. apply Hg; [done|]. apply elem_of_cons. by left.
Qed.

Lemma is_ghost_ok st icao24 callsign now registration st' b :
  ghosts_ok st -> is_ghost st icao24 callsign now registration = Ok (st', b) -> ghosts_ok st'.
Proof.
  intros Hst. unfold is_ghost. destruct (name_text callsign) as [c|]; [|done]. cbn [exc_bind].
  destruct (name_text registration) as [r|]; [|done]. cbn [exc_bind]. cbv zeta.
  destruct (_ || _); [by intros [= <- _]|]. destruct (int16_of icao24) as [address|]; [|done]. cbn [exc_bind].
  set (ghost := existsb _ _). set (keys := ghost_keys c r).
  assert (ghosts_ok (register keys now address ghost st st)) as H.
  { apply register_ok; [done..|]. intros Hg key Hk. subst ghost. apply not_true_iff_false. intros Hc.
    apply not_true_iff_false in Hg. apply Hg, existsb_exists. exists key. split; [by apply list_elem_of_In|done]. }
  intros [= <- _]. destruct (_ <? _); [|done].
  intros key known [Hk _]%map_lookup_filter_Some. by eapply H.
Qed.
End Ghost.

(** *** What a stream of records leaves *)
Record sighting := { s_icao24 : value; s_callsign : value; s_now : float; s_registration : value }.

(** A record that makes [is_ghost] raise leaves no trace. *)
Definition see (window : float) (st : ghosts) (e : sighting) : ghosts :=
  match is_ghost window st (s_icao24 e) (s_callsign e) (s_now e) (s_registration e) with
  | Ok (st', _) => st'
  | Raise _ => st
  end.

Definition see_all (window : float) (events : list sighting) : ghosts := fold_left (see window) events ∅.

Lemma see_all_ok window events : ghosts_ok (see_all window events).
Proof.
  unfold see_all. assert (ghosts_ok ∅) as H by (intros ? ? ?%lookup_empty_Some; done).
  revert H. generalize (∅ : ghosts). induction events as [|e events IH]; intros st Hst; cbn [fold_left]; [done|].
  apply IH. unfold see. destruct (is_ghost _ _ _ _ _ _) as [[st' b]|] eqn:E; [|done]. by eapply is_ghost_ok.
Qed.

Lemma register_lookup window keys now address ghost old st key :
  register window keys now address ghost old st !! key =
  if bool_decide (key ∈ keys)
  then let known := fresh window now old key in
       Some (if knows address known || negb ghost then <[address := now]> known else known)
  else st !! key.
Proof.
  revert st. induction keys as [|k keys IH]; intros st; cbn [register]; [done|].
  rewrite IH. destruct (bool_decide_reflect (key ∈ keys)) as [Hin|Hin].
  - by rewrite bool_decide_eq_true_2 by (apply elem_of_cons; by right).
  - destruct (decide (k = key)) as [->|Hne].
    + rewrite lookup_insert_eq. by rewrite bool_decide_eq_true_2 by (apply elem_of_cons; by left).
    + rewrite lookup_insert_ne by done. by rewrite bool_decide_eq_false_2 by (rewrite elem_of_cons; intuition congruence).
Qed.

(** C14: the address seen first wins.  After any stream of records, while an
    address [a] is live under a callsign or a registration, a record with the
    same name under another address within two bits of [a] is a ghost, and
    leaves [a] as it was; a record of an address live under all its names is
    never a ghost; and no two addresses ever kept under one name are within
    two bits of each other. *)
Theorem first_address_wins window events icao24 callsign now registration c r b :
  let st := see_all window events in
  name_text callsign = Ok c -> name_text registration = Ok r ->
  truthy icao24 = true -> int16_of icao24 = Ok b ->
  (forall key a, key ∈ ghost_keys c r -> is_Some (fresh window now st key !! a) -> a <> b -> near a b = true ->
   exists st', is_ghost window st icao24 callsign now registration = Ok (st', true) /\
     exists known, st' !! key = Some known /\ known !! a = fresh window now st key !! a /\ known !! b = None) /\
  (ghost_keys c r <> [] -> (forall key, key ∈ ghost_keys c r -> is_Some (fresh window now st key !! b)) ->
   exists st', is_ghost window st icao24 callsign now registration = Ok (st', false)) /\
  (forall key known, st !! key = Some known -> spaced known).
Proof.
  cbv zeta. set (st := see_all window events). intros Hc Hr Ht Hb.
  pose proof (see_all_ok window events) as Hok. fold st in Hok.
  unfold is_ghost. rewrite Hc, Hr, Ht, Hb. cbn [exc_bind]. cbv zeta. rewrite orb_false_r.
  split_and!; [| |exact Hok].
  - intros key a Hkey Ha Hne Hnear.
    assert ((len (ghost_keys c r) =? 0) = false) as Hlen.
    { destruct (ghost_keys c r); [by apply not_elem_of_nil in Hkey|]. rewrite len_cons.
      pose proof (len_nonneg l). lia. }
    assert (fresh window now st key !! b = None) as Hnb.
    { apply eq_None_not_Some. intros Hs. pose proof (spaced_fresh window now st key Hok a b Ha Hs Hne). congruence. }
    assert (knows b (fresh window now st key) = false) as Hkn.
    { apply not_true_iff_false. rewrite knows_true, Hnb. by intros [? ?]. }
    assert (existsb (fun k => is_copy b (fresh window now st k)) (ghost_keys c r) = true) as ->.
    { apply existsb_exists. exists key. split; [by apply list_elem_of_In|].
      unfold is_copy. rewrite Hkn. cbn [negb andb]. apply existsb_exists. exists a.
      rewrite near_sym. split; [by apply addresses_spec|done]. }
    rewrite Hlen. eexists. split; [done|]. exists (fresh window now st key).
    assert (register window (ghost_keys c r) now b true st st !! key = Some (fresh window now st key)) as Hreg.
    { rewrite register_lookup, bool_decide_eq_true_2 by done. cbv zeta. by rewrite Hkn. }
    split_and!; [|done|done]. destruct (_ <? _); [|done].
    apply map_lookup_filter_Some. split; [done|]. cbn. intros He. rewrite He in Ha.
    destruct Ha as [? ?%lookup_empty_Some]. done.
  - intros Hk Hlive. destruct (len (ghost_keys c r) =? 0) eqn:Hlen.
    { destruct (ghost_keys c r); [done|]. rewrite len_cons in Hlen. pose proof (len_nonneg l). lia. }
    replace (existsb _ _) with false; [by eexists|]. symmetry. apply not_true_iff_false.
    intros (k & Hin & Hcopy)%existsb_exists. apply list_elem_of_In, Hlive, knows_true in Hin.
    unfold is_copy in Hcopy. by rewrite Hin in Hcopy.
Qed.

(** *** The table only grows *)

(** A record with an address and a callsign of its own, at any time. *)
Definition loner (e : sighting) (c : string) : Prop :=
  s_registration e = VNone /\ name_text (s_callsign e) = Ok c /\ c <> "" /\
  truthy (s_icao24 e) = true /\ exists b, int16_of (s_icao24 e) = Ok b.

Definition no_empty (st : ghosts) : Prop := forall key known, st !! key = Some known -> known <> ∅.

Lemma see_loner window st e c :
  loner e c -> st !! ("C:" +:+ c) = None -> no_empty st ->
  exists known, known <> ∅ /\ see window st e = <["C:" +:+ c := known]> st /\ no_empty (see window st e).
Proof.
  intros (Hr & Hc & Hne & Ht & b & Hb) Hnew Hst. unfold see, is_ghost. rewrite Hr, Hc, Ht, Hb.
  cbn [exc_bind name_text truthy negb]. cbv zeta. rewrite orb_false_r.
  assert (ghost_keys c "" = ["C:" +:+ c]) as ->
    by (apply String.eqb_neq in Hne; unfold ghost_keys; by rewrite Hne).
  set (key := "C:" +:+ c) in *. change (len [key] =? 0) with false. cbn [existsb register].
  assert (fresh window (s_now e) st key = ∅) as Hf.
  { unfold fresh. rewrite Hnew. cbn [default]. apply map_filter_empty. }
  rewrite Hf. change (is_copy b ∅) with (negb (knows b ∅) && false). rewrite andb_false_r.
  cbn [orb negb]. rewrite orb_true_r. exists (<[b := s_now e]> ∅).
  assert (no_empty (<[key := <[b := s_now e]> (∅ : sightings)]> st)) as Hall.
  { intros k known [[_ <-]|[_ H]]%lookup_insert_Some; [apply insert_non_empty|by eapply Hst]. }
  split; [apply insert_non_empty|]. destruct (_ <? _); [|by split].
  rewrite map_filter_id by (intros k known Hk; exact (Hall k known Hk)). by split.
Qed.

(** The table of names is not bounded.  One more record with a name of its
    own is one more entry, for good: however far apart in time they come, [n]
    such records leave [n] entries, although all but the newest may have
    expired. *)
Lemma ghost_table_unbounded window events names :
  Forall2 loner events names -> NoDup names ->
  Z.of_nat (size (see_all window events)) = len events.
Proof.
  assert (forall st, Forall2 loner events names -> NoDup names -> no_empty st ->
    (forall c, c ∈ names -> st !! ("C:" +:+ c) = None) ->
    Z.of_nat (size (fold_left (see window) events st)) = Z.of_nat (size st) + len events) as H.
  { intros st Hf. revert st. induction Hf as [|e c events names Hl _ IH]; intros st Hnd Hst Hnew; cbn [fold_left].
    - rewrite Z.add_comm. done.
    - apply NoDup_cons in Hnd as [Hnin Hnd].
      assert (st !! ("C:" +:+ c) = None) as Hc by (apply Hnew, elem_of_cons; by left).
      destruct (see_loner window st e c Hl Hc Hst) as (known & _ & E & Hst').
      rewrite (IH (see window st e) Hnd Hst').
      + rewrite E, map_size_insert_None by done. rewrite len_cons. lia.
      + intros c' Hc'. rewrite E, lookup_insert_ne; [apply Hnew, elem_of_cons; by right|].
        intros Heq. change (String "C" (String ":" c) = String "C" (String ":" c')) in Heq.
        by injection Heq as ->. }
  intros Hf Hnd. unfold see_all. rewrite (H ∅ Hf Hnd); [done| |].
  - by intros ? ? ?%lookup_empty_Some.
  - intros c _. apply lookup_empty.
Qed.

(** ** [MarkerMemory] *)
Definition HOLD_S : float := fl 300.

(** Whether a CoT type or a 2525B SIDC declares an affiliation; [None] if it is
    neither. *)
Definition _declared (code : string) : option bool :=
  match code with
  | String "a" (String "-" (String c _)) => Some (negb (existsb (Ascii.eqb c) ["u"%char; "p"%char]))
  | String "S" (String c _) => Some (negb (existsb (Ascii.eqb c) ["U"%char; "P"%char]))
  | _ => None
  end.

Abbreviation memory := (gmap string (float * string)).

Section Marker.
Variable hold : float.

Definition settle_marker (st : memory) (uid code : string) (now : float) : memory * string :=
  match _declared code with
  | None => (st, code)
  | Some true => (<[uid := (now, code)]> st, code)
  | Some false =>
      let forget := if 20000 <? Z.of_nat (size st)
                    then filter (fun kv => within hold now (fst (snd kv)) = true) st else st in
      match st !! uid with
      | Some (seen, kept) => if within hold now seen then (st, kept) else (forget, code)
      | None => (forget, code)
      end
  end.

Record marker := { m_uid : string; m_code : string; m_now : float }.

(** What is drawn for each message of a history. *)
Fixpoint settle_all (st : memory) (events : list marker) : list string :=
  match events with
  | [] => []
  | e :: events' =>
      let '(st', drawn) := settle_marker st (m_uid e) (m_code e) (m_now e) in
      drawn :: settle_all st' events'
  end.

(** The specification: an undeclared code is drawn as the last declared one of
    the same marker, when that is recent enough; [past] is the history so far,
    newest first. *)
Fixpoint last_declared (past : list marker) (uid : string) : option (float * string) :=
  match past with
  | [] => None
  | e :: past' =>
      if String.eqb (m_uid e) uid && bool_decide (_declared (m_code e) = Some true)
      then Some (m_now e, m_code e) else last_declared past' uid
  end.

Definition drawn (past : list marker) (e : marker) : string :=
  match _declared (m_code e), last_declared past (m_uid e) with
  | Some false, Some (seen, kept) => if within hold (m_now e) seen then kept else m_code e
  | _, _ => m_code e
  end.

Fixpoint drawn_all (past events : list marker) : list string :=
  match events with [] => [] | e :: events' => drawn past e :: drawn_all (e :: past) events' end.

(** Of two messages the second is the later one: what the hold time has run out
    for at the first, it has at the second. *)
Definition later (events : list marker) (a b : marker) : Prop :=
  forall e, In e events -> within hold (m_now a) (m_now e) = false -> within hold (m_now b) (m_now e) = false.

Lemma later_trans events a b c : later events a b -> later events b c -> later events a c.
Proof. unfold later. auto. Qed.

Definition too_old (seen : float) (e : marker) : Prop := within hold (m_now e) seen = false.

(** The memory holds what was declared last, or has forgotten it because it is
    too old for every message to come. *)
Definition remembers (st : memory) (past rest : list marker) (uid : string) : Prop :=
  st !! uid = last_declared past uid \/
  st !! uid = None /\ exists seen kept, last_declared past uid = Some (seen, kept) /\ Forall (too_old seen) rest.

Lemma last_declared_in past uid seen kept : last_declared past uid = Some (seen, kept) -> exists e, In e past /\ m_now e = seen.
Proof.
  induction past as [|e past IH]; cbn [last_declared]; [done|]. destruct (_ && _).
  - intros [= <- _]. exists e. split; [by left|done].
  - intros H. destruct (IH H) as (x & Hx & E). exists x. split; [by right|done].
Qed.

(** Unless a message declares its marker, what was declared last stays so. *)
Lemma last_declared_skip past e : _declared (m_code e) <> Some true -> forall uid, last_declared (e :: past) uid = last_declared past uid.
Proof. intros H uid. cbn [last_declared]. by rewrite bool_decide_eq_false_2, andb_false_r. Qed.

Lemma remembers_next st past e rest uid : _declared (m_code e) <> Some true ->
  remembers st past (e :: rest) uid -> remembers st (e :: past) rest uid.
Proof.
  intros Hd [H|(H & seen & kept & Hl & Ho)]; unfold remembers; rewrite last_declared_skip by done; [by left|right].
  apply Forall_cons_1 in Ho as [_ Ho]. eauto 6.
Qed.

(** Forgetting drops only what is too old from now on. *)
Lemma remembers_forget events st past e rest uid :
  (forall x, In x past -> In x events) -> Forall (later events e) rest -> _declared (m_code e) <> Some true ->
  remembers st past (e :: rest) uid ->
  remembers (filter (fun kv => within hold (m_now e) (fst (snd kv)) = true) st) (e :: past) rest uid.
Proof.
  intros Hin Hl Hd [H|(H & Hrest)].
  - unfold remembers. rewrite last_declared_skip by done. rewrite <- H.
    destruct (st !! uid) as [[seen kept]|] eqn:E.
    + destruct (within hold (m_now e) seen) eqn:Hw.
      * left. by apply map_lookup_filter_Some.
      * right. split; [apply map_lookup_filter_None; right; intros x Hx; rewrite E in Hx; injection Hx as <-; cbn [fst snd]; by rewrite Hw|].
        exists seen, kept. split; [done|]. symmetry in H. apply last_declared_in in H as (x & Hx & <-).
        eapply Forall_impl; [exact Hl|]. intros y Hy. by apply Hy; [apply Hin|].
    + left. apply map_lookup_filter_None. by left.
  - destruct (remembers_next st past e rest uid Hd (or_intror (conj H Hrest))) as [H'|(_ & Hrest')].
    + left. rewrite <- H', H. apply map_lookup_filter_None. by left.
    + right. split; [|exact Hrest']. apply map_lookup_filter_None. by left.
Qed.

Lemma settle_step events st past e rest :
  (forall x, In x past -> In x events) -> Forall (later events e) rest ->
  (forall uid, remembers st past (e :: rest) uid) ->
  let '(st', code) := settle_marker st (m_uid e) (m_code e) (m_now e) in
  code = drawn past e /\ forall uid, remembers st' (e :: past) rest uid.
Proof.
  intros Hin Hl Hst. unfold settle_marker, drawn.
  destruct (_declared (m_code e)) as [[]|] eqn:Hd.
  - split; [done|]. intros uid. destruct (decide (m_uid e = uid)) as [<-|Hne].
    + left. cbn [last_declared]. by rewrite lookup_insert_eq, String.eqb_refl, bool_decide_eq_true_2.
    + unfold remembers. cbn [last_declared]. rewrite lookup_insert_ne by done.
      apply String.eqb_neq in Hne. rewrite Hne. cbn [andb].
      destruct (Hst uid) as [H|(H & seen & kept & H1 & Ho)]; [by left|right].
      apply Forall_cons_1 in Ho as [_ Ho]. eauto 6.
  - assert (forall uid, remembers st (e :: past) rest uid) as Hsame by (intros uid; by apply remembers_next; [rewrite Hd|]).
    set (forget := if 20000 <? _ then _ else st).
    assert (forall uid, remembers forget (e :: past) rest uid) as Hforget.
    { intros uid. subst forget. destruct (_ <? _); [|done]. by eapply remembers_forget; [..|rewrite Hd|]. }
    clearbody forget. destruct (Hst (m_uid e)) as [H|(H & seen & kept & H1 & Ho)]; rewrite H.
    + destruct (last_declared past (m_uid e)) as [[seen kept]|]; [by destruct (within _ _ _)|done].
    + rewrite H1. apply Forall_cons_1 in Ho as [Ho _]. unfold too_old in Ho. by rewrite Ho.
  - split; [done|]. intros uid. by apply remembers_next; [rewrite Hd|].
Qed.

Lemma settle_all_drawn events rest past st :
  (forall x, In x (past ++ rest) -> In x events) -> StronglySorted (later events) rest ->
  (forall uid, remembers st past rest uid) -> settle_all st rest = drawn_all past rest.
Proof.
  revert past st. induction rest as [|e rest IH]; intros past st Hin Hs Hst; cbn [settle_all drawn_all]; [done|].
  apply StronglySorted_inv in Hs as [Hs He].
  pose proof (settle_step events st past e rest) as Hstep.
  destruct (settle_marker _ _ _ _) as [st' code]. destruct Hstep as [-> Hst']; [|done..|].
  { intros x Hx. apply Hin, in_or_app. by left. }
  f_equal. apply IH; [|done..]. intros x Hx. apply Hin. rewrite in_app_iff in *. cbn [In] in *. tauto.
Qed.
End Marker.

(** C30: the marker memory draws what its specification says, message by
    message, however many there are: a declared code at once, an undeclared one
    as the last declared code of the same marker while that is at most [hold]
    seconds old, and anything else as it is.  What the memory forgets to stay
    small makes no difference, as long as the clock does not turn back: a code
    that is too old at one message is too old at the next. *)
Theorem marker_memory_refines hold events :
  Sorted (later hold events) events -> settle_all hold ∅ events = drawn_all hold [] events.
Proof.
  intros Hs. apply Sorted_StronglySorted in Hs; [|intros a b c; apply later_trans].
  apply (settle_all_drawn hold events); [done|done|]. intros uid. left. apply lookup_empty.
Qed.

Definition sample_history : list marker :=
  let e u c t := {| m_uid := u; m_code := c; m_now := fl t |} in
  [e "M1" "a-u-G" 0; e "M1" "a-f-G" 1; e "M1" "a-u-G" 200; e "M2" "SUAP--" 250; e "M1" "a-u-G" 400].

Lemma marker_memory_refines_witness :
  Sorted (later HOLD_S sample_history) sample_history /\
  settle_all HOLD_S ∅ sample_history = drawn_all HOLD_S [] sample_history /\
  drawn_all HOLD_S [] sample_history = ["a-u-G"; "a-f-G"; "a-f-G"; "SUAP--"; "a-u-G"].
Proof.
  assert (Sorted (later HOLD_S sample_history) sample_history) as Hs.
  { unfold sample_history. repeat constructor; intros e He;
      (repeat (destruct He as [<-|He]; [vm_compute; intros H; first [exact H|discriminate H|reflexivity]|])); destruct He. }
  split; [exact Hs|]. split; [apply marker_memory_refines; exact Hs|vm_compute; reflexivity].
Defined.

Lemma first_address_wins_witness :
  let e := {| s_icao24 := VStr "4c11ec"; s_callsign := VStr "ASL124"; s_now := fl 0; s_registration := VNone |} in
  let st := see_all WINDOW_S [e] in
  is_Some (fresh WINDOW_S (fl 1) st "C:ASL124" !! 0x4c11ec) /\
  exists st', is_ghost WINDOW_S st (VStr "4c01ec") (VStr "asl124 ") (fl 1) VNone = Ok (st', true).
Proof.
  cbv zeta. set (e := {| s_icao24 := _ |}).
  assert (is_Some (fresh WINDOW_S (fl 1) (see_all WINDOW_S [e]) "C:ASL124" !! 0x4c11ec)) as Hlive
    by (eexists; vm_compute; reflexivity).
  split; [done|].
  destruct (first_address_wins WINDOW_S [e] (VStr "4c01ec") (VStr "asl124 ") (fl 1) VNone "ASL124" "" 0x4c01ec)
    as (H & _); [vm_compute; reflexivity..|].
  destruct (H "C:ASL124" 0x4c11ec) as (st' & Hg & _); [apply elem_of_cons; by left|done|done|vm_compute; reflexivity|].
  by exists st'.
Defined.

Lemma ghost_table_unbounded_witness :
  let e c t := {| s_icao24 := VStr "4c11ec"; s_callsign := VStr c; s_now := fl t; s_registration := VNone |} in
  Z.of_nat (size (see_all WINDOW_S [e "ASL124" 0; e "BAW1" 100000])) = 2.
Proof.
  cbv zeta. refine (eq_trans (ghost_table_unbounded _ _ ["ASL124"; "BAW1"] _ _) eq_refl).
  - repeat constructor; try done; by exists 0x4c11ec.
  - apply (bool_decide_unpack _). vm_compute. exact I.
Defined.
