(* ===== verification/Echoes.v ===== *)
(** * Copies of the pod's own objects

    compose/protocols/vendors/random/fusion.py: [TwinFilter] (a second record
    of an aircraft without its address), [EchoFilter] (the pod's own tracks
    sent back by a partner), [TwinSuppressions] (announcements the layers
    honour) and [is_own_force_track].  A sample is the value [json.loads] gives
    for its payload, [None] when the payload is no JSON text. *)

From Stdlib Require Import SpecFloat Sorted.
From S2P Require Import Prelude PyFloat Exact PyData Schema TrackViews PyText PyNum Dedup.
From stdpp Require Import gmap strings sorting.
#[local] Open Scope Z_scope.
#[local] Open Scope py_scope.

Definition dget_none (d : dict) (k : string) : value := dget_or d k VNone.

Definition is_none (v : value) : bool := match v with VNone => true | _ => false end.

(** ** [TwinFilter] *)
Section Twin.
Context `{Libm}.

Definition TWIN_WINDOW_S : float := fl 180.
(** [RADIUS_KM ** 2] *)
Definition RADIUS_KM_2 : float := fl 2500.

Abbreviation twin_table := (gmap string (value * value * float)).

Definition square (x : float) : exc float := m_pow x (fl 2).

(** The distance test; the numbers come from the feeds unchecked. *)
Definition twin_near (lat lon lat0 lon0 : value) : exc bool :=
  let? lat := as_number lat in
  let? lat0 := as_number lat0 in
  let? dlat := nsub lat lat0 in
  let? dlat := to_float dlat in
  let? a := square (fmul dlat (fl 111)) in
  let? lon := as_number lon in
  let? lon0 := as_number lon0 in
  let? dlon := nsub lon lon0 in
  let? dlon := to_float dlon in
  let? lat := to_float lat in
  let? c := m_cos (radians lat) in
  let? b := square (fmul (fmul dlon (fl 111)) (fmax (dec 1 1) c)) in
  Ok (fle (fadd a b) RADIUS_KM_2).

Definition is_twin (repr : value -> string) (st : twin_table) (record : dict) (now : float) :
    exc (twin_table * bool) :=
  let callsign := dget_none record "callsign" in
  let callsign := upper (strip (if truthy callsign then py_str repr callsign else "")) in
  let lat := dget_none record "lat_deg" in
  let lon := dget_none record "lon_deg" in
  if (String.length callsign <? 3)%nat || is_none lat || is_none lon then Ok (st, false) else
  if truthy (dget_none record "icao24") then
    let st := <[callsign := (lat, lon, now)]> st in
    Ok (if 20000 <? Z.of_nat (size st)
        then filter (fun kv => within TWIN_WINDOW_S now (snd (snd kv)) = true) st else st, false)
  else match st !! callsign with
       | None => Ok (st, false)
       | Some (lat0, lon0, seen) =>
           if negb (within TWIN_WINDOW_S now seen) then Ok (st, false) else
           let? close := twin_near lat lon lat0 lon0 in
           Ok (st, close)
       end.
End Twin.

(** ** [EchoFilter] *)
Definition MIN_ID_LEN : nat := 10.
Definition MIN_NAME_LEN : nat := 8.
Definition POSITION_CELL_DEG : float := dec 1 4.
Definition _MAX_REMEMBERED : Z := 50000.
Definition _GENERIC_NAMES : list string := ["dronu-sensor"; "sensor"; "unknown"].

Record echoes := {
  ids : odict float;
  names : odict float;
  cells : gmap (Z * Z) float;
}.

Definition no_echoes : echoes := {| ids := []; names := []; cells := ∅ |}.

(** [sorted(table, key=table.get)]: by time, ties in the table's order. *)
Fixpoint insert_by_time (kv : string * float) (l : odict float) : odict float :=
  match l with
  | [] => [kv]
  | kv' :: l' => if flt (snd kv') (snd kv) then kv' :: insert_by_time kv l' else kv :: l
  end.
Definition by_time (l : odict float) : odict float := foldr insert_by_time [] l.

(** Forget the oldest entries of a table that has grown past its bound. *)
Definition bounded (table : odict float) : odict float :=
  if _MAX_REMEMBERED <? len table then
    let stale := firstn (Z.to_nat (len table - _MAX_REMEMBERED)) (by_time table) in
    List.filter (fun kv => negb (selem (fst kv) (map fst stale))) table
  else table.

Definition _cell (lat lon : value) : exc (Z * Z) :=
  let? lat := float_of lat in
  let? row := int_of_float (fdiv_raw lat POSITION_CELL_DEG) in
  let? lon := float_of lon in
  let? col := int_of_float (fdiv_raw lon POSITION_CELL_DEG) in
  Ok (row, col).

Section Echo.
Variable repr : value -> string.
Variable ttl : float.
(** The operator's BACKBONE_DROP_REGEX, matched against a text, if set. *)
Variable drop : option (string -> bool).

(** [str(v or "")] *)
Definition text_or_empty (v : value) : string := if truthy v then py_str repr v else "".

(** [{f(str(data[k])) for k in keys if data.get(k)}] *)
Definition texts_of (f : string -> string) (keys : list string) (data : dict) : list string :=
  omap (fun k => let v := dget_none data k in if truthy v then Some (f (py_str repr v)) else None) keys.

Definition remember (keys : list string) (now : float) (table : odict float) : odict float :=
  fold_left (fun t k => oset k now t) keys table.

(** A record of this pod: neither a tombstone nor one that came in from the
    backbone. *)
Definition own_record (data : dict) : bool :=
  negb (truthy (dget_none data "_delete")) &&
  negb (startswith "backbone:" (text_or_empty (dget_none data "_src"))).

Definition on_sample (st : echoes) (sample : option value) (now : float) : exc echoes :=
  match sample with
  | Some (VDict data) =>
      if negb (own_record data) then Ok st else
      let new_ids := texts_of upper ["sensor_id"; "uid"] data in
      let new_names := texts_of (fun s => lower (strip s)) ["sensor_name"; "callsign"] data in
      let lat := dget_none data "lat_deg" in
      let lon := dget_none data "lon_deg" in
      let? cells :=
        if truthy (dget_none data "sensor_id") && negb (is_none lat) && negb (is_none lon)
        then let? c := _cell lat lon in Ok (<[c := now]> (cells st)) else Ok (cells st) in
      let known := List.filter (fun n => (MIN_NAME_LEN <=? String.length n)%nat && negb (selem n _GENERIC_NAMES)) new_names in
      Ok {| ids := bounded (remember new_ids now (ids st));
            names := bounded (remember known now (names st));
            cells := cells |}
  | _ => Ok st
  end.

Definition live (now seen : float) : bool := within ttl now seen.

Definition has_id (st : echoes) (identifier : value) (now : float) : bool :=
  let key := upper (text_or_empty identifier) in
  (MIN_ID_LEN <=? String.length key)%nat &&
  match oget (ids st) key with Some seen => live now seen | None => false end.

Definition near_cells (row col : Z) : list (Z * Z) :=
  concat (map (fun dr => map (fun dc => (row + dr, col + dc)) [-1; 0; 1]) [-1; 0; 1]).

Definition _at_a_sensor (st : echoes) (record : dict) (now : float) : exc bool :=
  let lat := dget_none record "lat_deg" in
  let lon := dget_none record "lon_deg" in
  if truthy (dget_none record "icao24") || is_none lat || is_none lon then Ok false else
  match _cell lat lon with
  | Ok (row, col) =>
      Ok (existsb (fun c => match cells st !! c with Some seen => live now seen | None => false end)
                  (near_cells row col))
  | Raise (TypeError | ValueError) => Ok false
  | Raise e => Raise e
  end.

Definition is_echo (st : echoes) (record : dict) (now : float) : exc bool :=
  let text k := text_or_empty (dget_none record k) in
  if match drop with Some f => existsb (fun k => f (text k)) ["uid"; "callsign"; "label"] | None => false end
  then Ok true else
  let uid := upper (text "uid") in
  let labels := List.filter (fun l => negb (String.eqb l ""))
                  (map (fun k => lower (strip (text k))) ["callsign"; "label"]) in
  let own := List.filter (fun kv => live now (snd kv) && (MIN_ID_LEN <=? String.length (fst kv))%nat) (ids st) in
  let texts := uid :: map upper labels in
  if existsb (fun i => existsb (contains (fst i)) texts) own then Ok true else
  if existsb (fun l => match oget (names st) l with Some seen => live now seen | None => false end) labels
  then Ok true else _at_a_sensor st record now.

(** ** Bounds and recognition *)

Lemma len_oset {V} k (v : V) d : len (oset k v d) <= len d + 1.
Proof.
  induction d as [|[k' v'] d IH]; cbn [oset]; [unfold len; cbn; lia|].
  destruct (String.eqb k' k); rewrite !len_cons; lia.
Qed.

Lemma length_insert_by_time kv l : length (insert_by_time kv l) = S (length l).
Proof. induction l as [|kv' l IH]; cbn; [done|]. destruct (flt _ _); cbn; [by rewrite IH|done]. Qed.

Lemma insert_by_time_perm kv l : Permutation (insert_by_time kv l) (kv :: l).
Proof.
  induction l as [|kv' l IH]; cbn; [done|]. destruct (flt _ _); [|done].
  rewrite IH. constructor.
Qed.

Lemma by_time_perm l : Permutation (by_time l) l.
Proof.
  induction l as [|kv l IH]; cbn; [done|]. rewrite insert_by_time_perm. by constructor.
Qed.

Lemma filter_none {A} (f : A -> bool) l : forallb (fun x => negb (f x)) l = true -> List.filter f l = [].
Proof.
  induction l as [|x l IH]; cbn; [done|]. intros [Hx Hl]%andb_true_iff. by destruct (f x); auto.
Qed.

Lemma length_filter_le {A} (f : A -> bool) l : (length (List.filter f l) <= length l)%nat.
Proof. induction l as [|x l IH]; cbn; [lia|]. destruct (f x); cbn; lia. Qed.

Lemma filter_perm {A} (f : A -> bool) l l' : Permutation l l' -> Permutation (List.filter f l) (List.filter f l').
Proof.
  induction 1 as [|x l l' _ IH|x y l|l l' l'' _ IH1 _ IH2]; cbn.
  - done.
  - destruct (f x); [by constructor|done].
  - destruct (f x), (f y); try done. constructor.
  - by rewrite IH1.
Qed.

(** A table never keeps more entries than its bound, whatever it held. *)
Lemma len_bounded table : len (bounded table) <= _MAX_REMEMBERED.
Proof.
  unfold bounded. destruct (Z.ltb_spec _MAX_REMEMBERED (len table)) as [Hlt|]; [|lia]. cbv zeta.
  set (n := Z.to_nat (len table - _MAX_REMEMBERED)).
  assert (Permutation table (firstn n (by_time table) ++ skipn n (by_time table))) as Hp
    by (rewrite firstn_skipn; symmetry; apply by_time_perm).
  set (f := fun kv : string * float => negb (selem (fst kv) (map fst (firstn n (by_time table))))).
  assert (length (List.filter f table) <= length (skipn n (by_time table)))%nat as Hle.
  { rewrite (Permutation_length (filter_perm f _ _ Hp)). rewrite List.filter_app, length_app, filter_none.
    - cbn. apply length_filter_le.
    - apply forallb_forall. intros kv Hin. subst f. cbn. rewrite negb_involutive.
      apply selem_In, in_map, Hin. }
  rewrite length_skipn, (Permutation_length (by_time_perm table)) in Hle.
  unfold len in *. unfold _MAX_REMEMBERED in *. lia.
Qed.

Lemma bounded_id table : len table <= _MAX_REMEMBERED -> bounded table = table.
Proof. intros Hle. unfold bounded. by destruct (Z.ltb_spec _MAX_REMEMBERED (len table)); [lia|]. Qed.

Lemma oget_remember keys now table k : In k keys -> oget (remember keys now table) k = Some now.
Proof.
  unfold remember. revert table. induction keys as [|k' keys IH]; intros table; cbn [fold_left]; [done|].
  destruct (in_dec String.string_dec k keys) as [Hin|Hnin]; [intros _; by apply IH|].
  intros [->|]; [|done]. assert (oget (oset k now table) k = Some now) as Hk
    by (by rewrite oget_oset, String.eqb_refl).
  revert Hk. generalize (oset k now table). clear IH. induction keys as [|k1 keys IH]; intros t Ht; cbn [fold_left]; [done|].
  cbn [In] in Hnin. apply IH; [tauto|]. rewrite oget_oset. destruct (String.eqb_spec k1 k); [tauto|done].
Qed.

Lemma len_remember keys now table : len (remember keys now table) <= len table + len keys.
Proof.
  unfold remember. revert table. induction keys as [|k keys IH]; intros table; cbn [fold_left]; [unfold len; cbn; lia|].
  specialize (IH (oset k now table)). pose proof (len_oset k now table). rewrite len_cons. lia.
Qed.

Lemma In_texts_of f keys data k : In k keys -> truthy (dget_none data k) = true ->
  In (f (py_str repr (dget_none data k))) (texts_of f keys data).
Proof.
  intros Hk Ht. apply list_elem_of_In, list_elem_of_omap. exists k.
  split; [by apply list_elem_of_In|]. cbv zeta. by rewrite Ht.
Qed.

Lemma len_texts_of f keys data : len (texts_of f keys data) <= len keys.
Proof.
  unfold texts_of. induction keys as [|k keys IH]; cbn; [lia|].
  destruct (truthy _); rewrite ?len_cons in *; pose proof (len_nonneg keys); lia.
Qed.
End Echo.

(** *** What is remembered of a history *)

Definition keyed (d : odict float) : Prop := NoDup (map fst d).

Lemma oget_None {V} (d : odict V) k : oget d k = None <-> ~ In k (map fst d).
Proof.
  induction d as [|[k' v] d IH]; cbn [oget map fst In]; [tauto|].
  destruct (String.eqb_spec k' k); [split; [done|tauto]|]. rewrite IH. tauto.
Qed.

Lemma oget_keyed d k v : keyed d -> In (k, v) d <-> oget d k = Some v.
Proof.
  intros Hd. split; [|apply oget_In]. unfold keyed in Hd. induction d as [|[k' v'] d IH]; cbn [In oget map fst] in *; [done|].
  apply NoDup_cons in Hd as [Hn Hd]. intros [[= -> ->]|Hin]; [by rewrite String.eqb_refl|].
  destruct (String.eqb_spec k' k) as [->|]; [|by apply IH].
  destruct Hn. apply list_elem_of_In. by apply (in_map fst) in Hin.
Qed.

Lemma keys_oset {V} k (v : V) d :
  In k (map fst d) /\ map fst (oset k v d) = map fst d \/ ~ In k (map fst d) /\ map fst (oset k v d) = map fst d ++ [k].
Proof.
  induction d as [|[k' v'] d IH]; cbn [oset map fst]; [right; by split; [intros []|]|].
  destruct (String.eqb_spec k' k) as [->|Hne]; cbn [map fst].
  - left. split; [by left|done].
  - destruct IH as [[Hin ->]|[Hn ->]]; [left; split; [by right|done]|right; split; [by intros [?|?]|done]].
Qed.

Lemma keyed_oset k v d : keyed d -> keyed (oset k v d).
Proof.
  unfold keyed. intros Hd. destruct (keys_oset k v d) as [[_ ->]|[Hn ->]]; [done|]. apply NoDup_app. split_and!; [done| |apply NoDup_singleton].
  intros x Hx ->%list_elem_of_singleton. by apply list_elem_of_In in Hx.
Qed.

Lemma keyed_remember keys now d : keyed d -> keyed (remember keys now d).
Proof. unfold remember. revert d. induction keys as [|k keys IH]; intros d Hd; cbn [fold_left]; [done|]. by apply IH, keyed_oset. Qed.

Lemma oget_remember_all keys now d k : oget (remember keys now d) k = if selem k keys then Some now else oget d k.
Proof.
  destruct (selem k keys) eqn:E; [by apply oget_remember, selem_In|]. unfold remember. revert d E.
  induction keys as [|k' keys IH]; intros d E; cbn [fold_left]; [done|]. cbn [selem existsb] in E.
  apply orb_false_iff in E as [E1 E2]. rewrite IH by done. rewrite oget_oset, String.eqb_sym, E1. done.
Qed.

Definition no_later (a b : string * float) : Prop := fle (snd a) (snd b) = true.
Definition timed (kv : string * float) : Prop := snd kv <> S754_nan.

Lemma by_time_sorted l : Forall timed l -> StronglySorted no_later (by_time l).
Proof.
  unfold by_time. induction 1 as [|x l Hx Hl IH]; cbn [foldr]; [constructor|].
  assert (Forall timed (foldr insert_by_time [] l)) as Hs by (change (Forall timed (by_time l)); by rewrite by_time_perm).
  clear Hl. revert Hs. induction IH as [|y s Hss IHs Hy]; intros Hs; cbn [insert_by_time]; [by repeat constructor|].
  apply Forall_cons_1 in Hs as [Hty Hs]. destruct (flt (snd y) (snd x)) eqn:E.
  - constructor; [by apply IHs|]. rewrite insert_by_time_perm. constructor; [by apply fle_of_flt|done].
  - apply fle_of_not_flt in E; [|done..]. constructor; [by constructor|]. constructor; [done|].
    rewrite Forall_forall in *. intros z Hz. eapply fle_trans; [| | |exact E|by apply Hy]; [done..|by apply Hs].
Qed.

(** What a table is cut down to: all of it, or as many entries as are allowed,
    none of them older than one that goes. *)
Lemma bounded_spec d : keyed d -> Forall timed d ->
  keyed (bounded d) /\ (forall kv, In kv (bounded d) -> In kv d) /\
  forall kv, In kv d -> In kv (bounded d) \/
    len (bounded d) = _MAX_REMEMBERED /\ ~ In (fst kv) (map fst (bounded d)) /\ Forall (no_later kv) (bounded d).
Proof.
  intros Hk Ht. unfold bounded. destruct (Z.ltb_spec _MAX_REMEMBERED (len d)) as [Hlt|]; [|by split_and!; auto]. cbv zeta.
  set (n := Z.to_nat (len d - _MAX_REMEMBERED)). set (old := firstn n (by_time d)). set (rest := skipn n (by_time d)).
  assert (Permutation d (old ++ rest)) as Hp by (unfold old, rest; rewrite firstn_skipn; symmetry; apply by_time_perm).
  set (f := fun kv : string * float => negb (selem (fst kv) (map fst old))).
  assert (NoDup (map fst old ++ map fst rest)) as Hnd by (rewrite <- map_app; unfold keyed in Hk; by rewrite Hp in Hk).
  apply NoDup_app in Hnd as (_ & Hdis & Hrest).
  assert (Permutation (List.filter f d) rest) as Hf.
  { rewrite (filter_perm f _ _ Hp), List.filter_app, filter_none.
    - cbn [app]. rewrite forallb_filter_id; [done|]. apply forallb_forall. intros kv Hin. unfold f.
      apply negb_true_iff. destruct (selem (fst kv) (map fst old)) eqn:E; [|done]. exfalso. apply selem_In in E.
      apply (Hdis (fst kv)); apply list_elem_of_In; [done|by apply in_map].
    - apply forallb_forall. intros kv Hin. unfold f. rewrite negb_involutive. apply selem_In, in_map, Hin. }
  split_and!.
  - unfold keyed. by rewrite Hf.
  - intros kv Hin. by apply filter_In in Hin as [? _].
  - intros kv Hin. rewrite Hp in Hin. apply in_app_or in Hin as [Ho|Hr]; [right|left; by rewrite Hf]. split_and!.
    + unfold len. rewrite (Permutation_length Hf). unfold rest, n. rewrite length_skipn, (Permutation_length (by_time_perm d)).
      unfold len, _MAX_REMEMBERED in *. lia.
    + rewrite Hf. intros Hin. apply (Hdis (fst kv)); apply list_elem_of_In; [by apply in_map|done].
    + rewrite Hf. pose proof (by_time_sorted d Ht) as Hs. rewrite <- (firstn_skipn n (by_time d)) in Hs. fold old rest in Hs.
      clear -Hs Ho. induction old as [|x old IH]; [done|]. cbn [app] in Hs. apply StronglySorted_inv in Hs as [Hs Hx].
      destruct Ho as [->|Ho]; [by apply Forall_app in Hx as [_ Hx]|by apply IH].
Qed.

(** A sample and the time at which it comes in. *)
Abbreviation event := (option value * float)%type.

Section History.
Variable repr : value -> string.

(** A record whose position, if it is a sensor's, has a cell. *)
Definition placed (data : dict) : bool :=
  let lat := dget_none data "lat_deg" in
  let lon := dget_none data "lon_deg" in
  negb (truthy (dget_none data "sensor_id") && negb (is_none lat) && negb (is_none lon)) ||
  match _cell lat lon with Ok _ => true | Raise _ => false end.

(** The ids that a sample publishes: those of a record of the pod's own. *)
Definition published (e : event) : list string :=
  match fst e with
  | Some (VDict data) => if own_record repr data && placed data then texts_of repr upper ["sensor_id"; "uid"] data else []
  | _ => []
  end.

(** When an id was published last; [past] is newest first. *)
Fixpoint last_published (past : list event) (k : string) : option float :=
  match past with
  | [] => None
  | e :: past' => if selem k (published e) then Some (snd e) else last_published past' k
  end.

(** A callback that raises leaves the filter as it is. *)
Definition hear (st : echoes) (e : event) : echoes :=
  match on_sample repr st (fst e) (snd e) with Ok st' => st' | Raise _ => st end.

Lemma hear_ids st e :
  (ids (hear st e) = ids st /\ published e = []) \/ ids (hear st e) = bounded (remember (published e) (snd e) (ids st)).
Proof.
  destruct e as [s now]. unfold hear, on_sample, published. cbn [fst snd].
  destruct s as [[]|]; try by left. destruct (own_record repr d); cbn [negb andb]; [|by left]. cbv zeta. unfold placed. cbv zeta.
  destruct (truthy _ && _ && _); cbn [negb orb exc_bind]; [|by right].
  destruct (_cell _ _); cbn [exc_bind]; [by right|by left].
Qed.

(** So many other ids have been published since that the table is full of
    them. *)
Definition crowded_out (past : list event) (k : string) (t : float) : Prop :=
  exists others, NoDup others /\ ~ In k others /\ _MAX_REMEMBERED <= len others /\
    forall o, In o others -> exists t', last_published past o = Some t' /\ fle t t' = true.

(** The table has each id with its last publication, or it has been crowded
    out. *)
Record faithful (d : odict float) (past : list event) : Prop := {
  f_keyed : keyed d;
  f_true k t : oget d k = Some t -> last_published past k = Some t;
  f_all k t : last_published past k = Some t -> oget d k = Some t \/ crowded_out past k t;
}.

Definition clocked (e : event) : Prop := snd e <> S754_nan.

Lemma last_published_in past k t : last_published past k = Some t -> exists e, In e past /\ snd e = t.
Proof.
  induction past as [|e past IH]; cbn [last_published]; [done|]. destruct (selem _ _).
  - intros [= <-]. exists e. split; [by left|done].
  - intros H. destruct (IH H) as (x & Hx & E). exists x. split; [by right|done].
Qed.

Lemma faithful_timed d past : Forall clocked past -> faithful d past -> Forall timed d.
Proof.
  intros Hc Hf. apply Forall_forall. intros [k t] Hin%list_elem_of_In. unfold timed. cbn [snd].
  apply oget_keyed, (f_true _ _ Hf), last_published_in in Hin as (e & He & <-); [|apply Hf].
  rewrite Forall_forall in Hc. by apply Hc, list_elem_of_In.
Qed.

(** Others are still as new when more comes in. *)
Lemma crowded_out_later past e k t : clocked e -> Forall clocked past -> Forall (fun x => fle (snd x) (snd e) = true) past ->
  (exists x, In x past /\ snd x = t) -> crowded_out past k t -> crowded_out (e :: past) k t.
Proof.
  intros He Hc Hle (x & Hx & <-) (others & Hnd & Hk & Hl & Ho). exists others. split_and!; [done..|]. intros o Hin.
  cbn [last_published]. destruct (selem o (published e)); [|by apply Ho].
  eexists. split; [done|]. rewrite Forall_forall in Hle. by apply Hle, list_elem_of_In.
Qed.

Lemma remember_faithful d past e : clocked e -> Forall clocked past -> Forall (fun x => fle (snd x) (snd e) = true) past ->
  faithful d past -> faithful (remember (published e) (snd e) d) (e :: past).
Proof.
  intros He Hc Hle Hf. split.
  - apply keyed_remember, Hf.
  - intros k t. rewrite oget_remember_all. cbn [last_published]. destruct (selem _ _); [done|]. apply Hf.
  - intros k t. rewrite oget_remember_all. cbn [last_published]. destruct (selem _ _); [by left|]. intros H.
    destruct (f_all _ _ Hf k t H) as [Hg|Hg]; [by left|right]. apply crowded_out_later; [done..| |done]. by apply last_published_in in H.
Qed.

Lemma bounded_faithful d past : Forall clocked past -> faithful d past -> faithful (bounded d) past.
Proof.
  intros Hc Hf. destruct (bounded_spec d (f_keyed _ _ Hf) (faithful_timed _ _ Hc Hf)) as (Hk & Hsub & Hall). split; [done| |].
  - intros k t Hg%oget_In. apply (f_true _ _ Hf), oget_keyed; [apply Hf|by apply Hsub].
  - intros k t H. destruct (f_all _ _ Hf k t H) as [Hg|Hg]; [|by right]. apply oget_In in Hg.
    destruct (Hall _ Hg) as [Hin|(Hl & Hn & Hle)]; [left; by apply oget_keyed|right].
    exists (map fst (bounded d)). cbn [fst] in Hn. split_and!; [exact Hk|done|unfold len in *; rewrite length_map; lia|].
    intros o ([o' t'] & <- & Hin)%in_map_iff. cbn [fst]. exists t'. split.
    + apply (f_true _ _ Hf), oget_keyed; [apply Hf|by apply Hsub].
    + rewrite Forall_forall in Hle. by apply (Hle (o', t')), list_elem_of_In.
Qed.

Lemma hear_faithful st past e : clocked e -> Forall clocked past -> Forall (fun x => fle (snd x) (snd e) = true) past ->
  faithful (ids st) past -> faithful (ids (hear st e)) (e :: past).
Proof.
  intros He Hc Hle Hf. pose proof (remember_faithful _ _ _ He Hc Hle Hf) as Hr.
  destruct (hear_ids st e) as [[-> Hp]| ->]; [by rewrite Hp in Hr|]. apply bounded_faithful; [by constructor|done].
Qed.

Definition in_order (a b : event) : Prop := fle (snd a) (snd b) = true.

Lemma heard_faithful events past st : Forall clocked past -> Forall clocked events ->
  StronglySorted in_order events -> Forall (fun x => Forall (in_order x) events) past ->
  faithful (ids st) past -> faithful (ids (fold_left hear events st)) (rev events ++ past).
Proof.
  revert past st. induction events as [|e events IH]; intros past st Hcp Hce Hs Hp Hf; cbn [fold_left rev app]; [done|].
  apply Forall_cons_1 in Hce as [He Hce]. apply StronglySorted_inv in Hs as [Hs Hle]. rewrite <- app_assoc. cbn [app].
  apply IH; [by constructor|done|done| |].
  - constructor; [done|]. eapply Forall_impl; [exact Hp|]. intros x Hx. by apply Forall_cons_1 in Hx as [_ Hx].
  - apply hear_faithful; [done..| |done]. eapply Forall_impl; [exact Hp|]. intros x Hx. by apply Forall_cons_1 in Hx as [Hx _].
Qed.

(** The filter after a history, oldest first. *)
Definition heard (events : list event) : echoes := fold_left hear events no_echoes.

Lemma heard_ok events : Forall clocked events -> StronglySorted in_order events -> faithful (ids (heard events)) (rev events).
Proof.
  intros Hc Hs. rewrite <- (app_nil_r (rev events)). apply heard_faithful; [constructor|done|done|constructor|].
  by split; [apply NoDup_nil_2|..].
Qed.

Lemma live_id_is_echo ttl drop st record k t now :
  oget (ids st) k = Some t -> within ttl now t = true -> (MIN_ID_LEN <= String.length k)%nat ->
  (let text (k : string) := text_or_empty repr (dget_none record k) in
   let label (k : string) := lower (strip (text k)) in
   contains k (upper (text "uid")) = true \/
   (exists l, In l ["callsign"; "label"] /\ label l <> "" /\ contains k (upper (label l)) = true)) ->
  is_echo repr ttl drop st record now = Ok true.
Proof.
  cbv zeta. intros Hg Hlive Hlen Hin. unfold is_echo. cbv zeta.
  match goal with |- (if ?b then _ else _) = _ => destruct b end; [done|].
  match goal with |- (if ?b then _ else _) = _ => assert (b = true) as ->; [|done] end.
  apply existsb_exists. exists (k, t). split.
  { apply filter_In. split; [by apply oget_In|]. cbn [fst snd]. unfold live. rewrite Hlive. cbn [andb]. by apply Nat.leb_le. }
  apply existsb_exists. cbn [fst]. destruct Hin as [Hin|(l & Hl & Hne & Hc)].
  - eexists. split; [by left|done].
  - eexists. split; [|exact Hc]. right. apply in_map, filter_In. split.
    + by apply (in_map (fun k => lower (strip (text_or_empty repr (dget_none record k))))).
    + by apply String.eqb_neq in Hne as ->.
Qed.
End History.


(** The pod publishes a zone, then something else. *)
Definition sample_samples : list event :=
  [(Some (VDict [("uid", VStr "DA-ZONE-UA-R:7"); ("_src", VStr "dangausakis.lt")]), fl 10);
   (Some (VDict [("uid", VStr "MAPA-323725")]), fl 20)].


(** ** [TwinSuppressions] *)
Definition TWIN_TTL_S : float := fl 20.

Record suppressions := { until : gmap string float; military : gmap string float }.

Section Suppress.
Variable repr : value -> string.
Variable ttl : float.

(** [json.loads(...).get(k)]: a sample that is no JSON object is ignored. *)
Definition sample_get (sample : option value) (k : string) : option value :=
  match sample with Some (VDict data) => Some (dget_none data k) | _ => None end.

Definition on_twin (st : suppressions) (sample : option value) (now : float) : suppressions :=
  match sample_get sample "uid" with
  | Some uid => if truthy uid
                then {| until := <[py_str repr uid := fadd now ttl]> (until st); military := military st |} else st
  | None => st
  end.

Definition on_military (st : suppressions) (sample : option value) (now : float) : suppressions :=
  match sample_get sample "icao24" with
  | Some icao =>
      let icao := lower (text_or_empty repr icao) in
      if String.eqb icao "" then st
      else {| until := until st; military := <[icao := fadd now ttl]> (military st) |}
  | None => st
  end.

Definition is_civil_copy (st : suppressions) (track : dict) (topic : string) (now : float) : bool :=
  let icao := lower (text_or_empty repr (dget_none track "icao24")) in
  if String.eqb icao "" || negb (contains "/civ/aircraft" topic) then false
  else flt now (default (fl 0) (military st !! icao)).

Definition is_suppressed (st : suppressions) (track : dict) (now : float) : bool :=
  let uid := dget_none track "uid" in
  if truthy (dget_none track "icao24") || negb (truthy uid) then false
  else flt now (default (fl 0) (until st !! py_str repr uid)).
End Suppress.
