(* ===== verification/Markers.v ===== *)
(** * Strike markers and loose copies

    compose/protocols/vendors/random/fusion.py: [StrikeIndex] (reports of one
    attack merged into one marker) and [TwinIndex] (copies of an object under
    another identity).  Regular expressions are written out as functions on
    ASCII text. *)

From Stdlib Require Import SpecFloat Sorted.
From S2P Require Import Prelude PyFloat Exact PyData Schema TrackViews PyText PyNum Dedup Echoes.
From stdpp Require Import gmap strings sorting.
#[local] Open Scope Z_scope.
#[local] Open Scope py_scope.

(** [any(test(x) for x in l)], where a test can raise. *)
Fixpoint any_exc {A} (test : A -> exc bool) (l : list A) : exc bool :=
  match l with
  | [] => Ok false
  | x :: l' => let? b := test x in if b then Ok true else any_exc test l'
  end.

Lemma any_exc_false {A} (test : A -> exc bool) l :
  any_exc test l = Ok false -> Forall (fun x => test x = Ok false) l.
Proof.
  induction l as [|x l IH]; cbn; [constructor|]. destruct (test x) as [[]|] eqn:E; cbn; [done| |done].
  intros H. constructor; [done|by apply IH].
Qed.

Lemma any_exc_true {A} (test : A -> exc bool) l :
  any_exc test l = Ok true -> exists x, In x l /\ test x = Ok true.
Proof.
  induction l as [|x l IH]; cbn; [done|]. destruct (test x) as [[]|] eqn:E; cbn; [eauto| |done].
  intros (y & Hy & Ht)%IH. eauto.
Qed.

(** ** [StrikeIndex] *)
Definition STRIKE_NEAR_M : Z := 100.
Definition STRIKE_FRESH_S : float := fl 10800.
Definition STRIKE_SOURCES : list string := ["/land/dronestrikemap/strike/"; "/land/geoconfirmed/event/"].

Definition is_strike_topic (topic : string) : bool := existsb (fun source => contains source topic) STRIKE_SOURCES.

(** [_SIDE.search(topic)]: the first segment, neither the first nor the last of
    the key, that names a side. *)
Definition _SIDE (topic : string) : option string :=
  find (fun part => selem part ["friendly"; "hostile"; "neutral"; "unknown"])
       (removelast (tl (TrackViews.split topic))).

(** [_DAY.search(text)]: the first ten characters of the form dddd-dd-dd. *)
Fixpoint day_form (form : list bool) (s : string) : bool :=
  match form, s with
  | [], _ => true
  | digit :: form', String c s' => (if digit : bool then is_digit c else Ascii.eqb c "-"%char) && day_form form' s'
  | _, EmptyString => false
  end.

Fixpoint _DAY (s : string) : option string :=
  if day_form [true; true; true; true; false; true; true; false; true; true] s then Some (substring 0 10 s)
  else match s with String _ s' => _DAY s' | EmptyString => None end.

(** The date of a day counted from 1970-01-01 in the proleptic Gregorian
    calendar, as [time.strftime("%Y-%m-%d", time.gmtime(t))] prints it. *)
Definition civil (days : Z) : Z * Z * Z :=
  let z := days + 719468 in
  let era := z / 146097 in
  let doe := z mod 146097 in
  let yoe := (doe - doe / 1460 + doe / 36524 - doe / 146096) / 365 in
  let doy := doe - (365 * yoe + yoe / 4 - yoe / 100) in
  let mp := (5 * doy + 2) / 153 in
  let d := doy - (153 * mp + 2) / 5 + 1 in
  let m := if mp <? 10 then mp + 3 else mp - 9 in
  (yoe + era * 400 + (if m <=? 2 then 1 else 0), m, d).

Definition floor_float (x : float) : exc Z :=
  match x with
  | S754_zero _ => Ok 0
  | S754_finite s m e =>
      let n := if s then Z.neg m else Z.pos m in
      Ok (if 0 <=? e then n * 2 ^ e else n / 2 ^ (- e))
  | S754_infinity _ => Raise OverflowError
  | S754_nan => Raise ValueError
  end.

(** A time whose year does not fit the C library's int raises (OverflowError,
    or OSError of the same value). *)
Definition utc_day (t : value) : exc string :=
  let? n := as_number t in
  let? secs := match n with NInt z => Ok z | NFloat x => floor_float x end in
  let '(y, m, d) := civil (secs / 86400) in
  if (y - 1900 <? - 2 ^ 31) || (2 ^ 31 <=? y - 1900) then Raise OverflowError
  else Ok (str_int y +:+ "-" +:+ fmt_d 2 m +:+ "-" +:+ fmt_d 2 d).

Example civil_ex : utc_day (VInt 1760227200) = Ok "2025-10-12" /\ utc_day (VFloat (dec (-1) 1)) = Ok "1969-12-31".
Proof. split; vm_compute; reflexivity. Qed.

Section Strikes.
Context `{Libm}.
Variable repr : value -> string.

Record strike := {
  k_uid : string; k_seen : float; k_lat : float; k_lon : float; k_uncertainty : float;
  k_topic : string; k_type : string;
}.

Definition _metres (a b : strike) : exc float :=
  let dlat := fmul (fsub (k_lat a) (k_lat b)) (fl 111320) in
  let? c := m_cos (radians (k_lat a)) in
  let dlon := fmul (fmul (fsub (k_lon a) (k_lon b)) (fl 111320)) c in
  m_hypot dlat dlon.

Definition _day (track : dict) (now : float) : exc string :=
  match _DAY (text_or_empty repr (dget_none track "event_date")) with
  | Some d => Ok d
  | None =>
      match _DAY (text_or_empty repr (dget_none track "uid")) with
      | Some d => Ok d
      | None => let ts := dget_none track "_ts" in utc_day (if truthy ts then ts else VFloat now)
      end
  end.

(** Python's order on the pairs (uncertainty, uid). *)
Definition ranks_before (a b : strike) : bool :=
  if feq (k_uncertainty a) (k_uncertainty b) then String.ltb (k_uid a) (k_uid b)
  else flt (k_uncertainty a) (k_uncertainty b).

Fixpoint insert_strike (x : strike) (l : list strike) : list strike :=
  match l with
  | [] => [x]
  | y :: l' => if ranks_before y x then y :: insert_strike x l' else x :: l
  end.
Definition sort_strikes (l : list strike) : list strike := foldr insert_strike [] l.

Definition near_strike (a b : strike) : exc bool :=
  let? d := _metres a b in Ok (nle (NFloat d) (NInt STRIKE_NEAR_M)).

(** The loop over the sorted members: those kept so far, then the rest. *)
Fixpoint merge_strikes (kept members : list strike) : exc (list strike * list strike) :=
  match members with
  | [] => Ok (kept, [])
  | m :: members' =>
      let? dup := any_exc (near_strike m) kept in
      if dup then let? (kept', retract) := merge_strikes kept members' in Ok (kept', m :: retract)
      else merge_strikes (kept ++ [m]) members'
  end.

Abbreviation groups := (gmap (string * string) (odict strike)).

Definition fresh_strike (now : float) (s : strike) : bool := within STRIKE_FRESH_S now (k_seen s).

(** The position and the uncertainty, or nothing when they are no numbers. *)
Definition strike_position (track : dict) : exc (option (float * float * float)) :=
  let m :=
    let? lat := ditem track "lat_deg" in
    let? lat := float_of lat in
    let? lon := ditem track "lon_deg" in
    let? lon := float_of lon in
    let u := dget_none track "position_uncertainty_m" in
    let? u := if truthy u then float_of u else Ok (fl 0) in
    Ok (Some (lat, lon, u)) in
  match m with Raise (KeyError | TypeError | ValueError) => Ok None | _ => m end.

Definition is_str (o : option value) (s : string) : bool :=
  match o with Some (VStr s') => String.eqb s' s | _ => false end.

(** The groups are kept when an exception leaves the call. *)
Definition observe_strike (st : groups) (track : dict) (now : float) (topic : string) :
    groups * exc (list (string * string * string)) :=
  let uid := text_or_empty repr (dget_none track "uid") in
  match _SIDE topic with
  | None => (st, Ok [])
  | Some side =>
      if String.eqb uid "" || negb (is_strike_topic topic) || is_str (dget track "role") "other" then (st, Ok []) else
      if truthy (dget_none track "_delete") then (opop uid <$> st, Ok []) else
      match strike_position track with
      | Raise e => (st, Raise e)
      | Ok None => (st, Ok [])
      | Ok (Some (lat, lon, uncertainty)) =>
          let st := filter (fun kg => existsb (fun kv => fresh_strike now (snd kv)) (snd kg) = true) st in
          match _day track now with
          | Raise e => (st, Raise e)
          | Ok day =>
              let kind := dget_none track "type" in
              let s := {| k_uid := uid; k_seen := now; k_lat := lat; k_lon := lon; k_uncertainty := uncertainty;
                          k_topic := topic; k_type := if truthy kind then py_str repr kind else "strike" |} in
              let group := oset uid s (default [] (st !! (side, day))) in
              let group := List.filter (fun kv => fresh_strike now (snd kv)) group in
              (<[(side, day) := group]> st,
               let? (_, retract) := merge_strikes [] (sort_strikes (map snd group)) in
               Ok (map (fun r => (k_uid r, k_topic r, k_type r)) retract))
          end
      end
  end.

(** *** Merging *)
Definition dup_of (a b : strike) : Prop := near_strike a b = Ok true.
Definition apart (a b : strike) : Prop := near_strike a b = Ok false.

(** [kept] are pairwise apart, each from those before it. *)
Inductive spread : list strike -> Prop :=
| spread_nil : spread []
| spread_snoc l x : spread l -> Forall (apart x) l -> spread (l ++ [x]).

Lemma merge_strikes_spec kept members kept' retract :
  spread kept -> merge_strikes kept members = Ok (kept', retract) ->
  spread kept' /\ Permutation (kept ++ members) (kept' ++ retract) /\
  (exists more, kept' = kept ++ more /\ sublist more members) /\ sublist retract members /\
  Forall (fun r => exists k pre post, In k kept' /\ dup_of r k /\ kept ++ members = pre ++ r :: post /\ In k pre) retract.
Proof.
  revert kept kept' retract. induction members as [|m members IH]; intros kept kept' retract Hs; cbn [merge_strikes].
  { intros [= <- <-]. split; [done|]. split; [done|].
    split; [exists []; by rewrite app_nil_r|]. split; constructor. }
  destruct (any_exc (near_strike m) kept) as [[]|] eqn:E; cbn [exc_bind]; [| |done].
  - destruct (merge_strikes kept members) as [[k1 r1]|] eqn:E1; cbn [exc_bind]; [|done]. intros [= <- <-].
    apply any_exc_true in E as (k & Hk & Hd).
    destruct (IH _ _ _ Hs E1) as (H1 & H2 & (more & -> & Hm) & H3 & H4). split_and!; [done| | | |].
    + rewrite <- Permutation_middle, H2. by rewrite Permutation_middle.
    + exists more. split; [done|]. by constructor.
    + by constructor.
    + constructor.
      * exists k, kept, members. split_and!; [apply in_or_app; by left|done|done|done].
      * eapply Forall_impl; [exact H4|]. intros r (k' & pre & post & Hk' & Hd' & Heq & Hin).
        assert (exists pre' post', kept ++ m :: members = pre' ++ r :: post' /\ In k' pre') as (pre' & post' & ? & ?).
        { destruct (app_eq_app _ _ _ _ Heq) as (l & [[-> Hl]|[-> Hl]]).
          - destruct l as [|x l]; cbn in Hl.
            + exists (pre ++ [m]), post. rewrite app_nil_r, <- app_assoc, Hl. split; [done|]. apply in_or_app. by left.
            + injection Hl as <- ->. exists pre, (l ++ m :: members). by rewrite <- app_assoc.
          - exists (kept ++ m :: l), post. rewrite Hl, <- app_assoc. split; [done|].
            apply in_app_or in Hin as [Hin|Hin]; apply in_or_app; [by left|right; by right]. }
        by exists k', pre', post'.
  - intros E1. apply any_exc_false in E.
    destruct (IH (kept ++ [m]) _ _ (spread_snoc _ _ Hs E) E1) as (H1 & H2 & (more & -> & Hm) & H3 & H4).
    assert ((kept ++ [m]) ++ members = kept ++ m :: members) as Heq by (by rewrite <- app_assoc).
    rewrite Heq in H2, H4. split_and!; [done|done| |by constructor|done].
    exists (m :: more). rewrite <- app_assoc. split; [done|by constructor].
Qed.

Lemma insert_strike_perm x l : Permutation (insert_strike x l) (x :: l).
Proof.
  induction l as [|y l IH]; cbn; [done|]. destruct (ranks_before y x); [|done]. rewrite IH. constructor.
Qed.

Lemma sort_strikes_perm l : Permutation (sort_strikes l) l.
Proof. induction l as [|x l IH]; cbn; [done|]. rewrite insert_strike_perm. by constructor. Qed.

(** *** Which marker is the better one *)

(** The smaller uncertainty is better, and of equal ones the smaller uid. *)
Definition no_worse (a b : strike) : Prop :=
  flt (k_uncertainty a) (k_uncertainty b) = true \/
  feq (k_uncertainty a) (k_uncertainty b) = true /\ String.le (k_uid a) (k_uid b).

Definition numbered (s : strike) : Prop := k_uncertainty s <> S754_nan.

Lemma no_worse_rank a b : numbered a -> numbered b ->
  no_worse a b <-> rank_lt (frank (k_uncertainty a)) (frank (k_uncertainty b)) \/
    frank (k_uncertainty a) = frank (k_uncertainty b) /\ String.le (k_uid a) (k_uid b).
Proof. intros Ha Hb. unfold no_worse. by rewrite flt_rank, feq_rank by done. Qed.

Lemma no_worse_trans a b c : numbered a -> numbered b -> numbered c -> no_worse a b -> no_worse b c -> no_worse a c.
Proof.
  intros Ha Hb Hc. rewrite !no_worse_rank by done. unfold rank_lt.
  intros [Hab|[Eab Uab]] [Hbc|[Ebc Ubc]]; [left; lia|left; rewrite <- Ebc; lia|left; rewrite Eab; lia|right].
  split; [congruence|by etrans].
Qed.

Lemma ranks_before_spec a b : numbered a -> numbered b ->
  if ranks_before a b then no_worse a b else no_worse b a.
Proof.
  intros Ha Hb. unfold ranks_before, no_worse.
  pose proof (flt_rank _ _ Ha Hb) as H1. pose proof (flt_rank _ _ Hb Ha) as H2.
  pose proof (feq_rank _ _ Ha Hb) as H3. pose proof (feq_rank _ _ Hb Ha) as H4.
  destruct (feq (k_uncertainty a) (k_uncertainty b)).
  - assert (feq (k_uncertainty b) (k_uncertainty a) = true) as E by (apply H4; symmetry; by apply H3).
    unfold String.ltb. pose proof (String.compare_antisym (k_uid a) (k_uid b)) as Hc. unfold String.le, String.leb.
    destruct (String.compare (k_uid a) (k_uid b)), (String.compare (k_uid b) (k_uid a)); try done; by right.
  - destruct (flt (k_uncertainty a) (k_uncertainty b)); [by left|]. left. apply H2. unfold rank_lt in *.
    destruct (frank (k_uncertainty a)) as [[x y] z], (frank (k_uncertainty b)) as [[x' y'] z']. cbn [fst snd] in *.
    destruct (decide ((x, y, z) = (x', y', z'))) as [E|E]; [destruct H3 as [_ H3]; by specialize (H3 E)|].
    destruct H1 as [_ H1]. assert (x <> x' \/ y <> y' \/ z <> z') by (destruct (decide (x = x')), (decide (y = y')), (decide (z = z')); subst; tauto).
    destruct (decide (x < x' \/ x = x' /\ (y < y' \/ y = y' /\ z < z'))) as [Hd|Hd]; [by specialize (H1 Hd)|lia].
Qed.

Lemma insert_strike_sorted x l : numbered x -> Forall numbered l ->
  StronglySorted no_worse l -> StronglySorted no_worse (insert_strike x l).
Proof.
  intros Hx Hl Hs. induction Hs as [|y l Hs IH Hy]; cbn [insert_strike]; [by repeat constructor|].
  apply Forall_cons_1 in Hl as [Hny Hl]. pose proof (ranks_before_spec y x Hny Hx) as Hr.
  destruct (ranks_before y x).
  - constructor; [by apply IH|]. rewrite insert_strike_perm. by constructor.
  - constructor; [by constructor|]. constructor; [done|]. rewrite Forall_forall in *.
    intros z Hz. eapply (no_worse_trans x y z); auto.
Qed.

Lemma sort_strikes_sorted l : Forall numbered l -> StronglySorted no_worse (sort_strikes l).
Proof.
  induction 1 as [|x l Hx Hl IH]; cbn; [constructor|]. apply insert_strike_sorted; [done| |done]. by rewrite sort_strikes_perm.
Qed.

Lemma sorted_before pre r post k l : StronglySorted no_worse l -> l = pre ++ r :: post -> In k pre -> no_worse k r.
Proof.
  intros Hs ->. induction pre as [|x pre IH]; [by intros []|]. cbn [app] in Hs. apply StronglySorted_inv in Hs as [Hs Hx].
  intros [<-|Hk]; [|by apply IH]. rewrite Forall_forall in Hx. apply Hx, list_elem_of_In, in_elt.
Qed.

(** A report that takes part in merging. *)
Definition strike_report (track : dict) (now : float) (topic side day : string) : Prop :=
  _SIDE topic = Some side /\ is_strike_topic topic = true /\
  text_or_empty repr (dget_none track "uid") <> "" /\ is_str (dget track "role") "other" = false /\
  truthy (dget_none track "_delete") = false /\ (exists pos, strike_position track = Ok (Some pos)) /\
  _day track now = Ok day.
End Strikes.

(** C16: one attack, one marker.  A report leaves the markers of its side and
    day split in two: those kept are pairwise further apart than the merge
    distance, and each one retracted lies within it of a kept marker that is no
    worse: its uncertainty is smaller, or is the same and its uid not greater
    (uncertainties being numbers).  The call returns exactly the retracted ones,
    and never all of them. *)
Theorem strike_merge_exact `{Libm} repr st track now topic side day out :
  strike_report repr track now topic side day ->
  snd (observe_strike repr st track now topic) = Ok out ->
  exists group kept retract,
    fst (observe_strike repr st track now topic) !! (side, day) = Some group /\
    out = map (fun r => (k_uid r, k_topic r, k_type r)) retract /\
    Permutation (map snd group) (kept ++ retract) /\ spread kept /\
    Forall (fun r => exists k, In k kept /\ dup_of r k /\ (Forall numbered (map snd group) -> no_worse k r)) retract /\
    (group <> [] -> kept <> []).
Proof.
  intros (Hside & Htopic & Huid & Hrole & Hdel & [[[lat lon] u] Hpos] & Hday).
  unfold observe_strike. rewrite Hside, Htopic, Hrole, Hdel, Hpos, Hday.
  apply String.eqb_neq in Huid. rewrite Huid. cbn [negb orb]. cbv zeta.
  set (group := List.filter _ _). set (st1 := <[(side, day) := group]> _).
  cbn [fst snd].
  destruct (merge_strikes [] (sort_strikes (map snd group))) as [[kept retract]|] eqn:E; cbn [exc_bind]; [|done].
  intros [= <-]. apply merge_strikes_spec in E as (Hs & Hp & _ & _ & Hr); [|constructor].
  cbn [app] in Hp, Hr. exists group, kept, retract. split_and!; [apply lookup_insert_eq|done| |done| |].
  - by rewrite <- Hp, sort_strikes_perm.
  - eapply Forall_impl; [exact Hr|]. intros r (k & pre & post & Hk & Hd & Heq & Hin). exists k. split_and!; [done..|].
    intros Hn. by eapply sorted_before; [apply sort_strikes_sorted|exact Heq|].
  - intros Hg ->. destruct retract as [|r retract].
    + rewrite sort_strikes_perm in Hp. apply Permutation_nil_r in Hp. by destruct group.
    + apply Forall_cons_1 in Hr as [(k & ? & ? & [] & _) _].
Qed.

(** Two reports of one attack: a town centroid, then a geolocated mark. *)
Definition sample_report (uid : string) (lat : float) (uncertainty : Z) : dict :=
  [("uid", VStr uid); ("type", VStr "event"); ("lat_deg", VFloat lat); ("lon_deg", VInt 37);
   ("position_uncertainty_m", VInt uncertainty); ("event_date", VStr "2026-10-12")].
Definition sample_topic : string := "O/land/geoconfirmed/event/hostile/incident/event/GC/tracks/v1".

Lemma strike_merge_exact_witness :
  let observe st := @observe_strike small_angle_libm (fun _ => "") st in
  let st := fst (observe ∅ (sample_report "DSM-1" (fl 48) 5000) (fl 100) sample_topic) in
  let res := observe st (sample_report "GC-A" (dec 480005 4) 100) (fl 101) sample_topic in
  snd res = Ok [("DSM-1", sample_topic, "event")] /\
  exists group kept retract : list strike, Permutation group (kept ++ retract) /\ spread (H := small_angle_libm) kept /\
    [("DSM-1", sample_topic, "event")] = map (fun r => (k_uid r, k_topic r, k_type r)) retract /\
    Forall (fun r => exists k, In k kept /\ no_worse k r) retract.
Proof.
  cbv beta zeta.
  match goal with |- ?a = ?b /\ _ => assert (a = b) as Hout by (vm_compute; reflexivity) end.
  split; [exact Hout|].
  assert (strike_report (fun _ => "") (sample_report "GC-A" (dec 480005 4) 100) (fl 101)
            sample_topic "hostile" "2026-10-12") as Hrep
    by (split_and!; try reflexivity; [vm_compute; congruence|eexists; vm_compute; reflexivity]).
  destruct (@strike_merge_exact small_angle_libm _ _ _ _ _ _ _ _ Hrep Hout)
    as (group & kept & retract & Hg & H2 & H3 & H4 & H5 & _).
  exists (map snd group), kept, retract. split; [exact H3|]. split; [exact H4|]. split; [exact H2|].
  assert (Forall numbered (map snd group)) as Hn.
  { match type of Hg with ?l = _ => assert (exists g, l = Some g /\ Forall numbered (map snd g)) as (g & Hg' & Hn) end.
    { eexists. split; [vm_compute; reflexivity|]. repeat constructor; unfold numbered; discriminate. }
    rewrite Hg in Hg'. injection Hg' as ->. exact Hn. }
  eapply Forall_impl; [exact H5|]. intros r (k & Hk & _ & Hb). exists k. split; [exact Hk|exact (Hb Hn)].
Defined.

(** ** [TwinIndex] *)
Definition TWIN_FRESH_S : float := fl 120.
Definition TWIN_NEAR_KM : float := fl 10.
Definition _NAME_MIN_LEN : nat := 8.

Definition is_hex (c : ascii) : bool := match hex_digit c with Some _ => true | None => false end.

(** The texts [([A-Za-z]+[:_-])*] matches, read from the left; [some]: letters
    are waiting for their separator. *)
Fixpoint tagged (some : bool) (s : string) : bool :=
  match s with
  | EmptyString => negb some
  | String c s' =>
      if is_alpha c then tagged true s'
      else some && existsb (Ascii.eqb c) [":"%char; "_"%char; "-"%char] && tagged false s'
  end.

(** [_address(text)]: the six hexadecimal digits after the tags. *)
Definition _address (text : string) : option string :=
  let s := strip text in
  let n := String.length s in
  let digits := substring (n - 6) 6 s in
  if (6 <=? n)%nat && all_chars is_hex digits && tagged false (substring 0 (n - 6) s)
  then Some (lower digits) else None.

Example _address_ex : map _address ["48A5C6"; "STATES:48A5C6"; " Entity:aircraft:48a5c6 "; "48A5C"; "x:1:48A5C6"] =
  [Some "48a5c6"; Some "48a5c6"; Some "48a5c6"; None; None].
Proof. vm_compute. reflexivity. Qed.

(** The characters [_UNSAFE] replaces in a key segment. *)
Definition safe_text (s : string) : string :=
  smap (fun c => if is_alpha c || is_digit c || existsb (Ascii.eqb c) ["."%char; "_"%char; "-"%char] then c else "_"%char) s.

Definition civil_topic (topic_root icao24 : string) : string :=
  topic_root +:+ "/air/trackfusion/suppress/civil/" +:+ safe_text (lower icao24).
Definition twin_topic (topic_root uid : string) : string :=
  topic_root +:+ "/air/trackfusion/suppress/twin/" +:+ safe_text uid.

Definition any_char (f : ascii -> bool) (s : string) : bool := negb (all_chars (fun c => negb (f c)) s).

Definition _dimension_of (topic : string) : string :=
  default "" (find (fun part => selem part ["air"; "land"; "sea"; "space"]) (TrackViews.split topic)).

Definition _rank (track : dict) (topic : string) : Z :=
  let declared := existsb (fun part => selem part ["friendly"; "hostile"; "neutral"]) (TrackViews.split topic) in
  let moving := existsb (fun k => negb (is_none (dget_none track k))) ["heading_deg"; "speed_mps"] in
  2 * (if declared then 1 else 0) + (if moving then 1 else 0).

Section Twins.
Context `{Libm}.
Variable repr : value -> string.

Definition _callsign (track : dict) : string :=
  upper (strip (text_or_empty repr (dget_none track "callsign"))).

(** The last piece of a text cut at colons and slashes, when it is distinctive. *)
Definition name_token (text : string) : option string :=
  let token := lower (strip (List.last (split_by (fun c => Ascii.eqb c ":"%char || Ascii.eqb c "/"%char) text) "")) in
  if (_NAME_MIN_LEN <=? String.length token)%nat && any_char is_digit token then Some token else None.

Definition _name_key (track : dict) : option string :=
  let fix first fields :=
    match fields with
    | [] => None
    | field :: fields' =>
        match name_token (text_or_empty repr (dget_none track field)) with
        | Some token => Some token
        | None => first fields'
        end
    end in
  first ["callsign"; "label"; "uid"].

Definition _km (lat1 lon1 lat2 lon2 : value) : exc float :=
  let? lat1 := as_number lat1 in
  let? lat2 := as_number lat2 in
  let? dlat := nsub lat2 lat1 in
  let? dlat := to_float dlat in
  let? s1 := m_sin (fdiv_raw (radians dlat) (fl 2)) in
  let? a1 := square s1 in
  let? lat1 := to_float lat1 in
  let? c1 := m_cos (radians lat1) in
  let? lat2 := to_float lat2 in
  let? c2 := m_cos (radians lat2) in
  let? lon1 := as_number lon1 in
  let? lon2 := as_number lon2 in
  let? dlon := nsub lon2 lon1 in
  let? dlon := to_float dlon in
  let? s2 := m_sin (fdiv_raw (radians dlon) (fl 2)) in
  let? a2 := square s2 in
  let? r := math_sqrt (fadd a1 (fmul (fmul c1 c2) a2)) in
  let? g := m_asin r in
  Ok (fmul (fl 12742) g).

Record keyed := { y_seen : float; y_lat : value; y_lon : value; y_call : string }.
Record loose := { l_seen : float; l_address : option string; l_lat : value; l_lon : value; l_call : string }.
Record named_copy := { n_seen : float; n_lat : value; n_lon : value; n_rank : Z }.

Record twins := {
  t_keyed : gmap string keyed;
  t_by_call : gmap string keyed;
  t_loose : odict loose;
  t_named : gmap (string * string) (odict named_copy);
}.

Definition no_twins : twins := {| t_keyed := ∅; t_by_call := ∅; t_loose := []; t_named := ∅ |}.

(** [now - t > limit] *)
Definition older (limit now t : float) : bool := flt limit (fsub now t).

Definition _is_twin (st : twins) (e : loose) (now : float) : exc bool :=
  if older TWIN_FRESH_S now (l_seen e) then Ok false else
  let keyed := match l_address e with
               | Some a => t_keyed st !! a
               | None => None
               end in
  if match keyed with Some k => within TWIN_FRESH_S now (y_seen k) | None => false end then Ok true else
  match (if (4 <=? String.length (l_call e))%nat then t_by_call st !! l_call e else None) with
  | None => Ok false
  | Some same =>
      if negb (within TWIN_FRESH_S now (y_seen same)) then Ok false
      else let? d := _km (l_lat e) (l_lon e) (y_lat same) (y_lon same) in Ok (fle d TWIN_NEAR_KM)
  end.

Definition _forget (st : twins) (now : float) : twins :=
  let hour := fl 3600 in
  {| t_keyed := filter (fun kv => older hour now (y_seen (snd kv)) = false) (t_keyed st);
     t_by_call := filter (fun kv => older hour now (y_seen (snd kv)) = false) (t_by_call st);
     t_loose := List.filter (fun kv => negb (older hour now (l_seen (snd kv)))) (t_loose st);
     t_named := filter (fun kg => forallb (fun kv => older hour now (n_seen (snd kv))) (snd kg) = false) (t_named st) |}.

(** [min(group, key=lambda m: (-rank, m))] *)
Definition better (a b : string * named_copy) : bool :=
  if n_rank (snd a) =? n_rank (snd b) then String.ltb (fst a) (fst b) else n_rank (snd b) <? n_rank (snd a).

Fixpoint best_copy (best : string * named_copy) (group : odict named_copy) : string * named_copy :=
  match group with
  | [] => best
  | m :: group' => best_copy (if better m best then m else best) group'
  end.

(** The uids of a list for which a test that can raise holds. *)
Fixpoint select {A} (test : string * A -> exc bool) (l : odict A) : exc (list string) :=
  match l with
  | [] => Ok []
  | kv :: l' => let? b := test kv in let? us := select test l' in Ok (if b then fst kv :: us else us)
  end.

Definition _named_twins (st : twins) (track : dict) (uid : string) (lat lon : value) (topic : string) (now : float) :
    twins * exc (list string) :=
  match _name_key track with
  | None => (st, Ok [])
  | Some name =>
      let key := (_dimension_of topic, name) in
      let group := oset uid {| n_seen := now; n_lat := lat; n_lon := lon; n_rank := _rank track topic |}
                     (default [] (t_named st !! key)) in
      let group := List.filter (fun kv => negb (older TWIN_FRESH_S now (n_seen (snd kv)))) group in
      let st := {| t_keyed := t_keyed st; t_by_call := t_by_call st; t_loose := t_loose st;
                   t_named := <[key := group]> (t_named st) |} in
      match group with
      | [] => (st, Raise ValueError)
      | first :: rest =>
          let best := best_copy first rest in
          (st, select (fun m =>
                 if String.eqb (fst m) (fst best) then Ok false
                 else let? d := _km (n_lat (snd m)) (n_lon (snd m)) (n_lat (snd best)) (n_lon (snd best)) in
                      Ok (fle d TWIN_NEAR_KM)) group)
      end
  end.

(** The uids to announce. *)
Definition observe_twin (st : twins) (track : dict) (now : float) (topic : string) : twins * exc (list string) :=
  let lat := dget_none track "lat_deg" in
  let lon := dget_none track "lon_deg" in
  let uid := let u := dget_none track "uid" in if truthy u then u else dget_none track "icao24" in
  if truthy (dget_none track "_delete") || is_none lat || is_none lon || negb (truthy uid)
     || truthy (dget_none track "geometry") || endswith "-TRAIL" (py_str repr uid)
  then (st, Ok []) else
  let callsign := _callsign track in
  let icao := lower (strip (text_or_empty repr (dget_none track "icao24"))) in
  if negb (String.eqb icao "") then
    let st := {| t_keyed := <[icao := {| y_seen := now; y_lat := lat; y_lon := lon; y_call := callsign |}]> (t_keyed st);
                 t_by_call := if (4 <=? String.length callsign)%nat
                              then <[callsign := {| y_seen := now; y_lat := lat; y_lon := lon; y_call := icao |}]> (t_by_call st)
                              else t_by_call st;
                 t_loose := t_loose st; t_named := t_named st |} in
    (st, select (fun kv => _is_twin st (snd kv) now) (t_loose st))
  else
    let uid := py_str repr uid in
    let address := match _address uid with
                   | Some a => Some a
                   | None => _address (text_or_empty repr (dget_none track "callsign"))
                   end in
    let e := {| l_seen := now; l_address := address; l_lat := lat; l_lon := lon; l_call := callsign |} in
    let st := _forget {| t_keyed := t_keyed st; t_by_call := t_by_call st;
                         t_loose := oset uid e (t_loose st); t_named := t_named st |} now in
    match _is_twin st e now with
    | Raise x => (st, Raise x)
    | Ok true => (st, Ok [uid])
    | Ok false => _named_twins st track uid lat lon topic now
    end.

(** *** The best copy stays *)
Lemma best_copy_In best group : In (best_copy best group) (best :: group).
Proof.
  revert best. induction group as [|m group IH]; intros best; cbn [best_copy]; [by left|].
  destruct (IH (if better m best then m else best)) as [Hb|Hb]; [|by right; right].
  rewrite <- Hb. destruct (better m best); [by right; left|by left].
Qed.

Lemma best_copy_rank best group m :
  In m (best :: group) -> n_rank (snd m) <= n_rank (snd (best_copy best group)).
Proof.
  revert best m. induction group as [|x group IH]; intros best m; cbn [best_copy].
  - intros [<-|[]]. lia.
  - assert (n_rank (snd best) <= n_rank (snd (if better x best then x else best)) /\
            n_rank (snd x) <= n_rank (snd (if better x best then x else best))) as [Hb Hx].
    { destruct (better x best) eqn:E; unfold better in E;
        destruct (Z.eqb_spec (n_rank (snd x)) (n_rank (snd best))); cbn; lia. }
    pose proof (IH (if better x best then x else best) _ (or_introl eq_refl)).
    intros [<-|[<-|Hin]]; [lia|lia|]. apply IH. by right.
Qed.

Lemma select_In {A} (test : string * A -> exc bool) l us u :
  select test l = Ok us -> In u us -> exists a, In (u, a) l /\ test (u, a) = Ok true.
Proof.
  revert us. induction l as [|[k a] l IH]; intros us; cbn [select]; [by intros [= <-]|].
  destruct (test (k, a)) as [b|] eqn:E; cbn [exc_bind]; [|done].
  destruct (select test l) as [us'|]; cbn [exc_bind]; [|done]. intros [= <-] Hu.
  assert (b = true /\ u = k \/ In u us') as [[-> ->]|Hin]
    by (destruct b; [destruct Hu as [<-|Hu]; auto|auto]).
  - exists a. split; [by left|done].
  - destruct (IH _ eq_refl Hin) as (a' & Ha & Ht). exists a'. split; [by right|done].
Qed.
End Twins.

(** Of the fresh copies of a named object, the one kept declares as much as
    any other; it is not announced, and only copies of the group are.  So a
    name never loses all its markers to one announcement. *)
Theorem best_named_copy_stays `{Libm} repr st track uid lat lon topic now us name :
  _name_key repr track = Some name ->
  snd (_named_twins repr st track uid lat lon topic now) = Ok us ->
  exists group best,
    t_named (fst (_named_twins repr st track uid lat lon topic now)) !! (_dimension_of topic, name) = Some group /\ In best group /\
    Forall (fun kv => older TWIN_FRESH_S now (n_seen (snd kv)) = false) group /\
    (forall m, In m group -> n_rank (snd m) <= n_rank (snd best)) /\
    ~ In (fst best) us /\ (forall u, In u us -> exists c, In (u, c) group).
Proof.
  unfold _named_twins. intros ->. cbv zeta. set (group := List.filter _ _).
  assert (Forall (fun kv => older TWIN_FRESH_S now (n_seen (snd kv)) = false) group) as Hfresh.
  { apply List.Forall_forall. intros kv [_ Hk]%filter_In. by apply negb_true_iff. }
  destruct group as [|first rest] eqn:Hg; [done|]. set (best := best_copy first rest).
  intros Hsel. cbn [fst snd] in Hsel |- *.
  exists (first :: rest), best. cbn [t_named].
  split_and!; [apply lookup_insert_eq|apply best_copy_In|done|apply best_copy_rank| |].
  - intros (c & _ & Ht)%(select_In _ _ _ _ Hsel). cbn [fst] in Ht.
    by rewrite String.eqb_refl in Ht.
  - intros u (c & Hc & _)%(select_In _ _ _ _ Hsel). eauto.
Qed.

Lemma best_named_copy_stays_witness :
  let copy uid := [("uid", VStr uid); ("label", VStr "drone_telemetry:deltaquad-nvrec5"); ("heading_deg", VInt 9)] in
  let topic := "O/air/x/y/hostile/drone" in
  let named st := @_named_twins small_angle_libm (fun _ => "") st in
  let st := fst (named no_twins (copy "b") "b" (VInt 50) (VInt 30) topic (fl 1)) in
  snd (named st (copy "a") "a" (VInt 50) (VInt 30) topic (fl 2)) = Ok ["b"] /\
  exists best : string * named_copy, ~ In (fst best) ["b"].
Proof.
  cbv beta zeta.
  match goal with |- ?a = ?b /\ _ => assert (a = b) as Hout by (vm_compute; reflexivity) end.
  split; [exact Hout|].
  match type of Hout with snd (_named_twins ?repr _ ?track _ _ _ _ _) = _ =>
    assert (_name_key repr track = Some "deltaquad-nvrec5") as Hname by (vm_compute; reflexivity) end.
  destruct (@best_named_copy_stays small_angle_libm _ _ _ _ _ _ _ _ _ _ Hname Hout)
    as (group & best & _ & _ & _ & _ & Hb & _).
  exists best. exact Hb.
Defined.
