(* ===== verification/Fusion.v ===== *)
(** * Track fusion

    compose/protocols/vendors/random/fusion.py, [TrackFuser]: the caches of
    radar and ADS-B tracks, their correlation, the cross-radar handoff, the
    corroboration with NEPTUN threats and the announcements that hold copies
    back.  A handler is a computation over the fuser's state that puts samples
    on the fabric and may raise; each reading of the clock is an argument. *)

From Stdlib Require Import SpecFloat.
From S2P Require Import Prelude PyFloat PyData Schema TrackViews PyText PyNum Dedup Echoes Markers.
From stdpp Require Import gmap strings.
From coqutil Require Import Datatypes.RecordSetters.
Import OCamlLikeNotations.
Import Actions.
#[local] Open Scope Z_scope.
#[local] Open Scope py_scope.
#[local] Open Scope act_scope.

(** ** State *)
Record cached := { c_track : dict; c_topic : string; c_ts : float }.

(** A dictionary whose keys are JSON values. *)
Abbreviation vdict V := (list (value * V)).

Section VDict.
Context {V : Type}.
Fixpoint vget (d : vdict V) (k : value) : option V :=
  match d with [] => None | (k', v) :: d' => if py_eq k' k then Some v else vget d' k end.
Fixpoint vset (k : value) (v : V) (d : vdict V) : vdict V :=
  match d with
  | [] => [(k, v)]
  | (k', v') :: d' => if py_eq k' k then (k', v) :: d' else (k', v') :: vset k v d'
  end.
Definition vpop (k : value) (d : vdict V) : vdict V := List.filter (fun kv => negb (py_eq (fst kv) k)) d.
End VDict.

Record fuser := {
  radar_tracks : odict cached;
  adsb_tracks : odict cached;
  adsb_by_icao : gmap string string;
  radar_by_icao : gmap string string;
  adsb_by_squawk : vdict (list string);
  radar_primary : odict string;
  neptun_tracks : vdict cached;
  suppress_sent : vdict float;
  twin_index : twins;
  twin_sent : gmap string float;
  occupied : list value;
  occupied_seen : float;
  strike_index : gmap (string * string) (odict strike);
}.

Definition new_fuser : fuser := {|
  radar_tracks := []; adsb_tracks := []; adsb_by_icao := ∅; radar_by_icao := ∅; adsb_by_squawk := [];
  radar_primary := []; neptun_tracks := []; suppress_sent := []; twin_index := no_twins; twin_sent := ∅;
  occupied := []; occupied_seen := fl 0; strike_index := ∅ |}.

(** What is put on the fabric: a track in every view on a collection key, or
    one JSON sample. *)
Inductive put := Collection (topic : string) (track : dict) | Sample (topic : string) (data : dict).

(** ** Computations *)
Abbreviation fm := (act fuser put).

(** ** Configuration *)
Record config := {
  TOPIC_ROOT : string;
  _SPATIAL_NM : float;
  _MAX_AGE_S : float;
  _RADAR_PREF : bool;
  _HANDOFF_NM : float;
  _NEPTUN_MIN_NM : float;
  _NEPTUN_MAX_NM : float;
  _NEPTUN_UAV_MAX_MS : float;
  _NEPTUN_MISSILE_MIN_MS : float;
}.

Definition default_config : config := {|
  TOPIC_ROOT := "efdi"; _SPATIAL_NM := fl 2; _MAX_AGE_S := fl 60; _RADAR_PREF := true; _HANDOFF_NM := fl 2;
  _NEPTUN_MIN_NM := fl 1; _NEPTUN_MAX_NM := fl 5; _NEPTUN_UAV_MAX_MS := fl 220; _NEPTUN_MISSILE_MIN_MS := fl 100 |}.

Definition _HANDOFF_HDG_TOL : float := fl 45.
Definition _NEPTUN_HDG_TOL : float := fl 60.
Definition _SUPPRESS_REFRESH_S : float := fl 5.
Definition OCCUPIED_TTL_S : float := fl 93600.
Definition _MILITARY_AIR : list string :=
  ["/friendly/aircraft/"; "/hostile/aircraft/"; "/neutral/aircraft/"; "/mil/aircraft/"].
Definition _ID_FIELDS : list string :=
  ["callsign"; "registration"; "aircraft_type"; "icao24"; "squawk"; "origin"; "destination"; "operator";
   "route"; "rssi_db"; "emitter_category_str"; "on_ground"].
Definition _ADSB_SUPPLEMENT : list string := ["vertical_rate_ms"].
Definition _RADAR_FIELDS : list string :=
  ["lat_deg"; "lon_deg"; "alt_m"; "alt_baro_ft"; "alt_3d_ft"; "speed_ms"; "heading_deg"; "range_nm";
   "azimuth_deg"; "range_nm"; "sac"; "sic"; "track_num"; "radar_id"; "tod_s"].
Definition _NEPTUN_MISSILE_TYPES : list string := ["missile"; "ballistic"; "kab"].
Definition _NEPTUN_UAV_TYPES : list string := ["uav"; "fpv"; "recon"].

(** ** Geometry *)
Section Geometry.
Context `{Libm}.

(** [lat2 - lat1] and the like, as a float. *)
Definition vsub_float (a b : value) : exc float :=
  let? x := as_number a in let? y := as_number b in let? d := nsub x y in to_float d.

Definition value_float (v : value) : exc float := let? x := as_number v in to_float x.

Definition _haversine_nm (lat1 lon1 lat2 lon2 : value) : exc float :=
  let? dlat := vsub_float lat2 lat1 in
  let dlat := radians dlat in
  let? dlon := vsub_float lon2 lon1 in
  let dlon := radians dlon in
  let? s1 := m_sin (fdiv_raw dlat (fl 2)) in
  let? a1 := square s1 in
  let? lat1 := value_float lat1 in
  let? c1 := m_cos (radians lat1) in
  let? lat2 := value_float lat2 in
  let? c2 := m_cos (radians lat2) in
  let? s2 := m_sin (fdiv_raw dlon (fl 2)) in
  let? a2 := square s2 in
  let a := fadd a1 (fmul (fmul c1 c2) a2) in
  let? r1 := math_sqrt a in
  let? r2 := math_sqrt (fsub (fl 1) a) in
  let? g := m_atan2 r1 r2 in
  Ok (fmul (fmul (dec 3440065 3) (fl 2)) g).

(** Dead reckoning; the position unchanged when there is no speed. *)
Definition _extrapolate_pos (lat lon speed_ms heading_deg : value) (dt : float) : exc (value * value) :=
  if is_none lat || is_none lon || negb (truthy speed_ms) then Ok (lat, lon) else
  let? speed := as_number speed_ms in
  let? d := nmul speed (NFloat dt) in
  let? d := to_float d in
  let R := fl 6371000 in
  let? hdg := if truthy heading_deg then value_float heading_deg else Ok (fl 0) in
  let az := radians hdg in
  let? lat := value_float lat in
  let la := radians lat in
  let? lon := value_float lon in
  let lo := radians lon in
  let? sin_la := m_sin la in
  let? cos_dR := m_cos (fdiv_raw d R) in
  let? cos_la := m_cos la in
  let? sin_dR := m_sin (fdiv_raw d R) in
  let? cos_az := m_cos az in
  let? la2 := m_asin (fadd (fmul sin_la cos_dR) (fmul (fmul cos_la sin_dR) cos_az)) in
  let? sin_az := m_sin az in
  let? sin_la2 := m_sin la2 in
  let? dlo := m_atan2 (fmul (fmul sin_az sin_dR) cos_la) (fsub cos_dR (fmul sin_la sin_la2)) in
  Ok (VFloat (degrees la2), VFloat (degrees (fadd lo dlo))).

Definition _heading_diff (a b : value) : exc number :=
  let? x := as_number a in
  let? y := as_number b in
  let? d := nsub x y in
  let diff := nmod (nabs d) 360 in
  if nlt (NInt 180) diff then nsub (NInt 360) diff else Ok diff.

(** [region_geometry.contains]: a ring is a list of two-element points. *)
Definition coordinate (p : value) (i : nat) : exc value :=
  match p with
  | VList l => match nth_error l i with Some v => Ok v | None => Raise IndexError end
  | VDict _ => Raise KeyError
  | _ => Raise TypeError
  end.

(** [min(p[i] for p in ring)], or [max]: [test x y] says [x] replaces [y]. *)
Fixpoint extremum (test : number -> number -> bool) (i : nat) (best : value) (ring : list value) : exc value :=
  match ring with
  | [] => Ok best
  | p :: ring' =>
      let? v := coordinate p i in
      let? b := vcompare test v best in
      extremum test i (if b then v else best) ring'
  end.

Definition extremum_of (test : number -> number -> bool) (i : nat) (ring : list value) : exc value :=
  match ring with
  | [] => Raise ValueError
  | p :: ring' => let? v := coordinate p i in extremum test i v ring'
  end.

Definition point (p : value) : exc (number * number) :=
  match p with
  | VList [x; y] => let? x := as_number x in let? y := as_number y in Ok (x, y)
  | VList _ => Raise ValueError
  | VDict _ => Raise ValueError
  | _ => Raise TypeError
  end.

Definition crosses (a b : number * number) (lon lat : number) : exc bool :=
  let '(x1, y1) := a in
  let '(x2, y2) := b in
  if Bool.eqb (nlt lat y1) (nlt lat y2) then Ok false else
  let? dx := nsub x2 x1 in
  let? dy := nsub lat y1 in
  let? n := nmul dx dy in
  let? d := nsub y2 y1 in
  let? q := ndiv n d in
  let? x := nadd (NFloat q) x1 in
  Ok (nlt lon x).

Fixpoint _in_ring (inside : bool) (ring : list value) (lon lat : number) : exc bool :=
  match ring with
  | p :: (q :: _) as rest =>
      let? a := point p in
      let? b := point q in
      let? c := crosses a b lon lat in
      _in_ring (if c then negb inside else inside) rest lon lat
  | _ => Ok inside
  end.

Definition in_region (ring : value) (lon lat : float) : exc bool :=
  match ring with
  | VList ring =>
      let lower := fun n m => nlt n m in
      let upper := fun n m => nlt m n in
      let? x0 := extremum_of lower 0 ring in
      let? c := vcompare nle x0 (VFloat lon) in
      if negb c then Ok false else
      let? x1 := extremum_of upper 0 ring in
      let? c := vcompare nle (VFloat lon) x1 in
      if negb c then Ok false else
      let? y0 := extremum_of lower 1 ring in
      let? c := vcompare nle y0 (VFloat lat) in
      if negb c then Ok false else
      let? y1 := extremum_of upper 1 ring in
      let? c := vcompare nle (VFloat lat) y1 in
      if negb c then Ok false else _in_ring false ring (NFloat lon) (NFloat lat)
  | _ => Raise TypeError
  end.
End Geometry.

(** ** Helpers *)
Section Fuser.
Context `{Libm}.
Variable repr : value -> string.
Variable cfg : config.

Definition _OWN_PREFIX : string := TOPIC_ROOT cfg +:+ "/air/trackfusion/".
Definition TOPIC_FUSED (affiliation : string) : string :=
  TOPIC_ROOT cfg +:+ "/air/trackfusion/fused/" +:+ affiliation +:+ "/aircraft".
Definition _SUPPRESS_TOPIC (uid : string) : string := TOPIC_ROOT cfg +:+ "/air/trackfusion/suppress/neptun/" +:+ uid.

Definition _uid_of (track : dict) : string :=
  let fix first fields :=
    match fields with
    | [] => "unknown"
    | field :: fields' =>
        let v := dget_none track field in
        if truthy v then py_str repr v else first fields'
    end in
  first ["icao24"; "uid"; "track_num"; "radar_id"; "mmsi"].

(** [track.get("icao24", "").strip().lower()] *)
Definition icao_of (track : dict) : exc string :=
  match dget_or track "icao24" (VStr "") with
  | VStr s => Ok (lower (strip s))
  | _ => Raise AttributeError
  end.

(** [sq and sq not in ("0000", "7500", "7600", "7700")] *)
Definition squawk_usable (sq : value) : bool :=
  truthy sq && negb (existsb (fun s => py_eq sq (VStr s)) ["0000"; "7500"; "7600"; "7700"]).

(** The last segment of a key without its version. *)
Definition last_segment (topic : string) : string := List.last (TrackViews.split topic) "".

(** A sample the handlers of tracks take: a versioned key of the JSON view. *)
Definition json_view (topic : string) : bool :=
  endswith "/tracks/v1" topic && negb (selem (last_segment (strip_version topic)) ["sapient"; "proto"; "raw"]).

Definition stale (now ts : float) : bool := flt (_MAX_AGE_S cfg) (fsub now ts).

(** ** Cache maintenance *)

(** The first other radar track of the group of [k] that is still fresh. *)
Definition next_primary (k : string) (gone : list string) (f : fuser) : option string :=
  option_map fst (find (fun kv => String.eqb (snd kv) k && negb (selem (fst kv) gone) &&
                                  match oget (radar_tracks f) (fst kv) with Some _ => true | None => false end)
                       (radar_primary f)).

(** Repoint the group of [k] to its new primary. *)
Definition promote (k new : string) (primary : odict string) : odict string :=
  oset new new (map (fun kv => (fst kv, if String.eqb (snd kv) k then new else snd kv)) primary).

Definition age_out_primary (k : string) (gone : list string) (f : fuser) : odict string :=
  opop k (match oget (radar_primary f) k with
          | Some p => if String.eqb p k
                      then match next_primary k gone f with
                           | Some new => promote k new (radar_primary f)
                           | None => radar_primary f
                           end
                      else radar_primary f
          | None => radar_primary f
          end).

Definition age_out_radar (gone : list string) (k : string) : fm unit :=
  entry <- gets (fun f => oget (radar_tracks f) k) ;;
  match entry with
  | None => lift (Raise KeyError)
  | Some entry =>
      modify (fun f => { f with radar_tracks ::= opop k }) ;;
      icao <- lift (icao_of (c_track entry)) ;;
      modify (fun f => if negb (String.eqb icao "") && bool_decide (radar_by_icao f !! icao = Some k)
                       then { f with radar_by_icao ::= delete icao } else f) ;;
      modify (fun f => { f with radar_primary := age_out_primary k gone f })
  end.

(** [l.remove(k)], if [k] is there. *)
Fixpoint remove_first (k : string) (l : list string) : list string :=
  match l with [] => [] | x :: l' => if String.eqb x k then l' else x :: remove_first k l' end.

Definition age_out_adsb (k : string) : fm unit :=
  entry <- gets (fun f => oget (adsb_tracks f) k) ;;
  match entry with
  | None => lift (Raise KeyError)
  | Some entry =>
      modify (fun f => { f with adsb_tracks ::= opop k }) ;;
      icao <- lift (icao_of (c_track entry)) ;;
      modify (fun f => { f with adsb_by_icao ::= delete icao }) ;;
      let sq := dget_or (c_track entry) "squawk" (VStr "") in
      if negb (hashable sq) then lift (Raise TypeError) else
      modify (fun f => match vget (adsb_by_squawk f) sq with
                       | Some uids => { f with adsb_by_squawk ::= vset sq (remove_first k uids) }
                       | None => f
                       end)
  end.

Definition stale_keys (now : float) (d : odict cached) : list string :=
  map fst (List.filter (fun kv => stale now (c_ts (snd kv))) d).

Definition _age_out (now : float) : fm unit :=
  gone <- gets (fun f => stale_keys now (radar_tracks f)) ;;
  gone_adsb <- gets (fun f => stale_keys now (adsb_tracks f)) ;;
  for_each gone (age_out_radar gone) ;;
  for_each gone_adsb age_out_adsb.

(** The timer's callback: ages the caches, then starts the next timer; [true]
    says that it did. *)
Definition _start_age_timer (now : float) : fm bool := _age_out now ;; ret true.

(** ** Cross-radar handoff *)

(** [d.get(k, 0) or 0] *)
Definition or_zero (v : value) : value := if truthy v then v else VInt 0.

(** The state of the search: the distance to beat, and the primary found. *)
Abbreviation candidate := (float * option string)%type.

Definition consider (track : dict) (uid : string) (now : float) (f : fuser) (best : candidate)
    (other : string * cached) : exc candidate :=
  let o := c_track (snd other) in
  if String.eqb (fst other) uid then Ok best else
  if py_eq (dget_none o "sac") (dget_none track "sac") && py_eq (dget_none o "sic") (dget_none track "sic")
  then Ok best else
  if truthy (dget_none o "icao24") then Ok best else
  let dt := fsub now (c_ts (snd other)) in
  if flt (_MAX_AGE_S cfg) dt then Ok best else
  let? (o_lat, o_lon) := _extrapolate_pos (dget_none o "lat_deg") (dget_none o "lon_deg")
                           (or_zero (dget_none o "speed_ms")) (or_zero (dget_none o "heading_deg")) dt in
  if is_none o_lat then Ok best else
  let? d := _haversine_nm (dget_none track "lat_deg") (dget_none track "lon_deg") o_lat o_lon in
  if fle (fst best) d then Ok best else
  let r_hdg := dget_none track "heading_deg" in
  let o_hdg := dget_none o "heading_deg" in
  let? apart := if is_none r_hdg || is_none o_hdg then Ok false
                else let? diff := _heading_diff r_hdg o_hdg in Ok (nlt (NFloat _HANDOFF_HDG_TOL) diff) in
  if apart then Ok best
  else Ok (d, Some (default (fst other) (oget (radar_primary f) (fst other)))).

Fixpoint consider_all (track : dict) (uid : string) (now : float) (f : fuser) (best : candidate)
    (others : odict cached) : exc candidate :=
  match others with
  | [] => Ok best
  | other :: others' => let? best := consider track uid now f best other in consider_all track uid now f best others'
  end.

Definition _cross_radar_associate (track : dict) (uid : string) (now : float) : fm string :=
  if truthy (dget_none track "icao24") then ret uid else
  (if is_none (dget_none track "lat_deg") || is_none (dget_none track "lon_deg")
   then modify (fun f => { f with radar_primary ::= osetdefault uid uid })
   else
     best <- (fun f => (f, [], consider_all track uid now f (_HANDOFF_NM cfg, None) (radar_tracks f))) ;;
     modify (fun f => match snd best with
                      | Some p => { f with radar_primary ::= oset uid p }
                      | None => { f with radar_primary ::= osetdefault uid uid }
                      end)) ;;
  primary <- gets (fun f => oget (radar_primary f) uid) ;;
  match primary with Some p => ret p | None => lift (Raise KeyError) end.

(** ** Correlation with ADS-B *)

(** [abs(a - b) < 500] *)
Definition close_altitude (a b : value) : exc bool :=
  let? x := as_number a in
  let? y := as_number b in
  let? d := nsub x y in
  Ok (nlt (nabs d) (NInt 500)).

Definition fresh_entry (now : float) (e : cached) : bool := flt (fsub now (c_ts e)) (_MAX_AGE_S cfg).

Fixpoint match_squawk (now : float) (r_alt : value) (f : fuser) (uids : list string) : exc (option dict) :=
  match uids with
  | [] => Ok None
  | uid :: uids' =>
      match oget (adsb_tracks f) uid with
      | Some entry =>
          if negb (fresh_entry now entry) then match_squawk now r_alt f uids' else
          let a_alt := dget_none (c_track entry) "alt_baro_ft" in
          let? close := if truthy r_alt && truthy a_alt then close_altitude r_alt a_alt else Ok false in
          if close || (is_none r_alt && is_none a_alt) then Ok (Some (c_track entry))
          else match_squawk now r_alt f uids'
      | None => match_squawk now r_alt f uids'
      end
  end.

Fixpoint match_spatial (now : float) (lat lon : value) (best : (float * option dict)%type) (entries : odict cached) :
    exc (option dict) :=
  match entries with
  | [] => Ok (snd best)
  | (_, entry) :: entries' =>
      let t := c_track entry in
      if negb (fresh_entry now entry) || is_none (dget_none t "lat_deg") || is_none (dget_none t "lon_deg")
      then match_spatial now lat lon best entries' else
      let? d := _haversine_nm lat lon (dget_none t "lat_deg") (dget_none t "lon_deg") in
      match_spatial now lat lon (if flt d (fst best) then (d, Some t) else best) entries'
  end.

(** The mark [_fusion_method] that a spatial match adds is only printed. *)
Definition _find_match (radar : dict) (now : float) (f : fuser) : exc (option dict) :=
  let? icao := icao_of radar in
  let by_icao :=
    if String.eqb icao "" then None else
    match adsb_by_icao f !! icao with
    | Some uid => if String.eqb uid "" then None else
                  match oget (adsb_tracks f) uid with
                  | Some entry => if fresh_entry now entry then Some (c_track entry) else None
                  | None => None
                  end
    | None => None
    end in
  match by_icao with
  | Some t => Ok (Some t)
  | None =>
      let sq := dget_or radar "squawk" (VStr "") in
      let? by_squawk :=
        if squawk_usable sq then
          if negb (hashable sq) then Raise TypeError
          else match_squawk now (dget_none radar "alt_baro_ft") f (default [] (vget (adsb_by_squawk f) sq))
        else Ok None in
      match by_squawk with
      | Some t => Ok (Some t)
      | None =>
          let lat := dget_none radar "lat_deg" in
          let lon := dget_none radar "lon_deg" in
          if is_none lat || is_none lon then Ok None
          else match_spatial now lat lon (_SPATIAL_NM cfg, None) (adsb_tracks f)
      end
  end.

Definition copy_fields (keys : list string) (from into : dict) : dict :=
  fold_left (fun d k => match dget from k with Some v => dset k v d | None => d end) keys into.

(** [max(a, b)] of two values *)
Definition vmax (a b : value) : exc value := let? gt := vcompare nlt a b in Ok (if gt then b else a).

(** [d.pop(k, None)] *)
Definition dpop (k : string) (d : dict) : dict := List.filter (fun kv => negb (String.eqb (fst kv) k)) d.

Definition _merge (radar adsb : dict) : exc dict :=
  let fused :=
    if _RADAR_PREF cfg then
      let fused := copy_fields _ID_FIELDS adsb radar in
      fold_left (fun d k => match dget adsb k with
                            | Some v => dsetdefault k v d
                            | None => d
                            end) _ADSB_SUPPLEMENT fused
    else copy_fields _RADAR_FIELDS radar adsb in
  let? ts := vmax (dget_or radar "_ts" (VInt 0)) (dget_or adsb "_ts" (VInt 0)) in
  let fused := dset "_ts" ts fused in
  let src := py_str repr (dget_or radar "_src" (VStr "radar")) +:+ " + " +:+
             py_str repr (dget_or adsb "_src" (VStr "adsb")) in
  let fused := dset "_src" (VStr src) fused in
  Ok (dpop "_fusion_method" fused).

(** ** NEPTUN corroboration *)

(** [(v or "").lower()] *)
Definition lower_or_empty (v : value) : exc string :=
  if negb (truthy v) then Ok "" else
  match v with VStr s => Ok (lower s) | _ => Raise AttributeError end.

Definition _neptun_pair_ok (radar threat : dict) : exc bool :=
  let lat := dget_none radar "lat_deg" in
  let lon := dget_none radar "lon_deg" in
  let t_lat := dget_none threat "lat_deg" in
  let t_lon := dget_none threat "lon_deg" in
  if truthy (dget_none radar "icao24") || is_none lat || is_none lon || is_none t_lat || is_none t_lon
  then Ok false else
  let? unc := value_float (or_zero (dget_none threat "position_uncertainty_m")) in
  let radius := fmin (fmax (fdiv_raw unc (fl 1852)) (_NEPTUN_MIN_NM cfg)) (_NEPTUN_MAX_NM cfg) in
  let? d := _haversine_nm lat lon t_lat t_lon in
  if flt radius d then Ok false else
  let r_hdg := dget_none radar "heading_deg" in
  let n_hdg := dget_none threat "heading_deg" in
  let? apart := if is_none r_hdg || is_none n_hdg then Ok false
                else let? diff := _heading_diff r_hdg n_hdg in Ok (nlt (NFloat _NEPTUN_HDG_TOL) diff) in
  if apart then Ok false else
  let speed := dget_none radar "speed_ms" in
  let? kind := lower_or_empty (dget_none threat "type") in
  if truthy speed && selem kind _NEPTUN_MISSILE_TYPES then
    vcompare nle (VFloat (_NEPTUN_MISSILE_MIN_MS cfg)) speed
  else if truthy speed && selem kind _NEPTUN_UAV_TYPES then
    vcompare nle speed (VFloat (_NEPTUN_UAV_MAX_MS cfg))
  else Ok true.

Fixpoint filter_exc {A} (test : A -> exc bool) (l : list A) : exc (list A) :=
  match l with
  | [] => Ok []
  | x :: l' => let? b := test x in let? r := filter_exc test l' in Ok (if b then x :: r else r)
  end.

(** The threat one radar track corroborates: the only fresh one it fits, when
    no other radar object fits that threat. *)
Definition match_neptun (radar : dict) (radar_uid : string) (radar_cache : odict cached)
    (neptun : vdict cached) (now : float) (ident : string -> string) : exc (option (value * cached)) :=
  let fresh := List.filter (fun kv => fle (fsub now (c_ts (snd kv))) (_MAX_AGE_S cfg)) neptun in
  let? candidates := filter_exc (fun kv => _neptun_pair_ok radar (c_track (snd kv))) fresh in
  match candidates with
  | [(threat_uid, threat)] =>
      let me := ident radar_uid in
      let? other := any_exc (fun kv =>
        if flt (_MAX_AGE_S cfg) (fsub now (c_ts (snd kv))) || String.eqb (ident (fst kv)) me then Ok false
        else _neptun_pair_ok (c_track (snd kv)) (c_track threat)) radar_cache in
      Ok (if other then None else Some (threat_uid, threat))
  | _ => Ok None
  end.

Definition neptun_label (threat : dict) : string :=
  let place := let l := dget_none threat "locality" in
               if truthy l then l else let r := dget_none threat "region" in if truthy r then r else VStr "" in
  strip ("Also reported by NEPTUN (" +:+ py_str repr (dget_or threat "type" (VStr "threat")) +:+ " " +:+
         py_str repr place +:+ ")").

Definition _corroborate_with_neptun (fused radar : dict) (now : float) : fm dict :=
  let radar_uid := _uid_of radar in
  modify (fun f => { f with neptun_tracks ::= List.filter (fun kv => negb (stale now (c_ts (snd kv)))) }) ;;
  found <- (fun f => (f, [], match_neptun radar radar_uid (radar_tracks f) (neptun_tracks f) now
                               (fun u => default u (oget (radar_primary f) u)))) ;;
  match found with
  | Some (uid, threat) =>
      if negb (truthy uid) then ret fused else
      sent <- gets (fun f => default (fl 0) (vget (suppress_sent f) uid)) ;;
      let announce := fle _SUPPRESS_REFRESH_S (fsub now sent) in
      when announce (modify (fun f => { f with suppress_sent ::= vset uid now })) ;;
      let label := neptun_label (c_track threat) in
      let remarks := dget_none fused "remarks" in
      let text := if truthy remarks then py_str repr remarks +:+ "; " +:+ label else label in
      when announce (emit (Sample (_SUPPRESS_TOPIC (py_str repr uid))
        [("uid", uid); ("radar_uid", VStr radar_uid); ("ts", VFloat now)])) ;;
      ret (dset "remarks" (VStr text) fused)
  | None => ret fused
  end.

(** ** Handlers

    A sample is a key and the value of its JSON payload, [None] when it is no
    JSON text; a payload that is no object raises AttributeError. *)
Definition with_track (payload : option value) (k : dict -> fm unit) : fm unit :=
  match payload with
  | Some (VDict track) => k track
  | Some _ => lift (Raise AttributeError)
  | None => ret tt
  end.

Definition _fuse_and_publish (radar : dict) (t_match t_corr : float) : fm unit :=
  adsb <- (fun f => (f, [], _find_match radar t_match f)) ;;
  fused <- match adsb with Some a => lift (_merge radar a) | None => ret radar end ;;
  fused <- _corroborate_with_neptun fused radar t_corr ;;
  let aff_slot := match adsb with
                  | None => "unknown"
                  | Some a => if truthy (dget_none a "is_military") then "mil" else "civ"
                  end in
  emit (Collection (TOPIC_FUSED aff_slot) fused).

Definition on_radar (topic : string) (payload : option value) (t_age now t_match t_corr : float) : fm unit :=
  if negb (json_view topic) || startswith _OWN_PREFIX topic then ret tt else
  match payload with
  | None => ret tt
  | Some payload =>
      _age_out t_age ;;
      with_track (Some payload) (fun track =>
        let uid := _uid_of track in
        modify (fun f => { f with radar_tracks ::= oset uid {| c_track := track; c_topic := topic; c_ts := now |} }) ;;
        icao <- lift (icao_of track) ;;
        modify (fun f => if String.eqb icao "" then f else { f with radar_by_icao ::= <[icao := uid]> }) ;;
        primary_uid <- _cross_radar_associate track uid now ;;
        entry <- gets (fun f => oget (radar_tracks f) primary_uid) ;;
        let track :=
          if String.eqb primary_uid uid then track else
          match entry with
          | Some e => let id := dget_none (c_track e) "radar_id" in if truthy id then dset "radar_id" id track else track
          | None => track
          end in
        _fuse_and_publish track t_match t_corr)
  end.

Definition on_adsb (topic : string) (payload : option value) (t_age now : float) : fm unit :=
  if negb (endswith "/json" topic) then ret tt else
  match payload with
  | None => ret tt
  | Some payload =>
      _age_out t_age ;;
      with_track (Some payload) (fun track =>
        let uid := _uid_of track in
        modify (fun f => { f with adsb_tracks ::= oset uid {| c_track := track; c_topic := topic; c_ts := now |} }) ;;
        icao <- lift (icao_of track) ;;
        modify (fun f => if String.eqb icao "" then f else { f with adsb_by_icao ::= <[icao := uid]> }) ;;
        radar_covers <- gets (fun f => negb (String.eqb icao "") && bool_decide (is_Some (radar_by_icao f !! icao))) ;;
        let sq := dget_or track "squawk" (VStr "") in
        (if squawk_usable sq then
           if negb (hashable sq) then lift (Raise TypeError) else
           modify (fun f => let uids := default [] (vget (adsb_by_squawk f) sq) in
                            { f with adsb_by_squawk ::= vset sq (if selem uid uids then uids else uids ++ [uid]) })
         else ret tt) ;;
        if radar_covers then ret tt
        else emit (Collection (TOPIC_FUSED (if truthy (dget_none track "is_military") then "mil" else "civ")) track))
  end.

Definition on_neptun (topic : string) (payload : option value) (now : float) : fm unit :=
  if negb (json_view topic) then ret tt else
  with_track payload (fun track =>
    let uid := dget_none track "uid" in
    if negb (truthy uid) then ret tt else
    if negb (hashable uid) then lift (Raise TypeError) else
    modify (fun f =>
      { f with neptun_tracks ::= if truthy (dget_none track "_delete") then vpop uid
                                 else vset uid {| c_track := track; c_topic := topic; c_ts := now |} })).

(** [{"rings": [r]}] for each announced ring. *)
Definition on_occupied (payload : option value) (now : float) : fm unit :=
  match payload with
  | Some (VDict data) =>
      match dget data "rings" with
      | Some (VList rings) =>
          modify (fun f => { f with occupied := List.filter (fun r => match r with VList _ => true | _ => false end) rings;
                                    occupied_seen := now })
      | _ => ret tt
      end
  | _ => ret tt
  end.

Definition _in_occupied (lat lon now : float) (f : fuser) : exc bool :=
  if fle (fsub now (occupied_seen f)) OCCUPIED_TTL_S
  then any_exc (fun ring => in_region ring lon lat) (occupied f) else Ok false.

(** Announce under a key at most once per refresh interval. *)
Definition due (key : string) (now : float) : fm bool :=
  sent <- gets (fun f => default (fl 0) (twin_sent f !! key)) ;;
  if flt (fsub now sent) _SUPPRESS_REFRESH_S then ret false
  else modify (fun f => { f with twin_sent ::= <[key := now]> }) ;; ret true.

(** [s.replace(a, b, 1)] *)
Definition replace_first (a b s : string) : string :=
  match String.index 0 a s with
  | Some n => substring 0 n s +:+ b +:+ substring (n + String.length a) (String.length s) s
  | None => s
  end.

Definition _reside (track : dict) (topic : string) (now : float) : fm unit :=
  let uid := text_or_empty repr (dget_none track "uid") in
  ok <- due ("reside:" +:+ uid) now ;;
  when ok (
    let parts := TrackViews.split (strip_version topic) in
    let prefix := replace_first "/hostile/" "/friendly/" (TrackViews.join (firstn (length parts - 2) parts)) in
    let remarks := text_or_empty repr (dget_none track "remarks") +:+
                   " Landed in Russian-held territory (DeepState): a Ukrainian strike." in
    let moved := dupdate track [("uid", VStr (uid +:+ "-UA")); ("_fused", VBool true); ("_ts", VFloat now);
                                ("side_basis", VStr "occupied"); ("remarks", VStr remarks)] in
    emit (Sample (add_version (semantic_topic repr prefix moved)) moved) ;;
    emit (Sample topic [("uid", VStr uid); ("type", dget_or track "type" (VStr "strike")); ("_delete", VBool true);
                        ("_ts", VFloat now); ("_src", VStr "trackfusion")])).

(** A hostile strike told only by its place, with its position. *)
Definition placed_strike (track : dict) (topic : string) : exc (option (float * float)) :=
  if is_str (dget track "side_basis") "place" && negb (truthy (dget_none track "_fused"))
     && negb (truthy (dget_none track "_delete")) && contains "/hostile/" topic && is_strike_topic topic then
    let m := let? lat := ditem track "lat_deg" in
             let? lat := float_of lat in
             let? lon := ditem track "lon_deg" in
             let? lon := float_of lon in
             Ok (Some (lat, lon)) in
    match m with Raise (KeyError | TypeError | ValueError) => Ok None | _ => m end
  else Ok None.

Definition on_any_track (topic : string) (payload : option value) (now : float) : fm unit :=
  if negb (json_view topic) || startswith _OWN_PREFIX topic then ret tt else
  match payload with
  | Some (VDict track) =>
      pos <- lift (placed_strike track topic) ;;
      resides <- (fun f => (f, [], match pos with
                                   | Some (lat, lon) => _in_occupied lat lon now f
                                   | None => Ok false
                                   end)) ;;
      if resides : bool then _reside track topic now else
      let icao := lower (text_or_empty repr (dget_none track "icao24")) in
      (if negb (String.eqb icao "") && existsb (fun part => contains part topic) _MILITARY_AIR then
         ok <- due ("civil:" +:+ icao) now ;;
         when ok (emit (Sample (civil_topic (TOPIC_ROOT cfg) icao) [("icao24", VStr icao); ("ts", VFloat now)]))
       else ret tt) ;;
      strikes <- (fun f => let '(st, r) := observe_strike repr (strike_index f) track now topic in
                           ({ f with strike_index := st }, [], r)) ;;
      for_each strikes (fun s =>
        let '(uid, strike_topic, strike_type) := s in
        ok <- due uid now ;;
        when ok (emit (Sample strike_topic [("uid", VStr uid); ("type", VStr strike_type); ("_delete", VBool true);
                                            ("_ts", VFloat now); ("_src", VStr "trackfusion")]))) ;;
      copies <- (fun f => let '(st, r) := observe_twin repr (twin_index f) track now topic in
                          ({ f with twin_index := st }, [], r)) ;;
      for_each copies (fun uid =>
        ok <- due uid now ;;
        when ok (emit (Sample (twin_topic (TOPIC_ROOT cfg) uid) [("uid", VStr uid); ("ts", VFloat now)])))
  | _ => ret tt
  end.
End Fuser.
