(* ===== verification/FusionFacts.v ===== *)
(** * What track fusion does

    Theorems about the handlers of [Fusion]: which samples reach the ADS-B
    cache, the one-to-one match with NEPTUN, the life of a handoff group, and
    the periodic age-out. *)

From Stdlib Require Import SpecFloat.
From S2P Require Import Prelude PyFloat PyData Schema TrackViews PyText PyNum Dedup Echoes Markers Fusion.
From stdpp Require Import gmap strings.
From coqutil Require Import Datatypes.RecordSetters.
Import OCamlLikeNotations.
Import Actions.
#[local] Open Scope Z_scope.
#[local] Open Scope py_scope.
#[local] Open Scope act_scope.

(** ** Keys of views *)
Lemma view_key_tail key fmt : exists stem, view_key key fmt = stem +:+ "/tracks/v1".
Proof. unfold view_key. eexists. reflexivity. Qed.

Lemma endswith_json_tail stem : endswith "/json" (stem +:+ "/tracks/v1") = false.
Proof.
  unfold endswith. cbv zeta. rewrite length_append. change (String.length "/tracks/v1") with 10%nat.
  change (String.length "/json") with 5%nat.
  replace (String.length stem + 10 - 5)%nat with (String.length (stem +:+ "/trac"))%nat
    by (rewrite length_append; change (String.length "/trac") with 5%nat; lia).
  change "/tracks/v1" with ("/trac" +:+ "ks/v1"). rewrite <- append_assoc.
  change 5%nat with (String.length "ks/v1") at 3. rewrite substring_append.
  rewrite andb_comm. reflexivity.
Qed.

(** ** The fuser's life *)
Inductive event :=
| ERadar (topic : string) (payload : option value) (t_age now t_match t_corr : float)
| EAdsb (topic : string) (payload : option value) (t_age now : float)
| ENeptun (topic : string) (payload : option value) (now : float)
| EOccupied (payload : option value) (now : float)
| EAny (topic : string) (payload : option value) (now : float)
| ETimer (now : float).

Section Run.
Context `{Libm}.
Variables (repr : value -> string) (cfg : config).

Definition handle (e : event) : fm unit :=
  match e with
  | ERadar topic payload t_age now t_match t_corr => on_radar repr cfg topic payload t_age now t_match t_corr
  | EAdsb topic payload t_age now => on_adsb repr cfg topic payload t_age now
  | ENeptun topic payload now => on_neptun topic payload now
  | EOccupied payload now => on_occupied payload now
  | EAny topic payload now => on_any_track repr cfg topic payload now
  | ETimer now => _start_age_timer cfg now ;; ret tt
  end%act.

(** A callback's exception does not stop the next one. *)
Fixpoint handle_all (events : list event) (f : fuser) : fuser * list put :=
  match events with
  | [] => (f, [])
  | e :: events' =>
      let '(f', out, _) := handle e f in
      let '(f'', out') := handle_all events' f' in (f'', out ++ out')
  end.

Lemma handle_all_hoare (I : fuser -> Prop) (O : put -> Prop) (P : event -> Prop) events f :
  (forall e, P e -> hoare I O (handle e) (fun _ => True)) -> Forall P events -> I f ->
  I (fst (handle_all events f)) /\ Forall O (snd (handle_all events f)).
Proof.
  intros Hh Hev. revert f. induction Hev as [|e events He _ IH]; intros f Hf; cbn [handle_all]; [by split|].
  pose proof (Hh e He f Hf) as H1. destruct (handle e f) as [[f' out] r]. destruct H1 as (Hf' & Hout & _).
  specialize (IH f' Hf'). destruct (handle_all events f') as [f'' out']. cbn [fst snd] in *.
  destruct IH as [? ?]. split; [done|by apply Forall_app].
Qed.

(** ** Nothing reaches the ADS-B cache *)
Definition no_adsb (f : fuser) : Prop := adsb_tracks f = [] /\ adsb_by_icao f = ∅ /\ adsb_by_squawk f = [].

(** A put that claims no ADS-B match. *)
Definition unmatched (p : put) : Prop :=
  match p with Collection topic _ => topic = TOPIC_FUSED cfg "unknown" | Sample _ _ => True end.

Abbreviation quiet m := (hoare no_adsb unmatched m (fun _ => True)).

Lemma adsb_ignores_views key fmt payload t_age now :
  on_adsb repr cfg (view_key key fmt) payload t_age now = ret tt.
Proof.
  unfold on_adsb. destruct (view_key_tail key fmt) as [stem ->]. by rewrite endswith_json_tail.
Qed.

Lemma age_out_quiet now : quiet (_age_out cfg now).
Proof.
  intros f Hf. unfold _age_out, bind at 1, gets at 1.
  assert (stale_keys cfg now (adsb_tracks f) = []) as Hn by (unfold stale_keys; by rewrite (proj1 Hf)).
  unfold bind at 1, gets at 1. rewrite Hn. cbn [for_each].
  assert (quiet (for_each (stale_keys cfg now (radar_tracks f)) (age_out_radar (stale_keys cfg now (radar_tracks f))) ;; ret tt)%act) as Hq.
  { repeat hoare_step; try done. unfold age_out_radar. repeat hoare_step; try done.
    intros f' (H1 & H2 & H3). by destruct (_ && _). }
  specialize (Hq f Hf). destruct (bind _ _ f) as [[f' out] r]. cbn [app]. exact Hq.
Qed.

Lemma find_match_none radar now f a : no_adsb f -> _find_match cfg radar now f = Ok a -> a = None.
Proof.
  intros (H1 & H2 & H3). unfold _find_match. rewrite H1, H2, H3.
  destruct (icao_of radar) as [icao|]; cbn [exc_bind]; [|done]. rewrite lookup_empty.
  destruct (String.eqb icao ""); (destruct (squawk_usable _); [destruct (negb (hashable _)); [done|]|];
    cbn [vget default exc_bind match_squawk]; destruct (_ || _); cbn [match_spatial snd]; by intros [= <-]).
Qed.

Lemma associate_quiet track uid now : quiet (_cross_radar_associate cfg track uid now).
Proof.
  unfold _cross_radar_associate. repeat hoare_step; try done;
    try (intros f (H1 & H2 & H3); repeat case_match; by split_and!).
Qed.

Lemma corroborate_quiet fused radar now : quiet (_corroborate_with_neptun repr cfg fused radar now).
Proof. unfold _corroborate_with_neptun. repeat hoare_step; try done. Qed.

Lemma fuse_quiet radar t_match t_corr : quiet (_fuse_and_publish repr cfg radar t_match t_corr).
Proof.
  unfold _fuse_and_publish. eapply (hoare_bind _ _ _ _ _ (fun a => a = None)).
  { apply hoare_read. intros f a Hf E. by eapply find_match_none. }
  intros adsb ->. repeat hoare_step; try done. apply corroborate_quiet.
Qed.

Lemma due_quiet key now : quiet (due key now).
Proof. unfold due. repeat hoare_step; done. Qed.

Lemma reside_quiet track topic now : quiet (_reside repr track topic now).
Proof. unfold _reside. repeat hoare_step; try done. apply due_quiet. Qed.

Lemma on_radar_quiet topic payload t_age now t_match t_corr :
  quiet (on_radar repr cfg topic payload t_age now t_match t_corr).
Proof.
  unfold on_radar. destruct (_ || _); [by apply hoare_ret|]. destruct payload as [v|]; [|by apply hoare_ret].
  hoare_step; [apply age_out_quiet|]. unfold with_track. destruct v; try (by apply hoare_lift). cbv zeta.
  hoare_step; [by repeat hoare_step|]. hoare_step; [by repeat hoare_step|].
  hoare_step; [apply hoare_modify; intros f Hf; by destruct (String.eqb _ _)|].
  hoare_step; [apply associate_quiet|]. hoare_step; [by repeat hoare_step|].
  apply fuse_quiet.
Qed.

Lemma on_any_quiet topic payload now : quiet (on_any_track repr cfg topic payload now).
Proof.
  unfold on_any_track. repeat hoare_step; try done; try apply due_quiet; try apply reside_quiet;
    intros f Hf; (destruct (observe_strike _ _ _ _ _) || destruct (observe_twin _ _ _ _ _));
    by split_and!; [apply Hf..|constructor|].
Qed.
End Run.

(** The key of a sample that comes from one of the repository's publishers. *)
Definition from_view (e : event) : Prop :=
  match e with EAdsb topic _ _ _ => exists key fmt, topic = view_key key fmt | _ => True end.

(** C34: the ADS-B side of the fusion is dead.  [on_adsb] takes keys that end in
    /json, and every view of every track is published on a key that ends in
    /tracks/v1: whatever is published and however the callbacks interleave,
    no ADS-B track is ever cached, and everything the fuser publishes is an
    unmatched radar track on the "unknown" key. *)
Theorem adsb_never_fused `{Libm} repr cfg events :
  Forall from_view events ->
  let '(f, out) := handle_all repr cfg events new_fuser in
  adsb_tracks f = [] /\ Forall (unmatched cfg) out.
Proof.
  intros Hev. pose proof (handle_all_hoare repr cfg no_adsb (unmatched cfg) from_view events new_fuser) as Hall.
  destruct (handle_all repr cfg events new_fuser) as [f out]. cbn [fst snd] in Hall.
  destruct Hall as [(Hf & _) Hout]; [|done|done|done]. intros e He. destruct e; cbn [handle].
  - apply on_radar_quiet.
  - destruct He as (key & fmt & ->). rewrite adsb_ignores_views. by apply hoare_ret.
  - unfold on_neptun, with_track. repeat hoare_step; done.
  - unfold on_occupied. repeat hoare_step; done.
  - apply on_any_quiet.
  - unfold _start_age_timer. repeat hoare_step; try done. apply age_out_quiet.
Qed.

Lemma adsb_never_fused_witness :
  let track := [("icao24", VStr "4ca1d0"); ("lat_deg", VInt 54); ("lon_deg", VInt 25)] in
  let events := [EAdsb (view_key "efdi/air/x/adsb/civ/aircraft" "json") (Some (VDict track)) (fl 1) (fl 1);
                 ERadar (view_key "efdi/air/y/radar/unknown/aircraft" "json") (Some (VDict track)) (fl 2) (fl 2) (fl 2) (fl 2)] in
  len (snd (@handle_all small_angle_libm (fun _ => "") default_config events new_fuser)) = 1 /\
  adsb_tracks (fst (@handle_all small_angle_libm (fun _ => "") default_config events new_fuser)) = [].
Proof.
  cbv beta zeta. split; [vm_compute; reflexivity|].
  match goal with |- adsb_tracks (fst (handle_all _ _ ?events _)) = _ =>
    pose proof (@adsb_never_fused small_angle_libm (fun _ => "") default_config events) as Hn end.
  destruct (handle_all _ _ _ _) as [f out]. apply Hn. repeat constructor. by eexists _, _.
Defined.

(** ** One radar track, one threat *)
Section Neptun.
Context `{Libm}.
Variable cfg : config.

Lemma filter_exc_In {A} (test : A -> exc bool) l r :
  filter_exc test l = Ok r ->
  (forall x, In x r -> In x l /\ test x = Ok true) /\
  (forall x, In x l -> test x = Ok true /\ In x r \/ test x = Ok false).
Proof.
  revert r. induction l as [|y l IH]; intros r; cbn [filter_exc]; [by intros [= <-]|].
  destruct (test y) as [b|] eqn:E; cbn [exc_bind]; [|done].
  destruct (filter_exc test l) as [r'|]; cbn [exc_bind]; [|done]. intros [= <-].
  destruct (IH r' eq_refl) as [H1 H2]. split.
  - intros x Hx. assert (x = y /\ b = true \/ In x r') as [[-> ->]|Hin]
      by (destruct b; [destruct Hx as [<-|Hx]; auto|auto]); [by split; [left|]|].
    destruct (H1 x Hin). split; [by right|done].
  - intros x [<-|Hin].
    + destruct b; [left; split; [done|by left]|by right].
    + destruct (H2 x Hin) as [[? ?]|?]; [left|by right]. split; [done|]. destruct b; [by right|done].
Qed.
End Neptun.

(** C15: a radar track is taken for a NEPTUN threat only one to one: the pair is
    compatible, and no other fresh threat is compatible with the track, and no
    fresh radar track of another object is compatible with the threat. *)
Theorem neptun_match_one_to_one `{Libm} cfg radar radar_uid radar_cache neptun now ident uid threat :
  match_neptun cfg radar radar_uid radar_cache neptun now ident = Ok (Some (uid, threat)) ->
  let recent (ts : float) := fle (fsub now ts) (_MAX_AGE_S cfg) = true in
  In (uid, threat) neptun /\ recent (c_ts threat) /\
  _neptun_pair_ok cfg radar (c_track threat) = Ok true /\
  (forall u t, In (u, t) neptun -> recent (c_ts t) -> (u, t) <> (uid, threat) ->
     _neptun_pair_ok cfg radar (c_track t) = Ok false) /\
  (forall u e, In (u, e) radar_cache -> flt (_MAX_AGE_S cfg) (fsub now (c_ts e)) = false ->
     ident u <> ident radar_uid -> _neptun_pair_ok cfg (c_track e) (c_track threat) = Ok false).
Proof.
  unfold match_neptun. intros E. cbv zeta.
  destruct (filter_exc _ _) as [candidates|] eqn:Hf; cbn [exc_bind] in E; [|done].
  apply filter_exc_In in Hf as [H1 H2].
  destruct candidates as [|[u0 t0] [|c cs]]; [done| |done].
  destruct (any_exc _ radar_cache) as [[]|] eqn:Ha; cbn [exc_bind] in E; [done| |done]. injection E as <- <-.
  destruct (H1 _ (or_introl eq_refl)) as [[Hin Hts]%filter_In Hok]. cbn [fst snd] in *. split_and!; [done..| |].
  - intros u t Ht Hr Hne. destruct (H2 (u, t)) as [[_ [Heq|[]]]|Hno]; [|by destruct Hne|exact Hno].
    apply filter_In. by split.
  - intros u e He Hr Hid. apply any_exc_false in Ha. rewrite List.Forall_forall in Ha. specialize (Ha _ He).
    cbn [fst snd] in Ha. rewrite Hr in Ha. apply String.eqb_neq in Hid. by rewrite Hid in Ha.
Qed.

(** A radar track and a threat a mile apart on the same course. *)
Definition sample_threat : dict :=
  [("uid", VStr "NEPTUN-a"); ("type", VStr "uav"); ("lat_deg", VInt 50); ("lon_deg", VInt 30);
   ("heading_deg", VInt 90); ("position_uncertainty_m", VInt 4000)].
Definition sample_radar : dict :=
  [("radar_id", VStr "R1"); ("lat_deg", VFloat (dec 5001 2)); ("lon_deg", VInt 30); ("heading_deg", VInt 95)].

Lemma neptun_match_one_to_one_witness :
  let entry t := {| c_track := t; c_topic := ""; c_ts := fl 10 |} in
  let found := @match_neptun small_angle_libm default_config sample_radar "R1" [("R1", entry sample_radar)]
                 [(VStr "NEPTUN-a", entry sample_threat)] (fl 12) (fun u => u) in
  found = Ok (Some (VStr "NEPTUN-a", entry sample_threat)) /\
  @_neptun_pair_ok small_angle_libm default_config sample_radar sample_threat = Ok true.
Proof.
  cbv beta zeta.
  match goal with |- ?a = ?b /\ _ => assert (a = b) as Hm by (vm_compute; reflexivity) end.
  split; [exact Hm|]. exact (proj1 (proj2 (proj2 (@neptun_match_one_to_one small_angle_libm _ _ _ _ _ _ _ _ _ Hm)))).
Defined.

(** ** Handoff groups *)
Section Handoff.
Context `{Libm}.
Variables (repr : value -> string) (cfg : config).

(** A member of the group of [k] that can lead it: its track is cached, and is
    not one of those that go. *)
Definition can_lead (k : string) (gone : list string) (f : fuser) (kv : string * string) : Prop :=
  snd kv = k /\ ~ In (fst kv) gone /\ is_Some (oget (radar_tracks f) (fst kv)).

(** The first of them, in the order in which they joined. *)
Definition leads_next (k : string) (gone : list string) (f : fuser) (new : string) : Prop :=
  exists before after, radar_primary f = before ++ (new, k) :: after /\ can_lead k gone f (new, k) /\
    forall kv, In kv before -> ~ can_lead k gone f kv.

Lemma next_primary_spec k gone f :
  match next_primary k gone f with
  | Some new => leads_next k gone f new
  | None => forall kv, In kv (radar_primary f) -> ~ can_lead k gone f kv
  end.
Proof.
  unfold next_primary, leads_next.
  set (test := fun kv : string * string => _).
  assert (forall kv, test kv = true <-> can_lead k gone f kv) as Ht.
  { intros [u p]. unfold test, can_lead. cbn [fst snd]. rewrite !andb_true_iff, negb_true_iff, String.eqb_eq.
    assert (selem u gone = false <-> ~ In u gone) as -> by (rewrite <- selem_In; by destruct (selem u gone)).
    assert (match oget (radar_tracks f) u with Some _ => true | None => false end = true <-> is_Some (oget (radar_tracks f) u)) as ->.
    { by destruct (oget _ _). }
    tauto. }
  clearbody test. induction (radar_primary f) as [|[u p] l IH]; cbn [find option_map]; [by intros kv []|].
  destruct (test (u, p)) eqn:E.
  - apply Ht in E. assert (p = k) as -> by apply E. exists [], l. split_and!; [done|done|]. by intros kv [].
  - assert (~ can_lead k gone f (u, p)) as Hn by (rewrite <- Ht; by rewrite E).
    destruct (option_map fst (find test l)) as [new|].
    + destruct IH as (before & after & -> & Hc & Hb). exists ((u, p) :: before), after. split_and!; [done..|].
      intros kv [<-|Hkv]; auto.
    + intros kv [<-|Hkv]; auto.
Qed.

Lemma leads_next_unique k gone f a b : leads_next k gone f a -> leads_next k gone f b -> a = b.
Proof.
  intros (ba & aa & Ea & Ha & Hba) (bb & ab & Eb & Hb & Hbb). rewrite Ea in Eb. clear Ea.
  revert bb Eb Hbb. induction ba as [|x ba IH]; intros [|y bb] E Hbb; cbn [app] in E; injection E as E1 E2.
  - done.
  - subst y. destruct (Hbb (a, k)); [by left|done].
  - subst x. destruct (Hba (b, k)); [by left|done].
  - apply (IH (fun kv H => Hba kv (or_intror H)) bb E2 (fun kv H => Hbb kv (or_intror H))).
Qed.

Lemma age_out_primary_spec k gone f u :
  let primary u := oget (radar_primary f) u in
  oget (age_out_primary k gone f) u =
    if String.eqb k u then None else
    match (if bool_decide (primary k = Some k) then next_primary k gone f else None) with
    | Some new => if bool_decide (u = new \/ primary u = Some k) then Some new else primary u
    | None => primary u
    end.
Proof.
  cbv zeta. unfold age_out_primary. rewrite oget_opop. destruct (String.eqb k u); [done|].
  destruct (oget (radar_primary f) k) as [p|] eqn:Ek; [|by rewrite bool_decide_eq_false_2].
  destruct (String.eqb_spec p k) as [->|Hne]; [|by rewrite bool_decide_eq_false_2 by congruence].
  rewrite bool_decide_eq_true_2 by done. destruct (next_primary k gone f) as [new|]; [|done].
  unfold promote. rewrite oget_oset.
  rewrite (oget_map (fun _ v => if String.eqb v k then new else v)).
  destruct (String.eqb_spec new u) as [->|Hnu]; [by rewrite bool_decide_eq_true_2 by auto|].
  destruct (oget (radar_primary f) u) as [q|]; cbn [option_map].
  - destruct (String.eqb_spec q k) as [->|]; [by rewrite bool_decide_eq_true_2 by auto|].
    rewrite bool_decide_eq_false_2; [done|]. intros [->|[= ->]]; congruence.
  - rewrite bool_decide_eq_false_2; [done|]. intros [->|?]; congruence.
Qed.

(** C31: when the primary of a handoff group ages out, the group moves to its
    first member, in the order in which they joined, whose track is cached and
    does not age out itself: that member and every one that pointed to the old
    primary point to it, other groups are untouched, and the old primary is
    forgotten.  Without such a member, and for a track that is no primary, only
    the track's own entry goes. *)
Theorem handoff_promotes k gone f :
  let primary u := oget (radar_primary f) u in
  let primary' u := oget (age_out_primary k gone f) u in
  primary' k = None /\
  (forall new, primary k = Some k -> leads_next k gone f new ->
     forall u, u <> k -> primary' u = if bool_decide (u = new \/ primary u = Some k) then Some new else primary u) /\
  (primary k <> Some k \/ (forall kv, In kv (radar_primary f) -> ~ can_lead k gone f kv) ->
     forall u, u <> k -> primary' u = primary u).
Proof.
  cbv zeta. pose proof (next_primary_spec k gone f) as Hn. split_and!.
  - by rewrite age_out_primary_spec, String.eqb_refl.
  - intros new Hk Hnew u Hu. apply not_eq_sym, String.eqb_neq in Hu. rewrite age_out_primary_spec, Hu. cbv zeta.
    rewrite bool_decide_eq_true_2 by done. destruct (next_primary k gone f) as [new'|].
    + by rewrite (leads_next_unique _ _ _ _ _ Hnew Hn).
    + destruct Hnew as (before & after & E & Hc & _). destruct (Hn (new, k)); [|done]. rewrite E. apply in_elt.
  - intros Hnone u Hu. apply not_eq_sym, String.eqb_neq in Hu. rewrite age_out_primary_spec, Hu. cbv zeta.
    case_bool_decide as Hk; [|done]. destruct Hnone as [Hne|Hne]; [done|].
    destruct (next_primary k gone f) as [new|]; [|done]. destruct Hn as (before & after & E & Hc & _).
    destruct (Hne (new, k)); [|done]. rewrite E. apply in_elt.
Qed.

(** a handoff association never ends while the primary is fresh: a track
    without an address that was once given a primary keeps it when no other
    radar's track is near enough, however far the two have moved apart. *)
Theorem association_sticks track uid now f p d :
  truthy (dget_none track "icao24") = false -> oget (radar_primary f) uid = Some p ->
  consider_all cfg track uid now f (_HANDOFF_NM cfg, None) (radar_tracks f) = Ok (d, None) ->
  let '(f', out, r) := _cross_radar_associate cfg track uid now f in
  r = Ok p /\ out = [] /\ radar_primary f' = radar_primary f.
Proof.
  intros Hi Hp Hc. unfold _cross_radar_associate. rewrite Hi.
  assert (forall g, osetdefault uid g (radar_primary f) = radar_primary f) as Hs
    by (intros g; unfold osetdefault; by rewrite Hp).
  destruct (_ || _); unfold bind, modify, gets, ret; cbn; rewrite ?Hc; cbn; rewrite Hs, Hp; by cbn.
Qed.
End Handoff.

(** Four radars see one object; the first one's track ages out, the second's
    with it. *)
Definition sample_group : fuser :=
  let entry := {| c_track := []; c_topic := ""; c_ts := fl 10 |} in
  let f := {new_fuser with radar_tracks := [("B", entry); ("C", entry); ("D", entry)] } in
  {f with radar_primary := [("A", "A"); ("B", "A"); ("C", "A"); ("D", "A"); ("E", "E")] }.

Lemma handoff_promotes_witness :
  leads_next "A" ["A"; "B"] sample_group "C" /\
  map (oget (age_out_primary "A" ["A"; "B"] sample_group)) ["A"; "B"; "C"; "D"; "E"] =
    [None; Some "C"; Some "C"; Some "C"; Some "E"].
Proof.
  assert (leads_next "A" ["A"; "B"] sample_group "C") as Hn.
  { exists [("A", "A"); ("B", "A")], [("D", "A"); ("E", "E")]. split; [reflexivity|]. split.
    - split; [reflexivity|]. split; [|eexists; reflexivity]. intros [H|[H|[]]]; discriminate H.
    - intros kv [<-|[<-|[]]] (_ & H & _); apply H; cbn; auto. }
  split; [exact Hn|].
  pose proof (proj1 (proj2 (handoff_promotes "A" ["A"; "B"] sample_group)) "C" eq_refl Hn) as H.
  cbn [map]. rewrite (proj1 (handoff_promotes "A" ["A"; "B"] sample_group)), !H by discriminate. reflexivity.
Defined.

(** Two radars' targets, 0.6 NM apart at first; the second then turns up 60 NM
    to the south. *)
Definition plot (radar : string) (sic num : Z) (lat : float) : value :=
  VDict [("track_num", VInt num); ("radar_id", VStr radar); ("sac", VInt 1); ("sic", VInt sic);
         ("lat_deg", VFloat lat); ("lon_deg", VInt 25); ("_ts", VInt 0)].

Definition plots : list event :=
  let t := view_key "efdi/air/001-002/radar/unknown/aircraft" "json" in
  [ERadar t (Some (plot "R1" 1 11 (fl 54))) (fl 1) (fl 1) (fl 1) (fl 1);
   ERadar t (Some (plot "R2" 2 22 (dec 5401 2))) (fl 2) (fl 2) (fl 2) (fl 2);
   ERadar t (Some (plot "R2" 2 22 (fl 53))) (fl 30) (fl 30) (fl 30) (fl 30)].

Lemma association_sticks_witness :
  let track r num lat := [("track_num", VInt num); ("radar_id", VStr r); ("sac", VInt num); ("lat_deg", VFloat lat);
                          ("lon_deg", VInt 25)] in
  let entry r num lat t := {| c_track := track r num lat; c_topic := ""; c_ts := t |} in
  let f := { new_fuser with radar_tracks := [("11", entry "R1" 11 (fl 54) (fl 1)); ("22", entry "R2" 22 (fl 53) (fl 30))];
                            radar_primary := [("11", "11"); ("22", "11")] } in
  let '(f', out, r) := @_cross_radar_associate small_angle_libm default_config (track "R2" 22 (fl 53)) "22" (fl 30) f in
  r = Ok "11" /\ out = [] /\ radar_primary f' = radar_primary f.
Proof.
  intros track entry f.
  apply (@association_sticks small_angle_libm default_config (track "R2" 22 (fl 53)) "22" (fl 30) f "11"
           (_HANDOFF_NM default_config)); vm_compute; reflexivity.
Defined.

(** So a target once within two miles of another radar's target goes on being
    published under
    that target's radar_id when the two are sixty miles apart. *)
Lemma separated_targets_stay_merged :
  map (fun p => match p with Collection _ t => dget_none t "radar_id" | Sample _ _ => VNone end)
      (snd (@handle_all small_angle_libm (fun _ => "") default_config plots new_fuser)) =
  [VStr "R1"; VStr "R1"; VStr "R1"].
Proof. vm_compute. reflexivity. Qed.

(** ** The age-out timer *)

(** one radar sample whose icao24 is no string stops the periodic age-out:
    its callback raises after it has cached the track, and when the track is
    stale the timer's callback raises before it starts the next timer. *)
Theorem null_icao_stops_timer `{Libm} repr uid t t_later :
  uid <> "" -> flt (_MAX_AGE_S default_config) (fsub t_later t) = true ->
  let topic := view_key "efdi/air/001-002/radar/unknown/aircraft" "json" in
  let sample := [("icao24", VNone); ("uid", VStr uid)] in
  let '(f, _, r) := on_radar repr default_config topic (Some (VDict sample)) t t t t new_fuser in
  r = Raise AttributeError /\
  snd (_start_age_timer default_config t_later f) = Raise AttributeError.
Proof.
  intros Hu Hstale. cbv zeta. set (sample := [("icao24", VNone); ("uid", VStr uid)]). unfold on_radar.
  replace (negb (json_view _) || startswith _ _) with false by (vm_compute; reflexivity).
  assert (_uid_of repr sample = uid) as Huid
    by (apply String.eqb_neq in Hu; cbn; unfold dget_none, dget_or; cbn; by rewrite Hu).
  unfold with_track, bind at 1. cbn [_age_out stale_keys new_fuser radar_tracks adsb_tracks bind gets map
    List.filter for_each ret app]. rewrite Huid. unfold bind, modify, lift. cbn [icao_of].
  change (icao_of sample) with (@Raise string AttributeError). cbv beta iota zeta. split; [done|].
  unfold _start_age_timer, _age_out, stale_keys, bind, gets. cbn -[flt fsub fl default_config].
  unfold stale. rewrite Hstale. cbn -[flt fsub fl default_config age_out_radar].
  unfold age_out_radar, bind, gets. cbn -[flt fsub fl default_config]. rewrite String.eqb_refl. reflexivity.
Qed.

Lemma null_icao_stops_timer_witness :
  let '(f, _, r) := @on_radar small_angle_libm (fun _ => "") default_config
    (view_key "efdi/air/001-002/radar/unknown/aircraft" "json")
    (Some (VDict [("icao24", VNone); ("uid", VStr "T1")])) (fl 0) (fl 0) (fl 0) (fl 0) new_fuser in
  r = Raise AttributeError /\ snd (_start_age_timer default_config (fl 61) f) = Raise AttributeError.
Proof. apply (@null_icao_stops_timer small_angle_libm); [done|vm_compute; reflexivity]. Defined.
