(* ===== verification/Views.v ===== *)
(** * Publishing a track in every view

    compose/protocols/vendors/random/track_views.py and the encoding half of
    compose/protocols/vendors/sapient/flex335.py: one track becomes a SAPIENT
    detection report, a JSON sample, a typed protobuf sample and, for records
    with source octets, a raw envelope, each on its own key.  The protobuf
    runtime and the hash behind object identities are parameters. *)

From Stdlib Require Import SpecFloat.
From S2P Require Import Prelude PyFloat PyData Schema Contract AsterixCommon TrackViews PyText PyNum Echoes.
#[local] Open Scope Z_scope.
#[local] Open Scope py_scope.

(** ** The protobuf runtime

    [pb_set t v] is what a field of type [t] holds after [v] was assigned to
    it; [pb_extend] the elements a repeated field keeps of a list, and how
    [extend] ends; [pb_serialize] the octets of a message, and [pb_timestamp]
    the check of [Timestamp.FromNanoseconds]. *)
Record message := { m_name : string; m_fields : dict }.

Class Protobuf := {
  pb_set : ty -> value -> exc value;
  pb_extend : ty -> list value -> list value * exc unit;
  pb_serialize : message -> exc bytes;
  pb_timestamp : Z -> exc Z;
}.

Definition field_error (e : exn) : Prop := e = TypeError \/ e = ValueError \/ e = AttributeError.

(** What a field keeps of a value: the value, or the float of an int. *)
Definition kept_as (w v : value) : Prop := w = v \/ exists n, v = VInt n /\ w = VFloat (fl n).

(** Documented behaviour: a field takes a value of its type, a string field
    takes nothing but strings, the errors are the three that [_assign] names,
    and a message of the proto3 syntax always serializes. *)
Class ProtobufOk `{Protobuf} : Prop := {
  pb_set_fits t v : has_ty t v = true -> exists w, pb_set t v = Ok w /\ kept_as w v;
  pb_set_error t v e : pb_set t v = Raise e -> field_error e;
  pb_set_string v : has_ty TStr v = false -> pb_set TStr v = Raise TypeError;
  pb_extend_fits t l :
    has_ty (TList t) (VList l) = true -> exists k, pb_extend t l = (k, Ok tt) /\ Forall2 kept_as k l;
  pb_extend_error t l e : snd (pb_extend t l) = Raise e -> field_error e;
  pb_serialize_total m : exists octets, pb_serialize m = Ok octets;
}.

(** A runtime to evaluate with: nothing is converted, and a list is taken whole
    or not at all. *)
Definition plain_protobuf : Protobuf := {|
  pb_set t v := if has_ty t v then Ok v else Raise TypeError;
  pb_extend t l := if has_ty (TList t) (VList l) then (l, Ok tt) else ([], Raise TypeError);
  pb_serialize m := Ok [];
  pb_timestamp ns := Ok ns;
|}.

Lemma plain_protobuf_ok : @ProtobufOk plain_protobuf.
Proof.
  split; cbn [pb_set pb_extend pb_serialize plain_protobuf].
  - intros t v ->. exists v. split; [done|by left].
  - intros t v e. destruct (has_ty t v); [done|]. intros [= <-]. by left.
  - by intros v ->.
  - intros t l ->. exists l. split; [done|]. apply Forall_Forall2_diag, Forall_forall. by left.
  - intros t l e. destruct (has_ty _ _); [done|]. intros [= <-]. by left.
  - by eexists.
Qed.

(** A message class: its scalar and repeated fields, and the name of its nested
    NormalizedTrack, if it has one. *)
Record descriptor := { full_name : string; fields : schema; nested_field : option string }.

(** normalized_track.proto; [source_metadata], a map, is filled by hand. *)
Definition NormalizedTrack : descriptor := {|
  full_name := "efdi.data.v2.NormalizedTrack";
  fields := [("timestamp", double); ("source", TStr); ("uid", TStr); ("callsign", TStr); ("classification", TStr);
             ("affiliation", TStr); ("lat_deg", double); ("lon_deg", double); ("baro_alt_m", double);
             ("geo_alt_m", double); ("height_m", double); ("speed_ms", double); ("airspeed_ms", double);
             ("heading_deg", double); ("vertical_rate_ms", double); ("on_ground", TBool); ("emergency", TBool);
             ("deleted", TBool)];
  nested_field := None |}.

Section Views.
Context `{Libm} `{Protobuf}.
Variable repr : value -> string.

(** ** Filling a message *)

Definition setattr (S : schema) (name : string) (v : value) (m : dict) : exc dict :=
  match field_ty S name with
  | Some t => let? w := pb_set t v in Ok (dset name w m)
  | None => Raise AttributeError
  end.

(** What iterating over a value that is no string yields. *)
Definition iterate (v : value) : option (list value) :=
  match v with
  | VList l => Some l
  | VDict d => Some (map (fun kv => VStr (fst kv)) d)
  | _ => None
  end.

(** The exceptions that [_assign] swallows. *)
Definition tolerate {A} (kept : A) (m : exc unit) : exc A :=
  match m with
  | Ok _ | Raise (TypeError | ValueError | AttributeError) => Ok kept
  | Raise e => Raise e
  end.

Definition _assign (S : schema) (key : string) (v : value) (m : dict) : exc dict :=
  match field_ty S key with
  | Some (TList t) =>
      match iterate v with
      | None => Ok m
      | Some l =>
          let old := match dget m key with Some (VList l0) => l0 | _ => [] end in
          let (kept, r) := pb_extend t l in
          tolerate (if (len kept =? 0) then m else dset key (VList (old ++ kept)) m) r
      end
  | Some t =>
      match pb_set t v with
      | Ok w => Ok (dset key w m)
      | Raise e => tolerate m (Raise e)
      end
  | None => Ok m
  end.

Definition source_name (key : string) : string :=
  if String.eqb key "_ts" then "timestamp" else if String.eqb key "_src" then "source" else key.

(** One turn of the loop of [source_track_to_message] and of
    [wrapped_track_message]: a key that is no field and None are skipped. *)
Fixpoint assign_all (S : schema) (name_of : string -> string) (items : dict) (m : dict) : exc dict :=
  match items with
  | [] => Ok m
  | (key, v) :: items' =>
      let? m := if is_none v then Ok m else _assign S (name_of key) v m in
      assign_all S name_of items' m
  end.

Definition source_track_to_message (cls : descriptor) (track : dict) : exc message :=
  let? m := assign_all (fields cls) source_name track [] in
  Ok {| m_name := full_name cls; m_fields := m |}.

(** ** The normalized track *)

(** [next((track.get(key) for key in ... if track.get(key)), "unknown")] *)
Fixpoint first_truthy (keys : list string) (track : dict) : value :=
  match keys with
  | [] => VStr "unknown"
  | key :: keys' => let v := dget_none track key in if truthy v then v else first_truthy keys' track
  end.

(** [message.<name> = float(track[key]) * scale], when the key is there. *)
Definition scaled (key : string) (scale : float) (track : dict) : exc value :=
  let? v := ditem track key in
  let? x := float_of v in
  Ok (VFloat (fmul x scale)).

Definition plain_float (key : string) (track : dict) : exc value :=
  let? v := ditem track key in
  let? x := float_of v in
  Ok (VFloat x).

Definition set_nt (name : string) (v : exc value) (m : dict) : exc dict :=
  let? v := v in setattr (fields NormalizedTrack) name v m.

Definition set_if (test : bool) (name : string) (v : exc value) (m : dict) : exc dict :=
  if test then set_nt name v m else Ok m.

Definition present (track : dict) (key : string) : bool := negb (is_none (dget_none track key)).
Definition is_bool (v : value) : bool := match v with VBool _ => true | _ => false end.

Definition _METADATA_KEYS : list string :=
  ["icao24"; "registration"; "aircraft_type"; "squawk"; "route"; "radar_id"].

Definition source_metadata (track : dict) : dict :=
  flat_map (fun key => match dget_none track key with
                       | VNone | VStr "" => []
                       | v => [(key, VStr (take_chars 256 (py_str repr v)))]
                       end) _METADATA_KEYS.

(** The altitudes: the first of the keys that is there. *)
Definition baro_alt (track m : dict) : exc dict :=
  if dmem "baro_alt_m" track then set_nt "baro_alt_m" (plain_float "baro_alt_m" track) m
  else if dmem "alt_baro_ft" track then set_nt "baro_alt_m" (scaled "alt_baro_ft" (dec 3048 4) track) m
  else if dmem "alt_m" track then set_nt "baro_alt_m" (plain_float "alt_m" track) m
  else Ok m.

Definition geo_alt (track m : dict) : exc dict :=
  if dmem "geo_alt_m" track then set_nt "geo_alt_m" (plain_float "geo_alt_m" track) m
  else if dmem "alt_geom_ft" track then set_nt "geo_alt_m" (scaled "alt_geom_ft" (dec 3048 4) track) m
  else Ok m.

Definition normalized_track_message (track : dict) (affiliation : string) : exc dict :=
  let? ts := float_of (dget_or track "_ts" (VFloat (fl 0))) in
  let source := py_str repr (dget_or track "_src" (VStr "unknown")) in
  let uid := py_str repr (first_truthy ["icao24"; "uid"; "track_num"; "radar_id"; "mmsi"] track) in
  let? lat := plain_float "lat_deg" track in
  let? lon := plain_float "lon_deg" track in
  let m := [("timestamp", VFloat ts); ("source", VStr source); ("uid", VStr uid); ("lat_deg", lat); ("lon_deg", lon);
            ("affiliation", VStr affiliation)] in
  let? m := set_if (present track "callsign") "callsign" (ditem track "callsign") m in
  let? m := set_if (present track "heading_deg") "heading_deg" (ditem track "heading_deg") m in
  let? m := set_if (present track "vertical_rate_ms") "vertical_rate_ms" (ditem track "vertical_rate_ms") m in
  let? m := set_if (present track "speed_ms") "speed_ms" (ditem track "speed_ms") m in
  let? m := set_if (is_bool (dget_none track "on_ground")) "on_ground" (ditem track "on_ground") m in
  let? m := set_if (is_bool (dget_none track "emergency")) "emergency" (ditem track "emergency") m in
  let? m := baro_alt track m in
  let? m := geo_alt track m in
  let? m := set_if (negb (dmem "speed_ms" track) && dmem "ground_speed_kts" track) "speed_ms"
              (scaled "ground_speed_kts" (dec 514444 6) track) m in
  let? m := set_if (negb (dmem "heading_deg" track) && dmem "track_deg" track) "heading_deg"
              (plain_float "track_deg" track) m in
  let? m := set_if (negb (dmem "vertical_rate_ms" track) && dmem "baro_vr_fpm" track) "vertical_rate_ms"
              (scaled "baro_vr_fpm" (dec 508 5) track) m in
  let? m := set_if (dmem "ias_kt" track) "airspeed_ms" (scaled "ias_kt" (dec 514444 6) track) m in
  Ok (m ++ [("source_metadata", VDict (source_metadata track))]).

Definition wrapped_track_message (cls : descriptor) (track : dict) (affiliation wrapper_field : string) : exc message :=
  let? nested := normalized_track_message track affiliation in
  let items := List.filter (fun kv => negb (String.eqb (fst kv) wrapper_field)) track in
  let? m := assign_all (fields cls) (fun key => key) items [(wrapper_field, VDict nested)] in
  Ok {| m_name := full_name cls; m_fields := m |}.

(** The typed message of a publication and its octets. *)
Definition typed_message (cls : descriptor) (wrapper_field : string) (track : dict) : exc (message * bytes) :=
  let? m := if bool_decide (nested_field cls = Some wrapper_field)
            then wrapped_track_message cls track (py_str repr (dget_or track "affiliation" (VStr "unknown"))) wrapper_field
            else source_track_to_message cls track in
  let? payload := pb_serialize m in
  Ok (m, payload).
End Views.
