(* ===== verification/SapientOut.v ===== *)
(** * Detection reports

    compose/protocols/vendors/sapient/flex335.py, the encoding half: object
    identities as ULIDs and [track_to_sapient], and the publication of a track
    in all its views (track_views.py, [publish_dual], [publish_collection],
    [publish_native]). *)

From Stdlib Require Import SpecFloat.
From S2P Require Import Prelude PyFloat PyData Schema Contract AsterixCommon TrackViews PyText PyNum Echoes Views.
#[local] Open Scope Z_scope.
#[local] Open Scope py_scope.

(** ** Identities *)
Definition _CROCKFORD : string := "0123456789ABCDEFGHJKMNPQRSTVWXYZ".

Definition crockford (n : Z) : ascii := default "0"%char (String.get (Z.to_nat n) _CROCKFORD).

(** [n] characters, least significant first, put in front of [acc]. *)
Fixpoint ulid_chars (n : nat) (v : Z) (acc : string) : string :=
  match n with
  | O => acc
  | S n' => ulid_chars n' (Z.shiftr v 5) (String (crockford (Z.land v 0x1F)) acc)
  end.

(** [_ulid(value)] of a given value. *)
Definition _ulid (v : Z) : string := ulid_chars 26 (Z.land v (Z.shiftl 1 128 - 1)) "".

(** [_ulid()]: the clock in milliseconds over 80 random bits. *)
Definition fresh_ulid (now : float) (random : Z) : exc string :=
  let? ms := int_of_float (fmul now (fl 1000)) in
  Ok (_ulid (Z.lor (Z.shiftl (Z.land ms (Z.shiftl 1 48 - 1)) 80) (Z.land random (Z.shiftl 1 80 - 1)))).

(** What the clock and the random generator give to one report. *)
Record draws := { d_now : float; d_report : float * Z; d_object : float * Z }.

(** ** Classification *)
Definition _CLASSIFICATION : list (string * string) :=
  [("aircraft", "Air Vehicle"); ("uav", "Air Vehicle"); ("drone", "Air Vehicle"); ("helicopter", "Air Vehicle");
   ("vessel", "Surface Vessel"); ("ship", "Surface Vessel"); ("boat", "Surface Vessel"); ("vehicle", "Land Vehicle");
   ("car", "Land Vehicle"); ("truck", "Land Vehicle"); ("person", "Human"); ("pedestrian", "Human")].

Definition _classification_for (track : dict) : option string :=
  let fix first keys :=
    match keys with
    | [] => None
    | key :: keys' =>
        match dget track key with
        | Some (VStr raw) =>
            if String.eqb (strip raw) "" then first keys'
            else Some (match find (fun kv => contains (fst kv) (lower raw)) _CLASSIFICATION with
                       | Some (_, mapped) => mapped
                       | None => raw
                       end)
        | _ => first keys'
        end
    end in
  first ["classification"; "sapient_class"; "target_type"; "entity"].

(** ** Reports *)
Record enu_velocity := { east_rate : float; north_rate : float; up_rate : option float }.

Record sapient := {
  timestamp_ns : Z; s_node_id : string; report_id : string; object_id : string;
  x : float; y : float; z : option float;
  detection_confidence : option float; classification : option string;
  velocity : option enu_velocity; identifier : option string;
}.

(** What is put under a key. *)
Inductive body :=
| BSapient (m : sapient)
| BJson (track : dict) (tag : string)
| BProto (m : message) (payload : bytes)
| BRaw (protocol profile content_type : string) (received : float) (payload : bytes).

Section Report.
Context `{Libm} `{Protobuf}.
Variables (repr : value -> string) (uuid5 : string -> Z) (_NODE_ID : string).

(** [a or b or ... or ""] *)
Fixpoint first_of (keys : list string) (track : dict) : value :=
  match keys with
  | [] => VStr ""
  | key :: keys' => let v := dget_none track key in if truthy v then v else first_of keys' track
  end.

Definition identity (track : dict) : string :=
  py_str repr (first_of ["uid"; "icao24"; "mmsi"; "track_num"; "callsign"] track).

Definition _stable_object_id (track : dict) (d : draws) : exc string :=
  let ident := identity track in
  if String.eqb ident "" then fresh_ulid (fst (d_object d)) (snd (d_object d)) else Ok (_ulid (uuid5 ident)).

(** Errors of a conversion that the report does without. *)
Definition optional {A} (m : exc A) : exc (option A) :=
  match m with
  | Ok a => Ok (Some a)
  | Raise (TypeError | ValueError) => Ok None
  | Raise e => Raise e
  end.

Definition altitude_of (track : dict) : value :=
  dget_or track "geo_alt_m" (dget_or track "baro_alt_m" (dget_none track "alt_m")).

Definition confidence_of (track : dict) : exc (option float) :=
  let c := dget_or track "detection_confidence" (dget_none track "confidence") in
  if is_none c then Ok None
  else optional (let? f := float_of c in Ok (fmax (fl 0) (fmin (fl 1) f))).

(** The rates are set one after another, so an error keeps those before it. *)
Definition velocity_of (track : dict) : exc (option enu_velocity) :=
  let speed := dget_none track "speed_ms" in
  let heading := dget_none track "heading_deg" in
  if is_none speed || is_none heading then Ok None else
  let? rates := optional (let? h := float_of heading in
                          let rad := radians h in
                          let? s := float_of speed in
                          let? sin := m_sin rad in
                          let east := fmul s sin in
                          let north := let? cos := m_cos rad in Ok (fmul s cos) in
                          Ok (east, north)) in
  match rates with
  | None => Ok None
  | Some (east, north) =>
      let? north := optional north in
      match north with
      | None => Ok (Some {| east_rate := east; north_rate := fl 0; up_rate := None |})
      | Some north =>
          let vertical := dget_none track "vertical_rate_ms" in
          let? up := if is_none vertical then Ok None else optional (float_of vertical) in
          Ok (Some {| east_rate := east; north_rate := north; up_rate := up |})
      end
  end.

(** [float(track.get("_ts") or time.time())], in nanoseconds. *)
Definition sapient_time (track : dict) (d : draws) : exc Z :=
  let ts := dget_none track "_ts" in
  let? t := float_of (if truthy ts then ts else VFloat (d_now d)) in
  let? ns := int_of_float (fmul t (fl (10 ^ 9))) in
  pb_timestamp ns.

Definition track_to_sapient (track : dict) (d : draws) : exc (option sapient) :=
  let lat := dget_none track "lat_deg" in
  let lon := dget_none track "lon_deg" in
  if is_none lat || is_none lon then Ok None else
  let? ns := sapient_time track d in
  let? report := fresh_ulid (fst (d_report d)) (snd (d_report d)) in
  let? object := _stable_object_id track d in
  let? x := float_of lon in
  let? y := float_of lat in
  let altitude := altitude_of track in
  let? z := if is_none altitude then Ok None else let? a := float_of altitude in Ok (Some a) in
  let? confidence := confidence_of track in
  let? velocity := velocity_of track in
  let name := let v := dget_none track "callsign" in
              if truthy v then v else
              let v := dget_none track "icao24" in
              if truthy v then v else dget_none track "uid" in
  Ok (Some {| timestamp_ns := ns; s_node_id := _NODE_ID; report_id := report; object_id := object;
              x := x; y := y; z := z; detection_confidence := confidence;
              classification := match _classification_for track with Some "" | None => None | c => c end;
              velocity := velocity;
              identifier := if truthy name then Some (take_chars 128 (py_str repr name)) else None |}).

(** ** Publication *)
Definition sapient_topic (topic : string) : string := view_key topic "sapient".

(** A report that cannot be built is left out. *)
Definition publish_sapient (key : string) (track : dict) (d : draws) : list (string * body) :=
  match track_to_sapient track d with
  | Ok (Some m) => [(sapient_topic key, BSapient m)]
  | _ => []
  end.

(** The views under a key, in the order they are put; the body that
    [publish_dual] and [publish_collection] share. *)
Definition publish_views (key : string) (track : dict) (cls : descriptor) (wrapper_field : string) (d : draws) :
    list (string * body) :=
  publish_sapient key track d ++
  (view_key key "json", BJson track ("json:" +:+ full_name cls)) ::
  match typed_message repr cls wrapper_field track with
  | Ok (m, payload) => [(dual_topic key, BProto m payload)]
  | Raise _ => []
  end.

Definition publish_dual (topic : string) (track : dict) (cls : descriptor) (wrapper_field : string) (d : draws) :
    list (string * body) :=
  publish_views (semantic_topic repr topic track) track cls wrapper_field d.

Definition collection_key (topic : string) : string :=
  let parts := TrackViews.split (strip_version topic) in
  if selem (List.last parts "") _FORMATS then TrackViews.join (removelast parts) else strip_version topic.

Definition publish_collection (topic : string) (track : dict) (cls : descriptor) (wrapper_field : string) (d : draws) :
    list (string * body) :=
  publish_views (collection_key topic) track cls wrapper_field d.

Definition publish_native (topic : string) (payload : bytes) (protocol profile content_type : string) (received now : float) :
    list (string * body) :=
  let received := if ftruth received then received else now in
  let envelope := {| m_name := "efdi.data.v2.RawEnvelope";
                     m_fields := [("received_timestamp", VFloat received); ("source", VStr protocol);
                                  ("protocol", VStr protocol); ("content_type", VStr content_type)] ++
                                  (if String.eqb profile "" then [] else [("profile", VStr profile)]) |} in
  match pb_serialize envelope with
  | Ok _ => [(topic, BRaw protocol profile content_type received payload)]
  | Raise _ => []
  end.
End Report.
