(* ===== verification/Framing.v ===== *)
(** * Framing of ASTERIX data blocks

    How octets become (category, payload) frames: from a TCP stream and from
    UDP datagrams (the helpers cat.py repeats per category), from a raw Zenoh
    sample, and in the UDP ingress bridge (udp_ingress_bridge.py).  The data
    block of [TrackViews.asterix_data_block] is the format they all read. *)

From S2P Require Import Prelude PyFloat PyData Schema TrackViews.

Abbreviation frame := (Z * bytes)%type.

(** ** Sockets

    A stream socket holds the octets its peer sends before it closes, and the
    sizes the kernel happens to cut them into: [recv(n)] returns at most [n]
    octets, and none only at the end. *)
Record sock := { pending : bytes; sizes : list Z }.

Definition recv (n : Z) (s : sock) : bytes * sock :=
  let k := match sizes s with [] => n | c :: _ => Z.max 1 (Z.min c n) end in
  (firstn (Z.to_nat k) (pending s), {| pending := skipn (Z.to_nat k) (pending s); sizes := tl (sizes s) |}).

Fixpoint recv_loop (fuel : nat) (s : sock) (n : Z) (buf : bytes) : exc (bytes * sock) :=
  match fuel with
  | O => Raise OutOfFuel
  | S fuel' =>
      if len buf <? n then
        let (chunk, s') := recv (n - len buf) s in
        if len chunk =? 0 then Raise EOFError else recv_loop fuel' s' n (buf ++ chunk)
      else Ok (buf, s)
  end.

Definition recv_exact (s : sock) (n : Z) : exc (bytes * sock) := recv_loop (S (Z.to_nat n)) s n [].

(** ** Streams: the frames a TCP connection yields, and how it ends *)
Fixpoint tcp_loop (fuel : nat) (s : sock) : list frame * exn :=
  match fuel with
  | O => ([], OutOfFuel)
  | S fuel' =>
      match (let? (header, s) := recv_exact s 3 in
             let? cat := byte_at header 0 in
             let? length := unpack_u 2 (slice header 1 3) in
             if length <? 3 then Raise ValueError else
             let? (data, s) := recv_exact s (length - 3) in
             Ok (cat, data, s)) with
      | Raise e => ([], e)
      | Ok (cat, data, s) => let (frames, e) := tcp_loop fuel' s in ((cat, data) :: frames, e)
      end
  end.

Definition iter_frames_tcp (s : sock) : list frame * exn := tcp_loop (S (length (pending s))) s.

(** ** Datagrams: the frames of one datagram; a bad or cut frame ends it *)
Fixpoint udp_loop (fuel : nat) (pkt : bytes) (offset : Z) : exc (list frame) :=
  match fuel with
  | O => Raise OutOfFuel
  | S fuel' =>
      if len pkt <? offset + 3 then Ok [] else
      let? cat := byte_at pkt offset in
      let? length := unpack_u 2 (slice pkt (offset + 1) (offset + 3)) in
      if (length <? 3) || (len pkt <? offset + length) then Ok [] else
      let record := slice pkt (offset + 3) (offset + length) in
      let? frames := udp_loop fuel' pkt (offset + length) in
      Ok ((cat, record) :: frames)
  end.

Definition frames_of_datagram (pkt : bytes) : exc (list frame) := udp_loop (S (length pkt)) pkt 0.

(** [iter_frames_udp] over the datagrams a socket receives. *)
Fixpoint iter_frames_udp (pkts : list bytes) : exc (list frame) :=
  match pkts with
  | [] => Ok []
  | pkt :: pkts' =>
      let? frames := frames_of_datagram pkt in
      let? frames' := iter_frames_udp pkts' in
      Ok (frames ++ frames')
  end.

(** ** Raw samples *)
Definition raw_frame_payload (frame : bytes) (expected_category : Z) : exc bytes :=
  if len frame <? 3 then Raise ValueError else
  let? category := byte_at frame 0 in
  let? length := unpack_u 2 (slice frame 1 3) in
  if negb (category =? expected_category) then Raise ValueError else
  if negb (length =? len frame) then Raise ValueError else
  Ok (skipn 3 frame).

(** ** Ingress: complete frames, or ValueError *)
Fixpoint split_loop (fuel : nat) (datagram : bytes) (offset : Z) : exc (list frame) :=
  match fuel with
  | O => Raise OutOfFuel
  | S fuel' =>
      if len datagram <=? offset then Ok [] else
      if len datagram - offset <? 3 then Raise ValueError else
      let? category := byte_at datagram offset in
      let? length := unpack_u 2 (slice datagram (offset + 1) (offset + 3)) in
      if length <? 3 then Raise ValueError else
      let stop := offset + length in
      if len datagram <? stop then Raise ValueError else
      let? frames := split_loop fuel' datagram stop in
      Ok ((category, slice datagram offset stop) :: frames)
  end.

Definition split_asterix_datagram (datagram : bytes) : exc (list frame) :=
  if len datagram =? 0 then Raise ValueError else
  split_loop (S (length datagram)) datagram 0.

(** ** Dispatch to a category's handler

    [_process_stream]: what the handler publishes, up to the first exception. *)
Section Dispatch.
Context {A : Type} (category : Z) (handler : bytes -> list A * exc unit).

Fixpoint process_stream (frames : list frame) : list A * exc unit :=
  match frames with
  | [] => ([], Ok tt)
  | (cat, data) :: frames' =>
      let (out, r) := if cat =? category then handler data else ([], Ok tt) in
      match r with
      | Raise e => (out, Raise e)
      | Ok _ => let (out', r') := process_stream frames' in (out ++ out', r')
      end
  end.

(** [_process_tcp_conn]: the end of the stream and ValueError close the
    connection, any other exception leaves the thread. *)
Definition process_tcp_conn (s : sock) : list A * exc unit :=
  let (frames, e) := iter_frames_tcp s in
  let (out, r) := process_stream frames in
  let e := match r with Ok _ => e | Raise e' => e' end in
  (out, match e with EOFError | ValueError => Ok tt | _ => Raise e end).
End Dispatch.

(** ** Specification

    [blocks frames bs]: [bs] are the data blocks of [frames]. *)
Definition blocks (frames : list frame) (bs : list bytes) : Prop :=
  Forall2 (fun f b => asterix_data_block (fst f) (snd f) = Ok b) frames bs.

(** No data block starts here: too few octets, or a length below 3 or past the
    end. *)
Definition no_block (rest : bytes) : Prop :=
  forall cat record block tail, asterix_data_block cat record = Ok block -> rest <> block ++ tail.

(** ** The shape of a data block *)
Lemma byte_val_inj a b : byte_val a = byte_val b -> a = b.
Proof.
  unfold byte_val. intros H%N2Z.inj. apply (f_equal Byte.of_N) in H. rewrite !Byte.of_to_N in H. congruence.
Qed.

Lemma unpack_two b0 b1 : unpack_u 2 [b0; b1] = Ok (byte_val b0 * 256 + byte_val b1).
Proof. reflexivity. Qed.

Lemma block_shape cat record block :
  asterix_data_block cat record = Ok block <->
  exists b0 b1 b2, block = b0 :: b1 :: b2 :: record /\ cat = byte_val b0 /\
    3 + len record = byte_val b1 * 256 + byte_val b2.
Proof.
  split.
  - unfold asterix_data_block. cbv zeta.
    destruct (Z.leb_spec 0 cat), (Z.leb_spec cat 255), (Z.ltb_spec 0xFFFF (3 + len record)); try done.
    cbn [andb negb orb]. pose proof (len_nonneg record).
    destruct (of_ints_cons cat [Z.shiftr (3 + len record) 8; 3 + len record]) as (b0 & -> & H0').
    destruct (of_ints_cons (Z.shiftr (3 + len record) 8) [3 + len record]) as (b1 & -> & H1').
    destruct (of_ints_cons (3 + len record) []) as (b2 & -> & H2').
    intros [= <-]. exists b0, b1, b2. rewrite Z.mod_small in H0' by lia. split_and!; [done|done|].
    rewrite H1', H2', Z.shiftr_div_pow2 by lia. change (2 ^ 8) with 256.
    rewrite (Z.mod_small (_ / 256)) by
      (split; [apply Z.div_pos; lia|apply Z.div_lt_upper_bound; lia]).
    pose proof (Z.div_mod (3 + len record) 256 ltac:(lia)). lia.
  - intros (b0 & b1 & b2 & -> & -> & Hl).
    pose proof (byte_val_range b0). pose proof (byte_val_range b1). pose proof (byte_val_range b2).
    unfold asterix_data_block. cbv zeta. rewrite Hl.
    replace ((0 <=? byte_val b0) && (byte_val b0 <=? 255)) with true by lia.
    replace (0xFFFF <? byte_val b1 * 256 + byte_val b2) with false by lia. cbn [negb orb].
    f_equal. set (L := byte_val b1 * 256 + byte_val b2).
    destruct (of_ints_cons (byte_val b0) [Z.shiftr L 8; L]) as (c0 & -> & H0').
    destruct (of_ints_cons (Z.shiftr L 8) [L]) as (c1 & -> & H1').
    destruct (of_ints_cons L []) as (c2 & -> & H2').
    rewrite Z.mod_small in H0' by lia.
    assert (byte_val c1 = byte_val b1) as E1.
    { rewrite H1', Z.shiftr_div_pow2 by lia. change (2 ^ 8) with 256. subst L.
      rewrite Z.div_add_l, (Z.div_small (byte_val b2)), Z.add_0_r by lia. apply Z.mod_small. lia. }
    assert (byte_val c2 = byte_val b2) as E2.
    { rewrite H2'. subst L. rewrite Z.add_comm, Z_mod_plus_full. apply Z.mod_small. lia. }
    apply byte_val_inj in H0' as ->. apply byte_val_inj in E1 as ->. by apply byte_val_inj in E2 as ->.
Qed.

Lemma block_len cat record block : asterix_data_block cat record = Ok block -> len block = 3 + len record.
Proof. intros (b0 & b1 & b2 & -> & _ & _)%block_shape. rewrite !len_cons. lia. Qed.

(** A data block is told from what follows it. *)
Lemma block_prefix cat record block tail cat' record' block' tail' :
  asterix_data_block cat record = Ok block -> asterix_data_block cat' record' = Ok block' ->
  block ++ tail = block' ++ tail' -> cat = cat' /\ record = record' /\ block = block' /\ tail = tail'.
Proof.
  intros H H' E. pose proof (block_len _ _ _ H) as Hl. pose proof (block_len _ _ _ H') as Hl'.
  apply block_shape in H as (b0 & b1 & b2 & -> & -> & HL).
  apply block_shape in H' as (c0 & c1 & c2 & -> & -> & HL').
  cbn [app] in E. injection E as -> -> -> E.
  assert (length record = length record') as Hr by (unfold len in *; lia).
  apply app_inj_1 in E as [-> ->]; [done|exact Hr].
Qed.

(** What an octet string starts with: no header, an impossible or cut block,
    or a block. *)
Lemma block_cases b :
  (len b < 3 /\ no_block b) \/
  exists b0 length, 3 <= len b /\ byte_at b 0 = Ok (byte_val b0) /\
    unpack_u 2 (slice b 1 3) = Ok length /\ 0 <= length /\
    ((length < 3 \/ len b < length) /\ no_block b \/
     3 <= length <= len b /\
     asterix_data_block (byte_val b0) (slice b 3 length) = Ok (firstn (Z.to_nat length) b)).
Proof.
  destruct b as [|b0 [|b1 [|b2 t]]].
  1-3: left; split; [unfold len; cbn [length]; lia|]; intros cat record block tail (c0 & c1 & c2 & -> & _)%block_shape; done.
  right. exists b0, (byte_val b1 * 256 + byte_val b2). rewrite !len_cons. pose proof (len_nonneg t).
  pose proof (byte_val_range b1). pose proof (byte_val_range b2).
  split_and!; [lia|done|by rewrite <- unpack_two|lia|].
  set (L := byte_val b1 * 256 + byte_val b2).
  destruct (decide (3 <= L <= 1 + (1 + (1 + len t)))) as [HL|HL]; [right; split; [done|]|left; split; [lia|]].
  - apply block_shape. exists b0, b1, b2. split_and!; [|done|].
    + replace (Z.to_nat L) with (S (S (S (Z.to_nat (L - 3))))) by lia. done.
    + rewrite len_slice by (rewrite ?len_cons; lia). lia.
  - intros cat record block tail (c0 & c1 & c2 & -> & -> & Hc)%block_shape. cbn [app]. intros [= <- <- <- ->].
    rewrite len_app in HL. pose proof (len_nonneg record). pose proof (len_nonneg tail). lia.
Qed.

(** [frames] are the data blocks at the start of [b], all of them. *)
Definition cut (b : bytes) (frames : list frame) (rest : bytes) : Prop :=
  exists bs, b = concat bs ++ rest /\ blocks frames bs /\ no_block rest.

Lemma cut_unique b frames rest frames' rest' :
  cut b frames rest -> cut b frames' rest' -> frames = frames' /\ rest = rest'.
Proof.
  intros (bs & -> & Hbs & Hr) (bs' & E & Hbs' & Hr'). revert bs' frames' E Hbs'.
  induction Hbs as [|[cat record] block frames bs Hb Hbs IH]; intros bs' frames' E Hbs'.
  - destruct Hbs' as [|[cat' record'] block' frames' bs' Hb' Hbs']; [done|].
    cbn [concat app] in E. rewrite <- app_assoc in E. by destruct (Hr _ _ _ _ Hb' E).
  - destruct Hbs' as [|[cat' record'] block' frames' bs' Hb' Hbs']; cbn [concat app] in E;
      rewrite <- ?app_assoc in E; [by destruct (Hr' _ _ _ _ Hb (eq_sym E))|].
    pose proof (block_prefix _ _ _ _ _ _ _ _ Hb Hb' E) as (Hc & Hd & _ & E'). cbn [fst snd] in Hc, Hd.
    destruct (IH _ _ E' Hbs') as [-> ->]. by rewrite Hc, Hd.
Qed.

Lemma cut_nil b : no_block b -> cut b [] b.
Proof. intros H. exists []. split_and!; [done|constructor|done]. Qed.

Lemma cut_cons b cat record length frames rest :
  asterix_data_block cat record = Ok (firstn length b) ->
  cut (skipn length b) frames rest -> cut b ((cat, record) :: frames) rest.
Proof.
  intros Hb (bs & E & Hbs & Hr). exists (firstn length b :: bs).
  split_and!; [|by constructor|done]. cbn [concat]. by rewrite <- app_assoc, <- E, firstn_skipn.
Qed.

(** ** Reading at an offset *)
Lemma index_skipn {A} (l : list A) o i : 0 <= o -> 0 <= i -> index l (o + i) = index (skipn (Z.to_nat o) l) i.
Proof.
  intros Ho Hi. unfold index. replace (o + i <? 0) with false by lia. replace (i <? 0) with false by lia.
  cbv zeta. replace (o + i <? 0) with false by lia. replace (i <? 0) with false by lia.
  rewrite nth_error_skipn. by replace (Z.to_nat (o + i)) with (Z.to_nat o + Z.to_nat i)%nat by lia.
Qed.

Lemma byte_at_skipn b o i : 0 <= o -> 0 <= i -> byte_at b (o + i) = byte_at (skipn (Z.to_nat o) b) i.
Proof. intros Ho Hi. unfold byte_at. by rewrite index_skipn. Qed.

Lemma slice_skipn {A} (l : list A) o a b : 0 <= o -> 0 <= a ->
  slice l (o + a) (o + b) = slice (skipn (Z.to_nat o) l) a b.
Proof.
  intros Ho Ha. unfold slice. rewrite skipn_skipn. f_equal; [lia|]. f_equal. lia.
Qed.

Lemma skipn_step {A} (l : list A) o n : 0 <= o -> 0 <= n ->
  skipn (Z.to_nat (o + n)) l = skipn (Z.to_nat n) (skipn (Z.to_nat o) l).
Proof. intros Ho Hn. rewrite skipn_skipn. f_equal. lia. Qed.

Lemma len_skipn {A} (l : list A) o : 0 <= o <= len l -> len (skipn (Z.to_nat o) l) = len l - o.
Proof. unfold len. rewrite length_skipn. lia. Qed.

(** ** Datagrams *)
Lemma udp_loop_ok fuel pkt o : 0 <= o <= len pkt -> len pkt - o < Z.of_nat fuel ->
  exists frames rest, udp_loop fuel pkt o = Ok frames /\ cut (skipn (Z.to_nat o) pkt) frames rest.
Proof.
  revert o. induction fuel as [|fuel IH]; intros o Ho Hf; [lia|]. cbn [udp_loop].
  pose proof (len_skipn pkt o Ho) as Hl.
  destruct (block_cases (skipn (Z.to_nat o) pkt)) as [[H3 Hn]|(b0 & L & H3 & Hb & Hu & HL & Hc)].
  { replace (len pkt <? o + 3) with true by lia. eauto using cut_nil. }
  replace (len pkt <? o + 3) with false by lia.
  replace (byte_at pkt o) with (byte_at pkt (o + 0)) by (f_equal; lia).
  rewrite byte_at_skipn, slice_skipn, Hb, Hu by lia. cbn [exc_bind].
  destruct Hc as [[Hb' Hn]|[HL' Hblock]].
  { replace ((L <? 3) || (len pkt <? o + L)) with true by lia. eauto using cut_nil. }
  replace ((L <? 3) || (len pkt <? o + L)) with false by lia. cbv zeta.
  destruct (IH (o + L)) as (frames & rest & -> & Hrest); [lia|lia|]. cbn [exc_bind].
  rewrite skipn_step in Hrest by lia. rewrite slice_skipn by lia. eauto using cut_cons.
Qed.

(** The frames of a UDP datagram are exactly the data blocks it starts with:
    reading never fails, and what follows the last one is no data block. *)
Theorem udp_frames_exact pkt :
  exists frames, frames_of_datagram pkt = Ok frames /\
  forall frames', frames' = frames <-> exists rest, cut pkt frames' rest.
Proof.
  pose proof (len_nonneg pkt).
  destruct (udp_loop_ok (S (length pkt)) pkt 0 ltac:(lia) ltac:(unfold len; lia)) as (frames & rest & E & Hc).
  exists frames. split; [exact E|]. intros frames'. split; [intros ->; by exists rest|].
  intros [rest' Hc']. by destruct (cut_unique _ _ _ _ _ Hc' Hc).
Qed.

(** ** Raw samples and the ingress bridge *)

Lemma raw_frame_cases frame category :
  match raw_frame_payload frame category with
  | Ok payload => asterix_data_block category payload = Ok frame
  | Raise e => e = ValueError /\ forall payload, asterix_data_block category payload <> Ok frame
  end.
Proof.
  unfold raw_frame_payload. destruct frame as [|b0 [|b1 [|b2 t]]].
  1-3: cbn; split; [done|]; by intros payload (c0 & c1 & c2 & E & _)%block_shape.
  pose proof (len_nonneg t). rewrite !len_cons. replace (1 + (1 + (1 + len t)) <? 3) with false by lia.
  change (byte_at (b0 :: b1 :: b2 :: t) 0) with (Ok (byte_val b0)).
  change (slice (b0 :: b1 :: b2 :: t) 1 3) with [b1; b2]. rewrite unpack_two. cbn [exc_bind].
  destruct (Z.eqb_spec (byte_val b0) category) as [Hc|Hc],
    (Z.eqb_spec (byte_val b1 * 256 + byte_val b2) (1 + (1 + (1 + len t)))) as [Hl|Hl]; cbn [negb].
  1: change (skipn 3 (b0 :: b1 :: b2 :: t)) with t; apply block_shape; exists b0, b1, b2;
    split_and!; [done|done|lia].
  all: split; [done|]; intros payload (c0 & c1 & c2 & [= -> -> -> ->] & -> & Hp)%block_shape; lia.
Qed.

(** A raw sample is accepted exactly when it is one data block of the
    expected category, and its payload is the record in it. *)
Lemma raw_frame_payload_exact frame category :
  match raw_frame_payload frame category with
  | Ok payload => asterix_data_block category payload = Ok frame
  | Raise e => e = ValueError /\ forall payload, asterix_data_block category payload <> Ok frame
  end.
Proof. apply raw_frame_cases. Qed.

Lemma raw_frame_accepts frame category payload :
  asterix_data_block category payload = Ok frame -> raw_frame_payload frame category = Ok payload.
Proof.
  intros H. pose proof (raw_frame_cases frame category) as Hr.
  destruct (raw_frame_payload frame category) as [p|e]; [|by destruct Hr as [_ Hr]; destruct (Hr payload)].
  destruct (block_prefix _ _ _ [] _ _ _ [] Hr H eq_refl) as (_ & -> & _). done.
Qed.

(** The part of a complete frame its category's decoder reads. *)
Definition payload_of (f : frame) : frame := (fst f, skipn 3 (snd f)).

Lemma split_loop_ok fuel d o : 0 <= o <= len d -> len d - o < Z.of_nat fuel ->
  match split_loop fuel d o with
  | Ok fs => blocks (map payload_of fs) (map snd fs) /\ skipn (Z.to_nat o) d = concat (map snd fs)
  | Raise e => e = ValueError /\ exists frames rest, cut (skipn (Z.to_nat o) d) frames rest /\ rest <> []
  end.
Proof.
  revert o. induction fuel as [|fuel IH]; intros o Ho Hf; [lia|]. cbn [split_loop].
  pose proof (len_skipn d o Ho) as Hl. destruct (Z.leb_spec (len d) o).
  { split; [constructor|]. apply length_zero_iff_nil. unfold len in *. lia. }
  assert (skipn (Z.to_nat o) d <> []) as Hne by (intros E; rewrite E in Hl; change (@len byte []) with 0 in Hl; lia).
  destruct (block_cases (skipn (Z.to_nat o) d)) as [[H3 Hn]|(b0 & L & H3 & Hb & Hu & HL & Hc)].
  { replace (len d - o <? 3) with true by lia. eauto 6 using cut_nil. }
  replace (len d - o <? 3) with false by lia.
  replace (byte_at d o) with (byte_at d (o + 0)) by (f_equal; lia).
  rewrite byte_at_skipn, slice_skipn, Hb, Hu by lia. cbn [exc_bind].
  destruct Hc as [[Hb' Hn]|[HL' Hblock]].
  { destruct (Z.ltb_spec L 3); [eauto 6 using cut_nil|]. cbv zeta.
    replace (len d <? o + L) with true by lia. eauto 6 using cut_nil. }
  replace (L <? 3) with false by lia. cbv zeta. replace (len d <? o + L) with false by lia.
  specialize (IH (o + L) ltac:(lia) ltac:(lia)). rewrite skipn_step in IH by lia.
  assert (slice d o (o + L) = firstn (Z.to_nat L) (skipn (Z.to_nat o) d)) as Hs
    by (unfold slice; f_equal; lia).
  assert (asterix_data_block (byte_val b0) (skipn 3 (slice d o (o + L))) = Ok (slice d o (o + L))) as Hp.
  { rewrite Hs. rewrite <- Hblock. f_equal. unfold slice. rewrite skipn_firstn_comm. f_equal. lia. }
  destruct (split_loop fuel d (o + L)) as [fs|e]; cbn [exc_bind].
  - destruct IH as [Hbs E]. split; [by constructor|]. cbn [map snd concat]. by rewrite <- E, Hs, firstn_skipn.
  - destruct IH as (-> & frames & rest & Hcut & Hr). split; [done|].
    exists ((byte_val b0, slice (skipn (Z.to_nat o) d) 3 L) :: frames), rest. eauto using cut_cons.
Qed.

Lemma no_block_nil : no_block [].
Proof. by intros cat record block tail (b0 & b1 & b2 & -> & _)%block_shape. Qed.

(** C29: the ingress bridge accepts a datagram exactly when it is a sequence of
    data blocks, and the frames it publishes are those blocks, octet for octet;
    each is then accepted by the raw input of its category, whose decoder
    reads what it would have read from the datagram itself. *)
Theorem ingress_exact datagram :
  match split_asterix_datagram datagram with
  | Ok frames =>
      datagram <> [] /\ concat (map snd frames) = datagram /\
      frames_of_datagram datagram = Ok (map payload_of frames) /\
      Forall (fun f => raw_frame_payload (snd f) (fst f) = Ok (snd (payload_of f))) frames
  | Raise e =>
      e = ValueError /\ (datagram = [] \/ exists frames rest, cut datagram frames rest /\ rest <> [])
  end.
Proof.
  unfold split_asterix_datagram. pose proof (len_nonneg datagram).
  destruct (Z.eqb_spec (len datagram) 0) as [H0|H0].
  { split; [done|left]. apply length_zero_iff_nil. unfold len in H0. lia. }
  pose proof (split_loop_ok (S (length datagram)) datagram 0 ltac:(lia) ltac:(unfold len; lia)) as H1.
  change (skipn (Z.to_nat 0) datagram) with datagram in H1.
  destruct (split_loop _ datagram 0) as [fs|e]; [|destruct H1 as [-> H1]; eauto].
  destruct H1 as [Hbs Hd]. split_and!; [by intros ->|done| |].
  - destruct (udp_loop_ok (S (length datagram)) datagram 0 ltac:(lia) ltac:(unfold len; lia))
      as (frames & rest & E & Hc).
    change (skipn (Z.to_nat 0) datagram) with datagram in Hc.
    assert (cut datagram (map payload_of fs) []) as Hc'.
    { exists (map snd fs). split_and!; [by rewrite app_nil_r|done|apply no_block_nil]. }
    unfold frames_of_datagram. rewrite E. by destruct (cut_unique _ _ _ _ _ Hc Hc') as [-> _].
  - clear Hd. revert Hbs. unfold blocks. intros Hbs.
    induction fs as [|f fs IH]; [constructor|]. cbn [map] in Hbs. inversion_clear Hbs as [|? ? ? ? Hf Hfs].
    constructor; [by apply raw_frame_accepts|by apply IH].
Qed.

(** ** Streams *)
Lemma recv_loop_ok fuel s n buf : len buf <= n -> n - len buf < Z.of_nat fuel ->
  match recv_loop fuel s n buf with
  | Ok (b, s') => len b = n /\ buf ++ pending s = b ++ pending s'
  | Raise e => e = EOFError /\ len buf + len (pending s) < n
  end.
Proof.
  revert s buf. induction fuel as [|fuel IH]; intros s buf Hb Hf; [lia|]. cbn [recv_loop].
  destruct (Z.ltb_spec (len buf) n); [|split; [lia|done]]. unfold recv. cbv zeta.
  set (k := match sizes s with [] => _ | _ :: _ => _ end).
  assert (1 <= k <= n - len buf) as Hk by (subst k; destruct (sizes s); lia). clearbody k.
  set (chunk := firstn (Z.to_nat k) (pending s)).
  assert (pending s = chunk ++ skipn (Z.to_nat k) (pending s)) as Hp by (subst chunk; by rewrite firstn_skipn).
  assert (len chunk = Z.min k (len (pending s))) as Hc by (subst chunk; unfold len; rewrite length_firstn; lia).
  pose proof (len_nonneg (pending s)). destruct (Z.eqb_spec (len chunk) 0); [split; [done|lia]|].
  specialize (IH {| pending := skipn (Z.to_nat k) (pending s); sizes := tl (sizes s) |} (buf ++ chunk)).
  rewrite len_app in IH. specialize (IH ltac:(lia) ltac:(lia)). cbn [pending] in IH.
  destruct (recv_loop fuel _ n (buf ++ chunk)) as [[b s']|e].
  - rewrite Hp. destruct IH as [? IH]. split; [done|]. by rewrite app_assoc.
  - destruct IH as [-> IH]. split; [done|]. apply (f_equal len) in Hp. rewrite len_app in Hp. lia.
Qed.

(** [recv_exact] returns the next [n] octets however the stream was cut. *)
Lemma recv_exact_ok s n : 0 <= n ->
  match recv_exact s n with
  | Ok (b, s') => b = firstn (Z.to_nat n) (pending s) /\ pending s' = skipn (Z.to_nat n) (pending s) /\
                  n <= len (pending s)
  | Raise e => e = EOFError /\ len (pending s) < n
  end.
Proof.
  intros Hn. pose proof (recv_loop_ok (S (Z.to_nat n)) s n [] Hn) as H.
  change (len []) with 0 in H. specialize (H ltac:(lia)). unfold recv_exact.
  destruct (recv_loop _ s n []) as [[b s']|e]; [|destruct H; split; [done|lia]].
  cbn [app] in H. destruct H as [Hl ->]. rewrite len_app. pose proof (len_nonneg (pending s')).
  assert (Z.to_nat n = length b) as -> by (unfold len in *; lia).
  rewrite take_app_length, drop_app_length. split_and!; [done|done|lia].
Qed.

Definition bad_header (rest : bytes) : bool :=
  match unpack_u 2 (slice rest 1 3) with Ok length => length <? 3 | Raise _ => false end.

(** How a stream ends: at an impossible length, or with the connection. *)
Definition stream_end (rest : bytes) : exn := if bad_header rest then ValueError else EOFError.

Lemma short_header rest : len rest < 3 -> bad_header rest = false.
Proof.
  destruct rest as [|b0 [|b1 [|b2 t]]]; [done..|]. rewrite !len_cons. pose proof (len_nonneg t). lia.
Qed.

Lemma tcp_loop_ok fuel s : len (pending s) < Z.of_nat fuel ->
  exists rest, cut (pending s) (fst (tcp_loop fuel s)) rest /\ snd (tcp_loop fuel s) = stream_end rest.
Proof.
  revert s. induction fuel as [|fuel IH]; intros s Hf; [pose proof (len_nonneg (pending s)); lia|].
  cbn [tcp_loop]. pose proof (recv_exact_ok s 3 ltac:(lia)) as H3.
  destruct (recv_exact s 3) as [[header s1]|e].
  2: { destruct H3 as [-> H3]. exists (pending s). cbn [exc_bind fst snd]. split.
       - apply cut_nil. destruct (block_cases (pending s)) as [[_ Hn]|(b0 & L & H3' & _)]; [done|lia].
       - unfold stream_end. by rewrite short_header. }
  destruct H3 as (-> & Hs1 & H3).
  destruct (block_cases (pending s)) as [[H3' _]|(b0 & L & _ & Hb & Hu & HL & Hc)]; [lia|].
  cbn [exc_bind]. change (Z.to_nat 3) with 3%nat in *.
  assert (byte_at (firstn 3 (pending s)) 0 = Ok (byte_val b0)) as ->.
  { destruct (pending s); [done|exact Hb]. }
  assert (slice (firstn 3 (pending s)) 1 3 = slice (pending s) 1 3) as ->.
  { unfold slice. change (Z.to_nat (3 - 1)) with 2%nat. change (Z.to_nat 1) with 1%nat.
    destruct (pending s) as [|? [|? [|? ?]]]; done. }
  rewrite Hu. cbn [exc_bind].
  assert (bad_header (pending s) = (L <? 3)) as Hbad by (unfold bad_header; by rewrite Hu).
  destruct (Z.ltb_spec L 3).
  { exists (pending s). cbn [fst snd]. unfold stream_end. rewrite Hbad.
    destruct Hc as [[_ Hn]|]; [|lia]. split; [by apply cut_nil|done]. }
  pose proof (recv_exact_ok s1 (L - 3) ltac:(lia)) as HLs. rewrite Hs1 in HLs.
  change 3%nat with (Z.to_nat 3) in HLs. rewrite len_skipn in HLs by lia.
  destruct (recv_exact s1 (L - 3)) as [[data s2]|e]; cbn [exc_bind].
  2: { destruct HLs as [-> HLs]. exists (pending s). cbn [fst snd]. unfold stream_end. rewrite Hbad.
       destruct Hc as [[_ Hn]|]; [|lia]. split; [by apply cut_nil|done]. }
  destruct HLs as (Hdata & Hs2 & HLs). destruct Hc as [[? _]|[HL' Hblock]]; [lia|].
  rewrite <- skipn_step in Hs2 by lia. replace (3 + (L - 3)) with L in Hs2 by lia.
  destruct (IH s2) as (rest & Hcut & He); [rewrite Hs2, len_skipn; lia|]. rewrite Hs2 in Hcut.
  destruct (tcp_loop fuel s2) as [frames e]. cbn [fst snd] in *. exists rest. split; [|done].
  apply cut_cons with (length := Z.to_nat L); [|done]. rewrite Hdata. exact Hblock.
Qed.

(** C35: a TCP connection yields exactly the data blocks its octets start with,
    however the network cuts them, and ends with EOFError, or with ValueError
    when what follows the last block has an impossible length. *)
Theorem tcp_frames_exact s frames e :
  iter_frames_tcp s = (frames, e) <-> exists rest, cut (pending s) frames rest /\ e = stream_end rest.
Proof.
  unfold iter_frames_tcp.
  destruct (tcp_loop_ok (S (length (pending s))) s) as (rest & Hc & He); [unfold len; lia|].
  destruct (tcp_loop _ s) as [frames0 e0]. cbn [fst snd] in *. split.
  - intros [= <- <-]. eauto.
  - intros (rest' & Hc' & ->). destruct (cut_unique _ _ _ _ _ Hc Hc') as [-> ->]. by rewrite He.
Qed.

(** ** Dispatch *)
Lemma process_stream_total {A} category (handler : bytes -> list A * exc unit) (ok : bytes -> Prop) frames :
  (forall data, ok data -> snd (handler data) = Ok tt) -> Forall (fun f => ok (snd f)) frames ->
  process_stream category handler frames =
    (concat (map (fun f => fst (handler (snd f))) (List.filter (fun f => fst f =? category) frames)), Ok tt).
Proof.
  intros Hh. induction 1 as [|[cat data] frames Hd Hf IH]; [done|]. cbn [process_stream].
  cbn [List.filter fst]. rewrite IH. destruct (cat =? category); [|done].
  specialize (Hh data Hd). destruct (handler data) as [out r] eqn:E. cbn [snd] in Hh. rewrite Hh.
  cbn [map concat snd]. by rewrite E.
Qed.
