(* ===== verification/SapientLink.v ===== *)
(** * SAPIENT connections

    compose/protocols/vendors/sapient/flex335.py, the bridge: frames of a TCP
    connection ([iter_frames]), what is done with one of them ([_publish]) and
    with all ([_consume]), and the reassembly of the raw samples of a Zenoh
    bridge ([run_zenoh_raw]).  Readings of the clock and of the random source
    are arguments, one record of them per frame. *)

From Stdlib Require Import SpecFloat.
From S2P Require Import Prelude PyFloat PyData Schema TrackViews PyText PyNum Wire Sapient Framing.
From S2P Require Import Contract Views SapientOut.
#[local] Open Scope Z_scope.
#[local] Open Scope py_scope.

(** ** Frames: a 32-bit little-endian length and that many octets *)

(** [struct.unpack("<I", b)[0]] *)
Definition unpack_le32 (b : bytes) : exc Z := if len b =? 4 then Ok (int_from_le b) else Raise StructError.

Fixpoint frames_loop (fuel : nat) (s : sock) : list bytes * exn :=
  match fuel with
  | O => ([], OutOfFuel)
  | S fuel' =>
      match (let? (header, s) := recv_exact s 4 in
             let? length := unpack_le32 header in
             if (length =? 0) || (MAX_FRAME_BYTES <? length) then Raise ValueError else recv_exact s length) with
      | Raise e => ([], e)
      | Ok (frame, s) => let (frames, e) := frames_loop fuel' s in (frame :: frames, e)
      end
  end.

Definition iter_frames (s : sock) : list bytes * exn := frames_loop (S (length (pending s))) s.

(** ** One frame *)
Inductive output :=
| Sent (octets : bytes)
| Put (key : string) (b : body).

(** What the clocks read while a frame is handled. *)
Record readings := { decoded_at : float; acked_at : float; drawn : draws; enveloped_at : float }.

Definition SapientFlex335Track : descriptor := {|
  full_name := "efdi.protocols.v2.SapientFlex335Track";
  fields := [("sapient_message_type", TStr); ("sensor_id", TStr); ("object_id", TStr); ("sapient_report_id", TStr);
             ("sapient_class", TStr); ("sapient_node_types", TList TStr); ("sapient_state", TStr);
             ("detection_confidence", double); ("sapient_alert_type", TStr); ("sapient_alert_status", TStr);
             ("sapient_alert_priority", TStr)];
  nested_field := Some "track" |}.

Section Link.
Context `{Libm} `{Protobuf}.
Variables (repr : value -> string) (uuid5 : string -> Z) (_NODE_ID TOPIC_ROOT bridge_id : string).

(** The samples of a track: its views, and the frame it came in. *)
Definition publish_track (t : dict) (frame : bytes) (r : readings) : list output :=
  let topic := topic_for_track repr TOPIC_ROOT t in
  map (fun kb => Put (fst kb) (snd kb))
    (publish_dual repr uuid5 _NODE_ID topic t SapientFlex335Track "track" (drawn r) ++
     publish_native (native_topic (semantic_topic repr topic t)) frame "sapient" "bsi-flex-335-v2" "application/protobuf"
       (fl 0) (enveloped_at r)).

Definition _publish (acknowledge : bool) (r : readings) (frame : bytes) (d : decoder) :
    decoder * (list output * exc unit) :=
  let (d, e) := decode frame (decoded_at r) d in
  match e with
  | Raise e => (d, ([], Raise e))
  | Ok e =>
      match (if String.eqb (kind e) "registration" && acknowledge
             then let? octets := registration_ack (acked_at r) bridge_id (node_id e) true in Ok [Sent octets]
             else Ok []) with
      | Raise err => (d, ([], Raise err))
      | Ok sent =>
          (d, (sent ++ match track e with
                       | Some t => if warned e then [] else publish_track t frame r
                       | None => []
                       end, Ok tt))
      end
  end.

(** Frames in order, up to the first that fails; [rs n] is read at the [n]-th. *)
Fixpoint publish_all (acknowledge : bool) (rs : nat -> readings) (n : nat) (frames : list bytes) (d : decoder) :
    decoder * (list output * exc unit) :=
  match frames with
  | [] => (d, ([], Ok tt))
  | frame :: frames' =>
      match _publish acknowledge (rs n) frame d with
      | (d, (out, Raise e)) => (d, (out, Raise e))
      | (d, (out, Ok _)) =>
          let '(d, (out', r)) := publish_all acknowledge rs (S n) frames' d in
          (d, (out ++ out', r))
      end
  end.

(** [_consume]: what a connection does, and how it ends. *)
Definition _consume (acknowledge : bool) (rs : nat -> readings) (s : sock) (d : decoder) : decoder * (list output * exn) :=
  let (frames, e) := iter_frames s in
  let '(d, (out, r)) := publish_all acknowledge rs 0 frames d in
  (d, (out, match r with Ok _ => e | Raise e' => e' end)).
End Link.

(** ** Raw samples

    [on_sample]: octets are gathered in a buffer; an impossible length drops
    one of them.  [publish] is what becomes of a frame, over a state. *)
Section Reassembly.
Context {S : Type}.
Variable publish : bytes -> S -> S * exc unit.

Fixpoint drain (fuel : nat) (buffer : bytes) (s : S) : bytes * S * exc unit :=
  match fuel with
  | O => (buffer, s, Raise OutOfFuel)
  | Datatypes.S fuel' =>
      if len buffer <? 4 then (buffer, s, Ok tt) else
      match unpack_le32 (slice buffer 0 4) with
      | Raise e => (buffer, s, Raise e)
      | Ok length =>
          if (length =? 0) || (MAX_FRAME_BYTES <? length) then drain fuel' (skipn 1 buffer) s else
          if len buffer <? length + 4 then (buffer, s, Ok tt) else
          let frame := slice buffer 4 (4 + length) in
          let buffer := skipn (Z.to_nat (4 + length)) buffer in
          match publish frame s with
          | (s, Ok _) => drain fuel' buffer s
          | (s, Raise e) => (buffer, s, Raise e)
          end
      end
  end.

Definition on_raw_sample (data : bytes) (buffer : bytes) (s : S) : bytes * S * exc unit :=
  drain (Datatypes.S (length (buffer ++ data))) (buffer ++ data) s.

(** Samples one after another: an exception is printed, not passed on. *)
Fixpoint on_samples (samples : list bytes) (buffer : bytes) (s : S) : bytes * S :=
  match samples with
  | [] => (buffer, s)
  | data :: samples' => let '(buffer, s, _) := on_raw_sample data buffer s in on_samples samples' buffer s
  end.
End Reassembly.
