(* ===== verification/Records.v ===== *)
(** * Categories whose data blocks carry several records

    CAT-020, 021, 048 and 062 share the shape of their decoder (a record read
    from a position, ending past it) and the loop of their handler, which
    publishes each record with the octets it was read from. *)

From S2P Require Import Prelude PyFloat PyData Schema Ranges Cursor Safety Contract AsterixCommon TrackViews.

(** ** Decoding one record *)

(** A parser of the FSPEC that always reads an octet. *)
Lemma parse_fspec_strict data p :
  0 <= p < len data -> returns (parse_fspec data p) (fun '(_, p') => p < p' <= len data) noE.
Proof.
  intros Hp. unfold parse_fspec. set (T := fun r : list bool * Z => p < snd r <= len data).
  eapply (returns_weaken _ T); [apply run_returns|by intros []|done].
  apply wp_bind, (wp_while data (fun bits p' _ => p <= p' /\ (bits = [] -> p' = p) /\
                                    (bits <> [] -> p < p')));
    [|by split_and!; [lia|..]|lia|apply fuel_of_enough; lia].
  intros bits p' d' (Hp' & H0 & H1) Hlen. repeat wp_rule.
  - subst T. cbn. destruct bits; [specialize (H0 eq_refl); lia|]. split; [by apply H1|lia].
  - assert (bits ++ fspec_bits b <> []) by (by destruct bits). subst T. cbv zeta.
    destruct (negb _); cbn; [lia|]. split_and!; try done; lia.
Qed.

Lemma fspec_bits_len present b : LenGe (present ++ fspec_bits b) 7.
Proof.
  unfold LenGe. rewrite len_app. pose proof (len_nonneg present). change (len (fspec_bits b)) with 7. lia.
Qed.

(** [bool(byte & (1 << shift)) for shift in range(7, 0, -1)] is [fspec_bits]. *)
Definition compound_presence (data : bytes) (pos : Z) : exc (list bool * Z) :=
  run (present <- while_ (fuel_of data) (fun present =>
         none <- short data 1 ;;
         if none then raise_ ValueError else
         byte <- at_ data 0 ;;
         adv 1 ;;
         let present := present ++ fspec_bits byte in
         ret (if negb (bit byte 0x01) then stop present else more present)) [] ;;
       return_ (fun pos _ => (present, pos))) pos [].

#[export] Instance compound_presence_ok data :
  TryOk data (compound_presence data) (fun present => LenGe present 7).
Proof.
  intros p Hp. set (T := fun r : list bool * Z => p <= snd r <= len data /\ LenGe (fst r) 7).
  eapply (returns_weaken _ T); [apply run_returns|by intros []|done].
  apply wp_bind, (wp_while data (fun _ p' _ => p <= p')); [|lia|lia|apply fuel_of_enough; lia].
  intros present p' d' Hp' Hlen. repeat wp_rule; [done|].
  pose proof (fspec_bits_len present b).
  subst T. cbv zeta. destruct (negb _); cbn; [split; [lia|done]|split_and!; lia].
Qed.

(** The same with at most [maximum] octets: [_cat21__presence]. *)
Definition presence (data : bytes) (pos maximum : Z) : exc (list bool * Z) :=
  run (r <- for_range (Z.to_nat maximum) (fun r =>
         none <- short data 1 ;;
         if none then raise_ ValueError else
         byte <- at_ data 0 ;;
         adv 1 ;;
         let present := fst r ++ fspec_bits byte in
         ret (if negb (bit byte 0x01) then stop (present, true) else more (present, false))) ([], false) ;;
       let (present, complete) := r in
       if complete then return_ (fun pos _ => (present, pos)) else
       last <- at_ data (-1) ;;
       if bit last 0x01 then raise_ ValueError else
       return_ (fun pos _ => (present, pos))) pos [].

#[export] Instance presence_ok data maximum :
  TCEq (0 <? maximum) true ->
  TryOk data (fun pos => presence data pos maximum) (fun present => LenGe present 7).
Proof.
  intros Hm%TCEq_eq p Hp. set (T := fun r : list bool * Z => p <= snd r <= len data /\ LenGe (fst r) 7).
  eapply (returns_weaken _ T); [apply run_returns|by intros []|done]. apply wp_bind.
  destruct (Z.to_nat maximum) as [|n] eqn:En; [lia|]. clear En.
  set (I := fun (r : list bool * bool) p' (_ : dict) => p < p' <= len data /\ LenGe (fst r) 7).
  eapply (wp_weaken _ _ _ I _ (fun _ _ => False)); [| |done].
  - cbn [for_range]. apply wp_bind, wp_bind, wp_short; intros Hs; [done|].
    apply wp_bind, wp_at; [lia|lia|]. intros b Hb. apply wp_bind, wp_adv. cbv zeta. apply wp_ret. cbn [fst].
    assert (forall f, I ([] ++ fspec_bits b, f) (p + 1) []) as HI
      by (intros f; unfold I; cbn [fst]; split; [lia|apply fspec_bits_len]).
    destruct (negb _); [apply wp_ret, HI|].
    apply (wp_for_range I); [|apply HI|done].
    intros r p' d' [Hp' Hl]. repeat wp_rule; [done|]. cbv zeta.
    destruct (negb _); unfold I; cbn [fst]; (split; [lia|apply fspec_bits_len]).
  - intros [present complete] p' d' [Hp' Hl]. cbn [fst] in Hl.
    destruct complete; repeat wp_rule; try done; unfold T; cbn [fst snd]; (split; [lia|done]).
Qed.

(** [index < len(flags) and flags[index]] *)
Definition flag_at (flags : list bool) (i : Z) : bool :=
  (i <? len flags) && nth (Z.to_nat i) flags false.

(** [d.setdefault(k, [])] where [d.get(k)] is [o]. *)
Definition list_of (o : option value) : list value :=
  match o with Some (VList l) => l | _ => [] end.

Lemma list_of_ok S k t o :
  (forall v, o = Some v -> field_ok S k v = true) -> field_ty S k = Some (TList t) ->
  has_ty (TList t) (VList (list_of o)) = true.
Proof.
  intros Ho Hk. destruct o as [v|]; [|done]. specialize (Ho _ eq_refl).
  unfold field_ok in Ho. rewrite Hk in Ho. by destruct v.
Qed.

(** [track = {"_ts": time.time(), "_src": src}] *)
Definition new_track (now : float) (src : string) : dict := [("_ts", VFloat now); ("_src", VStr src)].

Lemma new_track_ok S now src : schema_le stamp_schema S = true -> wt S (new_track now src).
Proof.
  intros HS. change (new_track now src) with (stamp now src []).
  apply (wt_stamp []); [by rewrite HS|apply wt_nil].
Qed.

(** A record decoder is safe when its items and its last statements are. *)
Lemma record_decoder_ok data S E (parse : bytes -> Z -> exc (list bool * Z)) item rest init p :
  0 <= p < len data -> wt S init ->
  returns (parse data p) (fun '(_, p') => p < p' <= len data) noE ->
  (forall frn, 0 <= frn -> item_ok data S (record_result data S p) E (item frn)) ->
  (forall p' d, p < p' <= len data -> wt S d ->
     wp rest p' d (fun r _ _ => record_result data S p r) noB (record_result data S p) E) ->
  returns (let? (fspec, pos) := parse data p in run (for_fspec fspec item ;; rest) pos init)
    (record_result data S p) E.
Proof.
  intros Hp Hd Hparse Hi Hr. apply returns_bind. eapply returns_weaken; [exact Hparse| |done].
  intros [fspec pos] Hpos. apply run_returns, wp_bind.
  eapply wp_weaken; [eapply (wp_for_fspec data); [exact Hi|lia|done]| |done].
  intros _ p' d' [Hp' Hd']. apply Hr; [lia|done].
Qed.

(** The truncation exit, [return track, len(data)], of a record that starts at
    [p0]. *)
Lemma record_truncated data S p0 d : p0 < len data -> wt S d -> record_result data S p0 (d, len data).
Proof. unfold record_result. cbn. split; [done|lia]. Qed.

(** ** Publishing the records of a block *)
Inductive publication :=
| Dual (topic : string) (track : dict)
| Native (topic : string) (payload : bytes) (profile : string).

Definition located (track : dict) : bool := dmem "lat_deg" track && dmem "lon_deg" track.


Section Stream.
Variables (repr : value -> string) (category : Z) (profile : string) (topic : string -> string).
Variable decode : bytes -> Z -> exc (dict * Z).
Variable locate : dict -> exc dict.
(** Keys the message lacks, or declares with a type their values do not have. *)
Variable dropped : list string.

Definition publish_record (data : bytes) (previous pos : Z) (track : dict) :
    list publication * exc unit :=
  match locate track with
  | Raise e => ([], Raise e)
  | Ok track =>
      let key := topic (_asterix_source track) in
      let dual := if located track then [Dual key track] else [] in
      match asterix_data_block category (slice data previous pos) with
      | Raise e => (dual, Raise e)
      | Ok block => (dual ++ [Native (native_topic (semantic_topic repr key track)) block profile], Ok tt)
      end
  end.

(** [while pos < len(data): previous = pos; track, pos = decode(data, pos);
    if pos <= previous: break; if len(track) > 2: ...]: what is published, and
    how the handler ends. *)
Fixpoint publish_records (fuel : nat) (data : bytes) (pos : Z) : list publication * exc unit :=
  match fuel with
  | O => ([], Raise OutOfFuel)
  | S fuel' =>
      if len data <=? pos then ([], Ok tt) else
      match decode data pos with
      | Raise e => ([], Raise e)
      | Ok (track, pos') =>
          if pos' <=? pos then ([], Ok tt) else
          let (out, r) := if 2 <? len track then publish_record data pos pos' track else ([], Ok tt) in
          match r with
          | Raise e => (out, Raise e)
          | Ok _ => let (out', r') := publish_records fuel' data pos' in (out ++ out', r')
          end
      end
  end.

Definition handle_records (data : bytes) : list publication * exc unit :=
  publish_records (fuel_of data) data 0.

(** What a handler does with the records from position [p] on, and how it ends:
    the block is its records, one after another to its end. A record with no
    item decoded is passed over; every other is published once, in order: its
    protobuf and JSON views if it is located, of schema [S] and keeping to
    [message], [dropped] apart, and always its native view, exactly the octets
    it was read from as a data block of its own. A handler that fails does so
    at a record, with what came before it published. *)
Inductive stream_ok (S message : schema) (data : bytes) : Z -> list publication -> exc unit -> Prop :=
| so_end p : len data <= p -> stream_ok S message data p [] (Ok tt)
| so_fail p e : p < len data -> decode data p = Raise e -> stream_ok S message data p [] (Raise e)
| so_unplaced p p' read e :
    p < p' <= len data -> decode data p = Ok (read, p') -> 2 < len read -> locate read = Raise e ->
    stream_ok S message data p [] (Raise e)
| so_blank p p' read out r :
    p < p' <= len data -> decode data p = Ok (read, p') -> len read <= 2 ->
    stream_ok S message data p' out r -> stream_ok S message data p out r
| so_record p p' read track block out r :
    p < p' <= len data -> decode data p = Ok (read, p') -> 2 < len read -> locate read = Ok track ->
    wt S track -> conforms message (normalized_keys ++ dropped) track = true ->
    asterix_data_block category (slice data p p') = Ok block ->
    stream_ok S message data p' out r ->
    stream_ok S message data p
      ((if located track then [Dual (topic (_asterix_source track)) track] else []) ++
       Native (native_topic (semantic_topic repr (topic (_asterix_source track)) track)) block profile ::
       out) r.

Context (S S' message : schema) (E : exn -> Prop) (data : bytes).
Hypothesis decode_ok : forall p, 0 <= p < len data -> returns (decode data p) (record_result data S p) E.
Hypothesis locate_ok : forall d, wt S d -> returns (locate d) (wt S') E.
Hypothesis covered_S : covered message (normalized_keys ++ dropped) S' = true.
Hypothesis fits : 0 <= category <= 255 /\ len data <= 0xFFFF - 3.

Lemma block_ok p p' : 0 <= p < p' -> p' <= len data ->
  exists block, asterix_data_block category (slice data p p') = Ok block.
Proof.
  intros Hp Hp'. unfold asterix_data_block. cbv zeta.
  rewrite len_slice by lia.
  replace ((0 <=? category) && (category <=? 255)) with true by lia.
  replace (0xFFFF <? 3 + (p' - p)) with false by lia. cbn. eauto.
Qed.

(** The handler keeps the promise, and ends normally or with [E]. *)
Lemma publish_records_ok fuel p :
  0 <= p <= len data -> len data - p < Z.of_nat fuel ->
  let '(out, r) := publish_records fuel data p in stream_ok S' message data p out r /\ returns r (fun _ => True) E.
Proof.
  revert p. induction fuel as [|fuel IH]; intros p Hp Hf; [lia|]. cbn [publish_records].
  destruct (Z.leb_spec (len data) p); [split; [by constructor|done]|].
  pose proof (decode_ok p ltac:(lia)) as Hd. unfold returns in Hd.
  destruct (decode data p) as [[track p']|e] eqn:Ed; [|split; [by constructor|done]].
  destruct Hd as [Hd Hp']. cbn [fst snd] in Hd, Hp'.
  destruct (Z.leb_spec p' p); [lia|]. specialize (IH p' ltac:(lia) ltac:(lia)).
  destruct (Z.ltb_spec 2 (len track)).
  - unfold publish_record. pose proof (locate_ok _ Hd) as Hl. unfold returns in Hl.
    destruct (locate track) as [track'|e] eqn:El; [|split; [by eapply so_unplaced|done]].
    destruct (block_ok p p') as [block Hb]; [lia..|]. cbv zeta. rewrite Hb.
    destruct (publish_records fuel data p') as [out' r']. destruct IH as [IHs IHr]. rewrite <- app_assoc. cbn [app]. split; [|done].
    apply so_record with (p' := p') (read := track); try done. by eapply covered_conforms.
  - destruct (publish_records fuel data p') as [out' r']. destruct IH as [IHs IHr]. split; [by eapply so_blank|done].
Qed.

Lemma handle_records_ok :
  let '(out, r) := handle_records data in stream_ok S' message data 0 out r /\ returns r (fun _ => True) E.
Proof. pose proof (len_nonneg data). apply publish_records_ok; [lia|apply fuel_of_enough; lia]. Qed.
End Stream.

(** A handler whose decoder never raises and that places no record itself. *)
Lemma stream_total repr category profile topic decode dropped S message data :
  (forall p, 0 <= p < len data -> returns (decode data p) (record_result data S p) noE) ->
  covered message (normalized_keys ++ dropped) S = true ->
  0 <= category <= 255 -> len data <= 0xFFFF - 3 ->
  let '(out, r) := handle_records repr category profile topic decode (fun track => Ok track) data in
  stream_ok repr category profile topic decode (fun track => Ok track) dropped S message data 0 out (Ok tt) /\ r = Ok tt.
Proof.
  intros Hd Hc Hcat Hl.
  pose proof (handle_records_ok repr category profile topic decode (fun track => Ok track) dropped
    S S message noE data Hd ltac:(done) Hc ltac:(done)) as Hs.
  destruct (handle_records _ _ _ _ _ _ _) as [out [[]|e]]; [by destruct Hs|]. by destruct Hs.
Qed.
