(* ===== verification/Blocks.v ===== *)
(** * Categories that choose a topic per record

    CAT-010, 011, 015, 017, 018 and 205 read the records of a data block as
    CAT-020 does ([Records]), but decide for each record where it goes: to one
    topic or another, in a wrapper of its own, or nowhere. CAT-010 also turns
    some records into the status of its site. *)

From S2P Require Import Prelude PyFloat PyData Schema Ranges Cursor Safety Contract AsterixCommon TrackViews Records.

(** ** Compound items

    A presence map, then the subfields it names, each with a decoder of its
    own. *)
Definition compound {X} (names : list X) (maximum : Z) (item : bytes -> X -> cur (dict * Z) unit)
    (data : bytes) (pos : Z) : exc (dict * Z) :=
  let? (flags, pos) := presence data pos maximum in
  run (for_each (enumerate names) (fun '(index, name) =>
         if flag_at flags index then item data name else skip) ;;
       return_ (fun pos out => (out, pos))) pos [].

(** [{..}[name]], of a table with an entry for every name it is asked for. *)
Definition text_at (table : list (string * string)) (name : string) : string :=
  match List.find (fun kv => String.eqb (fst kv) name) table with Some kv => snd kv | None => "" end.

(** [raw.decode("ascii", "replace").strip("\x00 ")] *)
Definition ascii_text (raw : bytes) : exc string :=
  Ok (strip_chars [ascii_of_nat 0; " "%char] (decode_ascii_replace raw)).

(** [_signed_bits] *)
Definition signed_bits (value width : Z) : Z :=
  let sign := Z.shiftl 1 (width - 1) in
  if bit value sign then value - Z.shiftl 1 width else value.

#[export] Instance in_range_signed_bits v lo hi w s :
  InRange v lo hi -> TCEq (Z.shiftl 1 (w - 1)) s -> TCEq ((0 <=? lo) && sign_ok hi s (Z.shiftl 1 w)) true ->
  InRange (signed_bits v w) (- s) (s - 1).
Proof. intros Hv Hs%TCEq_eq H. subst s. exact (in_range_sign v lo hi _ _ Hv H). Qed.

#[export] Instance lift_ok_tindex (t : table) i lo hi :
  InRange i lo hi ->
  TCEq ((0 <=? lo) && forallb (fun k => match tget t (Z.of_nat k) with Some _ => true | None => false end) (seq 0 (S (Z.to_nat hi)))) true ->
  LiftOk (tindex t i) (fun s => In s (map snd t)) noE.
Proof.
  unfold InRange, LiftOk, tindex. intros Hi [H0 H]%TCEq_eq%andb_true_iff. apply Z.leb_le in H0.
  rewrite forallb_forall in H. specialize (H (Z.to_nat i)). rewrite Z2Nat.id in H by lia.
  destruct (tget t i) as [s|] eqn:E; [|discriminate H; apply in_seq; lia]. cbn.
  clear -E. induction t as [|[k x] t IH]; [done|]. cbn in E |- *. destruct (k =? i); [left; congruence|right; auto].
Qed.

(** What a subfield keeps. *)
Definition subfield_ok {X} (data : bytes) (S : schema) (names : list X)
    (item : bytes -> X -> cur (dict * Z) unit) : Prop :=
  forall name p d, In name names -> 0 <= p <= len data -> wt S d ->
    wp (item data name) p d (fun _ p' d' => p <= p' <= len data /\ wt S d') noB (fills data S p) value_error.

Lemma compound_ok {X} data S (names : list X) maximum item :
  0 < maximum -> subfield_ok data S names item ->
  TryOk data (compound names maximum item data) (fun out => fields_ok S out = true).
Proof.
  intros Hm Hi p Hp. unfold compound. apply returns_bind.
  assert (TCEq (0 <? maximum) true) as Htc by (apply TCEq_eq; lia).
  eapply returns_weaken; [apply (presence_ok data maximum Htc p Hp)| |done].
  intros [flags pos] [Hpos _]. pose proof (wt_nil S) as Hd.
  set (T := fun r : dict * Z => p <= snd r <= len data /\ fields_ok S (fst r) = true).
  eapply (returns_weaken _ T); [|by intros []|intros e He; exact He]. apply run_returns, wp_bind.
  apply (wp_for_each (fun p' d' => p <= p' <= len data /\ wt S d')); [|split; [lia|exact Hd]|].
  - intros [index name] p' d' Hin [Hp' Hd']. destruct (flag_at flags index).
    + pose proof (Hi name p' d') as Hw. unfold wp in Hw |- *.
      assert (In name names) as Hn by (eapply in_combine_r; exact Hin). specialize (Hw Hn ltac:(lia) Hd').
      destruct (item data name p' d') as [u p2 d2|p2 d2|r|e]; [destruct Hw; split; [lia|done]|done| |exact Hw].
      destruct Hw as [Hf Hr]. split; [lia|done].
    + apply wp_skip. by split.
  - intros p' d' [Hp' Hd']. apply wp_return. split; [cbn; lia|]. cbn. exact (proj2 Hd').
Qed.

(** An item that fills a dictionary of its own, without a presence map. *)
Definition plain_item (item : bytes -> cur (dict * Z) unit) (data : bytes) (pos : Z) : exc (dict * Z) :=
  run (item data ;; return_ (fun pos out => (out, pos))) pos [].

Lemma plain_item_ok data S item :
  (forall p d, 0 <= p <= len data -> wt S d ->
     wp (item data) p d (fun _ p' d' => p <= p' <= len data /\ wt S d') noB (fills data S p) noE) ->
  TryOk data (plain_item item data) (fun out => fields_ok S out = true).
Proof.
  intros Hi p Hp. unfold plain_item. pose proof (wt_nil S) as Hd.
  eapply (returns_weaken _ (fills data S p) _ noE); [|intros [out p'] [H1 H2]; cbn in *; split; [lia|done]|done].
  apply run_returns, wp_bind.
  eapply wp_weaken; [apply (Hi p [] Hp Hd)| |done].
  intros u p' d' [Hp' [_ Hf]]. apply wp_return. split; [exact Hf|cbn; lia].
Qed.

(** [while b & 1: if pos >= len(data): otherwise; b = data[pos]; pos += 1;
    xs.append(b)], where [otherwise] leaves the record. *)
Definition fx_strict {R} (data : bytes) (b : Z) (otherwise : cur R unit) : cur R (list Z) :=
  r <- while_ (fuel_of data) (fun '(b, xs) =>
    if negb (bit b 0x01) then ret (stop (b, xs)) else
    need data 1 otherwise ;;
    b <- at_ data 0 ;;
    adv 1 ;;
    ret (more (b, xs ++ [b]))) (b, []) ;;
  ret (snd r).

Lemma wp_fx_strict {R} (data : bytes) b (o : cur R unit) p d (Q : list Z -> Z -> dict -> Prop) B T E :
  0 <= p <= len data ->
  (forall p', p <= p' <= len data -> wp o p' d (fun _ _ _ => False) B T E) ->
  (forall xs p', p <= p' <= len data -> Q xs p' d) ->
  wp (fx_strict data b o) p d Q B T E.
Proof.
  intros Hp Ho HQ. apply wp_bind.
  apply (wp_while data (fun s p' d' => p <= p' /\ d' = d)); [|auto with lia|lia|].
  2: { apply fuel_of_enough. lia. }
  intros [b' xs] p' d' (Hp' & ->) Hlen.
  destruct (negb _); [by apply wp_ret, wp_ret, HQ; lia|].
  apply wp_bind, wp_need; intros Hs; [eapply wp_weaken; [by apply Ho; lia|done|done]|].
  apply wp_bind, wp_at; [lia|lia|]. intros c Hc. apply wp_bind, wp_adv, wp_ret. cbn.
  split_and!; try done; lia.
Qed.

(** A choice by name, the name known. *)
Ltac pick_name :=
  cbv beta zeta;
  repeat match goal with
         | |- context [if String.eqb ?a ?b then _ else _] =>
             let r := eval vm_compute in (String.eqb a b) in
             match r with true => idtac | false => idtac end;
             change (String.eqb a b) with r; cbv iota
         end.

(** One subfield after another, each with its name known. *)
Ltac by_names tac :=
  intros name p d Hin Hp Hd;
  repeat (destruct Hin as [<-|Hin]; [pick_name; tac|]); destruct Hin.

(** ** Publishing *)

(** Civil radars are neutral, the others friendly. *)
Definition _radar_site_affil (civil : list string) (source : string) : string :=
  if selem source civil then "neutral" else "friendly".

(** What a handler does with a record. *)
Inductive routed :=
| Unplaced                                   (* [continue] *)
| Reported (topic wrapper : string)          (* its views and its octets *)
| Overheard (topic : string)                 (* its octets *)
| Announced (topic : string) (status : dict) (* the status made of it, as a sensor *).

Inductive sending :=
| Views (wrapper topic : string) (track : dict)
| Octets (topic : string) (payload : bytes) (profile : string).

Section Blocks.
Variables (repr : value -> string) (category : Z) (profile : string).
Variable decode : bytes -> Z -> exc (dict * Z).
Variable route : dict -> routed.

Definition deliver (data : bytes) (previous pos : Z) (track : dict) : list sending * exc unit :=
  match route track with
  | Unplaced => ([], Ok tt)
  | Reported topic wrapper =>
      match asterix_data_block category (slice data previous pos) with
      | Raise e => ([Views wrapper topic track], Raise e)
      | Ok block =>
          ([Views wrapper topic track; Octets (native_topic (semantic_topic repr topic track)) block profile], Ok tt)
      end
  | Overheard topic =>
      match asterix_data_block category (slice data previous pos) with
      | Raise e => ([], Raise e)
      | Ok block => ([Octets (native_topic (semantic_topic repr topic track)) block profile], Ok tt)
      end
  | Announced topic status => ([Views "sensor" topic status], Ok tt)
  end.

(** [while pos < len(data): previous = pos; track, pos = decode(data, pos);
    if pos <= previous: break; ...] *)
Fixpoint deliver_records (fuel : nat) (data : bytes) (pos : Z) : list sending * exc unit :=
  match fuel with
  | O => ([], Raise OutOfFuel)
  | S fuel' =>
      if len data <=? pos then ([], Ok tt) else
      match decode data pos with
      | Raise e => ([], Raise e)
      | Ok (track, pos') =>
          if pos' <=? pos then ([], Ok tt) else
          let (out, r) := deliver data pos pos' track in
          match r with
          | Raise e => (out, Raise e)
          | Ok _ => let (out', r') := deliver_records fuel' data pos' in (out ++ out', r')
          end
      end
  end.

Definition handle_block (data : bytes) : list sending * exc unit := deliver_records (fuel_of data) data 0.

(** ** What a handler promises

    The block is its records, one after another to its end; what is sent is
    what each of them calls for, in order. A handler that fails does so at a
    record, with what came before it sent. *)
Inductive delivered (S message : schema) (announced : dict -> Prop) (dropped : list string) (E : exn -> Prop) (data : bytes) :
    Z -> list sending -> exc unit -> Prop :=
| dv_end p : len data <= p -> delivered S message announced dropped E data p [] (Ok tt)
| dv_fail p e : decode data p = Raise e -> E e -> delivered S message announced dropped E data p [] (Raise e)
| dv_unplaced p p' track out r :
    p < p' <= len data -> decode data p = Ok (track, p') -> wt S track -> route track = Unplaced ->
    delivered S message announced dropped E data p' out r -> delivered S message announced dropped E data p out r
| dv_reported p p' track topic wrapper block out r :
    p < p' <= len data -> decode data p = Ok (track, p') -> wt S track -> route track = Reported topic wrapper ->
    conforms message (normalized_keys ++ dropped) track = true ->
    asterix_data_block category (slice data p p') = Ok block ->
    delivered S message announced dropped E data p' out r ->
    delivered S message announced dropped E data p
      (Views wrapper topic track :: Octets (native_topic (semantic_topic repr topic track)) block profile :: out) r
| dv_overheard p p' track topic block out r :
    p < p' <= len data -> decode data p = Ok (track, p') -> wt S track -> route track = Overheard topic ->
    asterix_data_block category (slice data p p') = Ok block ->
    delivered S message announced dropped E data p' out r ->
    delivered S message announced dropped E data p
      (Octets (native_topic (semantic_topic repr topic track)) block profile :: out) r
| dv_announced p p' track topic status out r :
    p < p' <= len data -> decode data p = Ok (track, p') -> wt S track -> route track = Announced topic status ->
    announced status ->
    delivered S message announced dropped E data p' out r ->
    delivered S message announced dropped E data p (Views "sensor" topic status :: out) r.

Context (S message : schema) (announced : dict -> Prop) (dropped : list string) (E : exn -> Prop) (data : bytes).
Hypothesis decode_ok : forall p, 0 <= p < len data -> returns (decode data p) (record_result data S p) E.
Hypothesis covered_S : covered message (normalized_keys ++ dropped) S = true.
Hypothesis status_ok : forall track topic status, wt S track -> route track = Announced topic status ->
  announced status.
Hypothesis fits : 0 <= category <= 255 /\ len data <= 0xFFFF - 3.

Lemma deliver_records_ok fuel p :
  0 <= p <= len data -> len data - p < Z.of_nat fuel ->
  let '(out, r) := deliver_records fuel data p in delivered S message announced dropped E data p out r.
Proof.
  revert p. induction fuel as [|fuel IH]; intros p Hp Hf; [lia|]. cbn [deliver_records].
  destruct (Z.leb_spec (len data) p); [by constructor|].
  pose proof (decode_ok p ltac:(lia)) as Hd. unfold returns in Hd.
  destruct (decode data p) as [[track p']|e] eqn:Ed; [|by constructor].
  destruct Hd as [Hd Hp']. cbn [fst snd] in Hd, Hp'.
  destruct (Z.leb_spec p' p); [lia|]. specialize (IH p' ltac:(lia) ltac:(lia)).
  unfold deliver. destruct (route track) as [|topic wrapper|topic|topic status] eqn:Er.
  - destruct (deliver_records fuel data p') as [out' r']. by apply (dv_unplaced _ _ _ _ _ _ _ p' track).
  - destruct (block_ok category data fits p p') as [block Hb]; [lia..|]. rewrite Hb.
    destruct (deliver_records fuel data p') as [out' r']. cbn [app].
    by apply (dv_reported _ _ _ _ _ _ _ p'); try done; eapply covered_conforms.
  - destruct (block_ok category data fits p p') as [block Hb]; [lia..|]. rewrite Hb.
    destruct (deliver_records fuel data p') as [out' r']. cbn [app].
    by apply (dv_overheard _ _ _ _ _ _ _ p' track).
  - destruct (deliver_records fuel data p') as [out' r']. cbn [app].
    by apply (dv_announced _ _ _ _ _ _ _ p' track); eauto.
Qed.

Lemma handle_block_ok :
  let '(out, r) := handle_block data in delivered S message announced dropped E data 0 out r.
Proof. pose proof (len_nonneg data). apply deliver_records_ok; [lia|apply fuel_of_enough; lia]. Qed.
End Blocks.

(** ** Octets *)
Definition octets_of (s : sending) : option bytes :=
  match s with Octets _ block _ => Some block | _ => None end.

Lemma slice_split (data : bytes) p q : 0 <= p <= q -> slice data p q ++ slice data q (len data) = slice data p (len data).
Proof.
  intros H. unfold slice, len.
  destruct (Z.le_gt_cases q (Z.of_nat (length data))) as [Hq|Hq].
  - replace (skipn (Z.to_nat q) data) with (skipn (Z.to_nat (q - p)) (skipn (Z.to_nat p) data))
      by (rewrite skipn_skipn; f_equal; lia).
    replace (Z.to_nat (Z.of_nat (length data) - p)) with (Z.to_nat (q - p) + Z.to_nat (Z.of_nat (length data) - q))%nat by lia.
    apply take_take_drop.
  - rewrite (skipn_all2 data (n := Z.to_nat q)), firstn_nil, app_nil_r by lia.
    rewrite !firstn_all2; [done|rewrite length_skipn; lia..].
Qed.

(** A handler that reports every record republishes its block octet for octet:
    the payloads of what it sends are the block, cut into records. *)
Lemma delivered_relays repr category profile decode route S message announced dropped E data p out r :
  delivered repr category profile decode route S message announced dropped E data p out r ->
  (forall track, exists topic wrapper, route track = Reported topic wrapper) ->
  r = Ok tt -> 0 <= p <= len data ->
  exists pieces, concat pieces = slice data p (len data) /\
    Forall2 (fun piece block => asterix_data_block category piece = Ok block) pieces (omap octets_of out).
Proof.
  intros Hd Hr. induction Hd as [p Hp|p e Hdec He|p p' track out r Hp Hdec Ht Hu Hd IH
    |p p' track topic wrapper block out r Hp Hdec Ht Hu Hc Hb Hd IH
    |p p' track topic block out r Hp Hdec Ht Hu Hb Hd IH|p p' track topic status out r Hp Hdec Ht Hu Ha Hd IH]; intros Eq Hl.
  - exists []. split; [|constructor]. unfold slice. by replace (len data - p) with 0 by lia.
  - done.
  - destruct (Hr track) as (? & ? & ?). congruence.
  - destruct (IH Eq ltac:(lia)) as (pieces & Hc' & Hf). exists (slice data p p' :: pieces). split.
    + cbn [concat]. rewrite Hc'. apply slice_split; lia.
    + cbn. by constructor.
  - destruct (Hr track) as (? & ? & ?). congruence.
  - destruct (Hr track) as (? & ? & ?). congruence.
Qed.
