(* ===== verification/Trust.v ===== *)
(** * Delegation grants

    compose/zenoh-admin/api/trust_types.py and trust_identity.py: the key scopes
    a grant names, the grants and their validation, when one grant is narrower
    than another, and the identities of routers. Pydantic reads the fields of a
    grant from JSON; what the validators of the source do with them is here. *)

From stdpp Require Import strings.
From S2P Require Import Prelude PyData Schema TrackViews PyText.

#[local] Open Scope Z_scope.
#[local] Open Scope py_scope.

(** ** Characters and patterns *)
Definition char_in (s : string) (c : ascii) : bool := existsb (Ascii.eqb c) (list_ascii_of_string s).
Definition alnum (c : ascii) : bool := is_alpha c || is_digit c.
Definition is_lower (c : ascii) : bool := let n := N_of_ascii c in ((97 <=? n) && (n <=? 122))%N.
Definition is_hex_lower (c : ascii) : bool := is_digit c || char_in "abcdef" c.

(** [C{lo,hi}], the whole string. *)
Definition class_match (f : ascii -> bool) (lo hi : Z) (s : string) : bool :=
  let n := Z.of_nat (String.length s) in (lo <=? n) && (n <=? hi) && all_chars f s.

Definition segment_char (c : ascii) : bool := alnum c || char_in "._-" c.
Definition _SEGMENT_RE : string -> bool := class_match segment_char 1 128.
Definition _FINGERPRINT_RE : string -> bool := class_match is_hex_lower 64 64.

(** [s.removeprefix(p)], with whether [p] was there. *)
Fixpoint after_prefix (p s : string) : option string :=
  match p, s with
  | EmptyString, _ => Some s
  | String a p', String b s' => if Ascii.eqb a b then after_prefix p' s' else None
  | _, EmptyString => None
  end.

(** The cuts [a + "/router/" + b] of a string: a regular expression tries them all. *)
Fixpoint router_cuts (before s : string) : list (string * string) :=
  match after_prefix "/router/" s with
  | Some rest => [(before, rest)]
  | None => []
  end ++
  match s with
  | String c s' => router_cuts (before +:+ String c EmptyString) s'
  | EmptyString => []
  end.

Definition domain_char (c : ascii) : bool := is_lower c || is_digit c || char_in ".-" c.
Definition identity_char (c : ascii) : bool := alnum c || char_in "._~%/-" c.

Definition _IDENTITY_RE (s : string) : bool :=
  match after_prefix "spiffe://" s with
  | Some rest => existsb (fun ab => class_match domain_char 1 253 (fst ab) && class_match identity_char 1 512 (snd ab))
                         (router_cuts "" rest)
  | None => false
  end.

(** ** Key scopes *)
Definition parse_key_scope (expression : string) : exc (list string * bool) :=
  let n := Z.of_nat (String.length expression) in
  if negb ((1 <=? n) && (n <=? 1024)) then Raise ValueError else
  if startswith "/" expression || endswith "/" expression then Raise ValueError else
  let parts := TrackViews.split expression in
  let wildcard := String.eqb (List.last parts "") "**" in
  let literal := if wildcard then removelast parts else parts in
  if match literal with [] => true | _ => negb (forallb _SEGMENT_RE literal) end then Raise ValueError else
  if existsb (fun part => selem part ["*"; "**"]) literal then Raise ValueError else
  Ok (literal, wildcard).

Fixpoint seq_eqb (l k : list string) : bool :=
  match l, k with
  | [], [] => true
  | a :: l', b :: k' => String.eqb a b && seq_eqb l' k'
  | _, _ => false
  end.

Definition scope_contains (parent child : string) : exc bool :=
  let? (parent_parts, parent_wildcard) := parse_key_scope parent in
  let? (child_parts, child_wildcard) := parse_key_scope child in
  Ok (if negb parent_wildcard then negb child_wildcard && seq_eqb child_parts parent_parts
      else (len parent_parts <=? len child_parts) && seq_eqb (slice child_parts 0 (len parent_parts)) parent_parts).

(** ** Grants *)
Inductive RouterRole := ROUTER_CA | ROUTER | WORKLOAD_ISSUER.
Inductive ControlAction := TOPOLOGY | STATUS | CONFIG_FROM_PARENT | MANAGE_CHILDREN.

#[export] Instance role_eq_dec : EqDecision RouterRole.
Proof. solve_decision. Defined.
#[export] Instance action_eq_dec : EqDecision ControlAction.
Proof. solve_decision. Defined.

(** Times are microseconds, UTC. *)
Record DelegationGrant := {
  grant_id : string;
  issuer_identity : string;
  subject_ca_sha256 : string;
  subject_identity : string;
  namespace : string;
  roles : list RouterRole;
  publish : list string;
  subscribe : list string;
  control : list ControlAction;
  max_delegation_depth : Z;
  sequence : Z;
  not_before : Z;
  not_after : Z;
}.

Definition valid_scope (s : string) : bool := match parse_key_scope s with Ok _ => true | Raise _ => false end.
Definition wildcard_scope (s : string) : bool := match parse_key_scope s with Ok (_, w) => w | Raise _ => false end.
Definition scope_within (parent child : string) : bool :=
  match scope_contains parent child with Ok b => b | Raise _ => false end.

Definition distinct {A} `{EqDecision A} (l : list A) : bool := bool_decide (NoDup l).

(** [str.lower] of the hexadecimal digits a fingerprint may have. *)
Definition lower_hex (s : string) : string := smap lower_char s.

(** [s.rstrip("/")] *)
Definition rstrip_slash (s : string) : string := rstrip (Ascii.eqb "/"%char) s.

(** [validate_contract]. *)
Definition validate_contract (g : DelegationGrant) : bool :=
  (not_before g <? not_after g) &&
  negb (String.eqb (issuer_identity g) (subject_identity g)) &&
  startswith (rstrip_slash (issuer_identity g) +:+ "/") (subject_identity g) &&
  forallb (scope_within (namespace g)) (publish g).

(** [DelegationGrant.model_validate], of fields that have their declared types:
    pydantic reports a failure of any validator as a ValidationError. *)
Definition model_validate (g : DelegationGrant) : exc DelegationGrant :=
  let g := {| grant_id := grant_id g; issuer_identity := issuer_identity g; subject_ca_sha256 := lower_hex (subject_ca_sha256 g);
              subject_identity := subject_identity g; namespace := namespace g; roles := roles g; publish := publish g;
              subscribe := subscribe g; control := control g; max_delegation_depth := max_delegation_depth g;
              sequence := sequence g; not_before := not_before g; not_after := not_after g |} in
  if _IDENTITY_RE (issuer_identity g) && _IDENTITY_RE (subject_identity g) && _FINGERPRINT_RE (subject_ca_sha256 g) &&
     wildcard_scope (namespace g) &&
     (1 <=? len (roles g)) && (len (roles g) <=? 3) && distinct (roles g) &&
     (len (publish g) <=? 128) && distinct (publish g) && forallb valid_scope (publish g) &&
     (len (subscribe g) <=? 128) && distinct (subscribe g) && forallb valid_scope (subscribe g) &&
     (len (control g) <=? 4) && distinct (control g) &&
     (0 <=? max_delegation_depth g) && (max_delegation_depth g <=? 32) && (0 <=? sequence g) &&
     validate_contract g
  then Ok g else Raise ValueError.

Definition subset {A} `{EqDecision A} (l k : list A) : bool := forallb (fun x => bool_decide (x ∈ k)) l.

(** [any(not any(scope_contains(parent_scope, scope) for parent_scope in allowed) for scope in requested)],
    negated: the scopes of a grant have been parsed. *)
Definition covered (requested allowed : list string) : bool :=
  forallb (fun scope => existsb (fun parent_scope => scope_within parent_scope scope) allowed) requested.

Definition grant_is_subset (child parent : DelegationGrant) : bool :=
  String.eqb (issuer_identity child) (subject_identity parent) &&
  scope_within (namespace parent) (namespace child) &&
  negb (String.eqb (namespace child) (namespace parent)) &&
  subset (roles child) (roles parent) &&
  subset (control child) (control parent) &&
  (max_delegation_depth child <? max_delegation_depth parent) &&
  (not_before parent <=? not_before child) && (not_after child <=? not_after parent) &&
  covered (publish child) (publish parent) &&
  covered (subscribe child) (subscribe parent).

(** ** Identities (trust_identity.py) *)
Definition path_char (c : ascii) : bool := alnum c || char_in "._/-" c.
Definition _PATH_RE : string -> bool := class_match path_char 1 512.

(** ["//" in value] *)
Fixpoint double_slash (s : string) : bool :=
  match s with
  | String c s' => (Ascii.eqb c "/"%char && startswith "/" s') || double_slash s'
  | EmptyString => false
  end.

Definition normalize_path (value : string) : exc string :=
  let value := strip_chars ["/"%char] value in
  if negb (_PATH_RE value) || double_slash value then Raise ValueError else Ok value.

Section Domain.
Variable TRUST_DOMAIN : string.

Definition router_identity (namespace_path : string) : exc string :=
  let? path := normalize_path namespace_path in
  Ok ("spiffe://" +:+ TRUST_DOMAIN +:+ "/router/" +:+ path).
End Domain.

Definition child_namespace (parent_path requested : string) : exc string :=
  let? parent := normalize_path parent_path in
  let? candidate := normalize_path requested in
  if startswith (parent +:+ "/") candidate then Ok candidate
  else if negb (all_chars (fun c => negb (Ascii.eqb c "/"%char)) candidate) then Raise ValueError
  else Ok (parent +:+ "/" +:+ candidate).

Definition bounded_common_name (sha256 : string -> string) (profile identity_uri : string) : exc string :=
  if negb (selem profile ["router"; "policy"; "ca"]) then Raise ValueError
  else Ok ("efdi-" +:+ profile +:+ "-" +:+ substring 0 32 (sha256 identity_uri)).

(** ** The keys a scope names

    A key is its segments. [lit/**] names [lit] and every key below it. *)
Definition names (scope : string) (key : list string) : Prop :=
  match parse_key_scope scope with
  | Ok (literal, true) => literal `prefix_of` key
  | Ok (literal, false) => key = literal
  | Raise _ => False
  end.

Definition named_by (scopes : list string) (key : list string) : Prop := exists s, s ∈ scopes /\ names s key.

Lemma seq_eqb_eq l k : seq_eqb l k = true <-> l = k.
Proof.
  revert k. induction l as [|a l IH]; intros [|b k]; cbn; try done.
  rewrite andb_true_iff, IH, String.eqb_eq. naive_solver.
Qed.

Lemma slice_prefix (l k : list string) :
  (len k <=? len l) && seq_eqb (slice l 0 (len k)) k = true <-> k `prefix_of` l.
Proof.
  rewrite andb_true_iff, seq_eqb_eq. unfold slice. change (drop (Z.to_nat 0) l) with l. rewrite Z.sub_0_r. unfold len. rewrite Nat2Z.id. split.
  - intros [_ E]. exists (skipn (length k) l). rewrite <- E at 1. by rewrite firstn_skipn.
  - intros [m ->]. split; [apply Z.leb_le; rewrite length_app; lia|]. by rewrite firstn_app, Nat.sub_diag, firstn_all, app_nil_r.
Qed.

(** What [parse_key_scope] lets through. *)
Lemma parse_scope_ok s lit w : parse_key_scope s = Ok (lit, w) -> lit <> [] /\ Forall (fun p => _SEGMENT_RE p = true) lit.
Proof.
  unfold parse_key_scope. destruct (negb _); [done|]. destruct (_ || _); [done|]. cbv zeta.
  set (l := if String.eqb _ _ then removelast _ else _). destruct l as [|p l]; [done|].
  destruct (forallb _SEGMENT_RE (p :: l)) eqn:E; [|done]. cbn [negb].
  destruct (existsb _ (p :: l)); [done|]. intros [= <- _]. split; [done|].
  apply Forall_forall. intros x Hx. apply (proj1 (forallb_forall _ _) E). by apply list_elem_of_In.
Qed.

(** A segment no scope can name. *)
Lemma tilde_unnamed lit1 lit2 s w :
  parse_key_scope s = Ok (lit2, w) -> lit1 ++ ["~"%py] <> lit2.
Proof.
  intros [_ H]%parse_scope_ok <-. apply Forall_app in H as [_ H]. inversion H as [|? ? Ht _]. done.
Qed.

Lemma tilde_prefix lit1 lit2 s w :
  parse_key_scope s = Ok (lit2, w) -> lit2 `prefix_of` lit1 ++ ["~"%py] -> lit2 `prefix_of` lit1.
Proof.
  intros Hp [m Hm]. destruct m as [|x m] using rev_ind.
  - rewrite app_nil_r in Hm. by destruct (tilde_unnamed lit1 lit2 s w Hp).
  - rewrite app_assoc in Hm. apply app_inj_tail in Hm as [-> _]. by exists m.
Qed.

(** Every scope names the key of its literal, and [lit/**] more than one. *)
Lemma names_literal s lit w : parse_key_scope s = Ok (lit, w) -> names s lit.
Proof. unfold names. intros ->. by destruct w. Qed.

Lemma names_below s lit key : parse_key_scope s = Ok (lit, true) -> lit `prefix_of` key -> names s key.
Proof. unfold names. by intros ->. Qed.

(** One scope contains another exactly when it names its literal and, if the
    other goes on below it, the key ["~"] below it too. *)
Lemma contains_spec p c plit pw clit cw :
  parse_key_scope p = Ok (plit, pw) -> parse_key_scope c = Ok (clit, cw) ->
  scope_within p c = true <->
  names p clit /\ (cw = true -> names p (clit ++ ["~"%py])).
Proof.
  intros Hp Hc. unfold scope_within, scope_contains. rewrite Hp, Hc. cbn [exc_bind]. unfold names. rewrite Hp.
  destruct pw; cbn [negb].
  - rewrite slice_prefix. split; [|by intros [H _]]. intros H. split; [done|]. intros _. by apply prefix_app_r.
  - rewrite andb_true_iff, seq_eqb_eq. destruct cw; cbn.
    + split; [by intros [? _]|]. intros [-> H]. specialize (H eq_refl). exfalso.
      apply (f_equal length) in H. rewrite length_app in H. cbn in H. lia.
    + naive_solver.
Qed.

Lemma within_names p c key : scope_within p c = true -> names c key -> names p key.
Proof.
  destruct (parse_key_scope c) as [[clit cw]|e] eqn:Hc; [|unfold names; by rewrite Hc].
  destruct (parse_key_scope p) as [[plit pw]|e] eqn:Hp;
    [|unfold scope_within, scope_contains; by rewrite Hp].
  rewrite (contains_spec p c plit pw clit cw Hp Hc). unfold names. rewrite Hc, Hp.
  destruct cw, pw; intros [H1 H2] H.
  - by transitivity clit.
  - specialize (H2 eq_refl). subst plit. exfalso. apply (f_equal length) in H2. rewrite length_app in H2. cbn in H2. lia.
  - by subst.
  - congruence.
Qed.

(** The two keys that decide whether scopes contain another one. *)
Lemma names_tilde p lit plit pw :
  parse_key_scope p = Ok (plit, pw) -> names p (lit ++ ["~"%py]) -> names p lit.
Proof.
  intros Hp. unfold names. rewrite Hp. destruct pw; [by apply (tilde_prefix _ _ p true)|].
  intros E. by destruct (tilde_unnamed lit plit p false Hp).
Qed.

Lemma covered_spec requested allowed :
  forallb valid_scope requested = true ->
  covered requested allowed = true <-> (forall key, named_by requested key -> named_by allowed key).
Proof.
  intros Hv. unfold covered. rewrite forallb_forall. split.
  - intros H key (s & Hs & Hk). apply list_elem_of_In, H, existsb_exists in Hs as (p & Hp & Hw).
    exists p. split; [by apply list_elem_of_In|]. by eapply within_names.
  - intros H s Hs. pose proof (proj1 (forallb_forall _ _) Hv s Hs) as Hvs. unfold valid_scope in Hvs.
    destruct (parse_key_scope s) as [[lit w]|e] eqn:Hp; [|done]. apply existsb_exists.
    assert (names s (if w then lit ++ ["~"%py] else lit)) as Hn.
    { unfold names. rewrite Hp. destruct w; [by apply prefix_app_r|done]. }
    destruct (H _ (ex_intro _ s (conj (proj2 (list_elem_of_In _ _) Hs) Hn))) as (p & Hin & Hpn).
    exists p. split; [by apply list_elem_of_In|].
    destruct (parse_key_scope p) as [[plit pw]|e] eqn:Hpp; [|unfold names in Hpn; by rewrite Hpp in Hpn].
    apply (contains_spec p s plit pw lit w Hpp Hp). destruct w.
    + split; [by eapply names_tilde|done].
    + by split.
Qed.

Lemma named_by_one s key : named_by [s] key <-> names s key.
Proof.
  unfold named_by. split; [by intros (t & ->%list_elem_of_singleton & H)|].
  intros H. exists s. split; [by apply list_elem_of_singleton|done].
Qed.

Lemma within_spec p c : valid_scope c = true ->
  scope_within p c = true <-> (forall key, names c key -> names p key).
Proof.
  intros Hv. pose proof (covered_spec [c] [p]) as H. cbn in H. rewrite Hv, orb_false_r, !andb_true_r in H.
  rewrite (H eq_refl). by setoid_rewrite named_by_one.
Qed.

Lemma wildcard_valid s : wildcard_scope s = true -> valid_scope s = true.
Proof. unfold wildcard_scope, valid_scope. by destruct (parse_key_scope s) as [[]|]. Qed.

Lemma subset_spec {A} `{EqDecision A} (l k : list A) : subset l k = true <-> l ⊆ k.
Proof.
  unfold subset. rewrite forallb_forall. split.
  - intros H x Hx. apply list_elem_of_In, H in Hx. by apply bool_decide_eq_true in Hx.
  - intros H x Hx. apply bool_decide_eq_true, H. by apply list_elem_of_In.
Qed.

(** ** Narrower grants *)

(** What authority a grant gives is within what another one gives. *)
Record narrower (child parent : DelegationGrant) : Prop := {
  narrower_namespace key : names (namespace child) key -> names (namespace parent) key;
  narrower_publish key : named_by (publish child) key -> named_by (publish parent) key;
  narrower_subscribe key : named_by (subscribe child) key -> named_by (subscribe parent) key;
  narrower_roles : roles child ⊆ roles parent;
  narrower_control : control child ⊆ control parent;
  narrower_depth : max_delegation_depth child < max_delegation_depth parent;
  narrower_before : not_before parent <= not_before child;
  narrower_after : not_after child <= not_after parent;
}.

#[export] Instance narrower_trans : Transitive narrower.
Proof. intros a b c [] []. constructor; solve [eauto|lia|set_solver]. Qed.

(** A grant [model_validate] returns. *)
Definition validated (g : DelegationGrant) : Prop := model_validate g = Ok g.

Lemma validated_ok g : validated g ->
  wildcard_scope (namespace g) = true /\ forallb valid_scope (publish g) = true /\
  forallb valid_scope (subscribe g) = true /\ validate_contract g = true /\ 0 <= max_delegation_depth g <= 32.
Proof.
  unfold validated, model_validate. cbv zeta. cbn [issuer_identity subject_identity subject_ca_sha256 namespace roles publish
    subscribe control max_delegation_depth sequence not_before not_after].
  destruct (_ && _) eqn:E; [|done]. intros _. unfold validate_contract in *. cbn [issuer_identity subject_identity namespace
    publish not_before not_after] in E.
  repeat (apply andb_true_iff in E as [E ?]). split_and!; solve [done|lia].
Qed.

Lemma lower_hex_twice s : lower_hex (lower_hex s) = lower_hex s.
Proof.
  unfold lower_hex. induction s as [|c s IH]; [done|]. cbn. rewrite IH. f_equal. unfold lower_char. cbv zeta.
  destruct ((65 <=? N_of_ascii c) && (N_of_ascii c <=? 90))%N eqn:Ec; [|by rewrite Ec].
  apply andb_true_iff in Ec as [H1%N.leb_le H2%N.leb_le]. rewrite N_ascii_embedding by lia.
  by rewrite (proj2 (N.leb_gt _ 90)), andb_false_r by lia.
Qed.

Lemma validated_again g g' : model_validate g = Ok g' -> validated g'.
Proof.
  unfold validated, model_validate. cbv zeta. cbn [issuer_identity subject_identity subject_ca_sha256 namespace roles publish
    subscribe control max_delegation_depth sequence not_before not_after].
  destruct (_ && _) eqn:E; [|done]. intros [= <-].
  cbn [issuer_identity subject_identity subject_ca_sha256 namespace roles publish
    subscribe control max_delegation_depth sequence not_before not_after grant_id].
  rewrite lower_hex_twice. unfold validate_contract in *. cbn [issuer_identity subject_identity namespace publish not_before not_after] in *.
  by rewrite E.
Qed.

Lemma grant_is_subset_spec child parent :
  validated child -> validated parent ->
  grant_is_subset child parent = true <->
  narrower child parent /\ issuer_identity child = subject_identity parent /\ namespace child <> namespace parent.
Proof.
  intros (Hn & Hp & Hs & _)%validated_ok _. apply wildcard_valid in Hn.
  unfold grant_is_subset. rewrite !andb_true_iff, negb_true_iff, !subset_spec, !covered_spec, within_spec by done.
  rewrite String.eqb_eq, String.eqb_neq, Z.ltb_lt, !Z.leb_le.
  split; [intros; destruct_and!; split_and!; [constructor|..]; done|intros ([] & ? & ?); split_and!; done].
Qed.

Lemma grant_is_subset_narrower child parent :
  validated child -> validated parent -> grant_is_subset child parent = true -> narrower child parent.
Proof. intros Hc Hp Hs. by apply (grant_is_subset_spec child parent Hc Hp). Qed.

(** C21: [grant_is_subset] decides whether a grant gives no more than another:
    it holds exactly when the grant is issued by the other's subject and its
    keys, read as sets, its roles, controls and lifetime are within the other's,
    its namespace text differs and its depth is smaller. *)
Theorem grant_subset_exact child parent :
  validated child -> validated parent ->
  grant_is_subset child parent = true <->
  narrower child parent /\ issuer_identity child = subject_identity parent /\ namespace child <> namespace parent.
Proof. apply grant_is_subset_spec. Qed.
