(* ===== verification/TrustChain.v ===== *)
(** * Chains of delegation

    compose/zenoh-admin/api/trust_crypto.py and the verification in
    trust_store.py: signed envelopes around grants, the profiles of certificates,
    and the proof by which a router shows a stranger what it may do. X.509, the
    signatures, JSON and pydantic's reading of it are the operations of [Pki]. *)

From Stdlib Require Import Sorted.
From stdpp Require Import strings.
From S2P Require Import Prelude PyFloat PyData Schema TrackViews PyText Trust.

#[local] Open Scope Z_scope.
#[local] Open Scope py_scope.

(** A [DelegationEnvelope], as pydantic reads its fields. *)
Record DelegationEnvelope := {
  payload : value;
  signature : string;
  signer_certificate : string;
  signer_sha256 : string;
}.

Class Pki := {
  certificate : Type;
  (** [x509.load_pem_x509_certificate]; None for ValueError *)
  load_pem : string -> option certificate;
  cert_fingerprint : certificate -> string;
  (** the URIs of the subject alternative name; None when there is no such extension *)
  uri_names : certificate -> option (list string);
  (** the common names of the subject *)
  common_names : certificate -> list string;
  not_valid_before : certificate -> Z;
  not_valid_after : certificate -> Z;
  issuer_name : certificate -> string;
  subject_name : certificate -> string;
  is_ec : certificate -> bool;
  is_p256 : certificate -> bool;
  (** does the signature of the first verify under the key of the second? *)
  signed_by : certificate -> certificate -> bool;
  (** ca and path_length; digital_signature and key_cert_sign; the purposes *)
  basic_constraints : certificate -> option (bool * option Z);
  key_usage : certificate -> option (bool * bool);
  extended_key_usage : certificate -> option (list string);
  (** does the base64 text decode to a signature of these octets under the key? *)
  verify_b64 : certificate -> string -> string -> bool;
  (** [json.dumps(..., sort_keys=True, separators=(",", ":"))] of a grant *)
  grant_json : DelegationGrant -> string;
  (** [hashlib.sha256(text.encode()).hexdigest()] *)
  sha256_hex : string -> string;
  (** [json.loads] with an object_pairs_hook *)
  json_loads : (dict -> exc value) -> string -> exc value;
  envelope_fields : value -> option DelegationEnvelope;
  grant_fields : value -> option DelegationGrant;
  isoformat : Z -> string;
}.

Section Crypto.
Context `{Pki}.

(** ** trust_crypto.py *)
Definition _DOMAIN : string := "EFDI-DELEGATION-V1" +:+ String (ascii_of_N 0) EmptyString.

Fixpoint reject_duplicates (pairs result : dict) : exc dict :=
  match pairs with
  | [] => Ok result
  | (key, v) :: pairs' => if dmem key result then Raise TrustVerifyError else reject_duplicates pairs' (dset key v result)
  end.
Definition _reject_duplicate_keys (pairs : dict) : exc value :=
  let? d := reject_duplicates pairs [] in Ok (VDict d).

Definition strict_json_loads (raw : string) : exc value :=
  match json_loads _reject_duplicate_keys raw with
  | Raise ValueError => Raise TrustVerifyError
  | r => r
  end.

Definition certificate_router_identity (c : certificate) : exc string :=
  match uri_names c with
  | None => Raise TrustVerifyError
  | Some [uri] => if startswith "spiffe://" uri then Ok uri else Raise TrustVerifyError
  | Some _ => Raise TrustVerifyError
  end.

(** [DelegationEnvelope.model_validate], then that of its payload. *)
Definition read_envelope (document : value) : exc (DelegationEnvelope * DelegationGrant * certificate) :=
  match envelope_fields document with
  | Some e =>
      let n := Z.of_nat (String.length (signature e)) in
      let m := Z.of_nat (String.length (signer_certificate e)) in
      let e := {| payload := payload e; signature := signature e; signer_certificate := signer_certificate e;
                  signer_sha256 := lower_hex (signer_sha256 e) |} in
      if negb ((8 <=? n) && (n <=? 1024) && (64 <=? m) && (m <=? 65536) && _FINGERPRINT_RE (signer_sha256 e))
      then Raise TrustVerifyError else
      match grant_fields (payload e) with
      | Some fields =>
          match model_validate fields, load_pem (signer_certificate e) with
          | Ok grant, Some c => Ok (e, grant, c)
          | _, _ => Raise TrustVerifyError
          end
      | None => Raise TrustVerifyError
      end
  | None => Raise TrustVerifyError
  end.

Definition within_time (from now til : Z) : bool := negb ((now <? from) || (til <=? now)).

Definition verify_grant_envelope (raw : value) (expected_signer_sha256 : string) (now : Z) :
    exc (DelegationGrant * certificate) :=
  let? document := match raw with VStr s => strict_json_loads s | _ => Ok raw end in
  let? (envelope, grant, c) := read_envelope document in
  let fp := cert_fingerprint c in
  if negb (String.eqb fp (signer_sha256 envelope)) then Raise TrustVerifyError else
  if negb (String.eqb expected_signer_sha256 "") && negb (String.eqb fp (lower_hex expected_signer_sha256))
  then Raise TrustVerifyError else
  let? who := certificate_router_identity c in
  if negb (String.eqb who (issuer_identity grant)) then Raise TrustVerifyError else
  if negb (is_p256 c) then Raise TrustVerifyError else
  if negb (verify_b64 c (signature envelope) (_DOMAIN +:+ grant_json grant)) then Raise TrustVerifyError else
  if negb (within_time (not_before grant) now (not_after grant)) then Raise TrustVerifyError else
  if negb (within_time (not_valid_before c) now (not_valid_after c)) then Raise TrustVerifyError else
  Ok (grant, c).

(** ** Certificate profiles (trust_store.py) *)
Definition _POLICY_SIGNER_EKU : string := "1.3.6.1.4.1.55555.1.1".
Definition _MAX_TRUST_CHAIN_DEPTH : Z := 33.
Definition _MAX_CERTIFICATE_BYTES : Z := 64 * 1024.

Definition _verify_issued_by (c issuer : certificate) : exc unit :=
  if negb (is_ec issuer) then Raise TrustStoreError else
  if negb (String.eqb (issuer_name c) (subject_name issuer)) then Raise TrustStoreError else
  if negb (signed_by c issuer) then Raise TrustStoreError else Ok tt.

Definition _verify_ca_profile (c : certificate) : exc unit :=
  match basic_constraints c, key_usage c with
  | Some (ca, path_length), Some (_, key_cert_sign) =>
      if negb ca || match path_length with None => true | Some _ => false end || negb key_cert_sign
      then Raise TrustStoreError else
      if negb (is_p256 c) then Raise TrustStoreError else Ok tt
  | _, _ => Raise TrustStoreError
  end.

Definition _verify_policy_profile (c : certificate) (identity : string) : exc unit :=
  match basic_constraints c, key_usage c, extended_key_usage c with
  | Some (ca, _), Some (digital_signature, _), Some purposes =>
      if ca || negb digital_signature || negb (selem _POLICY_SIGNER_EKU purposes) then Raise TrustStoreError else
      let? who := certificate_router_identity c in
      if negb (String.eqb who identity) then Raise TrustStoreError else
      if negb (is_p256 c) then Raise TrustStoreError else Ok tt
  | _, _, _ => Raise TrustStoreError
  end.

(** ** Authorities *)
Inductive authority_state := active | quarantined | decommissioned.
#[global] Instance authority_state_dec : EqDecision authority_state.
Proof. solve_decision. Defined.

(** The columns of [TrustAuthority] the trust code uses. *)
Record TrustAuthority := {
  authority_id : string;
  identity_uri : string;
  namespace_scope : string;
  ca_fingerprint : string;
  ca_cert_pem : string;
  policy_signer_fingerprint : string;      (* empty for NULL: both are falsy *)
  policy_signer_cert_pem : string;
  parent_id : option string;
  authority_depth : Z;
  state : authority_state;
  authority_not_after : Z;
}.

Record VerifiedAuthority := {
  v_identity_uri : string;
  v_namespace_scope : string;
  v_ca_fingerprint : string;
  v_ca_cert_pem : string;
  v_policy_signer_fingerprint : string;
  v_policy_signer_cert_pem : string;
  v_max_delegation_depth : Z;
  v_not_after : Z;
  effective_grant : option DelegationGrant;
}.

Definition _authority_record (a : TrustAuthority) (grant : option DelegationGrant) : exc VerifiedAuthority :=
  if String.eqb (policy_signer_fingerprint a) "" || String.eqb (policy_signer_cert_pem a) "" then Raise TrustStoreError
  else Ok {| v_identity_uri := identity_uri a; v_namespace_scope := namespace_scope a;
             v_ca_fingerprint := ca_fingerprint a; v_ca_cert_pem := ca_cert_pem a;
             v_policy_signer_fingerprint := policy_signer_fingerprint a;
             v_policy_signer_cert_pem := policy_signer_cert_pem a;
             v_max_delegation_depth := authority_depth a; v_not_after := authority_not_after a;
             effective_grant := grant |}.

(** ** Verification of a proof *)

(** [isinstance(v, dict) and set(v) == names] *)
Definition has_shape (v : value) (names : list string) : option dict :=
  match v with
  | VDict d => if forallb (fun k => selem k names) (keys d) && forallb (fun k => dmem k d) names then Some d else None
  | _ => None
  end.

Definition is_text (v : value) (s : string) : bool := match v with VStr t => String.eqb t s | _ => false end.
(** [v == n], for a JSON value and an int *)
Definition is_number (v : value) (n : Z) : bool :=
  match v with
  | VInt m => m =? n
  | VBool b => (if b then 1 else 0) =? n
  | VFloat x => is_finite x && feq x (fl n)
  | _ => false
  end.

Definition anchor_keys : list string :=
  ["identity_uri"; "namespace_scope"; "ca_sha256"; "ca_certificate"; "policy_signer_sha256"; "policy_signer_certificate";
   "max_delegation_depth"; "not_after"].
Definition step_keys : list string :=
  ["delegation_envelope"; "subject_ca_certificate"; "subject_policy_signer_certificate"].

Definition anchor_trusted (anchor : dict) (t : TrustAuthority) : bool :=
  is_text (dget_or anchor "identity_uri" VNone) (identity_uri t) &&
  is_text (dget_or anchor "ca_sha256" VNone) (ca_fingerprint t) &&
  is_text (dget_or anchor "ca_certificate" VNone) (ca_cert_pem t) &&
  is_text (dget_or anchor "policy_signer_sha256" VNone) (policy_signer_fingerprint t) &&
  is_text (dget_or anchor "policy_signer_certificate" VNone) (policy_signer_cert_pem t) &&
  is_text (dget_or anchor "namespace_scope" VNone) (namespace_scope t) &&
  is_number (dget_or anchor "max_delegation_depth" VNone) (authority_depth t) &&
  is_text (dget_or anchor "not_after" VNone) (isoformat (authority_not_after t)).

Definition check_step (revoked : list string) (now : Z) (issuer : VerifiedAuthority) (step : value) :
    exc VerifiedAuthority :=
  match has_shape step step_keys with
  | None => Raise TrustStoreError
  | Some d =>
      match dget_or d "subject_ca_certificate" VNone, dget_or d "subject_policy_signer_certificate" VNone with
      | VStr ca_pem, VStr policy_pem =>
          if (_MAX_CERTIFICATE_BYTES <? Z.of_nat (String.length ca_pem)) ||
             (_MAX_CERTIFICATE_BYTES <? Z.of_nat (String.length policy_pem)) then Raise TrustStoreError else
          let? (grant, _) := verify_grant_envelope (dget_or d "delegation_envelope" VNone)
                               (v_policy_signer_fingerprint issuer) now in
          if negb (String.eqb (issuer_identity grant) (v_identity_uri issuer)) then Raise TrustStoreError else
          if match effective_grant issuer with
             | Some held => negb (grant_is_subset grant held)
             | None => v_max_delegation_depth issuer <=? max_delegation_depth grant
             end then Raise TrustStoreError else
          match load_pem ca_pem, load_pem policy_pem, load_pem (v_ca_cert_pem issuer) with
          | Some ca, Some policy, Some issuer_ca =>
              let? _ := _verify_issued_by ca issuer_ca in
              let? _ := _verify_issued_by policy issuer_ca in
              let? _ := _verify_ca_profile ca in
              let? _ := _verify_policy_profile policy (subject_identity grant) in
              let ca_fp := cert_fingerprint ca in
              let policy_fp := cert_fingerprint policy in
              if negb (String.eqb ca_fp (subject_ca_sha256 grant)) then Raise TrustStoreError else
              if selem (subject_identity grant) revoked || selem ca_fp revoked || selem policy_fp revoked
              then Raise TrustStoreError else
              let til := Z.min (Z.min (not_after grant) (not_valid_after ca)) (not_valid_after policy) in
              if (now <? not_valid_before ca) || (now <? not_valid_before policy) then Raise TrustStoreError else
              if til <=? now then Raise TrustStoreError else
              Ok {| v_identity_uri := subject_identity grant; v_namespace_scope := namespace grant;
                    v_ca_fingerprint := ca_fp; v_ca_cert_pem := ca_pem; v_policy_signer_fingerprint := policy_fp;
                    v_policy_signer_cert_pem := policy_pem;
                    v_max_delegation_depth := max_delegation_depth grant; v_not_after := til;
                    effective_grant := Some grant |}
          | _, _, _ => Raise TrustStoreError
          end
      | _, _ => Raise TrustStoreError
      end
  end.

Fixpoint check_steps (revoked : list string) (now : Z) (issuer : VerifiedAuthority) (steps : list value) :
    exc VerifiedAuthority :=
  match steps with
  | [] => Ok issuer
  | step :: steps' => let? subject := check_step revoked now issuer step in check_steps revoked now subject steps'
  end.

Definition verify_trust_chain (proof : value) (trusted_anchor : TrustAuthority) (revoked : list string) (now : Z) :
    exc VerifiedAuthority :=
  match has_shape proof ["schema"; "anchor"; "steps"] with
  | None => Raise TrustStoreError
  | Some d =>
      if negb (is_text (dget_or d "schema" VNone) "efdi.trust-chain/v1") then Raise TrustStoreError else
      match has_shape (dget_or d "anchor" VNone) anchor_keys with
      | None => Raise TrustStoreError
      | Some anchor =>
          if negb (anchor_trusted anchor trusted_anchor) then Raise TrustStoreError else
          match dget_or d "steps" VNone with
          | VList steps =>
              if negb ((1 <=? len steps) && (len steps <? _MAX_TRUST_CHAIN_DEPTH)) then Raise TrustStoreError else
              if negb (bool_decide (state trusted_anchor = active)) || selem (identity_uri trusted_anchor) revoked ||
                 selem (ca_fingerprint trusted_anchor) revoked || (authority_not_after trusted_anchor <=? now)
              then Raise TrustStoreError else
              let? issuer := _authority_record trusted_anchor None in
              check_steps revoked now issuer steps
          | _ => Raise TrustStoreError
          end
      end
  end.
End Crypto.

(** A fingerprint is 64 hexadecimal digits. *)
Class PkiOk `{Pki} : Prop := { fingerprint_text c : _FINGERPRINT_RE (cert_fingerprint c) = true }.

(** ** What an accepted proof proves *)
Section Sound.
Context `{Pki}.
Variables (revoked : list string) (now : Z).

(** The grant was signed by the holder of the certificate with this fingerprint. *)
Definition signed_under (fp : string) (g : DelegationGrant) : Prop :=
  exists c sig, cert_fingerprint c = lower_hex fp /\ certificate_router_identity c = Ok (issuer_identity g) /\
                verify_b64 c sig (_DOMAIN +:+ grant_json g) = true /\ within_time (not_valid_before c) now (not_valid_after c) = true.

(** One accepted step under an authority. *)
Record step_ok (issuer : VerifiedAuthority) (g : DelegationGrant) (subject : VerifiedAuthority) : Prop := {
  step_valid : validated g;
  step_signed : signed_under (v_policy_signer_fingerprint issuer) g;
  step_issuer : issuer_identity g = v_identity_uri issuer;
  step_narrow : match effective_grant issuer with
                | Some held => validated held -> narrower g held
                | None => max_delegation_depth g < v_max_delegation_depth issuer
                end;
  step_time : (not_before g <= now < not_after g);
  step_revoked : selem (subject_identity g) revoked = false;
  step_subject : v_identity_uri subject = subject_identity g /\ v_namespace_scope subject = namespace g /\
                 v_max_delegation_depth subject = max_delegation_depth g /\ effective_grant subject = Some g /\
                 (now < v_not_after subject <= not_after g);
  step_certificates : exists ca policy issuer_ca,
    load_pem (v_ca_cert_pem issuer) = Some issuer_ca /\ load_pem (v_ca_cert_pem subject) = Some ca /\
    load_pem (v_policy_signer_cert_pem subject) = Some policy /\
    signed_by ca issuer_ca = true /\ signed_by policy issuer_ca = true /\
    cert_fingerprint ca = subject_ca_sha256 g /\ v_ca_fingerprint subject = subject_ca_sha256 g /\
    v_policy_signer_fingerprint subject = cert_fingerprint policy /\
    certificate_router_identity policy = Ok (subject_identity g) /\
    selem (cert_fingerprint ca) revoked = false /\ selem (cert_fingerprint policy) revoked = false;
}.

Lemma issued_by_ok c issuer u : _verify_issued_by c issuer = Ok u -> signed_by c issuer = true.
Proof.
  unfold _verify_issued_by. destruct (is_ec issuer); [|done]. destruct (String.eqb _ _); [|done].
  by destruct (signed_by c issuer).
Qed.

Lemma policy_profile_ok c who u : _verify_policy_profile c who = Ok u -> certificate_router_identity c = Ok who.
Proof.
  unfold _verify_policy_profile. destruct (basic_constraints c) as [[]|]; [|done]. destruct (key_usage c) as [[]|]; [|done].
  destruct (extended_key_usage c); [|done]. destruct (_ || _); [done|].
  destruct (certificate_router_identity c) as [w|]; [|done]. cbn [exc_bind].
  destruct (String.eqb_spec w who); [by subst|done].
Qed.

Lemma within_time_spec a t b : within_time a t b = true -> a <= t < b.
Proof. unfold within_time. rewrite negb_true_iff, orb_false_iff, Z.ltb_ge, Z.leb_gt. lia. Qed.

Lemma read_envelope_valid document e g c : read_envelope document = Ok (e, g, c) -> validated g.
Proof.
  unfold read_envelope. destruct (envelope_fields document) as [e0|]; [|done]. cbv zeta.
  destruct (negb _); [done|]. destruct (grant_fields _) as [fields|]; [|done].
  destruct (model_validate fields) as [g'|] eqn:E; [|done]. destruct (load_pem _); [|done].
  intros [= _ <- _]. by eapply validated_again.
Qed.

Lemma verify_grant_ok raw fp g c :
  verify_grant_envelope raw fp now = Ok (g, c) ->
  validated g /\ not_before g <= now < not_after g /\ (fp <> "" -> signed_under fp g).
Proof.
  unfold verify_grant_envelope. destruct (match raw with VStr s => _ | _ => Ok raw end) as [document|]; [|done].
  cbn [exc_bind]. destruct (read_envelope document) as [[[e g'] c']|] eqn:Er; [|done]. cbn [exc_bind]. cbv zeta.
  destruct (negb (String.eqb _ _)); [done|]. destruct (negb _ && negb _) eqn:Ef; [done|].
  destruct (certificate_router_identity c') as [who|] eqn:Ei; [|done]. cbn [exc_bind].
  destruct (negb (String.eqb who _)) eqn:Ew; [done|]. destruct (negb (is_p256 c')); [done|].
  destruct (negb (verify_b64 _ _ _)) eqn:Es; [done|]. destruct (within_time (not_before g') now (not_after g')) eqn:Et; [cbn [negb]|done].
  destruct (within_time (not_valid_before c') now (not_valid_after c')) eqn:Ec; [cbn [negb]|done].
  intros Eok. injection Eok as <- <-.
  apply negb_false_iff in Ew, Es. apply String.eqb_eq in Ew as ->.
  split; [by eapply read_envelope_valid|]. split; [by apply within_time_spec|]. intros Hne.
  exists c', (signature e). split_and!; [|done..]. apply String.eqb_neq in Hne. rewrite Hne in Ef. cbn in Ef.
  apply negb_false_iff in Ef. by apply String.eqb_eq in Ef.
Qed.

Lemma check_step_ok issuer step subject : v_policy_signer_fingerprint issuer <> "" ->
  check_step revoked now issuer step = Ok subject -> exists g, step_ok issuer g subject.
Proof.
  intros Hfp.
  unfold check_step. destruct (has_shape step step_keys) as [d|]; [|done].
  destruct (dget_or d "subject_ca_certificate" VNone) as [| | | |ca_pem| |]; try done.
  destruct (dget_or d "subject_policy_signer_certificate" VNone) as [| | | |policy_pem| |]; try done.
  destruct (_ || _); [done|]. destruct (verify_grant_envelope _ _ _) as [[g c]|] eqn:Ev; [|done]. cbn [exc_bind].
  apply verify_grant_ok in Ev as (Hv & Ht & Hs).
  destruct (negb (String.eqb _ _)) eqn:Ei; [done|]. apply negb_false_iff, String.eqb_eq in Ei.
  destruct (match effective_grant issuer with Some held => _ | None => _ end) eqn:En; [done|].
  destruct (load_pem ca_pem) as [ca|] eqn:Lca; [|done]. destruct (load_pem policy_pem) as [policy|] eqn:Lpo; [|done].
  destruct (load_pem (v_ca_cert_pem issuer)) as [issuer_ca|] eqn:Lis; [|done].
  destruct (_verify_issued_by ca issuer_ca) as [u1|] eqn:Eca; [apply issued_by_ok in Eca|done].
  destruct (_verify_issued_by policy issuer_ca) as [u2|] eqn:Epo; [apply issued_by_ok in Epo|done].
  destruct (_verify_ca_profile ca); [|done].
  destruct (_verify_policy_profile policy _) as [u3|] eqn:Ewho; [apply policy_profile_ok in Ewho|done]. cbn [exc_bind]. cbv zeta.
  destruct (negb (String.eqb _ _)) eqn:Efp; [done|]. apply negb_false_iff, String.eqb_eq in Efp. destruct (_ || _) eqn:Er; [done|]. apply orb_false_iff in Er as [Er Er3].
  apply orb_false_iff in Er as [Er1 Er2]. destruct (_ || _); [done|]. destruct (_ <=? now) eqn:Ex; [done|].
  apply Z.leb_gt in Ex. intros [= <-]. exists g. constructor; cbn; try done; [by apply Hs| | |].
  - destruct (effective_grant issuer) as [held|].
    + intros Hh. apply negb_false_iff in En. by apply grant_is_subset_narrower.
    + by apply Z.leb_gt in En.
  - split_and!; try done; lia.
  - exists ca, policy, issuer_ca. rewrite <- Efp. by split_and!.
Qed.

(** A path of accepted steps. *)
Inductive delegated : VerifiedAuthority -> list DelegationGrant -> VerifiedAuthority -> Prop :=
| delegated_here a : delegated a [] a
| delegated_step a g b gs c : step_ok a g b -> delegated b gs c -> delegated a (g :: gs) c.

Lemma last_cons_default {A} (x : A) l d : List.last (x :: l) d = List.last l x.
Proof. revert x d. induction l as [|y l IH]; intros x d; [done|]. change (List.last (x :: y :: l) d) with (List.last (y :: l) d). by rewrite !IH. Qed.

(** Below an authority that holds a grant, every grant is narrower than it and
    than those before it, and the depth counts the steps. *)
Lemma delegated_narrows a gs c held :
  delegated a gs c -> effective_grant a = Some held -> validated held -> v_max_delegation_depth a = max_delegation_depth held ->
  Forall (fun g => narrower g held) gs /\ StronglySorted (fun g g' => narrower g' g) gs /\
  v_max_delegation_depth c + len gs <= v_max_delegation_depth a /\
  effective_grant c = Some (List.last gs held).
Proof.
  intros Hd. revert held. induction Hd as [a|a g b gs c Hs Hd IH]; intros held Hh Hv Hdepth.
  { split_and!; [constructor|constructor|unfold len; cbn; lia|done]. }
  destruct Hs as [Hg _ _ Hn _ _ (_ & _ & Hb & He & _) _]. rewrite Hh in Hn. specialize (Hn Hv).
  destruct (IH g He Hg Hb) as (Hf & Hss & Hl & Hlast). pose proof (narrower_depth _ _ Hn) as Hlt.
  split_and!.
  - constructor; [done|]. eapply Forall_impl; [exact Hf|]. intros g' Hg'. by transitivity g.
  - constructor; [done|]. done.
  - rewrite len_cons. rewrite Hb in Hl. lia.
  - by rewrite Hlast, last_cons_default.
Qed.
End Sound.

Section Chains.
Context `{PkiOk}.

Lemma check_steps_ok revoked now issuer steps a : v_policy_signer_fingerprint issuer <> "" ->
  check_steps revoked now issuer steps = Ok a -> exists gs, delegated revoked now issuer gs a /\ length gs = length steps.
Proof.
  revert issuer. induction steps as [|step steps IH]; intros issuer Hfp; cbn [check_steps].
  { intros [= ->]. exists []. split; [constructor|done]. }
  destruct (check_step revoked now issuer step) as [subject|] eqn:E; [|done]. cbn [exc_bind].
  apply check_step_ok in E as [g Hg]; [|done].
  assert (v_policy_signer_fingerprint subject <> "") as Hfp'.
  { destruct (step_certificates _ _ _ _ _ Hg) as (ca & policy & ? & ? & ? & ? & ? & ? & ? & ? & Hp & _).
    rewrite Hp. intros E. pose proof (fingerprint_text policy) as Ht. by rewrite E in Ht. }
  intros (gs & Hd & Hl)%IH; [|done]. exists (g :: gs). split; [by econstructor|cbn; by rewrite Hl].
Qed.

(** C2: an accepted proof of delegation is a path from the trusted anchor: every
    step is signed by its issuer's own policy signer, currently valid, of
    certificates the issuer's CA signed, and revoked by nobody; every grant is
    narrower than each one before it; the path is no longer than the depth the
    anchor may delegate; and the authority that comes out holds the last grant. *)
Theorem trust_chain_sound proof anchor revoked now a :
  verify_trust_chain proof anchor revoked now = Ok a ->
  exists issuer g gs,
    _authority_record anchor None = Ok issuer /\ delegated revoked now issuer (g :: gs) a /\
    StronglySorted (fun g g' => narrower g' g) (g :: gs) /\
    effective_grant a = Some (List.last gs g) /\
    v_max_delegation_depth a + len (g :: gs) <= authority_depth anchor /\
    state anchor = active /\ selem (identity_uri anchor) revoked = false /\ selem (ca_fingerprint anchor) revoked = false /\
    now < authority_not_after anchor.
Proof.
  unfold verify_trust_chain. destruct (has_shape proof _) as [d|]; [|done]. destruct (negb (is_text _ _)); [done|].
  destruct (has_shape _ anchor_keys) as [an|]; [|done]. destruct (negb (anchor_trusted _ _)); [done|].
  destruct (dget_or d "steps" VNone) as [| | | | |steps|]; try done.
  destruct (negb _) eqn:Elen; [done|]. apply negb_false_iff, andb_true_iff in Elen as [Hlen%Z.leb_le _].
  destruct (_ || _) eqn:Ea; [done|]. apply orb_false_iff in Ea as [Ea Ena%Z.leb_gt].
  apply orb_false_iff in Ea as [Ea Erf]. apply orb_false_iff in Ea as [Est Eri].
  apply negb_false_iff, bool_decide_eq_true in Est.
  destruct (_authority_record anchor None) as [issuer|] eqn:Er; [|done]. cbn [exc_bind].
  assert (effective_grant issuer = None /\ v_max_delegation_depth issuer = authority_depth anchor /\
          v_policy_signer_fingerprint issuer <> "") as (Hno & Hdi & Hfp).
  { unfold _authority_record in Er. destruct (String.eqb_spec (policy_signer_fingerprint anchor) ""); [done|].
    destruct (_ || _); [done|]. by injection Er as <-. }
  intros (gs & Hd & Hl)%check_steps_ok; [|done]. destruct gs as [|g gs]; [destruct steps; [unfold len in Hlen; cbn in Hlen; lia|done]|].
  exists issuer, g, gs. split; [done|]. split; [done|]. inversion Hd as [|? ? b ? ? Hs Hd']; subst.
  destruct Hs as [Hg _ _ Hn _ _ (_ & _ & Hb & He & _) _].
  destruct (delegated_narrows revoked now b gs a g Hd' He Hg Hb) as (Hf & Hss & Hdep & Hlast).
  rewrite Hno, Hdi in Hn. rewrite Hb in Hdep. rewrite len_cons.
  split_and!; try done; [by constructor|lia].
Qed.
End Chains.

(** ** A concrete instance

    Certificates are numbers: 2k is the CA and 2k+1 the policy signer of the
    router at depth k below the root. *)
Definition digit_text (n : Z) : string := String (ascii_of_N (Z.to_N (48 + n mod 10))) EmptyString.
Fixpoint times (n : nat) (s : string) : string := match n with O => "" | S n => s +:+ times n s end.

Definition plain_identity (k : Z) : string :=
  "spiffe://efdi.global/router/LTU" +:+ (if k <? 1 then "" else times (Z.to_nat k) "/sub").
Definition plain_fingerprint (n : Z) : string := times 64 (digit_text n).
Definition plain_pem (n : Z) : string := times 64 (digit_text n).

Definition plain_grant (k : Z) (ns : string) : DelegationGrant := {|
  grant_id := "grant"; issuer_identity := plain_identity k; subject_ca_sha256 := plain_fingerprint (2 * k + 2);
  subject_identity := plain_identity (k + 1); namespace := ns; roles := [ROUTER_CA; ROUTER]; publish := [ns];
  subscribe := ["LTU/**"]; control := [TOPOLOGY; STATUS]; max_delegation_depth := 2 - k; sequence := k;
  not_before := 0; not_after := 100 |}.

(** A router's CA and its policy signer are signed by the CA above it. *)
Definition plain_issuer (c : Z) : Z := Z.max 0 (if Z.odd c then c - 3 else c - 2).

Definition plain_json (g : DelegationGrant) : string := subject_identity g +:+ namespace g.

#[local] Instance plain_pki : Pki := {|
  certificate := Z;
  load_pem s := match s with
                | String c _ => if is_digit c then Some (Z.of_N (N_of_ascii c) - 48) else None
                | EmptyString => None
                end;
  cert_fingerprint := plain_fingerprint;
  uri_names c := Some [plain_identity (c / 2)];
  common_names c := [digit_text c];
  not_valid_before _ := 0;
  not_valid_after _ := 200;
  issuer_name c := digit_text (plain_issuer c);
  subject_name := digit_text;
  is_ec _ := true;
  is_p256 _ := true;
  signed_by c i := plain_issuer c =? i;
  basic_constraints c := Some (Z.even c, if Z.even c then Some 3 else None);
  key_usage c := Some (true, Z.even c);
  extended_key_usage c := if Z.odd c then Some [_POLICY_SIGNER_EKU] else Some [];
  verify_b64 c sig message := String.eqb sig (digit_text c +:+ message);
  grant_json := plain_json;
  sha256_hex s := s;
  json_loads _ _ := Raise ValueError;
  envelope_fields v := match v with
                       | VDict [("payload", p); ("signature", VStr s); ("signer_certificate", VStr c);
                                ("signer_sha256", VStr fp)] =>
                           Some {| payload := p; signature := s; signer_certificate := c; signer_sha256 := fp |}
                       | _ => None
                       end;
  grant_fields v := match v with VDict [("depth", VInt k); ("namespace", VStr ns)] => Some (plain_grant k ns) | _ => None end;
  isoformat _ := "later";
|}.

Lemma plain_pki_ok : @PkiOk plain_pki.
Proof.
  constructor. intros c. cbn [cert_fingerprint plain_pki]. unfold plain_fingerprint, digit_text.
  pose proof (Z.mod_pos_bound c 10 ltac:(lia)) as Hr.
  assert (exists n, (n < 10)%nat /\ c mod 10 = Z.of_nat n) as (n & Hn & ->).
  { exists (Z.to_nat (c mod 10)). lia. }
  do 10 (destruct n as [|n]; [vm_compute; reflexivity|]). lia.
Qed.

Definition plain_anchor : TrustAuthority := {|
  authority_id := "root"; identity_uri := plain_identity 0; namespace_scope := "LTU/**";
  ca_fingerprint := plain_fingerprint 0; ca_cert_pem := plain_pem 0; policy_signer_fingerprint := plain_fingerprint 1;
  policy_signer_cert_pem := plain_pem 1; parent_id := None; authority_depth := 3; state := active;
  authority_not_after := 100 |}.

Definition plain_envelope (k : Z) (ns : string) : dict :=
  [("payload", VDict [("depth", VInt k); ("namespace", VStr ns)]);
   ("signature", VStr (digit_text (2 * k + 1) +:+ _DOMAIN +:+ plain_json (plain_grant k ns)));
   ("signer_certificate", VStr (plain_pem (2 * k + 1))); ("signer_sha256", VStr (plain_fingerprint (2 * k + 1)))].

Definition plain_step (k : Z) (ns : string) : value :=
  VDict [("delegation_envelope", VDict (plain_envelope k ns));
         ("subject_ca_certificate", VStr (plain_pem (2 * k + 2)));
         ("subject_policy_signer_certificate", VStr (plain_pem (2 * k + 3)))].

Definition plain_proof (steps : list value) : value :=
  VDict [("schema", VStr "efdi.trust-chain/v1");
         ("anchor", VDict [("identity_uri", VStr (identity_uri plain_anchor)); ("namespace_scope", VStr "LTU/**");
            ("ca_sha256", VStr (plain_fingerprint 0)); ("ca_certificate", VStr (plain_pem 0));
            ("policy_signer_sha256", VStr (plain_fingerprint 1)); ("policy_signer_certificate", VStr (plain_pem 1));
            ("max_delegation_depth", VInt 3); ("not_after", VStr "later")]);
         ("steps", VList steps)].

Definition run_plain (steps : list value) (revoked : list string) : exc (string * string) :=
  let? a := verify_trust_chain (plain_proof steps) plain_anchor revoked 50 in
  Ok (v_identity_uri a, v_namespace_scope a).

(** Two steps down; the same with the middle router revoked; a grant that widens. *)
Example plain_runs :
  run_plain [plain_step 0 "LTU/a/**"; plain_step 1 "LTU/a/b/**"] [] = Ok (plain_identity 2, "LTU/a/b/**"%py) /\
  run_plain [plain_step 0 "LTU/a/**"; plain_step 1 "LTU/a/b/**"] [plain_identity 1] = Raise TrustStoreError /\
  run_plain [plain_step 0 "LTU/a/**"; plain_step 1 "LTU/**"] [] = Raise TrustStoreError.
Proof. vm_compute. done. Qed.

Lemma trust_chain_sound_witness :
  exists a, verify_trust_chain (plain_proof [plain_step 0 "LTU/a/**"; plain_step 1 "LTU/a/b/**"]) plain_anchor [] 50 = Ok a /\
  v_max_delegation_depth a + 2 <= authority_depth plain_anchor.
Proof.
  set (r := verify_trust_chain (plain_proof [plain_step 0 "LTU/a/**"; plain_step 1 "LTU/a/b/**"]) plain_anchor [] 50).
  assert (exists a, r = Ok a) as [a Ha] by (eexists; vm_compute; reflexivity). exists a. split; [exact Ha|].
  destruct (@trust_chain_sound plain_pki plain_pki_ok _ _ _ _ _ Ha) as (issuer & g & gs & _ & _ & _ & He & Hd & _).
  unfold r in Ha. vm_compute in Ha. injection Ha as <-. vm_compute. discriminate.
Defined.

Lemma grant_subset_exact_witness :
  validated (plain_grant 1 "LTU/a/b/**") /\ validated (plain_grant 0 "LTU/a/**") /\
  narrower (plain_grant 1 "LTU/a/b/**") (plain_grant 0 "LTU/a/**").
Proof.
  assert (validated (plain_grant 1 "LTU/a/b/**")) as Hc by (vm_compute; reflexivity).
  assert (validated (plain_grant 0 "LTU/a/**")) as Hp by (vm_compute; reflexivity).
  split; [exact Hc|]. split; [exact Hp|].
  exact (proj1 (proj1 (grant_subset_exact _ _ Hc Hp) ltac:(vm_compute; reflexivity))).
Defined.

(** The first grant of a path is not compared with the scope of the anchor:
    an anchor whose scope is LTU/** can hand out EST/**, and the proof is
    accepted; only its depth and its signature are looked at. *)
Theorem anchor_scope_unchecked :
  exists a, verify_trust_chain (plain_proof [plain_step 0 "EST/**"]) plain_anchor [] 50 = Ok a /\
    v_namespace_scope a = "EST/**" /\ scope_within (namespace_scope plain_anchor) (v_namespace_scope a) = false.
Proof. eexists. split; [vm_compute; reflexivity|by vm_compute]. Qed.
