(* ===== verification/TrustStore.v ===== *)
(** * The trust store

    compose/zenoh-admin/api/trust_store.py and trust_api.py: the authorities a
    router knows, the delegations between them, how one is accepted, exported,
    quarantined, restored and decommissioned. A table of the database is the
    list of its rows in the order of their insertion; the unique columns of
    models.py are checked where rows are added. *)

From stdpp Require Import strings.
From S2P Require Import Prelude PyData Schema AsterixCommon TrackViews PyText Trust TrustChain.

#[local] Open Scope Z_scope.
#[local] Open Scope py_scope.

(** ** Tables *)
Record Delegation := {
  d_grant_id : string;
  issuer_authority_id : string;
  subject_authority_id : string;
  d_sequence : Z;
  envelope_json : dict;         (* the text that json.loads gives back as this *)
  grant_sha256 : string;
  d_active : bool;              (* state "active", else "revoked" *)
}.

Record IssuedIdentity := {
  i_authority_id : string;
  profile : string;
  certificate_pem : string;
  i_active : bool;
  issued_at : Z;
}.

Record LinkCredential := { l_authority_id : string; l_username : string; l_active : bool; created_at : Z }.

Record Revocation := { target_type : string; target_reference : string; r_sequence : Z; r_active : bool }.

Inductive revision_state := staged | applied | rolled_back.
Record AclRevision := { a_sequence : Z; policy_sha256 : string; a_state : revision_state }.

Record database := {
  authorities : list TrustAuthority;
  delegations : list Delegation;
  identities : list IssuedIdentity;
  credentials : list LinkCredential;
  revocations : list Revocation;
  revisions : list AclRevision;
}.

(** ** Queries *)
Definition authority_by_identity (db : database) (uri : string) : option TrustAuthority :=
  List.find (fun a => String.eqb (identity_uri a) uri) (authorities db).

(** [db.get(TrustAuthority, id)] *)
Definition get_authority (db : database) (aid : string) : option TrustAuthority :=
  List.find (fun a => String.eqb (authority_id a) aid) (authorities db).

Definition authority_is_revoked (db : database) (a : TrustAuthority) : bool :=
  existsb (fun r => r_active r && (String.eqb (target_reference r) (ca_fingerprint a) ||
                                   String.eqb (target_reference r) (identity_uri a))) (revocations db).

(** [... .order_by(sequence.desc()).limit(1)], of rows with distinct keys. *)
Fixpoint latest {A} (key : A -> Z) (rows : list A) : option A :=
  match rows with
  | [] => None
  | r :: rows' =>
      match latest key rows' with
      | Some s => Some (if key r <? key s then s else r)
      | None => Some r
      end
  end.

Definition _latest_delegation (db : database) (subject : string) : option Delegation :=
  latest d_sequence (List.filter (fun d => String.eqb (subject_authority_id d) subject && d_active d) (delegations db)).

(** [func.max(Delegation.sequence)] of an issuer's rows, revoked ones too. *)
Definition highest_sequence (db : database) (issuer : string) : option Z :=
  option_map d_sequence
    (latest d_sequence (List.filter (fun d => String.eqb (issuer_authority_id d) issuer) (delegations db))).

(** ** Accepting a delegation *)
Section Accept.
Context `{Pki}.

(** Rows with a value in a unique column that is there already. *)
Definition unique_authority (db : database) (a : TrustAuthority) : bool :=
  negb (existsb (fun b => String.eqb (identity_uri b) (identity_uri a) || String.eqb (ca_fingerprint b) (ca_fingerprint a) ||
                          String.eqb (authority_id b) (authority_id a) ||
                          (negb (String.eqb (policy_signer_fingerprint a) "") &&
                           String.eqb (policy_signer_fingerprint b) (policy_signer_fingerprint a))) (authorities db)).
Definition unique_delegation (db : database) (d : Delegation) : bool :=
  negb (existsb (fun e => String.eqb (d_grant_id e) (d_grant_id d) || String.eqb (grant_sha256 e) (grant_sha256 d) ||
                          (String.eqb (issuer_authority_id e) (issuer_authority_id d) && (d_sequence e =? d_sequence d)))
          (delegations db)).

Definition add_authority (a : TrustAuthority) (db : database) : database := {|
  authorities := authorities db ++ [a]; delegations := delegations db; identities := identities db;
  credentials := credentials db; revocations := revocations db; revisions := revisions db |}.
Definition add_delegation (d : Delegation) (db : database) : database := {|
  authorities := authorities db; delegations := delegations db ++ [d]; identities := identities db;
  credentials := credentials db; revocations := revocations db; revisions := revisions db |}.

(** The grant may be made: it is narrower than what the issuer holds, or the
    issuer is an anchor and has the depth. *)
Definition check_issuer_grant (db : database) (now_parent : Z) (issuer : TrustAuthority) (grant : DelegationGrant) : exc unit :=
  match _latest_delegation db (authority_id issuer) with
  | Some parent_record =>
      let parent_envelope := envelope_json parent_record in
      let? fp := ditem parent_envelope "signer_sha256" in
      match fp with
      | VStr fp =>
          let? (parent_grant, _) := verify_grant_envelope (VDict parent_envelope) fp now_parent in
          if grant_is_subset grant parent_grant then Ok tt else Raise TrustStoreError
      | _ => Raise AttributeError
      end
  | None => if authority_depth issuer <=? max_delegation_depth grant then Raise TrustStoreError else Ok tt
  end.

(** The certificate, loaded and within its lifetime. *)
Definition load_certificate (pem : string) : exc certificate :=
  match load_pem pem with Some c => Ok c | None => Raise ValueError end.

(** The subject's policy signer; it may be missing. *)
Definition check_policy (pem : option string) (issuer_ca : certificate) (grant : DelegationGrant) (current : Z) : exc string :=
  match pem with
  | Some pem =>
      if String.eqb pem "" then Ok "" else
      let? policy := load_certificate pem in
      let? _ := _verify_issued_by policy issuer_ca in
      let? _ := _verify_policy_profile policy (subject_identity grant) in
      if negb (within_time (not_valid_before policy) current (not_valid_after policy)) then Raise TrustStoreError else
      Ok (cert_fingerprint policy)
  | None => Ok ""
  end.

(** [now], [now_parent] and [current] are the readings of the clock; the id of
    the new row is drawn at random. *)
Definition accept_delegation (db : database) (envelope : dict) (subject_ca_pem : string)
    (subject_policy_signer_pem : option string) (now now_parent current : Z) (new_id : string) :
    exc (database * TrustAuthority * Delegation) :=
  match dget_or envelope "signer_certificate" VNone with
  | VStr raw_signer =>
      let? signer := load_certificate raw_signer in
      let signer_fp := cert_fingerprint signer in
      let? (grant, _) := verify_grant_envelope (VDict envelope) signer_fp now in
      match authority_by_identity db (issuer_identity grant) with
      | None => Raise TrustStoreError
      | Some issuer =>
          if negb (bool_decide (state issuer = active)) || authority_is_revoked db issuer then Raise TrustStoreError else
          if negb (String.eqb (policy_signer_fingerprint issuer) signer_fp) then Raise TrustStoreError else
          let? _ := check_issuer_grant db now_parent issuer grant in
          if match highest_sequence db (authority_id issuer) with
             | Some highest => sequence grant <=? highest
             | None => false
             end then Raise TrustStoreError else
          let? ca_cert := load_certificate subject_ca_pem in
          let? issuer_ca := load_certificate (ca_cert_pem issuer) in
          let? _ := _verify_issued_by ca_cert issuer_ca in
          let? _ := _verify_ca_profile ca_cert in
          let ca_fp := cert_fingerprint ca_cert in
          if negb (within_time (not_valid_before ca_cert) current (not_valid_after ca_cert)) then Raise TrustStoreError else
          if negb (String.eqb ca_fp (subject_ca_sha256 grant)) then Raise TrustStoreError else
          let? policy_fp := check_policy subject_policy_signer_pem issuer_ca grant current in
          match authority_by_identity db (subject_identity grant) with
          | Some _ => Raise TrustStoreError
          | None =>
              let authority := {|
                authority_id := new_id; identity_uri := subject_identity grant; namespace_scope := namespace grant;
                ca_fingerprint := ca_fp; ca_cert_pem := subject_ca_pem; policy_signer_fingerprint := policy_fp;
                policy_signer_cert_pem := default "" subject_policy_signer_pem; parent_id := Some (authority_id issuer);
                authority_depth := max_delegation_depth grant; state := active;
                authority_not_after := Z.min (not_after grant) (not_valid_after ca_cert) |} in
              let delegation := {|
                d_grant_id := grant_id grant; issuer_authority_id := authority_id issuer; subject_authority_id := new_id;
                d_sequence := sequence grant; envelope_json := envelope;
                grant_sha256 := sha256_hex (grant_json grant); d_active := true |} in
              if negb (unique_authority db authority) then Raise IntegrityError else
              let db := add_authority authority db in
              if negb (unique_delegation db delegation) then Raise IntegrityError else
              Ok (add_delegation delegation db, authority, delegation)
          end
      end
  | _ => Raise TrustStoreError
  end.

(** ** Exporting a proof *)

(** The walk to the root: [room] is how many more authorities fit. *)
Fixpoint climb (room : nat) (db : database) (current : TrustAuthority) : exc (list TrustAuthority) :=
  match parent_id current with
  | None => Ok [current]
  | Some pid =>
      match room with
      | O => Raise TrustStoreError
      | S room =>
          match get_authority db pid with
          | None => Raise TrustStoreError
          | Some up => let? lineage := climb room db up in Ok (current :: lineage)
          end
      end
  end.

Definition text_or_null (s : string) : value := if String.eqb s "" then VNone else VStr s.

Definition export_step (db : database) (subject : TrustAuthority) : exc value :=
  match _latest_delegation db (authority_id subject) with
  | None => Raise TrustStoreError
  | Some d =>
      Ok (VDict [("delegation_envelope", VDict (envelope_json d)); ("subject_ca_certificate", VStr (ca_cert_pem subject));
                 ("subject_policy_signer_certificate", text_or_null (policy_signer_cert_pem subject))])
  end.

Definition export_anchor (anchor : TrustAuthority) : value :=
  VDict [("identity_uri", VStr (identity_uri anchor)); ("namespace_scope", VStr (namespace_scope anchor));
         ("ca_sha256", VStr (ca_fingerprint anchor)); ("ca_certificate", VStr (ca_cert_pem anchor));
         ("policy_signer_sha256", text_or_null (policy_signer_fingerprint anchor));
         ("policy_signer_certificate", text_or_null (policy_signer_cert_pem anchor));
         ("max_delegation_depth", VInt (authority_depth anchor)); ("not_after", VStr (isoformat (authority_not_after anchor)))].

Definition export_trust_chain (db : database) (a : TrustAuthority) : exc value :=
  let? lineage := climb (Z.to_nat (_MAX_TRUST_CHAIN_DEPTH - 1)) db a in
  match rev lineage with
  | [] => Raise TrustStoreError
  | anchor :: below =>
      let? steps := exc_map (export_step db) below in
      Ok (VDict [("schema", VStr "efdi.trust-chain/v1"); ("anchor", export_anchor anchor); ("steps", VList steps)])
  end.
End Accept.

(** ** Lifecycle (trust_api.py) *)
Section Lifecycle.
(** The site's own authority. *)
Variable local : TrustAuthority.

Definition _direct_child (db : database) (aid : string) : exc TrustAuthority :=
  match get_authority db aid with
  | None => Raise (HTTPException 404)
  | Some a => if bool_decide (parent_id a = Some (authority_id local)) then Ok a else Raise (HTTPException 403)
  end.

Definition with_state (s : authority_state) (a : TrustAuthority) : TrustAuthority := {|
  authority_id := authority_id a; identity_uri := identity_uri a; namespace_scope := namespace_scope a;
  ca_fingerprint := ca_fingerprint a; ca_cert_pem := ca_cert_pem a;
  policy_signer_fingerprint := policy_signer_fingerprint a; policy_signer_cert_pem := policy_signer_cert_pem a;
  parent_id := parent_id a; authority_depth := authority_depth a; state := s; authority_not_after := authority_not_after a |}.

(** [authority.state = s] on the row with this id. *)
Definition set_state (aid : string) (s : authority_state) (db : database) : database := {|
  authorities := map (fun a => if String.eqb (authority_id a) aid then with_state s a else a) (authorities db);
  delegations := delegations db; identities := identities db; credentials := credentials db;
  revocations := revocations db; revisions := revisions db |}.

Definition quarantine_authority (db : database) (aid : string) : exc database :=
  let? a := _direct_child db aid in
  if bool_decide (state a = decommissioned) then Raise (HTTPException 409) else Ok (set_state aid quarantined db).

Definition restore_authority (db : database) (aid : string) : exc database :=
  let? a := _direct_child db aid in
  if negb (bool_decide (state a = quarantined)) then Raise (HTTPException 409) else Ok (set_state aid active db).

Definition revoke_rows (aid : string) (db : database) : database := {|
  authorities := authorities db;
  delegations := map (fun d => if String.eqb (subject_authority_id d) aid then
      {| d_grant_id := d_grant_id d; issuer_authority_id := issuer_authority_id d;
         subject_authority_id := subject_authority_id d; d_sequence := d_sequence d; envelope_json := envelope_json d;
         grant_sha256 := grant_sha256 d; d_active := false |} else d) (delegations db);
  identities := map (fun i => if String.eqb (i_authority_id i) aid then
      {| i_authority_id := i_authority_id i; profile := profile i; certificate_pem := certificate_pem i;
         i_active := false; issued_at := issued_at i |} else i) (identities db);
  credentials := map (fun l => if String.eqb (l_authority_id l) aid then
      {| l_authority_id := l_authority_id l; l_username := l_username l; l_active := false; created_at := created_at l |}
      else l) (credentials db);
  revocations := revocations db; revisions := revisions db |}.

Definition add_revocation (r : Revocation) (db : database) : database := {|
  authorities := authorities db; delegations := delegations db; identities := identities db;
  credentials := credentials db; revocations := revocations db ++ [r]; revisions := revisions db |}.

Definition next_sequence {A} (key : A -> Z) (rows : list A) : Z :=
  match latest key rows with Some r => key r | None => 0 end + 1.

Definition decommission_authority (db : database) (aid : string) : exc database :=
  let? a := _direct_child db aid in
  if bool_decide (state a = decommissioned) then Raise (HTTPException 409) else
  let r := {| target_type := "authority"; target_reference := identity_uri a;
              r_sequence := next_sequence r_sequence (revocations db); r_active := true |} in
  if existsb (fun q => String.eqb (target_type q) (target_type r) && String.eqb (target_reference q) (target_reference r))
       (revocations db) then Raise IntegrityError else
  Ok (add_revocation r (revoke_rows aid (set_state aid decommissioned db))).
End Lifecycle.
