(* ===== verification/Acl.v ===== *)
(** * The access-control document of a router

    compose/zenoh-admin/api/acl_policy.py: what the router of a site lets its
    direct peers do, compiled from the grants of those peers. The hash that
    shortens grant ids is a parameter; the JSON text and its checksum are not
    modelled. *)

From stdpp Require Import strings.
From S2P Require Import Prelude PyData Schema TrackViews PyText Trust.

#[local] Open Scope Z_scope.
#[local] Open Scope py_scope.

Inductive relation := parent | child.
#[global] Instance relation_dec : EqDecision relation.
Proof. solve_decision. Defined.

Record PeerPolicy := {
  p_grant_id : string;
  p_identity_uri : string;
  cert_common_name : string;
  username : string;
  relationship : relation;
  p_namespace : string;
  p_publish : list string;
  p_subscribe : list string;
  p_quarantined : bool;
}.

Definition common_name_char (c : ascii) : bool := alnum c || char_in "._/-" c.

(** [PeerPolicy.__post_init__]; there are two relationships. *)
Definition post_init (p : PeerPolicy) : exc PeerPolicy :=
  if negb (class_match common_name_char 1 255 (cert_common_name p)) then Raise ValueError else
  if negb (class_match segment_char 1 128 (username p)) then Raise ValueError else
  if forallb valid_scope (p_namespace p :: p_publish p ++ p_subscribe p) then Ok p else Raise ValueError.

Record rule := {
  rule_id : string;
  messages : list string;
  flows : list string;
  permission : string;
  key_exprs : list string;
}.

Record subject := {
  subject_id : string;
  link_protocols : list string;
  cert_common_names : list string;
  usernames : list string;
}.

Record policy := { policy_id : string; policy_rules : list string; policy_subjects : list string }.

Record acl := { acl_rules : list rule; acl_subjects : list subject; acl_policies : list policy }.

Definition _ALL_MESSAGES : list string :=
  ["put"; "delete"; "declare_subscriber"; "query"; "declare_queryable"; "reply"; "liveliness_token"; "liveliness_query";
   "declare_liveliness_subscriber"].

(** [sorted(set(l))] *)
Fixpoint insert_string (s : string) (l : list string) : list string :=
  match l with
  | [] => [s]
  | t :: l' => if String.leb s t then s :: l else t :: insert_string s l'
  end.
Definition sorted_set (l : list string) : list string := fold_right insert_string [] (remove_dups l).

Definition _rule (identifier : string) (messages flows key_exprs : list string) (permission : string) : rule :=
  {| rule_id := identifier; messages := messages; flows := flows; permission := permission; key_exprs := sorted_set key_exprs |}.

(** [s.removesuffix("/**")] *)
Definition removesuffix (suf s : string) : string :=
  if endswith suf s && negb (String.eqb suf "") then substring 0 (String.length s - String.length suf) s else s.

Section Acl.
Variable sha256 : string -> string.

Definition _stable_id (prefix grant_id : string) : string := prefix +:+ "-" +:+ substring 0 20 (sha256 grant_id).

Definition stem (peer : PeerPolicy) : string := _stable_id "peer" (p_grant_id peer).
Definition peer_subject_id (peer : PeerPolicy) : string := stem peer +:+ "-identity".

(** [sorted(peers, key=lambda item: (item.relationship, item.identity_uri))]: "child" comes before "parent". *)
Definition peer_before (a b : PeerPolicy) : bool :=
  match relationship a, relationship b with
  | child, parent => true
  | parent, child => false
  | _, _ => String.leb (p_identity_uri a) (p_identity_uri b)
  end.
Fixpoint insert_peer (p : PeerPolicy) (l : list PeerPolicy) : list PeerPolicy :=
  match l with
  | [] => [p]
  | q :: l' => if peer_before p q then p :: l else q :: insert_peer p l'
  end.
Definition sort_peers (l : list PeerPolicy) : list PeerPolicy := fold_right insert_peer [] l.

(** The rows of [definitions]: suffix, messages, flows and scopes. *)
Definition definitions (local_namespace : string) (peer : PeerPolicy) : list (string * list string * list string * list string) :=
  let ns := removesuffix "/**" (p_namespace peer) in
  match relationship peer with
  | child =>
      [("publish", ["put"; "delete"], ["ingress"], p_publish peer);
       ("publish-interest", ["declare_subscriber"; "query"], ["egress"], p_publish peer);
       ("subscribe-declare", ["declare_subscriber"; "query"], ["ingress"], p_subscribe peer);
       ("subscribe-deliver", ["put"; "reply"], ["egress"], p_subscribe peer);
       ("control-in", ["put"], ["ingress"], [ns +:+ "/@config/status/v1"; ns +:+ "/@topology"]);
       ("control-out", ["put"; "declare_subscriber"], ["egress"], [ns +:+ "/@config/v1"; ns +:+ "/@config/relay/v1"])]
  | parent =>
      [("own-publish", ["put"; "delete"], ["egress"], p_publish peer);
       ("own-publish-interest", ["declare_subscriber"; "query"], ["ingress"], p_publish peer);
       ("approved-in", ["put"; "reply"], ["ingress"], p_subscribe peer);
       ("approved-declare", ["declare_subscriber"; "query"], ["egress"], p_subscribe peer);
       ("control-in", ["put"; "declare_subscriber"], ["ingress"],
        [local_namespace +:+ "/@config/v1"; local_namespace +:+ "/@config/relay/v1"]);
       ("control-out", ["put"], ["egress"],
        [local_namespace +:+ "/@config/status/v1"; local_namespace +:+ "/@topology"])]
  end.

Definition peer_subject (peer : PeerPolicy) : subject := {|
  subject_id := peer_subject_id peer; link_protocols := []; cert_common_names := [cert_common_name peer];
  usernames := match relationship peer with child => [username peer] | parent => [] end |}.

(** The rules a peer adds, and its policy. *)
Definition peer_rules (local_namespace : string) (peer : PeerPolicy) : list rule :=
  if p_quarantined peer
  then [_rule (stem peer +:+ "-quarantine") _ALL_MESSAGES ["ingress"; "egress"] ["**"] "deny"]
  else flat_map (fun '(suffix, ms, fs, scopes) =>
         match scopes with
         | [] => []
         | _ => [_rule (stem peer +:+ "-" +:+ suffix) ms fs scopes "allow"]
         end) (definitions local_namespace peer).

Definition peer_policy (local_namespace : string) (peer : PeerPolicy) : policy := {|
  policy_id := stem peer +:+ "-policy"; policy_rules := map rule_id (peer_rules local_namespace peer);
  policy_subjects := [peer_subject_id peer] |}.

(** What the loop over the peers carries. *)
Record compiling := { so_far : acl; seen_usernames : list string; seen_cns : list string }.

Definition add_peer (local_namespace : string) (c : compiling) (peer : PeerPolicy) : exc compiling :=
  let is_child := bool_decide (relationship peer = child) in
  if is_child && selem (username peer) (seen_usernames c) then Raise ValueError else
  if selem (cert_common_name peer) (seen_cns c) then Raise ValueError else
  Ok {| so_far := {| acl_rules := acl_rules (so_far c) ++ peer_rules local_namespace peer;
                     acl_subjects := acl_subjects (so_far c) ++ [peer_subject peer];
                     acl_policies := acl_policies (so_far c) ++ [peer_policy local_namespace peer] |};
        seen_usernames := if is_child then username peer :: seen_usernames c else seen_usernames c;
        seen_cns := cert_common_name peer :: seen_cns c |}.

Fixpoint add_peers (local_namespace : string) (c : compiling) (peers : list PeerPolicy) : exc compiling :=
  match peers with
  | [] => Ok c
  | peer :: peers' => let? c := add_peer local_namespace c peer in add_peers local_namespace c peers'
  end.

Definition local_rules (local_data_scope inbound_scope federation_root : string) : list rule :=
  [_rule "local-data" ["put"; "delete"; "declare_subscriber"; "query"; "declare_queryable"; "reply"] ["ingress"; "egress"]
     [local_data_scope] "allow";
   _rule "local-inbound" ["put"; "declare_subscriber"; "query"; "reply"] ["ingress"; "egress"] [inbound_scope] "allow";
   _rule "local-admin-read" ["query"; "reply"] ["ingress"; "egress"] ["@/**"] "allow";
   _rule "local-federation" ["put"; "declare_subscriber"] ["ingress"; "egress"]
     [federation_root +:+ "/**/@config/v1"; federation_root +:+ "/**/@config/relay/v1";
      federation_root +:+ "/**/@config/status/v1"; federation_root +:+ "/**/@topology"] "allow"].

Definition local_acl (local_data_scope inbound_scope federation_root : string) : acl :=
  let rules := local_rules local_data_scope inbound_scope federation_root in
  {| acl_rules := rules;
     acl_subjects := [{| subject_id := "local-tcp"; link_protocols := ["tcp"]; cert_common_names := []; usernames := [] |}];
     acl_policies := [{| policy_id := "local-policy"; policy_rules := map rule_id rules; policy_subjects := ["local-tcp"] |}] |}.

Definition compile_acl (local_data_scope inbound_scope federation_root local_namespace : string)
    (peers : list PeerPolicy) : exc acl :=
  let? _ := parse_key_scope local_data_scope in
  let? _ := parse_key_scope inbound_scope in
  if negb (class_match segment_char 1 128 federation_root) then Raise ValueError else
  let? c := add_peers local_namespace
              {| so_far := local_acl local_data_scope inbound_scope federation_root; seen_usernames := []; seen_cns := [] |}
              (sort_peers peers) in
  Ok (so_far c).
End Acl.

(** ** What a document grants *)

(** A subject of the document may send the message, in that direction, on the
    key expression: some policy gives it a rule that allows it. *)
Definition given (permitted : string) (d : acl) (sid m f e : string) : Prop :=
  exists pol r, pol ∈ acl_policies d /\ sid ∈ policy_subjects pol /\ rule_id r ∈ policy_rules pol /\
    r ∈ acl_rules d /\ permission r = permitted /\ m ∈ messages r /\ f ∈ flows r /\ e ∈ key_exprs r.
Abbreviation granted := (given "allow").
Abbreviation denied := (given "deny").

(** *** Strings and sorting *)
Lemma append_inj a b c d : String.length a = String.length c -> a +:+ b = c +:+ d -> a = c /\ b = d.
Proof.
  revert c. induction a as [|x a IH]; intros [|y c] Hl E; cbn in Hl; try lia; [done|].
  change (String x (a +:+ b) = String y (c +:+ d)) in E. injection E as -> E.
  destruct (IH c ltac:(lia) E) as [-> ->]. done.
Qed.

Lemma insert_string_in s t l : s ∈ insert_string t l <-> s = t \/ s ∈ l.
Proof.
  induction l as [|u l IH]; cbn.
  - rewrite list_elem_of_singleton, elem_of_nil. tauto.
  - destruct (String.leb t u); rewrite ?elem_of_cons, ?IH; tauto.
Qed.

Lemma sorted_set_in s l : s ∈ sorted_set l <-> s ∈ l.
Proof.
  unfold sorted_set. rewrite <- (elem_of_remove_dups l). induction (remove_dups l) as [|t k IH]; cbn; [done|].
  rewrite insert_string_in, IH, elem_of_cons. done.
Qed.

Lemma sort_peers_perm l : Permutation (sort_peers l) l.
Proof.
  induction l as [|p l IH]; [done|]. transitivity (p :: sort_peers l); [|by constructor].
  change (sort_peers (p :: l)) with (insert_peer p (sort_peers l)). generalize (sort_peers l) as k. clear.
  induction k as [|q k IH]; cbn; [done|]. destruct (peer_before p q); [done|]. rewrite IH. constructor.
Qed.

Section Exact.
Variable sha256 : string -> string.
(** A SHA-256 in hexadecimal. *)
Hypothesis sha256_length : forall s, String.length (sha256 s) = 64%nat.

Lemma substring_length n s : (n <= String.length s)%nat -> String.length (substring 0 n s) = n.
Proof. revert s. induction n as [|n IH]; intros [|c s] Hl; cbn in *; try lia; [done..|]. f_equal. apply IH. lia. Qed.

Lemma stem_length p : String.length (stem sha256 p) = 25%nat.
Proof.
  unfold stem, _stable_id. rewrite !length_append, substring_length; [done|]. rewrite sha256_length. lia.
Qed.

Lemma stem_inj p q s t : stem sha256 p +:+ s = stem sha256 q +:+ t -> stem sha256 p = stem sha256 q /\ s = t.
Proof. apply append_inj. by rewrite !stem_length. Qed.

Lemma stem_not_local p s t : stem sha256 p +:+ s <> "local" +:+ t.
Proof. unfold stem, _stable_id. discriminate. Qed.

(** *** The shape of a compiled document *)
Lemma add_peers_shape ns c peers c' :
  add_peers sha256 ns c peers = Ok c' ->
  acl_rules (so_far c') = acl_rules (so_far c) ++ flat_map (peer_rules sha256 ns) peers /\
  acl_subjects (so_far c') = acl_subjects (so_far c) ++ map (peer_subject sha256) peers /\
  acl_policies (so_far c') = acl_policies (so_far c) ++ map (peer_policy sha256 ns) peers /\
  (NoDup (seen_cns c) -> NoDup (seen_cns c')) /\ (NoDup (seen_usernames c) -> NoDup (seen_usernames c')) /\
  seen_cns c' = rev (map cert_common_name peers) ++ seen_cns c /\
  seen_usernames c' = rev (map username (filter (fun p => relationship p = child) peers)) ++ seen_usernames c.
Proof.
  revert c. induction peers as [|p peers IH]; intros c; cbn [add_peers].
  { intros [= ->]. cbn. by rewrite !app_nil_r. }
  unfold add_peer. cbv zeta. destruct (bool_decide (relationship p = child) && _) eqn:Eu; [done|].
  destruct (selem (cert_common_name p) _) eqn:Ec; [done|]. cbn [exc_bind]. intros (E1 & E2 & E3 & N1 & N2 & E4 & E5)%IH.
  cbn [so_far acl_rules acl_subjects acl_policies seen_cns seen_usernames] in *.
  rewrite E1, E2, E3, E4, E5, filter_cons. cbn [flat_map map rev]. rewrite <- !app_assoc. split_and!; try done.
  - intros Hn. rewrite E4 in N1. cbn [List.app]. apply N1. constructor; [|done].
    intros Hin. apply list_elem_of_In, selem_In in Hin. congruence.
  - intros Hn. rewrite <- E5. apply N2. case_bool_decide; [|done]. constructor; [|done].
    intros Hin. apply list_elem_of_In, selem_In in Hin. cbn in Eu. congruence.
  - case_bool_decide as Hc; [rewrite decide_True by done; cbn; by rewrite <- app_assoc|by rewrite decide_False by done].
Qed.

Lemma compile_shape ld ib root ns peers d :
  compile_acl sha256 ld ib root ns peers = Ok d ->
  acl_rules d = local_rules ld ib root ++ flat_map (peer_rules sha256 ns) (sort_peers peers) /\
  acl_subjects d = acl_subjects (local_acl ld ib root) ++ map (peer_subject sha256) (sort_peers peers) /\
  acl_policies d = acl_policies (local_acl ld ib root) ++ map (peer_policy sha256 ns) (sort_peers peers) /\
  NoDup (map cert_common_name peers) /\ NoDup (map username (filter (fun p => relationship p = child) peers)).
Proof.
  unfold compile_acl. destruct (parse_key_scope ld); [|done]. cbn [exc_bind]. destruct (parse_key_scope ib); [|done].
  cbn [exc_bind]. destruct (negb _); [done|]. destruct (add_peers _ _ _ _) as [c|] eqn:E; [|done]. cbn [exc_bind].
  intros [= <-]. apply add_peers_shape in E as (-> & -> & -> & N1 & N2 & E4 & E5). cbn [so_far seen_cns seen_usernames] in *.
  split_and!; try done.
  - specialize (N1 (NoDup_nil_2 )). rewrite E4, app_nil_r in N1. rewrite <- Permutation_rev in N1.
    by rewrite (sort_peers_perm peers) in N1.
  - specialize (N2 (NoDup_nil_2)). rewrite E5, app_nil_r in N2. rewrite <- Permutation_rev in N2.
    by rewrite (sort_peers_perm peers) in N2.
Qed.

Lemma NoDup_map_eq {A B} (f : A -> B) l x y : NoDup (map f l) -> x ∈ l -> y ∈ l -> f x = f y -> x = y.
Proof.
  induction l as [|z l IH]; cbn; [by intros _ ?%not_elem_of_nil|].
  intros [Hz Hn]%NoDup_cons. assert (forall u, u ∈ l -> f u = f z -> False) as Hno.
  { intros u Hu E. apply Hz. rewrite <- E. apply list_elem_of_In, in_map. by apply list_elem_of_In. }
  intros [->|Hx]%elem_of_cons [->|Hy]%elem_of_cons E; [done| | |by apply IH].
  - destruct (Hno y Hy). by symmetry.
  - by destruct (Hno x Hx).
Qed.

Lemma peer_rule_id ns p r : r ∈ peer_rules sha256 ns p -> exists s, rule_id r = stem sha256 p +:+ s.
Proof.
  unfold peer_rules. destruct (p_quarantined p).
  - intros ->%list_elem_of_singleton. by eexists.
  - intros ([[[suffix ms] fs] es] & _ & Hr)%list_elem_of_In%in_flat_map. destruct es; [done|].
    destruct Hr as [<-|[]]. by eexists.
Qed.

(** The rules of a document that a peer's policy names are the peer's own. *)
Lemma own_rules ld ib root ns peers d p r :
  compile_acl sha256 ld ib root ns peers = Ok d -> NoDup (map (stem sha256) peers) -> p ∈ peers ->
  r ∈ acl_rules d -> rule_id r ∈ map rule_id (peer_rules sha256 ns p) -> r ∈ peer_rules sha256 ns p.
Proof.
  intros (Er & _)%compile_shape Hn Hp. rewrite Er. intros Hr (r' & Eid & Hr')%list_elem_of_In%in_map_iff.
  apply list_elem_of_In, peer_rule_id in Hr' as [s Es]. rewrite Es in Eid.
  apply elem_of_app in Hr as [Hr|Hr].
  - exfalso. unfold local_rules in Hr. rewrite !elem_of_cons, elem_of_nil in Hr.
    destruct Hr as [->|[->|[->|[->|[]]]]]; cbn [rule_id _rule] in Eid.
    + by apply (stem_not_local p s "-data").
    + by apply (stem_not_local p s "-inbound").
    + by apply (stem_not_local p s "-admin-read").
    + by apply (stem_not_local p s "-federation").
  - apply list_elem_of_In, in_flat_map in Hr as (q & Hq & Hr). apply list_elem_of_In in Hr, Hq.
    rewrite sort_peers_perm in Hq. destruct (peer_rule_id ns q r Hr) as [t Et]. rewrite Et in Eid.
    apply stem_inj in Eid as [E _]. by rewrite (NoDup_map_eq (stem sha256) peers p q Hn Hp Hq E).
Qed.

Lemma given_peer perm ld ib root ns peers d p m f e :
  compile_acl sha256 ld ib root ns peers = Ok d -> NoDup (map (stem sha256) peers) -> p ∈ peers ->
  given perm d (peer_subject_id sha256 p) m f e <->
  exists r, r ∈ peer_rules sha256 ns p /\ permission r = perm /\ m ∈ messages r /\ f ∈ flows r /\ e ∈ key_exprs r.
Proof.
  intros Hd Hn Hp. pose proof (compile_shape _ _ _ _ _ _ Hd) as (Er & _ & Ep & _). split.
  - intros (pol & r & Hpol & Hsid & Hrid & Hr & H). exists r. split; [|done].
    rewrite Ep in Hpol. apply elem_of_app in Hpol as [->%list_elem_of_singleton|Hpol].
    { cbn in Hsid. apply list_elem_of_singleton in Hsid. by destruct (stem_not_local p "-identity" "-tcp"). }
    apply list_elem_of_In, in_map_iff in Hpol as (q & <- & Hq). apply list_elem_of_In in Hq. rewrite sort_peers_perm in Hq.
    cbn [policy_subjects policy_rules peer_policy] in *. apply list_elem_of_singleton, stem_inj in Hsid as [E _].
    pose proof (NoDup_map_eq (stem sha256) peers p q Hn Hp Hq E) as <-. by eapply own_rules.
  - intros (r & Hr & H). exists (peer_policy sha256 ns p), r. split_and!; try apply H.
    + rewrite Ep. apply elem_of_app. right. apply list_elem_of_In, in_map. apply list_elem_of_In. by rewrite sort_peers_perm.
    + cbn. by apply list_elem_of_singleton.
    + cbn [policy_rules peer_policy]. apply list_elem_of_In, in_map. by apply list_elem_of_In.
    + rewrite Er. apply elem_of_app. right. apply list_elem_of_In, in_flat_map. exists p.
      split; [apply list_elem_of_In; by rewrite sort_peers_perm|by apply list_elem_of_In].
Qed.

(** C13: a compiled document gives a peer exactly the rows of its own grant: each
    message, direction and key expression that its grant lists, and nothing of
    another peer's or of the site's own; a quarantined peer is given nothing and
    denied everything; and the certificate of a peer is that of one subject. *)
Theorem acl_exact ld ib root ns peers d p :
  compile_acl sha256 ld ib root ns peers = Ok d -> NoDup (map (stem sha256) peers) -> p ∈ peers ->
  (forall m f e, granted d (peer_subject_id sha256 p) m f e <->
     p_quarantined p = false /\
     exists suffix ms fs es, (suffix, ms, fs, es) ∈ definitions ns p /\ m ∈ ms /\ f ∈ fs /\ e ∈ es) /\
  (forall m f, p_quarantined p = true -> m ∈ _ALL_MESSAGES -> f ∈ ["ingress"%py; "egress"%py] ->
     denied d (peer_subject_id sha256 p) m f "**") /\
  (forall s, s ∈ acl_subjects d -> cert_common_name p ∈ cert_common_names s -> s = peer_subject sha256 p).
Proof.
  intros Hd Hn Hp. split_and!.
  - intros m f e. rewrite (given_peer "allow" _ _ _ _ _ _ _ _ _ _ Hd Hn Hp). unfold peer_rules.
    destruct (p_quarantined p).
    + split; [|by intros []]. by intros (r & ->%list_elem_of_singleton & ? & _).
    + split.
      * intros (r & ([[[suffix ms] fs] es] & Hin & Hr)%list_elem_of_In%in_flat_map & _ & H). split; [done|].
        exists suffix, ms, fs, es. split; [by apply list_elem_of_In|]. destruct es as [|e' es]; [done|].
        destruct Hr as [<-|[]]. cbn [messages flows key_exprs _rule] in H. by rewrite sorted_set_in in H.
      * intros [_ (suffix & ms & fs & es & Hin & Hm & Hf & He)].
        exists (_rule (stem sha256 p +:+ "-" +:+ suffix) ms fs es "allow"). cbn [permission messages flows key_exprs _rule].
        rewrite sorted_set_in. split_and!; try done. apply list_elem_of_In, in_flat_map.
        eexists. split; [by apply list_elem_of_In|]. cbn. destruct es; [by apply not_elem_of_nil in He|by left].
  - intros m f Hq Hm Hf. apply (given_peer "deny" _ _ _ _ _ _ _ _ _ _ Hd Hn Hp). unfold peer_rules. rewrite Hq.
    eexists. split; [by apply list_elem_of_singleton|]. split_and!; try done. by apply list_elem_of_singleton.
  - pose proof (compile_shape _ _ _ _ _ _ Hd) as (_ & Es & _ & Hcn & _). intros s. rewrite Es.
    intros [->%list_elem_of_singleton|Hs]%elem_of_app Hc; [by apply not_elem_of_nil in Hc|].
    apply list_elem_of_In, in_map_iff in Hs as (q & <- & Hq). apply list_elem_of_In in Hq. rewrite sort_peers_perm in Hq.
    cbn in Hc. apply list_elem_of_singleton in Hc. by rewrite (NoDup_map_eq cert_common_name peers p q Hcn Hp Hq Hc).
Qed.
End Exact.

(** A site with a child and a quarantined one. *)
Definition plain_hash (s : string) : string :=
  substring 0 64 (s +:+ "0000000000000000000000000000000000000000000000000000000000000000").

Lemma plain_hash_length s : String.length (plain_hash s) = 64%nat.
Proof. apply substring_length. rewrite length_append. cbn [String.length]. lia. Qed.

Definition plain_child (name : string) (quarantine : bool) : PeerPolicy := {|
  p_grant_id := name; p_identity_uri := "spiffe://efdi.global/router/LTU/" +:+ name; cert_common_name := name;
  username := name; relationship := child; p_namespace := "LTU/" +:+ name +:+ "/**";
  p_publish := ["LTU/" +:+ name +:+ "/**"]; p_subscribe := ["LTU/**"]; p_quarantined := quarantine |}.

Definition plain_peers : list PeerPolicy := [plain_child "b" true; plain_child "a" false].
Definition plain_document : exc acl := compile_acl plain_hash "LTU/**" "LTU/in/**" "LTU" "LTU" plain_peers.

Lemma acl_exact_witness :
  exists d, plain_document = Ok d /\
  granted d (peer_subject_id plain_hash (plain_child "a" false)) "put" "ingress" "LTU/a/@topology" /\
  denied d (peer_subject_id plain_hash (plain_child "b" true)) "put" "ingress" "**".
Proof.
  assert (exists d, plain_document = Ok d) as [d Hd] by (eexists; vm_compute; reflexivity). exists d. split; [exact Hd|]. unfold plain_document in Hd.
  assert (NoDup (map (stem plain_hash) plain_peers)) as Hn by (apply (bool_decide_unpack _); vm_compute; exact I).
  destruct (acl_exact plain_hash plain_hash_length _ _ _ _ _ _ (plain_child "a" false) Hd Hn) as (Ha & _ & _);
    [by right; left|].
  destruct (acl_exact plain_hash plain_hash_length _ _ _ _ _ _ (plain_child "b" true) Hd Hn) as (_ & Hb & _);
    [by left|].
  split_and!.
  - apply Ha. split; [done|]. exists "control-in"%py. do 3 eexists. split_and!;
      [do 4 right; left|left|left|right; left].
  - by apply Hb; [done|left|left].
Defined.
