(* ===== verification/ManagedAcl.v ===== *)
(** * From the trust store to the router's access control

    compose/zenoh-admin/api/managed_acl.py: the peers of a site are read from
    its trust store, their grants are compiled to an access-control document, and
    the document is applied as a numbered revision. The configuration file, the
    link secrets, the parent's certificate file, the restart of the router and
    the checksum of a document are arguments. *)

From stdpp Require Import strings.
From S2P Require Import Prelude PyData Schema AsterixCommon TrackViews PyText Trust TrustChain TrustStore Acl.

#[local] Open Scope Z_scope.
#[local] Open Scope py_scope.

(** The fields of the router's configuration that are used. *)
Record ConfigFields := {
  fabric_endpoints : list string;
  publish_prefix : string;
  partner_namespace : string;
  inbound_namespace : string;
  namespace_prefix : string;
}.

Record secret := { secret_username : string; secret_password : string }.

(** The document of [all_secrets()], and [ensure_local_secret()]. *)
Record secrets := {
  children_secrets : list (string * secret);
  parent_secret : option secret;
  local_secret : secret;
}.

Record compiled := {
  access_control : acl;
  peers : list PeerPolicy;
  dictionary : string;
  outbound : option (string * string);
}.

Section Compile.
Context `{Pki}.
(** The parent's certificate file. *)
Variable parent_cert : option string.
Variables (fields : ConfigFields) (secrets_document : secrets) (local : TrustAuthority).

Definition _common_name (pem : string) : exc string :=
  match load_pem pem with
  | Some c => match common_names c with [name] => Ok name | _ => Raise ValueError end
  | None => Raise ValueError
  end.

Definition secret_of (aid : string) : option secret :=
  option_map snd (List.find (fun kv => String.eqb (fst kv) aid) (children_secrets secrets_document)).

Definition _transport_identity (db : database) (aid : string) : option IssuedIdentity :=
  latest issued_at (List.filter (fun i => String.eqb (i_authority_id i) aid && String.eqb (profile i) "transport" && i_active i)
                      (identities db)).

Definition _latest_credential (db : database) (aid : string) : option LinkCredential :=
  latest created_at (List.filter (fun l => String.eqb (l_authority_id l) aid && l_active l) (credentials db)).

Definition shut_out (s : authority_state) : bool :=
  match s with quarantined | decommissioned => true | active => false end.

(** The policy of a child. *)
Definition child_policy (db : database) (now : Z) (c : TrustAuthority) : exc PeerPolicy :=
  match _latest_delegation db (authority_id c), _transport_identity db (authority_id c),
        _latest_credential db (authority_id c), secret_of (authority_id c) with
  | Some delegation, Some identity, Some credential, Some _ =>
      let? (grant, _) := verify_grant_envelope (VDict (envelope_json delegation)) "" now in
      let? cn := _common_name (certificate_pem identity) in
      post_init {| p_grant_id := d_grant_id delegation; p_identity_uri := identity_uri c; cert_common_name := cn;
                   username := l_username credential; relationship := child; p_namespace := namespace grant;
                   p_publish := publish grant; p_subscribe := subscribe grant; p_quarantined := shut_out (state c) |}
  | _, _, _, _ => Raise ValueError
  end.

Definition parent_policy (db : database) (now : Z) (pid : string) : exc PeerPolicy :=
  match parent_cert with
  | None => Raise ValueError
  | Some cert =>
      match get_authority db pid, _latest_delegation db (authority_id local), parent_secret secrets_document with
      | Some up, Some delegation, Some s =>
          let? (grant, _) := verify_grant_envelope (VDict (envelope_json delegation)) "" now in
          let? cn := _common_name cert in
          post_init {| p_grant_id := d_grant_id delegation; p_identity_uri := identity_uri up; cert_common_name := cn;
                       username := secret_username s; relationship := parent; p_namespace := namespace grant;
                       p_publish := publish grant; p_subscribe := subscribe grant; p_quarantined := shut_out (state up) |}
      | _, _, _ => Raise ValueError
      end
  end.

Definition children_of (db : database) : list TrustAuthority :=
  List.filter (fun a => bool_decide (parent_id a = Some (authority_id local))) (authorities db).

(** ["/".join(part for part in parts if part)] *)
Definition join_parts (parts : list string) : string :=
  TrackViews.join (List.filter (fun p => negb (String.eqb p "")) parts).

(** [sorted(incoming, key=username)], a line each. *)
Fixpoint insert_secret (s : secret) (l : list secret) : list secret :=
  match l with
  | [] => [s]
  | t :: l' => if String.leb (secret_username s) (secret_username t) then s :: l else t :: insert_secret s l'
  end.
Definition newline : string := String (ascii_of_N 10) EmptyString.
Definition dictionary_line (s : secret) : string := secret_username s +:+ ":" +:+ sha256_hex (secret_password s) +:+ newline.
Definition dictionary_text : string :=
  fold_right (fun s text => dictionary_line s +:+ text) ""
    (fold_right insert_secret [] (local_secret secrets_document :: map snd (children_secrets secrets_document))).

Definition compile_current_policy (db : database) (now : Z) : exc compiled :=
  if match fabric_endpoints fields, parent_id local with _ :: _, None => true | _, _ => false end then Raise ValueError else
  let? children := exc_map (child_policy db now) (children_of db) in
  let? up := match parent_id local with
             | Some pid => let? p := parent_policy db now pid in Ok [p]
             | None => Ok []
             end in
  let all := children ++ up in
  let? d := compile_acl sha256_hex
              (join_parts [publish_prefix fields; partner_namespace fields; "**"])
              (rstrip_slash (inbound_namespace fields) +:+ "/**")
              (hd "" (TrackViews.split (namespace_prefix fields)))
              (namespace_prefix fields +:+ "/" +:+ partner_namespace fields) all in
  Ok {| access_control := d; peers := all; dictionary := dictionary_text;
        outbound := option_map (fun s => (secret_username s, sha256_hex (secret_password s))) (parent_secret secrets_document) |}.

(** ** Applying a policy *)
Variable acl_digest : acl -> string.

Definition add_revision (r : AclRevision) (db : database) : database := {|
  authorities := authorities db; delegations := delegations db; identities := identities db;
  credentials := credentials db; revocations := revocations db; revisions := revisions db ++ [r] |}.

(** Is the error one [except (OSError, ValueError, KeyError)] names? *)
Definition is_value_error (e : exn) : bool :=
  match e with ValueError | TrustVerifyError | TrustStoreError | KeyError => true | _ => false end.

(** [apply_acl]: [result] says whether the router took the new configuration.
    The second component is the user dictionary file, None when it is absent. *)
Definition apply_acl (db : database) (file : option string) (now : Z) (result : bool) :
    exc (database * option string) :=
  match compile_current_policy db now with
  | Raise e => Raise (if is_value_error e then HTTPException 409 else e)
  | Ok p =>
      let sha := acl_digest (access_control p) in
      let sequence := next_sequence a_sequence (revisions db) in
      if existsb (fun r => String.eqb (policy_sha256 r) sha || (a_sequence r =? sequence)) (revisions db) then Raise IntegrityError else
      let revision := {| a_sequence := sequence; policy_sha256 := sha; a_state := if result then applied else rolled_back |} in
      Ok (add_revision revision db, if result then Some (dictionary p) else file)
  end.
End Compile.
