(* ===== verification/TrustFacts.v ===== *)
(** * What the trust store guarantees

    Theorems about [TrustStore] and [ManagedAcl]: the tree of authorities, the
    proofs a store exports, and what becomes of the access control when the
    state of an authority changes. *)

From stdpp Require Import strings.
From S2P Require Import Prelude PyData Schema AsterixCommon TrackViews PyText Trust TrustChain TrustStore Acl ManagedAcl.

#[local] Open Scope Z_scope.
#[local] Open Scope py_scope.

(** ** Verified envelopes *)
Section Envelopes.
Context `{Pki}.

(** The grant of an envelope does not depend on when it is verified, nor on who
    is expected to have signed it. *)
Lemma verify_grant_same env fp fp' t t' g g' c c' :
  verify_grant_envelope (VDict env) fp t = Ok (g, c) -> verify_grant_envelope (VDict env) fp' t' = Ok (g', c') ->
  g = g' /\ c = c'.
Proof.
  unfold verify_grant_envelope. cbn [exc_bind]. destruct (read_envelope (VDict env)) as [[[e g0] c0]|]; [|done].
  cbn [exc_bind]. cbv zeta. destruct (certificate_router_identity c0) as [who|]; [|by repeat case_match].
  cbn [exc_bind]. intros E E'. repeat case_match; by simplify_eq.
Qed.

(** Its errors are those the callers name. *)
Lemma router_identity_error c e : certificate_router_identity c = Raise e -> e = TrustVerifyError.
Proof. unfold certificate_router_identity. repeat case_match; congruence. Qed.

Lemma verify_grant_error env fp t e : verify_grant_envelope (VDict env) fp t = Raise e -> e = TrustVerifyError.
Proof.
  unfold verify_grant_envelope. cbn [exc_bind]. unfold read_envelope at 1.
  destruct (envelope_fields (VDict env)); [|cbn; congruence]. cbv zeta. destruct (negb _); [cbn; congruence|].
  destruct (grant_fields _); [|cbn; congruence]. destruct (model_validate _); [|cbn; congruence].
  destruct (load_pem _) as [c|]; [|cbn; congruence]. cbn [exc_bind].
  destruct (negb _); [congruence|]. destruct (negb _ && negb _); [congruence|].
  destruct (certificate_router_identity c) as [who|] eqn:Ei; cbn [exc_bind];
    [|intros [= <-]; by apply router_identity_error in Ei].
  repeat case_match; congruence.
Qed.
End Envelopes.

(** ** Steps of a store *)

(** What the trust code does to the database, and the enrolment and the access
    control to the tables that are theirs. *)
Inductive store_step `{Pki} (local : TrustAuthority) : database -> database -> Prop :=
| step_accept db env ca policy t t' t'' aid db' a d :
    accept_delegation db env ca policy t t' t'' aid = Ok (db', a, d) -> store_step local db db'
| step_quarantine db aid db' : quarantine_authority local db aid = Ok db' -> store_step local db db'
| step_restore db aid db' : restore_authority local db aid = Ok db' -> store_step local db db'
| step_decommission db aid db' : decommission_authority local db aid = Ok db' -> store_step local db db'
| step_rows db ids creds revs :
    store_step local db {| authorities := authorities db; delegations := delegations db; identities := ids;
                           credentials := creds; revocations := revocations db; revisions := revs |}.

Section Steps.
Context `{Pki}.

(** An accepted delegation, seen from the store. *)
Lemma accept_shape db env ca_pem pol t t' t'' aid db' a d :
  accept_delegation db env ca_pem pol t t' t'' aid = Ok (db', a, d) ->
  exists grant c issuer,
    verify_grant_envelope (VDict env) (policy_signer_fingerprint issuer) t = Ok (grant, c) /\
    authority_by_identity db (issuer_identity grant) = Some issuer /\ state issuer = active /\
    check_issuer_grant db t' issuer grant = Ok tt /\
    (forall n, highest_sequence db (authority_id issuer) = Some n -> n < sequence grant) /\
    authority_by_identity db (subject_identity grant) = None /\
    unique_authority db a = true /\
    authorities db' = authorities db ++ [a] /\ delegations db' = delegations db ++ [d] /\
    authority_id a = aid /\ identity_uri a = subject_identity grant /\ namespace_scope a = namespace grant /\
    parent_id a = Some (authority_id issuer) /\ authority_depth a = max_delegation_depth grant /\ state a = active /\
    subject_authority_id d = aid /\ issuer_authority_id d = authority_id issuer /\ d_sequence d = sequence grant /\
    envelope_json d = env /\ d_active d = true /\
    (exists ca issuer_ca, load_pem (ca_cert_pem a) = Some ca /\ load_pem (ca_cert_pem issuer) = Some issuer_ca /\
       _verify_issued_by ca issuer_ca = Ok tt /\ _verify_ca_profile ca = Ok tt /\
       cert_fingerprint ca = subject_ca_sha256 grant /\ ca_fingerprint a = cert_fingerprint ca /\
       (policy_signer_fingerprint a <> "" -> exists policy, load_pem (policy_signer_cert_pem a) = Some policy /\
          _verify_issued_by policy issuer_ca = Ok tt /\ _verify_policy_profile policy (subject_identity grant) = Ok tt /\
          policy_signer_fingerprint a = cert_fingerprint policy)).
Proof.
  unfold accept_delegation. destruct (dget_or env "signer_certificate" VNone) as [| | | |raw| |]; try done.
  destruct (load_certificate raw) as [signer|]; [|done]. cbn [exc_bind]. cbv zeta.
  destruct (verify_grant_envelope (VDict env) (cert_fingerprint signer) t) as [[grant c]|] eqn:Ev; [|done]. cbn [exc_bind].
  destruct (authority_by_identity db (issuer_identity grant)) as [issuer|] eqn:Ei; [|done].
  destruct (negb (bool_decide _) || _) eqn:Est; [done|]. apply orb_false_iff in Est as [Est _].
  apply negb_false_iff, bool_decide_eq_true in Est.
  destruct (negb (String.eqb (policy_signer_fingerprint issuer) _)) eqn:Efp; [done|].
  apply negb_false_iff, String.eqb_eq in Efp.
  destruct (check_issuer_grant db t' issuer grant) as [[]|] eqn:Eg; [|done]. cbn [exc_bind].
  destruct (match highest_sequence db (authority_id issuer) with Some _ => _ | None => _ end) eqn:Eseq; [done|].
  unfold load_certificate. destruct (load_pem ca_pem) as [ca|] eqn:Lca; [|done]. cbn [exc_bind].
  destruct (load_pem (ca_cert_pem issuer)) as [issuer_ca|] eqn:Lis; [|done]. cbn [exc_bind].
  destruct (_verify_issued_by ca issuer_ca) as [[]|] eqn:Vca; [|done]. cbn [exc_bind].
  destruct (_verify_ca_profile ca) as [[]|] eqn:Vpr; [|done]. cbn [exc_bind].
  destruct (negb (within_time _ _ _)); [done|]. destruct (negb (String.eqb (cert_fingerprint ca) _)) eqn:Ecf; [done|].
  apply negb_false_iff, String.eqb_eq in Ecf.
  destruct (check_policy pol issuer_ca grant t'') as [policy_fp|] eqn:Epol; [|done]. cbn [exc_bind].
  destruct (authority_by_identity db (subject_identity grant)) eqn:Esub; [done|].
  destruct (negb (unique_authority _ _)) eqn:Eu; [done|]. apply negb_false_iff in Eu.
  destruct (negb (unique_delegation _ _)); [done|]. intros [= <- <- <-].
  exists grant, c, issuer. rewrite Efp. split_and!; try done.
  - intros n En. rewrite En in Eseq. by apply Z.leb_gt in Eseq.
  - exists ca, issuer_ca. cbn [ca_cert_pem policy_signer_fingerprint policy_signer_cert_pem ca_fingerprint].
    split_and!; try done. intros Hne. unfold check_policy, load_certificate in Epol. destruct pol as [pem|]; [|by injection Epol as <-].
    destruct (String.eqb pem ""); [by injection Epol as <-|].
    destruct (load_pem pem) as [policy|] eqn:Lp; [|done]. cbn [exc_bind] in Epol.
    destruct (_verify_issued_by policy issuer_ca) as [[]|] eqn:V1; [|done]. cbn [exc_bind] in Epol.
    destruct (_verify_policy_profile policy _) as [[]|] eqn:V2; [|done]. cbn [exc_bind] in Epol.
    destruct (negb _); [done|]. injection Epol as <-. exists policy. by split_and!.
Qed.
End Steps.

(** ** Decommissioning *)
Section Decommission.
Context `{Pki}.
Variable local : TrustAuthority.
Abbreviation step := (store_step local).

(** A child whose delegations have all been revoked. *)
Definition without_grant (aid : string) (db : database) : Prop :=
  (exists a, a ∈ authorities db /\ authority_id a = aid /\ parent_id a = Some (authority_id local)) /\
  forall d, d ∈ delegations db -> subject_authority_id d = aid -> d_active d = false.

Lemma set_state_without aid other s db : without_grant aid db -> without_grant aid (set_state other s db).
Proof.
  intros [(a & Ha & Hid & Hp) Hd]. split; [|done].
  exists (if String.eqb (authority_id a) other then with_state s a else a). split; [|by destruct (String.eqb _ _)].
  cbn. apply list_elem_of_In, in_map_iff. exists a. split; [done|by apply list_elem_of_In].
Qed.

Lemma revoke_in d aid db : d ∈ delegations (revoke_rows aid db) ->
  exists d0, d0 ∈ delegations db /\ subject_authority_id d = subject_authority_id d0 /\
    (d_active d = false \/ d = d0 /\ subject_authority_id d0 <> aid).
Proof.
  intros (d0 & <- & Hin)%list_elem_of_In%in_map_iff. exists d0. split; [by apply list_elem_of_In|].
  destruct (String.eqb_spec (subject_authority_id d0) aid); cbn; auto.
Qed.

Lemma revoke_without aid other db : without_grant aid db -> without_grant aid (revoke_rows other db).
Proof.
  intros [Ha Hd]. split; [done|]. intros d (d0 & Hin & Es & [Hf|[-> _]])%revoke_in E; [done|]. by apply Hd.
Qed.

Lemma unique_authority_id db a b : unique_authority db a = true -> b ∈ authorities db -> authority_id b <> authority_id a.
Proof.
  unfold unique_authority. rewrite negb_true_iff. intros Hu Hb E.
  assert (existsb (fun b => String.eqb (identity_uri b) (identity_uri a) || String.eqb (ca_fingerprint b) (ca_fingerprint a) ||
            String.eqb (authority_id b) (authority_id a) || (negb (String.eqb (policy_signer_fingerprint a) "") &&
            String.eqb (policy_signer_fingerprint b) (policy_signer_fingerprint a))) (authorities db) = true) as Ht; [|congruence].
  apply existsb_exists. exists b. split; [by apply list_elem_of_In|]. by rewrite E, String.eqb_refl, !orb_true_r.
Qed.

Lemma without_step aid db db' : step db db' -> without_grant aid db -> without_grant aid db'.
Proof.
  intros [db1 env ca pol t t' t'' nid db2 a d E|db1 x db2 E|db1 x db2 E|db1 x db2 E|db1 ids creds revs].
  - intros [(b & Hb & Hid & Hp) Hd].
    apply accept_shape in E as (g & c & issuer & _ & _ & _ & _ & _ & _ & Hu & Ea & Ed & Hnid & _ & _ & _ & _ & _ & Hs & _).
    split; [exists b; split; [rewrite Ea; apply elem_of_app; by left|done]|]. rewrite Ed.
    intros e [He| ->%list_elem_of_singleton]%elem_of_app Ee; [by apply Hd|].
    destruct (unique_authority_id _ _ _ Hu Hb). congruence.
  - unfold quarantine_authority in E. destruct (_direct_child _ _ _); [|done]. cbn [exc_bind] in E.
    destruct (bool_decide _); [done|]. injection E as <-. apply set_state_without.
  - unfold restore_authority in E. destruct (_direct_child _ _ _); [|done]. cbn [exc_bind] in E.
    destruct (negb _); [done|]. injection E as <-. apply set_state_without.
  - unfold decommission_authority in E. destruct (_direct_child _ _ _); [|done]. cbn [exc_bind] in E.
    destruct (bool_decide _); [done|]. cbv zeta in E. destruct (existsb _ _); [done|]. injection E as <-.
    intros Hw. by apply (revoke_without aid x), (set_state_without aid).
  - done.
Qed.

Lemma direct_child_spec db aid a : _direct_child local db aid = Ok a ->
  a ∈ authorities db /\ authority_id a = aid /\ parent_id a = Some (authority_id local).
Proof.
  unfold _direct_child, get_authority. destruct (List.find _ _) as [b|] eqn:E; [|done].
  destruct (bool_decide _) eqn:Ep; [|done]. intros [= ->]. apply find_some in E as [Hin E].
  split_and!; [by apply list_elem_of_In|by apply String.eqb_eq|by apply bool_decide_eq_true in Ep].
Qed.

Lemma decommissioned_without db aid db' : decommission_authority local db aid = Ok db' -> without_grant aid db'.
Proof.
  unfold decommission_authority. destruct (_direct_child local db aid) as [a|] eqn:Ec; [|done]. cbn [exc_bind].
  apply direct_child_spec in Ec as (Ha & Hid & Hp). destruct (bool_decide _); [done|]. cbv zeta.
  destruct (existsb _ _); [done|]. intros [= <-].
  assert (without_grant aid (revoke_rows aid (set_state aid decommissioned db))) as Hw; [|done]. split.
  - exists (with_state decommissioned a). split; [|done]. cbn. apply list_elem_of_In, in_map_iff. exists a.
    rewrite Hid, String.eqb_refl. split; [done|by apply list_elem_of_In].
  - intros d (d0 & _ & Es & [Hf|[-> Hne]])%revoke_in E; [done|congruence].
Qed.

(** *** Compiling fails *)
Lemma exc_map_fails {A B} (f : A -> exc B) l x (E : exn -> Prop) :
  In x l -> (exists e, f x = Raise e) -> (forall y e, In y l -> f y = Raise e -> E e) ->
  exists e, exc_map f l = Raise e /\ E e.
Proof.
  induction l as [|y l IH]; intros Hin Hx HE; [done|]. cbn [exc_map].
  destruct (f y) as [b|e] eqn:Ey; cbn [exc_bind].
  - destruct Hin as [->|Hin]; [destruct Hx as [e He]; congruence|].
    destruct (IH Hin Hx) as (e & -> & He); [intros z e0 Hz; apply HE; by right|]. by exists e.
  - exists e. split; [done|]. apply (HE y); [by left|done].
Qed.

Lemma latest_In {A} (key : A -> Z) l r : latest key l = Some r -> In r l.
Proof.
  revert r. induction l as [|x l IH]; intros r; cbn; [done|].
  destruct (latest key l) as [s|]; [|intros [= ->]; by left].
  destruct (key x <? key s); intros [= ->]; [right; by apply IH|by left].
Qed.

Variables (parent_cert : option string) (fields : ConfigFields) (secrets_document : secrets) (acl_digest : acl -> string).
Abbreviation compile := (compile_current_policy parent_cert fields secrets_document local).
Abbreviation apply := (apply_acl parent_cert fields secrets_document local acl_digest).

Lemma child_policy_error db now c e :
  child_policy secrets_document db now c = Raise e -> is_value_error e = true.
Proof.
  unfold child_policy. repeat (case_match; try (by intros [= <-])).
  destruct (verify_grant_envelope _ _ _) as [[g x]|e'] eqn:Ev; cbn [exc_bind];
    [|intros [= <-]; by apply verify_grant_error in Ev as ->].
  unfold _common_name. repeat (case_match; try (by intros [= <-])). cbn [exc_bind]. unfold post_init.
  repeat (case_match; try (by intros [= <-])).
Qed.

Lemma without_compile aid db now : without_grant aid db -> exists e, compile db now = Raise e /\ is_value_error e = true.
Proof.
  intros [(a & Ha & Hid & Hp) Hd]. unfold compile_current_policy.
  destruct (match fabric_endpoints fields with _ :: _ => _ | [] => _ end); [by eexists|].
  assert (In a (children_of local db)) as Hin.
  { unfold children_of. apply filter_In. split; [by apply list_elem_of_In|by apply bool_decide_eq_true]. }
  destruct (exc_map_fails (child_policy secrets_document db now) (children_of local db) a
              (fun e => is_value_error e = true) Hin) as (e & -> & He).
  - exists ValueError. unfold child_policy.
    destruct (_latest_delegation db (authority_id a)) as [d|] eqn:El; [|done].
    apply latest_In, filter_In in El as [Hind Hs]. apply andb_true_iff in Hs as [Hs%String.eqb_eq Hact].
    apply list_elem_of_In in Hind. rewrite (Hd d Hind) in Hact; [done|congruence].
  - intros y e _. apply child_policy_error.
  - by exists e.
Qed.

(** C22: decommissioning a child ends the management of access control: from
    then on, whatever else is done with the store, no policy compiles any more
    and every attempt to apply one is refused, so the router keeps the document
    it had, with the decommissioned child's rules in it. *)
Theorem decommission_freezes_acl db aid db' db'' file now result :
  decommission_authority local db aid = Ok db' -> rtc step db' db'' ->
  apply db'' file now result = Raise (HTTPException 409).
Proof.
  intros Hw%decommissioned_without Hs.
  assert (without_grant aid db'') as Hw'' by (induction Hs; [done|eauto using without_step]).
  destruct (without_compile aid db'' now Hw'') as (e & He & Hv). unfold apply_acl. by rewrite He, Hv.
Qed.
End Decommission.

(** ** Lifting a quarantine *)
Section Restore.
Context `{Pki}.
Variables (local : TrustAuthority) (parent_cert : option string) (fields : ConfigFields).
Variables (secrets_document : secrets) (acl_digest : acl -> string).
Abbreviation compile := (compile_current_policy parent_cert fields secrets_document local).
Abbreviation apply := (apply_acl parent_cert fields secrets_document local acl_digest).

(** Equal answers, when both are answers. *)
Definition agree {A} (x y : exc A) : Prop := forall a b, x = Ok a -> y = Ok b -> a = b.

Lemma agree_bind {A B} (x y : exc A) (f g : A -> exc B) :
  agree x y -> (forall a, agree (f a) (g a)) -> agree (exc_bind x f) (exc_bind y g).
Proof.
  intros Hxy Hfg a b. destruct x as [u|], y as [v|]; cbn [exc_bind]; try done.
  rewrite (Hxy u v eq_refl eq_refl). apply Hfg.
Qed.

Lemma agree_refl {A} (x : exc A) : agree x x.
Proof. intros a b -> [= ->]. done. Qed.

Lemma agree_map {A B} (f g : A -> exc B) l : (forall a, agree (f a) (g a)) -> agree (exc_map f l) (exc_map g l).
Proof.
  intros Hfg. induction l as [|x l IH]; [apply agree_refl|]. cbn. apply agree_bind; [apply Hfg|].
  intros y. apply agree_bind; [done|]. intros ys. apply agree_refl.
Qed.

Lemma agree_grant {A} env now now' (f : DelegationGrant -> exc A) :
  agree (let? (grant, _) := verify_grant_envelope (VDict env) "" now in f grant)
        (let? (grant, _) := verify_grant_envelope (VDict env) "" now' in f grant).
Proof.
  apply agree_bind.
  - intros [g c] [g' c'] E E'. by destruct (verify_grant_same _ _ _ _ _ _ _ _ _ E E') as [-> ->].
  - intros [g c]. apply agree_refl.
Qed.

(** A policy depends on the tables and not on the time it is compiled. *)
Definition same_peers (db db' : database) : Prop :=
  authorities db' = authorities db /\ delegations db' = delegations db /\ identities db' = identities db /\
  credentials db' = credentials db.

Lemma compile_agree db db' now now' : same_peers db db' -> agree (compile db now) (compile db' now').
Proof.
  destruct db, db'. intros (E1 & E2 & E3 & E4). cbn in E1, E2, E3, E4. subst.
  unfold compile_current_policy. destruct (match fabric_endpoints fields with _ :: _ => _ | [] => _ end); [apply agree_refl|].
  apply agree_bind.
  - unfold children_of. cbn [TrustStore.authorities]. apply agree_map. intros a. unfold child_policy.
    unfold _latest_delegation, _transport_identity, _latest_credential. cbn [TrustStore.delegations TrustStore.identities TrustStore.credentials].
    destruct (latest d_sequence _); [|apply agree_refl]. destruct (latest issued_at _); [|apply agree_refl].
    destruct (latest created_at _); [|apply agree_refl]. destruct (secret_of _ _); [|apply agree_refl]. apply agree_grant.
  - intros children. apply agree_bind; [|intros up; apply agree_refl].
    destruct (parent_id local) as [pid|]; [|apply agree_refl]. apply agree_bind; [|intros p; apply agree_refl].
    unfold parent_policy, get_authority, _latest_delegation. cbn [TrustStore.authorities TrustStore.delegations].
    destruct parent_cert as [cert|]; [|apply agree_refl]. destruct (List.find _ _); [|apply agree_refl].
    destruct (latest d_sequence _); [|apply agree_refl]. destruct (ManagedAcl.parent_secret secrets_document); [|apply agree_refl].
    apply agree_grant.
Qed.

(** An applied policy is on record, and no policy can be put there twice. *)
Lemma apply_ok db file now result db' file' :
  apply db file now result = Ok (db', file') ->
  same_peers db db' /\
  exists p, compile db now = Ok p /\ existsb (fun r => String.eqb (policy_sha256 r) (acl_digest (access_control p))) (revisions db') = true /\
    (forall r, r ∈ revisions db -> r ∈ revisions db').
Proof.
  unfold apply_acl. destruct (compile db now) as [p|]; [|done]. cbv zeta. destruct (existsb _ _); [done|]. intros [= <- <-].
  split; [done|]. exists p. split; [done|]. cbn [revisions add_revision]. split.
  - rewrite existsb_app. cbn. by rewrite String.eqb_refl, orb_true_r.
  - intros r Hr. apply elem_of_app. by left.
Qed.

Lemma apply_twice db file now result p :
  compile db now = Ok p ->
  existsb (fun r => String.eqb (policy_sha256 r) (acl_digest (access_control p))) (revisions db) = true ->
  apply db file now result = Raise IntegrityError.
Proof.
  intros Hp Hr. unfold apply_acl. rewrite Hp. cbv zeta.
  assert (existsb (fun r => String.eqb (policy_sha256 r) (acl_digest (access_control p)) ||
            (a_sequence r =? next_sequence a_sequence (revisions db))) (revisions db) = true) as ->; [|done].
  apply existsb_exists in Hr as (r & Hin & E). apply existsb_exists. exists r. by rewrite E.
Qed.

Lemma restore_undoes aid db db2 db3 db4 :
  NoDup (map authority_id (authorities db)) ->
  (forall a, get_authority db aid = Some a -> state a = active) ->
  quarantine_authority local db aid = Ok db2 -> same_peers db2 db3 -> restore_authority local db3 aid = Ok db4 ->
  same_peers db db4 /\ revisions db4 = revisions db3.
Proof.
  intros Hn Hact Hq (E1 & E2 & E3 & E4) Hr.
  unfold quarantine_authority in Hq. destruct (_direct_child local db aid) as [a|] eqn:Ea; [|done]. cbn [exc_bind] in Hq.
  destruct (bool_decide _); [done|]. injection Hq as <-.
  unfold restore_authority in Hr. destruct (_direct_child local db3 aid); [|done]. cbn [exc_bind] in Hr.
  destruct (negb _); [done|]. injection Hr as <-.
  split; [|done]. split_and!; [|exact E2|exact E3|exact E4].
  cbn [authorities set_state]. rewrite E1. cbn [authorities set_state]. rewrite map_map.
  rewrite <- (map_id (authorities db)) at 2. apply map_ext_in. intros b Hb.
  destruct (String.eqb_spec (authority_id b) aid) as [E|Hne].
  - assert (authority_id (with_state quarantined b) = aid) as -> by done. rewrite String.eqb_refl.
    assert (state b = active) as Hb'.
    { apply Hact. apply list_elem_of_In in Hb. unfold _direct_child, get_authority in Ea |- *.
      destruct (List.find _ _) as [c|] eqn:Ec; [|done]. apply find_some in Ec as [Hc Ec%String.eqb_eq].
      apply list_elem_of_In in Hc. f_equal. by apply (NoDup_map_eq authority_id (authorities db)); [..|congruence]. }
    destruct b. cbn in *. by subst.
  - by rewrite (proj2 (String.eqb_neq _ _) Hne).
Qed.

(** C23: a quarantine that has been applied cannot be lifted: when the policy in
    force was applied, a child quarantined, that policy applied and the child
    restored, the policy to apply is the first one again, and the unique checksum
    of revisions refuses it; the router goes on shutting the child out. *)
Theorem quarantine_outlasts_restore aid db file now r1 db1 file1 db2 now2 r2 db3 file3 db4 now4 r4 p4 :
  NoDup (map authority_id (authorities db)) -> (forall a, get_authority db aid = Some a -> state a = active) ->
  apply db file now r1 = Ok (db1, file1) ->
  quarantine_authority local db1 aid = Ok db2 ->
  apply db2 file1 now2 r2 = Ok (db3, file3) ->
  restore_authority local db3 aid = Ok db4 ->
  compile db4 now4 = Ok p4 ->
  apply db4 file3 now4 r4 = Raise IntegrityError.
Proof.
  intros Hn Hact H1 Hq H2 Hr Hp4. apply apply_ok in H1 as (S1 & p & Hp & Hrev & _).
  apply apply_ok in H2 as (S2 & _ & _ & _ & Hkeep).
  assert (same_peers db1 db4 /\ revisions db4 = revisions db3) as [S4 Er].
  { apply (restore_undoes aid db1 db2 db3 db4); try done; [by rewrite (proj1 S1)|].
    unfold get_authority. by rewrite (proj1 S1). }
  assert (same_peers db db4) as S by (destruct S1 as (?&?&?&?), S4 as (?&?&?&?); split_and!; congruence).
  pose proof (compile_agree db db4 now now4 S p p4 Hp Hp4) as <-.
  eapply apply_twice; [exact Hp4|]. rewrite Er. apply existsb_exists in Hrev as (r & Hin & E). apply existsb_exists.
  exists r. split; [|done]. apply list_elem_of_In, Hkeep.
  unfold quarantine_authority in Hq. destruct (_direct_child local db1 aid); [|done]. cbn [exc_bind] in Hq.
  destruct (bool_decide _); [done|]. injection Hq as <-. cbn [revisions set_state]. by apply list_elem_of_In.
Qed.
End Restore.

(** ** The tree of authorities *)
Section Tree.
Context `{Pki}.
Variable local : TrustAuthority.
Abbreviation step := (store_step local).

(** What never changes in a row. *)
Definition static (a : TrustAuthority) : TrustAuthority := with_state active a.
Definition static_authorities (db : database) : list TrustAuthority := map static (authorities db).
Definition envelopes (db : database) : list (string * dict) :=
  map (fun d => (subject_authority_id d, envelope_json d)) (delegations db).

(** An envelope that was verified makes [a] the subject of [p]. *)
Definition link (es : list (string * dict)) (p : TrustAuthority) (env : dict) (a : TrustAuthority) : Prop :=
  exists t g c,
    verify_grant_envelope (VDict env) (policy_signer_fingerprint p) t = Ok (g, c) /\
    issuer_identity g = identity_uri p /\ subject_identity g = identity_uri a /\ namespace_scope a = namespace g /\
    authority_depth a = max_delegation_depth g /\
    (parent_id p = None -> max_delegation_depth g < authority_depth p) /\
    (forall penv, (authority_id p, penv) ∈ es -> exists t' fp' g' c',
       verify_grant_envelope (VDict penv) fp' t' = Ok (g', c') /\ grant_is_subset g g' = true) /\
    (exists ca issuer_ca, load_pem (ca_cert_pem a) = Some ca /\ load_pem (ca_cert_pem p) = Some issuer_ca /\
       _verify_issued_by ca issuer_ca = Ok tt /\ _verify_ca_profile ca = Ok tt /\
       cert_fingerprint ca = subject_ca_sha256 g /\ ca_fingerprint a = cert_fingerprint ca /\
       (policy_signer_fingerprint a <> "" -> exists policy, load_pem (policy_signer_cert_pem a) = Some policy /\
          _verify_issued_by policy issuer_ca = Ok tt /\ _verify_policy_profile policy (subject_identity g) = Ok tt /\
          policy_signer_fingerprint a = cert_fingerprint policy)).

Record tree_ok (au : list TrustAuthority) (es : list (string * dict)) : Prop := {
  tree_ids : NoDup (map authority_id au);
  tree_subjects : NoDup (map fst es);
  tree_known s : s ∈ map fst es -> exists a, a ∈ au /\ authority_id a = s /\ parent_id a <> None;
  tree_links a pid : a ∈ au -> parent_id a = Some pid ->
    exists p env, p ∈ au /\ authority_id p = pid /\ (authority_id a, env) ∈ es /\ link es p env a;
}.

(** Rows of authorities that are not decommissioned have their delegation. *)
Definition live (db : database) : Prop :=
  forall a d, a ∈ authorities db -> d ∈ delegations db -> subject_authority_id d = authority_id a ->
  state a <> decommissioned -> d_active d = true.

Definition store_ok (db : database) : Prop := tree_ok (static_authorities db) (envelopes db) /\ live db.

Lemma NoDup_fst_eq {A B} (l : list (A * B)) k x y : NoDup (map fst l) -> (k, x) ∈ l -> (k, y) ∈ l -> x = y.
Proof. intros Hn Hx Hy. by pose proof (NoDup_map_eq fst l (k, x) (k, y) Hn Hx Hy eq_refl) as [= ->]. Qed.

Lemma map_ids db : map authority_id (static_authorities db) = map authority_id (authorities db).
Proof. unfold static_authorities. rewrite map_map. by apply map_ext. Qed.

Lemma static_in db a : a ∈ authorities db -> static a ∈ static_authorities db.
Proof. intros Ha. apply list_elem_of_In, in_map. by apply list_elem_of_In. Qed.

Lemma static_row db a : a ∈ static_authorities db -> exists b, b ∈ authorities db /\ a = static b.
Proof. intros (b & <- & Hb)%list_elem_of_In%in_map_iff. exists b. split; [by apply list_elem_of_In|done]. Qed.

(** *** Changes of state *)
Lemma set_state_static aid s db : static_authorities (set_state aid s db) = static_authorities db.
Proof.
  unfold static_authorities. cbn. rewrite map_map. apply map_ext. intros a. by destruct (String.eqb _ _).
Qed.
Lemma revoke_envelopes aid db : envelopes (revoke_rows aid db) = envelopes db.
Proof. unfold envelopes. cbn. rewrite map_map. apply map_ext. intros d. by destruct (String.eqb _ _). Qed.

Lemma set_state_live aid s db : NoDup (map authority_id (authorities db)) -> live db ->
  (forall a, a ∈ authorities db -> authority_id a = aid -> state a = decommissioned -> s = decommissioned) ->
  live (set_state aid s db).
Proof.
  intros Hn Hl Hs a d (a0 & <- & Ha0)%list_elem_of_In%in_map_iff Hd Ed Hst. apply list_elem_of_In in Ha0.
  apply (Hl a0 d); [done|done| |].
  - rewrite Ed. by destruct (String.eqb _ _).
  - destruct (String.eqb_spec (authority_id a0) aid) as [E|]; [|done]. intros Hd0. by apply Hst, (Hs a0).
Qed.

Lemma revoke_live aid db : live (set_state aid decommissioned db) -> live (revoke_rows aid (set_state aid decommissioned db)).
Proof.
  intros Hl a d Ha (d0 & <- & Hd0)%list_elem_of_In%in_map_iff Ed Hst. apply list_elem_of_In in Hd0.
  destruct (String.eqb_spec (subject_authority_id d0) aid) as [E|Hne]; [|by apply (Hl a d0)].
  exfalso. cbn in Ed. cbn in Ha. apply list_elem_of_In, in_map_iff in Ha as (a0 & <- & _).
  destruct (String.eqb_spec (authority_id a0) aid) as [E0|Hne]; [by apply Hst|]. congruence.
Qed.

(** *** Accepting *)
Lemma latest_some {A} (key : A -> Z) r l : In r l -> exists r', latest key l = Some r'.
Proof.
  destruct l as [|x l]; [done|]. intros _. cbn. destruct (latest key l); [|by eexists]. by destruct (_ <? _); eexists.
Qed.

Lemma envelope_in d db : d ∈ delegations db -> (subject_authority_id d, envelope_json d) ∈ envelopes db.
Proof. intros Hd. apply list_elem_of_In, in_map_iff. exists d. split; [done|by apply list_elem_of_In]. Qed.

Lemma envelope_row db s env : (s, env) ∈ envelopes db ->
  exists d, d ∈ delegations db /\ subject_authority_id d = s /\ envelope_json d = env.
Proof. intros (d & [= <- <-] & Hd)%list_elem_of_In%in_map_iff. exists d. split; [by apply list_elem_of_In|done]. Qed.

Lemma fst_in {A B} (k : A) (x : B) l : (k, x) ∈ l -> k ∈ map fst l.
Proof. intros Hin. apply list_elem_of_In, in_map_iff. exists (k, x). split; [done|by apply list_elem_of_In]. Qed.

(** The delegation in force of an authority is its only one; an anchor has none. *)
Lemma latest_of db a : store_ok db -> a ∈ authorities db -> state a <> decommissioned ->
  match parent_id a with
  | Some _ => exists d, _latest_delegation db (authority_id a) = Some d /\ (authority_id a, envelope_json d) ∈ envelopes db
  | None => _latest_delegation db (authority_id a) = None
  end.
Proof.
  intros [Ht Hl] Ha Hs. unfold _latest_delegation. set (f := fun d => String.eqb _ _ && _).
  destruct (parent_id a) as [pid|] eqn:Ep.
  - destruct (tree_links _ _ Ht (static a) pid (static_in db a Ha) Ep) as (_ & env & _ & _ & Hin & _).
    apply envelope_row in Hin as (d & Hd & Es & Ee). cbn [authority_id static with_state] in Es.
    destruct (latest_some d_sequence d (List.filter f (delegations db))) as [d' Hd'].
    { apply filter_In. split; [by apply list_elem_of_In|]. unfold f.
      by rewrite Es, String.eqb_refl, (Hl a d Ha Hd Es Hs). }
    exists d'. split; [done|]. apply latest_In, filter_In in Hd' as [Hin' Hf]. apply andb_true_iff in Hf as [Hf%String.eqb_eq _].
    rewrite <- Hf. apply envelope_in. by apply list_elem_of_In.
  - destruct (latest d_sequence (List.filter f (delegations db))) as [d|] eqn:El; [|done].
    apply latest_In, filter_In in El as [Hd Hf]. apply andb_true_iff in Hf as [Hf%String.eqb_eq _].
    apply list_elem_of_In, envelope_in, fst_in, (tree_known _ _ Ht) in Hd as (b & Hb & Eb & Hp).
    apply static_row in Hb as (b0 & Hb & ->). exfalso. apply Hp. cbn in Eb |- *.
    assert (NoDup (map authority_id (authorities db))) as Hn by (rewrite <- map_ids; apply (tree_ids _ _ Ht)).
    rewrite Hf in Eb. by rewrite (NoDup_map_eq authority_id _ b0 a Hn Hb Ha Eb).
Qed.

Lemma accept_ok db env ca pol t t' t'' aid db' a d :
  store_ok db -> accept_delegation db env ca pol t t' t'' aid = Ok (db', a, d) -> store_ok db'.
Proof.
  intros Hok E. apply accept_shape in E as (g & c & issuer & Hv & Hi & Hact & Hchk & _ & _ & Hu & Ea & Ed & Hid & Hwho & Hns & Hpar &
    Hdep & Hst & Hsub & _ & _ & Henv & Hda & Hcerts).
  pose proof Hok as [Ht Hl]. apply find_some in Hi as [Hi Hiw%String.eqb_eq]. apply list_elem_of_In in Hi.
  assert (forall b, b ∈ authorities db -> authority_id b <> aid) as Hfresh.
  { intros b Hb. rewrite <- Hid. by apply (unique_authority_id db). }
  assert (static_authorities db' = static_authorities db ++ [static a]) as Esa
    by (unfold static_authorities; by rewrite Ea, map_app).
  assert (envelopes db' = envelopes db ++ [(aid, env)]) as Ees
    by (unfold envelopes; rewrite Ed, map_app; cbn; by rewrite Hsub, Henv).
  assert (forall p, p ∈ authorities db -> forall e, (authority_id p, e) ∈ envelopes db' -> (authority_id p, e) ∈ envelopes db) as Hold.
  { intros p Hp e. rewrite Ees. intros [He|[= E _]%list_elem_of_singleton]%elem_of_app; [done|]. by destruct (Hfresh p Hp). }
  assert (aid ∉ map fst (envelopes db)) as Hnew.
  { intros (b & Hb & Eb & _)%(tree_known _ _ Ht). apply static_row in Hb as (b0 & Hb & ->). by destruct (Hfresh b0 Hb). }
  split; [rewrite Esa; constructor|].
  - rewrite map_app. apply NoDup_app. split; [apply (tree_ids _ _ Ht)|]. split; [|apply NoDup_singleton].
    intros s Hs ->%list_elem_of_singleton. apply list_elem_of_In, in_map_iff in Hs as (b & Eb & Hb).
    apply list_elem_of_In, static_row in Hb as (b0 & Hb & ->). apply (Hfresh b0 Hb). by rewrite <- Hid.
  - rewrite Ees, map_app. apply NoDup_app. split; [apply (tree_subjects _ _ Ht)|]. split; [|apply NoDup_singleton].
    by intros s Hs ->%list_elem_of_singleton.
  - intros s. rewrite Ees, map_app. intros [Hs| ->%list_elem_of_singleton]%elem_of_app.
    + destruct (tree_known _ _ Ht s Hs) as (b & Hb & Hb'). exists b. split; [apply elem_of_app; by left|done].
    + exists (static a). split; [apply elem_of_app; right; by apply list_elem_of_singleton|].
      split; [done|]. cbn. by rewrite Hpar.
  - intros b pid [Hb| ->%list_elem_of_singleton]%elem_of_app Ep.
    + destruct (tree_links _ _ Ht b pid Hb Ep) as (p & e & Hp & Epid & Hin & (t0 & g0 & c0 & L1 & L2 & L3 & L4 & L5 & L6 & L7 & L8)).
      exists p, e. split; [apply elem_of_app; by left|]. split; [done|]. split; [rewrite Ees; apply elem_of_app; by left|].
      exists t0, g0, c0. split_and!; try done. intros penv Hpe. apply L7.
      apply static_row in Hp as (p0 & Hp & ->). by apply (Hold p0 Hp).
    + exists (static issuer), env. cbn [parent_id static with_state] in Ep. split; [apply elem_of_app; left; by apply static_in|].
      split; [cbn; congruence|]. split; [rewrite Ees; apply elem_of_app; right; cbn; rewrite Hid; by apply list_elem_of_singleton|].
      exists t, g, c. cbn [policy_signer_fingerprint identity_uri namespace_scope authority_depth parent_id authority_id ca_cert_pem
        ca_fingerprint policy_signer_cert_pem static with_state].
      pose proof (latest_of db issuer Hok Hi) as Hlat. rewrite Hact in Hlat. specialize (Hlat ltac:(done)).
      unfold check_issuer_grant in Hchk. split_and!; try done.
      * intros Hroot. rewrite Hroot in Hlat. rewrite Hlat in Hchk. destruct (_ <=? _) eqn:El; [done|]. lia.
      * intros penv Hpe. apply (Hold issuer Hi) in Hpe. destruct (parent_id issuer) as [up|] eqn:Eup.
        -- destruct Hlat as (dp & Edp & Hdp). rewrite Edp in Hchk.
           rewrite (NoDup_fst_eq _ _ _ _ (tree_subjects _ _ Ht) Hpe Hdp). cbv zeta in Hchk.
           destruct (ditem (envelope_json dp) "signer_sha256") as [v|]; [|done]. cbn [exc_bind] in Hchk.
           destruct v as [| | | |fp| |]; try done.
           destruct (verify_grant_envelope _ fp t') as [[g' c']|] eqn:Ev; [|done]. cbn [exc_bind] in Hchk.
           exists t', fp, g', c'. split; [done|]. by destruct (grant_is_subset g g').
        -- exfalso. apply fst_in, (tree_known _ _ Ht) in Hpe as (b & Hb & Eb & Hp).
           apply static_row in Hb as (b0 & Hb & ->). apply Hp. cbn in Eb |- *.
           assert (NoDup (map authority_id (authorities db))) as Hn by (rewrite <- map_ids; apply (tree_ids _ _ Ht)).
           by rewrite (NoDup_map_eq authority_id _ b0 issuer Hn Hb Hi Eb).
  - intros b e Hb He Eb Hsb. rewrite Ea in Hb. rewrite Ed in He.
    apply elem_of_app in Hb as [Hb| ->%list_elem_of_singleton], He as [He| ->%list_elem_of_singleton]; try done.
    + by apply (Hl b e).
    + exfalso. apply Hnew. rewrite <- Hid, <- Eb. eapply fst_in, envelope_in, He.
Qed.

(** *** Every step *)
Lemma store_ids db : store_ok db -> NoDup (map authority_id (authorities db)).
Proof. intros [Ht _]. rewrite <- map_ids. apply (tree_ids _ _ Ht). Qed.

Lemma set_state_ok aid s db : store_ok db ->
  (forall a, a ∈ authorities db -> authority_id a = aid -> state a = decommissioned -> s = decommissioned) ->
  store_ok (set_state aid s db).
Proof.
  intros Hok Hs. pose proof Hok as [Ht Hl]. split; [by rewrite set_state_static|].
  apply set_state_live; [by apply store_ids|done|done].
Qed.

Lemma step_ok db db' : step db db' -> store_ok db -> store_ok db'.
Proof.
  intros [db1 env ca pol t t' t'' nid db2 a d E|db1 x db2 E|db1 x db2 E|db1 x db2 E|db1 ids creds revs] Hok.
  - by eapply accept_ok.
  - unfold quarantine_authority in E. destruct (_direct_child local db1 x) as [a|] eqn:Ec; [|done]. cbn [exc_bind] in E.
    apply direct_child_spec in Ec as (Ha & Hid & _). destruct (bool_decide _) eqn:Es; [done|]. injection E as <-.
    apply bool_decide_eq_false in Es. apply set_state_ok; [done|]. intros b Hb Eb Hd. destruct Es.
    by rewrite (NoDup_map_eq authority_id _ a b (store_ids _ Hok) Ha Hb (eq_trans Hid (eq_sym Eb))).
  - unfold restore_authority in E. destruct (_direct_child local db1 x) as [a|] eqn:Ec; [|done]. cbn [exc_bind] in E.
    apply direct_child_spec in Ec as (Ha & Hid & _). destruct (negb _) eqn:Es; [done|]. injection E as <-.
    apply negb_false_iff, bool_decide_eq_true in Es. apply set_state_ok; [done|]. intros b Hb Eb Hd.
    rewrite (NoDup_map_eq authority_id _ a b (store_ids _ Hok) Ha Hb (eq_trans Hid (eq_sym Eb))) in Es. congruence.
  - unfold decommission_authority in E. destruct (_direct_child local db1 x) as [a|]; [|done]. cbn [exc_bind] in E.
    destruct (bool_decide _); [done|]. cbv zeta in E. destruct (existsb _ _); [done|]. injection E as <-.
    pose proof (set_state_ok x decommissioned db1 Hok ltac:(done)) as [Ht Hl].
    pose proof (revoke_live x db1 Hl) as Hl'. split; [|exact Hl']. unfold envelopes, static_authorities in *.
    cbn [authorities delegations add_revocation]. 
    pose proof (revoke_envelopes x (set_state x decommissioned db1)) as Ee. unfold envelopes in Ee. by rewrite Ee.
  - done.
Qed.

(** A store that starts with anchors alone. *)
Definition anchors_only (db : database) : Prop :=
  delegations db = [] /\ NoDup (map authority_id (authorities db)) /\
  forall a, a ∈ authorities db -> parent_id a = None /\ authority_depth a <= 32.

Lemma anchors_ok db : anchors_only db -> store_ok db.
Proof.
  intros (Hd & Hn & Ha). unfold store_ok, envelopes, live. rewrite Hd. split; [constructor|].
  - by rewrite map_ids.
  - apply NoDup_nil_2.
  - by intros s ?%not_elem_of_nil.
  - intros a pid (b & Hb & ->)%static_row Hp. cbn in Hp. by rewrite (proj1 (Ha b Hb)) in Hp.
  - by intros a d _ ?%not_elem_of_nil.
Qed.

(** Anchors keep a depth the walk to the root can cover. *)
Definition shallow (db : database) : Prop := forall a, a ∈ authorities db -> authority_depth a <= 32.

Lemma verify_depth env fp t g c : verify_grant_envelope (VDict env) fp t = Ok (g, c) -> 0 <= max_delegation_depth g <= 32.
Proof. intros (Hv & _)%verify_grant_ok. by apply validated_ok. Qed.

Lemma shallow_step db db' : step db db' -> shallow db -> shallow db'.
Proof.
  intros [db1 env ca pol t t' t'' nid db2 a d E|db1 x db2 E|db1 x db2 E|db1 x db2 E|db1 ids creds revs] Hs.
  - apply accept_shape in E as (g & c & issuer & Hv & _ & _ & _ & _ & _ & _ & Ea & _ & _ & _ & _ & _ & Hdep & _).
    intros b. rewrite Ea. intros [Hb| ->%list_elem_of_singleton]%elem_of_app; [by apply Hs|]. rewrite Hdep.
    apply verify_depth in Hv. lia.
  - unfold quarantine_authority in E. destruct (_direct_child _ _ _); [|done]. cbn [exc_bind] in E.
    destruct (bool_decide _); [done|]. injection E as <-. intros b (b0 & <- & Hb)%list_elem_of_In%in_map_iff.
    apply list_elem_of_In in Hb. specialize (Hs b0 Hb). by destruct (String.eqb _ _).
  - unfold restore_authority in E. destruct (_direct_child _ _ _); [|done]. cbn [exc_bind] in E.
    destruct (negb _); [done|]. injection E as <-. intros b (b0 & <- & Hb)%list_elem_of_In%in_map_iff.
    apply list_elem_of_In in Hb. specialize (Hs b0 Hb). by destruct (String.eqb _ _).
  - unfold decommission_authority in E. destruct (_direct_child _ _ _); [|done]. cbn [exc_bind] in E.
    destruct (bool_decide _); [done|]. cbv zeta in E. destruct (existsb _ _); [done|]. injection E as <-.
    intros b (b0 & <- & Hb)%list_elem_of_In%in_map_iff.
    apply list_elem_of_In in Hb. specialize (Hs b0 Hb). by destruct (String.eqb _ _).
  - done.
Qed.

(** The parent of a row, with its link. *)
Lemma parent_row db a pid : store_ok db -> a ∈ authorities db -> parent_id a = Some pid ->
  exists p env, get_authority db pid = Some p /\ p ∈ authorities db /\ (authority_id a, env) ∈ envelopes db /\ link (envelopes db) p env a.
Proof.
  intros Hok Ha Hp. pose proof Hok as [Ht _].
  destruct (tree_links _ _ Ht (static a) pid (static_in db a Ha) Hp) as (p & env & Hin & Hid & He & Hlink).
  apply static_row in Hin as (p0 & Hin & ->). cbn in Hid. exists p0, env. split_and!; try done.
  unfold get_authority. destruct (List.find _ _) as [q|] eqn:Ef.
  - apply find_some in Ef as [Hq Eq%String.eqb_eq]. apply list_elem_of_In in Hq. f_equal.
    apply (NoDup_map_eq authority_id _ q p0 (store_ids _ Hok) Hq Hin). congruence.
  - apply list_elem_of_In in Hin. pose proof (find_none _ _ Ef p0 Hin) as Hf. cbn in Hf. by rewrite Hid, String.eqb_refl in Hf.
Qed.

Lemma link_depth db p env a : store_ok db -> p ∈ authorities db -> link (envelopes db) p env a ->
  0 <= authority_depth a < authority_depth p.
Proof.
  intros Hok Hp (t & g & c & Hv & _ & _ & _ & Hd & Hroot & Hsub & _). pose proof (verify_depth _ _ _ _ _ Hv) as Hr.
  rewrite Hd. split; [lia|]. destruct (parent_id p) as [pid|] eqn:Ep; [|by apply Hroot].
  destruct (parent_row db p pid Hok Hp Ep) as (pp & penv & _ & _ & Hin & (tp & gp & cp & Hvp & _ & _ & _ & Hdp & _)).
  destruct (Hsub penv Hin) as (t' & fp' & g' & c' & Hv' & Hs).
  destruct (verify_grant_same _ _ _ _ _ _ _ _ _ Hvp Hv') as [-> _]. rewrite Hdp.
  apply grant_is_subset_narrower in Hs; [by apply narrower_depth| |]; by eapply verify_grant_ok.
Qed.

Lemma climb_ok db a room : store_ok db -> shallow db -> a ∈ authorities db -> 32 <= authority_depth a + Z.of_nat room ->
  exists lineage, climb room db a = Ok lineage.
Proof.
  intros Hok Hsh. revert a. induction room as [|room IH]; intros a Ha Hr; cbn [climb];
    (destruct (parent_id a) as [pid|] eqn:Ep; [|by eexists]);
    destruct (parent_row db a pid Hok Ha Ep) as (p & env & Hg & Hp & _ & Hlink);
    pose proof (link_depth db p env a Hok Hp Hlink) as Hd; pose proof (Hsh p Hp).
  - lia.
  - rewrite Hg. destruct (IH p Hp ltac:(lia)) as [l ->]. by eexists.
Qed.

(** ** Exported proofs *)

(** One authority directly below another. *)
Definition below (db : database) (p b : TrustAuthority) : Prop :=
  p ∈ authorities db /\ b ∈ authorities db /\ parent_id b = Some (authority_id p) /\
  exists env, (authority_id b, env) ∈ envelopes db /\ link (envelopes db) p env b.

Fixpoint path (db : database) (p : TrustAuthority) (bs : list TrustAuthority) (a : TrustAuthority) : Prop :=
  match bs with
  | [] => p = a
  | b :: bs' => below db p b /\ path db b bs' a
  end.

Lemma path_snoc db p bs q a : path db p bs q -> below db q a -> path db p (bs ++ [a]) a.
Proof. revert p. induction bs as [|b bs IH]; intros p; cbn; [by intros -> Hb|]. intros [Hb Hp] Ha. split; [done|by apply IH]. Qed.

Lemma climb_path db room a l : store_ok db -> a ∈ authorities db -> climb room db a = Ok l ->
  exists root bs, rev l = root :: bs /\ parent_id root = None /\ root ∈ authorities db /\ path db root bs a /\
    (length l <= S room)%nat.
Proof.
  intros Hok. revert a l. induction room as [|room IH]; intros a l Ha; cbn [climb];
    (destruct (parent_id a) as [pid|] eqn:Ep; [|intros [= <-]; exists a, []; cbn; split_and!; [done..|lia]]); [done|].
  destruct (parent_row db a pid Hok Ha Ep) as (p & env & Hg & Hp & Hin & Hlink). rewrite Hg.
  destruct (climb room db p) as [l'|] eqn:El; [|done]. cbn [exc_bind]. intros [= <-].
  destruct (IH p l' Hp El) as (root & bs & Er & Hr & Hroot & Hpath & Hlen). exists root, (bs ++ [a]). cbn [rev].
  rewrite Er. split_and!; try done; [|cbn; lia]. apply (path_snoc _ _ _ p); [done|]. split_and!; [done..| |by exists env].
  rewrite Ep. f_equal. unfold get_authority in Hg. apply find_some in Hg as [_ Hg%String.eqb_eq]. by rewrite Hg.
Qed.

(** The authority and its certificates are good at this time, and the envelope
    it was made with verifies. *)
Record valid_at (revoked : list string) (now : Z) (db : database) (p b : TrustAuthority) : Prop := {
  va_state : state b <> decommissioned;
  va_signer : policy_signer_fingerprint b <> "" /\ policy_signer_cert_pem b <> "";
  va_size : Z.of_nat (String.length (ca_cert_pem b)) <= _MAX_CERTIFICATE_BYTES /\
            Z.of_nat (String.length (policy_signer_cert_pem b)) <= _MAX_CERTIFICATE_BYTES;
  va_revoked : selem (identity_uri b) revoked = false /\ selem (ca_fingerprint b) revoked = false /\
               selem (policy_signer_fingerprint b) revoked = false;
  va_envelope env : (authority_id b, env) ∈ envelopes db ->
    exists g c, verify_grant_envelope (VDict env) (policy_signer_fingerprint p) now = Ok (g, c);
  va_certificates c : load_pem (ca_cert_pem b) = Some c \/ load_pem (policy_signer_cert_pem b) = Some c ->
    not_valid_before c <= now < not_valid_after c;
}.

(** What the verifier knows of an authority it has accepted. *)
Definition represents (db : database) (p : TrustAuthority) (v : VerifiedAuthority) : Prop :=
  v_identity_uri v = identity_uri p /\ v_policy_signer_fingerprint v = policy_signer_fingerprint p /\
  v_ca_cert_pem v = ca_cert_pem p /\ v_max_delegation_depth v = authority_depth p /\
  v_namespace_scope v = namespace_scope p /\
  match parent_id p with
  | None => effective_grant v = None
  | Some _ => exists env fp t g c, (authority_id p, env) ∈ envelopes db /\
      verify_grant_envelope (VDict env) fp t = Ok (g, c) /\ effective_grant v = Some g
  end.

Lemma verify_grant_time env fp t g c : verify_grant_envelope (VDict env) fp t = Ok (g, c) -> not_before g <= t < not_after g.
Proof. by intros (_ & Ht & _)%verify_grant_ok. Qed.

Lemma exported_step db revoked now p b v :
  store_ok db -> below db p b -> represents db p v -> valid_at revoked now db p b ->
  exists st v', export_step db b = Ok st /\ check_step revoked now v st = Ok v' /\ represents db b v'.
Proof.
  intros Hok (Hp & Hb & Hpar & env & Hin & Hlink) (V1 & V2 & V3 & V4 & V5 & V6) [S1 [S2 S3] [S4 S5] (R1 & R2 & R3) Henv Hcert].
  pose proof Hok as [Ht _]. pose proof (latest_of db b Hok Hb S1) as Hlat. rewrite Hpar in Hlat.
  destruct Hlat as (d & Hd & Hdin). pose proof (NoDup_fst_eq _ _ _ _ (tree_subjects _ _ Ht) Hin Hdin) as ->.
  destruct (Henv _ Hdin) as (g & c & Hv).
  destruct Hlink as (t0 & g0 & c0 & L0 & L1 & L2 & L3 & L4 & L5 & L6 & ca & issuer_ca & C1 & C2 & C3 & C4 & C5 & C6 & Cp).
  destruct (verify_grant_same _ _ _ _ _ _ _ _ _ Hv L0) as [<- <-].
  destruct (Cp S2) as (policy & P1 & P2 & P3 & P4).
  unfold export_step, text_or_null. rewrite Hd, (proj2 (String.eqb_neq _ _) S3). eexists. eexists. split; [done|].
  unfold check_step. change (has_shape (VDict _) step_keys) with (Some
    [("delegation_envelope"%py, VDict (envelope_json d)); ("subject_ca_certificate"%py, VStr (ca_cert_pem b));
     ("subject_policy_signer_certificate"%py, VStr (policy_signer_cert_pem b))]).
  cbn [dget_or dget String.eqb Ascii.eqb Bool.eqb default].
  rewrite (proj2 (Z.ltb_ge _ _) S4), (proj2 (Z.ltb_ge _ _) S5). cbn [orb]. rewrite V2, Hv. cbn [exc_bind].
  rewrite L1, V1, String.eqb_refl. cbn [negb].
  assert (match effective_grant v with Some held => negb (grant_is_subset g held)
          | None => v_max_delegation_depth v <=? max_delegation_depth g end = false) as ->.
  { destruct (parent_id p) as [pp|] eqn:Epp.
    - destruct V6 as (penv & fp & tp & gp & cp & Hpin & Hpv & ->). apply negb_false_iff.
      destruct (L6 penv Hpin) as (t' & fp' & g' & c' & Hv' & Hs).
      by destruct (verify_grant_same _ _ _ _ _ _ _ _ _ Hpv Hv') as [-> _].
    - rewrite V6, V4. apply Z.leb_gt. by apply L5. }
  rewrite V3, C1, P1, C2, C3, P2. cbn [exc_bind]. rewrite C4. cbn [exc_bind]. rewrite P3. cbn [exc_bind]. cbv zeta.
  rewrite C5, String.eqb_refl. cbn [negb]. rewrite L2, R1, <- C5, <- C6, R2, <- P4, R3. cbn [orb].
  pose proof (Hcert ca (or_introl C1)) as Hca. pose proof (Hcert policy (or_intror P1)) as Hpo.
  pose proof (verify_grant_time _ _ _ _ _ Hv) as Hgt.
  rewrite (proj2 (Z.ltb_ge _ _) (proj1 Hca)), (proj2 (Z.ltb_ge _ _) (proj1 Hpo)). cbn [orb].
  assert ((Z.min (Z.min (not_after g) (not_valid_after ca)) (not_valid_after policy) <=? now) = false) as ->
    by (apply Z.leb_gt; lia).
  split; [reflexivity|]. unfold represents. cbn [v_identity_uri v_policy_signer_fingerprint v_ca_cert_pem v_max_delegation_depth
    v_namespace_scope effective_grant]. rewrite Hpar. split_and!; try done.
  exists (envelope_json d), (policy_signer_fingerprint p), now, g, c. done.
Qed.

Lemma exported_steps db revoked now p bs a v :
  store_ok db -> path db p bs a -> represents db p v ->
  (forall q b, b ∈ bs -> below db q b -> valid_at revoked now db q b) ->
  exists steps v', exc_map (export_step db) bs = Ok steps /\ check_steps revoked now v steps = Ok v' /\ represents db a v' /\
    length steps = length bs.
Proof.
  intros Hok. revert p v. induction bs as [|b bs IH]; intros p v Hp Hr Hva; cbn in Hp.
  { subst p. exists [], v. done. }
  destruct Hp as [Hb Hp]. destruct (exported_step db revoked now p b v Hok Hb Hr) as (st & v1 & E1 & E2 & Hr1).
  { apply Hva; [by left|done]. }
  destruct (IH b v1 Hp Hr1) as (steps & v2 & E3 & E4 & Hr2 & Hl); [intros q c Hc; apply Hva; by right|].
  exists (st :: steps), v2. cbn [exc_map check_steps]. rewrite E1. cbn [exc_bind]. rewrite E3. cbn [exc_bind]. rewrite E2.
  cbn [exc_bind length]. by rewrite Hl.
Qed.

(** The verifier takes an exported anchor and goes to the steps. *)
Lemma accept_exported root steps revoked now v' :
  state root = active -> policy_signer_fingerprint root <> "" -> policy_signer_cert_pem root <> "" ->
  selem (identity_uri root) revoked = false -> selem (ca_fingerprint root) revoked = false -> now < authority_not_after root ->
  1 <= len steps < 33 ->
  check_steps revoked now
    {| v_identity_uri := identity_uri root; v_namespace_scope := namespace_scope root;
       v_ca_fingerprint := ca_fingerprint root; v_ca_cert_pem := ca_cert_pem root;
       v_policy_signer_fingerprint := policy_signer_fingerprint root; v_policy_signer_cert_pem := policy_signer_cert_pem root;
       v_max_delegation_depth := authority_depth root; v_not_after := authority_not_after root; effective_grant := None |}
    steps = Ok v' ->
  verify_trust_chain (VDict [("schema"%py, VStr "efdi.trust-chain/v1"); ("anchor"%py, export_anchor root); ("steps"%py, VList steps)])
    root revoked now = Ok v'.
Proof.
  intros R1 R2 R3 R4 R5 R6 Hl Hc. unfold verify_trust_chain.
  change (has_shape (VDict [("schema"%py, VStr "efdi.trust-chain/v1"); ("anchor"%py, export_anchor root); ("steps"%py, VList steps)])
    ["schema"%py; "anchor"%py; "steps"%py]) with
    (Some [("schema"%py, VStr "efdi.trust-chain/v1"); ("anchor"%py, export_anchor root); ("steps"%py, VList steps)]).
  cbn [dget_or dget String.eqb Ascii.eqb Bool.eqb default is_text negb].
  unfold export_anchor, text_or_null. rewrite (proj2 (String.eqb_neq _ _) R2), (proj2 (String.eqb_neq _ _) R3).
  match goal with |- context [has_shape (VDict ?d) anchor_keys] => change (has_shape (VDict d) anchor_keys) with (Some d) end.
  unfold anchor_trusted. cbn [dget_or dget String.eqb Ascii.eqb Bool.eqb default is_text is_number].
  rewrite !String.eqb_refl, Z.eqb_refl. cbn [andb negb].
  unfold _MAX_TRUST_CHAIN_DEPTH. rewrite (proj2 (Z.leb_le 1 _)), (proj2 (Z.ltb_lt _ 33)) by lia. cbn [andb negb].
  rewrite R1, R4, R5, (proj2 (Z.leb_gt _ _) R6). cbn [orb negb bool_decide].
  unfold _authority_record. rewrite (proj2 (String.eqb_neq _ _) R2), (proj2 (String.eqb_neq _ _) R3). cbn [orb exc_bind]. done.
Qed.

(** The authorities from one up to its anchor. *)
Definition lineage (db : database) (a : TrustAuthority) : list TrustAuthority :=
  match climb (Z.to_nat (_MAX_TRUST_CHAIN_DEPTH - 1)) db a with Ok l => l | Raise _ => [] end.

(** C5: the proof a store exports for an authority is accepted by every router
    that trusts the authority's anchor, as a proof of exactly that authority,
    scope and depth, for as long as the authorities on the way are in force:
    whatever the store has been through, the walk to the anchor ends within the
    bound, and of the many checks of the verifier only those of time and of
    revocation can fail. *)
Theorem exported_proof_accepted db0 db a revoked now :
  anchors_only db0 -> rtc step db0 db -> a ∈ authorities db -> parent_id a <> None ->
  (forall p b, b ∈ lineage db a -> below db p b -> valid_at revoked now db p b) ->
  (forall root, root ∈ lineage db a -> parent_id root = None ->
     state root = active /\ policy_signer_fingerprint root <> "" /\ policy_signer_cert_pem root <> "" /\
     selem (identity_uri root) revoked = false /\ selem (ca_fingerprint root) revoked = false /\
     now < authority_not_after root) ->
  exists root proof v,
    root ∈ lineage db a /\ parent_id root = None /\ export_trust_chain db a = Ok proof /\
    verify_trust_chain proof root revoked now = Ok v /\ v_identity_uri v = identity_uri a /\
    v_namespace_scope v = namespace_scope a /\ v_max_delegation_depth v = authority_depth a.
Proof.
  intros H0 Hsteps Ha Hpar Hva Hroot.
  assert (store_ok db /\ shallow db) as [Hok Hsh].
  { pose proof (anchors_ok db0 H0) as Hok. assert (shallow db0) as Hsh by (intros b Hb; by apply (proj2 (proj2 H0) b Hb)).
    clear -Hsteps Hok Hsh. induction Hsteps as [|x y z Hxy _ IH]; [done|]. apply IH; [by eapply step_ok|by eapply shallow_step]. }
  assert (0 <= authority_depth a) as Hda.
  { destruct (parent_id a) as [pid|] eqn:Ep; [|done]. destruct (parent_row db a pid Hok Ha Ep) as (p & env & _ & Hp & _ & Hl).
    apply (link_depth db p env a Hok Hp Hl). }
  destruct (climb_ok db a (Z.to_nat (_MAX_TRUST_CHAIN_DEPTH - 1)) Hok Hsh Ha) as [l Hl]; [unfold _MAX_TRUST_CHAIN_DEPTH; lia|].
  assert (lineage db a = l) as El by (unfold lineage; by rewrite Hl). rewrite El in *.
  destruct (climb_path db _ a l Hok Ha Hl) as (root & bs & Er & Hrp & Hr & Hpath & Hlen).
  assert (forall x, x ∈ root :: bs -> x ∈ l) as Hin.
  { intros x Hx. rewrite <- Er in Hx. by rewrite <- Permutation_rev in Hx. }
  destruct (Hroot root (Hin root ltac:(by left)) Hrp) as (R1 & R2 & R3 & R4 & R5 & R6).
  set (v := {| v_identity_uri := identity_uri root; v_namespace_scope := namespace_scope root;
               v_ca_fingerprint := ca_fingerprint root; v_ca_cert_pem := ca_cert_pem root;
               v_policy_signer_fingerprint := policy_signer_fingerprint root;
               v_policy_signer_cert_pem := policy_signer_cert_pem root;
               v_max_delegation_depth := authority_depth root; v_not_after := authority_not_after root;
               effective_grant := None |}).
  destruct (exported_steps db revoked now root bs a v Hok Hpath) as (steps & v' & E1 & E2 & (V1 & _ & _ & V4 & V5 & _) & Hlen2).
  { unfold represents. rewrite Hrp. by split_and!. }
  { intros q b Hb. apply Hva, Hin. by right. }
  exists root. eexists. exists v'. split; [apply Hin; by left|]. split; [done|]. unfold export_trust_chain. rewrite Hl. cbn [exc_bind].
  rewrite Er, E1. cbn [exc_bind]. split; [reflexivity|]. split; [|done].
  assert (1 <= len steps < 33) as Hsteplen.
  { apply (f_equal length) in Er. rewrite length_rev in Er. cbn in Er. unfold len. rewrite Hlen2.
    destruct bs as [|b bs]; [cbn in Hpath; congruence|]. cbn [length] in *.
    change (S (Z.to_nat (_MAX_TRUST_CHAIN_DEPTH - 1))) with 33%nat in Hlen. lia. }
  by apply accept_exported.
Qed.
End Tree.

(** ** A site with one child *)
Definition site_start : database := {|
  authorities := [plain_anchor]; delegations := []; identities := []; credentials := []; revocations := []; revisions := [] |}.

Definition site_db : database :=
  match @accept_delegation plain_pki site_start (plain_envelope 0 "LTU/a/**") (plain_pem 2) (Some (plain_pem 3)) 50 50 50 "child-a" with
  | Ok (db, _, _) => {|
      authorities := authorities db; delegations := delegations db;
      identities := [{| i_authority_id := "child-a"; profile := "transport"; certificate_pem := plain_pem 9; i_active := true; issued_at := 50 |}];
      credentials := [{| l_authority_id := "child-a"; l_username := "link-a"; l_active := true; created_at := 50 |}];
      revocations := revocations db; revisions := revisions db |}
  | Raise _ => site_start
  end.

(** The child of the site. *)
Definition site_child : TrustAuthority := nth 1 (authorities site_db) plain_anchor.

Lemma site_reached : rtc (@store_step plain_pki plain_anchor) site_start site_db.
Proof.
  destruct (@accept_delegation plain_pki site_start (plain_envelope 0 "LTU/a/**") (plain_pem 2) (Some (plain_pem 3)) 50 50 50
    "child-a") as [[[db a] d]|] eqn:Hr; [|vm_compute in Hr; discriminate].
  eapply rtc_l; [exact (@step_accept plain_pki _ _ _ _ _ _ _ _ _ _ _ _ Hr)|]. apply rtc_once.
  unfold site_db. rewrite Hr. exact (@step_rows plain_pki _ db _ _ (revisions db)).
Qed.

Lemma site_child_valid : @valid_at plain_pki [] 50 site_db plain_anchor site_child.
Proof.
  constructor; try by vm_compute.
  - intros env He. vm_compute in He. apply list_elem_of_singleton in He. injection He as ->.
    do 2 eexists. vm_compute. reflexivity.
Qed.

Lemma exported_proof_accepted_witness :
  exists root proof v,
    @export_trust_chain plain_pki site_db site_child = Ok proof /\
    @verify_trust_chain plain_pki proof root [] 50 = Ok v /\ v_namespace_scope v = "LTU/a/**"%py.
Proof.
  destruct (@exported_proof_accepted plain_pki plain_anchor site_start site_db site_child [] 50)
    as (root & proof & v & _ & _ & Hp & Hv & _ & Hn & _).
  - split; [done|]. split; [apply (bool_decide_unpack _); vm_compute; exact I|].
    intros b ->%list_elem_of_singleton. by vm_compute.
  - exact site_reached.
  - vm_compute. right. left.
  - by vm_compute.
  - intros p b Hb (Hp & _ & Hpar & _).
    assert (b = site_child) as ->.
    { vm_compute in Hb. apply elem_of_cons in Hb as [->|Hb]; [reflexivity|]. apply list_elem_of_singleton in Hb as ->. done. }
    assert (p = plain_anchor) as ->.
    { vm_compute in Hp. apply elem_of_cons in Hp as [->|Hp]; [reflexivity|]. by apply list_elem_of_singleton in Hp as ->. }
    apply site_child_valid.
  - intros root Hr Hn. assert (root = plain_anchor) as ->.
    { vm_compute in Hr. apply elem_of_cons in Hr as [->|Hr]; [by vm_compute in Hn|]. by apply list_elem_of_singleton in Hr. }
    repeat split; vm_compute; done.
  - exists root, proof, v. split; [exact Hp|]. split; [exact Hv|]. rewrite Hn. by vm_compute.
Defined.

Definition site_fields : ConfigFields := {|
  fabric_endpoints := []; publish_prefix := "LTU"; partner_namespace := ""; inbound_namespace := "LTU/in/";
  namespace_prefix := "LTU" |}.
Definition site_secrets : secrets := {|
  children_secrets := [("child-a"%py, {| secret_username := "link-a"; secret_password := "x" |})]; parent_secret := None;
  local_secret := {| secret_username := "local-1"; secret_password := "y" |} |}.
Definition site_digest (d : acl) : string := String.concat " " (map rule_id (acl_rules d)).

Definition site_apply (db : database) (file : option string) (now : Z) (result : bool) : exc (database * option string) :=
  @apply_acl plain_pki None site_fields site_secrets plain_anchor site_digest db file now result.

(** The runs, or where they stop. *)
Definition get {A} (x : exc A) (dflt : A) : A := match x with Ok a => a | Raise _ => dflt end.
Definition applied_once : database * option string := get (site_apply site_db None 50 true) (site_start, None).
Definition shut : database := get (quarantine_authority plain_anchor (fst applied_once) "child-a") site_start.
Definition applied_twice : database * option string := get (site_apply shut (snd applied_once) 51 true) (site_start, None).
Definition reopened : database := get (restore_authority plain_anchor (fst applied_twice) "child-a") site_start.
Definition recompiled : compiled :=
  get (@compile_current_policy plain_pki None site_fields site_secrets plain_anchor reopened 52)
    {| access_control := local_acl "" "" ""; peers := []; dictionary := ""; outbound := None |}.

Lemma quarantine_outlasts_restore_witness :
  site_apply reopened (snd applied_twice) 52 true = Raise IntegrityError.
Proof.
  apply (@quarantine_outlasts_restore plain_pki plain_anchor None site_fields site_secrets site_digest "child-a" site_db None
    50 true (fst applied_once) (snd applied_once) shut 51 true (fst applied_twice) (snd applied_twice) reopened 52 true recompiled);
    try (vm_compute; reflexivity).
  - apply (bool_decide_unpack _). vm_compute. exact I.
  - intros a. vm_compute. by intros [= <-].
Defined.

Lemma decommission_freezes_acl_witness :
  exists db', decommission_authority plain_anchor site_db "child-a" = Ok db' /\
  site_apply site_db None 50 true = Ok applied_once /\
  site_apply db' None 50 true = Raise (HTTPException 409).
Proof.
  eexists. split; [vm_compute; reflexivity|]. split; [vm_compute; reflexivity|].
  eapply (@decommission_freezes_acl plain_pki plain_anchor None site_fields site_secrets site_digest site_db "child-a");
    [vm_compute; reflexivity|apply rtc_refl].
Defined.
