(* ===== verification/Cat001.v ===== *)
(** * CAT-001: monoradar plots and tracks

    cat.py:98-577. One frame holds one record; its items after FRN 2 depend on
    whether it is a track. *)

From S2P Require Import Prelude PyFloat PyData Schema Ranges Cursor Safety Contract AsterixCommon.

Definition _cat1_TOPIC_TRACK (root source : string) : string :=
  root +:+ "/air/" +:+ source +:+ "/radar/unknown/aircraft".
Definition _cat1_parse_fspec := parse_fspec.
Definition _cat1__skip_len_field := skip_len_field.
Definition _cat1__u16 := u16.
Definition _cat1__s16 := s16.
Definition _cat1__polar_to_wgs84 `{Libm} := polar_to_wgs84.
Definition _cat1__cartesian_to_wgs84 `{Libm} := cartesian_to_wgs84.

(** cat.py:135-135 *)
Definition _cat1_CAT_001 : Z := 1.
(** cat.py:137-137 *)
Definition _cat1__SSR_PSR : table :=
  [(0, "no_detection"); (1, "sole_primary"); (2, "sole_secondary"); (3, "combined")].
(** cat.py:138-138 *)
Definition _cat1__EMERGENCY : table :=
  [(0, "none"); (1, "unlawful_interference"); (2, "radio_failure"); (3, "emergency")].
(** cat.py:139-145 *)
Definition _cat1__WARNING_CODES : table :=
  [(0, "none"); (1, "garbled_reply"); (2, "reflection"); (3, "sidelobe_reply"); (4, "split_plot");
   (5, "second_time_around_reply"); (6, "angels"); (7, "terrestrial_vehicles");
   (64, "possible_wrong_mode3a"); (65, "possible_wrong_altitude");
   (66, "possible_phantom_mssr_plot"); (80, "fixed_psr_plot"); (81, "slow_psr_plot");
   (82, "low_quality_psr_plot")].
(** cat.py:147-148 *)
Definition _cat1__CONF_PULSES_ABCD : list string :=
  ["qa4"; "qa2"; "qa1"; "qb4"; "qb2"; "qb1"; "qc4"; "qc2"; "qc1"; "qd4"; "qd2"; "qd1"].
(** cat.py:150-151 *)
Definition _cat1__CONF_PULSES_MODEC : list string :=
  ["qc1"; "qa1"; "qc2"; "qa2"; "qc4"; "qa4"; "qb1"; "qd1"; "qb2"; "qd2"; "qb4"; "qd4"].
(** cat.py:314-315 *)
Definition _cat1__PLOT_ITEMS : list string :=
  ["040"; "070"; "090"; "raw130"; "141"; "050"; "120"; "131"; "080"; "100"; "060"; "raw030"; "150"].
(** cat.py:316-318 *)
Definition _cat1__TRACK_ITEMS : list string :=
  ["161"; "040"; "042"; "200"; "070"; "090"; "141"; "raw130"; "131"; "120"; "170"; "raw210"; "050";
   "080"; "100"; "060"; "raw030"].
Definition _cat1__decode_020_schema : schema :=
  [("is_track", TBool); ("simulated", TBool);
   ("ssr_psr", TOneOf ("undefined" :: map snd _cat1__SSR_PSR)); ("antenna", TInt 1 2);
   ("spi", TBool); ("fixed_transponder", TBool); ("test_target", TBool);
   ("emergency", TOneOf ("undefined" :: map snd _cat1__EMERGENCY)); ("military_emergency", TBool);
   ("military_id", TBool)].

(** cat.py:231-258 *)
Definition _cat1__decode_020 (data : bytes) (pos : Z) (msg : dict) : exc (dict * Z) :=
  run (
    need data 1 (return_ (fun pos msg => (msg, pos))) ;;
    b1 <- at_ data 0 ;;
    adv 1 ;;
    set_ "is_track" (VBool (bit b1 0x80)) ;;
    set_ "simulated" (VBool (bit b1 0x40)) ;;
    set_ "ssr_psr" (VStr (tget_or _cat1__SSR_PSR (Z.land (Z.shiftr b1 4) 0x03) "undefined")) ;;
    set_ "antenna" (VInt (if bit b1 0x08 then 2 else 1)) ;;
    set_ "spi" (VBool (bit b1 0x04)) ;;
    set_ "fixed_transponder" (VBool (bit b1 0x02)) ;;
    when (negb (bit b1 0x01)) (return_ (fun pos msg => (msg, pos))) ;;
    need data 1 (return_ (fun pos msg => (msg, pos))) ;;
    b2 <- at_ data 0 ;;
    adv 1 ;;
    set_ "test_target" (VBool (bit b2 0x80)) ;;
    set_ "emergency" (VStr (tget_or _cat1__EMERGENCY (Z.land (Z.shiftr b2 5) 0x03) "undefined")) ;;
    set_ "military_emergency" (VBool (bit b2 0x08)) ;;
    set_ "military_id" (VBool (bit b2 0x04)) ;;
    when (negb (bit b2 0x01)) (return_ (fun pos msg => (msg, pos))) ;;
    need data 1 (return_ (fun pos msg => (msg, pos))) ;;
    adv 1 ;;
    return_ (fun pos msg => (msg, pos))) pos msg.

Definition _cat1__decode_polar (data : bytes) (pos : Z) : exc (option (float * float * Z)) :=
  run (
    need data 4 (return_ (fun _ _ => None)) ;;
    v1 <- on_slice data 0 2 _cat1__u16 ;;
    let rho := fdiv_raw (fl v1) (fl 128) in
    v2 <- on_slice data 2 4 _cat1__u16 ;;
    let theta := fmul (fl v2) (fdiv_raw (fl 360) (fl 65536)) in
    return_ (fun pos _ => Some (py_round rho 4, py_round theta 4, pos + 4))) pos [].

Definition _cat1__decode_mode_code (data : bytes) (pos : Z) : exc (option (bool * bool * bool * Z * Z)) :=
  run (
    need data 2 (return_ (fun _ _ => None)) ;;
    b1 <- at_ data 0 ;;
    b2 <- at_ data 1 ;;
    let v := bit b1 0x80 in
    let g := bit b1 0x40 in
    let l := bit b1 0x20 in
    let code12 := Z.lor (Z.shiftl (Z.land b1 0x0F) 8) b2 in
    return_ (fun pos _ => Some (v, g, l, code12, pos + 2))) pos [].

Definition _cat1__decode_confidence12 (data : bytes) (pos : Z) (pulse_order : list string) :
    exc (option (dict * Z)) :=
  run (
    need data 2 (return_ (fun _ _ => None)) ;;
    v <- on_slice data 0 2 _cat1__u16 ;;
    let raw := Z.land v 0x0FFF in
    return_ (fun pos _ => Some (pulse_quality pulse_order raw, pos + 2))) pos [].

Definition _cat1__decode_repetitive := decode_fx_repetitive.

Definition _cat1_decode_cat001_schema : schema :=
  [("track_num", TInt 0 65535); ("rho_nm", TFloat); ("theta_deg", TFloat); ("x_nm", TFloat);
   ("y_nm", TFloat); ("speed_ms", TFloat); ("heading_deg", TFloat); ("mode3a_squawk", TStr);
   ("mode3a_validated", TBool); ("mode3a_garbled", TBool); ("mode3a_smoothed", TBool);
   ("mode2_squawk", TStr); ("mode2_validated", TBool); ("mode2_garbled", TBool);
   ("mode2_smoothed", TBool); ("alt_baro_ft", TFloat); ("altitude_validated", TBool);
   ("altitude_garbled", TBool); ("tod_trunc_s", TFloat); ("doppler_speed_ms", TFloat);
   ("received_power_dbm", TInt (-128) 127); ("mode3a_confidence", TDict conf_schema);
   ("mode2_confidence", TDict conf_schema); ("mode_c_gray_code", TInt 0 4095);
   ("mode_c_validated", TBool); ("mode_c_garbled", TBool); ("mode_c_confidence", TDict conf_schema);
   ("confirmed", TBool); ("radar_type", TOneOf ["ssr_combined"; "primary"]); ("maneuvering", TBool);
   ("doubtful_association", TBool); ("rdp_chain", TInt 1 2); ("ghost_track", TBool);
   ("x_pulse_mode3a", TBool); ("x_pulse_modec", TBool); ("x_pulse_mode2", TBool);
   ("warnings", TList TStr); ("plot_characteristics_raw", TList (TInt 0 127));
   ("track_quality_raw", TList (TInt 0 127)); ("sac", TInt 0 255); ("sic", TInt 0 255);
   ("lat_deg", TFloat); ("lon_deg", TFloat)] ++ _cat1__decode_020_schema.

Section Cat001.
Context `{Libm} (site_lat site_lon : option float).


Definition _cat1_decode_cat001_item (data : bytes) (tag : string) : cur (option dict) unit :=
  if String.eqb tag "161" then
    need data 2 break_ ;;
    v1 <- on_slice data 0 2 _cat1__u16 ;;
    set_ "track_num" (VInt v1) ;;
    adv 2
  else if String.eqb tag "040" then
    r <- call_opt (_cat1__decode_polar data) break_ ;;
    let '(x0, x1) := r in
    set_ "rho_nm" (VFloat x0) ;;
    set_ "theta_deg" (VFloat x1) ;;
    match site_lat, site_lon with
    | Some lat0, Some lon0 =>
        p <- lift (_cat1__polar_to_wgs84 lat0 lon0 x0 x1) ;;
        let '(lat, lon) := p in
        setdefault_ "lat_deg" (VFloat (py_round lat 7)) ;;
        setdefault_ "lon_deg" (VFloat (py_round lon 7))
    | _, _ => skip
    end
  else if String.eqb tag "042" then
    need data 4 break_ ;;
    v2 <- on_slice data 0 2 _cat1__s16 ;;
    let x_nm := py_round (fdiv_raw (fl v2) (fl 64)) 4 in
    v3 <- on_slice data 2 4 _cat1__s16 ;;
    let y_nm := py_round (fdiv_raw (fl v3) (fl 64)) 4 in
    set_ "x_nm" (VFloat x_nm) ;;
    set_ "y_nm" (VFloat y_nm) ;;
    adv 4 ;;
    match site_lat, site_lon with
    | Some lat0, Some lon0 =>
        p <- lift (_cat1__cartesian_to_wgs84 lat0 lon0 (fmul x_nm (fl 1852)) (fmul y_nm (fl 1852))) ;;
        let '(lat, lon) := p in
        setdefault_ "lat_deg" (VFloat (py_round lat 7)) ;;
        setdefault_ "lon_deg" (VFloat (py_round lon 7))
    | _, _ => skip
    end
  else if String.eqb tag "200" then
    need data 4 break_ ;;
    gsp_raw <- on_slice data 0 2 _cat1__u16 ;;
    set_ "speed_ms" (VFloat (py_round (fmul (fdiv_raw (fl gsp_raw) (fl 16384)) (fl 1852)) 3)) ;;
    v5 <- on_slice data 2 4 _cat1__u16 ;;
    set_ "heading_deg" (VFloat (py_round (fmul (fl v5) (fdiv_raw (fl 360) (fl 65536))) 4)) ;;
    adv 4
  else if String.eqb tag "070" || String.eqb tag "050" then
    r <- call_opt (_cat1__decode_mode_code data) break_ ;;
    let '(v, g, l, code12) := r in
    let prefix := if String.eqb tag "070" then "mode3a" else "mode2" in
    set_ (prefix +:+ "_squawk") (VStr (fmt_o 4 code12)) ;;
    set_ (prefix +:+ "_validated") (VBool (negb v)) ;;
    set_ (prefix +:+ "_garbled") (VBool g) ;;
    set_ (prefix +:+ "_smoothed") (VBool l)
  else if String.eqb tag "090" then
    need data 2 break_ ;;
    b1 <- at_ data 0 ;;
    b2 <- at_ data 1 ;;
    let v := bit b1 0x80 in
    let g := bit b1 0x40 in
    let raw14 := Z.lor (Z.shiftl (Z.land b1 0x3F) 8) b2 in
    let raw14 := if bit raw14 0x2000 then raw14 - (Z.shiftl 1 14) else raw14 in
    set_ "alt_baro_ft" (VFloat (py_round (fmul (fmul (fl raw14) (dec 25 2)) (fl 100)) 1)) ;;
    set_ "altitude_validated" (VBool (negb v)) ;;
    set_ "altitude_garbled" (VBool g) ;;
    adv 2
  else if String.eqb tag "141" then
    need data 2 break_ ;;
    v6 <- on_slice data 0 2 _cat1__u16 ;;
    set_ "tod_trunc_s" (VFloat (py_round (fdiv_raw (fl v6) (fl 128)) 4)) ;;
    adv 2
  else if String.eqb tag "120" then
    need data 1 break_ ;;
    b7 <- at_ data 0 ;;
    let raw := sign_extend 8 b7 in
    set_ "doppler_speed_ms" (VFloat (py_round (fmul (fdiv_raw (fl raw) (fl 256)) (fl 1852)) 3)) ;;
    adv 1
  else if String.eqb tag "131" then
    need data 1 break_ ;;
    b8 <- at_ data 0 ;;
    set_ "received_power_dbm" (VInt (sign_extend 8 b8)) ;;
    adv 1
  else if String.eqb tag "080" then
    x <- call_opt (fun pos => _cat1__decode_confidence12 data pos _cat1__CONF_PULSES_ABCD) break_ ;;
    set_ "mode3a_confidence" (VDict x)
  else if String.eqb tag "060" then
    x <- call_opt (fun pos => _cat1__decode_confidence12 data pos _cat1__CONF_PULSES_ABCD) break_ ;;
    set_ "mode2_confidence" (VDict x)
  else if String.eqb tag "100" then
    need data 3 break_ ;;
    b1 <- at_ data 0 ;;
    b2 <- at_ data 1 ;;
    let v := bit b1 0x80 in
    let g := bit b1 0x40 in
    let modec_gray := Z.lor (Z.shiftl (Z.land b1 0x0F) 8) b2 in
    set_ "mode_c_gray_code" (VInt modec_gray) ;;
    set_ "mode_c_validated" (VBool (negb v)) ;;
    set_ "mode_c_garbled" (VBool g) ;;
    adv 2 ;;
    x <- call_opt (fun pos => _cat1__decode_confidence12 data pos _cat1__CONF_PULSES_MODEC) break_ ;;
    set_ "mode_c_confidence" (VDict x)
  else if String.eqb tag "170" then
    need data 1 break_ ;;
    b1 <- at_ data 0 ;;
    adv 1 ;;
    set_ "confirmed" (VBool (negb (bit b1 0x80))) ;;
    set_ "radar_type" (VStr (if bit b1 0x40 then "ssr_combined" else "primary")) ;;
    set_ "maneuvering" (VBool (bit b1 0x20)) ;;
    set_ "doubtful_association" (VBool (bit b1 0x10)) ;;
    set_ "rdp_chain" (VInt (if bit b1 0x08 then 2 else 1)) ;;
    when (bit b1 0x01) (
      need data 1 break_ ;;
      b2 <- at_ data 0 ;;
      adv 1 ;;
      set_ "ghost_track" (VBool (bit b2 0x80)) ;;
      when (bit b2 0x01) (
        need data 1 break_ ;;
        adv 1))
  else if String.eqb tag "150" then
    need data 1 break_ ;;
    b <- at_ data 0 ;;
    adv 1 ;;
    set_ "x_pulse_mode3a" (VBool (bit b 0x80)) ;;
    set_ "x_pulse_modec" (VBool (bit b 0x20)) ;;
    set_ "x_pulse_mode2" (VBool (bit b 0x04))
  else if String.eqb tag "raw030" then
    codes <- call (_cat1__decode_repetitive data) ;;
    set_ "warnings" (VList (map (fun c => VStr (tget_or _cat1__WARNING_CODES c ("code_" +:+ str_int c))) codes))
  else if String.eqb tag "raw130" then
    values <- call (_cat1__decode_repetitive data) ;;
    when (nonempty values) (set_ "plot_characteristics_raw" (VList (map VInt values)))
  else if String.eqb tag "raw210" then
    values <- call (_cat1__decode_repetitive data) ;;
    when (nonempty values) (set_ "track_quality_raw" (VList (map VInt values)))
  else
    break_.

Definition _cat1_decode_cat001 (data : bytes) : exc (option dict) :=
  if len data <? 1 then Ok None else
  let? (fspec, pos) := _cat1_parse_fspec data 0 in
  run (when (negb (nth 0 fspec false)) (return_ (fun _ _ => None)) ;;
       need data 2 (return_ (fun _ _ => None)) ;;
       b1 <- at_ data 0 ;;
       set_ "sac" (VInt b1) ;;
       b2 <- at_ data 1 ;;
       set_ "sic" (VInt b2) ;;
       adv 2 ;;
       when (negb (nth 1 fspec false)) (return_ (fun _ msg => msg_or_none msg)) ;;
       call_on (_cat1__decode_020 data) ;;
       is_track <- get_ "is_track" ;;
       let items := match is_track with
                    | Some v => if truthy v then _cat1__TRACK_ITEMS else _cat1__PLOT_ITEMS
                    | None => _cat1__PLOT_ITEMS
                    end in
       for_fspec (skipn 2 fspec) (fun offset =>
         if len items <=? offset then goto (_cat1__skip_len_field data) else
         tag <- lift (index items offset) ;;
         _cat1_decode_cat001_item data tag) ;;
       return_ (fun _ msg => msg_or_none msg)) pos [].

(** [_h] of [_cat1__make_handler] *)
Definition _cat1_handler (root : string) (now : float) (data : bytes) : exc (list sample) :=
  let? o := _cat1_decode_cat001 data in
  match o with
  | None => Ok []
  | Some msg =>
      if negb (dmem "lat_deg" msg) || negb (dmem "lon_deg" msg) then Ok [] else
      let msg := stamp now "ASTERIX CAT-1 Ed.1.4" msg in
      Ok [(_cat1_TOPIC_TRACK root (_asterix_source msg), msg)]
  end.
End Cat001.

(** ** Correctness *)
#[local] Hint Opaque _cat1__decode_020 _cat1__decode_polar _cat1__decode_mode_code
  _cat1__decode_confidence12 : typeclass_instances.

#[local] Instance decode_020_ok data : CallOnOk data (_cat1__decode_020 data) _cat1_decode_cat001_schema.
Proof.
  intros p d Hp Hd. apply run_returns. wp_auto.
Qed.

#[local] Instance decode_polar_ok data : CallOptOk data (_cat1__decode_polar data) (fun _ => True).
Proof.
  intros p Hp. apply run_returns. unfold _cat1__u16. wp_auto.
Qed.

#[local] Instance decode_mode_code_ok data :
  CallOptOk data (_cat1__decode_mode_code data) (fun _ => True).
Proof. intros p Hp. apply run_returns. wp_auto. Qed.

(** Each pulse list names bits of [conf_schema]. *)
Lemma decode_confidence12_ok data order :
  forallb (fun name => match field_ty conf_schema name with Some TBool => true | _ => false end) order
    = true ->
  CallOptOk data (fun pos => _cat1__decode_confidence12 data pos order)
    (fun d => fields_ok conf_schema d = true).
Proof.
  intros Ho p Hp. apply call_opt_ok_dict; [done|]. intros Hd. unfold _cat1__u16.
  repeat wp_rule; [by wp_done|]. intros r [= <-]. split; [by apply pulse_quality_ok|wp_done].
Qed.

#[local] Instance confidence_abcd_ok data :
  CallOptOk data (fun pos => _cat1__decode_confidence12 data pos _cat1__CONF_PULSES_ABCD)
    (fun d => fields_ok conf_schema d = true).
Proof. by apply decode_confidence12_ok. Qed.

#[local] Instance confidence_modec_ok data :
  CallOptOk data (fun pos => _cat1__decode_confidence12 data pos _cat1__CONF_PULSES_MODEC)
    (fun d => fields_ok conf_schema d = true).
Proof. by apply decode_confidence12_ok. Qed.

Section Correctness.
Context `{LibmOk}.
Implicit Types (site_lat site_lon : option float).

Lemma item_ok_cat001 site_lat site_lon data tag :
  item_ok data _cat1_decode_cat001_schema (record_of _cat1_decode_cat001_schema)
    (geo_error site_lat site_lon) (_cat1_decode_cat001_item site_lat site_lon data tag).
Proof.
  intros p d Hp Hd. unfold _cat1_decode_cat001_item.
  unfold _cat1__u16, _cat1__s16, _cat1__polar_to_wgs84, _cat1__cartesian_to_wgs84, _cat1__decode_repetitive.
  by_items wp_auto.
  destruct (String.eqb tag "070"); wp_auto.
Qed.

Lemma decode_cat001_ok site_lat site_lon data :
  returns (_cat1_decode_cat001 site_lat site_lon data) (record_of _cat1_decode_cat001_schema)
    (geo_error site_lat site_lon).
Proof.
  unfold _cat1_decode_cat001. destruct (Z.ltb_spec (len data) 1); [done|]. apply returns_bind.
  eapply returns_weaken; [apply parse_fspec_ok; lia| |done]. intros [fspec pos] [Hp _].
  apply run_returns. pose proof (wt_nil _cat1_decode_cat001_schema). 
  repeat wp_rule; try done; [by apply msg_or_none_ok| ].
  eapply wp_weaken; [apply (wp_tagged_items data); [|lia|eassumption]| |done].
  - intros tag. apply item_ok_cat001.
  - intros _ p2 d4 [_ Hd4]. by apply wp_return, msg_or_none_ok.
Qed.

(** The keys and values of a published track. *)
Definition cat001_schema : schema := _cat1_decode_cat001_schema ++ stamp_schema.

(** For every frame, with or without a configured radar site, the CAT-001
    handler terminates and publishes at most one record, of schema
    [cat001_schema], which keeps to the protobuf message AsterixCat1Track and
    goes to the topic its own SAC/SIC give; the only exception is ValueError of
    the C library, and only when a site is configured. *)
Theorem cat001_handler_ok site_lat site_lon root now data :
  returns (_cat1_handler site_lat site_lon root now data)
    (fun out => len out <= 1 /\ samples_ok (_cat1_TOPIC_TRACK root) cat001_schema AsterixCat1Track out)
    (geo_error site_lat site_lon).
Proof.
  apply (located_handler_ok _ _cat1_decode_cat001_schema _ _ _ _ _ _ id); [| |reflexivity].
  - apply decode_cat001_ok.
  - intros d. by apply wt_le.
Qed.
End Correctness.

(** A track with a polar position, at a configured site. *)
Lemma cat001_handler_ok_witness :
  let data := of_ints [0xF8; 0x19; 0x0A; 0x80; 0x00; 0x2A; 0x0A; 0x00; 0x40; 0x00] in
  let out := @_cat1_handler small_angle_libm (Some (fl 54)) (Some (fl 25)) "efdi" (fl 7) data in
  (exists m, out = Ok [("efdi/air/025-010/radar/unknown/aircraft", m)] /\
             dget m "track_num" = Some (VInt 42)) /\
  returns out
    (fun out => len out <= 1 /\ samples_ok (_cat1_TOPIC_TRACK "efdi") cat001_schema AsterixCat1Track out)
    (geo_error (Some (fl 54)) (Some (fl 25))).
Proof.
  split; [eexists; split; [vm_compute; reflexivity|reflexivity]|].
  exact (@cat001_handler_ok small_angle_libm small_angle_libm_ok _ _ _ _ _).
Defined.
