(* ===== verification/Cat002.v ===== *)
(** * CAT-002: monoradar service messages

    cat.py:606-870. The decoder of one frame and its handler. *)

From S2P Require Import Prelude PyFloat PyData Schema Ranges Cursor Safety Contract AsterixCommon.

Definition _cat2_TOPIC_SENSOR (root source : string) : string :=
  root +:+ "/land/" +:+ source +:+ "/radar/neutral/sensor".
Definition _cat2_parse_fspec := parse_fspec.
Definition _cat2__skip_len_field := skip_len_field.
Definition _cat2__decode_fx_repetitive := decode_fx_repetitive.
(** cat.py:621-621 *)
Definition _cat2_CAT_002 : Z := 2.
(** cat.py:623-626 *)
Definition _cat2__MSG_TYPES : table :=
  [(1, "north_marker"); (2, "sector_crossing"); (3, "south_marker");
   (8, "blind_zone_filtering_start"); (9, "blind_zone_filtering_stop")].
(** cat.py:627-627 *)
Definition _cat2__PLOT_COUNT_IDENT : table :=
  [(1, "sole_primary"); (2, "sole_ssr"); (3, "combined")].
Definition _cat2_decode_cat002_schema : schema :=
  [("sac", TInt 0 255); ("sic", TInt 0 255); ("msg_type", TStr); ("sector_deg", TFloat);
   ("tod_s", TFloat); ("antenna_rotation_s", TFloat);
   ("station_configuration_raw", TList (TInt 0 127));
   ("station_processing_mode_raw", TList (TInt 0 127));
   ("plot_counts", TList (TDict [("antenna", TInt 1 2); ("ident", TOneOf ("undefined" :: map snd _cat2__PLOT_COUNT_IDENT)); ("count", TInt 0 1023)]));
   ("window_rho_start_nm", TFloat); ("window_rho_end_nm", TFloat);
   ("window_theta_start_deg", TFloat); ("window_theta_end_deg", TFloat); ("range_error_nm", TFloat);
   ("azimuth_error_deg", TFloat); ("warnings_raw", TList (TInt 0 127))].

(** cat.py:718-782 *)
Definition _cat2_decode_cat002_item (data : bytes) (frn : Z) : cur (option dict) unit :=
  if frn =? 0 then
    need data 2 break_ ;;
    b1 <- at_ data 0 ;;
    set_ "sac" (VInt b1) ;;
    b2 <- at_ data 1 ;;
    set_ "sic" (VInt b2) ;;
    adv 2
  else if frn =? 1 then
    need data 1 break_ ;;
    b3 <- at_ data 0 ;;
    b4 <- at_ data 0 ;;
    set_ "msg_type" (VStr (tget_or _cat2__MSG_TYPES b3 ("type_" +:+ str_int b4))) ;;
    adv 1
  else if frn =? 2 then
    need data 1 break_ ;;
    b5 <- at_ data 0 ;;
    set_ "sector_deg" (VFloat (py_round (fmul (fl b5) (fdiv_raw (fl 360) (fl 256))) 4)) ;;
    adv 1
  else if frn =? 3 then
    need data 3 break_ ;;
    b6 <- at_ data 0 ;;
    b7 <- at_ data 1 ;;
    b8 <- at_ data 2 ;;
    let raw := Z.lor (Z.lor (Z.shiftl b6 16) (Z.shiftl b7 8)) b8 in
    set_ "tod_s" (VFloat (fdiv_raw (fl raw) (fl 128))) ;;
    adv 3
  else if frn =? 4 then
    need data 2 break_ ;;
    v9 <- on_slice data 0 2 (unpack_u 2) ;;
    set_ "antenna_rotation_s" (VFloat (py_round (fdiv_raw (fl v9) (fl 128)) 4)) ;;
    adv 2
  else if frn =? 5 then
    values <- call (_cat2__decode_fx_repetitive data) ;;
    when (nonempty values) (set_ "station_configuration_raw" (VList (map VInt values)))
  else if frn =? 6 then
    values <- call (_cat2__decode_fx_repetitive data) ;;
    when (nonempty values) (set_ "station_processing_mode_raw" (VList (map VInt values)))
  else if frn =? 7 then
    need data 1 break_ ;;
    rep <- at_ data 0 ;;
    adv 1 ;;
    counts <- for_range (Z.to_nat rep) (fun counts =>
        none <- short data 2 ;;
        if none then ret (stop counts) else
        w <- on_slice data 0 2 (unpack_u 2) ;;
        adv 2 ;;
        let counts := counts ++ [VDict ([("antenna", VInt (if bit w 0x8000 then 2 else 1)); ("ident", VStr (tget_or _cat2__PLOT_COUNT_IDENT (Z.land (Z.shiftr w 10) 0x1F) "undefined")); ("count", VInt (Z.land w 0x03FF))])] in
        ret (more counts)) [] ;;
    when (nonempty counts) (set_ "plot_counts" (VList counts))
  else if frn =? 8 then
    need data 8 break_ ;;
    v11 <- on_slice data 0 2 (unpack_u 2) ;;
    set_ "window_rho_start_nm" (VFloat (py_round (fdiv_raw (fl v11) (fl 128)) 4)) ;;
    v12 <- on_slice data 2 4 (unpack_u 2) ;;
    set_ "window_rho_end_nm" (VFloat (py_round (fdiv_raw (fl v12) (fl 128)) 4)) ;;
    v13 <- on_slice data 4 6 (unpack_u 2) ;;
    set_ "window_theta_start_deg" (VFloat (py_round (fmul (fl v13) (fdiv_raw (fl 360) (fl 65536))) 4)) ;;
    v14 <- on_slice data 6 8 (unpack_u 2) ;;
    set_ "window_theta_end_deg" (VFloat (py_round (fmul (fl v14) (fdiv_raw (fl 360) (fl 65536))) 4)) ;;
    adv 8
  else if frn =? 9 then
    need data 2 break_ ;;
    b15 <- at_ data 0 ;;
    set_ "range_error_nm" (VFloat (py_round (fdiv_raw (fl (sign_extend 8 b15)) (fl 128)) 4)) ;;
    b16 <- at_ data 1 ;;
    set_ "azimuth_error_deg" (VFloat (py_round (fmul (fl (sign_extend 8 b16)) (fdiv_raw (fl 360) (fl 16384))) 4)) ;;
    adv 2
  else if frn =? 10 then
    values <- call (_cat2__decode_fx_repetitive data) ;;
    when (nonempty values) (set_ "warnings_raw" (VList (map VInt values)))
  else if (frn =? 11) || (frn =? 12) || (frn =? 13) then
    goto (_cat2__skip_len_field data)
  else
    break_.

Definition _cat2_decode_cat002 (data : bytes) : exc (option dict) :=
  if len data <? 1 then Ok None else
  let? (fspec, pos) := _cat2_parse_fspec data 0 in
  run (for_fspec fspec (_cat2_decode_cat002_item data) ;;
       return_ (fun _ msg => msg_or_none msg)) pos [].

(** [_h] of [_cat2__make_handler] *)
Definition _cat2_handler (root : string) (now : float) (data : bytes) : exc (list sample) :=
  let? o := _cat2_decode_cat002 data in
  match o with
  | None => Ok []
  | Some msg =>
      let msg := stamp now "ASTERIX CAT-2 Ed.1.2" msg in
      Ok [(_cat2_TOPIC_SENSOR root (_asterix_source msg), msg)]
  end.

(** The keys and values of a published record. *)
Definition cat002_schema : schema := _cat2_decode_cat002_schema ++ stamp_schema.

Lemma item_ok_cat002 data frn :
  item_ok data _cat2_decode_cat002_schema (record_of _cat2_decode_cat002_schema) noE
    (_cat2_decode_cat002_item data frn).
Proof.
  intros p d Hp Hd. unfold _cat2_decode_cat002_item, _cat2__decode_fx_repetitive, _cat2__skip_len_field.
  by_items wp_auto.
Qed.

(** For every frame and every receive time, the CAT-002 handler terminates
    without an exception and publishes at most one record, whose keys and
    values are those of [cat002_schema], which keeps to the protobuf message
    AsterixCat2Status and goes to the topic its own SAC/SIC give. *)
Lemma cat002_handler_ok root now data :
  returns (_cat2_handler root now data)
    (fun out => len out <= 1 /\
       samples_ok (_cat2_TOPIC_SENSOR root) cat002_schema AsterixCat2Status out) noE.
Proof.
  apply (frame_handler_ok _ _cat2_decode_cat002_schema); [|reflexivity].
  apply frame_decoder_ok; [exact _|]. intros frn _. apply item_ok_cat002.
Qed.
