(* ===== verification/Cat004.v ===== *)
(** * CAT-004: safety net alerts

    cat.py:872-1431. [_cat4__decode_120] returns a bare dictionary where its caller
    unpacks a pair; [result_120] keeps the two shapes apart. *)

From S2P Require Import Prelude PyFloat PyData Schema Ranges Cursor Safety Contract AsterixCommon.

Definition _cat4_TOPIC_ALERT (root source : string) : string :=
  root +:+ "/air/" +:+ source +:+ "/radar/unknown/alert".
Definition _cat4_parse_fspec := parse_fspec.
Definition _cat4__skip_len_field := skip_len_field.
Definition _cat4__s16 := s16.
Definition _cat4__u16 := u16.
Definition _cat4__s24 := s24.
Definition _cat4__s32 := s32.
Definition _cat4__CHARSET_6BIT := CHARSET_6BIT.
Definition _cat4__decode_callsign := decode_callsign.

(** cat.py:916-916 *)
Definition _cat4_CAT_004 : Z := 4.
(** cat.py:918-918 *)
Definition _cat4__MSG_TYPES : table :=
  [(1, "alive_message"); (17, "end_of_conflict")].
(** cat.py:919-919 *)
Definition _cat4__AREA_STATUS : table :=
  [(0, "inactive"); (1, "active"); (2, "pre_active")].
(** cat.py:921-921 *)
Definition _cat4__GATOAT : table :=
  [(0, "unknown"); (1, "gat"); (2, "oat"); (3, "not_applicable")].
(** cat.py:922-922 *)
Definition _cat4__FR1FR2 : table :=
  [(0, "ifr"); (1, "vfr"); (2, "not_applicable"); (3, "cvfr")].
(** cat.py:923-923 *)
Definition _cat4__RVSM : table :=
  [(0, "unknown"); (1, "approved"); (2, "exempt"); (3, "not_approved")].
(** cat.py:924-924 *)
Definition _cat4__CDM : table :=
  [(0, "maintaining"); (1, "climbing"); (2, "descending"); (3, "invalid")].
(** cat.py:1028-1039 *)
Definition _cat4__decode_sdps_list (data : bytes) (pos : Z) : exc (list value * Z) :=
  run (
    need data 1 (return_ (fun pos _ => ([], pos))) ;;
    rep <- at_ data 0 ;;
    adv 1 ;;
    items <- for_range (Z.to_nat rep) (fun items =>
        none <- short data 2 ;;
        if none then ret (stop items) else
        b1 <- at_ data 0 ;;
        b2 <- at_ data 1 ;;
        let items := items ++ [VDict ([("sac", VInt b1); ("sic", VInt b2)])] in
        adv 2 ;;
        ret (more items)) [] ;;
    return_ (fun pos _ => (items, pos))) pos [].

Definition _cat4__decode_060_schema : schema :=
  [("mrva", TBool); ("ramld", TBool); ("ramhd", TBool); ("msaw", TBool); ("apw", TBool);
   ("clam", TBool); ("stca", TBool); ("apm", TBool); ("rimca", TBool); ("acasra", TBool);
   ("ntca", TBool); ("degraded", TBool); ("overflow", TBool); ("overload", TBool); ("aiw", TBool);
   ("paiw", TBool); ("ocat", TBool); ("sam", TBool); ("vcd", TBool); ("cham", TBool);
   ("dsam", TBool); ("ext_raw", TList (TInt 0 255))].

(** cat.py:1042-1096 *)
Definition _cat4__decode_060 (data : bytes) (pos : Z) : exc (dict * Z) :=
  run (
    need data 1 (return_ (fun pos status => (status, pos))) ;;
    b1 <- at_ data 0 ;;
    adv 1 ;;
    set_ "mrva" (VBool (bit b1 0x80)) ;;
    set_ "ramld" (VBool (bit b1 0x40)) ;;
    set_ "ramhd" (VBool (bit b1 0x20)) ;;
    set_ "msaw" (VBool (bit b1 0x10)) ;;
    set_ "apw" (VBool (bit b1 0x08)) ;;
    set_ "clam" (VBool (bit b1 0x04)) ;;
    set_ "stca" (VBool (bit b1 0x02)) ;;
    when (negb (bit b1 0x01)) (return_ (fun pos status => (status, pos))) ;;
    need data 1 (return_ (fun pos status => (status, pos))) ;;
    b2 <- at_ data 0 ;;
    adv 1 ;;
    set_ "apm" (VBool (bit b2 0x80)) ;;
    set_ "rimca" (VBool (bit b2 0x40)) ;;
    set_ "acasra" (VBool (bit b2 0x20)) ;;
    set_ "ntca" (VBool (bit b2 0x10)) ;;
    set_ "degraded" (VBool (bit b2 0x08)) ;;
    set_ "overflow" (VBool (bit b2 0x04)) ;;
    set_ "overload" (VBool (bit b2 0x02)) ;;
    when (negb (bit b2 0x01)) (return_ (fun pos status => (status, pos))) ;;
    need data 1 (return_ (fun pos status => (status, pos))) ;;
    b3 <- at_ data 0 ;;
    adv 1 ;;
    set_ "aiw" (VBool (bit b3 0x80)) ;;
    set_ "paiw" (VBool (bit b3 0x40)) ;;
    set_ "ocat" (VBool (bit b3 0x20)) ;;
    set_ "sam" (VBool (bit b3 0x10)) ;;
    set_ "vcd" (VBool (bit b3 0x08)) ;;
    set_ "cham" (VBool (bit b3 0x04)) ;;
    set_ "dsam" (VBool (bit b3 0x02)) ;;
    let b := b3 in
    ext_raw <- fx_more data b ;;
    when (nonempty ext_raw) (set_ "ext_raw" (VList (map VInt ext_raw))) ;;
    return_ (fun pos status => (status, pos))) pos [].

Definition _cat4__decode_120_schema : schema :=
  [("conflict_military_airspace", TBool); ("conflict_civil_airspace", TBool);
   ("conflict_fast_lateral_divergence", TBool); ("conflict_fast_vertical_divergence", TBool);
   ("conflict_major_separation", TBool); ("conflict_crossed", TBool); ("conflict_diverging", TBool);
   ("conflict_nature_ext_raw", TList (TInt 0 255)); ("conflict_table_id", TInt 0 15);
   ("conflict_properties_raw", TInt 0 7); ("conflict_severity_high", TBool);
   ("conflict_probability_pct", TFloat); ("conflict_duration_s", TFloat)].

(** cat.py:1099-1148 *)
Inductive result_120 :=
| Pair (out : dict) (pos : Z)
| Bare (out : dict).

Definition _cat4__decode_120 (data : bytes) (pos : Z) : exc (option result_120) :=
  run (
    need data 1 (return_ (fun _ _ => None)) ;;
    b <- at_ data 0 ;;
    adv 1 ;;
    set_ "conflict_military_airspace" (VBool (bit b 0x80)) ;;
    set_ "conflict_civil_airspace" (VBool (bit b 0x40)) ;;
    set_ "conflict_fast_lateral_divergence" (VBool (bit b 0x20)) ;;
    set_ "conflict_fast_vertical_divergence" (VBool (bit b 0x10)) ;;
    set_ "conflict_major_separation" (VBool (bit b 0x08)) ;;
    set_ "conflict_crossed" (VBool (bit b 0x04)) ;;
    set_ "conflict_diverging" (VBool (bit b 0x02)) ;;
    cn_raw <- fx_more data b ;;
    when (nonempty cn_raw) (set_ "conflict_nature_ext_raw" (VList (map VInt cn_raw))) ;;
    need data 1 (return_ (fun _ out => Some (Bare out))) ;;
    b <- at_ data 0 ;;
    adv 1 ;;
    set_ "conflict_table_id" (VInt (Z.land (Z.shiftr b 4) 0x0F)) ;;
    set_ "conflict_properties_raw" (VInt (Z.land (Z.shiftr b 1) 0x07)) ;;
    set_ "conflict_severity_high" (VBool (bit b 0x01)) ;;
    need data 1 (return_ (fun _ out => Some (Bare out))) ;;
    b1 <- at_ data 0 ;;
    set_ "conflict_probability_pct" (VFloat (py_round (fmul (fl b1) (dec 5 1)) 2)) ;;
    adv 1 ;;
    need data 3 (return_ (fun _ out => Some (Bare out))) ;;
    b2 <- at_ data 0 ;;
    b3 <- at_ data 1 ;;
    b4 <- at_ data 2 ;;
    let raw := Z.lor (Z.lor (Z.shiftl b2 16) (Z.shiftl b3 8)) b4 in
    set_ "conflict_duration_s" (VFloat (py_round (fdiv_raw (fl raw) (fl 128)) 4)) ;;
    adv 3 ;;
    return_ (fun pos out => Some (Pair out pos))) pos [].

Definition _cat4__decode_070_schema : schema :=
  [("time_to_conflict_s", TFloat); ("time_to_closest_approach_s", TFloat);
   ("current_horizontal_separation_m", TFloat); ("min_horizontal_separation_m", TFloat);
   ("current_vertical_separation_ft", TFloat); ("min_vertical_separation_ft", TFloat)].

(** cat.py:1151-1178 *)
Definition _cat4__decode_070 (data : bytes) (pos : Z) : exc (option (dict * Z)) :=
  run (
    need data 1 (return_ (fun _ _ => None)) ;;
    fx <- at_ data 0 ;;
    adv 1 ;;
    when (bit fx 0x80) (
      need data 3 (return_ (fun pos out => Some (out, pos))) ;;
      b1 <- at_ data 0 ;;
      b2 <- at_ data 1 ;;
      b3 <- at_ data 2 ;;
      let raw := Z.lor (Z.lor (Z.shiftl b1 16) (Z.shiftl b2 8)) b3 in
      set_ "time_to_conflict_s" (VFloat (py_round (fdiv_raw (fl raw) (fl 128)) 4)) ;;
      adv 3) ;;
    when (bit fx 0x40) (
      need data 3 (return_ (fun pos out => Some (out, pos))) ;;
      b4 <- at_ data 0 ;;
      b5 <- at_ data 1 ;;
      b6 <- at_ data 2 ;;
      let raw := Z.lor (Z.lor (Z.shiftl b4 16) (Z.shiftl b5 8)) b6 in
      set_ "time_to_closest_approach_s" (VFloat (py_round (fdiv_raw (fl raw) (fl 128)) 4)) ;;
      adv 3) ;;
    when (bit fx 0x20) (
      need data 3 (return_ (fun pos out => Some (out, pos))) ;;
      b7 <- at_ data 0 ;;
      b8 <- at_ data 1 ;;
      b9 <- at_ data 2 ;;
      let raw := Z.lor (Z.lor (Z.shiftl b7 16) (Z.shiftl b8 8)) b9 in
      set_ "current_horizontal_separation_m" (VFloat (py_round (fmul (fl raw) (dec 5 1)) 2)) ;;
      adv 3) ;;
    when (bit fx 0x10) (
      need data 2 (return_ (fun pos out => Some (out, pos))) ;;
      v10 <- on_slice data 0 2 _cat4__u16 ;;
      set_ "min_horizontal_separation_m" (VFloat (py_round (fmul (fl v10) (dec 5 1)) 2)) ;;
      adv 2) ;;
    when (bit fx 0x08) (
      need data 2 (return_ (fun pos out => Some (out, pos))) ;;
      v11 <- on_slice data 0 2 _cat4__u16 ;;
      set_ "current_vertical_separation_ft" (VFloat (py_round (fmul (fl v11) (fl 25)) 1)) ;;
      adv 2) ;;
    when (bit fx 0x04) (
      need data 2 (return_ (fun pos out => Some (out, pos))) ;;
      v12 <- on_slice data 0 2 _cat4__u16 ;;
      set_ "min_vertical_separation_ft" (VFloat (py_round (fmul (fl v12) (fl 25)) 1)) ;;
      adv 2) ;;
    return_ (fun pos out => Some (out, pos))) pos [].

Definition _cat4__decode_100_schema : schema :=
  [("area_name", TStr); ("crossing_area_name", TStr); ("runway_taxiway_1", TStr);
   ("runway_taxiway_2", TStr); ("stop_bar", TStr); ("gate", TStr)].

(** cat.py:1181-1205 *)
Definition _cat4__decode_100 (data : bytes) (pos : Z) : exc (option (dict * Z)) :=
  run (
    need data 1 (return_ (fun _ _ => None)) ;;
    fx <- at_ data 0 ;;
    adv 1 ;;
    when (bit fx 0x80) (
      need data 6 (return_ (fun pos out => Some (out, pos))) ;;
      s1 <- on_slice data 0 6 _cat4__decode_callsign ;;
      set_ "area_name" (VStr s1) ;;
      adv 6) ;;
    when (bit fx 0x40) (
      need data 7 (return_ (fun pos out => Some (out, pos))) ;;
      s2 <- on_slice data 0 7 (fun raw => Ok (strip (decode_ascii_replace raw))) ;;
      set_ "crossing_area_name" (VStr s2) ;;
      adv 7) ;;
    when (bit fx 0x20) (
      need data 7 (return_ (fun pos out => Some (out, pos))) ;;
      s3 <- on_slice data 0 7 (fun raw => Ok (strip (decode_ascii_replace raw))) ;;
      set_ "runway_taxiway_1" (VStr s3) ;;
      adv 7) ;;
    when (bit fx 0x10) (
      need data 7 (return_ (fun pos out => Some (out, pos))) ;;
      s4 <- on_slice data 0 7 (fun raw => Ok (strip (decode_ascii_replace raw))) ;;
      set_ "runway_taxiway_2" (VStr s4) ;;
      adv 7) ;;
    when (bit fx 0x08) (
      need data 7 (return_ (fun pos out => Some (out, pos))) ;;
      s5 <- on_slice data 0 7 (fun raw => Ok (strip (decode_ascii_replace raw))) ;;
      set_ "stop_bar" (VStr s5) ;;
      adv 7) ;;
    when (bit fx 0x04) (
      need data 7 (return_ (fun pos out => Some (out, pos))) ;;
      s6 <- on_slice data 0 7 (fun raw => Ok (strip (decode_ascii_replace raw))) ;;
      set_ "gate" (VStr s6) ;;
      adv 7) ;;
    return_ (fun pos out => Some (out, pos))) pos [].

Definition _cat4__decode_ac (raw : bytes) : exc dict :=
  let? w := _cat4__u16 raw in
  Ok [("gat_oat", VStr (tget_or _cat4__GATOAT (Z.land (Z.shiftr w 14) 0x03) "undefined"));
      ("flight_rules", VStr (tget_or _cat4__FR1FR2 (Z.land (Z.shiftr w 12) 0x03) "undefined"));
      ("rvsm", VStr (tget_or _cat4__RVSM (Z.land (Z.shiftr w 10) 0x03) "undefined"));
      ("high_priority", VBool (bit w 0x0200));
      ("climb_descend", VStr (tget_or _cat4__CDM (Z.land (Z.shiftr w 7) 0x03) "undefined"));
      ("primary", VBool (bit w 0x0040));
      ("ground_vehicle", VBool (bit w 0x0020))].

Definition _cat4__decode_ac_schema : schema :=
  [("gat_oat", TOneOf ("undefined" :: map snd _cat4__GATOAT));
   ("flight_rules", TOneOf ("undefined" :: map snd _cat4__FR1FR2));
   ("rvsm", TOneOf ("undefined" :: map snd _cat4__RVSM)); ("high_priority", TBool);
   ("climb_descend", TOneOf ("undefined" :: map snd _cat4__CDM)); ("primary", TBool);
   ("ground_vehicle", TBool)].

Definition _cat4__decode_aircraft_block_schema (prefix : string) : schema :=
  [(prefix +:+ "_callsign", TStr); (prefix +:+ "_mode3a_squawk", TStr);
   (prefix +:+ "_wgs84_lat_deg", TFloat); (prefix +:+ "_wgs84_lon_deg", TFloat);
   (prefix +:+ "_wgs84_alt_ft", TFloat); (prefix +:+ "_cart_x_m", TFloat);
   (prefix +:+ "_cart_y_m", TFloat); (prefix +:+ "_cart_z_ft", TFloat);
   (prefix +:+ "_time_to_threshold_s", TFloat); (prefix +:+ "_distance_to_threshold_m", TFloat);
   (prefix +:+ "_characteristics", TDict _cat4__decode_ac_schema); (prefix +:+ "_mode_s_id", TStr);
   (prefix +:+ "_flight_plan_number", TInt 0 134217727); (prefix +:+ "_cleared_fl", TFloat)].

(** cat.py:1222-1244 *)
Definition _cat4__decode_aircraft_block (data : bytes) (pos : Z) (prefix : string) : exc (option (dict * Z)) :=
  run (
    need data 46 (return_ (fun _ _ => None)) ;;
    s1 <- on_slice data 0 7 (fun raw => Ok (strip (decode_ascii_replace raw))) ;;
    set_ (prefix +:+ "_callsign") (VStr s1) ;;
    adv 7 ;;
    v2 <- on_slice data 0 2 _cat4__u16 ;;
    let m31 := Z.land v2 0x0FFF in
    adv 2 ;;
    set_ (prefix +:+ "_mode3a_squawk") (VStr (fmt_o 4 m31)) ;;
    v3 <- on_slice data 0 4 _cat4__s32 ;;
    set_ (prefix +:+ "_wgs84_lat_deg") (VFloat (py_round (fdiv_raw (fmul (fl v3) (fl 180)) (fl (2 ^ 25))) 7)) ;;
    adv 4 ;;
    v4 <- on_slice data 0 4 _cat4__s32 ;;
    set_ (prefix +:+ "_wgs84_lon_deg") (VFloat (py_round (fdiv_raw (fmul (fl v4) (fl 180)) (fl (2 ^ 25))) 7)) ;;
    adv 4 ;;
    v5 <- on_slice data 0 2 _cat4__s16 ;;
    set_ (prefix +:+ "_wgs84_alt_ft") (VFloat (py_round (fmul (fl v5) (fl 25)) 1)) ;;
    adv 2 ;;
    v6 <- on_slice data 0 3 _cat4__s24 ;;
    set_ (prefix +:+ "_cart_x_m") (VFloat (py_round (fmul (fl v6) (dec 5 1)) 2)) ;;
    adv 3 ;;
    v7 <- on_slice data 0 3 _cat4__s24 ;;
    set_ (prefix +:+ "_cart_y_m") (VFloat (py_round (fmul (fl v7) (dec 5 1)) 2)) ;;
    adv 3 ;;
    v8 <- on_slice data 0 2 _cat4__s16 ;;
    set_ (prefix +:+ "_cart_z_ft") (VFloat (py_round (fmul (fl v8) (fl 25)) 1)) ;;
    adv 2 ;;
    b9 <- at_ data 0 ;;
    b10 <- at_ data 1 ;;
    b11 <- at_ data 2 ;;
    let raw := Z.lor (Z.lor (Z.shiftl b9 16) (Z.shiftl b10 8)) b11 in
    set_ (prefix +:+ "_time_to_threshold_s") (VFloat (py_round (fdiv_raw (fl raw) (fl 128)) 4)) ;;
    adv 3 ;;
    v12 <- on_slice data 0 2 _cat4__u16 ;;
    set_ (prefix +:+ "_distance_to_threshold_m") (VFloat (py_round (fmul (fl v12) (dec 5 1)) 2)) ;;
    adv 2 ;;
    s13 <- on_slice data 0 2 _cat4__decode_ac ;;
    set_ (prefix +:+ "_characteristics") (VDict s13) ;;
    adv 2 ;;
    s14 <- on_slice data 0 6 _cat4__decode_callsign ;;
    set_ (prefix +:+ "_mode_s_id") (VStr s14) ;;
    adv 6 ;;
    v15 <- on_slice data 0 4 (fun raw => Ok (int_from_bytes raw)) ;;
    let fp := Z.land v15 0x07FFFFFF in
    set_ (prefix +:+ "_flight_plan_number") (VInt fp) ;;
    adv 4 ;;
    v16 <- on_slice data 0 2 _cat4__u16 ;;
    set_ (prefix +:+ "_cleared_fl") (VFloat (py_round (fmul (fl v16) (dec 25 2)) 2)) ;;
    adv 2 ;;
    return_ (fun pos out => Some (out, pos))) pos [].

Definition _cat4_decode_cat004_schema : schema :=
  [("sac", TInt 0 255); ("sic", TInt 0 255); ("msg_type", TStr);
   ("sdps_ids", TList (TDict [("sac", TInt 0 255); ("sic", TInt 0 255)])); ("tod_s", TFloat);
   ("alert_id", TInt 0 65535); ("area_status_populated", TBool);
   ("area_status", TOneOf ("undefined" :: map snd _cat4__AREA_STATUS));
   ("alert_status_raw", TInt 0 7); ("safety_net_status", TDict _cat4__decode_060_schema);
   ("track_num_1", TInt 0 65535); ("conflict_timing", TDict _cat4__decode_070_schema); ("vertical_deviation_ft", TFloat);
   ("longitudinal_deviation_m", TFloat); ("transversal_deviation_m", TFloat);
   ("area", TDict _cat4__decode_100_schema); ("track_num_2", TInt 0 65535);
   ("fdps_sectors", TList (TDict [("sac", TInt 0 255); ("sic", TInt 0 255)]))] ++
  _cat4__decode_aircraft_block_schema "aircraft1" ++
  _cat4__decode_aircraft_block_schema "aircraft2" ++ _cat4__decode_120_schema.

(** cat.py:1247-1328 *)
Definition _cat4_decode_cat004_item (data : bytes) (frn : Z) : cur (option dict) unit :=
  if frn =? 0 then
    need data 2 break_ ;;
    b1 <- at_ data 0 ;;
    set_ "sac" (VInt b1) ;;
    b2 <- at_ data 1 ;;
    set_ "sic" (VInt b2) ;;
    adv 2
  else if frn =? 1 then
    need data 1 break_ ;;
    b3 <- at_ data 0 ;;
    b4 <- at_ data 0 ;;
    set_ "msg_type" (VStr (tget_or _cat4__MSG_TYPES b3 ("type_" +:+ str_int b4))) ;;
    adv 1
  else if frn =? 2 then
    items <- call (_cat4__decode_sdps_list data) ;;
    when (nonempty items) (set_ "sdps_ids" (VList items))
  else if frn =? 3 then
    need data 3 break_ ;;
    b5 <- at_ data 0 ;;
    b6 <- at_ data 1 ;;
    b7 <- at_ data 2 ;;
    let raw := Z.lor (Z.lor (Z.shiftl b5 16) (Z.shiftl b6 8)) b7 in
    set_ "tod_s" (VFloat (fdiv_raw (fl raw) (fl 128))) ;;
    adv 3
  else if frn =? 4 then
    need data 2 break_ ;;
    v8 <- on_slice data 0 2 _cat4__u16 ;;
    set_ "alert_id" (VInt v8) ;;
    adv 2
  else if frn =? 5 then
    need data 1 break_ ;;
    b <- at_ data 0 ;;
    adv 1 ;;
    set_ "area_status_populated" (VBool (bit b 0x80)) ;;
    set_ "area_status" (VStr (tget_or _cat4__AREA_STATUS (Z.land (Z.shiftr b 4) 0x07) "undefined")) ;;
    set_ "alert_status_raw" (VInt (Z.land (Z.shiftr b 1) 0x07))
  else if frn =? 6 then
    status <- call (_cat4__decode_060 data) ;;
    when (nonempty status) (set_ "safety_net_status" (VDict status))
  else if frn =? 7 then
    need data 2 break_ ;;
    v9 <- on_slice data 0 2 _cat4__u16 ;;
    set_ "track_num_1" (VInt v9) ;;
    adv 2
  else if frn =? 8 then
    fields <- call_opt (fun pos => _cat4__decode_aircraft_block data pos "aircraft1") break_ ;;
    update_ fields
  else if frn =? 9 then
    pos <- tell ;;
    result <- lift (_cat4__decode_120 data pos) ;;
    match result with
    | None => break_
    | Some (Pair fields pos) => seek pos ;; update_ fields
    | Some (Bare _) => raise_ ValueError       (* fields, pos = out *)
    end
  else if frn =? 10 then
    fields <- call_opt (_cat4__decode_070 data) break_ ;;
    when (nonempty fields) (set_ "conflict_timing" (VDict fields))
  else if frn =? 11 then
    need data 2 break_ ;;
    v10 <- on_slice data 0 2 _cat4__s16 ;;
    set_ "vertical_deviation_ft" (VFloat (py_round (fmul (fl v10) (fl 25)) 1)) ;;
    adv 2
  else if frn =? 12 then
    need data 2 break_ ;;
    v11 <- on_slice data 0 2 _cat4__s16 ;;
    set_ "longitudinal_deviation_m" (VFloat (py_round (fmul (fl v11) (fl 32)) 1)) ;;
    adv 2
  else if frn =? 13 then
    need data 3 break_ ;;
    v12 <- on_slice data 0 3 _cat4__s24 ;;
    set_ "transversal_deviation_m" (VFloat (py_round (fmul (fl v12) (dec 5 1)) 2)) ;;
    adv 3
  else if frn =? 14 then
    fields <- call_opt (_cat4__decode_100 data) break_ ;;
    when (nonempty fields) (set_ "area" (VDict fields))
  else if frn =? 15 then
    need data 2 break_ ;;
    v13 <- on_slice data 0 2 _cat4__u16 ;;
    set_ "track_num_2" (VInt v13) ;;
    adv 2
  else if frn =? 16 then
    fields <- call_opt (fun pos => _cat4__decode_aircraft_block data pos "aircraft2") break_ ;;
    update_ fields
  else if frn =? 17 then
    items <- call (_cat4__decode_sdps_list data) ;;
    when (nonempty items) (set_ "fdps_sectors" (VList items))
  else if (frn =? 18) || (frn =? 19) then
    goto (_cat4__skip_len_field data)
  else
    break_.

Definition _cat4_decode_cat004 (data : bytes) : exc (option dict) :=
  if len data <? 1 then Ok None else
  let? (fspec, pos) := _cat4_parse_fspec data 0 in
  run (for_fspec fspec (_cat4_decode_cat004_item data) ;;
       return_ (fun _ msg => msg_or_none msg)) pos [].

(** The alert's own position: that of the first aircraft that has one. *)
Definition _cat4_position (msg : dict) : dict :=
  match dget msg "aircraft1_wgs84_lat_deg", dget msg "aircraft1_wgs84_lon_deg" with
  | Some lat, Some lon => dset "lon_deg" lon (dset "lat_deg" lat msg)
  | _, _ =>
      match dget msg "aircraft2_wgs84_lat_deg", dget msg "aircraft2_wgs84_lon_deg" with
      | Some lat, Some lon => dset "lon_deg" lon (dset "lat_deg" lat msg)
      | _, _ => msg
      end
  end.

(** [_h] of [_cat4__make_handler] *)
Definition _cat4_handler (root : string) (now : float) (data : bytes) : exc (list sample) :=
  let? o := _cat4_decode_cat004 data in
  match o with
  | None => Ok []
  | Some msg =>
      let msg := _cat4_position msg in
      if negb (dmem "lat_deg" msg) || negb (dmem "lon_deg" msg) then Ok [] else
      let msg := stamp now "ASTERIX CAT-4 Ed.1.13" msg in
      Ok [(_cat4_TOPIC_ALERT root (_asterix_source msg), msg)]
  end.

(** ** Correctness *)
#[local] Hint Unfold _cat4_parse_fspec _cat4__skip_len_field _cat4__s16 _cat4__u16 _cat4__s24
  _cat4__s32 _cat4__decode_callsign : cat4.

#[local] Hint Opaque _cat4__decode_sdps_list _cat4__decode_060 _cat4__decode_070
  _cat4__decode_100 _cat4__decode_aircraft_block : typeclass_instances.

#[local] Instance sdps_list_ok data :
  CallOk data (_cat4__decode_sdps_list data)
    (fun l => has_ty (TList (TDict [("sac", TInt 0 255); ("sic", TInt 0 255)])) (VList l) = true).
Proof.
  intros p Hp. apply call_ok_run; [done|].
  wp_list p (TDict [("sac", TInt 0 255); ("sic", TInt 0 255)]).
Qed.

#[local] Instance decode_060_ok data :
  CallOk data (_cat4__decode_060 data) (fun d => fields_ok _cat4__decode_060_schema d = true).
Proof. intros p Hp. apply call_ok_dict; [done|]. intros Hd. wp_auto. Qed.

#[local] Instance decode_070_ok data :
  CallOptOk data (_cat4__decode_070 data) (fun d => fields_ok _cat4__decode_070_schema d = true).
Proof. intros p Hp. apply call_opt_ok_dict; [done|]. intros Hd. unfold _cat4__u16. wp_auto. Qed.

#[local] Instance decode_100_ok data :
  CallOptOk data (_cat4__decode_100 data) (fun d => fields_ok _cat4__decode_100_schema d = true).
Proof.
  intros p Hp. apply call_opt_ok_dict; [done|]. intros Hd. unfold _cat4__decode_callsign. wp_auto.
Qed.

#[local] Instance decode_ac_ok :
  SliceOk _cat4__decode_ac 2 (fun d => fields_ok _cat4__decode_ac_schema d = true).
Proof.
  intros raw Hraw. unfold _cat4__decode_ac, _cat4__u16. apply returns_bind.
  eapply returns_weaken; [by apply slice_ok_u16| |done]. intros w Hw. cbn [returns].
  solve_fields.
Qed.

(** The two aircraft blocks differ in the prefix of their keys. *)
Ltac solve_block :=
  intros p Hp; apply call_opt_ok_dict; [done|]; intros Hd;
  unfold _cat4__u16, _cat4__s16, _cat4__s24, _cat4__s32, _cat4__decode_callsign; wp_auto.

#[local] Instance aircraft1_ok data :
  CallOptOk data (fun pos => _cat4__decode_aircraft_block data pos "aircraft1")
    (fun d => fields_ok (_cat4__decode_aircraft_block_schema "aircraft1") d = true).
Proof. solve_block. Qed.

#[local] Instance aircraft2_ok data :
  CallOptOk data (fun pos => _cat4__decode_aircraft_block data pos "aircraft2")
    (fun d => fields_ok (_cat4__decode_aircraft_block_schema "aircraft2") d = true).
Proof. solve_block. Qed.

Lemma decode_120_ok data p :
  0 <= p <= len data ->
  returns (_cat4__decode_120 data p)
    (fun r => match r with
              | Some (Pair d p') => p <= p' <= len data /\ fields_ok _cat4__decode_120_schema d = true
              | _ => True
              end) noE.
Proof.
  intros Hp. apply run_returns. pose proof (wt_nil _cat4__decode_120_schema). wp_auto.
Qed.

Lemma item_ok_cat004 data frn :
  item_ok data _cat4_decode_cat004_schema (record_of _cat4_decode_cat004_schema) value_error
    (_cat4_decode_cat004_item data frn).
Proof.
  intros p d Hp Hd. unfold _cat4_decode_cat004_item. autounfold with cat4. by_items wp_auto.
  apply wp_lift. eapply returns_weaken; [by apply decode_120_ok| |done].
  intros [[fields pos|out]|] Hr; [destruct Hr as [Hpos Hr]; wp_auto|by apply wp_raise|wp_auto].
Qed.

Lemma decode_cat004_ok data :
  returns (_cat4_decode_cat004 data) (record_of _cat4_decode_cat004_schema) value_error.
Proof. apply frame_decoder_ok; [exact _|]. intros frn _. apply item_ok_cat004. Qed.

(** The keys and values of a published alert. *)
Definition cat004_schema : schema :=
  [("lat_deg", TFloat); ("lon_deg", TFloat)] ++ _cat4_decode_cat004_schema ++ stamp_schema.

Lemma position4_ok d :
  wt _cat4_decode_cat004_schema d -> wt cat004_schema (_cat4_position d).
Proof.
  intros Hd. assert (wt cat004_schema d) as Hd' by (by apply (wt_le _cat4_decode_cat004_schema)).
  assert (forall k v, dget d k = Some v -> field_ty cat004_schema k = Some TFloat ->
            forall k', field_ty cat004_schema k' = Some TFloat -> field_ok cat004_schema k' v = true) as Hk.
  { intros k v Hk Ht k' Hk'. apply (field_okI _ _ _ TFloat); [done|]. by apply (wt_get cat004_schema d k). }
  unfold _cat4_position. repeat case_match; try exact Hd';
    (apply wt_dset; [apply wt_dset; [exact Hd'|]|]); eapply Hk; eauto; reflexivity.
Qed.

(** For every frame, the CAT-004 handler terminates and either publishes at
    most one alert, of schema [cat004_schema], which keeps to the protobuf
    message AsterixCat4Alert and goes to the topic its own SAC/SIC give, or
    raises ValueError. *)
Theorem cat004_handler_ok root now data :
  returns (_cat4_handler root now data)
    (fun out => len out <= 1 /\ samples_ok (_cat4_TOPIC_ALERT root) cat004_schema AsterixCat4Alert out)
    value_error.
Proof.
  apply (located_handler_ok _ _cat4_decode_cat004_schema); [|exact position4_ok|reflexivity].
  apply decode_cat004_ok.
Qed.

(** The CAT-004 handler does raise: a frame that ends inside I004/120 after the
    conflict nature makes [_cat4__decode_120] return a bare dictionary, and
    unpacking it raises ValueError in the receive loop. *)
Lemma cat004_truncated_120_raises root now :
  _cat4_handler root now (of_ints [0x01; 0x20; 0x80]) = Raise ValueError.
Proof. vm_compute. reflexivity. Qed.
