(* ===== verification/Cat007.v ===== *)
(** * CAT-007: directed interrogation

    cat.py:1433-2220. The downlink and uplink messages share one decoder; which
    items follow FRN 3 depends on the message type. *)

From S2P Require Import Prelude PyFloat PyData Schema Ranges Cursor Safety Contract AsterixCommon.

Definition _cat7_TOPIC_TRACK (root source : string) : string :=
  root +:+ "/air/" +:+ source +:+ "/radar/unknown/aircraft".
Definition _cat7_parse_fspec := parse_fspec.
Definition _cat7__skip_len_field := skip_len_field.
Definition _cat7__u16 := u16.
Definition _cat7__s16 := s16.
Definition _cat7__s24 := s24.
Definition _cat7__decode_callsign := decode_callsign.
Definition _cat7__polar_to_wgs84 `{Libm} := polar_to_wgs84.
Definition _cat7__cartesian_to_wgs84 `{Libm} := cartesian_to_wgs84.

(** cat.py:1479-1479 *)
Definition _cat7_CAT_007 : Z := 7.
Definition _cat7__CHARSET_6BIT := CHARSET_6BIT.
(** cat.py:1483-1485 *)
Definition _cat7__TYP : table :=
  [(0, "no_detection"); (1, "single_psr"); (2, "single_ssr"); (3, "ssr_psr");
   (4, "mode_s_all_call"); (5, "mode_s_roll_call"); (6, "mode_s_all_call_psr");
   (7, "mode_s_roll_call_psr")].
(** cat.py:1486-1486 *)
Definition _cat7__FOEFRI : table :=
  [(0, "no_mode4"); (1, "friendly"); (2, "unknown"); (3, "no_reply")].
(** cat.py:1487-1487 *)
Definition _cat7__RAD : table :=
  [(0, "combined"); (1, "psr"); (2, "ssr_mode_s"); (3, "invalid")].
(** cat.py:1488-1488 *)
Definition _cat7__CDM : table :=
  [(0, "maintaining"); (1, "climbing"); (2, "descending"); (3, "unknown")].
(** cat.py:1489-1490 *)
Definition _cat7__COM : table :=
  [(0, "surveillance_only"); (1, "comm_ab"); (2, "comm_ab_ul_elm"); (3, "comm_ab_ul_dl_elm");
   (4, "level_5")].
(** cat.py:1491-1493 *)
Definition _cat7__STAT : table :=
  [(0, "no_alert_no_spi_airborne"); (1, "no_alert_no_spi_ground"); (2, "alert_no_spi_airborne");
   (3, "alert_no_spi_ground"); (4, "alert_spi"); (5, "no_alert_spi"); (7, "unknown")].
(** cat.py:1494-1498 *)
Definition _cat7__MSG_TYPE_410 : table :=
  [(0, "acknowledge"); (1, "reject"); (2, "interrogation_finished"); (3, "interrogation_completed");
   (4, "target_report"); (5, "request_type_a"); (6, "request_type_b"); (7, "request_type_c");
   (8, "selective_bds_register")].
(** cat.py:1499-1520 *)
Definition _cat7__WARNING_CODES : table :=
  [(0, "not_defined"); (1, "multipath_reply"); (2, "sidelobe_interrogation"); (3, "split_plot");
   (4, "second_time_around"); (5, "angel"); (6, "slow_moving_terrestrial_vehicle");
   (7, "fixed_psr"); (8, "slow_psr"); (9, "low_quality_psr"); (10, "phantom_ssr");
   (11, "non_matching_mode3a"); (12, "mode_c_abnormal"); (13, "target_in_clutter");
   (14, "max_doppler_in_zero_filter"); (15, "transponder_anomaly");
   (16, "duplicated_illegal_mode_s_address"); (17, "mode_s_error_correction");
   (18, "undecodable_mode_c"); (19, "birds"); (20, "flock_of_birds"); (21, "mode1_present");
   (22, "mode2_present"); (23, "wind_turbine"); (24, "helicopter");
   (25, "max_reinterrogations_surveillance"); (26, "max_reinterrogations_bds");
   (27, "bds_overlay_incoherence"); (28, "bds_swap"); (29, "track_update_in_zenithal_gap");
   (30, "mode_s_reacquired"); (31, "duplicated_mode5_pair"); (32, "wrong_df_format");
   (33, "transponder_anomaly_xpd"); (34, "transponder_anomaly_si"); (35, "potential_ic_conflict");
   (36, "ic_conflict_detection_possible"); (64, "ambiguous_ack_overlapping_windows");
   (65, "ambiguous_ack_duplicate_request"); (66, "ambiguous_ack_duplicate_track");
   (67, "reject_unable_to_process"); (68, "reject_too_many_parallel_requests");
   (69, "reject_duplicate_request")].
Definition _cat7__decode_mode_octal (data : bytes) (pos : Z) (width : Z) :
    exc (bool * bool * bool * Z * Z) :=
  run (
    b1 <- at_ data 0 ;;
    b2 <- at_ data 1 ;;
    let v := bit b1 0x80 in
    let g := bit b1 0x40 in
    let l := bit b1 0x20 in
    let code := Z.lor (Z.shiftl (Z.land b1 0x0F) 8) b2 in
    return_ (fun pos _ => (v, g, l, code, pos + 2))) pos [].

Definition _cat7__decode_conf12 (data : bytes) (pos : Z) : exc (dict * Z) :=
  let? v := _cat7__u16 (slice data pos (pos + 2)) in
  let raw := Z.land v 0x0FFF in
  let names := ["qa4"; "qa2"; "qa1"; "qb4"; "qb2"; "qb1"; "qc4"; "qc2"; "qc1"; "qd4"; "qd2"; "qd1"] in
  Ok (pulse_quality names raw, pos + 2).

Definition _cat7__decode_020_schema : schema :=
  [("report_type", TOneOf ("undefined" :: map snd _cat7__TYP)); ("simulated", TBool);
   ("rdp_chain", TInt 1 2); ("spi", TBool); ("field_monitor", TBool); ("test_target", TBool);
   ("extended_range", TBool); ("x_pulse_present", TBool); ("military_emergency", TBool);
   ("military_id", TBool); ("mode4", TOneOf ("undefined" :: map snd _cat7__FOEFRI));
   ("adsb_populated", TBool); ("adsb_available", TBool); ("scn_populated", TBool);
   ("scn_available", TBool); ("pai_populated", TBool); ("pai_available", TBool);
   ("acasvx_populated", TBool); ("acasvx_version", TInt 0 15); ("poxpr_populated", TBool);
   ("poxpr_available", TBool); ("poact_populated", TBool); ("poact_active", TBool);
   ("dtfxpr_populated", TBool); ("dtfxpr_supported", TBool); ("dtfact_populated", TBool);
   ("dtfact_active", TBool); ("irmxpr_populated", TBool); ("irmxpr_capable", TBool);
   ("irmact_populated", TBool); ("irmact_active", TBool)].

(** cat.py:1649-1695 *)
Definition _cat7__decode_020 (data : bytes) (pos : Z) (msg : dict) : exc (dict * Z) :=
  run (
    need data 1 (return_ (fun pos msg => (msg, pos))) ;;
    b <- at_ data 0 ;;
    adv 1 ;;
    set_ "report_type" (VStr (tget_or _cat7__TYP (Z.land (Z.shiftr b 5) 0x07) "undefined")) ;;
    set_ "simulated" (VBool (bit b 0x10)) ;;
    set_ "rdp_chain" (VInt (if bit b 0x08 then 2 else 1)) ;;
    set_ "spi" (VBool (bit b 0x04)) ;;
    set_ "field_monitor" (VBool (bit b 0x02)) ;;
    when (negb (bit b 0x01)) (return_ (fun pos msg => (msg, pos))) ;;
    need data 1 (return_ (fun pos msg => (msg, pos))) ;;
    b <- at_ data 0 ;;
    adv 1 ;;
    set_ "test_target" (VBool (bit b 0x80)) ;;
    set_ "extended_range" (VBool (bit b 0x40)) ;;
    set_ "x_pulse_present" (VBool (bit b 0x20)) ;;
    set_ "military_emergency" (VBool (bit b 0x10)) ;;
    set_ "military_id" (VBool (bit b 0x08)) ;;
    set_ "mode4" (VStr (tget_or _cat7__FOEFRI (Z.land (Z.shiftr b 1) 0x03) "undefined")) ;;
    when (negb (bit b 0x01)) (return_ (fun pos msg => (msg, pos))) ;;
    need data 1 (return_ (fun pos msg => (msg, pos))) ;;
    b <- at_ data 0 ;;
    adv 1 ;;
    set_ "adsb_populated" (VBool (bit b 0x80)) ;;
    set_ "adsb_available" (VBool (bit b 0x40)) ;;
    set_ "scn_populated" (VBool (bit b 0x20)) ;;
    set_ "scn_available" (VBool (bit b 0x10)) ;;
    set_ "pai_populated" (VBool (bit b 0x08)) ;;
    set_ "pai_available" (VBool (bit b 0x04)) ;;
    when (negb (bit b 0x01)) (return_ (fun pos msg => (msg, pos))) ;;
    need data 1 (return_ (fun pos msg => (msg, pos))) ;;
    b <- at_ data 0 ;;
    adv 1 ;;
    set_ "acasvx_populated" (VBool (bit b 0x80)) ;;
    set_ "acasvx_version" (VInt (Z.land (Z.shiftr b 3) 0x0F)) ;;
    set_ "poxpr_populated" (VBool (bit b 0x04)) ;;
    set_ "poxpr_available" (VBool (bit b 0x02)) ;;
    when (negb (bit b 0x01)) (return_ (fun pos msg => (msg, pos))) ;;
    need data 1 (return_ (fun pos msg => (msg, pos))) ;;
    b <- at_ data 0 ;;
    adv 1 ;;
    set_ "poact_populated" (VBool (bit b 0x80)) ;;
    set_ "poact_active" (VBool (bit b 0x40)) ;;
    set_ "dtfxpr_populated" (VBool (bit b 0x20)) ;;
    set_ "dtfxpr_supported" (VBool (bit b 0x10)) ;;
    set_ "dtfact_populated" (VBool (bit b 0x08)) ;;
    set_ "dtfact_active" (VBool (bit b 0x04)) ;;
    when (negb (bit b 0x01)) (return_ (fun pos msg => (msg, pos))) ;;
    need data 1 (return_ (fun pos msg => (msg, pos))) ;;
    b <- at_ data 0 ;;
    adv 1 ;;
    set_ "irmxpr_populated" (VBool (bit b 0x80)) ;;
    set_ "irmxpr_capable" (VBool (bit b 0x40)) ;;
    set_ "irmact_populated" (VBool (bit b 0x20)) ;;
    set_ "irmact_active" (VBool (bit b 0x10)) ;;
    return_ (fun pos msg => (msg, pos))) pos msg.

Definition _cat7__decode_170_schema : schema :=
  [("confirmed", TBool); ("radar_type", TOneOf ("undefined" :: map snd _cat7__RAD));
   ("low_confidence", TBool); ("horizontal_maneuver", TBool);
   ("climb_descend", TOneOf ("undefined" :: map snd _cat7__CDM)); ("end_of_track", TBool);
   ("ghost_track", TBool); ("neighboring_node", TBool); ("slant_range_corrected", TBool)].

(** cat.py:1698-1715 *)
Definition _cat7__decode_170 (data : bytes) (pos : Z) (msg : dict) : exc (dict * Z) :=
  run (
    need data 1 (return_ (fun pos msg => (msg, pos))) ;;
    b <- at_ data 0 ;;
    adv 1 ;;
    set_ "confirmed" (VBool (negb (bit b 0x80))) ;;
    set_ "radar_type" (VStr (tget_or _cat7__RAD (Z.land (Z.shiftr b 5) 0x03) "undefined")) ;;
    set_ "low_confidence" (VBool (bit b 0x10)) ;;
    set_ "horizontal_maneuver" (VBool (bit b 0x08)) ;;
    set_ "climb_descend" (VStr (tget_or _cat7__CDM (Z.land (Z.shiftr b 1) 0x03) "undefined")) ;;
    when (negb (bit b 0x01)) (return_ (fun pos msg => (msg, pos))) ;;
    need data 1 (return_ (fun pos msg => (msg, pos))) ;;
    b <- at_ data 0 ;;
    adv 1 ;;
    set_ "end_of_track" (VBool (bit b 0x80)) ;;
    set_ "ghost_track" (VBool (bit b 0x40)) ;;
    set_ "neighboring_node" (VBool (bit b 0x20)) ;;
    set_ "slant_range_corrected" (VBool (bit b 0x10)) ;;
    return_ (fun pos msg => (msg, pos))) pos msg.

Definition _cat7__decode_085_schema : schema :=
  [("mode5_interrogation", TBool); ("mode5_id_reply", TBool); ("mode5_data_reply", TBool);
   ("mode5_m1", TBool); ("mode5_m2", TBool); ("mode5_m3", TBool); ("mode5_mc", TBool);
   ("mode5_pin", TInt 0 16383); ("mode5_nat", TInt 0 31); ("mode5_mis", TInt 0 63);
   ("mode5_lat_deg", TFloat); ("mode5_lon_deg", TFloat); ("mode5_gnss_alt_ft", TFloat);
   ("extended_mode1_squawk", TStr); ("extended_mode1_validated", TBool);
   ("extended_mode1_garbled", TBool); ("time_offset_s", TFloat); ("x_pulse_5", TBool);
   ("x_pulse_c", TBool); ("x_pulse_3", TBool); ("x_pulse_2", TBool); ("x_pulse_1", TBool)].

(** cat.py:1730-1782 *)
Definition _cat7__decode_085 (data : bytes) (pos : Z) : exc (option (dict * Z)) :=
  run (
    need data 1 (return_ (fun _ _ => None)) ;;
    fx <- at_ data 0 ;;
    adv 1 ;;
    when (bit fx 0x80) (
      need data 1 (return_ (fun pos out => Some (out, pos))) ;;
      b <- at_ data 0 ;;
      adv 1 ;;
      set_ "mode5_interrogation" (VBool (bit b 0x80)) ;;
      set_ "mode5_id_reply" (VBool (bit b 0x40)) ;;
      set_ "mode5_data_reply" (VBool (bit b 0x20)) ;;
      set_ "mode5_m1" (VBool (bit b 0x10)) ;;
      set_ "mode5_m2" (VBool (bit b 0x08)) ;;
      set_ "mode5_m3" (VBool (bit b 0x04)) ;;
      set_ "mode5_mc" (VBool (bit b 0x02))) ;;
    when (bit fx 0x40) (
      need data 4 (return_ (fun pos out => Some (out, pos))) ;;
      raw <- on_slice data 0 4 (fun raw => Ok (int_from_bytes raw)) ;;
      adv 4 ;;
      set_ "mode5_pin" (VInt (Z.land (Z.shiftr raw 16) 0x3FFF)) ;;
      set_ "mode5_nat" (VInt (Z.land (Z.shiftr raw 8) 0x1F)) ;;
      set_ "mode5_mis" (VInt (Z.land raw 0x3F))) ;;
    when (bit fx 0x20) (
      need data 6 (return_ (fun pos out => Some (out, pos))) ;;
      v2 <- on_slice data 0 3 _cat7__s24 ;;
      set_ "mode5_lat_deg" (VFloat (py_round (fdiv_raw (fmul (fl v2) (fl 180)) (fl (2 ^ 23))) 7)) ;;
      v3 <- on_slice data 3 6 _cat7__s24 ;;
      set_ "mode5_lon_deg" (VFloat (py_round (fdiv_raw (fmul (fl v3) (fl 180)) (fl (2 ^ 23))) 7)) ;;
      adv 6) ;;
    when (bit fx 0x10) (
      need data 2 (return_ (fun pos out => Some (out, pos))) ;;
      b1 <- at_ data 0 ;;
      b2 <- at_ data 1 ;;
      let res_25ft := bit b1 0x40 in
      let raw14 := Z.lor (Z.shiftl (Z.land b1 0x3F) 8) b2 in
      let raw14 := if bit raw14 0x2000 then raw14 - (Z.shiftl 1 14) else raw14 in
      set_ "mode5_gnss_alt_ft" (VFloat (py_round (fmul (fl raw14) (if res_25ft then fl 25 else fl 100)) 1)) ;;
      adv 2) ;;
    when (bit fx 0x08) (
      need data 2 (return_ (fun pos out => Some (out, pos))) ;;
      r <- call (fun pos => _cat7__decode_mode_octal data pos 12) ;;
      let '(v, g, l, code) := r in
      set_ "extended_mode1_squawk" (VStr (fmt_o 4 code)) ;;
      set_ "extended_mode1_validated" (VBool (negb v)) ;;
      set_ "extended_mode1_garbled" (VBool g)) ;;
    when (bit fx 0x04) (
      need data 1 (return_ (fun pos out => Some (out, pos))) ;;
      b4 <- at_ data 0 ;;
      set_ "time_offset_s" (VFloat (py_round (fdiv_raw (fl (sign_extend 8 b4)) (fl 128)) 4)) ;;
      adv 1) ;;
    when (bit fx 0x02) (
      need data 1 (return_ (fun pos out => Some (out, pos))) ;;
      b <- at_ data 0 ;;
      adv 1 ;;
      set_ "x_pulse_5" (VBool (bit b 0x10)) ;;
      set_ "x_pulse_c" (VBool (bit b 0x08)) ;;
      set_ "x_pulse_3" (VBool (bit b 0x04)) ;;
      set_ "x_pulse_2" (VBool (bit b 0x02)) ;;
      set_ "x_pulse_1" (VBool (bit b 0x01))) ;;
    return_ (fun pos out => Some (out, pos))) pos [].

Definition _cat7__decode_120_schema : schema :=
  [("doppler_speed_doubtful", TBool); ("doppler_speed_ms", TInt (-512) 511);
   ("raw_doppler", TList (TDict [("doppler_ms", TInt 0 65535); ("ambiguous_doppler_ms", TInt 0 65535); ("frequency_mhz", TInt 0 65535)]))].

(** cat.py:1785-1812 *)
Definition _cat7__decode_120 (data : bytes) (pos : Z) : exc (option (dict * Z)) :=
  run (
    need data 1 (return_ (fun _ _ => None)) ;;
    fx <- at_ data 0 ;;
    adv 1 ;;
    when (bit fx 0x80) (
      need data 2 (return_ (fun pos out => Some (out, pos))) ;;
      b1 <- at_ data 0 ;;
      b2 <- at_ data 1 ;;
      let doubtful := bit b1 0x80 in
      let raw10 := Z.lor (Z.shiftl (Z.land b1 0x03) 8) b2 in
      let raw10 := if bit raw10 0x0200 then raw10 - (Z.shiftl 1 10) else raw10 in
      set_ "doppler_speed_doubtful" (VBool doubtful) ;;
      set_ "doppler_speed_ms" (VInt raw10) ;;
      adv 2) ;;
    when (bit fx 0x40) (
      need data 1 (return_ (fun pos out => Some (out, pos))) ;;
      rep <- at_ data 0 ;;
      adv 1 ;;
      entries <- for_range (Z.to_nat rep) (fun entries =>
          none <- short data 6 ;;
          if none then ret (stop entries) else
          v1 <- on_slice data 0 2 _cat7__u16 ;;
          v2 <- on_slice data 2 4 _cat7__u16 ;;
          v3 <- on_slice data 4 6 _cat7__u16 ;;
          let entries := entries ++ [VDict [("doppler_ms", VInt v1); ("ambiguous_doppler_ms", VInt v2); ("frequency_mhz", VInt v3)]] in
          adv 6 ;;
          ret (more entries)) [] ;;
      when (nonempty entries) (set_ "raw_doppler" (VList entries))) ;;
    return_ (fun pos out => Some (out, pos))) pos [].

Definition _cat7__decode_130_schema : schema :=
  [("ssr_runlength_deg", TFloat); ("ssr_reply_count", TInt 0 255);
   ("ssr_amplitude_dbm", TInt (-128) 127); ("psr_runlength_deg", TFloat);
   ("psr_amplitude_dbm", TInt (-128) 127); ("psr_ssr_range_diff_nm", TFloat);
   ("psr_ssr_azimuth_diff_deg", TFloat)].

(** cat.py:1815-1841 *)
Definition _cat7__decode_130 (data : bytes) (pos : Z) : exc (option (dict * Z)) :=
  run (
    need data 1 (return_ (fun _ _ => None)) ;;
    fx <- at_ data 0 ;;
    adv 1 ;;
    when (bit fx 0x80) (
      need data 1 (return_ (fun pos out => Some (out, pos))) ;;
      b1 <- at_ data 0 ;;
      set_ "ssr_runlength_deg" (VFloat (py_round (fmul (fl b1) (fdiv_raw (fl 360) (fl 8192))) 4)) ;;
      adv 1) ;;
    when (bit fx 0x40) (
      need data 1 (return_ (fun pos out => Some (out, pos))) ;;
      b2 <- at_ data 0 ;;
      set_ "ssr_reply_count" (VInt b2) ;;
      adv 1) ;;
    when (bit fx 0x20) (
      need data 1 (return_ (fun pos out => Some (out, pos))) ;;
      b3 <- at_ data 0 ;;
      set_ "ssr_amplitude_dbm" (VInt (sign_extend 8 b3)) ;;
      adv 1) ;;
    when (bit fx 0x10) (
      need data 1 (return_ (fun pos out => Some (out, pos))) ;;
      b4 <- at_ data 0 ;;
      set_ "psr_runlength_deg" (VFloat (py_round (fmul (fl b4) (fdiv_raw (fl 360) (fl 8192))) 4)) ;;
      adv 1) ;;
    when (bit fx 0x08) (
      need data 1 (return_ (fun pos out => Some (out, pos))) ;;
      b5 <- at_ data 0 ;;
      set_ "psr_amplitude_dbm" (VInt (sign_extend 8 b5)) ;;
      adv 1) ;;
    when (bit fx 0x04) (
      need data 1 (return_ (fun pos out => Some (out, pos))) ;;
      b6 <- at_ data 0 ;;
      set_ "psr_ssr_range_diff_nm" (VFloat (py_round (fdiv_raw (fl (sign_extend 8 b6)) (fl 256)) 5)) ;;
      adv 1) ;;
    when (bit fx 0x02) (
      need data 1 (return_ (fun pos out => Some (out, pos))) ;;
      b7 <- at_ data 0 ;;
      set_ "psr_ssr_azimuth_diff_deg" (VFloat (py_round (fmul (fl (sign_extend 8 b7)) (fdiv_raw (fl 360) (fl 16384))) 4)) ;;
      adv 1) ;;
    return_ (fun pos out => Some (out, pos))) pos [].

Definition _cat7__decode_415_schema : schema :=
  [("required_interrogation_modes_raw", TStr); ("mip_table_raw", TInt 0 255)].

(** cat.py:1844-1863 *)
Definition _cat7__decode_415 (data : bytes) (pos : Z) : exc (option (dict * Z)) :=
  run (
    need data 1 (return_ (fun _ _ => None)) ;;
    fx <- at_ data 0 ;;
    adv 1 ;;
    when (bit fx 0x80) (
      need data 4 (return_ (fun pos out => Some (out, pos))) ;;
      s1 <- on_slice data 0 4 (fun raw => Ok (hex raw)) ;;
      set_ "required_interrogation_modes_raw" (VStr s1) ;;
      adv 4) ;;
    when (bit fx 0x40) (
      need data 1 (return_ (fun pos out => Some (out, pos))) ;;
      b2 <- at_ data 0 ;;
      set_ "mip_table_raw" (VInt b2) ;;
      adv 1) ;;
    return_ (fun pos out => Some (out, pos))) pos [].

Definition _cat7__decode_450_schema : schema :=
  [("not_executed", TBool); ("truncated_all_call", TBool); ("activated_once", TBool);
   ("activated_all_validity", TBool); ("mode4_interrogations_raw", TInt 0 255);
   ("mode5_interrogations_raw", TInt 0 255);
   ("mode_s_all_call_lockout", TOneOf ["no_lockout"; "lockout_used"; "lockout_override"]);
   ("mode_s_all_call_count", TInt 0 255); ("mark_x_interrogations_raw", TInt 0 255);
   ("selective_mode_s_raw", TInt 0 255)].

(** cat.py:1866-1896 *)
Definition _cat7__decode_450 (data : bytes) (pos : Z) : exc (option (dict * Z)) :=
  run (
    need data 1 (return_ (fun _ _ => None)) ;;
    fx <- at_ data 0 ;;
    adv 1 ;;
    when (bit fx 0x80) (
      need data 1 (return_ (fun pos out => Some (out, pos))) ;;
      b <- at_ data 0 ;;
      adv 1 ;;
      set_ "not_executed" (VBool (bit b 0x08)) ;;
      set_ "truncated_all_call" (VBool (bit b 0x04)) ;;
      set_ "activated_once" (VBool (bit b 0x02)) ;;
      set_ "activated_all_validity" (VBool (bit b 0x01))) ;;
    when (bit fx 0x40) (
      need data 1 (return_ (fun pos out => Some (out, pos))) ;;
      b1 <- at_ data 0 ;;
      set_ "mode4_interrogations_raw" (VInt b1) ;;
      adv 1) ;;
    when (bit fx 0x20) (
      need data 1 (return_ (fun pos out => Some (out, pos))) ;;
      b2 <- at_ data 0 ;;
      set_ "mode5_interrogations_raw" (VInt b2) ;;
      adv 1) ;;
    when (bit fx 0x10) (
      need data 2 (return_ (fun pos out => Some (out, pos))) ;;
      w <- on_slice data 0 2 _cat7__u16 ;;
      s4 <- lift (index ["no_lockout"; "lockout_used"; "lockout_override"] (Z.min (Z.land (Z.shiftr w 8) 0x03) 2)) ;;
      set_ "mode_s_all_call_lockout" (VStr s4) ;;
      set_ "mode_s_all_call_count" (VInt (Z.land w 0xFF)) ;;
      adv 2) ;;
    when (bit fx 0x08) (
      need data 1 (return_ (fun pos out => Some (out, pos))) ;;
      b5 <- at_ data 0 ;;
      set_ "mark_x_interrogations_raw" (VInt b5) ;;
      adv 1) ;;
    when (bit fx 0x04) (
      need data 1 (return_ (fun pos out => Some (out, pos))) ;;
      b6 <- at_ data 0 ;;
      set_ "selective_mode_s_raw" (VInt b6) ;;
      adv 1) ;;
    return_ (fun pos out => Some (out, pos))) pos [].

Definition _cat7_decode_cat007_schema : schema :=
  [("tod_s", TFloat); ("request_high_priority", TBool); ("request_number", TInt 0 32767);
   ("rho_nm", TFloat); ("theta_deg", TFloat); ("x_nm", TFloat); ("y_nm", TFloat);
   ("mode3a_squawk", TStr); ("mode3a_validated", TBool); ("mode3a_garbled", TBool);
   ("flight_level", TFloat); ("fl_validated", TBool); ("fl_garbled", TBool);
   ("plot_characteristics", TDict _cat7__decode_130_schema); ("icao24", TStr); ("callsign", TStr);
   ("mode_s_mb_data", TList (TDict [("data", TStr); ("bds1", TInt 0 15); ("bds2", TInt 0 15)])); ("track_num", TInt 0 4095); ("speed_ms", TFloat);
   ("heading_deg", TFloat); ("sigma_x_nm", TFloat); ("sigma_y_nm", TFloat);
   ("sigma_speed_ms", TFloat); ("sigma_heading_deg", TFloat); ("warnings", TList TStr);
   ("mode3a_confidence", TDict conf_schema); ("mode2_confidence", TDict conf_schema);
   ("mode_c_gray_code", TInt 0 4095); ("mode_c_validated", TBool); ("mode_c_garbled", TBool);
   ("mode_c_confidence", TDict conf_schema); ("height_3d_ft", TFloat);
   ("radial_doppler", TDict _cat7__decode_120_schema);
   ("comm_capability", TOneOf ("undefined" :: map snd _cat7__COM));
   ("flight_status", TOneOf ("undefined" :: map snd _cat7__STAT)); ("si_capable", TBool);
   ("mode_s_service_capable", TBool); ("altitude_resolution_25ft", TBool);
   ("aircraft_id_capable", TBool); ("bds10_raw", TInt 0 255); ("acas_ra_raw", TStr);
   ("mode1_validated", TBool); ("mode1_garbled", TBool); ("mode1_smoothed", TBool);
   ("mode1_code", TStr); ("mode2_squawk", TStr); ("mode2_validated", TBool);
   ("mode2_garbled", TBool);
   ("mode1_confidence", TDict [("qa4", TBool); ("qa2", TBool); ("qa1", TBool); ("qb2", TBool); ("qb1", TBool)]);
   ("interrogation_result", TDict _cat7__decode_450_schema);
   ("mode5", TDict _cat7__decode_085_schema);
   ("required_interrogation_modes", TDict _cat7__decode_415_schema);
   ("window_rho_start_nm", TFloat); ("window_rho_end_nm", TFloat);
   ("window_theta_start_deg", TFloat); ("window_theta_end_deg", TFloat);
   ("bds_register_requests", TList (TDict [("bds1", TInt 0 15); ("bds2", TInt 0 15)])); ("sac", TInt 0 255); ("sic", TInt 0 255);
   ("dest_sac", TInt 0 255); ("dest_sic", TInt 0 255); ("msg_type", TStr); ("is_uplink", TBool)] ++
  _cat7__decode_020_schema ++ _cat7__decode_170_schema.

Definition _cat7_decode_cat007_item (data : bytes) (tag : string) : cur (option dict) unit :=
  if String.eqb tag "140" then
    need data 3 break_ ;;
    b1 <- at_ data 0 ;;
    b2 <- at_ data 1 ;;
    b3 <- at_ data 2 ;;
    let raw := Z.lor (Z.lor (Z.shiftl b1 16) (Z.shiftl b2 8)) b3 in
    set_ "tod_s" (VFloat (fdiv_raw (fl raw) (fl 128))) ;;
    adv 3
  else if String.eqb tag "400" then
    need data 2 break_ ;;
    w <- on_slice data 0 2 _cat7__u16 ;;
    adv 2 ;;
    set_ "request_high_priority" (VBool (bit w 0x8000)) ;;
    set_ "request_number" (VInt (Z.land w 0x7FFF))
  else if String.eqb tag "020" then
    call_on (_cat7__decode_020 data)
  else if String.eqb tag "040" then
    need data 4 break_ ;;
    v5 <- on_slice data 0 2 _cat7__u16 ;;
    let rho := fdiv_raw (fl v5) (fl 256) in
    v6 <- on_slice data 2 4 _cat7__u16 ;;
    let theta := fmul (fl v6) (fdiv_raw (fl 360) (fl 65536)) in
    set_ "rho_nm" (VFloat (py_round rho 4)) ;;
    set_ "theta_deg" (VFloat (py_round theta 4)) ;;
    adv 4
  else if String.eqb tag "042" then
    need data 4 break_ ;;
    v7 <- on_slice data 0 2 _cat7__s16 ;;
    set_ "x_nm" (VFloat (py_round (fdiv_raw (fl v7) (fl 128)) 4)) ;;
    v8 <- on_slice data 2 4 _cat7__s16 ;;
    set_ "y_nm" (VFloat (py_round (fdiv_raw (fl v8) (fl 128)) 4)) ;;
    adv 4
  else if String.eqb tag "070" then
    need data 2 break_ ;;
    r <- call (fun pos => _cat7__decode_mode_octal data pos 12) ;;
    let '(v, g, l, code) := r in
    set_ "mode3a_squawk" (VStr (fmt_o 4 code)) ;;
    set_ "mode3a_validated" (VBool (negb v)) ;;
    set_ "mode3a_garbled" (VBool g)
  else if String.eqb tag "090" then
    need data 2 break_ ;;
    b1 <- at_ data 0 ;;
    b2 <- at_ data 1 ;;
    let v := bit b1 0x80 in
    let g := bit b1 0x40 in
    let raw14 := Z.lor (Z.shiftl (Z.land b1 0x3F) 8) b2 in
    let raw14 := if bit raw14 0x2000 then raw14 - (Z.shiftl 1 14) else raw14 in
    set_ "flight_level" (VFloat (py_round (fmul (fl raw14) (dec 25 2)) 2)) ;;
    set_ "fl_validated" (VBool (negb v)) ;;
    set_ "fl_garbled" (VBool g) ;;
    adv 2
  else if String.eqb tag "130" then
    fields <- call_opt (_cat7__decode_130 data) break_ ;;
    when (nonempty fields) (set_ "plot_characteristics" (VDict fields))
  else if String.eqb tag "220" then
    need data 3 break_ ;;
    v9 <- on_slice data 0 3 (fun raw => Ok (int_from_bytes raw)) ;;
    set_ "icao24" (VStr (fmt_x 6 v9)) ;;
    adv 3
  else if String.eqb tag "240" then
    need data 6 break_ ;;
    s10 <- on_slice data 0 6 _cat7__decode_callsign ;;
    set_ "callsign" (VStr s10) ;;
    adv 6
  else if String.eqb tag "250" then
    need data 1 break_ ;;
    rep <- at_ data 0 ;;
    adv 1 ;;
    entries <- for_range (Z.to_nat rep) (fun entries =>
        none <- short data 8 ;;
        if none then ret (stop entries) else
        mb_hex <- on_slice data 0 7 (fun mb => Ok (hex mb)) ;;
        bds <- at_ data 7 ;;
        let entries := entries ++ [VDict [("data", VStr mb_hex); ("bds1", VInt (Z.land (Z.shiftr bds 4) 0x0F)); ("bds2", VInt (Z.land bds 0x0F))]] in
        adv 8 ;;
        ret (more entries)) [] ;;
    when (nonempty entries) (set_ "mode_s_mb_data" (VList entries))
  else if String.eqb tag "161" then
    need data 2 break_ ;;
    v11 <- on_slice data 0 2 _cat7__u16 ;;
    set_ "track_num" (VInt (Z.land v11 0x0FFF)) ;;
    adv 2
  else if String.eqb tag "200" then
    need data 4 break_ ;;
    v12 <- on_slice data 0 2 _cat7__u16 ;;
    set_ "speed_ms" (VFloat (py_round (fmul (fdiv_raw (fl v12) (fl 16384)) (fl 1852)) 3)) ;;
    v13 <- on_slice data 2 4 _cat7__u16 ;;
    set_ "heading_deg" (VFloat (py_round (fmul (fl v13) (fdiv_raw (fl 360) (fl 65536))) 4)) ;;
    adv 4
  else if String.eqb tag "170" then
    call_on (_cat7__decode_170 data)
  else if String.eqb tag "210" then
    need data 4 break_ ;;
    b14 <- at_ data 0 ;;
    set_ "sigma_x_nm" (VFloat (py_round (fdiv_raw (fl b14) (fl 128)) 4)) ;;
    b15 <- at_ data 1 ;;
    set_ "sigma_y_nm" (VFloat (py_round (fdiv_raw (fl b15) (fl 128)) 4)) ;;
    b16 <- at_ data 2 ;;
    set_ "sigma_speed_ms" (VFloat (py_round (fmul (fdiv_raw (fl b16) (fl 16384)) (fl 1852)) 4)) ;;
    b17 <- at_ data 3 ;;
    set_ "sigma_heading_deg" (VFloat (py_round (fmul (fl b17) (fdiv_raw (fl 360) (fl 4096))) 4)) ;;
    adv 4
  else if String.eqb tag "030" then
    codes <- fx_octets data (fun b => Z.shiftr b 1) ;;
    when (nonempty codes) (set_ "warnings" (VList (map (fun c => VStr (tget_or _cat7__WARNING_CODES c ("code_" +:+ str_int c))) codes)))
  else if String.eqb tag "080" then
    x <- call (_cat7__decode_conf12 data) ;;
    set_ "mode3a_confidence" (VDict x)
  else if String.eqb tag "060" then
    x <- call (_cat7__decode_conf12 data) ;;
    set_ "mode2_confidence" (VDict x)
  else if String.eqb tag "100" then
    need data 4 break_ ;;
    b1 <- at_ data 0 ;;
    b2 <- at_ data 1 ;;
    let v := bit b1 0x80 in
    let g := bit b1 0x40 in
    let modec := Z.lor (Z.shiftl (Z.land b1 0x0F) 8) b2 in
    set_ "mode_c_gray_code" (VInt modec) ;;
    set_ "mode_c_validated" (VBool (negb v)) ;;
    set_ "mode_c_garbled" (VBool g) ;;
    adv 2 ;;
    raw <- on_slice data 0 2 _cat7__u16 ;;
    adv 2 ;;
    let names := ["qc1"; "qa1"; "qc2"; "qa2"; "qc4"; "qa4"; "qb1"; "qd1"; "qb2"; "qd2"; "qb4"; "qd4"] in
    let quality := pulse_quality names raw in
    set_ "mode_c_confidence" (VDict quality)
  else if String.eqb tag "110" then
    need data 2 break_ ;;
    v19 <- on_slice data 0 2 _cat7__u16 ;;
    let raw14 := Z.land v19 0x3FFF in
    let raw14 := if bit raw14 0x2000 then raw14 - (Z.shiftl 1 14) else raw14 in
    set_ "height_3d_ft" (VFloat (py_round (fmul (fl raw14) (fl 25)) 1)) ;;
    adv 2
  else if String.eqb tag "120" then
    fields <- call_opt (_cat7__decode_120 data) break_ ;;
    when (nonempty fields) (set_ "radial_doppler" (VDict fields))
  else if String.eqb tag "230" then
    need data 3 break_ ;;
    b1 <- at_ data 0 ;;
    b2 <- at_ data 1 ;;
    b3 <- at_ data 2 ;;
    set_ "comm_capability" (VStr (tget_or _cat7__COM (Z.land (Z.shiftr b1 5) 0x07) "undefined")) ;;
    set_ "flight_status" (VStr (tget_or _cat7__STAT (Z.land (Z.shiftr b1 2) 0x07) "undefined")) ;;
    set_ "si_capable" (VBool (negb (bit b1 0x02))) ;;
    set_ "mode_s_service_capable" (VBool (bit b2 0x40)) ;;
    set_ "altitude_resolution_25ft" (VBool (bit b2 0x20)) ;;
    set_ "aircraft_id_capable" (VBool (bit b2 0x10)) ;;
    set_ "bds10_raw" (VInt (Z.lor (Z.shiftl (Z.land b2 0x0F) 4) (Z.land (Z.shiftr b3 4) 0x0F))) ;;
    adv 3
  else if String.eqb tag "260" then
    need data 7 break_ ;;
    s20 <- on_slice data 0 7 (fun raw => Ok (hex raw)) ;;
    set_ "acas_ra_raw" (VStr s20) ;;
    adv 7
  else if String.eqb tag "055" then
    need data 1 break_ ;;
    b <- at_ data 0 ;;
    adv 1 ;;
    set_ "mode1_validated" (VBool (negb (bit b 0x80))) ;;
    set_ "mode1_garbled" (VBool (bit b 0x40)) ;;
    set_ "mode1_smoothed" (VBool (bit b 0x20)) ;;
    set_ "mode1_code" (VStr (fmt_o 2 (Z.land b 0x1F)))
  else if String.eqb tag "050" then
    need data 2 break_ ;;
    r <- call (fun pos => _cat7__decode_mode_octal data pos 12) ;;
    let '(v, g, l, code) := r in
    set_ "mode2_squawk" (VStr (fmt_o 4 code)) ;;
    set_ "mode2_validated" (VBool (negb v)) ;;
    set_ "mode2_garbled" (VBool g)
  else if String.eqb tag "065" then
    need data 1 break_ ;;
    b <- at_ data 0 ;;
    adv 1 ;;
    set_ "mode1_confidence" (VDict [("qa4", VBool (bit b 0x20)); ("qa2", VBool (bit b 0x10)); ("qa1", VBool (bit b 0x08)); ("qb2", VBool (bit b 0x02)); ("qb1", VBool (bit b 0x01))])
  else if String.eqb tag "450" then
    fields <- call_opt (_cat7__decode_450 data) break_ ;;
    when (nonempty fields) (set_ "interrogation_result" (VDict fields))
  else if String.eqb tag "085" then
    fields <- call_opt (_cat7__decode_085 data) break_ ;;
    when (nonempty fields) (set_ "mode5" (VDict fields))
  else if String.eqb tag "415" then
    fields <- call_opt (_cat7__decode_415 data) break_ ;;
    when (nonempty fields) (set_ "required_interrogation_modes" (VDict fields))
  else if String.eqb tag "420" then
    need data 8 break_ ;;
    v21 <- on_slice data 0 2 _cat7__u16 ;;
    set_ "window_rho_start_nm" (VFloat (py_round (fdiv_raw (fl v21) (fl 256)) 4)) ;;
    v22 <- on_slice data 2 4 _cat7__u16 ;;
    set_ "window_rho_end_nm" (VFloat (py_round (fdiv_raw (fl v22) (fl 256)) 4)) ;;
    v23 <- on_slice data 4 6 _cat7__u16 ;;
    set_ "window_theta_start_deg" (VFloat (py_round (fmul (fl v23) (fdiv_raw (fl 360) (fl 65536))) 4)) ;;
    v24 <- on_slice data 6 8 _cat7__u16 ;;
    set_ "window_theta_end_deg" (VFloat (py_round (fmul (fl v24) (fdiv_raw (fl 360) (fl 65536))) 4)) ;;
    adv 8
  else if String.eqb tag "440" then
    need data 1 break_ ;;
    rep <- at_ data 0 ;;
    adv 1 ;;
    regs <- for_range (Z.to_nat rep) (fun regs =>
        none <- short data 1 ;;
        if none then ret (stop regs) else
        b <- at_ data 0 ;;
        adv 1 ;;
        let regs := regs ++ [VDict [("bds1", VInt (Z.land (Z.shiftr b 4) 0x0F)); ("bds2", VInt (Z.land b 0x0F))]] in
        ret (more regs)) [] ;;
    when (nonempty regs) (set_ "bds_register_requests" (VList regs))
  else
    break_.

Definition _cat7_downlink_items : list string :=
  ["140"; "400"; "020"; "040"; "070"; "090"; "130"; "220";
   "240"; "250"; "161"; "042"; "200"; "170"; "210"; "030";
   "080"; "100"; "110"; "120"; "230"; "260"; "055"; "050";
   "065"; "060"; "450"; "085"].
Definition _cat7_uplink_items : list string :=
  ["140"; "400"; "040"; "220"; "161"; "042"; "200"; "415"; "420"; "440"].

Definition _cat7_decode_cat007 (data : bytes) : exc (option dict) :=
  if len data <? 1 then Ok None else
  let? (fspec, pos) := _cat7_parse_fspec data 0 in
  run (when (len fspec <? 3) (return_ (fun _ _ => None)) ;;
       when (nth 0 fspec false) (
         need data 2 (return_ (fun _ _ => None)) ;;
         b1 <- at_ data 0 ;;
         set_ "sac" (VInt b1) ;;
         b2 <- at_ data 1 ;;
         set_ "sic" (VInt b2) ;;
         adv 2) ;;
       when (nth 1 fspec false) (
         need data 2 (return_ (fun _ _ => None)) ;;
         b1 <- at_ data 0 ;;
         set_ "dest_sac" (VInt b1) ;;
         b2 <- at_ data 1 ;;
         set_ "dest_sic" (VInt b2) ;;
         adv 2) ;;
       when (nth 2 fspec false) (
         need data 1 (return_ (fun _ _ => None)) ;;
         b1 <- at_ data 0 ;;
         b2 <- at_ data 0 ;;
         set_ "msg_type" (VStr (tget_or _cat7__MSG_TYPE_410 b1 ("type_" +:+ str_int b2))) ;;
         b3 <- at_ data 0 ;;
         set_ "is_uplink" (VBool (5 <=? b3)) ;;
         adv 1) ;;
       is_uplink <- get_ "is_uplink" ;;
       let items := match is_uplink with
                    | Some v => if truthy v then _cat7_uplink_items else _cat7_downlink_items
                    | None => _cat7_downlink_items
                    end in
       for_fspec (skipn 3 fspec) (fun offset =>
         if len items <=? offset then goto (_cat7__skip_len_field data) else
         tag <- lift (index items offset) ;;
         _cat7_decode_cat007_item data tag) ;;
       return_ (fun _ msg => msg_or_none msg)) pos [].

(** The position of a Mode 5 reply. *)
Definition _cat7_mode5_position (msg : dict) : exc dict :=
  let mode5 := match dget msg "mode5" with Some (VDict m) => m | _ => [] end in
  if dmem "mode5" msg && dmem "mode5_lat_deg" mode5 && dmem "mode5_lon_deg" mode5 then
    let? lat := ditem mode5 "mode5_lat_deg" in
    let msg := dset "lat_deg" lat msg in
    let? lon := ditem mode5 "mode5_lon_deg" in
    Ok (dset "lon_deg" lon msg)
  else Ok msg.

Section Handler.
Context `{Libm} (site_lat site_lon : option float).

(** [msg.setdefault("lat_deg", round(lat, 7)); msg.setdefault("lon_deg", ...)] *)
Definition default_position (lat lon : float) (msg : dict) : dict :=
  dsetdefault "lon_deg" (VFloat (py_round lon 7)) (dsetdefault "lat_deg" (VFloat (py_round lat 7)) msg).

(** The position of a message: its polar or cartesian plot seen from the
    configured site, or the Mode 5 position. *)
Definition _cat7_position (msg : dict) : exc dict :=
  match site_lat, site_lon with
  | Some lat0, Some lon0 =>
      if dmem "rho_nm" msg && dmem "theta_deg" msg then
        let? rho := ditem msg "rho_nm" in
        let? rho := num rho in
        let? theta := ditem msg "theta_deg" in
        let? theta := num theta in
        let? (lat, lon) := _cat7__polar_to_wgs84 lat0 lon0 rho theta in
        Ok (default_position lat lon msg)
      else if dmem "x_nm" msg && dmem "y_nm" msg then
        let? x := ditem msg "x_nm" in
        let? x := num x in
        let? y := ditem msg "y_nm" in
        let? y := num y in
        let? (lat, lon) := _cat7__cartesian_to_wgs84 lat0 lon0 (fmul x (fl 1852)) (fmul y (fl 1852)) in
        Ok (default_position lat lon msg)
      else _cat7_mode5_position msg
  | _, _ => _cat7_mode5_position msg
  end.

(** [_h] of [_cat7__make_handler] *)
Definition _cat7_handler (root : string) (now : float) (data : bytes) : exc (list sample) :=
  let? o := _cat7_decode_cat007 data in
  match o with
  | None => Ok []
  | Some msg =>
      let? msg := _cat7_position msg in
      if negb (dmem "lat_deg" msg) || negb (dmem "lon_deg" msg) then Ok [] else
      let msg := stamp now "ASTERIX CAT-7 Ed.1.12" msg in
      Ok [(_cat7_TOPIC_TRACK root (_asterix_source msg), msg)]
  end.
End Handler.

(** ** Correctness *)
#[local] Hint Opaque _cat7__decode_020 _cat7__decode_170 _cat7__decode_085 _cat7__decode_120
  _cat7__decode_130 _cat7__decode_415 _cat7__decode_450 _cat7__decode_mode_octal
  _cat7__decode_conf12 : typeclass_instances.

#[local] Instance decode_020_ok data : CallOnOk data (_cat7__decode_020 data) _cat7_decode_cat007_schema.
Proof. intros p d Hp Hd. apply run_returns. wp_auto. Qed.
#[local] Instance decode_170_ok data : CallOnOk data (_cat7__decode_170 data) _cat7_decode_cat007_schema.
Proof. intros p d Hp Hd. apply run_returns. wp_auto. Qed.

#[local] Instance decode_mode_octal_ok data width :
  CallNeedOk data (fun pos => _cat7__decode_mode_octal data pos width) 2 (fun _ => True).
Proof. intros p Hp Hn. apply (call_ok_run data); [lia|]. wp_auto. Qed.

#[local] Instance decode_120_ok data :
  CallOptOk data (_cat7__decode_120 data) (fun d => fields_ok _cat7__decode_120_schema d = true).
Proof. intros p Hp. apply call_opt_ok_dict; [done|]. intros Hd. unfold _cat7__u16. wp_auto. Qed.
#[local] Instance decode_130_ok data :
  CallOptOk data (_cat7__decode_130 data) (fun d => fields_ok _cat7__decode_130_schema d = true).
Proof. intros p Hp. apply call_opt_ok_dict; [done|]. intros Hd. wp_auto. Qed.
#[local] Instance decode_415_ok data :
  CallOptOk data (_cat7__decode_415 data) (fun d => fields_ok _cat7__decode_415_schema d = true).
Proof. intros p Hp. apply call_opt_ok_dict; [done|]. intros Hd. wp_auto. Qed.
#[local] Instance decode_450_ok data :
  CallOptOk data (_cat7__decode_450 data) (fun d => fields_ok _cat7__decode_450_schema d = true).
Proof. intros p Hp. apply call_opt_ok_dict; [done|]. intros Hd. unfold _cat7__u16. wp_auto. Qed.
#[local] Instance decode_085_ok data :
  CallOptOk data (_cat7__decode_085 data) (fun d => fields_ok _cat7__decode_085_schema d = true).
Proof. intros p Hp. apply call_opt_ok_dict; [done|]. intros Hd. unfold _cat7__s24. wp_auto. Qed.

(** I007/060 and I007/080 read past the end of a truncated frame. *)
Lemma decode_conf12_returns data p :
  0 <= p <= len data ->
  returns (_cat7__decode_conf12 data p)
    (fun '(d, p') => p <= p' <= len data /\ fields_ok conf_schema d = true) (fun e => e = StructError).
Proof.
  intros Hp. unfold _cat7__decode_conf12, _cat7__u16, u16, unpack_u. cbv zeta.
  destruct (Z.eqb_spec (len (slice data p (p + 2))) 2) as [Hl|]; [|done]. cbn [exc_bind returns].
  split; [|by apply pulse_quality_ok].
  assert (p + 2 <= len data); [|lia].
  destruct (Z.le_gt_cases (p + 2) (len data)); [done|exfalso].
  revert Hl. unfold slice, len. rewrite length_firstn, length_skipn. unfold len in *. lia.
Qed.

Section Correctness.
Context `{LibmOk}.
Implicit Types (site_lat site_lon : option float).

Lemma wp_conf12 {R} data p d (Q : dict -> Z -> dict -> Prop) B (T : R -> Prop) E :
  0 <= p <= len data -> E StructError ->
  (forall a p', p <= p' <= len data -> fields_ok conf_schema a = true -> Q a p' d) ->
  wp (call (_cat7__decode_conf12 data)) p d Q B T E.
Proof.
  intros Hp HE HQ. pose proof (decode_conf12_returns data p Hp) as Hr. unfold wp, call, returns in *.
  destruct (_cat7__decode_conf12 data p) as [[a p']|e]; [destruct Hr; auto|by subst].
Qed.

Definition struct_error (e : exn) : Prop := e = StructError.

Lemma item_ok_cat007 data tag :
  item_ok data _cat7_decode_cat007_schema (record_of _cat7_decode_cat007_schema)
    struct_error (_cat7_decode_cat007_item data tag).
Proof.
  intros p d Hp Hd. unfold _cat7_decode_cat007_item.
  unfold _cat7__u16, _cat7__s16, _cat7__decode_callsign.
  by_items wp_auto.
  all: apply wp_conf12; [done|done|]; intros; wp_auto.
Qed.

Lemma decode_cat007_ok data :
  returns (_cat7_decode_cat007 data) (record_of _cat7_decode_cat007_schema) struct_error.
Proof.
  unfold _cat7_decode_cat007. destruct (Z.ltb_spec (len data) 1); [done|]. apply returns_bind.
  eapply returns_weaken; [apply parse_fspec_ok; lia| |done]. intros [fspec pos] [Hp _].
  apply run_returns. pose proof (wt_nil _cat7_decode_cat007_schema).
  repeat wp_rule; try done.
  eapply wp_weaken; [apply (wp_tagged_items data); [|lia|eassumption]| |done].
  - intros tag. apply item_ok_cat007.
  - intros _ p2 d4 [_ Hd4]. by apply wp_return, msg_or_none_ok.
Qed.

(** The keys and values of a published message. *)
Definition cat007_schema : schema :=
  [("lat_deg", TFloat); ("lon_deg", TFloat)] ++ _cat7_decode_cat007_schema ++ stamp_schema.

Lemma default_position_ok lat lon d :
  wt cat007_schema d -> wt cat007_schema (default_position lat lon d).
Proof. intros Hd. by apply wt_dsetdefault; [apply wt_dsetdefault|]. Qed.

Lemma mode5_position_ok d :
  wt _cat7_decode_cat007_schema d -> wt cat007_schema d ->
  returns (_cat7_mode5_position d) (wt cat007_schema) noE.
Proof.
  intros Hd Hd'. unfold _cat7_mode5_position. cbv zeta.
  assert (fields_ok _cat7__decode_085_schema
            match dget d "mode5" with Some (VDict m) => m | _ => [] end = true) as Hm.
  { destruct (dget d "mode5") as [v|] eqn:E; [|done]. destruct v; try done.
    by apply (wt_get _ d "mode5" _ (TDict _cat7__decode_085_schema) Hd E). }
  set (m := match dget d "mode5" with Some (VDict m) => m | _ => [] end) in *. clearbody m.
  case_match eqn:E; [|done]. rewrite !andb_true_iff in E. destruct E as [[_ Hlat] Hlon].
  destruct (ditem_float _ _ "mode5_lat_deg" Hm eq_refl Hlat) as [lat ->].
  destruct (ditem_float _ _ "mode5_lon_deg" Hm eq_refl Hlon) as [lon ->]. cbn [exc_bind returns].
  by apply wt_dset; [apply wt_dset|].
Qed.

Lemma position7_ok site_lat site_lon d :
  wt _cat7_decode_cat007_schema d ->
  returns (_cat7_position site_lat site_lon d) (wt cat007_schema) (geo_error site_lat site_lon).
Proof.
  intros Hd. assert (wt cat007_schema d) as Hd' by (by apply (wt_le _cat7_decode_cat007_schema)).
  assert (returns (_cat7_mode5_position d) (wt cat007_schema) (geo_error site_lat site_lon)) as H5.
  { eapply returns_weaken; [exact (mode5_position_ok d Hd Hd')|intros a Ha; exact Ha|intros e []]. }
  unfold _cat7_position. destruct site_lat as [lat0|]; [|done]. destruct site_lon as [lon0|]; [|done].
  pose proof (proj2 Hd) as Hf.
  assert (forall (m : exc (float * float)), returns m (fun _ => True) value_error ->
    returns (let? (lat, lon) := m in Ok (default_position lat lon d)) (wt cat007_schema)
      (geo_error (Some lat0) (Some lon0))) as Hgeo.
  { intros m Hm. apply returns_bind. eapply returns_weaken; [exact Hm| |apply geo_error_some].
    intros [lat lon] _. by apply default_position_ok. }
  case_match eqn:E.
  - apply andb_true_iff in E as [H1 H2].
    destruct (ditem_float _ _ "rho_nm" Hf eq_refl H1) as [x ->].
    destruct (ditem_float _ _ "theta_deg" Hf eq_refl H2) as [y ->].
    apply Hgeo, polar_to_wgs84_err.
  - clear E. case_match eqn:E; [|done]. apply andb_true_iff in E as [H1 H2].
    destruct (ditem_float _ _ "x_nm" Hf eq_refl H1) as [x ->].
    destruct (ditem_float _ _ "y_nm" Hf eq_refl H2) as [y ->].
    apply Hgeo, cartesian_to_wgs84_err.
Qed.

(** For every frame, with or without a configured radar site, the CAT-007
    handler terminates and publishes at most one message, of schema
    [cat007_schema], which keeps to the protobuf message AsterixCat7Track and
    goes to the topic its own SAC/SIC give; otherwise it raises struct.error,
    or ValueError of the C library when a site is configured. *)
Theorem cat007_handler_ok site_lat site_lon root now data :
  returns (_cat7_handler site_lat site_lon root now data)
    (fun out => len out <= 1 /\ samples_ok (_cat7_TOPIC_TRACK root) cat007_schema AsterixCat7Track out)
    (fun e => struct_error e \/ geo_error site_lat site_lon e).
Proof.
  apply returns_bind. eapply returns_weaken; [apply decode_cat007_ok| |auto].
  intros [msg|] Hr; [|split; [done|constructor]]. destruct Hr as [Hr _].
  apply returns_bind. eapply returns_weaken; [by apply position7_ok| |auto]. intros msg' Hmsg'.
  cbv zeta. case_match; (split; [done|]); [constructor|].
  apply samples_one; [reflexivity|]. by apply (wt_stamp cat007_schema).
Qed.
End Correctness.

(** A downlink reply with a polar position, at a configured site. *)
Lemma cat007_handler_ok_witness :
  let data := of_ints [0xA2; 0x19; 0x0A; 0x01; 0x0A; 0x00; 0x40; 0x00] in
  let out := @_cat7_handler small_angle_libm (Some (fl 54)) (Some (fl 25)) "efdi" (fl 7) data in
  (exists m, out = Ok [("efdi/air/025-010/radar/unknown/aircraft", m)] /\ dmem "lat_deg" m = true) /\
  returns out
    (fun out => len out <= 1 /\ samples_ok (_cat7_TOPIC_TRACK "efdi") cat007_schema AsterixCat7Track out)
    (fun e => struct_error e \/ geo_error (Some (fl 54)) (Some (fl 25)) e).
Proof.
  split; [eexists; split; [vm_compute; reflexivity|reflexivity]|].
  exact (@cat007_handler_ok small_angle_libm small_angle_libm_ok _ _ _ _ _).
Defined.

(** The CAT-007 handler does raise: a frame that ends before I007/080 makes
    [_cat7__decode_conf12] unpack an empty slice. *)
Lemma cat007_truncated_080_raises `{Libm} site_lat site_lon root now :
  _cat7_handler site_lat site_lon root now (of_ints [0x01; 0x01; 0x04]) = Raise StructError.
Proof. vm_compute. reflexivity. Qed.
