(* ===== verification/Cat008.v ===== *)
(** * CAT-008: monoradar weather

    cat.py:2250-2568. The decoder of one frame and its handler. *)

From S2P Require Import Prelude PyFloat PyData Schema Ranges Cursor Safety Contract AsterixCommon.

Definition _cat8_TOPIC_SENSOR (root source : string) : string :=
  root +:+ "/land/" +:+ source +:+ "/radar/neutral/sensor".
Definition _cat8_parse_fspec := parse_fspec.
Definition _cat8__skip_len_field := skip_len_field.

Definition _cat8__s8 (b : Z) : Z := if bit b 0x80 then b - 256 else b.

(** [REP] and that many entries of three octets, under the given names. *)
Definition _cat8__decode_rep3 (data : bytes) (pos : Z) (names : list string) : exc (list value * Z) :=
  run (
    need data 1 (return_ (fun pos _ => ([], pos))) ;;
    rep <- at_ data 0 ;;
    adv 1 ;;
    entries <- for_range (Z.to_nat rep) (fun entries =>
        none <- short data 3 ;;
        if none then ret (stop entries) else
        b1 <- at_ data 0 ;;
        b2 <- at_ data 1 ;;
        b3 <- at_ data 2 ;;
        let entries := entries ++ [VDict (combine names [VInt b1; VInt b2; VInt b3])] in
        adv 3 ;;
        ret (more entries)) [] ;;
    return_ (fun pos _ => (entries, pos))) pos [].

(** [e[k]] and [e[k] = v] on an entry, and [_s8] of an int. *)
Definition dict_get (k : string) (e : value) : value :=
  match e with VDict d => dget_or d k VNone | _ => VNone end.
Definition dict_set (k : string) (v e : value) : value :=
  match e with VDict d => VDict (dset k v d) | _ => e end.
Definition s8_value (v : value) : value :=
  match v with VInt n => VInt (_cat8__s8 n) | _ => v end.

(** cat.py:2266-2266 *)
Definition _cat8_CAT_008 : Z := 8.
(** cat.py:2268-2270 *)
Definition _cat8__MSG_TYPES : table :=
  [(1, "polar_vector"); (2, "cartesian_vector_start_length"); (3, "contour_record");
   (4, "cartesian_vector_start_end"); (254, "sop"); (255, "eop")].
(** cat.py:2271-2271 *)
Definition _cat8__FSTLST : table :=
  [(0, "intermediate"); (1, "last"); (2, "first"); (3, "first_and_only")].
Definition _cat8_decode_cat008_schema : schema :=
  [("sac", TInt 0 255); ("sic", TInt 0 255); ("msg_type", TStr);
   ("coord_system", TOneOf ["system"; "local"]); ("intensity", TInt 0 7); ("shading_deg", TFloat);
   ("test_vector", TBool); ("error_condition", TBool);
   ("cartesian_vectors", TList (TDict [("x_raw", TInt (-128) 127); ("y_raw", TInt (-128) 127); ("length_raw", TInt 0 255)]));
   ("polar_vectors", TList (TDict [("start_range_raw", TInt 0 255); ("end_range_raw", TInt 0 255); ("azimuth_deg", TFloat)]));
   ("contour_coord_system", TOneOf ["system"; "local"]); ("contour_intensity", TInt 0 7);
   ("contour_position", TOneOf ("undefined" :: map snd _cat8__FSTLST));
   ("contour_serial_number", TInt 0 255);
   ("contour_points", TList (TDict [("x_raw", TInt (-128) 127); ("y_raw", TInt (-128) 127)]));
   ("tod_s", TFloat); ("scaling_factor", TInt (-16) 15); ("reduction_stage", TInt 0 7);
   ("processing_params_raw", TList (TInt 0 32767));
   ("station_configuration_raw", TList (TInt 0 127)); ("total_items", TInt 0 65535);
   ("weather_vectors", TList (TDict [("x1_raw", TInt (-128) 127); ("y1_raw", TInt (-128) 127); ("x2_raw", TInt (-128) 127); ("y2_raw", TInt (-128) 127)]))].

(** cat.py:2367-2472 *)
Definition _cat8_decode_cat008_item (data : bytes) (frn : Z) : cur (option dict) unit :=
  if frn =? 0 then
    need data 2 break_ ;;
    b1 <- at_ data 0 ;;
    set_ "sac" (VInt b1) ;;
    b2 <- at_ data 1 ;;
    set_ "sic" (VInt b2) ;;
    adv 2
  else if frn =? 1 then
    need data 1 break_ ;;
    b3 <- at_ data 0 ;;
    b4 <- at_ data 0 ;;
    set_ "msg_type" (VStr (tget_or _cat8__MSG_TYPES b3 ("type_" +:+ str_int b4))) ;;
    adv 1
  else if frn =? 2 then
    need data 1 break_ ;;
    b <- at_ data 0 ;;
    adv 1 ;;
    set_ "coord_system" (VStr (if bit b 0x80 then "system" else "local")) ;;
    set_ "intensity" (VInt (Z.land (Z.shiftr b 4) 0x07)) ;;
    set_ "shading_deg" (VFloat (fmul (fl (Z.land (Z.shiftr b 1) 0x07)) (dec 225 1))) ;;
    when (bit b 0x01) (
      need data 1 break_ ;;
      b2 <- at_ data 0 ;;
      adv 1 ;;
      set_ "test_vector" (VBool (bit b2 0x04)) ;;
      set_ "error_condition" (VBool (bit b2 0x02)))
  else if frn =? 3 then
    entries <- call (fun pos => _cat8__decode_rep3 data pos ["x_raw"; "y_raw"; "length_raw"]) ;;
    when (nonempty entries) (
      set_ "cartesian_vectors" (VList (map (fun e =>
        dict_set "y_raw" (s8_value (dict_get "y_raw" e))
          (dict_set "x_raw" (s8_value (dict_get "x_raw" e)) e)) entries)))
  else if frn =? 4 then
    need data 1 break_ ;;
    rep <- at_ data 0 ;;
    adv 1 ;;
    entries <- for_range (Z.to_nat rep) (fun entries =>
        none <- short data 4 ;;
        if none then ret (stop entries) else
        b5 <- at_ data 0 ;;
        b6 <- at_ data 1 ;;
        v7 <- on_slice data 2 4 (unpack_u 2) ;;
        let entries := entries ++ [VDict [("start_range_raw", VInt b5); ("end_range_raw", VInt b6); ("azimuth_deg", VFloat (py_round (fmul (fl v7) (fdiv_raw (fl 360) (fl 65536))) 4))]] in
        adv 4 ;;
        ret (more entries)) [] ;;
    when (nonempty entries) (set_ "polar_vectors" (VList entries))
  else if frn =? 5 then
    need data 2 break_ ;;
    b <- at_ data 0 ;;
    adv 1 ;;
    set_ "contour_coord_system" (VStr (if bit b 0x80 then "system" else "local")) ;;
    set_ "contour_intensity" (VInt (Z.land (Z.shiftr b 4) 0x07)) ;;
    set_ "contour_position" (VStr (tget_or _cat8__FSTLST (Z.land b 0x03) "undefined")) ;;
    b8 <- at_ data 0 ;;
    set_ "contour_serial_number" (VInt b8) ;;
    adv 1
  else if frn =? 6 then
    need data 1 break_ ;;
    rep <- at_ data 0 ;;
    adv 1 ;;
    points <- for_range (Z.to_nat rep) (fun points =>
        none <- short data 2 ;;
        if none then ret (stop points) else
        b9 <- at_ data 0 ;;
        b10 <- at_ data 1 ;;
        let points := points ++ [VDict [("x_raw", VInt (_cat8__s8 b9)); ("y_raw", VInt (_cat8__s8 b10))]] in
        adv 2 ;;
        ret (more points)) [] ;;
    when (nonempty points) (set_ "contour_points" (VList points))
  else if frn =? 7 then
    need data 3 break_ ;;
    b11 <- at_ data 0 ;;
    b12 <- at_ data 1 ;;
    b13 <- at_ data 2 ;;
    let raw := Z.lor (Z.lor (Z.shiftl b11 16) (Z.shiftl b12 8)) b13 in
    set_ "tod_s" (VFloat (fdiv_raw (fl raw) (fl 128))) ;;
    adv 3
  else if frn =? 8 then
    need data 1 break_ ;;
    b <- at_ data 0 ;;
    adv 1 ;;
    let f5 := Z.land (Z.shiftr b 3) 0x1F in
    let f5 := if bit f5 0x10 then f5 - 32 else f5 in
    set_ "scaling_factor" (VInt f5) ;;
    set_ "reduction_stage" (VInt (Z.land b 0x07)) ;;
    q_values <- fx_words data (fun w => Z.land (Z.shiftr w 1) 0x7FFF) ;;
    when (nonempty q_values) (set_ "processing_params_raw" (VList (map VInt q_values)))
  else if frn =? 9 then
    values <- fx_octets data (fun b => Z.shiftr b 1) ;;
    when (nonempty values) (set_ "station_configuration_raw" (VList (map VInt values)))
  else if frn =? 10 then
    need data 2 break_ ;;
    v14 <- on_slice data 0 2 (unpack_u 2) ;;
    set_ "total_items" (VInt v14) ;;
    adv 2
  else if frn =? 11 then
    need data 1 break_ ;;
    rep <- at_ data 0 ;;
    adv 1 ;;
    entries <- for_range (Z.to_nat rep) (fun entries =>
        none <- short data 4 ;;
        if none then ret (stop entries) else
        b15 <- at_ data 0 ;;
        b16 <- at_ data 1 ;;
        b17 <- at_ data 2 ;;
        b18 <- at_ data 3 ;;
        let entries := entries ++ [VDict [("x1_raw", VInt (_cat8__s8 b15)); ("y1_raw", VInt (_cat8__s8 b16)); ("x2_raw", VInt (_cat8__s8 b17)); ("y2_raw", VInt (_cat8__s8 b18))]] in
        adv 4 ;;
        ret (more entries)) [] ;;
    when (nonempty entries) (set_ "weather_vectors" (VList entries))
  else if (frn =? 12) || (frn =? 13) then
    goto (_cat8__skip_len_field data)
  else
    break_.

Definition _cat8_decode_cat008 (data : bytes) : exc (option dict) :=
  if len data <? 1 then Ok None else
  let? (fspec, pos) := _cat8_parse_fspec data 0 in
  run (for_fspec fspec (_cat8_decode_cat008_item data) ;;
       return_ (fun _ msg => msg_or_none msg)) pos [].

(** [_h] of [_cat8__make_handler] *)
Definition _cat8_handler (root : string) (now : float) (data : bytes) : exc (list sample) :=
  let? o := _cat8_decode_cat008 data in
  match o with
  | None => Ok []
  | Some msg =>
      let msg := stamp now "ASTERIX CAT-8 Ed.1.3" msg in
      Ok [(_cat8_TOPIC_SENSOR root (_asterix_source msg), msg)]
  end.

(** ** Correctness *)

(** The keys and values of a published record. *)
Definition cat008_schema : schema := _cat8_decode_cat008_schema ++ stamp_schema.

(** Every entry is a dictionary of three octets. *)
Definition entry3 (t : Z * Z * Z) : value :=
  let '(a, b, c) := t in VDict [("x_raw", VInt a); ("y_raw", VInt b); ("length_raw", VInt c)].
Definition octets3 (t : Z * Z * Z) : Prop :=
  let '(a, b, c) := t in InRange a 0 255 /\ InRange b 0 255 /\ InRange c 0 255.

#[local] Hint Opaque _cat8__decode_rep3 : typeclass_instances.

#[local] Instance decode_rep3_ok data :
  CallOk data (fun pos => _cat8__decode_rep3 data pos ["x_raw"; "y_raw"; "length_raw"])
    (fun l => exists ts, l = map entry3 ts /\ Forall octets3 ts).
Proof.
  intros p Hp. apply call_ok_run; [done|]. pose proof (wt_nil []) as Hd.
  do 2 wp_rule; [wp_auto; by exists []|]. do 5 wp_rule.
  eapply (wp_for_range (fun l p' d' => (exists ts, l = map entry3 ts /\ Forall octets3 ts) /\
                                       (p <= p' <= len data /\ d' = []))).
  - intros l p' d' ((ts & -> & Hts) & Hp' & ->). repeat wp_rule; [split; eauto|].
    split; [|wp_auto]. exists (ts ++ [(b0, b1, b2)]). rewrite map_app. split; [done|].
    apply Forall_app. split; [done|]. constructor; [done|constructor].
  - split; [by exists []|]. split; [wp_lia|done].
  - intros l p' d' (Hl & Hp' & ->). by wp_auto.
Qed.

Lemma s8_range x hi : InRange x 0 hi -> (hi <=? 255) = true -> InRange (_cat8__s8 x) (-128) 127.
Proof. intros Hx Hhi. assert (InRange x 0 255) by (unfold InRange in *; lia). exact _. Qed.

Lemma signed_entries_ok l :
  (exists ts, l = map entry3 ts /\ Forall octets3 ts) ->
  has_ty (TList (TDict [("x_raw", TInt (-128) 127); ("y_raw", TInt (-128) 127); ("length_raw", TInt 0 255)]))
    (VList (map (fun e => dict_set "y_raw" (s8_value (dict_get "y_raw" e))
                  (dict_set "x_raw" (s8_value (dict_get "x_raw" e)) e)) l)) = true.
Proof.
  intros (ts & -> & Hts). rewrite map_map. apply (has_ty_map _ _ octets3); [done|].
  intros [[a b] c] (Ha & Hb & Hc). cbn [entry3 dict_get dict_set dget_or dget dset String.eqb].
  rewrite has_ty_dict. pose proof (s8_range a 255 Ha eq_refl). pose proof (s8_range b 255 Hb eq_refl).
  cbn. unfold InRange in *. lia.
Qed.

Lemma item_ok_cat008 data frn :
  item_ok data _cat8_decode_cat008_schema (record_of _cat8_decode_cat008_schema) noE
    (_cat8_decode_cat008_item data frn).
Proof.
  intros p d Hp Hd. unfold _cat8_decode_cat008_item, _cat8__skip_len_field, _cat8__s8.
  by_items wp_auto.
  eapply wp_set; [exact Hd|eapply field_okI; [reflexivity|by apply signed_entries_ok]|].
  intros d' Hd'. by wp_done.
Qed.

(** For every frame and every receive time, the CAT-008 handler terminates
    without an exception and publishes at most one record, whose keys and
    values are those of [cat008_schema], which keeps to the protobuf message
    AsterixCat8Weather and goes to the topic its own SAC/SIC give. *)
Lemma cat008_handler_ok root now data :
  returns (_cat8_handler root now data)
    (fun out => len out <= 1 /\
       samples_ok (_cat8_TOPIC_SENSOR root) cat008_schema AsterixCat8Weather out) noE.
Proof.
  apply (frame_handler_ok _ _cat8_decode_cat008_schema); [|reflexivity].
  apply frame_decoder_ok; [exact _|]. intros frn _. apply item_ok_cat008.
Qed.
