(* ===== verification/Cat009.v ===== *)
(** * CAT-009: composite weather

    cat.py:2585-2864. The decoder of one frame and its handler. *)

From S2P Require Import Prelude PyFloat PyData Schema Ranges Cursor Safety Contract AsterixCommon.

Definition _cat9_TOPIC_SENSOR (root source : string) : string :=
  root +:+ "/land/" +:+ source +:+ "/radar/neutral/sensor".
Definition _cat9_parse_fspec := parse_fspec.
Definition _cat9__skip_len_field := skip_len_field.

(** cat.py:2605-2605 *)
Definition _cat9_CAT_009 : Z := 9.
(** cat.py:2607-2608 *)
Definition _cat9__MSG_TYPES : table :=
  [(2, "cartesian_vector"); (253, "intermediate_update_step"); (254, "start_of_picture");
   (255, "end_of_picture")].
Definition _cat9_decode_cat009_schema : schema :=
  [("sac", TInt 0 255); ("sic", TInt 0 255); ("msg_type", TStr);
   ("coord_system", TOneOf ["system"; "local"]); ("intensity", TInt 0 7); ("shading_deg", TFloat);
   ("cartesian_vectors", TList (TDict [("x_raw", TInt (-32768) 32767); ("y_raw", TInt (-32768) 32767); ("length_raw", TInt 0 65535)]));
   ("step_number", TInt 0 63); ("tod_s", TFloat); ("scaling_factor", TInt (-16) 15);
   ("reduction_stage", TInt 0 7); ("processing_params_raw", TList (TInt 0 32767));
   ("radar_status", TList (TDict [("sac", TInt 0 255); ("circular_polarisation", TBool); ("weather_channel_overload", TBool); ("reduction_step", TInt 0 7)]));
   ("vector_count", TInt 0 65535)].

(** cat.py:2688-2772 *)
Definition _cat9_decode_cat009_item (data : bytes) (frn : Z) : cur (option dict) unit :=
  if frn =? 0 then
    need data 2 break_ ;;
    b1 <- at_ data 0 ;;
    set_ "sac" (VInt b1) ;;
    b2 <- at_ data 1 ;;
    set_ "sic" (VInt b2) ;;
    adv 2
  else if frn =? 1 then
    need data 1 break_ ;;
    b3 <- at_ data 0 ;;
    b4 <- at_ data 0 ;;
    set_ "msg_type" (VStr (tget_or _cat9__MSG_TYPES b3 ("type_" +:+ str_int b4))) ;;
    adv 1
  else if frn =? 2 then
    need data 1 break_ ;;
    b <- at_ data 0 ;;
    adv 1 ;;
    set_ "coord_system" (VStr (if bit b 0x80 then "system" else "local")) ;;
    set_ "intensity" (VInt (Z.land (Z.shiftr b 4) 0x07)) ;;
    set_ "shading_deg" (VFloat (fmul (fl (Z.land (Z.shiftr b 1) 0x07)) (dec 225 1))) ;;
    fx_each data b skip (fun _ _ => skip)
  else if frn =? 3 then
    need data 1 break_ ;;
    rep <- at_ data 0 ;;
    adv 1 ;;
    entries <- for_range (Z.to_nat rep) (fun entries =>
        none <- short data 6 ;;
        if none then ret (stop entries) else
        v5 <- on_slice data 0 2 (unpack_s 2) ;;
        v6 <- on_slice data 2 4 (unpack_s 2) ;;
        v7 <- on_slice data 4 6 (unpack_u 2) ;;
        let entries := entries ++ [VDict [("x_raw", VInt v5); ("y_raw", VInt v6); ("length_raw", VInt v7)]] in
        adv 6 ;;
        ret (more entries)) [] ;;
    when (nonempty entries) (set_ "cartesian_vectors" (VList entries))
  else if frn =? 4 then
    need data 1 break_ ;;
    b <- at_ data 0 ;;
    adv 1 ;;
    set_ "step_number" (VInt (Z.land (Z.shiftr b 2) 0x3F)) ;;
    fx_each data b skip (fun _ _ => skip)
  else if frn =? 5 then
    need data 3 break_ ;;
    b8 <- at_ data 0 ;;
    b9 <- at_ data 1 ;;
    b10 <- at_ data 2 ;;
    let raw := Z.lor (Z.lor (Z.shiftl b8 16) (Z.shiftl b9 8)) b10 in
    set_ "tod_s" (VFloat (fdiv_raw (fl raw) (fl 128))) ;;
    adv 3
  else if frn =? 6 then
    need data 1 break_ ;;
    b <- at_ data 0 ;;
    adv 1 ;;
    let f5 := Z.land (Z.shiftr b 3) 0x1F in
    let f5 := if bit f5 0x10 then f5 - 32 else f5 in
    set_ "scaling_factor" (VInt f5) ;;
    set_ "reduction_stage" (VInt (Z.land b 0x07)) ;;
    q_values <- fx_words data (fun w => Z.land (Z.shiftr w 1) 0x7FFF) ;;
    when (nonempty q_values) (set_ "processing_params_raw" (VList (map VInt q_values)))
  else if frn =? 7 then
    need data 1 break_ ;;
    rep <- at_ data 0 ;;
    adv 1 ;;
    entries <- for_range (Z.to_nat rep) (fun entries =>
        none <- short data 2 ;;
        if none then ret (stop entries) else
        b1 <- at_ data 0 ;;
        b2 <- at_ data 1 ;;
        let entries := entries ++ [VDict [("sac", VInt b1); ("circular_polarisation", VBool (bit b2 0x10)); ("weather_channel_overload", VBool (bit b2 0x08)); ("reduction_step", VInt (Z.land b2 0x07))]] in
        adv 2 ;;
        ret (more entries)) [] ;;
    when (nonempty entries) (set_ "radar_status" (VList entries))
  else if frn =? 8 then
    need data 2 break_ ;;
    v11 <- on_slice data 0 2 (unpack_u 2) ;;
    set_ "vector_count" (VInt v11) ;;
    adv 2
  else if (frn =? 9) || (frn =? 10) || (frn =? 11) || (frn =? 12) || (frn =? 13) then
    goto (_cat9__skip_len_field data)
  else
    break_.

Definition _cat9_decode_cat009 (data : bytes) : exc (option dict) :=
  if len data <? 1 then Ok None else
  let? (fspec, pos) := _cat9_parse_fspec data 0 in
  run (for_fspec fspec (_cat9_decode_cat009_item data) ;;
       return_ (fun _ msg => msg_or_none msg)) pos [].

(** [_h] of [_cat9__make_handler] *)
Definition _cat9_handler (root : string) (now : float) (data : bytes) : exc (list sample) :=
  let? o := _cat9_decode_cat009 data in
  match o with
  | None => Ok []
  | Some msg =>
      let msg := stamp now "ASTERIX CAT-9 Ed.2.1" msg in
      Ok [(_cat9_TOPIC_SENSOR root (_asterix_source msg), msg)]
  end.

(** ** Correctness *)

(** The keys and values of a published record. *)
Definition cat009_schema : schema := _cat9_decode_cat009_schema ++ stamp_schema.

Lemma item_ok_cat009 data frn :
  item_ok data _cat9_decode_cat009_schema (record_of _cat9_decode_cat009_schema) noE
    (_cat9_decode_cat009_item data frn).
Proof.
  intros p d Hp Hd. unfold _cat9_decode_cat009_item, _cat9__skip_len_field.
  by_items wp_auto.
Qed.

(** For every frame and every receive time, the CAT-009 handler terminates
    without an exception and publishes at most one record, whose keys and
    values are those of [cat009_schema], which keeps to the protobuf message
    AsterixCat9Weather and goes to the topic its own SAC/SIC give. *)
Lemma cat009_handler_ok root now data :
  returns (_cat9_handler root now data)
    (fun out => len out <= 1 /\
       samples_ok (_cat9_TOPIC_SENSOR root) cat009_schema AsterixCat9Weather out) noE.
Proof.
  apply (frame_handler_ok _ _cat9_decode_cat009_schema); [|reflexivity].
  apply frame_decoder_ok; [exact _|]. intros frn _. apply item_ok_cat009.
Qed.
