(* ===== verification/Cat010.v ===== *)
(** * CAT-010: airport surface reports

    cat.py:2888-3465. *)

From S2P Require Import Prelude PyFloat PyData Schema Ranges Cursor Safety Contract AsterixCommon.
From S2P Require Import Bds TrackViews Records Blocks.

Definition _cat10_TOPIC_010_AIR (root source : string) : string :=
  root +:+ "/air/" +:+ source +:+ "/radar/civ/aircraft".
Definition _cat10_TOPIC_010_GROUND (root source : string) : string :=
  root +:+ "/land/" +:+ source +:+ "/radar/unknown/vehicle".
Definition _cat10_parse_fspec := parse_fspec.
Definition _cat10__skip_len_field := skip_len_field.
Definition _cat10__u16 := u16.
Definition _cat10__s16 := s16.
Definition _cat10__s32 := s32.
Definition _cat10__polar_to_wgs84 `{Libm} := polar_to_wgs84.
Definition _cat10__cartesian_to_wgs84 `{Libm} := cartesian_to_wgs84.
Definition _cat10__signed_bits := signed_bits.
Definition _cat10__CHARSET_6BIT := CHARSET_6BIT.
Definition _cat10__decode_callsign := decode_callsign.
Definition _cat10__decode_bds10 := decode_bds10.
Definition _cat10__decode_bds17 := decode_bds17.
Definition _cat10__decode_bds30 := decode_bds30.
Definition _cat10__decode_bds40 := decode_bds40.
Definition _cat10__decode_bds50 := decode_bds50.
Definition _cat10__decode_bds60 := decode_bds60.

(** cat.py:2926-2926 *)
Definition _cat10_CAT_010 : Z := 10.
(** cat.py:2930-2935 *)
Definition _cat10__CAT010_MESSAGE_TYPES : table :=
  [(1, "target_report"); (2, "start_update_cycle"); (3, "periodic_status"); (4, "event_status")].
(** cat.py:2937-2940 *)
Definition _cat10__CAT010_SENSOR_TYPES : table :=
  [(0, "ssr_mlat"); (1, "mode_s_mlat"); (2, "adsb"); (3, "psr"); (4, "magnetic_loop");
   (5, "hf_mlat"); (6, "undefined"); (7, "other")].
(** cat.py:2942-2942 *)
Definition _cat10__CAT010_TARGET_TYPES : table :=
  [(0, "undetermined"); (1, "aircraft"); (2, "ground_vehicle"); (3, "helicopter")].
(** cat.py:2944-2949 *)
Definition _cat10__CAT010_FLEETS : table :=
  [(0, "unknown"); (1, "atc_maintenance"); (2, "airport_maintenance"); (3, "fire");
   (4, "bird_scarer"); (5, "snow_plough"); (6, "runway_sweeper"); (7, "emergency"); (8, "police");
   (9, "bus"); (10, "tug"); (11, "grass_cutter"); (12, "fuel"); (13, "baggage"); (14, "catering");
   (15, "aircraft_maintenance"); (16, "follow_me")].
Definition _cat10_decode_cat010_record_schema : schema :=
  [("sac", TInt 0 255); ("sic", TInt 0 255); ("msg_type", TStr);
   ("sensor_type", TOneOf (map snd _cat10__CAT010_SENSOR_TYPES));
   ("differential_correction", TTrue); ("channel", TInt 1 2); ("transponder_ground_bit", TTrue);
   ("corrupted_reply", TTrue); ("simulated", TTrue); ("test_target", TTrue);
   ("field_monitor", TTrue); ("loop_status", TOneOf [""; "start"; "finish"; "reserved"]);
   ("target_type", TStr); ("on_ground", TBool); ("spi", TTrue); ("tod_s", TFloat);
   ("lat_deg", TFloat); ("lon_deg", TFloat); ("range_m", TInt 0 65535); ("azimuth_deg", TFloat);
   ("cart_x_m", TInt (-32768) 32767); ("cart_y_m", TInt (-32768) 32767); ("speed_ms", TFloat);
   ("heading_deg", TFloat); ("velocity_east_ms", TFloat); ("velocity_north_ms", TFloat);
   ("track_num", TInt 0 4095); ("confirmed", TBool); ("_delete", TTrue); ("coasting", TInt 0 3);
   ("manoeuvring", TTrue); ("smoothed_position", TTrue);
   ("movement", TOneOf [""; "taking_off"; "landing"; "other"]); ("ghost_track", TTrue);
   ("squawk", TStr); ("icao24", TStr); ("callsign", TStr);
   ("vehicle_fleet", TStr); ("flight_level", TFloat); ("baro_alt_m", TFloat);
   ("measured_height_ft", TFloat); ("geo_alt_m", TFloat); ("target_length_m", TInt 0 127);
   ("orientation_deg", TFloat); ("target_width_m", TInt 0 127);
   ("system_status", TOneOf ["operational"; "degraded"; "nogo"; "reserved"]); ("overload", TTrue);
   ("time_source_invalid", TTrue); ("diversity_degraded", TTrue); ("test_target_failure", TTrue);
   ("in_trouble", TTrue); ("preprogrammed_message", TInt 0 127); ("sigma_x_m", TFloat);
   ("sigma_y_m", TFloat); ("sigma_xy_m2", TFloat); ("primary_amplitude", TInt 0 255);
   ("accel_east_ms2", TFloat); ("accel_north_ms2", TFloat)] ++
  [("_ts", TFloat); ("_src", TStr)] ++
  bds_schema.

Section Cat010.
Context `{Libm} (site_lat site_lon : option float).
(** cat.py:3190-3356 *)
Definition _cat10_decode_cat010_record_item (data : bytes) (frn : Z) : cur (dict * Z) unit :=
  if frn =? 0 then
    need data 2 (return_ (fun _ track => (track, len data))) ;;
    b1 <- at_ data 0 ;;
    set_ "sac" (VInt b1) ;;
    b2 <- at_ data 1 ;;
    set_ "sic" (VInt b2) ;;
    adv 2
  else if frn =? 1 then
    need data 1 (return_ (fun _ track => (track, len data))) ;;
    b3 <- at_ data 0 ;;
    b4 <- at_ data 0 ;;
    set_ "msg_type" (VStr (tget_or _cat10__CAT010_MESSAGE_TYPES b3 ("type_" +:+ str_int b4))) ;;
    adv 1
  else if frn =? 2 then
    need data 1 (return_ (fun _ track => (track, len data))) ;;
    b <- at_ data 0 ;;
    adv 1 ;;
    s5 <- lift (tindex _cat10__CAT010_SENSOR_TYPES (Z.land (Z.shiftr b 5) 0x07)) ;;
    set_ "sensor_type" (VStr s5) ;;
    when (bit b 0x10) (set_ "differential_correction" (VBool true)) ;;
    set_ "channel" (VInt (if bit b 0x08 then 2 else 1)) ;;
    when (bit b 0x04) (set_ "transponder_ground_bit" (VBool true)) ;;
    when (bit b 0x02) (set_ "corrupted_reply" (VBool true)) ;;
    when (bit b 0x01) (
      need data 1 (return_ (fun _ track => (track, len data))) ;;
      b <- at_ data 0 ;;
      adv 1 ;;
      when (bit b 0x80) (set_ "simulated" (VBool true)) ;;
      when (bit b 0x40) (set_ "test_target" (VBool true)) ;;
      when (bit b 0x20) (set_ "field_monitor" (VBool true)) ;;
      let loop := Z.land (Z.shiftr b 3) 0x03 in
      when (negb (loop =? 0)) (
        s6 <- lift (index [""; "start"; "finish"; "reserved"] loop) ;;
        set_ "loop_status" (VStr s6)) ;;
      let target_type := Z.land (Z.shiftr b 1) 0x03 in
      s7 <- lift (tindex _cat10__CAT010_TARGET_TYPES target_type) ;;
      set_ "target_type" (VStr s7) ;;
      set_ "on_ground" (VBool (target_type =? 2)) ;;
      fx_each data b (return_ (fun _ track => (track, len data))) (fun _ b =>
        when (bit b 0x80) (set_ "spi" (VBool true))))
  else if frn =? 3 then
    need data 3 (return_ (fun _ track => (track, len data))) ;;
    v8 <- on_slice data 0 3 (fun raw => Ok (int_from_bytes raw)) ;;
    set_ "tod_s" (VFloat (fdiv_raw (fl v8) (fl 128))) ;;
    adv 3
  else if frn =? 4 then
    need data 8 (return_ (fun _ track => (track, len data))) ;;
    v9 <- on_slice data 0 4 _cat10__s32 ;;
    set_ "lat_deg" (VFloat (py_round (fdiv_raw (fmul (fl v9) (fl 180)) (fl (2 ^ 31))) 7)) ;;
    v10 <- on_slice data 4 8 _cat10__s32 ;;
    set_ "lon_deg" (VFloat (py_round (fdiv_raw (fmul (fl v10) (fl 180)) (fl (2 ^ 31))) 7)) ;;
    adv 8
  else if frn =? 5 then
    need data 4 (return_ (fun _ track => (track, len data))) ;;
    range_m <- on_slice data 0 2 _cat10__u16 ;;
    v12 <- on_slice data 2 4 _cat10__u16 ;;
    let azimuth := fdiv_raw (fmul (fl v12) (fl 360)) (fl 65536) in
    set_ "range_m" (VInt range_m) ;;
    set_ "azimuth_deg" (VFloat (py_round azimuth 3)) ;;
    adv 4 ;;
    match site_lat, site_lon with
    | Some lat0, Some lon0 =>
        p <- lift (_cat10__polar_to_wgs84 lat0 lon0 (fdiv_raw (fl range_m) (fl 1852)) azimuth) ;;
        let '(lat, lon) := p in
        setdefault_ "lat_deg" (VFloat (py_round lat 7)) ;;
        setdefault_ "lon_deg" (VFloat (py_round lon 7))
    | _, _ => skip
    end
  else if frn =? 6 then
    need data 4 (return_ (fun _ track => (track, len data))) ;;
    x_m <- on_slice data 0 2 _cat10__s16 ;;
    y_m <- on_slice data 2 4 _cat10__s16 ;;
    adv 4 ;;
    set_ "cart_x_m" (VInt x_m) ;;
    set_ "cart_y_m" (VInt y_m) ;;
    match site_lat, site_lon with
    | Some lat0, Some lon0 =>
        p <- lift (_cat10__cartesian_to_wgs84 lat0 lon0 (fl x_m) (fl y_m)) ;;
        let '(lat, lon) := p in
        setdefault_ "lat_deg" (VFloat (py_round lat 7)) ;;
        setdefault_ "lon_deg" (VFloat (py_round lon 7))
    | _, _ => skip
    end
  else if frn =? 7 then
    need data 4 (return_ (fun _ track => (track, len data))) ;;
    v15 <- on_slice data 0 2 _cat10__u16 ;;
    set_ "speed_ms" (VFloat (py_round (fdiv_raw (fmul (fl v15) (fl 1852)) (fl 16384)) 2)) ;;
    v16 <- on_slice data 2 4 _cat10__u16 ;;
    set_ "heading_deg" (VFloat (py_round (fdiv_raw (fmul (fl v16) (fl 360)) (fl 65536)) 2)) ;;
    adv 4
  else if frn =? 8 then
    need data 4 (return_ (fun _ track => (track, len data))) ;;
    v17 <- on_slice data 0 2 _cat10__s16 ;;
    let vx := fmul (fl v17) (dec 25 2) in
    v18 <- on_slice data 2 4 _cat10__s16 ;;
    let vy := fmul (fl v18) (dec 25 2) in
    adv 4 ;;
    set_ "velocity_east_ms" (VFloat (py_round vx 2)) ;;
    set_ "velocity_north_ms" (VFloat (py_round vy 2)) ;;
    speed19 <- lift (m_hypot vx vy) ;;
    setdefault_ "speed_ms" (VFloat (py_round speed19 2)) ;;
    when ((ftruth vx) || (ftruth vy)) (
      angle20 <- lift (m_atan2 vx vy) ;;
      setdefault_ "heading_deg" (VFloat (py_round (fmod (fadd (degrees angle20) (fl 360)) (fl 360)) 2)))
  else if frn =? 9 then
    need data 2 (return_ (fun _ track => (track, len data))) ;;
    v21 <- on_slice data 0 2 _cat10__u16 ;;
    set_ "track_num" (VInt (Z.land v21 0x0FFF)) ;;
    adv 2
  else if frn =? 10 then
    need data 1 (return_ (fun _ track => (track, len data))) ;;
    b <- at_ data 0 ;;
    adv 1 ;;
    set_ "confirmed" (VBool (negb (bit b 0x80))) ;;
    when (bit b 0x40) (set_ "_delete" (VBool true)) ;;
    let coast := Z.land (Z.shiftr b 4) 0x03 in
    when (negb (coast =? 0)) (set_ "coasting" (VInt coast)) ;;
    when (bit b 0x08) (set_ "manoeuvring" (VBool true)) ;;
    when (bit b 0x02) (set_ "smoothed_position" (VBool true)) ;;
    fx_each data b (return_ (fun _ track => (track, len data))) (fun extent b =>
      (if extent =? 1 then
        let movement := Z.land (Z.shiftr b 6) 0x03 in
        when (negb (movement =? 0)) (
          s22 <- lift (index [""; "taking_off"; "landing"; "other"] movement) ;;
          set_ "movement" (VStr s22))
       else
        when ((extent =? 2) && (bit b 0x80)) (set_ "ghost_track" (VBool true))))
  else if frn =? 11 then
    need data 2 (return_ (fun _ track => (track, len data))) ;;
    v23 <- on_slice data 0 2 _cat10__u16 ;;
    set_ "squawk" (VStr (fmt_o 4 (Z.land v23 0x0FFF))) ;;
    adv 2
  else if frn =? 12 then
    need data 3 (return_ (fun _ track => (track, len data))) ;;
    s24 <- on_slice data 0 3 (fun raw => Ok (hex raw)) ;;
    set_ "icao24" (VStr s24) ;;
    adv 3
  else if frn =? 13 then
    need data 7 (return_ (fun _ track => (track, len data))) ;;
    callsign <- on_slice data 1 7 _cat10__decode_callsign ;;
    adv 7 ;;
    when (negb (String.eqb callsign "")) (set_ "callsign" (VStr callsign))
  else if frn =? 14 then
    need data 1 (return_ (fun _ track => (track, len data))) ;;
    rep <- at_ data 0 ;;
    adv 1 ;;
    for_range (Z.to_nat rep) (fun _ =>
        need data 8 (return_ (fun _ track => (track, len data))) ;;
        mb <- on_slice data 0 7 (fun mb => Ok mb) ;;
        bds <- at_ data 7 ;;
        adv 8 ;;
        let bds1 := Z.shiftr bds 4 in
        let bds2 := Z.land bds 0x0F in
        (if (bds1 =? 1) && (bds2 =? 0) then update_ (_cat10__decode_bds10 mb)
         else if (bds1 =? 1) && (bds2 =? 7) then update_ (_cat10__decode_bds17 mb)
         else if (bds1 =? 3) && (bds2 =? 0) then update_ (_cat10__decode_bds30 mb)
         else if (bds1 =? 4) && (bds2 =? 0) then update_ (_cat10__decode_bds40 mb)
         else if (bds1 =? 5) && (bds2 =? 0) then update_ (_cat10__decode_bds50 mb)
         else when ((bds1 =? 6) && (bds2 =? 0)) (update_ (_cat10__decode_bds60 mb))) ;;
        ret (more tt)) tt
  else if frn =? 15 then
    need data 1 (return_ (fun _ track => (track, len data))) ;;
    b26 <- at_ data 0 ;;
    b27 <- at_ data 0 ;;
    set_ "vehicle_fleet" (VStr (tget_or _cat10__CAT010_FLEETS b26 ("fleet_" +:+ str_int b27))) ;;
    adv 1 ;;
    setdefault_ "target_type" (VStr "ground_vehicle") ;;
    set_ "on_ground" (VBool true)
  else if frn =? 16 then
    need data 2 (return_ (fun _ track => (track, len data))) ;;
    raw <- on_slice data 0 2 _cat10__u16 ;;
    adv 2 ;;
    let level := fmul (fl (_cat10__signed_bits (Z.land raw 0x3FFF) 14)) (dec 25 2) in
    set_ "flight_level" (VFloat (py_round level 2)) ;;
    set_ "baro_alt_m" (VFloat (py_round (fmul (fmul level (fl 100)) (dec 3048 4)) 2))
  else if frn =? 17 then
    need data 2 (return_ (fun _ track => (track, len data))) ;;
    v29 <- on_slice data 0 2 _cat10__s16 ;;
    let feet := fmul (fl v29) (dec 625 2) in
    adv 2 ;;
    set_ "measured_height_ft" (VFloat (py_round feet 2)) ;;
    set_ "geo_alt_m" (VFloat (py_round (fmul feet (dec 3048 4)) 2))
  else if frn =? 18 then
    need data 1 (return_ (fun _ track => (track, len data))) ;;
    b <- at_ data 0 ;;
    adv 1 ;;
    set_ "target_length_m" (VInt (Z.shiftr b 1)) ;;
    when (bit b 0x01) (
      need data 1 (return_ (fun _ track => (track, len data))) ;;
      b <- at_ data 0 ;;
      adv 1 ;;
      set_ "orientation_deg" (VFloat (py_round (fdiv_raw (fmul (fl (Z.shiftr b 1)) (fl 360)) (fl 128)) 2)) ;;
      when (bit b 0x01) (
        need data 1 (return_ (fun _ track => (track, len data))) ;;
        b <- at_ data 0 ;;
        adv 1 ;;
        set_ "target_width_m" (VInt (Z.shiftr b 1)) ;;
        fx_each data b (return_ (fun _ track => (track, len data))) (fun _ _ => skip)))
  else if frn =? 19 then
    need data 1 (return_ (fun _ track => (track, len data))) ;;
    b <- at_ data 0 ;;
    adv 1 ;;
    s30 <- lift (index ["operational"; "degraded"; "nogo"; "reserved"] (Z.land (Z.shiftr b 6) 0x03)) ;;
    set_ "system_status" (VStr s30) ;;
    when (bit b 0x20) (set_ "overload" (VBool true)) ;;
    when (bit b 0x10) (set_ "time_source_invalid" (VBool true)) ;;
    when (bit b 0x08) (set_ "diversity_degraded" (VBool true)) ;;
    when (bit b 0x04) (set_ "test_target_failure" (VBool true))
  else if frn =? 20 then
    need data 1 (return_ (fun _ track => (track, len data))) ;;
    b <- at_ data 0 ;;
    adv 1 ;;
    when (bit b 0x80) (set_ "in_trouble" (VBool true)) ;;
    set_ "preprogrammed_message" (VInt (Z.land b 0x7F))
  else if frn =? 21 then
    need data 4 (return_ (fun _ track => (track, len data))) ;;
    b31 <- at_ data 0 ;;
    set_ "sigma_x_m" (VFloat (fmul (fl b31) (dec 25 2))) ;;
    b32 <- at_ data 1 ;;
    set_ "sigma_y_m" (VFloat (fmul (fl b32) (dec 25 2))) ;;
    v33 <- on_slice data 2 4 _cat10__s16 ;;
    set_ "sigma_xy_m2" (VFloat (fmul (fl v33) (dec 25 2))) ;;
    adv 4
  else if frn =? 22 then
    need data 1 (return_ (fun _ track => (track, len data))) ;;
    rep <- at_ data 0 ;;
    adv 1 ;;
    need data (rep * 2) (return_ (fun _ track => (track, len data))) ;;
    adv (rep * 2)
  else if frn =? 23 then
    need data 1 (return_ (fun _ track => (track, len data))) ;;
    b34 <- at_ data 0 ;;
    set_ "primary_amplitude" (VInt b34) ;;
    adv 1
  else if frn =? 24 then
    need data 2 (return_ (fun _ track => (track, len data))) ;;
    b35 <- at_ data 0 ;;
    set_ "accel_east_ms2" (VFloat (fmul (fl (sign_extend 8 b35)) (dec 25 2))) ;;
    b36 <- at_ data 1 ;;
    set_ "accel_north_ms2" (VFloat (fmul (fl (sign_extend 8 b36)) (dec 25 2))) ;;
    adv 2
  else if frn =? 25 then
    skip
  else if (frn =? 26) || (frn =? 27) then
    goto (_cat10__skip_len_field data)
  else
    return_ (fun _ track => (track, len data)).

Definition _cat10_decode_cat010_record (now : float) (data : bytes) (pos : Z) : exc (dict * Z) :=
  let? (fspec, pos) := _cat10_parse_fspec data pos in
  run (for_fspec fspec (_cat10_decode_cat010_record_item data) ;;
       return_ (fun pos track => (track, pos))) pos (new_track now "ASTERIX CAT-10 Ed.1.1").

(** The status of the site: what a service message says, under the identity and
    at the place of the sensor. *)
Definition site_status (site_name : string) (lat lon : float) (track : dict) : dict :=
  dupdate track
    [("sensor_id", VStr ("CAT10-" +:+ str_int (sac_sic (dget track "sac")) +:+ "-" +:+ str_int (sac_sic (dget track "sic"))));
     ("sensor_name", VStr (if String.eqb site_name "" then "Airport surface sensor" else site_name));
     ("sensor_type", VStr "airport_surface_surveillance"); ("lat_deg", VFloat lat); ("lon_deg", VFloat lon)].

Definition _cat10_TOPIC_010_SENSOR (root source affil : string) : string :=
  root +:+ "/land/" +:+ source +:+ "/radar/" +:+ affil +:+ "/radar".

(** [track.get("target_type") == "ground_vehicle" or "vehicle_fleet" in track] *)
Definition on_surface (track : dict) : bool :=
  match dget track "target_type" with
  | Some (VStr t) => String.eqb t "ground_vehicle"
  | _ => false
  end || dmem "vehicle_fleet" track.

(** Target reports with a position are tracks, service messages the status of
    the site. [civil] says which sources are civil radars. *)
Definition _cat10_route (civil : list string) (site_name root : string) (track : dict) : routed :=
  match dget track "msg_type" with
  | Some (VStr mtype) =>
      if String.eqb mtype "target_report" then
        if negb (located track) then Unplaced else
        let source := _asterix_source track in
        Reported (if on_surface track then _cat10_TOPIC_010_GROUND root source else _cat10_TOPIC_010_AIR root source) "track"
      else if selem mtype ["start_update_cycle"; "periodic_status"; "event_status"] then
        match site_lat, site_lon with
        | Some lat, Some lon =>
            let source := _asterix_source track in
            Announced (_cat10_TOPIC_010_SENSOR root source (_radar_site_affil civil source)) (site_status site_name lat lon track)
        | _, _ => Unplaced
        end
      else Unplaced
  | _ => Unplaced
  end.

(** [_h] of [_cat10__make_cat010_handler]; [clock pos] is the time at which the record at
    [pos] is read. *)
Definition _cat10_handler (repr : value -> string) (civil : list string) (site_name root : string) (clock : Z -> float)
    (data : bytes) : list sending * exc unit :=
  handle_block repr 10 "cat010" (fun data pos => _cat10_decode_cat010_record (clock pos) data pos) (_cat10_route civil site_name root) data.
End Cat010.

(** ** Correctness *)
Definition cat010_schema : schema := _cat10_decode_cat010_record_schema.

(** The status of a site. *)
Definition status_schema010 : schema :=
  [("sensor_id", TStr); ("sensor_name", TStr); ("sensor_type", TStr)] ++ cat010_schema.

Lemma site_status_ok site_lat site_lon civil site_name root track topic status :
  wt cat010_schema track -> _cat10_route site_lat site_lon civil site_name root track = Announced topic status ->
  wt status_schema010 status.
Proof.
  intros Ht. unfold _cat10_route. repeat case_match; try done. intros [= _ <-].
  unfold site_status. apply wt_dupdate; [|vm_compute; reflexivity].
  eapply wt_le; [|exact Ht]. vm_compute. reflexivity.
Qed.

Section Correctness.
Context `{LibmOk}.
Variables (site_lat site_lon : option float).

Lemma item_ok_cat010 p0 data frn : p0 < len data ->
  item_ok data cat010_schema (record_result data cat010_schema p0) (geo_error site_lat site_lon)
    (_cat10_decode_cat010_record_item site_lat site_lon data frn).
Proof.
  intros Hp0 p d Hp Hd. unfold _cat10_decode_cat010_record_item, _cat10__u16, _cat10__s16, _cat10__s32, _cat10__polar_to_wgs84, _cat10__cartesian_to_wgs84, _cat10__decode_callsign, _cat10__signed_bits.
  by_items ltac:(wp_record).
Qed.

Lemma decode_cat010_ok now data p : 0 <= p < len data ->
  returns (_cat10_decode_cat010_record site_lat site_lon now data p) (record_result data cat010_schema p) (geo_error site_lat site_lon).
Proof.
  intros Hp. unfold _cat10_decode_cat010_record. apply record_decoder_ok;
    [done|apply new_track_ok; vm_compute; reflexivity|by apply parse_fspec_strict| |].
  - intros frn _. apply item_ok_cat010; lia.
  - intros p' d' Hp' Hd. by apply wp_return.
Qed.

(** What the protobuf view of a record loses. *)
Definition dropped010 : list string :=
  "_delete" :: map fst bds10_schema.

Lemma cat010_block_ok repr civil site_name root clock data : len data <= 0xFFFF - 3 ->
  let '(out, r) := _cat10_handler site_lat site_lon repr civil site_name root clock data in
  delivered repr 10 "cat010" (fun data pos => _cat10_decode_cat010_record site_lat site_lon (clock pos) data pos) (_cat10_route site_lat site_lon civil site_name root)
    cat010_schema AsterixCat10Track (wt status_schema010) dropped010 (geo_error site_lat site_lon) data 0 out r.
Proof.
  intros Hl. apply handle_block_ok; [|vm_compute; reflexivity| |lia].
  - intros p Hp. by apply decode_cat010_ok.
  - apply site_status_ok.
Qed.
End Correctness.
