(* ===== verification/Cat011.v ===== *)
(** * CAT-011: surface movement system tracks

    cat.py:3512-4290. *)

From S2P Require Import Prelude PyFloat PyData Schema Ranges Cursor Safety Contract AsterixCommon.
From S2P Require Import Bds TrackViews Records Blocks.

Definition _cat11_TOPIC_AIR (root source : string) : string :=
  root +:+ "/air/" +:+ source +:+ "/radar/civ/aircraft".
Definition _cat11_TOPIC_GROUND (root source : string) : string :=
  root +:+ "/land/" +:+ source +:+ "/radar/unknown/vehicle".
Definition _cat11_parse_fspec := parse_fspec.
Definition _cat11__skip_len_field := skip_len_field.
Definition _cat11__u16 := u16.
Definition _cat11__s16 := s16.
Definition _cat11__s32 := s32.
Definition _cat11__cartesian_to_wgs84 `{Libm} := cartesian_to_wgs84.
Definition _cat11__signed_bits := signed_bits.
Definition _cat11__CHARSET_6BIT := CHARSET_6BIT.
Definition _cat11__decode_callsign := decode_callsign.
Definition _cat11__presence := presence.
Definition _cat11__decode_bds10 := decode_bds10.
Definition _cat11__decode_bds17 := decode_bds17.
Definition _cat11__decode_bds30 := decode_bds30.
Definition _cat11__decode_bds40 := decode_bds40.
Definition _cat11__decode_bds50 := decode_bds50.
Definition _cat11__decode_bds60 := decode_bds60.

(** cat.py:3531-3531 *)
Definition _cat11_CAT_011 : Z := 11.
(** cat.py:3535-3539 *)
Definition _cat11__MSG_TYPES : table :=
  [(1, "target_report"); (2, "attach_flight_plan"); (3, "detach_flight_plan");
   (4, "insert_flight_plan"); (5, "suppress_flight_plan"); (6, "modify_flight_plan");
   (7, "holdbar_status")].
(** cat.py:3541-3541 *)
Definition _cat11__STI : table :=
  [(0, "downlinked"); (1, "callsign_not_downlinked"); (2, "registration_not_downlinked")].
(** cat.py:3543-3546 *)
Definition _cat11__HEIGHT_SOURCE : table :=
  [(0, "none"); (1, "gps"); (2, "3d_radar"); (3, "triangulation"); (4, "height_from_coverage");
   (5, "speed_lookup"); (6, "default_height"); (7, "multilateration")].
(** cat.py:3548-3548 *)
Definition _cat11__MODE4_FRIFOE : table :=
  [(0, "no_interrogation"); (1, "friendly"); (2, "unknown"); (3, "no_reply")].
(** cat.py:3550-3554 *)
Definition _cat11__PHASE_OF_FLIGHT : table :=
  [(0, "unknown"); (1, "on_stand"); (2, "taxiing_for_departure"); (3, "taxiing_for_arrival");
   (4, "runway_for_departure"); (5, "runway_for_arrival"); (6, "hold_for_departure");
   (7, "hold_for_arrival"); (8, "push_back"); (9, "on_finals")].
(** cat.py:3556-3561 *)
Definition _cat11__FLEETS : table :=
  [(0, "follow_me"); (1, "atc_maintenance"); (2, "airport_maintenance"); (3, "fire");
   (4, "bird_scarer"); (5, "snow_plough"); (6, "runway_sweeper"); (7, "emergency"); (8, "police");
   (9, "bus"); (10, "tug"); (11, "grass_cutter"); (12, "fuel"); (13, "baggage"); (14, "catering");
   (15, "aircraft_maintenance"); (16, "unknown")].
(** cat.py:3563-3566 *)
Definition _cat11__PREPROG_MSG : table :=
  [(1, "towing_aircraft"); (2, "follow_me_operation"); (3, "runway_check");
   (4, "emergency_operation"); (5, "work_in_progress")].
(** cat.py:3568-3568 *)
Definition _cat11__ALERT_SVR : table :=
  [(0, "end_of_alert"); (1, "pre_alarm"); (2, "severe_alert")].
(** cat.py:3570-3573 *)
Definition _cat11__COM : table :=
  [(0, "surveillance_only"); (1, "comm_a_b"); (2, "comm_a_b_uplink_elm");
   (3, "comm_a_b_uplink_downlink_elm"); (4, "level5_transponder")].
(** cat.py:3575-3579 *)
Definition _cat11__STAT : table :=
  [(0, "airborne"); (1, "on_ground"); (2, "alert_airborne"); (3, "alert_on_ground");
   (4, "alert_spi"); (5, "spi"); (6, "general_emergency"); (7, "lifeguard_medical");
   (8, "minimum_fuel"); (9, "no_communications"); (10, "unlawful_interference")].
(** cat.py:3581-3587 *)
Definition _cat11__ECAT : table :=
  [(1, "light_aircraft"); (3, "medium_aircraft"); (5, "heavy_aircraft");
   (6, "highly_manoeuvrable_high_speed"); (10, "rotorcraft"); (11, "glider");
   (12, "lighter_than_air"); (13, "uav"); (14, "space_vehicle"); (15, "ultralight");
   (16, "parachutist"); (20, "surface_emergency_vehicle"); (21, "surface_service_vehicle");
   (22, "fixed_ground_obstruction")].
(** cat.py:3589-3589 *)
Definition _cat11__DAY : table :=
  [(0, "today"); (1, "yesterday"); (2, "tomorrow")].
Definition _cat11__decode_170_schema : schema :=
  [("monosensor", TBool); ("ground_bit", TTrue); ("geometric_alt_more_reliable", TTrue);
   ("height_source", TOneOf ("unknown" :: map snd _cat11__HEIGHT_SOURCE)); ("confirmed", TBool);
   ("simulated", TTrue); ("track_service_end", TTrue); ("track_service_begin", TTrue);
   ("mode4_friend_foe", TOneOf ("unknown" :: map snd _cat11__MODE4_FRIFOE));
   ("military_emergency", TTrue); ("military_identification", TTrue);
   ("amalgamated", TTrue); ("spi", TTrue); ("coasting", TTrue); ("flight_plan_correlated", TBool);
   ("adsb_inconsistent", TTrue); ("psr_update_stale", TTrue); ("ssr_update_stale", TTrue);
   ("mode_s_update_stale", TTrue); ("ads_update_stale", TTrue); ("special_used_code", TTrue);
   ("mode_a_conflict", TTrue)].

(** The next octet of a chain of them, if the last one says there is one and the
    data holds it. *)
Definition extended (data : bytes) (b : Z) : cur (dict * Z) Z :=
  when (negb (bit b 0x01)) (return_ (fun pos out => (out, pos))) ;;
  need data 1 (return_ (fun pos out => (out, pos))) ;;
  b <- at_ data 0 ;;
  adv 1 ;;
  ret b.

(** cat.py:3836-3870 *)
Definition _cat11__decode_170_item (data : bytes) : cur (dict * Z) unit :=
  need data 1 (return_ (fun _ out => (out, len data))) ;;
  b <- at_ data 0 ;;
  adv 1 ;;
  set_ "monosensor" (VBool (bit b 0x80)) ;;
  when (bit b 0x40) (set_ "ground_bit" (VBool true)) ;;
  when (bit b 0x20) (set_ "geometric_alt_more_reliable" (VBool true)) ;;
  set_ "height_source" (VStr (tget_or _cat11__HEIGHT_SOURCE (Z.land (Z.shiftr b 2) 0x07) "unknown")) ;;
  set_ "confirmed" (VBool (negb (bit b 0x02))) ;;
  b <- extended data b ;;
  when (bit b 0x80) (set_ "simulated" (VBool true)) ;;
  when (bit b 0x40) (set_ "track_service_end" (VBool true)) ;;
  when (bit b 0x20) (set_ "track_service_begin" (VBool true)) ;;
  set_ "mode4_friend_foe" (VStr (tget_or _cat11__MODE4_FRIFOE (Z.land (Z.shiftr b 3) 0x03) "unknown")) ;;
  when (bit b 0x04) (set_ "military_emergency" (VBool true)) ;;
  when (bit b 0x02) (set_ "military_identification" (VBool true)) ;;
  b <- extended data b ;;
  when (bit b 0x80) (set_ "amalgamated" (VBool true)) ;;
  when (bit b 0x40) (set_ "spi" (VBool true)) ;;
  when (bit b 0x20) (set_ "coasting" (VBool true)) ;;
  set_ "flight_plan_correlated" (VBool (bit b 0x10)) ;;
  when (bit b 0x08) (set_ "adsb_inconsistent" (VBool true)) ;;
  b <- extended data b ;;
  when (bit b 0x40) (set_ "psr_update_stale" (VBool true)) ;;
  when (bit b 0x20) (set_ "ssr_update_stale" (VBool true)) ;;
  when (bit b 0x10) (set_ "mode_s_update_stale" (VBool true)) ;;
  when (bit b 0x08) (set_ "ads_update_stale" (VBool true)) ;;
  when (bit b 0x04) (set_ "special_used_code" (VBool true)) ;;
  when (bit b 0x02) (set_ "mode_a_conflict" (VBool true)).

(** cat.py:3834-3870 *)
Definition _cat11__decode_170 : bytes -> Z -> exc (dict * Z) := plain_item _cat11__decode_170_item.

Definition _cat11__decode_270_schema : schema :=
  [("target_length_m", TInt 0 127); ("orientation_deg", TFloat); ("target_width_m", TInt 0 127)].

(** cat.py:3875-3887 *)
Definition _cat11__decode_270_item (data : bytes) : cur (dict * Z) unit :=
  need data 1 (return_ (fun pos out => (out, pos))) ;;
  b <- at_ data 0 ;;
  adv 1 ;;
  set_ "target_length_m" (VInt (Z.shiftr b 1)) ;;
  b <- extended data b ;;
  set_ "orientation_deg" (VFloat (py_round (fdiv_raw (fmul (fl (Z.shiftr b 1)) (fl 360)) (fl 128)) 2)) ;;
  b <- extended data b ;;
  set_ "target_width_m" (VInt (Z.shiftr b 1)).

(** cat.py:3873-3887 *)
Definition _cat11__decode_270 : bytes -> Z -> exc (dict * Z) := plain_item _cat11__decode_270_item.

Definition names_11_290 : list string :=
  ["psr"; "ssr"; "mda"; "mfl"; "mds"; "ads"; "adb"; "md1"; "md2"; "lop"; "trk"; "mul"].

Definition _cat11__decode_290_schema : schema :=
  map (fun name => ("track_age_" +:+ name +:+ "_s", TFloat)) names_11_290.

(** One subfield of _cat11__decode_290; cat.py:3895-3900 *)
Definition _cat11__decode_290_item (data : bytes) (name : string) : cur (dict * Z) unit :=
  let size := if String.eqb name "ads" then 2 else 1 in
  need data size (return_ (fun _ out => (out, len data))) ;;
  v1 <- on_slice data 0 size (fun raw => Ok (int_from_bytes raw)) ;;
  set_ ("track_age_" +:+ name +:+ "_s") (VFloat (py_round (fmul (fl v1) (dec 25 2)) 2)) ;;
  adv size.

(** cat.py:3890-3901 *)
Definition _cat11__decode_290 : bytes -> Z -> exc (dict * Z) := compound names_11_290 2 _cat11__decode_290_item.

Definition names_11_380 : list string :=
  ["mb"; "adr"; "comacas"; "act"; "ecat"; "avtech"].

Definition _cat11__decode_380_schema : schema :=
  [("icao24", TStr);
   ("com", TOneOf ("unknown" :: map snd _cat11__COM));
   ("flight_status", TOneOf ("unknown" :: map snd _cat11__STAT)); ("ssc", TBool);
   ("altitude_reporting", TBool); ("aircraft_id_capability", TBool);
   ("bds10_bit_array_available", TBool); ("bds10_bit_array_raw", TInt 0 15);
   ("altitude_capability", TBool); ("mode_s_specific_service", TBool);
   ("dte_sub_addressing", TBool); ("aircraft_type", TStr); ("emitter_category", TStr);
   ("vdl_mode4", TTrue); ("mode_s_datalink", TTrue); ("uat_datalink", TTrue)] ++
  bds_schema.

(** One subfield of _cat11__decode_380; cat.py:3909-3951 *)
Definition _cat11__decode_380_item (data : bytes) (name : string) : cur (dict * Z) unit :=
  if String.eqb name "mb" then
    need data 1 (return_ (fun _ out => (out, len data))) ;;
    rep <- at_ data 0 ;;
    adv 1 ;;
    for_range (Z.to_nat rep) (fun _ =>
        need data 8 (return_ (fun _ out => (out, len data))) ;;
        mb <- on_slice data 0 7 (fun mb => Ok mb) ;;
        bds <- at_ data 7 ;;
        adv 8 ;;
        let bds1 := Z.shiftr bds 4 in
        let bds2 := Z.land bds 0x0F in
        (if (bds1 =? 1) && (bds2 =? 0) then update_ (_cat11__decode_bds10 mb)
         else if (bds1 =? 1) && (bds2 =? 7) then update_ (_cat11__decode_bds17 mb)
         else if (bds1 =? 3) && (bds2 =? 0) then update_ (_cat11__decode_bds30 mb)
         else if (bds1 =? 4) && (bds2 =? 0) then update_ (_cat11__decode_bds40 mb)
         else if (bds1 =? 5) && (bds2 =? 0) then update_ (_cat11__decode_bds50 mb)
         else when ((bds1 =? 6) && (bds2 =? 0)) (update_ (_cat11__decode_bds60 mb))) ;;
        ret (more tt)) tt
  else if String.eqb name "adr" then
    need data 3 (return_ (fun _ out => (out, len data))) ;;
    s1 <- on_slice data 0 3 (fun raw => Ok (hex raw)) ;;
    set_ "icao24" (VStr s1) ;;
    adv 3
  else if String.eqb name "comacas" then
    need data 3 (return_ (fun _ out => (out, len data))) ;;
    b1 <- at_ data 0 ;;
    b2 <- at_ data 1 ;;
    b3 <- at_ data 2 ;;
    adv 3 ;;
    set_ "com" (VStr (tget_or _cat11__COM (Z.land (Z.shiftr b1 5) 0x07) "unknown")) ;;
    set_ "flight_status" (VStr (tget_or _cat11__STAT (Z.land (Z.shiftr b1 1) 0x0F) "unknown")) ;;
    set_ "ssc" (VBool (bit b2 0x80)) ;;
    set_ "altitude_reporting" (VBool (bit b2 0x40)) ;;
    set_ "aircraft_id_capability" (VBool (bit b2 0x20)) ;;
    set_ "bds10_bit_array_available" (VBool (bit b2 0x10)) ;;
    set_ "bds10_bit_array_raw" (VInt (Z.land b2 0x0F)) ;;
    set_ "altitude_capability" (VBool (bit b3 0x80)) ;;
    set_ "mode_s_specific_service" (VBool (bit b3 0x40)) ;;
    set_ "dte_sub_addressing" (VBool (bit b3 0x20))
  else if String.eqb name "act" then
    need data 4 (return_ (fun _ out => (out, len data))) ;;
    act <- on_slice data 0 4 ascii_text ;;
    adv 4 ;;
    when (negb (String.eqb act "")) (set_ "aircraft_type" (VStr act))
  else if String.eqb name "ecat" then
    need data 1 (return_ (fun _ out => (out, len data))) ;;
    b3 <- at_ data 0 ;;
    b4 <- at_ data 0 ;;
    set_ "emitter_category" (VStr (tget_or _cat11__ECAT b3 ("cat_" +:+ str_int b4))) ;;
    adv 1
  else if String.eqb name "avtech" then
    need data 1 (return_ (fun _ out => (out, len data))) ;;
    b <- at_ data 0 ;;
    adv 1 ;;
    when (bit b 0x80) (set_ "vdl_mode4" (VBool true)) ;;
    when (bit b 0x40) (set_ "mode_s_datalink" (VBool true)) ;;
    when (bit b 0x20) (set_ "uat_datalink" (VBool true))
  else skip.

(** cat.py:3904-3952 *)
Definition _cat11__decode_380 : bytes -> Z -> exc (dict * Z) := compound names_11_380 1 _cat11__decode_380_item.

Definition names_11_390 : list string :=
  ["fppsid"; "csn"; "ifpsflightid"; "flightcat"; "toa"; "wtc"; "adep"; "ades"; "rwy"; "cfl"; "ccp";
   "tod"; "ast"; "sts"].

Definition _cat11__decode_390_schema : schema :=
  [("fpps_sac", TInt 0 255); ("fpps_sic", TInt 0 255); ("callsign_fpl", TStr);
   ("ifps_id_type_raw", TInt 0 3); ("ifps_id_number", TInt 0 134217727); ("gat_oat_raw", TInt 0 3);
   ("fr1_fr2_raw", TInt 0 3); ("rvsm_raw", TInt 0 3); ("hpr", TTrue); ("time_of_arrival", TStr);
   ("departure_airport", TStr); ("destination_airport", TStr); ("runway", TStr); ("wake_turbulence_cat", TStr);
   ("cleared_flight_level", TFloat); ("control_centre", TInt 0 255);
   ("control_position", TInt 0 255);
   ("times_of_day", TList (TDict [("type_raw", TInt 0 31); ("day", TOneOf ("unknown" :: map snd _cat11__DAY)); ("hour", TInt 0 31); ("minute", TInt 0 63); ("seconds_available", TBool); ("second", TInt 0 63)]));
   ("aircraft_stand", TStr); ("emp_raw", TInt 0 3); ("avl_raw", TInt 0 3)].

(** One subfield of _cat11__decode_390; cat.py:3966-4036 *)
Definition _cat11__decode_390_item (data : bytes) (name : string) : cur (dict * Z) unit :=
  if String.eqb name "fppsid" then
    need data 2 (return_ (fun _ out => (out, len data))) ;;
    b1 <- at_ data 0 ;;
    set_ "fpps_sac" (VInt b1) ;;
    b2 <- at_ data 1 ;;
    set_ "fpps_sic" (VInt b2) ;;
    adv 2
  else if String.eqb name "csn" then
    need data 7 (return_ (fun _ out => (out, len data))) ;;
    csn <- on_slice data 0 7 ascii_text ;;
    adv 7 ;;
    when (negb (String.eqb csn "")) (set_ "callsign_fpl" (VStr csn))
  else if String.eqb name "ifpsflightid" then
    need data 4 (return_ (fun _ out => (out, len data))) ;;
    v <- on_slice data 0 4 (fun raw => Ok (int_from_bytes raw)) ;;
    adv 4 ;;
    set_ "ifps_id_type_raw" (VInt (Z.land (Z.shiftr v 27) 0x03)) ;;
    set_ "ifps_id_number" (VInt (Z.land v 0x07FFFFFF))
  else if String.eqb name "flightcat" then
    need data 1 (return_ (fun _ out => (out, len data))) ;;
    b <- at_ data 0 ;;
    adv 1 ;;
    set_ "gat_oat_raw" (VInt (Z.land (Z.shiftr b 6) 0x03)) ;;
    set_ "fr1_fr2_raw" (VInt (Z.land (Z.shiftr b 4) 0x03)) ;;
    set_ "rvsm_raw" (VInt (Z.land (Z.shiftr b 2) 0x03)) ;;
    when (bit b 0x02) (set_ "hpr" (VBool true))
  else if String.eqb name "toa" then
    need data 4 (return_ (fun _ out => (out, len data))) ;;
    s <- on_slice data 0 4 ascii_text ;;
    adv 4 ;;
    when (negb (String.eqb s "")) (set_ "time_of_arrival" (VStr s))
  else if String.eqb name "wtc" then
    need data 1 (return_ (fun _ out => (out, len data))) ;;
    b <- at_ data 0 ;;
    set_ "wake_turbulence_cat" (VStr (if (32 <=? b) && (b <? 127) then chr8 b else "")) ;;
    adv 1
  else if String.eqb name "adep" then
    need data 4 (return_ (fun _ out => (out, len data))) ;;
    s <- on_slice data 0 4 ascii_text ;;
    adv 4 ;;
    when (negb (String.eqb s "")) (set_ "departure_airport" (VStr s))
  else if String.eqb name "ades" then
    need data 4 (return_ (fun _ out => (out, len data))) ;;
    s <- on_slice data 0 4 ascii_text ;;
    adv 4 ;;
    when (negb (String.eqb s "")) (set_ "destination_airport" (VStr s))
  else if String.eqb name "rwy" then
    need data 3 (return_ (fun _ out => (out, len data))) ;;
    s <- on_slice data 0 3 ascii_text ;;
    adv 3 ;;
    when (negb (String.eqb s "")) (set_ "runway" (VStr s))
  else if String.eqb name "cfl" then
    need data 2 (return_ (fun _ out => (out, len data))) ;;
    v9 <- on_slice data 0 2 _cat11__u16 ;;
    set_ "cleared_flight_level" (VFloat (py_round (fmul (fl v9) (dec 25 2)) 2)) ;;
    adv 2
  else if String.eqb name "ccp" then
    need data 2 (return_ (fun _ out => (out, len data))) ;;
    b10 <- at_ data 0 ;;
    set_ "control_centre" (VInt b10) ;;
    b11 <- at_ data 1 ;;
    set_ "control_position" (VInt b11) ;;
    adv 2
  else if String.eqb name "tod" then
    need data 1 (return_ (fun _ out => (out, len data))) ;;
    rep <- at_ data 0 ;;
    adv 1 ;;
    entries <- for_range (Z.to_nat rep) (fun entries =>
        none <- short data 4 ;;
        if none then ret (stop entries) else
        v <- on_slice data 0 4 (fun raw => Ok (int_from_bytes raw)) ;;
        adv 4 ;;
        let entries := entries ++ [VDict [("type_raw", VInt (Z.land (Z.shiftr v 27) 0x1F)); ("day", VStr (tget_or _cat11__DAY (Z.land (Z.shiftr v 25) 0x03) "unknown")); ("hour", VInt (Z.land (Z.shiftr v 16) 0x1F)); ("minute", VInt (Z.land (Z.shiftr v 8) 0x3F)); ("seconds_available", VBool (negb (bit (Z.shiftr v 7) 0x01))); ("second", VInt (Z.land v 0x3F))]] in
        ret (more entries)) [] ;;
    when (nonempty entries) (set_ "times_of_day" (VList entries))
  else if String.eqb name "ast" then
    need data 6 (return_ (fun _ out => (out, len data))) ;;
    s <- on_slice data 0 6 ascii_text ;;
    adv 6 ;;
    when (negb (String.eqb s "")) (set_ "aircraft_stand" (VStr s))
  else if String.eqb name "sts" then
    need data 1 (return_ (fun _ out => (out, len data))) ;;
    b <- at_ data 0 ;;
    adv 1 ;;
    set_ "emp_raw" (VInt (Z.land (Z.shiftr b 6) 0x03)) ;;
    set_ "avl_raw" (VInt (Z.land (Z.shiftr b 4) 0x03))
  else skip.

(** cat.py:3955-4037 *)
Definition _cat11__decode_390 : bytes -> Z -> exc (dict * Z) := compound names_11_390 2 _cat11__decode_390_item.

Definition names_11_500 : list string :=
  ["apc"; "apw"; "ath"; "avc"; "arc"; "aac"].

Definition _cat11__decode_500_schema : schema :=
  [("pos_accuracy_x_m", TFloat); ("pos_accuracy_y_m", TFloat); ("pos_accuracy_lat_deg", TFloat);
   ("pos_accuracy_lon_deg", TFloat); ("height_accuracy_m", TFloat); ("vel_accuracy_x_ms", TFloat);
   ("vel_accuracy_y_ms", TFloat); ("rate_accuracy_ms", TFloat); ("accel_accuracy_x_ms2", TFloat);
   ("accel_accuracy_y_ms2", TFloat)].

(** One subfield of _cat11__decode_500; cat.py:4045-4066 *)
Definition _cat11__decode_500_item (data : bytes) (name : string) : cur (dict * Z) unit :=
  if String.eqb name "apc" then
    need data 2 (return_ (fun _ out => (out, len data))) ;;
    b1 <- at_ data 0 ;;
    set_ "pos_accuracy_x_m" (VFloat (fmul (fl b1) (dec 25 2))) ;;
    b2 <- at_ data 1 ;;
    set_ "pos_accuracy_y_m" (VFloat (fmul (fl b2) (dec 25 2))) ;;
    adv 2
  else if String.eqb name "apw" then
    need data 4 (return_ (fun _ out => (out, len data))) ;;
    let scale := fdiv_raw (fl 180) (fl (2 ^ 31)) in
    v3 <- on_slice data 0 2 _cat11__s16 ;;
    set_ "pos_accuracy_lat_deg" (VFloat (py_round (fmul (fl v3) scale) 9)) ;;
    v4 <- on_slice data 2 4 _cat11__s16 ;;
    set_ "pos_accuracy_lon_deg" (VFloat (py_round (fmul (fl v4) scale) 9)) ;;
    adv 4
  else if String.eqb name "ath" then
    need data 2 (return_ (fun _ out => (out, len data))) ;;
    v5 <- on_slice data 0 2 _cat11__s16 ;;
    set_ "height_accuracy_m" (VFloat (fmul (fl v5) (dec 5 1))) ;;
    adv 2
  else if String.eqb name "avc" then
    need data 2 (return_ (fun _ out => (out, len data))) ;;
    b6 <- at_ data 0 ;;
    set_ "vel_accuracy_x_ms" (VFloat (fmul (fl b6) (dec 1 1))) ;;
    b7 <- at_ data 1 ;;
    set_ "vel_accuracy_y_ms" (VFloat (fmul (fl b7) (dec 1 1))) ;;
    adv 2
  else if String.eqb name "arc" then
    need data 2 (return_ (fun _ out => (out, len data))) ;;
    v8 <- on_slice data 0 2 _cat11__s16 ;;
    set_ "rate_accuracy_ms" (VFloat (fmul (fl v8) (dec 1 1))) ;;
    adv 2
  else if String.eqb name "aac" then
    need data 2 (return_ (fun _ out => (out, len data))) ;;
    b9 <- at_ data 0 ;;
    set_ "accel_accuracy_x_ms2" (VFloat (fmul (fl b9) (dec 1 2))) ;;
    b10 <- at_ data 1 ;;
    set_ "accel_accuracy_y_ms2" (VFloat (fmul (fl b10) (dec 1 2))) ;;
    adv 2
  else skip.

(** cat.py:4040-4067 *)
Definition _cat11__decode_500 : bytes -> Z -> exc (dict * Z) := compound names_11_500 1 _cat11__decode_500_item.

Definition _cat11_decode_cat011_record_schema : schema :=
  [("sac", TInt 0 255); ("sic", TInt 0 255); ("msg_type", TStr); ("service_id", TInt 0 255);
   ("tod_s", TFloat); ("lat_deg", TFloat); ("lon_deg", TFloat); ("cart_x_m", TInt (-32768) 32767);
   ("cart_y_m", TInt (-32768) 32767); ("velocity_east_ms", TFloat); ("velocity_north_ms", TFloat);
   ("speed_ms", TFloat); ("heading_deg", TFloat); ("accel_east_ms2", TFloat);
   ("accel_north_ms2", TFloat); ("squawk", TStr);
   ("sti", TOneOf ("unknown" :: map snd _cat11__STI)); ("callsign", TStr);
   ("track_num", TInt 0 32767);
   ("phase_of_flight", TOneOf ("unknown" :: map snd _cat11__PHASE_OF_FLIGHT));
   ("flight_level", TFloat); ("qnh_correction", TTrue); ("baro_flight_level", TFloat);
   ("geo_alt_ft", TFloat); ("climb_rate_fpm", TFloat); ("vehicle_fleet", TStr);
   ("on_ground", TTrue); ("in_trouble", TTrue); ("preprogrammed_message", TStr);
   ("alert_acknowledged", TBool);
   ("alert_severity", TOneOf ("unknown" :: map snd _cat11__ALERT_SVR)); ("alert_type", TInt 0 255);
   ("alert_number", TInt 0 255); ("tracks_in_alert", TList (TInt 0 4095));
   ("holdbar_status", TList (TDict [("bank", TInt 0 15); ("indicators_raw", TInt 0 4095)]))] ++
  [("_ts", TFloat); ("_src", TStr)] ++
  _cat11__decode_170_schema ++
  _cat11__decode_270_schema ++
  _cat11__decode_290_schema ++
  _cat11__decode_380_schema ++
  _cat11__decode_390_schema ++
  _cat11__decode_500_schema.

Section Cat011.
Context `{Libm} (site_lat site_lon : option float).
(** cat.py:4075-4191 *)
Definition _cat11_decode_cat011_record_item (data : bytes) (frn : Z) : cur (dict * Z) unit :=
  if frn =? 0 then
    need data 2 (return_ (fun _ track => (track, len data))) ;;
    b1 <- at_ data 0 ;;
    set_ "sac" (VInt b1) ;;
    b2 <- at_ data 1 ;;
    set_ "sic" (VInt b2) ;;
    adv 2
  else if frn =? 1 then
    need data 1 (return_ (fun _ track => (track, len data))) ;;
    b3 <- at_ data 0 ;;
    b4 <- at_ data 0 ;;
    set_ "msg_type" (VStr (tget_or _cat11__MSG_TYPES b3 ("type_" +:+ str_int b4))) ;;
    adv 1
  else if frn =? 2 then
    need data 1 (return_ (fun _ track => (track, len data))) ;;
    b5 <- at_ data 0 ;;
    set_ "service_id" (VInt b5) ;;
    adv 1
  else if frn =? 3 then
    need data 3 (return_ (fun _ track => (track, len data))) ;;
    v6 <- on_slice data 0 3 (fun raw => Ok (int_from_bytes raw)) ;;
    set_ "tod_s" (VFloat (fdiv_raw (fl v6) (fl 128))) ;;
    adv 3
  else if frn =? 4 then
    need data 8 (return_ (fun _ track => (track, len data))) ;;
    let scale := fdiv_raw (fl 180) (fl (2 ^ 31)) in
    v7 <- on_slice data 0 4 _cat11__s32 ;;
    set_ "lat_deg" (VFloat (py_round (fmul (fl v7) scale) 7)) ;;
    v8 <- on_slice data 4 8 _cat11__s32 ;;
    set_ "lon_deg" (VFloat (py_round (fmul (fl v8) scale) 7)) ;;
    adv 8
  else if frn =? 5 then
    need data 4 (return_ (fun _ track => (track, len data))) ;;
    x_m <- on_slice data 0 2 _cat11__s16 ;;
    y_m <- on_slice data 2 4 _cat11__s16 ;;
    adv 4 ;;
    set_ "cart_x_m" (VInt x_m) ;;
    set_ "cart_y_m" (VInt y_m) ;;
    match site_lat, site_lon with
    | Some lat0, Some lon0 =>
        p <- try_lift (_cat11__cartesian_to_wgs84 lat0 lon0 (fl x_m) (fl y_m)) (return_ (fun _ track => (track, len data))) ;;
        let '(lat, lon) := p in
        setdefault_ "lat_deg" (VFloat (py_round lat 7)) ;;
        setdefault_ "lon_deg" (VFloat (py_round lon 7))
    | _, _ => skip
    end
  else if frn =? 6 then
    need data 4 (return_ (fun _ track => (track, len data))) ;;
    v11 <- on_slice data 0 2 _cat11__s16 ;;
    let vx := fmul (fl v11) (dec 25 2) in
    v12 <- on_slice data 2 4 _cat11__s16 ;;
    let vy := fmul (fl v12) (dec 25 2) in
    adv 4 ;;
    set_ "velocity_east_ms" (VFloat (py_round vx 2)) ;;
    set_ "velocity_north_ms" (VFloat (py_round vy 2)) ;;
    speed13 <- try_lift (m_hypot vx vy) (return_ (fun _ track => (track, len data))) ;;
    set_ "speed_ms" (VFloat (py_round speed13 2)) ;;
    when ((ftruth vx) || (ftruth vy)) (
      angle14 <- try_lift (m_atan2 vx vy) (return_ (fun _ track => (track, len data))) ;;
      set_ "heading_deg" (VFloat (py_round (fmod (fadd (degrees angle14) (fl 360)) (fl 360)) 2)))
  else if frn =? 7 then
    need data 2 (return_ (fun _ track => (track, len data))) ;;
    b15 <- at_ data 0 ;;
    set_ "accel_east_ms2" (VFloat (fmul (fl (sign_extend 8 b15)) (dec 25 2))) ;;
    b16 <- at_ data 1 ;;
    set_ "accel_north_ms2" (VFloat (fmul (fl (sign_extend 8 b16)) (dec 25 2))) ;;
    adv 2
  else if frn =? 8 then
    need data 2 (return_ (fun _ track => (track, len data))) ;;
    v17 <- on_slice data 0 2 _cat11__u16 ;;
    set_ "squawk" (VStr (fmt_o 4 (Z.land v17 0x0FFF))) ;;
    adv 2
  else if frn =? 9 then
    need data 7 (return_ (fun _ track => (track, len data))) ;;
    b18 <- at_ data 0 ;;
    set_ "sti" (VStr (tget_or _cat11__STI (Z.land (Z.shiftr b18 6) 0x03) "unknown")) ;;
    callsign <- on_slice data 1 7 _cat11__decode_callsign ;;
    adv 7 ;;
    when (negb (String.eqb callsign "")) (set_ "callsign" (VStr callsign))
  else if frn =? 10 then
    extra <- try_call (_cat11__decode_380 data) (return_ (fun _ track => (track, len data))) ;;
    update_ extra
  else if frn =? 11 then
    need data 2 (return_ (fun _ track => (track, len data))) ;;
    v20 <- on_slice data 0 2 _cat11__u16 ;;
    set_ "track_num" (VInt (Z.land v20 0x7FFF)) ;;
    adv 2
  else if frn =? 12 then
    extra <- try_call (_cat11__decode_170 data) (return_ (fun _ track => (track, len data))) ;;
    update_ extra
  else if frn =? 13 then
    extra <- try_call (_cat11__decode_290 data) (return_ (fun _ track => (track, len data))) ;;
    update_ extra
  else if frn =? 14 then
    need data 1 (return_ (fun _ track => (track, len data))) ;;
    b21 <- at_ data 0 ;;
    set_ "phase_of_flight" (VStr (tget_or _cat11__PHASE_OF_FLIGHT b21 "unknown")) ;;
    adv 1
  else if frn =? 15 then
    need data 2 (return_ (fun _ track => (track, len data))) ;;
    v22 <- on_slice data 0 2 _cat11__s16 ;;
    set_ "flight_level" (VFloat (py_round (fmul (fl v22) (dec 25 2)) 2)) ;;
    adv 2
  else if frn =? 16 then
    need data 2 (return_ (fun _ track => (track, len data))) ;;
    raw <- on_slice data 0 2 _cat11__u16 ;;
    adv 2 ;;
    when (bit raw 0x8000) (set_ "qnh_correction" (VBool true)) ;;
    set_ "baro_flight_level" (VFloat (py_round (fmul (fl (_cat11__signed_bits (Z.land raw 0x7FFF) 15)) (dec 25 2)) 2))
  else if frn =? 17 then
    need data 2 (return_ (fun _ track => (track, len data))) ;;
    v24 <- on_slice data 0 2 _cat11__s16 ;;
    set_ "geo_alt_ft" (VFloat (py_round (fmul (fl v24) (dec 625 2)) 2)) ;;
    adv 2
  else if frn =? 18 then
    need data 2 (return_ (fun _ track => (track, len data))) ;;
    v25 <- on_slice data 0 2 _cat11__s16 ;;
    set_ "climb_rate_fpm" (VFloat (py_round (fmul (fl v25) (dec 625 2)) 2)) ;;
    adv 2
  else if frn =? 19 then
    extra <- try_call (_cat11__decode_270 data) (return_ (fun _ track => (track, len data))) ;;
    update_ extra
  else if frn =? 20 then
    extra <- try_call (_cat11__decode_390 data) (return_ (fun _ track => (track, len data))) ;;
    update_ extra
  else if frn =? 21 then
    need data 1 (return_ (fun _ track => (track, len data))) ;;
    b26 <- at_ data 0 ;;
    b27 <- at_ data 0 ;;
    set_ "vehicle_fleet" (VStr (tget_or _cat11__FLEETS b26 ("fleet_" +:+ str_int b27))) ;;
    adv 1 ;;
    setdefault_ "on_ground" (VBool true)
  else if frn =? 22 then
    need data 1 (return_ (fun _ track => (track, len data))) ;;
    b <- at_ data 0 ;;
    adv 1 ;;
    when (bit b 0x80) (set_ "in_trouble" (VBool true)) ;;
    set_ "preprogrammed_message" (VStr (tget_or _cat11__PREPROG_MSG (Z.land b 0x7F) ("msg_" +:+ str_int (Z.land b 0x7F))))
  else if frn =? 23 then
    extra <- try_call (_cat11__decode_500 data) (return_ (fun _ track => (track, len data))) ;;
    update_ extra
  else if frn =? 24 then
    need data 3 (return_ (fun _ track => (track, len data))) ;;
    b1 <- at_ data 0 ;;
    kind <- at_ data 1 ;;
    an <- at_ data 2 ;;
    adv 3 ;;
    set_ "alert_acknowledged" (VBool (negb (bit b1 0x80))) ;;
    set_ "alert_severity" (VStr (tget_or _cat11__ALERT_SVR (Z.land (Z.shiftr b1 5) 0x03) "unknown")) ;;
    set_ "alert_type" (VInt kind) ;;
    set_ "alert_number" (VInt an)
  else if frn =? 25 then
    need data 1 (return_ (fun _ track => (track, len data))) ;;
    rep <- at_ data 0 ;;
    adv 1 ;;
    tracks_in_alert <- for_range (Z.to_nat rep) (fun tracks_in_alert =>
        none <- short data 2 ;;
        if none then ret (stop tracks_in_alert) else
        v28 <- on_slice data 0 2 _cat11__u16 ;;
        let tracks_in_alert := tracks_in_alert ++ [VInt (Z.land v28 0x0FFF)] in
        adv 2 ;;
        ret (more tracks_in_alert)) [] ;;
    when (nonempty tracks_in_alert) (set_ "tracks_in_alert" (VList tracks_in_alert))
  else if frn =? 26 then
    need data 1 (return_ (fun _ track => (track, len data))) ;;
    rep <- at_ data 0 ;;
    adv 1 ;;
    holdbars <- for_range (Z.to_nat rep) (fun holdbars =>
        none <- short data 2 ;;
        if none then ret (stop holdbars) else
        v <- on_slice data 0 2 _cat11__u16 ;;
        adv 2 ;;
        let holdbars := holdbars ++ [VDict [("bank", VInt (Z.land (Z.shiftr v 12) 0x0F)); ("indicators_raw", VInt (Z.land v 0x0FFF))]] in
        ret (more holdbars)) [] ;;
    when (nonempty holdbars) (set_ "holdbar_status" (VList holdbars))
  else if (frn =? 27) || (frn =? 28) then
    goto (_cat11__skip_len_field data)
  else
    return_ (fun _ track => (track, len data)).

Definition _cat11_decode_cat011_record (now : float) (data : bytes) (pos : Z) : exc (dict * Z) :=
  let? (fspec, pos) := _cat11_parse_fspec data pos in
  run (for_fspec fspec (_cat11_decode_cat011_record_item data) ;;
       return_ (fun pos track => (track, pos))) pos (new_track now "ASTERIX CAT-11 Ed.1.3").

(** Records with a position are tracks, of vehicles where they name a fleet. *)
Definition _cat11_route (root : string) (track : dict) : routed :=
  if negb (located track) then Unplaced else
  let source := _asterix_source track in
  Reported (if dmem "vehicle_fleet" track then _cat11_TOPIC_GROUND root source else _cat11_TOPIC_AIR root source) "track".

(** [_h] of [_cat11__make_handler]; [clock pos] is the time at which the record at
    [pos] is read. *)
Definition _cat11_handler (repr : value -> string) (root : string) (clock : Z -> float)
    (data : bytes) : list sending * exc unit :=
  handle_block repr 11 "cat011" (fun data pos => _cat11_decode_cat011_record (clock pos) data pos) (_cat11_route root) data.
End Cat011.

(** ** Correctness *)
Definition cat011_schema : schema := _cat11_decode_cat011_record_schema.

#[local] Hint Opaque _cat11__decode_170 _cat11__decode_270 _cat11__decode_290 _cat11__decode_380 _cat11__decode_390 _cat11__decode_500 : typeclass_instances.

#[local] Instance decode_170_ok11 data : TryOk data (_cat11__decode_170 data) (fun out => fields_ok _cat11__decode_170_schema out = true).
Proof. apply plain_item_ok. intros p d Hp Hd. unfold _cat11__decode_170_item, extended. by wp_record. Qed.

#[local] Instance decode_270_ok11 data : TryOk data (_cat11__decode_270 data) (fun out => fields_ok _cat11__decode_270_schema out = true).
Proof. apply plain_item_ok. intros p d Hp Hd. unfold _cat11__decode_270_item, extended. by wp_record. Qed.

#[local] Instance decode_290_ok11 data : TryOk data (_cat11__decode_290 data) (fun out => fields_ok _cat11__decode_290_schema out = true).
Proof.
  apply compound_ok; [lia|]. unfold subfield_ok, _cat11__decode_290_item, _cat11__u16, _cat11__s16, ascii_text.
  by_names ltac:(wp_record).
Qed.

#[local] Instance decode_380_ok11 data : TryOk data (_cat11__decode_380 data) (fun out => fields_ok _cat11__decode_380_schema out = true).
Proof.
  apply compound_ok; [lia|]. unfold subfield_ok, _cat11__decode_380_item, _cat11__u16, _cat11__s16, ascii_text.
  intros name p d _ Hp Hd. by_items ltac:(wp_record).
Qed.

#[local] Instance decode_390_ok11 data : TryOk data (_cat11__decode_390 data) (fun out => fields_ok _cat11__decode_390_schema out = true).
Proof.
  apply compound_ok; [lia|]. unfold subfield_ok, _cat11__decode_390_item, _cat11__u16, _cat11__s16, ascii_text.
  intros name p d _ Hp Hd. by_items ltac:(wp_record).
Qed.

#[local] Instance decode_500_ok11 data : TryOk data (_cat11__decode_500 data) (fun out => fields_ok _cat11__decode_500_schema out = true).
Proof.
  apply compound_ok; [lia|]. unfold subfield_ok, _cat11__decode_500_item, _cat11__u16, _cat11__s16, ascii_text.
  intros name p d _ Hp Hd. by_items ltac:(wp_record).
Qed.


Section Correctness.
Context `{LibmOk}.
Variables (site_lat site_lon : option float).

Lemma item_ok_cat011 p0 data frn : p0 < len data ->
  item_ok data cat011_schema (record_result data cat011_schema p0) noE
    (_cat11_decode_cat011_record_item site_lat site_lon data frn).
Proof.
  intros Hp0 p d Hp Hd. unfold _cat11_decode_cat011_record_item, _cat11__u16, _cat11__s16, _cat11__s32, _cat11__cartesian_to_wgs84, _cat11__decode_callsign, _cat11__signed_bits.
  by_items ltac:(wp_record).
Qed.

Lemma decode_cat011_ok now data p : 0 <= p < len data ->
  returns (_cat11_decode_cat011_record site_lat site_lon now data p) (record_result data cat011_schema p) noE.
Proof.
  intros Hp. unfold _cat11_decode_cat011_record. apply record_decoder_ok;
    [done|apply new_track_ok; vm_compute; reflexivity|by apply parse_fspec_strict| |].
  - intros frn _. apply item_ok_cat011; lia.
  - intros p' d' Hp' Hd. by apply wp_return.
Qed.

(** What the protobuf view of a record loses. *)
Definition dropped011 : list string :=
  map fst bds10_schema.

Lemma cat011_block_ok repr root clock data : len data <= 0xFFFF - 3 ->
  let '(out, r) := _cat11_handler site_lat site_lon repr root clock data in
  delivered repr 11 "cat011" (fun data pos => _cat11_decode_cat011_record site_lat site_lon (clock pos) data pos) (_cat11_route root)
    cat011_schema AsterixCat11Track (fun _ => False) dropped011 noE data 0 out r.
Proof.
  intros Hl. apply handle_block_ok; [|vm_compute; reflexivity| |lia].
  - intros p Hp. by apply decode_cat011_ok.
  - intros track topic status _. unfold _cat11_route. by repeat case_match.
Qed.
End Correctness.
