(* ===== verification/Cat015.v ===== *)
(** * CAT-015: non-cooperative surveillance

    cat.py:4321-5010. *)

From S2P Require Import Prelude PyFloat PyData Schema Ranges Cursor Safety Contract AsterixCommon.
From S2P Require Import Bds TrackViews Records Blocks.

Definition _cat15_TOPIC_AIR (root source : string) : string :=
  root +:+ "/air/" +:+ source +:+ "/radar/unknown/aircraft".
Definition _cat15_parse_fspec := parse_fspec.
Definition _cat15__skip_len_field := skip_len_field.
Definition _cat15__u16 := u16.
Definition _cat15__s16 := s16.
Definition _cat15__s24 := s24.
Definition _cat15__s32 := s32.
Definition _cat15__signed_bits := signed_bits.
Definition _cat15__presence := presence.

Definition _cat15__u24 (b : bytes) : exc Z := Ok (int_from_bytes b).
Definition _cat15__s8 (b : Z) : Z := if bit b 0x80 then b - 256 else b.

(** Along the great circle: a range in metres and an azimuth from the sensor.
    cat.py:4459-4471 *)
Definition _cat15__polar_to_wgs84 `{Libm} (radar_lat radar_lon range_m azimuth_deg : float) : exc (float * float) :=
  let d := range_m in
  let R := fl 6371000 in
  let lat1 := radians radar_lat in
  let lon1 := radians radar_lon in
  let az := radians azimuth_deg in
  let? sin_lat1 := m_sin lat1 in
  let? cos_dR := m_cos (fdiv_raw d R) in
  let? cos_lat1 := m_cos lat1 in
  let? sin_dR := m_sin (fdiv_raw d R) in
  let? cos_az := m_cos az in
  let? lat2 := m_asin (fadd (fmul sin_lat1 cos_dR) (fmul (fmul cos_lat1 sin_dR) cos_az)) in
  let? sin_az := m_sin az in
  let? sin_lat2 := m_sin lat2 in
  let? a := m_atan2 (fmul (fmul sin_az sin_dR) cos_lat1) (fsub cos_dR (fmul sin_lat1 sin_lat2)) in
  Ok (degrees lat2, degrees (fadd lon1 a)).

(** cat.py:4351-4351 *)
Definition _cat15_CAT_015 : Z := 15.
(** cat.py:4353-4357 *)
Definition _cat15__MSG_TYPES : table :=
  [(1, "measurement_plot"); (2, "measurement_track"); (3, "sensor_centric_plot");
   (4, "sensor_centric_track"); (5, "track_end")].
(** cat.py:4358-4358 *)
Definition _cat15__MOMU : table :=
  [(0, "mono_static"); (1, "multi_static"); (2, "other"); (3, "unknown")].
(** cat.py:4359-4359 *)
Definition _cat15__TTAX : table :=
  [(0, "actual"); (1, "reference"); (2, "synthetic"); (3, "simulated_replayed")].
(** cat.py:4360-4360 *)
Definition _cat15__SCD : table :=
  [(0, "unknown"); (1, "forward"); (2, "backward"); (3, "static")].
Definition names_15_270 : list string :=
  ["len"; "wdt"; "hgt"; "ort"].

Definition _cat15__decode_270_schema : schema :=
  [("orientation_deg", TFloat); ("target_length_m", TFloat); ("target_width_m", TFloat);
   ("target_height_m", TFloat)].

(** One subfield of _cat15__decode_270; cat.py:4493-4500 *)
Definition _cat15__decode_270_item (data : bytes) (name : string) : cur (dict * Z) unit :=
  need data 2 (return_ (fun _ out => (out, len data))) ;;
  raw <- on_slice data 0 2 _cat15__u16 ;;
  adv 2 ;;
  (if String.eqb name "ort" then
    set_ "orientation_deg" (VFloat (py_round (fdiv_raw (fmul (fl raw) (fl 360)) (fl 65536)) 3))
   else
    set_ ("target_" +:+ text_at [("len", "length"); ("wdt", "width"); ("hgt", "height")] name +:+ "_m") (VFloat (py_round (fmul (fl raw) (dec 1 2)) 2))).

(** cat.py:4488-4501 *)
Definition _cat15__decode_270 : bytes -> Z -> exc (dict * Z) := compound names_15_270 1 _cat15__decode_270_item.

Definition names_15_600 : list string :=
  ["p84"; "hpr"; "hpp"].

Definition _cat15__decode_600_schema : schema :=
  [("lat_deg", TFloat); ("lon_deg", TFloat); ("hpos_resolution_x_m", TFloat);
   ("hpos_resolution_y_m", TFloat); ("hpos_resolution_corr_xy", TFloat);
   ("hpos_precision_x_m", TFloat); ("hpos_precision_y_m", TFloat);
   ("hpos_precision_corr_xy", TFloat)].

(** One subfield of _cat15__decode_600; cat.py:4509-4525 *)
Definition _cat15__decode_600_item (data : bytes) (name : string) : cur (dict * Z) unit :=
  if String.eqb name "p84" then
    need data 8 (return_ (fun _ out => (out, len data))) ;;
    let scale := fdiv_raw (fl 180) (fl (2 ^ 31)) in
    v1 <- on_slice data 0 4 _cat15__s32 ;;
    set_ "lat_deg" (VFloat (py_round (fmul (fl v1) scale) 7)) ;;
    v2 <- on_slice data 4 8 _cat15__s32 ;;
    set_ "lon_deg" (VFloat (py_round (fmul (fl v2) scale) 7)) ;;
    adv 8
  else if String.eqb name "hpr" then
    need data 5 (return_ (fun _ out => (out, len data))) ;;
    v3 <- on_slice data 0 2 _cat15__u16 ;;
    set_ "hpos_resolution_x_m" (VFloat (py_round (fmul (fl v3) (dec 5 1)) 2)) ;;
    v4 <- on_slice data 2 4 _cat15__u16 ;;
    set_ "hpos_resolution_y_m" (VFloat (py_round (fmul (fl v4) (dec 5 1)) 2)) ;;
    b5 <- at_ data 4 ;;
    set_ "hpos_resolution_corr_xy" (VFloat (py_round (fdiv_raw (fl (_cat15__s8 b5)) (fl 128)) 4)) ;;
    adv 5
  else if String.eqb name "hpp" then
    need data 5 (return_ (fun _ out => (out, len data))) ;;
    v6 <- on_slice data 0 2 _cat15__u16 ;;
    set_ "hpos_precision_x_m" (VFloat (py_round (fmul (fl v6) (dec 25 2)) 2)) ;;
    v7 <- on_slice data 2 4 _cat15__u16 ;;
    set_ "hpos_precision_y_m" (VFloat (py_round (fmul (fl v7) (dec 25 2)) 2)) ;;
    b8 <- at_ data 4 ;;
    set_ "hpos_precision_corr_xy" (VFloat (py_round (fdiv_raw (fl (_cat15__s8 b8)) (fl 128)) 4)) ;;
    adv 5
  else skip.

(** cat.py:4504-4526 *)
Definition _cat15__decode_600 : bytes -> Z -> exc (dict * Z) := compound names_15_600 1 _cat15__decode_600_item.

Definition names_15_601 : list string :=
  ["gh"; "rsgh"; "sdgh"; "ci6"; "ci9"; "coghhp"; "coghhv"; "coghha"].

Definition _cat15__decode_601_schema : schema :=
  [("geo_height_m", TFloat); ("geo_height_resolution_m", TFloat); ("geo_height_precision_m", TFloat);
   ("geo_height_ci_6_upper_m", TInt 0 65520); ("geo_height_ci_6_lower_m", TInt 0 65520); ("geo_height_ci_9_upper_m", TInt 0 65520);
   ("geo_height_ci_9_lower_m", TInt 0 65520); ("corr_geo_height_hp_x", TFloat); ("corr_geo_height_hp_y", TFloat);
   ("corr_geo_height_hv_x", TFloat); ("corr_geo_height_hv_y", TFloat); ("corr_geo_height_ha_x", TFloat);
   ("corr_geo_height_ha_y", TFloat)].

(** One subfield of _cat15__decode_601; cat.py:4534-4554 *)
Definition _cat15__decode_601_item (data : bytes) (name : string) : cur (dict * Z) unit :=
  if String.eqb name "gh" then
    need data 3 (return_ (fun _ out => (out, len data))) ;;
    v1 <- on_slice data 0 3 _cat15__s24 ;;
    set_ "geo_height_m" (VFloat (py_round (fmul (fl v1) (dec 1 2)) 2)) ;;
    adv 3
  else if String.eqb name "rsgh" then
    need data 3 (return_ (fun _ out => (out, len data))) ;;
    v2 <- on_slice data 0 3 _cat15__u24 ;;
    set_ "geo_height_resolution_m" (VFloat (py_round (fmul (fl v2) (dec 1 2)) 2)) ;;
    adv 3
  else if String.eqb name "sdgh" then
    need data 3 (return_ (fun _ out => (out, len data))) ;;
    v3 <- on_slice data 0 3 _cat15__u24 ;;
    set_ "geo_height_precision_m" (VFloat (py_round (fmul (fl v3) (dec 1 2)) 2)) ;;
    adv 3
  else if (String.eqb name "ci6") || (String.eqb name "ci9") then
    need data 3 (return_ (fun _ out => (out, len data))) ;;
    v <- on_slice data 0 3 _cat15__u24 ;;
    adv 3 ;;
    set_ ("geo_height_ci_" +:+ substring 2 1 name +:+ "_upper_m") (VInt ((Z.shiftr v 12) * 16)) ;;
    set_ ("geo_height_ci_" +:+ substring 2 1 name +:+ "_lower_m") (VInt ((Z.land v 0xFFF) * 16))
  else if (String.eqb name "coghhp") || (String.eqb name "coghhv") || (String.eqb name "coghha") then
    need data 2 (return_ (fun _ out => (out, len data))) ;;
    let suffix := substring 4 (String.length name) name in
    b5 <- at_ data 0 ;;
    set_ ("corr_geo_height_" +:+ suffix +:+ "_x") (VFloat (py_round (fdiv_raw (fl (_cat15__s8 b5)) (fl 128)) 4)) ;;
    b6 <- at_ data 1 ;;
    set_ ("corr_geo_height_" +:+ suffix +:+ "_y") (VFloat (py_round (fdiv_raw (fl (_cat15__s8 b6)) (fl 128)) 4)) ;;
    adv 2
  else skip.

(** cat.py:4529-4555 *)
Definition _cat15__decode_601 : bytes -> Z -> exc (dict * Z) := compound names_15_601 2 _cat15__decode_601_item.

Definition names_15_602 : list string :=
  ["hv"; "rshv"; "sdhv"; "cohvhp"].

Definition _cat15__decode_602_schema : schema :=
  [("hvel_x_ms", TFloat); ("hvel_y_ms", TFloat); ("hvel_resolution_x_ms", TFloat);
   ("hvel_resolution_y_ms", TFloat); ("hvel_resolution_corr_xy", TFloat);
   ("hvel_precision_x_ms", TFloat); ("hvel_precision_y_ms", TFloat);
   ("hvel_precision_corr_xy", TFloat); ("corr_hvel_x_hpos_x", TFloat);
   ("corr_hvel_x_hpos_y", TFloat); ("corr_hvel_y_hpos_x", TFloat); ("corr_hvel_y_hpos_y", TFloat)].

(** One subfield of _cat15__decode_602; cat.py:4563-4585 *)
Definition _cat15__decode_602_item (data : bytes) (name : string) : cur (dict * Z) unit :=
  if String.eqb name "hv" then
    need data 5 (return_ (fun _ out => (out, len data))) ;;
    v <- on_slice data 0 5 (fun raw => Ok (int_from_bytes raw)) ;;
    adv 5 ;;
    set_ "hvel_x_ms" (VFloat (py_round (fmul (fl (_cat15__signed_bits (Z.land (Z.shiftr v 20) 0xFFFFF) 20)) (dec 1 2)) 2)) ;;
    set_ "hvel_y_ms" (VFloat (py_round (fmul (fl (_cat15__signed_bits (Z.land v 0xFFFFF) 20)) (dec 1 2)) 2))
  else if String.eqb name "rshv" then
    need data 5 (return_ (fun _ out => (out, len data))) ;;
    v2 <- on_slice data 0 2 _cat15__u16 ;;
    set_ "hvel_resolution_x_ms" (VFloat (py_round (fmul (fl v2) (dec 1 2)) 2)) ;;
    v3 <- on_slice data 2 4 _cat15__u16 ;;
    set_ "hvel_resolution_y_ms" (VFloat (py_round (fmul (fl v3) (dec 1 2)) 2)) ;;
    b4 <- at_ data 4 ;;
    set_ "hvel_resolution_corr_xy" (VFloat (py_round (fdiv_raw (fl (_cat15__s8 b4)) (fl 128)) 4)) ;;
    adv 5
  else if String.eqb name "sdhv" then
    need data 5 (return_ (fun _ out => (out, len data))) ;;
    v5 <- on_slice data 0 2 _cat15__u16 ;;
    set_ "hvel_precision_x_ms" (VFloat (py_round (fmul (fl v5) (dec 1 2)) 2)) ;;
    v6 <- on_slice data 2 4 _cat15__u16 ;;
    set_ "hvel_precision_y_ms" (VFloat (py_round (fmul (fl v6) (dec 1 2)) 2)) ;;
    b7 <- at_ data 4 ;;
    set_ "hvel_precision_corr_xy" (VFloat (py_round (fdiv_raw (fl (_cat15__s8 b7)) (fl 128)) 4)) ;;
    adv 5
  else if String.eqb name "cohvhp" then
    need data 4 (return_ (fun _ out => (out, len data))) ;;
    b8 <- at_ data 0 ;;
    set_ "corr_hvel_x_hpos_x" (VFloat (py_round (fdiv_raw (fl (_cat15__s8 b8)) (fl 128)) 4)) ;;
    b9 <- at_ data 1 ;;
    set_ "corr_hvel_x_hpos_y" (VFloat (py_round (fdiv_raw (fl (_cat15__s8 b9)) (fl 128)) 4)) ;;
    b10 <- at_ data 2 ;;
    set_ "corr_hvel_y_hpos_x" (VFloat (py_round (fdiv_raw (fl (_cat15__s8 b10)) (fl 128)) 4)) ;;
    b11 <- at_ data 3 ;;
    set_ "corr_hvel_y_hpos_y" (VFloat (py_round (fdiv_raw (fl (_cat15__s8 b11)) (fl 128)) 4)) ;;
    adv 4
  else skip.

(** cat.py:4558-4586 *)
Definition _cat15__decode_602 : bytes -> Z -> exc (dict * Z) := compound names_15_602 1 _cat15__decode_602_item.

Definition names_15_603 : list string :=
  ["ha"; "sdha"; "cohahp"; "cohahv"].

Definition _cat15__decode_603_schema : schema :=
  [("haccel_x_ms2", TFloat); ("haccel_y_ms2", TFloat); ("haccel_precision_x_ms2", TFloat);
   ("haccel_precision_y_ms2", TFloat); ("haccel_precision_corr_xy", TFloat);
   ("corr_haccel_x_hpos_x", TFloat); ("corr_haccel_x_hpos_y", TFloat);
   ("corr_haccel_y_hpos_x", TFloat); ("corr_haccel_y_hpos_y", TFloat);
   ("corr_haccel_x_hvel_x", TFloat); ("corr_haccel_x_hvel_y", TFloat);
   ("corr_haccel_y_hvel_x", TFloat); ("corr_haccel_y_hvel_y", TFloat)].

(** One subfield of _cat15__decode_603; cat.py:4594-4618 *)
Definition _cat15__decode_603_item (data : bytes) (name : string) : cur (dict * Z) unit :=
  if String.eqb name "ha" then
    need data 3 (return_ (fun _ out => (out, len data))) ;;
    v <- on_slice data 0 3 _cat15__u24 ;;
    adv 3 ;;
    set_ "haccel_x_ms2" (VFloat (py_round (fdiv_raw (fl (_cat15__signed_bits (Z.land (Z.shiftr v 12) 0xFFF) 12)) (fl 16)) 3)) ;;
    set_ "haccel_y_ms2" (VFloat (py_round (fdiv_raw (fl (_cat15__signed_bits (Z.land v 0xFFF) 12)) (fl 16)) 3))
  else if String.eqb name "sdha" then
    need data 4 (return_ (fun _ out => (out, len data))) ;;
    v <- on_slice data 0 4 (fun raw => Ok (int_from_bytes raw)) ;;
    adv 4 ;;
    set_ "haccel_precision_x_ms2" (VFloat (py_round (fdiv_raw (fl (Z.land (Z.shiftr v 20) 0xFFF)) (fl 16)) 3)) ;;
    set_ "haccel_precision_y_ms2" (VFloat (py_round (fdiv_raw (fl (Z.land (Z.shiftr v 8) 0xFFF)) (fl 16)) 3)) ;;
    set_ "haccel_precision_corr_xy" (VFloat (py_round (fdiv_raw (fl (_cat15__s8 (Z.land v 0xFF))) (fl 128)) 4))
  else if String.eqb name "cohahp" then
    need data 4 (return_ (fun _ out => (out, len data))) ;;
    b3 <- at_ data 0 ;;
    set_ "corr_haccel_x_hpos_x" (VFloat (py_round (fdiv_raw (fl (_cat15__s8 b3)) (fl 128)) 4)) ;;
    b4 <- at_ data 1 ;;
    set_ "corr_haccel_x_hpos_y" (VFloat (py_round (fdiv_raw (fl (_cat15__s8 b4)) (fl 128)) 4)) ;;
    b5 <- at_ data 2 ;;
    set_ "corr_haccel_y_hpos_x" (VFloat (py_round (fdiv_raw (fl (_cat15__s8 b5)) (fl 128)) 4)) ;;
    b6 <- at_ data 3 ;;
    set_ "corr_haccel_y_hpos_y" (VFloat (py_round (fdiv_raw (fl (_cat15__s8 b6)) (fl 128)) 4)) ;;
    adv 4
  else if String.eqb name "cohahv" then
    need data 4 (return_ (fun _ out => (out, len data))) ;;
    b7 <- at_ data 0 ;;
    set_ "corr_haccel_x_hvel_x" (VFloat (py_round (fdiv_raw (fl (_cat15__s8 b7)) (fl 128)) 4)) ;;
    b8 <- at_ data 1 ;;
    set_ "corr_haccel_x_hvel_y" (VFloat (py_round (fdiv_raw (fl (_cat15__s8 b8)) (fl 128)) 4)) ;;
    b9 <- at_ data 2 ;;
    set_ "corr_haccel_y_hvel_x" (VFloat (py_round (fdiv_raw (fl (_cat15__s8 b9)) (fl 128)) 4)) ;;
    b10 <- at_ data 3 ;;
    set_ "corr_haccel_y_hvel_y" (VFloat (py_round (fdiv_raw (fl (_cat15__s8 b10)) (fl 128)) 4)) ;;
    adv 4
  else skip.

(** cat.py:4589-4619 *)
Definition _cat15__decode_603 : bytes -> Z -> exc (dict * Z) := compound names_15_603 1 _cat15__decode_603_item.

Definition names_15_604 : list string :=
  ["vv"; "rsvv"; "sdvv"; "covvhp"; "covvhv"; "covvha"].

Definition _cat15__decode_604_schema : schema :=
  [("vvel_ms", TFloat); ("vvel_resolution_ms", TFloat); ("vvel_precision_ms", TFloat);
   ("corr_vvel_geo_height", TFloat); ("corr_vvel_hp_x", TFloat); ("corr_vvel_hp_y", TFloat);
   ("corr_vvel_hv_x", TFloat); ("corr_vvel_hv_y", TFloat); ("corr_vvel_ha_x", TFloat);
   ("corr_vvel_ha_y", TFloat)].

(** One subfield of _cat15__decode_604; cat.py:4627-4643 *)
Definition _cat15__decode_604_item (data : bytes) (name : string) : cur (dict * Z) unit :=
  if String.eqb name "vv" then
    need data 3 (return_ (fun _ out => (out, len data))) ;;
    v1 <- on_slice data 0 3 _cat15__s24 ;;
    set_ "vvel_ms" (VFloat (py_round (fmul (fl v1) (dec 1 2)) 2)) ;;
    adv 3
  else if String.eqb name "rsvv" then
    need data 2 (return_ (fun _ out => (out, len data))) ;;
    v2 <- on_slice data 0 2 _cat15__u16 ;;
    set_ "vvel_resolution_ms" (VFloat (py_round (fmul (fl v2) (dec 1 2)) 2)) ;;
    adv 2
  else if String.eqb name "sdvv" then
    need data 3 (return_ (fun _ out => (out, len data))) ;;
    v3 <- on_slice data 0 2 _cat15__u16 ;;
    set_ "vvel_precision_ms" (VFloat (py_round (fmul (fl v3) (dec 1 2)) 2)) ;;
    b4 <- at_ data 2 ;;
    set_ "corr_vvel_geo_height" (VFloat (py_round (fdiv_raw (fl (_cat15__s8 b4)) (fl 128)) 4)) ;;
    adv 3
  else if (String.eqb name "covvhp") || (String.eqb name "covvhv") || (String.eqb name "covvha") then
    need data 2 (return_ (fun _ out => (out, len data))) ;;
    let suffix := substring 4 (String.length name) name in
    b5 <- at_ data 0 ;;
    set_ ("corr_vvel_" +:+ suffix +:+ "_x") (VFloat (py_round (fdiv_raw (fl (_cat15__s8 b5)) (fl 128)) 4)) ;;
    b6 <- at_ data 1 ;;
    set_ ("corr_vvel_" +:+ suffix +:+ "_y") (VFloat (py_round (fdiv_raw (fl (_cat15__s8 b6)) (fl 128)) 4)) ;;
    adv 2
  else skip.

(** cat.py:4622-4644 *)
Definition _cat15__decode_604 : bytes -> Z -> exc (dict * Z) := compound names_15_604 1 _cat15__decode_604_item.

Definition names_15_605 : list string :=
  ["va"; "rsva"; "covahp"; "covahv"; "covaha"].

Definition _cat15__decode_605_schema : schema :=
  [("vaccel_ms2", TFloat); ("vaccel_precision_ms2", TFloat); ("corr_vaccel_geo_height", TFloat);
   ("corr_vaccel_vvel", TFloat); ("corr_vaccel_hp_x", TFloat); ("corr_vaccel_hp_y", TFloat);
   ("corr_vaccel_hv_x", TFloat); ("corr_vaccel_hv_y", TFloat); ("corr_vaccel_ha_x", TFloat);
   ("corr_vaccel_ha_y", TFloat)].

(** One subfield of _cat15__decode_605; cat.py:4654-4668 *)
Definition _cat15__decode_605_item (data : bytes) (name : string) : cur (dict * Z) unit :=
  if String.eqb name "va" then
    need data 2 (return_ (fun _ out => (out, len data))) ;;
    v1 <- on_slice data 0 2 _cat15__s16 ;;
    set_ "vaccel_ms2" (VFloat (py_round (fmul (fl v1) (dec 1 2)) 2)) ;;
    adv 2
  else if String.eqb name "rsva" then
    need data 4 (return_ (fun _ out => (out, len data))) ;;
    v2 <- on_slice data 0 2 _cat15__u16 ;;
    set_ "vaccel_precision_ms2" (VFloat (py_round (fmul (fl v2) (dec 1 2)) 2)) ;;
    b3 <- at_ data 2 ;;
    set_ "corr_vaccel_geo_height" (VFloat (py_round (fdiv_raw (fl (_cat15__s8 b3)) (fl 128)) 4)) ;;
    b4 <- at_ data 3 ;;
    set_ "corr_vaccel_vvel" (VFloat (py_round (fdiv_raw (fl (_cat15__s8 b4)) (fl 128)) 4)) ;;
    adv 4
  else if (String.eqb name "covahp") || (String.eqb name "covahv") || (String.eqb name "covaha") then
    need data 2 (return_ (fun _ out => (out, len data))) ;;
    let suffix := substring 4 (String.length name) name in
    b5 <- at_ data 0 ;;
    set_ ("corr_vaccel_" +:+ suffix +:+ "_x") (VFloat (py_round (fdiv_raw (fl (_cat15__s8 b5)) (fl 128)) 4)) ;;
    b6 <- at_ data 1 ;;
    set_ ("corr_vaccel_" +:+ suffix +:+ "_y") (VFloat (py_round (fdiv_raw (fl (_cat15__s8 b6)) (fl 128)) 4)) ;;
    adv 2
  else skip.

(** cat.py:4647-4669 *)
Definition _cat15__decode_605 : bytes -> Z -> exc (dict * Z) := compound names_15_605 1 _cat15__decode_605_item.

Definition names_15_625 : list string :=
  ["r"; "rsr"; "sdr"; "rr"; "rsrr"; "sdrr"; "ra"; "sdra"].

Definition _cat15__decode_625_schema : schema :=
  [("range_m", TFloat); ("range_resolution_m", TFloat); ("range_precision_m", TFloat);
   ("range_rate_ms", TFloat); ("range_rate_resolution_ms", TFloat);
   ("range_rate_precision_ms", TFloat); ("corr_range_rate_range", TFloat);
   ("range_accel_ms2", TFloat); ("range_accel_precision_ms2", TFloat);
   ("corr_range_accel_range", TFloat); ("corr_range_accel_range_rate", TFloat)].

(** One subfield of _cat15__decode_625; cat.py:4677-4705 *)
Definition _cat15__decode_625_item (data : bytes) (name : string) : cur (dict * Z) unit :=
  if String.eqb name "r" then
    need data 3 (return_ (fun _ out => (out, len data))) ;;
    v1 <- on_slice data 0 3 _cat15__s24 ;;
    set_ "range_m" (VFloat (py_round (fmul (fl v1) (dec 1 1)) 1)) ;;
    adv 3
  else if String.eqb name "rsr" then
    need data 3 (return_ (fun _ out => (out, len data))) ;;
    v2 <- on_slice data 0 3 _cat15__u24 ;;
    set_ "range_resolution_m" (VFloat (py_round (fmul (fl v2) (dec 1 1)) 1)) ;;
    adv 3
  else if String.eqb name "sdr" then
    need data 3 (return_ (fun _ out => (out, len data))) ;;
    v3 <- on_slice data 0 3 _cat15__u24 ;;
    set_ "range_precision_m" (VFloat (py_round (fmul (fl v3) (dec 1 1)) 1)) ;;
    adv 3
  else if String.eqb name "rr" then
    need data 3 (return_ (fun _ out => (out, len data))) ;;
    v4 <- on_slice data 0 3 _cat15__s24 ;;
    set_ "range_rate_ms" (VFloat (py_round (fmul (fl v4) (dec 1 1)) 2)) ;;
    adv 3
  else if String.eqb name "rsrr" then
    need data 3 (return_ (fun _ out => (out, len data))) ;;
    v5 <- on_slice data 0 3 _cat15__u24 ;;
    set_ "range_rate_resolution_ms" (VFloat (py_round (fmul (fl v5) (dec 1 1)) 2)) ;;
    adv 3
  else if String.eqb name "sdrr" then
    need data 4 (return_ (fun _ out => (out, len data))) ;;
    v6 <- on_slice data 0 3 _cat15__u24 ;;
    set_ "range_rate_precision_ms" (VFloat (py_round (fmul (fl v6) (dec 1 1)) 2)) ;;
    b7 <- at_ data 3 ;;
    set_ "corr_range_rate_range" (VFloat (py_round (fdiv_raw (fl (_cat15__s8 b7)) (fl 128)) 4)) ;;
    adv 4
  else if String.eqb name "ra" then
    need data 2 (return_ (fun _ out => (out, len data))) ;;
    v8 <- on_slice data 0 2 _cat15__s16 ;;
    set_ "range_accel_ms2" (VFloat (py_round (fdiv_raw (fl v8) (fl 64)) 3)) ;;
    adv 2
  else if String.eqb name "sdra" then
    need data 4 (return_ (fun _ out => (out, len data))) ;;
    v9 <- on_slice data 0 2 _cat15__u16 ;;
    set_ "range_accel_precision_ms2" (VFloat (py_round (fdiv_raw (fl v9) (fl 128)) 4)) ;;
    b10 <- at_ data 2 ;;
    set_ "corr_range_accel_range" (VFloat (py_round (fdiv_raw (fl (_cat15__s8 b10)) (fl 128)) 4)) ;;
    b11 <- at_ data 3 ;;
    set_ "corr_range_accel_range_rate" (VFloat (py_round (fdiv_raw (fl (_cat15__s8 b11)) (fl 128)) 4)) ;;
    adv 4
  else skip.

(** cat.py:4672-4706 *)
Definition _cat15__decode_625 : bytes -> Z -> exc (dict * Z) := compound names_15_625 2 _cat15__decode_625_item.

Definition names_15_626 : list string :=
  ["dv"; "sddv"; "da"; "sdda"; "codvr"; "codvrr"; "codvra"; "codar"; "codarr"; "codara"].

Definition _cat15__decode_626_schema : schema :=
  [("doppler_vel_ms", TFloat); ("doppler_vel_precision_ms", TFloat); ("doppler_accel_ms2", TFloat);
   ("doppler_accel_precision_ms2", TFloat); ("corr_doppler_accel_vel", TFloat); ("corr_doppler_vel_range", TFloat);
   ("corr_doppler_vel_range_rate", TFloat); ("corr_doppler_vel_range_accel", TFloat); ("corr_doppler_accel_range", TFloat);
   ("corr_doppler_accel_range_rate", TFloat); ("corr_doppler_accel_range_accel", TFloat)].

(** One subfield of _cat15__decode_626; cat.py:4714-4736 *)
Definition _cat15__decode_626_item (data : bytes) (name : string) : cur (dict * Z) unit :=
  if String.eqb name "dv" then
    need data 3 (return_ (fun _ out => (out, len data))) ;;
    v1 <- on_slice data 0 3 _cat15__s24 ;;
    set_ "doppler_vel_ms" (VFloat (py_round (fmul (fl v1) (dec 1 2)) 2)) ;;
    adv 3
  else if String.eqb name "sddv" then
    need data 2 (return_ (fun _ out => (out, len data))) ;;
    v2 <- on_slice data 0 2 _cat15__u16 ;;
    set_ "doppler_vel_precision_ms" (VFloat (py_round (fdiv_raw (fl v2) (fl 64)) 3)) ;;
    adv 2
  else if String.eqb name "da" then
    need data 2 (return_ (fun _ out => (out, len data))) ;;
    v3 <- on_slice data 0 2 _cat15__s16 ;;
    set_ "doppler_accel_ms2" (VFloat (py_round (fdiv_raw (fl v3) (fl 64)) 3)) ;;
    adv 2
  else if String.eqb name "sdda" then
    need data 3 (return_ (fun _ out => (out, len data))) ;;
    v4 <- on_slice data 0 2 _cat15__u16 ;;
    set_ "doppler_accel_precision_ms2" (VFloat (py_round (fdiv_raw (fl v4) (fl 64)) 3)) ;;
    b5 <- at_ data 2 ;;
    set_ "corr_doppler_accel_vel" (VFloat (py_round (fdiv_raw (fl (_cat15__s8 b5)) (fl 128)) 4)) ;;
    adv 3
  else
    need data 1 (return_ (fun _ out => (out, len data))) ;;
    let key := text_at [("codvr", "corr_doppler_vel_range"); ("codvrr", "corr_doppler_vel_range_rate"); ("codvra", "corr_doppler_vel_range_accel"); ("codar", "corr_doppler_accel_range"); ("codarr", "corr_doppler_accel_range_rate"); ("codara", "corr_doppler_accel_range_accel")] name in
    b6 <- at_ data 0 ;;
    set_ key (VFloat (py_round (fdiv_raw (fl (_cat15__s8 b6)) (fl 128)) 4)) ;;
    adv 1.

(** cat.py:4709-4737 *)
Definition _cat15__decode_626 : bytes -> Z -> exc (dict * Z) := compound names_15_626 2 _cat15__decode_626_item.

Definition names_15_627 : list string :=
  ["az"; "rsaz"; "sdasz"; "azr"; "sdazr"; "azex"].

Definition _cat15__decode_627_schema : schema :=
  [("azimuth_deg", TFloat); ("azimuth_resolution_deg", TFloat); ("azimuth_precision_deg", TFloat);
   ("azimuth_rate_degs", TFloat); ("azimuth_rate_precision_degs", TFloat);
   ("corr_azimuth_rate_azimuth", TFloat); ("azimuth_extent_start_deg", TFloat);
   ("azimuth_extent_end_deg", TFloat)].

(** One subfield of _cat15__decode_627; cat.py:4745-4766 *)
Definition _cat15__decode_627_item (data : bytes) (name : string) : cur (dict * Z) unit :=
  if String.eqb name "az" then
    need data 2 (return_ (fun _ out => (out, len data))) ;;
    v1 <- on_slice data 0 2 _cat15__u16 ;;
    set_ "azimuth_deg" (VFloat (py_round (fdiv_raw (fmul (fl v1) (fl 360)) (fl 65536)) 3)) ;;
    adv 2
  else if String.eqb name "rsaz" then
    need data 2 (return_ (fun _ out => (out, len data))) ;;
    v2 <- on_slice data 0 2 _cat15__u16 ;;
    set_ "azimuth_resolution_deg" (VFloat (py_round (fdiv_raw (fmul (fl v2) (fl 45)) (fl 65536)) 4)) ;;
    adv 2
  else if String.eqb name "sdasz" then
    need data 2 (return_ (fun _ out => (out, len data))) ;;
    v3 <- on_slice data 0 2 _cat15__u16 ;;
    set_ "azimuth_precision_deg" (VFloat (py_round (fdiv_raw (fmul (fl v3) (fl 45)) (fl 65536)) 4)) ;;
    adv 2
  else if String.eqb name "azr" then
    need data 2 (return_ (fun _ out => (out, len data))) ;;
    v4 <- on_slice data 0 2 _cat15__s16 ;;
    set_ "azimuth_rate_degs" (VFloat (py_round (fdiv_raw (fmul (fl v4) (fl 180)) (fl 65536)) 4)) ;;
    adv 2
  else if String.eqb name "sdazr" then
    need data 3 (return_ (fun _ out => (out, len data))) ;;
    v5 <- on_slice data 0 2 _cat15__u16 ;;
    set_ "azimuth_rate_precision_degs" (VFloat (py_round (fdiv_raw (fmul (fl v5) (fl 45)) (fl 65536)) 4)) ;;
    b6 <- at_ data 2 ;;
    set_ "corr_azimuth_rate_azimuth" (VFloat (py_round (fdiv_raw (fl (_cat15__s8 b6)) (fl 128)) 4)) ;;
    adv 3
  else if String.eqb name "azex" then
    need data 4 (return_ (fun _ out => (out, len data))) ;;
    v7 <- on_slice data 0 2 _cat15__u16 ;;
    set_ "azimuth_extent_start_deg" (VFloat (py_round (fdiv_raw (fmul (fl v7) (fl 360)) (fl 65536)) 3)) ;;
    v8 <- on_slice data 2 4 _cat15__u16 ;;
    set_ "azimuth_extent_end_deg" (VFloat (py_round (fdiv_raw (fmul (fl v8) (fl 360)) (fl 65536)) 3)) ;;
    adv 4
  else skip.

(** cat.py:4740-4767 *)
Definition _cat15__decode_627 : bytes -> Z -> exc (dict * Z) := compound names_15_627 1 _cat15__decode_627_item.

Definition names_15_628 : list string :=
  ["el"; "rsel"; "sdel"; "er"; "sder"; "elex"].

Definition _cat15__decode_628_schema : schema :=
  [("elevation_deg", TFloat); ("elevation_resolution_deg", TFloat);
   ("elevation_precision_deg", TFloat); ("elevation_rate_degs", TFloat);
   ("elevation_rate_precision_degs", TFloat); ("corr_elevation_rate_elevation", TFloat);
   ("elevation_extent_start_deg", TFloat); ("elevation_extent_end_deg", TFloat)].

(** One subfield of _cat15__decode_628; cat.py:4775-4796 *)
Definition _cat15__decode_628_item (data : bytes) (name : string) : cur (dict * Z) unit :=
  if String.eqb name "el" then
    need data 2 (return_ (fun _ out => (out, len data))) ;;
    v1 <- on_slice data 0 2 _cat15__s16 ;;
    set_ "elevation_deg" (VFloat (py_round (fdiv_raw (fmul (fl v1) (fl 180)) (fl 65536)) 4)) ;;
    adv 2
  else if String.eqb name "rsel" then
    need data 2 (return_ (fun _ out => (out, len data))) ;;
    v2 <- on_slice data 0 2 _cat15__u16 ;;
    set_ "elevation_resolution_deg" (VFloat (py_round (fdiv_raw (fmul (fl v2) (fl 45)) (fl 65536)) 4)) ;;
    adv 2
  else if String.eqb name "sdel" then
    need data 2 (return_ (fun _ out => (out, len data))) ;;
    v3 <- on_slice data 0 2 _cat15__u16 ;;
    set_ "elevation_precision_deg" (VFloat (py_round (fdiv_raw (fmul (fl v3) (fl 45)) (fl 65536)) 4)) ;;
    adv 2
  else if String.eqb name "er" then
    need data 2 (return_ (fun _ out => (out, len data))) ;;
    v4 <- on_slice data 0 2 _cat15__s16 ;;
    set_ "elevation_rate_degs" (VFloat (py_round (fdiv_raw (fmul (fl v4) (fl 180)) (fl 65536)) 4)) ;;
    adv 2
  else if String.eqb name "sder" then
    need data 3 (return_ (fun _ out => (out, len data))) ;;
    v5 <- on_slice data 0 2 _cat15__u16 ;;
    set_ "elevation_rate_precision_degs" (VFloat (py_round (fdiv_raw (fmul (fl v5) (fl 45)) (fl 65536)) 4)) ;;
    b6 <- at_ data 2 ;;
    set_ "corr_elevation_rate_elevation" (VFloat (py_round (fdiv_raw (fl (_cat15__s8 b6)) (fl 128)) 4)) ;;
    adv 3
  else if String.eqb name "elex" then
    need data 4 (return_ (fun _ out => (out, len data))) ;;
    v7 <- on_slice data 0 2 _cat15__s16 ;;
    set_ "elevation_extent_start_deg" (VFloat (py_round (fdiv_raw (fmul (fl v7) (fl 180)) (fl 65536)) 3)) ;;
    v8 <- on_slice data 2 4 _cat15__s16 ;;
    set_ "elevation_extent_end_deg" (VFloat (py_round (fdiv_raw (fmul (fl v8) (fl 180)) (fl 65536)) 3)) ;;
    adv 4
  else skip.

(** cat.py:4770-4797 *)
Definition _cat15__decode_628 : bytes -> Z -> exc (dict * Z) := compound names_15_628 1 _cat15__decode_628_item.

Definition names_15_630 : list string :=
  ["dpp"; "dps"; "rpp"; "rps"].

Definition _cat15__decode_630_schema : schema :=
  [("reflected_path_power_db", TInt (-256) 255); ("direct_path_power_db", TInt (-128) 127); ("direct_path_snr_db", TInt (-128) 127);
   ("reflected_path_snr_db", TInt (-128) 127)].

(** One subfield of _cat15__decode_630; cat.py:4805-4814 *)
Definition _cat15__decode_630_item (data : bytes) (name : string) : cur (dict * Z) unit :=
  if (String.eqb name "dpp") || (String.eqb name "dps") || (String.eqb name "rps") then
    need data 1 (return_ (fun _ out => (out, len data))) ;;
    let key := text_at [("dpp", "direct_path_power_db"); ("dps", "direct_path_snr_db"); ("rps", "reflected_path_snr_db")] name in
    b1 <- at_ data 0 ;;
    set_ key (VInt (_cat15__s8 b1)) ;;
    adv 1
  else if String.eqb name "rpp" then
    need data 2 (return_ (fun _ out => (out, len data))) ;;
    v <- on_slice data 0 2 _cat15__u16 ;;
    adv 2 ;;
    set_ "reflected_path_power_db" (VInt (_cat15__signed_bits (Z.land v 0x1FF) 9))
  else skip.

(** cat.py:4800-4815 *)
Definition _cat15__decode_630 : bytes -> Z -> exc (dict * Z) := compound names_15_630 1 _cat15__decode_630_item.

Definition _cat15_decode_cat015_record_schema : schema :=
  [("sac", TInt 0 255); ("sic", TInt 0 255); ("msg_type", TStr); ("event_driven", TBool);
   ("service_id", TInt 0 255); ("momu", TOneOf ("unknown" :: map snd _cat15__MOMU));
   ("ttax", TOneOf ("unknown" :: map snd _cat15__TTAX));
   ("scd", TOneOf ("unknown" :: map snd _cat15__SCD));
   ("warning_error_conditions", TList (TInt 0 127)); ("tod_s", TFloat); ("track_num", TInt 0 65535);
   ("in_blind_zone", TTrue); ("in_blanked_zone", TTrue); ("terminated_by_user", TTrue);
   ("coasted_position", TTrue); ("coasted_height", TTrue); ("confirmed", TBool);
   ("update_period_s", TFloat);
   ("object_classification", TList (TDict [("class", TInt 0 511); ("probability", TInt 0 127)]));
   ("pair_id", TInt 0 65535); ("observation_num", TInt 0 16777215);
   ("associations_raw", TList TStr);
   ("contours", TList (TDict [("azimuth_deg", TFloat); ("elevation_deg", TFloat); ("range_stop_m", TFloat); ("range_start_m", TFloat)]))] ++
  [("_ts", TFloat); ("_src", TStr)] ++
  _cat15__decode_270_schema ++
  _cat15__decode_600_schema ++
  _cat15__decode_601_schema ++
  _cat15__decode_602_schema ++
  _cat15__decode_603_schema ++
  _cat15__decode_604_schema ++
  _cat15__decode_605_schema ++
  _cat15__decode_625_schema ++
  _cat15__decode_626_schema ++
  _cat15__decode_627_schema ++
  _cat15__decode_628_schema ++
  _cat15__decode_630_schema.

Section Cat015.
Context `{Libm} (site_lat site_lon : option float).
(** cat.py:4850-4859 *)
Definition _cat15_conditions (data : bytes) : cur (dict * Z) unit :=
  need data 1 (return_ (fun _ track => (track, len data))) ;;
  b <- at_ data 0 ;;
  adv 1 ;;
  bs <- fx_strict data b (return_ (fun _ track => (track, len data))) ;;
  let conditions := map (fun b => VInt (Z.land (Z.shiftr b 1) 0x7F)) (b :: bs) in
  when (nonempty conditions) (set_ "warning_error_conditions" (VList conditions)).

(** cat.py:4823-4942 *)
Definition _cat15_decode_cat015_record_item (data : bytes) (frn : Z) : cur (dict * Z) unit :=
  if frn =? 0 then
    need data 2 (return_ (fun _ track => (track, len data))) ;;
    b1 <- at_ data 0 ;;
    set_ "sac" (VInt b1) ;;
    b2 <- at_ data 1 ;;
    set_ "sic" (VInt b2) ;;
    adv 2
  else if frn =? 1 then
    need data 1 (return_ (fun _ track => (track, len data))) ;;
    b <- at_ data 0 ;;
    adv 1 ;;
    set_ "msg_type" (VStr (tget_or _cat15__MSG_TYPES (Z.land (Z.shiftr b 1) 0x7F) ("type_" +:+ str_int (Z.land (Z.shiftr b 1) 0x7F)))) ;;
    set_ "event_driven" (VBool (bit b 0x01))
  else if frn =? 2 then
    need data 1 (return_ (fun _ track => (track, len data))) ;;
    b3 <- at_ data 0 ;;
    set_ "service_id" (VInt b3) ;;
    adv 1
  else if frn =? 3 then
    need data 1 (return_ (fun _ track => (track, len data))) ;;
    b <- at_ data 0 ;;
    adv 1 ;;
    set_ "momu" (VStr (tget_or _cat15__MOMU (Z.land (Z.shiftr b 6) 0x03) "unknown")) ;;
    set_ "ttax" (VStr (tget_or _cat15__TTAX (Z.land (Z.shiftr b 4) 0x03) "unknown")) ;;
    set_ "scd" (VStr (tget_or _cat15__SCD (Z.land (Z.shiftr b 2) 0x03) "unknown")) ;;
    fx_each data b (return_ (fun _ track => (track, len data))) (fun _ _ => skip)
  else if frn =? 4 then
    _cat15_conditions data
  else if frn =? 5 then
    need data 3 (return_ (fun _ track => (track, len data))) ;;
    v4 <- on_slice data 0 3 _cat15__u24 ;;
    set_ "tod_s" (VFloat (fdiv_raw (fl v4) (fl 128))) ;;
    adv 3
  else if frn =? 6 then
    need data 2 (return_ (fun _ track => (track, len data))) ;;
    v5 <- on_slice data 0 2 _cat15__u16 ;;
    set_ "track_num" (VInt v5) ;;
    adv 2
  else if frn =? 7 then
    need data 1 (return_ (fun _ track => (track, len data))) ;;
    b <- at_ data 0 ;;
    adv 1 ;;
    when (bit b 0x80) (set_ "in_blind_zone" (VBool true)) ;;
    when (bit b 0x40) (set_ "in_blanked_zone" (VBool true)) ;;
    when (bit b 0x20) (set_ "terminated_by_user" (VBool true)) ;;
    when (bit b 0x08) (set_ "coasted_position" (VBool true)) ;;
    when (bit b 0x04) (set_ "coasted_height" (VBool true)) ;;
    set_ "confirmed" (VBool (negb (bit b 0x02))) ;;
    fx_each data b (return_ (fun _ track => (track, len data))) (fun _ _ => skip)
  else if frn =? 8 then
    need data 2 (return_ (fun _ track => (track, len data))) ;;
    v6 <- on_slice data 0 2 _cat15__u16 ;;
    set_ "update_period_s" (VFloat (py_round (fdiv_raw (fl (Z.land v6 0x3FFF)) (fl 128)) 3)) ;;
    adv 2
  else if frn =? 9 then
    extra <- try_call (_cat15__decode_270 data) (return_ (fun _ track => (track, len data))) ;;
    update_ extra
  else if frn =? 10 then
    need data 1 (return_ (fun _ track => (track, len data))) ;;
    rep <- at_ data 0 ;;
    adv 1 ;;
    classes <- for_range (Z.to_nat rep) (fun classes =>
        none <- short data 2 ;;
        if none then ret (stop classes) else
        v <- on_slice data 0 2 _cat15__u16 ;;
        adv 2 ;;
        let classes := classes ++ [VDict [("class", VInt (Z.land (Z.shiftr v 7) 0x1FF)); ("probability", VInt (Z.land v 0x7F))]] in
        ret (more classes)) [] ;;
    when (nonempty classes) (set_ "object_classification" (VList classes))
  else if frn =? 11 then
    need data 5 (return_ (fun _ track => (track, len data))) ;;
    v8 <- on_slice data 0 2 _cat15__u16 ;;
    set_ "pair_id" (VInt v8) ;;
    v9 <- on_slice data 2 5 _cat15__u24 ;;
    set_ "observation_num" (VInt v9) ;;
    adv 5
  else if frn =? 12 then
    extra <- try_call (_cat15__decode_600 data) (return_ (fun _ track => (track, len data))) ;;
    update_ extra
  else if frn =? 13 then
    extra <- try_call (_cat15__decode_601 data) (return_ (fun _ track => (track, len data))) ;;
    update_ extra
  else if frn =? 14 then
    extra <- try_call (_cat15__decode_602 data) (return_ (fun _ track => (track, len data))) ;;
    update_ extra
  else if frn =? 15 then
    extra <- try_call (_cat15__decode_603 data) (return_ (fun _ track => (track, len data))) ;;
    update_ extra
  else if frn =? 16 then
    extra <- try_call (_cat15__decode_604 data) (return_ (fun _ track => (track, len data))) ;;
    update_ extra
  else if frn =? 17 then
    extra <- try_call (_cat15__decode_605 data) (return_ (fun _ track => (track, len data))) ;;
    update_ extra
  else if frn =? 18 then
    need data 1 (return_ (fun _ track => (track, len data))) ;;
    rep <- at_ data 0 ;;
    adv 1 ;;
    assocs <- for_range (Z.to_nat rep) (fun assocs =>
        none <- short data 5 ;;
        if none then ret (stop assocs) else
        s10 <- on_slice data 0 5 (fun raw => Ok (hex raw)) ;;
        let assocs := assocs ++ [VStr s10] in
        adv 5 ;;
        ret (more assocs)) [] ;;
    when (nonempty assocs) (set_ "associations_raw" (VList assocs))
  else if frn =? 19 then
    extra <- try_call (_cat15__decode_625 data) (return_ (fun _ track => (track, len data))) ;;
    update_ extra
  else if frn =? 20 then
    extra <- try_call (_cat15__decode_626 data) (return_ (fun _ track => (track, len data))) ;;
    update_ extra
  else if frn =? 21 then
    extra <- try_call (_cat15__decode_627 data) (return_ (fun _ track => (track, len data))) ;;
    update_ extra
  else if frn =? 22 then
    extra <- try_call (_cat15__decode_628 data) (return_ (fun _ track => (track, len data))) ;;
    update_ extra
  else if frn =? 23 then
    extra <- try_call (_cat15__decode_630 data) (return_ (fun _ track => (track, len data))) ;;
    update_ extra
  else if frn =? 24 then
    need data 1 (return_ (fun _ track => (track, len data))) ;;
    rep <- at_ data 0 ;;
    adv 1 ;;
    contours <- for_range (Z.to_nat rep) (fun contours =>
        none <- short data 8 ;;
        if none then ret (stop contours) else
        v11 <- on_slice data 0 2 _cat15__u16 ;;
        v12 <- on_slice data 2 4 _cat15__s16 ;;
        v13 <- on_slice data 4 6 _cat15__u16 ;;
        v14 <- on_slice data 6 8 _cat15__u16 ;;
        let contours := contours ++ [VDict [("azimuth_deg", VFloat (py_round (fdiv_raw (fmul (fl v11) (fl 360)) (fl 65536)) 3)); ("elevation_deg", VFloat (py_round (fdiv_raw (fmul (fl v12) (fl 180)) (fl 65536)) 3)); ("range_stop_m", VFloat (py_round (fdiv_raw (fmul (fl v13) (fl 10000)) (fl 65536)) 2)); ("range_start_m", VFloat (py_round (fdiv_raw (fmul (fl v14) (fl 10000)) (fl 65536)) 2))]] in
        adv 8 ;;
        ret (more contours)) [] ;;
    when (nonempty contours) (set_ "contours" (VList contours))
  else if frn =? 25 then
    goto (_cat15__skip_len_field data)
  else
    return_ (fun _ track => (track, len data)).

(** What follows the loop: a record without a position is placed by its range and
    azimuth, both floats where present. cat.py:4944-4947 *)
Definition _cat15_place : cur (dict * Z) unit :=
  has_lat <- has_ "lat_deg" ;;
  has_lon <- has_ "lon_deg" ;;
  if has_lat && has_lon then skip else
  match site_lat, site_lon with
  | Some lat0, Some lon0 =>
      range_m <- get_ "range_m" ;;
      azimuth <- get_ "azimuth_deg" ;;
      match range_m, azimuth with
      | Some (VFloat range_m), Some (VFloat azimuth) =>
          p <- lift (_cat15__polar_to_wgs84 lat0 lon0 range_m azimuth) ;;
          let '(lat, lon) := p in
          set_ "lat_deg" (VFloat (py_round lat 7)) ;;
          set_ "lon_deg" (VFloat (py_round lon 7))
      | _, _ => skip
      end
  | _, _ => skip
  end.

Definition _cat15_decode_cat015_record (now : float) (data : bytes) (pos : Z) : exc (dict * Z) :=
  let? (fspec, pos) := _cat15_parse_fspec data pos in
  run (for_fspec fspec (_cat15_decode_cat015_record_item data) ;;
       _cat15_place ;;
       return_ (fun pos track => (track, pos))) pos (new_track now "ASTERIX CAT-15 Ed.1.2").

(** Records with a position are tracks. *)
Definition _cat15_route (root : string) (track : dict) : routed :=
  if negb (located track) then Unplaced else
  Reported (_cat15_TOPIC_AIR root (_asterix_source track)) "track".

(** [_h] of [_cat15__make_handler]; [clock pos] is the time at which the record at
    [pos] is read. *)
Definition _cat15_handler (repr : value -> string) (root : string) (clock : Z -> float)
    (data : bytes) : list sending * exc unit :=
  handle_block repr 15 "cat015" (fun data pos => _cat15_decode_cat015_record (clock pos) data pos) (_cat15_route root) data.
End Cat015.

(** ** Correctness *)
Definition cat015_schema : schema := _cat15_decode_cat015_record_schema.

#[local] Hint Opaque _cat15__decode_270 _cat15__decode_600 _cat15__decode_601 _cat15__decode_602 _cat15__decode_603 _cat15__decode_604 _cat15__decode_605 _cat15__decode_625 _cat15__decode_626 _cat15__decode_627 _cat15__decode_628 _cat15__decode_630 : typeclass_instances.

#[local] Instance decode_270_ok15 data : TryOk data (_cat15__decode_270 data) (fun out => fields_ok _cat15__decode_270_schema out = true).
Proof.
  apply compound_ok; [lia|]. unfold subfield_ok, _cat15__decode_270_item, _cat15__u16, _cat15__s16, _cat15__s24, _cat15__u24, _cat15__s32, _cat15__s8.
  by_names ltac:(wp_record).
Qed.

#[local] Instance decode_600_ok15 data : TryOk data (_cat15__decode_600 data) (fun out => fields_ok _cat15__decode_600_schema out = true).
Proof.
  apply compound_ok; [lia|]. unfold subfield_ok, _cat15__decode_600_item, _cat15__u16, _cat15__s16, _cat15__s24, _cat15__u24, _cat15__s32, _cat15__s8.
  intros name p d _ Hp Hd. by_items ltac:(wp_record).
Qed.

#[local] Instance decode_601_ok15 data : TryOk data (_cat15__decode_601 data) (fun out => fields_ok _cat15__decode_601_schema out = true).
Proof.
  apply compound_ok; [lia|]. unfold subfield_ok, _cat15__decode_601_item, _cat15__u16, _cat15__s16, _cat15__s24, _cat15__u24, _cat15__s32, _cat15__s8.
  by_names ltac:(wp_record).
Qed.

#[local] Instance decode_602_ok15 data : TryOk data (_cat15__decode_602 data) (fun out => fields_ok _cat15__decode_602_schema out = true).
Proof.
  apply compound_ok; [lia|]. unfold subfield_ok, _cat15__decode_602_item, _cat15__u16, _cat15__s16, _cat15__s24, _cat15__u24, _cat15__s32, _cat15__s8.
  intros name p d _ Hp Hd. by_items ltac:(wp_record).
Qed.

#[local] Instance decode_603_ok15 data : TryOk data (_cat15__decode_603 data) (fun out => fields_ok _cat15__decode_603_schema out = true).
Proof.
  apply compound_ok; [lia|]. unfold subfield_ok, _cat15__decode_603_item, _cat15__u16, _cat15__s16, _cat15__s24, _cat15__u24, _cat15__s32, _cat15__s8.
  intros name p d _ Hp Hd. by_items ltac:(wp_record).
Qed.

#[local] Instance decode_604_ok15 data : TryOk data (_cat15__decode_604 data) (fun out => fields_ok _cat15__decode_604_schema out = true).
Proof.
  apply compound_ok; [lia|]. unfold subfield_ok, _cat15__decode_604_item, _cat15__u16, _cat15__s16, _cat15__s24, _cat15__u24, _cat15__s32, _cat15__s8.
  by_names ltac:(wp_record).
Qed.

#[local] Instance decode_605_ok15 data : TryOk data (_cat15__decode_605 data) (fun out => fields_ok _cat15__decode_605_schema out = true).
Proof.
  apply compound_ok; [lia|]. unfold subfield_ok, _cat15__decode_605_item, _cat15__u16, _cat15__s16, _cat15__s24, _cat15__u24, _cat15__s32, _cat15__s8.
  by_names ltac:(wp_record).
Qed.

#[local] Instance decode_625_ok15 data : TryOk data (_cat15__decode_625 data) (fun out => fields_ok _cat15__decode_625_schema out = true).
Proof.
  apply compound_ok; [lia|]. unfold subfield_ok, _cat15__decode_625_item, _cat15__u16, _cat15__s16, _cat15__s24, _cat15__u24, _cat15__s32, _cat15__s8.
  intros name p d _ Hp Hd. by_items ltac:(wp_record).
Qed.

#[local] Instance decode_626_ok15 data : TryOk data (_cat15__decode_626 data) (fun out => fields_ok _cat15__decode_626_schema out = true).
Proof.
  apply compound_ok; [lia|]. unfold subfield_ok, _cat15__decode_626_item, _cat15__u16, _cat15__s16, _cat15__s24, _cat15__u24, _cat15__s32, _cat15__s8.
  by_names ltac:(wp_record).
Qed.

#[local] Instance decode_627_ok15 data : TryOk data (_cat15__decode_627 data) (fun out => fields_ok _cat15__decode_627_schema out = true).
Proof.
  apply compound_ok; [lia|]. unfold subfield_ok, _cat15__decode_627_item, _cat15__u16, _cat15__s16, _cat15__s24, _cat15__u24, _cat15__s32, _cat15__s8.
  intros name p d _ Hp Hd. by_items ltac:(wp_record).
Qed.

#[local] Instance decode_628_ok15 data : TryOk data (_cat15__decode_628 data) (fun out => fields_ok _cat15__decode_628_schema out = true).
Proof.
  apply compound_ok; [lia|]. unfold subfield_ok, _cat15__decode_628_item, _cat15__u16, _cat15__s16, _cat15__s24, _cat15__u24, _cat15__s32, _cat15__s8.
  intros name p d _ Hp Hd. by_items ltac:(wp_record).
Qed.

#[local] Instance decode_630_ok15 data : TryOk data (_cat15__decode_630 data) (fun out => fields_ok _cat15__decode_630_schema out = true).
Proof.
  apply compound_ok; [lia|]. unfold subfield_ok, _cat15__decode_630_item, _cat15__u16, _cat15__s16, _cat15__s24, _cat15__u24, _cat15__s32, _cat15__s8.
  by_names ltac:(wp_record).
Qed.

#[local] Instance lift_ok_polar15 `{LibmOk} a b c d : LiftOk (_cat15__polar_to_wgs84 a b c d) (fun _ => True) value_error.
Proof. unfold LiftOk, _cat15__polar_to_wgs84. libm. Qed.

Lemma conditions_ok data p0 p d B E :
  p0 < len data -> 0 <= p <= len data -> wt cat015_schema d ->
  wp (_cat15_conditions data) p d (fun _ p' d' => p <= p' <= len data /\ wt cat015_schema d') B
    (record_result data cat015_schema p0) E.
Proof.
  intros Hp0 Hp Hd. unfold _cat15_conditions. do 2 wp_rule; [by wp_record|]. do 4 wp_rule.
  apply wp_bind, wp_fx_strict; [lia|by intros; wp_record|]. intros bs p' Hp'. cbv zeta. by wp_record.
Qed.

Section Correctness.
Context `{LibmOk}.
Variables (site_lat site_lon : option float).

Lemma item_ok_cat015 p0 data frn : p0 < len data ->
  item_ok data cat015_schema (record_result data cat015_schema p0) (geo_error site_lat site_lon)
    (_cat15_decode_cat015_record_item data frn).
Proof.
  intros Hp0 p d Hp Hd. unfold _cat15_decode_cat015_record_item, _cat15__u16, _cat15__s16, _cat15__s24, _cat15__u24, _cat15__signed_bits.
  by_items ltac:(first [by apply (conditions_ok data p0) | wp_record]).
Qed.

Lemma decode_cat015_ok now data p : 0 <= p < len data ->
  returns (_cat15_decode_cat015_record site_lat site_lon now data p) (record_result data cat015_schema p) (geo_error site_lat site_lon).
Proof.
  intros Hp. unfold _cat15_decode_cat015_record. apply record_decoder_ok;
    [done|apply new_track_ok; vm_compute; reflexivity|by apply parse_fspec_strict| |].
  - intros frn _. apply item_ok_cat015; lia.
  - intros p' d' Hp' Hd. unfold _cat15_place. by wp_record.
Qed.

(** What the protobuf view of a record loses. *)
Definition dropped015 : list string :=
  [].

Lemma cat015_block_ok repr root clock data : len data <= 0xFFFF - 3 ->
  let '(out, r) := _cat15_handler site_lat site_lon repr root clock data in
  delivered repr 15 "cat015" (fun data pos => _cat15_decode_cat015_record site_lat site_lon (clock pos) data pos) (_cat15_route root)
    cat015_schema AsterixCat15Track (fun _ => False) dropped015 (geo_error site_lat site_lon) data 0 out r.
Proof.
  intros Hl. apply handle_block_ok; [|vm_compute; reflexivity| |lia].
  - intros p Hp. by apply decode_cat015_ok.
  - intros track topic status _. unfold _cat15_route. by repeat case_match.
Qed.
End Correctness.
