(* ===== verification/Cat016.v ===== *)
(** * CAT-016: multi-static radar configuration

    cat.py:5078-5357. The decoder of one frame and its handler. *)

From S2P Require Import Prelude PyFloat PyData Schema Ranges Cursor Safety Contract AsterixCommon.

Definition _cat16_TOPIC_SENSOR (root source : string) : string :=
  root +:+ "/land/" +:+ source +:+ "/radar/neutral/sensor".
Definition _cat16_parse_fspec := parse_fspec.
Definition _cat16__skip_len_field := skip_len_field.
Definition _cat16__s16 := s16.
Definition _cat16__s32 := s32.

(** cat.py:5099-5099 *)
Definition _cat16_CAT_016 : Z := 16.
(** cat.py:5101-5101 *)
Definition _cat16__MSG_TYPES : table :=
  [(1, "system_configuration"); (2, "transmitter_receiver_configuration")].
Definition _cat16_decode_cat016_schema : schema :=
  [("sac", TInt 0 255); ("sic", TInt 0 255); ("service_id", TInt 0 255); ("msg_type", TStr);
   ("tod_s", TFloat); ("reporting_period_s", TInt 0 255);
   ("pairs", TList (TDict [("pair_id", TInt 0 65535); ("transmitter_id", TInt 0 65535); ("receiver_id", TInt 0 65535)]));
   ("lat_deg", TFloat); ("lon_deg", TFloat); ("height_m", TFloat);
   ("transmitters", TList (TDict [("transmitter_id", TInt 0 65535); ("lat_deg", TFloat); ("lon_deg", TFloat); ("altitude_m", TFloat); ("tx_time_offset_ns", TInt (-4294967296) 4294967294); ("tx_time_offset_accuracy_ns", TInt 0 1048575); ("parallel_transmitter_index", TInt 0 65535)]));
   ("receivers", TList (TDict [("receiver_id", TInt 0 65535); ("lat_deg", TFloat); ("lon_deg", TFloat); ("altitude_m", TFloat)]))].

(** cat.py:5186-5269 *)
Definition _cat16_decode_cat016_item (data : bytes) (frn : Z) : cur (option dict) unit :=
  if frn =? 0 then
    need data 2 break_ ;;
    b1 <- at_ data 0 ;;
    set_ "sac" (VInt b1) ;;
    b2 <- at_ data 1 ;;
    set_ "sic" (VInt b2) ;;
    adv 2
  else if frn =? 1 then
    need data 1 break_ ;;
    b3 <- at_ data 0 ;;
    set_ "service_id" (VInt b3) ;;
    adv 1
  else if frn =? 2 then
    need data 1 break_ ;;
    b4 <- at_ data 0 ;;
    b5 <- at_ data 0 ;;
    set_ "msg_type" (VStr (tget_or _cat16__MSG_TYPES b4 ("type_" +:+ str_int b5))) ;;
    adv 1
  else if frn =? 3 then
    need data 3 break_ ;;
    v6 <- on_slice data 0 3 (fun raw => Ok (int_from_bytes raw)) ;;
    set_ "tod_s" (VFloat (fdiv_raw (fl v6) (fl 128))) ;;
    adv 3
  else if frn =? 4 then
    need data 1 break_ ;;
    b7 <- at_ data 0 ;;
    set_ "reporting_period_s" (VInt b7) ;;
    adv 1
  else if frn =? 5 then
    need data 1 break_ ;;
    rep <- at_ data 0 ;;
    adv 1 ;;
    pairs <- for_range (Z.to_nat rep) (fun pairs =>
        none <- short data 6 ;;
        if none then ret (stop pairs) else
        v8 <- on_slice data 0 2 (unpack_u 2) ;;
        v9 <- on_slice data 2 4 (unpack_u 2) ;;
        v10 <- on_slice data 4 6 (unpack_u 2) ;;
        let pairs := pairs ++ [VDict [("pair_id", VInt v8); ("transmitter_id", VInt v9); ("receiver_id", VInt v10)]] in
        adv 6 ;;
        ret (more pairs)) [] ;;
    when (nonempty pairs) (set_ "pairs" (VList pairs))
  else if frn =? 6 then
    need data 8 break_ ;;
    let scale := fdiv_raw (fl 180) (fl (2 ^ 31)) in
    v11 <- on_slice data 0 4 _cat16__s32 ;;
    set_ "lat_deg" (VFloat (py_round (fmul (fl v11) scale) 7)) ;;
    v12 <- on_slice data 4 8 _cat16__s32 ;;
    set_ "lon_deg" (VFloat (py_round (fmul (fl v12) scale) 7)) ;;
    adv 8
  else if frn =? 7 then
    need data 2 break_ ;;
    v13 <- on_slice data 0 2 _cat16__s16 ;;
    set_ "height_m" (VFloat (py_round (fmul (fl v13) (dec 25 2)) 2)) ;;
    adv 2
  else if frn =? 8 then
    need data 1 break_ ;;
    rep <- at_ data 0 ;;
    adv 1 ;;
    let scale := fdiv_raw (fl 180) (fl (2 ^ 31)) in
    transmitters <- for_range (Z.to_nat rep) (fun transmitters =>
        none <- short data 21 ;;
        if none then ret (stop transmitters) else
        v <- on_slice data 16 21 (fun raw => Ok (int_from_bytes raw)) ;;
        v15 <- on_slice data 0 2 (unpack_u 2) ;;
        v16 <- on_slice data 2 6 _cat16__s32 ;;
        v17 <- on_slice data 6 10 _cat16__s32 ;;
        v18 <- on_slice data 10 12 _cat16__s16 ;;
        v19 <- on_slice data 12 16 _cat16__s32 ;;
        let transmitters := transmitters ++ [VDict [("transmitter_id", VInt v15); ("lat_deg", VFloat (py_round (fmul (fl v16) scale) 7)); ("lon_deg", VFloat (py_round (fmul (fl v17) scale) 7)); ("altitude_m", VFloat (py_round (fmul (fl v18) (dec 25 2)) 2)); ("tx_time_offset_ns", VInt (v19 * 2)); ("tx_time_offset_accuracy_ns", VInt (Z.land (Z.shiftr v 16) 0xFFFFF)); ("parallel_transmitter_index", VInt (Z.land v 0xFFFF))]] in
        adv 21 ;;
        ret (more transmitters)) [] ;;
    when (nonempty transmitters) (set_ "transmitters" (VList transmitters))
  else if frn =? 9 then
    need data 1 break_ ;;
    rep <- at_ data 0 ;;
    adv 1 ;;
    let scale := fdiv_raw (fl 180) (fl (2 ^ 31)) in
    receivers <- for_range (Z.to_nat rep) (fun receivers =>
        none <- short data 12 ;;
        if none then ret (stop receivers) else
        v20 <- on_slice data 0 2 (unpack_u 2) ;;
        v21 <- on_slice data 2 6 _cat16__s32 ;;
        v22 <- on_slice data 6 10 _cat16__s32 ;;
        v23 <- on_slice data 10 12 _cat16__s16 ;;
        let receivers := receivers ++ [VDict [("receiver_id", VInt v20); ("lat_deg", VFloat (py_round (fmul (fl v21) scale) 7)); ("lon_deg", VFloat (py_round (fmul (fl v22) scale) 7)); ("altitude_m", VFloat (py_round (fmul (fl v23) (dec 25 2)) 2))]] in
        adv 12 ;;
        ret (more receivers)) [] ;;
    when (nonempty receivers) (set_ "receivers" (VList receivers))
  else if frn =? 10 then
    goto (_cat16__skip_len_field data)
  else
    break_.

Definition _cat16_decode_cat016 (data : bytes) : exc (option dict) :=
  if len data <? 1 then Ok None else
  let? (fspec, pos) := _cat16_parse_fspec data 0 in
  run (for_fspec fspec (_cat16_decode_cat016_item data) ;;
       return_ (fun _ msg => msg_or_none msg)) pos [].

(** [_h] of [_cat16__make_handler] *)
Definition _cat16_handler (root : string) (now : float) (data : bytes) : exc (list sample) :=
  let? o := _cat16_decode_cat016 data in
  match o with
  | None => Ok []
  | Some msg =>
      let msg := stamp now "ASTERIX CAT-16 Ed.1.0" msg in
      Ok [(_cat16_TOPIC_SENSOR root (_asterix_source msg), msg)]
  end.

(** ** Correctness *)

(** The keys and values of a published record. *)
Definition cat016_schema : schema := _cat16_decode_cat016_schema ++ stamp_schema.

Lemma item_ok_cat016 data frn :
  item_ok data _cat16_decode_cat016_schema (record_of _cat16_decode_cat016_schema) noE
    (_cat16_decode_cat016_item data frn).
Proof.
  intros p d Hp Hd. unfold _cat16_decode_cat016_item, _cat16__skip_len_field, _cat16__s16, _cat16__s32.
  by_items wp_auto.
Qed.

(** For every frame and every receive time, the CAT-016 handler terminates
    without an exception and publishes at most one record, whose keys and
    values are those of [cat016_schema], which keeps to the protobuf message
    AsterixCat16Status and goes to the topic its own SAC/SIC give. *)
Lemma cat016_handler_ok root now data :
  returns (_cat16_handler root now data)
    (fun out => len out <= 1 /\
       samples_ok (_cat16_TOPIC_SENSOR root) cat016_schema AsterixCat16Status out) noE.
Proof.
  apply (frame_handler_ok _ _cat16_decode_cat016_schema); [|reflexivity].
  apply frame_decoder_ok; [exact _|]. intros frn _. apply item_ok_cat016.
Qed.
