(* ===== verification/Cat017.v ===== *)
(** * CAT-017: Mode S surveillance coordination

    cat.py:5385-5714. *)

From S2P Require Import Prelude PyFloat PyData Schema Ranges Cursor Safety Contract AsterixCommon.
From S2P Require Import Bds TrackViews Records Blocks.

Definition _cat17_TOPIC_AIR (root source : string) : string :=
  root +:+ "/air/" +:+ source +:+ "/radar/civ/aircraft".
Definition _cat17_TOPIC_SENSOR (root source : string) : string :=
  root +:+ "/land/" +:+ source +:+ "/radar/neutral/sensor".
Definition _cat17_parse_fspec := parse_fspec.
Definition _cat17__skip_len_field := skip_len_field.
Definition _cat17__s24 := s24.

(** cat.py:5403-5403 *)
Definition _cat17_CAT_017 : Z := 17.
(** cat.py:5405-5412 *)
Definition _cat17__MSG_TYPES : table :=
  [(0, "network_information"); (10, "track_data"); (20, "track_data_request");
   (21, "track_data_stop"); (22, "cancel_track_data_request"); (23, "track_data_stop_ack");
   (30, "new_node_changeover_initial"); (31, "new_node_changeover_final");
   (32, "new_node_changeover_initial_reply"); (33, "new_node_changeover_final_reply");
   (110, "move_node_new_cluster_state"); (111, "move_node_new_cluster_state_ack")].
(** cat.py:5414-5417 *)
Definition _cat17__CA : table :=
  [(0, "surveillance_only"); (4, "comm_ab_ground"); (5, "comm_ab_airborne");
   (6, "comm_ab_airborne_or_ground"); (7, "dr_or_fs_set")].
Definition _cat17_decode_cat017_record_schema : schema :=
  [("sac", TInt 0 255); ("sic", TInt 0 255); ("dest_sac", TInt 0 255); ("dest_sic", TInt 0 255);
   ("msg_type", TStr); ("cluster_nodes", TList (TDict [("sac", TInt 0 255); ("sic", TInt 0 255)]));
   ("icao24", TStr); ("duplicate_address_ref", TInt 0 65535); ("tod_s", TFloat);
   ("lat_deg", TFloat); ("lon_deg", TFloat); ("squawk_not_validated", TTrue);
   ("squawk_garbled", TTrue); ("squawk_smoothed", TTrue); ("squawk", TStr);
   ("flight_level_not_validated", TTrue); ("flight_level_garbled", TTrue); ("flight_level", TFloat);
   ("ground_speed_kt", TFloat); ("heading_deg", TFloat);
   ("comm_capability", TOneOf ("reserved" :: map snd _cat17__CA)); ("si_capable", TBool);
   ("coasted", TTrue); ("flight_level_predicted", TTrue); ("mode_s_addresses", TList TStr);
   ("cluster_command_state", TInt 0 255)] ++
  [("_ts", TFloat); ("_src", TStr)].

Section Cat017.
(** cat.py:5507-5591 *)
Definition _cat17_decode_cat017_record_item (data : bytes) (frn : Z) : cur (dict * Z) unit :=
  if frn =? 0 then
    need data 2 (return_ (fun _ track => (track, len data))) ;;
    b1 <- at_ data 0 ;;
    set_ "sac" (VInt b1) ;;
    b2 <- at_ data 1 ;;
    set_ "sic" (VInt b2) ;;
    adv 2
  else if frn =? 1 then
    need data 2 (return_ (fun _ track => (track, len data))) ;;
    b3 <- at_ data 0 ;;
    set_ "dest_sac" (VInt b3) ;;
    b4 <- at_ data 1 ;;
    set_ "dest_sic" (VInt b4) ;;
    adv 2
  else if frn =? 2 then
    need data 1 (return_ (fun _ track => (track, len data))) ;;
    b5 <- at_ data 0 ;;
    b6 <- at_ data 0 ;;
    set_ "msg_type" (VStr (tget_or _cat17__MSG_TYPES b5 ("type_" +:+ str_int b6))) ;;
    adv 1
  else if frn =? 3 then
    need data 1 (return_ (fun _ track => (track, len data))) ;;
    rep <- at_ data 0 ;;
    adv 1 ;;
    nodes <- for_range (Z.to_nat rep) (fun nodes =>
        none <- short data 2 ;;
        if none then ret (stop nodes) else
        b7 <- at_ data 0 ;;
        b8 <- at_ data 1 ;;
        let nodes := nodes ++ [VDict [("sac", VInt b7); ("sic", VInt b8)]] in
        adv 2 ;;
        ret (more nodes)) [] ;;
    when (nonempty nodes) (set_ "cluster_nodes" (VList nodes))
  else if frn =? 4 then
    need data 3 (return_ (fun _ track => (track, len data))) ;;
    s9 <- on_slice data 0 3 (fun raw => Ok (hex raw)) ;;
    set_ "icao24" (VStr s9) ;;
    adv 3
  else if frn =? 5 then
    need data 2 (return_ (fun _ track => (track, len data))) ;;
    v10 <- on_slice data 0 2 (unpack_u 2) ;;
    set_ "duplicate_address_ref" (VInt v10) ;;
    adv 2
  else if frn =? 6 then
    need data 3 (return_ (fun _ track => (track, len data))) ;;
    v11 <- on_slice data 0 3 (fun raw => Ok (int_from_bytes raw)) ;;
    set_ "tod_s" (VFloat (fdiv_raw (fl v11) (fl 128))) ;;
    adv 3
  else if frn =? 7 then
    need data 6 (return_ (fun _ track => (track, len data))) ;;
    let scale := fdiv_raw (fl 180) (fl (2 ^ 25)) in
    v12 <- on_slice data 0 3 _cat17__s24 ;;
    set_ "lat_deg" (VFloat (py_round (fmul (fl v12) scale) 6)) ;;
    v13 <- on_slice data 3 6 _cat17__s24 ;;
    set_ "lon_deg" (VFloat (py_round (fmul (fl v13) scale) 6)) ;;
    adv 6
  else if frn =? 8 then
    need data 2 (return_ (fun _ track => (track, len data))) ;;
    b1 <- at_ data 0 ;;
    b2 <- at_ data 1 ;;
    adv 2 ;;
    when (bit b1 0x80) (set_ "squawk_not_validated" (VBool true)) ;;
    when (bit b1 0x40) (set_ "squawk_garbled" (VBool true)) ;;
    when (bit b1 0x20) (set_ "squawk_smoothed" (VBool true)) ;;
    set_ "squawk" (VStr (fmt_o 4 (Z.land (Z.lor (Z.shiftl b1 8) b2) 0x0FFF)))
  else if frn =? 9 then
    need data 2 (return_ (fun _ track => (track, len data))) ;;
    w <- on_slice data 0 2 (unpack_u 2) ;;
    adv 2 ;;
    when (bit w 0x8000) (set_ "flight_level_not_validated" (VBool true)) ;;
    when (bit w 0x4000) (set_ "flight_level_garbled" (VBool true)) ;;
    set_ "flight_level" (VFloat (py_round (fmul (fl (Z.land w 0x3FFF)) (dec 25 2)) 2))
  else if frn =? 10 then
    need data 4 (return_ (fun _ track => (track, len data))) ;;
    v15 <- on_slice data 0 2 (unpack_u 2) ;;
    let gsp := fdiv_raw (fl v15) (fl 16384) in
    v16 <- on_slice data 2 4 (unpack_u 2) ;;
    let hdg := fdiv_raw (fmul (fl v16) (fl 360)) (fl 65536) in
    adv 4 ;;
    set_ "ground_speed_kt" (VFloat (py_round (fmul gsp (fl 3600)) 2)) ;;
    set_ "heading_deg" (VFloat (py_round hdg 2))
  else if frn =? 11 then
    need data 1 (return_ (fun _ track => (track, len data))) ;;
    b <- at_ data 0 ;;
    adv 1 ;;
    set_ "comm_capability" (VStr (tget_or _cat17__CA (Z.land (Z.shiftr b 5) 0x07) "reserved")) ;;
    set_ "si_capable" (VBool (negb (bit b 0x10)))
  else if frn =? 12 then
    need data 1 (return_ (fun _ track => (track, len data))) ;;
    b <- at_ data 0 ;;
    adv 1 ;;
    when (bit b 0x80) (set_ "coasted" (VBool true)) ;;
    when (bit b 0x40) (set_ "flight_level_predicted" (VBool true))
  else if frn =? 13 then
    need data 1 (return_ (fun _ track => (track, len data))) ;;
    rep <- at_ data 0 ;;
    adv 1 ;;
    addrs <- for_range (Z.to_nat rep) (fun addrs =>
        none <- short data 3 ;;
        if none then ret (stop addrs) else
        s17 <- on_slice data 0 3 (fun raw => Ok (hex raw)) ;;
        let addrs := addrs ++ [VStr s17] in
        adv 3 ;;
        ret (more addrs)) [] ;;
    when (nonempty addrs) (set_ "mode_s_addresses" (VList addrs))
  else if frn =? 14 then
    need data 1 (return_ (fun _ track => (track, len data))) ;;
    b18 <- at_ data 0 ;;
    set_ "cluster_command_state" (VInt b18) ;;
    adv 1
  else if (15 <=? frn) && (frn <=? 19) then
    skip
  else if frn =? 20 then
    goto (_cat17__skip_len_field data)
  else
    return_ (fun _ track => (track, len data)).

Definition _cat17_decode_cat017_record (now : float) (data : bytes) (pos : Z) : exc (dict * Z) :=
  let? (fspec, pos) := _cat17_parse_fspec data pos in
  run (for_fspec fspec (_cat17_decode_cat017_record_item data) ;;
       return_ (fun pos track => (track, pos))) pos (new_track now "ASTERIX CAT-17 Ed.1.3").

(** A record with a position is a track, any other one a message of the network. *)
Definition _cat17_route (root : string) (track : dict) : routed :=
  if located track then Reported (_cat17_TOPIC_AIR root (_asterix_source track)) "track"
  else Reported (_cat17_TOPIC_SENSOR root (_asterix_source track)) "sensor".

(** [_h] of [_cat17__make_handler]; [clock pos] is the time at which the record at
    [pos] is read. *)
Definition _cat17_handler (repr : value -> string) (root : string) (clock : Z -> float)
    (data : bytes) : list sending * exc unit :=
  handle_block repr 17 "cat017" (fun data pos => _cat17_decode_cat017_record (clock pos) data pos) (_cat17_route root) data.
End Cat017.

(** ** Correctness *)
Definition cat017_schema : schema := _cat17_decode_cat017_record_schema.

Section Correctness.

Lemma item_ok_cat017 p0 data frn : p0 < len data ->
  item_ok data cat017_schema (record_result data cat017_schema p0) noE
    (_cat17_decode_cat017_record_item data frn).
Proof.
  intros Hp0 p d Hp Hd. unfold _cat17_decode_cat017_record_item, _cat17__s24.
  by_items ltac:(wp_record).
Qed.

Lemma decode_cat017_ok now data p : 0 <= p < len data ->
  returns (_cat17_decode_cat017_record now data p) (record_result data cat017_schema p) noE.
Proof.
  intros Hp. unfold _cat17_decode_cat017_record. apply record_decoder_ok;
    [done|apply new_track_ok; vm_compute; reflexivity|by apply parse_fspec_strict| |].
  - intros frn _. apply item_ok_cat017; lia.
  - intros p' d' Hp' Hd. by apply wp_return.
Qed.

(** What the protobuf view of a record loses. *)
Definition dropped017 : list string :=
  [].

Lemma cat017_block_ok repr root clock data : len data <= 0xFFFF - 3 ->
  let '(out, r) := _cat17_handler repr root clock data in
  delivered repr 17 "cat017" (fun data pos => _cat17_decode_cat017_record (clock pos) data pos) (_cat17_route root)
    cat017_schema AsterixCat17Track (fun _ => False) dropped017 noE data 0 out r.
Proof.
  intros Hl. apply handle_block_ok; [|vm_compute; reflexivity| |lia].
  - intros p Hp. by apply decode_cat017_ok.
  - intros track topic status _. unfold _cat17_route. by repeat case_match.
Qed.
End Correctness.
