(* ===== verification/Cat018.v ===== *)
(** * CAT-018: Mode S datalink messages

    cat.py:5717-6310. *)

From S2P Require Import Prelude PyFloat PyData Schema Ranges Cursor Safety Contract AsterixCommon.
From S2P Require Import Bds TrackViews Records Blocks.

Definition _cat18_TOPIC_AIR (root source : string) : string :=
  root +:+ "/air/" +:+ source +:+ "/radar/civ/aircraft".
Definition _cat18_TOPIC_SENSOR (root source : string) : string :=
  root +:+ "/land/" +:+ source +:+ "/radar/neutral/sensor".
Definition _cat18_parse_fspec := parse_fspec.
Definition _cat18__u16 := u16.
Definition _cat18__s16 := s16.
Definition _cat18__polar_to_wgs84 `{Libm} := polar_to_wgs84.
Definition _cat18__signed_bits := signed_bits.
Definition _cat18__CHARSET_6BIT := CHARSET_6BIT.
Definition _cat18__decode_callsign := decode_callsign.
Definition _cat18__decode_bds10 := decode_bds10.
Definition _cat18__decode_bds17 := decode_bds17.
Definition _cat18__decode_bds30 := decode_bds30.
Definition _cat18__decode_bds40 := decode_bds40.
Definition _cat18__decode_bds50 := decode_bds50.
Definition _cat18__decode_bds60 := decode_bds60.

(** In nautical miles. cat.py:6010-6016 *)
Definition _cat18__cartesian_to_wgs84 `{Libm} (origin_lat origin_lon x_nm y_nm : float) : exc (float * float) :=
  let x_m := fmul x_nm (fl 1852) in
  let y_m := fmul y_nm (fl 1852) in
  let lat := fadd origin_lat (fdiv_raw y_m (fl 111320)) in
  let? c := m_cos (radians origin_lat) in
  let lon_scale := fmul (fl 111320) c in
  let lon := fadd origin_lon (if ftruth lon_scale then fdiv_raw x_m lon_scale else fl 0) in
  Ok (lat, lon).

(** cat.py:5748-5748 *)
Definition _cat18_CAT_018 : Z := 18.
(** cat.py:5752-5760 *)
Definition _cat18__MSG_TYPES : table :=
  [(0, "associate_req"); (1, "associate_resp"); (2, "release_req"); (3, "release_resp");
   (4, "abort_req"); (5, "keep_alive"); (16, "aircraft_report"); (17, "aircraft_command");
   (18, "ii_code_change"); (32, "uplink_packet"); (33, "cancel_uplink_packet");
   (34, "uplink_packet_ack"); (35, "downlink_packet"); (38, "data_xon"); (39, "data_xoff");
   (48, "uplink_broadcast"); (49, "cancel_uplink_broadcast"); (50, "uplink_broadcast_ack");
   (52, "downlink_broadcast"); (64, "gicb_extraction"); (65, "cancel_gicb_extraction");
   (66, "gicb_extraction_ack"); (67, "gicb_response")].
(** cat.py:5762-5765 *)
Definition _cat18__CAUSE : table :=
  [(0, "accepted"); (1, "rejected"); (2, "cancelled"); (3, "finished"); (4, "delayed");
   (5, "in_progress"); (6, "in_progress")].
(** cat.py:5767-5772 *)
Definition _cat18__DIAG : table :=
  [(0, "none"); (1, "aircraft_exit"); (2, "incorrect_aircraft_address"); (3, "cannot_process");
   (4, "insufficient_datalink_capability"); (5, "invalid_lv_field");
   (6, "duplicate_request_number"); (7, "unknown_request_number"); (8, "timer_t3_expiry");
   (9, "expiry_of_ir_delivery_timer"); (10, "uplink_flow_disabled_by_uc")].
(** cat.py:5774-5774 *)
Definition _cat18__PACKET_TYPE : table :=
  [(0, "svc"); (1, "msp"); (2, "route")].
(** cat.py:5776-5779 *)
Definition _cat18__COM : table :=
  [(0, "surveillance_only"); (1, "comm_a_b"); (2, "comm_a_b_uplink_elm");
   (3, "comm_a_b_uplink_downlink_elm"); (4, "level5_transponder")].
(** cat.py:5781-5781 *)
Definition _cat18__REPLY_DEST : table :=
  [(0, "data_link_only"); (1, "surveillance_only"); (2, "both")].
Definition _cat18_decode_cat018_record_schema : schema :=
  [("bds_code", TStr); ("gicb_extracted_hex", TStr); ("report_requested_fields", TList TStr);
   ("sac", TInt 0 255); ("sic", TInt 0 255); ("dest_sac", TInt 0 255); ("dest_sic", TInt 0 255);
   ("msg_type", TStr); ("cause", TOneOf ("reserved" :: map snd _cat18__CAUSE));
   ("diagnostic", TOneOf ("reserved" :: map snd _cat18__DIAG)); ("icao24", TStr);
   ("packet_number", TInt 0 4294967295); ("packet_numbers", TList (TInt 0 4294967295));
   ("packet_priority", TInt 0 31);
   ("packet_type", TOneOf ("reserved" :: map snd _cat18__PACKET_TYPE)); ("mode_s_packet_hex", TStr);
   ("gicb_periodicity_s", TInt 0 65535); ("gicb_priority", TInt 0 31);
   ("gicb_periodicity_strict", TTrue); ("gicb_async_update", TTrue); ("gicb_no_extraction", TTrue);
   ("gicb_reply_destination", TOneOf ("reserved" :: map snd _cat18__REPLY_DEST));
   ("gicb_number", TInt 0 4294967295); ("tod_s", TFloat); ("mode_s_addresses", TList TStr);
   ("uplink_mask", TTrue); ("downlink_mask", TTrue); ("uplink_stop", TBool);
   ("downlink_stop", TBool); ("uplink_disabled_default", TBool);
   ("downlink_disabled_default", TBool); ("uplink_disabled_current", TBool);
   ("downlink_disabled_current", TBool); ("exit_indication", TTrue);
   ("interrogator_control_locked", TTrue);
   ("comm_capability", TOneOf ("reserved" :: map snd _cat18__COM)); ("capability_report_hex", TStr);
   ("range_nm", TFloat); ("azimuth_deg", TFloat); ("lat_deg", TFloat); ("lon_deg", TFloat);
   ("cart_x_nm", TFloat); ("cart_y_nm", TFloat); ("broadcast_number", TInt 0 4294967295);
   ("broadcast_priority", TInt 0 15); ("broadcast_power", TInt 0 15);
   ("broadcast_duration_s", TInt 0 255); ("broadcast_coverage_raw", TStr);
   ("broadcast_prefix_raw", TInt 0 134217727); ("broadcast_message_hex", TStr);
   ("previous_ii_code", TInt 0 15); ("current_ii_code", TInt 0 15); ("callsign", TStr);
   ("squawk_not_validated", TTrue); ("squawk_garbled", TTrue); ("squawk", TStr);
   ("flight_level_not_validated", TTrue); ("flight_level_garbled", TTrue); ("flight_level", TFloat);
   ("ground_speed_kt", TFloat); ("heading_deg", TFloat); ("on_ground", TBool);
   ("cqf_supported", TBool); ("cqf_defined", TBool); ("cqf", TInt 0 127);
   ("cqf_calculation_method", TInt 0 255)] ++
  [("_ts", TFloat); ("_src", TStr)] ++
  bds_schema.

Section Cat018.
Context `{Libm} (site_lat site_lon : option float).
(** [[name for i, name in enumerate(names) if b & (0x80 >> i)]] *)
Definition picked (names : list string) (b : Z) : list string :=
  map snd (List.filter (fun '(i, _) => bit b (Z.shiftr 0x80 i)) (enumerate names)).

(** cat.py:6127-6136 *)
Definition _cat18_requested (data : bytes) : cur (dict * Z) unit :=
  need data 1 (return_ (fun _ track => (track, len data))) ;;
  b <- at_ data 0 ;;
  adv 1 ;;
  bs <- fx_strict data b (return_ (fun _ track => (track, len data))) ;;
  let requested :=
    picked ["status"; "com"; "eca"; "cqf"; "cqf_method"; "polar_position"; "cartesian_position"] b ++
    concat (map (picked ["aircraft_id"; "mode_a"; "speed"; "height"; "heading"]) bs) in
  when (nonempty requested) (set_ "report_requested_fields" (VList (map VStr requested))).

(** The local [bds_code], which is [None] or the pair that the field
    ["bds_code"] was formatted from. *)
Definition bds_is (code : option value) (name : string) : bool :=
  match code with Some (VStr s) => String.eqb s name | _ => false end.

(** cat.py:6025-6214 *)
Definition _cat18_decode_cat018_record_item (data : bytes) (frn : Z) : cur (dict * Z) unit :=
  if frn =? 0 then
    need data 2 (return_ (fun _ track => (track, len data))) ;;
    b1 <- at_ data 0 ;;
    set_ "sac" (VInt b1) ;;
    b2 <- at_ data 1 ;;
    set_ "sic" (VInt b2) ;;
    adv 2
  else if frn =? 1 then
    need data 2 (return_ (fun _ track => (track, len data))) ;;
    b3 <- at_ data 0 ;;
    set_ "dest_sac" (VInt b3) ;;
    b4 <- at_ data 1 ;;
    set_ "dest_sic" (VInt b4) ;;
    adv 2
  else if frn =? 2 then
    need data 1 (return_ (fun _ track => (track, len data))) ;;
    b5 <- at_ data 0 ;;
    b6 <- at_ data 0 ;;
    set_ "msg_type" (VStr (tget_or _cat18__MSG_TYPES b5 ("type_" +:+ str_int b6))) ;;
    adv 1
  else if frn =? 3 then
    need data 1 (return_ (fun _ track => (track, len data))) ;;
    b <- at_ data 0 ;;
    adv 1 ;;
    set_ "cause" (VStr (tget_or _cat18__CAUSE (Z.land (Z.shiftr b 4) 0x0F) "reserved")) ;;
    set_ "diagnostic" (VStr (tget_or _cat18__DIAG (Z.land b 0x0F) "reserved"))
  else if frn =? 4 then
    need data 3 (return_ (fun _ track => (track, len data))) ;;
    s7 <- on_slice data 0 3 (fun raw => Ok (hex raw)) ;;
    set_ "icao24" (VStr s7) ;;
    adv 3
  else if frn =? 5 then
    need data 4 (return_ (fun _ track => (track, len data))) ;;
    v8 <- on_slice data 0 4 (unpack_u 4) ;;
    set_ "packet_number" (VInt v8) ;;
    adv 4
  else if frn =? 6 then
    need data 1 (return_ (fun _ track => (track, len data))) ;;
    rep <- at_ data 0 ;;
    adv 1 ;;
    nums <- for_range (Z.to_nat rep) (fun nums =>
        none <- short data 4 ;;
        if none then ret (stop nums) else
        v9 <- on_slice data 0 4 (unpack_u 4) ;;
        let nums := nums ++ [VInt v9] in
        adv 4 ;;
        ret (more nums)) [] ;;
    when (nonempty nums) (set_ "packet_numbers" (VList nums))
  else if frn =? 7 then
    need data 1 (return_ (fun _ track => (track, len data))) ;;
    b <- at_ data 0 ;;
    adv 1 ;;
    set_ "packet_priority" (VInt (Z.land (Z.shiftr b 2) 0x1F)) ;;
    set_ "packet_type" (VStr (tget_or _cat18__PACKET_TYPE (Z.land b 0x03) "reserved"))
  else if frn =? 8 then
    need data 1 (return_ (fun _ track => (track, len data))) ;;
    size <- at_ data 0 ;;
    if size <? 1 then (return_ (fun _ track => (track, len data))) else
    need data size (return_ (fun _ track => (track, len data))) ;;
    s10 <- on_slice data 1 size (fun raw => Ok (hex raw)) ;;
    set_ "mode_s_packet_hex" (VStr s10) ;;
    adv size
  else if frn =? 9 then
    need data 2 (return_ (fun _ track => (track, len data))) ;;
    v11 <- on_slice data 0 2 _cat18__u16 ;;
    set_ "gicb_periodicity_s" (VInt v11) ;;
    adv 2
  else if frn =? 10 then
    need data 2 (return_ (fun _ track => (track, len data))) ;;
    w <- on_slice data 0 2 _cat18__u16 ;;
    adv 2 ;;
    set_ "gicb_priority" (VInt (Z.land (Z.shiftr w 11) 0x1F)) ;;
    when (bit w 0x0400) (set_ "gicb_periodicity_strict" (VBool true)) ;;
    when (bit w 0x0200) (set_ "gicb_async_update" (VBool true)) ;;
    when (bit w 0x0100) (set_ "gicb_no_extraction" (VBool true)) ;;
    set_ "gicb_reply_destination" (VStr (tget_or _cat18__REPLY_DEST (Z.land (Z.shiftr w 6) 0x03) "reserved"))
  else if frn =? 11 then
    need data 4 (return_ (fun _ track => (track, len data))) ;;
    v13 <- on_slice data 0 4 (unpack_u 4) ;;
    set_ "gicb_number" (VInt v13) ;;
    adv 4
  else if frn =? 12 then
    need data 1 (return_ (fun _ track => (track, len data))) ;;
    b <- at_ data 0 ;;
    adv 1 ;;
    set_ "bds_code" (VStr (str_int (Z.land (Z.shiftr b 4) 0x0F) +:+ "," +:+ str_int (Z.land b 0x0F)))
  else if frn =? 13 then
    need data 7 (return_ (fun _ track => (track, len data))) ;;
    mb <- on_slice data 0 7 (fun raw => Ok raw) ;;
    adv 7 ;;
    code <- get_ "bds_code" ;;
    if bds_is code "1,0" then update_ (_cat18__decode_bds10 mb)
    else if bds_is code "1,7" then update_ (_cat18__decode_bds17 mb)
    else if bds_is code "3,0" then update_ (_cat18__decode_bds30 mb)
    else if bds_is code "4,0" then update_ (_cat18__decode_bds40 mb)
    else if bds_is code "5,0" then update_ (_cat18__decode_bds50 mb)
    else if bds_is code "6,0" then update_ (_cat18__decode_bds60 mb)
    else set_ "gicb_extracted_hex" (VStr (hex mb))
  else if frn =? 14 then
    need data 3 (return_ (fun _ track => (track, len data))) ;;
    v14 <- on_slice data 0 3 (fun raw => Ok (int_from_bytes raw)) ;;
    set_ "tod_s" (VFloat (fdiv_raw (fl v14) (fl 128))) ;;
    adv 3
  else if frn =? 15 then
    need data 1 (return_ (fun _ track => (track, len data))) ;;
    rep <- at_ data 0 ;;
    adv 1 ;;
    addrs <- for_range (Z.to_nat rep) (fun addrs =>
        none <- short data 3 ;;
        if none then ret (stop addrs) else
        s15 <- on_slice data 0 3 (fun raw => Ok (hex raw)) ;;
        let addrs := addrs ++ [VStr s15] in
        adv 3 ;;
        ret (more addrs)) [] ;;
    when (nonempty addrs) (set_ "mode_s_addresses" (VList addrs))
  else if frn =? 16 then
    need data 1 (return_ (fun _ track => (track, len data))) ;;
    b <- at_ data 0 ;;
    adv 1 ;;
    when (bit b 0x80) (set_ "uplink_mask" (VBool true)) ;;
    when (bit b 0x40) (set_ "downlink_mask" (VBool true)) ;;
    set_ "uplink_stop" (VBool (bit b 0x20)) ;;
    set_ "downlink_stop" (VBool (bit b 0x10))
  else if frn =? 17 then
    need data 1 (return_ (fun _ track => (track, len data))) ;;
    b <- at_ data 0 ;;
    adv 1 ;;
    set_ "uplink_disabled_default" (VBool (bit b 0x80)) ;;
    set_ "downlink_disabled_default" (VBool (bit b 0x40)) ;;
    set_ "uplink_disabled_current" (VBool (bit b 0x20)) ;;
    set_ "downlink_disabled_current" (VBool (bit b 0x10)) ;;
    when (bit b 0x02) (set_ "exit_indication" (VBool true)) ;;
    fx_each data b (return_ (fun _ track => (track, len data))) (fun _ b =>
      when (bit b 0x80) (set_ "interrogator_control_locked" (VBool true)))
  else if frn =? 18 then
    _cat18_requested data
  else if frn =? 19 then
    need data 1 (return_ (fun _ track => (track, len data))) ;;
    b16 <- at_ data 0 ;;
    set_ "comm_capability" (VStr (tget_or _cat18__COM (Z.land b16 0x07) "reserved")) ;;
    adv 1
  else if frn =? 20 then
    need data 7 (return_ (fun _ track => (track, len data))) ;;
    s17 <- on_slice data 0 7 (fun raw => Ok (hex raw)) ;;
    set_ "capability_report_hex" (VStr s17) ;;
    adv 7
  else if frn =? 21 then
    need data 4 (return_ (fun _ track => (track, len data))) ;;
    v18 <- on_slice data 0 2 _cat18__u16 ;;
    let rho := fdiv_raw (fl v18) (fl 256) in
    v19 <- on_slice data 2 4 _cat18__u16 ;;
    let theta := fdiv_raw (fmul (fl v19) (fl 360)) (fl 65536) in
    adv 4 ;;
    set_ "range_nm" (VFloat (py_round rho 3)) ;;
    set_ "azimuth_deg" (VFloat (py_round theta 3)) ;;
    match site_lat, site_lon with
    | Some lat0, Some lon0 =>
        p <- lift (_cat18__polar_to_wgs84 lat0 lon0 rho theta) ;;
        let '(lat, lon) := p in
        setdefault_ "lat_deg" (VFloat (py_round lat 7)) ;;
        setdefault_ "lon_deg" (VFloat (py_round lon 7))
    | _, _ => skip
    end
  else if frn =? 22 then
    need data 4 (return_ (fun _ track => (track, len data))) ;;
    v20 <- on_slice data 0 2 _cat18__s16 ;;
    let x_nm := fdiv_raw (fl v20) (fl 128) in
    v21 <- on_slice data 2 4 _cat18__s16 ;;
    let y_nm := fdiv_raw (fl v21) (fl 128) in
    adv 4 ;;
    set_ "cart_x_nm" (VFloat (py_round x_nm 3)) ;;
    set_ "cart_y_nm" (VFloat (py_round y_nm 3)) ;;
    match site_lat, site_lon with
    | Some lat0, Some lon0 =>
        p <- lift (_cat18__cartesian_to_wgs84 lat0 lon0 x_nm y_nm) ;;
        let '(lat, lon) := p in
        setdefault_ "lat_deg" (VFloat (py_round lat 7)) ;;
        setdefault_ "lon_deg" (VFloat (py_round lon 7))
    | _, _ => skip
    end
  else if frn =? 23 then
    need data 4 (return_ (fun _ track => (track, len data))) ;;
    v22 <- on_slice data 0 4 (unpack_u 4) ;;
    set_ "broadcast_number" (VInt v22) ;;
    adv 4
  else if frn =? 24 then
    need data 6 (return_ (fun _ track => (track, len data))) ;;
    b <- at_ data 0 ;;
    adv 1 ;;
    set_ "broadcast_priority" (VInt (Z.land (Z.shiftr b 4) 0x0F)) ;;
    set_ "broadcast_power" (VInt (Z.land b 0x0F)) ;;
    b23 <- at_ data 0 ;;
    set_ "broadcast_duration_s" (VInt b23) ;;
    adv 1 ;;
    s24 <- on_slice data 0 4 (fun raw => Ok (hex raw)) ;;
    set_ "broadcast_coverage_raw" (VStr s24) ;;
    adv 4
  else if frn =? 25 then
    need data 4 (return_ (fun _ track => (track, len data))) ;;
    v25 <- on_slice data 0 4 (fun raw => Ok (int_from_bytes raw)) ;;
    set_ "broadcast_prefix_raw" (VInt (Z.land v25 0x07FFFFFF)) ;;
    adv 4
  else if frn =? 26 then
    need data 7 (return_ (fun _ track => (track, len data))) ;;
    s26 <- on_slice data 0 7 (fun raw => Ok (hex raw)) ;;
    set_ "broadcast_message_hex" (VStr s26) ;;
    adv 7
  else if frn =? 27 then
    need data 1 (return_ (fun _ track => (track, len data))) ;;
    b <- at_ data 0 ;;
    adv 1 ;;
    set_ "previous_ii_code" (VInt (Z.land (Z.shiftr b 4) 0x0F)) ;;
    set_ "current_ii_code" (VInt (Z.land b 0x0F))
  else if frn =? 28 then
    need data 6 (return_ (fun _ track => (track, len data))) ;;
    callsign <- on_slice data 0 6 _cat18__decode_callsign ;;
    adv 6 ;;
    when (negb (String.eqb callsign "")) (set_ "callsign" (VStr callsign))
  else if frn =? 29 then
    need data 2 (return_ (fun _ track => (track, len data))) ;;
    b1 <- at_ data 0 ;;
    b2 <- at_ data 1 ;;
    adv 2 ;;
    when (bit b1 0x80) (set_ "squawk_not_validated" (VBool true)) ;;
    when (bit b1 0x40) (set_ "squawk_garbled" (VBool true)) ;;
    set_ "squawk" (VStr (fmt_o 4 (Z.land (Z.lor (Z.shiftl b1 8) b2) 0x0FFF)))
  else if frn =? 30 then
    need data 2 (return_ (fun _ track => (track, len data))) ;;
    b1 <- at_ data 0 ;;
    b2 <- at_ data 1 ;;
    adv 2 ;;
    when (bit b1 0x80) (set_ "flight_level_not_validated" (VBool true)) ;;
    when (bit b1 0x40) (set_ "flight_level_garbled" (VBool true)) ;;
    let raw14 := Z.land (Z.lor (Z.shiftl b1 8) b2) 0x3FFF in
    set_ "flight_level" (VFloat (py_round (fmul (fl (_cat18__signed_bits raw14 14)) (dec 25 2)) 2))
  else if frn =? 31 then
    need data 2 (return_ (fun _ track => (track, len data))) ;;
    v28 <- on_slice data 0 2 _cat18__u16 ;;
    set_ "ground_speed_kt" (VFloat (py_round (fmul (fdiv_raw (fl v28) (fl 16384)) (fl 3600)) 2)) ;;
    adv 2
  else if frn =? 32 then
    need data 2 (return_ (fun _ track => (track, len data))) ;;
    v29 <- on_slice data 0 2 _cat18__u16 ;;
    set_ "heading_deg" (VFloat (py_round (fdiv_raw (fmul (fl v29) (fl 360)) (fl 65536)) 2)) ;;
    adv 2
  else if frn =? 33 then
    need data 1 (return_ (fun _ track => (track, len data))) ;;
    b <- at_ data 0 ;;
    adv 1 ;;
    set_ "on_ground" (VBool (bit b 0x80)) ;;
    let cqf := Z.land b 0x7F in
    (if cqf =? 0 then
      set_ "cqf_supported" (VBool false)
     else
      (if cqf =? 127 then
        set_ "cqf_defined" (VBool false)
       else
        set_ "cqf" (VInt cqf)))
  else if frn =? 34 then
    need data 1 (return_ (fun _ track => (track, len data))) ;;
    b30 <- at_ data 0 ;;
    set_ "cqf_calculation_method" (VInt b30) ;;
    adv 1
  else
    return_ (fun _ track => (track, len data)).

Definition _cat18_decode_cat018_record (now : float) (data : bytes) (pos : Z) : exc (dict * Z) :=
  let? (fspec, pos) := _cat18_parse_fspec data pos in
  run (for_fspec fspec (_cat18_decode_cat018_record_item data) ;;
       return_ (fun pos track => (track, pos))) pos (new_track now "ASTERIX CAT-18 Ed.1.8").

(** A record with a position is a track, any other one a message of the data link. *)
Definition _cat18_route (root : string) (track : dict) : routed :=
  if located track then Reported (_cat18_TOPIC_AIR root (_asterix_source track)) "track"
  else Reported (_cat18_TOPIC_SENSOR root (_asterix_source track)) "sensor".

(** [_h] of [_cat18__make_handler]; [clock pos] is the time at which the record at
    [pos] is read. *)
Definition _cat18_handler (repr : value -> string) (root : string) (clock : Z -> float)
    (data : bytes) : list sending * exc unit :=
  handle_block repr 18 "cat018" (fun data pos => _cat18_decode_cat018_record (clock pos) data pos) (_cat18_route root) data.
End Cat018.

(** ** Correctness *)
Definition cat018_schema : schema := _cat18_decode_cat018_record_schema.

#[local] Instance lift_ok_cartesian18 `{LibmOk} a b c d : LiftOk (_cat18__cartesian_to_wgs84 a b c d) (fun _ => True) value_error.
Proof. unfold LiftOk, _cat18__cartesian_to_wgs84. libm. Qed.

Lemma requested_ok data p0 p d B E :
  p0 < len data -> 0 <= p <= len data -> wt cat018_schema d ->
  wp (_cat18_requested data) p d (fun _ p' d' => p <= p' <= len data /\ wt cat018_schema d') B
    (record_result data cat018_schema p0) E.
Proof.
  intros Hp0 Hp Hd. unfold _cat18_requested. do 2 wp_rule; [by wp_record|]. do 4 wp_rule.
  apply wp_bind, wp_fx_strict; [lia|by intros; wp_record|]. intros bs p' Hp'. cbv zeta. by wp_record.
Qed.

Section Correctness.
Context `{LibmOk}.
Variables (site_lat site_lon : option float).

Lemma item_ok_cat018 p0 data frn : p0 < len data ->
  item_ok data cat018_schema (record_result data cat018_schema p0) (geo_error site_lat site_lon)
    (_cat18_decode_cat018_record_item site_lat site_lon data frn).
Proof.
  intros Hp0 p d Hp Hd. unfold _cat18_decode_cat018_record_item, _cat18__u16, _cat18__s16, _cat18__polar_to_wgs84, _cat18__decode_callsign, _cat18__signed_bits.
  by_items ltac:(first [by apply (requested_ok data p0) | wp_record]).
Qed.

Lemma decode_cat018_ok now data p : 0 <= p < len data ->
  returns (_cat18_decode_cat018_record site_lat site_lon now data p) (record_result data cat018_schema p) (geo_error site_lat site_lon).
Proof.
  intros Hp. unfold _cat18_decode_cat018_record. apply record_decoder_ok;
    [done|apply new_track_ok; vm_compute; reflexivity|by apply parse_fspec_strict| |].
  - intros frn _. apply item_ok_cat018; lia.
  - intros p' d' Hp' Hd. by apply wp_return.
Qed.

(** What the protobuf view of a record loses. *)
Definition dropped018 : list string :=
  map fst bds10_schema.

Lemma cat018_block_ok repr root clock data : len data <= 0xFFFF - 3 ->
  let '(out, r) := _cat18_handler site_lat site_lon repr root clock data in
  delivered repr 18 "cat018" (fun data pos => _cat18_decode_cat018_record site_lat site_lon (clock pos) data pos) (_cat18_route root)
    cat018_schema AsterixCat18Track (fun _ => False) dropped018 (geo_error site_lat site_lon) data 0 out r.
Proof.
  intros Hl. apply handle_block_ok; [|vm_compute; reflexivity| |lia].
  - intros p Hp. by apply decode_cat018_ok.
  - intros track topic status _. unfold _cat18_route. by repeat case_match.
Qed.
End Correctness.
