(* ===== verification/Cat019.v ===== *)
(** * CAT-019: multilateration system status

    cat.py:6344-6615. The decoder of one frame and its handler. *)

From S2P Require Import Prelude PyFloat PyData Schema Ranges Cursor Safety Contract AsterixCommon.

Definition _cat19_TOPIC_SENSOR (root source : string) : string :=
  root +:+ "/land/" +:+ source +:+ "/mlat/neutral/sensor".
Definition _cat19_parse_fspec := parse_fspec.
Definition _cat19__skip_len_field := skip_len_field.

(** cat.py:6355-6355 *)
Definition _cat19_CAT_019 : Z := 19.
(** cat.py:6357-6357 *)
Definition _cat19__MSG_TYPES : table :=
  [(1, "start_of_update_cycle"); (2, "periodic_status"); (3, "event_triggered_status")].
(** cat.py:6358-6358 *)
Definition _cat19__NOGO : table :=
  [(0, "operational"); (1, "degraded"); (2, "nogo"); (3, "undefined")].
(** cat.py:6359-6359 *)
Definition _cat19__REFTR : table :=
  [(0, "not_present"); (1, "warning"); (2, "faulted"); (3, "good")].

Definition processors : list string := ["tp1"; "tp2"; "tp3"; "tp4"].
Definition transponders : list string := ["reftr1"; "reftr2"; "reftr3"; "reftr4"].

(** I019/551: two bits for each of four processors. *)
Definition _cat19_processors (b : Z) : dict :=
  fold_left (fun procs '(index, name) =>
    let shift := 6 - index * 2 in
    dset name (VDict [("exec", VBool (bit b (Z.shiftl 1 (shift + 1))));
                      ("good", VBool (bit b (Z.shiftl 1 shift)))]) procs)
    (enumerate processors) [].

(** I019/553: two transponders per octet, at most four. *)
Definition _cat19_transponders {R} (data : bytes) : cur R dict :=
  r <- while_ (fuel_of data) (fun '(statuses, idx) =>
    none <- short data 1 ;;
    if none then ret (stop (statuses, idx)) else
    b <- at_ data 0 ;;
    adv 1 ;;
    name1 <- lift (index transponders idx) ;;
    let statuses := dset name1 (VStr (tget_or _cat19__REFTR (Z.land (Z.shiftr b 6) 0x03) "undefined")) statuses in
    name2 <- lift (index transponders (idx + 1)) ;;
    let statuses := dset name2 (VStr (tget_or _cat19__REFTR (Z.land (Z.shiftr b 3) 0x03) "undefined")) statuses in
    let idx := idx + 2 in
    ret (if negb (bit b 0x01) || (len transponders <=? idx) then stop (statuses, idx) else more (statuses, idx)))
    ([], 0) ;;
  ret (fst r).

Definition _cat19_decode_cat019_schema : schema :=
  [("sac", TInt 0 255); ("sic", TInt 0 255); ("msg_type", TStr); ("tod_s", TFloat);
   ("nogo", TOneOf ("undefined" :: map snd _cat19__NOGO)); ("overload", TBool);
   ("time_source_invalid", TBool); ("test_target_failure", TBool);
   ("tracking_processors", TDict (map (fun name => (name, TDict [("exec", TBool); ("good", TBool)])) processors));
   ("remote_sensors", TList (TDict [("rsi", TInt 0 255); ("rx_1090", TBool); ("tx_1030", TBool); ("tx_1090", TBool); ("good", TBool); ("online", TBool)]));
   ("reference_transponders", TDict (map (fun name => (name, TOneOf ("undefined" :: map snd _cat19__REFTR))) transponders)); ("site_lat", TFloat); ("site_lon", TFloat);
   ("site_alt_m", TFloat); ("undulation_m", TInt (-128) 127)].

(** cat.py:6439-6523 *)
Definition _cat19_decode_cat019_item (data : bytes) (frn : Z) : cur (option dict) unit :=
  if frn =? 0 then
    need data 2 break_ ;;
    b1 <- at_ data 0 ;;
    set_ "sac" (VInt b1) ;;
    b2 <- at_ data 1 ;;
    set_ "sic" (VInt b2) ;;
    adv 2
  else if frn =? 1 then
    need data 1 break_ ;;
    b3 <- at_ data 0 ;;
    b4 <- at_ data 0 ;;
    set_ "msg_type" (VStr (tget_or _cat19__MSG_TYPES b3 ("type_" +:+ str_int b4))) ;;
    adv 1
  else if frn =? 2 then
    need data 3 break_ ;;
    b5 <- at_ data 0 ;;
    b6 <- at_ data 1 ;;
    b7 <- at_ data 2 ;;
    let raw := Z.lor (Z.lor (Z.shiftl b5 16) (Z.shiftl b6 8)) b7 in
    set_ "tod_s" (VFloat (fdiv_raw (fl raw) (fl 128))) ;;
    adv 3
  else if frn =? 3 then
    need data 1 break_ ;;
    b <- at_ data 0 ;;
    adv 1 ;;
    set_ "nogo" (VStr (tget_or _cat19__NOGO (Z.land (Z.shiftr b 6) 0x03) "undefined")) ;;
    set_ "overload" (VBool (bit b 0x20)) ;;
    set_ "time_source_invalid" (VBool (bit b 0x10)) ;;
    set_ "test_target_failure" (VBool (bit b 0x08))
  else if frn =? 4 then
    need data 1 break_ ;;
    b <- at_ data 0 ;;
    adv 1 ;;
    set_ "tracking_processors" (VDict (_cat19_processors b))
  else if frn =? 5 then
    need data 1 break_ ;;
    rep <- at_ data 0 ;;
    adv 1 ;;
    sensors <- for_range (Z.to_nat rep) (fun sensors =>
        none <- short data 2 ;;
        if none then ret (stop sensors) else
        rsi <- at_ data 0 ;;
        b <- at_ data 1 ;;
        adv 2 ;;
        let sensors := sensors ++ [VDict [("rsi", VInt rsi); ("rx_1090", VBool (bit b 0x40)); ("tx_1030", VBool (bit b 0x20)); ("tx_1090", VBool (bit b 0x10)); ("good", VBool (bit b 0x08)); ("online", VBool (bit b 0x04))]] in
        ret (more sensors)) [] ;;
    when (nonempty sensors) (set_ "remote_sensors" (VList sensors))
  else if frn =? 6 then
    statuses <- _cat19_transponders data ;;
    set_ "reference_transponders" (VDict statuses)
  else if frn =? 7 then
    need data 8 break_ ;;
    let scale := fdiv_raw (fl 180) (fl (2 ^ 30)) in
    v8 <- on_slice data 0 4 (unpack_s 4) ;;
    set_ "site_lat" (VFloat (py_round (fmul (fl v8) scale) 7)) ;;
    v9 <- on_slice data 4 8 (unpack_s 4) ;;
    set_ "site_lon" (VFloat (py_round (fmul (fl v9) scale) 7)) ;;
    adv 8
  else if frn =? 8 then
    need data 2 break_ ;;
    v10 <- on_slice data 0 2 (unpack_s 2) ;;
    set_ "site_alt_m" (VFloat (py_round (fmul (fl v10) (dec 25 2)) 2)) ;;
    adv 2
  else if frn =? 9 then
    need data 1 break_ ;;
    b11 <- at_ data 0 ;;
    set_ "undulation_m" (VInt (sign_extend 8 b11)) ;;
    adv 1
  else if (frn =? 12) || (frn =? 13) then
    goto (_cat19__skip_len_field data)
  else
    break_.

Definition _cat19_decode_cat019 (data : bytes) : exc (option dict) :=
  if len data <? 1 then Ok None else
  let? (fspec, pos) := _cat19_parse_fspec data 0 in
  run (for_fspec fspec (_cat19_decode_cat019_item data) ;;
       return_ (fun _ msg => msg_or_none msg)) pos [].

(** [_h] of [_cat19__make_handler] *)
Definition _cat19_handler (root : string) (now : float) (data : bytes) : exc (list sample) :=
  let? o := _cat19_decode_cat019 data in
  match o with
  | None => Ok []
  | Some msg =>
      let msg := stamp now "ASTERIX CAT-19 Ed.1.3" msg in
      Ok [(_cat19_TOPIC_SENSOR root (_asterix_source msg), msg)]
  end.

(** ** Correctness *)

(** The keys and values of a published record. *)
Definition cat019_schema : schema := _cat19_decode_cat019_schema ++ stamp_schema.

Definition transponder_schema : schema :=
  map (fun name => (name, TOneOf ("undefined" :: map snd _cat19__REFTR))) transponders.

Lemma transponder_ok name b k :
  In name transponders ->
  field_ok transponder_schema name (VStr (tget_or _cat19__REFTR (Z.land (Z.shiftr b k) 0x03) "undefined")) = true.
Proof.
  intros Hn. eapply field_okI.
  - repeat (destruct Hn as [<-|Hn]; [reflexivity|]). destruct Hn.
  - apply has_ty_one_of_in, tget_or_in; vm_compute; reflexivity.
Qed.

Lemma wp_transponders {R} data p d (Q : dict -> Z -> dict -> Prop) B (T : R -> Prop) :
  0 <= p <= len data ->
  (forall statuses p', p <= p' <= len data -> fields_ok transponder_schema statuses = true -> Q statuses p' d) ->
  wp (_cat19_transponders data) p d Q B T noE.
Proof.
  intros Hp HQ. unfold _cat19_transponders. apply wp_bind.
  apply (wp_while data (fun '(statuses, idx) p' d' =>
    d' = d /\ p <= p' /\ (idx = 0 \/ idx = 2) /\ fields_ok transponder_schema statuses = true));
    [|split_and!; [done|lia|by left|done]|lia|apply fuel_of_enough; lia].
  intros [statuses idx] p' d' (-> & Hp' & Hi & Hs) Hl. repeat wp_rule.
  - apply HQ; [lia|done].
  - assert (InRange idx 0 2) as Hidx by (unfold InRange; lia).
    eapply wp_lift_ok; [exact (lift_ok_index transponders idx 0 2 Hidx (TCEq_refl _))|done|].
    intros name1 Hn1. cbv zeta. apply wp_bind.
    eapply wp_lift_ok; [exact (lift_ok_index transponders (idx + 1) 1 3 ltac:(unfold InRange in *; lia) (TCEq_refl _))|done|].
    intros name2 Hn2.
    assert (fields_ok transponder_schema
      (dset name2 (VStr (tget_or _cat19__REFTR (Z.land (Z.shiftr b 3) 0x03) "undefined"))
        (dset name1 (VStr (tget_or _cat19__REFTR (Z.land (Z.shiftr b 6) 0x03) "undefined")) statuses)) = true) as Hs'
      by (repeat apply fields_ok_dset; auto using transponder_ok).
    apply wp_ret. destruct (negb (bit b 0x01) || _) eqn:Hend.
    + apply wp_ret. cbn [fst]. apply HQ; [lia|exact Hs'].
    + apply orb_false_iff in Hend as [_ Hend%Z.leb_gt]. change (len transponders) with 4 in Hend.
      split_and!; try done; lia.
Qed.

Lemma item_ok_cat019 data frn :
  item_ok data _cat19_decode_cat019_schema (record_of _cat19_decode_cat019_schema) noE
    (_cat19_decode_cat019_item data frn).
Proof.
  intros p d Hp Hd. unfold _cat19_decode_cat019_item, _cat19__skip_len_field.
  by_items wp_auto.
  apply wp_transponders; [lia|]. intros statuses p' Hp' Hs.
  eapply wp_set; [exact Hd|eapply field_okI; [reflexivity|by rewrite has_ty_dict]|].
  intros d' Hd'. by wp_done.
Qed.

(** For every frame and every receive time, the CAT-019 handler terminates
    without an exception and publishes at most one record, whose keys and
    values are those of [cat019_schema], which keeps to the protobuf message
    AsterixCat19Status and goes to the topic its own SAC/SIC give. *)
Lemma cat019_handler_ok root now data :
  returns (_cat19_handler root now data)
    (fun out => len out <= 1 /\
       samples_ok (_cat19_TOPIC_SENSOR root) cat019_schema AsterixCat19Status out) noE.
Proof.
  apply (frame_handler_ok _ _cat19_decode_cat019_schema); [|reflexivity].
  apply frame_decoder_ok; [exact _|]. intros frn _. apply item_ok_cat019.
Qed.

(** The specification puts the second transponder of an octet of I019/553 into
    bits 4 and 3, after two spare bits; the decoder reads one bit higher. *)
Definition octet_553 (first second fx : Z) : Z :=
  Z.lor (Z.shiftl first 6) (Z.lor (Z.shiftl second 2) fx).

Lemma second_transponder_misread first second fx :
  In first [0; 1; 2; 3] -> In second [0; 1; 2; 3] -> In fx [0; 1] ->
  let b := octet_553 first second fx in
  tget_or _cat19__REFTR (Z.land (Z.shiftr b 6) 0x03) "undefined" = tget_or _cat19__REFTR first "undefined" /\
  tget_or _cat19__REFTR (Z.land (Z.shiftr b 3) 0x03) "undefined" =
    (if second <? 2 then "not_present" else "warning")%py.
Proof.
  intros H1 H2 H3.
  repeat (destruct H1 as [<-|H1]; [|]); try destruct H1;
    repeat (destruct H2 as [<-|H2]; [|]); try destruct H2;
      repeat (destruct H3 as [<-|H3]; [vm_compute; by split|]); destruct H3.
Qed.
