(* ===== verification/Cat020.v ===== *)
(** * CAT-020: multilateration target reports

    cat.py:6650-7148. A block carries several records. *)

From S2P Require Import Prelude PyFloat PyData Schema Ranges Cursor Safety Contract AsterixCommon.
From S2P Require Import Exact Bds Gillham TrackViews Records.

Definition _cat20_TOPIC_020 (root source : string) : string :=
  root +:+ "/air/" +:+ source +:+ "/mlat/civ/aircraft".
Definition _cat20_parse_fspec := parse_fspec.
Definition _cat20__skip_len_field := skip_len_field.
Definition _cat20__u16 := u16.
Definition _cat20__s16 := s16.
Definition _cat20__s32 := s32.
Definition _cat20__s24 := s24.
Definition _cat20__CHARSET_6BIT := CHARSET_6BIT.
Definition _cat20__decode_callsign := decode_callsign.
Definition _cat20__decode_bds10 := decode_bds10.
Definition _cat20__decode_bds17 := decode_bds17.
Definition _cat20__decode_bds30 := decode_bds30.
Definition _cat20__decode_bds40 := decode_bds40.
Definition _cat20__decode_bds50 := decode_bds50.
Definition _cat20__decode_bds60 := decode_bds60.

(** cat.py:6678-6678 *)
Definition _cat20_CAT_020 : Z := 20.
(** The technologies of I020/020 and the messages of I020/310. *)
Definition TECHNOLOGIES_020 : list (Z * string) :=
  [(0x80, "non_mode_s_1090_mlat"); (0x40, "mode_s_1090_mlat"); (0x20, "hf_mlat"); (0x10, "vdl4_mlat");
   (0x08, "uat_mlat"); (0x04, "dme_tacan_mlat"); (0x02, "other_mlat")].
Definition _MSG310 : list string :=
  [""; "towing_aircraft"; "follow_me"; "runway_check"; "emergency_operation"; "work_in_progress"].
Definition _cat20_decode_cat020_record_schema : schema :=
  [("sac", TInt 0 255); ("sic", TInt 0 255); ("field_monitor", TTrue); ("spi", TTrue);
   ("channel", TInt 1 2); ("on_ground", TTrue); ("corrupted_reply", TTrue); ("simulated", TTrue);
   ("test_target", TTrue);
   ("address_format", TOneOf ["icao24"; "non_icao24"; "non_adsb"; "unavailable"]);
   ("tod_s", TFloat); ("lat_deg", TFloat); ("lon_deg", TFloat); ("x_m", TFloat); ("y_m", TFloat);
   ("track_num", TInt 0 4095); ("confirmed", TBool); ("_delete", TTrue); ("coasting", TTrue);
   ("vertical_trend", TOneOf [""; "climbing"; "descending"; "invalid"]); ("manoeuvring", TTrue);
   ("smoothed_position", TTrue); ("ghost_track", TTrue); ("squawk", TStr);
   ("squawk_invalid", TTrue); ("squawk_garbled", TTrue); ("squawk_from_track", TTrue);
   ("velocity_east_ms", TFloat); ("velocity_north_ms", TFloat);
   ("alt_baro_ft", TInt (-204800) 204775); ("alt_baro_invalid", TTrue); ("alt_baro_garbled", TTrue);
   ("icao24", TStr); ("callsign", TStr); ("measured_height_ft", TFloat); ("fleet_id", TInt 0 255);
   ("in_trouble", TTrue); ("dop_x", TFloat); ("dop_y", TFloat); ("dop_xy", TFloat);
   ("pos_accuracy_x_m", TFloat); ("pos_accuracy_y_m", TFloat); ("pos_correlation", TFloat);
   ("height_accuracy_m", TFloat); ("comms_acas_raw", TStr);
   ("warning_error_codes", TList (TInt 0 127)); ("mode1", TStr); ("mode2", TStr); ("mlat_technologies", TList TStr);
   ("speed_ms", TFloat); ("heading_deg", TFloat); ("mode_c_alt_ft", TInt (-1200) 14700);
   ("alt_geom_ft", TInt (-204800) 204794); ("accel_east_ms2", TFloat); ("accel_north_ms2", TFloat);
   ("preprog_msg", TStr); ("contributing_device_masks", TList TStr); ("_ts", TFloat); ("_src", TStr)] ++
  bds_schema.

Section Cat020.
Context `{Libm}.

(** cat.py:6915-7116 *)
Definition _cat20_decode_cat020_record_item (data : bytes) (frn : Z) : cur (dict * Z) unit :=
  if frn =? 0 then
    need data 2 (return_ (fun _ track => (track, len data))) ;;
    b1 <- at_ data 0 ;;
    set_ "sac" (VInt b1) ;;
    b2 <- at_ data 1 ;;
    set_ "sic" (VInt b2) ;;
    adv 2
  else if frn =? 1 then
    need data 1 (return_ (fun _ track => (track, len data))) ;;
    b <- at_ data 0 ;;
    adv 1 ;;
    let technologies := map snd (List.filter (fun t => bit b (fst t)) TECHNOLOGIES_020) in
    when (nonempty technologies) (set_ "mlat_technologies" (VList (map VStr technologies))) ;;
    when (bit b 0x01) (
      need data 1 (return_ (fun _ track => (track, len data))) ;;
      b <- at_ data 0 ;;
      adv 1 ;;
      when (bit b 0x80) (set_ "field_monitor" (VBool true)) ;;
      when (bit b 0x40) (set_ "spi" (VBool true)) ;;
      set_ "channel" (VInt (if bit b 0x20 then 2 else 1)) ;;
      when (bit b 0x10) (set_ "on_ground" (VBool true)) ;;
      when (bit b 0x08) (set_ "corrupted_reply" (VBool true)) ;;
      when (bit b 0x04) (set_ "simulated" (VBool true)) ;;
      when (bit b 0x02) (set_ "test_target" (VBool true)) ;;
      when (bit b 0x01) (
        need data 1 break_ ;;
        b <- at_ data 0 ;;
        adv 1 ;;
        s3 <- lift (index ["icao24"; "non_icao24"; "non_adsb"; "unavailable"] (Z.land (Z.shiftr b 6) 0x03)) ;;
        set_ "address_format" (VStr s3) ;;
        fx_each data b skip (fun _ _ => skip)))
  else if frn =? 2 then
    need data 3 (return_ (fun _ track => (track, len data))) ;;
    b4 <- at_ data 0 ;;
    b5 <- at_ data 1 ;;
    b6 <- at_ data 2 ;;
    let raw := Z.lor (Z.lor (Z.shiftl b4 16) (Z.shiftl b5 8)) b6 in
    set_ "tod_s" (VFloat (fdiv_raw (fl raw) (fl 128))) ;;
    adv 3
  else if frn =? 3 then
    need data 8 (return_ (fun _ track => (track, len data))) ;;
    let scale := fdiv_raw (fl 180) (fl (2 ^ 25)) in
    v7 <- on_slice data 0 4 _cat20__s32 ;;
    set_ "lat_deg" (VFloat (py_round (fmul (fl v7) scale) 6)) ;;
    v8 <- on_slice data 4 8 _cat20__s32 ;;
    set_ "lon_deg" (VFloat (py_round (fmul (fl v8) scale) 6)) ;;
    adv 8
  else if frn =? 4 then
    need data 6 (return_ (fun _ track => (track, len data))) ;;
    v9 <- on_slice data 0 3 _cat20__s24 ;;
    set_ "x_m" (VFloat (py_round (fmul (fl v9) (dec 5 1)) 1)) ;;
    v10 <- on_slice data 3 6 _cat20__s24 ;;
    set_ "y_m" (VFloat (py_round (fmul (fl v10) (dec 5 1)) 1)) ;;
    adv 6
  else if frn =? 5 then
    need data 2 (return_ (fun _ track => (track, len data))) ;;
    v11 <- on_slice data 0 2 _cat20__u16 ;;
    set_ "track_num" (VInt (Z.land v11 0x0FFF)) ;;
    adv 2
  else if frn =? 6 then
    need data 1 (return_ (fun _ track => (track, len data))) ;;
    b <- at_ data 0 ;;
    adv 1 ;;
    set_ "confirmed" (VBool (negb (bit b 0x80))) ;;
    when (bit b 0x40) (set_ "_delete" (VBool true)) ;;
    when (bit b 0x20) (set_ "coasting" (VBool true)) ;;
    let trend := Z.land (Z.shiftr b 3) 0x03 in
    when (negb (trend =? 0)) (
      s12 <- lift (index [""; "climbing"; "descending"; "invalid"] trend) ;;
      set_ "vertical_trend" (VStr s12)) ;;
    when (bit b 0x04) (set_ "manoeuvring" (VBool true)) ;;
    when (bit b 0x02) (set_ "smoothed_position" (VBool true)) ;;
    when (bit b 0x01) (
      need data 1 (return_ (fun _ track => (track, len data))) ;;
      b <- at_ data 0 ;;
      adv 1 ;;
      when (bit b 0x80) (set_ "ghost_track" (VBool true)) ;;
      fx_each data b skip (fun _ _ => skip))
  else if frn =? 7 then
    need data 2 (return_ (fun _ track => (track, len data))) ;;
    w <- on_slice data 0 2 _cat20__u16 ;;
    adv 2 ;;
    set_ "squawk" (VStr (fmt_o 4 (Z.land w 0x0FFF))) ;;
    when (bit w 0x8000) (set_ "squawk_invalid" (VBool true)) ;;
    when (bit w 0x4000) (set_ "squawk_garbled" (VBool true)) ;;
    when (bit w 0x2000) (set_ "squawk_from_track" (VBool true))
  else if frn =? 8 then
    need data 4 (return_ (fun _ track => (track, len data))) ;;
    v14 <- on_slice data 0 2 _cat20__s16 ;;
    let vx := fmul (fl v14) (dec 25 2) in
    v15 <- on_slice data 2 4 _cat20__s16 ;;
    let vy := fmul (fl v15) (dec 25 2) in
    adv 4 ;;
    set_ "velocity_east_ms" (VFloat vx) ;;
    set_ "velocity_north_ms" (VFloat vy) ;;
    speed <- lift (m_hypot vx vy) ;;
    set_ "speed_ms" (VFloat (py_round speed 2)) ;;
    when (ftruth vx || ftruth vy) (
      angle <- lift (m_atan2 vx vy) ;;
      set_ "heading_deg" (VFloat (py_round (fmod (degrees angle) (fl 360)) 2)))
  else if frn =? 9 then
    need data 2 (return_ (fun _ track => (track, len data))) ;;
    w <- on_slice data 0 2 _cat20__u16 ;;
    adv 2 ;;
    let raw := Z.land w 0x3FFF in
    let raw := if bit raw 0x2000 then raw - 0x4000 else raw in
    set_ "alt_baro_ft" (VInt (raw * 25)) ;;
    when (bit w 0x8000) (set_ "alt_baro_invalid" (VBool true)) ;;
    when (bit w 0x4000) (set_ "alt_baro_garbled" (VBool true))
  else if frn =? 10 then
    need data 4 (return_ (fun _ track => (track, len data))) ;;
    v17 <- on_slice data 0 2 _cat20__u16 ;;
    match _cat20__gillham_to_ft v17 with
    | Some alt => set_ "mode_c_alt_ft" (VInt alt)
    | None => skip
    end ;;
    adv 4
  else if frn =? 11 then
    need data 3 (return_ (fun _ track => (track, len data))) ;;
    b18 <- at_ data 0 ;;
    b19 <- at_ data 1 ;;
    b20 <- at_ data 2 ;;
    let addr := Z.lor (Z.lor (Z.shiftl b18 16) (Z.shiftl b19 8)) b20 in
    set_ "icao24" (VStr (fmt_x 6 addr)) ;;
    adv 3
  else if frn =? 12 then
    need data 7 (return_ (fun _ track => (track, len data))) ;;
    adv 1 ;;
    s21 <- on_slice data 0 6 _cat20__decode_callsign ;;
    set_ "callsign" (VStr s21) ;;
    adv 6
  else if frn =? 13 then
    need data 2 (return_ (fun _ track => (track, len data))) ;;
    v22 <- on_slice data 0 2 _cat20__s16 ;;
    set_ "measured_height_ft" (VFloat (fmul (fl v22) (dec 625 2))) ;;
    adv 2
  else if frn =? 14 then
    need data 2 (return_ (fun _ track => (track, len data))) ;;
    v23 <- on_slice data 0 2 _cat20__s16 ;;
    alt <- lift (py_round_int (fmul (fl v23) (dec 625 2))) ;;
    set_ "alt_geom_ft" (VInt alt) ;;
    adv 2
  else if frn =? 15 then
    need data 2 (return_ (fun _ track => (track, len data))) ;;
    b1 <- at_ data 0 ;;
    set_ "accel_east_ms2" (VFloat (fmul (fl (sign_extend 8 b1)) (dec 25 2))) ;;
    b2 <- at_ data 1 ;;
    set_ "accel_north_ms2" (VFloat (fmul (fl (sign_extend 8 b2)) (dec 25 2))) ;;
    adv 2
  else if frn =? 16 then
    need data 1 (return_ (fun _ track => (track, len data))) ;;
    b23 <- at_ data 0 ;;
    set_ "fleet_id" (VInt b23) ;;
    adv 1
  else if frn =? 17 then
    need data 1 (return_ (fun _ track => (track, len data))) ;;
    b <- at_ data 0 ;;
    adv 1 ;;
    when (bit b 0x80) (set_ "in_trouble" (VBool true)) ;;
    let msg_type := Z.land b 0x7F in
    when (negb (msg_type =? 0)) (
      if msg_type <? len _MSG310 then
        s26 <- lift (index _MSG310 msg_type) ;;
        set_ "preprog_msg" (VStr s26)
      else
        set_ "preprog_msg" (VStr ("type_" +:+ str_int msg_type)))
  else if frn =? 18 then
    need data 1 (return_ (fun _ track => (track, len data))) ;;
    psf <- at_ data 0 ;;
    adv 1 ;;
    when (bit psf 0x80) (
      need data 6 (return_ (fun _ track => (track, len data))) ;;
      v24 <- on_slice data 0 2 _cat20__u16 ;;
      set_ "dop_x" (VFloat (fmul (fl v24) (dec 25 2))) ;;
      v25 <- on_slice data 2 4 _cat20__u16 ;;
      set_ "dop_y" (VFloat (fmul (fl v25) (dec 25 2))) ;;
      v26 <- on_slice data 4 6 _cat20__s16 ;;
      set_ "dop_xy" (VFloat (fmul (fl v26) (dec 25 2))) ;;
      adv 6) ;;
    when (bit psf 0x40) (
      need data 6 (return_ (fun _ track => (track, len data))) ;;
      v27 <- on_slice data 0 2 _cat20__u16 ;;
      set_ "pos_accuracy_x_m" (VFloat (fmul (fl v27) (dec 25 2))) ;;
      v28 <- on_slice data 2 4 _cat20__u16 ;;
      set_ "pos_accuracy_y_m" (VFloat (fmul (fl v28) (dec 25 2))) ;;
      v29 <- on_slice data 4 6 _cat20__s16 ;;
      set_ "pos_correlation" (VFloat (fmul (fl v29) (dec 25 2))) ;;
      adv 6) ;;
    when (bit psf 0x20) (
      need data 2 (return_ (fun _ track => (track, len data))) ;;
      v30 <- on_slice data 0 2 _cat20__u16 ;;
      set_ "height_accuracy_m" (VFloat (fmul (fl v30) (dec 5 1))) ;;
      adv 2)
  else if frn =? 19 then
    need data 1 (return_ (fun _ track => (track, len data))) ;;
    count <- at_ data 0 ;;
    adv 1 ;;
    need data count (return_ (fun _ track => (track, len data))) ;;
    masks <- on_slice data 0 count (fun raw => Ok raw) ;;
    set_ "contributing_device_masks" (VList (map (fun v => VStr (fmt_b 8 (byte_val v))) masks)) ;;
    adv count
  else if frn =? 20 then
    need data 1 (return_ (fun _ track => (track, len data))) ;;
    rep <- at_ data 0 ;;
    adv 1 ;;
    for_range (Z.to_nat rep) (fun _ =>
        none <- short data 8 ;;
        if none then ret (stop tt) else
        mb <- on_slice data 0 7 (fun mb => Ok mb) ;;
        bds <- at_ data 7 ;;
        adv 8 ;;
        let bds1 := Z.land (Z.shiftr bds 4) 0x0F in
        let bds2 := Z.land bds 0x0F in
        (if (bds1 =? 1) && (bds2 =? 0) then update_ (_cat20__decode_bds10 mb)
         else if (bds1 =? 1) && (bds2 =? 7) then update_ (_cat20__decode_bds17 mb)
         else if (bds1 =? 3) && (bds2 =? 0) then update_ (_cat20__decode_bds30 mb)
         else if (bds1 =? 4) && (bds2 =? 0) then update_ (_cat20__decode_bds40 mb)
         else if (bds1 =? 5) && (bds2 =? 0) then update_ (_cat20__decode_bds50 mb)
         else when ((bds1 =? 6) && (bds2 =? 0)) (update_ (_cat20__decode_bds60 mb))) ;;
        ret (more tt)) tt
  else if frn =? 21 then
    need data 2 (return_ (fun _ track => (track, len data))) ;;
    s31 <- on_slice data 0 2 (fun raw => Ok (hex raw)) ;;
    set_ "comms_acas_raw" (VStr s31) ;;
    adv 2
  else if frn =? 22 then
    need data 7 (return_ (fun _ track => (track, len data))) ;;
    mb <- on_slice data 0 7 (fun mb => Ok mb) ;;
    update_ (_cat20__decode_bds30 mb) ;;
    adv 7
  else if frn =? 23 then
    codes <- fx_octets data (fun b => Z.shiftr b 1) ;;
    when (nonempty codes) (set_ "warning_error_codes" (VList (map VInt codes)))
  else if frn =? 24 then
    need data 1 (return_ (fun _ track => (track, len data))) ;;
    b <- at_ data 0 ;;
    adv 1 ;;
    set_ "mode1" (VStr (fmt_o 2 (Z.land b 0x1F)))
  else if frn =? 25 then
    need data 2 (return_ (fun _ track => (track, len data))) ;;
    w <- on_slice data 0 2 _cat20__u16 ;;
    adv 2 ;;
    set_ "mode2" (VStr (fmt_o 4 (Z.land w 0x0FFF)))
  else if (frn =? 26) || (frn =? 27) then
    goto (_cat20__skip_len_field data)
  else
    break_.

Definition _cat20_decode_cat020_record (now : float) (data : bytes) (pos : Z) : exc (dict * Z) :=
  let? (fspec, pos) := _cat20_parse_fspec data pos in
  run (for_fspec fspec (_cat20_decode_cat020_record_item data) ;;
       return_ (fun pos track => (track, pos))) pos (new_track now "ASTERIX CAT-20 Ed.1.11").

(** [_h] of [_cat20__make_cat020_handler], with [_cat20__pub]; [clock pos] is the
    time at which the record at [pos] is read. *)
Definition _cat20_handler (repr : value -> string) (root : string) (clock : Z -> float)
    (data : bytes) : list publication * exc unit :=
  handle_records repr 20 "cat020" (_cat20_TOPIC_020 root)
    (fun data pos => _cat20_decode_cat020_record (clock pos) data pos) (fun track => Ok track) data.
End Cat020.

(** ** Correctness *)
Definition cat020_schema : schema := _cat20_decode_cat020_record_schema.

(** Feet of a quarter-foot count, [round(n * 6.25)]: to the nearest foot, ties to even. *)
#[local] Instance lift_ok_feet n :
  InRange n (-32768) 32767 ->
  LiftOk (py_round_int (fmul (fl n) (dec 625 2))) (fun alt => InRange alt (-204800) 204794) noE.
Proof.
  unfold InRange, LiftOk. intros Hn. change (dec 625 2) with (canon false 25 (-2)).
  destruct n as [|m|m]; [vm_compute; split; discriminate|..].
  all: destruct (fl_exact m ltac:(lia)) as [Hpos Hneg].
  all: pose proof (digits2_le m 16 ltac:(lia) ltac:(lia)); pose proof (digits2_mul m 25).
  all: change (digits2 25) with 5 in *; rewrite ?Hpos, ?Hneg, fmul_exact by first [lia|vm_compute; discriminate].
  all: change (0 + -2) with (- (2)); rewrite round_int_exact by lia.
  all: pose proof (div_even_range (Z.pos (m * 25)) (2 ^ 2) ltac:(lia) ltac:(lia)); cbn; lia.
Qed.

#[local] Hint Opaque gillham_to_ft : typeclass_instances.

Section Correctness.
Context `{LibmOk}.

Lemma item_ok20 p0 E data frn : p0 < len data ->
  item_ok data cat020_schema (record_result data cat020_schema p0) E
    (_cat20_decode_cat020_record_item data frn).
Proof.
  intros Hp0 p d Hp Hd. unfold _cat20_decode_cat020_record_item, _cat20__u16, _cat20__s16, _cat20__s32,
    _cat20__s24, _cat20__gillham_to_ft, _cat20__decode_callsign.
  by_items ltac:(wp_record).
Qed.

Lemma decode_cat020_ok now E data p : 0 <= p < len data ->
  returns (_cat20_decode_cat020_record now data p) (record_result data cat020_schema p) E.
Proof.
  intros Hp. unfold _cat20_decode_cat020_record. apply record_decoder_ok;
    [done|apply new_track_ok; vm_compute; reflexivity|by apply parse_fspec_strict| |].
  - intros frn _. apply item_ok20; lia.
  - intros p' d Hp' Hd. by apply wp_return.
Qed.

(** What the protobuf view loses. *)
Definition dropped020 : list string :=
  "_delete" :: "warning_error_codes" :: map fst bds10_schema.

(** What the handler does with a block: every record published once, in order,
    with exactly its source octets. *)
Definition stream020 (repr : value -> string) (root : string) (clock : Z -> float) (data : bytes) : list publication -> exc unit -> Prop :=
  stream_ok repr 20 "cat020" (_cat20_TOPIC_020 root) (fun data pos => _cat20_decode_cat020_record (clock pos) data pos)
    (fun track => Ok track) dropped020 cat020_schema AsterixCat20Track data 0.

Lemma cat020_handler_stream repr root clock data :
  len data <= 0xFFFF - 3 ->
  let '(out, r) := _cat20_handler repr root clock data in
  stream020 repr root clock data out (Ok tt) /\ r = Ok tt.
Proof.
  apply stream_total; [|vm_compute; reflexivity|lia]. intros p Hp. by apply decode_cat020_ok.
Qed.

(** for every block of CAT-020 records, the handler terminates and does not
    raise; what it publishes describes consecutive pieces of the block in
    order, each record once, with exactly its source octets; and every record
    keeps to its schema and, [dropped020] apart, to AsterixCat20Track. *)
Theorem cat020_handler_ok repr root clock data :
  len data <= 0xFFFF - 3 ->
  let '(out, r) := _cat20_handler repr root clock data in
  stream020 repr root clock data out (Ok tt) /\ r = Ok tt.
Proof. apply cat020_handler_stream. Qed.
End Correctness.

(** A WGS-84 track with a velocity and a message, then a truncated record. *)
Definition sample020 : bytes :=
  of_ints [0x91; 0x41; 0x10; 0x19; 0x0A; 0x00; 0x99; 0x99; 0x99; 0x00; 0x47; 0x1C; 0x71; 0x00; 0x40; 0xFF; 0xC0;
           0x01; 0xF0; 0x19].

Lemma cat020_handler_ok_witness :
  let '(out, r) := @_cat20_handler small_angle_libm (fun _ => "") "efdi" (fun _ => fl 7) sample020 in
  (len out = 2 /\
   @stream020 small_angle_libm (fun _ => "") "efdi" (fun _ => fl 7) sample020 out (Ok tt)) /\ r = Ok tt.
Proof.
  pose proof (@cat020_handler_ok small_angle_libm small_angle_libm_ok
    (fun _ => "") "efdi" (fun _ => fl 7) sample020 ltac:(vm_compute; discriminate)) as H.
  assert (len (fst (@_cat20_handler small_angle_libm (fun _ => "") "efdi" (fun _ => fl 7) sample020)) = 2)
    as Hlen by (vm_compute; reflexivity).
  destruct (_cat20_handler _ _ _ _) as [out r]. destruct H as [H1 H2].
  split; [split; [exact Hlen|exact H1]|exact H2].
Defined.
