(* ===== verification/Cat021.v ===== *)
(** * CAT-021: ADS-B target reports

    cat.py:7270-7852. A block carries several records. *)

From S2P Require Import Prelude PyFloat PyData Schema Ranges Cursor Safety Contract AsterixCommon.
From S2P Require Import Bds TrackViews Records.

Definition _cat21_TOPIC_021 (root source : string) : string :=
  root +:+ "/air/" +:+ source +:+ "/adsb/civ/aircraft".
Definition _cat21_parse_fspec := parse_fspec.
Definition _cat21__skip_len_field := skip_len_field.
Definition _cat21__u16 := u16.
Definition _cat21__s16 := s16.
Definition _cat21__s32 := s32.
Definition _cat21__s24 := s24.
Definition _cat21__CHARSET_6BIT := CHARSET_6BIT.
Definition _cat21__decode_callsign := decode_callsign.
Definition _cat21__presence := presence.
Definition _cat21__decode_bds10 := decode_bds10.
Definition _cat21__decode_bds17 := decode_bds17.
Definition _cat21__decode_bds30 := decode_bds30.
Definition _cat21__decode_bds40 := decode_bds40.
Definition _cat21__decode_bds50 := decode_bds50.
Definition _cat21__decode_bds60 := decode_bds60.

(** cat.py:7287-7287 *)
Definition _cat21_CAT_021 : Z := 21.
(** cat.py:7291-7296 *)
Definition _cat21__EMITTER_CATEGORY : table :=
  [(0, "no info"); (1, "light"); (2, "small"); (3, "medium"); (4, "high vortex large");
   (5, "heavy"); (6, "manoeuvrable/high speed"); (10, "glider"); (11, "airship"); (12, "UAV");
   (13, "space vehicle"); (14, "emergency vehicle"); (15, "service vehicle");
   (16, "ground obstruction")].
(** The position accuracy of a NACp value, in metres. *)
Definition _cat21__NACP_EPU_M : list (Z * option Z) :=
  [(0, None); (1, Some 18520); (2, Some 7408); (3, Some 3704); (4, Some 1852); (5, Some 926);
   (6, Some 556); (7, Some 185); (8, Some 93); (9, Some 30); (10, Some 10); (11, Some 3)].
Definition epu_of (nac_p : Z) : option Z :=
  match List.find (fun e => fst e =? nac_p) _cat21__NACP_EPU_M with
  | Some (_, epu_m) => epu_m
  | None => None
  end.
(** The subfields of I021/295. *)
Definition names_295 : list string :=
  ["aircraft_status"; "target_descriptor"; "mode3a"; "quality"; "trajectory"; "amplitude";
   "geometric_height"; "flight_level"; "selected_altitude"; "final_altitude"; "air_speed";
   "true_air_speed"; "mag_heading"; "baro_vr"; "geo_vr"; "ground_vector"; "track_angle_rate";
   "target_id"; "target_status"; "met"; "roll"; "acas_ra"; "surface_capabilities"].
Definition age_key (name : string) : string := "data_age_" +:+ name +:+ "_s".
Definition _cat21_decode_cat021_record_schema : schema :=
  [("sac", TInt 0 255); ("sic", TInt 0 255);
   ("addr_type", TOneOf ["icao24"; "duplicate"; "surface"; "anonymous"; "reserved"; "reserved"; "reserved"; "reserved"]);
   ("alt_res", TOneOf ["25ft"; "100ft"; "unknown"; "invalid"]);
   ("range_check_passed_cpr_pending", TTrue); ("field_monitor", TTrue);
   ("differential_correction", TTrue); ("on_ground", TTrue); ("simulated", TTrue);
   ("test_target", TTrue); ("selected_altitude_unavailable", TTrue); ("confidence_level", TInt 0 3);
   ("total_bits_corrected", TInt 0 63); ("maximum_bits_corrected", TInt 0 63);
   ("track_num", TInt 0 4095); ("service_id", TInt 0 255); ("lat_deg", TFloat); ("lon_deg", TFloat);
   ("mach", TFloat); ("ias_kt", TEither TFloat (TInt 0 1023)); ("tas_kt", TEither TFloat (TInt 0 32767)); ("tas_range_exceeded", TTrue);
   ("icao24", TStr);
   ("position_reception_time_hp", TFloat); ("velocity_reception_time_hp", TFloat);
   ("alt_geom_ft", TFloat); ("nac_v", TInt 0 7); ("nic", TInt 0 15); ("nic_baro", TBool);
   ("sil", TInt 0 3); ("nac_p", TInt 0 15); ("sil_per_sample", TBool); ("sda", TInt 0 3);
   ("gva", TInt 0 3); ("pic", TInt 0 15); ("pic_direct", TBool);
   ("mops_version_unsupported", TBool); ("mops_version", TInt 0 7);
   ("link_technology", TOneOf ["other"; "uat"; "1090es"; "vdl4"; "unassigned"; "unassigned"; "unassigned"; "unassigned"]);
   ("squawk", TStr); ("roll_deg", TFloat); ("alt_baro_ft", TInt (-819200) 819175);
   ("mag_hdg_deg", TFloat); ("intent_change", TTrue); ("lnav_engaged", TBool);
   ("mil_emergency", TTrue); ("priority_status", TInt 0 7);
   ("alert", TOneOf ["permanent"; "temporary"]); ("spi", TTrue);
   ("baro_vr_fpm", TEither TFloat (TInt (-16384) 16352)); ("geo_vr_fpm", TFloat);
   ("vertical_rate_range_exceeded", TTrue); ("speed_ms", TFloat); ("heading_deg", TFloat);
   ("ground_speed_range_exceeded", TTrue); ("track_angle_rate_degs", TFloat); ("callsign", TStr);
   ("emitter_category", TInt 0 255); ("emitter_category_str", TStr);
   ("selected_alt_ft", TInt (-102400) 102375);
   ("final_alt_ft", TInt (-102400) 102375);
   ("selected_alt_source_available", TBool);
   ("selected_alt_source", TOneOf ["unknown"; "aircraft_altitude"; "mcp_fcu"; "fms"]);
   ("managed_vertical_mode", TBool); ("altitude_hold_mode", TBool); ("approach_mode", TBool);
   ("report_period_s", TFloat); ("aircraft_operational_status_raw", TInt 0 255);
   ("acas_ra_active", TBool);
   ("trajectory_change_capability", TOneOf ["none"; "tc_plus_zero"; "multiple"; "reserved"]);
   ("target_state_report_capable", TBool); ("air_ref_velocity_capable", TBool);
   ("cdti_airborne_operational", TBool); ("tcas_operational", TBool); ("single_antenna", TBool);
   ("position_offset_applied", TTrue); ("cdti_surface_operational", TTrue);
   ("class_b2_low_power", TTrue); ("receiving_atc_services", TTrue); ("ident_switch", TTrue);
   ("surface_length_width_code", TInt 0 15); ("receiver_id", TInt 0 255); ("list_lookup_suspect", TTrue);
   ("independent_position_check_failed", TTrue); ("ground_station_nogo", TTrue);
   ("cpr_validation_failed", TTrue); ("local_position_jump", TTrue); ("range_check_failed", TTrue);
   ("position_time_s", TFloat); ("velocity_time_s", TFloat); ("position_reception_time_s", TFloat);
   ("velocity_reception_time_s", TFloat); ("report_transmission_time_s", TFloat);
   ("position_accuracy_m", TInt 3 18520); ("wind_speed_kt", TInt 0 65535);
   ("wind_dir_deg", TInt 0 65535); ("temp_c", TFloat); ("turbulence", TInt 0 255);
   ("message_amplitude_dbm", TInt (-128) 127); ("_ts", TFloat); ("_src", TStr)] ++
  map (fun name => (age_key name, TFloat)) names_295 ++ bds_schema.

(** [time24] *)
Definition _cat21_time24 (data : bytes) (name : string) : cur (dict * Z) unit :=
  need data 3 (return_ (fun _ track => (track, len data))) ;;
  v <- on_slice data 0 3 (fun raw => Ok (int_from_bytes raw)) ;;
  set_ name (VFloat (fdiv_raw (fl v) (fl 128))) ;;
  adv 3.

(** Items 200 to SP; every FRN past them ends the record or is unused. *)
Definition _cat21_decode_cat021_record_item22 (data : bytes) (frn : Z) : cur (dict * Z) unit :=
  if frn =? 22 then
    need data 1 (return_ (fun _ track => (track, len data))) ;;
    b <- at_ data 0 ;;
    adv 1 ;;
    when (bit b 0x80) (set_ "intent_change" (VBool true)) ;;
    set_ "lnav_engaged" (VBool (negb (bit b 0x40))) ;;
    when (bit b 0x20) (set_ "mil_emergency" (VBool true)) ;;
    set_ "priority_status" (VInt (Z.land (Z.shiftr b 2) 7)) ;;
    let status := Z.land b 3 in
    (if status =? 1 then
      set_ "alert" (VStr "permanent")
     else
      (if status =? 2 then
        set_ "alert" (VStr "temporary")
       else
        when (status =? 3) (set_ "spi" (VBool true))))
  else if (frn =? 23) || (frn =? 24) then
    need data 2 (return_ (fun _ track => (track, len data))) ;;
    w <- on_slice data 0 2 _cat21__u16 ;;
    adv 2 ;;
    let raw := Z.land w 0x7FFF in
    let raw := if bit raw 0x4000 then raw - 0x8000 else raw in
    set_ (if frn =? 23 then "baro_vr_fpm" else "geo_vr_fpm") (VFloat (fmul (fl raw) (dec 625 2))) ;;
    when (bit w 0x8000) (set_ "vertical_rate_range_exceeded" (VBool true))
  else if frn =? 25 then
    need data 4 (return_ (fun _ track => (track, len data))) ;;
    speed <- on_slice data 0 2 _cat21__u16 ;;
    angle <- on_slice data 2 4 _cat21__u16 ;;
    adv 4 ;;
    set_ "speed_ms" (VFloat (py_round (fmul (fmul (fl (Z.land speed 0x7FFF)) (fdiv_raw (fl 1) (fl (2 ^ 14)))) (fl 1852)) 3)) ;;
    set_ "heading_deg" (VFloat (py_round (fdiv_raw (fl (angle * 360)) (fl 65536)) 3)) ;;
    when (bit speed 0x8000) (set_ "ground_speed_range_exceeded" (VBool true))
  else if frn =? 26 then
    need data 2 (return_ (fun _ track => (track, len data))) ;;
    v25 <- on_slice data 0 2 _cat21__u16 ;;
    let raw := Z.land v25 0x03FF in
    adv 2 ;;
    let raw := if bit raw 0x0200 then raw - 0x0400 else raw in
    set_ "track_angle_rate_degs" (VFloat (py_round (fdiv_raw (fl raw) (fl 32)) 3))
  else if frn =? 28 then
    need data 6 (return_ (fun _ track => (track, len data))) ;;
    s26 <- on_slice data 0 6 _cat21__decode_callsign ;;
    set_ "callsign" (VStr s26) ;;
    adv 6
  else if frn =? 29 then
    need data 1 (return_ (fun _ track => (track, len data))) ;;
    ec <- at_ data 0 ;;
    adv 1 ;;
    set_ "emitter_category" (VInt ec) ;;
    set_ "emitter_category_str" (VStr (tget_or _cat21__EMITTER_CATEGORY ec ("cat" +:+ str_int ec)))
  else if frn =? 30 then
    flags <- try_call (fun pos => _cat21__presence data pos 1) (return_ (fun _ track => (track, len data))) ;;
    for_each (enumerate [2; 2; 2; 1]) (fun '(i, size) =>
      if flag_at flags i then
        need data size (return_ (fun _ track => (track, len data))) ;;
        (if i =? 0 then
           v27 <- on_slice data 0 2 _cat21__u16 ;;
           set_ "wind_speed_kt" (VInt v27)
         else if i =? 1 then
           v27 <- on_slice data 0 2 _cat21__u16 ;;
           set_ "wind_dir_deg" (VInt v27)
         else if i =? 2 then
           v27 <- on_slice data 0 2 _cat21__s16 ;;
           set_ "temp_c" (VFloat (fmul (fl v27) (dec 25 2)))
         else
           b27 <- at_ data 0 ;;
           set_ "turbulence" (VInt b27)) ;;
        adv size
      else skip)
  else if (frn =? 31) || (frn =? 32) then
    need data 2 (return_ (fun _ track => (track, len data))) ;;
    w <- on_slice data 0 2 _cat21__u16 ;;
    adv 2 ;;
    let raw := Z.land w 0x1FFF in
    let raw := if bit raw 0x1000 then raw - 0x2000 else raw in
    set_ (if frn =? 31 then "selected_alt_ft" else "final_alt_ft") (VInt (raw * 25)) ;;
    (if frn =? 31 then
      let source := Z.land (Z.shiftr w 13) 3 in
      set_ "selected_alt_source_available" (VBool (bit w 0x8000)) ;;
      s28 <- lift (index ["unknown"; "aircraft_altitude"; "mcp_fcu"; "fms"] source) ;;
      set_ "selected_alt_source" (VStr s28)
     else
      set_ "managed_vertical_mode" (VBool (bit w 0x8000)) ;;
      set_ "altitude_hold_mode" (VBool (bit w 0x4000)) ;;
      set_ "approach_mode" (VBool (bit w 0x2000)))
  else if frn =? 33 then
    flags <- try_call (fun pos => _cat21__presence data pos 1) (return_ (fun _ track => (track, len data))) ;;
    tis <- lift (index flags 0) ;;
    when tis (
      need data 1 (return_ (fun _ track => (track, len data))) ;;
      adv 1) ;;
    tid <- lift (index flags 1) ;;
    when tid (
      need data 1 (return_ (fun _ track => (track, len data))) ;;
      rep <- at_ data 0 ;;
      adv 1 ;;
      need data (rep * 15) (return_ (fun _ track => (track, len data))) ;;
      adv (rep * 15))
  else if frn =? 34 then
    need data 1 (return_ (fun _ track => (track, len data))) ;;
    b29 <- at_ data 0 ;;
    set_ "report_period_s" (VFloat (fmul (fl b29) (dec 5 1))) ;;
    adv 1
  else if frn =? 35 then
    need data 1 (return_ (fun _ track => (track, len data))) ;;
    b <- at_ data 0 ;;
    adv 1 ;;
    set_ "aircraft_operational_status_raw" (VInt b) ;;
    set_ "acas_ra_active" (VBool (bit b 0x80)) ;;
    s30 <- lift (index ["none"; "tc_plus_zero"; "multiple"; "reserved"] (Z.land (Z.shiftr b 5) 0x03)) ;;
    set_ "trajectory_change_capability" (VStr s30) ;;
    set_ "target_state_report_capable" (VBool (bit b 0x10)) ;;
    set_ "air_ref_velocity_capable" (VBool (bit b 0x08)) ;;
    set_ "cdti_airborne_operational" (VBool (bit b 0x04)) ;;
    set_ "tcas_operational" (VBool (negb (bit b 0x02))) ;;
    set_ "single_antenna" (VBool (bit b 0x01))
  else if frn =? 36 then
    need data 1 (return_ (fun _ track => (track, len data))) ;;
    b <- at_ data 0 ;;
    adv 1 ;;
    when (bit b 0x20) (set_ "position_offset_applied" (VBool true)) ;;
    when (bit b 0x10) (set_ "cdti_surface_operational" (VBool true)) ;;
    when (bit b 0x08) (set_ "class_b2_low_power" (VBool true)) ;;
    when (bit b 0x04) (set_ "receiving_atc_services" (VBool true)) ;;
    when (bit b 0x02) (set_ "ident_switch" (VBool true)) ;;
    when (bit b 1) (
      need data 1 (return_ (fun _ track => (track, len data))) ;;
      b <- at_ data 0 ;;
      adv 1 ;;
      set_ "surface_length_width_code" (VInt (Z.land (Z.shiftr b 4) 15)) ;;
      fx_each data b (return_ (fun _ track => (track, len data))) (fun _ _ => skip))
  else if frn =? 37 then
    need data 1 (return_ (fun _ track => (track, len data))) ;;
    b31 <- at_ data 0 ;;
    set_ "message_amplitude_dbm" (VInt (sign_extend 8 b31)) ;;
    adv 1
  else if frn =? 38 then
    need data 1 (return_ (fun _ track => (track, len data))) ;;
    rep <- at_ data 0 ;;
    adv 1 ;;
    for_range (Z.to_nat rep) (fun _ =>
        need data 8 (return_ (fun _ track => (track, len data))) ;;
        mb <- on_slice data 0 7 (fun mb => Ok mb) ;;
        bds <- at_ data 7 ;;
        adv 8 ;;
        let bds1 := Z.shiftr bds 4 in
        let bds2 := Z.land bds 0x0F in
        (if (bds1 =? 1) && (bds2 =? 0) then update_ (_cat21__decode_bds10 mb)
         else if (bds1 =? 1) && (bds2 =? 7) then update_ (_cat21__decode_bds17 mb)
         else if (bds1 =? 3) && (bds2 =? 0) then update_ (_cat21__decode_bds30 mb)
         else if (bds1 =? 4) && (bds2 =? 0) then update_ (_cat21__decode_bds40 mb)
         else if (bds1 =? 5) && (bds2 =? 0) then update_ (_cat21__decode_bds50 mb)
         else when ((bds1 =? 6) && (bds2 =? 0)) (update_ (_cat21__decode_bds60 mb))) ;;
        ret (more tt)) tt
  else if frn =? 39 then
    need data 7 (return_ (fun _ track => (track, len data))) ;;
    mb <- on_slice data 0 7 (fun mb => Ok mb) ;;
    update_ (_cat21__decode_bds30 mb) ;;
    adv 7
  else if frn =? 40 then
    need data 1 (return_ (fun _ track => (track, len data))) ;;
    b32 <- at_ data 0 ;;
    set_ "receiver_id" (VInt b32) ;;
    adv 1
  else if frn =? 41 then
    flags <- try_call (fun pos => _cat21__presence data pos 4) (return_ (fun _ track => (track, len data))) ;;
    for_each (enumerate names_295) (fun '(i, name) =>
      if flag_at flags i then
        need data 1 (return_ (fun _ track => (track, len data))) ;;
        b33 <- at_ data 0 ;;
        set_ (age_key name) (VFloat (py_round (fmul (fl b33) (dec 1 1)) 1)) ;;
        adv 1
      else skip)
  else if (frn =? 47) || (frn =? 48) then
    goto (_cat21__skip_len_field data)
  else if 42 <=? frn then
    skip
  else
    break_.

(** Items 010 to 152. *)
Definition _cat21_decode_cat021_record_item (data : bytes) (frn : Z) : cur (dict * Z) unit :=
  if frn =? 0 then
    need data 2 (return_ (fun _ track => (track, len data))) ;;
    b1 <- at_ data 0 ;;
    set_ "sac" (VInt b1) ;;
    b2 <- at_ data 1 ;;
    set_ "sic" (VInt b2) ;;
    adv 2
  else if frn =? 1 then
    need data 1 (return_ (fun _ track => (track, len data))) ;;
    b <- at_ data 0 ;;
    adv 1 ;;
    s3 <- lift (index ["icao24"; "duplicate"; "surface"; "anonymous"; "reserved"; "reserved"; "reserved"; "reserved"] (Z.land (Z.shiftr b 5) 7)) ;;
    set_ "addr_type" (VStr s3) ;;
    s4 <- lift (index ["25ft"; "100ft"; "unknown"; "invalid"] (Z.land (Z.shiftr b 3) 3)) ;;
    set_ "alt_res" (VStr s4) ;;
    when (bit b 0x04) (set_ "range_check_passed_cpr_pending" (VBool true)) ;;
    when (bit b 0x02) (set_ "field_monitor" (VBool true)) ;;
    fx_each data b (return_ (fun _ track => (track, len data))) (fun extent b =>
      (if extent =? 1 then
        when (bit b 0x80) (set_ "differential_correction" (VBool true)) ;;
        when (bit b 0x40) (set_ "on_ground" (VBool true)) ;;
        when (bit b 0x20) (set_ "simulated" (VBool true)) ;;
        when (bit b 0x10) (set_ "test_target" (VBool true)) ;;
        when (bit b 0x08) (set_ "selected_altitude_unavailable" (VBool true)) ;;
        set_ "confidence_level" (VInt (Z.land (Z.shiftr b 1) 3))
       else
        (if extent =? 2 then
          when (bit b 0x40) (set_ "list_lookup_suspect" (VBool true)) ;;
          when (bit b 0x20) (set_ "independent_position_check_failed" (VBool true)) ;;
          when (bit b 0x10) (set_ "ground_station_nogo" (VBool true)) ;;
          when (bit b 0x08) (set_ "cpr_validation_failed" (VBool true)) ;;
          when (bit b 0x04) (set_ "local_position_jump" (VBool true)) ;;
          when (bit b 0x02) (set_ "range_check_failed" (VBool true))
         else
          (if (extent =? 3) && (bit b 0x80) then
            set_ "total_bits_corrected" (VInt (Z.land (Z.shiftr b 1) 0x3F))
           else
            when ((extent =? 4) && (bit b 0x80)) (set_ "maximum_bits_corrected" (VInt (Z.land (Z.shiftr b 1) 0x3F)))))))
  else if frn =? 2 then
    need data 2 (return_ (fun _ track => (track, len data))) ;;
    v5 <- on_slice data 0 2 _cat21__u16 ;;
    set_ "track_num" (VInt (Z.land v5 0x0FFF)) ;;
    adv 2
  else if frn =? 3 then
    need data 1 (return_ (fun _ track => (track, len data))) ;;
    b6 <- at_ data 0 ;;
    set_ "service_id" (VInt b6) ;;
    adv 1
  else if frn =? 4 then
    _cat21_time24 data "position_time_s"
  else if frn =? 5 then
    need data 6 (return_ (fun _ track => (track, len data))) ;;
    let scale := fdiv_raw (fl 180) (fl (2 ^ 23)) in
    v7 <- on_slice data 0 3 _cat21__s24 ;;
    set_ "lat_deg" (VFloat (py_round (fmul (fl v7) scale) 7)) ;;
    v8 <- on_slice data 3 6 _cat21__s24 ;;
    set_ "lon_deg" (VFloat (py_round (fmul (fl v8) scale) 7)) ;;
    adv 6
  else if frn =? 6 then
    need data 8 (return_ (fun _ track => (track, len data))) ;;
    let scale := fdiv_raw (fl 180) (fl (2 ^ 30)) in
    v9 <- on_slice data 0 4 _cat21__s32 ;;
    set_ "lat_deg" (VFloat (py_round (fmul (fl v9) scale) 8)) ;;
    v10 <- on_slice data 4 8 _cat21__s32 ;;
    set_ "lon_deg" (VFloat (py_round (fmul (fl v10) scale) 8)) ;;
    adv 8
  else if frn =? 7 then
    _cat21_time24 data "velocity_time_s"
  else if frn =? 8 then
    need data 2 (return_ (fun _ track => (track, len data))) ;;
    w <- on_slice data 0 2 _cat21__u16 ;;
    adv 2 ;;
    (if bit w 0x8000 then
      set_ "mach" (VFloat (py_round (fmul (fl (Z.land w 0x7FFF)) (dec 1 3)) 3))
     else
      set_ "ias_kt" (VFloat (py_round (fdiv_raw (fmul (fl (Z.land w 0x7FFF)) (fl 3600)) (fl 16384)) 2)))
  else if frn =? 9 then
    need data 2 (return_ (fun _ track => (track, len data))) ;;
    w <- on_slice data 0 2 _cat21__u16 ;;
    adv 2 ;;
    set_ "tas_kt" (VInt (Z.land w 0x7FFF)) ;;
    when (bit w 0x8000) (set_ "tas_range_exceeded" (VBool true))
  else if frn =? 10 then
    need data 3 (return_ (fun _ track => (track, len data))) ;;
    s13 <- on_slice data 0 3 (fun raw => Ok (hex raw)) ;;
    set_ "icao24" (VStr s13) ;;
    adv 3
  else if (frn =? 11) || (frn =? 13) || (frn =? 27) then
    _cat21_time24 data (if frn =? 11 then "position_reception_time_s"
                        else if frn =? 13 then "velocity_reception_time_s"
                        else "report_transmission_time_s")
  else if (frn =? 12) || (frn =? 14) then
    need data 4 (return_ (fun _ track => (track, len data))) ;;
    w <- on_slice data 0 4 (fun raw => Ok (int_from_bytes raw)) ;;
    adv 4 ;;
    set_ (if frn =? 12 then "position_reception_time_hp" else "velocity_reception_time_hp") (VFloat (py_round (fdiv_raw (fl (Z.land w 0x3FFFFFFF)) (fl (2 ^ 30))) 9))
  else if frn =? 15 then
    need data 2 (return_ (fun _ track => (track, len data))) ;;
    v15 <- on_slice data 0 2 _cat21__s16 ;;
    set_ "alt_geom_ft" (VFloat (fmul (fl v15) (dec 625 2))) ;;
    adv 2
  else if frn =? 16 then
    need data 1 (return_ (fun _ track => (track, len data))) ;;
    b <- at_ data 0 ;;
    adv 1 ;;
    set_ "nac_v" (VInt (Z.land (Z.shiftr b 5) 7)) ;;
    set_ "nic" (VInt (Z.land (Z.shiftr b 1) 15)) ;;
    fx_each data b (return_ (fun _ track => (track, len data))) (fun extent b =>
      (if extent =? 1 then
        set_ "nic_baro" (VBool (bit b 0x80)) ;;
        set_ "sil" (VInt (Z.land (Z.shiftr b 5) 3)) ;;
        set_ "nac_p" (VInt (Z.land (Z.shiftr b 1) 15)) ;;
        match epu_of (Z.land (Z.shiftr b 1) 15) with
        | Some epu_m => set_ "position_accuracy_m" (VInt epu_m)
        | None => skip
        end
       else
        (if extent =? 2 then
          set_ "sil_per_sample" (VBool (bit b 0x20)) ;;
          set_ "sda" (VInt (Z.land (Z.shiftr b 3) 3)) ;;
          set_ "gva" (VInt (Z.land (Z.shiftr b 1) 3))
         else
          when (extent =? 3) (
            set_ "pic" (VInt (Z.land (Z.shiftr b 4) 15)) ;;
            set_ "pic_direct" (VBool (bit b 0x08))))))
  else if frn =? 17 then
    need data 1 (return_ (fun _ track => (track, len data))) ;;
    b <- at_ data 0 ;;
    adv 1 ;;
    set_ "mops_version_unsupported" (VBool (bit b 0x40)) ;;
    set_ "mops_version" (VInt (Z.land (Z.shiftr b 3) 7)) ;;
    s17 <- lift (index ["other"; "uat"; "1090es"; "vdl4"; "unassigned"; "unassigned"; "unassigned"; "unassigned"] (Z.land b 7)) ;;
    set_ "link_technology" (VStr s17)
  else if frn =? 18 then
    need data 2 (return_ (fun _ track => (track, len data))) ;;
    v18 <- on_slice data 0 2 _cat21__u16 ;;
    set_ "squawk" (VStr (fmt_o 4 (Z.land v18 0x0FFF))) ;;
    adv 2
  else if frn =? 19 then
    need data 2 (return_ (fun _ track => (track, len data))) ;;
    v19 <- on_slice data 0 2 _cat21__s16 ;;
    set_ "roll_deg" (VFloat (py_round (fmul (fl v19) (dec 1 2)) 2)) ;;
    adv 2
  else if frn =? 20 then
    need data 2 (return_ (fun _ track => (track, len data))) ;;
    v20 <- on_slice data 0 2 _cat21__s16 ;;
    set_ "alt_baro_ft" (VInt (v20 * 25)) ;;
    adv 2
  else if frn =? 21 then
    need data 2 (return_ (fun _ track => (track, len data))) ;;
    v21 <- on_slice data 0 2 _cat21__u16 ;;
    set_ "mag_hdg_deg" (VFloat (py_round (fdiv_raw (fl (v21 * 360)) (fl 65536)) 3)) ;;
    adv 2
  else _cat21_decode_cat021_record_item22 data frn.

Definition _cat21_decode_cat021_record (now : float) (data : bytes) (pos : Z) : exc (dict * Z) :=
  let? (fspec, pos) := _cat21_parse_fspec data pos in
  run (for_fspec fspec (_cat21_decode_cat021_record_item data) ;;
       return_ (fun pos track => (track, pos))) pos (new_track now "ASTERIX CAT-21 Ed.2.7").

(** [_h] of [_cat21__make_cat021_handler], with [_cat21__pub]; [clock pos] is the
    time at which the record at [pos] is read. *)
Definition _cat21_handler (repr : value -> string) (root : string) (clock : Z -> float)
    (data : bytes) : list publication * exc unit :=
  handle_records repr 21 "cat021" (_cat21_TOPIC_021 root)
    (fun data pos => _cat21_decode_cat021_record (clock pos) data pos) (fun track => Ok track) data.

(** ** Correctness *)
Definition cat021_schema : schema := _cat21_decode_cat021_record_schema.

#[local] Hint Opaque presence : typeclass_instances.
#[local] Instance cat21_presence_ok data maximum :
  TCEq (0 <? maximum) true ->
  TryOk data (fun pos => _cat21__presence data pos maximum) (fun present => LenGe present 7).
Proof. apply presence_ok. Qed.

#[local] Instance epu_range nac_p : SomeOk (epu_of nac_p) (fun epu => InRange epu 3 18520).
Proof.
  intros epu. unfold epu_of. destruct (List.find _ _) as [[k o]|] eqn:E; [|done]. intros ->.
  apply List.find_some in E as [E _]. vm_compute in E. unfold InRange.
  repeat (destruct E as [E|E]; [first [discriminate E|injection E as _ <-; lia]|]).
  destruct E.
Qed.

Lemma item22_ok p0 E data frn : p0 < len data ->
  item_ok data cat021_schema (record_result data cat021_schema p0) E
    (_cat21_decode_cat021_record_item22 data frn).
Proof.
  intros Hp0 p d Hp Hd. unfold _cat21_decode_cat021_record_item22, _cat21_time24, _cat21__u16, _cat21__s16,
    _cat21__s32, _cat21__s24, _cat21__decode_callsign.
  by_items ltac:(wp_record).
Qed.

Lemma item_ok21 p0 E data frn : p0 < len data ->
  item_ok data cat021_schema (record_result data cat021_schema p0) E
    (_cat21_decode_cat021_record_item data frn).
Proof.
  intros Hp0 p d Hp Hd. unfold _cat21_decode_cat021_record_item, _cat21_time24, _cat21__u16, _cat21__s16,
    _cat21__s32, _cat21__s24, _cat21__decode_callsign.
  by_items ltac:(wp_record). by apply item22_ok.
Qed.

Lemma decode_cat021_ok now E data p : 0 <= p < len data ->
  returns (_cat21_decode_cat021_record now data p) (record_result data cat021_schema p) E.
Proof.
  intros Hp. unfold _cat21_decode_cat021_record. apply record_decoder_ok;
    [done|apply new_track_ok; vm_compute; reflexivity|by apply parse_fspec_strict| |].
  - intros frn _. apply item_ok21; lia.
  - intros p' d Hp' Hd. by apply wp_return.
Qed.

(** What the protobuf view loses: the position accuracy derived from NACp, the
    BDS 1,0 report and most of the BDS 4,0 report. *)
Definition dropped021 : list string :=
  ["position_accuracy_m"; "sel_alt_mcp_ft"; "sel_alt_fms_ft"; "baro_setting_mb"; "vnav_active"; "alt_hold"] ++
  map fst bds10_schema.

(** What the handler does with a block: every record published once, in order,
    with exactly its source octets. *)
Definition stream021 (repr : value -> string) (root : string) (clock : Z -> float) (data : bytes) : list publication -> exc unit -> Prop :=
  stream_ok repr 21 "cat021" (_cat21_TOPIC_021 root) (fun data pos => _cat21_decode_cat021_record (clock pos) data pos)
    (fun track => Ok track) dropped021 cat021_schema AsterixCat21Track data 0.

Lemma cat021_handler_stream repr root clock data :
  len data <= 0xFFFF - 3 ->
  let '(out, r) := _cat21_handler repr root clock data in
  stream021 repr root clock data out (Ok tt) /\ r = Ok tt.
Proof.
  apply stream_total; [|vm_compute; reflexivity|lia]. intros p Hp. by apply decode_cat021_ok.
Qed.

(** for every block of CAT-021 records, the handler terminates and does not
    raise; what it publishes describes consecutive pieces of the block in
    order, each record once, with exactly its source octets; and every record
    keeps to its schema and, [dropped021] apart, to AsterixCat21Track. *)
Theorem cat021_handler_ok repr root clock data :
  len data <= 0xFFFF - 3 ->
  let '(out, r) := _cat21_handler repr root clock data in
  stream021 repr root clock data out (Ok tt) /\ r = Ok tt.
Proof. apply cat021_handler_stream. Qed.

(** A high-resolution position, an air speed and the data ages of its quality,
    then a truncated record. *)
Definition sample021 : bytes :=
  of_ints [0x83; 0x41; 0x01; 0x01; 0x01; 0x02; 0x19; 0x0A; 0x26; 0x66; 0x66; 0x66; 0x12; 0x34; 0x56; 0x78;
           0x10; 0x00; 0x10; 0x05; 0xC0; 0x19].

Lemma cat021_handler_ok_witness :
  let '(out, r) := _cat21_handler (fun _ => "") "efdi" (fun _ => fl 7) sample021 in
  (len out = 2 /\
   stream021 (fun _ => "") "efdi" (fun _ => fl 7) sample021 out (Ok tt)) /\ r = Ok tt.
Proof.
  pose proof (cat021_handler_ok (fun _ => "") "efdi" (fun _ => fl 7) sample021
                ltac:(vm_compute; discriminate)) as H.
  assert (len (fst (_cat21_handler (fun _ => "") "efdi" (fun _ => fl 7) sample021)) = 2)
    as Hlen by (vm_compute; reflexivity).
  destruct (_cat21_handler _ _ _ _) as [out r]. destruct H as [H1 H2].
  split; [split; [exact Hlen|exact H1]|exact H2].
Defined.
