(* ===== verification/Cat023.v ===== *)
(** * CAT-023: CNS/ATM ground station status

    cat.py:7957-8229. The decoder of one frame and its handler. *)

From S2P Require Import Prelude PyFloat PyData Schema Ranges Cursor Safety Contract AsterixCommon.

Definition _cat23_TOPIC_SENSOR (root source : string) : string :=
  root +:+ "/land/" +:+ source +:+ "/cns_atm/neutral/sensor".
Definition _cat23_parse_fspec := parse_fspec.
Definition _cat23__skip_len_field := skip_len_field.

(** cat.py:7969-7969 *)
Definition _cat23_CAT_023 : Z := 23.
(** cat.py:7971-7971 *)
Definition _cat23__REPORT_TYPES : table :=
  [(1, "ground_station_status"); (2, "service_status"); (3, "service_statistics")].
(** cat.py:7972-7976 *)
Definition _cat23__SERVICE_TYPES : table :=
  [(1, "adsb_vdl4"); (2, "adsb_ext_squitter"); (3, "adsb_uat"); (4, "tisb_vdl4");
   (5, "tisb_ext_squitter"); (6, "tisb_uat"); (7, "fisb_vdl4"); (8, "gras_vdl4"); (9, "mlt")].
(** cat.py:7977-7980 *)
Definition _cat23__SERVICE_STATUS : table :=
  [(0, "unknown"); (1, "failed"); (2, "disabled"); (3, "degraded"); (4, "normal");
   (5, "initialisation")].
(** cat.py:7981-7989 *)
Definition _cat23__STAT_TYPES : table :=
  [(0, "unidentified_messages"); (1, "messages_too_old"); (2, "messages_format_error");
   (3, "total_messages_in"); (4, "total_messages_out"); (20, "tisb_admin_in"); (21, "basic_in");
   (22, "high_dynamic_in"); (23, "full_position_in"); (24, "basic_ground_in"); (25, "tcp_in");
   (26, "utc_time_in"); (27, "data_in"); (28, "high_resolution_in");
   (29, "aircraft_target_airborne_in"); (30, "aircraft_target_ground_in");
   (31, "ground_vehicle_target_in"); (32, "tcp_2slot_in")].
Definition _cat23_decode_cat023_schema : schema :=
  [("sac", TInt 0 255); ("sic", TInt 0 255); ("report_type", TStr); ("service_id", TInt 0 15);
   ("service_type", TStr); ("tod_s", TFloat); ("nogo", TBool); ("overload_processor", TBool);
   ("overload_comms", TBool); ("monitoring_connected", TBool); ("time_source_invalid", TBool);
   ("spoofing_suspected", TBool); ("track_id_renumbered", TBool);
   ("status_report_period_s", TInt 0 127); ("cat021_report_period_s", TFloat);
   ("service_class", TInt 0 7); ("service_status_report_period_s", TInt 0 127);
   ("operational_range_nm", TInt 0 255);
   ("service_status", TOneOf ("undefined" :: map snd _cat23__SERVICE_STATUS));
   ("service_statistics", TMap (TInt 0 4294967295))].

(** cat.py:8069-8139 *)
Definition _cat23_decode_cat023_item (data : bytes) (frn : Z) : cur (option dict) unit :=
  if frn =? 0 then
    need data 2 break_ ;;
    b1 <- at_ data 0 ;;
    set_ "sac" (VInt b1) ;;
    b2 <- at_ data 1 ;;
    set_ "sic" (VInt b2) ;;
    adv 2
  else if frn =? 1 then
    need data 1 break_ ;;
    b3 <- at_ data 0 ;;
    b4 <- at_ data 0 ;;
    set_ "report_type" (VStr (tget_or _cat23__REPORT_TYPES b3 ("type_" +:+ str_int b4))) ;;
    adv 1
  else if frn =? 2 then
    need data 1 break_ ;;
    b <- at_ data 0 ;;
    adv 1 ;;
    set_ "service_id" (VInt (Z.land (Z.shiftr b 4) 0x0F)) ;;
    set_ "service_type" (VStr (tget_or _cat23__SERVICE_TYPES (Z.land b 0x0F) ("type_" +:+ str_int (Z.land b 0x0F))))
  else if frn =? 3 then
    need data 3 break_ ;;
    b5 <- at_ data 0 ;;
    b6 <- at_ data 1 ;;
    b7 <- at_ data 2 ;;
    let raw := Z.lor (Z.lor (Z.shiftl b5 16) (Z.shiftl b6 8)) b7 in
    set_ "tod_s" (VFloat (fdiv_raw (fl raw) (fl 128))) ;;
    adv 3
  else if frn =? 4 then
    need data 1 break_ ;;
    b <- at_ data 0 ;;
    adv 1 ;;
    set_ "nogo" (VBool (bit b 0x80)) ;;
    set_ "overload_processor" (VBool (bit b 0x40)) ;;
    set_ "overload_comms" (VBool (bit b 0x20)) ;;
    set_ "monitoring_connected" (VBool (bit b 0x10)) ;;
    set_ "time_source_invalid" (VBool (bit b 0x08)) ;;
    set_ "spoofing_suspected" (VBool (bit b 0x04)) ;;
    set_ "track_id_renumbered" (VBool (bit b 0x02)) ;;
    when (bit b 0x01) (
      need data 1 break_ ;;
      b2 <- at_ data 0 ;;
      adv 1 ;;
      set_ "status_report_period_s" (VInt (Z.land (Z.shiftr b2 1) 0x7F)))
  else if frn =? 5 then
    need data 2 break_ ;;
    b8 <- at_ data 0 ;;
    set_ "cat021_report_period_s" (VFloat (fmul (fl b8) (dec 5 1))) ;;
    b2 <- at_ data 1 ;;
    adv 2 ;;
    set_ "service_class" (VInt (Z.land (Z.shiftr b2 5) 0x07)) ;;
    when (bit b2 0x01) (
      need data 1 break_ ;;
      b3 <- at_ data 0 ;;
      adv 1 ;;
      set_ "service_status_report_period_s" (VInt (Z.land (Z.shiftr b3 1) 0x7F)))
  else if frn =? 6 then
    need data 1 break_ ;;
    b9 <- at_ data 0 ;;
    set_ "operational_range_nm" (VInt b9) ;;
    adv 1
  else if frn =? 7 then
    need data 1 break_ ;;
    b <- at_ data 0 ;;
    adv 1 ;;
    set_ "service_status" (VStr (tget_or _cat23__SERVICE_STATUS (Z.land (Z.shiftr b 1) 0x07) "undefined"))
  else if frn =? 8 then
    need data 1 break_ ;;
    rep <- at_ data 0 ;;
    adv 1 ;;
    stats <- for_range (Z.to_nat rep) (fun stats : dict =>
        none <- short data 5 ;;
        if none then ret (stop stats) else
        type_code <- at_ data 0 ;;
        cv <- on_slice data 1 5 (unpack_u 4) ;;
        adv 5 ;;
        let name := tget_or _cat23__STAT_TYPES type_code ("type_" +:+ str_int type_code) in
        let stats := dset name (VInt cv) stats in
        ret (more stats)) [] ;;
    when (nonempty stats) (set_ "service_statistics" (VDict stats))
  else if (frn =? 12) || (frn =? 13) || (frn =? 14) then
    goto (_cat23__skip_len_field data)
  else
    break_.

Definition _cat23_decode_cat023 (data : bytes) : exc (option dict) :=
  if len data <? 1 then Ok None else
  let? (fspec, pos) := _cat23_parse_fspec data 0 in
  run (for_fspec fspec (_cat23_decode_cat023_item data) ;;
       return_ (fun _ msg => msg_or_none msg)) pos [].

(** [_h] of [_cat23__make_handler] *)
Definition _cat23_handler (root : string) (now : float) (data : bytes) : exc (list sample) :=
  let? o := _cat23_decode_cat023 data in
  match o with
  | None => Ok []
  | Some msg =>
      let msg := stamp now "ASTERIX CAT-23 Ed.1.3" msg in
      Ok [(_cat23_TOPIC_SENSOR root (_asterix_source msg), msg)]
  end.

(** ** Correctness *)

(** The keys and values of a published record. *)
Definition cat023_schema : schema := _cat23_decode_cat023_schema ++ stamp_schema.

Lemma item_ok_cat023 data frn :
  item_ok data _cat23_decode_cat023_schema (record_of _cat23_decode_cat023_schema) noE
    (_cat23_decode_cat023_item data frn).
Proof.
  intros p d Hp Hd. unfold _cat23_decode_cat023_item, _cat23__skip_len_field.
  by_items wp_auto.
Qed.

(** For every frame and every receive time, the CAT-023 handler terminates
    without an exception and publishes at most one record, whose keys and
    values are those of [cat023_schema], which keeps to the protobuf message
    AsterixCat23Status and goes to the topic its own SAC/SIC give. *)
Lemma cat023_handler_ok root now data :
  returns (_cat23_handler root now data)
    (fun out => len out <= 1 /\
       samples_ok (_cat23_TOPIC_SENSOR root) cat023_schema AsterixCat23Status out) noE.
Proof.
  apply (frame_handler_ok _ _cat23_decode_cat023_schema); [|reflexivity].
  apply frame_decoder_ok; [exact _|]. intros frn _. apply item_ok_cat023.
Qed.
