(* ===== verification/Cat025.v ===== *)
(** * CAT-025: ground system status

    cat.py:8257-8566. The decoder of one frame and its handler. *)

From S2P Require Import Prelude PyFloat PyData Schema Ranges Cursor Safety Contract AsterixCommon.

Definition _cat25_TOPIC_SENSOR (root source : string) : string :=
  root +:+ "/land/" +:+ source +:+ "/radar/neutral/sensor".
Definition _cat25_parse_fspec := parse_fspec.
Definition _cat25__skip_len_field := skip_len_field.
Definition _cat25__CHARSET_6BIT := CHARSET_6BIT.
Definition _cat25__s16 := s16.
Definition _cat25__s32 := s32.
Definition _cat25__decode_designator := decode_callsign.

(** cat.py:8275-8275 *)
Definition _cat25_CAT_025 : Z := 25.
(** cat.py:8279-8279 *)
Definition _cat25__STATUS : table :=
  [(0, "running"); (1, "failed"); (2, "degraded"); (3, "undefined")].
(** cat.py:8280-8280 *)
Definition _cat25__COMPONENT_STATE : table :=
  [(0, "running"); (1, "failed"); (2, "maintenance"); (3, "reserved")].
(** cat.py:8281-8281 *)
Definition _cat25__OPS : table :=
  [(0, "operational"); (1, "operational_standby"); (2, "maintenance"); (3, "reserved")].
(** cat.py:8283-8288 *)
Definition _cat25__ERROR_CODES : table :=
  [(0, "no_error"); (1, "undefined"); (2, "time_source_invalid"); (3, "time_source_coasting");
   (4, "track_id_renumbered"); (5, "data_processor_overload");
   (6, "ground_interface_comms_overload"); (7, "stopped_by_operator"); (8, "cbit_failed");
   (9, "test_target_failure")].
(** cat.py:8290-8290 *)
Definition _cat25__COMPONENT_ERROR_CODES : table :=
  [(0, "no_error"); (1, "undefined"); (2, "alert"); (3, "alarm")].
(** cat.py:8292-8295 *)
Definition _cat25__STAT_TYPES : table :=
  [(0, "unknown_messages"); (1, "too_old_messages"); (2, "failed_conversions");
   (3, "total_received"); (4, "total_transmitted")].
Definition _cat25_decode_cat025_schema : schema :=
  [("sac", TInt 0 255); ("sic", TInt 0 255); ("report_type_raw", TInt 0 127);
   ("event_driven", TBool); ("message_id", TInt 0 16777215); ("service_id", TInt 0 255);
   ("service_designator", TStr); ("tod_s", TFloat); ("nogo", TTrue);
   ("ops_mode", TOneOf ("reserved" :: map snd _cat25__OPS));
   ("overall_status", TOneOf ("reserved" :: map snd _cat25__STATUS));
   ("system_status", TOneOf ("reserved" :: map snd _cat25__STATUS));
   ("service_status", TOneOf ("reserved" :: map snd _cat25__STATUS)); ("error_codes", TList TStr);
   ("components", TList (TDict [("component_id", TInt 0 65535); ("error_code", TStr); ("state", TOneOf ("reserved" :: map snd _cat25__COMPONENT_STATE))]));
   ("service_statistics", TList (TDict [("type", TStr); ("reference_previous_report", TBool); ("count", TInt 0 4294967295)]));
   ("lat_deg", TFloat); ("lon_deg", TFloat); ("height_m", TFloat)].

(** cat.py:8387-8478 *)
Definition _cat25_decode_cat025_item (data : bytes) (frn : Z) : cur (option dict) unit :=
  if frn =? 0 then
    need data 2 break_ ;;
    b1 <- at_ data 0 ;;
    set_ "sac" (VInt b1) ;;
    b2 <- at_ data 1 ;;
    set_ "sic" (VInt b2) ;;
    adv 2
  else if frn =? 1 then
    need data 1 break_ ;;
    b <- at_ data 0 ;;
    adv 1 ;;
    set_ "report_type_raw" (VInt (Z.land (Z.shiftr b 1) 0x7F)) ;;
    set_ "event_driven" (VBool (bit b 0x01))
  else if frn =? 2 then
    need data 3 break_ ;;
    v3 <- on_slice data 0 3 (fun raw => Ok (int_from_bytes raw)) ;;
    set_ "message_id" (VInt v3) ;;
    adv 3
  else if frn =? 3 then
    need data 1 break_ ;;
    b4 <- at_ data 0 ;;
    set_ "service_id" (VInt b4) ;;
    adv 1
  else if frn =? 4 then
    need data 6 break_ ;;
    designator <- on_slice data 0 6 _cat25__decode_designator ;;
    adv 6 ;;
    when (negb (String.eqb designator "")) (set_ "service_designator" (VStr designator))
  else if frn =? 5 then
    need data 3 break_ ;;
    v6 <- on_slice data 0 3 (fun raw => Ok (int_from_bytes raw)) ;;
    set_ "tod_s" (VFloat (fdiv_raw (fl v6) (fl 128))) ;;
    adv 3
  else if frn =? 6 then
    need data 1 break_ ;;
    b <- at_ data 0 ;;
    adv 1 ;;
    when (bit b 0x80) (set_ "nogo" (VBool true)) ;;
    set_ "ops_mode" (VStr (tget_or _cat25__OPS (Z.land (Z.shiftr b 5) 0x03) "reserved")) ;;
    set_ "overall_status" (VStr (tget_or _cat25__STATUS (Z.land (Z.shiftr b 1) 0x0F) "reserved")) ;;
    fx_each data b skip (fun _ b =>
      set_ "system_status" (VStr (tget_or _cat25__STATUS (Z.land (Z.shiftr b 4) 0x07) "reserved")) ;;
      set_ "service_status" (VStr (tget_or _cat25__STATUS (Z.land (Z.shiftr b 1) 0x07) "reserved")))
  else if frn =? 7 then
    need data 1 break_ ;;
    rep <- at_ data 0 ;;
    adv 1 ;;
    codes <- for_range (Z.to_nat rep) (fun codes =>
        none <- short data 1 ;;
        if none then ret (stop codes) else
        b7 <- at_ data 0 ;;
        b8 <- at_ data 0 ;;
        let codes := codes ++ [VStr (tget_or _cat25__ERROR_CODES b7 ("code_" +:+ str_int b8))] in
        adv 1 ;;
        ret (more codes)) [] ;;
    when (nonempty codes) (set_ "error_codes" (VList codes))
  else if frn =? 8 then
    need data 1 break_ ;;
    rep <- at_ data 0 ;;
    adv 1 ;;
    components <- for_range (Z.to_nat rep) (fun components =>
        none <- short data 3 ;;
        if none then ret (stop components) else
        cid <- on_slice data 0 2 (unpack_u 2) ;;
        b3 <- at_ data 2 ;;
        adv 3 ;;
        let components := components ++ [VDict [("component_id", VInt cid); ("error_code", VStr (tget_or _cat25__COMPONENT_ERROR_CODES (Z.land (Z.shiftr b3 2) 0x3F) ("code_" +:+ str_int (Z.land (Z.shiftr b3 2) 0x3F)))); ("state", VStr (tget_or _cat25__COMPONENT_STATE (Z.land b3 0x03) "reserved"))]] in
        ret (more components)) [] ;;
    when (nonempty components) (set_ "components" (VList components))
  else if frn =? 9 then
    need data 1 break_ ;;
    rep <- at_ data 0 ;;
    adv 1 ;;
    stats <- for_range (Z.to_nat rep) (fun stats =>
        none <- short data 6 ;;
        if none then ret (stop stats) else
        type_code <- at_ data 0 ;;
        b10 <- at_ data 1 ;;
        let ref_from_previous := bit b10 0x80 in
        count <- on_slice data 2 6 (unpack_u 4) ;;
        adv 6 ;;
        let stats := stats ++ [VDict [("type", VStr (tget_or _cat25__STAT_TYPES type_code ("type_" +:+ str_int type_code))); ("reference_previous_report", VBool ref_from_previous); ("count", VInt count)]] in
        ret (more stats)) [] ;;
    when (nonempty stats) (set_ "service_statistics" (VList stats))
  else if frn =? 10 then
    goto (_cat25__skip_len_field data)
  else if frn =? 11 then
    need data 8 break_ ;;
    let scale := fdiv_raw (fl 180) (fl (2 ^ 32)) in
    v12 <- on_slice data 0 4 _cat25__s32 ;;
    set_ "lat_deg" (VFloat (py_round (fmul (fl v12) scale) 7)) ;;
    v13 <- on_slice data 4 8 _cat25__s32 ;;
    set_ "lon_deg" (VFloat (py_round (fmul (fl v13) scale) 7)) ;;
    adv 8
  else if frn =? 12 then
    need data 2 break_ ;;
    v14 <- on_slice data 0 2 _cat25__s16 ;;
    set_ "height_m" (VFloat (py_round (fmul (fl v14) (dec 25 2)) 2)) ;;
    adv 2
  else
    break_.

Definition _cat25_decode_cat025 (data : bytes) : exc (option dict) :=
  if len data <? 1 then Ok None else
  let? (fspec, pos) := _cat25_parse_fspec data 0 in
  run (for_fspec fspec (_cat25_decode_cat025_item data) ;;
       return_ (fun _ msg => msg_or_none msg)) pos [].

(** [_h] of [_cat25__make_handler] *)
Definition _cat25_handler (root : string) (now : float) (data : bytes) : exc (list sample) :=
  let? o := _cat25_decode_cat025 data in
  match o with
  | None => Ok []
  | Some msg =>
      let msg := stamp now "ASTERIX CAT-25 Ed.1.6" msg in
      Ok [(_cat25_TOPIC_SENSOR root (_asterix_source msg), msg)]
  end.

(** ** Correctness *)

(** The keys and values of a published record. *)
Definition cat025_schema : schema := _cat25_decode_cat025_schema ++ stamp_schema.

Lemma item_ok_cat025 data frn :
  item_ok data _cat25_decode_cat025_schema (record_of _cat25_decode_cat025_schema) noE
    (_cat25_decode_cat025_item data frn).
Proof.
  intros p d Hp Hd. unfold _cat25_decode_cat025_item, _cat25__skip_len_field, _cat25__s16, _cat25__s32, _cat25__decode_designator.
  by_items wp_auto.
Qed.

(** For every frame and every receive time, the CAT-025 handler terminates
    without an exception and publishes at most one record, whose keys and
    values are those of [cat025_schema], which keeps to the protobuf message
    AsterixCat25Status and goes to the topic its own SAC/SIC give. *)
Lemma cat025_handler_ok root now data :
  returns (_cat25_handler root now data)
    (fun out => len out <= 1 /\
       samples_ok (_cat25_TOPIC_SENSOR root) cat025_schema AsterixCat25Status out) noE.
Proof.
  apply (frame_handler_ok _ _cat25_decode_cat025_schema); [|reflexivity].
  apply frame_decoder_ok; [exact _|]. intros frn _. apply item_ok_cat025.
Qed.
