(* ===== verification/Cat032.v ===== *)
(** * CAT-032: miniplan reports

    cat.py:8595-8986. The decoder of one frame and its handler. *)

From S2P Require Import Prelude PyFloat PyData Schema Ranges Cursor Safety Contract AsterixCommon Records.

Definition _cat32_TOPIC_SENSOR (root source : string) : string :=
  root +:+ "/air/" +:+ source +:+ "/fpps/civ/miniplan".
Definition _cat32_parse_fspec := parse_fspec.
Definition _cat32__skip_len_field := skip_len_field.
Definition _cat32__u16 := u16.
Definition _cat32__presence := presence.

(** cat.py:8618-8618 *)
Definition _cat32_CAT_032 : Z := 32.
(** cat.py:8620-8620 *)
Definition _cat32__FAMILY : table :=
  [(0, "invalid"); (1, "fpps"); (2, "suc_fdps")].
(** cat.py:8622-8625 *)
Definition _cat32__NATURE_FPPS : table :=
  [(0, "invalid"); (1, "initial_correlation"); (2, "miniplan_update"); (3, "end_of_correlation");
   (4, "miniplan_cancellation"); (5, "retained_miniplan")].
(** cat.py:8626-8629 *)
Definition _cat32__NATURE_SUC : table :=
  [(0, "invalid"); (1, "initial_suc_correlation"); (2, "end_of_suc_correlation");
   (3, "change_of_suc_correlation")].
(** cat.py:8631-8631 *)
Definition _cat32__GATOAT : table :=
  [(0, "unknown"); (1, "gat"); (2, "oat"); (3, "not_applicable")].
(** cat.py:8632-8632 *)
Definition _cat32__FR : table :=
  [(0, "ifr"); (1, "vfr"); (2, "not_applicable"); (3, "cvfr")].
(** cat.py:8633-8633 *)
Definition _cat32__WTC : table :=
  [(76, "light"); (77, "medium"); (72, "heavy"); (74, "super")].
(** cat.py:8634-8634 *)
Definition _cat32__IFI_TYPE : table :=
  [(0, "plan_number"); (1, "unit1_internal"); (2, "unit2_internal"); (3, "unit3_internal")].
(** cat.py:8635-8635 *)
Definition _cat32__RVSM : table :=
  [(0, "unknown"); (1, "approved"); (2, "exempt"); (3, "not_approved")].
(** cat.py:8636-8642 *)
Definition _cat32__TOD_TYPE : table :=
  [(0, "scheduled_off_block"); (1, "estimated_off_block"); (2, "estimated_takeoff");
   (3, "actual_off_block"); (4, "predicted_runway_hold"); (5, "actual_runway_hold");
   (6, "actual_line_up"); (7, "actual_takeoff"); (8, "estimated_arrival"); (9, "predicted_landing");
   (10, "actual_landing"); (11, "actual_off_runway"); (12, "predicted_gate");
   (13, "actual_on_block")].
(** cat.py:8643-8643 *)
Definition _cat32__DAY : table :=
  [(0, "today"); (1, "yesterday"); (2, "tomorrow"); (3, "invalid")].
(** cat.py:8644-8644 *)
Definition _cat32__STAND_STATUS : table :=
  [(0, "empty"); (1, "occupied"); (2, "unknown"); (3, "invalid")].
(** cat.py:8645-8645 *)
Definition _cat32__STAND_AVAIL : table :=
  [(0, "available"); (1, "not_available"); (2, "unknown"); (3, "invalid")].

(** [raw.decode("ascii", "replace").strip("\x00 ")] *)
Definition text_of (raw : bytes) : exc string :=
  Ok (strip_chars [ascii_of_nat 0; " "%char] (decode_ascii_replace raw)).

Definition _cat32__decode_500_schema : schema :=
  [("ifps_id_type", TOneOf ("unknown" :: map snd _cat32__IFI_TYPE)); ("ifps_id_number", TInt 0 134217727);
   ("rvsm", TOneOf ("unknown" :: map snd _cat32__RVSM)); ("high_priority_flight", TTrue); ("runway", TStr);
   ("times_of_departure_arrival", TList (TDict
     [("type", TOneOf ("unknown" :: map snd _cat32__TOD_TYPE)); ("day", TOneOf ("unknown" :: map snd _cat32__DAY));
      ("hour", TInt 0 31); ("minute", TInt 0 63); ("seconds_available", TBool); ("second", TInt 0 63)]));
   ("aircraft_stand", TStr); ("stand_status", TOneOf ("unknown" :: map snd _cat32__STAND_STATUS));
   ("stand_availability", TOneOf ("unknown" :: map snd _cat32__STAND_AVAIL)); ("sid", TStr); ("star", TStr)].

Definition names_500 : list string := ["ifi"; "rvp"; "rds"; "tod"; "ast"; "sts"; "sid"; "star"].

(** One subfield of I032/500. *)
Definition _cat32__decode_500_item (data : bytes) (name : string) : cur (dict * Z) unit :=
  let gone := return_ (fun _ out => (out, len data)) in
  if String.eqb name "ifi" then
    need data 4 gone ;;
    v <- on_slice data 0 4 (fun raw => Ok (int_from_bytes raw)) ;;
    adv 4 ;;
    set_ "ifps_id_type" (VStr (tget_or _cat32__IFI_TYPE (Z.land (Z.shiftr v 30) 0x03) "unknown")) ;;
    set_ "ifps_id_number" (VInt (Z.land v 0x07FFFFFF))
  else if String.eqb name "rvp" then
    need data 1 gone ;;
    b <- at_ data 0 ;;
    adv 1 ;;
    set_ "rvsm" (VStr (tget_or _cat32__RVSM (Z.land (Z.shiftr b 1) 0x03) "unknown")) ;;
    when (bit b 0x01) (set_ "high_priority_flight" (VBool true))
  else if String.eqb name "rds" then
    need data 3 gone ;;
    rwy <- on_slice data 0 3 text_of ;;
    adv 3 ;;
    when (negb (String.eqb rwy "")) (set_ "runway" (VStr rwy))
  else if String.eqb name "tod" then
    need data 1 gone ;;
    rep <- at_ data 0 ;;
    adv 1 ;;
    entries <- for_range (Z.to_nat rep) (fun entries =>
        none <- short data 4 ;;
        if none then ret (stop entries) else
        v <- on_slice data 0 4 (fun raw => Ok (int_from_bytes raw)) ;;
        adv 4 ;;
        let entries := entries ++ [VDict
          [("type", VStr (tget_or _cat32__TOD_TYPE (Z.land (Z.shiftr v 27) 0x1F) "unknown"));
           ("day", VStr (tget_or _cat32__DAY (Z.land (Z.shiftr v 25) 0x03) "unknown"));
           ("hour", VInt (Z.land (Z.shiftr v 16) 0x1F)); ("minute", VInt (Z.land (Z.shiftr v 8) 0x3F));
           ("seconds_available", VBool (negb (bit (Z.shiftr v 7) 0x01))); ("second", VInt (Z.land v 0x3F))]] in
        ret (more entries)) [] ;;
    when (nonempty entries) (set_ "times_of_departure_arrival" (VList entries))
  else if String.eqb name "ast" then
    need data 6 gone ;;
    s <- on_slice data 0 6 text_of ;;
    adv 6 ;;
    when (negb (String.eqb s "")) (set_ "aircraft_stand" (VStr s))
  else if String.eqb name "sts" then
    need data 1 gone ;;
    b <- at_ data 0 ;;
    adv 1 ;;
    set_ "stand_status" (VStr (tget_or _cat32__STAND_STATUS (Z.land (Z.shiftr b 6) 0x03) "unknown")) ;;
    set_ "stand_availability" (VStr (tget_or _cat32__STAND_AVAIL (Z.land (Z.shiftr b 4) 0x03) "unknown"))
  else if String.eqb name "sid" then
    need data 7 gone ;;
    s <- on_slice data 0 7 text_of ;;
    adv 7 ;;
    when (negb (String.eqb s "")) (set_ "sid" (VStr s))
  else
    when (String.eqb name "star") (
      need data 7 gone ;;
      s <- on_slice data 0 7 text_of ;;
      adv 7 ;;
      when (negb (String.eqb s "")) (set_ "star" (VStr s))).

Definition _cat32__decode_500 (data : bytes) (pos : Z) : exc (dict * Z) :=
  let? (flags, pos) := _cat32__presence data pos 2 in
  run (for_each (enumerate names_500) (fun '(index, name) =>
         if flag_at flags index then _cat32__decode_500_item data name else skip) ;;
       return_ (fun pos out => (out, pos))) pos [].

Definition _cat32_decode_cat032_schema : schema := _cat32__decode_500_schema ++
  [("callsign", TStr); ("departure_airport", TStr); ("destination_airport", TStr); ("aircraft_type", TStr);
   ("server_sac", TInt 0 255); ("server_sic", TInt 0 255); ("user_number", TInt 0 65535);
   ("sac", TInt 0 255); ("sic", TInt 0 255); ("family", TStr); ("nature", TStr);
   ("nature_raw", TInt 0 15); ("tod_s", TFloat); ("track_num", TInt 0 65535);
   ("composed_track_numbers", TList (TDict [("system_unit_id", TInt 0 255); ("system_track_num", TInt 0 32767)])); ("squawk", TStr); ("plan_number", TInt 0 65535);
   ("gat_oat", TOneOf ("unknown" :: map snd _cat32__GATOAT));
   ("flight_rules", TOneOf ("unknown" :: map snd _cat32__FR)); ("special_priority_raw", TInt 0 7);
   ("cleared_flight_level", TFloat); ("control_centre", TInt 0 255);
   ("control_position", TInt 0 255); ("wake_turbulence_cat", TStr);
   ("allocated_ssr_codes", TList TStr)].

(** cat.py:8799-8897 *)
Definition _cat32_decode_cat032_item (data : bytes) (frn : Z) : cur (option dict) unit :=
  if frn =? 0 then
    need data 2 break_ ;;
    b1 <- at_ data 0 ;;
    set_ "server_sac" (VInt b1) ;;
    b2 <- at_ data 1 ;;
    set_ "server_sic" (VInt b2) ;;
    adv 2
  else if frn =? 1 then
    need data 2 break_ ;;
    v3 <- on_slice data 0 2 _cat32__u16 ;;
    set_ "user_number" (VInt v3) ;;
    adv 2
  else if frn =? 2 then
    need data 2 break_ ;;
    b4 <- at_ data 0 ;;
    set_ "sac" (VInt b4) ;;
    b5 <- at_ data 1 ;;
    set_ "sic" (VInt b5) ;;
    adv 2
  else if frn =? 3 then
    need data 1 break_ ;;
    b <- at_ data 0 ;;
    adv 1 ;;
    let family_code := Z.land (Z.shiftr b 4) 0x0F in
    let nature_code := Z.land b 0x0F in
    set_ "family" (VStr (tget_or _cat32__FAMILY family_code ("family_" +:+ str_int family_code))) ;;
    (if family_code =? 1 then
      set_ "nature" (VStr (tget_or _cat32__NATURE_FPPS nature_code ("nature_" +:+ str_int nature_code)))
     else
      (if family_code =? 2 then
        set_ "nature" (VStr (tget_or _cat32__NATURE_SUC nature_code ("nature_" +:+ str_int nature_code)))
       else
        set_ "nature_raw" (VInt nature_code)))
  else if frn =? 4 then
    need data 3 break_ ;;
    v6 <- on_slice data 0 3 (fun raw => Ok (int_from_bytes raw)) ;;
    set_ "tod_s" (VFloat (fdiv_raw (fl v6) (fl 128))) ;;
    adv 3
  else if frn =? 5 then
    need data 2 break_ ;;
    v7 <- on_slice data 0 2 _cat32__u16 ;;
    set_ "track_num" (VInt v7) ;;
    adv 2
  else if frn =? 6 then
    segments <- while_ (fuel_of data) (fun segments =>
        none <- short data 3 ;;
        if none then ret (stop segments) else
        v <- on_slice data 0 3 (fun raw => Ok (int_from_bytes raw)) ;;
        adv 3 ;;
        let segments := segments ++ [VDict [("system_unit_id", VInt (Z.land (Z.shiftr v 16) 0xFF)); ("system_track_num", VInt (Z.land (Z.shiftr v 1) 0x7FFF))]] in
        ret (if negb (bit v 0x01) then stop segments else more segments)) [] ;;
    when (nonempty segments) (set_ "composed_track_numbers" (VList segments))
  else if frn =? 7 then
    need data 2 break_ ;;
    v8 <- on_slice data 0 2 _cat32__u16 ;;
    set_ "squawk" (VStr (fmt_o 4 (Z.land v8 0x0FFF))) ;;
    adv 2
  else if frn =? 8 then
    need data 7 break_ ;;
    callsign <- on_slice data 0 7 text_of ;;
    adv 7 ;;
    when (negb (String.eqb callsign "")) (set_ "callsign" (VStr callsign))
  else if frn =? 9 then
    need data 2 break_ ;;
    v9 <- on_slice data 0 2 _cat32__u16 ;;
    set_ "plan_number" (VInt v9) ;;
    adv 2
  else if frn =? 10 then
    need data 1 break_ ;;
    b <- at_ data 0 ;;
    adv 1 ;;
    set_ "gat_oat" (VStr (tget_or _cat32__GATOAT (Z.land (Z.shiftr b 6) 0x03) "unknown")) ;;
    set_ "flight_rules" (VStr (tget_or _cat32__FR (Z.land (Z.shiftr b 4) 0x03) "unknown")) ;;
    set_ "special_priority_raw" (VInt (Z.land (Z.shiftr b 1) 0x07))
  else if frn =? 11 then
    need data 4 break_ ;;
    s <- on_slice data 0 4 text_of ;;
    adv 4 ;;
    when (negb (String.eqb s "")) (set_ "departure_airport" (VStr s))
  else if frn =? 12 then
    need data 4 break_ ;;
    s <- on_slice data 0 4 text_of ;;
    adv 4 ;;
    when (negb (String.eqb s "")) (set_ "destination_airport" (VStr s))
  else if frn =? 13 then
    need data 2 break_ ;;
    v10 <- on_slice data 0 2 _cat32__u16 ;;
    set_ "cleared_flight_level" (VFloat (py_round (fmul (fl v10) (dec 25 2)) 2)) ;;
    adv 2
  else if frn =? 14 then
    need data 2 break_ ;;
    b11 <- at_ data 0 ;;
    set_ "control_centre" (VInt b11) ;;
    b12 <- at_ data 1 ;;
    set_ "control_position" (VInt b12) ;;
    adv 2
  else if frn =? 15 then
    need data 4 break_ ;;
    s <- on_slice data 0 4 text_of ;;
    adv 4 ;;
    when (negb (String.eqb s "")) (set_ "aircraft_type" (VStr s))
  else if frn =? 16 then
    need data 1 break_ ;;
    b13 <- at_ data 0 ;;
    b14 <- at_ data 0 ;;
    set_ "wake_turbulence_cat" (VStr (tget_or _cat32__WTC b13 ("code_" +:+ str_int b14))) ;;
    adv 1
  else if frn =? 17 then
    need data 1 break_ ;;
    rep <- at_ data 0 ;;
    adv 1 ;;
    codes <- for_range (Z.to_nat rep) (fun codes =>
        none <- short data 2 ;;
        if none then ret (stop codes) else
        v15 <- on_slice data 0 2 _cat32__u16 ;;
        let v := Z.land v15 0x0FFF in
        adv 2 ;;
        let codes := codes ++ [VStr (fmt_o 4 v)] in
        ret (more codes)) [] ;;
    when (nonempty codes) (set_ "allocated_ssr_codes" (VList codes))
  else if frn =? 18 then
    extra <- try_call (_cat32__decode_500 data) break_ ;;
    update_ extra
  else if frn =? 19 then
    skip
  else if frn =? 20 then
    goto (_cat32__skip_len_field data)
  else
    break_.

Definition _cat32_decode_cat032 (data : bytes) : exc (option dict) :=
  if len data <? 1 then Ok None else
  let? (fspec, pos) := _cat32_parse_fspec data 0 in
  run (for_fspec fspec (_cat32_decode_cat032_item data) ;;
       return_ (fun _ msg => msg_or_none msg)) pos [].

(** The topic takes its source from the server's SAC/SIC. *)
Definition _cat32_server (msg : dict) : dict :=
  [("sac", dget_or msg "server_sac" (VInt 0)); ("sic", dget_or msg "server_sic" (VInt 0))].

(** [_h] of [_cat32__make_handler] *)
Definition _cat32_handler (root : string) (now : float) (data : bytes) : exc (list sample) :=
  let? o := _cat32_decode_cat032 data in
  match o with
  | None => Ok []
  | Some msg =>
      let msg := stamp now "ASTERIX CAT-32 Ed.1.2" msg in
      Ok [(_cat32_TOPIC_SENSOR root (_asterix_source (_cat32_server msg)), msg)]
  end.

(** ** Correctness *)

(** The keys and values of a published record. *)
Definition cat032_schema : schema := _cat32_decode_cat032_schema ++ stamp_schema.

#[local] Hint Opaque _cat32__decode_500 : typeclass_instances.

Lemma decode_500_item_ok data name p0 p d (E : exn -> Prop) :
  0 <= p0 -> p0 <= p <= len data -> wt _cat32__decode_500_schema d ->
  wp (_cat32__decode_500_item data name) p d
    (fun _ p' d' => p0 <= p' <= len data /\ wt _cat32__decode_500_schema d') noB
    (fills data _cat32__decode_500_schema p0) E.
Proof.
  intros H0 Hp Hd. unfold _cat32__decode_500_item, text_of. cbv zeta. by_items wp_auto.
Qed.

#[local] Instance decode_500_ok data :
  TryOk data (_cat32__decode_500 data) (fun out => fields_ok _cat32__decode_500_schema out = true).
Proof.
  intros p Hp. unfold _cat32__decode_500, _cat32__presence. apply returns_bind.
  eapply returns_weaken; [apply (presence_ok data 2); [reflexivity|exact Hp]| |done].
  intros [flags p0] [Hp0 _].
  set (T := fills data _cat32__decode_500_schema p0).
  eapply (returns_weaken _ T); [apply run_returns|intros [out p1] [H1 H2]; cbn [fst snd] in *; split; [lia|done]|done].
  apply wp_bind, (wp_for_each (fun p' d' => p0 <= p' <= len data /\ wt _cat32__decode_500_schema d')).
  - intros [i name] p' d' _ [Hp' Hd']. destruct (flag_at flags i); [|by apply wp_skip].
    eapply wp_weaken; [by apply decode_500_item_ok; [lia|..]|done|done].
  - split; [lia|apply wt_nil].
  - intros p' d' [Hp' [_ Hd']]. by apply wp_return.
Qed.

Definition segments_ty : ty := TList (TDict [("system_unit_id", TInt 0 255); ("system_track_num", TInt 0 32767)]).

Lemma item_ok_cat032 data frn :
  item_ok data _cat32_decode_cat032_schema (record_of _cat32_decode_cat032_schema) noE
    (_cat32_decode_cat032_item data frn).
Proof.
  intros p d Hp Hd. unfold _cat32_decode_cat032_item, _cat32__skip_len_field, _cat32__u16.
  by_items wp_auto.
  set (I := fun (l : list value) p' d' => has_ty segments_ty (VList l) = true /\
              (p <= p' <= len data /\ wt _cat32_decode_cat032_schema d')).
  eapply wp_weaken with (Q := I); [| |intros ? ? Hb; exact Hb].
  - apply (wp_while data I);
      [|by split; [reflexivity|split; [lia|exact Hd]]|lia|apply fuel_of_enough; lia].
    intros l p' d' (Hl & Hp' & Hd') Hlen.
    wp_rule. wp_rule; [repeat wp_rule; split; [exact Hl|split; [lia|exact Hd']]|].
    do 4 wp_rule. assert (I (l ++ [VDict [("system_unit_id", VInt (Z.land (Z.shiftr x 16) 0xFF));
        ("system_track_num", VInt (Z.land (Z.shiftr x 1) 0x7FFF))]]) (p' + 3) d') as HI.
    { split; [apply has_ty_snoc; [exact Hl|solve_ty]|]. split; [lia|exact Hd']. }
    apply wp_ret. destruct (negb _); [exact HI|]. split; [exact HI|lia].
  - intros l p' d' (Hl & Hp' & Hd'). unfold when. destruct (nonempty l); [|by wp_auto].
    eapply wp_set; [exact Hd'|eapply field_okI; [reflexivity|exact Hl]|].
    intros d'' Hd''. by wp_done.
Qed.

(** For every frame and every receive time, the CAT-032 handler terminates
    without an exception and publishes at most one record, whose keys and
    values are those of [cat032_schema], which keeps to the protobuf message
    AsterixCat32Status and goes to the topic its server's SAC/SIC give. *)
Lemma cat032_handler_ok root now data :
  returns (_cat32_handler root now data)
    (fun out => len out <= 1 /\
       Forall (fun s => fst s = _cat32_TOPIC_SENSOR root (_asterix_source (_cat32_server (snd s))) /\
                        wt cat032_schema (snd s) /\
                        conforms AsterixCat32Status normalized_keys (snd s) = true) out) noE.
Proof.
  apply (finished_handler_ok _ _cat32_decode_cat032_schema cat032_schema _ _ _ _ (fun d => d) _cat32_server);
    [|done|reflexivity].
  apply frame_decoder_ok; [exact _|]. intros frn _. apply item_ok_cat032.
Qed.
