(* ===== verification/Cat034.v ===== *)
(** * CAT-034: monoradar service messages

    cat.py:9013-9498. A radar announces its state, its position and the passage
    of its antenna; the handler keeps what every radar said last. *)

From S2P Require Import Prelude PyFloat PyData Schema Ranges Cursor Safety Contract AsterixCommon.

Definition _cat34_parse_fspec := parse_fspec.
Definition _cat34__skip_len_field := skip_len_field.
Definition _cat34__s16 := s16.
Definition _cat34__u16 := u16.
Definition _cat34__s24 := s24.

(** cat.py:9036-9036 *)
Definition _cat34_CAT_034 : Z := 34.
(** cat.py:9038-9039 *)
Definition _cat34__MSG_TYPES_034 : table :=
  [(1, "north_marker"); (2, "sector_crossing"); (3, "geo_filter"); (4, "jamming_strobe")].
(** cat.py:9041-9045 *)
Definition _cat34__COUNT_LABELS : table :=
  [(0, "no_detection"); (1, "psr"); (2, "ssr"); (3, "psr_ssr"); (4, "all"); (5, "no_det_psr");
   (6, "no_det_ssr"); (7, "mode5"); (11, "mil_id")].

(** [_cat34__MSG_TYPES_034.get(b, b)] *)
Definition msg_type_034 (b : Z) : value :=
  match tget _cat34__MSG_TYPES_034 b with Some name => VStr name | None => VInt b end.

Definition _FILT034 : table :=
  [(0, "invalid"); (1, "weather"); (2, "jamming"); (3, "psr"); (4, "ssr_mode_s"); (5, "combined");
   (6, "enhanced_surveillance"); (7, "psr_enhanced"); (8, "psr_enhanced_ssr_not_aoi"); (9, "all")].

(** *** I034/050 and I034/060

    A map of subfields, of which the first octet counts, and the subfields. *)
Definition _cat34__decode_i034_050_schema : schema :=
  [("sys_nogo", TBool); ("rdp_chain_2", TBool); ("rdp_restart", TBool); ("sys_ovl_rdp", TBool);
   ("sys_ovl_xmt", TBool); ("sys_msc_connected", TBool); ("sys_tsv_invalid", TBool);
   ("psr_antenna", TInt 1 2); ("psr_channel", TStr); ("psr_status", TStr); ("psr_overload", TBool); ("psr_msc_connected", TBool);
   ("ssr_antenna", TInt 1 2); ("ssr_channel", TStr); ("ssr_status", TStr); ("ssr_overload", TBool); ("ssr_msc_connected", TBool);
   ("mds_antenna", TInt 1 2); ("mds_channel", TStr); ("mds_status", TStr); ("mds_overload", TBool); ("mds_msc_connected", TBool);
   ("mds_scf_channel", TInt 1 2); ("mds_dlf_channel", TInt 1 2); ("mds_scf_overload", TBool); ("mds_dlf_overload", TBool)].

Definition channel_names : list string := ["none"; "a"; "b"; "diversity"].

Definition sensors_050 : list (string * Z * Z) := [("psr", 0x10, 1); ("ssr", 0x08, 1); ("mds", 0x04, 2)].

Definition _cat34__decode_i034_050 (data : bytes) (pos : Z) : exc (dict * Z) :=
  run (
    need data 1 (return_ (fun pos out => (out, pos))) ;;
    primary <- fx_octets data (fun sf => sf) ;;
    match primary with
    | [] => return_ (fun pos out => (out, pos))
    | sf :: _ =>
      when (bit sf 0x80) (
        need data 1 (return_ (fun pos out => (out, pos))) ;;
        com <- at_ data 0 ;;
        adv 1 ;;
        set_ "sys_nogo" (VBool (bit com 0x80)) ;;
        set_ "rdp_chain_2" (VBool (bit com 0x40)) ;;
        set_ "rdp_restart" (VBool (bit com 0x20)) ;;
        set_ "sys_ovl_rdp" (VBool (bit com 0x10)) ;;
        set_ "sys_ovl_xmt" (VBool (bit com 0x08)) ;;
        set_ "sys_msc_connected" (VBool (negb (bit com 0x04))) ;;
        set_ "sys_tsv_invalid" (VBool (bit com 0x02))) ;;
      for_each sensors_050 (fun '(prefix, mask, size) =>
        when (bit sf mask) (
          need data size (return_ (fun _ out => (out, len data))) ;;
          first <- at_ data 0 ;;
          adv 1 ;;
          set_ (prefix +:+ "_antenna") (VInt (if bit first 0x80 then 2 else 1)) ;;
          channel <- lift (index channel_names (Z.land (Z.shiftr first 5) 0x03)) ;;
          set_ (prefix +:+ "_channel") (VStr channel) ;;
          when (size =? 2) (
            second <- at_ data 0 ;;
            adv 1 ;;
            set_ "mds_scf_channel" (VInt (if bit first 0x04 then 2 else 1)) ;;
            set_ "mds_dlf_channel" (VInt (if bit first 0x02 then 2 else 1)) ;;
            set_ "mds_scf_overload" (VBool (bit first 0x01)) ;;
            set_ "mds_dlf_overload" (VBool (bit second 0x80))) ;;
          set_ (prefix +:+ "_status") (VStr (if bit first 0x10 then "overload" else "operational")) ;;
          set_ (prefix +:+ "_overload") (VBool (bit first 0x10)) ;;
          set_ (prefix +:+ "_msc_connected") (VBool (negb (bit first 0x08))))) ;;
      return_ (fun pos out => (out, pos))
    end) pos [].

Definition _cat34__decode_i034_060_schema : schema :=
  [("rdp_reduction_level", TInt 0 7); ("xmt_reduction_level", TInt 0 7); ("psr_polarization", TStr);
   ("psr_reduction_level", TInt 0 7); ("psr_stc_map", TInt 0 3); ("ssr_reduction_level", TInt 0 7);
   ("mds_reduction_level", TInt 0 7); ("mds_cluster_state", TTrue)].

Definition _cat34__decode_i034_060 (data : bytes) (pos : Z) : exc (dict * Z) :=
  run (
    need data 1 (return_ (fun pos out => (out, pos))) ;;
    primary <- fx_octets data (fun sf => sf) ;;
    match primary with
    | [] => return_ (fun pos out => (out, pos))
    | sf :: _ =>
      when (bit sf 0x80) (
        need data 1 (return_ (fun pos out => (out, pos))) ;;
        com <- at_ data 0 ;;
        adv 1 ;;
        set_ "rdp_reduction_level" (VInt (Z.land (Z.shiftr com 4) 0x07)) ;;
        set_ "xmt_reduction_level" (VInt (Z.land (Z.shiftr com 1) 0x07))) ;;
      when (bit sf 0x10) (
        need data 1 (return_ (fun pos out => (out, pos))) ;;
        b <- at_ data 0 ;;
        adv 1 ;;
        set_ "psr_polarization" (VStr (if bit b 0x80 then "circular" else "linear")) ;;
        set_ "psr_reduction_level" (VInt (Z.land (Z.shiftr b 4) 0x07)) ;;
        set_ "psr_stc_map" (VInt (Z.land (Z.shiftr b 2) 0x03))) ;;
      when (bit sf 0x08) (
        need data 1 (return_ (fun pos out => (out, pos))) ;;
        b <- at_ data 0 ;;
        adv 1 ;;
        set_ "ssr_reduction_level" (VInt (Z.land (Z.shiftr b 5) 0x07))) ;;
      when (bit sf 0x04) (
        need data 1 (return_ (fun pos out => (out, pos))) ;;
        b <- at_ data 0 ;;
        adv 1 ;;
        set_ "mds_reduction_level" (VInt (Z.land (Z.shiftr b 5) 0x07)) ;;
        when (bit b 0x10) (set_ "mds_cluster_state" (VBool true))) ;;
      return_ (fun pos out => (out, pos))
    end) pos [].

Definition _cat34_decode_cat034_schema : schema := _cat34__decode_i034_050_schema ++ _cat34__decode_i034_060_schema ++
  [("sac", TInt 0 255); ("sic", TInt 0 255); ("msg_type", TEither (TOneOf (map snd _cat34__MSG_TYPES_034)) (TInt 0 255)); ("tod_s", TFloat);
   ("sector_deg", TFloat); ("rotation_s", TFloat); ("msg_counts", TMap (TInt 0 2047)); ("data_filter", TStr); ("collimation_rng_nm", TFloat); ("collimation_az_deg", TFloat); ("coverage_rho_start_nm", TFloat); ("coverage_rho_end_nm", TFloat);
   ("coverage_az_start_deg", TFloat); ("coverage_az_end_deg", TFloat);
   ("site_alt_m", TInt (-32768) 32767); ("site_lat", TFloat); ("site_lon", TFloat)].

(** cat.py:9174-9244 *)
Definition _cat34_decode_cat034_item (data : bytes) (frn : Z) : cur (option dict) unit :=
  if frn =? 0 then
    need data 2 break_ ;;
    b1 <- at_ data 0 ;;
    set_ "sac" (VInt b1) ;;
    b2 <- at_ data 1 ;;
    set_ "sic" (VInt b2) ;;
    adv 2
  else if frn =? 1 then
    need data 1 break_ ;;
    b3 <- at_ data 0 ;;
    set_ "msg_type" (msg_type_034 b3) ;;
    adv 1
  else if frn =? 2 then
    need data 3 break_ ;;
    b5 <- at_ data 0 ;;
    b6 <- at_ data 1 ;;
    b7 <- at_ data 2 ;;
    let raw := Z.lor (Z.lor (Z.shiftl b5 16) (Z.shiftl b6 8)) b7 in
    set_ "tod_s" (VFloat (fdiv_raw (fl raw) (fl 128))) ;;
    adv 3
  else if frn =? 3 then
    need data 1 break_ ;;
    b8 <- at_ data 0 ;;
    set_ "sector_deg" (VFloat (py_round (fdiv_raw (fmul (fl b8) (fl 360)) (fl 256)) 2)) ;;
    adv 1
  else if frn =? 4 then
    need data 2 break_ ;;
    v9 <- on_slice data 0 2 _cat34__u16 ;;
    set_ "rotation_s" (VFloat (py_round (fdiv_raw (fl v9) (fl 128)) 2)) ;;
    adv 2
  else if frn =? 5 then
    extra <- call (_cat34__decode_i034_050 data) ;;
    update_ extra
  else if frn =? 6 then
    extra <- call (_cat34__decode_i034_060 data) ;;
    update_ extra
  else if frn =? 7 then
    need data 1 break_ ;;
    rep <- at_ data 0 ;;
    adv 1 ;;
    counts <- for_range (Z.to_nat rep) (fun counts : dict =>
        none <- short data 2 ;;
        if none then ret (stop counts) else
        word <- on_slice data 0 2 _cat34__u16 ;;
        adv 2 ;;
        let code := Z.land (Z.shiftr word 11) 0x1F in
        let counts := dset (tget_or _cat34__COUNT_LABELS code ("type" +:+ str_int code)) (VInt (Z.land word 0x7FF)) counts in
        ret (more counts)) [] ;;
    when (nonempty counts) (set_ "msg_counts" (VDict counts))
  else if frn =? 8 then
    need data 8 break_ ;;
    v11 <- on_slice data 0 2 _cat34__u16 ;;
    set_ "coverage_rho_start_nm" (VFloat (py_round (fdiv_raw (fl v11) (fl 256)) 3)) ;;
    v12 <- on_slice data 2 4 _cat34__u16 ;;
    set_ "coverage_rho_end_nm" (VFloat (py_round (fdiv_raw (fl v12) (fl 256)) 3)) ;;
    v13 <- on_slice data 4 6 _cat34__u16 ;;
    set_ "coverage_az_start_deg" (VFloat (py_round (fdiv_raw (fmul (fl v13) (fl 360)) (fl 65536)) 2)) ;;
    v14 <- on_slice data 6 8 _cat34__u16 ;;
    set_ "coverage_az_end_deg" (VFloat (py_round (fdiv_raw (fmul (fl v14) (fl 360)) (fl 65536)) 2)) ;;
    adv 8
  else if frn =? 9 then
    need data 1 break_ ;;
    b4 <- at_ data 0 ;;
    set_ "data_filter" (VStr (tget_or _FILT034 b4 ("type_" +:+ str_int b4))) ;;
    adv 1
  else if frn =? 10 then
    need data 8 break_ ;;
    v15 <- on_slice data 0 2 _cat34__s16 ;;
    set_ "site_alt_m" (VInt v15) ;;
    v16 <- on_slice data 2 5 _cat34__s24 ;;
    set_ "site_lat" (VFloat (py_round (fmul (fl v16) (fdiv_raw (fl 180) (fl (2 ^ 23)))) 7)) ;;
    v17 <- on_slice data 5 8 _cat34__s24 ;;
    set_ "site_lon" (VFloat (py_round (fmul (fl v17) (fdiv_raw (fl 180) (fl (2 ^ 23)))) 7)) ;;
    adv 8
  else if frn =? 11 then
    need data 2 break_ ;;
    c1 <- on_slice data 0 1 s8 ;;
    set_ "collimation_rng_nm" (VFloat (py_round (fdiv_raw (fl c1) (fl 128)) 4)) ;;
    c2 <- on_slice data 1 2 s8 ;;
    set_ "collimation_az_deg" (VFloat (py_round (fdiv_raw (fmul (fl c2) (fl 360)) (fl 16384)) 4)) ;;
    adv 2
  else if (frn =? 12) || (frn =? 13) then
    goto (_cat34__skip_len_field data)
  else
    break_.

Definition _cat34_decode_cat034 (data : bytes) : exc (option dict) :=
  if len data <? 1 then Ok None else
  let? (fspec, pos) := _cat34_parse_fspec data 0 in
  run (for_fspec fspec (_cat34_decode_cat034_item data) ;;
       return_ (fun _ msg => msg_or_none msg)) pos [].

(** ** The decoder's contract *)
#[local] Hint Opaque _cat34__decode_i034_050 _cat34__decode_i034_060 : typeclass_instances.

#[local] Instance decode_050_ok data :
  CallOk data (_cat34__decode_i034_050 data) (fun d => fields_ok _cat34__decode_i034_050_schema d = true).
Proof.
  intros p Hp. apply call_ok_dict; [done|]. intros Hd. wp_auto.
  apply (wp_for_each (fun p' d' => p <= p' <= len data /\ wt _cat34__decode_i034_050_schema d')).
  - intros [[prefix mask] size] p1 d1 Hin [Hp1 Hd1].
    repeat (destruct Hin as [[= <- <- <-]|Hin]; [cbn [Z.eqb Pos.eqb]; wp_auto; wp_done|]). destruct Hin.
  - split; [wp_lia|assumption].
  - intros p1 d1 [Hp1 Hd1]. by wp_auto.
Qed.

#[local] Instance decode_060_ok data :
  CallOk data (_cat34__decode_i034_060 data) (fun d => fields_ok _cat34__decode_i034_060_schema d = true).
Proof.
  intros p Hp. apply call_ok_dict; [done|]. intros Hd. wp_auto.
Qed.

Lemma msg_type_ok b : InRange b 0 255 ->
  has_ty (TEither (TOneOf (map snd _cat34__MSG_TYPES_034)) (TInt 0 255)) (msg_type_034 b) = true.
Proof.
  intros Hb. rewrite has_ty_either. unfold msg_type_034. destruct (tget _ b) as [name|] eqn:E.
  - apply orb_true_iff. left.
    pose proof (tget_or_in (map snd _cat34__MSG_TYPES_034) _cat34__MSG_TYPES_034 b "north_marker" eq_refl) as H.
    unfold tget_or in H. by rewrite E in H.
  - apply orb_true_iff. right. cbn. unfold InRange in Hb. lia.
Qed.

Lemma item_ok_cat034 data frn :
  item_ok data _cat34_decode_cat034_schema (record_of _cat34_decode_cat034_schema) noE
    (_cat34_decode_cat034_item data frn).
Proof.
  intros p d Hp Hd. unfold _cat34_decode_cat034_item, _cat34__skip_len_field, _cat34__u16, _cat34__s16, _cat34__s24.
  by_items wp_auto.
  eapply wp_set; [exact Hd|eapply field_okI; [reflexivity|by apply msg_type_ok]|].
  intros d' Hd'. by wp_auto.
Qed.

Lemma decode_cat034_ok data :
  returns (_cat34_decode_cat034 data) (record_of _cat34_decode_cat034_schema) noE.
Proof. apply frame_decoder_ok; [exact _|]. intros frn _. apply item_ok_cat034. Qed.
