(* ===== verification/Cat048.v ===== *)
(** * CAT-048: monoradar target reports

    cat.py:9505-10229. A block carries several records. A plot without a
    position is placed by the site of its radar: the configured one, or the one
    CAT-034 announced for its SAC/SIC. *)

From stdpp Require Import gmap.
From S2P Require Import Prelude PyFloat PyData Schema Ranges Cursor Safety Contract AsterixCommon.
From S2P Require Import Bds Gillham TrackViews Records.

Definition _cat48_TOPIC_048 (root source : string) : string :=
  root +:+ "/air/" +:+ source +:+ "/radar/unknown/aircraft".
Definition _cat48_parse_fspec := parse_fspec.
Definition _cat48__skip_len_field := skip_len_field.
Definition _cat48__u16 := u16.
Definition _cat48__s16 := s16.
Definition _cat48__CHARSET_6BIT := CHARSET_6BIT.
Definition _cat48__decode_callsign := decode_callsign.
Definition _cat48__compound_presence := compound_presence.
Definition _cat48__decode_bds10 := decode_bds10.
Definition _cat48__decode_bds17 := decode_bds17.
Definition _cat48__decode_bds30 := decode_bds30.
Definition _cat48__decode_bds40 := decode_bds40.
Definition _cat48__decode_bds50 := decode_bds50.
Definition _cat48__decode_bds60 := decode_bds60.
Definition _cat48__polar_to_wgs84 `{Libm} := polar_to_wgs84.

(** cat.py:9527-9527 *)
Definition _cat48_CAT_048 : Z := 48.
Definition _TYP048 : list string :=
  ["no_detection"; "psr"; "ssr"; "ssr_psr"; "mode_s_all_call"; "mode_s_roll_call";
   "mode_s_all_call_psr"; "mode_s_roll_call_psr"].
Definition _STAT230 : list string :=
  ["no_alert_no_spi_airborne"; "no_alert_no_spi_ground"; "alert_no_spi_airborne";
   "alert_no_spi_ground"; "alert_spi"; "no_alert_spi"; "unassigned"; "unknown"].
Definition _WE048 : table :=
  [(1, "multipath_reply"); (2, "sidelobe_reply"); (3, "split_plot"); (4, "second_time_around");
   (5, "angel"); (6, "terrestrial_vehicle"); (7, "fixed_psr_plot"); (8, "slow_psr_target");
   (9, "low_quality_psr"); (10, "phantom_ssr"); (11, "mode3a_mismatch");
   (12, "abnormal_altitude"); (13, "clutter"); (14, "max_zero_filter_doppler");
   (15, "transponder_anomaly"); (16, "duplicate_illegal_address");
   (17, "mode_s_error_correction"); (18, "undecodable_altitude"); (19, "bird");
   (20, "flock_of_birds"); (21, "mode1_present"); (22, "mode2_present"); (23, "wind_turbine");
   (24, "helicopter"); (25, "max_surveillance_reinterrogations");
   (26, "max_bds_reinterrogations"); (27, "bds_overlay_incoherence");
   (28, "potential_bds_swap"); (29, "zenithal_gap_update"); (30, "mode_s_track_reacquired");
   (31, "duplicate_mode5_pair"); (32, "wrong_df_format"); (33, "mode_ac_all_call_anomaly");
   (34, "si_capability_anomaly"); (35, "potential_ic_conflict");
   (36, "ic_conflict_detection_possible"); (37, "duplicate_mode5_pin")].
Definition names_130 : list string :=
  ["ssr_runlength_deg"; "ssr_reply_count"; "ssr_amplitude_dbm"; "psr_runlength_deg";
   "psr_amplitude_dbm"; "psr_ssr_range_diff_nm"; "psr_ssr_az_diff_deg"].
Definition _cat48_decode_cat048_record_schema : schema :=
  [("sac", TInt 0 255); ("sic", TInt 0 255); ("tod_s", TFloat); ("simulated", TTrue);
   ("rdp_chain", TTrue); ("spi", TTrue); ("field_monitor", TTrue); ("test_target", TTrue);
   ("extended_range", TTrue); ("x_pulse", TTrue); ("mil_emergency", TTrue); ("mil_ident", TTrue);
   ("iff", TOneOf [""; "friendly"; "unknown"; "no_reply"]); ("range_nm", TFloat);
   ("azimuth_deg", TFloat); ("squawk", TStr); ("squawk_invalid", TTrue); ("squawk_garbled", TTrue);
   ("squawk_not_extracted", TTrue); ("alt_baro_ft", TInt (-204800) 204775);
   ("alt_baro_invalid", TTrue); ("alt_baro_garbled", TTrue); ("icao24", TStr); ("callsign", TStr);
   ("track_num", TInt 0 4095); ("cart_x_nm", TFloat); ("cart_y_nm", TFloat); ("speed_ms", TFloat);
   ("heading_deg", TFloat); ("confirmed", TBool); ("track_tentative", TTrue);
   ("track_sensor", TOneOf ["combined"; "psr"; "ssr_mode_s"; "invalid"]); ("track_doubtful", TTrue);
   ("track_manoeuvre", TTrue); ("vertical_trend", TOneOf ["climbing"; "descending"; "unknown"]);
   ("track_end", TTrue); ("track_ghost", TTrue); ("supported_by_neighbour_node", TTrue);
   ("slant_range_correction", TTrue); ("track_sigma_x_nm", TFloat); ("track_sigma_y_nm", TFloat);
   ("track_sigma_v_kt", TFloat); ("track_sigma_heading_deg", TFloat);
   ("we_conditions", TList (TInt 0 127)); ("squawk_quality_mask", TInt 0 4095);
   ("alt_3d_ft", TInt (-819200) 819175); ("com_capability", TInt 0 7); ("on_ground", TTrue);
   ("alert", TTrue); ("interrogator_code_capability", TOneOf ["II"; "SI"]); ("mssc", TTrue);
   ("altitude_25ft", TTrue); ("aic", TTrue); ("bds10_b1a", TBool); ("bds10_b1b", TInt 0 15);
   ("mode1", TStr); ("mode1_invalid", TTrue); ("mode1_garbled", TTrue);
   ("mode1_smoothed", TTrue); ("mode2", TStr); ("mode2_invalid", TTrue); ("mode2_garbled", TTrue);
   ("mode2_smoothed", TTrue); ("mode1_quality_mask", TInt 0 255);
   ("mode2_quality_mask", TInt 0 65535); ("detection_type", TOneOf _TYP048);
   ("lat_deg", TFloat); ("lon_deg", TFloat); ("ssr_runlength_deg", TFloat);
   ("ssr_reply_count", TInt 0 255); ("ssr_amplitude_dbm", TInt (-128) 127);
   ("psr_runlength_deg", TFloat); ("psr_amplitude_dbm", TInt (-128) 127);
   ("psr_ssr_range_diff_nm", TFloat); ("psr_ssr_az_diff_deg", TFloat);
   ("warning_error_names", TList (TOneOf (map snd _WE048))); ("target_type", TOneOf ["ground_vehicle"]);
   ("mode_c_alt_ft", TInt (-1200) 126700); ("doppler_ms", TInt (-512) 511); ("doppler_kt", TFloat);
   ("doppler_doubtful", TTrue); ("doppler_raw_ms", TInt (-32768) 32767);
   ("doppler_ambiguity_ms", TInt 0 65535); ("doppler_frequency_mhz", TInt 0 65535);
   ("transponder_status", TOneOf _STAT230); ("radar_id", TStr); ("_ts", TFloat); ("_src", TStr)] ++
  bds_schema.

(** Items 010 to 200. *)
(** The condition codes of I048/030, an extension chain, and what they say of
    the target. *)
Definition _cat48_warnings (data : bytes) : cur (dict * Z) (list Z) :=
  while_ (fuel_of data) (fun codes =>
      none <- short data 1 ;;
      if none then ret (stop codes) else
      b <- at_ data 0 ;;
      adv 1 ;;
      let code := Z.land (Z.shiftr b 1) 0x7F in
      let codes := codes ++ [code] in
      match tget _WE048 code with
      | Some name =>
          names <- get_ "warning_error_names" ;;
          set_ "warning_error_names"
            (VList (list_of names ++ [VStr name]))
      | None => skip
      end ;;
      when (code =? 6) (
        set_ "target_type" (VStr "ground_vehicle") ;;
        set_ "on_ground" (VBool true)) ;;
      ret (if negb (bit b 0x01) then stop codes else more codes)) [].

(** Items 170 to RE; every other FRN ends the record. *)
Definition _cat48_decode_cat048_record_item13 (data : bytes) (frn : Z) : cur (dict * Z) unit :=
  if frn =? 13 then
    need data 1 (return_ (fun _ track => (track, len data))) ;;
    b <- at_ data 0 ;;
    adv 1 ;;
    set_ "confirmed" (VBool (negb (bit b 0x80))) ;;
    when (bit b 0x80) (set_ "track_tentative" (VBool true)) ;;
    let rad := Z.land (Z.shiftr b 5) 0x03 in
    s20 <- lift (index ["combined"; "psr"; "ssr_mode_s"; "invalid"] rad) ;;
    set_ "track_sensor" (VStr s20) ;;
    when (bit b 0x10) (set_ "track_doubtful" (VBool true)) ;;
    when (bit b 0x08) (set_ "track_manoeuvre" (VBool true)) ;;
    let cdm := Z.land (Z.shiftr b 1) 0x03 in
    (if cdm =? 1 then
      set_ "vertical_trend" (VStr "climbing")
     else
      (if cdm =? 2 then
        set_ "vertical_trend" (VStr "descending")
       else
        when (cdm =? 3) (set_ "vertical_trend" (VStr "unknown")))) ;;
    when (bit b 0x01) (
      need data 1 (return_ (fun _ track => (track, len data))) ;;
      b <- at_ data 0 ;;
      adv 1 ;;
      when (bit b 0x80) (set_ "track_end" (VBool true)) ;;
      when (bit b 0x40) (set_ "track_ghost" (VBool true)) ;;
      when (bit b 0x20) (set_ "supported_by_neighbour_node" (VBool true)) ;;
      when (bit b 0x10) (set_ "slant_range_correction" (VBool true)) ;;
      fx_each data b skip (fun _ _ => skip))
  else if frn =? 14 then
    need data 4 (return_ (fun _ track => (track, len data))) ;;
    b21 <- at_ data 0 ;;
    set_ "track_sigma_x_nm" (VFloat (py_round (fdiv_raw (fl b21) (fl 128)) 4)) ;;
    b22 <- at_ data 1 ;;
    set_ "track_sigma_y_nm" (VFloat (py_round (fdiv_raw (fl b22) (fl 128)) 4)) ;;
    b23 <- at_ data 2 ;;
    set_ "track_sigma_v_kt" (VFloat (py_round (fmul (fmul (fl b23) (fdiv_raw (fl 1) (fl (2 ^ 14)))) (fl 3600)) 2)) ;;
    b24 <- at_ data 3 ;;
    set_ "track_sigma_heading_deg" (VFloat (py_round (fdiv_raw (fmul (fl b24) (fl 360)) (fl 4096)) 2)) ;;
    adv 4
  else if frn =? 15 then
    codes <- _cat48_warnings data ;;
    when (nonempty codes) (set_ "we_conditions" (VList (map VInt codes)))
  else if frn =? 16 then
    need data 2 (return_ (fun _ track => (track, len data))) ;;
    v25 <- on_slice data 0 2 _cat48__u16 ;;
    set_ "squawk_quality_mask" (VInt (Z.land v25 0x0FFF)) ;;
    adv 2
  else if frn =? 17 then
    need data 4 (return_ (fun _ track => (track, len data))) ;;
    v26 <- on_slice data 0 2 _cat48__u16 ;;
    match _cat48__gillham_to_ft v26 with
    | Some alt => set_ "mode_c_alt_ft" (VInt alt)
    | None => skip
    end ;;
    adv 4
  else if frn =? 18 then
    need data 2 (return_ (fun _ track => (track, len data))) ;;
    v27 <- on_slice data 0 2 _cat48__s16 ;;
    set_ "alt_3d_ft" (VInt (v27 * 25)) ;;
    adv 2
  else if frn =? 19 then
    present <- try_call (_cat48__compound_presence data) (return_ (fun _ track => (track, len data))) ;;
    when (existsb id (skipn 2 present)) (return_ (fun _ track => (track, len data))) ;;
    cal <- lift (index present 0) ;;
    when cal (
      need data 2 (return_ (fun _ track => (track, len data))) ;;
      w <- on_slice data 0 2 _cat48__u16 ;;
      let raw := Z.land w 0x03FF in
      let raw := if bit raw 0x0200 then raw - 0x0400 else raw in
      set_ "doppler_ms" (VInt raw) ;;
      set_ "doppler_kt" (VFloat (py_round (fmul (fl raw) (fratio 1943844 1000000)) 1)) ;;
      when (bit w 0x8000) (set_ "doppler_doubtful" (VBool true)) ;;
      adv 2) ;;
    rds <- lift (index present 1) ;;
    when rds (
      need data 1 (return_ (fun _ track => (track, len data))) ;;
      rep <- at_ data 0 ;;
      adv 1 ;;
      need data (rep * 6) (return_ (fun _ track => (track, len data))) ;;
      when (0 <? rep) (
        speed <- on_slice data 0 2 _cat48__s16 ;;
        set_ "doppler_raw_ms" (VInt speed) ;;
        v1 <- on_slice data 2 4 _cat48__u16 ;;
        set_ "doppler_ambiguity_ms" (VInt v1) ;;
        v2 <- on_slice data 4 6 _cat48__u16 ;;
        set_ "doppler_frequency_mhz" (VInt v2)) ;;
      adv (rep * 6))
  else if frn =? 20 then
    need data 2 (return_ (fun _ track => (track, len data))) ;;
    b0 <- at_ data 0 ;;
    b1 <- at_ data 1 ;;
    let com := Z.land (Z.shiftr b0 5) 0x07 in
    let stat := Z.land (Z.shiftr b0 2) 0x07 in
    set_ "com_capability" (VInt com) ;;
    s27 <- lift (index _STAT230 stat) ;;
    set_ "transponder_status" (VStr s27) ;;
    when ((stat =? 1) || (stat =? 3)) (set_ "on_ground" (VBool true)) ;;
    when ((stat =? 2) || (stat =? 3) || (stat =? 4)) (set_ "alert" (VBool true)) ;;
    when ((stat =? 4) || (stat =? 5)) (set_ "spi" (VBool true)) ;;
    set_ "interrogator_code_capability" (VStr (if bit b0 0x02 then "II" else "SI")) ;;
    when (bit b1 0x80) (set_ "mssc" (VBool true)) ;;
    when (bit b1 0x40) (set_ "altitude_25ft" (VBool true)) ;;
    when (bit b1 0x20) (set_ "aic" (VBool true)) ;;
    set_ "bds10_b1a" (VBool (bit b1 0x10)) ;;
    set_ "bds10_b1b" (VInt (Z.land b1 0x0F)) ;;
    adv 2
  else if frn =? 21 then
    need data 7 (return_ (fun _ track => (track, len data))) ;;
    mb <- on_slice data 0 7 (fun mb => Ok mb) ;;
    update_ (_cat48__decode_bds30 mb) ;;
    adv 7
  else if frn =? 22 then
    need data 1 (return_ (fun _ track => (track, len data))) ;;
    b <- at_ data 0 ;;
    adv 1 ;;
    set_ "mode1" (VStr (fmt_o 2 (Z.land b 0x1F))) ;;
    when (bit b 0x80) (set_ "mode1_invalid" (VBool true)) ;;
    when (bit b 0x40) (set_ "mode1_garbled" (VBool true)) ;;
    when (bit b 0x20) (set_ "mode1_smoothed" (VBool true))
  else if frn =? 23 then
    need data 2 (return_ (fun _ track => (track, len data))) ;;
    w <- on_slice data 0 2 _cat48__u16 ;;
    adv 2 ;;
    set_ "mode2" (VStr (fmt_o 4 (Z.land w 0x0FFF))) ;;
    when (bit w 0x8000) (set_ "mode2_invalid" (VBool true)) ;;
    when (bit w 0x4000) (set_ "mode2_garbled" (VBool true)) ;;
    when (bit w 0x2000) (set_ "mode2_smoothed" (VBool true))
  else if frn =? 24 then
    need data 1 (return_ (fun _ track => (track, len data))) ;;
    b30 <- at_ data 0 ;;
    set_ "mode1_quality_mask" (VInt b30) ;;
    adv 1
  else if frn =? 25 then
    need data 2 (return_ (fun _ track => (track, len data))) ;;
    v31 <- on_slice data 0 2 _cat48__u16 ;;
    set_ "mode2_quality_mask" (VInt v31) ;;
    adv 2
  else if frn =? 26 then
    goto (_cat48__skip_len_field data)
  else if frn =? 27 then
    goto (_cat48__skip_len_field data)
  else
    break_.

Section Cat048.
Context `{Libm}.
Variables radar_lat radar_lon : option float.

(** Items 010 to 200. *)
Definition _cat48_decode_cat048_record_item (data : bytes) (frn : Z) : cur (dict * Z) unit :=
  if frn =? 0 then
    need data 2 (return_ (fun _ track => (track, len data))) ;;
    b1 <- at_ data 0 ;;
    set_ "sac" (VInt b1) ;;
    b2 <- at_ data 1 ;;
    set_ "sic" (VInt b2) ;;
    adv 2
  else if frn =? 1 then
    need data 3 (return_ (fun _ track => (track, len data))) ;;
    b3 <- at_ data 0 ;;
    b4 <- at_ data 1 ;;
    b5 <- at_ data 2 ;;
    let raw := Z.lor (Z.lor (Z.shiftl b3 16) (Z.shiftl b4 8)) b5 in
    set_ "tod_s" (VFloat (fdiv_raw (fl raw) (fl 128))) ;;
    adv 3
  else if frn =? 2 then
    need data 1 (return_ (fun _ track => (track, len data))) ;;
    b <- at_ data 0 ;;
    adv 1 ;;
    let typ := Z.land (Z.shiftr b 5) 0x07 in
    s5 <- lift (index _TYP048 typ) ;;
    set_ "detection_type" (VStr s5) ;;
    when (bit b 0x10) (set_ "simulated" (VBool true)) ;;
    when (bit b 0x08) (set_ "rdp_chain" (VBool true)) ;;
    when (bit b 0x04) (set_ "spi" (VBool true)) ;;
    when (bit b 0x02) (set_ "field_monitor" (VBool true)) ;;
    when (bit b 0x01) (
      need data 1 (return_ (fun _ track => (track, len data))) ;;
      b <- at_ data 0 ;;
      adv 1 ;;
      when (bit b 0x80) (set_ "test_target" (VBool true)) ;;
      when (bit b 0x40) (set_ "extended_range" (VBool true)) ;;
      when (bit b 0x20) (set_ "x_pulse" (VBool true)) ;;
      when (bit b 0x10) (set_ "mil_emergency" (VBool true)) ;;
      when (bit b 0x08) (set_ "mil_ident" (VBool true)) ;;
      let foe := Z.land (Z.shiftr b 1) 0x03 in
      when (negb (foe =? 0)) (
        s6 <- lift (index [""; "friendly"; "unknown"; "no_reply"] foe) ;;
        set_ "iff" (VStr s6)) ;;
      fx_each data b skip (fun _ _ => skip))
  else if frn =? 3 then
    need data 4 (return_ (fun _ track => (track, len data))) ;;
    range_raw <- on_slice data 0 2 _cat48__u16 ;;
    az_raw <- on_slice data 2 4 _cat48__u16 ;;
    let range_nm := fdiv_raw (fl range_raw) (fl 256) in
    let az_deg := fdiv_raw (fmul (fl az_raw) (fl 360)) (fl 65536) in
    set_ "range_nm" (VFloat (py_round range_nm 3)) ;;
    set_ "azimuth_deg" (VFloat (py_round az_deg 3)) ;;
    match radar_lat, radar_lon with
    | Some lat0, Some lon0 =>
        when (flt (fl 0) range_nm) (
          p <- lift (_cat48__polar_to_wgs84 lat0 lon0 range_nm az_deg) ;;
          let '(lat, lon) := p in
          setdefault_ "lat_deg" (VFloat (py_round lat 6)) ;;
          setdefault_ "lon_deg" (VFloat (py_round lon 6)))
    | _, _ => skip
    end ;;
    adv 4
  else if frn =? 4 then
    need data 2 (return_ (fun _ track => (track, len data))) ;;
    w <- on_slice data 0 2 _cat48__u16 ;;
    adv 2 ;;
    set_ "squawk" (VStr (fmt_o 4 (Z.land w 0x0FFF))) ;;
    when (bit w 0x8000) (set_ "squawk_invalid" (VBool true)) ;;
    when (bit w 0x4000) (set_ "squawk_garbled" (VBool true)) ;;
    when (bit w 0x2000) (set_ "squawk_not_extracted" (VBool true))
  else if frn =? 5 then
    need data 2 (return_ (fun _ track => (track, len data))) ;;
    w <- on_slice data 0 2 _cat48__u16 ;;
    adv 2 ;;
    let raw := Z.land w 0x3FFF in
    let raw := if bit raw 0x2000 then raw - 0x4000 else raw in
    set_ "alt_baro_ft" (VInt (raw * 25)) ;;
    when (bit w 0x8000) (set_ "alt_baro_invalid" (VBool true)) ;;
    when (bit w 0x4000) (set_ "alt_baro_garbled" (VBool true))
  else if frn =? 6 then
    present <- try_call (_cat48__compound_presence data) (return_ (fun _ track => (track, len data))) ;;
    when (existsb id (skipn 7 present)) (return_ (fun _ track => (track, len data))) ;;
    for_each (enumerate names_130) (fun '(i, name) =>
      on <- lift (index present i) ;;
      if negb on then skip else
      need data 1 (return_ (fun _ track => (track, len data))) ;;
      value <- at_ data 0 ;;
      adv 1 ;;
      if (i =? 0) || (i =? 3) then
        set_ name (VFloat (py_round (fdiv_raw (fmul (fl value) (fl 360)) (fl 8192)) 3))
      else if (i =? 2) || (i =? 4) then
        set_ name (VInt (sign_extend 8 value))
      else if i =? 5 then
        set_ name (VFloat (py_round (fdiv_raw (fl (sign_extend 8 value)) (fl 256)) 4))
      else if i =? 6 then
        set_ name (VFloat (py_round (fdiv_raw (fmul (fl (sign_extend 8 value)) (fl 360)) (fl 16384)) 4))
      else
        set_ name (VInt value))
  else if frn =? 7 then
    need data 3 (return_ (fun _ track => (track, len data))) ;;
    b11 <- at_ data 0 ;;
    b12 <- at_ data 1 ;;
    b13 <- at_ data 2 ;;
    let addr := Z.lor (Z.lor (Z.shiftl b11 16) (Z.shiftl b12 8)) b13 in
    set_ "icao24" (VStr (fmt_x 6 addr)) ;;
    adv 3
  else if frn =? 8 then
    need data 6 (return_ (fun _ track => (track, len data))) ;;
    s14 <- on_slice data 0 6 _cat48__decode_callsign ;;
    set_ "callsign" (VStr s14) ;;
    adv 6
  else if frn =? 9 then
    need data 1 (return_ (fun _ track => (track, len data))) ;;
    rep <- at_ data 0 ;;
    adv 1 ;;
    for_range (Z.to_nat rep) (fun _ =>
        none <- short data 8 ;;
        if none then ret (stop tt) else
        mb <- on_slice data 0 7 (fun mb => Ok mb) ;;
        bds <- at_ data 7 ;;
        adv 8 ;;
        let bds1 := Z.land (Z.shiftr bds 4) 0x0F in
        let bds2 := Z.land bds 0x0F in
        (if (bds1 =? 1) && (bds2 =? 0) then update_ (_cat48__decode_bds10 mb)
         else if (bds1 =? 1) && (bds2 =? 7) then update_ (_cat48__decode_bds17 mb)
         else if (bds1 =? 3) && (bds2 =? 0) then update_ (_cat48__decode_bds30 mb)
         else if (bds1 =? 4) && (bds2 =? 0) then update_ (_cat48__decode_bds40 mb)
         else if (bds1 =? 5) && (bds2 =? 0) then update_ (_cat48__decode_bds50 mb)
         else when ((bds1 =? 6) && (bds2 =? 0)) (update_ (_cat48__decode_bds60 mb))) ;;
        ret (more tt)) tt
  else if frn =? 10 then
    need data 2 (return_ (fun _ track => (track, len data))) ;;
    v15 <- on_slice data 0 2 _cat48__u16 ;;
    set_ "track_num" (VInt (Z.land v15 0x0FFF)) ;;
    adv 2
  else if frn =? 11 then
    need data 4 (return_ (fun _ track => (track, len data))) ;;
    v16 <- on_slice data 0 2 _cat48__s16 ;;
    set_ "cart_x_nm" (VFloat (py_round (fdiv_raw (fl v16) (fl 128)) 3)) ;;
    v17 <- on_slice data 2 4 _cat48__s16 ;;
    set_ "cart_y_nm" (VFloat (py_round (fdiv_raw (fl v17) (fl 128)) 3)) ;;
    adv 4
  else if frn =? 12 then
    need data 4 (return_ (fun _ track => (track, len data))) ;;
    spd_raw <- on_slice data 0 2 _cat48__u16 ;;
    hdg_raw <- on_slice data 2 4 _cat48__u16 ;;
    set_ "speed_ms" (VFloat (py_round (fdiv_raw (fmul (fl spd_raw) (fl 1852)) (fl 16384)) 2)) ;;
    set_ "heading_deg" (VFloat (py_round (fdiv_raw (fmul (fl hdg_raw) (fl 360)) (fl 65536)) 2)) ;;
    adv 4
  else _cat48_decode_cat048_record_item13 data frn.

(** A target without an ICAO address is named after its radar. *)
Definition _cat48_radar_id : cur (dict * Z) unit :=
  icao24 <- has_ "icao24" ;;
  when (negb icao24) (
    sac <- get_ "sac" ;;
    sic <- get_ "sic" ;;
    track_num <- get_ "track_num" ;;
    set_ "radar_id" (VStr ("CAT48-" +:+ fmt_d 3 (sac_sic sac) +:+ "-" +:+ fmt_d 3 (sac_sic sic) +:+ "-" +:+
                           fmt_d 4 (sac_sic track_num)))).

Definition _cat48_decode_cat048_record (now : float) (data : bytes) (pos : Z) : exc (dict * Z) :=
  let? (fspec, pos) := _cat48_parse_fspec data pos in
  run (for_fspec fspec (_cat48_decode_cat048_record_item data) ;;
       _cat48_radar_id ;;
       return_ (fun pos track => (track, pos))) pos (new_track now "ASTERIX CAT-48 Ed.1.32").

(** A site is the position of the radar with a SAC/SIC. [float] of the two
    polar coordinates is the identity: the decoder writes floats. *)
Definition _cat48__geolocate_from_site (default_site : option float * option float)
    (sites : gmap (Z * Z) (float * float)) (track : dict) : exc dict :=
  if dmem "lat_deg" track && dmem "lon_deg" track then Ok track else
  match ditem track "range_nm", ditem track "azimuth_deg" with
  | Ok (VFloat range_nm), Ok (VFloat azimuth_deg) =>
      if fle range_nm (fl 0) then Ok track else
      let site := sites !! (sac_sic (dget track "sac"), sac_sic (dget track "sic")) in
      let site := match site, default_site with
                  | None, (Some lat, Some lon) => Some (lat, lon)
                  | _, _ => site
                  end in
      match site with
      | None => Ok track
      | Some (site_lat, site_lon) =>
          let? (lat, lon) := _cat48__polar_to_wgs84 site_lat site_lon range_nm azimuth_deg in
          let track := dset "lat_deg" (VFloat (py_round lat 6)) track in
          Ok (dset "lon_deg" (VFloat (py_round lon 6)) track)
      end
  | _, _ => Ok track
  end.

(** [_h] of [_cat48__make_cat048_handler], with [_cat48__pub]; [clock pos] is
    the time at which the record at [pos] is read. *)
Definition _cat48_handler (repr : value -> string) (root : string) (clock : Z -> float)
    (sites : gmap (Z * Z) (float * float)) (data : bytes) : list publication * exc unit :=
  handle_records repr 48 "cat048" (_cat48_TOPIC_048 root)
    (fun data pos => _cat48_decode_cat048_record (clock pos) data pos)
    (_cat48__geolocate_from_site (radar_lat, radar_lon) sites) data.
End Cat048.

(** ** Correctness *)
Definition cat048_schema : schema := _cat48_decode_cat048_record_schema.

#[local] Hint Opaque compound_presence : typeclass_instances.
#[local] Instance presence_ok data :
  TryOk data (_cat48__compound_presence data) (fun present => LenGe present 7).
Proof. apply compound_presence_ok. Qed.

Lemma warning_type code name :
  tget _WE048 code = Some name -> has_ty (TOneOf (map snd _WE048)) (VStr name) = true.
Proof.
  intros H. cbn [has_ty]. unfold selem. apply existsb_exists. exists name.
  split; [|by apply String.eqb_eq]. revert H. generalize _WE048 as t.
  induction t as [|[k s] t IH]; cbn; [done|]. destruct (k =? code); [intros [= ->]; by left|by right; apply IH].
Qed.

Lemma wp_warnings data p d (Q : list Z -> Z -> dict -> Prop) B T E :
  0 <= p <= len data -> wt cat048_schema d ->
  (forall codes p' d', p <= p' <= len data -> wt cat048_schema d' ->
     Forall (fun c => InRange c 0 127) codes -> Q codes p' d') ->
  wp (_cat48_warnings data) p d Q B T E.
Proof.
  intros Hp Hd HQ.
  apply (wp_while data (fun codes p' d' => Forall (fun c => InRange c 0 127) codes /\
                          p <= p' /\ wt cat048_schema d'));
    [|split_and!; [constructor|lia|done]|lia|apply fuel_of_enough; lia].
  intros codes p' d' (Hc & Hp' & Hd') Hlen.
  apply wp_bind, wp_short; intros Hs; [apply wp_ret, HQ; [lia|done..]|].
  do 6 wp_rule. set (code := Z.land _ 127).
  assert (InRange code 0 127) by (subst code; in_range).
  assert (Forall (fun c => InRange c 0 127) (codes ++ [code])) as Hc' by (by apply Forall_app; split; [|apply Forall_singleton]).
  apply (wp_join_same cat048_schema).
  { destruct (tget _WE048 code) as [name|] eqn:Hn; [|by apply wp_skip].
    apply wp_bind. eapply wp_get; [done|]. intros o Ho.
    eapply wp_set; [done| |by intros].
    apply (field_okI _ _ _ (TList (TOneOf (map snd _WE048)))); [reflexivity|].
    apply has_ty_snoc; [by eapply list_of_ok|by eapply warning_type]. }
  intros d2 Hd2. wp_auto; destruct (negb _);
    first [apply HQ; [lia|done..]|split_and!; first [done|lia]].
Qed.

Ltac item48 :=
  repeat match goal with
         | |- wp (bind (_cat48_warnings _) _) _ _ _ _ _ _ =>
             apply wp_bind, wp_warnings; [wp_lia|assumption|]; intros ? ? ? ? ? ?
         | |- wp _ _ _ _ _ _ _ => progress wp_record
         end.

Section Correctness.
Context `{LibmOk}.
Implicit Types (radar_lat radar_lon : option float).

Lemma item13_ok p0 E data frn : p0 < len data ->
  item_ok data cat048_schema (record_result data cat048_schema p0) E
    (_cat48_decode_cat048_record_item13 data frn).
Proof.
  intros Hp0 p d Hp Hd. unfold _cat48_decode_cat048_record_item13, _cat48__u16, _cat48__s16.
  by_items ltac:(item48).
Qed.

Lemma item_ok48 radar_lat radar_lon p0 data frn : p0 < len data ->
  item_ok data cat048_schema (record_result data cat048_schema p0) (geo_error radar_lat radar_lon)
    (_cat48_decode_cat048_record_item radar_lat radar_lon data frn).
Proof.
  intros Hp0 p d Hp Hd. unfold _cat48_decode_cat048_record_item, _cat48__u16, _cat48__s16, _cat48__polar_to_wgs84, _cat48__decode_callsign.
  by_items ltac:(item48). by apply item13_ok.
Qed.

Lemma radar_id_ok data p0 p d (E : exn -> Prop) :
  p0 < p <= len data -> wt cat048_schema d ->
  wp (_cat48_radar_id ;; return_ (fun pos track => (track, pos))) p d
    (fun r _ _ => record_result data cat048_schema p0 r) noB (record_result data cat048_schema p0) E.
Proof. intros Hp Hd. apply wp_bind. unfold _cat48_radar_id. wp_auto. Qed.

Lemma decode_cat048_ok radar_lat radar_lon now data p : 0 <= p < len data ->
  returns (_cat48_decode_cat048_record radar_lat radar_lon now data p)
    (record_result data cat048_schema p) (geo_error radar_lat radar_lon).
Proof.
  intros Hp. unfold _cat48_decode_cat048_record. apply record_decoder_ok;
    [done|apply new_track_ok; vm_compute; reflexivity|by apply parse_fspec_strict| |].
  - intros frn _. apply item_ok48; lia.
  - intros p' d Hp' Hd. by apply radar_id_ok.
Qed.

(** What the protobuf view loses: the condition codes, and the BDS 1,0 report,
    which the message has no fields for. *)
Definition dropped048 : list string := "we_conditions" :: map fst bds10_schema.

(** A position is known of some radar. *)
Definition site_error (radar_lat radar_lon : option float) (sites : gmap (Z * Z) (float * float))
    (e : exn) : Prop :=
  e = ValueError /\ ((is_Some radar_lat /\ is_Some radar_lon) \/ sites <> ∅).

Lemma geolocate_ok radar_lat radar_lon sites d : wt cat048_schema d ->
  returns (_cat48__geolocate_from_site (radar_lat, radar_lon) sites d) (wt cat048_schema)
    (site_error radar_lat radar_lon sites).
Proof.
  intros Hd. unfold _cat48__geolocate_from_site.
  destruct (_ && _); [done|]. destruct (ditem d "range_nm") as [[]|]; try done.
  destruct (ditem d "azimuth_deg") as [[]|]; try done. destruct (fle _ _); [done|]. cbv zeta.
  set (known := sites !! _). assert (forall s, known = Some s -> sites <> ∅) as Hk.
  { intros s Hs ->. subst known. by rewrite lookup_empty in Hs. }
  destruct known as [[lat lon]|] eqn:E; [|destruct radar_lat as [lat|], radar_lon as [lon|]; try done].
  all: apply returns_bind; eapply returns_weaken; [apply polar_to_wgs84_err| |].
  all: try (intros e ->; split; [done|]; eauto).
  all: intros [lat2 lon2] _; cbn; by apply wt_dset; [apply wt_dset|].
Qed.

(** What the handler does with a block: every record published once, in order,
    where the site of its radar puts it, with exactly its source octets. *)
Definition stream048 radar_lat radar_lon (repr : value -> string) (root : string) (clock : Z -> float) (sites : gmap (Z * Z) (float * float)) (data : bytes) :
    list publication -> exc unit -> Prop :=
  stream_ok repr 48 "cat048" (_cat48_TOPIC_048 root) (fun data pos => _cat48_decode_cat048_record radar_lat radar_lon (clock pos) data pos)
    (_cat48__geolocate_from_site (radar_lat, radar_lon) sites) dropped048 cat048_schema AsterixCat48Track data 0.

Lemma handle048_ok radar_lat radar_lon repr root clock sites data :
  len data <= 0xFFFF - 3 ->
  let '(out, r) := _cat48_handler radar_lat radar_lon repr root clock sites data in
  stream048 radar_lat radar_lon repr root clock sites data out r /\ returns r (fun _ => True) (site_error radar_lat radar_lon sites).
Proof.
  intros Hl. apply (handle_records_ok _ _ _ _ _ _ _ cat048_schema); [| |reflexivity|lia].
  - intros p Hp. eapply returns_weaken; [by apply decode_cat048_ok|done|].
    intros e (-> & ? & ?). split; [done|by left].
  - intros d Hd. by apply geolocate_ok.
Qed.

(** C27: for every block of CAT-048 records, the handler reads the block record
    after record to its end, and publishes each that has an item once, in order:
    its views if it has a position, of its own or from the site of its radar,
    and always exactly the octets it was read from; every record keeps to
    its schema and, [dropped048] apart, to the protobuf message AsterixCat48Track.
    The only exception is ValueError of the C library, at a record, when the
    position of a radar is known. *)
Theorem cat048_handler_ok radar_lat radar_lon repr root clock sites data :
  len data <= 0xFFFF - 3 ->
  let '(out, r) := _cat48_handler radar_lat radar_lon repr root clock sites data in
  stream048 radar_lat radar_lon repr root clock sites data out r /\
  returns r (fun _ => True) (site_error radar_lat radar_lon sites).
Proof.
  apply handle048_ok.
Qed.
End Correctness.

(** A located Mode S track with a warning, and a truncated second record. *)
Definition sample048 : bytes :=
  of_ints [0x91; 0x81; 0x40; 0x19; 0x0A; 0x01; 0x00; 0x40; 0x00; 0x4C; 0xA1; 0x23; 0x0C;
           0xF0; 0x19].

Lemma cat048_handler_ok_witness :
  let '(out, r) := @_cat48_handler small_angle_libm (Some (fl 54)) (Some (fl 25)) (fun _ => "") "efdi"
                     (fun _ => fl 7) ∅ sample048 in
  len out = 2 /\
  @stream048 small_angle_libm (Some (fl 54)) (Some (fl 25)) (fun _ => "") "efdi" (fun _ => fl 7) ∅ sample048 out r /\
  returns r (fun _ => True) (site_error (Some (fl 54)) (Some (fl 25)) ∅).
Proof.
  pose proof (@cat048_handler_ok small_angle_libm small_angle_libm_ok (Some (fl 54)) (Some (fl 25))
    (fun _ => "") "efdi" (fun _ => fl 7) ∅ sample048 ltac:(vm_compute; discriminate)) as H.
  assert (len (fst (@_cat48_handler small_angle_libm (Some (fl 54)) (Some (fl 25)) (fun _ => "") "efdi"
                     (fun _ => fl 7) ∅ sample048)) = 2) as Hlen by (vm_compute; reflexivity).
  destruct (_cat48_handler _ _ _ _ _ _ _) as [out r]. split; [exact Hlen|exact H].
Defined.

(** The condition codes of I048/030 never reach the protobuf view: they are
    integers, and the message declares [we_conditions] as strings. *)
Lemma cat048_we_conditions_dropped :
  match fst (@_cat48_handler small_angle_libm (Some (fl 54)) (Some (fl 25)) (fun _ => "") "efdi"
               (fun _ => fl 7) ∅ sample048) with
  | Dual _ track :: _ =>
      dget track "we_conditions" = Some (VList [VInt 6]) /\
      field_ty AsterixCat48Track "we_conditions" = Some (TList TStr) /\
      conforms AsterixCat48Track normalized_keys track = false
  | _ => False
  end.
Proof. vm_compute. split_and!; reflexivity. Qed.
