(* ===== verification/Cat062.v ===== *)
(** * CAT-062: system tracks

    cat.py:10377-11134. *)

From S2P Require Import Prelude PyFloat PyData Schema Ranges Cursor Safety Contract AsterixCommon.
From S2P Require Import Bds TrackViews Records Blocks.

Definition _cat62_parse_fspec := parse_fspec.
Definition _cat62__skip_len_field := skip_len_field.
Definition _cat62__u16 := u16.
Definition _cat62__s16 := s16.
Definition _cat62__s24 := s24.
Definition _cat62__s32 := s32.
Definition _cat62__CHARSET_6BIT := CHARSET_6BIT.
Definition _cat62__decode_callsign := decode_callsign.
Definition _cat62__presence := presence.
Definition _cat62__decode_bds10 := decode_bds10.
Definition _cat62__decode_bds17 := decode_bds17.
Definition _cat62__decode_bds30 := decode_bds30.
Definition _cat62__decode_bds40 := decode_bds40.
Definition _cat62__decode_bds50 := decode_bds50.
Definition _cat62__decode_bds60 := decode_bds60.

(** cat.py:10397-10397 *)
Definition _cat62_CAT_062 : Z := 62.
Definition _cat62__EMERGENCY_CODES : table :=
  [(1, "GENERAL EMERGENCY"); (2, "LIFEGUARD/MEDICAL"); (3, "MIN FUEL"); (4, "NO COMMS");
   (5, "UNLAWFUL INTERFERENCE"); (6, "DOWNED AIRCRAFT")].

(** The names of item 290. *)
Definition names_62_290 : list string :=
  ["track"; "psr"; "ssr"; "mode_s"; "ads_c"; "ads_b_es"; "vdl4"; "uat"; "loop"; "mlat"].

(** The names of item 295. *)
Definition _I062_295_NAMES : list string :=
  ["mfl"; "md1"; "md2"; "mda"; "md4"; "md5"; "mhg"; "ias"; "tas";
   "sal"; "fss"; "tid"; "com"; "sab"; "acs"; "bvr"; "gvr"; "ran";
   "tar"; "tan"; "gsp"; "vun"; "met"; "emc"; "pos"; "gal"; "pun";
   "mb"; "iar"; "mac"; "bps"].

(** A table of sizes: [enumerate(sizes)], [None] where the size is read from
    the item. *)
Definition _fixed380 : list (Z * option Z) :=
  enumerate [Some 3; Some 6; Some 2; Some 2; Some 2; Some 2; Some 2; Some 1; None; Some 2; Some 2; Some 7; Some 2; Some 2;
             Some 2; Some 2; Some 2; Some 2; Some 1; None; Some 1; Some 6; Some 2; Some 1; None; Some 2; Some 2; Some 2].

Definition _cat62__decode_380_ed121_schema : schema :=
  [("icao24", TStr); ("callsign", TStr); ("mag_hdg_deg", TFloat); ("mach", TFloat);
   ("ias_kt", TEither (TInt 0 65535) TFloat); ("tas_kt", TEither (TInt 0 32767) TFloat);
   ("selected_alt_ft", TInt (-102400) 102375); ("final_alt_ft", TInt (-102400) 102375);
   ("baro_vr_fpm", TEither (TInt (-16384) 16352) TFloat); ("geo_vr_fpm", TFloat); ("roll_deg", TFloat);
   ("track_angle_rate_degs", TFloat); ("heading_deg", TFloat); ("speed_ms", TFloat);
   ("emitter_category", TInt 0 255); ("aircraft_lat_deg", TFloat); ("aircraft_lon_deg", TFloat);
   ("aircraft_geo_alt_ft", TFloat); ("baro_setting_mb", TFloat);
   ("wind_speed_kt", TInt 0 65535); ("wind_dir_deg", TInt 0 65535); ("temp_c", TFloat); ("turbulence", TInt 0 255)] ++
  bds_schema.

(** Meteorological data; cat.py:10781-10791 *)
Definition _cat62_met (data : bytes) : cur (dict * Z) unit :=
  met_flags <- try_call (fun pos => _cat62__presence data pos 1) (raise_ ValueError) ;;
  for_each (enumerate [2; 2; 2; 1]) (fun '(met_index, met_size) =>
    if negb (flag_at met_flags met_index) then skip else
    need data met_size (return_ (fun _ out => (out, len data))) ;;
    (if met_index =? 0 then
      v <- on_slice data 0 2 _cat62__u16 ;;
      set_ "wind_speed_kt" (VInt v)
     else if met_index =? 1 then
      v <- on_slice data 0 2 _cat62__u16 ;;
      set_ "wind_dir_deg" (VInt v)
     else if met_index =? 2 then
      v <- on_slice data 0 2 _cat62__s16 ;;
      set_ "temp_c" (VFloat (fmul (fl v) (dec 25 2)))
     else
      b <- at_ data 0 ;;
      set_ "turbulence" (VInt b)) ;;
    adv met_size).

(** The subfields of a fixed size; cat.py:10808-10842 *)
Definition _cat62_subfield_380 (data : bytes) (idx : Z) : cur (dict * Z) unit :=
  if idx =? 0 then
    s <- on_slice data 0 3 (fun raw => Ok (hex raw)) ;;
    set_ "icao24" (VStr s)
  else if idx =? 1 then
    s <- on_slice data 0 6 _cat62__decode_callsign ;;
    set_ "callsign" (VStr s)
  else if idx =? 2 then
    v <- on_slice data 0 2 _cat62__u16 ;;
    set_ "mag_hdg_deg" (VFloat (py_round (fdiv_raw (fl (v * 360)) (fl 65536)) 3))
  else if idx =? 3 then
    w <- on_slice data 0 2 _cat62__u16 ;;
    (if bit w 0x8000 then
      set_ "mach" (VFloat (py_round (fmul (fl (Z.land w 0x7FFF)) (dec 1 3)) 3))
     else
      set_ "ias_kt" (VFloat (py_round (fdiv_raw (fl (Z.land w 0x7FFF * 3600)) (fl 16384)) 2)))
  else if idx =? 4 then
    v <- on_slice data 0 2 _cat62__u16 ;;
    set_ "tas_kt" (VInt (Z.land v 0x7FFF))
  else if (idx =? 5) || (idx =? 6) then
    w <- on_slice data 0 2 _cat62__u16 ;;
    let value := Z.land w 0x1FFF in
    let value := if bit value 0x1000 then value - 0x2000 else value in
    if idx =? 5 then set_ "selected_alt_ft" (VInt (value * 25)) else set_ "final_alt_ft" (VInt (value * 25))
  else if (idx =? 12) || (idx =? 13) then
    w <- on_slice data 0 2 _cat62__u16 ;;
    let value := Z.land w 0x7FFF in
    let value := if bit value 0x4000 then value - 0x8000 else value in
    if idx =? 12 then set_ "baro_vr_fpm" (VFloat (fmul (fl value) (dec 625 2)))
    else set_ "geo_vr_fpm" (VFloat (fmul (fl value) (dec 625 2)))
  else if idx =? 14 then
    v <- on_slice data 0 2 _cat62__s16 ;;
    set_ "roll_deg" (VFloat (py_round (fmul (fl v) (dec 1 2)) 2))
  else if idx =? 15 then
    w <- on_slice data 0 2 _cat62__u16 ;;
    let value := Z.land w 0x03FF in
    let value := if bit value 0x0200 then value - 0x0400 else value in
    set_ "track_angle_rate_degs" (VFloat (py_round (fdiv_raw (fl value) (fl 32)) 3))
  else if idx =? 16 then
    v <- on_slice data 0 2 _cat62__u16 ;;
    set_ "heading_deg" (VFloat (py_round (fdiv_raw (fl (v * 360)) (fl 65536)) 3))
  else if idx =? 17 then
    v <- on_slice data 0 2 _cat62__s16 ;;
    set_ "speed_ms" (VFloat (py_round (fmul (fmul (fl v) (fdiv_raw (fl 1) (fl (2 ^ 14)))) (fl 1852)) 3))
  else if idx =? 20 then
    b <- at_ data 0 ;;
    set_ "emitter_category" (VInt b)
  else if idx =? 21 then
    let scale := fdiv_raw (fl 180) (fl (2 ^ 23)) in
    v <- on_slice data 0 3 _cat62__s24 ;;
    set_ "aircraft_lat_deg" (VFloat (py_round (fmul (fl v) scale) 7)) ;;
    v <- on_slice data 3 6 _cat62__s24 ;;
    set_ "aircraft_lon_deg" (VFloat (py_round (fmul (fl v) scale) 7))
  else if idx =? 22 then
    v <- on_slice data 0 2 _cat62__s16 ;;
    set_ "aircraft_geo_alt_ft" (VFloat (fmul (fl v) (dec 625 2)))
  else if idx =? 25 then
    v <- on_slice data 0 2 _cat62__u16 ;;
    set_ "ias_kt" (VInt v)
  else if idx =? 26 then
    v <- on_slice data 0 2 _cat62__u16 ;;
    set_ "mach" (VFloat (py_round (fmul (fl v) (dec 8 3)) 3))
  else if idx =? 27 then
    v <- on_slice data 0 2 _cat62__u16 ;;
    set_ "baro_setting_mb" (VFloat (fadd (fl 800) (fmul (fl (Z.land v 0x0FFF)) (dec 1 1))))
  else skip.

(** One subfield of [_cat62__decode_380_ed121]; cat.py:10776-10842 *)
Definition _cat62__decode_380_ed121_item (data : bytes) (subfield : Z * option Z) : cur (dict * Z) unit :=
  let (idx, size) := subfield in
  if idx =? 8 then
    need data 1 (return_ (fun _ out => (out, len data))) ;;
    n <- at_ data 0 ;;
    need data (1 + n * 15) (return_ (fun _ out => (out, len data))) ;;
    adv (1 + n * 15)
  else if idx =? 19 then _cat62_met data
  else if idx =? 24 then
    need data 1 (return_ (fun _ out => (out, len data))) ;;
    rep <- at_ data 0 ;;
    adv 1 ;;
    for_range (Z.to_nat rep) (fun _ =>
        need data 8 (return_ (fun _ out => (out, len data))) ;;
        mb <- on_slice data 0 7 (fun mb => Ok mb) ;;
        bds <- at_ data 7 ;;
        adv 8 ;;
        let bds1 := Z.shiftr bds 4 in
        let bds2 := Z.land bds 15 in
        (if (bds1 =? 1) && (bds2 =? 0) then update_ (_cat62__decode_bds10 mb)
         else if (bds1 =? 1) && (bds2 =? 7) then update_ (_cat62__decode_bds17 mb)
         else if (bds1 =? 3) && (bds2 =? 0) then update_ (_cat62__decode_bds30 mb)
         else if (bds1 =? 4) && (bds2 =? 0) then update_ (_cat62__decode_bds40 mb)
         else if (bds1 =? 5) && (bds2 =? 0) then update_ (_cat62__decode_bds50 mb)
         else when ((bds1 =? 6) && (bds2 =? 0)) (update_ (_cat62__decode_bds60 mb))) ;;
        ret (more tt)) tt
  else
    match size with
    | None => skip                       (* [assert size is not None] *)
    | Some size =>
        need data size (return_ (fun _ out => (out, len data))) ;;
        _cat62_subfield_380 data idx ;;
        adv size
    end.

(** cat.py:10771-10843 *)
Definition _cat62__decode_380_ed121 : bytes -> Z -> exc (dict * Z) := compound _fixed380 4 _cat62__decode_380_ed121_item.

(** The subfields of item 390: idx, size and the name of a text field. *)
Definition _fields390 : list (Z * (option Z * string)) :=
  enumerate [(Some 2, ""); (Some 7, "flight_plan_callsign"); (Some 4, ""); (Some 1, ""); (Some 4, "aircraft_type");
             (Some 1, "wake_turb_cat"); (Some 4, "departure_icao"); (Some 4, "destination_icao"); (Some 3, "");
             (Some 2, ""); (Some 2, ""); (None, ""); (Some 6, "aircraft_stand"); (Some 1, ""); (Some 7, "sid");
             (Some 7, "star"); (Some 2, ""); (Some 7, "pre_emergency_callsign")].

Definition time_ty : ty :=
  TDict [("type", TInt 0 31); ("day", TInt 0 3); ("hour", TInt 0 31); ("minute", TInt 0 63);
         ("seconds_available", TBool); ("second", TInt 0 63)].

Definition _cat62__decode_390_ed121_schema : schema :=
  [("flight_plan_callsign", TStr); ("aircraft_type", TStr); ("wake_turb_cat", TStr); ("departure_icao", TStr);
   ("destination_icao", TStr); ("aircraft_stand", TStr); ("sid", TStr); ("star", TStr); ("pre_emergency_callsign", TStr);
   ("departure_arrival_times", TList time_ty); ("fpps_sac", TInt 0 255); ("fpps_sic", TInt 0 255);
   ("ifps_id_type", TInt 0 3); ("ifps_flight_id", TInt 0 134217727);
   ("flight_gat", TOneOf [""; "GAT"; "OAT"; "GAT+OAT"]); ("flight_rules", TOneOf [""; "IFR"; "VFR"; "IFR+VFR"]);
   ("rvsm", TOneOf ["approved"; "exempt"; "not_approved"]); ("high_priority", TTrue);
   ("runway", TStr); ("runway_nu1", TInt 0 255); ("runway_nu2", TInt 0 255); ("cleared_fl", TFloat);
   ("control_centre", TInt 0 255); ("control_position", TInt 0 255);
   ("stand_emplacement", TInt 0 3); ("stand_availability", TInt 0 3);
   ("pre_emergency_squawk_valid", TBool); ("pre_emergency_squawk", TStr)].

(** One time of departure or arrival; cat.py:10865-10873 *)
Definition time_entry (val : Z) : value :=
  VDict [("type", VInt (Z.land (Z.shiftr val 27) 0x1F)); ("day", VInt (Z.land (Z.shiftr val 25) 0x03));
         ("hour", VInt (Z.land (Z.shiftr val 16) 0x1F)); ("minute", VInt (Z.land (Z.shiftr val 8) 0x3F));
         ("seconds_available", VBool (bit val 0x80)); ("second", VInt (Z.land val 0x3F))].

(** The times, [rep] words of four octets from [entry_pos]; cat.py:10861-10875 *)
Fixpoint time_entries (data : bytes) (rep : nat) (entry_pos : Z) : exc (list value) :=
  match rep with
  | O => Ok []
  | S rep =>
      let? val := unpack_u 4 (slice data entry_pos (entry_pos + 4)) in
      let? entries := time_entries data rep (entry_pos + 4) in
      Ok (time_entry val :: entries)
  end.

(** cat.py:10854-10878 *)
Definition _cat62_times (data : bytes) : cur (dict * Z) unit :=
  need data 1 (return_ (fun _ out => (out, len data))) ;;
  rep <- at_ data 0 ;;
  need data (1 + rep * 4) (return_ (fun _ out => (out, len data))) ;;
  pos <- tell ;;
  entries <- lift (time_entries data (Z.to_nat rep) (pos + 1)) ;;
  set_ "departure_arrival_times" (VList entries) ;;
  adv (1 + rep * 4).

(** The subfields that are not text; cat.py:10886-10915 *)
Definition _cat62_subfield_390 (data : bytes) (idx : Z) : cur (dict * Z) unit :=
  if idx =? 0 then
    b <- at_ data 0 ;;
    set_ "fpps_sac" (VInt b) ;;
    b <- at_ data 1 ;;
    set_ "fpps_sic" (VInt b)
  else if idx =? 2 then
    val <- on_slice data 0 4 (unpack_u 4) ;;
    set_ "ifps_id_type" (VInt (Z.land (Z.shiftr val 30) 0x03)) ;;
    set_ "ifps_flight_id" (VInt (Z.land val 0x07FFFFFF))
  else if idx =? 3 then
    b <- at_ data 0 ;;
    let gat := Z.land (Z.shiftr b 6) 0x03 in
    let fr := Z.land (Z.shiftr b 4) 0x03 in
    let rvsm := Z.land (Z.shiftr b 2) 0x03 in
    when (negb (gat =? 0)) (
      s <- lift (index [""; "GAT"; "OAT"; "GAT+OAT"] gat) ;;
      set_ "flight_gat" (VStr s)) ;;
    when (negb (fr =? 0)) (
      s <- lift (index [""; "IFR"; "VFR"; "IFR+VFR"] fr) ;;
      set_ "flight_rules" (VStr s)) ;;
    (if rvsm =? 1 then set_ "rvsm" (VStr "approved")
     else if rvsm =? 2 then set_ "rvsm" (VStr "exempt")
     else when (rvsm =? 3) (set_ "rvsm" (VStr "not_approved"))) ;;
    when (bit b 0x02) (set_ "high_priority" (VBool true))
  else if idx =? 8 then
    nu1 <- at_ data 0 ;;
    nu2 <- at_ data 1 ;;
    ltr <- at_ data 2 ;;
    let letter := if (32 <? ltr) && (ltr <? 127) then chr8 ltr else "" in
    set_ "runway" (VStr (str_int nu1 +:+ str_int nu2 +:+ letter)) ;;
    set_ "runway_nu1" (VInt nu1) ;;
    set_ "runway_nu2" (VInt nu2)
  else if idx =? 9 then
    v <- on_slice data 0 2 _cat62__s16 ;;
    set_ "cleared_fl" (VFloat (fmul (fl v) (dec 25 2)))
  else if idx =? 10 then
    b <- at_ data 0 ;;
    set_ "control_centre" (VInt b) ;;
    b <- at_ data 1 ;;
    set_ "control_position" (VInt b)
  else if idx =? 13 then
    b <- at_ data 0 ;;
    set_ "stand_emplacement" (VInt (Z.land (Z.shiftr b 6) 0x03)) ;;
    set_ "stand_availability" (VInt (Z.land (Z.shiftr b 4) 0x03))
  else if idx =? 16 then
    val <- on_slice data 0 2 _cat62__u16 ;;
    set_ "pre_emergency_squawk_valid" (VBool (bit val 0x1000)) ;;
    set_ "pre_emergency_squawk" (VStr (fmt_o 4 (Z.land val 0x0FFF)))
  else skip.

(** One subfield of [_cat62__decode_390_ed121]; cat.py:10852-10915 *)
Definition _cat62__decode_390_ed121_item (data : bytes) (subfield : Z * (option Z * string)) : cur (dict * Z) unit :=
  let '(idx, (size, name)) := subfield in
  if idx =? 11 then _cat62_times data
  else
    match size with
    | None => skip                       (* [assert size is not None] *)
    | Some size =>
        need data size (return_ (fun _ out => (out, len data))) ;;
        (if String.eqb name "" then skip
         else if String.eqb name "wake_turb_cat" then
          b <- at_ data 0 ;;
          set_ name (VStr (chr8 b))
         else
          s <- on_slice data 0 size ascii_text ;;
          set_ name (VStr s)) ;;
        _cat62_subfield_390 data idx ;;
        adv size
    end.

(** cat.py:10846-10916 *)
Definition _cat62__decode_390_ed121 : bytes -> Z -> exc (dict * Z) := compound _fields390 3 _cat62__decode_390_ed121_item.

Definition _cat62__decode_500_ed121_schema : schema :=
  [("pos_accuracy_x_m", TFloat); ("pos_accuracy_y_m", TFloat); ("geo_alt_accuracy_ft", TFloat);
   ("baro_alt_accuracy_ft", TInt 0 6375)].

(** One subfield of [_cat62__decode_500_ed121]; cat.py:10924-10931 *)
Definition _cat62__decode_500_ed121_item (data : bytes) (subfield : Z * Z) : cur (dict * Z) unit :=
  let (idx, size) := subfield in
  need data size (return_ (fun _ out => (out, len data))) ;;
  (if idx =? 0 then
    v <- on_slice data 0 2 _cat62__u16 ;;
    set_ "pos_accuracy_x_m" (VFloat (fmul (fl v) (dec 5 1))) ;;
    v <- on_slice data 2 4 _cat62__u16 ;;
    set_ "pos_accuracy_y_m" (VFloat (fmul (fl v) (dec 5 1)))
   else if idx =? 3 then
    b <- at_ data 0 ;;
    set_ "geo_alt_accuracy_ft" (VFloat (fmul (fl b) (dec 625 2)))
   else when (idx =? 4) (
    b <- at_ data 0 ;;
    set_ "baro_alt_accuracy_ft" (VInt (b * 25)))) ;;
  adv size.

(** cat.py:10919-10932 *)
Definition _cat62__decode_500_ed121 : bytes -> Z -> exc (dict * Z) :=
  compound (enumerate [4; 2; 4; 1; 1; 2; 2; 1]) 2 _cat62__decode_500_ed121_item.

Definition _cat62__decode_340_ed121_schema : schema :=
  [("measured_by", TStr); ("meas_range_nm", TFloat); ("meas_az_deg", TFloat);
   ("meas_alt_ft", TInt (-819200) 819175); ("squawk", TStr)].

(** One subfield of [_cat62__decode_340_ed121]; cat.py:10940-10948 *)
Definition _cat62__decode_340_ed121_item (data : bytes) (subfield : Z * Z) : cur (dict * Z) unit :=
  let (idx, size) := subfield in
  need data size (return_ (fun _ out => (out, len data))) ;;
  (if idx =? 0 then
    b1 <- at_ data 0 ;;
    b2 <- at_ data 1 ;;
    set_ "measured_by" (VStr (str_int b1 +:+ "/" +:+ str_int b2))
   else if idx =? 1 then
    v <- on_slice data 0 2 _cat62__u16 ;;
    set_ "meas_range_nm" (VFloat (py_round (fdiv_raw (fl v) (fl 256)) 3)) ;;
    v <- on_slice data 2 4 _cat62__u16 ;;
    set_ "meas_az_deg" (VFloat (py_round (fdiv_raw (fl (v * 360)) (fl 65536)) 3))
   else if idx =? 2 then
    v <- on_slice data 0 2 _cat62__s16 ;;
    set_ "meas_alt_ft" (VInt (v * 25))
   else when (idx =? 4) (
    v <- on_slice data 0 2 _cat62__u16 ;;
    set_ "squawk" (VStr (fmt_o 4 (Z.land v 0x0FFF))))) ;;
  adv size.

(** cat.py:10935-10949 *)
Definition _cat62__decode_340_ed121 : bytes -> Z -> exc (dict * Z) :=
  compound (enumerate [2; 4; 2; 4; 2; 1]) 1 _cat62__decode_340_ed121_item.

Definition _cat62_decode_cat62_record_schema : schema :=
  [("sac", TInt 0 255); ("sic", TInt 0 255); ("service_id", TInt 0 255); ("tod_s", TFloat);
   ("lat_deg", TFloat); ("lon_deg", TFloat); ("x_m", TFloat); ("y_m", TFloat); ("vx_ms", TFloat);
   ("vy_ms", TFloat); ("speed_ms", TFloat); ("heading_deg", TFloat); ("ax_ms2", TFloat);
   ("ay_ms2", TFloat); ("squawk", TStr); ("callsign", TStr);
   ("track_num", TInt 0 4095); ("track_monosensor", TBool); ("confirmed", TBool);
   ("simulated", TTrue); ("_delete", TTrue); ("track_begin", TTrue);
   ("flight_plan_correlated", TTrue); ("mil_emergency", TTrue); ("is_military", TTrue);
   ("mil_id_present", TTrue); ("coasting", TTrue); ("emergency_code", TInt 0 7);
   ("lateral_trend", TOneOf ["constant"; "right"; "left"; "undetermined"]);
   ("speed_trend", TOneOf ["constant"; "increasing"; "decreasing"; "undetermined"]);
   ("vertical_trend", TOneOf ["level"; "climb"; "descent"; "undetermined"]);
   ("alt_discrepancy", TTrue); ("data_ages_s", TMap TFloat); ("emergency_str", TStr);
   ("measured_alt_ft", TInt (-819200) 819175); ("calc_geo_alt_ft", TFloat); ("vertical_rate_fpm", TFloat); ("mode1", TStr);
   ("calc_baro_alt_ft", TInt (-409600) 409575); ("qnh_corrected", TBool);
   ("target_length_m", TInt 0 127); ("target_orientation_deg", TFloat);
   ("target_width_m", TInt 0 127); ("fleet_id", TInt 0 255); ("mode2", TStr)] ++
  [("_ts", TFloat); ("_src", TStr)] ++
  _cat62__decode_380_ed121_schema ++
  _cat62__decode_390_ed121_schema ++
  _cat62__decode_500_ed121_schema ++
  _cat62__decode_340_ed121_schema ++
  map (fun name => ("track_age_" +:+ name +:+ "_s", TFloat)) names_62_290.

Section Cat062.
Context `{Libm}.
(** The ages of item 295, of the names whose flags are set; cat.py:11061-11066 *)
Fixpoint ages_295 (data : bytes) (flags : list bool) (names : list (Z * string)) (ages : dict) : cur (dict * Z) dict :=
  match names with
  | [] => ret ages
  | (index, name) :: names =>
      if negb (flag_at flags index) then ages_295 data flags names ages else
      need data 1 (return_ (fun _ track => (track, len data))) ;;
      b <- at_ data 0 ;;
      adv 1 ;;
      ages_295 data flags names (dset name (VFloat (fmul (fl b) (dec 25 2))) ages)
  end.

(** Item 295; cat.py:11051-11067 *)
Definition _cat62_ages (data : bytes) : cur (dict * Z) unit :=
  flags <- try_call (fun pos => _cat62__presence data pos 5) (return_ (fun _ track => (track, len data))) ;;
  ages <- ages_295 data flags (enumerate _I062_295_NAMES) [] ;;
  when (nonempty ages) (set_ "data_ages_s" (VDict ages)).

(** Item 110; cat.py:11087-11094 *)
Definition _cat62_item_110 (data : bytes) : cur (dict * Z) unit :=
  flags <- try_call (fun pos => _cat62__presence data pos 1) (return_ (fun _ track => (track, len data))) ;;
  for_each (enumerate [1; 4; 6; 2; 2; 1; 1]) (fun '(idx, size) =>
    if negb (flag_at flags idx) then skip else
    need data size (return_ (fun _ track => (track, len data))) ;;
    when (idx =? 4) (
      v <- on_slice data 0 2 _cat62__u16 ;;
      set_ "mode1" (VStr (fmt_o 2 (Z.land v 0x3F)))) ;;
    adv size).

(** Composed track numbers, three octets each; cat.py:11098-11102 *)
Definition _cat62_composed (data : bytes) : cur (dict * Z) unit :=
  while_ (fuel_of data) (fun _ =>
    need data 3 (return_ (fun _ track => (track, len data))) ;;
    b <- at_ data 2 ;;
    adv 3 ;;
    ret (if negb (bit b 0x01) then stop tt else more tt)) tt.

(** cat.py:10956-11116 *)
Definition _cat62_decode_cat62_record_item (data : bytes) (frn : Z) : cur (dict * Z) unit :=
  if frn =? 0 then
    need data 2 (return_ (fun _ track => (track, len data))) ;;
    b1 <- at_ data 0 ;;
    set_ "sac" (VInt b1) ;;
    b2 <- at_ data 1 ;;
    set_ "sic" (VInt b2) ;;
    adv 2
  else if frn =? 1 then
    skip
  else if frn =? 2 then
    need data 1 (return_ (fun _ track => (track, len data))) ;;
    b3 <- at_ data 0 ;;
    set_ "service_id" (VInt b3) ;;
    adv 1
  else if frn =? 3 then
    need data 3 (return_ (fun _ track => (track, len data))) ;;
    v4 <- on_slice data 0 3 (fun raw => Ok (int_from_bytes raw)) ;;
    set_ "tod_s" (VFloat (fdiv_raw (fl v4) (fl 128))) ;;
    adv 3
  else if frn =? 4 then
    need data 8 (return_ (fun _ track => (track, len data))) ;;
    let scale := fdiv_raw (fl 180) (fl (2 ^ 25)) in
    v5 <- on_slice data 0 4 _cat62__s32 ;;
    set_ "lat_deg" (VFloat (py_round (fmul (fl v5) scale) 7)) ;;
    v6 <- on_slice data 4 8 _cat62__s32 ;;
    set_ "lon_deg" (VFloat (py_round (fmul (fl v6) scale) 7)) ;;
    adv 8
  else if frn =? 5 then
    need data 6 (return_ (fun _ track => (track, len data))) ;;
    v7 <- on_slice data 0 3 _cat62__s24 ;;
    set_ "x_m" (VFloat (fmul (fl v7) (dec 5 1))) ;;
    v8 <- on_slice data 3 6 _cat62__s24 ;;
    set_ "y_m" (VFloat (fmul (fl v8) (dec 5 1))) ;;
    adv 6
  else if frn =? 6 then
    need data 4 (return_ (fun _ track => (track, len data))) ;;
    v9 <- on_slice data 0 2 _cat62__s16 ;;
    let vx := fmul (fl v9) (dec 25 2) in
    v10 <- on_slice data 2 4 _cat62__s16 ;;
    let vy := fmul (fl v10) (dec 25 2) in
    adv 4 ;;
    set_ "vx_ms" (VFloat vx) ;;
    set_ "vy_ms" (VFloat vy) ;;
    speed11 <- lift (m_hypot vx vy) ;;
    set_ "speed_ms" (VFloat (py_round speed11 2)) ;;
    when ((ftruth vx) || (ftruth vy)) (
      angle12 <- lift (m_atan2 vx vy) ;;
      set_ "heading_deg" (VFloat (py_round (fmod (degrees angle12) (fl 360)) 2)))
  else if frn =? 7 then
    need data 2 (return_ (fun _ track => (track, len data))) ;;
    b13 <- at_ data 0 ;;
    set_ "ax_ms2" (VFloat (fmul (fl (sign_extend 8 b13)) (dec 25 2))) ;;
    b14 <- at_ data 1 ;;
    set_ "ay_ms2" (VFloat (fmul (fl (sign_extend 8 b14)) (dec 25 2))) ;;
    adv 2
  else if frn =? 8 then
    need data 2 (return_ (fun _ track => (track, len data))) ;;
    v15 <- on_slice data 0 2 _cat62__u16 ;;
    set_ "squawk" (VStr (fmt_o 4 (Z.land v15 0x0FFF))) ;;
    adv 2
  else if frn =? 9 then
    need data 7 (return_ (fun _ track => (track, len data))) ;;
    s16 <- on_slice data 1 7 _cat62__decode_callsign ;;
    set_ "callsign" (VStr s16) ;;
    adv 7
  else if frn =? 10 then
    extra <- try_call (_cat62__decode_380_ed121 data) (return_ (fun _ track => (track, len data))) ;;
    update_ extra
  else if frn =? 11 then
    need data 2 (return_ (fun _ track => (track, len data))) ;;
    v17 <- on_slice data 0 2 _cat62__u16 ;;
    set_ "track_num" (VInt (Z.land v17 0x0FFF)) ;;
    adv 2
  else if frn =? 12 then
    need data 1 (return_ (fun _ track => (track, len data))) ;;
    b <- at_ data 0 ;;
    adv 1 ;;
    set_ "track_monosensor" (VBool (bit b 0x80)) ;;
    set_ "confirmed" (VBool (negb (bit b 0x02))) ;;
    fx_each data b (return_ (fun _ track => (track, len data))) (fun extent b =>
      (if extent =? 1 then
        when (bit b 0x80) (set_ "simulated" (VBool true)) ;;
        when (bit b 0x40) (set_ "_delete" (VBool true)) ;;
        when (bit b 0x20) (set_ "track_begin" (VBool true)) ;;
        when (bit b 0x10) (set_ "flight_plan_correlated" (VBool true))
       else
        (if extent =? 2 then
          when (bit b 0x20) (
            set_ "mil_emergency" (VBool true) ;;
            set_ "is_military" (VBool true)) ;;
          when (bit b 0x10) (
            set_ "mil_id_present" (VBool true) ;;
            set_ "is_military" (VBool true))
         else
          (if extent =? 3 then
            when (bit b 0x80) (set_ "coasting" (VBool true))
           else
            when (extent =? 4) (
              let ec := Z.land (Z.shiftr b 4) 0x07 in
              when (negb (ec =? 0)) (
                setdefault_ "emergency_code" (VInt ec) ;;
                match tget _cat62__EMERGENCY_CODES ec with
                | Some s => setdefault_ "emergency_str" (VStr s)
                | None => skip
                end))))))
  else if frn =? 13 then
    flags <- try_call (fun pos => _cat62__presence data pos 2) (return_ (fun _ track => (track, len data))) ;;
    for_each (enumerate names_62_290) (fun '(index, name) =>
      if negb (flag_at flags index) then skip else
      let size := if index =? 4 then 2 else 1 in
      need data size (return_ (fun _ track => (track, len data))) ;;
      v <- on_slice data 0 size (fun raw => Ok (int_from_bytes raw)) ;;
      set_ ("track_age_" +:+ name +:+ "_s") (VFloat (fmul (fl v) (dec 25 2))) ;;
      adv size)
  else if frn =? 14 then
    need data 1 (return_ (fun _ track => (track, len data))) ;;
    b <- at_ data 0 ;;
    adv 1 ;;
    s18 <- lift (index ["constant"; "right"; "left"; "undetermined"] (Z.land (Z.shiftr b 6) 3)) ;;
    set_ "lateral_trend" (VStr s18) ;;
    s19 <- lift (index ["constant"; "increasing"; "decreasing"; "undetermined"] (Z.land (Z.shiftr b 4) 3)) ;;
    set_ "speed_trend" (VStr s19) ;;
    s20 <- lift (index ["level"; "climb"; "descent"; "undetermined"] (Z.land (Z.shiftr b 2) 3)) ;;
    set_ "vertical_trend" (VStr s20) ;;
    when (bit b 0x02) (set_ "alt_discrepancy" (VBool true))
  else if frn =? 15 then
    _cat62_ages data
  else if (frn =? 16) || (frn =? 17) || (frn =? 18) || (frn =? 19) then
    need data 2 (return_ (fun _ track => (track, len data))) ;;
    w <- on_slice data 0 2 _cat62__u16 ;;
    adv 2 ;;
    if frn =? 16 then set_ "measured_alt_ft" (VInt (sign_extend 16 w * 25))
    else if frn =? 17 then set_ "calc_geo_alt_ft" (VFloat (fmul (fl (sign_extend 16 w)) (dec 625 2)))
    else if frn =? 18 then
      let raw := Z.land w 0x7FFF in
      let raw := if bit raw 0x4000 then raw - 0x8000 else raw in
      set_ "calc_baro_alt_ft" (VInt (raw * 25)) ;;
      set_ "qnh_corrected" (VBool (bit w 0x8000))
    else set_ "vertical_rate_fpm" (VFloat (fmul (fl (sign_extend 16 w)) (dec 625 2)))
  else if frn =? 20 then
    extra <- try_call (_cat62__decode_390_ed121 data) (return_ (fun _ track => (track, len data))) ;;
    update_ extra
  else if frn =? 21 then
    need data 1 (return_ (fun _ track => (track, len data))) ;;
    b <- at_ data 0 ;;
    adv 1 ;;
    set_ "target_length_m" (VInt (Z.shiftr b 1)) ;;
    fx_each data b (return_ (fun _ track => (track, len data))) (fun extent b =>
      (if extent =? 1 then
        set_ "target_orientation_deg" (VFloat (py_round (fdiv_raw (fl ((Z.shiftr b 1) * 360)) (fl 128)) 2))
       else
        when (extent =? 2) (set_ "target_width_m" (VInt (Z.shiftr b 1)))))
  else if frn =? 22 then
    need data 1 (return_ (fun _ track => (track, len data))) ;;
    b22 <- at_ data 0 ;;
    set_ "fleet_id" (VInt b22) ;;
    adv 1
  else if frn =? 23 then
    _cat62_item_110 data
  else if frn =? 24 then
    need data 2 (return_ (fun _ track => (track, len data))) ;;
    v23 <- on_slice data 0 2 _cat62__u16 ;;
    set_ "mode2" (VStr (fmt_o 4 (Z.land v23 0x0FFF))) ;;
    adv 2
  else if frn =? 25 then
    _cat62_composed data
  else if frn =? 26 then
    extra <- try_call (_cat62__decode_500_ed121 data) (return_ (fun _ track => (track, len data))) ;;
    update_ extra
  else if frn =? 27 then
    extra <- try_call (_cat62__decode_340_ed121 data) (return_ (fun _ track => (track, len data))) ;;
    update_ extra
  else if (frn =? 33) || (frn =? 34) then
    goto (_cat62__skip_len_field data)
  else if 28 <=? frn then
    skip
  else
    break_.

Definition _cat62_decode_cat62_record (now : float) (data : bytes) (pos : Z) : exc (dict * Z) :=
  let? (fspec, pos) := _cat62_parse_fspec data pos in
  run (for_fspec fspec (_cat62_decode_cat62_record_item data) ;;
       return_ (fun pos track => (track, pos))) pos (new_track now "ASTERIX CAT-62 Ed.1.21").

(** Records with a position are tracks; of the others that carry anything, the
    octets are published. [topic] is the handler's, for the source of a record. *)
Definition _cat62_TOPIC_062 (root source : string) : string :=
  root +:+ "/air/" +:+ source +:+ "/fused/unknown/aircraft".

Definition _cat62_route (topic : string -> string) (track : dict) : routed :=
  if Z.of_nat (length track) <=? 2 then Unplaced else
  if located track then Reported (topic (_asterix_source track)) "normalized"
  else Overheard (topic (_asterix_source track)).

(** [_h] of [_cat62__make_handler]; [clock pos] is the time at which the record at
    [pos] is read. *)
Definition _cat62_handler (repr : value -> string) (topic : string -> string) (clock : Z -> float)
    (data : bytes) : list sending * exc unit :=
  handle_block repr 62 "cat062" (fun data pos => _cat62_decode_cat62_record (clock pos) data pos) (_cat62_route topic) data.
End Cat062.

(** ** Correctness *)
Definition cat062_schema : schema := _cat62_decode_cat62_record_schema.

#[local] Hint Opaque _cat62__decode_380_ed121 _cat62__decode_390_ed121 _cat62__decode_500_ed121 _cat62__decode_340_ed121 : typeclass_instances.

(** One subfield after another, each with its index and size known. *)
Ltac by_index tac :=
  intros x p d Hin Hp Hd; vm_compute in Hin;
  repeat (destruct Hin as [<-|Hin]; [lazy beta iota zeta delta [when Z.eqb Pos.eqb orb]; pick_name; tac|]); destruct Hin.

#[local] Instance decode_380_ok62 data : TryOk data (_cat62__decode_380_ed121 data) (fun out => fields_ok _cat62__decode_380_ed121_schema out = true).
Proof.
  apply compound_ok; [lia|]. unfold subfield_ok, _cat62__decode_380_ed121_item, _cat62_met, _cat62_subfield_380, _cat62__u16, _cat62__s16, _cat62__s24, _cat62__decode_callsign, _cat62__presence.
  by_index ltac:(wp_record).
Qed.

Lemma time_entries_ok data rep pos : 0 <= pos -> pos + 4 * Z.of_nat rep <= len data ->
  returns (time_entries data rep pos) (fun l => has_ty (TList time_ty) (VList l) = true) noE.
Proof.
  revert pos. induction rep as [|rep IH]; intros pos H0 Hl; [done|]. cbn [time_entries].
  apply returns_bind. eapply returns_weaken; [apply (slice_ok_unpack_u 4); rewrite len_slice; lia| |done].
  intros val Hv. apply returns_bind. eapply returns_weaken; [apply IH; lia| |done].
  intros entries He. cbn [returns]. change (has_ty (TList time_ty) (VList ([time_entry val] ++ entries)) = true).
  cbn [has_ty forallb app]. apply andb_true_iff. split; [|exact He]. unfold time_ty, time_entry. solve_ty.
Qed.

Lemma times_ok data p d :
  0 <= p <= len data -> wt _cat62__decode_390_ed121_schema d ->
  wp (_cat62_times data) p d (fun _ p' d' => p <= p' <= len data /\ wt _cat62__decode_390_ed121_schema d') noB
    (fills data _cat62__decode_390_ed121_schema p) value_error.
Proof.
  intros Hp Hd. unfold _cat62_times. do 2 wp_rule; [by wp_record|]. do 2 wp_rule.
  do 2 wp_rule; [by wp_record|]. do 2 wp_rule. apply wp_bind.
  eapply wp_lift_ok; [apply time_entries_ok; unfold InRange in *; lia|by intros|].
  intros entries He. unfold InRange in *. wp_rule. eapply wp_set; [exact Hd|eapply field_okI; [reflexivity|exact He]|].
  intros d' Hd'. apply wp_adv. split; [lia|exact Hd'].
Qed.

#[local] Instance decode_390_ok62 data : TryOk data (_cat62__decode_390_ed121 data) (fun out => fields_ok _cat62__decode_390_ed121_schema out = true).
Proof.
  apply compound_ok; [lia|]. unfold subfield_ok, _cat62__decode_390_ed121_item, _cat62_subfield_390, _cat62__u16, _cat62__s16, ascii_text.
  by_index ltac:(first [by apply times_ok | wp_record]).
Qed.

#[local] Instance decode_500_ok62 data : TryOk data (_cat62__decode_500_ed121 data) (fun out => fields_ok _cat62__decode_500_ed121_schema out = true).
Proof.
  apply compound_ok; [lia|]. unfold subfield_ok, _cat62__decode_500_ed121_item, _cat62__u16, _cat62__s16.
  by_index ltac:(wp_record).
Qed.

#[local] Instance decode_340_ok62 data : TryOk data (_cat62__decode_340_ed121 data) (fun out => fields_ok _cat62__decode_340_ed121_schema out = true).
Proof.
  apply compound_ok; [lia|]. unfold subfield_ok, _cat62__decode_340_ed121_item, _cat62__u16, _cat62__s16.
  by_index ltac:(wp_record).
Qed.

Lemma ages_295_ok data flags names ages p0 p d B E :
  p0 < len data -> 0 <= p <= len data -> wt cat062_schema d -> has_ty (TMap TFloat) (VDict ages) = true ->
  wp (ages_295 data flags names ages) p d
    (fun ages' p' d' => has_ty (TMap TFloat) (VDict ages') = true /\ p <= p' <= len data /\ wt cat062_schema d') B
    (record_result data cat062_schema p0) E.
Proof.
  intros Hp0. revert ages p. induction names as [|[i name] names IH]; intros ages p Hp Hd Ha; cbn [ages_295].
  { apply wp_ret. split_and!; [done|lia|lia|done]. }
  destruct (negb _); [by apply IH|]. do 2 wp_rule; [by wp_record|]. do 4 wp_rule.
  eapply wp_weaken; [apply IH; [lia|done|by apply has_ty_map_dset]| |done].
  intros ages' p' d' (Ha' & Hp' & Hd'). split_and!; [done|lia|lia|done].
Qed.

Lemma ages_ok data p0 p d B E :
  p0 < len data -> 0 <= p <= len data -> wt cat062_schema d ->
  wp (_cat62_ages data) p d (fun _ p' d' => p <= p' <= len data /\ wt cat062_schema d') B
    (record_result data cat062_schema p0) E.
Proof.
  intros Hp0 Hp Hd. unfold _cat62_ages, _cat62__presence. do 2 wp_rule; [by wp_record|]. apply wp_bind.
  eapply wp_weaken; [apply ages_295_ok; [done|lia|done|done]| |done].
  intros ages p1 d1 (Ha & Hpa & Hd1). unfold when. destruct (nonempty ages); [|by wp_record].
  eapply wp_set; [exact Hd1|eapply field_okI; [reflexivity|exact Ha]|].
  intros d2 Hd2. split; [lia|exact Hd2].
Qed.

Lemma item_110_ok data p0 p d B E :
  p0 < len data -> 0 <= p <= len data -> wt cat062_schema d ->
  wp (_cat62_item_110 data) p d (fun _ p' d' => p <= p' <= len data /\ wt cat062_schema d') B
    (record_result data cat062_schema p0) E.
Proof.
  intros Hp0 Hp Hd. unfold _cat62_item_110, _cat62__presence, _cat62__u16. do 2 wp_rule; [by wp_record|].
  apply (wp_for_each (fun p' d' => p <= p' <= len data /\ wt cat062_schema d')); [|by split; [lia|]|done].
  intros [i size] p1 d1 Hin [Hpa Hd1]. vm_compute in Hin.
  repeat (destruct Hin as [[= <- <-]|Hin]; [lazy beta iota zeta delta [when Z.eqb Pos.eqb]; by wp_record|]); destruct Hin.
Qed.

Lemma composed_ok data p0 p d B E :
  p0 < len data -> 0 <= p <= len data -> wt cat062_schema d ->
  wp (_cat62_composed data) p d (fun _ p' d' => p <= p' <= len data /\ wt cat062_schema d') B
    (record_result data cat062_schema p0) E.
Proof.
  intros Hp0 Hp Hd. unfold _cat62_composed.
  apply (wp_while data (fun _ p' d' => p <= p' /\ wt cat062_schema d'));
    [|by split; [lia|]|lia|apply fuel_of_enough; lia].
  intros u p1 d1 [Hp1 Hd1] Hl. apply wp_bind, wp_need; intros Hs; [by wp_record|].
  apply wp_bind, wp_at; [lia|lia|]. intros b Hb. apply wp_bind, wp_adv, wp_ret.
  destruct (negb _); cbn; split_and!; try done; lia.
Qed.


Section Correctness.
Context `{LibmOk}.

Lemma item_ok_cat062 p0 data frn : p0 < len data ->
  item_ok data cat062_schema (record_result data cat062_schema p0) noE
    (_cat62_decode_cat62_record_item data frn).
Proof.
  intros Hp0 p d Hp Hd. unfold _cat62_decode_cat62_record_item, _cat62__u16, _cat62__s16, _cat62__s24, _cat62__s32, _cat62__decode_callsign, _cat62__presence.
  by_items ltac:(first [by apply (ages_ok data p0) | by apply (item_110_ok data p0) | by apply (composed_ok data p0) | wp_record]).
Qed.

Lemma decode_cat062_ok now data p : 0 <= p < len data ->
  returns (_cat62_decode_cat62_record now data p) (record_result data cat062_schema p) noE.
Proof.
  intros Hp. unfold _cat62_decode_cat62_record. apply record_decoder_ok;
    [done|apply new_track_ok; vm_compute; reflexivity|by apply parse_fspec_strict| |].
  - intros frn _. apply item_ok_cat062; lia.
  - intros p' d' Hp' Hd. by apply wp_return.
Qed.

(** What the protobuf view of a record loses. *)
Definition dropped062 : list string :=
  ["simulated"; "_delete"; "flight_plan_correlated"; "mil_emergency"; "is_military";
   "mil_id_present"; "coasting"; "emergency_code"; "tas_kt"; "acas_ra_active"; "acas_ra_hex";
   "acas_ra_corrective"; "acas_ra_terminated"; "acas_multi_threat"; "sel_alt_mcp_ft";
   "sel_alt_fms_ft"; "vnav_active"; "alt_hold"; "approach_mode"; "true_track_deg"; "bds_gs_kt";
   "track_rate_degs"; "ivv_fpm"; "high_priority"] ++
  map fst bds10_schema.

Lemma cat062_block_ok repr topic clock data : len data <= 0xFFFF - 3 ->
  let '(out, r) := _cat62_handler repr topic clock data in
  delivered repr 62 "cat062" (fun data pos => _cat62_decode_cat62_record (clock pos) data pos) (_cat62_route topic)
    cat062_schema Cat62Track (fun _ => False) dropped062 noE data 0 out r.
Proof.
  intros Hl. apply handle_block_ok; [|vm_compute; reflexivity| |lia].
  - intros p Hp. by apply decode_cat062_ok.
  - intros track t status _. unfold _cat62_route. by repeat case_match.
Qed.
End Correctness.
