(* ===== verification/Cat063.v ===== *)
(** * CAT-063: sensor status

    cat.py:11230-11508. The decoder of one frame and its handler. *)

From S2P Require Import Prelude PyFloat PyData Schema Ranges Cursor Safety Contract AsterixCommon.

Definition _cat63_TOPIC_SENSOR (root source : string) : string :=
  root +:+ "/land/" +:+ source +:+ "/radar/neutral/sensor".
Definition _cat63_parse_fspec := parse_fspec.
Definition _cat63__skip_len_field := skip_len_field.

(** cat.py:11242-11242 *)
Definition _cat63_CAT_063 : Z := 63.
(** cat.py:11244-11244 *)
Definition _cat63__CON : table :=
  [(0, "operational"); (1, "degraded"); (2, "initialization"); (3, "not_connected")].
Definition _cat63__decode_060_schema : schema :=
  [("connection_status", TOneOf ("undefined" :: map snd _cat63__CON)); ("psr_nogo", TBool);
   ("ssr_nogo", TBool); ("mds_nogo", TBool); ("ads_nogo", TBool); ("mlt_nogo", TBool);
   ("operational_release_inhibited", TBool); ("overload_processor", TBool);
   ("overload_transmission", TBool); ("monitoring_disconnected", TBool);
   ("time_source_invalid", TBool); ("no_plot_warning", TBool); ("test_target_failure", TBool);
   ("spoofing_suspected", TBool)].

(** cat.py:11324-11363 *)
Definition _cat63__decode_060 (data : bytes) (pos : Z) (msg : dict) : exc (dict * Z) :=
  run (
    need data 1 (return_ (fun pos msg => (msg, pos))) ;;
    b1 <- at_ data 0 ;;
    adv 1 ;;
    set_ "connection_status" (VStr (tget_or _cat63__CON (Z.land (Z.shiftr b1 6) 0x03) "undefined")) ;;
    set_ "psr_nogo" (VBool (bit b1 0x20)) ;;
    set_ "ssr_nogo" (VBool (bit b1 0x10)) ;;
    set_ "mds_nogo" (VBool (bit b1 0x08)) ;;
    set_ "ads_nogo" (VBool (bit b1 0x04)) ;;
    set_ "mlt_nogo" (VBool (bit b1 0x02)) ;;
    when (negb (bit b1 0x01)) (return_ (fun pos msg => (msg, pos))) ;;
    need data 1 (return_ (fun pos msg => (msg, pos))) ;;
    b2 <- at_ data 0 ;;
    adv 1 ;;
    set_ "operational_release_inhibited" (VBool (bit b2 0x80)) ;;
    set_ "overload_processor" (VBool (bit b2 0x40)) ;;
    set_ "overload_transmission" (VBool (bit b2 0x20)) ;;
    set_ "monitoring_disconnected" (VBool (bit b2 0x10)) ;;
    set_ "time_source_invalid" (VBool (bit b2 0x08)) ;;
    set_ "no_plot_warning" (VBool (bit b2 0x04)) ;;
    when (negb (bit b2 0x01)) (return_ (fun pos msg => (msg, pos))) ;;
    need data 1 (return_ (fun pos msg => (msg, pos))) ;;
    b3 <- at_ data 0 ;;
    adv 1 ;;
    when (bit b3 0x80) (set_ "test_target_failure" (VBool (bit b3 0x40))) ;;
    when (bit b3 0x20) (set_ "spoofing_suspected" (VBool (bit b3 0x10))) ;;
    fx_each data b3 skip (fun _ _ => skip) ;;
    return_ (fun pos msg => (msg, pos))) pos msg.

Definition _cat63_decode_cat063_schema : schema := _cat63__decode_060_schema ++
  [("sac", TInt 0 255); ("sic", TInt 0 255); ("service_id", TInt 0 255); ("tod_s", TFloat);
   ("sensor_sac", TInt 0 255); ("sensor_sic", TInt 0 255);
   ("time_stamping_bias_ms", TInt (-32768) 32767); ("ssr_range_gain", TFloat);
   ("ssr_range_bias_nm", TFloat); ("ssr_azimuth_bias_deg", TFloat); ("psr_range_gain", TFloat);
   ("psr_range_bias_nm", TFloat); ("psr_azimuth_bias_deg", TFloat);
   ("psr_elevation_bias_deg", TFloat)].

(** cat.py:11366-11419 *)
Definition _cat63_decode_cat063_item (data : bytes) (frn : Z) : cur (option dict) unit :=
  if frn =? 0 then
    need data 2 break_ ;;
    b1 <- at_ data 0 ;;
    set_ "sac" (VInt b1) ;;
    b2 <- at_ data 1 ;;
    set_ "sic" (VInt b2) ;;
    adv 2
  else if frn =? 1 then
    need data 1 break_ ;;
    b3 <- at_ data 0 ;;
    set_ "service_id" (VInt b3) ;;
    adv 1
  else if frn =? 2 then
    need data 3 break_ ;;
    b4 <- at_ data 0 ;;
    b5 <- at_ data 1 ;;
    b6 <- at_ data 2 ;;
    let raw := Z.lor (Z.lor (Z.shiftl b4 16) (Z.shiftl b5 8)) b6 in
    set_ "tod_s" (VFloat (fdiv_raw (fl raw) (fl 128))) ;;
    adv 3
  else if frn =? 3 then
    need data 2 break_ ;;
    b7 <- at_ data 0 ;;
    set_ "sensor_sac" (VInt b7) ;;
    b8 <- at_ data 1 ;;
    set_ "sensor_sic" (VInt b8) ;;
    adv 2
  else if frn =? 4 then
    call_on (_cat63__decode_060 data)
  else if frn =? 5 then
    need data 2 break_ ;;
    v9 <- on_slice data 0 2 (unpack_s 2) ;;
    set_ "time_stamping_bias_ms" (VInt v9) ;;
    adv 2
  else if frn =? 6 then
    need data 4 break_ ;;
    v10 <- on_slice data 0 2 (unpack_s 2) ;;
    set_ "ssr_range_gain" (VFloat (py_round (fdiv_raw (fl v10) (fl 100000)) 6)) ;;
    v11 <- on_slice data 2 4 (unpack_s 2) ;;
    set_ "ssr_range_bias_nm" (VFloat (py_round (fdiv_raw (fl v11) (fl 128)) 4)) ;;
    adv 4
  else if frn =? 7 then
    need data 2 break_ ;;
    v12 <- on_slice data 0 2 (unpack_s 2) ;;
    set_ "ssr_azimuth_bias_deg" (VFloat (py_round (fmul (fl v12) (fdiv_raw (fl 360) (fl 65536))) 4)) ;;
    adv 2
  else if frn =? 8 then
    need data 4 break_ ;;
    v13 <- on_slice data 0 2 (unpack_s 2) ;;
    set_ "psr_range_gain" (VFloat (py_round (fdiv_raw (fl v13) (fl 100000)) 6)) ;;
    v14 <- on_slice data 2 4 (unpack_s 2) ;;
    set_ "psr_range_bias_nm" (VFloat (py_round (fdiv_raw (fl v14) (fl 128)) 4)) ;;
    adv 4
  else if frn =? 9 then
    need data 2 break_ ;;
    v15 <- on_slice data 0 2 (unpack_s 2) ;;
    set_ "psr_azimuth_bias_deg" (VFloat (py_round (fmul (fl v15) (fdiv_raw (fl 360) (fl 65536))) 4)) ;;
    adv 2
  else if frn =? 10 then
    need data 2 break_ ;;
    v16 <- on_slice data 0 2 (unpack_s 2) ;;
    set_ "psr_elevation_bias_deg" (VFloat (py_round (fmul (fl v16) (fdiv_raw (fl 360) (fl 65536))) 4)) ;;
    adv 2
  else if (frn =? 11) || (frn =? 12) then
    goto (_cat63__skip_len_field data)
  else
    break_.

Definition _cat63_decode_cat063 (data : bytes) : exc (option dict) :=
  if len data <? 1 then Ok None else
  let? (fspec, pos) := _cat63_parse_fspec data 0 in
  run (for_fspec fspec (_cat63_decode_cat063_item data) ;;
       return_ (fun _ msg => msg_or_none msg)) pos [].

(** [_h] of [_cat63__make_handler] *)
Definition _cat63_handler (root : string) (now : float) (data : bytes) : exc (list sample) :=
  let? o := _cat63_decode_cat063 data in
  match o with
  | None => Ok []
  | Some msg =>
      let msg := stamp now "ASTERIX CAT-63 Ed.1.7" msg in
      Ok [(_cat63_TOPIC_SENSOR root (_asterix_source msg), msg)]
  end.

(** ** Correctness *)

(** The keys and values of a published record. *)
Definition cat063_schema : schema := _cat63_decode_cat063_schema ++ stamp_schema.

#[local] Hint Opaque _cat63__decode_060 : typeclass_instances.

#[local] Instance decode_060_ok data :
  CallOnOk data (_cat63__decode_060 data) _cat63_decode_cat063_schema.
Proof.
  intros p d Hp Hd. apply run_returns. wp_auto.
Qed.

Lemma item_ok_cat063 data frn :
  item_ok data _cat63_decode_cat063_schema (record_of _cat63_decode_cat063_schema) noE
    (_cat63_decode_cat063_item data frn).
Proof.
  intros p d Hp Hd. unfold _cat63_decode_cat063_item, _cat63__skip_len_field.
  by_items wp_auto.
Qed.

(** For every frame and every receive time, the CAT-063 handler terminates
    without an exception and publishes at most one record, whose keys and
    values are those of [cat063_schema], which keeps to the protobuf message
    AsterixCat63Status and goes to the topic its own SAC/SIC give. *)
Lemma cat063_handler_ok root now data :
  returns (_cat63_handler root now data)
    (fun out => len out <= 1 /\
       samples_ok (_cat63_TOPIC_SENSOR root) cat063_schema AsterixCat63Status out) noE.
Proof.
  apply (frame_handler_ok _ _cat63_decode_cat063_schema); [|reflexivity].
  apply frame_decoder_ok; [exact _|]. intros frn _. apply item_ok_cat063.
Qed.
