(* ===== verification/Cat065.v ===== *)
(** * CAT-065: surveillance data processing status

    cat.py:11537-11776. The decoder of one frame and its handler. *)

From S2P Require Import Prelude PyFloat PyData Schema Ranges Cursor Safety Contract AsterixCommon.

Definition _cat65_TOPIC_SENSOR (root source : string) : string :=
  root +:+ "/land/" +:+ source +:+ "/radar/neutral/sensor".
Definition _cat65_parse_fspec := parse_fspec.
Definition _cat65__skip_len_field := skip_len_field.

(** cat.py:11550-11550 *)
Definition _cat65_CAT_065 : Z := 65.
(** cat.py:11552-11552 *)
Definition _cat65__MSG_TYPES : table :=
  [(1, "sdps_status"); (2, "end_of_batch"); (3, "service_status_report")].
(** cat.py:11554-11554 *)
Definition _cat65__NOGO : table :=
  [(0, "operational"); (1, "degraded"); (2, "not_connected"); (3, "unknown")].
(** cat.py:11556-11556 *)
Definition _cat65__PSS : table :=
  [(0, "not_applicable"); (1, "sdps1_selected"); (2, "sdps2_selected"); (3, "sdps3_selected")].
(** cat.py:11558-11567 *)
Definition _cat65__SERVICE_STATUS : table :=
  [(1, "degradation"); (2, "degradation_ended"); (3, "main_radar_out_of_service");
   (4, "interrupted_by_operator"); (5, "interrupted_due_to_contingency");
   (6, "ready_for_restart_after_contingency"); (7, "ended_by_operator");
   (8, "failure_of_user_main_radar"); (9, "restarted_by_operator");
   (10, "main_radar_becoming_operational"); (11, "main_radar_becoming_degraded");
   (12, "continuity_interrupted_disconnection"); (13, "continuity_restarted");
   (14, "synchronised_on_backup_radar"); (15, "synchronised_on_main_radar");
   (16, "main_and_backup_radar_failed")].
Definition _cat65_decode_cat065_schema : schema :=
  [("sac", TInt 0 255); ("sic", TInt 0 255); ("msg_type", TStr); ("service_id", TInt 0 255);
   ("tod_s", TFloat); ("batch_number", TInt 0 255);
   ("sdps_status", TOneOf ("unknown" :: map snd _cat65__NOGO)); ("overload", TTrue);
   ("time_source_invalid", TTrue); ("processing_system", TOneOf ("unknown" :: map snd _cat65__PSS));
   ("track_renumbering_toggle", TBool); ("service_status_report", TStr)].

(** cat.py:11647-11688 *)
Definition _cat65_decode_cat065_item (data : bytes) (frn : Z) : cur (option dict) unit :=
  if frn =? 0 then
    need data 2 break_ ;;
    b1 <- at_ data 0 ;;
    set_ "sac" (VInt b1) ;;
    b2 <- at_ data 1 ;;
    set_ "sic" (VInt b2) ;;
    adv 2
  else if frn =? 1 then
    need data 1 break_ ;;
    b3 <- at_ data 0 ;;
    b4 <- at_ data 0 ;;
    set_ "msg_type" (VStr (tget_or _cat65__MSG_TYPES b3 ("type_" +:+ str_int b4))) ;;
    adv 1
  else if frn =? 2 then
    need data 1 break_ ;;
    b5 <- at_ data 0 ;;
    set_ "service_id" (VInt b5) ;;
    adv 1
  else if frn =? 3 then
    need data 3 break_ ;;
    v6 <- on_slice data 0 3 (fun raw => Ok (int_from_bytes raw)) ;;
    set_ "tod_s" (VFloat (fdiv_raw (fl v6) (fl 128))) ;;
    adv 3
  else if frn =? 4 then
    need data 1 break_ ;;
    b7 <- at_ data 0 ;;
    set_ "batch_number" (VInt b7) ;;
    adv 1
  else if frn =? 5 then
    need data 1 break_ ;;
    b <- at_ data 0 ;;
    adv 1 ;;
    set_ "sdps_status" (VStr (tget_or _cat65__NOGO (Z.land (Z.shiftr b 6) 0x03) "unknown")) ;;
    when (bit b 0x20) (set_ "overload" (VBool true)) ;;
    when (bit b 0x10) (set_ "time_source_invalid" (VBool true)) ;;
    set_ "processing_system" (VStr (tget_or _cat65__PSS (Z.land (Z.shiftr b 2) 0x03) "unknown")) ;;
    set_ "track_renumbering_toggle" (VBool (bit b 0x02))
  else if frn =? 6 then
    need data 1 break_ ;;
    b8 <- at_ data 0 ;;
    b9 <- at_ data 0 ;;
    set_ "service_status_report" (VStr (tget_or _cat65__SERVICE_STATUS b8 ("code_" +:+ str_int b9))) ;;
    adv 1
  else if (7 <=? frn) && (frn <=? 11) then
    skip
  else if (frn =? 12) || (frn =? 13) then
    goto (_cat65__skip_len_field data)
  else
    break_.

Definition _cat65_decode_cat065 (data : bytes) : exc (option dict) :=
  if len data <? 1 then Ok None else
  let? (fspec, pos) := _cat65_parse_fspec data 0 in
  run (for_fspec fspec (_cat65_decode_cat065_item data) ;;
       return_ (fun _ msg => msg_or_none msg)) pos [].

(** [_h] of [_cat65__make_handler] *)
Definition _cat65_handler (root : string) (now : float) (data : bytes) : exc (list sample) :=
  let? o := _cat65_decode_cat065 data in
  match o with
  | None => Ok []
  | Some msg =>
      let msg := stamp now "ASTERIX CAT-65 Ed.1.6" msg in
      Ok [(_cat65_TOPIC_SENSOR root (_asterix_source msg), msg)]
  end.

(** ** Correctness *)

(** The keys and values of a published record. *)
Definition cat065_schema : schema := _cat65_decode_cat065_schema ++ stamp_schema.

Lemma item_ok_cat065 data frn :
  item_ok data _cat65_decode_cat065_schema (record_of _cat65_decode_cat065_schema) noE
    (_cat65_decode_cat065_item data frn).
Proof.
  intros p d Hp Hd. unfold _cat65_decode_cat065_item, _cat65__skip_len_field.
  by_items wp_auto.
Qed.

(** For every frame and every receive time, the CAT-065 handler terminates
    without an exception and publishes at most one record, whose keys and
    values are those of [cat065_schema], which keeps to the protobuf message
    AsterixCat65Status and goes to the topic its own SAC/SIC give. *)
Lemma cat065_handler_ok root now data :
  returns (_cat65_handler root now data)
    (fun out => len out <= 1 /\
       samples_ok (_cat65_TOPIC_SENSOR root) cat065_schema AsterixCat65Status out) noE.
Proof.
  apply (frame_handler_ok _ _cat65_decode_cat065_schema); [|reflexivity].
  apply frame_decoder_ok; [exact _|]. intros frn _. apply item_ok_cat065.
Qed.
