(* ===== verification/Cat150.v ===== *)
(** * CAT-150: MADAP flight data

    cat.py:11805-12182. The decoder of one frame and its handler. *)

From S2P Require Import Prelude PyFloat PyData Schema Ranges Cursor Safety Contract AsterixCommon.

Definition _cat150_TOPIC_SENSOR (root source : string) : string :=
  root +:+ "/air/" +:+ source +:+ "/madap/civ/flightplan".
Definition _cat150_parse_fspec := parse_fspec.
Definition _cat150__u16 := u16.
Definition _cat150__s16 := s16.
Definition _cat150__ascii (b : bytes) : exc string :=
  Ok (strip_chars [ascii_of_nat 0; " "%char] (decode_ascii_replace b)).

(** cat.py:11830-11830 *)
Definition _cat150_CAT_150 : Z := 150.
(** cat.py:11832-11837 *)
Definition _cat150__MSG_TYPES : table :=
  [(1, "flight_plan_creation"); (2, "flight_plan_modification"); (3, "flight_plan_repetition");
   (4, "manual_deletion"); (5, "automatic_deletion"); (6, "beyond_extraction_area");
   (251, "short_term_conflict_alert"); (252, "correlations"); (253, "decorrelations");
   (254, "start_of_background_loop"); (255, "end_of_background_loop")].
(** cat.py:11839-11842 *)
Definition _cat150__ROUTE_POINT_TYPE : table :=
  [(1, "point"); (2, "bearing_distance"); (3, "latlon_short"); (4, "latlon_long");
   (5, "xy_coordinate"); (6, "georeference"); (14, "airport")].
Definition _cat150_decode_cat150_schema : schema :=
  [("dest_centre", TInt 0 255); ("dest_workstation", TInt 0 255); ("source_centre", TInt 0 255);
   ("source_workstation", TInt 0 255); ("msg_type", TStr); ("plan_ref_number", TInt 0 65535);
   ("callsign", TStr); ("present_squawk", TStr); ("next_squawk", TStr);
   ("departure_airport", TStr); ("destination_airport", TStr); ("general_air_traffic", TTrue);
   ("operational_air_traffic", TTrue); ("complete_flight_plan", TTrue);
   ("short_flight_plan", TTrue); ("in_hold", TTrue); ("rvsm_equipped", TTrue);
   ("rvsm_capable", TTrue); ("rvsm_exempted", TTrue); ("number_of_aircraft", TStr);
   ("aircraft_type", TStr); ("wake_turbulence_cat", TStr); ("cleared_flight_level", TStr);
   ("route_point_descriptions", TList (TDict [("type", TStr); ("description", TStr)]));
   ("route_point_coordinates", TList (TDict [("x_nm", TFloat); ("y_nm", TFloat)]));
   ("route_point_times", TList TStr); ("route_point_flight_levels", TList (TStr));
   ("route_point_speeds", TList (TStr)); ("controller_id", TStr); ("field_18", TStr);
   ("correlated_track_num", TInt 0 65535); ("max_plan_count", TInt 0 65535);
   ("number_of_plans", TInt 0 65535);
   ("newly_correlated_plans", TList (TDict [("plan", TInt 0 65535); ("track", TInt 0 65535)]));
   ("newly_decorrelated_plans", TList (TInt 0 65535));
   ("tracks_in_conflict", TList (TDict [("track1", TInt 0 65535); ("track2", TInt 0 65535)]));
   ("route_point_requested_flight_levels", TList (TStr))].

(** cat.py:11922-12092 *)
Definition _cat150_decode_cat150_item (data : bytes) (frn : Z) : cur (option dict) unit :=
  if frn =? 0 then
    need data 2 break_ ;;
    b1 <- at_ data 0 ;;
    set_ "dest_centre" (VInt b1) ;;
    b2 <- at_ data 1 ;;
    set_ "dest_workstation" (VInt b2) ;;
    adv 2
  else if frn =? 1 then
    need data 2 break_ ;;
    b3 <- at_ data 0 ;;
    set_ "source_centre" (VInt b3) ;;
    b4 <- at_ data 1 ;;
    set_ "source_workstation" (VInt b4) ;;
    adv 2
  else if frn =? 2 then
    need data 1 break_ ;;
    b5 <- at_ data 0 ;;
    b6 <- at_ data 0 ;;
    set_ "msg_type" (VStr (tget_or _cat150__MSG_TYPES b5 ("type_" +:+ str_int b6))) ;;
    adv 1
  else if frn =? 3 then
    need data 2 break_ ;;
    v7 <- on_slice data 0 2 _cat150__u16 ;;
    set_ "plan_ref_number" (VInt v7) ;;
    adv 2
  else if frn =? 4 then
    need data 7 break_ ;;
    s <- on_slice data 0 7 _cat150__ascii ;;
    adv 7 ;;
    when (negb (String.eqb s "")) (set_ "callsign" (VStr s))
  else if frn =? 5 then
    need data 4 break_ ;;
    s <- on_slice data 0 4 _cat150__ascii ;;
    adv 4 ;;
    when (negb (String.eqb s "")) (set_ "present_squawk" (VStr s))
  else if frn =? 6 then
    need data 4 break_ ;;
    s <- on_slice data 0 4 _cat150__ascii ;;
    adv 4 ;;
    when (negb (String.eqb s "")) (set_ "next_squawk" (VStr s))
  else if frn =? 7 then
    need data 4 break_ ;;
    s <- on_slice data 0 4 _cat150__ascii ;;
    adv 4 ;;
    when (negb (String.eqb s "")) (set_ "departure_airport" (VStr s))
  else if frn =? 8 then
    need data 4 break_ ;;
    s <- on_slice data 0 4 _cat150__ascii ;;
    adv 4 ;;
    when (negb (String.eqb s "")) (set_ "destination_airport" (VStr s))
  else if frn =? 9 then
    need data 1 break_ ;;
    b <- at_ data 0 ;;
    adv 1 ;;
    when (bit b 0x80) (set_ "general_air_traffic" (VBool true)) ;;
    when (bit b 0x40) (set_ "operational_air_traffic" (VBool true)) ;;
    when (bit b 0x04) (set_ "complete_flight_plan" (VBool true)) ;;
    when (bit b 0x02) (set_ "short_flight_plan" (VBool true))
  else if frn =? 10 then
    need data 1 break_ ;;
    b <- at_ data 0 ;;
    adv 1 ;;
    when (bit b 0x40) (set_ "in_hold" (VBool true)) ;;
    when (bit b 0x20) (set_ "rvsm_equipped" (VBool true)) ;;
    when (bit b 0x10) (set_ "rvsm_capable" (VBool true)) ;;
    when (bit b 0x08) (set_ "rvsm_exempted" (VBool true))
  else if frn =? 11 then
    need data 7 break_ ;;
    noa <- on_slice data 0 2 _cat150__ascii ;;
    toa <- on_slice data 2 6 _cat150__ascii ;;
    wt <- on_slice data 6 7 _cat150__ascii ;;
    adv 7 ;;
    when (negb (String.eqb noa "")) (set_ "number_of_aircraft" (VStr noa)) ;;
    when (negb (String.eqb toa "")) (set_ "aircraft_type" (VStr toa)) ;;
    when (negb (String.eqb wt "")) (set_ "wake_turbulence_cat" (VStr wt))
  else if frn =? 12 then
    need data 3 break_ ;;
    s <- on_slice data 0 3 _cat150__ascii ;;
    adv 3 ;;
    when (negb (String.eqb s "")) (set_ "cleared_flight_level" (VStr s))
  else if frn =? 13 then
    need data 1 break_ ;;
    rep <- at_ data 0 ;;
    adv 1 ;;
    points <- for_range (Z.to_nat rep) (fun points =>
        none <- short data 12 ;;
        if none then ret (stop points) else
        t <- at_ data 0 ;;
        e <- on_slice data 1 12 _cat150__ascii ;;
        adv 12 ;;
        let points := points ++ [VDict [("type", VStr (tget_or _cat150__ROUTE_POINT_TYPE t ("type_" +:+ str_int t))); ("description", VStr e)]] in
        ret (more points)) [] ;;
    when (nonempty points) (set_ "route_point_descriptions" (VList points))
  else if frn =? 14 then
    need data 1 break_ ;;
    rep <- at_ data 0 ;;
    adv 1 ;;
    points <- for_range (Z.to_nat rep) (fun points =>
        none <- short data 4 ;;
        if none then ret (stop points) else
        v18 <- on_slice data 0 2 _cat150__s16 ;;
        v19 <- on_slice data 2 4 _cat150__s16 ;;
        let points := points ++ [VDict [("x_nm", VFloat (py_round (fdiv_raw (fl v18) (fl 64)) 3)); ("y_nm", VFloat (py_round (fdiv_raw (fl v19) (fl 64)) 3))]] in
        adv 4 ;;
        ret (more points)) [] ;;
    when (nonempty points) (set_ "route_point_coordinates" (VList points))
  else if frn =? 15 then
    need data 1 break_ ;;
    rep <- at_ data 0 ;;
    adv 1 ;;
    times <- for_range (Z.to_nat rep) (fun times =>
        none <- short data 4 ;;
        if none then ret (stop times) else
        hh <- on_slice data 0 2 _cat150__ascii ;;
        mm <- on_slice data 2 4 _cat150__ascii ;;
        adv 4 ;;
        let times := times ++ [VStr (hh +:+ ":" +:+ mm)] in
        ret (more times)) [] ;;
    when (nonempty times) (set_ "route_point_times" (VList times))
  else if frn =? 16 then
    need data 1 break_ ;;
    rep <- at_ data 0 ;;
    adv 1 ;;
    levels <- for_range (Z.to_nat rep) (fun levels =>
        none <- short data 3 ;;
        if none then ret (stop levels) else
        s22 <- on_slice data 0 3 _cat150__ascii ;;
        let levels := levels ++ [VStr s22] in
        adv 3 ;;
        ret (more levels)) [] ;;
    when (nonempty levels) (set_ "route_point_flight_levels" (VList levels))
  else if frn =? 17 then
    need data 1 break_ ;;
    rep <- at_ data 0 ;;
    adv 1 ;;
    speeds <- for_range (Z.to_nat rep) (fun speeds =>
        none <- short data 4 ;;
        if none then ret (stop speeds) else
        s23 <- on_slice data 0 4 _cat150__ascii ;;
        let speeds := speeds ++ [VStr s23] in
        adv 4 ;;
        ret (more speeds)) [] ;;
    when (nonempty speeds) (set_ "route_point_speeds" (VList speeds))
  else if frn =? 18 then
    need data 2 break_ ;;
    s <- on_slice data 0 2 _cat150__ascii ;;
    adv 2 ;;
    when (negb (String.eqb s "")) (set_ "controller_id" (VStr s))
  else if frn =? 19 then
    need data 1 break_ ;;
    rep <- at_ data 0 ;;
    adv 1 ;;
    need data rep break_ ;;
    s <- on_slice data 0 rep _cat150__ascii ;;
    adv rep ;;
    when (negb (String.eqb s "")) (set_ "field_18" (VStr s))
  else if frn =? 20 then
    need data 2 break_ ;;
    v26 <- on_slice data 0 2 _cat150__u16 ;;
    set_ "correlated_track_num" (VInt v26) ;;
    adv 2
  else if frn =? 21 then
    need data 2 break_ ;;
    v27 <- on_slice data 0 2 _cat150__u16 ;;
    set_ "max_plan_count" (VInt v27) ;;
    adv 2
  else if frn =? 22 then
    need data 2 break_ ;;
    v28 <- on_slice data 0 2 _cat150__u16 ;;
    set_ "number_of_plans" (VInt v28) ;;
    adv 2
  else if frn =? 23 then
    need data 1 break_ ;;
    rep <- at_ data 0 ;;
    adv 1 ;;
    pairs <- for_range (Z.to_nat rep) (fun pairs =>
        none <- short data 4 ;;
        if none then ret (stop pairs) else
        v29 <- on_slice data 0 2 _cat150__u16 ;;
        v30 <- on_slice data 2 4 _cat150__u16 ;;
        let pairs := pairs ++ [VDict [("plan", VInt v29); ("track", VInt v30)]] in
        adv 4 ;;
        ret (more pairs)) [] ;;
    when (nonempty pairs) (set_ "newly_correlated_plans" (VList pairs))
  else if frn =? 24 then
    need data 1 break_ ;;
    rep <- at_ data 0 ;;
    adv 1 ;;
    plans <- for_range (Z.to_nat rep) (fun plans =>
        none <- short data 2 ;;
        if none then ret (stop plans) else
        v31 <- on_slice data 0 2 _cat150__u16 ;;
        let plans := plans ++ [VInt v31] in
        adv 2 ;;
        ret (more plans)) [] ;;
    when (nonempty plans) (set_ "newly_decorrelated_plans" (VList plans))
  else if frn =? 25 then
    need data 1 break_ ;;
    rep <- at_ data 0 ;;
    adv 1 ;;
    pairs <- for_range (Z.to_nat rep) (fun pairs =>
        none <- short data 4 ;;
        if none then ret (stop pairs) else
        v32 <- on_slice data 0 2 _cat150__u16 ;;
        v33 <- on_slice data 2 4 _cat150__u16 ;;
        let pairs := pairs ++ [VDict [("track1", VInt v32); ("track2", VInt v33)]] in
        adv 4 ;;
        ret (more pairs)) [] ;;
    when (nonempty pairs) (set_ "tracks_in_conflict" (VList pairs))
  else if frn =? 26 then
    need data 1 break_ ;;
    rep <- at_ data 0 ;;
    adv 1 ;;
    levels <- for_range (Z.to_nat rep) (fun levels =>
        none <- short data 3 ;;
        if none then ret (stop levels) else
        s34 <- on_slice data 0 3 _cat150__ascii ;;
        let levels := levels ++ [VStr s34] in
        adv 3 ;;
        ret (more levels)) [] ;;
    when (nonempty levels) (set_ "route_point_requested_flight_levels" (VList levels))
  else
    break_.

Definition _cat150_decode_cat150 (data : bytes) : exc (option dict) :=
  if len data <? 1 then Ok None else
  let? (fspec, pos) := _cat150_parse_fspec data 0 in
  run (for_fspec fspec (_cat150_decode_cat150_item data) ;;
       return_ (fun _ msg => msg_or_none msg)) pos [].

(** The source centre and workstation stand in for SAC and SIC. *)
Definition _cat150_source (msg : dict) : dict :=
  let msg := dsetdefault "sac" (dget_or msg "source_centre" (VInt 0)) msg in
  dsetdefault "sic" (dget_or msg "source_workstation" (VInt 0)) msg.

(** [_h] of [_cat150__make_handler] *)
Definition _cat150_handler (root : string) (now : float) (data : bytes) : exc (list sample) :=
  let? o := _cat150_decode_cat150 data in
  match o with
  | None => Ok []
  | Some msg =>
      let msg := _cat150_source (stamp now "ASTERIX CAT-150 Ed.3.0" msg) in
      Ok [(_cat150_TOPIC_SENSOR root (_asterix_source msg), msg)]
  end.

(** ** Correctness *)

(** The keys and values of a published record. *)
Definition cat150_schema : schema :=
  _cat150_decode_cat150_schema ++ [("sac", TInt 0 255); ("sic", TInt 0 255)] ++ stamp_schema.

Lemma item_ok_cat150 data frn :
  item_ok data _cat150_decode_cat150_schema (record_of _cat150_decode_cat150_schema) noE
    (_cat150_decode_cat150_item data frn).
Proof.
  intros p d Hp Hd. unfold _cat150_decode_cat150_item, _cat150__u16, _cat150__s16, _cat150__ascii.
  by_items wp_auto.
Qed.

Lemma wt_dsetdefault_of k k' d :
  field_ty cat150_schema k = Some (TInt 0 255) -> field_ty cat150_schema k' = Some (TInt 0 255) ->
  wt cat150_schema d -> wt cat150_schema (dsetdefault k (dget_or d k' (VInt 0)) d).
Proof.
  intros Hk Hk' Hd. apply wt_dsetdefault; [exact Hd|]. unfold field_ok. rewrite Hk.
  unfold dget_or. destruct (dget d k') as [v|] eqn:E; [|done]. exact (wt_get _ _ _ _ _ Hd E Hk').
Qed.

(** For every frame and every receive time, the CAT-150 handler terminates
    without an exception and publishes at most one record, whose keys and
    values are those of [cat150_schema], which keeps to the protobuf message
    AsterixCat150Status and goes to the topic its source centre and workstation give, unless its SAC/SIC do. *)
Lemma cat150_handler_ok root now data :
  returns (_cat150_handler root now data)
    (fun out => len out <= 1 /\
       samples_ok (_cat150_TOPIC_SENSOR root) cat150_schema AsterixCat150Status out) noE.
Proof.
  apply (finished_handler_ok _ _cat150_decode_cat150_schema _ _ _ _ _ _cat150_source (fun d => d)); [| |reflexivity].
  - apply frame_decoder_ok; [exact _|]. intros frn _. apply item_ok_cat150.
  - intros d Hd. unfold _cat150_source. by apply wt_dsetdefault_of, wt_dsetdefault_of.
Qed.
