(* ===== verification/Cat205.v ===== *)
(** * CAT-205: radio direction finder reports

    cat.py:12183-12448. *)

From S2P Require Import Prelude PyFloat PyData Schema Ranges Cursor Safety Contract AsterixCommon.
From S2P Require Import Bds TrackViews Records Blocks.

Definition _cat205_TOPIC_AIR (root source : string) : string :=
  root +:+ "/air/" +:+ source +:+ "/rdf/unknown/aircraft".
Definition _cat205_parse_fspec := parse_fspec.
Definition _cat205__skip_len_field := skip_len_field.
Definition _cat205__u16 := u16.
Definition _cat205__s16 := s16.
Definition _cat205__s24 := s24.
Definition _cat205__s32 := s32.
Definition _cat205__cartesian_to_wgs84 `{Libm} := cartesian_to_wgs84.

(** cat.py:12230-12230 *)
Definition _cat205_CAT_205 : Z := 205.
(** cat.py:12232-12236 *)
Definition _cat205__MSG_TYPES : table :=
  [(1, "system_position_report"); (2, "system_bearing_report");
   (3, "conflicting_transmission_position"); (4, "detection_end_report"); (5, "sensor_data_report")].
Definition _cat205_decode_cat205_record_schema : schema :=
  [("sac", TInt 0 255); ("sic", TInt 0 255); ("service_id", TInt 0 255); ("msg_type", TStr);
   ("tod_s", TFloat); ("report_number", TInt 0 255); ("radio_channel", TStr); ("lat_deg", TFloat);
   ("lon_deg", TFloat); ("cart_x_m", TFloat); ("cart_y_m", TFloat); ("local_bearing_deg", TFloat);
   ("system_bearing_deg", TFloat); ("measurement_quality_raw", TInt 0 255);
   ("position_uncertainty_m", TInt 0 25500); ("contributing_sensors", TList (TInt 0 255));
   ("conflicting_lat_deg", TFloat); ("conflicting_lon_deg", TFloat);
   ("conflicting_cart_x_m", TFloat); ("conflicting_cart_y_m", TFloat);
   ("conflicting_position_uncertainty_m", TInt 0 25500); ("track_num", TInt 0 65535);
   ("sensor_id", TInt 0 255); ("signal_level_dbuv", TFloat); ("signal_quality", TInt 0 255);
   ("signal_elevation_deg", TFloat)] ++
  [("_ts", TFloat); ("_src", TStr)].

Section Cat205.
Context `{Libm} (site_lat site_lon : option float).
(** cat.py:12340-12425 *)
Definition _cat205_decode_cat205_record_item (data : bytes) (frn : Z) : cur (dict * Z) unit :=
  if frn =? 0 then
    need data 2 (return_ (fun _ track => (track, len data))) ;;
    b1 <- at_ data 0 ;;
    set_ "sac" (VInt b1) ;;
    b2 <- at_ data 1 ;;
    set_ "sic" (VInt b2) ;;
    adv 2
  else if frn =? 1 then
    need data 1 (return_ (fun _ track => (track, len data))) ;;
    b3 <- at_ data 0 ;;
    set_ "service_id" (VInt b3) ;;
    adv 1
  else if frn =? 2 then
    need data 1 (return_ (fun _ track => (track, len data))) ;;
    b4 <- at_ data 0 ;;
    b5 <- at_ data 0 ;;
    set_ "msg_type" (VStr (tget_or _cat205__MSG_TYPES b4 ("type_" +:+ str_int b5))) ;;
    adv 1
  else if frn =? 3 then
    need data 3 (return_ (fun _ track => (track, len data))) ;;
    v6 <- on_slice data 0 3 (fun raw => Ok (int_from_bytes raw)) ;;
    set_ "tod_s" (VFloat (fdiv_raw (fl v6) (fl 128))) ;;
    adv 3
  else if frn =? 4 then
    need data 1 (return_ (fun _ track => (track, len data))) ;;
    b7 <- at_ data 0 ;;
    set_ "report_number" (VInt b7) ;;
    adv 1
  else if frn =? 5 then
    need data 7 (return_ (fun _ track => (track, len data))) ;;
    s <- on_slice data 0 7 ascii_text ;;
    adv 7 ;;
    when (negb (String.eqb s "")) (set_ "radio_channel" (VStr s))
  else if frn =? 6 then
    need data 8 (return_ (fun _ track => (track, len data))) ;;
    let scale := fdiv_raw (fl 180) (fl (2 ^ 25)) in
    v9 <- on_slice data 0 4 _cat205__s32 ;;
    set_ "lat_deg" (VFloat (py_round (fmul (fl v9) scale) 7)) ;;
    v10 <- on_slice data 4 8 _cat205__s32 ;;
    set_ "lon_deg" (VFloat (py_round (fmul (fl v10) scale) 7)) ;;
    adv 8
  else if frn =? 7 then
    need data 6 (return_ (fun _ track => (track, len data))) ;;
    v11 <- on_slice data 0 3 _cat205__s24 ;;
    let x_m := fmul (fl v11) (dec 5 1) in
    v12 <- on_slice data 3 6 _cat205__s24 ;;
    let y_m := fmul (fl v12) (dec 5 1) in
    adv 6 ;;
    set_ "cart_x_m" (VFloat (py_round x_m 2)) ;;
    set_ "cart_y_m" (VFloat (py_round y_m 2)) ;;
    match site_lat, site_lon with
    | Some lat0, Some lon0 =>
        p <- lift (_cat205__cartesian_to_wgs84 lat0 lon0 x_m y_m) ;;
        let '(lat, lon) := p in
        setdefault_ "lat_deg" (VFloat (py_round lat 7)) ;;
        setdefault_ "lon_deg" (VFloat (py_round lon 7))
    | _, _ => skip
    end
  else if frn =? 8 then
    need data 2 (return_ (fun _ track => (track, len data))) ;;
    v13 <- on_slice data 0 2 _cat205__u16 ;;
    set_ "local_bearing_deg" (VFloat (py_round (fmul (fl v13) (dec 1 2)) 2)) ;;
    adv 2
  else if frn =? 9 then
    need data 2 (return_ (fun _ track => (track, len data))) ;;
    v14 <- on_slice data 0 2 _cat205__u16 ;;
    set_ "system_bearing_deg" (VFloat (py_round (fmul (fl v14) (dec 1 2)) 2)) ;;
    adv 2
  else if frn =? 10 then
    need data 1 (return_ (fun _ track => (track, len data))) ;;
    b15 <- at_ data 0 ;;
    set_ "measurement_quality_raw" (VInt b15) ;;
    adv 1
  else if frn =? 11 then
    need data 1 (return_ (fun _ track => (track, len data))) ;;
    b16 <- at_ data 0 ;;
    set_ "position_uncertainty_m" (VInt (b16 * 100)) ;;
    adv 1
  else if frn =? 12 then
    need data 1 (return_ (fun _ track => (track, len data))) ;;
    rep <- at_ data 0 ;;
    adv 1 ;;
    sensors <- for_range (Z.to_nat rep) (fun sensors =>
        none <- short data 1 ;;
        if none then ret (stop sensors) else
        b17 <- at_ data 0 ;;
        let sensors := sensors ++ [VInt b17] in
        adv 1 ;;
        ret (more sensors)) [] ;;
    when (nonempty sensors) (set_ "contributing_sensors" (VList sensors))
  else if frn =? 13 then
    need data 8 (return_ (fun _ track => (track, len data))) ;;
    let scale := fdiv_raw (fl 180) (fl (2 ^ 25)) in
    v18 <- on_slice data 0 4 _cat205__s32 ;;
    set_ "conflicting_lat_deg" (VFloat (py_round (fmul (fl v18) scale) 7)) ;;
    v19 <- on_slice data 4 8 _cat205__s32 ;;
    set_ "conflicting_lon_deg" (VFloat (py_round (fmul (fl v19) scale) 7)) ;;
    adv 8
  else if frn =? 14 then
    need data 6 (return_ (fun _ track => (track, len data))) ;;
    v20 <- on_slice data 0 3 _cat205__s24 ;;
    set_ "conflicting_cart_x_m" (VFloat (py_round (fmul (fl v20) (dec 5 1)) 2)) ;;
    v21 <- on_slice data 3 6 _cat205__s24 ;;
    set_ "conflicting_cart_y_m" (VFloat (py_round (fmul (fl v21) (dec 5 1)) 2)) ;;
    adv 6
  else if frn =? 15 then
    need data 1 (return_ (fun _ track => (track, len data))) ;;
    b22 <- at_ data 0 ;;
    set_ "conflicting_position_uncertainty_m" (VInt (b22 * 100)) ;;
    adv 1
  else if frn =? 16 then
    need data 2 (return_ (fun _ track => (track, len data))) ;;
    v23 <- on_slice data 0 2 _cat205__u16 ;;
    set_ "track_num" (VInt v23) ;;
    adv 2
  else if frn =? 17 then
    need data 1 (return_ (fun _ track => (track, len data))) ;;
    b24 <- at_ data 0 ;;
    set_ "sensor_id" (VInt b24) ;;
    adv 1
  else if frn =? 18 then
    need data 2 (return_ (fun _ track => (track, len data))) ;;
    v25 <- on_slice data 0 2 _cat205__s16 ;;
    set_ "signal_level_dbuv" (VFloat (py_round (fmul (fl v25) (dec 1 2)) 2)) ;;
    adv 2
  else if frn =? 19 then
    need data 1 (return_ (fun _ track => (track, len data))) ;;
    b26 <- at_ data 0 ;;
    set_ "signal_quality" (VInt b26) ;;
    adv 1
  else if frn =? 20 then
    need data 2 (return_ (fun _ track => (track, len data))) ;;
    v27 <- on_slice data 0 2 _cat205__s16 ;;
    set_ "signal_elevation_deg" (VFloat (py_round (fmul (fl v27) (dec 1 2)) 2)) ;;
    adv 2
  else if frn =? 21 then
    goto (_cat205__skip_len_field data)
  else
    return_ (fun _ track => (track, len data)).

Definition _cat205_decode_cat205_record (now : float) (data : bytes) (pos : Z) : exc (dict * Z) :=
  let? (fspec, pos) := _cat205_parse_fspec data pos in
  run (for_fspec fspec (_cat205_decode_cat205_record_item data) ;;
       return_ (fun pos track => (track, pos))) pos (new_track now "ASTERIX CAT-205 Ed.1.0").

(** Only a record with a position is published. *)
Definition _cat205_route (root : string) (track : dict) : routed :=
  if located track then Reported (_cat205_TOPIC_AIR root (_asterix_source track)) "track" else Unplaced.

(** [_h] of [_cat205__make_handler]; [clock pos] is the time at which the record at
    [pos] is read. *)
Definition _cat205_handler (repr : value -> string) (root : string) (clock : Z -> float)
    (data : bytes) : list sending * exc unit :=
  handle_block repr 205 "cat205" (fun data pos => _cat205_decode_cat205_record (clock pos) data pos) (_cat205_route root) data.
End Cat205.

(** ** Correctness *)
Definition cat205_schema : schema := _cat205_decode_cat205_record_schema.

Section Correctness.
Context `{LibmOk}.
Variables (site_lat site_lon : option float).

Lemma item_ok_cat205 p0 data frn : p0 < len data ->
  item_ok data cat205_schema (record_result data cat205_schema p0) (geo_error site_lat site_lon)
    (_cat205_decode_cat205_record_item site_lat site_lon data frn).
Proof.
  intros Hp0 p d Hp Hd. unfold _cat205_decode_cat205_record_item, _cat205__u16, _cat205__s16, _cat205__s24, _cat205__s32, _cat205__cartesian_to_wgs84.
  by_items ltac:(wp_record).
Qed.

Lemma decode_cat205_ok now data p : 0 <= p < len data ->
  returns (_cat205_decode_cat205_record site_lat site_lon now data p) (record_result data cat205_schema p) (geo_error site_lat site_lon).
Proof.
  intros Hp. unfold _cat205_decode_cat205_record. apply record_decoder_ok;
    [done|apply new_track_ok; vm_compute; reflexivity|by apply parse_fspec_strict| |].
  - intros frn _. apply item_ok_cat205; lia.
  - intros p' d' Hp' Hd. by apply wp_return.
Qed.

(** What the protobuf view of a record loses. *)
Definition dropped205 : list string :=
  [].

Lemma cat205_block_ok repr root clock data : len data <= 0xFFFF - 3 ->
  let '(out, r) := _cat205_handler site_lat site_lon repr root clock data in
  delivered repr 205 "cat205" (fun data pos => _cat205_decode_cat205_record site_lat site_lon (clock pos) data pos) (_cat205_route root)
    cat205_schema AsterixCat205Track (fun _ => False) dropped205 (geo_error site_lat site_lon) data 0 out r.
Proof.
  intros Hl. apply handle_block_ok; [|vm_compute; reflexivity| |lia].
  - intros p Hp. by apply decode_cat205_ok.
  - intros track topic status _. unfold _cat205_route. by repeat case_match.
Qed.
End Correctness.
