(* ===== verification/Cat240.v ===== *)
(** * CAT-240: radar video

    cat.py:12555-12827. The decoder of one frame and its handler. *)

From S2P Require Import Prelude PyFloat PyData Schema Ranges Cursor Safety Contract AsterixCommon.

Definition _cat240_TOPIC_SENSOR (root source : string) : string :=
  root +:+ "/land/" +:+ source +:+ "/radar/neutral/video".
Definition _cat240_parse_fspec := parse_fspec.
Definition _cat240__skip_len_field := skip_len_field.
Definition _cat240__u16 := u16.
Definition _cat240__u32 := (unpack_u 4).

(** cat.py:12577-12577 *)
Definition _cat240_CAT_240 : Z := 240.
(** cat.py:12579-12579 *)
Definition _cat240__MSG_TYPES : table :=
  [(1, "video_summary"); (2, "video_message")].
(** cat.py:12581-12584 *)
Definition _cat240__RESOLUTION : table :=
  [(1, "monobit_1bit"); (2, "low_2bit"); (3, "medium_4bit"); (4, "high_8bit");
   (5, "very_high_16bit"); (6, "ultra_high_32bit")].
Definition _cat240_decode_cat240_schema : schema :=
  [("sac", TInt 0 255); ("sic", TInt 0 255); ("msg_type", TStr);
   ("sequence_number", TInt 0 4294967295); ("start_azimuth_deg", TFloat);
   ("end_azimuth_deg", TFloat); ("start_range_cells", TInt 0 4294967295);
   ("cell_duration_ns", TInt 0 4294967295); ("cell_duration_fs", TInt 0 4294967295);
   ("compression_applied", TBool); ("bit_resolution", TStr); ("valid_octets", TInt 0 65535);
   ("valid_cells", TInt 0 16777215); ("video_summary", TStr); ("video_block_hex", TStr); ("video_block_cells", TInt 0 255);
   ("tod_s", TFloat)].

(** cat.py:12669-12739 *)
Definition _cat240_decode_cat240_item (data : bytes) (frn : Z) : cur (option dict) unit :=
  if frn =? 0 then
    need data 2 break_ ;;
    b1 <- at_ data 0 ;;
    set_ "sac" (VInt b1) ;;
    b2 <- at_ data 1 ;;
    set_ "sic" (VInt b2) ;;
    adv 2
  else if frn =? 1 then
    need data 1 break_ ;;
    b3 <- at_ data 0 ;;
    b4 <- at_ data 0 ;;
    set_ "msg_type" (VStr (tget_or _cat240__MSG_TYPES b3 ("type_" +:+ str_int b4))) ;;
    adv 1
  else if frn =? 2 then
    need data 4 break_ ;;
    v5 <- on_slice data 0 4 _cat240__u32 ;;
    set_ "sequence_number" (VInt v5) ;;
    adv 4
  else if frn =? 3 then
    need data 1 break_ ;;
    rep <- at_ data 0 ;;
    adv 1 ;;
    need data rep break_ ;;
    s <- on_slice data 0 rep (fun raw => Ok (strip_chars [ascii_of_nat 0; " "%char] (decode_ascii_replace raw))) ;;
    adv rep ;;
    when (negb (String.eqb s "")) (set_ "video_summary" (VStr s))
  else if frn =? 4 then
    need data 12 break_ ;;
    v6 <- on_slice data 0 2 _cat240__u16 ;;
    set_ "start_azimuth_deg" (VFloat (py_round (fdiv_raw (fmul (fl v6) (fl 360)) (fl 65536)) 3)) ;;
    v7 <- on_slice data 2 4 _cat240__u16 ;;
    set_ "end_azimuth_deg" (VFloat (py_round (fdiv_raw (fmul (fl v7) (fl 360)) (fl 65536)) 3)) ;;
    v8 <- on_slice data 4 8 _cat240__u32 ;;
    set_ "start_range_cells" (VInt v8) ;;
    v9 <- on_slice data 8 12 _cat240__u32 ;;
    set_ "cell_duration_ns" (VInt v9) ;;
    adv 12
  else if frn =? 5 then
    need data 12 break_ ;;
    v10 <- on_slice data 0 2 _cat240__u16 ;;
    set_ "start_azimuth_deg" (VFloat (py_round (fdiv_raw (fmul (fl v10) (fl 360)) (fl 65536)) 3)) ;;
    v11 <- on_slice data 2 4 _cat240__u16 ;;
    set_ "end_azimuth_deg" (VFloat (py_round (fdiv_raw (fmul (fl v11) (fl 360)) (fl 65536)) 3)) ;;
    v12 <- on_slice data 4 8 _cat240__u32 ;;
    set_ "start_range_cells" (VInt v12) ;;
    v13 <- on_slice data 8 12 _cat240__u32 ;;
    set_ "cell_duration_fs" (VInt v13) ;;
    adv 12
  else if frn =? 6 then
    need data 2 break_ ;;
    b1 <- at_ data 0 ;;
    res <- at_ data 1 ;;
    adv 2 ;;
    set_ "compression_applied" (VBool (bit b1 0x80)) ;;
    set_ "bit_resolution" (VStr (tget_or _cat240__RESOLUTION res ("resolution_" +:+ str_int res)))
  else if frn =? 7 then
    need data 5 break_ ;;
    v14 <- on_slice data 0 2 _cat240__u16 ;;
    set_ "valid_octets" (VInt v14) ;;
    v15 <- on_slice data 2 5 (fun raw => Ok (int_from_bytes raw)) ;;
    set_ "valid_cells" (VInt v15) ;;
    adv 5
  else if frn =? 8 then
    need data 1 break_ ;;
    rep <- at_ data 0 ;;
    adv 1 ;;
    need data (rep * 4) break_ ;;
    s16 <- on_slice data 0 (rep * 4) (fun raw => Ok (hex raw)) ;;
    set_ "video_block_hex" (VStr s16) ;;
    adv (rep * 4) ;;
    set_ "video_block_cells" (VInt rep)
  else if frn =? 9 then
    need data 1 break_ ;;
    rep <- at_ data 0 ;;
    adv 1 ;;
    need data (rep * 64) break_ ;;
    s17 <- on_slice data 0 (rep * 64) (fun raw => Ok (hex raw)) ;;
    set_ "video_block_hex" (VStr s17) ;;
    adv (rep * 64) ;;
    set_ "video_block_cells" (VInt rep)
  else if frn =? 10 then
    need data 1 break_ ;;
    rep <- at_ data 0 ;;
    adv 1 ;;
    need data (rep * 256) break_ ;;
    s18 <- on_slice data 0 (rep * 256) (fun raw => Ok (hex raw)) ;;
    set_ "video_block_hex" (VStr s18) ;;
    adv (rep * 256) ;;
    set_ "video_block_cells" (VInt rep)
  else if frn =? 11 then
    need data 3 break_ ;;
    v19 <- on_slice data 0 3 (fun raw => Ok (int_from_bytes raw)) ;;
    set_ "tod_s" (VFloat (fdiv_raw (fl v19) (fl 128))) ;;
    adv 3
  else if (frn =? 12) || (frn =? 13) then
    goto (_cat240__skip_len_field data)
  else
    break_.

Definition _cat240_decode_cat240 (data : bytes) : exc (option dict) :=
  if len data <? 1 then Ok None else
  let? (fspec, pos) := _cat240_parse_fspec data 0 in
  run (for_fspec fspec (_cat240_decode_cat240_item data) ;;
       return_ (fun _ msg => msg_or_none msg)) pos [].

(** [_h] of [_cat240__make_handler] *)
Definition _cat240_handler (root : string) (now : float) (data : bytes) : exc (list sample) :=
  let? o := _cat240_decode_cat240 data in
  match o with
  | None => Ok []
  | Some msg =>
      let msg := stamp now "ASTERIX CAT-240 Ed.1.3" msg in
      Ok [(_cat240_TOPIC_SENSOR root (_asterix_source msg), msg)]
  end.

(** ** Correctness *)

(** The keys and values of a published record. *)
Definition cat240_schema : schema := _cat240_decode_cat240_schema ++ stamp_schema.

Lemma item_ok_cat240 data frn :
  item_ok data _cat240_decode_cat240_schema (record_of _cat240_decode_cat240_schema) noE
    (_cat240_decode_cat240_item data frn).
Proof.
  intros p d Hp Hd. unfold _cat240_decode_cat240_item, _cat240__skip_len_field, _cat240__u16, _cat240__u32.
  by_items wp_auto.
Qed.

(** For every frame and every receive time, the CAT-240 handler terminates
    without an exception and publishes at most one record, whose keys and
    values are those of [cat240_schema], which keeps to the protobuf message
    AsterixCat240Status and goes to the topic its own SAC/SIC give. *)
Lemma cat240_handler_ok root now data :
  returns (_cat240_handler root now data)
    (fun out => len out <= 1 /\
       samples_ok (_cat240_TOPIC_SENSOR root) cat240_schema AsterixCat240Status out) noE.
Proof.
  apply (frame_handler_ok _ _cat240_decode_cat240_schema); [|reflexivity].
  apply frame_decoder_ok; [exact _|]. intros frn _. apply item_ok_cat240.
Qed.
