(* ===== verification/Cat247.v ===== *)
(** * CAT-247: category versions

    cat.py:12856-13075. The decoder of one frame and its handler. *)

From S2P Require Import Prelude PyFloat PyData Schema Ranges Cursor Safety Contract AsterixCommon.

Definition _cat247_TOPIC_SENSOR (root source : string) : string :=
  root +:+ "/land/" +:+ source +:+ "/radar/neutral/sensor".
Definition _cat247_parse_fspec := parse_fspec.
Definition _cat247__skip_len_field := skip_len_field.

(** cat.py:12870-12870 *)
Definition _cat247_CAT_247 : Z := 247.
Definition _cat247_decode_cat247_schema : schema :=
  [("sac", TInt 0 255); ("sic", TInt 0 255); ("service_id", TInt 0 255); ("tod_s", TFloat);
   ("category_versions", TList (TDict [("category", TInt 0 255); ("main_version", TInt 0 255); ("sub_version", TInt 0 255)]))].

(** cat.py:12950-12987 *)
Definition _cat247_decode_cat247_item (data : bytes) (frn : Z) : cur (option dict) unit :=
  if frn =? 0 then
    need data 2 break_ ;;
    b1 <- at_ data 0 ;;
    set_ "sac" (VInt b1) ;;
    b2 <- at_ data 1 ;;
    set_ "sic" (VInt b2) ;;
    adv 2
  else if frn =? 1 then
    need data 1 break_ ;;
    b3 <- at_ data 0 ;;
    set_ "service_id" (VInt b3) ;;
    adv 1
  else if frn =? 2 then
    need data 3 break_ ;;
    v4 <- on_slice data 0 3 (fun raw => Ok (int_from_bytes raw)) ;;
    set_ "tod_s" (VFloat (fdiv_raw (fl v4) (fl 128))) ;;
    adv 3
  else if frn =? 3 then
    need data 1 break_ ;;
    rep <- at_ data 0 ;;
    adv 1 ;;
    versions <- for_range (Z.to_nat rep) (fun versions =>
        none <- short data 3 ;;
        if none then ret (stop versions) else
        b5 <- at_ data 0 ;;
        b6 <- at_ data 1 ;;
        b7 <- at_ data 2 ;;
        let versions := versions ++ [VDict [("category", VInt b5); ("main_version", VInt b6); ("sub_version", VInt b7)]] in
        adv 3 ;;
        ret (more versions)) [] ;;
    when (nonempty versions) (set_ "category_versions" (VList versions))
  else if frn =? 4 then
    skip
  else if (frn =? 5) || (frn =? 6) then
    goto (_cat247__skip_len_field data)
  else
    break_.

Definition _cat247_decode_cat247 (data : bytes) : exc (option dict) :=
  if len data <? 1 then Ok None else
  let? (fspec, pos) := _cat247_parse_fspec data 0 in
  run (for_fspec fspec (_cat247_decode_cat247_item data) ;;
       return_ (fun _ msg => msg_or_none msg)) pos [].

(** [_h] of [_cat247__make_handler] *)
Definition _cat247_handler (root : string) (now : float) (data : bytes) : exc (list sample) :=
  let? o := _cat247_decode_cat247 data in
  match o with
  | None => Ok []
  | Some msg =>
      let msg := stamp now "ASTERIX CAT-247 Ed.1.3" msg in
      Ok [(_cat247_TOPIC_SENSOR root (_asterix_source msg), msg)]
  end.

(** ** Correctness *)

(** The keys and values of a published record. *)
Definition cat247_schema : schema := _cat247_decode_cat247_schema ++ stamp_schema.

Lemma item_ok_cat247 data frn :
  item_ok data _cat247_decode_cat247_schema (record_of _cat247_decode_cat247_schema) noE
    (_cat247_decode_cat247_item data frn).
Proof.
  intros p d Hp Hd. unfold _cat247_decode_cat247_item, _cat247__skip_len_field.
  by_items wp_auto.
Qed.

(** For every frame and every receive time, the CAT-247 handler terminates
    without an exception and publishes at most one record, whose keys and
    values are those of [cat247_schema], which keeps to the protobuf message
    AsterixCat247Status and goes to the topic its own SAC/SIC give. *)
Lemma cat247_handler_ok root now data :
  returns (_cat247_handler root now data)
    (fun out => len out <= 1 /\
       samples_ok (_cat247_TOPIC_SENSOR root) cat247_schema AsterixCat247Status out) noE.
Proof.
  apply (frame_handler_ok _ _cat247_decode_cat247_schema); [|reflexivity].
  apply frame_decoder_ok; [exact _|]. intros frn _. apply item_ok_cat247.
Qed.
