(* ===== verification/WireFacts.v ===== *)
(** * What the wire reader and writer promise

    Varints and fields are read back as they were written, reading ends with
    a list of well-formed fields or ValueError, and the numbers keep to their
    widths. *)

From Stdlib Require Import SpecFloat.
From S2P Require Import Prelude PyFloat PyData Schema TrackViews PyText PyNum Wire Ranges Cursor AsterixCommon.

(** ** Octets in the middle *)
Lemma byte_at_middle pre b rest : byte_at (pre ++ b :: rest) (len pre) = Ok (byte_val b).
Proof.
  unfold byte_at, index. pose proof (len_nonneg pre). replace (len pre <? 0) with false by lia. cbv zeta.
  replace (len pre <? 0) with false by lia. unfold len. rewrite Nat2Z.id, nth_error_app2 by lia.
  by rewrite Nat.sub_diag.
Qed.

Lemma slice_middle (pre mid rest : bytes) : slice (pre ++ mid ++ rest) (len pre) (len pre + len mid) = mid.
Proof.
  unfold slice, len. rewrite Nat2Z.id. replace (Z.of_nat (length pre) + Z.of_nat (length mid) - Z.of_nat (length pre))
    with (Z.of_nat (length mid)) by lia.
  by rewrite Nat2Z.id, skipn_app, skipn_all, Nat.sub_diag, app_nil_l, skipn_O, firstn_app, Nat.sub_diag, firstn_all, firstn_O, app_nil_r.
Qed.

Lemma of_int_val z : 0 <= z < 256 -> exists b, of_ints [z] = [b] /\ byte_val b = z.
Proof.
  intros Hz. cbn [of_ints map]. rewrite Z.mod_small by lia. eexists. split; [done|].
  destruct (Byte.of_N (Z.to_N z)) as [b|] eqn:E.
  - apply Byte.to_of_N in E. unfold byte_val. rewrite E. lia.
  - apply Byte.of_N_None_iff in E. lia.
Qed.

(** ** Varints *)
Lemma septet v : let b := Z.lor (Z.land v 127) 128 in
  0 <= b < 256 /\ Z.land b 127 = Z.land v 127 /\ bit b 128 = true.
Proof.
  cbv zeta. pose proof (land_range v 127 ltac:(lia)) as Hx. revert Hx. generalize (Z.land v 127) as x. intros x Hx.
  assert (forallb (fun n => let x := Z.of_nat n in let b := Z.lor x 128 in
            (b <? 256) && (Z.land b 127 =? x) && bit b 128) (seq 0 128) = true) as Hall by (vm_compute; reflexivity).
  rewrite forallb_forall in Hall. specialize (Hall (Z.to_nat x) ltac:(apply in_seq; lia)). cbv zeta in Hall.
  rewrite Z2Nat.id in Hall by lia.
  apply andb_true_iff in Hall as [[Hb Hl]%andb_true_iff Hbit]. split_and!; [|lia|lia|done].
  apply Z.lor_nonneg. lia.
Qed.

Lemma join_septets acc v sh : 0 <= sh ->
  Z.lor (Z.lor acc (Z.shiftl (Z.land v 127) sh)) (Z.shiftl (Z.shiftr v 7) (sh + 7)) = Z.lor acc (Z.shiftl v sh).
Proof.
  intros Hsh. apply Z.bits_inj'. intros n Hn. rewrite !Z.lor_spec, !Z.shiftl_spec, Z.land_spec by lia.
  destruct (Z.ltb_spec (n - sh) 7) as [Hlt|Hge].
  - rewrite (Z.testbit_neg_r _ (n - (sh + 7))) by lia. rewrite orb_false_r. f_equal.
    destruct (Z.ltb_spec (n - sh) 0); [by rewrite !Z.testbit_neg_r by lia|].
    change 127 with (Z.ones 7). rewrite Z.ones_spec_low by lia. by rewrite andb_true_r.
  - rewrite Z.shiftr_spec by lia. change 127 with (Z.ones 7). rewrite Z.ones_spec_high by lia.
    rewrite andb_false_r, orb_false_r. do 2 f_equal. lia.
Qed.

Lemma varint_roundtrip_loop k : forall v fuel, (0 < k)%nat -> 0 <= v < 2 ^ (7 * Z.of_nat k) -> Z.log2 v < Z.of_nat fuel ->
  exists bs, encode_loop fuel v = Ok bs /\ 0 < len bs <= Z.of_nat k /\
    forall pre rest acc sh, 0 <= sh ->
      varint_loop k (pre ++ bs ++ rest) (len pre) acc sh = Ok (Z.lor acc (Z.shiftl v sh), len pre + len bs).
Proof.
  induction k as [|k IH]; intros v fuel Hk Hv Hf; [lia|].
  pose proof (Z.log2_nonneg v). destruct fuel as [|fuel]; [lia|]. cbn [encode_loop].
  destruct (Z.leb_spec 128 v) as [Hge|Hlt].
  - destruct (IH (Z.shiftr v 7) fuel) as (bs & -> & Hlen & Hread).
    + destruct k; [|lia]. change (2 ^ (7 * Z.of_nat 1)) with 128 in Hv. lia.
    + apply shiftr_range; [lia..|]. by replace (7 + 7 * Z.of_nat k) with (7 * Z.of_nat (S k)) by lia.
    + pose proof (Z.log2_le_mono 128 v Hge) as Hlog. change (Z.log2 128) with 7 in Hlog.
      rewrite Z.log2_shiftr by lia. lia.
    + cbn [exc_bind]. destruct (septet v) as (Hb & Hl & Hbit).
      destruct (of_int_val _ Hb) as (b & -> & Hbv). eexists. split; [done|]. split; [rewrite len_app, len_cons; unfold len in *; cbn; lia|].
      intros pre rest acc sh Hsh. cbn [varint_loop app]. rewrite len_app, len_cons.
      pose proof (len_nonneg pre). pose proof (len_nonneg (bs ++ rest)).
      replace (len pre + (1 + len (bs ++ rest)) <=? len pre) with false by lia.
      rewrite byte_at_middle, Hbv. cbn [exc_bind]. rewrite Hbit, Hl. cbn [negb].
      replace (pre ++ b :: bs ++ rest) with ((pre ++ [b]) ++ bs ++ rest) by (by rewrite <- app_assoc).
      replace (len pre + 1) with (len (pre ++ [b])) by (rewrite len_app, len_cons; unfold len; cbn; lia).
      rewrite Hread by lia. rewrite join_septets by lia. rewrite !len_cons, len_app, len_cons.
      do 2 f_equal. unfold len; cbn [length]. lia.
  - replace (v <? 0) with false by lia. destruct (of_int_val v ltac:(lia)) as (b & -> & Hbv).
    eexists. split; [done|]. split; [unfold len; cbn; lia|]. intros pre rest acc sh Hsh.
    cbn [varint_loop app]. rewrite len_app, len_cons. pose proof (len_nonneg pre). pose proof (len_nonneg rest).
    replace (len pre + (1 + len rest) <=? len pre) with false by lia. rewrite byte_at_middle, Hbv. cbn [exc_bind].
    assert (bit v 128 = false /\ Z.land v 127 = v) as [-> ->].
    { assert (forallb (fun n => let x := Z.of_nat n in negb (bit x 128) && (Z.land x 127 =? x)) (seq 0 128) = true)
        as Hall by (vm_compute; reflexivity).
      rewrite forallb_forall in Hall. specialize (Hall (Z.to_nat v) ltac:(apply in_seq; lia)). cbv zeta in Hall.
      rewrite Z2Nat.id in Hall by lia. apply andb_true_iff in Hall as [?%negb_true_iff ?]. split; [done|lia]. }
    cbn [negb]. do 2 f_equal.
Qed.

Lemma varint_loop_range k data : forall offset acc sh,
  0 <= offset -> 0 <= sh -> 0 <= acc < 2 ^ sh ->
  returns (varint_loop k data offset acc sh)
    (fun r => 0 <= fst r < 2 ^ (sh + 7 * Z.of_nat k) /\ offset < snd r <= len data) value_error.
Proof.
  induction k as [|k IH]; intros offset acc sh Ho Hsh Hacc; cbn [varint_loop]; [done|].
  destruct (Z.leb_spec (len data) offset); [done|].
  destruct (byte_at_ok data offset ltac:(lia)) as (b & -> & Hb). cbn [exc_bind].
  assert (0 <= Z.lor acc (Z.shiftl (Z.land b 127) sh) < 2 ^ (sh + 7)) as Hv.
  { apply lor_range; [lia| |].
    - split; [lia|]. eapply Z.lt_le_trans; [apply Hacc|]. apply Z.pow_le_mono_r; lia.
    - pose proof (land_range b 127 ltac:(lia)). rewrite Z.shiftl_mul_pow2, Z.pow_add_r by lia. change (2 ^ 7) with 128.
      nia. }
  destruct (bit b 128) eqn:E; cbn [negb].
  - eapply returns_weaken; [apply (IH (offset + 1) _ (sh + 7)); lia| |done]. intros [v o] [H1 H2]. cbn [fst snd] in *.
    replace (sh + 7 * Z.of_nat (S k)) with (sh + 7 + 7 * Z.of_nat k) by lia. lia.
  - cbn [returns fst snd]. split; [|lia]. split; [lia|]. eapply Z.lt_le_trans; [apply Hv|]. apply Z.pow_le_mono_r; lia.
Qed.

Lemma read_varint_range data offset : 0 <= offset ->
  returns (_read_varint data offset) (fun r => 0 <= fst r < 2 ^ 70 /\ offset < snd r <= len data) value_error.
Proof. intros Ho. unfold _read_varint. apply (varint_loop_range 10 data offset 0 0); [done|lia|]. cbn. lia. Qed.

(** ** Fields *)

(** What a field may hold: the width of its number is that of its type, except
    that a varint may have 70 bits. *)
Definition wire_ok (f : WireField) : Prop :=
  0 < number f /\
  match wire_type f, value_of f with
  | 0, WInt n => 0 <= n < 2 ^ 70
  | 1, WInt n => 0 <= n < 2 ^ 64
  | 2, WBytes _ => True
  | 5, WInt n => 0 <= n < 2 ^ 32
  | _, _ => False
  end.

Lemma int_from_le_range raw k : len raw = k -> 0 <= int_from_le raw < 2 ^ (8 * k).
Proof.
  intros <-. unfold int_from_le. pose proof (int_from_bytes_range (rev raw)) as Hr.
  replace (len (rev raw)) with (len raw) in Hr by (unfold len; by rewrite length_rev). done.
Qed.

(** A field of a message is no longer than the message. *)
Definition fits_in (n : Z) (f : WireField) : Prop :=
  match value_of f with WBytes b => len b <= n | WInt _ => True end.

Lemma read_field_ok data offset : 0 <= offset ->
  returns (read_field data offset) (fun r => (wire_ok (fst r) /\ fits_in (len data) (fst r)) /\ offset < snd r <= len data)
    value_error.
Proof.
  intros Ho. unfold read_field. pose proof (read_varint_range data offset Ho) as H1. unfold returns in H1.
  destruct (_read_varint data offset) as [[tag o1]|e]; [|done]. cbn [exc_bind fst snd] in *. destruct H1 as [Ht H1].
  assert (0 <= Z.shiftr tag 3) as Hn by (apply Z.shiftr_nonneg; lia).
  destruct (Z.eqb_spec (Z.shiftr tag 3) 0); [done|].
  destruct (Z.eqb_spec (Z.land tag 7) 0) as [Ew|_].
  { pose proof (read_varint_range data o1 ltac:(lia)) as H2. unfold returns in H2.
    destruct (_read_varint data o1) as [[v o2]|e]; [|done]. cbn [exc_bind fst snd returns] in *.
    unfold wire_ok, fits_in. cbn [number wire_type value_of]. rewrite Ew. lia. }
  destruct (Z.eqb_spec (Z.land tag 7) 1) as [Ew|_].
  { destruct (Z.ltb_spec (len data) (o1 + 8)); [done|]. cbn [returns fst snd]. unfold wire_ok, fits_in.
    cbn [number wire_type value_of]. rewrite Ew. split; [|lia]. split; [|done]. split; [lia|].
    apply (int_from_le_range _ 8). rewrite len_slice; lia. }
  destruct (Z.eqb_spec (Z.land tag 7) 2) as [Ew|_].
  { pose proof (read_varint_range data o1 ltac:(lia)) as H2. unfold returns in H2.
    destruct (_read_varint data o1) as [[v o2]|e]; [|done]. cbn [exc_bind fst snd] in *.
    destruct (Z.ltb_spec (len data) (o2 + v)); [done|]. cbn [returns fst snd]. unfold wire_ok, fits_in.
    cbn [number wire_type value_of]. rewrite Ew. pose proof (len_slice_le data o2 (o2 + v) ltac:(lia)). lia. }
  destruct (Z.eqb_spec (Z.land tag 7) 5) as [Ew|_]; [|done].
  destruct (Z.ltb_spec (len data) (o1 + 4)); [done|]. cbn [returns fst snd]. unfold wire_ok, fits_in.
  cbn [number wire_type value_of]. rewrite Ew. split; [|lia]. split; [|done]. split; [lia|].
  apply (int_from_le_range _ 4). rewrite len_slice; lia.
Qed.

Lemma fields_loop_ok fuel data : forall offset,
  0 <= offset <= len data -> len data - offset < Z.of_nat fuel ->
  returns (fields_loop fuel data offset)
    (fun fs => Forall wire_ok fs /\ Forall (fits_in (len data)) fs /\ len fs <= len data - offset) value_error.
Proof.
  induction fuel as [|fuel IH]; intros offset Ho Hf; cbn [fields_loop].
  - unfold returns. lia.
  - destruct (Z.leb_spec (len data) offset); [split_and!; [constructor..|]; unfold len in *; cbn; lia|].
    pose proof (read_field_ok data offset (proj1 Ho)) as H1. unfold returns in H1.
    destruct (read_field data offset) as [[f o1]|e]; [|done]. cbn [exc_bind fst snd] in *. destruct H1 as [[Hw Hfit] H1].
    pose proof (IH o1 ltac:(lia) ltac:(lia)) as H2. unfold returns in H2.
    destruct (fields_loop fuel data o1) as [fs|e]; [|done]. destruct H2 as (Hws & Hfits & Hlen).
    split_and!; [by constructor..|]. rewrite len_cons. lia.
Qed.

Lemma field_list_sized data : returns (_field_list data)
  (fun fs => Forall wire_ok fs /\ Forall (fits_in (len data)) fs /\ len fs <= len data) value_error.
Proof.
  pose proof (len_nonneg data). eapply returns_weaken; [apply fields_loop_ok; [lia|]| |done].
  - unfold len. lia.
  - intros fs (? & ? & ?). split_and!; [done..|lia].
Qed.

Lemma field_list_ok data : returns (_field_list data) (Forall wire_ok) value_error.
Proof. eapply returns_weaken; [apply field_list_sized|by intros ? [? _]|done]. Qed.

(** ** Round trip *)

(** What the writer can write. *)
Definition writable (f : WireField) : Prop :=
  0 < number f < 2 ^ 67 /\
  match wire_type f, value_of f with
  | 0, WInt n => 0 <= n < 2 ^ 70
  | 2, WBytes b => len b < 2 ^ 70
  | _, _ => False
  end.

Definition written (f : WireField) : exc bytes :=
  match value_of f with
  | WInt n => _encode_int (number f) n
  | WBytes b => _encode_bytes (number f) b
  end.

Fixpoint write_all (fs : list WireField) : exc bytes :=
  match fs with
  | [] => Ok []
  | f :: fs' => let? data := written f in let? rest := write_all fs' in Ok (data ++ rest)
  end.

Lemma encode_varint_ok v : 0 <= v < 2 ^ 70 ->
  exists bs, _encode_varint v = Ok bs /\ 0 < len bs /\
    forall pre rest, _read_varint (pre ++ bs ++ rest) (len pre) = Ok (v, len pre + len bs).
Proof.
  intros Hv. destruct (varint_roundtrip_loop 10 v (S (Z.to_nat (Z.log2 v)))) as (bs & E & Hl & Hr); [lia|exact Hv| |].
  - pose proof (Z.log2_nonneg v). lia.
  - exists bs. split; [exact E|]. split; [lia|]. intros pre rest. unfold _read_varint. rewrite Hr by lia.
    by rewrite Z.lor_0_l, Z.shiftl_0_r.
Qed.

Lemma tag_sum n : 0 <= n -> Z.lor (Z.shiftl n 3) 2 = 8 * n + 2 /\ Z.shiftl n 3 = 8 * n.
Proof.
  intros Hn. assert (Z.shiftl n 3 = 8 * n) as E by (rewrite Z.shiftl_mul_pow2 by lia; lia). split; [|done].
  rewrite <- Z.add_nocarry_lor; [lia|]. apply Z.bits_inj'. intros k Hk. rewrite Z.land_spec, Z.bits_0.
  destruct (Z.ltb_spec k 3); [rewrite Z.shiftl_spec_low by lia; done|].
  apply andb_false_iff. right. apply Z.bits_above_log2; [lia|]. cbn. lia.
Qed.

Lemma tag_parts t n w : 0 <= n -> 0 <= w < 8 -> t = 8 * n + w -> Z.shiftr t 3 = n /\ Z.land t 7 = w.
Proof.
  intros Hn Hw ->. rewrite Z.shiftr_div_pow2 by lia. change 7 with (Z.ones 3). rewrite Z.land_ones by lia.
  change (2 ^ 3) with 8. split; Z.to_euclidean_division_equations; lia.
Qed.

Lemma written_ok f : writable f ->
  exists bs, written f = Ok bs /\ 0 < len bs /\
    forall pre rest, read_field (pre ++ bs ++ rest) (len pre) = Ok (f, len pre + len bs).
Proof.
  destruct f as [n w v]. intros [Hn Hv]. cbn [number wire_type value_of] in *. unfold written. cbn [number value_of].
  assert (2 ^ 70 = 8 * 2 ^ 67) as E70 by reflexivity. destruct (tag_sum n ltac:(lia)) as [Et2 Et0].
  destruct v as [v|b].
  - assert (w = 0) as -> by (destruct w as [|[[]|[]|]|]; done).
    destruct (encode_varint_ok (Z.shiftl n 3)) as (tag & Et & Hlt & Hrt); [lia|].
    destruct (encode_varint_ok v) as (bs & Eb & Hlb & Hrb); [lia|].
    unfold _encode_int. rewrite Et, Eb. cbn [exc_bind]. eexists. split; [done|]. split; [rewrite len_app; lia|].
    intros pre rest. unfold read_field. rewrite <- app_assoc, Hrt. cbn [exc_bind].
    destruct (tag_parts (Z.shiftl n 3) n 0) as [-> ->]; [lia..|]. replace (n =? 0) with false by lia. cbn [Z.eqb].
    rewrite app_assoc, <- len_app, Hrb, !len_app. cbn [exc_bind]. do 2 f_equal. lia.
  - assert (w = 2) as -> by (destruct w as [|[[]|[]|]|]; done).
    destruct (encode_varint_ok (Z.lor (Z.shiftl n 3) 2)) as (tag & Et & Hlt & Hrt); [lia|].
    destruct (encode_varint_ok (len b)) as (bs & Eb & Hlb & Hrb); [pose proof (len_nonneg b); lia|].
    unfold _encode_bytes. rewrite Et, Eb. cbn [exc_bind]. eexists. split; [done|].
    pose proof (len_nonneg b). split; [rewrite !len_app; lia|].
    intros pre rest. unfold read_field. rewrite <- !app_assoc, Hrt. cbn [exc_bind].
    destruct (tag_parts (Z.lor (Z.shiftl n 3) 2) n 2) as [-> ->]; [lia..|]. replace (n =? 0) with false by lia.
    cbn [Z.eqb Pos.eqb]. rewrite (app_assoc pre tag), <- (len_app pre tag), Hrb. cbn [exc_bind].
    pose proof (len_nonneg rest). rewrite !len_app.
    replace (len pre + len tag + (len bs + (len b + len rest)) <? len pre + len tag + len bs + len b) with false by lia.
    rewrite app_assoc, <- (len_app pre tag), <- (len_app (pre ++ tag) bs), slice_middle, !len_app.
    do 2 f_equal. lia.
Qed.

Lemma fields_loop_written fs : Forall writable fs -> exists data, write_all fs = Ok data /\
  forall pre fuel, len data < Z.of_nat fuel -> fields_loop fuel (pre ++ data) (len pre) = Ok fs.
Proof.
  induction 1 as [|f fs Hf Hfs (rest & Erest & Hread)].
  - exists []. split; [done|]. intros pre fuel Hfuel. destruct fuel; [unfold len in Hfuel; cbn in *; lia|].
    cbn [fields_loop]. rewrite app_nil_r. by rewrite Z.leb_refl.
  - destruct (written_ok f Hf) as (bs & E & Hl & Hr). cbn [write_all]. rewrite E, Erest. cbn [exc_bind].
    eexists. split; [done|]. intros pre fuel Hfuel. rewrite len_app in Hfuel. pose proof (len_nonneg rest).
    destruct fuel as [|fuel]; [lia|]. cbn [fields_loop]. pose proof (len_nonneg pre). rewrite !len_app.
    replace (len pre + (len bs + len rest) <=? len pre) with false by lia. rewrite Hr. cbn [exc_bind].
    rewrite app_assoc, <- len_app, Hread by lia. done.
Qed.

(** C25: the wire format round-trips: whatever integer and octet-string fields
    are written, in whatever order and number, the reader returns exactly that
    list; and whatever octets the reader is given, it ends with a list of
    well-formed fields, each number within the width of its type, or with
    ValueError. *)
Theorem wire_roundtrip fs data :
  (Forall writable fs -> write_all fs = Ok data -> _field_list data = Ok fs) /\
  returns (_field_list data) (Forall wire_ok) value_error.
Proof.
  split; [|apply field_list_ok]. intros Hfs Hw. destruct (fields_loop_written fs Hfs) as (data' & E & Hr).
  assert (data' = data) as -> by congruence. apply (Hr []). unfold len. lia.
Qed.

Lemma wire_roundtrip_witness :
  let fs := [{| number := 1; wire_type := 2; value_of := WBytes (of_ints [8; 7]) |};
             {| number := 300; wire_type := 0; value_of := WInt (2 ^ 69) |}] in
  Forall writable fs /\ exists data, write_all fs = Ok data /\ _field_list data = Ok fs.
Proof.
  intros fs. assert (Forall writable fs) as Hfs.
  { repeat constructor; unfold writable; cbn [number wire_type value_of]; vm_compute; try done; intuition congruence. }
  split; [exact Hfs|]. eexists. split; [vm_compute; reflexivity|].
  apply (proj1 (wire_roundtrip fs _) Hfs). vm_compute. reflexivity.
Defined.
