(* ===== verification/SapientFacts.v ===== *)
(** * What the SAPIENT decoder promises

    Whatever frames arrive, the decoder raises nothing but ValueError, its
    state keeps an invariant, and every track it makes is well-typed. *)

From Stdlib Require Import SpecFloat.
From stdpp Require Import strings.
From S2P Require Import Prelude PyFloat PyData Schema TrackViews PyText PyNum Wire Sapient.
From S2P Require Import Contract Ranges Cursor Safety AsterixCommon WireFacts.
#[local] Open Scope Z_scope.
#[local] Open Scope py_scope.

Lemma returns_seq {A B} (m : exc A) (f : A -> exc B) Q1 Q E :
  returns m Q1 E -> (forall a, Q1 a -> returns (f a) Q E) -> returns (exc_bind m f) Q E.
Proof. destruct m; cbn; auto. Qed.

Lemma returns_ok {A} (a : A) (Q : A -> Prop) E : Q a -> returns (Ok a) Q E.
Proof. done. Qed.

(** ** Fields *)
Section Fields.
Variable fs : list WireField.
Hypothesis Hfs : Forall wire_ok fs.

Lemma find_ok n w f : find (is_field n w) fs = Some f -> wire_ok f /\ wire_type f = w.
Proof.
  intros Hf. apply find_some in Hf as [Hin [_ Hw]%andb_true_iff].
  rewrite Forall_forall in Hfs. split; [apply Hfs; by apply list_elem_of_In|lia].
Qed.

Lemma first_double n : exists o, _double (_first fs n 1) = Ok o.
Proof.
  unfold _first. destruct (find _ fs) as [f|] eqn:E; cbn [option_map _double]; [|by eexists].
  destruct (find_ok _ _ _ E) as [[_ Hv] Hw]. rewrite Hw in Hv. destruct (value_of f) as [v|]; [|done].
  cbn [_double]. destruct (Z.leb_spec (2 ^ 64) v); [lia|by eexists].
Qed.

Lemma first_float n : exists o, _float (_first fs n 5) = Ok o.
Proof.
  unfold _first. destruct (find _ fs) as [f|] eqn:E; cbn [option_map _float]; [|by eexists].
  destruct (find_ok _ _ _ E) as [[_ Hv] Hw]. rewrite Hw in Hv. destruct (value_of f) as [v|]; [|done].
  cbn [_float]. destruct (Z.leb_spec (2 ^ 32) v); [lia|by eexists].
Qed.

Lemma first_int n v : as_int (_first fs n 0) = Some v -> 0 <= v < 2 ^ 70.
Proof.
  unfold _first. destruct (find _ fs) as [f|] eqn:E; cbn [option_map as_int]; [|done].
  destruct (find_ok _ _ _ E) as [[_ Hv] Hw]. rewrite Hw in Hv. destruct (value_of f); [|done]. by intros [= <-].
Qed.

Lemma all_bytes n : Forall (fun v => exists b, v = WBytes b) (_all fs n 2).
Proof.
  unfold _all. apply Forall_forall. intros v. rewrite list_elem_of_In, in_map_iff.
  intros (f & <- & [Hin [_ Hw]%andb_true_iff]%filter_In). rewrite Forall_forall in Hfs.
  destruct (Hfs f ltac:(by apply list_elem_of_In)) as [_ Hv]. apply Z.eqb_eq in Hw. rewrite Hw in Hv.
  destruct (value_of f); [done|by eexists].
Qed.

Lemma first_all_bytes k n : Forall (fun v => exists b, v = WBytes b) (firstn k (_all fs n 2)).
Proof. apply Forall_take, all_bytes. Qed.
End Fields.

Lemma collect_ok {A} (values : list wire_value) (body : list WireField -> exc (option A)) (P : A -> Prop) E :
  Forall (fun v => exists b, v = WBytes b) values -> (forall e, value_error e -> E e) ->
  (forall fs, Forall wire_ok fs -> returns (body fs) (fun o => forall a, o = Some a -> P a) E) ->
  returns (collect values body) (Forall P) E.
Proof.
  intros Hv HE Hb. induction Hv as [|v values [b ->] _ IH]; cbn [collect]; [constructor|].
  eapply returns_seq; [eapply returns_weaken; [apply field_list_ok|done|done]|]. intros fs Hfs.
  eapply returns_seq; [by apply Hb|]. intros o Ho. eapply returns_seq; [exact IH|]. intros items Hitems. cbn [returns].
  destruct o as [a|]; [|done]. constructor; [by apply Ho|done].
Qed.

(** ** Optional keys keep a record's type *)

(** A property of records that setting a well-typed key keeps. *)
Class Settable (S : schema) (P : dict -> Prop) : Prop :=
  settable k v d : P d -> field_ok S k v = true -> P (dset k v d).

#[export] Instance wt_settable S : Settable S (wt S).
Proof. intros k v d. apply wt_dset. Qed.

Section Setters.
Context {S : schema} {P : dict -> Prop} `{!Settable S P}.

Lemma put_key k t v d : P d -> field_ty S k = Some t -> has_ty t v = true -> P (dset k v d).
Proof. intros Hd Hk Hv. apply settable; [done|]. by eapply field_okI. Qed.

Lemma put_text k o d : P d -> field_ty S k = Some TStr -> P (set_text k o d).
Proof. intros Hd Hk. destruct o; [|done]. by eapply put_key. Qed.

Lemma put_float k o d : P d -> field_ty S k = Some TFloat -> P (set_float k o d).
Proof. intros Hd Hk. destruct o; [|done]. by eapply put_key. Qed.

Lemma put_rounded k digits o d : P d -> field_ty S k = Some TFloat -> P (set_rounded k digits o d).
Proof. intros. by apply put_float. Qed.

Lemma put_int k lo hi o d : P d -> field_ty S k = Some (TInt lo hi) ->
  (forall v, o = Some v -> lo <= v <= hi) -> P (set_int k o d).
Proof.
  intros Hd Hk Ho. destruct o as [v|]; [|done]. eapply put_key; [done|exact Hk|]. cbn. specialize (Ho v eq_refl). lia.
Qed.

Lemma put_named k names prefix o d : P d -> field_ty S k = Some TStr -> P (set_named k names prefix o d).
Proof. intros Hd Hk. destruct o; [|done]. by eapply put_key. Qed.

Lemma put_list k t l d : P d -> field_ty S k = Some (TList t) -> forallb (has_ty t) l = true -> P (set_list k l d).
Proof. intros Hd Hk Hl. destruct l as [|v l]; [done|]. by eapply put_key. Qed.

Lemma put_dict k t sub d : P d -> field_ty S k = Some (TMap t) ->
  forallb (fun kv => has_ty t (snd kv)) sub = true -> P (set_dict k sub d).
Proof. intros Hd Hk Hl. destruct sub as [|v l]; [done|]. by eapply put_key. Qed.

Lemma put_count k n d : P d -> field_ty S k = Some (TInt 0 (2 ^ 70)) -> 0 <= n <= 2 ^ 70 -> P (set_count k n d).
Proof.
  intros Hd Hk Hn. unfold set_count. destruct (n =? 0); [done|]. eapply put_key; [done|exact Hk|]. cbn. lia.
Qed.

Lemma put_flag k d : P d -> field_ty S k = Some TTrue -> P (dset k (VBool true) d).
Proof. intros Hd Hk. by eapply put_key. Qed.

End Setters.

Lemma forallb_values t (l : list value) : Forall (fun v => has_ty t v = true) l -> forallb (has_ty t) l = true.
Proof. intros Hl. apply forallb_forall. rewrite Forall_forall in Hl. intros v Hv. apply Hl. by apply list_elem_of_In. Qed.

Lemma has_ty_wt fs d : wt fs d -> has_ty (TDict fs) (VDict d) = true.
Proof. by intros [_ Hf]. Qed.

(** A key is set, whether or not its value is there. *)
Ltac wt_key :=
  first [ apply put_text; [|reflexivity] | apply put_rounded; [|reflexivity] | apply put_float; [|reflexivity]
        | apply put_named; [|reflexivity] | apply put_flag; [|reflexivity]
        | eapply put_int; [|reflexivity|] ].

(** The keys of a literal record are distinct. *)
Ltac distinct_keys := apply (bool_decide_unpack _); vm_compute; exact I.

(** Reads of a field of known type. *)
Ltac read_number := match goal with
  | Hfs : Forall wire_ok ?fs |- returns (let? _ := _double (_first ?fs ?n 1) in _) _ _ =>
      let o := fresh "o" in destruct (first_double fs Hfs n) as [o ->]; cbn [exc_bind]
  | Hfs : Forall wire_ok ?fs |- returns (let? _ := _float (_first ?fs ?n 5) in _) _ _ =>
      let o := fresh "o" in destruct (first_float fs Hfs n) as [o ->]; cbn [exc_bind]
  end.
Ltac read_fields := eapply returns_seq; [apply field_list_ok|]; intros ?fs ?Hfs.

(** ** Positions *)
Definition location_meta : schema :=
  [("sapient_location_coordinate_system", TInt 1 2); ("sapient_location_datum", TInt 1 2); ("altitude_reference", TStr);
   ("lon_error", TFloat); ("lat_error", TFloat); ("alt_error_m", TFloat)].
Definition bearing_meta : schema :=
  [("sapient_range_m", TFloat); ("sapient_azimuth_deg", TFloat); ("sapient_elevation_deg", TFloat);
   ("sapient_range_bearing_datum", TInt 1 1)].
Definition position_meta : schema := location_meta ++ bearing_meta.

(** A place on the earth. *)
Definition on_earth (lat lon : float) : Prop :=
  fbetween (fl (-90)) lat (fl 90) = true /\ fbetween (fl (-180)) lon (fl 180) = true.

Lemma decode_location_ok raw :
  returns (_decode_location raw)
    (fun p => let '(lat, lon, _, meta) := p in on_earth lat lon /\ fields_ok location_meta meta = true) value_error.
Proof.
  unfold _decode_location. read_fields. do 3 read_number. cbv zeta.
  destruct o as [x|], o0 as [y|]; try done.
  eapply (returns_seq _ _ (fun r => 1 <= snd r <= 2)).
  { repeat case_match; cbn; try done; lia. }
  intros [[lon lat] cs] Hcs. cbn [snd] in Hcs.
  eapply (returns_seq _ _ (fun r => 1 <= r <= 2)); [repeat case_match; cbn; try done; lia|]. intros datum Hdatum.
  destruct (_ && _) eqn:Hb; cbn [negb]; [|done]. apply andb_true_iff in Hb as [H1 H2].
  do 3 read_number. cbn [returns]. split; [done|].
  assert (wt location_meta [("sapient_location_coordinate_system", VInt cs); ("sapient_location_datum", VInt datum);
    ("altitude_reference", VStr (if datum =? 1 then "wgs84_ellipsoid" else "wgs84_geoid"))]) as Hwt.
  { split; [distinct_keys|]. cbn. lia. }
  match goal with |- fields_ok ?S ?d = true => enough (wt S d) as [_ ?] by done end.
  repeat wt_key. apply Hwt.
Qed.

Lemma decode_range_bearing_ok raw :
  returns (_decode_range_bearing raw) (fun p => fields_ok bearing_meta (snd p) = true) value_error.
Proof.
  unfold _decode_range_bearing. read_fields. read_number. cbv zeta. do 2 read_number.
  destruct o0 as [azimuth|], o1 as [distance|]; try done.
  eapply (returns_seq _ _ (fun _ => True)); [repeat case_match; done|]. intros [[az el] km] _.
  repeat case_match; done.
Qed.

Section Facts.
Context `{LibmOk}.

Lemma libm_seq {A B} (m : exc A) (k : A -> exc B) Q :
  (forall e, m = Raise e -> e = ValueError) -> (forall a, returns (k a) Q value_error) ->
  returns (exc_bind m k) Q value_error.
Proof. intros Hm Hk. destruct m as [a|e]; cbn; [apply Hk|by rewrite (Hm e eq_refl)]. Qed.

Ltac libm := first [apply libm_seq; [intros ? ?; first [by eapply m_sin_err|by eapply m_cos_err|by eapply m_asin_err
  |by eapply m_atan2_err]|]; intros ?].

Lemma project_ok origin e a d : returns (_project origin e a d) (fun _ => True) value_error.
Proof.
  unfold _project. destruct (latitude origin) as [lat0|], (longitude origin) as [lon0|]; try done.
  cbv zeta. repeat libm. destruct (altitude_m origin); [|done]. apply returns_bind. repeat libm. done.
Qed.

(** What the position of a report is: a place on the earth, or a projection. *)
Definition position_ok (node : node_state) (p : float * float * option float * dict) : Prop :=
  let '(lat, lon, _, meta) := p in
  fields_ok position_meta meta = true /\
  (on_earth lat lon \/ exists e a d alt, _project node e a d = Ok (lat, lon, alt)).

Lemma position_returns node fs : Forall wire_ok fs -> returns (_position node fs) (position_ok node) value_error.
Proof.
  intros Hfs. unfold _position. destruct (as_bytes (_first fs 6 2)) as [raw|].
  - eapply returns_weaken; [apply decode_location_ok| |done]. intros [[[lat lon] alt] meta] [He Hm].
    split; [|by left]. eapply (fields_ok_le location_meta); [vm_compute; reflexivity|exact Hm].
  - destruct (as_bytes (_first fs 5 2)) as [raw|]; [|done].
    eapply returns_seq; [apply decode_range_bearing_ok|]. intros [[[e a] d] meta] Hm. cbn [snd] in Hm.
    pose proof (project_ok node e a d) as Hp. destruct (_project node e a d) as [[[lat lon] alt]|] eqn:E; [|done].
    split; [|right; eauto]. eapply (fields_ok_le bearing_meta); [vm_compute; reflexivity|exact Hm].
Qed.
End Facts.

(** ** Parts of a detection *)
Definition sub_class_schema : schema := [("type", TStr); ("confidence", TFloat); ("level", TInt 0 (2 ^ 70))].
Definition classification_schema : schema :=
  [("type", TStr); ("confidence", TFloat); ("sub_classes", TList (TDict sub_class_schema))].
Definition signal_schema : schema :=
  [("amplitude", TFloat); ("start_frequency", TFloat); ("centre_frequency", TFloat); ("stop_frequency", TFloat);
   ("pulse_duration", TFloat)].
Definition behaviour_schema : schema := [("type", TStr); ("confidence", TFloat)].
Definition file_schema : schema := [("type", TStr); ("url", TStr)].
Definition related_schema : schema := [("node_id", TStr); ("object_id", TStr)].
Definition status_schema : schema := [("level", TStr); ("type", TStr); ("value", TStr)].

Definition dict_ok (S : schema) (v : value) : Prop := has_ty (TDict S) v = true.

Lemma decode_info_ok values : Forall (fun v => exists b, v = WBytes b) values ->
  returns (_decode_info values) (fun d => forallb (fun kv => has_ty TStr (snd kv)) d = true) value_error.
Proof.
  intros Hv. unfold _decode_info.
  eapply returns_seq; [apply (collect_ok _ _ (fun kv => has_ty TStr (snd kv) = true)); [by apply Forall_take|done|]|].
  { intros fs Hfs. cbn. intros a. repeat case_match; intros; simplify_eq; done. }
  intros items Hitems. cbn [returns].
  assert (forall d, forallb (fun kv => has_ty TStr (snd kv)) d = true ->
            forallb (fun kv => has_ty TStr (snd kv)) (dupdate d items) = true) as Hu; [|by apply Hu].
  unfold dupdate. induction Hitems as [|[k v] items Hkv _ IH]; intros d Hd; cbn [fold_left]; [done|].
  apply IH. cbn [fst snd] in *. clear -Hd Hkv. induction d as [|[k' v'] d IHd]; cbn in *; [by rewrite Hkv|].
  apply andb_true_iff in Hd as [Hv' Hd]. destruct (String.eqb k' k); cbn; rewrite ?Hkv, ?Hv'; auto.
Qed.

Lemma wt_one k v S : field_ty S k = Some v -> forall x, has_ty v x = true -> wt S [(k, x)].
Proof.
  intros Hk x Hx. split; [apply NoDup_singleton|]. unfold fields_ok. cbn [forallb fst snd].
  by rewrite (field_okI _ _ _ _ Hk Hx).
Qed.

Lemma int_bound fs n v : Forall wire_ok fs -> as_int (_first fs n 0) = Some v -> 0 <= v <= 2 ^ 70.
Proof. intros Hfs Hv. pose proof (first_int fs Hfs n v Hv). lia. Qed.

Lemma decode_classification_ok fs : Forall wire_ok fs ->
  returns (_decode_classification fs) (wt classification_schema) value_error.
Proof.
  intros Hfs. unfold _decode_classification. read_number. cbv zeta.
  eapply returns_seq; [apply (collect_ok _ _ (dict_ok sub_class_schema)); [by apply first_all_bytes|done|]|].
  { intros sub Hsub. destruct (first_text sub 1) as [t|]; [|done]. read_number. cbn [returns]. intros a [= <-].
    apply has_ty_wt. eapply put_int; [|reflexivity|intros v; by apply int_bound].
    wt_key. by eapply wt_one. }
  intros subs Hsubs. cbn [returns]. eapply put_list; [|reflexivity|by apply forallb_values].
  wt_key. by eapply wt_one.
Qed.

Lemma decode_signals_ok values : Forall (fun v => exists b, v = WBytes b) values ->
  returns (_decode_signals values) (fun l => forallb (has_ty (TDict signal_schema)) l = true) value_error.
Proof.
  intros Hv. unfold _decode_signals. eapply returns_weaken; [|intros l Hl; apply forallb_values, Hl|done].
  apply (collect_ok _ _ (dict_ok signal_schema)); [by apply Forall_take|done|]. intros fs Hfs. do 5 read_number.
  cbv zeta. cbn [returns].
  assert (wt signal_schema (set_float "pulse_duration" o3 (set_float "stop_frequency" o2
    (set_float "centre_frequency" o1 (set_float "start_frequency" o0 (set_float "amplitude" o [])))))) as Hwt
    by (repeat wt_key; apply wt_nil).
  destruct (set_float _ _ _) as [|kv d]; [done|]. intros a [= <-]. by apply has_ty_wt.
Qed.

Lemma behaviour_ok fs : Forall wire_ok fs ->
  returns (behaviour fs) (fun o => forall a, o = Some a -> dict_ok behaviour_schema a) value_error.
Proof.
  intros Hfs. unfold behaviour. destruct (first_text fs 1) as [t|]; [|done]. read_number. intros a [= <-].
  apply has_ty_wt. wt_key. by eapply wt_one.
Qed.

Lemma associated_file_ok fs : returns (associated_file fs) (fun o => forall a, o = Some a -> dict_ok file_schema a) value_error.
Proof. unfold associated_file. cbn. intros a. by case_match; intros; simplify_eq. Qed.

Lemma related_ok fs : returns (related_detection fs) (fun o => forall a, o = Some a -> dict_ok related_schema a) value_error.
Proof. unfold related_detection. cbn. intros a. by repeat case_match; intros; simplify_eq. Qed.

Lemma status_entry_ok fs : returns (status_entry fs) (fun o => forall a, o = Some a -> dict_ok status_schema a) value_error.
Proof.
  unfold status_entry. cbv zeta. cbn [returns].
  assert (wt status_schema (set_text "value" (first_text fs 3)
    (set_named "type" _STATUS_TYPES "type_" (as_int (_first fs 4 0))
    (set_named "level" _STATUS_LEVELS "level_" (as_int (_first fs 1 0)) [])))) as Hwt
    by (repeat wt_key; apply wt_nil).
  destruct (set_text _ _ _) as [|kv d]; [done|]. intros a [= <-]. by apply has_ty_wt.
Qed.

(** A list of sub-records. *)
Lemma collect_dicts {B} T values body (f : list value -> exc B) (Q : B -> Prop) :
  Forall (fun v => exists b, v = WBytes b) values ->
  (forall fs, Forall wire_ok fs -> returns (body fs) (fun o => forall a, o = Some a -> dict_ok T a) value_error) ->
  (forall l, forallb (has_ty (TDict T)) l = true -> returns (f l) Q value_error) ->
  returns (exc_bind (collect values body) f) Q value_error.
Proof.
  intros Hv Hb Hf. eapply returns_seq; [by apply (collect_ok _ _ (dict_ok T))|]. intros l Hl.
  by apply Hf, forallb_values.
Qed.

(** ... of which the record gets a key: [t] is the record after it. *)
Ltac read_list T lem t := eapply (collect_dicts T); [by apply first_all_bytes|intros; by apply lem|];
  let l := fresh "l" in let Hl := fresh "Hl" in intros l Hl; cbv zeta;
  match goal with Ht : ?P t |- context [set_list ?k l t] =>
    assert (P (set_list k l t)) as ?; [eapply put_list; [exact Ht|reflexivity|exact Hl]|];
    let t' := fresh "t" in set (t' := set_list k l t) in *; clearbody t'; clear l Hl Ht; try clear t; rename t' into t
  end.

(** ** Tracks *)
Definition sapient_schema : schema :=
  [("_ts", TFloat); ("_src", TStr); ("uid", TStr); ("sensor_id", TStr); ("callsign", TStr); ("lat_deg", TFloat);
   ("lon_deg", TFloat); ("sapient_message_type", TStr); ("geo_alt_m", TFloat); ("_delete", TTrue);
   ("sapient_node_types", TList TStr); ("sapient_report_id", TStr);
   (* status reports *)
   ("sapient_icd_version", TEither TNone TStr); ("sensor_status", TStr); ("sensor_mode", TStr); ("sapient_info", TStr);
   ("sapient_active_task_id", TStr); ("sapient_power_level_pct", TInt 0 (2 ^ 70)); ("sapient_power_source", TStr);
   ("sapient_power_status", TStr); ("sapient_field_of_view_present", TTrue);
   ("sapient_obscuration_count", TInt 0 (2 ^ 70)); ("sapient_coverage_count", TInt 0 (2 ^ 70));
   ("sapient_status", TList (TDict status_schema));
   (* detections *)
   ("object_id", TStr); ("sapient_class", TStr); ("sapient_classifications", TList (TDict classification_schema));
   ("sapient_state", TStr); ("detection_confidence", TFloat); ("colour", TStr); ("sapient_track_info", TMap TStr);
   ("sapient_object_info", TMap TStr); ("sapient_signals", TList (TDict signal_schema)); ("sapient_task_id", TStr);
   ("sapient_predicted_lat_deg", TFloat); ("sapient_predicted_lon_deg", TFloat); ("sapient_predicted_alt_m", TFloat);
   ("sapient_behaviour", TList (TDict behaviour_schema)); ("sapient_associated_files", TList (TDict file_schema));
   ("sapient_associated_detections", TList (TDict related_schema));
   ("sapient_derived_detections", TList (TDict related_schema)); ("sapient_id", TStr); ("speed_ms", TFloat);
   ("heading_deg", TFloat); ("vertical_rate_ms", TFloat);
   (* alerts *)
   ("sapient_alert_type", TStr); ("sapient_alert_status", TStr); ("sapient_alert_priority", TStr); ("description", TStr);
   ("sapient_region_id", TStr); ("sapient_additional_information", TStr)] ++ position_meta.

(** A track: well-typed and placed. *)
Definition track_ok (t : dict) : Prop := wt sapient_schema t /\ dmem "lat_deg" t = true /\ dmem "lon_deg" t = true.

#[export] Instance track_settable : Settable sapient_schema track_ok.
Proof.
  intros k v d (Hwt & Hlat & Hlon) Hv. split; [by apply wt_dset|]. by rewrite !dmem_dset, Hlat, Hlon, !orb_true_r.
Qed.

(** The keys of a track other than [_delete]: setting one leaves the flag. *)
Definition without (x : string) (S : schema) : schema := List.filter (fun kt => negb (String.eqb (fst kt) x)) S.
Abbreviation body_schema := (without "_delete" sapient_schema).
Definition flag_is (o : option value) (d : dict) : Prop := dget d "_delete" = o.

Lemma without_ty x S k : field_ty (without x S) k = if String.eqb x k then None else field_ty S k.
Proof.
  unfold without. induction S as [|[k' t] S IH]; cbn [List.filter fst field_ty]; [by destruct (String.eqb x k)|].
  destruct (String.eqb_spec k' x) as [->|Hn]; cbn [negb field_ty]; rewrite IH; [by destruct (String.eqb_spec x k)|].
  destruct (String.eqb_spec k' k) as [->|]; [|done]. destruct (String.eqb_spec x k); [congruence|done].
Qed.

Lemma without_ok x S k v : field_ok (without x S) k v = true -> x <> k /\ field_ok S k v = true.
Proof.
  unfold field_ok. rewrite without_ty. destruct (String.eqb_spec x k) as [|Hn]; [discriminate|]. intros Hv. split; assumption.
Qed.

#[export] Instance body_track : Settable body_schema track_ok | 10.
Proof.
  intros k v d Hd Hv. destruct (without_ok "_delete" sapient_schema k v Hv) as [_ Hv'].
  exact (track_settable k v d Hd Hv').
Qed.

#[export] Instance body_flag_settable o : Settable body_schema (flag_is o).
Proof.
  intros k v d Hd Hv. destruct (without_ok "_delete" sapient_schema k v Hv) as [Hk _].
  unfold flag_is in *. rewrite dget_dset_ne; [exact Hd|congruence].
Qed.

Lemma track_dupdate t meta : track_ok t -> fields_ok position_meta meta = true -> track_ok (dupdate t meta).
Proof.
  intros Ht Hm. assert (fields_ok sapient_schema meta = true) as Hm'
    by (eapply (fields_ok_le position_meta); [vm_compute; reflexivity|exact Hm]).
  clear Hm. unfold dupdate. revert t Ht. induction meta as [|[k v] meta IH]; intros t Ht; cbn [fold_left]; [done|].
  cbn in Hm'. apply andb_true_iff in Hm' as [Hk Hm']. apply IH; [done|]. by apply track_settable.
Qed.

Lemma node_types_ok l : has_ty (TList TStr) (VList (map VStr l)) = true.
Proof. cbn. induction l; [done|]. cbn. done. Qed.

(** A node has a position or none, and its position is a place. *)
Definition node_ok (n : node_state) : Prop :=
  match latitude n, longitude n with
  | Some lat, Some lon => on_earth lat lon
  | None, None => True
  | _, _ => False
  end.

Section Tracks.
Context `{LibmOk}.

Lemma status_track_ok node_id node lat lon sent_at fs : Forall wire_ok fs -> len (_all fs 10 2) <= 2 ^ 70 ->
  len (_all fs 12 2) <= 2 ^ 70 ->
  returns (status_track node_id node lat lon sent_at fs) track_ok value_error.
Proof.
  intros Hfs H10 H12. unfold status_track. cbv zeta.
  eapply (returns_seq _ _ track_ok).
  { set (base := [("_ts", _); _; _; _; _; _; _; _; _; _]).
    assert (track_ok base) as Hbase.
    { subst base. split; [split; [distinct_keys|]|done]. cbn [fields_ok forallb fst snd].
      unfold field_ok. cbn -[has_ty]. rewrite node_types_ok. by destruct (icd_version node). }
    set (keys := set_text "sapient_active_task_id" _ _).
    assert (track_ok keys) as Hkeys; [|clearbody keys].
    { subst keys. do 3 wt_key. repeat case_match; repeat wt_key; exact Hbase. }
    unfold power_keys. destruct (as_bytes (_first fs 6 2)); [|exact Hkeys]. read_fields. cbn [returns].
    repeat wt_key; [exact Hkeys|]. intros v. by apply int_bound. }
  intros track Ht. eapply (collect_dicts status_schema); [by apply first_all_bytes|intros; apply status_entry_ok|].
  intros l Hl. cbn [returns]. eapply put_list; [|reflexivity|exact Hl].
  pose proof (len_nonneg (_all fs 10 2)). pose proof (len_nonneg (_all fs 12 2)).
  apply put_count; [|reflexivity|lia]. apply put_count; [|reflexivity|lia].
  destruct (_first fs 8 2); [by wt_key|done].
Qed.
End Tracks.

(** ** Detections and alerts *)
Definition maybe_float (v : value) : Prop := v = VNone \/ exists f, v = VFloat f.

Lemma track_float t k : track_ok t -> field_ty sapient_schema k = Some TFloat -> maybe_float (dget_or t k VNone).
Proof.
  intros (Hwt & _) Hk. unfold dget_or. destruct (dget t k) as [v|] eqn:E; [right|by left].
  pose proof (wt_get _ _ _ _ _ Hwt E Hk). destruct v; try done. by eexists.
Qed.

Section Detection.
Context `{LibmOk}.

Lemma report_position_ok node cached state fs : Forall wire_ok fs -> (forall c, cached = Some c -> track_ok c) ->
  returns (report_position node cached state fs)
    (fun p => let '(lat, lon, alt, meta) := p in
       (exists f, lat = VFloat f) /\ (exists f, lon = VFloat f) /\ maybe_float alt /\ fields_ok position_meta meta = true)
    value_error.
Proof.
  intros Hfs Hc. unfold report_position. pose proof (position_returns node fs Hfs) as Hp. unfold returns in Hp.
  destruct (_position node fs) as [[[[lat lon] alt] meta]|e].
  - destruct Hp as [Hm _]. cbn. split_and!; [by eexists..| |done]. destruct alt; [right; by eexists|by left].
  - rewrite Hp. destruct cached as [c|]; [|done]. destruct (deleting state); [|done].
    specialize (Hc c eq_refl) as Hok. destruct Hok as ((Hn & Hf) & Hlat & Hlon).
    destruct (ditem_float sapient_schema c "lat_deg" Hf eq_refl Hlat) as [x ->].
    destruct (ditem_float sapient_schema c "lon_deg" Hf eq_refl Hlon) as [y ->]. cbn.
    split_and!; [by eexists..| |done]. apply track_float; [by specialize (Hc c eq_refl)|reflexivity].
Qed.

(** What a property of tracks needs to hold along the keys of a detection. *)
Section Keys.
Context {P : dict -> Prop} `{!Settable body_schema P}.

Lemma prediction_ok node fs t : Forall wire_ok fs -> P t ->
  returns (prediction_keys node fs t) P value_error.
Proof.
  intros Hfs Ht. unfold prediction_keys. destruct (as_bytes (_first fs 9 2)) as [raw|]; [|done]. read_fields.
  set (m := match as_bytes (_first fs0 2 2) with Some _ => _ | None => _ end).
  assert (returns m (fun _ => True) value_error) as Hm.
  { subst m. destruct (as_bytes (_first fs0 2 2)).
    - eapply returns_seq; [apply decode_location_ok|]. by intros [[[] ?] ?] _.
    - destruct (as_bytes (_first fs0 1 2)); [|done]. eapply returns_seq; [apply decode_range_bearing_ok|].
      intros [[[e a] d] meta] _. eapply returns_seq; [apply project_ok|]. done. }
  destruct m as [[[[lat lon] alt]|]|e]; [|exact Ht|cbn in Hm; rewrite Hm; exact Ht].
  cbn [returns]. wt_key. eapply put_key; [|reflexivity|done]. eapply put_key; [exact Ht|reflexivity|done].
Qed.

Lemma velocity_ok node fs t : P t -> returns (velocity_keys node fs t) P value_error.
Proof.
  intros Ht. unfold velocity_keys. destruct (as_bytes (_first fs 19 2)) as [raw|]; [|done]. read_fields.
  do 3 read_number. eapply (returns_seq _ _ P).
  - destruct o as [east|], o0 as [north|], (_speed_scale (horizontal_speed_units node)); try exact Ht. cbv zeta.
    match goal with |- context [m_hypot ?a ?b] => destruct (m_hypot_total a b) as [sp ->] end.
    match goal with |- context [m_atan2 ?a ?b] => destruct (m_atan2_total a b) as [hd ->] end. cbn [exc_bind returns].
    eapply put_key; [|reflexivity|done]. eapply put_key; [exact Ht|reflexivity|done].
  - intros t' Ht'. cbn [returns]. destruct o1, (_speed_scale (vertical_speed_units node)); try exact Ht'.
    eapply put_key; [exact Ht'|reflexivity|done].
Qed.

Lemma detection_keys_ok (P0 : dict -> Prop) `{!Settable body_schema P0} node state altitude fs t :
  (forall d, P0 d -> P (if deleting state then dset "_delete" (VBool true) d else d)) ->
  Forall wire_ok fs -> maybe_float altitude -> P0 t ->
  returns (detection_keys node state altitude fs t) P value_error.
Proof.
  intros Hdel Hfs Ha Ht. unfold detection_keys. cbv zeta. eapply (returns_seq _ _ P).
  { assert (P match state with
              | Some s => if deleting state then dset "_delete" (VBool true)
                  (dset "sapient_state" (VStr s) (set_text "sapient_report_id" (first_text fs 1) t))
                  else dset "sapient_state" (VStr s) (set_text "sapient_report_id" (first_text fs 1) t)
              | None => set_text "sapient_report_id" (first_text fs 1) t
              end) as Hs.
    { destruct state as [s|]; [|apply (Hdel _); by wt_key]. apply (Hdel (dset _ _ _)).
      eapply put_key; [|reflexivity|done]. by wt_key. }
    destruct Ha as [->|[f ->]]; [exact Hs|]. cbn. eapply put_key; [exact Hs|reflexivity|done]. }
  clear t Ht. intros t Ht. read_number.
  eapply returns_seq; [by apply decode_info_ok, all_bytes|]. intros d1 Hd1.
  eapply returns_seq; [by apply decode_info_ok, all_bytes|]. intros d2 Hd2.
  eapply returns_seq; [by apply decode_signals_ok, all_bytes|]. intros signals Hsig.
  eapply (returns_seq _ _ P).
  { apply prediction_ok; [done|]. wt_key. eapply put_list; [|reflexivity|exact Hsig].
    eapply put_dict; [|reflexivity|exact Hd2]. eapply put_dict; [|reflexivity|exact Hd1]. by do 2 wt_key. }
  clear t Ht. intros t Ht.
  read_list behaviour_schema behaviour_ok t. read_list file_schema associated_file_ok t.
  read_list related_schema related_ok t. read_list related_schema related_ok t.
  apply velocity_ok. by wt_key.
Qed.
End Keys.

Lemma classifications_ok fs : Forall wire_ok fs ->
  returns (classifications_of fs) (Forall (wt classification_schema)) value_error.
Proof.
  intros Hfs. unfold classifications_of. apply collect_ok; [by apply first_all_bytes|done|]. intros sub Hsub.
  eapply returns_seq; [by apply decode_classification_ok|]. intros c Hc. cbn. by intros a [= <-].
Qed.

Lemma detection_track_ok node_id node cached sent_at fs : Forall wire_ok fs -> (forall c, cached = Some c -> track_ok c) ->
  returns (detection_track node_id node cached sent_at fs) track_ok value_error.
Proof.
  intros Hfs Hc. unfold detection_track. cbv zeta. eapply returns_seq; [by apply report_position_ok|].
  intros [[[lat lon] alt] meta] ([x ->] & [y ->] & Ha & Hm). eapply returns_seq; [by apply classifications_ok|].
  intros cs Hcs. cbn [round_value exc_bind].
  apply (detection_keys_ok track_ok); [intros d Hd; destruct (deleting _); [by wt_key|done]|done..|]. apply track_dupdate; [|done].
  split; [|done]. split; [distinct_keys|]. unfold detection_base. cbn [fields_ok forallb fst snd]. unfold field_ok.
  cbn -[has_ty]. rewrite node_types_ok. cbn [has_ty andb].
  rewrite andb_true_r. apply forallb_forall. intros v. rewrite in_map_iff. intros (c & <- & Hin).
  rewrite Forall_forall in Hcs. apply has_ty_wt, Hcs. by apply list_elem_of_In.
Qed.

Lemma alert_ok node_id node sent_at data : returns (_alert node_id node sent_at data) track_ok value_error.
Proof.
  unfold _alert. read_fields. eapply returns_seq; [by apply position_returns|]. intros [[[lat lon] alt] meta] [Hm _].
  cbv zeta. read_number.
  match goal with |- returns (exc_bind _ (fun files => exc_bind _ (fun _ => Ok (set_text _ _ (set_list _ _ (set_list _ files ?t)))))) _ _ =>
    assert (track_ok t) as Ht; [|set (track := t) in *; clearbody track] end.
  { do 4 wt_key.
    match goal with |- track_ok (match _ with Some n => if _ then _ else ?t | None => _ end) =>
      assert (track_ok t) as Ht; [|destruct (as_int (_first fs 3 0)); [destruct (String.eqb _ _); [by wt_key|]|]; exact Ht] end.
    do 3 wt_key. apply track_dupdate; [|done]. split; [|done]. split; [distinct_keys|done]. }
  read_list file_schema associated_file_ok track. read_list related_schema related_ok track. cbn [returns]. by wt_key.
Qed.
End Detection.

(** ** Handlers of a node's state *)

(** From a state where [I] holds, a computation ends in one where it holds,
    and returns what [Q] says or raises ValueError. *)
Definition keeps {A} (I : node_state -> Prop) (m : nm A) (Q : A -> Prop) : Prop :=
  forall n, I n -> I (fst (m n)) /\ returns (snd (m n)) Q value_error.

Section Keeps.
Context (I : node_state -> Prop).

Lemma keeps_ret {A} (a : A) (Q : A -> Prop) : Q a -> keeps I (nret a) Q.
Proof. by split. Qed.

Lemma keeps_bind {A B} (m : nm A) (f : A -> nm B) Q1 Q :
  keeps I m Q1 -> (forall a, Q1 a -> keeps I (f a) Q) -> keeps I (nbind m f) Q.
Proof.
  intros Hm Hf n Hn. unfold nbind. specialize (Hm n Hn) as [Hi Hr]. destruct (m n) as [n' [a|e]]; cbn in *; [|done].
  by apply Hf.
Qed.

Lemma keeps_lift {A} (m : exc A) Q : returns m Q value_error -> keeps I (nlift m) Q.
Proof. by split. Qed.

Lemma keeps_set g : (forall n, I n -> I (g n)) -> keeps I (nset g) (fun _ => True).
Proof. intros Hg n Hn. split; [by apply Hg|done]. Qed.

Lemma keeps_weaken {A} (m : nm A) (Q Q' : A -> Prop) : keeps I m Q -> (forall a, Q a -> Q' a) -> keeps I m Q'.
Proof. intros Hm HQ n Hn. destruct (Hm n Hn). split; [done|]. by eapply returns_weaken. Qed.

Lemma append_each_ok values body push : Forall (fun v => exists b, v = WBytes b) values ->
  (forall v n, I n -> I (push v n)) -> keeps I (append_each values body push) (fun _ => True).
Proof.
  intros Hv Hp. induction Hv as [|v values [b ->] _ IH]; [by apply keeps_ret|]. cbn [append_each].
  eapply keeps_bind; [apply keeps_lift, field_list_ok|]. intros fs _.
  eapply keeps_bind; [apply keeps_set|intros _ _; exact IH]. intros n Hn. destruct (body fs); auto.
Qed.
End Keeps.

Lemma mode_units_ok fs : Forall wire_ok fs -> returns (mode_units fs) (fun _ => True) value_error.
Proof.
  intros Hfs. unfold mode_units. eapply returns_seq; [apply (collect_ok _ _ (fun _ => True))|done];
    [by apply first_all_bytes|done|]. intros ms Hms.
  eapply returns_seq; [apply (collect_ok _ _ (fun _ => True))|done]; [by apply first_all_bytes|done|]. intros df Hdf.
  unfold velocity_units. destruct (as_bytes (_first df 6 2)); [|done]. read_fields.
  destruct (as_bytes (_first fs0 4 2)); [|done]. by read_fields.
Qed.

(** A registration does not move its node. *)
Lemma registration_ok lat lon alt data :
  keeps (fun n => latitude n = lat /\ longitude n = lon /\ altitude_m n = alt) (_registration data) (fun _ => True).
Proof.
  unfold _registration. set (I := fun n => _). assert (forall g, (forall n, latitude (g n) = latitude n /\
    longitude (g n) = longitude n /\ altitude_m (g n) = altitude_m n) -> keeps I (nset g) (fun _ => True)) as Hset.
  { intros g Hg. apply keeps_set. intros n (E1 & E2 & E3). unfold I. destruct (Hg n) as (-> & -> & ->). done. }
  eapply keeps_bind; [apply keeps_lift, field_list_ok|]. intros fs Hfs.
  eapply keeps_bind; [by apply Hset|]. intros _ _.
  eapply keeps_bind; [apply keeps_lift, (collect_ok _ _ (fun _ => True)); [by apply first_all_bytes|done|done]|].
  intros types _. eapply keeps_bind; [apply Hset; intros n; by destruct types|]. intros _ _.
  eapply keeps_bind; [apply keeps_lift; by apply mode_units_ok|]. intros units _.
  eapply keeps_bind; [by apply Hset|]. intros _ _.
  eapply keeps_bind; [apply append_each_ok; [by apply first_all_bytes|done]|]. intros _ _.
  eapply (keeps_bind _ _ _ (fun _ => True)).
  { destruct (as_bytes (_first fs 6 2)); [|by apply keeps_ret].
    eapply keeps_bind; [apply keeps_lift, field_list_ok|]. intros sd _. eapply keeps_bind; [by apply Hset|]. intros _ _.
    destruct (as_bytes (_first sd 1 2)); [|by apply keeps_ret].
    eapply keeps_bind; [apply keeps_lift, field_list_ok|]. intros df Hdf. destruct (first_float df Hdf 3) as [o ->].
    eapply (keeps_bind _ _ _ (fun _ => True)); [by apply keeps_lift|]. intros a _. by apply Hset. }
  intros _ _. eapply keeps_bind; [by apply Hset|]. intros _ _. apply append_each_ok; [by apply first_all_bytes|done].
Qed.

Section Status.
Context `{LibmOk}.

Lemma all_length fs n w : len (_all fs n w) <= len fs.
Proof. unfold _all, len. rewrite length_map. pose proof (filter_length_le (is_field n w) fs). lia. Qed.

Lemma status_ok node_id sent_at data : len data <= 2 ^ 70 ->
  keeps node_ok (_status node_id sent_at data) (fun o => forall t, o = Some t -> track_ok t).
Proof.
  intros Hlen. unfold _status. eapply keeps_bind; [apply keeps_lift, field_list_sized|]. intros fs (Hfs & _ & Hl).
  eapply (keeps_bind _ _ _ (fun _ => True)).
  { destruct (as_bytes (_first fs 7 2)); [|by apply keeps_ret].
    eapply keeps_bind; [apply keeps_lift, decode_location_ok|]. intros [[[lat lon] alt] meta] [He _].
    by apply keeps_set. }
  intros _ _. eapply (keeps_bind _ _ _ (fun _ => True)); [by intros n|]. intros node _.
  destruct (latitude node) as [lat|], (longitude node) as [lon|]; try by apply keeps_ret.
  eapply keeps_bind; [apply keeps_lift, status_track_ok; [done|..]; pose proof (all_length fs 10 2); pose proof (all_length fs 12 2); lia|].
  intros t Ht. apply keeps_ret. by intros ? [= <-].
Qed.
End Status.

(** ** The decoder's state *)
Definition object_ok (kv : (string * string) * dict) : Prop := track_ok (snd kv).

Record decoder_ok (d : decoder) : Prop := {
  nodes_placed : Forall (fun kv => node_ok (snd kv)) (nodes d);
  objects_typed : Forall object_ok (objects d);
  objects_distinct : NoDup (map fst (objects d));
  objects_bounded : len (objects d) <= MAX_OBJECTS;
}.

Lemma new_decoder_ok : decoder_ok new_decoder.
Proof. split; cbn; [constructor..|done]. Qed.

Lemma oset_Forall {V} (P : string * V -> Prop) k v (m : odict V) : Forall P m -> P (k, v) -> Forall P (oset k v m).
Proof.
  intros Hm Hv. induction Hm as [|[k' v'] m Hk Hm IH]; cbn; [by constructor|].
  destruct (String.eqb_spec k' k) as [->|]; by constructor.
Qed.

Lemma same_key_spec a b : same_key a b = true <-> a = b.
Proof.
  destruct a, b. unfold same_key. cbn [fst snd]. rewrite andb_true_iff, !String.eqb_eq. split; [by intros [-> ->]|].
  by intros [= -> ->].
Qed.

Lemma cache_pop_In key kv c : In kv (cache_pop key c) <-> In kv c /\ fst kv <> key.
Proof.
  unfold cache_pop. rewrite filter_In, negb_true_iff, <- not_true_iff_false, same_key_spec. done.
Qed.

Lemma cache_pop_keys key c : NoDup (map fst c) -> NoDup (map fst (cache_pop key c)).
Proof.
  intros Hnd. induction c as [|kv c IH]; [done|]. cbn [map] in Hnd. apply NoDup_cons in Hnd as [Hin Hnd]. cbn.
  destruct (same_key _ _); cbn [negb map]; [by apply IH|]. apply NoDup_cons. split; [|by apply IH].
  contradict Hin. apply list_elem_of_In, in_map_iff in Hin as (kv' & E & Hin). apply cache_pop_In in Hin as [Hin _].
  apply list_elem_of_In, in_map_iff. eauto.
Qed.

Lemma cache_pop_length key c : len (cache_pop key c) <= len c.
Proof. unfold cache_pop, len. pose proof (filter_length_le (fun kv => negb (same_key (fst kv) key)) c). lia. Qed.

Lemma cache_pop_typed key c : Forall object_ok c -> Forall object_ok (cache_pop key c).
Proof.
  rewrite !Forall_forall. intros Hc kv Hin. apply Hc. apply list_elem_of_In in Hin. apply list_elem_of_In.
  by apply cache_pop_In in Hin as [? _].
Qed.

Lemma cache_put_ok key t c : track_ok t -> Forall object_ok c -> NoDup (map fst c) ->
  Forall object_ok (cache_put key t c) /\ NoDup (map fst (cache_put key t c)) /\ len (cache_put key t c) <= MAX_OBJECTS.
Proof.
  intros Ht Hc Hnd. unfold cache_put. set (c' := cache_pop key c ++ [(key, t)]). split_and!.
  - apply Forall_drop, Forall_app. split; [by apply cache_pop_typed|by apply Forall_singleton].
  - rewrite <- skipn_map. apply (NoDup_app (take (Z.to_nat (len c' - MAX_OBJECTS)) (map fst c'))).
    rewrite take_drop. subst c'. rewrite map_app. apply NoDup_app. split_and!; [by apply cache_pop_keys| |by apply NoDup_singleton].
    intros k Hk [= ->]%list_elem_of_singleton. apply list_elem_of_In, in_map_iff in Hk as (kv & E & Hin).
    by apply cache_pop_In in Hin as [_ ?].
  - unfold len, MAX_OBJECTS. rewrite length_skipn. lia.
Qed.

Section Decode.
Context `{LibmOk}.

Lemma cache_get_ok key c t : Forall object_ok c -> cache_get key c = Some t -> track_ok t.
Proof.
  unfold cache_get. intros Hc Hf. destruct (find _ c) as [kv|] eqn:E; [|done]. injection Hf as <-.
  apply find_some in E as [Hin _]. rewrite Forall_forall in Hc. by apply Hc, list_elem_of_In.
Qed.

Definition event_ok (e : sapient_event) : Prop := forall t, track e = Some t -> track_ok t.

(** A report either gives a track or is warned about. *)
Lemma report_event_ok kind node_id sent_at r :
  returns r track_ok value_error -> returns (report_event kind node_id sent_at r) event_ok value_error.
Proof. destruct r as [t|e]; cbn; [by intros Ht ? [= <-]|by intros ->]. Qed.

Lemma detection_ok node_id node sent_at data c : Forall object_ok c -> NoDup (map fst c) -> len c <= MAX_OBJECTS ->
  let (c', r) := _detection node_id node sent_at data c in
  Forall object_ok c' /\ NoDup (map fst c') /\ len c' <= MAX_OBJECTS /\ returns r track_ok value_error.
Proof.
  intros Hc Hnd Hl. unfold _detection. pose proof (field_list_ok data) as Hf. unfold returns in Hf.
  destruct (_field_list data) as [fs|e]; [|done]. cbv zeta. set (key := (node_id, _)).
  pose proof (detection_track_ok node_id node (cache_get key c) sent_at fs Hf (fun t => cache_get_ok key c t Hc)) as Ht.
  unfold returns in Ht. destruct (detection_track _ _ _ _ _) as [t|e]; [|done].
  destruct (truthy _).
  - split_and!; [by apply cache_pop_typed|by apply cache_pop_keys| |exact Ht]. pose proof (cache_pop_length key c). lia.
  - destruct (cache_put_ok key t c Ht Hc Hnd) as (? & ? & ?). done.
Qed.

Definition step_ok (p : decoder * exc sapient_event) : Prop := decoder_ok (fst p) /\ returns (snd p) event_ok value_error.

Lemma logged_ok d node_id kind sent_at (info : exc dict) : decoder_ok d -> returns info (fun _ => True) value_error ->
  step_ok (d, let? _ := info in quiet_event kind node_id sent_at (Ok None)).
Proof. intros Hd Hi. split; [done|]. eapply returns_seq; [exact Hi|]. by intros ? _ ?. Qed.

Lemma node_update d k n : decoder_ok d -> node_ok n -> decoder_ok {| nodes := oset k n (nodes d); objects := objects d |}.
Proof. intros [H1 H2 H3 H4] Hn. split; cbn; [|done..]. by apply oset_Forall. Qed.

Lemma node_of_ok d k : decoder_ok d -> node_ok (default new_node (oget (nodes d) k)).
Proof.
  intros Hd. destruct (oget (nodes d) k) as [n|] eqn:E; [|done]. cbn. apply oget_In in E.
  pose proof (nodes_placed d Hd) as Hn. rewrite Forall_forall in Hn. by apply (Hn (k, n)), list_elem_of_In.
Qed.

Lemma handle_content_ok kind node_id sent_at raw d : decoder_ok d -> len raw <= 2 ^ 70 ->
  step_ok (handle_content kind node_id sent_at raw d).
Proof.
  intros Hd Hlen. pose proof (node_of_ok d node_id Hd) as Hn. unfold handle_content. cbv zeta.
  set (node := default new_node _) in *. clearbody node.
  destruct (String.eqb kind "registration").
  { destruct (registration_ok (latitude node) (longitude node) (altitude_m node) raw node) as [(E1 & E2 & E3) Hr]; [done|].
    destruct (_registration raw node) as [node' r]. cbn [fst snd] in *. split; [|eapply returns_seq; [exact Hr|by intros ? _ ?]].
    apply node_update; [done|]. unfold node_ok. by rewrite E1, E2. }
  destruct (String.eqb kind "status_report").
  { destruct (status_ok node_id sent_at raw Hlen node Hn) as [Hn' Hr]. destruct (_status _ _ _ _) as [node' r].
    cbn [fst snd] in *. split; [by apply node_update|]. eapply returns_seq; [exact Hr|]. by intros o Ho. }
  destruct (String.eqb kind "detection_report").
  { destruct Hd as [H1 H2 H3 H4]. pose proof (detection_ok node_id node sent_at raw (objects d) H2 H3 H4) as Hc.
    destruct (_detection _ _ _ _ _) as [c r]. destruct Hc as (? & ? & ? & Hr). split; [by split|].
    by apply report_event_ok. }
  destruct (String.eqb kind "alert"); [split; [done|apply report_event_ok, alert_ok]|].
  destruct (String.eqb kind "registration_ack"); [apply logged_ok; [done|unfold _registration_ack; by read_fields]|].
  destruct (String.eqb kind "task").
  { apply logged_ok; [done|]. unfold _task. read_fields.
    eapply returns_seq; [eapply (collect_ok _ _ (fun _ => True)); [by apply first_all_bytes|done|done]|].
    intros rs _. cbv zeta. destruct (as_bytes (_first fs 8 2)); [|done]. by read_fields. }
  destruct (String.eqb kind "task_ack"); [apply logged_ok; [done|unfold _task_ack; by read_fields]|].
  destruct (String.eqb kind "alert_ack"); [apply logged_ok; [done|unfold _alert_ack; by read_fields]|].
  destruct (String.eqb kind "error"); [apply logged_ok; [done|unfold _error; by read_fields]|].
  by split.
Qed.

Lemma float_of_int_ok n : Z.abs n <= 2 ^ 1000 -> float_of_int n = Ok (fl n).
Proof.
  intros Hn. unfold float_of_int. assert (2 ^ 1000 < 2 ^ 1024 - 2 ^ 970) by (vm_compute; reflexivity).
  by replace (Z.abs n <? 2 ^ 1024 - 2 ^ 970) with true by lia.
Qed.

Lemma timestamp_ok v now : returns (_timestamp v now) (fun _ => True) value_error.
Proof.
  unfold _timestamp. destruct v as [[|raw]|]; try done. read_fields. cbv zeta.
  destruct (as_int (_first fs 1 0)) as [s|] eqn:Es; [|done]. pose proof (int_bound _ _ _ Hfs Es).
  assert (2 ^ 70 < 2 ^ 1000) by (vm_compute; reflexivity). rewrite float_of_int_ok by lia. by repeat case_match.
Qed.

Lemma setdefault_ok d k : decoder_ok d ->
  decoder_ok {| nodes := osetdefault k new_node (nodes d); objects := objects d |}.
Proof.
  intros Hd. unfold osetdefault. destruct (oget (nodes d) k); [by destruct Hd|]. by apply node_update.
Qed.

Lemma decode_ok data now d : decoder_ok d -> step_ok (decode data now d).
Proof.
  intros Hd. unfold decode. destruct (_ || _) eqn:Hb; [by split|]. apply orb_false_iff in Hb as [_ Hb].
  assert (len data <= 2 ^ 70) as Hlen by (unfold MAX_FRAME_BYTES in Hb; lia).
  assert (forall m : exc (string * float * string * wire_value),
    returns m (fun r => exists b, snd r = WBytes b /\ len b <= 2 ^ 70) value_error ->
    step_ok (match m with
             | Raise e => (d, Raise e)
             | Ok (node_id, sent_at, kind, WBytes raw) =>
                 handle_content kind node_id sent_at raw {| nodes := osetdefault node_id new_node (nodes d); objects := objects d |}
             | Ok (_, _, _, WInt _) => (d, Raise TypeError)
             end)) as Hm.
  { intros m Hm. destruct m as [[[[node_id sent_at] kind] v]|e]; [|by split]. destruct Hm as (b & Hv & Hl).
    cbn [snd] in Hv. subst v. apply handle_content_ok; [by apply setdefault_ok|done]. }
  apply Hm. eapply returns_seq; [apply field_list_sized|]. intros fs (Hfs & Hfit & _). cbv zeta.
  eapply returns_seq; [apply timestamp_ok|]. intros sent_at _.
  destruct (content_fields fs) as [|content [|? ?]] eqn:E; try done.
  assert (In content (content_fields fs)) as Hin by (rewrite E; by left).
  unfold content_fields in Hin. apply filter_In in Hin as [Hin Hc].
  unfold tindex. destruct (tget _CONTENT_FIELDS (number content)) as [kind|]; [|done]. cbn [exc_bind returns snd].
  rewrite Forall_forall in Hfs, Hfit. apply list_elem_of_In in Hin. specialize (Hfs _ Hin) as [_ Hw].
  specialize (Hfit _ Hin). unfold fits_in in Hfit. destruct (value_of content) as [n|b].
  - exfalso. replace (wire_type content) with 2 in Hw by lia. done.
  - exists b. split; [done|lia].
Qed.

(** The decoder after a sequence of frames, each with the time it came. *)
Fixpoint decode_all (frames : list (bytes * float)) (d : decoder) : decoder :=
  match frames with
  | [] => d
  | (data, now) :: frames' => decode_all frames' (fst (decode data now d))
  end.

Lemma decode_all_ok frames d : decoder_ok d -> decoder_ok (decode_all frames d).
Proof. revert d. induction frames as [|[data now] frames IH]; intros d Hd; cbn; [done|]. by apply IH, decode_ok. Qed.
End Decode.

(** ** The life of an object *)
Section Objects.
Context `{LibmOk}.

Lemma flag_dupdate o t meta : flag_is o t -> fields_ok position_meta meta = true -> flag_is o (dupdate t meta).
Proof.
  intros Ht Hm. assert (fields_ok body_schema meta = true) as Hm'
    by (eapply (fields_ok_le position_meta); [vm_compute; reflexivity|exact Hm]).
  clear Hm. unfold dupdate. revert t Ht. induction meta as [|[k v] meta IH]; intros t Ht; cbn [fold_left]; [done|].
  cbn in Hm'. apply andb_true_iff in Hm' as [Hk Hm']. apply IH; [done|].
  by apply (settable (S := body_schema) (P := flag_is o)).
Qed.

(** A detection is flagged when its state says that the object is over. *)
Lemma detection_flag node_id node cached sent_at fs : Forall wire_ok fs -> (forall c, cached = Some c -> track_ok c) ->
  returns (detection_track node_id node cached sent_at fs)
    (flag_is (if deleting (first_text fs 4) then Some (VBool true) else None)) value_error.
Proof.
  intros Hfs Hc. unfold detection_track. cbv zeta. eapply returns_seq; [by apply report_position_ok|].
  intros [[[lat lon] alt] meta] ([x ->] & [y ->] & Ha & Hm). eapply returns_seq; [by apply classifications_ok|].
  intros cs _. cbn [round_value exc_bind].
  apply (detection_keys_ok (flag_is None)); [|done|done|by apply flag_dupdate].
  intros d Hd. destruct (deleting _); [unfold flag_is; by rewrite dget_dset_eq|exact Hd].
Qed.

Lemma cache_get_In key c t : cache_get key c = Some t -> In (key, t) c.
Proof.
  unfold cache_get. intros Hf. destruct (find _ c) as [[k v]|] eqn:E; [|done]. injection Hf as <-.
  apply find_some in E as [Hin Hk]. cbn [fst] in Hk. apply same_key_spec in Hk as ->. done.
Qed.

Lemma cache_In_get key c t : NoDup (map fst c) -> In (key, t) c -> cache_get key c = Some t.
Proof.
  unfold cache_get. intros Hnd Hin. induction c as [|[k v] c IH]; [done|]. cbn [map find fst] in *.
  apply NoDup_cons in Hnd as [Hk Hnd]. destruct (same_key k key) eqn:E.
  - apply same_key_spec in E as ->. destruct Hin as [[= ->]|Hin]; [done|]. contradict Hk.
    apply list_elem_of_In, in_map_iff. by exists (key, t).
  - destruct Hin as [[= -> ->]|Hin]; [|by apply IH]. assert (same_key key key = true) by (by apply same_key_spec). congruence.
Qed.

Lemma find_app {A} (f : A -> bool) l1 l2 : find f (l1 ++ l2) = match find f l1 with Some a => Some a | None => find f l2 end.
Proof. induction l1 as [|a l1 IH]; cbn; [done|]. by destruct (f a). Qed.

Lemma cache_pop_get key c : cache_get key (cache_pop key c) = None.
Proof.
  destruct (cache_get key (cache_pop key c)) as [t|] eqn:E; [|done].
  apply cache_get_In, cache_pop_In in E as [_ E]. done.
Qed.

Lemma cache_pop_other key key' c : NoDup (map fst c) -> key' <> key -> cache_get key' (cache_pop key c) = cache_get key' c.
Proof.
  intros Hnd Hne. destruct (cache_get key' c) as [t|] eqn:E.
  - apply cache_In_get; [by apply cache_pop_keys|]. apply cache_pop_In. split; [by apply cache_get_In|done].
  - destruct (cache_get key' (cache_pop key c)) as [t|] eqn:E'; [|done]. apply cache_get_In, cache_pop_In in E' as [Hin _].
    apply cache_In_get in Hin; [congruence|done].
Qed.

Lemma cache_put_get key t c : NoDup (map fst c) -> cache_get key (cache_put key t c) = Some t.
Proof.
  intros Hnd. unfold cache_put. set (c' := cache_pop key c ++ [(key, t)]).
  assert (len c' = len (cache_pop key c) + 1) as Hl by (subst c'; by rewrite len_app).
  assert (exists k, skipn (Z.to_nat (len c' - MAX_OBJECTS)) c' = k ++ [(key, t)] /\ forall kv, In kv k -> In kv (cache_pop key c))
    as (k & -> & Hk).
  { exists (skipn (Z.to_nat (len c' - MAX_OBJECTS)) (cache_pop key c)). split.
    - subst c'. rewrite skipn_app. f_equal. set (n := (_ - _)%nat). replace n with 0%nat; [done|].
      subst n. unfold MAX_OBJECTS. unfold len in *. lia.
    - intros kv Hin. rewrite <- (firstn_skipn (Z.to_nat (len c' - MAX_OBJECTS)) (cache_pop key c)).
      apply in_or_app. by right. }
  unfold cache_get. rewrite find_app. destruct (find _ k) as [kv|] eqn:E.
  - exfalso. apply find_some in E as [Hin Hs]. apply Hk, cache_pop_In in Hin as [_ Hne]. by apply same_key_spec in Hs.
  - cbn [find fst]. assert (same_key key key = true) as -> by (by apply same_key_spec). done.
Qed.

Lemma cache_put_other key key' t t' c : NoDup (map fst c) -> key' <> key -> cache_get key' c = Some t' ->
  len c < MAX_OBJECTS \/ (exists t0, cache_get key c = Some t0) /\ len c <= MAX_OBJECTS -> cache_get key' (cache_put key t c) = Some t'.
Proof.
  intros Hnd Hne Hg Hroom. unfold cache_put. set (c' := cache_pop key c ++ [(key, t)]).
  assert (len c' = len (cache_pop key c) + 1) as Hl by (subst c'; by rewrite len_app).
  assert (len c' <= MAX_OBJECTS) as Hc'.
  { pose proof (cache_pop_length key c). destruct Hroom as [?|[[t0 H0'] ?]]; [lia|].
    enough (len (cache_pop key c) < len c) by lia. apply cache_get_In in H0'. clear -H0'. unfold len.
    induction c as [|kv c IH]; [done|]. cbn. destruct H0' as [->|Hin].
    - cbn [fst]. assert (same_key key key = true) as -> by (by apply same_key_spec). cbn [negb].
      pose proof (cache_pop_length key c). unfold len, cache_pop in *. lia.
    - specialize (IH Hin). unfold cache_pop in *. destruct (negb _); cbn [length]; lia. }
  replace (Z.to_nat (len c' - MAX_OBJECTS)) with 0%nat by lia. rewrite drop_0.
  pose proof (cache_pop_other key key' c Hnd Hne) as Hp. rewrite Hg in Hp.
  unfold cache_get in *. subst c'. rewrite find_app. destruct (find _ (cache_pop key c)); [exact Hp|done].
Qed.
End Objects.

(** ** What the decoder promises *)

(** C8: whatever frames a decoder has met, and whatever octets come next, it
    ends with an event or with ValueError and nothing else; a track is
    well-typed, every key of the type its schema declares, and placed; and the
    decoder's state keeps its invariant: nodes are placed on the earth or not
    at all, every remembered object is a track, no object is remembered twice
    and never more than 20,000 are. *)
Theorem sapient_decoder_safe `{LibmOk} frames data now :
  let (d, r) := decode data now (decode_all frames new_decoder) in
  decoder_ok d /\ returns r event_ok value_error.
Proof.
  pose proof (decode_ok data now _ (decode_all_ok frames _ new_decoder_ok)) as Hok. unfold step_ok in Hok.
  by destruct (decode data now _).
Qed.

(** C20: an object lives from its first report to the one that says it is over:
    a report that does not say so is remembered as it was published, one that
    does is flagged and forgets the object, one that raises changes nothing;
    the others stay remembered while there is room; and a report that ends an
    object without a position of its own is placed where the object was last. *)
Theorem object_lifetime `{LibmOk} node_id node sent_at data fs c :
  Forall object_ok c -> NoDup (map fst c) -> len c <= MAX_OBJECTS -> _field_list data = Ok fs ->
  let key := (node_id, default "unknown" (first_text fs 2)) in
  let over := deleting (first_text fs 4) in
  let (c', r) := _detection node_id node sent_at data c in
  match r with
  | Raise e => e = ValueError /\ c' = c
  | Ok t =>
      dget t "_delete" = (if over then Some (VBool true) else None) /\
      cache_get key c' = (if over then None else Some t) /\
      (forall key' t', key' <> key -> cache_get key' c = Some t' ->
         len c < MAX_OBJECTS \/ over = true \/ (exists t0, cache_get key c = Some t0) -> cache_get key' c' = Some t') /\
      (_position node fs = Raise ValueError -> over = true /\ exists t0,
         cache_get key c = Some t0 /\ exists lat lon, dget t0 "lat_deg" = Some (VFloat lat) /\ dget t0 "lon_deg" = Some (VFloat lon) /\
         report_position node (Some t0) (first_text fs 4) fs = Ok (VFloat lat, VFloat lon, dget_or t0 "geo_alt_m" VNone, []))
  end.
Proof.
  intros Hc Hnd Hlen Hf. cbv zeta. unfold _detection. rewrite Hf. cbv zeta. set (key := (node_id, _)).
  pose proof (field_list_ok data) as Hfs. rewrite Hf in Hfs. cbn [returns] in Hfs.
  pose proof (detection_flag node_id node (cache_get key c) sent_at fs Hfs (fun t => cache_get_ok key c t Hc)) as Hflag.
  assert (forall t, detection_track node_id node (cache_get key c) sent_at fs = Ok t -> _position node fs = Raise ValueError ->
    deleting (first_text fs 4) = true /\ exists t0, cache_get key c = Some t0 /\ exists lat lon,
      dget t0 "lat_deg" = Some (VFloat lat) /\ dget t0 "lon_deg" = Some (VFloat lon) /\
      report_position node (Some t0) (first_text fs 4) fs = Ok (VFloat lat, VFloat lon, dget_or t0 "geo_alt_m" VNone, [])) as Hlast.
  { intros t Ht Hp. unfold detection_track, report_position in Ht |- *. cbv zeta in Ht. rewrite Hp in Ht |- *.
    destruct (cache_get key c) as [t0|] eqn:E; [|done]. destruct (deleting _); [|done]. split; [done|]. exists t0. split; [done|].
    destruct (cache_get_ok key c t0 Hc E) as ((_ & Hty) & Hlat & Hlon).
    destruct (ditem_float sapient_schema t0 "lat_deg" Hty eq_refl Hlat) as [x Hx].
    destruct (ditem_float sapient_schema t0 "lon_deg" Hty eq_refl Hlon) as [y Hy].
    exists x, y. rewrite Hx, Hy. unfold ditem in Hx, Hy. by repeat case_match; simplify_eq. }
  destruct (detection_track _ _ _ _ _) as [t|e]; cbn [returns] in Hflag; [|by split].
  unfold flag_is in Hflag.
  assert (truthy (dget_or t "_delete" VNone) = deleting (first_text fs 4)) as ->
    by (unfold dget_or; rewrite Hflag; by destruct (deleting _)).
  split; [done|]. destruct (deleting (first_text fs 4)) eqn:Hdel.
  - split_and!; [apply cache_pop_get| |by apply (Hlast t)].
    intros key' t' Hne Hg _. by rewrite cache_pop_other.
  - split_and!; [by apply cache_put_get| |by apply (Hlast t)].
    intros key' t' Hne Hg Hroom. apply cache_put_other; try done. destruct Hroom as [?|[?|?]]; [by left|done|by right].
Qed.

(** An ended object, reported without a position: object "o" is "lost". *)
Definition sample_lost : bytes := of_ints [0x12; 1; 0x6f; 0x22; 4; 0x6c; 0x6f; 0x73; 0x74].
Definition sample_cache : object_cache := [(("n", "o"), [("lat_deg", VFloat (fl 48)); ("lon_deg", VFloat (fl 17))])].

Lemma object_lifetime_witness :
  let fs := [{| number := 2; wire_type := 2; value_of := WBytes (of_ints [0x6f]) |};
             {| number := 4; wire_type := 2; value_of := WBytes (of_ints [0x6c; 0x6f; 0x73; 0x74]) |}] in
  Forall object_ok sample_cache /\ NoDup (map fst sample_cache) /\ len sample_cache <= MAX_OBJECTS /\
  _field_list sample_lost = Ok fs /\
  let (c', r) := @_detection small_angle_libm "n" new_node (fl 7) sample_lost sample_cache in
  match r with
  | Ok t => dget t "_delete" = Some (VBool true) /\ cache_get ("n", "o") c' = None
  | Raise _ => False
  end.
Proof.
  intros fs. assert (Forall object_ok sample_cache) as H1.
  { apply Forall_singleton. split; [split; [distinct_keys|vm_compute; reflexivity]|done]. }
  assert (NoDup (map fst sample_cache)) as H2 by (apply NoDup_singleton).
  assert (len sample_cache <= MAX_OBJECTS) as H3 by (vm_compute; discriminate).
  assert (_field_list sample_lost = Ok fs) as H4 by (vm_compute; reflexivity).
  split; [exact H1|]. split; [exact H2|]. split; [exact H3|]. split; [exact H4|].
  pose proof (@object_lifetime small_angle_libm small_angle_libm_ok "n" new_node (fl 7) sample_lost fs sample_cache H1 H2 H3 H4) as H.
  assert (exists t, snd (@_detection small_angle_libm "n" new_node (fl 7) sample_lost sample_cache) = Ok t) as [t Ht]
    by (eexists; vm_compute; reflexivity).
  destruct (@_detection small_angle_libm "n" new_node (fl 7) sample_lost sample_cache) as [c' r]. cbn [snd] in Ht. subst r.
  destruct H as (Hd & Hg & _). split; [exact Hd|exact Hg].
Defined.

Lemma sapient_decoder_safe_witness :
  let (d, r) := @decode small_angle_libm sample_lost (fl 7) (@decode_all small_angle_libm [(sample_lost, fl 6)] new_decoder) in
  decoder_ok d /\ returns r event_ok value_error.
Proof. exact (@sapient_decoder_safe small_angle_libm small_angle_libm_ok [(sample_lost, fl 6)] sample_lost (fl 7)). Defined.
