(* ===== verification/Pipeline.v ===== *)
(** * From octets to publications

    Each category of cat.py has its own copy of the framing and dispatch
    helpers; they are named here, and composed with the category's handler:
    a TCP connection, a UDP receiver. *)

From S2P Require Import Prelude PyFloat PyData Schema Ranges Cursor Safety Contract AsterixCommon.
From S2P Require Import TrackViews Records Framing Cat002 Cat007 Cat008 Cat009 Cat020 Cat021.

Definition _cat1__recv_exact := recv_exact.
Definition _cat1_iter_frames_tcp := iter_frames_tcp.
Definition _cat1_iter_frames_udp := iter_frames_udp.
Definition _cat1__raw_frame_payload := raw_frame_payload.
Definition _cat1__process_stream {A} := @process_stream A 1.
Definition _cat1__process_tcp_conn {A} := @process_tcp_conn A 1.

Definition _cat2__recv_exact := recv_exact.
Definition _cat2_iter_frames_tcp := iter_frames_tcp.
Definition _cat2_iter_frames_udp := iter_frames_udp.
Definition _cat2__raw_frame_payload := raw_frame_payload.
Definition _cat2__process_stream {A} := @process_stream A 2.
Definition _cat2__process_tcp_conn {A} := @process_tcp_conn A 2.

Definition _cat4__recv_exact := recv_exact.
Definition _cat4_iter_frames_tcp := iter_frames_tcp.
Definition _cat4_iter_frames_udp := iter_frames_udp.
Definition _cat4__raw_frame_payload := raw_frame_payload.
Definition _cat4__process_stream {A} := @process_stream A 4.
Definition _cat4__process_tcp_conn {A} := @process_tcp_conn A 4.

Definition _cat7__recv_exact := recv_exact.
Definition _cat7_iter_frames_tcp := iter_frames_tcp.
Definition _cat7_iter_frames_udp := iter_frames_udp.
Definition _cat7__raw_frame_payload := raw_frame_payload.
Definition _cat7__process_stream {A} := @process_stream A 7.
Definition _cat7__process_tcp_conn {A} := @process_tcp_conn A 7.

Definition _cat8__recv_exact := recv_exact.
Definition _cat8_iter_frames_tcp := iter_frames_tcp.
Definition _cat8_iter_frames_udp := iter_frames_udp.
Definition _cat8__raw_frame_payload := raw_frame_payload.
Definition _cat8__process_stream {A} := @process_stream A 8.
Definition _cat8__process_tcp_conn {A} := @process_tcp_conn A 8.

Definition _cat9__recv_exact := recv_exact.
Definition _cat9_iter_frames_tcp := iter_frames_tcp.
Definition _cat9_iter_frames_udp := iter_frames_udp.
Definition _cat9__raw_frame_payload := raw_frame_payload.
Definition _cat9__process_stream {A} := @process_stream A 9.
Definition _cat9__process_tcp_conn {A} := @process_tcp_conn A 9.

Definition _cat20__recv_exact := recv_exact.
Definition _cat20_iter_frames_tcp := iter_frames_tcp.
Definition _cat20_iter_frames_udp := iter_frames_udp.
Definition _cat20__raw_frame_payload := raw_frame_payload.
Definition _cat20__process_stream {A} := @process_stream A 20.
Definition _cat20__process_tcp_conn {A} := @process_tcp_conn A 20.

Definition _cat21__recv_exact := recv_exact.
Definition _cat21_iter_frames_tcp := iter_frames_tcp.
Definition _cat21_iter_frames_udp := iter_frames_udp.
Definition _cat21__raw_frame_payload := raw_frame_payload.
Definition _cat21__process_stream {A} := @process_stream A 21.
Definition _cat21__process_tcp_conn {A} := @process_tcp_conn A 21.

Definition _cat48__recv_exact := recv_exact.
Definition _cat48_iter_frames_tcp := iter_frames_tcp.
Definition _cat48_iter_frames_udp := iter_frames_udp.
Definition _cat48__raw_frame_payload := raw_frame_payload.
Definition _cat48__process_stream {A} := @process_stream A 48.
Definition _cat48__process_tcp_conn {A} := @process_tcp_conn A 48.

(** A handler of a frame category, as a handler that may fail half way. *)
Definition of_exc {A} (m : exc (list A)) : list A * exc unit :=
  match m with Ok out => (out, Ok tt) | Raise e => ([], Raise e) end.

(** The UDP branch of [_run_inbound]: the datagrams a receiver gets, in order,
    dispatched to the handler; nothing catches what the handler raises. *)
Definition run_udp {A} (category : Z) (handler : bytes -> list A * exc unit) (pkts : list bytes) :
    list A * exc unit :=
  match iter_frames_udp pkts with
  | Ok frames => process_stream category handler frames
  | Raise e => ([], Raise e)
  end.

(** [_run_inbound]: a TCP server runs every connection in a thread of its own,
    so there is no order between them; the UDP receiver is one loop. *)
Inductive traffic :=
| tcp_connections (conns : list sock)
| udp_datagrams (pkts : list bytes).

Definition run_inbound {A} (category : Z) (handler : bytes -> list A * exc unit) (t : traffic) :
    list (list A * exc unit) :=
  match t with
  | tcp_connections conns => map (process_tcp_conn category handler) conns
  | udp_datagrams pkts => [run_udp category handler pkts]
  end.

(** [_on_sample] of [_run_zenoh_raw]: one raw sample; what is not one data
    block of the category is reported and ignored. *)
Definition on_raw_frame {A} (category : Z) (handler : bytes -> list A * exc unit) (frame : bytes) :
    list A * exc unit :=
  match raw_frame_payload frame category with
  | Ok payload => handler payload
  | Raise ValueError => ([], Ok tt)
  | Raise e => ([], Raise e)
  end.

(** ** A connection of records *)

Definition fits (data : bytes) : Prop := len data <= 0xFFFF - 3.

Lemma cut_fits b frames rest : cut b frames rest -> Forall (fun f => fits (snd f)) frames.
Proof.
  intros (bs & _ & Hbs & _). induction Hbs as [|f block frames bs Hb _ IH]; constructor; [|done].
  unfold asterix_data_block in Hb. cbv zeta in Hb. unfold fits.
  destruct (Z.ltb_spec 0xFFFF (3 + len (snd f))); [by rewrite orb_true_r in Hb|lia].
Qed.

(** What a record category publishes for the frames of a connection. *)
Definition published {A} (category : Z) (handler : bytes -> list A * exc unit)
    (frames : list frame) : list (list A) :=
  map (fun f => fst (handler (snd f))) (List.filter (fun f => fst f =? category) frames).

Lemma tcp_conn_total {A} category (handler : bytes -> list A * exc unit) s :
  (forall data, fits data -> snd (handler data) = Ok tt) ->
  process_tcp_conn category handler s =
    (concat (published category handler (fst (iter_frames_tcp s))), Ok tt).
Proof.
  intros Hh. unfold process_tcp_conn, iter_frames_tcp.
  destruct (tcp_loop_ok (S (length (pending s))) s) as (rest & Hc & He); [unfold len; lia|].
  destruct (tcp_loop _ s) as [frames e]. cbn [fst snd] in *.
  rewrite (process_stream_total _ _ fits) by eauto using cut_fits.
  subst e. unfold stream_end. by destruct (bad_header rest).
Qed.

Section EndToEnd.
Context `{LibmOk}.
Variables (repr : value -> string) (root : string) (clock : bytes -> Z -> float).

(** The handler of a frame, at the time the frame is read. *)
Definition handle020 (data : bytes) : list publication * exc unit :=
  _cat20_handler repr root (clock data) data.
Definition handle021 (data : bytes) : list publication * exc unit :=
  _cat21_handler repr root (clock data) data.

Lemma handle020_ok data : fits data ->
  let '(out, r) := handle020 data in
  stream020 repr root (clock data) data out (Ok tt) /\ r = Ok tt.
Proof.
  apply cat020_handler_stream.
Qed.

Lemma handle021_ok data : fits data ->
  let '(out, r) := handle021 data in
  stream021 repr root (clock data) data out (Ok tt) /\ r = Ok tt.
Proof.
  apply cat021_handler_stream.
Qed.

(** C1: whatever octets a peer sends to the CAT-020 and CAT-021 translators, and
    however the network cuts them, the connection ends normally after every
    data block of the category at the start of the stream has been published,
    in order, record by record: each block is read to its last octet, and each
    record of it with an item goes out once, with its views if it has a position
    and always with exactly its own octets. *)
Theorem tcp_end_to_end s :
  exists frames rest, cut (pending s) frames rest /\
    _cat20__process_tcp_conn handle020 s = (concat (published 20 handle020 frames), Ok tt) /\
    _cat21__process_tcp_conn handle021 s = (concat (published 21 handle021 frames), Ok tt) /\
    Forall (fun f =>
      stream020 repr root (clock (snd f)) (snd f) (fst (handle020 (snd f))) (Ok tt) /\
      stream021 repr root (clock (snd f)) (snd f) (fst (handle021 (snd f))) (Ok tt)) frames.
Proof.
  destruct (tcp_loop_ok (S (length (pending s))) s) as (rest & Hc & _); [unfold len; lia|].
  fold (iter_frames_tcp s) in Hc. exists (fst (iter_frames_tcp s)), rest. split_and!; [exact Hc|..].
  - apply tcp_conn_total. intros data Hf. pose proof (handle020_ok data Hf) as H1.
    destruct (handle020 data). apply H1.
  - apply tcp_conn_total. intros data Hf. pose proof (handle021_ok data Hf) as H1.
    destruct (handle021 data). apply H1.
  - eapply Forall_impl; [exact (cut_fits _ _ _ Hc)|]. intros f Hf.
    pose proof (handle020_ok _ Hf) as H1. pose proof (handle021_ok _ Hf) as H2.
    destruct (handle020 (snd f)), (handle021 (snd f)). split; [apply H1|apply H2].
Qed.
End EndToEnd.

(** Two CAT-020 blocks, one of them empty, around a block of another category,
    in three pieces. *)
Lemma tcp_end_to_end_witness :
  let repr := fun _ : value => ""%py in
  let clock := fun _ _ => fl 7 in
  let blk := of_ints [20; 0; 22] ++ firstn 19 sample020 in
  let s := {| pending := blk ++ of_ints [48; 0; 4; 0] ++ of_ints [20; 0; 3] ++ of_ints [1]; sizes := [2; 7] |} in
  len (fst (@_cat20__process_tcp_conn _ (@handle020 small_angle_libm repr "efdi" clock) s)) = 2 /\
  exists frames rest, cut (pending s) frames rest /\
    _cat20__process_tcp_conn (@handle020 small_angle_libm repr "efdi" clock) s =
      (concat (published 20 (@handle020 small_angle_libm repr "efdi" clock) frames), Ok tt).
Proof.
  intros repr clock blk s. split; [vm_compute; reflexivity|].
  destruct (@tcp_end_to_end small_angle_libm small_angle_libm_ok repr "efdi" clock s)
    as (frames & rest & Hc & H20 & _).
  exists frames, rest. split; [exact Hc|exact H20].
Defined.

(** ** Receivers of datagrams *)
Lemma iter_frames_udp_total pkts : exists frames, iter_frames_udp pkts = Ok frames.
Proof.
  induction pkts as [|pkt pkts [frames' IH]]; [by exists []|]. cbn [iter_frames_udp].
  pose proof (len_nonneg pkt).
  destruct (udp_loop_ok (S (length pkt)) pkt 0 ltac:(lia) ltac:(unfold len; lia)) as (frames & rest & E & _).
  unfold frames_of_datagram. rewrite E, IH. cbn [exc_bind]. eauto.
Qed.

(** ** A receiver that a datagram stops *)
Definition cut_message : bytes := of_ints [0x01; 0x01; 0x04].

(** A CAT-007 datagram cut before I007/080 stops the UDP receiver: none of
    the datagrams after it is read, and over TCP struct.error leaves the
    connection's thread, which catches EOFError and ValueError only. *)
Theorem cat007_datagram_stops_receiver `{Libm} site_lat site_lon root now pkts :
  let handler := fun data => of_exc (_cat7_handler site_lat site_lon root now data) in
  let datagram := of_ints [7; 0; 6] ++ cut_message in
  run_udp 7 handler (datagram :: pkts) = ([], Raise StructError) /\
  _cat7__process_tcp_conn handler {| pending := datagram; sizes := [] |} = ([], Raise StructError).
Proof.
  cbv zeta. split; [|vm_compute; reflexivity].
  destruct (iter_frames_udp_total pkts) as [frames E]. unfold run_udp. cbn [iter_frames_udp]. rewrite E.
  change (frames_of_datagram (of_ints [7; 0; 6] ++ cut_message)) with (Ok [(7, cut_message)]).
  cbn [exc_bind app process_stream].
  change (_cat7_handler site_lat site_lon root now cut_message) with (@Raise (list sample) StructError).
  reflexivity.
Qed.
