(* ===== verification/Receivers.v ===== *)
(** * Receivers

    The receive loops of the categories, and what they promise for the
    categories whose handlers raise nothing: service messages, configuration,
    weather, flight plans and video. *)

From S2P Require Import Prelude PyFloat PyData Schema Ranges Cursor Safety Contract AsterixCommon.
From S2P Require Import TrackViews Records Framing Pipeline.
From S2P Require Import Cat002 Cat008 Cat009 Cat016 Cat019 Cat023 Cat025 Cat032 Cat063 Cat065.
From S2P Require Import Cat150 Cat240 Cat247.

Definition _cat1__run_inbound {A} := @run_inbound A 1.
Definition _cat1__on_sample {A} := @on_raw_frame A 1.

Definition _cat2__run_inbound {A} := @run_inbound A 2.
Definition _cat2__on_sample {A} := @on_raw_frame A 2.

Definition _cat4__run_inbound {A} := @run_inbound A 4.
Definition _cat4__on_sample {A} := @on_raw_frame A 4.

Definition _cat7__run_inbound {A} := @run_inbound A 7.
Definition _cat7__on_sample {A} := @on_raw_frame A 7.

Definition _cat8__run_inbound {A} := @run_inbound A 8.
Definition _cat8__on_sample {A} := @on_raw_frame A 8.

Definition _cat9__run_inbound {A} := @run_inbound A 9.
Definition _cat9__on_sample {A} := @on_raw_frame A 9.

Definition _cat20__run_inbound {A} := @run_inbound A 20.
Definition _cat20__on_sample {A} := @on_raw_frame A 20.

Definition _cat21__run_inbound {A} := @run_inbound A 21.
Definition _cat21__on_sample {A} := @on_raw_frame A 21.

Definition _cat48__run_inbound {A} := @run_inbound A 48.
Definition _cat48__on_sample {A} := @on_raw_frame A 48.

Definition _cat16__recv_exact := recv_exact.
Definition _cat16_iter_frames_tcp := iter_frames_tcp.
Definition _cat16_iter_frames_udp := iter_frames_udp.
Definition _cat16__raw_frame_payload := raw_frame_payload.
Definition _cat16__process_stream {A} := @process_stream A 16.
Definition _cat16__process_tcp_conn {A} := @process_tcp_conn A 16.
Definition _cat16__run_inbound {A} := @run_inbound A 16.
Definition _cat16__on_sample {A} := @on_raw_frame A 16.

Definition _cat19__recv_exact := recv_exact.
Definition _cat19_iter_frames_tcp := iter_frames_tcp.
Definition _cat19_iter_frames_udp := iter_frames_udp.
Definition _cat19__raw_frame_payload := raw_frame_payload.
Definition _cat19__process_stream {A} := @process_stream A 19.
Definition _cat19__process_tcp_conn {A} := @process_tcp_conn A 19.
Definition _cat19__run_inbound {A} := @run_inbound A 19.
Definition _cat19__on_sample {A} := @on_raw_frame A 19.

Definition _cat23__recv_exact := recv_exact.
Definition _cat23_iter_frames_tcp := iter_frames_tcp.
Definition _cat23_iter_frames_udp := iter_frames_udp.
Definition _cat23__raw_frame_payload := raw_frame_payload.
Definition _cat23__process_stream {A} := @process_stream A 23.
Definition _cat23__process_tcp_conn {A} := @process_tcp_conn A 23.
Definition _cat23__run_inbound {A} := @run_inbound A 23.
Definition _cat23__on_sample {A} := @on_raw_frame A 23.

Definition _cat25__recv_exact := recv_exact.
Definition _cat25_iter_frames_tcp := iter_frames_tcp.
Definition _cat25_iter_frames_udp := iter_frames_udp.
Definition _cat25__raw_frame_payload := raw_frame_payload.
Definition _cat25__process_stream {A} := @process_stream A 25.
Definition _cat25__process_tcp_conn {A} := @process_tcp_conn A 25.
Definition _cat25__run_inbound {A} := @run_inbound A 25.
Definition _cat25__on_sample {A} := @on_raw_frame A 25.

Definition _cat32__recv_exact := recv_exact.
Definition _cat32_iter_frames_tcp := iter_frames_tcp.
Definition _cat32_iter_frames_udp := iter_frames_udp.
Definition _cat32__raw_frame_payload := raw_frame_payload.
Definition _cat32__process_stream {A} := @process_stream A 32.
Definition _cat32__process_tcp_conn {A} := @process_tcp_conn A 32.
Definition _cat32__run_inbound {A} := @run_inbound A 32.
Definition _cat32__on_sample {A} := @on_raw_frame A 32.

Definition _cat63__recv_exact := recv_exact.
Definition _cat63_iter_frames_tcp := iter_frames_tcp.
Definition _cat63_iter_frames_udp := iter_frames_udp.
Definition _cat63__raw_frame_payload := raw_frame_payload.
Definition _cat63__process_stream {A} := @process_stream A 63.
Definition _cat63__process_tcp_conn {A} := @process_tcp_conn A 63.
Definition _cat63__run_inbound {A} := @run_inbound A 63.
Definition _cat63__on_sample {A} := @on_raw_frame A 63.

Definition _cat65__recv_exact := recv_exact.
Definition _cat65_iter_frames_tcp := iter_frames_tcp.
Definition _cat65_iter_frames_udp := iter_frames_udp.
Definition _cat65__raw_frame_payload := raw_frame_payload.
Definition _cat65__process_stream {A} := @process_stream A 65.
Definition _cat65__process_tcp_conn {A} := @process_tcp_conn A 65.
Definition _cat65__run_inbound {A} := @run_inbound A 65.
Definition _cat65__on_sample {A} := @on_raw_frame A 65.

Definition _cat150__recv_exact := recv_exact.
Definition _cat150_iter_frames_tcp := iter_frames_tcp.
Definition _cat150_iter_frames_udp := iter_frames_udp.
Definition _cat150__raw_frame_payload := raw_frame_payload.
Definition _cat150__process_stream {A} := @process_stream A 150.
Definition _cat150__process_tcp_conn {A} := @process_tcp_conn A 150.
Definition _cat150__run_inbound {A} := @run_inbound A 150.
Definition _cat150__on_sample {A} := @on_raw_frame A 150.

Definition _cat240__recv_exact := recv_exact.
Definition _cat240_iter_frames_tcp := iter_frames_tcp.
Definition _cat240_iter_frames_udp := iter_frames_udp.
Definition _cat240__raw_frame_payload := raw_frame_payload.
Definition _cat240__process_stream {A} := @process_stream A 240.
Definition _cat240__process_tcp_conn {A} := @process_tcp_conn A 240.
Definition _cat240__run_inbound {A} := @run_inbound A 240.
Definition _cat240__on_sample {A} := @on_raw_frame A 240.

Definition _cat247__recv_exact := recv_exact.
Definition _cat247_iter_frames_tcp := iter_frames_tcp.
Definition _cat247_iter_frames_udp := iter_frames_udp.
Definition _cat247__raw_frame_payload := raw_frame_payload.
Definition _cat247__process_stream {A} := @process_stream A 247.
Definition _cat247__process_tcp_conn {A} := @process_tcp_conn A 247.
Definition _cat247__run_inbound {A} := @run_inbound A 247.
Definition _cat247__on_sample {A} := @on_raw_frame A 247.

(** ** Services

    The categories of which a frame gives at most one record, and which need no
    position. *)
Record service := {
  number : Z;
  handle : string -> float -> bytes -> exc (list sample);
  topic_of : string -> dict -> string;
  keys_of : schema;
  message_of : schema;
}.

Definition services : list service :=
  [{| number := 2; handle := _cat2_handler; topic_of root d := _cat2_TOPIC_SENSOR root (_asterix_source d);
      keys_of := cat002_schema; message_of := AsterixCat2Status |};
   {| number := 8; handle := _cat8_handler; topic_of root d := _cat8_TOPIC_SENSOR root (_asterix_source d);
      keys_of := cat008_schema; message_of := AsterixCat8Weather |};
   {| number := 9; handle := _cat9_handler; topic_of root d := _cat9_TOPIC_SENSOR root (_asterix_source d);
      keys_of := cat009_schema; message_of := AsterixCat9Weather |};
   {| number := 16; handle := _cat16_handler; topic_of root d := _cat16_TOPIC_SENSOR root (_asterix_source d);
      keys_of := cat016_schema; message_of := AsterixCat16Status |};
   {| number := 19; handle := _cat19_handler; topic_of root d := _cat19_TOPIC_SENSOR root (_asterix_source d);
      keys_of := cat019_schema; message_of := AsterixCat19Status |};
   {| number := 23; handle := _cat23_handler; topic_of root d := _cat23_TOPIC_SENSOR root (_asterix_source d);
      keys_of := cat023_schema; message_of := AsterixCat23Status |};
   {| number := 25; handle := _cat25_handler; topic_of root d := _cat25_TOPIC_SENSOR root (_asterix_source d);
      keys_of := cat025_schema; message_of := AsterixCat25Status |};
   {| number := 32; handle := _cat32_handler; topic_of root d := _cat32_TOPIC_SENSOR root (_asterix_source (_cat32_server d));
      keys_of := cat032_schema; message_of := AsterixCat32Status |};
   {| number := 63; handle := _cat63_handler; topic_of root d := _cat63_TOPIC_SENSOR root (_asterix_source d);
      keys_of := cat063_schema; message_of := AsterixCat63Status |};
   {| number := 65; handle := _cat65_handler; topic_of root d := _cat65_TOPIC_SENSOR root (_asterix_source d);
      keys_of := cat065_schema; message_of := AsterixCat65Status |};
   {| number := 150; handle := _cat150_handler; topic_of root d := _cat150_TOPIC_SENSOR root (_asterix_source d);
      keys_of := cat150_schema; message_of := AsterixCat150Status |};
   {| number := 240; handle := _cat240_handler; topic_of root d := _cat240_TOPIC_SENSOR root (_asterix_source d);
      keys_of := cat240_schema; message_of := AsterixCat240Status |};
   {| number := 247; handle := _cat247_handler; topic_of root d := _cat247_TOPIC_SENSOR root (_asterix_source d);
      keys_of := cat247_schema; message_of := AsterixCat247Status |}].

(** A sample goes to the topic its record gives, has the keys and values of its
    category, and fits its protobuf message. *)
Definition sound (root : string) (s : service) (out : list sample) : Prop :=
  Forall (fun smp => fst smp = topic_of s root (snd smp) /\ wt (keys_of s) (snd smp) /\
                     conforms (message_of s) normalized_keys (snd smp) = true) out.

Definition never_fails (s : service) : Prop :=
  forall root now data, returns (handle s root now data) (fun out => len out <= 1 /\ sound root s out) noE.

Lemma services_never_fail : Forall never_fails services.
Proof.
  repeat constructor; intros root now data.
  - apply cat002_handler_ok.
  - apply cat008_handler_ok.
  - apply cat009_handler_ok.
  - apply cat016_handler_ok.
  - apply cat019_handler_ok.
  - apply cat023_handler_ok.
  - apply cat025_handler_ok.
  - apply cat032_handler_ok.
  - apply cat063_handler_ok.
  - apply cat065_handler_ok.
  - apply cat150_handler_ok.
  - apply cat240_handler_ok.
  - apply cat247_handler_ok.
Qed.

(** ** Their receivers *)

(** The frames each loop of a receiver gets: the data blocks at the start of
    each connection's octets, or of each datagram. *)
Definition heard (t : traffic) (runs : list (list frame)) : Prop :=
  match t with
  | tcp_connections conns => Forall2 (fun s fs => exists rest, cut (pending s) fs rest) conns runs
  | udp_datagrams pkts =>
      exists fss, runs = [concat fss] /\ Forall2 (fun pkt fs => exists rest, cut pkt fs rest) pkts fss
  end.

Lemma iter_frames_udp_cut pkts :
  exists fss, iter_frames_udp pkts = Ok (concat fss) /\
    Forall2 (fun pkt fs => exists rest, cut pkt fs rest) pkts fss.
Proof.
  induction pkts as [|pkt pkts (fss & E & H)]; [exists []; by split|]. cbn [iter_frames_udp].
  pose proof (len_nonneg pkt).
  destruct (udp_loop_ok (S (length pkt)) pkt 0 ltac:(lia) ltac:(unfold len; lia)) as (frames & rest & E' & Hc).
  exists (frames :: fss). unfold frames_of_datagram. rewrite E', E. cbn [exc_bind concat].
  split; [done|]. constructor; [by exists rest|exact H].
Qed.

Lemma tcp_frames_cut s : exists rest, cut (pending s) (fst (iter_frames_tcp s)) rest.
Proof.
  destruct (tcp_loop_ok (S (length (pending s))) s) as (rest & Hc & _); [unfold len; lia|]. by exists rest.
Qed.

(** Every loop of a receiver whose handler raises nothing reads all its frames
    and ends normally. *)
Lemma run_inbound_total {A} category (handler : bytes -> list A * exc unit) t :
  (forall data, fits data -> snd (handler data) = Ok tt) ->
  exists runs, heard t runs /\
    run_inbound category handler t =
      map (fun fs => (concat (published category handler fs), Ok tt)) runs.
Proof.
  intros Hh. destruct t as [conns|pkts]; cbn [heard run_inbound].
  - exists (map (fun s => fst (iter_frames_tcp s)) conns). split.
    + induction conns as [|s conns IH]; constructor; [apply tcp_frames_cut|exact IH].
    + rewrite map_map. apply map_ext. intros s. by apply tcp_conn_total.
  - destruct (iter_frames_udp_cut pkts) as (fss & E & H). exists [concat fss].
    split; [by exists fss|]. unfold run_udp. rewrite E. cbn [map]. f_equal.
    apply (process_stream_total category handler fits); [auto|].
    clear E. induction H as [|pkt fs pkts fss [rest Hc] _ IH]; [constructor|].
    apply Forall_app. split; [exact (cut_fits _ _ _ Hc)|exact IH].
Qed.

Section Served.
Variables (s : service) (root : string) (clock : bytes -> float).
Hypothesis Hs : never_fails s.

(** The handler at the time a frame is read, as the loops run it. *)
Definition served (data : bytes) : list sample * exc unit := of_exc (handle s root (clock data) data).

Lemma served_ok data : snd (served data) = Ok tt /\ len (fst (served data)) <= 1 /\ sound root s (fst (served data)).
Proof.
  pose proof (Hs root (clock data) data) as H. unfold served, returns in *.
  destruct (handle s root (clock data) data) as [out|e]; [by split|done].
Qed.

Lemma served_sound frames :
  sound root s (concat (published (number s) served frames)) /\
  len (concat (published (number s) served frames)) <= len (List.filter (fun f => fst f =? number s) frames).
Proof.
  unfold published. induction (List.filter _ frames) as [|f fs [IHs IHl]]; [by split; [constructor|]|].
  cbn [map concat]. destruct (served_ok (snd f)) as (_ & Hl & Ho). split.
  - by apply Forall_app.
  - rewrite len_app, len_cons. lia.
Qed.

Lemma served_raw frame :
  exists out, on_raw_frame (number s) served frame = (out, Ok tt) /\ sound root s out /\
    (out = [] \/ exists payload, asterix_data_block (number s) payload = Ok frame).
Proof.
  pose proof (raw_frame_payload_exact frame (number s)) as Hr. unfold on_raw_frame.
  destruct (raw_frame_payload frame (number s)) as [payload|e].
  - destruct (served_ok payload) as (Hok & _ & Ho). exists (fst (served payload)).
    destruct (served payload) as [out r]. cbn [fst snd] in *. subst r. split_and!; [done|done|by right; exists payload].
  - destruct Hr as [-> _]. exists []. split_and!; [done|constructor|by left].
Qed.
End Served.

(** C32: the receivers of the thirteen service categories never stop. Whatever
    arrives, over TCP connections or in datagrams, each loop reads exactly the
    data blocks at the start of its octets, publishes for those of its category
    at most one record each, in order, and ends normally; every record has the
    keys and values of its category, fits its protobuf message and goes to the
    topic its own identity gives. A raw sample publishes something only when it
    is one data block of the category. *)
Theorem service_receivers_never_stop :
  Forall (fun s => forall root clock,
    (forall t, exists runs, heard t runs /\
       run_inbound (number s) (served s root clock) t =
         map (fun fs => (concat (published (number s) (served s root clock) fs), Ok tt)) runs /\
       Forall (fun fs =>
         sound root s (concat (published (number s) (served s root clock) fs)) /\
         len (concat (published (number s) (served s root clock) fs)) <=
           len (List.filter (fun f => fst f =? number s) fs)) runs) /\
    (forall frame, exists out, on_raw_frame (number s) (served s root clock) frame = (out, Ok tt) /\
       sound root s out /\ (out = [] \/ exists payload, asterix_data_block (number s) payload = Ok frame)))
    services.
Proof.
  eapply Forall_impl; [exact services_never_fail|]. intros s Hs root clock. split.
  - intros t. destruct (run_inbound_total (number s) (served s root clock) t) as (runs & Hr & E);
      [intros data _; by apply served_ok|].
    exists runs. split_and!; [exact Hr|exact E|]. apply Forall_forall. intros fs _. by apply served_sound.
  - intros frame. by apply served_raw.
Qed.
