(* ===== verification/TrackReceivers.v ===== *)
(** * Receivers of the categories that choose a topic per record

    The receive loops of CAT-010, 011, 015, 017, 018, 062 and 205, and what they
    promise together. *)

From S2P Require Import Prelude PyFloat PyData Schema Ranges Cursor Safety Contract AsterixCommon.
From S2P Require Import TrackViews Records Blocks Framing Pipeline.
From S2P Require Cat010 Cat011 Cat015 Cat017 Cat018 Cat062 Cat205.
From S2P Require Receivers.
Import Cat010 Cat011 Cat015 Cat017 Cat018 Cat062 Cat205.

Definition _cat10__recv_exact := recv_exact.
Definition _cat10_iter_frames_tcp := iter_frames_tcp.
Definition _cat10_iter_frames_udp := iter_frames_udp.
Definition _cat10__raw_frame_payload := raw_frame_payload.
Definition _cat10__process_stream {A} := @process_stream A 10.
Definition _cat10__process_tcp_conn {A} := @process_tcp_conn A 10.
Definition _cat10__run_inbound {A} := @run_inbound A 10.
Definition _cat10__on_sample {A} := @on_raw_frame A 10.

Definition _cat11__recv_exact := recv_exact.
Definition _cat11_iter_frames_tcp := iter_frames_tcp.
Definition _cat11_iter_frames_udp := iter_frames_udp.
Definition _cat11__raw_frame_payload := raw_frame_payload.
Definition _cat11__process_stream {A} := @process_stream A 11.
Definition _cat11__process_tcp_conn {A} := @process_tcp_conn A 11.
Definition _cat11__run_inbound {A} := @run_inbound A 11.
Definition _cat11__on_sample {A} := @on_raw_frame A 11.

Definition _cat15__recv_exact := recv_exact.
Definition _cat15_iter_frames_tcp := iter_frames_tcp.
Definition _cat15_iter_frames_udp := iter_frames_udp.
Definition _cat15__raw_frame_payload := raw_frame_payload.
Definition _cat15__process_stream {A} := @process_stream A 15.
Definition _cat15__process_tcp_conn {A} := @process_tcp_conn A 15.
Definition _cat15__run_inbound {A} := @run_inbound A 15.
Definition _cat15__on_sample {A} := @on_raw_frame A 15.

Definition _cat17__recv_exact := recv_exact.
Definition _cat17_iter_frames_tcp := iter_frames_tcp.
Definition _cat17_iter_frames_udp := iter_frames_udp.
Definition _cat17__raw_frame_payload := raw_frame_payload.
Definition _cat17__process_stream {A} := @process_stream A 17.
Definition _cat17__process_tcp_conn {A} := @process_tcp_conn A 17.
Definition _cat17__run_inbound {A} := @run_inbound A 17.
Definition _cat17__on_sample {A} := @on_raw_frame A 17.

Definition _cat18__recv_exact := recv_exact.
Definition _cat18_iter_frames_tcp := iter_frames_tcp.
Definition _cat18_iter_frames_udp := iter_frames_udp.
Definition _cat18__raw_frame_payload := raw_frame_payload.
Definition _cat18__process_stream {A} := @process_stream A 18.
Definition _cat18__process_tcp_conn {A} := @process_tcp_conn A 18.
Definition _cat18__run_inbound {A} := @run_inbound A 18.
Definition _cat18__on_sample {A} := @on_raw_frame A 18.

Definition _cat205__recv_exact := recv_exact.
Definition _cat205_iter_frames_tcp := iter_frames_tcp.
Definition _cat205_iter_frames_udp := iter_frames_udp.
Definition _cat205__raw_frame_payload := raw_frame_payload.
Definition _cat205__process_stream {A} := @process_stream A 205.
Definition _cat205__process_tcp_conn {A} := @process_tcp_conn A 205.
Definition _cat205__run_inbound {A} := @run_inbound A 205.
Definition _cat205__on_sample {A} := @on_raw_frame A 205.

Definition _cat62__recv_exact := recv_exact.
Definition _cat62_iter_frames_tcp := iter_frames_tcp.
Definition _cat62_iter_frames_udp := iter_frames_udp.
Definition _cat62__raw_frame_payload := raw_frame_payload.
Definition _cat62__process_stream {A} := @process_stream A 62.
Definition _cat62__on_sample {A} := @on_raw_frame A 62.

(** [_run_cat62] connects itself: one connection after another, each ended by
    EOFError or ValueError alike; anything else ends the loop. *)
Fixpoint run_connections {A} (category : Z) (handler : bytes -> list A * exc unit) (conns : list sock) :
    list A * exc unit :=
  match conns with
  | [] => ([], Ok tt)
  | s :: conns =>
      let (out, r) := process_tcp_conn category handler s in
      match r with
      | Raise e => (out, Raise e)
      | Ok _ => let (out', r') := run_connections category handler conns in (out ++ out', r')
      end
  end.

Definition _cat62__run_cat62 {A} (handler : bytes -> list A * exc unit) (t : Pipeline.traffic) : list A * exc unit :=
  match t with
  | tcp_connections conns => run_connections 62 handler conns
  | udp_datagrams pkts => run_udp 62 handler pkts
  end.

(** ** The categories

    [clock pos] is the time at which the record at [pos] is read. *)
Record category := {
  number : Z;
  profile : string;
  handle : (Z -> float) -> bytes -> list sending * exc unit;
  decode : (Z -> float) -> bytes -> Z -> exc (dict * Z);
  route : dict -> routed;
  keys_of : schema;
  message_of : schema;
  lost : list string;           (* keys the protobuf view does not carry *)
  announced : dict -> Prop;     (* the status of a site *)
  fails : exn -> Prop;          (* what the C library may raise on a place *)
}.

Section Categories.
Context `{Libm} (repr : value -> string) (root : string) (lat lon : option float).
Variables (civil : list string) (site_name : string) (topic : string -> string).

Definition categories : list category :=
  [{| number := 10; profile := "cat010"; handle clock := _cat10_handler lat lon repr civil site_name root clock;
      decode clock data pos := _cat10_decode_cat010_record lat lon (clock pos) data pos; route := _cat10_route lat lon civil site_name root;
      keys_of := cat010_schema; message_of := AsterixCat10Track; lost := dropped010;
      announced := wt status_schema010; fails := geo_error lat lon |};
   {| number := 11; profile := "cat011"; handle clock := _cat11_handler lat lon repr root clock;
      decode clock data pos := _cat11_decode_cat011_record lat lon (clock pos) data pos; route := _cat11_route root;
      keys_of := cat011_schema; message_of := AsterixCat11Track; lost := dropped011;
      announced := fun _ => False; fails := noE |};
   {| number := 15; profile := "cat015"; handle clock := _cat15_handler lat lon repr root clock;
      decode clock data pos := _cat15_decode_cat015_record lat lon (clock pos) data pos; route := _cat15_route root;
      keys_of := cat015_schema; message_of := AsterixCat15Track; lost := dropped015;
      announced := fun _ => False; fails := geo_error lat lon |};
   {| number := 17; profile := "cat017"; handle clock := _cat17_handler repr root clock;
      decode clock data pos := _cat17_decode_cat017_record (clock pos) data pos; route := _cat17_route root;
      keys_of := cat017_schema; message_of := AsterixCat17Track; lost := dropped017;
      announced := fun _ => False; fails := noE |};
   {| number := 18; profile := "cat018"; handle clock := _cat18_handler lat lon repr root clock;
      decode clock data pos := _cat18_decode_cat018_record lat lon (clock pos) data pos; route := _cat18_route root;
      keys_of := cat018_schema; message_of := AsterixCat18Track; lost := dropped018;
      announced := fun _ => False; fails := geo_error lat lon |};
   {| number := 62; profile := "cat062"; handle clock := _cat62_handler repr topic clock;
      decode clock data pos := _cat62_decode_cat62_record (clock pos) data pos; route := _cat62_route topic;
      keys_of := cat062_schema; message_of := Cat62Track; lost := dropped062;
      announced := fun _ => False; fails := noE |};
   {| number := 205; profile := "cat205"; handle clock := _cat205_handler lat lon repr root clock;
      decode clock data pos := _cat205_decode_cat205_record lat lon (clock pos) data pos; route := _cat205_route root;
      keys_of := cat205_schema; message_of := AsterixCat205Track; lost := dropped205;
      announced := fun _ => False; fails := geo_error lat lon |}].

(** What the handler of a category makes of a data block. *)
Definition handles (c : category) (clock : Z -> float) (data : bytes) : Prop :=
  let '(out, r) := handle c clock data in
  delivered repr (number c) (profile c) (decode c clock) (route c) (keys_of c) (message_of c) (announced c) (lost c)
    (fails c) data 0 out r.
End Categories.

Section Correctness.
Context `{LibmOk} (repr : value -> string) (root : string) (lat lon : option float).
Variables (civil : list string) (site_name : string) (topic : string -> string).
Abbreviation all := (categories repr root lat lon civil site_name topic).

Lemma categories_handle :
  Forall (fun c => forall clock data, Pipeline.fits data -> handles repr c clock data) all.
Proof.
  unfold Pipeline.fits, categories.
  repeat (apply Forall_cons; split); try apply Forall_nil_2; intros clock data Hf; unfold handles;
    cbn [number profile handle decode route keys_of message_of lost announced fails].
  - exact (cat010_block_ok lat lon repr civil site_name root clock data Hf).
  - exact (cat011_block_ok lat lon repr root clock data Hf).
  - exact (cat015_block_ok lat lon repr root clock data Hf).
  - exact (cat017_block_ok repr root clock data Hf).
  - exact (cat018_block_ok lat lon repr root clock data Hf).
  - exact (cat062_block_ok repr topic clock data Hf).
  - exact (cat205_block_ok lat lon repr root clock data Hf).
Qed.

(** Nothing but ValueError, and that only with a site. *)
Lemma categories_fail :
  Forall (fun c => forall e, fails c e -> e = ValueError /\ is_Some lat /\ is_Some lon) all.
Proof.
  repeat (apply Forall_cons; split); try apply Forall_nil_2; cbn [fails];
    unfold noE, geo_error; intros e He; first [exact He | destruct He].
Qed.

Lemma delivered_end (c : category) clock data p out r :
  delivered repr (number c) (profile c) (decode c clock) (route c) (keys_of c) (message_of c) (announced c) (lost c)
    (fails c) data p out r -> r = Ok tt \/ exists e, r = Raise e /\ fails c e.
Proof. induction 1; eauto. Qed.

Lemma handler_end c : In c all -> forall clock data, Pipeline.fits data ->
  snd (handle c clock data) = Ok tt \/
  (snd (handle c clock data) = Raise ValueError /\ is_Some lat /\ is_Some lon).
Proof.
  intros Hc clock data Hf. pose proof categories_handle as Hh. rewrite List.Forall_forall in Hh.
  specialize (Hh c Hc clock data Hf). unfold handles in Hh. destruct (handle c clock data) as [out r].
  destruct (delivered_end _ _ _ _ _ _ Hh) as [->|(e & -> & He)]; [by left|right].
  pose proof categories_fail as Hx. rewrite List.Forall_forall in Hx.
  destruct (Hx c Hc e He) as (-> & H1 & H2). by split_and!.
Qed.
End Correctness.

(** A connection of which a handler may only raise ValueError ends normally. *)
Lemma process_stream_end {A} category (handler : bytes -> list A * exc unit) (ok : bytes -> Prop) frames :
  (forall data, ok data -> snd (handler data) = Ok tt \/ snd (handler data) = Raise ValueError) ->
  Forall (fun f => ok (snd f)) frames ->
  snd (process_stream category handler frames) = Ok tt \/ snd (process_stream category handler frames) = Raise ValueError.
Proof.
  intros Hh. induction 1 as [|[cat data] frames Hd Hf IH]; [by left|]. cbn [process_stream].
  destruct (cat =? category); [|by destruct (process_stream category handler frames)].
  specialize (Hh data Hd). destruct (handler data) as [out [u|e]]; cbn [snd] in Hh.
  - by destruct (process_stream category handler frames).
  - destruct Hh as [Hh|Hh]; [done|right; exact Hh].
Qed.

Lemma tcp_conn_end {A} category (handler : bytes -> list A * exc unit) s :
  (forall data, Pipeline.fits data -> snd (handler data) = Ok tt \/ snd (handler data) = Raise ValueError) ->
  snd (process_tcp_conn category handler s) = Ok tt.
Proof.
  intros Hh. unfold process_tcp_conn, iter_frames_tcp.
  destruct (tcp_loop_ok (S (length (pending s))) s) as (rest & Hc & He); [unfold len; lia|].
  destruct (tcp_loop _ s) as [frames e]. cbn [fst snd] in *.
  pose proof (process_stream_end category handler Pipeline.fits frames Hh (cut_fits _ _ _ Hc)) as Hp.
  destruct (process_stream category handler frames) as [out r]. cbn [snd] in *.
  destruct Hp as [-> | ->]; [|done]. subst e. unfold stream_end. by destruct (bad_header rest).
Qed.

(** Categories that report every record. *)
Definition reports_all (c : category) : Prop := forall track, exists topic wrapper, route c track = Reported topic wrapper.

Section Theorems.
Context `{LibmOk} (repr : value -> string) (root : string) (lat lon : option float).
Variables (civil : list string) (site_name : string) (topic : string -> string).

(** C7: the receivers of CAT-010, 011, 015, 017, 018, 062 and 205. Whatever a
    peer sends, the handler of each data block at the start of its stream
    delivers it: its records one after another, each once, with the keys and
    values of its category, to the topic and in the wrapper its content calls
    for, with exactly its own octets; a category that reports every record
    republishes the block octet for octet. The connection ends normally. Without
    a site no data block, of a connection or of a datagram, ends a receiver
    early. *)
Theorem record_receivers :
  Forall (fun c => forall clock : bytes -> Z -> float,
    let handler := fun data => handle c (clock data) data in
    (forall s, exists frames rest, cut (pending s) frames rest /\
       snd (process_tcp_conn (number c) handler s) = Ok tt /\
       Forall (fun f =>
         handles repr c (clock (snd f)) (snd f) /\
         (reports_all c -> snd (handler (snd f)) = Ok tt ->
          exists pieces, concat pieces = snd f /\
            Forall2 (fun piece block => asterix_data_block (number c) piece = Ok block)
              pieces (omap octets_of (fst (handler (snd f)))))) frames) /\
    (lat = None \/ lon = None -> forall t, exists runs, Receivers.heard t runs /\
       run_inbound (number c) handler t =
         map (fun fs => (concat (published (number c) handler fs), Ok tt)) runs))
    (categories repr root lat lon civil site_name topic).
Proof.
  apply List.Forall_forall. intros c Hc clock handler.
  pose proof (handler_end repr root lat lon civil site_name topic c Hc) as He.
  pose proof (categories_handle repr root lat lon civil site_name topic) as Hh.
  rewrite List.Forall_forall in Hh. specialize (Hh c Hc). split.
  - intros s. destruct (tcp_loop_ok (S (length (pending s))) s) as (rest & Hcut & _); [unfold len; lia|].
    fold (iter_frames_tcp s) in Hcut. exists (fst (iter_frames_tcp s)), rest. split_and!; [exact Hcut|..].
    + apply tcp_conn_end. intros data Hf. destruct (He (clock data) data Hf) as [|[? _]]; auto.
    + eapply Forall_impl; [exact (cut_fits _ _ _ Hcut)|]. intros f Hf.
      specialize (Hh (clock (snd f)) _ Hf). split; [exact Hh|]. intros Hr Hok. unfold handles in Hh.
      subst handler. cbv beta in *. destruct (handle c (clock (snd f)) (snd f)) as [out r]. cbn [fst snd] in *.
      pose proof (len_nonneg (snd f)).
      destruct (delivered_relays _ _ _ _ _ _ _ _ _ _ _ _ _ _ Hh Hr Hok ltac:(lia)) as (pieces & Hp & Hb).
      exists pieces. split; [|exact Hb]. rewrite Hp. unfold slice, len. cbn [Z.to_nat skipn].
      apply firstn_all2. lia.
  - intros Hsite t. apply Receivers.run_inbound_total. intros data Hf.
    destruct (He (clock data) data Hf) as [Hok|(_ & [? Ha] & [? Hb])]; [exact Hok|].
    by destruct Hsite; congruence.
Qed.
End Theorems.

(** Two CAT-017 messages in one data block, in two pieces: a view and a raw
    sample each, the raw ones with the octets of the block. *)
Lemma record_receivers_witness :
  let repr := fun _ : value => "" in
  let clock := fun (_ : bytes) (_ : Z) => fl 7 in
  let handler := fun data => _cat17_handler repr "efdi" (clock data) data in
  let s := {| pending := of_ints [17; 0; 9; 0x80; 1; 2; 0x80; 3; 4]; sizes := [5] |} in
  len (fst (_cat17__process_tcp_conn handler s)) = 4 /\
  exists frames rest, cut (pending s) frames rest /\ snd (_cat17__process_tcp_conn handler s) = Ok tt.
Proof.
  intros repr clock handler s. split; [vm_compute; reflexivity|].
  pose proof (@record_receivers small_angle_libm small_angle_libm_ok repr "efdi" None None [] "" (fun _ => "")) as H.
  unfold categories in H. do 3 apply Forall_inv_tail in H. apply Forall_inv in H.
  destruct (H clock) as [Ht _]. destruct (Ht s) as (frames & rest & Hc & He & _).
  exists frames, rest. split; [exact Hc|exact He].
Defined.
