(* ===== verification/Radars.v ===== *)
(** * Radar sites

    cat.py, [_cat34__make_cat034_handler] and [_cat48__cache_cat34_site]: what
    the CAT-034 handler keeps per radar, the status it publishes at a north
    marker, the threads that repeat it, and the cache through which CAT-048
    plots are placed by the site a radar announced. Each closure variable of the
    handler is a field of [radars]; readings of the clock are arguments. *)

From S2P Require Import Prelude PyFloat PyData Schema Ranges Cursor Safety Contract AsterixCommon.
From S2P Require Import TrackViews PyText PyNum Records Blocks Cat034 Cat048.
From stdpp Require Import gmap strings.
#[local] Open Scope Z_scope.
#[local] Open Scope py_scope.

(** ** State *)

(** An entry of [_sweep]. *)
Record beam := { north_ts : float; beam_rotation : float; beam_status : dict }.

Record radars := {
  sites : gmap string (float * float);
  missing_sites : gset string;
  first_seen : gmap string float;
  sweeps : gmap string beam;
  sweep_active : gset string;
  keepalive : gmap string dict;
  keepalive_active : gset string;
  pos_hist : gmap string (float * float * float);
  ranges : gmap string Z;
  range_sources : gmap string string;
}.

Definition no_radars : radars := {|
  sites := ∅; missing_sites := ∅; first_seen := ∅; sweeps := ∅; sweep_active := ∅;
  keepalive := ∅; keepalive_active := ∅; pos_hist := ∅; ranges := ∅; range_sources := ∅
|}.

(** A thread the handler starts. *)
Inductive thread := sweep_thread (key : string) | keepalive_thread (key : string).

#[export] Instance thread_eq_dec : EqDecision thread.
Proof. solve_decision. Defined.

(** ** The range ring *)
Definition _cat34__coverage_range_m (msg : dict) (configured_range_m : float) : exc (option (Z * string)) :=
  let v := dget_or msg "coverage_rho_end_nm" VNone in
  let? advertised_nm :=
    match float_of (if truthy v then v else VFloat (fl 0)) with
    | Ok x => Ok x
    | Raise TypeError | Raise ValueError => Ok (fl 0)
    | Raise e => Raise e
    end in
  if is_finite advertised_nm && flt (fl 0) advertised_nm then
    let? n := py_round_int (fmul advertised_nm (fl 1852)) in
    Ok (Some (n, "advertised"))
  else if is_finite configured_range_m && flt (fl 0) configured_range_m then
    let? n := py_round_int configured_range_m in
    Ok (Some (n, "configured"))
  else Ok None.

(** [key] of the handler: the radar a message is from. *)
Definition radar_key (msg : dict) : string :=
  str_int (sac_sic (dget msg "sac")) +:+ "-" +:+ str_int (sac_sic (dget msg "sic")).

(** The position a message carries. *)
Definition announced (msg : dict) : option (float * float) :=
  match dget msg "site_lat", dget msg "site_lon" with
  | Some (VFloat lat), Some (VFloat lon) => Some (lat, lon)
  | _, _ => None
  end.

Section Handler.
Context `{Libm}.
Variables (default_site : option (float * float)) (radar_name : option string).
Variables (configured_range_m : float) (passive : bool) (civil : list string) (root : string).

Definition _cat34_TOPIC_SENSOR (source affil : string) : string :=
  root +:+ "/land/" +:+ source +:+ "/radar/" +:+ affil +:+ "/radar".

Definition topic_034 (status : dict) : string :=
  _cat34_TOPIC_SENSOR (_asterix_source status) (_radar_site_affil civil (_asterix_source status)).

(** Speed and course from the previous position. *)
Definition motion (prev : option (float * float * float)) (now lat lon : float) : exc (option float * option float) :=
  match prev with
  | None => Ok (None, None)
  | Some (t, lat0, lon0) =>
      let dt := fsub now t in
      if flt (fl 0) dt && flt dt (fl 3600) then
        let dlat := fmul (fsub lat lat0) (fl 111320) in
        let? c := m_cos (radians lat) in
        let dlon := fmul (fmul (fsub lon lon0) (fl 111320)) c in
        let? dist_m := m_hypot dlat dlon in
        let speed := py_round (fdiv_raw dist_m dt) 2 in
        if flt (fl 1) dist_m then
          let? a := m_atan2 dlon dlat in
          Ok (Some speed, Some (py_round (fmod (fadd (degrees a) (fl 360)) (fl 360)) 1))
        else Ok (Some speed, None)
      else Ok (None, None)
  end.

(** [for k, v in msg.items(): status[k] = v], with [tod_s] renamed. *)
Definition add_item (status : dict) (kv : string * value) : dict :=
  dset (if String.eqb (fst kv) "tod_s" then "radar_clock_s" else fst kv) (snd kv) status.

Definition set_opt (k : string) (o : option value) (d : dict) : dict :=
  match o with Some v => dset k v d | None => d end.

Definition status_of (now : float) (msg : dict) (key : string) (lat lon : float) (seen : float)
    (range : option Z) (range_source : option string) (speed heading : option float) : dict :=
  let sac := str_int (sac_sic (dget msg "sac")) in
  let sic := str_int (sac_sic (dget msg "sic")) in
  let name := default "" radar_name in
  let status :=
    [("_src", VStr "ASTERIX CAT-34 Ed.1.29"); ("_ts", VFloat now); ("sensor_type", VStr "radar");
     ("sensor_id", VStr ("CAT34-" +:+ sac +:+ "-" +:+ sic));
     ("sensor_name", VStr (if String.eqb name "" then "RADAR SAC" +:+ sac +:+ "/SIC" +:+ sic else name));
     ("lat_deg", VFloat lat); ("lon_deg", VFloat lon); ("online_since", VFloat seen)] in
  let status := if passive then dset "passive" (VBool true) status else status in
  let status :=
    match range with
    | Some r =>
        let status := dset "radar_range_m" (VInt r) status in
        match range_source with
        | Some src => if String.eqb src "" then status else dset "radar_range_source" (VStr src) status
        | None => status
        end
    | None => status
    end in
  let status := set_opt "speed_ms" (VFloat <$> speed) status in
  let status := set_opt "heading_deg" (VFloat <$> heading) status in
  fold_left add_item msg status.

(** [rot or existing.get("rotation_s", 4.0)] *)
Definition rotation_of (msg : dict) (existing : option beam) : float :=
  let before := match existing with Some s => beam_rotation s | None => fl 4 end in
  match dget msg "rotation_s" with
  | Some (VFloat r) => if ftruth r then r else before
  | _ => before
  end.

(** The branch of a north marker, once the site and the range are stored. *)
Definition on_north_marker (now : float) (msg : dict) (key : string) (lat lon : float) (st : radars) :
    radars * exc (list sample * list thread) :=
  let seen := default now (first_seen st !! key) in
  let st := {| sites := sites st; missing_sites := missing_sites st;
               first_seen := <[key := seen]> (first_seen st);
               sweeps := sweeps st; sweep_active := sweep_active st; keepalive := keepalive st;
               keepalive_active := keepalive_active st; pos_hist := pos_hist st; ranges := ranges st;
               range_sources := range_sources st |} in
  match motion (pos_hist st !! key) now lat lon with
  | Raise e => (st, Raise e)
  | Ok (speed, heading) =>
      let status := status_of now msg key lat lon seen (ranges st !! key) (range_sources st !! key) speed heading in
      let b := {| north_ts := now; beam_rotation := rotation_of msg (sweeps st !! key); beam_status := status |} in
      let starts := (if bool_decide (key ∈ sweep_active st) then [] else [sweep_thread key]) ++
                    (if bool_decide (key ∈ keepalive_active st) then [] else [keepalive_thread key]) in
      ({| sites := sites st; missing_sites := missing_sites st; first_seen := first_seen st;
          sweeps := <[key := b]> (sweeps st); sweep_active := {[key]} ∪ sweep_active st;
          keepalive := <[key := status]> (keepalive st); keepalive_active := {[key]} ∪ keepalive_active st;
          pos_hist := <[key := (now, lat, lon)]> (pos_hist st); ranges := ranges st;
          range_sources := range_sources st |},
       Ok ([(topic_034 status, status)], starts))
  end.

(** The branch of a sector crossing: the antenna's phase is corrected. *)
Definition on_sector_crossing (now : float) (msg : dict) (key : string) (st : radars) : radars :=
  match sweeps st !! key with
  | Some s =>
      if ftruth (beam_rotation s) then
        let sector_deg := match dget msg "sector_deg" with Some (VFloat x) => x | _ => fl 0 end in
        let north := fsub now (fmul (fdiv_raw sector_deg (fl 360)) (beam_rotation s)) in
        {| sites := sites st; missing_sites := missing_sites st; first_seen := first_seen st;
           sweeps := <[key := {| north_ts := north; beam_rotation := beam_rotation s; beam_status := beam_status s |}]> (sweeps st);
           sweep_active := sweep_active st; keepalive := keepalive st; keepalive_active := keepalive_active st;
           pos_hist := pos_hist st; ranges := ranges st; range_sources := range_sources st |}
      else st
  | None => st
  end.

(** The site and its absence. *)
Definition learn_site (msg : dict) (key : string) (st : radars) : radars :=
  match announced msg with
  | Some site =>
      {| sites := <[key := site]> (sites st); missing_sites := missing_sites st ∖ {[key]};
         first_seen := first_seen st; sweeps := sweeps st; sweep_active := sweep_active st;
         keepalive := keepalive st; keepalive_active := keepalive_active st; pos_hist := pos_hist st;
         ranges := ranges st; range_sources := range_sources st |}
  | None => st
  end.

Definition miss_site (key : string) (st : radars) : radars :=
  {| sites := sites st; missing_sites := {[key]} ∪ missing_sites st;
     first_seen := first_seen st; sweeps := sweeps st; sweep_active := sweep_active st;
     keepalive := keepalive st; keepalive_active := keepalive_active st; pos_hist := pos_hist st;
     ranges := ranges st; range_sources := range_sources st |}.

Definition keep_range (key : string) (range : option (Z * string)) (st : radars) : radars :=
  match range with
  | Some (r, src) =>
      {| sites := sites st; missing_sites := missing_sites st;
         first_seen := first_seen st; sweeps := sweeps st; sweep_active := sweep_active st;
         keepalive := keepalive st; keepalive_active := keepalive_active st; pos_hist := pos_hist st;
         ranges := <[key := r]> (ranges st); range_sources := <[key := src]> (range_sources st) |}
  | None => st
  end.

(** A decoded message. *)
Definition on_message (now : float) (msg : dict) (st : radars) : radars * exc (list sample * list thread) :=
  let key := radar_key msg in
  let st := learn_site msg key st in
  match (match sites st !! key with Some site => Some site | None => default_site end) with
  | None => (miss_site key st, Ok ([], []))
  | Some (lat, lon) =>
      match _cat34__coverage_range_m msg configured_range_m with
      | Raise e => (st, Raise e)
      | Ok range =>
          let st := keep_range key range st in
          match dget msg "msg_type" with
          | Some (VStr mtype) =>
              if String.eqb mtype "north_marker" then on_north_marker now msg key lat lon st
              else if String.eqb mtype "sector_crossing" then (on_sector_crossing now msg key st, Ok ([], []))
              else (st, Ok ([], []))
          | _ => (st, Ok ([], []))
          end
      end
  end.

(** [_h] of [_cat34__make_cat034_handler]. *)
Definition _cat34_handler (now : float) (data : bytes) (st : radars) : radars * exc (list sample * list thread) :=
  match _cat34_decode_cat034 data with
  | Raise e => (st, Raise e)
  | Ok None => (st, Ok ([], []))
  | Ok (Some msg) => on_message now msg st
  end.

(** One round of [_sweep_thread] at its three readings of the clock; [None]
    when the thread ends. *)
Definition sweep_round (key : string) (t0 t1 t2 : float) (st : radars) : option (list sample) :=
  match sweeps st !! key with
  | None => None
  | Some s =>
      Some (
        if negb (ftruth (beam_rotation s)) then []
        else if flt (fmul (beam_rotation s) (fl 3)) (fsub t0 (north_ts s)) then []
        else
          let az := fmod (fmul (fdiv_raw (fsub t1 (north_ts s)) (beam_rotation s)) (fl 360)) (fl 360) in
          let payload := dset "_ts" (VFloat t2) (dset "sweep_azimuth_deg" (VFloat (py_round az 1)) (beam_status s)) in
          [(topic_034 payload, payload)])
  end.

(** One round of [_keepalive_thread]. *)
Definition keepalive_round (key : string) (t : float) (st : radars) : option (list sample) :=
  match keepalive st !! key with
  | None => None
  | Some status =>
      let payload := dset "_ts" (VFloat t) status in
      Some [(topic_034 payload, payload)]
  end.
End Handler.

(** ** The cache of CAT-048

    [_on_cat34_site]: the value is what [json.loads] gives of a sample, and
    [int] and [float] of its fields may raise. *)
Definition int_of (v : value) : exc Z :=
  match v with
  | VInt n => Ok n
  | VBool b => Ok (if b then 1 else 0)
  | VFloat x => int_of_float x
  | VStr s => match parse_int (strip s) with Some n => Ok n | None => Raise ValueError end
  | _ => Raise TypeError
  end.

Definition site_of (d : dict) : exc (Z * Z * float * float) :=
  let? v := ditem d "sac" in
  let? sac := int_of v in
  let? v := ditem d "sic" in
  let? sic := int_of v in
  let? v := ditem d "lat_deg" in
  let? lat := float_of v in
  let? v := ditem d "lon_deg" in
  let? lon := float_of v in
  Ok (sac, sic, lat, lon).

Definition _cat48__cache_cat34_site (track : value) (cached : gmap (Z * Z) (float * float)) :
    gmap (Z * Z) (float * float) * exc bool :=
  match track with
  | VDict d =>
      let src := match dget_or d "_src" (VStr "") with VStr s => s | _ => "" end in
      if negb (startswith "ASTERIX CAT-34" src) then (cached, Ok false) else
      match site_of d with
      | Raise KeyError | Raise TypeError | Raise ValueError => (cached, Ok false)
      | Raise e => (cached, Raise e)
      | Ok (sac, sic, lat, lon) =>
          if negb (fbetween (fl (-90)) lat (fl 90) && fbetween (fl (-180)) lon (fl 180)) then (cached, Ok false)
          else (<[(sac, sic) := (lat, lon)]> cached, Ok true)
      end
  | _ => (cached, Raise AttributeError)
  end.

(** ** One radar's part of the state *)
Definition at_key (key : string) (st : radars) :=
  (sites st !! key, bool_decide (key ∈ missing_sites st), first_seen st !! key, sweeps st !! key,
   bool_decide (key ∈ sweep_active st), keepalive st !! key, bool_decide (key ∈ keepalive_active st),
   pos_hist st !! key, ranges st !! key, range_sources st !! key).

Lemma decide_insert (key k : string) (X : gset string) :
  bool_decide (key ∈ ({[k]} ∪ X)) = bool_decide (key = k) || bool_decide (key ∈ X).
Proof.
  destruct (bool_decide_reflect (key = k)) as [->|Hn].
  - apply bool_decide_eq_true_2, elem_of_union_l. by apply elem_of_singleton.
  - apply bool_decide_ext. set_solver.
Qed.

Lemma decide_remove (key k : string) (X : gset string) :
  bool_decide (key ∈ X ∖ {[k]}) = negb (bool_decide (key = k)) && bool_decide (key ∈ X).
Proof.
  destruct (bool_decide_reflect (key = k)) as [->|Hn].
  - apply bool_decide_eq_false_2. intros [_ []]%elem_of_difference. by apply elem_of_singleton.
  - apply bool_decide_ext. set_solver.
Qed.

Section Local.
Context `{Libm}.
Variables (default_site : option (float * float)) (radar_name : option string).
Variables (configured_range_m : float) (passive : bool) (civil : list string) (root : string).
Abbreviation message := (on_message default_site radar_name configured_range_m passive civil root).
Abbreviation marker := (on_north_marker radar_name passive civil root).

(** Nothing but the entries of the message's own radar changes. *)
Ltac other_key Hk := unfold at_key; cbn [sites missing_sites first_seen sweeps sweep_active keepalive keepalive_active
  pos_hist ranges range_sources]; rewrite ?decide_insert, ?decide_remove, ?lookup_insert_ne by congruence;
  rewrite ?(bool_decide_eq_false_2 _ Hk); cbn [negb andb orb]; try reflexivity.

Lemma learn_site_frame key k msg st : key <> k -> at_key key (learn_site msg k st) = at_key key st.
Proof. intros Hk. unfold learn_site. destruct (announced msg); [|done]. other_key Hk. Qed.
Lemma miss_site_frame key k st : key <> k -> at_key key (miss_site k st) = at_key key st.
Proof. intros Hk. unfold miss_site. other_key Hk. Qed.
Lemma keep_range_frame key k r st : key <> k -> at_key key (keep_range k r st) = at_key key st.
Proof. intros Hk. unfold keep_range. destruct r as [[n src]|]; [|done]. other_key Hk. Qed.
Lemma sector_frame key k now msg st : key <> k -> at_key key (on_sector_crossing now msg k st) = at_key key st.
Proof. intros Hk. unfold on_sector_crossing. destruct (sweeps st !! k); [|done]. destruct (ftruth _); [|done]. other_key Hk. Qed.
Lemma marker_frame key k now msg lat lon st : key <> k -> at_key key (fst (marker now msg k lat lon st)) = at_key key st.
Proof.
  intros Hk. unfold on_north_marker. cbv zeta. cbn [pos_hist].
  destruct (motion _ _ _ _) as [[speed heading]|e]; cbn [fst]; other_key Hk.
Qed.

Lemma on_message_frame key now msg st :
  key <> radar_key msg -> at_key key (fst (message now msg st)) = at_key key st.
Proof.
  intros Hk. unfold on_message. cbv zeta. rewrite <- (learn_site_frame key (radar_key msg) msg st Hk).
  destruct (match sites _ !! _ with Some s => Some s | None => default_site end) as [[lat lon]|];
    [|by apply miss_site_frame].
  destruct (_cat34__coverage_range_m _ _) as [range|e]; [|done].
  rewrite <- (keep_range_frame key (radar_key msg) range (learn_site msg (radar_key msg) st) Hk).
  destruct (dget msg "msg_type") as [[]|]; try done.
  destruct (String.eqb _ "north_marker"); [by apply marker_frame|].
  destruct (String.eqb _ "sector_crossing"); [by apply sector_frame|done].
Qed.

(** What becomes of a radar depends on its own entries alone. *)
Ltac own_key E := unfold at_key in E |- *; injection E; intros;
  cbn [sites missing_sites first_seen sweeps sweep_active keepalive keepalive_active pos_hist ranges range_sources];
  rewrite ?decide_insert, ?decide_remove, ?lookup_insert_eq;
  repeat match goal with H : ?l = _ |- context [?l] => rewrite H; clear H end; reflexivity.

Lemma at_key_sites k st st' : at_key k st = at_key k st' -> sites st !! k = sites st' !! k.
Proof. intros E. unfold at_key in E. by injection E. Qed.
Lemma at_key_sweeps k st st' : at_key k st = at_key k st' -> sweeps st !! k = sweeps st' !! k.
Proof. intros E. unfold at_key in E. by injection E. Qed.

Lemma learn_site_own k msg st st' :
  at_key k st = at_key k st' -> at_key k (learn_site msg k st) = at_key k (learn_site msg k st').
Proof. intros E. unfold learn_site. destruct (announced msg); [|done]. own_key E. Qed.
Lemma miss_site_own k st st' :
  at_key k st = at_key k st' -> at_key k (miss_site k st) = at_key k (miss_site k st').
Proof. intros E. unfold miss_site. own_key E. Qed.
Lemma keep_range_own k r st st' :
  at_key k st = at_key k st' -> at_key k (keep_range k r st) = at_key k (keep_range k r st').
Proof. intros E. unfold keep_range. destruct r as [[n src]|]; [|done]. own_key E. Qed.
Lemma sector_own k now msg st st' :
  at_key k st = at_key k st' ->
  at_key k (on_sector_crossing now msg k st) = at_key k (on_sector_crossing now msg k st').
Proof.
  intros E. unfold on_sector_crossing. rewrite <- (at_key_sweeps _ _ _ E).
  destruct (sweeps st !! k); [|done]. destruct (ftruth _); [|done]. own_key E.
Qed.
Lemma marker_own k now msg lat lon st st' :
  at_key k st = at_key k st' ->
  at_key k (fst (marker now msg k lat lon st)) = at_key k (fst (marker now msg k lat lon st')) /\
  snd (marker now msg k lat lon st) = snd (marker now msg k lat lon st').
Proof.
  intros E. unfold on_north_marker. cbv zeta. cbn [pos_hist first_seen ranges range_sources sweeps sweep_active keepalive_active].
  pose proof E as E'. unfold at_key in E'. injection E' as _ _ F3 F4 F5 _ F7 F8 F9 F10.
  rewrite <- F8, <- F3, <- F4, <- F5, <- F7, <- F9, <- F10.
  destruct (motion _ _ _ _) as [[speed heading]|e]; cbn [fst snd]; (split; [own_key E|done]).
Qed.

Lemma on_message_own now msg st st' :
  at_key (radar_key msg) st = at_key (radar_key msg) st' ->
  at_key (radar_key msg) (fst (message now msg st)) = at_key (radar_key msg) (fst (message now msg st')) /\
  snd (message now msg st) = snd (message now msg st').
Proof.
  intros E. unfold on_message. cbv zeta. set (k := radar_key msg) in *.
  apply (learn_site_own k msg) in E. rewrite <- (at_key_sites _ _ _ E).
  destruct (match sites _ !! _ with Some s => Some s | None => default_site end) as [[lat lon]|];
    [|split; [by apply miss_site_own|done]].
  destruct (_cat34__coverage_range_m _ _) as [range|e]; [|by split].
  apply (keep_range_own k range) in E.
  destruct (dget msg "msg_type") as [[]|]; try by split.
  destruct (String.eqb _ "north_marker"); [by apply marker_own|].
  destruct (String.eqb _ "sector_crossing"); [split; [by apply sector_own|done]|by split].
Qed.
End Local.

(** ** Messages of several radars on one feed *)
Section Feed.
Context `{Libm}.
Variables (default_site : option (float * float)) (radar_name : option string).
Variables (configured_range_m : float) (passive : bool) (civil : list string) (root : string).
Abbreviation handler := (_cat34_handler default_site radar_name configured_range_m passive civil root).

(** The messages of a feed, each with the time it is handled at: the state they
    leave, and what each of them does. *)
Fixpoint feed (ms : list (float * bytes)) (st : radars) : radars * list (bytes * exc (list sample * list thread)) :=
  match ms with
  | [] => (st, [])
  | (now, data) :: ms' =>
      let (st1, r) := handler now data st in
      let (st2, rs) := feed ms' st1 in
      (st2, (data, r) :: rs)
  end.

(** Is a message from this radar? *)
Definition from_radar (key : string) (data : bytes) : bool :=
  match _cat34_decode_cat034 data with
  | Ok (Some msg) => String.eqb (radar_key msg) key
  | _ => false
  end.

Lemma handler_frame key now data st :
  from_radar key data = false -> at_key key (fst (handler now data st)) = at_key key st.
Proof.
  unfold from_radar, _cat34_handler. destruct (_cat34_decode_cat034 data) as [[msg|]|e]; [|done|done].
  intros Hk%String.eqb_neq. by apply on_message_frame.
Qed.

Lemma handler_own key now data st st' :
  from_radar key data = true -> at_key key st = at_key key st' ->
  at_key key (fst (handler now data st)) = at_key key (fst (handler now data st')) /\
  snd (handler now data st) = snd (handler now data st').
Proof.
  unfold from_radar, _cat34_handler. destruct (_cat34_decode_cat034 data) as [[msg|]|e]; [|done|done].
  intros <-%String.eqb_eq. apply on_message_own.
Qed.

Lemma feed_alone key ms st st' : at_key key st = at_key key st' ->
  let alone := feed (List.filter (fun m => from_radar key (snd m)) ms) st' in
  at_key key (fst (feed ms st)) = at_key key (fst alone) /\
  List.filter (fun r => from_radar key (fst r)) (snd (feed ms st)) = snd alone.
Proof.
  revert st st'. induction ms as [|[now data] ms IH]; intros st st' E; [by split|]. cbv zeta.
  cbn [List.filter snd feed]. destruct (from_radar key data) eqn:Hk.
  - cbn [feed]. pose proof (handler_own key now data st st' Hk E) as [E1 Er].
    destruct (handler now data st) as [st1 r], (handler now data st') as [st1' r']. cbn [fst snd] in *. subst r'.
    specialize (IH _ _ E1). cbv zeta in IH. destruct (feed ms st1), (feed _ st1'). cbn [fst snd List.filter] in *.
    rewrite Hk. destruct IH as [IH1 IH2]. split; [exact IH1|by rewrite IH2].
  - pose proof (handler_frame key now data st Hk) as Ef.
    destruct (handler now data st) as [st1 r]. cbn [fst] in Ef.
    specialize (IH st1 st' (eq_trans Ef E)). cbv zeta in IH. destruct (feed ms st1). cbn [fst snd List.filter] in *.
    by rewrite Hk.
Qed.

(** C18: radars that share a feed do not interfere: whatever the messages, what
    a radar's messages publish, start and raise, and all that is kept of it
    afterwards, is what they would alone. *)
Theorem radars_independent key ms st :
  let alone := feed (List.filter (fun m => from_radar key (snd m)) ms) st in
  at_key key (fst (feed ms st)) = at_key key (fst alone) /\
  List.filter (fun r => from_radar key (fst r)) (snd (feed ms st)) = snd alone.
Proof. by apply feed_alone. Qed.
End Feed.

(** ** From a radar's status to the plots of CAT-048 *)

(** Keys and values of a status: the message's items last. *)
Lemma add_items_absent k msg status :
  k <> "radar_clock_s" -> dget msg k = None -> dget (fold_left add_item msg status) k = dget status k.
Proof.
  intros Hc. revert status. induction msg as [|[k' v] msg IH]; intros status Hk; [done|].
  cbn in Hk |- *. destruct (String.eqb_spec k' k) as [->|Hne]; [done|]. rewrite IH by done. unfold add_item. cbn.
  destruct (String.eqb k' "tod_s"); apply dget_dset_ne; congruence.
Qed.

Lemma add_items_own k v msg status :
  NoDup (keys msg) -> k <> "radar_clock_s" -> k <> "tod_s" -> dget msg k = Some v ->
  dget (fold_left add_item msg status) k = Some v.
Proof.
  intros Hn Hc Ht. revert status Hn. induction msg as [|[k' v'] msg IH]; intros status Hn Hk; [done|].
  apply NoDup_cons in Hn as [Hk' Hn]. cbn in Hk |- *. destruct (String.eqb_spec k' k) as [->|Hne]; [|by apply IH].
  injection Hk as ->. rewrite add_items_absent; [|done|].
  - unfold add_item. cbn. destruct (String.eqb_spec k "tod_s"); [done|]. apply dget_dset_eq.
  - destruct (dget msg k) eqn:E; [|done]. exfalso. apply Hk', (dmem_elem msg k). unfold dmem. by rewrite E.
Qed.

Lemma wt_absent S d k : wt S d -> field_ty S k = None -> dget d k = None.
Proof.
  intros [_ Hf] Hk. destruct (dget d k) as [v|] eqn:E; [|done].
  pose proof (fields_ok_get _ _ _ _ Hf E) as H. unfold field_ok in H. by rewrite Hk in H.
Qed.

(** The keys a status has whatever the message. *)
Definition head_keys : list string :=
  ["_src"; "_ts"; "sensor_type"; "sensor_id"; "sensor_name"; "lat_deg"; "lon_deg"; "online_since"; "passive";
   "radar_range_m"; "radar_range_source"; "speed_ms"; "heading_deg"; "radar_clock_s"].

Section Status.
Variables (radar_name : option string) (passive : bool).
Abbreviation status msg key now lat lon seen range src speed heading :=
  (status_of radar_name passive now msg key lat lon seen range src speed heading).

Lemma status_absent k msg key now lat lon seen range src speed heading :
  selem k head_keys = false -> dget msg k = None ->
  dget (status msg key now lat lon seen range src speed heading) k = None.
Proof.
  intros Hk Hm. assert (forall s, selem s head_keys = true -> s <> k) as Hne by (intros s Hs ->; congruence).
  unfold status_of. cbv zeta. rewrite add_items_absent; [|intros ->; by apply (Hne "radar_clock_s")|done].
  unfold set_opt. destruct heading, speed, range, src, passive; cbn [fmap option_fmap option_map];
    repeat match goal with |- context [if ?b then _ else _] => destruct b end;
    rewrite ?dget_dset_ne by (apply Hne; reflexivity); cbn [dget];
    rewrite !(proj2 (String.eqb_neq _ k)) by (apply Hne; reflexivity); reflexivity.
Qed.

(** What stands before the message's items, of the keys CAT-048 reads. *)
Lemma status_fixed msg key now lat lon seen range src speed heading :
  dget msg "_src" = None -> dget msg "lat_deg" = None -> dget msg "lon_deg" = None ->
  let d := status msg key now lat lon seen range src speed heading in
  dget d "_src" = Some (VStr "ASTERIX CAT-34 Ed.1.29") /\
  dget d "lat_deg" = Some (VFloat lat) /\ dget d "lon_deg" = Some (VFloat lon).
Proof.
  intros H1 H2 H3. unfold status_of. cbv zeta. rewrite !add_items_absent by done.
  unfold set_opt. destruct heading, speed, range, src, passive; cbn [fmap option_fmap option_map];
    repeat match goal with |- context [if ?b then _ else _] => destruct b end;
    rewrite ?dget_dset_ne by done; done.
Qed.

Lemma status_item k v msg key now lat lon seen range src speed heading :
  NoDup (keys msg) -> k <> "radar_clock_s" -> k <> "tod_s" -> dget msg k = Some v ->
  dget (status msg key now lat lon seen range src speed heading) k = Some v.
Proof. intros. unfold status_of. cbv zeta. by apply add_items_own. Qed.
End Status.

(** *** The topic *)
Lemma sensor_split root source affil : segment source = true -> segment affil = true ->
  TrackViews.split (_cat34_TOPIC_SENSOR root source affil) =
  TrackViews.split root ++ ["land"; source; "radar"; affil; "radar"].
Proof.
  intros Hs Ha. unfold _cat34_TOPIC_SENSOR.
  change (root +:+ "/land/" +:+ source +:+ "/radar/" +:+ affil +:+ "/radar")
    with (root +:+ "/" +:+ ("land" +:+ "/" +:+ (source +:+ "/" +:+ ("radar" +:+ "/" +:+ (affil +:+ "/" +:+ "radar"))))).
  by rewrite !split_slash, (split_segment source), (split_segment affil) by done.
Qed.

Definition plain_parts (root : string) : list string :=
  List.filter (fun p => negb (String.eqb p "")) (TrackViews.split root).

Lemma sensor_prefix root source affil :
  key_segment source -> key_segment affil -> affil <> "tracks" ->
  prefix_parts (_cat34_TOPIC_SENSOR root source affil) =
  plain_parts root ++ ["land"; source; "radar"; affil; "radar"].
Proof.
  intros [Hs Hs0] [Ha Ha0] Ht. pose proof (sensor_split root source affil Hs Ha) as E.
  assert (strip_version (_cat34_TOPIC_SENSOR root source affil) = _cat34_TOPIC_SENSOR root source affil) as Hv.
  { unfold strip_version. rewrite E, rev_app_distr. cbn [rev List.app]. by rewrite (proj2 (String.eqb_neq _ _) Ht). }
  unfold prefix_parts, plain_parts. rewrite Hv, E, List.filter_app. cbn [List.filter].
  rewrite (proj2 (String.eqb_neq _ _) Hs0), (proj2 (String.eqb_neq _ _) Ha0). cbn [String.eqb Ascii.eqb negb Bool.eqb].
  rewrite rev_app_distr. cbn [rev List.app drop_legacy]. cbn [selem existsb].
  replace (selem "radar" _LEGACY_TAIL) with false by reflexivity.
  cbn [rev]. by rewrite rev_involutive, <- !app_assoc.
Qed.

(** The sensor a message of CAT-034 names. *)
Lemma source_segment msg : wt _cat34_decode_cat034_schema msg -> key_segment (_asterix_source msg).
Proof.
  intros Hm. unfold _asterix_source.
  assert (forall o, (forall v, o = Some v -> has_ty (TInt 0 255) v = true) -> 0 <= sac_sic o <= 255) as Hr.
  { intros [v|] Hv; [|cbn; lia]. specialize (Hv v eq_refl). destruct v; cbn in Hv |- *; lia. }
  assert (forall n, 0 <= n <= 255 -> segment (fmt_d 3 n) = true) as Hd.
  { intros n Hn. revert n Hn.
    assert (forallb (fun n => segment (fmt_d 3 (Z.of_nat n))) (seq 0 256) = true) as H by (vm_compute; reflexivity).
    intros n Hn. rewrite forallb_forall in H. specialize (H (Z.to_nat n)).
    rewrite Z2Nat.id in H by lia. apply H, in_seq. lia. }
  set (a := fmt_d 3 (sac_sic (dget msg "sac"))). set (b := fmt_d 3 (sac_sic (dget msg "sic"))).
  assert (segment a = true /\ segment b = true) as [Ha Hb].
  { split; apply Hd, Hr; intros v Hv; exact (wt_get _ _ _ _ _ Hm Hv eq_refl). }
  split; [unfold segment in *; by rewrite !all_chars_concat, Ha, Hb|]. destruct a; [done|discriminate].
Qed.

Lemma affil_segment civil source : key_segment (_radar_site_affil civil source) /\ _radar_site_affil civil source <> "tracks".
Proof. unfold _radar_site_affil. by destruct (selem source civil). Qed.

(** A record that names no object. *)
Lemma object_type_unknown repr d :
  (forall k, selem k _TYPE_KEYS = true -> dget d k = None) -> object_type repr d = "unknown".
Proof.
  unfold object_type. induction _TYPE_KEYS as [|k ks IH]; intros H; [done|].
  rewrite (H k) by (cbn; by rewrite String.eqb_refl). apply IH. intros k' Hk'. apply H. unfold selem in *. cbn. by rewrite Hk', orb_true_r.
Qed.
Lemma object_id_unknown repr d :
  (forall k, selem k _ID_KEYS = true -> dget d k = None) -> object_id repr d = "unknown".
Proof.
  unfold object_id. induction _ID_KEYS as [|k ks IH]; intros H; [done|].
  rewrite (H k) by (cbn; by rewrite String.eqb_refl). apply IH. intros k' Hk'. apply H. unfold selem in *. cbn. by rewrite Hk', orb_true_r.
Qed.

Lemma status_key root repr civil status :
  key_segment (_asterix_source status) ->
  (forall k, selem k (_TYPE_KEYS ++ _ID_KEYS) = true -> dget status k = None) ->
  TrackViews.split (view_key (semantic_topic repr (topic_034 civil root status) status) "json") =
  plain_parts root ++ ["land"; _asterix_source status; "radar"; _radar_site_affil civil (_asterix_source status);
                       "radar"; "unknown"; "unknown"; "tracks"; "v1"].
Proof.
  intros Hs Hk. destruct (affil_segment civil (_asterix_source status)) as [Ha Hat].
  assert (forall k, selem k _TYPE_KEYS = true -> dget status k = None) as HT.
  { intros k Hin. apply Hk. unfold selem. rewrite existsb_app. by apply orb_true_iff; left. }
  assert (forall k, selem k _ID_KEYS = true -> dget status k = None) as HI.
  { intros k Hin. apply Hk. unfold selem. rewrite existsb_app. by apply orb_true_iff; right. }
  pose proof (object_type_unknown repr status HT) as Et. pose proof (object_id_unknown repr status HI) as Ei.
  pose proof (semantic_topic_split repr (topic_034 civil root status) status) as E.
  rewrite Et, Ei in E. unfold topic_034 in E at 2. rewrite sensor_prefix in E by done.
  set (t := semantic_topic repr _ status) in *.
  assert (plain t = true) as Hp.
  { unfold plain, strip_version, _has_format, strip_version. rewrite E, rev_app_distr. cbn [rev List.app].
    rewrite !rev_app_distr. cbn [rev List.app]. 
    replace (String.eqb "unknown" "tracks") with false by reflexivity. cbn [andb].
    rewrite E, rev_app_distr. cbn [rev List.app]. by rewrite String.eqb_refl. }
  rewrite view_key_stem, split_slash by done. unfold view_stem. rewrite String.eqb_refl, E.
  by rewrite <- !app_assoc.
Qed.

(** *** The cache *)
Lemma site_of_status status sac sic lat lon :
  dget status "sac" = Some (VInt sac) -> dget status "sic" = Some (VInt sic) ->
  dget status "lat_deg" = Some (VFloat lat) -> dget status "lon_deg" = Some (VFloat lon) ->
  site_of status = Ok (sac, sic, lat, lon).
Proof. intros H1 H2 H3 H4. unfold site_of, ditem. rewrite H1, H2, H3, H4. reflexivity. Qed.

Lemma cache_status status cached sac sic lat lon :
  dget status "_src" = Some (VStr "ASTERIX CAT-34 Ed.1.29") ->
  site_of status = Ok (sac, sic, lat, lon) ->
  fbetween (fl (-90)) lat (fl 90) && fbetween (fl (-180)) lon (fl 180) = true ->
  _cat48__cache_cat34_site (VDict status) cached = (<[(sac, sic) := (lat, lon)]> cached, Ok true).
Proof.
  intros Hs Hsite Hr. unfold _cat48__cache_cat34_site, dget_or. rewrite Hs, Hsite, Hr. reflexivity.
Qed.

Section Reach.
Context `{Libm}.
Variables (default_site : option (float * float)) (radar_name : option string).
Variables (configured_range_m : float) (passive : bool) (civil : list string) (root : string).
Abbreviation handler := (_cat34_handler default_site radar_name configured_range_m passive civil root).

(** What a handled message that publishes amounts to. *)
Lemma handler_status now data st st' out starts :
  handler now data st = (st', Ok (out, starts)) -> out <> [] ->
  exists msg lat lon seen range src speed heading,
    wt _cat34_decode_cat034_schema msg /\
    (default (default (fl 0, fl 0) default_site) (sites st' !! radar_key msg) = (lat, lon)) /\
    (announced msg = Some (lat, lon) \/ announced msg = None) /\
    let status := status_of radar_name passive now msg (radar_key msg) lat lon seen range src speed heading in
    keepalive st' !! radar_key msg = Some status /\ out = [(topic_034 civil root status, status)].
Proof.
  unfold _cat34_handler. pose proof (decode_cat034_ok data) as Hd.
  destruct (_cat34_decode_cat034 data) as [[msg|]|e]; [|intros [= _ <- _]; done|done].
  destruct Hd as [Hm _]. unfold on_message. cbv zeta. set (key := radar_key msg).
  set (st1 := learn_site msg key st).
  assert (announced msg = sites st1 !! key \/ announced msg = None) as Ha.
  { subst st1. unfold learn_site. destruct (announced msg); [left; cbn; by rewrite lookup_insert_eq|by right]. }
  set (site := match sites st1 !! key with Some s => Some s | None => default_site end).
  destruct site as [[lat lon]|] eqn:Es; [|intros [= _ <- _]; done].
  destruct (_cat34__coverage_range_m msg configured_range_m) as [range|e]; [|done].
  destruct (dget msg "msg_type") as [[]|]; try (intros [= _ <- _]; done).
  destruct (String.eqb _ "north_marker"); [|destruct (String.eqb _ "sector_crossing"); intros [= _ <- _]; done].
  unfold on_north_marker. cbv zeta. cbn [pos_hist].
  destruct (motion _ _ _ _) as [[speed heading]|e]; [|done]. intros [= <- <- <-] _.
  do 8 eexists. split; [exact Hm|]. fold key. cbn [sites keepalive].
  assert (sites (keep_range key range st1) = sites st1) as -> by (by destruct range as [[]|]).
  split_and!; [| |by rewrite lookup_insert_eq|done].
  - unfold site in Es. destruct (sites st1 !! key); cbn; [by injection Es as ->|by rewrite Es].
  - unfold site in Es. destruct Ha as [Ha|Ha]; [|by right].
    destruct (announced msg); [|by right]. left. rewrite <- Ha in Es. by rewrite Es.
Qed.

(** C6: the way from a radar to the plots of its targets: what the CAT-034
    handler publishes goes to a key of the pattern CAT-048 subscribes to, named
    after the radar and none other; the position in it is the one kept of the
    radar; when that is on the globe, CAT-048 takes exactly that site for exactly that radar, and
    from then on places the radar's polar plots by it. *)
Theorem site_reaches_plots repr now data st st' topic status starts sac sic cached default_track track rho theta :
  handler now data st = (st', Ok ([(topic, status)], starts)) ->
  dget status "sac" = Some (VInt sac) -> dget status "sic" = Some (VInt sic) ->
  dmem "lat_deg" track = false -> sac_sic (dget track "sac") = sac -> sac_sic (dget track "sic") = sic ->
  dget track "range_nm" = Some (VFloat rho) -> dget track "azimuth_deg" = Some (VFloat theta) ->
  fle rho (fl 0) = false ->
  TrackViews.split (view_key (semantic_topic repr topic status) "json") =
    plain_parts root ++ ["land"; fmt_d 3 sac +:+ "-" +:+ fmt_d 3 sic; "radar";
      _radar_site_affil civil (_asterix_source status); "radar"; "unknown"; "unknown"; "tracks"; "v1"] /\
  exists lat lon,
    dget status "lat_deg" = Some (VFloat lat) /\ dget status "lon_deg" = Some (VFloat lon) /\
    default (default (fl 0, fl 0) default_site) (sites st' !! (str_int sac +:+ "-" +:+ str_int sic)) = (lat, lon) /\
    (fbetween (fl (-90)) lat (fl 90) && fbetween (fl (-180)) lon (fl 180) = true ->
     exists cached', _cat48__cache_cat34_site (VDict status) cached = (cached', Ok true) /\
       cached' !! (sac, sic) = Some (lat, lon) /\
       (forall radar, radar <> (sac, sic) -> cached' !! radar = cached !! radar) /\
       _cat48__geolocate_from_site default_track cached' track =
         let? (plot_lat, plot_lon) := _cat48__polar_to_wgs84 lat lon rho theta in
         Ok (dset "lon_deg" (VFloat (py_round plot_lon 6)) (dset "lat_deg" (VFloat (py_round plot_lat 6)) track))).
Proof.
  intros Hh Hsac Hsic Hlat Htsac Htsic Hrho Htheta Hr.
  destruct (handler_status _ _ _ _ _ _ Hh) as (msg & lat & lon & seen & range & src & speed & heading & Hm & Hsites & _ & _ & E);
    [done|]. injection E as -> E. pose proof (wt_absent _ _ "_src" Hm eq_refl) as Hsrc.
  assert (forall k, selem k head_keys = false -> dget msg k = None -> dget status k = None) as Habs.
  { intros k Hk Hmk. rewrite E. by apply status_absent. }
  destruct (status_fixed radar_name passive msg (radar_key msg) now lat lon seen range src speed heading Hsrc)
    as (Fsrc & Flat & Flon); [by apply (wt_absent _ _ _ Hm)..|]. rewrite <- E in Fsrc, Flat, Flon.
  assert (forall k, k <> "radar_clock_s" -> k <> "tod_s" -> selem k head_keys = false -> dget status k = dget msg k) as Hitem.
  { intros k H1 H2 H3. destruct (dget msg k) eqn:Ek; [|by apply Habs]. rewrite E. apply status_item; try done. apply Hm. }
  assert (_asterix_source status = fmt_d 3 sac +:+ "-" +:+ fmt_d 3 sic) as Hname
    by (unfold _asterix_source; by rewrite Hsac, Hsic).
  assert (_asterix_source status = _asterix_source msg) as Hmsg by (unfold _asterix_source; by rewrite !Hitem).
  rewrite <- E. split.
  - rewrite <- Hname. apply status_key; [rewrite Hmsg; by apply source_segment|].
    assert (forall k, selem k (_TYPE_KEYS ++ _ID_KEYS) = true ->
              selem k head_keys = false /\ field_ty _cat34_decode_cat034_schema k = None) as Hk.
    { intros k Hin%selem_In. cbn in Hin. by repeat (destruct Hin as [<-|Hin]; [done|]). }
    intros k Hin. destruct (Hk k Hin) as [H1 H2]. apply Habs; [done|]. by apply (wt_absent _ _ _ Hm).
  - assert (radar_key msg = str_int sac +:+ "-" +:+ str_int sic) as <-
      by (unfold radar_key; by rewrite <- !Hitem, Hsac, Hsic).
    exists lat, lon. split_and!; [done..|]. intros Hrange.
    pose proof (site_of_status _ _ _ _ _ Hsac Hsic Flat Flon) as Hsite.
    eexists. split; [by apply cache_status|]. split_and!; [apply lookup_insert_eq| |].
    + intros radar Hne. by apply lookup_insert_ne.
    + unfold _cat48__geolocate_from_site, ditem. rewrite Hlat, Hrho, Htheta, Hr, Htsac, Htsic, lookup_insert_eq. done.
Qed.
End Reach.

(** ** Threads *)
Definition running (st : radars) (t : thread) : Prop :=
  match t with
  | sweep_thread key => key ∈ sweep_active st
  | keepalive_thread key => key ∈ keepalive_active st
  end.

(** The entry a thread looks up in each round. *)
Definition has_entry (st : radars) (t : thread) : Prop :=
  match t with
  | sweep_thread key => is_Some (sweeps st !! key)
  | keepalive_thread key => is_Some (keepalive st !! key)
  end.

Definition fed (st : radars) : Prop := forall t, running st t -> has_entry st t.

(** A step of the handler keeps the running threads fed, and starts no thread
    that runs. *)
Definition starts_ok (st : radars) (r : radars * exc (list sample * list thread)) : Prop :=
  fed (fst r) /\ (forall t, running st t -> running (fst r) t) /\
  forall out starts, snd r = Ok (out, starts) ->
    NoDup starts /\ forall t, t ∈ starts -> ~ running st t /\ running (fst r) t.

Section Threads.
Context `{Libm}.
Variables (default_site : option (float * float)) (radar_name : option string).
Variables (configured_range_m : float) (passive : bool) (civil : list string) (root : string).
Abbreviation message := (on_message default_site radar_name configured_range_m passive civil root).
Abbreviation marker := (on_north_marker radar_name passive civil root).
Abbreviation handler := (_cat34_handler default_site radar_name configured_range_m passive civil root).
Abbreviation messages := (feed default_site radar_name configured_range_m passive civil root).

(** Operations that touch neither the threads nor what feeds them. *)
Definition same_threads (st st' : radars) : Prop :=
  sweep_active st' = sweep_active st /\ keepalive_active st' = keepalive_active st /\
  (forall key, is_Some (sweeps st !! key) -> is_Some (sweeps st' !! key)) /\ keepalive st' = keepalive st.

Lemma same_threads_ok st st' r : fed st -> same_threads st st' ->
  match r with Ok (_, []) | Raise _ => True | _ => False end -> starts_ok st (st', r).
Proof.
  intros Hf (E1 & E2 & E3 & E4) Hr. split_and!; cbn [fst snd].
  - intros [key|key]; cbn; [rewrite E1; intros Hk; apply E3, (Hf (sweep_thread key) Hk)|].
    rewrite E2, E4. exact (Hf (keepalive_thread key)).
  - intros [key|key]; cbn; by rewrite ?E1, ?E2.
  - intros out starts ->. destruct starts; [|done]. split; [apply NoDup_nil_2|]. by intros t ?%not_elem_of_nil.
Qed.

Lemma learn_same msg key st : same_threads st (learn_site msg key st).
Proof. unfold learn_site. by destruct (announced msg). Qed.
Lemma keep_same key r st : same_threads st (keep_range key r st).
Proof. by destruct r as [[]|]. Qed.
Lemma sector_same now msg key st : same_threads st (on_sector_crossing now msg key st).
Proof.
  unfold on_sector_crossing. destruct (sweeps st !! key) as [s|] eqn:E; [|done].
  destruct (ftruth _); [|done]. split_and!; try done. intros k Hk. cbn [sweeps].
  destruct (decide (k = key)) as [->|Hn]; [rewrite lookup_insert_eq; eauto|by rewrite lookup_insert_ne].
Qed.
Lemma same_trans a b c : same_threads a b -> same_threads b c -> same_threads a c.
Proof. intros (?&?&?&?) (?&?&?&?). split_and!; try congruence. eauto. Qed.

Lemma starts_of key (a b : bool) :
  let starts := (if a then [] else [sweep_thread key]) ++ (if b then [] else [keepalive_thread key]) in
  NoDup starts /\
  forall t, t ∈ starts -> t = sweep_thread key /\ a = false \/ t = keepalive_thread key /\ b = false.
Proof.
  assert (forall t u : thread, t ∈ [u] -> t = u) as H1 by (intros t u Ht; by apply list_elem_of_singleton in Ht).
  destruct a, b; cbn [List.app].
  - split; [apply NoDup_nil_2|]. intros t Ht. destruct (not_elem_of_nil _ Ht).
  - split; [apply NoDup_singleton|]. intros t ->%H1. by right.
  - split; [apply NoDup_singleton|]. intros t ->%H1. by left.
  - split.
    + apply NoDup_cons. split; [|apply NoDup_singleton]. by intros ?%H1.
    + intros t [->| ->%H1]%elem_of_cons; [by left|by right].
Qed.

Lemma marker_starts now msg key lat lon st st0 :
  fed st -> same_threads st st0 -> starts_ok st (marker now msg key lat lon st0).
Proof.
  intros Hf Hs. pose proof Hs as (E1 & E2 & E3 & E4). unfold on_north_marker. cbv zeta. cbn [pos_hist].
  destruct (motion _ _ _ _) as [[speed heading]|e]; [|by apply same_threads_ok].
  split_and!; cbn [fst snd].
  - intros [k|k]; cbn; rewrite elem_of_union, elem_of_singleton; intros [->|Hk]; rewrite ?lookup_insert_eq; eauto.
    + destruct (decide (k = key)) as [->|Hn]; [rewrite lookup_insert_eq; eauto|rewrite lookup_insert_ne by done].
      rewrite E1 in Hk. apply E3, (Hf (sweep_thread k) Hk).
    + destruct (decide (k = key)) as [->|Hn]; [rewrite lookup_insert_eq; eauto|rewrite lookup_insert_ne by done].
      rewrite E2 in Hk. rewrite E4. apply (Hf (keepalive_thread k) Hk).
  - intros [k|k]; cbn; rewrite ?E1, ?E2; apply elem_of_union_r.
  - intros out starts [= <- <-]. cbn [sweep_active keepalive_active]. rewrite E1, E2.
    destruct (starts_of key (bool_decide (key ∈ sweep_active st)) (bool_decide (key ∈ keepalive_active st))) as [Hn Ht].
    split; [exact Hn|]. intros t [[-> Hb%bool_decide_eq_false_1]|[-> Hb%bool_decide_eq_false_1]]%Ht; cbn;
      (split; [exact Hb|by apply elem_of_union_l, elem_of_singleton]).
Qed.

Lemma handler_starts now data st : fed st -> starts_ok st (handler now data st).
Proof.
  intros Hf. unfold _cat34_handler.
  destruct (_cat34_decode_cat034 data) as [[msg|]|e]; [|by apply same_threads_ok..].
  unfold on_message. cbv zeta. pose proof (learn_same msg (radar_key msg) st) as Hl.
  destruct (match sites _ !! _ with Some s => Some s | None => default_site end) as [[lat lon]|];
    [|by apply same_threads_ok].
  destruct (_cat34__coverage_range_m _ _) as [range|e]; [|by apply same_threads_ok].
  pose proof (same_trans _ _ _ Hl (keep_same (radar_key msg) range _)) as Hk.
  destruct (dget msg "msg_type") as [[]|]; try by apply same_threads_ok.
  destruct (String.eqb _ "north_marker"); [by apply marker_starts|].
  destruct (String.eqb _ "sector_crossing"); [|by apply same_threads_ok].
  apply same_threads_ok; [done| |done]. eapply same_trans; [exact Hk|apply sector_same].
Qed.

(** The threads a feed starts. *)
Definition started (rs : list (bytes * exc (list sample * list thread))) : list thread :=
  flat_map (fun r => match snd r with Ok (_, starts) => starts | Raise _ => [] end) rs.

Lemma feed_starts ms st : fed st ->
  fed (fst (messages ms st)) /\ (forall t, running st t -> running (fst (messages ms st)) t) /\
  NoDup (started (snd (messages ms st))) /\
  forall t, t ∈ started (snd (messages ms st)) -> ~ running st t /\ running (fst (messages ms st)) t.
Proof.
  revert st. induction ms as [|[now data] ms IH]; intros st Hf; cbn [feed].
  { split_and!; [done..|apply NoDup_nil_2|]. by intros t ?%not_elem_of_nil. }
  pose proof (handler_starts now data st Hf) as (Hf1 & Hr1 & Hs1).
  destruct (handler now data st) as [st1 r]. cbn [fst snd] in *. specialize (IH st1 Hf1).
  destruct (messages ms st1) as [st2 rs]. cbn [fst snd] in *. destruct IH as (Hf2 & Hr2 & Hn2 & Hs2).
  cbn [started flat_map snd]. fold (started rs).
  assert (NoDup (match r with Ok (_, starts) => starts | Raise _ => [] end) /\
          forall t, t ∈ match r with Ok (_, starts) => starts | Raise _ => [] end -> ~ running st t /\ running st1 t)
    as [Hn Hs].
  { destruct r as [[out starts]|e]; [by apply (Hs1 out)|]. split; [apply NoDup_nil_2|]. by intros t ?%not_elem_of_nil. }
  split_and!; [done|auto| |].
  - apply NoDup_app. split_and!; [done| |done]. intros t Ht Ht'. destruct (Hs2 t Ht') as [Hno _]. by apply Hno, Hs.
  - intros t [Ht|Ht]%elem_of_app; [destruct (Hs t Ht); auto|]. destruct (Hs2 t Ht) as [Hno Hyes]. auto.
Qed.

(** However many messages of however many radars arrive, each radar gets at
    most one sweep thread and one keepalive thread, and no round of a thread that
    was started finds its entry gone: a thread never ends, which is why it is
    never started again. *)
Theorem threads_start_once ms t0 t1 t2 :
  let '(st, rs) := messages ms no_radars in
  NoDup (started rs) /\
  forall key, (sweep_thread key ∈ started rs -> sweep_round civil root key t0 t1 t2 st <> None) /\
              (keepalive_thread key ∈ started rs -> keepalive_round civil root key t0 st <> None).
Proof.
  assert (fed no_radars) as Hf by (intros [key|key]; cbn; set_solver).
  destruct (feed_starts ms no_radars Hf) as (Hf' & _ & Hn & Hs).
  destruct (messages ms no_radars) as [st rs]. cbn [fst snd] in *. split; [done|]. intros key. split; intros Ht.
  - destruct (Hf' _ (proj2 (Hs _ Ht))) as [b Hb]. unfold sweep_round. by rewrite Hb.
  - destruct (Hf' _ (proj2 (Hs _ Ht))) as [b Hb]. unfold keepalive_round. by rewrite Hb.
Qed.
End Threads.

(** The protobuf message holds neither the motion of a radar, nor its clock, nor
    its message counts: it declares them strings. *)
Lemma status_fields_lost x counts :
  field_ok AsterixCat34Status "speed_ms" (VFloat x) = false /\
  field_ok AsterixCat34Status "heading_deg" (VFloat x) = false /\
  field_ok AsterixCat34Status "radar_clock_s" (VFloat x) = false /\
  field_ok AsterixCat34Status "msg_counts" (VDict counts) = false.
Proof. by split_and!. Qed.

(** A north marker of radar 25/10 with its position, and a plot of that radar. *)
Definition sample034 : bytes :=
  of_ints [0xC1; 0x10; 0x19; 0x0A; 0x01; 0x00; 0x64; 0x26; 0x66; 0x66; 0x11; 0xC7; 0x1C].
Definition sample_plot : dict :=
  [("sac", VInt 25); ("sic", VInt 10); ("range_nm", VFloat (fl 20)); ("azimuth_deg", VFloat (fl 90))].
Definition sample_run : radars * exc (list sample * list thread) :=
  @_cat34_handler small_angle_libm None None (fl 0) false [] "efdi" (fl 100) sample034 no_radars.
Definition sample_status : string * dict :=
  match snd sample_run with Ok ([s], _) => s | _ => ("", []) end.

Lemma site_reaches_plots_witness :
  TrackViews.split (view_key (semantic_topic (fun _ => "") (fst sample_status) (snd sample_status)) "json") =
    ["efdi"; "land"; "025-010"; "radar"; "friendly"; "radar"; "unknown"; "unknown"; "tracks"; "v1"].
Proof.
  apply (@site_reaches_plots small_angle_libm None None (fl 0) false [] "efdi" (fun _ => "") (fl 100) sample034
    no_radars (fst sample_run) (fst sample_status) (snd sample_status)
    [sweep_thread "25-10"; keepalive_thread "25-10"] 25 10 ∅ (None, None) sample_plot (fl 20) (fl 90));
    vm_compute; reflexivity.
Defined.

(** The site it teaches CAT-048, to seven decimals. *)
Example sample_site_learnt :
  site_of (snd sample_status) = Ok (25, 10, dec 539999914 7, dec 249999905 7).
Proof. vm_compute. reflexivity. Qed.
