(* ===== verification/ViewsFacts.v ===== *)
(** * What publication promises

    Theorems about [Views] and [SapientOut]: a located record gets every view
    and none of its fields is lost on the way, what becomes of the others, and
    the identity under which a consumer sees an object. *)

From Stdlib Require Import SpecFloat.
From S2P Require Import Prelude PyFloat PyData Schema Contract AsterixCommon TrackViews PyText PyNum Echoes Views SapientOut Ranges Cursor Records Framing Cat020 Cat021 Cat048.
#[local] Open Scope Z_scope.
#[local] Open Scope py_scope.

(** ** Types that convert *)
Fixpoint numeric (t : ty) : bool :=
  match t with
  | TFloat => true
  | TInt lo hi => (- 2 ^ 1000 <=? lo) && (hi <=? 2 ^ 1000)
  | TEither a b => numeric a && numeric b
  | _ => false
  end.

Lemma numeric_float t v : numeric t = true -> has_ty t v = true -> exists x, float_of v = Ok x.
Proof.
  induction t as [| | |lo hi| | | | | | |a IHa b IHb]; cbn [numeric]; intros Ht Hv; try done;
    try (destruct v; try done; cbn [float_of]; eauto; fail).
  - destruct v; try done. cbn in Hv. cbn [float_of]. unfold float_of_int.
    destruct (Z.ltb_spec (Z.abs n) (2 ^ 1024 - 2 ^ 970)) as [|Hge]; [eauto|].
    assert (2 ^ 1000 < 2 ^ 1024 - 2 ^ 970) by (vm_compute; reflexivity). lia.
  - rewrite has_ty_either in Hv. apply andb_true_iff in Ht as [Ha Hb]. apply orb_true_iff in Hv as [Hv|Hv]; auto.
Qed.

(** The keys of a track that become numbers, and those handed on as they are. *)
Definition number_keys : list string :=
  ["_ts"; "lat_deg"; "lon_deg"; "baro_alt_m"; "alt_baro_ft"; "alt_m"; "geo_alt_m"; "alt_geom_ft"; "ground_speed_kts";
   "track_deg"; "baro_vr_fpm"; "ias_kt"; "detection_confidence"; "confidence"; "speed_ms"; "heading_deg";
   "vertical_rate_ms"].
Definition direct_types : schema :=
  [("callsign", TStr); ("heading_deg", double); ("vertical_rate_ms", double); ("speed_ms", double)].

(** Records of [S] can be published: decided on the schema. *)
Definition publishable (S : schema) : bool :=
  forallb (fun k => match field_ty S k with Some t => numeric t | None => true end) number_keys &&
  forallb (fun kt => match field_ty S (fst kt) with Some t => ty_le t (snd kt) | None => true end) direct_types.

Section Typed.
Context `{Libm} `{ProtobufOk}.
Variable repr : value -> string.
Variables (S : schema) (track : dict).
Hypothesis Hwt : wt S track.
Hypothesis Hpub : publishable S = true.

Lemma field_type k v : dget track k = Some v -> exists t, field_ty S k = Some t /\ has_ty t v = true.
Proof.
  intros Hk. destruct Hwt as [_ Hf]. pose proof (fields_ok_get _ _ _ _ Hf Hk) as Hv.
  unfold field_ok in Hv. destruct (field_ty S k); [eauto|done].
Qed.

Lemma number_of k v : selem k number_keys = true -> dget track k = Some v -> exists x, float_of v = Ok x.
Proof.
  intros Hin Hk. destruct (field_type k v Hk) as (t & Ht & Hv).
  apply andb_true_iff in Hpub as [Hn _]. rewrite forallb_forall in Hn.
  specialize (Hn k ltac:(by apply selem_In)). rewrite Ht in Hn. by eapply numeric_float.
Qed.

Lemma direct_fits k t v :
  field_ty direct_types k = Some t -> dget track k = Some v -> has_ty t v = true.
Proof.
  intros Hd Hk. destruct (field_type k v Hk) as (t' & Ht' & Hv).
  apply andb_true_iff in Hpub as [_ Hn]. rewrite forallb_forall in Hn.
  apply field_ty_In in Hd. specialize (Hn _ Hd). cbn [fst snd] in Hn. rewrite Ht' in Hn. by eapply ty_le_sound.
Qed.

(** A step of the normalized track that does not fail. *)
Definition sets (m : exc dict) : Prop := exists d, m = Ok d.

Lemma set_nt_ok name t v m :
  field_ty (fields NormalizedTrack) name = Some t -> has_ty t v = true -> sets (set_nt name (Ok v) m).
Proof. intros Ht Hv. unfold set_nt, setattr, exc_bind. rewrite Ht. destruct (pb_set_fits _ _ Hv) as (w & -> & _). by eexists. Qed.

Lemma set_if_ok test name v m :
  (test = true -> exists w t, v = Ok w /\ field_ty (fields NormalizedTrack) name = Some t /\ has_ty t w = true) ->
  sets (set_if test name v m).
Proof.
  intros Ht. unfold set_if. destruct test; [|by eexists].
  destruct (Ht eq_refl) as (w & t & -> & Hty & Hw). by eapply set_nt_ok.
Qed.

Lemma plain_float_ok k : selem k number_keys = true -> dmem k track = true -> exists x, plain_float k track = Ok (VFloat x).
Proof.
  intros Hk Hm. unfold plain_float, ditem, dmem in *. destruct (dget track k) as [v|] eqn:E; [|done].
  destruct (number_of k v Hk E) as [x Hx]. cbn. rewrite Hx. by eexists.
Qed.

Lemma scaled_ok k scale : selem k number_keys = true -> dmem k track = true -> exists x, scaled k scale track = Ok (VFloat x).
Proof.
  intros Hk Hm. unfold scaled, ditem, dmem in *. destruct (dget track k) as [v|] eqn:E; [|done].
  destruct (number_of k v Hk E) as [x Hx]. cbn. rewrite Hx. by eexists.
Qed.

Lemma present_dget k : present track k = true -> exists v, dget track k = Some v.
Proof. unfold present, dget_none, dget_or. destruct (dget track k); [eauto|done]. Qed.

(** Apply a step lemma and go on with its result. *)
Ltac step := match goal with
  | |- exists d, (let? _ := ?m in _) = Ok d =>
      let d := fresh "d" in let E := fresh "E" in
      assert (sets m) as [d E]; [|rewrite E; clear E; cbn [exc_bind]]
  end.

Ltac direct_step k :=
  step; [apply set_if_ok; intros Hp; destruct (present_dget k Hp) as [v Hv]; unfold ditem; rewrite Hv;
         eexists v, _; split_and!; [done|reflexivity|by eapply (direct_fits k)]|].

Lemma if_set test name v m : (test = true -> sets (set_nt name v m)) -> sets (set_if test name v m).
Proof. unfold set_if. destruct test; [auto|by eexists]. Qed.

Lemma plain_set k name m :
  dmem k track = true -> selem k number_keys = true -> field_ty (fields NormalizedTrack) name = Some double ->
  sets (set_nt name (plain_float k track) m).
Proof. intros Hk Hn Hd. destruct (plain_float_ok k Hn Hk) as [x ->]. by eapply set_nt_ok. Qed.

Lemma scaled_set k name scale m :
  dmem k track = true -> selem k number_keys = true -> field_ty (fields NormalizedTrack) name = Some double ->
  sets (set_nt name (scaled k scale track) m).
Proof. intros Hk Hn Hd. destruct (scaled_ok k scale Hn Hk) as [x ->]. by eapply set_nt_ok. Qed.

Lemma flag_ok name m : field_ty (fields NormalizedTrack) name = Some TBool ->
  sets (set_if (is_bool (dget_none track name)) name (ditem track name) m).
Proof.
  intros Ht. apply set_if_ok. unfold dget_none, dget_or, ditem. destruct (dget track name) as [v|]; [|done].
  intros Hb. exists v, TBool. by destruct v.
Qed.

Lemma normalized_ok affiliation :
  located track = true -> exists m, normalized_track_message repr track affiliation = Ok m.
Proof.
  intros [Hlat Hlon]%andb_true_iff. unfold normalized_track_message.
  assert (exists ts, float_of (dget_or track "_ts" (VFloat (fl 0))) = Ok ts) as [ts ->].
  { unfold dget_or. destruct (dget track "_ts") as [v|] eqn:E; [by apply (number_of "_ts")|by eexists]. }
  cbn [exc_bind].
  destruct (plain_float_ok "lat_deg" eq_refl Hlat) as [lat ->].
  destruct (plain_float_ok "lon_deg" eq_refl Hlon) as [lon ->]. cbn [exc_bind].
  direct_step "callsign". direct_step "heading_deg". direct_step "vertical_rate_ms". direct_step "speed_ms".
  step; [by apply flag_ok|]. step; [by apply flag_ok|].
  step; [unfold baro_alt; repeat case_match; [by apply plain_set|by apply scaled_set|by apply plain_set|by eexists]|].
  step; [unfold geo_alt; repeat case_match; [by apply plain_set|by apply scaled_set|by eexists]|].
  step; [apply if_set; intros [_ Hp]%andb_true_iff; by apply scaled_set|].
  step; [apply if_set; intros [_ Hp]%andb_true_iff; by apply plain_set|].
  step; [apply if_set; intros [_ Hp]%andb_true_iff; by apply scaled_set|].
  step; [apply if_set; intros Hp; by apply scaled_set|].
  by eexists.
Qed.
End Typed.

(** ** The fields of a typed message *)

(** A field holds what it kept of a value; reading an empty repeated field
    gives an empty list. *)
Definition holds (m : dict) (k : string) (v : value) : Prop :=
  (exists w, dget m k = Some w /\ kept_as w v) \/
  (exists lw l, dget m k = Some (VList lw) /\ v = VList l /\ Forall2 kept_as lw l) \/
  (v = VList [] /\ dget m k = None).

Lemma holds_ext m m' k v : dget m' k = dget m k -> holds m k v -> holds m' k v.
Proof. unfold holds. by intros ->. Qed.

Section Assign.
Context `{ProtobufOk}.
Variable S : schema.

Lemma tolerate_ok {A} (kept : A) r : (forall e, r = Raise e -> field_error e) -> tolerate kept r = Ok kept.
Proof. intros Hr. destruct r as [[]|e]; [done|]. by destruct (Hr e eq_refl) as [->|[->| ->]]. Qed.

Lemma assign_other k v m m' k' : _assign S k v m = Ok m' -> k' <> k -> dget m' k' = dget m k'.
Proof.
  intros Ha Hne. unfold _assign, tolerate in Ha.
  repeat (case_match || simplify_eq); first [done|by apply dget_dset_ne].
Qed.

Lemma assign_ok k v m : exists m', _assign S k v m = Ok m' /\
  forall t, field_ty S k = Some t -> has_ty t v = true -> dget m k = None -> holds m' k v.
Proof.
  unfold _assign. destruct (field_ty S k) as [t|]; [|by eexists].
  assert (forall t0, exists m', match pb_set t0 v with
                     | Ok w => Ok (dset k w m) | Raise e => tolerate m (Raise e) end = Ok m' /\
          (has_ty t0 v = true -> holds m' k v)) as Hscalar.
  { intros t0. destruct (pb_set t0 v) as [w|e] eqn:E.
    - eexists. split; [done|]. intros Hv. destruct (pb_set_fits _ _ Hv) as (w' & E' & Hw). simplify_eq.
      left. assert (w = w') as -> by congruence. exists w'. split; [apply dget_dset_eq|done].
    - rewrite tolerate_ok by (intros ? [= <-]; by eapply pb_set_error). eexists. split; [done|].
      intros Hv. destruct (pb_set_fits _ _ Hv) as (w' & E' & _). congruence. }
  destruct t as [| | | | | | |t'| | |];
    try (edestruct Hscalar as (m' & -> & Hm'); exists m'; split; [done|]; intros t0 [= <-] Hv _; by apply Hm').
  destruct (iterate v) as [l|] eqn:El; [|eexists; split; [done|]; intros t0 [= <-] Hv _; by destruct v].
  destruct (pb_extend t' l) as [kept r] eqn:Ex.
  rewrite tolerate_ok by (intros e ->; apply (pb_extend_error t' l); by rewrite Ex).
  eexists. split; [done|]. intros t0 [= <-] Hv Hm. destruct v as [| | | | |l0|]; try done. cbn in El. simplify_eq.
  destruct (pb_extend_fits t' l Hv) as (l' & El' & Hl'). assert (kept = l') as -> by congruence. rewrite Hm. cbn [app].
  destruct Hl' as [|w v0 lw l Hw Hl]; [by right; right|]. rewrite len_cons. pose proof (len_nonneg lw).
  destruct (Z.eqb_spec (1 + len lw) 0); [lia|]. right. left. exists (w :: lw), (v0 :: l).
  split_and!; [apply dget_dset_eq|done|by constructor].
Qed.

Lemma assign_all_ok items m : NoDup (keys items) -> (forall k, k ∈ keys items -> dget m k = None) ->
  exists m', assign_all S (fun k => k) items m = Ok m' /\
    (forall k, k ∉ keys items -> dget m' k = dget m k) /\
    (forall k v t, In (k, v) items -> is_none v = false -> field_ty S k = Some t -> has_ty t v = true -> holds m' k v).
Proof.
  revert m. induction items as [|[k v] items IH]; intros m Hnd Hm; [by eexists|].
  apply NoDup_cons in Hnd as [Hk Hnd]. cbn [assign_all].
  assert (exists m1, (if is_none v then Ok m else _assign S k v m) = Ok m1 /\
            (forall k', k' <> k -> dget m1 k' = dget m k') /\
            (forall t, is_none v = false -> field_ty S k = Some t -> has_ty t v = true -> holds m1 k v))
    as (m1 & -> & Hother & Hholds).
  { destruct (is_none v); [by eexists|]. destruct (assign_ok k v m) as (m1 & E & Hh). exists m1.
    split_and!; [done|intros k' Hne; by eapply assign_other|]. intros t _ Ht Hv. apply (Hh t Ht Hv), Hm. by left. }
  cbn [exc_bind]. destruct (IH m1 Hnd) as (m' & E & Ho & Hh).
  { intros k' Hk'. rewrite Hother by (by intros ->). apply Hm. by right. }
  exists m'. split_and!; [done| |].
  - intros k' Hk'. cbn in Hk'. apply not_elem_of_cons in Hk' as [Hne Hk']. by rewrite Ho, Hother.
  - intros k' v' t [[= <- <-]|Hin] Hn Ht Hv; [|by eapply Hh].
    apply (holds_ext m1); [by apply Ho|by apply (Hholds t)].
Qed.
End Assign.

(** ** Reports *)

(** The readings of the clock that a report needs are times. *)
Definition draws_ok (d : draws) : Prop :=
  (exists ms, int_of_float (fmul (fst (d_report d)) (fl 1000)) = Ok ms) /\
  (exists ms, int_of_float (fmul (fst (d_object d)) (fl 1000)) = Ok ms).

Lemma clamp_bounds f : fbetween (fl 0) (fmax (fl 0) (fmin (fl 1) f)) (fl 1) = true.
Proof.
  unfold fmax, fmin. destruct (flt f (fl 1)) eqn:E1; [|vm_compute; reflexivity].
  destruct (flt (fl 0) f) eqn:E2; [|vm_compute; reflexivity].
  unfold fbetween, fle, flt in *. unfold SFleb, SFltb in *. by repeat case_match.
Qed.

Section Reports.
Context `{LibmOk} `{ProtobufOk}.
Variables (repr : value -> string) (uuid5 : string -> Z) (node : string).
Variables (S : schema) (track : dict) (d : draws).
Hypothesis Hwt : wt S track.
Hypothesis Hpub : publishable S = true.
Hypothesis Hdraws : draws_ok d.

Lemma number_or_none k : selem k number_keys = true ->
  dget_none track k = VNone \/ exists v, dget_none track k = v /\ is_none v = false /\ exists f, float_of v = Ok f.
Proof.
  intros Hk. unfold dget_none, dget_or. destruct (dget track k) as [v|] eqn:E; [|by left]. right. exists v.
  destruct (number_of S track Hwt Hpub k v Hk E) as [f Hf]. split_and!; [done|by destruct v|eauto].
Qed.

Lemma velocity_total : exists v, velocity_of track = Ok v.
Proof.
  unfold velocity_of.
  destruct (number_or_none "speed_ms" eq_refl) as [->|(s & -> & -> & fs & Hs)]; [by eexists|].
  destruct (number_or_none "heading_deg" eq_refl) as [->|(h & -> & -> & fh & Hh)]; [by eexists|].
  cbn [is_none orb]. rewrite Hs, Hh. cbn [exc_bind].
  destruct (m_sin (radians fh)) as [sn|e] eqn:Es;
    [|apply m_sin_err in Es as ->; by eexists].
  cbn [exc_bind optional]. destruct (m_cos (radians fh)) as [cs|e] eqn:Ec;
    [|apply m_cos_err in Ec as ->; by eexists].
  cbn [exc_bind optional].
  destruct (number_or_none "vertical_rate_ms" eq_refl) as [->|(u & -> & -> & fu & Hu)]; cbn [is_none]; [by eexists|].
  rewrite Hu. by eexists.
Qed.

Lemma fresh_ulid_ok now random ms : int_of_float (fmul now (fl 1000)) = Ok ms -> exists u, fresh_ulid now random = Ok u.
Proof. unfold fresh_ulid. intros ->. by eexists. Qed.

Lemma altitude_total : altitude_of track = VNone \/
  is_none (altitude_of track) = false /\ exists f, float_of (altitude_of track) = Ok f.
Proof.
  unfold altitude_of, dget_none, dget_or.
  repeat match goal with
  | |- context [match dget track ?k with _ => _ end] =>
      destruct (dget track k) as [v|] eqn:?; [right; destruct (number_of S track Hwt Hpub k v eq_refl) as [f Hf];
        [done|]; split; [by destruct v|by eexists]|]
  end. by left.
Qed.

Lemma confidence_total : exists c, confidence_of track = Ok c /\
  match c with Some f => fbetween (fl 0) f (fl 1) = true | None => True end.
Proof.
  unfold confidence_of. set (c := dget_or _ _ _).
  assert (c = VNone \/ is_none c = false /\ exists f, float_of c = Ok f) as [->|(-> & f & ->)].
  { unfold c, dget_none, dget_or.
    repeat match goal with
    | |- context [match dget track ?k with _ => _ end] =>
        destruct (dget track k) as [v|] eqn:?; [right; destruct (number_of S track Hwt Hpub k v eq_refl) as [f Hf];
          [done|]; split; [by destruct v|by eexists]|]
    end. by left. }
  - by eexists.
  - eexists. split; [done|]. apply clamp_bounds.
Qed.

Lemma sapient_ok ns : located track = true -> sapient_time track d = Ok ns ->
  exists r, track_to_sapient repr uuid5 node track d = Ok (Some r) /\
    float_of (dget_none track "lon_deg") = Ok (x r) /\ float_of (dget_none track "lat_deg") = Ok (y r) /\
    _stable_object_id repr uuid5 track d = Ok (object_id r) /\ timestamp_ns r = ns /\
    match detection_confidence r with Some f => fbetween (fl 0) f (fl 1) = true | None => True end.
Proof.
  intros [Hlat Hlon]%andb_true_iff Hns. unfold track_to_sapient.
  destruct (number_or_none "lat_deg" eq_refl) as [E|(la & -> & -> & fla & Hla)].
  { destruct (plain_float_ok S track Hwt Hpub "lat_deg" eq_refl Hlat) as [f Hf]. unfold plain_float, ditem in Hf.
    unfold dget_none, dget_or in E. destruct (dget track "lat_deg"); by simplify_eq/=. }
  destruct (number_or_none "lon_deg" eq_refl) as [E|(lo & -> & -> & flo & Hlo)].
  { destruct (plain_float_ok S track Hwt Hpub "lon_deg" eq_refl Hlon) as [f Hf]. unfold plain_float, ditem in Hf.
    unfold dget_none, dget_or in E. destruct (dget track "lon_deg"); by simplify_eq/=. }
  cbn [orb]. rewrite Hns. cbn [exc_bind]. destruct Hdraws as [[ms1 H1'] [ms2 H2']].
  destruct (fresh_ulid_ok _ (snd (d_report d)) _ H1') as [u1 ->]. cbn [exc_bind].
  assert (exists o, _stable_object_id repr uuid5 track d = Ok o) as [o Ho].
  { unfold _stable_object_id. destruct (String.eqb _ _); [by eapply fresh_ulid_ok|by eexists]. }
  rewrite Ho, Hlo, Hla. cbn [exc_bind].
  destruct confidence_total as (c & Hc & Hb). destruct velocity_total as [v Hv].
  destruct altitude_total as [->|(-> & a & ->)]; cbn [is_none exc_bind]; rewrite Hc, Hv; cbn [exc_bind];
    eexists; split_and!; try reflexivity; done.
Qed.
End Reports.

(** ** Every view *)

(** The three views of a track under a key: the report has its position, and
    the typed message every scalar of the track, [skip] apart. *)
Definition delivered `{Libm} (repr : value -> string) (uuid5 : string -> Z) (cls : descriptor) (skip : list string)
    (track : dict) (d : draws) (key : string) (out : list (string * body)) : Prop :=
  exists r m payload,
    out = [(view_key key "sapient", BSapient r); (view_key key "json", BJson track ("json:" +:+ full_name cls));
           (view_key key "proto", BProto m payload)] /\
    float_of (dget_none track "lon_deg") = Ok (x r) /\ float_of (dget_none track "lat_deg") = Ok (y r) /\
    _stable_object_id repr uuid5 track d = Ok (object_id r) /\
    match detection_confidence r with Some f => fbetween (fl 0) f (fl 1) = true | None => True end /\
    forall k v, dget track k = Some v -> selem k skip = false ->
      is_none v = true \/ nested v = true \/ holds (m_fields m) k v.

Section Delivery.
Context `{LibmOk} `{ProtobufOk}.
Variables (repr : value -> string) (uuid5 : string -> Z) (node : string).

Lemma typed_message_ok S cls wrapper skip track :
  wt S track -> publishable S = true -> located track = true ->
  nested_field cls = Some wrapper -> field_ty (fields cls) wrapper = None ->
  conforms (fields cls) skip track = true ->
  exists m payload, typed_message repr cls wrapper track = Ok (m, payload) /\
    forall k v, dget track k = Some v -> selem k skip = false ->
      is_none v = true \/ nested v = true \/ holds (m_fields m) k v.
Proof.
  intros Hwt Hpub Hloc Hcls Hw Hc. unfold typed_message. rewrite bool_decide_eq_true_2 by done.
  unfold wrapped_track_message.
  edestruct (normalized_ok repr S track Hwt Hpub) as [nt ->]; [done|]. cbn [exc_bind].
  set (items := List.filter _ track).
  assert (forall k v, In (k, v) items <-> In (k, v) track /\ k <> wrapper) as Hitems.
  { intros k v. unfold items. rewrite filter_In. cbn [fst]. by rewrite negb_true_iff, String.eqb_neq. }
  destruct (assign_all_ok (fields cls) items [(wrapper, VDict nt)]) as (m & -> & _ & Hholds).
  { destruct Hwt as [Hn _]. unfold items, keys in *. clear -Hn. induction track as [|[k v] t IH]; cbn; [constructor|].
    cbn in Hn. apply NoDup_cons in Hn as [Hk Hn]. destruct (negb _); cbn; [|auto]. constructor; [|auto].
    rewrite list_elem_of_In, in_map_iff in *. intros ((k' & v') & Hkk & Hin). apply Hk.
    exists (k', v'). apply filter_In in Hin as [Hin _]. auto. }
  { intros k Hk. unfold keys in Hk. rewrite list_elem_of_In, in_map_iff in Hk.
    destruct Hk as ((k' & v) & <- & [_ Hne]%Hitems). cbn.
    by destruct (String.eqb_spec wrapper k') as [->|]. }
  cbn [exc_bind]. destruct (pb_serialize_total {| m_name := full_name cls; m_fields := m |}) as [payload ->].
  exists {| m_name := full_name cls; m_fields := m |}, payload. split; [done|]. cbn [m_fields].
  intros k v Hk Hs. unfold conforms in Hc. rewrite forallb_forall in Hc.
  specialize (Hc (k, v) ltac:(by apply dget_In)). cbn [fst snd] in Hc. rewrite Hs in Hc. cbn [orb] in Hc.
  destruct (is_none v) eqn:Hnone; [by left|right].
  destruct (field_ty (fields cls) k) as [t|] eqn:Ht; [right|by left].
  apply (Hholds k v t); [|done|done|done].
  apply Hitems. split; [by apply dget_In|]. intros ->. congruence.
Qed.

Lemma publish_dual_delivers S cls wrapper skip topic track d :
  wt S track -> publishable S = true -> located track = true ->
  nested_field cls = Some wrapper -> field_ty (fields cls) wrapper = None ->
  conforms (fields cls) skip track = true -> draws_ok d -> (exists ns, sapient_time track d = Ok ns) ->
  delivered repr uuid5 cls skip track d (semantic_topic repr topic track)
    (publish_dual repr uuid5 node topic track cls wrapper d).
Proof.
  intros Hwt Hpub Hloc Hcls Hw Hc Hd [ns Hns]. unfold publish_dual, publish_views, publish_sapient.
  destruct (sapient_ok repr uuid5 node S track d Hwt Hpub Hd ns Hloc Hns) as (r & -> & Hx & Hy & Ho & _ & Hb).
  destruct (typed_message_ok S cls wrapper skip track Hwt Hpub Hloc Hcls Hw Hc) as (m & payload & -> & Hh).
  exists r, m, payload. done.
Qed.
End Delivery.

Definition cat_class (name : string) (S : schema) : descriptor :=
  {| full_name := "efdi.protocols.v2." +:+ name; fields := S; nested_field := Some "track" |}.

Lemma stream_ok_dual repr category profile topic decode locate dropped S message data p out r :
  stream_ok repr category profile topic decode locate dropped S message data p out r ->
  Forall (fun pub => match pub with
                     | Dual _ track => wt S track /\ conforms message (normalized_keys ++ dropped) track = true /\
                                       located track = true
                     | Native _ _ _ => True
                     end) out.
Proof.
  induction 1 as [p|p e|p p' read e|p p' read out r Hp Hr Hn Hs IH|p p' read track block out r Hp Hr Hn Hl Hwt Hc Hb Hs IH]; [constructor..|done|].
  apply Forall_app. split; [|by constructor]. destruct (located track) eqn:E; [by apply Forall_singleton|constructor].
Qed.

(** Publishing a handler's records delivers each of them. *)
Definition all_delivered `{Libm} `{Protobuf} repr uuid5 node cls dropped d (pubs : list publication) : Prop :=
  Forall (fun pub =>
    match pub with
    | Dual topic track =>
        (exists ns, sapient_time track d = Ok ns) ->
        delivered repr uuid5 cls (normalized_keys ++ dropped) track d (semantic_topic repr topic track)
          (publish_dual repr uuid5 node topic track cls "track" d)
    | Native _ _ _ => True
    end) pubs.

Lemma stream_delivered `{LibmOk} `{ProtobufOk} repr uuid5 node category profile topic decode locate dropped S name message data p out r d :
  publishable S = true -> field_ty message "track" = None -> draws_ok d ->
  stream_ok repr category profile topic decode locate dropped S message data p out r ->
  all_delivered repr uuid5 node (cat_class name message) dropped d out.
Proof.
  intros Hpub Hm Hd Hs. apply stream_ok_dual in Hs. eapply Forall_impl; [exact Hs|].
  intros [key track|]; [|done]. intros (Hwt & Hc & Hl) Hns.
  by apply (publish_dual_delivers repr uuid5 node S (cat_class name message) "track").
Qed.

(** C4: every located record that the CAT-020, CAT-021 and CAT-048 handlers
    publish, whatever the octets, reaches its consumers in three views on three
    keys: a SAPIENT report at its position, under its identity and with a
    confidence within [0, 1]; the JSON record itself; and the typed protobuf
    message, whose construction never fails and which holds every scalar of the
    record that is not None, except the fields whose declared type does not fit. *)
Theorem records_get_every_view `{LibmOk} `{ProtobufOk} repr uuid5 node root clock radar_lat radar_lon sites data d :
  len data <= 0xFFFF - 3 -> draws_ok d ->
  all_delivered repr uuid5 node (cat_class "AsterixCat48Track" AsterixCat48Track) dropped048 d
    (fst (_cat48_handler radar_lat radar_lon repr root clock sites data)) /\
  all_delivered repr uuid5 node (cat_class "AsterixCat20Track" AsterixCat20Track) dropped020 d
    (fst (_cat20_handler repr root clock data)) /\
  all_delivered repr uuid5 node (cat_class "AsterixCat21Track" AsterixCat21Track) dropped021 d
    (fst (_cat21_handler repr root clock data)).
Proof.
  intros Hl Hd. split_and!.
  - pose proof (handle048_ok radar_lat radar_lon repr root clock sites data Hl) as Hs. destruct (_cat48_handler _ _ _ _ _ _ _) as [out r].
    eapply (stream_delivered repr uuid5 node 48 _ _ _ _ _ cat048_schema); [vm_compute; reflexivity|reflexivity|done|exact (proj1 Hs)].
  - pose proof (cat020_handler_stream repr root clock data Hl) as Hs. destruct (_cat20_handler _ _ _ _) as [out r].
    eapply (stream_delivered repr uuid5 node 20 _ _ _ _ _ cat020_schema); [vm_compute; reflexivity|reflexivity|done|exact (proj1 Hs)].
  - pose proof (cat021_handler_stream repr root clock data Hl) as Hs. destruct (_cat21_handler _ _ _ _) as [out r].
    eapply (stream_delivered repr uuid5 node 21 _ _ _ _ _ cat021_schema); [vm_compute; reflexivity|reflexivity|done|exact (proj1 Hs)].
Qed.

Definition sample_draws : draws := {| d_now := fl 7; d_report := (fl 7, 5); d_object := (fl 7, 6) |}.

Lemma records_get_every_view_witness :
  draws_ok sample_draws /\
  existsb (fun pub => match pub with Dual _ _ => true | Native _ _ _ => false end)
    (fst (@_cat20_handler small_angle_libm (fun _ => "") "efdi" (fun _ => fl 7) sample020)) = true /\
  @all_delivered small_angle_libm plain_protobuf (fun _ => "") (fun _ => 0) "node"
    (cat_class "AsterixCat20Track" AsterixCat20Track) dropped020 sample_draws
    (fst (@_cat20_handler small_angle_libm (fun _ => "") "efdi" (fun _ => fl 7) sample020)).
Proof.
  assert (draws_ok sample_draws) as Hd by (split; eexists; vm_compute; reflexivity).
  split; [exact Hd|]. split; [vm_compute; reflexivity|].
  apply (@records_get_every_view small_angle_libm small_angle_libm_ok plain_protobuf plain_protobuf_ok (fun _ => "")
           (fun _ => 0) "node" "efdi" (fun _ => fl 7) None None ∅ sample020 sample_draws);
    [vm_compute; discriminate|exact Hd].
Defined.

(** ** Identities *)

(** The number that a string of the alphabet encodes. *)
Fixpoint position (c : ascii) (s : string) : Z :=
  match s with
  | EmptyString => 0
  | String c' s' => if Ascii.eqb c c' then 0 else 1 + position c s'
  end.
Fixpoint ulid_value (s : string) (acc : Z) : Z :=
  match s with
  | EmptyString => acc
  | String c s' => ulid_value s' (Z.shiftl acc 5 + position c _CROCKFORD)
  end.

Lemma crockford_position n : 0 <= n < 32 -> position (crockford n) _CROCKFORD = n.
Proof.
  intros Hn. assert (forallb (fun k => position (crockford (Z.of_nat k)) _CROCKFORD =? Z.of_nat k) (seq 0 32) = true)
    as Hall by (vm_compute; reflexivity).
  rewrite forallb_forall in Hall. specialize (Hall (Z.to_nat n)).
  rewrite Z2Nat.id in Hall by lia. apply Z.eqb_eq, Hall, in_seq. lia.
Qed.

Lemma ulid_chars_value n v acc : 0 <= v < 2 ^ (5 * Z.of_nat n) -> forall a,
  ulid_value (ulid_chars n v acc) a = ulid_value acc (Z.shiftl a (5 * Z.of_nat n) + v).
Proof.
  revert v acc. induction n as [|n IH]; intros v acc Hv a; cbn [ulid_chars].
  - change (2 ^ (5 * Z.of_nat 0)) with 1 in Hv. f_equal. change (5 * Z.of_nat 0) with 0. rewrite Z.shiftl_0_r. lia.
  - replace (5 * Z.of_nat (S n)) with (5 * Z.of_nat n + 5) in * by lia.
    rewrite Z.pow_add_r in Hv by lia. change (2 ^ 5) with 32 in Hv.
    assert (0 <= Z.shiftr v 5 < 2 ^ (5 * Z.of_nat n)) as Hs.
    { rewrite Z.shiftr_div_pow2 by lia. change (2 ^ 5) with 32. split; [apply Z.div_pos; lia|].
      apply Z.div_lt_upper_bound; lia. }
    rewrite IH by done. cbn [ulid_value]. f_equal.
    change 31 with (Z.ones 5). rewrite Z.land_ones by lia.
    rewrite crockford_position by (apply Z.mod_pos_bound; lia).
    rewrite <- Z.shiftl_shiftl, !Z.shiftl_mul_pow2, Z.shiftr_div_pow2 by lia. change (2 ^ 5) with 32.
    pose proof (Z.div_mod v 32 ltac:(lia)). nia.
Qed.

Lemma ulid_roundtrip v : ulid_value (_ulid v) 0 = v mod 2 ^ 128.
Proof.
  unfold _ulid. change (Z.shiftl 1 128 - 1) with (Z.ones 128). rewrite Z.land_ones by lia.
  pose proof (Z.mod_pos_bound v (2 ^ 128) ltac:(lia)).
  rewrite ulid_chars_value; [cbn [ulid_value]; rewrite Z.shiftl_0_l; lia|]. split; [lia|]. eapply Z.lt_trans; [apply H|]. vm_compute. reflexivity.
Qed.

Lemma length_ulid_chars n v acc : String.length (ulid_chars n v acc) = (n + String.length acc)%nat.
Proof. revert v acc. induction n as [|n IH]; intros v acc; cbn [ulid_chars]; [done|]. rewrite IH. cbn. lia. Qed.

(** A consumer's object identity is a function of the track's identity
    alone, the same in every report of the object and whenever it is made; it
    is a ULID of 26 characters, and two objects share one only when the 128-bit
    hashes of their identities agree. *)
Theorem object_id_exact `{Libm} repr uuid5 track1 track2 d1 d2 id1 id2 :
  identity repr track1 <> "" -> identity repr track2 <> "" ->
  _stable_object_id repr uuid5 track1 d1 = Ok id1 -> _stable_object_id repr uuid5 track2 d2 = Ok id2 ->
  String.length id1 = 26%nat /\
  (identity repr track1 = identity repr track2 -> id1 = id2) /\
  (id1 = id2 <-> uuid5 (identity repr track1) mod 2 ^ 128 = uuid5 (identity repr track2) mod 2 ^ 128).
Proof.
  unfold _stable_object_id. intros Hn1%String.eqb_neq Hn2%String.eqb_neq. rewrite Hn1, Hn2. intros [= <-] [= <-].
  split; [unfold _ulid; by rewrite length_ulid_chars|]. split; [by intros ->|]. split.
  - intros Heq. rewrite <- !ulid_roundtrip. by rewrite Heq.
  - intros Heq. unfold _ulid. change (Z.shiftl 1 128 - 1) with (Z.ones 128). by rewrite !Z.land_ones, Heq by lia.
Qed.

Lemma object_id_exact_witness :
  let id n := _stable_object_id (fun _ => "") (fun s => Z.of_nat (String.length s)) [("icao24", VStr n)] sample_draws in
  id "48a5c6" = Ok "00000000000000000000000006" /\
  String.length "00000000000000000000000006" = 26%nat.
Proof.
  intros id. assert (id "48a5c6" = Ok "00000000000000000000000006") as E by (vm_compute; reflexivity).
  split; [exact E|].
  exact (proj1 (@object_id_exact small_angle_libm (fun _ => "") (fun s => Z.of_nat (String.length s))
    [("icao24", VStr "48a5c6")] [("icao24", VStr "48a5c6")] sample_draws sample_draws _ _
    ltac:(vm_compute; discriminate) ltac:(vm_compute; discriminate) E E)).
Defined.

(** ** Lost views *)
Section Lost.
Context `{Libm} `{ProtobufOk}.
Variables (repr : value -> string) (uuid5 : string -> Z) (node : string).

Definition fails {A} (m : exc A) : Prop := exists e, m = Raise e.

Lemma bind_fails {A B} (m : exc A) (k : A -> exc B) : (forall a, m = Ok a -> fails (k a)) -> fails (let? a := m in k a).
Proof. intros Hk. destruct m as [a|e]; cbn; [by apply Hk|by eexists]. Qed.

Lemma bind_fails_first {A B} (m : exc A) (k : A -> exc B) : fails m -> fails (let? a := m in k a).
Proof. intros [e ->]. by eexists. Qed.

Lemma typed_fails cls wrapper track :
  nested_field cls = Some wrapper -> (forall affiliation, fails (normalized_track_message repr track affiliation)) ->
  fails (typed_message repr cls wrapper track).
Proof.
  intros Hw Hn. unfold typed_message. rewrite bool_decide_eq_true_2 by done. apply bind_fails_first.
  unfold wrapped_track_message. by apply bind_fails_first.
Qed.

Lemma no_position_fails track affiliation :
  dget track "lat_deg" = None \/ dget track "lon_deg" = None -> fails (normalized_track_message repr track affiliation).
Proof.
  intros Hp. unfold normalized_track_message. apply bind_fails. intros ts _.
  destruct Hp as [Hp|Hp]; [|apply bind_fails; intros lat _]; apply bind_fails_first; unfold plain_float, ditem;
    rewrite Hp; by eexists.
Qed.

Lemma bad_callsign_fails track v affiliation :
  dget track "callsign" = Some v -> is_none v = false -> has_ty TStr v = false ->
  fails (normalized_track_message repr track affiliation).
Proof.
  intros Hv Hn Hs. unfold normalized_track_message. do 3 (apply bind_fails; intros ? _). apply bind_fails_first.
  unfold set_if, present, dget_none, dget_or, ditem. rewrite Hv, Hn. cbn [negb]. unfold set_nt. cbn [exc_bind].
  unfold setattr. change (field_ty (fields NormalizedTrack) "callsign") with (Some TStr).
  cbv beta iota. rewrite (pb_set_string v Hs). by eexists.
Qed.
End Lost.

(** a track without a position is published as JSON alone, in every
    category; and one field of the wrong type, a call sign that is no string,
    costs the typed message as a whole, however well its other fields fit. *)
Theorem typed_view_lost `{Libm} `{ProtobufOk} repr uuid5 node topic track cls wrapper d :
  nested_field cls = Some wrapper ->
  let key := semantic_topic repr topic track in
  let json := (view_key key "json", BJson track ("json:" +:+ full_name cls)) in
  let out := publish_dual repr uuid5 node topic track cls wrapper d in
  (dget track "lat_deg" = None \/ dget track "lon_deg" = None -> out = [json]) /\
  (forall v, dget track "callsign" = Some v -> is_none v = false -> has_ty TStr v = false ->
     out = publish_sapient repr uuid5 node key track d ++ [json]).
Proof.
  intros Hw key json out. unfold out, publish_dual, publish_views. fold key. split.
  - intros Hp. destruct (typed_fails repr cls wrapper track Hw) as [e ->].
    { intros aff. by apply no_position_fails. }
    unfold publish_sapient, track_to_sapient, dget_none, dget_or.
    destruct Hp as [-> | ->]; [done|]. by rewrite orb_true_r.
  - intros v Hv Hn Hs. destruct (typed_fails repr cls wrapper track Hw) as [e ->]; [|done].
    intros aff. by eapply bad_callsign_fails.
Qed.

Lemma typed_view_lost_witness :
  let cls := {| full_name := "efdi.protocols.v2.AsterixCat2Status"; fields := AsterixCat2Status;
                nested_field := Some "sensor" |} in
  let bad := [("lat_deg", VInt 54); ("lon_deg", VInt 25); ("callsign", VInt 7)] in
  let out track := @publish_dual small_angle_libm plain_protobuf (fun _ => "") (fun _ => 0) "node" "a/b" track cls "sensor"
                     sample_draws in
  map fst (out [("sac", VInt 25)]) = ["a/b/unknown/unknown/tracks/v1"] /\
  map fst (out bad) = ["a/b/unknown/7/sapient/tracks/v1"; "a/b/unknown/7/tracks/v1"].
Proof.
  intros cls bad out.
  pose proof (proj1 (@typed_view_lost small_angle_libm plain_protobuf plain_protobuf_ok (fun _ => "") (fun _ => 0) "node"
    "a/b" [("sac", VInt 25)] cls "sensor" sample_draws eq_refl) ltac:(by left)) as H1.
  pose proof (proj2 (@typed_view_lost small_angle_libm plain_protobuf plain_protobuf_ok (fun _ => "") (fun _ => 0) "node"
    "a/b" bad cls "sensor" sample_draws eq_refl) (VInt 7) eq_refl eq_refl eq_refl) as H2.
  unfold out. rewrite H1, H2. split; vm_compute; reflexivity.
Defined.
