(* ===== verification/LinkFacts.v ===== *)
(** * What a SAPIENT connection promises

    The frames of a stream are those its octets are the encoding of, however
    the network cuts them; raw samples are put together the same way; and what
    a connection publishes of each frame. *)

From Stdlib Require Import SpecFloat.
From stdpp Require Import strings.
From S2P Require Import Prelude PyFloat PyData Schema TrackViews PyText PyNum Wire Sapient.
From S2P Require Import Contract Ranges Cursor Safety AsterixCommon WireFacts SapientFacts.
From S2P Require Import Views SapientOut Framing SapientLink Records Pipeline ViewsFacts.
#[local] Open Scope Z_scope.
#[local] Open Scope py_scope.

(** ** The encoding of a frame *)
Definition framed (f b : bytes) : Prop :=
  0 < len f <= MAX_FRAME_BYTES /\ exists size, pack_le32 (len f) = Ok size /\ b = size ++ f.

(** What octets start with: no whole frame yet, an impossible length, or a
    frame and what follows it. *)
Inductive start := Partial | Invalid | Whole (f rest : bytes).

Definition start_of (b : bytes) : start :=
  if len b <? 4 then Partial else
  let length := int_from_le (slice b 0 4) in
  if (length =? 0) || (MAX_FRAME_BYTES <? length) then Invalid else
  if len b <? length + 4 then Partial else Whole (slice b 4 (4 + length)) (skipn (Z.to_nat (4 + length)) b).

Lemma le32_four a b c d : int_from_le [a; b; c; d] =
  byte_val a + 256 * (byte_val b + 256 * (byte_val c + 256 * byte_val d)).
Proof.
  unfold int_from_le. cbn [rev app]. unfold int_from_bytes. cbn [fold_left]. lia.
Qed.

Lemma pack_le32_ok n : 0 <= n < 2 ^ 32 ->
  exists size, pack_le32 n = Ok size /\ len size = 4 /\ int_from_le size = n.
Proof.
  intros Hn. unfold pack_le32. replace ((0 <=? n) && (n <? 2 ^ 32)) with true by lia.
  eexists. split; [done|].
  destruct (of_ints_cons (Z.land n 255) [Z.land (Z.shiftr n 8) 255; Z.land (Z.shiftr n 16) 255; Z.land (Z.shiftr n 24) 255]) as (a & -> & Ha).
  destruct (of_ints_cons (Z.land (Z.shiftr n 8) 255) [Z.land (Z.shiftr n 16) 255; Z.land (Z.shiftr n 24) 255]) as (b & -> & Hb).
  destruct (of_ints_cons (Z.land (Z.shiftr n 16) 255) [Z.land (Z.shiftr n 24) 255]) as (c & -> & Hc).
  destruct (of_ints_cons (Z.land (Z.shiftr n 24) 255) []) as (e & -> & He).
  split; [done|]. change (of_ints []) with (@nil Byte.byte). rewrite le32_four, Ha, Hb, Hc, He.
  change 255 with (Z.ones 8). rewrite !Z.land_ones, !Z.shiftr_div_pow2 by lia.
  change (2 ^ 8) with 256. change (2 ^ 16) with 65536. change (2 ^ 24) with 16777216.
  rewrite !Z.mod_mod by lia. Z.to_euclidean_division_equations. lia.
Qed.

Lemma four_octets (b : bytes) : len b = 4 -> exists x y z w, b = [x; y; z; w].
Proof.
  destruct b as [|x [|y [|z [|w [|v b]]]]]; rewrite ?len_cons; try (unfold len; cbn; lia). by eauto 8.
Qed.

Lemma le32_inj (a b : bytes) : len a = 4 -> len b = 4 -> int_from_le a = int_from_le b -> a = b.
Proof.
  intros (x & y & z & w & ->)%four_octets (x' & y' & z' & w' & ->)%four_octets. rewrite !le32_four. intros E.
  pose proof (byte_val_range x). pose proof (byte_val_range y). pose proof (byte_val_range z). pose proof (byte_val_range w).
  pose proof (byte_val_range x'). pose proof (byte_val_range y'). pose proof (byte_val_range z'). pose proof (byte_val_range w').
  assert (byte_val x = byte_val x' /\ byte_val y = byte_val y' /\ byte_val z = byte_val z' /\ byte_val w = byte_val w')
    as (->%byte_val_inj & ->%byte_val_inj & ->%byte_val_inj & ->%byte_val_inj) by lia. done.
Qed.

(** Whole frames are encoded frames. *)
Lemma whole_spec b f rest : start_of b = Whole f rest <-> exists e, framed f e /\ b = e ++ rest.
Proof.
  unfold start_of. pose proof (len_nonneg f). split.
  - destruct (Z.ltb_spec (len b) 4) as [|H4]; [done|]. cbv zeta. set (L := int_from_le _).
    assert (len (slice b 0 4) = 4) as Hs by (rewrite len_slice by lia; lia).
    pose proof (int_from_le_range (slice b 0 4) 4 Hs) as HL. fold L in HL.
    destruct (_ || _) eqn:Hbad; [done|]. apply orb_false_iff in Hbad as [H0' Hmax].
    destruct (Z.ltb_spec (len b) (L + 4)) as [|Hl]; [done|]. intros [= <- <-].
    assert (len (slice b 4 (4 + L)) = L) as Hf by (rewrite len_slice by lia; lia).
    exists (slice b 0 4 ++ slice b 4 (4 + L)). split.
    + unfold framed. rewrite Hf. split; [lia|]. exists (slice b 0 4). split; [|done].
      destruct (pack_le32_ok L ltac:(unfold MAX_FRAME_BYTES in *; lia)) as (size & E & Hl4 & Hv).
      rewrite E. f_equal. by apply le32_inj.
    + unfold slice. change (Z.to_nat 0) with 0%nat. cbn [skipn]. change (4 - 0) with 4.
      replace (Z.to_nat (4 + L)) with (Z.to_nat L + Z.to_nat 4)%nat by lia. replace (4 + L - 4) with L by lia.
      rewrite <- skipn_skipn. rewrite <- app_assoc, !firstn_skipn. done.
  - intros (e & (Hf & size & E & ->) & ->).
    destruct (pack_le32_ok (len f) ltac:(unfold MAX_FRAME_BYTES in *; lia)) as (size' & E' & Hl4 & Hv).
    assert (size' = size) as -> by congruence.
    pose proof (len_nonneg rest). rewrite !len_app, Hl4.
    replace (4 + len f + len rest <? 4) with false by lia. cbv zeta.
    assert (slice ((size ++ f) ++ rest) 0 4 = size) as ->.
    { rewrite <- app_assoc. rewrite <- Hl4. apply (slice_middle [] size). }
    rewrite Hv. replace (_ || _) with false by lia. replace (_ <? _) with false by lia. f_equal.
    + rewrite <- app_assoc, <- Hl4. apply slice_middle.
    + rewrite skipn_app. replace (Z.to_nat (4 + len f)) with (length (size ++ f)) by (rewrite length_app; unfold len in *; lia).
      rewrite skipn_all, Nat.sub_diag. done.
Qed.

Lemma start_app_whole a b f rest : start_of a = Whole f rest -> start_of (a ++ b) = Whole f (rest ++ b).
Proof. rewrite !whole_spec. intros (e & Hf & ->). exists e. split; [done|]. by rewrite app_assoc. Qed.

Lemma start_app_invalid a b : start_of a = Invalid -> start_of (a ++ b) = Invalid.
Proof.
  unfold start_of. rewrite len_app. pose proof (len_nonneg b).
  destruct (Z.ltb_spec (len a) 4); [done|]. replace (len a + len b <? 4) with false by lia. cbv zeta.
  assert (slice (a ++ b) 0 4 = slice a 0 4) as ->.
  { unfold slice. change (Z.to_nat 0) with 0%nat. rewrite !drop_0. apply take_app_le. unfold len in *. lia. }
  destruct (_ || _); [done|]. by destruct (_ <? _).
Qed.

Lemma whole_shorter b f rest : start_of b = Whole f rest -> (length rest < length b)%nat.
Proof.
  intros (e & ((Hf & _) & size & _ & ->) & ->)%whole_spec. rewrite !length_app. unfold len in Hf. lia.
Qed.

Lemma start_nonempty b : start_of b <> Partial -> (0 < length b)%nat.
Proof.
  unfold start_of. destruct b; [done|]. intros _. cbn. lia.
Qed.

Lemma start_cases b :
  len b < 4 /\ start_of b = Partial \/
  exists L, 4 <= len b /\ unpack_le32 (slice b 0 4) = Ok L /\ 0 <= L /\
    start_of b = if (L =? 0) || (MAX_FRAME_BYTES <? L) then Invalid else
                 if len b <? L + 4 then Partial else Whole (slice b 4 (4 + L)) (skipn (Z.to_nat (4 + L)) b).
Proof.
  unfold start_of. destruct (Z.ltb_spec (len b) 4) as [|H4]; [by left|right].
  assert (len (slice b 0 4) = 4) as Hs by (rewrite len_slice by lia; lia).
  pose proof (int_from_le_range _ 4 Hs). exists (int_from_le (slice b 0 4)). unfold unpack_le32. rewrite Hs.
  split_and!; [done|done|lia|done].
Qed.

(** ** A stream *)
Definition link_end (rest : bytes) : exn := match start_of rest with Invalid => ValueError | _ => EOFError end.

(** [frames] are the frames that [b] starts with, all of them. *)
Definition link_cut (b : bytes) (frames : list bytes) (rest : bytes) : Prop :=
  (exists es, Forall2 framed frames es /\ b = concat es ++ rest) /\ (forall f rest', start_of rest <> Whole f rest').

Lemma link_cut_unique b frames rest frames' rest' :
  link_cut b frames rest -> link_cut b frames' rest' -> frames = frames' /\ rest = rest'.
Proof.
  intros [(es & Hes & ->) Hr] [(es' & Hes' & E) Hr']. revert es' frames' E Hes'.
  induction Hes as [|f e frames es Hf Hes IH]; intros es' frames' E Hes'; destruct Hes' as [|f' e' frames' es' Hf' Hes'];
    cbn [concat app] in E; rewrite <- ?app_assoc in E; [done| | |].
  - destruct (Hr f' (concat es' ++ rest')). apply whole_spec. eauto.
  - destruct (Hr' f (concat es ++ rest)). apply whole_spec. eauto.
  - assert (start_of (e ++ concat es ++ rest) = Whole f (concat es ++ rest)) as H1 by (apply whole_spec; eauto).
    assert (start_of (e ++ concat es ++ rest) = Whole f' (concat es' ++ rest')) as H2 by (apply whole_spec; eauto).
    rewrite H1 in H2. injection H2 as -> E'. destruct (IH _ _ E' Hes') as [-> ->]. done.
Qed.

Lemma frames_loop_ok fuel s : len (pending s) < Z.of_nat fuel ->
  exists rest, link_cut (pending s) (fst (frames_loop fuel s)) rest /\ snd (frames_loop fuel s) = link_end rest.
Proof.
  revert s. induction fuel as [|fuel IH]; intros s Hf; [pose proof (len_nonneg (pending s)); lia|].
  cbn [frames_loop].
  assert (forall e, start_of (pending s) = Invalid /\ e = ValueError \/ start_of (pending s) = Partial /\ e = EOFError ->
    exists rest, link_cut (pending s) [] rest /\ e = link_end rest) as Hstop.
  { intros e He. exists (pending s). split; [|by unfold link_end; destruct He as [[-> ->]|[-> ->]]].
    split; [exists []; by split|]. by destruct He as [[-> _]|[-> _]]. }
  pose proof (recv_exact_ok s 4 ltac:(lia)) as H4.
  destruct (start_cases (pending s)) as [[Hl Hw]|(L & Hl & Hu & HL & Hw)].
  { destruct (recv_exact s 4) as [[header s1]|e]; [lia|]. destruct H4 as [-> _]. apply Hstop. by right. }
  destruct (recv_exact s 4) as [[header s1]|e]; [|lia]. destruct H4 as (-> & Hs1 & H4). cbn [exc_bind].
  assert (firstn (Z.to_nat 4) (pending s) = slice (pending s) 0 4) as -> by (unfold slice; done).
  rewrite Hu. cbn [exc_bind].
  destruct (_ || _) eqn:Hbad; [apply Hstop; by left|].
  pose proof (recv_exact_ok s1 L ltac:(lia)) as HLs. rewrite Hs1, len_skipn in HLs by lia.
  destruct (recv_exact s1 L) as [[frame s2]|e].
  2: { destruct HLs as [-> HLs]. apply Hstop. right. split; [|done]. rewrite Hw.
       by replace (len (pending s) <? L + 4) with true by lia. }
  destruct HLs as (-> & Hs2 & HLs). clear Hstop.
  replace (len (pending s) <? L + 4) with false in Hw by lia.
  assert (pending s2 = skipn (Z.to_nat (4 + L)) (pending s)) as Hp.
  { rewrite Hs2, skipn_skipn. f_equal. lia. }
  assert (firstn (Z.to_nat L) (skipn (Z.to_nat 4) (pending s)) = slice (pending s) 4 (4 + L)) as ->.
  { unfold slice. by replace (4 + L - 4) with L by lia. }
  pose proof (whole_shorter _ _ _ Hw) as Hlt. rewrite <- Hp in Hw, Hlt.
  destruct (IH s2) as (rest & [(es & Hes & E) Hr] & He); [unfold len in *; lia|].
  destruct (frames_loop fuel s2) as [frames e]. cbn [fst snd] in *. exists rest. split; [|done]. split; [|done].
  apply whole_spec in Hw as (e1 & Hf1 & E1). exists (e1 :: es). split; [by constructor|]. cbn [concat].
  by rewrite <- app_assoc, <- E.
Qed.

(** A SAPIENT stream yields exactly the frames its octets are the encoding
    of, one after another and however the network cuts them, each of 1 to
    1 MiB; it ends with ValueError at an impossible length and with EOFError
    otherwise. *)
Lemma link_frames_exact s frames e :
  iter_frames s = (frames, e) <-> exists rest, link_cut (pending s) frames rest /\ e = link_end rest.
Proof.
  unfold iter_frames. destruct (frames_loop_ok (S (length (pending s))) s) as (rest & Hc & He); [unfold len; lia|].
  destruct (frames_loop _ s) as [frames0 e0]. cbn [fst snd] in *. split.
  - intros [= <- <-]. eauto.
  - intros (rest' & Hc' & ->). destruct (link_cut_unique _ _ _ _ _ Hc Hc') as [-> ->]. by rewrite He.
Qed.

(** ** Raw samples *)
Fixpoint gather_loop (fuel : nat) (b : bytes) : list bytes * bytes :=
  match fuel with
  | O => ([], b)
  | S fuel' =>
      match start_of b with
      | Partial => ([], b)
      | Invalid => gather_loop fuel' (skipn 1 b)
      | Whole f rest => let (fs, r) := gather_loop fuel' rest in (f :: fs, r)
      end
  end.

(** The frames of an octet string, resynchronising at impossible lengths, and
    the octets left over. *)
Definition gather (b : bytes) : list bytes * bytes := gather_loop (length b) b.

Lemma gather_fuel n m b : (length b <= n)%nat -> (length b <= m)%nat -> gather_loop n b = gather_loop m b.
Proof.
  revert m b. induction n as [|n IH]; intros m b Hn Hm.
  - destruct m as [|m]; [done|]. destruct b; [done|cbn in Hn; lia].
  - destruct m as [|m]; [destruct b; [done|cbn in Hm; lia]|]. cbn [gather_loop].
    destruct (start_of b) as [| |f rest] eqn:E; [done| |].
    + apply IH; rewrite length_skipn; pose proof (start_nonempty b ltac:(by rewrite E)); lia.
    + pose proof (whole_shorter _ _ _ E). by rewrite (IH m rest) by lia.
Qed.

Lemma gather_eq b : gather b =
  match start_of b with
  | Partial => ([], b)
  | Invalid => gather (skipn 1 b)
  | Whole f rest => let (fs, r) := gather rest in (f :: fs, r)
  end.
Proof.
  unfold gather. destruct (length b) as [|n] eqn:El; [by destruct b|]. cbn [gather_loop].
  destruct (start_of b) as [| |f rest] eqn:E; [done| |].
  - apply gather_fuel; rewrite length_skipn; lia.
  - pose proof (whole_shorter _ _ _ E). by rewrite (gather_fuel n (length rest)) by lia.
Qed.

(** Octets can be gathered as they come. *)
Lemma gather_app a b : gather (a ++ b) =
  (fst (gather a) ++ fst (gather (snd (gather a) ++ b)), snd (gather (snd (gather a) ++ b))).
Proof.
  remember (length a) as n eqn:Hn. revert a Hn. induction n as [n IH] using lt_wf_ind. intros a ->.
  rewrite (gather_eq a). destruct (start_of a) as [| |f rest] eqn:E.
  - cbn [fst snd app]. by destruct (gather (a ++ b)).
  - rewrite (gather_eq (a ++ b)), (start_app_invalid _ _ E).
    pose proof (start_nonempty a ltac:(by rewrite E)) as Ha.
    rewrite skipn_app. replace (1 - length a)%nat with 0%nat by lia. rewrite drop_0.
    apply (IH (length (skipn 1 a))); [rewrite length_skipn; lia|done].
  - rewrite (gather_eq (a ++ b)), (start_app_whole _ b _ _ E). pose proof (whole_shorter _ _ _ E) as Hl.
    rewrite (IH (length rest) Hl rest eq_refl). destruct (gather rest) as [fs r]. cbn [fst snd app]. done.
Qed.

Section Raw.
Context {S : Type} (publish : bytes -> S -> S * exc unit).

(** The state after frames were published. *)
Definition after_frames (frames : list bytes) (s : S) : S := fold_left (fun s f => fst (publish f s)) frames s.

Definition never_fails : Prop := forall f s, snd (publish f s) = Ok tt.

Lemma drain_ok fuel buffer s : (length buffer < fuel)%nat ->
  let '(buffer', s', r) := drain publish fuel buffer s in
  exists frames, s' = after_frames frames s /\
    gather buffer = (frames ++ fst (gather buffer'), snd (gather buffer')) /\
    (never_fails -> start_of buffer' = Partial /\ r = Ok tt).
Proof.
  revert buffer s. induction fuel as [|fuel IH]; intros buffer s Hf; [lia|]. cbn [drain].
  assert (start_of buffer = Partial -> exists frames, s = after_frames frames s /\
    gather buffer = (frames ++ fst (gather buffer), snd (gather buffer)) /\
    (never_fails -> start_of buffer = Partial /\ Ok tt = Ok tt)) as Hstop.
  { intros E. exists []. split_and!; [done|by destruct (gather buffer)|done]. }
  destruct (start_cases buffer) as [[Hl Hw]|(L & Hl & Hu & HL & Hw)].
  { replace (len buffer <? 4) with true by lia. by apply Hstop. }
  replace (len buffer <? 4) with false by lia. rewrite Hu. pose proof (gather_eq buffer) as Hg. rewrite Hw in Hg.
  destruct (_ || _).
  { rewrite Hg. apply IH. rewrite length_skipn. unfold len in Hl. lia. }
  destruct (Z.ltb_spec (len buffer) (L + 4)) as [|Hl']; [by apply Hstop|]. rewrite Hg. clear Hg Hstop. cbv zeta.
  set (f := slice buffer 4 (4 + L)). set (rest := skipn _ buffer).
  assert (length rest < fuel)%nat as Hr by (subst rest; rewrite length_skipn; unfold len in *; lia).
  destruct (publish f s) as [s1 [[]|e]] eqn:Ep.
  - specialize (IH rest s1 Hr). destruct (drain publish fuel rest s1) as [[buffer' s'] r].
    destruct IH as (frames & -> & Hgr & Hn). exists (f :: frames). cbn [after_frames fold_left app]. rewrite Ep, Hgr.
    split_and!; done.
  - exists [f]. cbn [after_frames fold_left app]. rewrite Ep. split_and!; [done|by destruct (gather rest)|].
    intros Hn. specialize (Hn f s). by rewrite Ep in Hn.
Qed.

Lemma published_app a b s : after_frames (a ++ b) s = after_frames b (after_frames a s).
Proof. apply fold_left_app. Qed.

(** The raw samples of a Zenoh bridge are put together as if they had come
    in one piece: however the octets are cut into samples, what is published is
    a run of the frames of the whole, in order, none twice and none left out,
    and the buffer holds the octets of the others; when no frame fails, what
    is left is less than a frame. *)
Theorem raw_samples_reassembled samples buffer s :
  let '(buffer', s') := on_samples publish samples buffer s in
  exists frames, s' = after_frames frames s /\
    gather (buffer ++ concat samples) = (frames ++ fst (gather buffer'), snd (gather buffer')) /\
    (never_fails -> samples <> [] -> start_of buffer' = Partial /\ gather buffer' = ([], buffer')).
Proof.
  revert buffer s. induction samples as [|data samples IH]; intros buffer s; cbn [on_samples concat].
  { exists []. rewrite app_nil_r. split_and!; [done|by destruct (gather buffer)|done]. }
  unfold on_raw_sample. pose proof (drain_ok (Datatypes.S (length (buffer ++ data))) (buffer ++ data) s ltac:(lia)) as Hd.
  destruct (drain _ _ _ _) as [[buffer1 s1] r]. destruct Hd as (frames1 & -> & Hg1 & Hn1).
  specialize (IH buffer1 (after_frames frames1 s)). destruct (on_samples _ _ _ _) as [buffer' s'] eqn:Hs.
  destruct IH as (frames & -> & Hg & Hn). exists (frames1 ++ frames). split_and!; [by rewrite published_app| |].
  - rewrite app_assoc, gather_app, Hg1. cbn [fst snd].
    rewrite (gather_app buffer1) in Hg. injection Hg as Hg2 Hg3.
    rewrite <- app_assoc, Hg3. f_equal.
    rewrite <- app_assoc. f_equal. exact Hg2.
  - intros Hok _. destruct samples as [|x samples]; [|by apply Hn].
    cbn [on_samples] in Hs. injection Hs as <- _. specialize (Hn1 Hok) as [Hp _]. split; [done|]. by rewrite gather_eq, Hp.
Qed.
End Raw.

(** ** Acknowledgements *)

(** Text that [_text] leaves as it is: printable ASCII, at most 512 long. *)
Definition plain_char (c : ascii) : bool := (33 <=? N_of_ascii c)%N && (N_of_ascii c <? 127)%N.
Definition plain_text (s : string) : Prop :=
  s <> "" /\ (String.length s <= 512)%nat /\ forallb plain_char (list_ascii_of_string s) = true.

Lemma ascii_byte_val c : byte_val (byte_of_ascii c) = Z.of_N (N_of_ascii c).
Proof. unfold byte_val. f_equal. rewrite <- (ascii_of_byte_of_ascii c) at 2. by destruct (byte_of_ascii c). Qed.

Definition points (s : string) : list Z := map (fun c => Z.of_N (N_of_ascii c)) (list_ascii_of_string s).

Lemma points_bytes s : map byte_val (utf8_bytes s) = points s.
Proof.
  unfold utf8_bytes, points, list_byte_of_string. rewrite map_map. apply map_ext. intros c. apply ascii_byte_val.
Qed.

Definition plain_point (c : Z) : Prop := 33 <= c < 127.

Lemma plain_points s : forallb plain_char (list_ascii_of_string s) = true -> Forall plain_point (points s).
Proof.
  unfold points. induction (list_ascii_of_string s) as [|c l IH]; cbn [forallb map]; [done|].
  intros [Hc Hl]%andb_true_iff. constructor; [|by apply IH].
  apply andb_true_iff in Hc as [?%N.leb_le ?%N.ltb_lt]. unfold plain_point. lia.
Qed.

Lemma plain_decode cs : Forall plain_point cs -> utf8_decode cs = Some cs.
Proof.
  unfold plain_point. induction 1 as [|c cs Hc _ IH]; [done|]. cbn [utf8_decode]. replace (c <? 128) with true by lia. by rewrite IH.
Qed.

Lemma plain_words cs word : Forall plain_point cs ->
  words cs word = match rev word ++ cs with [] => [] | w => [w] end.
Proof.
  unfold plain_point. intros Hcs. revert word. induction Hcs as [|c cs Hc _ IH]; intros word; cbn [words].
  - rewrite app_nil_r. destruct word as [|x word]; [done|]. cbn. by destruct (rev word).
  - unfold space_point. destruct (_ || _) eqn:Hsp; [exfalso; lia|]. rewrite IH. cbn [rev]. by rewrite <- app_assoc.
Qed.

Lemma plain_encode s : forallb plain_char (list_ascii_of_string s) = true -> utf8_encode (points s) = s.
Proof.
  unfold utf8_encode, points. induction s as [|c s IH]; [done|]. cbn [list_ascii_of_string forallb map].
  intros [Hc Hs]%andb_true_iff. specialize (IH Hs). apply andb_true_iff in Hc as [?%N.leb_le ?%N.ltb_lt].
  assert (utf8_char (Z.of_N (N_of_ascii c)) = String c "") as ->.
  { unfold utf8_char, char_of. replace (Z.of_N (N_of_ascii c) <? 128) with true by lia. by rewrite N2Z.id, ascii_N_embedding. }
  destruct s as [|c' s]; [done|]. cbn [list_ascii_of_string map String.concat] in *. cbn. f_equal. exact IH.
Qed.

Lemma text_plain s : plain_text s -> _text (Some (WBytes (utf8_bytes s))) = Some s.
Proof.
  intros (Hne & Hl & Hs). unfold _text. pose proof (plain_points s Hs) as Hp.
  rewrite points_bytes, plain_decode, plain_words by done. cbn [rev app].
  assert (length (points s) = String.length s) as Hlen.
  { unfold points. rewrite length_map. clear. induction s; cbn; congruence. }
  pose proof (plain_encode s Hs) as He. destruct (points s) as [|c cs] eqn:E; [by destruct s|]. cbn [joined].
  f_equal. rewrite firstn_all2 by lia. exact He.
Qed.

Lemma encode_varint_len v : 0 <= v < 2 ^ 70 -> exists bs, _encode_varint v = Ok bs /\ len bs <= 10.
Proof.
  intros Hv. destruct (varint_roundtrip_loop 10 v (S (Z.to_nat (Z.log2 v)))) as (bs & E & Hl & _); [lia|exact Hv| |].
  - pose proof (Z.log2_nonneg v). lia.
  - exists bs. split; [exact E|lia].
Qed.

Definition field_size (f : WireField) : Z := 20 + match value_of f with WBytes b => len b | WInt _ => 0 end.

Lemma written_size f bs : writable f -> written f = Ok bs -> len bs <= field_size f.
Proof.
  destruct f as [n w v]. intros [Hn Hv]. unfold written, field_size. cbn [number wire_type value_of] in *.
  assert (2 ^ 70 = 8 * 2 ^ 67) as E70 by reflexivity. destruct (tag_sum n ltac:(lia)) as [Et2 Et0].
  destruct v as [v|b].
  - assert (w = 0) as -> by (destruct w as [|[[]|[]|]|]; done). unfold _encode_int.
    destruct (encode_varint_len (Z.shiftl n 3)) as (tag & -> & ?); [lia|].
    destruct (encode_varint_len v) as (vs & -> & ?); [lia|]. intros [= <-]. rewrite len_app. lia.
  - assert (w = 2) as -> by (destruct w as [|[[]|[]|]|]; done). unfold _encode_bytes.
    destruct (encode_varint_len (Z.lor (Z.shiftl n 3) 2)) as (tag & -> & ?); [lia|].
    destruct (encode_varint_len (len b)) as (vs & -> & ?); [pose proof (len_nonneg b); lia|]. intros [= <-].
    rewrite !len_app. lia.
Qed.

Lemma write_all_size fs data : Forall writable fs -> write_all fs = Ok data ->
  len data <= fold_right Z.add 0 (map field_size fs).
Proof.
  intros Hfs. revert data. induction Hfs as [|f fs Hf _ IH]; intros data; cbn [write_all]; [by intros [= <-]|].
  destruct (written f) as [bs|e] eqn:E; [|done]. cbn [exc_bind]. destruct (write_all fs) as [rest|e]; [|done].
  intros [= <-]. rewrite len_app. pose proof (written_size f bs Hf E). specialize (IH rest eq_refl). cbn. lia.
Qed.

Definition time_fields (seconds nanos : Z) : list WireField :=
  {| number := 1; wire_type := 0; value_of := WInt seconds |} ::
  (if nanos =? 0 then [] else [{| number := 2; wire_type := 0; value_of := WInt nanos |}]).
Definition accept_field (accepted : bool) : WireField :=
  {| number := 1; wire_type := 0; value_of := WInt (if accepted then 1 else 0) |}.
Definition ack_fields (ts ack : bytes) (bridge_node_id destination_id : string) : list WireField :=
  [{| number := 1; wire_type := 2; value_of := WBytes ts |};
   {| number := 2; wire_type := 2; value_of := WBytes (utf8_bytes bridge_node_id) |};
   {| number := 3; wire_type := 2; value_of := WBytes (utf8_bytes destination_id) |};
   {| number := 5; wire_type := 2; value_of := WBytes ack |}].

Lemma ack_written seconds nanos bridge dest accepted ts ack :
  write_all (time_fields seconds nanos) = Ok ts -> write_all [accept_field accepted] = Ok ack ->
  ack_envelope seconds nanos bridge dest accepted = write_all (ack_fields ts ack bridge dest).
Proof.
  unfold ack_envelope, time_fields, accept_field, ack_fields. cbn [write_all written value_of number]. intros Hts Hack.
  destruct (_encode_int 1 seconds) as [s|]; [|done]. cbn [exc_bind] in *.
  assert ((if nanos =? 0 then Ok [] else _encode_int 2 nanos) = write_all
    (if nanos =? 0 then [] else [{| number := 2; wire_type := 0; value_of := WInt nanos |}])) as ->.
  { destruct (nanos =? 0); [done|]. cbn [write_all written value_of number]. destruct (_encode_int 2 nanos); [|done].
    cbn [exc_bind]. by rewrite app_nil_r. }
  destruct (write_all (if nanos =? 0 then _ else _)) as [n|]; [|done]. cbn [exc_bind] in *. injection Hts as ->.
  destruct (_encode_int 1 (if accepted then 1 else 0)) as [a|]; [|done]. cbn [exc_bind] in *.
  rewrite app_nil_r in Hack. injection Hack as ->.
  destruct (_encode_bytes 1 ts); [|done]. destruct (_encode_bytes 2 _); [|done].
  destruct (_encode_bytes 3 _); [|done]. destruct (_encode_bytes 5 _); [|done]. cbn [exc_bind].
  by rewrite app_nil_r.
Qed.

Lemma utf8_bytes_len s : len (utf8_bytes s) = Z.of_nat (String.length s).
Proof. unfold utf8_bytes, len, list_byte_of_string. rewrite length_map. f_equal. induction s; cbn; congruence. Qed.

(** Readings of the clock that an acknowledgement needs. *)
Definition clock_ok (now : float) : Prop :=
  exists seconds nanos, int_of_float now = Ok seconds /\ 0 <= seconds < 2 ^ 70 /\
    int_of_float (fmul (fsub now (fl seconds)) (fl 1000000000)) = Ok nanos /\ 0 <= nanos < 1000000000.

(** The time an acknowledgement made at [now] says. *)
Definition clock_time (now : float) : float :=
  match int_of_float now with
  | Ok seconds =>
      match int_of_float (fmul (fsub now (fl seconds)) (fl 1000000000)) with
      | Ok nanos => fadd (fl seconds) (fdiv_raw (fl nanos) (fl 1000000000))
      | Raise _ => now
      end
  | Raise _ => now
  end.

Lemma ack_time seconds nanos ts later : 0 <= seconds < 2 ^ 70 -> 0 <= nanos < 1000000000 ->
  _field_list ts = Ok (time_fields seconds nanos) ->
  _timestamp (Some (WBytes ts)) later = Ok (fadd (fl seconds) (fdiv_raw (fl nanos) (fl 1000000000))).
Proof.
  intros Hs Hn E. unfold _timestamp. rewrite E. cbn [exc_bind].
  assert (2 ^ 70 < 2 ^ 1000) by (vm_compute; reflexivity).
  assert (float_of_int seconds = Ok (fl seconds)) as Hfl by (apply float_of_int_ok; lia).
  unfold time_fields. destruct (Z.eqb_spec nanos 0) as [->|]; cbv zeta; cbn [_first find is_field number wire_type Z.eqb
    Pos.eqb andb option_map value_of as_int].
  - replace (1000000000 <=? 0) with false by lia. by rewrite Hfl.
  - replace (1000000000 <=? nanos) with false by lia. by rewrite Hfl.
Qed.

(** An acknowledgement from [bridge] to [dest], as its fields are read. *)
Definition ack_says (envelope : bytes) (bridge dest : string) (accepted : bool) : Prop :=
  exists fields content, _field_list envelope = Ok fields /\
    first_text fields 2 = Some bridge /\ _first fields 3 2 = Some (WBytes (utf8_bytes dest)) /\
    content_fields fields = [{| number := 5; wire_type := 2; value_of := WBytes content |}] /\
    _registration_ack content = Ok [("accepted", VBool accepted)].

Section Ack.
Context `{LibmOk}.

(** An acknowledgement is one frame; what it says, and its decoding. *)
Lemma ack_ok now bridge dest accepted : clock_ok now -> plain_text bridge -> (String.length dest <= 2048)%nat ->
  exists octets envelope, registration_ack now bridge dest accepted = Ok octets /\ framed envelope octets /\
    ack_says envelope bridge dest accepted /\ forall d later, decode envelope later d =
      ({| nodes := osetdefault bridge new_node (nodes d); objects := objects d |},
       Ok {| kind := "registration_ack"; node_id := bridge; at_time := clock_time now; track := None; warned := false |}).
Proof.
  intros (seconds & nanos & Hs & Hsr & Hn & Hnr) Hb Hd. unfold registration_ack. rewrite Hs. cbn [exc_bind].
  rewrite Hn. cbn [exc_bind].
  assert (Forall writable (time_fields seconds nanos)) as Hts.
  { unfold time_fields. constructor; [unfold writable; cbn; lia|]. destruct (nanos =? 0); [constructor|].
    constructor; [unfold writable; cbn; lia|constructor]. }
  assert (Forall writable [accept_field accepted]) as Hacc.
  { constructor; [|constructor]. unfold writable, accept_field; cbn. destruct accepted; lia. }
  destruct (fields_loop_written _ Hts) as (ts & Ets & Rts). destruct (fields_loop_written _ Hacc) as (ack & Eack & Rack).
  rewrite (ack_written _ _ _ _ _ _ _ Ets Eack).
  pose proof (write_all_size _ _ Hts Ets) as Lts. pose proof (write_all_size _ _ Hacc Eack) as Lack.
  assert (fold_right Z.add 0 (map field_size (time_fields seconds nanos)) <= 40) as Lts'
    by (unfold time_fields; destruct (nanos =? 0); done).
  assert (fold_right Z.add 0 (map field_size [accept_field accepted]) = 20) as Lack' by done.
  destruct Hb as (Hne & Hbl & Hbp).
  assert (Forall writable (ack_fields ts ack bridge dest)) as Hf.
  { repeat constructor; unfold writable; cbn [number wire_type value_of]; rewrite ?utf8_bytes_len; lia. }
  assert (clock_time now = fadd (fl seconds) (fdiv_raw (fl nanos) (fl 1000000000))) as Hclock
    by (unfold clock_time; by rewrite Hs, Hn).
  destruct (fields_loop_written _ Hf) as (envelope & E & R). rewrite E. cbn [exc_bind].
  pose proof (write_all_size _ _ Hf E) as Lenv. cbn [ack_fields map fold_right field_size value_of] in Lenv.
  unfold field_size in Lenv. cbn [value_of] in Lenv. rewrite !utf8_bytes_len in Lenv.
  assert (0 < len envelope) as Lpos.
  { destruct envelope as [|x l]; [exfalso|rewrite len_cons; pose proof (len_nonneg l); lia].
    specialize (R [] 1%nat eq_refl). done. }
  destruct (pack_le32_ok (len envelope)) as (size & Esize & _); [lia|]. rewrite Esize. cbn [exc_bind].
  exists (size ++ envelope), envelope. split; [done|]. split.
  { unfold framed, MAX_FRAME_BYTES. split; [lia|eauto]. }
  assert (_field_list envelope = Ok (ack_fields ts ack bridge dest)) as Hfields by (apply (R []); unfold len; lia).
  assert (_field_list ack = Ok [accept_field accepted]) as Hcontent by (apply (Rack []); unfold len; lia).
  assert (first_text (ack_fields ts ack bridge dest) 2 = Some bridge) as Hbridge by (by apply text_plain).
  split.
  { eexists _, ack. split_and!; [done..|]. unfold _registration_ack. rewrite Hcontent. by destruct accepted. }
  intros d later. unfold decode. replace (_ || _) with false by (unfold MAX_FRAME_BYTES; lia).
  rewrite Hfields.
  cbn [exc_bind]. rewrite Hbridge. cbn [default].
  change (_first (ack_fields ts ack bridge dest) 1 2) with (Some (WBytes ts)).
  rewrite (ack_time seconds nanos ts) by (try done; apply (Rts []); unfold len; lia).
  cbn [exc_bind]. change (content_fields (ack_fields ts ack bridge dest)) with
    [{| number := 5; wire_type := 2; value_of := WBytes ack |}]. cbn [number value_of].
  change (tindex _CONTENT_FIELDS 5) with (@Ok string "registration_ack"). cbn [exc_bind].
  unfold handle_content. cbn [nodes objects]. cbv zeta. cbn [String.eqb Ascii.eqb Bool.eqb].
  unfold _registration_ack. rewrite Hcontent. by rewrite Hclock.
Qed.
End Ack.

(** C33: a listener's acknowledgement is understood as it was meant: it is one
    frame of the stream format, however the network cuts it; read field by
    field it says who sends it, whom it is for, and whether the registration is
    accepted; and a decoder like the bridge's own takes it for a
    registration_ack of the bridge's node, at the clock's time to the
    nanosecond. *)
Theorem ack_understood `{LibmOk} now bridge dest accepted sizes d later :
  clock_ok now -> plain_text bridge -> (String.length dest <= 2048)%nat ->
  exists octets envelope,
    registration_ack now bridge dest accepted = Ok octets /\
    iter_frames {| pending := octets; sizes := sizes |} = ([envelope], EOFError) /\
    ack_says envelope bridge dest accepted /\
    decode envelope later d =
      ({| nodes := osetdefault bridge new_node (nodes d); objects := objects d |},
       Ok {| kind := "registration_ack"; node_id := bridge; at_time := clock_time now; track := None; warned := false |}).
Proof.
  intros Hnow Hb Hd. destruct (ack_ok now bridge dest accepted Hnow Hb Hd) as (octets & envelope & E & Hf & Hsays & Hdec).
  exists octets, envelope. split_and!; [done| |done|by apply Hdec].
  unfold iter_frames. destruct (frames_loop_ok (S (length octets)) {| pending := octets; sizes := sizes |}) as (rest & Hc & He);
    [cbn [pending]; unfold len; lia|]. cbn [pending] in *.
  destruct (link_cut_unique octets _ _ [envelope] [] Hc) as [Hframes ->].
  { split; [|by intros]. exists [octets]. split; [constructor; [done|constructor]|by cbn [concat]; rewrite !app_nil_r]. }
  destruct (frames_loop _ _) as [frames e]. cbn [fst snd] in *. by rewrite Hframes, He.
Qed.

Lemma ack_understood_witness :
  clock_ok (dec 15 1) /\ plain_text "bridge" /\
  exists octets envelope, registration_ack (dec 15 1) "bridge" "node" true = Ok octets /\
    iter_frames {| pending := octets; sizes := [1; 2; 3] |} = ([envelope], EOFError) /\
    ack_says envelope "bridge" "node" true.
Proof.
  assert (clock_ok (dec 15 1)) as Hc.
  { exists 1, 500000000. split; [vm_compute; reflexivity|]. split; [lia|]. split; [vm_compute; reflexivity|lia]. }
  assert (plain_text "bridge") as Hp by (split_and!; [done|cbn; lia|done]).
  split; [exact Hc|]. split; [exact Hp|].
  destruct (@ack_understood small_angle_libm small_angle_libm_ok (dec 15 1) "bridge" "node" true [1; 2; 3] new_decoder (fl 0)
    Hc Hp ltac:(cbn; lia)) as (octets & envelope & E & Hi & Hs & _).
  exists octets, envelope. split; [exact E|]. split; [exact Hi|exact Hs].
Defined.

(** ** A connection *)
Lemma utf8_char_length c : (String.length (utf8_char c) <= 4)%nat.
Proof. unfold utf8_char. repeat case_match; cbn; lia. Qed.

Lemma append_length a b : String.length (a +:+ b) = (String.length a + String.length b)%nat.
Proof. induction a as [|c a IH]; cbn; [done|]. by rewrite <- IH. Qed.

Lemma text_short v s : _text v = Some s -> (String.length s <= 2048)%nat.
Proof.
  unfold _text. destruct v as [[|b]|]; try done. destruct (utf8_decode _) as [cs|]; [|done].
  generalize (joined (words cs [])). intros l E. assert (s = utf8_encode (firstn 512 l)) as -> by (destruct l; congruence).
  unfold utf8_encode. pose proof (firstn_le_length 512 l) as Hl. revert Hl. generalize (firstn 512 l). intros k Hl.
  enough (String.length (String.concat "" (map utf8_char k)) <= 4 * length k)%nat by lia. clear.
  induction k as [|c k IH]; [cbn; lia|]. cbn [map length]. pose proof (utf8_char_length c).
  destruct k as [|c' k]; [cbn [map String.concat]; lia|]. cbn [map] in *. cbn [String.concat] in *.
  rewrite !append_length. cbn [String.length Nat.add]. cbn [length] in *. lia.
Qed.

Section Connection.
Context `{LibmOk} `{ProtobufOk}.

Lemma handle_content_node kind nid sent_at raw d :
  returns (snd (handle_content kind nid sent_at raw d)) (fun e => node_id e = nid) (fun _ => True).
Proof.
  unfold handle_content. cbv zeta.
  assert (forall A (m : exc A) (o : option dict), returns (let? _ := m in quiet_event kind nid sent_at (Ok o))
    (fun e => node_id e = nid) (fun _ => True)) as Hl by (intros A m o; by destruct m).
  assert (forall r, returns (report_event kind nid sent_at r) (fun e => node_id e = nid) (fun _ => True)) as Hr
    by (intros [t|[]]; done).
  repeat match goal with |- context [if String.eqb ?a ?b then _ else _] => destruct (String.eqb a b) end;
    try (destruct (_registration _ _)); try (destruct (_status _ _ _ _) as [? [|]]); try (destruct (_detection _ _ _ _ _));
    cbn [snd]; first [done|apply Hl|apply Hr].
Qed.

Lemma decode_node data now d :
  returns (snd (decode data now d)) (fun e => (String.length (node_id e) <= 2048)%nat) (fun _ => True).
Proof.
  unfold decode. destruct (_ || _); [done|].
  destruct (_field_list data) as [fs|]; [|done]. cbn [exc_bind]. cbv zeta.
  set (nid := default _ _). assert (String.length nid <= 2048)%nat as Hn.
  { subst nid. unfold first_text. destruct (_text _) eqn:E; [by apply text_short in E|cbn; lia]. }
  clearbody nid. destruct (_timestamp _ _) as [sent_at|]; [|done]. cbn [exc_bind].
  destruct (content_fields fs) as [|c [|? ?]]; [done| |done]. destruct (tindex _ _) as [kind|]; [|done]. cbn [exc_bind].
  destruct (value_of c) as [|raw]; [done|].
  eapply returns_weaken; [apply handle_content_node| |done]. by intros e ->.
Qed.

(** Keys of a SAPIENT track that the typed message has no field for: the first
    line is in the nested NormalizedTrack, the others in the JSON view only. *)
Definition dropped_sapient : list string :=
  ["uid"; "callsign"; "geo_alt_m"; "speed_ms"; "heading_deg"; "vertical_rate_ms";
   "_delete"; "sapient_icd_version"; "sensor_status"; "sensor_mode"; "sapient_info"; "sapient_active_task_id";
   "sapient_power_level_pct"; "sapient_power_source"; "sapient_power_status"; "sapient_field_of_view_present";
   "sapient_obscuration_count"; "sapient_coverage_count"; "colour"; "sapient_task_id"; "sapient_predicted_lat_deg";
   "sapient_predicted_lon_deg"; "sapient_predicted_alt_m"; "sapient_id"; "description"; "sapient_region_id";
   "sapient_additional_information"; "sapient_location_coordinate_system"; "sapient_location_datum";
   "altitude_reference"; "lon_error"; "lat_error"; "alt_error_m"; "sapient_range_m"; "sapient_azimuth_deg";
   "sapient_elevation_deg"; "sapient_range_bearing_datum"].

Variables (repr : value -> string) (uuid5 : string -> Z) (_NODE_ID root bridge : string).

Definition readings_ok (r : readings) : Prop := draws_ok (drawn r) /\ clock_ok (acked_at r).

(** The samples of a track: the frame as it came, after the three views of
    the track under its key. *)
Definition sample_of (frame : bytes) (r : readings) (t : dict) (out : list output) : Prop :=
  let key := semantic_topic repr (topic_for_track repr root t) t in
  exists views, out = map (fun kb => Put (fst kb) (snd kb))
      (views ++ [(view_key key "raw", BRaw "sapient" "bsi-flex-335-v2" "application/protobuf"
                    (if ftruth (fl 0) then fl 0 else enveloped_at r) frame)]) /\
    ((exists ns, sapient_time t (drawn r) = Ok ns) ->
     delivered repr uuid5 SapientFlex335Track (normalized_keys ++ dropped_sapient) t (drawn r) key views).

(** What is sent back for a message: an acceptance to the node that registers,
    when registrations are acknowledged, and nothing for any other. *)
Inductive acknowledged (acknowledge : bool) (r : readings) (ev : sapient_event) : list output -> Prop :=
| ak_sent octets envelope :
    kind ev = "registration" -> acknowledge = true ->
    registration_ack (acked_at r) bridge (node_id ev) true = Ok octets -> framed envelope octets ->
    ack_says envelope bridge (node_id ev) true ->
    acknowledged acknowledge r ev [Sent octets]
| ak_none : kind ev <> "registration" \/ acknowledge = false -> acknowledged acknowledge r ev [].

(** What is published of a message: the samples of its track, unless it has
    none or is only warned about. *)
Inductive sampled (frame : bytes) (r : readings) (ev : sapient_event) : list output -> Prop :=
| sd_track t out : track ev = Some t -> warned ev = false -> track_ok t -> sample_of frame r t out -> sampled frame r ev out
| sd_none : track ev = None \/ warned ev = true -> sampled frame r ev [].

(** What the frames of a connection make it do, from the [n]-th on: each is
    decoded in turn, by the decoder as the frames before it left it; the first
    that cannot be decoded ends it. *)
Inductive reactions (acknowledge : bool) (rs : nat -> readings) :
    nat -> list bytes -> decoder -> decoder -> list output -> exc unit -> Prop :=
| rx_end n d : reactions acknowledge rs n [] d d [] (Ok tt)
| rx_bad n frame frames d d' e :
    decode frame (decoded_at (rs n)) d = (d', Raise e) ->
    reactions acknowledge rs n (frame :: frames) d d' [] (Raise e)
| rx_frame n frame frames d d1 d' ev sent samples out res :
    decode frame (decoded_at (rs n)) d = (d1, Ok ev) ->
    acknowledged acknowledge (rs n) ev sent -> sampled frame (rs n) ev samples ->
    reactions acknowledge rs (S n) frames d1 d' out res ->
    reactions acknowledge rs n (frame :: frames) d d' (sent ++ samples ++ out) res.

Lemma publish_track_ok t frame r : track_ok t -> draws_ok (drawn r) ->
  sample_of frame r t (publish_track repr uuid5 _NODE_ID root t frame r).
Proof.
  intros (Hwt & Hlat & Hlon) Hd. cbv zeta. eexists. split.
  - unfold publish_track, publish_native. cbv zeta.
    match goal with |- context [pb_serialize ?m] => destruct (pb_serialize_total m) as [payload ->] end. done.
  - intros Hns.
    apply (publish_dual_delivers repr uuid5 _NODE_ID sapient_schema SapientFlex335Track "track"
      (normalized_keys ++ dropped_sapient) (topic_for_track repr root t) t (drawn r)); try done.
    + unfold located. by rewrite Hlat, Hlon.
    + apply (covered_conforms _ _ sapient_schema); [vm_compute; reflexivity|exact Hwt].
Qed.

(** One frame: it cannot be decoded, or is acknowledged and published. *)
Lemma publish_ok acknowledge r frame d : decoder_ok d -> readings_ok r -> plain_text bridge ->
  let '(d', (out, res)) := _publish repr uuid5 _NODE_ID root bridge acknowledge r frame d in
  decoder_ok d' /\
  match snd (decode frame (decoded_at r) d) with
  | Raise e => decode frame (decoded_at r) d = (d', Raise e) /\ out = [] /\ res = Raise e /\ value_error e
  | Ok ev => decode frame (decoded_at r) d = (d', Ok ev) /\ res = Ok tt /\
      exists sent samples, out = sent ++ samples /\ acknowledged acknowledge r ev sent /\ sampled frame r ev samples
  end.
Proof.
  intros Hd [Hdr Hcl] Hb. unfold _publish. pose proof (decode_ok frame (decoded_at r) d Hd) as [Hd' He].
  pose proof (decode_node frame (decoded_at r) d) as Hn.
  destruct (decode frame (decoded_at r) d) as [d' [e|e]]; cbn [fst snd] in *; [|done].
  unfold returns in He, Hn.
  assert (sampled frame r e match track e with
                            | Some t => if warned e then [] else publish_track repr uuid5 _NODE_ID root t frame r
                            | None => []
                            end) as Hs.
  { unfold event_ok in He. destruct (track e) as [t|] eqn:Et; [|by constructor; left].
    destruct (warned e) eqn:Ew; [by constructor; right|].
    by apply (sd_track frame r e t); [..|by apply He|apply publish_track_ok; [by apply He|]]. }
  destruct (String.eqb_spec (kind e) "registration") as [Hk|Hk]; cbn [andb]; [destruct acknowledge|].
  - destruct (ack_ok (acked_at r) bridge (node_id e) true Hcl Hb Hn) as (octets & envelope & E & Hf & Hsays & _). rewrite E.
    cbn [exc_bind]. split_and!; [done..|]. eexists [Sent octets], _. split_and!; [done| |done]. by econstructor.
  - split_and!; [done..|]. eexists [], _. split_and!; [done| |done]. by constructor; right.
  - split_and!; [done..|]. eexists [], _. split_and!; [done| |done]. by constructor; left.
Qed.

Lemma publish_all_ok acknowledge rs n frames d : decoder_ok d -> (forall k, readings_ok (rs k)) -> plain_text bridge ->
  let '(d', (out, res)) := publish_all repr uuid5 _NODE_ID root bridge acknowledge rs n frames d in
  decoder_ok d' /\ returns res (fun _ => True) value_error /\ reactions acknowledge rs n frames d d' out res.
Proof.
  intros Hd Hrs Hb. revert n d Hd. induction frames as [|f frames IH]; intros n d Hd; cbn [publish_all].
  { split_and!; [done..|constructor]. }
  pose proof (publish_ok acknowledge (rs n) f d Hd (Hrs n) Hb) as Hp.
  destruct (_publish _ _ _ _ _ _ _ _ _) as [d1 [out res]]. destruct Hp as (Hd1 & Hp).
  destruct (snd (decode f (decoded_at (rs n)) d)) as [ev|e].
  - destruct Hp as (E & -> & sent & samples & -> & Hack & Hs).
    specialize (IH (Datatypes.S n) d1 Hd1). destruct (publish_all _ _ _ _ _ _ _ _ _ _) as [d2 [out2 res2]].
    destruct IH as (Hd2 & Hres2 & Hr). split_and!; [done..|]. rewrite <- app_assoc. by econstructor.
  - destruct Hp as (E & -> & -> & He). split_and!; [done..|]. by constructor.
Qed.
End Connection.


Definition sample_readings : readings :=
  {| decoded_at := fl 7; acked_at := fl 7; drawn := sample_draws; enveloped_at := fl 7 |}.

(** A detection of object "o" by node "n", at 17 E 48 N. *)
Definition sample_frame : bytes := of_ints
  [0x12; 1; 0x6e; 0x3a; 0x1b; 0x12; 1; 0x6f; 0x32; 0x16; 0x09; 0; 0; 0; 0; 0; 0; 0x31; 0x40; 0x11; 0; 0; 0; 0; 0; 0; 0x48; 0x40;
   0x38; 1; 0x40; 1].


(** ** Where an error costs more than its message *)

(** Node "n" reports the position 17, 48 in UTM: as its own position in a
    status report, and as an object's in a detection. *)
Definition utm_position : list Z :=
  [0x09; 0; 0; 0; 0; 0; 0; 0x31; 0x40; 0x11; 0; 0; 0; 0; 0; 0; 0x48; 0x40; 0x38; 5; 0x40; 1].
Definition utm_status : bytes := of_ints ([0x12; 1; 0x6e; 0x32; 0x18; 0x3a; 0x16] ++ utm_position).
Definition utm_detection : bytes := of_ints ([0x12; 1; 0x6e; 0x3a; 0x1b; 0x12; 1; 0x6f; 0x32; 0x16] ++ utm_position).

(** The samples of a detection of node "n" are lost after a status report whose
    position cannot be used: ValueError leaves [decode] and ends the
    connection; the same position in a detection is only warned about. *)
Example status_error_ends_connection :
  let _ := small_angle_libm in let _ := plain_protobuf in
  let publish frames := snd (publish_all (fun _ => "") (fun _ => 0) "node" "efdi" "bridge" false (fun _ => sample_readings) 0
                               frames new_decoder) in
  publish [utm_status; sample_frame] = ([], Raise ValueError) /\
  snd (publish [utm_detection; sample_frame]) = Ok tt /\
  length (fst (publish [utm_detection; sample_frame])) = 4%nat.
Proof. repeat split; vm_compute; reflexivity. Qed.
