(* ===== verification/Link16.v ===== *)
(** * Link 16 over JREAP-C

    The STANAG 5516 section of compose/protocols/vendors/stanag/stanag.py: the
    bit readers, the decoders of the five messages and the reading of a packet.
    What a terminal sends is specified as packed bit fields ([sent]); the
    theorems say what becomes of it. *)

From Stdlib Require Import SpecFloat.
From S2P Require Import Prelude PyFloat PyData Schema TrackViews Exact Octets.
#[local] Open Scope Z_scope.

Definition _5516_WORD_BITS : Z := 75.
Definition _5516_WORD_BYTES : Z := 10.

Definition _5516_LABEL : list ((Z * Z) * string) :=
  [((2, 2), "J2.2"); ((2, 5), "J2.5"); ((3, 2), "J3.2"); ((3, 5), "J3.5"); ((3, 7), "J3.7")].

Definition _5516_ID_AFF : table :=
  [(0, "friendly"); (1, "neutral"); (2, "hostile"); (3, "unknown"); (4, "hostile"); (5, "friendly")].

Definition _5516_TOPIC_MAP (root : string) : list ((string * string) * string) :=
  [(("air", "friendly"), root +:+ "/air/stanag_5516/c2/friendly/aircraft");
   (("air", "hostile"), root +:+ "/air/stanag_5516/c2/hostile/aircraft");
   (("air", "neutral"), root +:+ "/air/stanag_5516/c2/neutral/aircraft");
   (("air", "unknown"), root +:+ "/air/stanag_5516/c2/unknown");
   (("sea", "friendly"), root +:+ "/sea/stanag_5516/c2/friendly/vessel");
   (("sea", "hostile"), root +:+ "/sea/stanag_5516/c2/hostile/vessel");
   (("sea", "neutral"), root +:+ "/sea/stanag_5516/c2/neutral/vessel");
   (("sea", "unknown"), root +:+ "/sea/stanag_5516/c2/unknown/vessel");
   (("land", "friendly"), root +:+ "/land/stanag_5516/c2/friendly/unit");
   (("land", "hostile"), root +:+ "/land/stanag_5516/c2/hostile/unit");
   (("land", "neutral"), root +:+ "/land/stanag_5516/c2/neutral/unit");
   (("land", "unknown"), root +:+ "/land/stanag_5516/c2/unknown/unit")].

(** ** Bit readers *)

(** The 75 bits of a word, without the padding below them. *)
Definition word_value (data : bytes) : Z := Z.shiftr (int_from_bytes (slice data 0 10)) 5.

(** [v - (1 << width) if v >= 1 << (width - 1) else v] *)
Definition twos_complement (v width : Z) : Z := if Z.shiftl 1 (width - 1) <=? v then v - Z.shiftl 1 width else v.

Definition BitReader_u (val offset width : Z) : Z :=
  let shift := _5516_WORD_BITS - offset - width in
  if shift <? 0 then 0 else Z.land (Z.shiftr val shift) (Z.shiftl 1 width - 1).
Definition BitReader_s (val offset width : Z) : Z := twos_complement (BitReader_u val offset width) width.
Definition BitReader_bam (val offset width : Z) : float :=
  fmul (fl (BitReader_s val offset width)) (fdiv_raw (fl 360) (fl (Z.shiftl 1 width))).

Record _5516_MultiWordReader := { mw_val : Z; mw_bits : Z }.

(** [__init__]; a word has 75 bits, so the OverflowError of [to_bytes] cannot occur ([stored_word]). *)
Fixpoint stored (words : list bytes) : exc bytes :=
  match words with
  | [] => Ok []
  | w :: words' =>
      let? block := to_bytes (word_value w) 10 in
      let? rest := stored words' in
      Ok (block ++ rest)
  end.
Definition MultiWordReader (words : list bytes) : exc _5516_MultiWordReader :=
  let? bits := stored words in
  Ok {| mw_val := int_from_bytes bits; mw_bits := len words * 80 |}.

Definition _effective_offset (bit : Z) : Z := bit / 75 * 80 + bit mod 75 + 5.

Definition MultiWordReader_u (r : _5516_MultiWordReader) (bit width : Z) : Z :=
  let shift := mw_bits r - _effective_offset bit - width in
  if (shift <? 0) || (width <=? 0) then 0 else Z.land (Z.shiftr (mw_val r) shift) (Z.shiftl 1 width - 1).
Definition MultiWordReader_s (r : _5516_MultiWordReader) (bit width : Z) : Z :=
  twos_complement (MultiWordReader_u r bit width) width.
Definition MultiWordReader_bam (r : _5516_MultiWordReader) (bit width : Z) : float :=
  fmul (fl (MultiWordReader_s r bit width)) (fdiv_raw (fl 360) (fl (Z.shiftl 1 width))).

Definition _5516_word_label (val : Z) : Z * Z := (BitReader_u val 2 6, BitReader_u val 8 4).

(** ** Messages *)
Definition fabs (x : float) : float := SpecFloat.SFabs x.

(** [abs(lat_deg) > 90 or abs(lon_deg) > 180] *)
Definition off_the_map (lat lon : float) : bool := flt (fl 90) (fabs lat) || flt (fl 180) (fabs lon).

Definition lat_scale : float := fdiv_raw (fl 180) (fl (Z.shiftl 1 24)).
Definition lon_scale : float := fdiv_raw (fl 360) (fl (Z.shiftl 1 26)).
Definition heading_scale : float := fdiv_raw (fl 360) (fl 2048).
Definition knot : float := dec 514444 6.

(** The dictionary the two decoders return. *)
Definition link16_track (now : float) (src : string) (number : Z) (aff : string) (lat lon : float) (alt spd hdg : Z) : dict :=
  [("_ts", VFloat now); ("_src", VStr src); ("track_num", VInt number); ("affiliation", VStr aff);
   ("lat_deg", VFloat (py_round lat 6)); ("lon_deg", VFloat (py_round lon 6)); ("alt_baro_ft", VInt (alt * 100 - 100000));
   ("speed_ms", VFloat (py_round (fmul (fl spd) knot) 1)); ("heading_deg", VFloat (py_round (fmul (fl hdg) heading_scale) 1))].

Definition _5516_decode_j32 (now : float) (words : list bytes) : exc (option dict) :=
  if len words <? 3 then Ok None else
  let? r := MultiWordReader words in
  let identity_raw := MultiWordReader_u r 17 3 in
  let aff := tget_or _5516_ID_AFF identity_raw "unknown" in
  let track_num := Z.lor (Z.shiftl (MultiWordReader_u r 22 2) 10) (MultiWordReader_u r 24 10) in
  let lat_raw := MultiWordReader_s r 35 25 in
  let lat_deg := fmul (fl lat_raw) lat_scale in
  let lon_msb := MultiWordReader_u r 60 15 in
  let lon_lsb := MultiWordReader_u r 75 11 in
  let lon_raw_u := Z.lor (Z.shiftl lon_msb 11) lon_lsb in
  let lon_raw_s := if Z.shiftl 1 25 <=? lon_raw_u then lon_raw_u - Z.shiftl 1 26 else lon_raw_u in
  let lon_deg := fmul (fl lon_raw_s) lon_scale in
  let alt_raw := MultiWordReader_u r 86 11 in
  let spd_raw := MultiWordReader_u r 97 12 in
  let hdg_raw := MultiWordReader_u r 109 11 in
  if off_the_map lat_deg lon_deg then Ok None else
  Ok (Some (link16_track now "Link 16 J3.2" track_num aff lat_deg lon_deg alt_raw spd_raw hdg_raw)).

Definition _5516_decode_j22 (now : float) (words : list bytes) : exc (option dict) :=
  if len words <? 3 then Ok None else
  let? r := MultiWordReader words in
  let stn := MultiWordReader_u r 12 12 in
  let lat_raw := MultiWordReader_s r 24 25 in
  let lat_deg := fmul (fl lat_raw) lat_scale in
  let lon_raw_u := MultiWordReader_u r 49 26 in
  let lon_raw_s := if Z.shiftl 1 25 <=? lon_raw_u then lon_raw_u - Z.shiftl 1 25 else lon_raw_u in
  let lon_deg := fmul (fl lon_raw_s) lon_scale in
  let alt_raw := MultiWordReader_u r 86 10 in
  let spd_raw := MultiWordReader_u r 96 12 in
  let hdg_raw := MultiWordReader_u r 108 11 in
  if off_the_map lat_deg lon_deg then Ok None else
  Ok (Some (link16_track now "Link 16 J2.2" stn "friendly" lat_deg lon_deg alt_raw spd_raw hdg_raw)).

(** [track["_src"] = src; track["domain"] = domain] of a track that was decoded. *)
Definition renamed (src domain : string) (m : exc (option dict)) : exc (option dict) :=
  let? track := m in
  Ok (option_map (fun track => dset "domain" (VStr domain) (dset "_src" (VStr src) track)) track).

Definition _5516_decode_j35 (now : float) (words : list bytes) : exc (option dict) :=
  renamed "Link 16 J3.5" "sea" (_5516_decode_j32 now words).
Definition _5516_decode_j25 (now : float) (words : list bytes) : exc (option dict) :=
  renamed "Link 16 J2.5" "sea" (_5516_decode_j22 now words).
Definition _5516_decode_j37 (now : float) (words : list bytes) : exc (option dict) :=
  renamed "Link 16 J3.7" "land" (_5516_decode_j32 now words).

(** [d.get(key)] of a table keyed by strings. *)
Definition sget {A} (t : list (string * A)) (key : string) : option A :=
  option_map snd (List.find (fun kv => String.eqb (fst kv) key) t).
Definition sget2 (t : list ((string * string) * string)) (a b : string) : option string :=
  option_map snd (List.find (fun kv => String.eqb (fst (fst kv)) a && String.eqb (snd (fst kv)) b) t).
Definition zget2 (t : list ((Z * Z) * string)) (k : Z * Z) : option string :=
  option_map snd (List.find (fun kv => (fst (fst kv) =? fst k) && (snd (fst kv) =? snd k)) t).

Definition _5516_MSG_WORD_COUNT : list (string * Z) :=
  [("J2.2", 3); ("J2.5", 3); ("J3.2", 3); ("J3.5", 3); ("J3.7", 3)].
Definition _5516_MSG_DECODER : list (string * (float -> list bytes -> exc (option dict))) :=
  [("J2.2", _5516_decode_j22); ("J2.5", _5516_decode_j25); ("J3.2", _5516_decode_j32);
   ("J3.5", _5516_decode_j35); ("J3.7", _5516_decode_j37)].
Definition _5516_MSG_DOMAIN : list (string * string) :=
  [("J2.2", "air"); ("J2.5", "sea"); ("J3.2", "air"); ("J3.5", "sea"); ("J3.7", "land")].

(** The strings that the decoders put in a track. *)
Definition link16_text (track : dict) (key : string) : option string :=
  match dget track key with Some (VStr s) => Some s | _ => None end.

Definition _5516_topic_for (root : string) (track : dict) (msg_type : string) : string :=
  let domain := match link16_text track "domain" with
                | Some ((String _ _) as s) => s
                | _ => default "land" (sget _5516_MSG_DOMAIN msg_type)
                end in
  let aff := default "unknown" (link16_text track "affiliation") in
  default (root +:+ "/land/stanag_5516/c2/unknown/unit") (sget2 (_5516_TOPIC_MAP root) domain aff).

(** ** Packets *)
Definition _5516_parse_jreap_header (data : bytes) : exc (Z * Z * bytes) :=
  if len data <? 4 then Raise ValueError else
  let? version := byte_at data 0 in
  if negb (version =? 1) then Raise ValueError else
  let? pdu_type := byte_at data 1 in
  let? seq_num := unpack_u 2 (slice data 2 4) in
  Ok (pdu_type, seq_num, slice data 4 (len data)).

Fixpoint words_loop (fuel : nat) (payload : bytes) (off : Z) : exc (list bytes) :=
  match fuel with
  | O => Raise OutOfFuel
  | S fuel' =>
      if off + _5516_WORD_BYTES <=? len payload then
        let? words := words_loop fuel' payload (off + _5516_WORD_BYTES) in
        Ok (slice payload off (off + _5516_WORD_BYTES) :: words)
      else Ok []
  end.
Definition _5516_extract_words (payload : bytes) : exc (list bytes) := words_loop (S (length payload)) payload 0.

(** What is published: the topic and the track. *)
Abbreviation report := (string * dict)%type.

(** The loop over the words; [clock i] is the time at which the message at word [i] is decoded. *)
Fixpoint messages_loop (fuel : nat) (root : string) (clock : Z -> float) (words : list bytes) (i : Z) : list report * exc unit :=
  match fuel with
  | O => ([], Raise OutOfFuel)
  | S fuel' =>
      if len words <=? i then ([], Ok tt) else
      match index words i with
      | Raise e => ([], Raise e)
      | Ok w =>
          match zget2 _5516_LABEL (_5516_word_label (word_value w)) with
          | None => messages_loop fuel' root clock words (i + 1)
          | Some msg_type =>
              let needed := default 1 (sget _5516_MSG_WORD_COUNT msg_type) in
              if len words <? i + needed then ([], Ok tt) else
              match sget _5516_MSG_DECODER msg_type with
              | None => messages_loop fuel' root clock words (i + needed)
              | Some decoder =>
                  match decoder (clock i) (slice words i (i + needed)) with
                  | Raise e => ([], Raise e)
                  | Ok None => messages_loop fuel' root clock words (i + needed)
                  | Ok (Some track) =>
                      let (out, r) := messages_loop fuel' root clock words (i + needed) in
                      ((_5516_topic_for root track msg_type, track) :: out, r)
                  end
              end
          end
      end
  end.

Definition _5516_process_packet (root : string) (clock : Z -> float) (data : bytes) : list report * exc unit :=
  match _5516_parse_jreap_header data with
  | Raise ValueError => ([], Ok tt)
  | Raise e => ([], Raise e)
  | Ok (pdu_type, _, payload) =>
      if negb (pdu_type =? 1) then ([], Ok tt) else
      match _5516_extract_words payload with
      | Raise e => ([], Raise e)
      | Ok words =>
          if len words =? 0 then ([], Ok tt) else messages_loop (S (length words)) root clock words 0
      end
  end.

(** [_5516_run_udp]: the datagrams of a socket, until one raises; [clock] by datagram. *)
Fixpoint _5516_run_udp (root : string) (clock : Z -> Z -> float) (n : Z) (datagrams : list bytes) : list report * exc unit :=
  match datagrams with
  | [] => ([], Ok tt)
  | data :: datagrams' =>
      let (out, r) := _5516_process_packet root (clock n) data in
      match r with
      | Raise e => (out, Raise e)
      | Ok _ => let (out', r') := _5516_run_udp root clock (n + 1) datagrams' in (out ++ out', r')
      end
  end.

(** [on_sample] of [_5516_run_zenoh_raw]: an exception is printed. *)
Definition _5516_on_sample (root : string) (clock : Z -> float) (data : bytes) : list report :=
  fst (_5516_process_packet root clock data).

(** ** What a terminal sends

    The fields of the two message layouts, as the comments of the source give
    them; [fill] stands for the bits the decoders do not read. *)
Inductive kind := PPLI_air | PPLI_surface | Air_track | Surface_track | Land_track.

Record sent := {
  s_kind : kind; s_number : Z; s_identity : Z;
  s_lat : Z; s_lon : Z;               (* binary angles, signed *)
  s_alt : Z; s_speed : Z; s_heading : Z;
  s_fill : list Z; s_last : Z; s_pad : Z * Z * Z;
}.

Definition ppli (k : kind) : bool := match k with PPLI_air | PPLI_surface => true | _ => false end.
Definition label_of (k : kind) : Z * Z :=
  match k with PPLI_air => (2, 2) | PPLI_surface => (2, 5) | Air_track => (3, 2) | Surface_track => (3, 5) | Land_track => (3, 7) end.

Definition word0 (m : sent) (fill : Z) : list (Z * Z) :=
  let (j, sub) := label_of (s_kind m) in
  let lat := s_lat m mod 2 ^ 25 in
  let lon := s_lon m mod 2 ^ 26 in
  if ppli (s_kind m) then [(Z.land fill 3, 2); (j, 6); (sub, 4); (s_number m, 12); (lat, 25); (lon, 26)]
  else [(Z.land fill 3, 2); (j, 6); (sub, 4); (Z.land fill 31, 5); (s_identity m, 3); (Z.land fill 3, 2);
        (s_number m, 12); (Z.land fill 1, 1); (lat, 25); (lon / 2 ^ 11, 15)].
Definition word1 (m : sent) (fill : Z) : list (Z * Z) :=
  if ppli (s_kind m) then [(Z.land fill 0x7FF, 11); (s_alt m, 10); (s_speed m, 12); (s_heading m, 11); (Z.land fill 0x7FFFFFFF, 31)]
  else [(s_lon m mod 2 ^ 26 mod 2 ^ 11, 11); (s_alt m, 11); (s_speed m, 12); (s_heading m, 11); (Z.land fill 0x3FFFFFFF, 30)].

(** A word in its ten octets, above five bits of padding. *)
Definition wire_word (v pad : Z) : bytes := be 10 (v * 32 + pad).

Definition fill_at (m : sent) (n : nat) : Z := nth n (s_fill m) 0.
Definition encode (m : sent) : list bytes :=
  let '(p0, p1, p2) := s_pad m in
  [wire_word (pack (word0 m (fill_at m 0))) p0; wire_word (pack (word1 m (fill_at m 1))) p1; wire_word (s_last m) p2].

Definition sendable (m : sent) : Prop :=
  0 <= s_number m < 2 ^ 12 /\ 0 <= s_identity m < 8 /\ - 2 ^ 24 <= s_lat m < 2 ^ 24 /\ - 2 ^ 25 <= s_lon m < 2 ^ 25 /\
  0 <= s_alt m < 2 ^ (if ppli (s_kind m) then 10 else 11) /\ 0 <= s_speed m < 2 ^ 12 /\ 0 <= s_heading m < 2 ^ 11 /\
  Forall (fun f => 0 <= f) (s_fill m) /\ 0 <= s_last m < 2 ^ 75 /\
  let '(p0, p1, p2) := s_pad m in 0 <= p0 < 32 /\ 0 <= p1 < 32 /\ 0 <= p2 < 32.

(** What is between two messages: a word whose label is none of the five. *)
Inductive item := Message (m : sent) | Other (v pad : Z).

Definition item_words (x : item) : list bytes := match x with Message m => encode m | Other v pad => [wire_word v pad] end.
Definition item_sendable (x : item) : Prop :=
  match x with
  | Message m => sendable m
  | Other v pad => 0 <= v < 2 ^ 75 /\ 0 <= pad < 32 /\ zget2 _5516_LABEL (get v 75 2 6, get v 75 8 4) = None
  end.

(** A J-series packet: version 1, type 1, a sequence number, the words with
    the beginning of a message in [tail], and what is too short to be a word. *)
Definition packet (seq : Z) (items : list item) (tail : list bytes) (rest : bytes) : bytes :=
  of_ints [1; 1] ++ be 2 seq ++ concat (concat (map item_words items) ++ tail) ++ rest.

(** What may follow the last whole message: the beginning of another one. *)
Definition unfinished (tail : list bytes) : Prop :=
  exists m n, sendable m /\ (n < 3)%nat /\ tail = firstn n (encode m).

Definition domain_of (k : kind) : string :=
  match k with PPLI_air | Air_track => "air" | PPLI_surface | Surface_track => "sea" | Land_track => "land" end.
Definition affiliation_of (m : sent) : string :=
  if ppli (s_kind m) then "friendly" else tget_or _5516_ID_AFF (s_identity m) "unknown".
Definition src_of (k : kind) : string :=
  match k with
  | PPLI_air => "Link 16 J2.2" | PPLI_surface => "Link 16 J2.5" | Air_track => "Link 16 J3.2"
  | Surface_track => "Link 16 J3.5" | Land_track => "Link 16 J3.7"
  end.

(** What is published of messages: of each, a track with its fields, the
    longitude being [lon] of it, unless its latitude is beyond a pole. *)
Section Reports.
Variable lon : sent -> Z.

Definition track_of (now : float) (m : sent) : dict :=
  link16_track now (src_of (s_kind m)) (s_number m) (affiliation_of m) (fmul (fl (s_lat m)) lat_scale)
    (fmul (fl (lon m)) lon_scale) (s_alt m) (s_speed m) (s_heading m) ++
  match s_kind m with
  | PPLI_surface | Surface_track => [("domain", VStr "sea")]
  | Land_track => [("domain", VStr "land")]
  | _ => []
  end.

Definition report_of (root : string) (now : float) (m : sent) : list report :=
  if Z.abs (s_lat m) <=? 2 ^ 23
  then [(default "" (sget2 (_5516_TOPIC_MAP root) (domain_of (s_kind m)) (affiliation_of m)), track_of now m)]
  else [].

Fixpoint reports (root : string) (clock : Z -> float) (i : Z) (items : list item) : list report :=
  match items with
  | [] => []
  | Message m :: items' => report_of root (clock i) m ++ reports root clock (i + 3) items'
  | Other _ _ :: items' => reports root clock (i + 1) items'
  end.
End Reports.

(** Own units are not west of Greenwich (for those that are,
    [ppli_west_turned]). *)
Definition side_known (x : item) : Prop :=
  match x with Message m => ppli (s_kind m) = true -> 0 <= s_lon m | Other _ _ => True end.

(** The longitude the decoders take a message to have: those of own units
    subtract half of what the sign of 26 bits is worth. *)
Definition seen_lon (m : sent) : Z := if ppli (s_kind m) && (s_lon m <? 0) then s_lon m + 2 ^ 25 else s_lon m.

Lemma reports_sent root clock i items : Forall side_known items ->
  reports seen_lon root clock i items = reports s_lon root clock i items.
Proof.
  intros Hx. revert i. induction Hx as [|[m|v pad] items Hm _ IH]; intros i; cbn [reports]; [done| |by rewrite IH].
  rewrite IH. f_equal. unfold report_of, track_of. cbn [side_known] in Hm. assert (seen_lon m = s_lon m) as ->; [|done].
  unfold seen_lon. destruct (ppli _); cbn [andb]; [|done]. by replace (s_lon m <? 0) with false by lia.
Qed.

(** * What becomes of a message: the published track has the fields that were
    sent, and no datagram stops the receiver *)
(** A field of the low or of the high part of a number. *)
Lemma low_window a v n s w : 0 <= s -> 0 <= w -> s + w <= n -> ((a * 2 ^ n + v) / 2 ^ s) mod 2 ^ w = (v / 2 ^ s) mod 2 ^ w.
Proof.
  intros Hs Hw Hn. replace n with (s + (w + (n - s - w))) by lia. rewrite !Z.pow_add_r by lia.
  replace (a * (2 ^ s * (2 ^ w * 2 ^ (n - s - w))) + v) with (v + (a * 2 ^ (n - s - w) * 2 ^ w) * 2 ^ s) by ring.
  rewrite Z.div_add, Z.mod_add by lia. done.
Qed.


Lemma high_window v c n s : 0 <= n -> 0 <= s -> 0 <= c < 2 ^ n -> (v * 2 ^ n + c) / 2 ^ (n + s) = v / 2 ^ s.
Proof. intros Hn Hs Hc. rewrite Z.pow_add_r, <- Z.div_div, Z.div_add_l, (Z.div_small c) by lia. by rewrite Z.add_0_r. Qed.

Lemma len_wire_word v pad : len (wire_word v pad) = 10.
Proof. apply len_be. Qed.

Lemma wire_word_value v pad : 0 <= v < 2 ^ 75 -> 0 <= pad < 32 -> word_value (wire_word v pad) = v.
Proof.
  intros Hv Hp. unfold word_value. rewrite <- (len_wire_word v pad), slice_all. unfold wire_word.
  rewrite int_from_be_small by lia. rewrite Z.shiftr_div_pow2 by lia. change (2 ^ 5) with 32.
  rewrite Z.div_add_l, Z.div_small by lia. lia.
Qed.

(** Every word has at most 75 bits, so [to_bytes] has room for it. *)
Lemma stored_word w : to_bytes (word_value w) 10 = Ok (be 10 (word_value w)).
Proof.
  apply to_bytes_ok; [|lia]. unfold word_value. pose proof (int_from_bytes_range (slice w 0 10)) as Hr.
  pose proof (len_slice_le w 0 10 ltac:(lia)). rewrite Z.shiftr_div_pow2 by lia.
  split; [apply Z.div_pos; lia|]. apply Z.div_lt_upper_bound; [lia|].
  enough (2 ^ (8 * len (slice w 0 10)) <= 2 ^ 80) by (change (2 ^ (8 * 10)) with (2 ^ 80); lia).
  apply Z.pow_le_mono_r; lia.
Qed.

Lemma bitreader_field v off w : 0 <= off -> 0 <= w -> off + w <= 75 -> BitReader_u v off w = get v 75 off w.
Proof.
  intros Ho Hw Hb. unfold BitReader_u, get, _5516_WORD_BITS. replace (75 - off - w <? 0) with false by lia.
  by rewrite mask_mod, Z.shiftr_div_pow2 by lia.
Qed.

Section Reader.
Variables (v0 v1 v2 p0 p1 p2 : Z).
Hypotheses (H0 : 0 <= v0 < 2 ^ 75) (H1 : 0 <= v1 < 2 ^ 75) (H2 : 0 <= v2 < 2 ^ 75).
Hypotheses (Hp0 : 0 <= p0 < 32) (Hp1 : 0 <= p1 < 32) (Hp2 : 0 <= p2 < 32).

Definition reader : _5516_MultiWordReader := {| mw_val := (v0 * 2 ^ 80 + v1) * 2 ^ 80 + v2; mw_bits := 240 |}.

Lemma reader_ok : MultiWordReader [wire_word v0 p0; wire_word v1 p1; wire_word v2 p2] = Ok reader.
Proof.
  unfold MultiWordReader. cbn [stored]. rewrite !stored_word, !wire_word_value by done. cbn [exc_bind]. unfold reader.
  do 2 f_equal. rewrite app_nil_r, !int_from_bytes_app, !int_from_be_small by lia. rewrite !len_app, !len_be.
  change (2 ^ (8 * Z.of_nat 10)) with (2 ^ 80). replace (8 * (Z.of_nat 10 + Z.of_nat 10)) with (80 + 80) by lia.
  rewrite Z.pow_add_r by lia. ring.
Qed.

Lemma reader_field k v bit w :
  (k = 0 /\ v = v0 \/ k = 1 /\ v = v1 \/ k = 2 /\ v = v2) ->
  75 * k <= bit -> 0 < w -> bit - 75 * k + w <= 75 -> MultiWordReader_u reader bit w = get v 75 (bit - 75 * k) w.
Proof.
  intros Hk Hb Hw He. unfold MultiWordReader_u, _effective_offset, get. cbn [mw_bits mw_val reader].
  assert (bit / 75 = k) as -> by (symmetry; apply (Z.div_unique _ _ _ (bit - 75 * k)); lia).
  assert (bit mod 75 = bit - 75 * k) as -> by (symmetry; apply (Z.mod_unique _ _ k); lia).
  set (b := bit - 75 * k) in *. replace (240 - _ - w) with (80 * (2 - k) + (75 - b - w)) by lia.
  replace ((80 * (2 - k) + (75 - b - w) <? 0) || (w <=? 0)) with false by lia.
  rewrite mask_mod, Z.shiftr_div_pow2 by lia. assert (2 ^ 75 < 2 ^ 80) by lia.
  destruct Hk as [[-> ->]|[[-> ->]|[-> ->]]].
  - replace (80 * (2 - 0) + _) with (160 + (75 - b - w)) by lia.
    replace ((v0 * 2 ^ 80 + v1) * 2 ^ 80 + v2) with (v0 * 2 ^ 160 + (v1 * 2 ^ 80 + v2)) by (change (2 ^ 160) with (2 ^ 80 * 2 ^ 80); ring).
    f_equal. apply high_window; [lia|lia|]. change (2 ^ 160) with (2 ^ 80 * 2 ^ 80). nia.
  - replace (80 * (2 - 1) + _) with (80 + (75 - b - w)) by lia.
    rewrite high_window by lia. apply low_window; lia.
  - replace (80 * (2 - 2) + _) with (75 - b - w) by lia. apply low_window; lia.
Qed.
End Reader.

(** ** Coordinates *)

Lemma lat_scale_exact : lat_scale = canon false 45 (-22).
Proof. vm_compute. reflexivity. Qed.
Lemma lon_scale_exact : lon_scale = canon false 45 (-23).
Proof. vm_compute. reflexivity. Qed.

(** A binary angle times its scale, compared with a limit in degrees. *)
Lemma angle_limit z n limit : Z.abs z <= 2 ^ 25 -> 0 <= n <= 100 -> 0 < limit < 2 ^ 53 ->
  flt (fl limit) (fabs (fmul (fl z) (canon false 45 (- n)))) = (limit * 2 ^ n <? Z.abs z * 45).
Proof.
  intros Hz Hn Hl. destruct limit as [|l|l]; [lia| |lia]. destruct (fl_exact l ltac:(lia)) as [-> _].
  assert (digits2 l <= 53) as Dl by (apply digits2_le; lia).
  destruct z as [|m|m].
  - change (fl 0) with (S754_zero false). cbn [Z.abs]. unfold fmul, canon. cbn. symmetry. apply Z.ltb_ge.
    assert (0 < 2 ^ n) by lia. lia.
  - destruct (fl_exact m ltac:(lia)) as [-> _]. rewrite fmul_exact; [|apply digits2_le; lia|done|apply digits2_le; lia|lia].
    change (fabs (canon ?s ?m ?j)) with (canon false m j). rewrite (flt_canon _ _ _ _ (- n)); [|done|apply digits2_le; lia|lia|lia].
    cbn [Z.abs]. rewrite Pos2Z.inj_mul. replace (0 - - n) with n by lia. replace (0 + - n - - n) with 0 by lia.
    by rewrite Z.pow_0_r, Z.mul_1_r.
  - destruct (fl_exact m ltac:(lia)) as [_ ->]. rewrite fmul_exact; [|apply digits2_le; lia|done|apply digits2_le; lia|lia].
    change (fabs (canon ?s ?m ?j)) with (canon false m j). rewrite (flt_canon _ _ _ _ (- n)); [|done|apply digits2_le; lia|lia|lia].
    cbn [Z.abs]. rewrite Pos2Z.inj_mul. replace (0 - - n) with n by lia. replace (0 + - n - - n) with 0 by lia.
    by rewrite Z.pow_0_r, Z.mul_1_r.
Qed.

Lemma off_the_map_exact lat lon : Z.abs lat <= 2 ^ 24 -> Z.abs lon <= 2 ^ 25 ->
  off_the_map (fmul (fl lat) lat_scale) (fmul (fl lon) lon_scale) = negb (Z.abs lat <=? 2 ^ 23).
Proof.
  intros Hlat Hlon. unfold off_the_map. rewrite lat_scale_exact, lon_scale_exact.
  change (-22) with (- (22)). change (-23) with (- (23)). rewrite !angle_limit by lia.
  change (90 * 2 ^ 22) with (45 * 2 ^ 23). change (180 * 2 ^ 23) with (45 * 2 ^ 25).
  destruct (Z.leb_spec (Z.abs lat) (2 ^ 23)); lia.
Qed.

(** ** One message *)

Definition filler_ok (m : sent) : Prop := Forall (fun f => 0 <= f) (s_fill m).

Lemma fill_at_nonneg m n : filler_ok m -> 0 <= fill_at m n.
Proof.
  intros H. unfold fill_at, filler_ok in *. destruct (nth_in_or_default n (s_fill m) 0) as [Hin| ->]; [|lia].
  rewrite List.Forall_forall in H. auto.
Qed.

Lemma land_width f m w : m = Z.ones w -> 0 <= w -> fits_width (Z.land f m, w).
Proof. intros -> Hw. split; [done|]. cbn [fst snd]. rewrite Z.land_ones by lia. apply Z.mod_pos_bound. lia. Qed.

Ltac field_width :=
  first [ apply land_width; [reflexivity|lia]
        | split; cbn [fst snd]; [lia|]; first [lia | apply Z.mod_pos_bound; lia
            | split; [apply Z.div_pos|apply Z.div_lt_upper_bound]; pose proof (Z.mod_pos_bound) ; lia ] ].

Lemma word0_ok m fill : sendable m -> Forall fits_width (word0 m fill) /\ widths (word0 m fill) = 75.
Proof.
  intros (Hn & Hi & Hlat & Hlon & Ha & Hs & Hh & _). unfold word0.
  pose proof (Z.mod_pos_bound (s_lon m) (2 ^ 26) ltac:(lia)) as Hm.
  destruct (s_kind m); cbn [ppli label_of]; (split; [repeat (constructor; [field_width|]); constructor|reflexivity]).
Qed.

Lemma word1_ok m fill : sendable m -> Forall fits_width (word1 m fill) /\ widths (word1 m fill) = 75.
Proof.
  intros (Hn & Hi & Hlat & Hlon & Ha & Hs & Hh & _). unfold word1.
  destruct (s_kind m); cbn [ppli label_of] in *; (split; [repeat (constructor; [field_width|]); constructor|reflexivity]).
Qed.

Fixpoint field_at (fs : list (Z * Z)) (off : Z) : option (Z * Z) :=
  match fs with
  | [] => None
  | (v, w) :: fs' => if off =? 0 then Some (v, w) else field_at fs' (off - w)
  end.

Lemma get_field fs off v w : Forall fits_width fs -> widths fs = 75 -> field_at fs off = Some (v, w) ->
  get (pack fs) 75 off w = v.
Proof.
  intros Hf <- Ha.
  assert (exists before after, fs = before ++ (v, w) :: after /\ off = widths before) as (before & after & -> & ->).
  { clear Hf. revert off Ha. induction fs as [|[v' w'] fs IH]; intros off; [done|]. cbn [field_at].
    destruct (Z.eqb_spec off 0) as [->|Hne]; [intros [= -> ->]; by exists [], fs|].
    intros (b & a & -> & E)%IH. exists ((v', w') :: b), a. split; [done|]. cbn. fold (widths b). lia. }
  apply get_pack; [done|done|]. rewrite widths_app. cbn. fold (widths after). lia.
Qed.

Lemma twos_complement_mod z w : 0 < w -> - 2 ^ (w - 1) <= z < 2 ^ (w - 1) -> twos_complement (z mod 2 ^ w) w = z.
Proof.
  intros Hw Hz. unfold twos_complement. rewrite !Z.shiftl_1_l.
  assert (2 ^ w = 2 * 2 ^ (w - 1)) as E by (rewrite <- Z.pow_succ_r by lia; f_equal; lia).
  destruct (Z.le_gt_cases 0 z).
  - rewrite Z.mod_small by lia. destruct (Z.leb_spec (2 ^ (w - 1)) z); lia.
  - assert (z mod 2 ^ w = z + 2 ^ w) as -> by (symmetry; apply (Z.mod_unique _ _ (-1)); lia).
    destruct (Z.leb_spec (2 ^ (w - 1)) (z + 2 ^ w)); lia.
Qed.

(** The fields of the first two words, read through the message reader. *)
Lemma read_word0 f0 f1 v2 off v w : Forall fits_width f0 -> widths f0 = 75 -> Forall fits_width f1 -> widths f1 = 75 ->
  0 <= v2 < 2 ^ 75 -> field_at f0 off = Some (v, w) -> 0 <= off -> 0 < w -> off + w <= 75 ->
  MultiWordReader_u (reader (pack f0) (pack f1) v2) off w = v.
Proof.
  intros F0 W0 F1 W1 H2 Ha Ho Hw Hb. pose proof (pack_range _ F1) as R1. rewrite W1 in R1.
  rewrite (reader_field _ _ _ R1 H2 0 (pack f0)) by (lia || auto). rewrite Z.mul_0_r, Z.sub_0_r. by apply get_field.
Qed.

Lemma read_word1 f0 f1 v2 bit off v w : Forall fits_width f1 -> widths f1 = 75 ->
  0 <= v2 < 2 ^ 75 -> field_at f1 off = Some (v, w) -> bit = 75 + off -> 0 <= off -> 0 < w -> off + w <= 75 ->
  MultiWordReader_u (reader (pack f0) (pack f1) v2) bit w = v.
Proof.
  intros F1 W1 H2 Ha -> Ho Hw Hb. pose proof (pack_range _ F1) as R1. rewrite W1 in R1.
  rewrite (reader_field _ _ _ R1 H2 1 (pack f1)) by (lia || auto). replace (75 + off - 75 * 1) with off by lia. by apply get_field.
Qed.

(** A field that is read in two parts. *)
Lemma read_word0_parts f0 f1 v2 off off' v w1 w2 : Forall fits_width f0 -> widths f0 = 75 -> Forall fits_width f1 -> widths f1 = 75 ->
  0 <= v2 < 2 ^ 75 -> field_at f0 off = Some (v, w1 + w2) -> off' = off + w1 -> 0 <= off -> 0 < w1 -> 0 < w2 -> off + w1 + w2 <= 75 ->
  Z.lor (Z.shiftl (MultiWordReader_u (reader (pack f0) (pack f1) v2) off w1) w2)
        (MultiWordReader_u (reader (pack f0) (pack f1) v2) off' w2) = v.
Proof.
  intros F0 W0 F1 W1 H2 Ha -> Ho Hw1 Hw2 Hb. pose proof (pack_range _ F1) as R1. rewrite W1 in R1.
  rewrite !(reader_field _ _ _ R1 H2 0 (pack f0)) by (lia || auto). rewrite Z.mul_0_r, !Z.sub_0_r.
  rewrite lor_concat by (try apply get_range; lia). rewrite <- get_join by lia. by apply get_field.
Qed.

Lemma wire_words_ok m : sendable m ->
  exists v0 v1 v2 p0 p1 p2, encode m = [wire_word v0 p0; wire_word v1 p1; wire_word v2 p2] /\
    v0 = pack (word0 m (fill_at m 0)) /\ v1 = pack (word1 m (fill_at m 1)) /\ v2 = s_last m /\
    0 <= v0 < 2 ^ 75 /\ 0 <= v1 < 2 ^ 75 /\ 0 <= v2 < 2 ^ 75 /\ MultiWordReader (encode m) = Ok (reader v0 v1 v2).
Proof.
  intros Hs. destruct (word0_ok m (fill_at m 0) Hs) as [F0 W0]. destruct (word1_ok m (fill_at m 1) Hs) as [F1 W1].
  pose proof (pack_range _ F0) as R0. rewrite W0 in R0. pose proof (pack_range _ F1) as R1. rewrite W1 in R1.
  destruct Hs as (_ & _ & _ & _ & _ & _ & _ & _ & Hl & Hpad). unfold encode. destruct (s_pad m) as [[p0 p1] p2].
  destruct Hpad as (P0 & P1 & P2). do 6 eexists. split; [done|]. split_and!; try done; try lia. by apply reader_ok.
Qed.

Lemma decode_track m now : sendable m -> ppli (s_kind m) = false ->
  _5516_decode_j32 now (encode m) =
  Ok (if Z.abs (s_lat m) <=? 2 ^ 23 then
        Some (link16_track now "Link 16 J3.2" (s_number m) (affiliation_of m) (fmul (fl (s_lat m)) lat_scale)
                (fmul (fl (s_lon m)) lon_scale) (s_alt m) (s_speed m) (s_heading m))
      else None).
Proof.
  intros Hs Hk. destruct (wire_words_ok m Hs) as (v0 & v1 & v2 & p0 & p1 & p2 & E & -> & -> & -> & R0 & R1 & R2 & HR).
  destruct (word0_ok m (fill_at m 0) Hs) as [F0 W0]. destruct (word1_ok m (fill_at m 1) Hs) as [F1 W1].
  destruct Hs as (Hn & Hi & Hlat & Hlon & Ha & Hsp & Hh & _).
  unfold _5516_decode_j32. rewrite HR, E. change (len [_; _; _] <? 3) with false. cbv iota. cbn [exc_bind]. clear E HR.
  unfold MultiWordReader_s, word0, word1 in *. unfold affiliation_of. rewrite Hk in *.
  destruct (label_of (s_kind m)) as [j sub]. cbv beta iota in *.
  match goal with |- context [reader (pack ?a) (pack ?b) _] => set (f0 := a) in *; set (f1 := b) in * end.
  rewrite (read_word0 f0 f1 _ 17 _ 3 F0 W0 F1 W1 R2 eq_refl) by lia.
  rewrite (read_word0_parts f0 f1 _ 22 24 _ 2 10 F0 W0 F1 W1 R2 eq_refl eq_refl) by lia.
  rewrite (read_word0 f0 f1 _ 35 _ 25 F0 W0 F1 W1 R2 eq_refl) by lia.
  rewrite (read_word0 f0 f1 _ 60 _ 15 F0 W0 F1 W1 R2 eq_refl) by lia.
  rewrite (read_word1 f0 f1 _ 75 0 _ 11 F1 W1 R2 eq_refl eq_refl) by lia.
  rewrite (read_word1 f0 f1 _ 86 11 _ 11 F1 W1 R2 eq_refl eq_refl) by lia.
  rewrite (read_word1 f0 f1 _ 97 22 _ 12 F1 W1 R2 eq_refl eq_refl) by lia.
  rewrite (read_word1 f0 f1 _ 109 34 _ 11 F1 W1 R2 eq_refl eq_refl) by lia.
  rewrite twos_complement_mod by lia. rewrite lor_concat by (try apply Z.mod_pos_bound; lia).
  replace (_ / 2 ^ 11 * 2 ^ 11 + _) with (s_lon m mod 2 ^ 26)
    by (rewrite Z.mul_comm; apply Z.div_mod; lia).
  cbv zeta. change (if Z.shiftl 1 25 <=? ?x then ?x - Z.shiftl 1 26 else ?x) with (twos_complement x 26).
  rewrite twos_complement_mod by lia. rewrite off_the_map_exact by lia. by destruct (Z.abs (s_lat m) <=? 2 ^ 23).
Qed.

Lemma decode_ppli m now : sendable m -> ppli (s_kind m) = true ->
  _5516_decode_j22 now (encode m) =
  Ok (if Z.abs (s_lat m) <=? 2 ^ 23 then
        Some (link16_track now "Link 16 J2.2" (s_number m) "friendly" (fmul (fl (s_lat m)) lat_scale)
                (fmul (fl (seen_lon m)) lon_scale) (s_alt m) (s_speed m) (s_heading m))
      else None).
Proof.
  intros Hs Hk. destruct (wire_words_ok m Hs) as (v0 & v1 & v2 & p0 & p1 & p2 & E & -> & -> & -> & R0 & R1 & R2 & HR).
  destruct (word0_ok m (fill_at m 0) Hs) as [F0 W0]. destruct (word1_ok m (fill_at m 1) Hs) as [F1 W1].
  destruct Hs as (Hn & Hi & Hlat & Hlon & Ha & Hsp & Hh & _).
  unfold _5516_decode_j22. rewrite HR, E. change (len [_; _; _] <? 3) with false. cbv iota. cbn [exc_bind]. clear E HR.
  unfold MultiWordReader_s, word0, word1, seen_lon in *. rewrite Hk in *.
  destruct (label_of (s_kind m)) as [j sub]. cbv beta iota in *. cbn [andb].
  match goal with |- context [reader (pack ?a) (pack ?b) _] => set (f0 := a) in *; set (f1 := b) in * end.
  rewrite (read_word0 f0 f1 _ 12 _ 12 F0 W0 F1 W1 R2 eq_refl) by lia.
  rewrite (read_word0 f0 f1 _ 24 _ 25 F0 W0 F1 W1 R2 eq_refl) by lia.
  rewrite (read_word0 f0 f1 _ 49 _ 26 F0 W0 F1 W1 R2 eq_refl) by lia.
  rewrite (read_word1 f0 f1 _ 86 11 _ 10 F1 W1 R2 eq_refl eq_refl) by lia.
  rewrite (read_word1 f0 f1 _ 96 21 _ 12 F1 W1 R2 eq_refl eq_refl) by lia.
  rewrite (read_word1 f0 f1 _ 108 33 _ 11 F1 W1 R2 eq_refl eq_refl) by lia.
  rewrite twos_complement_mod by lia. cbv zeta. change (Z.shiftl 1 25) with (2 ^ 25).
  assert ((if 2 ^ 25 <=? s_lon m mod 2 ^ 26 then s_lon m mod 2 ^ 26 - 2 ^ 25 else s_lon m mod 2 ^ 26) =
          (if s_lon m <? 0 then s_lon m + 2 ^ 25 else s_lon m)) as ->.
  { destruct (Z.ltb_spec (s_lon m) 0).
    - assert (s_lon m mod 2 ^ 26 = s_lon m + 2 ^ 26) as -> by (symmetry; apply (Z.mod_unique _ _ (-1)); lia).
      destruct (Z.leb_spec (2 ^ 25) (s_lon m + 2 ^ 26)); lia.
    - rewrite Z.mod_small by lia. destruct (Z.leb_spec (2 ^ 25) (s_lon m)); lia. }
  rewrite off_the_map_exact by (try destruct (Z.ltb_spec (s_lon m) 0); lia). by destruct (Z.abs (s_lat m) <=? 2 ^ 23).
Qed.

(** ** The words of a packet *)
Lemma words_loop_ok fuel pre ws rest : (length ws < fuel)%nat -> Forall (fun w => len w = 10) ws -> len rest < 10 ->
  words_loop fuel (pre ++ concat ws ++ rest) (len pre) = Ok ws.
Proof.
  revert pre ws. induction fuel as [|fuel IH]; intros pre ws Hf Hw Hr; [lia|]. cbn [words_loop]. unfold _5516_WORD_BYTES.
  destruct Hw as [|w ws Hw Hws]; cbn [concat].
  - rewrite app_nil_l, len_app. by replace (len pre + 10 <=? len pre + len rest) with false by lia.
  - cbn [length] in Hf. pose proof (len_nonneg (concat ws)). pose proof (len_nonneg rest).
    rewrite !len_app. replace (len pre + 10 <=? _) with true by lia.
    rewrite <- app_assoc. rewrite (slice_mid pre w) by lia.
    rewrite (app_assoc pre w).
    replace (len pre + 10) with (len (pre ++ w)) by (rewrite len_app; lia). by rewrite IH by (done || lia).
Qed.

Lemma label_of_message m : sendable m ->
  exists v0 p0 w1 w2, encode m = [wire_word v0 p0; w1; w2] /\ _5516_word_label (word_value (wire_word v0 p0)) = label_of (s_kind m).
Proof.
  intros Hs. destruct (word0_ok m (fill_at m 0) Hs) as [F0 W0]. pose proof (pack_range _ F0) as R0. rewrite W0 in R0.
  destruct Hs as (_ & _ & _ & _ & _ & _ & _ & _ & _ & Hpad). unfold encode. destruct (s_pad m) as [[p0 p1] p2].
  do 4 eexists. split; [done|]. rewrite wire_word_value by tauto. unfold _5516_word_label. rewrite !bitreader_field by lia.
  rewrite (surjective_pairing (label_of (s_kind m))). f_equal; (apply get_field; [done|done|]);
    unfold word0; by destruct (s_kind m).
Qed.


Lemma topic_known root d a x y : selem d ["air"; "sea"; "land"] = true -> selem a ["friendly"; "neutral"; "hostile"; "unknown"] = true ->
  default x (sget2 (_5516_TOPIC_MAP root) d a) = default y (sget2 (_5516_TOPIC_MAP root) d a).
Proof.
  intros Hd%selem_In Ha%selem_In. cbn [In] in Hd, Ha.
  repeat (destruct Hd as [<-|Hd]; [repeat (destruct Ha as [<-|Ha]; [done|]); destruct Ha|]). destruct Hd.
Qed.

Lemma decoder_of_message m now : sendable m ->
  exists msg_type decoder, zget2 _5516_LABEL (label_of (s_kind m)) = Some msg_type /\
    sget _5516_MSG_WORD_COUNT msg_type = Some 3 /\ sget _5516_MSG_DECODER msg_type = Some decoder /\
    decoder now (encode m) = Ok (if Z.abs (s_lat m) <=? 2 ^ 23 then Some (track_of seen_lon now m) else None) /\
    forall root, _5516_topic_for root (track_of seen_lon now m) msg_type =
      default "" (sget2 (_5516_TOPIC_MAP root) (domain_of (s_kind m)) (affiliation_of m)).
Proof.
  intros Hs. pose proof (decode_track m now Hs) as Ht. pose proof (decode_ppli m now Hs) as Hp.
  assert (selem (affiliation_of m) ["friendly"; "neutral"; "hostile"; "unknown"] = true) as Ha.
  { unfold affiliation_of. destruct (ppli _); [done|]. apply tget_or_in. reflexivity. }
  unfold track_of, seen_lon, affiliation_of in *.
  destruct (s_kind m) eqn:Hk; cbn [ppli] in *; (do 2 eexists; split; [reflexivity|split; [reflexivity|split; [reflexivity|split]]]).
  all: cbn [snd].
  all: try (intros root; unfold _5516_topic_for, link16_text; cbn [dget dset link16_track app String.eqb Ascii.eqb Bool.eqb]; cbv iota).
  all: try (eapply topic_known; [|exact Ha]; reflexivity).
  all: unfold _5516_decode_j25, _5516_decode_j35, _5516_decode_j37.
  all: first [rewrite Hp by done | rewrite Ht by done]; cbn [andb]; destruct (_ <=? _); reflexivity.
Qed.

Lemma unfinished_start root clock fuel pre tail : unfinished tail ->
  messages_loop (S fuel) root clock (pre ++ tail) (len pre) = ([], Ok tt).
Proof.
  intros (m & n & Hs & Hn & ->). cbn [messages_loop].
  destruct (label_of_message m Hs) as (v0 & p0 & w1 & w2 & -> & Hl).
  destruct (decoder_of_message m (clock 0) Hs) as (msg_type & decoder & Hm & Hc & _ & _).
  destruct n as [|n]; cbn [firstn].
  - rewrite app_nil_r. by rewrite Z.leb_refl.
  - rewrite len_app, len_cons. pose proof (len_nonneg (firstn n [w1; w2])).
    replace (len pre + _ <=? len pre) with false by lia. rewrite (index_mid pre) by done. rewrite Hl, Hm, Hc. change (default 1 (Some 3)) with 3.
    assert (len (firstn n [w1; w2]) < 2) as Ht by (unfold len; rewrite length_firstn; cbn [length]; lia).
    by replace (len pre + (1 + _) <? len pre + 3) with true by lia.
Qed.

Lemma messages_loop_ok root clock tail items : Forall item_sendable items -> unfinished tail ->
  forall fuel pre, (length (concat (map item_words items)) < fuel)%nat ->
  messages_loop fuel root clock (pre ++ concat (map item_words items) ++ tail) (len pre) =
  (reports seen_lon root clock (len pre) items, Ok tt).
Proof.
  intros Hi Ht. induction Hi as [|x items Hx Hi IH]; intros [|fuel] pre Hf; [lia| |lia|].
  - by apply unfinished_start.
  - cbn [map concat] in *. rewrite length_app in Hf. set (rest := concat (map item_words items)) in *.
    pose proof (len_nonneg rest). pose proof (len_nonneg tail).
    cbn [messages_loop]. destruct x as [m|v pad]; cbn [item_words item_sendable] in *.
    + destruct (label_of_message m Hx) as (v0 & p0 & w1 & w2 & E & Hl).
      destruct (decoder_of_message m (clock (len pre)) Hx) as (msg_type & decoder & Hm & Hc & Hd & Hr & Htop).
      rewrite E in *. cbn [length] in Hf. rewrite !len_app. replace (len [_; _; _]) with 3 by done.
      replace (len pre + _ <=? len pre) with false by lia. cbn [app]. rewrite (index_mid pre) by done.
      rewrite Hl, Hm, Hc, Hd. change (default 1 (Some 3)) with 3. replace (len pre + _ <? len pre + 3) with false by lia.
      change (wire_word v0 p0 :: w1 :: w2 :: rest ++ tail) with ([wire_word v0 p0; w1; w2] ++ (rest ++ tail)).
      rewrite (slice_mid pre [wire_word v0 p0; w1; w2]) by done. rewrite Hr, (app_assoc pre).
      replace (len pre + 3) with (len (pre ++ [wire_word v0 p0; w1; w2])) by (rewrite len_app; done).
      cbn [reports]. unfold report_of. rewrite IH by lia. replace (len (pre ++ _)) with (len pre + 3) by (rewrite len_app; done).
      destruct (_ <=? _); [by rewrite Htop|done].
    + destruct Hx as (Hv & Hp & Hn). cbn [length] in Hf. rewrite !len_app. replace (len [_]) with 1 by done.
      replace (len pre + _ <=? len pre) with false by lia. cbn [app]. rewrite (index_mid pre) by done.
      unfold _5516_word_label. rewrite wire_word_value, !bitreader_field, Hn by lia.
      change (wire_word v pad :: rest ++ tail) with ([wire_word v pad] ++ (rest ++ tail)). rewrite (app_assoc pre).
      replace (len pre + 1) with (len (pre ++ [wire_word v pad])) by (rewrite len_app; done).
      rewrite IH by lia. cbn [reports]. by replace (len (pre ++ _)) with (len pre + 1) by (rewrite len_app; done).
Qed.

Lemma encode_words m : Forall (fun w => len w = 10) (encode m).
Proof. unfold encode. destruct (s_pad m) as [[p0 p1] p2]. repeat (constructor; [apply len_wire_word|]). constructor. Qed.

Lemma item_words_len items : Forall (fun w => len w = 10) (concat (map item_words items)).
Proof.
  induction items as [|x items IH]; [constructor|]. cbn [map concat]. apply Forall_app. split; [|exact IH].
  destruct x; [apply encode_words|]. constructor; [apply len_wire_word|constructor].
Qed.

Lemma jreap_header_ok seq payload : 0 <= seq < 2 ^ 16 ->
  _5516_parse_jreap_header (of_ints [1; 1] ++ be 2 seq ++ payload) = Ok (1, seq, payload).
Proof.
  intros Hs. unfold _5516_parse_jreap_header. rewrite !len_app, len_be. change (len (of_ints [1; 1])) with 2.
  pose proof (len_nonneg payload). destruct (Z.ltb_spec (2 + (Z.of_nat 2 + len payload)) 4) as [Hlt|_]; [exfalso; lia|].
  change (byte_at (of_ints [1; 1] ++ ?l) 0) with (Ok 1). change (byte_at (of_ints [1; 1] ++ ?l) 1) with (Ok 1). cbn [exc_bind].
  change (negb (1 =? 1)) with false. cbv iota.
  rewrite (slice_mid (of_ints [1; 1]) (be 2 seq)) by (done || by rewrite len_be).
  rewrite unpack_u_ok, int_from_be_small by (try apply len_be; lia). cbn [exc_bind].
  rewrite app_assoc, slice_to_end; [done|by rewrite len_app, len_be|rewrite !len_app, len_be; change (len (of_ints [1; 1])) with 2; lia].
Qed.

Lemma process_ok root clock seq items tail rest :
  Forall item_sendable items -> unfinished tail -> 0 <= seq < 2 ^ 16 -> len rest < 10 ->
  _5516_process_packet root clock (packet seq items tail rest) = (reports seen_lon root clock 0 items, Ok tt).
Proof.
  intros Hi Ht Hs Hr. unfold _5516_process_packet, packet. rewrite jreap_header_ok by done.
  change (negb (1 =? 1)) with false. cbv iota. unfold _5516_extract_words. set (ws := concat (map item_words items)).
  assert (Forall (fun w => len w = 10) (ws ++ tail)) as Hw.
  { apply Forall_app. split; [apply item_words_len|]. destruct Ht as (m & n & _ & _ & ->). apply Forall_take, encode_words. }
  rewrite (words_loop_ok _ [] (ws ++ tail) rest); [| |done|done].
  - destruct (Z.eqb_spec (len (ws ++ tail)) 0) as [E|E].
    + assert (ws = []) as Ew.
      { rewrite len_app in E. pose proof (len_nonneg tail). destruct ws as [|w l]; [done|].
        rewrite len_cons in E. pose proof (len_nonneg l). lia. }
      destruct items as [|[m|v p] items]; [done| |done]. exfalso. subst ws. cbn [map concat item_words] in Ew.
      unfold encode in Ew. by destruct (s_pad m) as [[? ?] ?].
    + apply (messages_loop_ok root clock tail items Hi Ht _ []). fold ws. rewrite length_app. lia.
  - rewrite (length_app (concat (ws ++ tail)) rest).
    enough (length (ws ++ tail) <= length (concat (ws ++ tail)))%nat by lia. clear -Hw.
    induction Hw as [|w l Hl _ IH]; [done|]. cbn [concat length]. rewrite length_app. unfold len in Hl. lia.
Qed.

(** C9: a JREAP-C packet of any messages, with words of other kinds between
    them, the beginning of a message and stray octets behind them, is read as
    exactly those messages: one track each, in order, on the topic of its domain
    and affiliation, with the number, latitude, longitude, altitude, speed and
    heading that were sent; nothing is published of a message whose latitude is
    beyond a pole.  Own units are taken to be east of Greenwich: what becomes of
    the others is [ppli_west_turned]. *)
Theorem link16_exact root clock seq items tail rest :
  Forall item_sendable items -> Forall side_known items -> unfinished tail -> 0 <= seq < 2 ^ 16 -> len rest < 10 ->
  _5516_process_packet root clock (packet seq items tail rest) = (reports s_lon root clock 0 items, Ok tt).
Proof. intros Hi Hx Ht Hq Hr. rewrite <- reports_sent by done. by apply process_ok. Qed.

(** A participant at 50 degrees north, and a hostile aircraft 20 degrees west. *)
Definition sample_ppli (lon : Z) : sent :=
  {| s_kind := PPLI_air; s_number := 77; s_identity := 0; s_lat := 4660337; s_lon := lon; s_alt := 1000; s_speed := 300;
     s_heading := 512; s_fill := []; s_last := 0; s_pad := (0, 0, 0) |}.
Definition sample_hostile : sent :=
  {| s_kind := Air_track; s_number := 1234; s_identity := 2; s_lat := 4660337; s_lon := -1864135; s_alt := 1100; s_speed := 400;
     s_heading := 1024; s_fill := [5; 9]; s_last := 3; s_pad := (1, 2, 3) |}.

Definition sample_items : list item := [Other 5 0; Message sample_hostile; Message (sample_ppli 1864135)].

Lemma link16_exact_witness :
  Forall item_sendable sample_items /\ Forall side_known sample_items /\ unfinished [] /\
  _5516_process_packet "efdi" (fun _ => fl 7) (packet 9 sample_items [] (of_ints [1; 2])) =
    (reports s_lon "efdi" (fun _ => fl 7) 0 sample_items, Ok tt) /\
  map fst (reports s_lon "efdi" (fun _ => fl 7) 0 sample_items) =
    ["efdi/air/stanag_5516/c2/hostile/aircraft"; "efdi/air/stanag_5516/c2/friendly/aircraft"]%py.
Proof.
  assert (Forall item_sendable sample_items) as Hi.
  { repeat constructor; vm_compute; first [reflexivity|discriminate]. }
  assert (Forall side_known sample_items) as Hx.
  { repeat constructor; vm_compute; discriminate. }
  assert (unfinished []) as Hu.
  { exists sample_hostile, O. split; [|split; [lia|reflexivity]]. repeat constructor; vm_compute; first [reflexivity|discriminate]. }
  split; [exact Hi|]. split; [exact Hx|]. split; [exact Hu|]. split; [|vm_compute; reflexivity].
  apply (link16_exact "efdi" (fun _ => fl 7) 9); [exact Hi|exact Hx|exact Hu|lia|vm_compute; reflexivity].
Defined.

(** ** Own units west of Greenwich *)

(** The same message half a turn further east. *)
Definition turned (m : sent) : sent :=
  {| s_kind := s_kind m; s_number := s_number m; s_identity := s_identity m; s_lat := s_lat m; s_lon := s_lon m + 2 ^ 25;
     s_alt := s_alt m; s_speed := s_speed m; s_heading := s_heading m; s_fill := s_fill m; s_last := s_last m; s_pad := s_pad m |}.

(** C39: an own unit west of Greenwich is published half a turn away: its
    message is read as that of a unit 180 degrees further east. *)
Theorem ppli_west_turned root clock seq m :
  sendable m -> ppli (s_kind m) = true -> s_lon m < 0 -> 0 <= seq < 2 ^ 16 ->
  _5516_process_packet root clock (packet seq [Message m] [] []) =
  _5516_process_packet root clock (packet seq [Message (turned m)] [] []).
Proof.
  intros Hs Hk Hl Hq.
  assert (sendable (turned m)) as Ht by (unfold sendable, turned in *; cbn; intuition lia).
  assert (unfinished []) as Hu by (exists m, O; split; [done|split; [lia|done]]).
  rewrite !process_ok by first [done | apply Forall_singleton; done]. cbn [reports]. f_equal. f_equal.
  unfold report_of, track_of, seen_lon, affiliation_of. cbn [turned s_kind s_number s_identity s_lat s_lon s_alt s_speed s_heading].
  destruct Hs as (_ & _ & _ & Hlon & _). rewrite Hk. replace (s_lon m <? 0) with true by lia. by replace (s_lon m + 2 ^ 25 <? 0) with false by lia.
Qed.

Lemma ppli_west_turned_witness :
  let data := packet 0 [Message (sample_ppli (-1864135))] [] [] in
  _5516_process_packet "efdi" (fun _ => fl 7) data =
    _5516_process_packet "efdi" (fun _ => fl 7) (packet 0 [Message (turned (sample_ppli (-1864135)))] [] []) /\
  map (fun r => dget (snd r) "lon_deg") (fst (_5516_process_packet "efdi" (fun _ => fl 7) data)) = [Some (VFloat (dec 170000001 6))].
Proof.
  intros data. split; [|vm_compute; reflexivity].
  apply (ppli_west_turned "efdi" (fun _ => fl 7) 0 (sample_ppli (-1864135))); [|reflexivity|vm_compute; reflexivity|lia].
  repeat constructor; vm_compute; first [reflexivity|discriminate].
Defined.

(** ** Whatever a gateway sends *)

Definition link16_schema : schema :=
  [("_ts", TFloat); ("_src", TStr); ("track_num", TInt 0 4095);
   ("affiliation", TOneOf ["friendly"; "neutral"; "hostile"; "unknown"]); ("lat_deg", TFloat); ("lon_deg", TFloat);
   ("alt_baro_ft", TInt (-100000) 104700); ("speed_ms", TFloat); ("heading_deg", TFloat); ("domain", TOneOf ["sea"; "land"])].

Definition report_fits (root : string) (r : report) : Prop :=
  wt link16_schema (snd r) /\ selem (fst r) (map snd (_5516_TOPIC_MAP root)) = true.

Lemma stored_total words : exists bits, stored words = Ok bits.
Proof.
  induction words as [|w words [bits IH]]; cbn [stored]; [by eexists|].
  rewrite stored_word, IH. by eexists.
Qed.

Lemma reader_range r bit w : 0 <= w -> 0 <= MultiWordReader_u r bit w < 2 ^ w.
Proof.
  intros Hw. unfold MultiWordReader_u. assert (0 < 2 ^ w) by lia. destruct (_ || _); [lia|].
  rewrite mask_mod by lia. by apply Z.mod_pos_bound.
Qed.

Lemma link16_track_fits now src n aff lat lon alt spd hdg : 0 <= n < 4096 -> 0 <= alt < 2048 ->
  selem aff ["friendly"; "neutral"; "hostile"; "unknown"] = true ->
  wt link16_schema (link16_track now src n aff lat lon alt spd hdg).
Proof.
  intros Hn Ha Hf. apply wt_literal; [reflexivity|].
  unfold link16_track, fields_ok. cbn [forallb fst snd]. unfold field_ok.
  cbn [field_ty link16_schema String.eqb Ascii.eqb Bool.eqb]. cbv iota. cbn [has_ty]. rewrite Hf.
  repeat (apply andb_true_iff; split); try reflexivity; lia.
Qed.

(** The five decoders: they return, and what they return fits. *)
Definition decodes (m : exc (option dict)) : Prop :=
  exists o, m = Ok o /\ forall track, o = Some track ->
    wt link16_schema track /\
    (exists d, link16_text track "domain" = d /\ (d = None \/ exists s, d = Some s /\ selem s ["sea"; "land"] = true)) /\
    exists aff, link16_text track "affiliation" = Some aff /\ selem aff ["friendly"; "neutral"; "hostile"; "unknown"] = true.

Lemma decodes_if (c : bool) track : wt link16_schema track -> link16_text track "domain" = None ->
  (exists aff, link16_text track "affiliation" = Some aff /\ selem aff ["friendly"; "neutral"; "hostile"; "unknown"] = true) ->
  decodes (if c then Ok None else Ok (Some track)).
Proof.
  intros Hw Hd Ha. destruct c; (eexists; split; [done|]); [done|]. intros ? [= <-]. split; [done|]. split; [|done].
  eexists. split; [done|]. by left.
Qed.

Lemma decodes_j32 now words : decodes (_5516_decode_j32 now words).
Proof.
  unfold _5516_decode_j32. destruct (len words <? 3); [by eexists|]. unfold MultiWordReader.
  destruct (stored_total words) as [bits ->]. cbn [exc_bind]. set (r := Build__5516_MultiWordReader _ _).
  assert (selem (tget_or _5516_ID_AFF (MultiWordReader_u r 17 3) "unknown") ["friendly"; "neutral"; "hostile"; "unknown"] = true) as Ha
    by (apply tget_or_in; reflexivity).
  apply decodes_if; [|done|by eexists].
  apply link16_track_fits; [|pose proof (reader_range r 86 11); lia|done].
  pose proof (reader_range r 22 2 ltac:(lia)). pose proof (reader_range r 24 10 ltac:(lia)).
  rewrite lor_concat by lia. lia.
Qed.

Lemma decodes_j22 now words : decodes (_5516_decode_j22 now words).
Proof.
  unfold _5516_decode_j22. destruct (len words <? 3); [by eexists|]. unfold MultiWordReader.
  destruct (stored_total words) as [bits ->]. cbn [exc_bind]. set (r := Build__5516_MultiWordReader _ _).
  apply decodes_if; [|done|by eexists].
  apply link16_track_fits; [pose proof (reader_range r 12 12); lia|pose proof (reader_range r 86 10); lia|done].
Qed.

Lemma decodes_renamed src domain m : selem domain ["sea"; "land"] = true -> decodes m -> decodes (renamed src domain m).
Proof.
  intros Hd (o & -> & Ho). unfold renamed. cbn [exc_bind]. eexists. split; [done|].
  destruct o as [track|]; cbn [option_map]; [|done]. intros ? [= <-].
  destruct (Ho _ eq_refl) as (Hw & _ & aff & Ha & Haf). unfold link16_text in *.
  split_and!.
  - apply wt_dset; [apply wt_dset; [done|reflexivity]|]. exact Hd.
  - eexists. split; [done|]. right. rewrite dget_dset_eq. by eexists.
  - exists aff. by rewrite !dget_dset_ne.
Qed.

Lemma decoders_total now words msg_type decoder :
  sget _5516_MSG_DECODER msg_type = Some decoder -> decodes (decoder now words).
Proof.
  unfold sget. destruct (List.find _ _) as [[k d]|] eqn:E; [|done]. intros [= <-].
  apply find_some in E as [Hin _]. cbn [snd]. pose proof (decodes_j32 now words). pose proof (decodes_j22 now words).
  repeat (destruct Hin as [[= <- <-]|Hin]; [first [done | by apply decodes_renamed]|]). destruct Hin.
Qed.

Lemma topic_listed root track msg_type :
  (exists d, link16_text track "domain" = d /\ (d = None \/ exists s, d = Some s /\ selem s ["sea"; "land"] = true)) ->
  (exists aff, link16_text track "affiliation" = Some aff /\ selem aff ["friendly"; "neutral"; "hostile"; "unknown"] = true) ->
  selem (_5516_topic_for root track msg_type) (map snd (_5516_TOPIC_MAP root)) = true.
Proof.
  intros (d & Hd & Hdom) (aff & Ha & Haff). unfold _5516_topic_for. rewrite Hd, Ha.
  set (dom := match d with Some (String _ _ as s) => s | _ => _ end). change (default "unknown" (Some aff)) with aff.
  assert (In (default (root +:+ "/land/stanag_5516/c2/unknown/unit") (sget2 (_5516_TOPIC_MAP root) dom aff)) (map snd (_5516_TOPIC_MAP root))) as Hin.
  { unfold sget2. destruct (List.find _ _) as [[k v]|] eqn:E; cbn [option_map default].
    - apply find_some in E as [E _]. by apply (in_map snd) in E.
    - cbn. tauto. }
  unfold selem. apply existsb_exists. eexists. split; [exact Hin|]. apply String.eqb_refl.
Qed.

Lemma messages_total root clock fuel words i : 0 <= i -> (length words - Z.to_nat i < fuel)%nat ->
  snd (messages_loop fuel root clock words i) = Ok tt /\
  Forall (report_fits root) (fst (messages_loop fuel root clock words i)).
Proof.
  revert i. induction fuel as [|fuel IH]; intros i Hi Hf; [lia|]. cbn [messages_loop].
  destruct (Z.leb_spec (len words) i) as [|Hlt]; [by split|].
  destruct (index_ok words i) as (w & -> & _); [lia|].
  assert (forall n, 0 < n -> (length words - Z.to_nat (i + n) < fuel)%nat) as Hn by (unfold len in *; lia).
  destruct (zget2 _ _) as [msg_type|]; [|apply IH; [lia|apply Hn; lia]].
  set (needed := default 1 (sget _5516_MSG_WORD_COUNT msg_type)).
  assert (0 < needed) as Hpos.
  { subst needed. unfold sget. destruct (List.find _ _) as [[k v]|] eqn:E; cbn; [|lia].
    apply find_some in E as [E _]. cbn [In _5516_MSG_WORD_COUNT] in E. by repeat (destruct E as [[= <- <-]|E]; [done|]). }
  destruct (_ <? _); [by split|]. destruct (sget _5516_MSG_DECODER msg_type) as [decoder|] eqn:Ed; [|apply IH; [lia|by apply Hn]].
  destruct (decoders_total (clock i) (slice words i (i + needed)) _ _ Ed) as (o & -> & Ho).
  destruct o as [track|]; [|apply IH; [lia|by apply Hn]].
  destruct (IH (i + needed) ltac:(lia) (Hn _ Hpos)) as [H1 H2].
  destruct (messages_loop fuel root clock words (i + needed)) as [out r]. cbn [fst snd] in *. split; [done|].
  constructor; [|done]. destruct (Ho _ eq_refl) as (Hw & Hd & Ha). split; [done|]. by apply topic_listed.
Qed.

Lemma words_total fuel payload off : 0 <= off -> (Z.to_nat (len payload - off) < fuel)%nat ->
  exists ws, words_loop fuel payload off = Ok ws.
Proof.
  revert off. induction fuel as [|fuel IH]; intros off Ho Hf; [lia|]. cbn [words_loop]. unfold _5516_WORD_BYTES.
  destruct (Z.leb_spec (off + 10) (len payload)); [|by eexists].
  destruct (IH (off + 10)) as [ws ->]; [lia|lia|]. by eexists.
Qed.

Lemma process_total root clock data :
  snd (_5516_process_packet root clock data) = Ok tt /\ Forall (report_fits root) (fst (_5516_process_packet root clock data)).
Proof.
  unfold _5516_process_packet, _5516_parse_jreap_header. destruct (Z.ltb_spec (len data) 4); [by split|].
  destruct (byte_at_ok data 0) as (b0 & -> & _); [lia|]. cbn [exc_bind]. destruct (negb _); [by split|].
  destruct (byte_at_ok data 1) as (b1 & -> & _); [lia|]. cbn [exc_bind].
  rewrite unpack_u_ok by (rewrite len_slice; lia). cbn [exc_bind]. destruct (negb _); [by split|].
  set (payload := slice data 4 (len data)). unfold _5516_extract_words.
  destruct (words_total (S (length payload)) payload 0) as [ws ->]; [lia|unfold len; lia|].
  destruct (_ =? 0); [by split|]. apply messages_total; lia.
Qed.

(** C38: no datagram stops the Link 16 receiver: whatever arrives, all of it is
    read without an exception, and every track published fits the schema of the
    layer and goes to one of its topics. *)
Theorem link16_receiver_never_stops root clock n datagrams :
  snd (_5516_run_udp root clock n datagrams) = Ok tt /\ Forall (report_fits root) (fst (_5516_run_udp root clock n datagrams)).
Proof.
  revert n. induction datagrams as [|data datagrams IH]; intros n; cbn [_5516_run_udp]; [by split|].
  destruct (process_total root (clock n) data) as [H1 H2]. destruct (_5516_process_packet _ _ _) as [out r].
  cbn [fst snd] in *. subst r. destruct (IH (n + 1)) as [H3 H4]. destruct (_5516_run_udp _ _ _ _) as [out' r'].
  cbn [fst snd] in *. split; [done|]. by apply Forall_app.
Qed.
