(* ===== verification/Gmti.v ===== *)
(** * Ground moving targets

    The STANAG 4607 section of compose/protocols/vendors/stanag/stanag.py: the
    packet header, the segments, the target reports of a dwell, and what is
    published. *)

From S2P Require Import Prelude PyFloat PyData Schema Ranges Cursor Safety TrackViews Octets.
#[local] Open Scope Z_scope.

Definition _4607_TRACK_TOPIC (root : string) : string := root +:+ "/land/stanag_4607/gmti/neutral/vehicle".

Definition _4607_MISSION_SEGMENT : Z := 1.
Definition _4607_DWELL_SEGMENT : Z := 2.
Definition _4607_JOB_DEFINITION_SEGMENT : Z := 5.
Definition _4607_PLATFORM_LOCATION_SEGMENT : Z := 13.

(** The bit of the existence mask for each field that may be left out. *)
Definition _4607_D : list (string * Z) :=
  [("scale_lat", 6 * 8 + 7); ("scale_lon", 6 * 8 + 6); ("unc_along", 6 * 8 + 5); ("unc_cross", 6 * 8 + 4);
   ("unc_alt", 6 * 8 + 3); ("track", 6 * 8 + 2); ("speed", 6 * 8 + 1); ("vert_velocity", 6 * 8 + 0);
   ("track_unc", 5 * 8 + 7); ("speed_unc", 5 * 8 + 6); ("vv_unc", 5 * 8 + 5); ("plat_heading", 5 * 8 + 4);
   ("plat_pitch", 5 * 8 + 3); ("plat_roll", 5 * 8 + 2); ("sensor_heading", 4 * 8 + 5);
   ("sensor_pitch", 4 * 8 + 4); ("sensor_roll", 4 * 8 + 3); ("mdv", 4 * 8 + 2)].
Definition _4607_D32 : list (string * Z) :=
  [("index", 4 * 8 + 1); ("lat", 4 * 8 + 0); ("lon", 3 * 8 + 7); ("delta_lat", 3 * 8 + 6);
   ("delta_lon", 3 * 8 + 5); ("height", 3 * 8 + 4); ("radial", 3 * 8 + 3); ("wrap", 3 * 8 + 2);
   ("snr", 3 * 8 + 1); ("classification", 3 * 8 + 0); ("prob", 2 * 8 + 7); ("unc_slant", 2 * 8 + 6);
   ("unc_cross", 2 * 8 + 5); ("unc_height", 2 * 8 + 4); ("unc_radial", 2 * 8 + 3); ("tag_app", 2 * 8 + 2);
   ("tag_entity", 2 * 8 + 1); ("section", 2 * 8 + 0)].

Definition _4607_SENSOR_TYPES : table :=
  [(0, "unidentified"); (1, "other"); (2, "hisar"); (3, "astor"); (4, "rotary_wing_radar");
   (5, "global_hawk_sensor"); (6, "horizon"); (7, "apy-3"); (8, "apy-6"); (9, "apy-8_lynx_i");
   (10, "radarsat2"); (11, "asars-2a"); (12, "tesar"); (13, "mp-rtip"); (14, "apg-77"); (15, "apg-79");
   (16, "apg-81"); (17, "apy-6v1"); (18, "spy-i_lynx_ii"); (19, "sidm"); (20, "limit"); (21, "tcar_ags_a321");
   (22, "lsrs_sensor"); (23, "ugs_single_sensor"); (24, "ugs_cluster_sensor"); (25, "imaster_gmti");
   (26, "an/zpy-1_starlite"); (27, "vader"); (255, "no_statement")].
Definition _4607_RADAR_MODES : table :=
  [(0, "unspecified"); (1, "mti"); (2, "hrr"); (3, "uhrr"); (4, "hur"); (5, "fti")].
Definition _4607_TARGET_CLASSES : table :=
  [(0, "no_info_live"); (1, "tracked_vehicle_live"); (2, "wheeled_vehicle_live");
   (3, "rotary_wing_aircraft_live"); (4, "fixed_wing_aircraft_live"); (5, "stationary_rotator_live");
   (6, "maritime_live"); (7, "beacon_live"); (8, "amphibious_live"); (9, "person_live"); (10, "vehicle_live");
   (11, "animal_live"); (12, "large_multi_return_land_live"); (13, "large_multi_return_maritime_live");
   (126, "other_live"); (127, "unknown_live"); (128, "no_info_simulated"); (129, "tracked_vehicle_simulated");
   (130, "wheeled_vehicle_simulated"); (131, "rotary_wing_aircraft_simulated");
   (132, "fixed_wing_aircraft_simulated"); (133, "stationary_rotator_simulated"); (134, "maritime_simulated");
   (135, "beacon_simulated"); (136, "amphibious_simulated"); (137, "person_simulated");
   (138, "vehicle_simulated"); (139, "animal_simulated"); (140, "large_multi_return_land_simulated");
   (141, "large_multi_return_maritime_simulated"); (143, "tagging_device"); (254, "other_simulated");
   (255, "unknown_simulated")].

(** ** Scalings *)
Definition _4607_sa32 (raw : Z) : float := fmul (fratio raw (2 ^ 30)) (fl 45).
Definition _4607_ba32 (raw : Z) : float :=
  let deg := fmul (fratio raw (2 ^ 30)) (fl 90) in
  if flt (fl 180) deg then fsub deg (fl 360) else deg.
Definition _4607_sa16 (raw : Z) : float := fmul (fratio raw (2 ^ 14)) (fl 90).
Definition _4607_ba16 (raw : Z) : float := fmul (fratio raw (2 ^ 14)) (fl 90).
Definition _4607_centimeters (raw : Z) : float := fdiv_raw (fl raw) (fl 100).
Definition _4607_decimeters (raw : Z) : float := fdiv_raw (fl raw) (fl 10).
Definition _4607_kilometers (raw : Z) : float := fdiv_raw (fl raw) (fl 128).
Definition _4607_speed_mmps (raw : Z) : float := fdiv_raw (fl raw) (fl 1000).
Definition _4607_speed_centi (raw : Z) : float := fdiv_raw (fl raw) (fl 100).
Definition _4607_speed_deci (raw : Z) : float := fdiv_raw (fl raw) (fl 10).
Definition _4607_millisec (raw : Z) : float := fdiv_raw (fl raw) (fl 1000).

Definition _4607_s16 : bytes -> exc Z := unpack_s 2.
Definition _4607_u16 : bytes -> exc Z := unpack_u 2.
Definition _4607_s32 : bytes -> exc Z := unpack_s 4.
Definition _4607_u32 : bytes -> exc Z := unpack_u 4.
(** [struct.unpack(">b", raw)[0]] *)
Definition _4607_i8 : bytes -> exc Z := unpack_s 1.

(** [round(f(unpack(raw)), digits)] and an int as it is. *)
Definition rounded (unpack : bytes -> exc Z) (f : Z -> float) (digits : Z) (raw : bytes) : exc value :=
  let? n := unpack raw in Ok (VFloat (py_round (f n) digits)).
Definition int_field (unpack : bytes -> exc Z) (raw : bytes) : exc value :=
  let? n := unpack raw in Ok (VInt n).
(** [raw.decode("ascii", "replace").strip("\x00").strip()] *)
Definition padded_text (raw : bytes) : exc value :=
  Ok (VStr (strip (strip_chars [ascii_of_nat 0] (decode_ascii_replace raw)))).
(** [d.get(n, n)] *)
Definition looked_up (t : table) (n : Z) : value := match tget t n with Some s => VStr s | None => VInt n end.

(** [(mask >> table[name]) & 1] *)
Definition mask_bit (table : list (string * Z)) (mask : Z) (name : string) : bool :=
  match List.find (fun kv => String.eqb (fst kv) name) table with
  | Some (_, n) => negb (Z.land (Z.shiftr mask n) 1 =? 0)
  | None => false       (* KeyError: every name asked for is in the table *)
  end.

(** ** Header and segments *)

Section Statements.
Context {R : Type} (data : bytes).

(** [out[k] = f(data[pos + a:pos + b])], [out[k] = f(data[pos + a])] *)
Definition put_field (k : string) (a b : Z) (f : bytes -> exc value) : cur R unit :=
  v <- on_slice data a b f ;; set_ k v.
Definition entry_at (k : string) (a : Z) (f : Z -> value) : cur R unit :=
  b <- at_ data a ;; set_ k (f b).
(** The same at the cursor, which moves behind the octets read. *)
Definition field (k : string) (n : Z) (f : bytes -> exc value) : cur R unit := put_field k 0 n f ;; adv n.
Definition field_octet (k : string) (f : Z -> value) : cur R unit := entry_at k 0 f ;; adv 1.
End Statements.

(** The function's dictionary and the position it returns. *)
Definition filled (m : cur (dict * Z) unit) (pos : Z) : exc (dict * Z) :=
  run (m ;; return_ (fun pos out => (out, pos))) pos [].

Definition text_exact (raw : bytes) : exc value := Ok (VStr (decode_ascii_replace raw)).
Definition gmti_int (b : Z) : value := VInt b.
Definition as_chr (b : Z) : value := VStr (chr8 b).

Definition _4607_decode_header (data : bytes) : exc (option dict) :=
  if len data <? 32 then Ok None else
  let? (out, _) := filled (
    entry_at data "edition" 0 as_chr ;;
    entry_at data "version" 1 as_chr ;;
    put_field data "packet_size" 2 6 (int_field _4607_u32) ;;
    put_field data "nationality" 6 8 text_exact ;;
    entry_at data "security_classification" 8 gmti_int ;;
    put_field data "security_system" 9 11 text_exact ;;
    put_field data "security_code" 11 13 (int_field _4607_u16) ;;
    entry_at data "exercise_indicator" 13 gmti_int ;;
    put_field data "platform_id" 14 24 padded_text ;;
    put_field data "mission_id" 24 28 (int_field _4607_u32) ;;
    put_field data "job_id" 28 32 (int_field _4607_u32)) 0 in
  Ok (Some out).

Definition _4607_decode_mission (data : bytes) (pos : Z) : exc (dict * Z) :=
  filled (
    put_field data "mission_plan" 0 12 padded_text ;;
    put_field data "flight_plan" 12 24 padded_text ;;
    entry_at data "platform_type" 24 gmti_int ;;
    put_field data "platform_config" 25 35 padded_text ;;
    put_field data "mission_year" 35 37 (int_field _4607_u16) ;;
    entry_at data "mission_month" 37 gmti_int ;;
    entry_at data "mission_day" 38 gmti_int ;;
    adv 39) pos.

Definition corner (data : bytes) (name : string) (a : Z) : cur (dict * Z) unit :=
  put_field data ("bounding_area_" +:+ name +:+ "_lat_deg") a (a + 4) (rounded _4607_s32 _4607_sa32 7) ;;
  put_field data ("bounding_area_" +:+ name +:+ "_lon_deg") (a + 4) (a + 8) (rounded _4607_u32 _4607_ba32 7).

Definition _4607_decode_jobdef (data : bytes) (pos : Z) : exc (dict * Z) :=
  filled (
    sensor_type <- at_ data 4 ;;
    put_field data "job_id" 0 4 (int_field _4607_u32) ;;
    set_ "sensor_type" (looked_up _4607_SENSOR_TYPES sensor_type) ;;
    put_field data "sensor_model" 5 11 padded_text ;;
    entry_at data "target_filtering_flag" 11 gmti_int ;;
    entry_at data "radar_priority" 12 gmti_int ;;
    corner data "a" 13 ;; corner data "b" 21 ;; corner data "c" 29 ;; corner data "d" 37 ;;
    entry_at data "radar_mode" 45 (looked_up _4607_RADAR_MODES) ;;
    put_field data "revisit_interval_s" 46 48 (int_field _4607_u16) ;;
    adv 48 ;;
    field data "nominal_pos_unc_along_m" 2 (int_field _4607_u16) ;;
    field data "nominal_pos_unc_cross_m" 2 (int_field _4607_u16) ;;
    field data "nominal_pos_unc_alt_m" 2 (int_field _4607_u16) ;;
    field_octet data "nominal_heading_unc_deg" gmti_int ;;
    field data "nominal_speed_unc_ms" 2 (int_field _4607_u16) ;;
    field data "nominal_sensing_slant_range_unc_m" 2 (int_field _4607_u16) ;;
    field data "nominal_sensing_cross_range_unc_m" 2 (int_field _4607_u16) ;;
    field data "nominal_sensing_vlos_unc_ms" 2 (int_field _4607_u16) ;;
    field_octet data "nominal_sensing_mdv_ms" gmti_int ;;
    field_octet data "nominal_detection_prob_pct" gmti_int ;;
    field_octet data "nominal_false_alarm_density" gmti_int ;;
    field_octet data "terrain_elevation_model" gmti_int ;;
    field_octet data "geoid_model" gmti_int) pos.

Definition _4607_decode_platform_location (data : bytes) (pos : Z) : exc (dict * Z) :=
  filled (
    put_field data "location_time_s" 0 4 (rounded _4607_u32 _4607_millisec 3) ;;
    put_field data "platform_lat_deg" 4 8 (rounded _4607_s32 _4607_sa32 7) ;;
    put_field data "platform_lon_deg" 8 12 (rounded _4607_u32 _4607_ba32 7) ;;
    put_field data "platform_alt_m" 12 16 (rounded _4607_s32 _4607_centimeters 2) ;;
    put_field data "platform_track_deg" 16 18 (rounded _4607_u16 _4607_ba16 2) ;;
    put_field data "platform_speed_ms" 18 22 (rounded _4607_u32 _4607_speed_mmps 3) ;;
    put_field data "platform_vertical_velocity_ms" 22 23 (rounded _4607_i8 _4607_speed_deci 1) ;;
    adv 23) pos.

(** ** Dwells *)
Definition target_fields {R} (data : bytes) (mask : Z) : cur R unit :=
  let bit := mask_bit _4607_D32 mask in
  when (bit "index") (field data "target_report_index" 2 (int_field _4607_u16)) ;;
  when (bit "lat") (field data "lat_deg" 4 (rounded _4607_s32 _4607_sa32 7)) ;;
  when (bit "lon") (field data "lon_deg" 4 (rounded _4607_u32 _4607_ba32 7)) ;;
  when (bit "delta_lat") (field data "delta_lat_raw" 2 (int_field _4607_s16)) ;;
  when (bit "delta_lon") (field data "delta_lon_raw" 2 (int_field _4607_s16)) ;;
  when (bit "height") (field data "height_m" 2 (int_field _4607_s16)) ;;
  when (bit "radial") (field data "radial_velocity_ms" 2 (rounded _4607_s16 _4607_speed_centi 2)) ;;
  when (bit "wrap") (field data "wrap_velocity_ms" 2 (rounded _4607_u16 _4607_speed_centi 2)) ;;
  when (bit "snr") (field data "snr_db" 1 (int_field _4607_i8)) ;;
  when (bit "classification") (
    cls <- at_ data 0 ;;
    adv 1 ;;
    set_ "target_classification" (looked_up _4607_TARGET_CLASSES cls) ;;
    set_ "target_classification_code" (VInt cls)) ;;
  when (bit "prob") (field_octet data "target_class_probability_pct" gmti_int) ;;
  when (bit "unc_slant") (field data "unc_slant_range_m" 2 (rounded _4607_u16 _4607_centimeters 2)) ;;
  when (bit "unc_cross") (field data "unc_cross_range_m" 2 (rounded _4607_u16 _4607_decimeters 1)) ;;
  when (bit "unc_height") (field_octet data "unc_height_m" gmti_int) ;;
  when (bit "unc_radial") (field data "unc_radial_velocity_ms" 2 (rounded _4607_u16 _4607_speed_centi 2)) ;;
  when (bit "tag_app") (field_octet data "truth_tag_application" gmti_int) ;;
  when (bit "tag_entity") (field data "truth_tag_entity" 4 (int_field _4607_u32)) ;;
  when (bit "section") (field data "radar_cross_section_dbsm" 1 (int_field _4607_i8)).

Definition _4607_decode_target_report (data : bytes) (mask : Z) (pos : Z) : exc (dict * Z) :=
  filled (target_fields data mask) pos.

Definition as_bool (b : Z) : value := VBool (negb (b =? 0)).

(** The fields of a dwell before its count of targets, behind it up to the
    centre of the area, and the rest. *)
Definition dwell_start {R} (data : bytes) : cur R unit :=
  field data "revisit_index" 2 (int_field _4607_s16) ;;
  field data "dwell_index" 2 (int_field _4607_u16) ;;
  field_octet data "last_dwell_of_revisit" as_bool.

Definition dwell_sensor {R} (data : bytes) (mask : Z) : cur R unit :=
  let bit := mask_bit _4607_D mask in
  field data "dwell_time_s" 4 (rounded _4607_u32 _4607_millisec 3) ;;
  field data "sensor_lat_deg" 4 (rounded _4607_s32 _4607_sa32 7) ;;
  field data "sensor_lon_deg" 4 (rounded _4607_u32 _4607_ba32 7) ;;
  field data "sensor_alt_m" 4 (rounded _4607_s32 _4607_centimeters 2) ;;
  when (bit "scale_lat") (field data "scale_lat_raw" 4 (int_field _4607_s32)) ;;
  when (bit "scale_lon") (field data "scale_lon_raw" 4 (int_field _4607_u32)) ;;
  when (bit "unc_along") (field data "sensor_unc_along_m" 4 (rounded _4607_u32 _4607_centimeters 2)) ;;
  when (bit "unc_cross") (field data "sensor_unc_cross_m" 4 (rounded _4607_u32 _4607_centimeters 2)) ;;
  when (bit "unc_alt") (field data "sensor_unc_alt_m" 2 (rounded _4607_u16 _4607_centimeters 2)) ;;
  when (bit "track") (field data "sensor_track_deg" 2 (rounded _4607_u16 _4607_ba16 2)) ;;
  when (bit "speed") (field data "sensor_speed_ms" 4 (rounded _4607_u32 _4607_speed_mmps 3)) ;;
  when (bit "vert_velocity") (field data "sensor_vertical_velocity_ms" 1 (rounded _4607_i8 _4607_speed_deci 1)) ;;
  when (bit "track_unc") (field_octet data "sensor_track_unc_deg" gmti_int) ;;
  when (bit "speed_unc") (field data "sensor_speed_unc_ms" 2 (rounded _4607_u16 _4607_speed_mmps 3)) ;;
  when (bit "vv_unc") (field data "sensor_vv_unc_ms" 2 (rounded _4607_u16 _4607_speed_centi 2)) ;;
  when (bit "plat_heading") (field data "platform_heading_deg" 2 (rounded _4607_u16 _4607_ba16 2)) ;;
  when (bit "plat_pitch") (field data "platform_pitch_deg" 2 (rounded _4607_s16 _4607_sa16 3)) ;;
  when (bit "plat_roll") (field data "platform_roll_deg" 2 (rounded _4607_s16 _4607_sa16 3)).

Definition dwell_area {R} (data : bytes) (mask : Z) : cur R unit :=
  let bit := mask_bit _4607_D mask in
  field data "dwell_area_center_lat_deg" 4 (rounded _4607_s32 _4607_sa32 7) ;;
  field data "dwell_area_center_lon_deg" 4 (rounded _4607_u32 _4607_ba32 7) ;;
  field data "dwell_area_range_half_extent_km" 2 (rounded _4607_u16 _4607_kilometers 2) ;;
  field data "dwell_area_angle_half_extent_deg" 2 (rounded _4607_u16 _4607_ba16 2) ;;
  when (bit "sensor_heading") (field data "sensor_heading_deg" 2 (rounded _4607_u16 _4607_ba16 2)) ;;
  when (bit "sensor_pitch") (field data "sensor_pitch_deg" 2 (rounded _4607_s16 _4607_sa16 3)) ;;
  when (bit "sensor_roll") (field data "sensor_roll_deg" 2 (rounded _4607_s16 _4607_sa16 3)) ;;
  when (bit "mdv") (field_octet data "mdv_ms" (fun b => VFloat (py_round (_4607_speed_deci b) 1))).

Definition _4607_decode_dwell (data : bytes) (pos : Z) : exc (dict * list dict * Z) :=
  run (high <- on_slice data 0 4 _4607_u32 ;;
       low <- on_slice data 4 8 _4607_u32 ;;
       let mask := Z.lor (Z.shiftl high 32) low in
       adv 8 ;;
       dwell_start data ;;
       target_count <- on_slice data 0 2 _4607_u16 ;;
       adv 2 ;;
       dwell_sensor data mask ;;
       dwell_area data mask ;;
       targets <- for_range (Z.to_nat target_count) (fun targets =>
         report <- call (_4607_decode_target_report data mask) ;;
         ret (more (targets ++ [report]))) [] ;;
       return_ (fun pos dwell => (dwell, targets, pos))) pos [].

(** ** Packets *)

Section Packet.
Variable repr : value -> string.

(** The track of a report, [n] tracks having been made before it. *)
Definition gmti_track (now : float) (header dwell report : dict) (n : Z) : exc dict :=
  let? job_id := ditem header "job_id" in
  let? dwell_index := ditem dwell "dwell_index" in
  let? dwell_time := ditem dwell "dwell_time_s" in
  let? lat := ditem dwell "sensor_lat_deg" in
  let? lon := ditem dwell "sensor_lon_deg" in
  let? alt := ditem dwell "sensor_alt_m" in
  let uid := "stanag4607-" +:+ py_str repr job_id +:+ "-" +:+ py_str repr dwell_index +:+ "-" +:+
             py_str repr (dget_or report "target_report_index" (VInt n)) in
  Ok (dupdate [("_ts", VFloat now); ("_src", VStr "STANAG 4607"); ("uid", VStr uid); ("job_id", job_id);
               ("dwell_index", dwell_index); ("dwell_time_s", dwell_time); ("sensor_lat_deg", lat);
               ("sensor_lon_deg", lon); ("sensor_alt_m", alt)] report).

(** [for report in targets: ...; tracks.append(track)]; [clock n] is the time of the [n]th track. *)
Fixpoint gmti_tracks (clock : Z -> float) (header dwell : dict) (targets tracks : list dict) : exc (list dict) :=
  match targets with
  | [] => Ok tracks
  | report :: targets' =>
      let? track := gmti_track (clock (len tracks)) header dwell report (len tracks) in
      gmti_tracks clock header dwell targets' (tracks ++ [track])
  end.

Definition decode_segment (clock : Z -> float) (header : dict) (data : bytes) (seg_type body : Z) (tracks : list dict) :
    exc (list dict) :=
  if seg_type =? _4607_MISSION_SEGMENT then
    let? _ := _4607_decode_mission data body in Ok tracks
  else if seg_type =? _4607_JOB_DEFINITION_SEGMENT then
    let? _ := _4607_decode_jobdef data body in Ok tracks
  else if seg_type =? _4607_PLATFORM_LOCATION_SEGMENT then
    let? _ := _4607_decode_platform_location data body in Ok tracks
  else if seg_type =? _4607_DWELL_SEGMENT then
    let? (dwell, targets, _) := _4607_decode_dwell data body in
    gmti_tracks clock header dwell targets tracks
  else Ok tracks.

Fixpoint segments_loop (fuel : nat) (clock : Z -> float) (header : dict) (data : bytes) (size pos : Z) (tracks : list dict) :
    exc (list dict) :=
  match fuel with
  | O => Raise OutOfFuel
  | S fuel' =>
      if size <? pos + 5 then Ok tracks else
      let? seg_type := byte_at data pos in
      let? seg_size := _4607_u32 (slice data (pos + 1) (pos + 5)) in
      if seg_size <? 5 then Ok tracks else
      let? tracks := decode_segment clock header data seg_type (pos + 5) tracks in
      segments_loop fuel' clock header data size (pos + seg_size) tracks
  end.

Definition _4607_decode_packet (clock : Z -> float) (data : bytes) : exc (option (dict * list dict)) :=
  let? header := _4607_decode_header data in
  match header with
  | None => Ok None
  | Some header =>
      let? declared := ditem header "packet_size" in
      let size := match declared with VInt n => Z.min n (len data) | _ => len data end in
      let? tracks := segments_loop (fuel_of data) clock header data size 32 [] in
      Ok (Some (header, tracks))
  end.

(** [on_sample] of [_4607_run]: what it publishes. *)
Definition _4607_on_sample (root : string) (clock : Z -> float) (data : bytes) : exc (list (string * dict)) :=
  match _4607_decode_packet clock data with
  | Raise (StructError | IndexError | ValueError) => Ok []
  | Raise e => Raise e
  | Ok None => Ok []
  | Ok (Some (_, tracks)) =>
      Ok (map (fun track => (_4607_TRACK_TOPIC root, track)) (List.filter (fun track => dmem "lat_deg" track && dmem "lon_deg" track) tracks))
  end.
End Packet.
