(* ===== verification/GmtiFacts.v ===== *)
(** * What becomes of a GMTI packet

    Theorems about [Gmti]. The existence mask decides which fields a dwell and
    its reports have; a sender is given by a mask and the octets of each field
    ([slots]), and the theorems say what is decoded and published. *)

From S2P Require Import Prelude PyFloat PyData Schema Ranges Cursor Safety TrackViews Octets Gmti.
#[local] Open Scope Z_scope.

(** ** Reading what was written

    [reads m raw kvs]: where the octets [raw] are at the cursor, [m] reads
    exactly them and sets the entries [kvs]. *)
Definition reads {R} (m : bytes -> cur R unit) (raw : bytes) (kvs : dict) : Prop :=
  forall pre post d, m (pre ++ raw ++ post) (len pre) d = Next tt (len pre + len raw) (dupdate d kvs).

Lemma dupdate_app d a b : dupdate d (a ++ b) = dupdate (dupdate d a) b.
Proof. unfold dupdate. apply fold_left_app. Qed.

Lemma reads_bind {R} (m1 m2 : bytes -> cur R unit) raw1 raw2 kvs1 kvs2 :
  reads m1 raw1 kvs1 -> reads m2 raw2 kvs2 -> reads (fun data => m1 data ;; m2 data) (raw1 ++ raw2) (kvs1 ++ kvs2).
Proof.
  intros H1 H2 pre post d. unfold bind. rewrite <- app_assoc, H1, app_assoc.
  replace (len pre + len raw1) with (len (pre ++ raw1)) by (by rewrite len_app). rewrite H2, dupdate_app.
  f_equal. rewrite !len_app. lia.
Qed.

Lemma reads_when {R} (c : bool) (m : bytes -> cur R unit) raw kvs :
  (c = true -> reads m raw kvs) -> reads (fun data => when c (m data)) (if c then raw else []) (if c then kvs else []).
Proof.
  intros H. destruct c; [by apply H|]. intros pre post d. unfold when, skip, ret. cbn.
  change (len (@nil byte)) with 0. by rewrite Z.add_0_r.
Qed.

Lemma reads_field {R} k n f raw v : len raw = n -> f raw = Ok v -> @reads R (fun data => field data k n f) raw [(k, v)].
Proof.
  intros Hl Hf pre post d. unfold field, put_field, bind, on_slice, lift. rewrite Z.add_0_r, (slice_mid pre raw) by lia.
  rewrite Hf. unfold set_, adv. cbn [dupdate fold_left fst snd]. by subst n.
Qed.

Lemma reads_octet {R} k f b : @reads R (fun data => field_octet data k f) [b] [(k, f (byte_val b))].
Proof.
  intros pre post d. unfold field_octet, entry_at, bind, at_, lift. rewrite Z.add_0_r. cbn [app]. rewrite byte_at_mid by done.
  reflexivity.
Qed.

(** ** Layouts *)
Record slot := { s_name : string; s_optional : bool; s_width : Z; s_value : bytes -> dict }.

(** What a sender writes: a mask and the octets of every field. *)
Record block := { g_mask : Z; g_raw : string -> bytes }.

Section Slots.
Variable table : list (string * Z).

Definition written (b : block) (s : slot) : bool := negb (s_optional s) || mask_bit table (g_mask b) (s_name s).
Definition slot_octets (b : block) (s : slot) : bytes := if written b s then g_raw b (s_name s) else [].
Definition slot_entries (b : block) (s : slot) : dict := if written b s then s_value s (g_raw b (s_name s)) else [].
Definition octets_of (b : block) (layout : list slot) : bytes := concat (map (slot_octets b) layout).
Definition entries_of (b : block) (layout : list slot) : dict := concat (map (slot_entries b) layout).
Definition block_fits (b : block) (layout : list slot) : Prop :=
  Forall (fun s => written b s = true -> len (g_raw b (s_name s)) = s_width s) layout.
End Slots.

Definition sint (raw : bytes) : Z := sign_extend (8 * len raw) (int_from_bytes raw).
Definition one (key : string) (v : value) : dict := [(key, v)].
Definition slot_of (name key : string) (optional : bool) (width : Z) (conv : bytes -> value) : slot :=
  {| s_name := name; s_optional := optional; s_width := width; s_value := fun raw => one key (conv raw) |}.
Definition unsigned (raw : bytes) : value := VInt (int_from_bytes raw).
Definition signed (raw : bytes) : value := VInt (sint raw).
Definition scaled_u (f : Z -> float) (digits : Z) (raw : bytes) : value := VFloat (py_round (f (int_from_bytes raw)) digits).
Definition scaled_s (f : Z -> float) (digits : Z) (raw : bytes) : value := VFloat (py_round (f (sint raw)) digits).

Definition target_layout : list slot :=
  [slot_of "index" "target_report_index" true 2 unsigned; slot_of "lat" "lat_deg" true 4 (scaled_s _4607_sa32 7);
   slot_of "lon" "lon_deg" true 4 (scaled_u _4607_ba32 7); slot_of "delta_lat" "delta_lat_raw" true 2 signed;
   slot_of "delta_lon" "delta_lon_raw" true 2 signed; slot_of "height" "height_m" true 2 signed;
   slot_of "radial" "radial_velocity_ms" true 2 (scaled_s _4607_speed_centi 2);
   slot_of "wrap" "wrap_velocity_ms" true 2 (scaled_u _4607_speed_centi 2); slot_of "snr" "snr_db" true 1 signed;
   {| s_name := "classification"; s_optional := true; s_width := 1;
      s_value := fun raw => [("target_classification"%py, looked_up _4607_TARGET_CLASSES (int_from_bytes raw));
                             ("target_classification_code"%py, unsigned raw)] |};
   slot_of "prob" "target_class_probability_pct" true 1 unsigned;
   slot_of "unc_slant" "unc_slant_range_m" true 2 (scaled_u _4607_centimeters 2);
   slot_of "unc_cross" "unc_cross_range_m" true 2 (scaled_u _4607_decimeters 1);
   slot_of "unc_height" "unc_height_m" true 1 unsigned;
   slot_of "unc_radial" "unc_radial_velocity_ms" true 2 (scaled_u _4607_speed_centi 2);
   slot_of "tag_app" "truth_tag_application" true 1 unsigned; slot_of "tag_entity" "truth_tag_entity" true 4 unsigned;
   slot_of "section" "radar_cross_section_dbsm" true 1 signed].

Definition start_layout : list slot :=
  [slot_of "revisit_index" "revisit_index" false 2 signed; slot_of "dwell_index" "dwell_index" false 2 unsigned;
   slot_of "last_dwell" "last_dwell_of_revisit" false 1 (fun raw => as_bool (int_from_bytes raw))].

Definition sensor_layout : list slot :=
  [slot_of "dwell_time" "dwell_time_s" false 4 (scaled_u _4607_millisec 3);
   slot_of "sensor_lat" "sensor_lat_deg" false 4 (scaled_s _4607_sa32 7);
   slot_of "sensor_lon" "sensor_lon_deg" false 4 (scaled_u _4607_ba32 7);
   slot_of "sensor_alt" "sensor_alt_m" false 4 (scaled_s _4607_centimeters 2);
   slot_of "scale_lat" "scale_lat_raw" true 4 signed; slot_of "scale_lon" "scale_lon_raw" true 4 unsigned;
   slot_of "unc_along" "sensor_unc_along_m" true 4 (scaled_u _4607_centimeters 2);
   slot_of "unc_cross" "sensor_unc_cross_m" true 4 (scaled_u _4607_centimeters 2);
   slot_of "unc_alt" "sensor_unc_alt_m" true 2 (scaled_u _4607_centimeters 2);
   slot_of "track" "sensor_track_deg" true 2 (scaled_u _4607_ba16 2);
   slot_of "speed" "sensor_speed_ms" true 4 (scaled_u _4607_speed_mmps 3);
   slot_of "vert_velocity" "sensor_vertical_velocity_ms" true 1 (scaled_s _4607_speed_deci 1);
   slot_of "track_unc" "sensor_track_unc_deg" true 1 unsigned;
   slot_of "speed_unc" "sensor_speed_unc_ms" true 2 (scaled_u _4607_speed_mmps 3);
   slot_of "vv_unc" "sensor_vv_unc_ms" true 2 (scaled_u _4607_speed_centi 2);
   slot_of "plat_heading" "platform_heading_deg" true 2 (scaled_u _4607_ba16 2);
   slot_of "plat_pitch" "platform_pitch_deg" true 2 (scaled_s _4607_sa16 3);
   slot_of "plat_roll" "platform_roll_deg" true 2 (scaled_s _4607_sa16 3)].

Definition area_layout : list slot :=
  [slot_of "area_lat" "dwell_area_center_lat_deg" false 4 (scaled_s _4607_sa32 7);
   slot_of "area_lon" "dwell_area_center_lon_deg" false 4 (scaled_u _4607_ba32 7);
   slot_of "area_range" "dwell_area_range_half_extent_km" false 2 (scaled_u _4607_kilometers 2);
   slot_of "area_angle" "dwell_area_angle_half_extent_deg" false 2 (scaled_u _4607_ba16 2);
   slot_of "sensor_heading" "sensor_heading_deg" true 2 (scaled_u _4607_ba16 2);
   slot_of "sensor_pitch" "sensor_pitch_deg" true 2 (scaled_s _4607_sa16 3);
   slot_of "sensor_roll" "sensor_roll_deg" true 2 (scaled_s _4607_sa16 3);
   slot_of "mdv" "mdv_ms" true 1 (scaled_u _4607_speed_deci 1)].

(** ** The layouts are what the decoders read *)

Lemma unpack_signed n raw : len raw = n -> unpack_s n raw = Ok (sint raw).
Proof. intros H. unfold unpack_s, sint. rewrite unpack_u_ok by done. by rewrite H. Qed.

Lemma one_octet raw : len raw = 1 -> exists b, raw = [b] /\ int_from_bytes raw = byte_val b.
Proof.
  destruct raw as [|b [|c raw]]; [done| |unfold len; cbn [length]; lia]. intros _. by exists b.
Qed.

(** One slot behind another. *)
Lemma reads_slots_cons {R} table b s layout (m1 m2 : bytes -> cur R unit) :
  reads m1 (slot_octets table b s) (slot_entries table b s) ->
  reads m2 (octets_of table b layout) (entries_of table b layout) ->
  reads (fun data => m1 data ;; m2 data) (octets_of table b (s :: layout)) (entries_of table b (s :: layout)).
Proof. apply reads_bind. Qed.

Lemma reads_slots_one {R} table b s (m : bytes -> cur R unit) :
  reads m (slot_octets table b s) (slot_entries table b s) ->
  reads m (octets_of table b [s]) (entries_of table b [s]).
Proof. unfold octets_of, entries_of. cbn [map concat]. by rewrite !app_nil_r. Qed.

Lemma reads_classification {R} raw : len raw = 1 ->
  @reads R (fun data => cls <- at_ data 0 ;; adv 1 ;; set_ "target_classification" (looked_up _4607_TARGET_CLASSES cls) ;;
                        set_ "target_classification_code" (VInt cls)) raw
    [("target_classification", looked_up _4607_TARGET_CLASSES (int_from_bytes raw)); ("target_classification_code", unsigned raw)].
Proof.
  intros H. destruct (one_octet raw H) as (b & -> & Eb). unfold unsigned. rewrite Eb.
  intros pre post d. unfold bind, at_, lift. rewrite Z.add_0_r. cbn [app]. rewrite byte_at_mid by done. reflexivity.
Qed.

Ltac read_value :=
  first [ apply reads_field; [assumption|]
        | match goal with H : len ?raw = 1 |- _ => let o := fresh "o" in let Eo := fresh "Eo" in destruct (one_octet raw H) as (o & -> & Eo);
            unfold unsigned, scaled_u; rewrite ?Eo; apply reads_octet end ];
  unfold int_field, rounded, signed, unsigned, scaled_u, scaled_s, _4607_u16, _4607_u32, _4607_s16, _4607_s32, _4607_i8;
  rewrite ?unpack_u_ok, ?unpack_signed by assumption; reflexivity.

Ltac read_slot :=
  match goal with
  | H : written _ _ ?s = true -> _ |- reads _ (slot_octets _ _ ?s) _ =>
      unfold slot_octets, slot_entries, written in *; cbn [s_optional s_name s_value s_width slot_of negb orb] in H |- *;
      first [ apply reads_when; let Hbit := fresh in intros Hbit; specialize (H Hbit); first [read_value | by apply reads_classification]
            | specialize (H eq_refl); read_value ]
  end.

(** All the slots of a layout. *)
Ltac read_layout H :=
  unfold block_fits in H;
  repeat (let Hs := fresh "Hs" in apply Forall_cons in H as [Hs H];
          lazymatch goal with
          | |- reads (fun data => bind _ _) _ _ => apply (reads_slots_cons _ _ _ _ (fun data => _) (fun data => _)); [clear H; read_slot|clear Hs]
          | |- _ => apply reads_slots_one; read_slot
          end).

Lemma reads_target {R} b : block_fits _4607_D32 b target_layout ->
  @reads R (fun data => target_fields data (g_mask b)) (octets_of _4607_D32 b target_layout) (entries_of _4607_D32 b target_layout).
Proof.
  intros H. unfold target_fields. cbv zeta. read_layout H.
Qed.

Lemma reads_start {R} b : block_fits _4607_D b start_layout ->
  @reads R dwell_start (octets_of _4607_D b start_layout) (entries_of _4607_D b start_layout).
Proof. intros H. unfold dwell_start. read_layout H. Qed.

Lemma reads_sensor {R} b : block_fits _4607_D b sensor_layout ->
  @reads R (fun data => dwell_sensor data (g_mask b)) (octets_of _4607_D b sensor_layout) (entries_of _4607_D b sensor_layout).
Proof. intros H. unfold dwell_sensor. cbv zeta. read_layout H. Qed.

Lemma reads_area {R} b : block_fits _4607_D b area_layout ->
  @reads R (fun data => dwell_area data (g_mask b)) (octets_of _4607_D b area_layout) (entries_of _4607_D b area_layout).
Proof. intros H. unfold dwell_area. cbv zeta. read_layout H. Qed.

(** ** Dwells *)

(** A function's dictionary starts empty. *)
Lemma filled_reads m raw kvs pre post : reads m raw kvs ->
  filled (m (pre ++ raw ++ post)) (len pre) = Ok (dupdate [] kvs, len pre + len raw).
Proof. intros H. unfold filled, run, bind. by rewrite H. Qed.

Record dwell := { dw_block : block; dw_targets : list (string -> bytes) }.

Definition target_of (d : dwell) (t : string -> bytes) : block := {| g_mask := g_mask (dw_block d); g_raw := t |}.
Definition target_octets (d : dwell) (t : string -> bytes) : bytes := octets_of _4607_D32 (target_of d t) target_layout.
Definition target_dict (d : dwell) (t : string -> bytes) : dict := dupdate [] (entries_of _4607_D32 (target_of d t) target_layout).

Definition dwell_octets (d : dwell) : bytes :=
  let b := dw_block d in
  be 4 (g_mask b / 2 ^ 32) ++ be 4 (g_mask b) ++ octets_of _4607_D b start_layout ++ be 2 (len (dw_targets d)) ++
  octets_of _4607_D b sensor_layout ++ octets_of _4607_D b area_layout ++ concat (map (target_octets d) (dw_targets d)).

Definition dwell_entries (d : dwell) : dict :=
  let b := dw_block d in
  entries_of _4607_D b start_layout ++ entries_of _4607_D b sensor_layout ++ entries_of _4607_D b area_layout.
Definition dwell_dict (d : dwell) : dict := dupdate [] (dwell_entries d).

Definition dwell_fits (d : dwell) : Prop :=
  let b := dw_block d in
  0 <= g_mask b < 2 ^ 64 /\ block_fits _4607_D b (start_layout ++ sensor_layout ++ area_layout) /\
  len (dw_targets d) < 2 ^ 16 /\ Forall (fun t => block_fits _4607_D32 (target_of d t) target_layout) (dw_targets d).

Lemma targets_loop_ok d pre post dict0 ts acc :
  Forall (fun t => block_fits _4607_D32 (target_of d t) target_layout) ts ->
  let data := pre ++ concat (map (target_octets d) ts) ++ post in
  @for_range (dict * list dict * Z) (list dict) (length ts) (fun targets =>
      report <- call (_4607_decode_target_report data (g_mask (dw_block d))) ;;
      ret (more (targets ++ [report]))) acc (len pre) dict0 =
  Next (acc ++ map (target_dict d) ts) (len pre + len (concat (map (target_octets d) ts))) dict0.
Proof.
  intros H. revert pre acc. induction H as [|t ts Ht _ IH]; intros pre acc; cbn [length map concat for_range].
  - unfold ret. rewrite app_nil_r. change (len (@nil byte)) with 0. by rewrite Z.add_0_r.
  - cbv zeta. cbn [map concat]. unfold bind at 1. unfold bind at 1. unfold call at 1, _4607_decode_target_report at 1.
    rewrite <- app_assoc. rewrite (filled_reads _ _ _ pre _ (reads_target (target_of d t) Ht)). fold (target_octets d t).
    unfold ret at 1. rewrite app_assoc.
    replace (len pre + len (target_octets d t)) with (len (pre ++ target_octets d t)) by (by rewrite len_app).
    cbv zeta in IH. rewrite IH. f_equal; [by rewrite <- app_assoc|]. rewrite !len_app. lia.
Qed.

Lemma decode_dwell_ok d pre post : dwell_fits d ->
  _4607_decode_dwell (pre ++ dwell_octets d ++ post) (len pre) =
  Ok (dwell_dict d, map (target_dict d) (dw_targets d), len pre + len (dwell_octets d)).
Proof.
  intros (Hm & Hb & Hc & Ht). unfold block_fits in Hb. rewrite !Forall_app in Hb. destruct Hb as (Hb1 & Hb2 & Hb3).
  set (b := dw_block d) in *. unfold _4607_decode_dwell, dwell_octets. fold b.
  set (o1 := octets_of _4607_D b start_layout). set (o2 := octets_of _4607_D b sensor_layout).
  set (o3 := octets_of _4607_D b area_layout). set (o4 := concat _).
  set (data := pre ++ _ ++ post).
  set (h := be 4 (g_mask b / 2 ^ 32)). set (l := be 4 (g_mask b)). set (c := be 2 (len (dw_targets d))).
  assert (len h = 4 /\ len l = 4 /\ len c = 2) as (Eh & El & Ec) by (subst h l c; rewrite !len_be; lia).
  assert (data = pre ++ h ++ l ++ o1 ++ c ++ o2 ++ o3 ++ o4 ++ post) as Edata by (subst data; rewrite <- !app_assoc; done).
  unfold run. unfold bind at 1, on_slice at 1, lift, _4607_u32. rewrite Edata, Z.add_0_r, (slice_mid pre h) by lia.
  rewrite unpack_u_ok by done. unfold bind at 1, on_slice at 1, lift.
  rewrite (app_assoc pre), (slice_mid (pre ++ h) l) by (rewrite len_app; lia). rewrite unpack_u_ok by done.
  subst h l. rewrite int_from_be_small by (split; [apply Z.div_pos|apply Z.div_lt_upper_bound]; lia). rewrite int_from_be.
  rewrite lor_concat by (try apply Z.mod_pos_bound; lia). change (8 * Z.of_nat 4) with 32.
  replace (g_mask b / 2 ^ 32 * 2 ^ 32 + g_mask b mod 2 ^ 32) with (g_mask b) by (rewrite Z.mul_comm; apply Z.div_mod; lia).
  cbv zeta. unfold bind at 1, adv at 1. rewrite (app_assoc (pre ++ _)). set (p2 := (pre ++ _) ++ _).
  replace (len pre + 8) with (len p2) by (subst p2; rewrite !len_app, !len_be; lia).
  unfold bind at 1. rewrite (reads_start b Hb1 p2). fold o1. unfold bind at 1, on_slice at 1, lift.
  rewrite (app_assoc p2). replace (len p2 + len o1) with (len (p2 ++ o1)) by (by rewrite len_app).
  rewrite Z.add_0_r, (slice_mid (p2 ++ o1) c) by lia. unfold _4607_u16. rewrite unpack_u_ok by done.
  subst c. rewrite int_from_be_small by (pose proof (len_nonneg (dw_targets d)); lia).
  unfold bind at 1, adv at 1. rewrite (app_assoc (p2 ++ o1)). set (p3 := (p2 ++ o1) ++ _).
  replace (len (p2 ++ o1) + 2) with (len p3) by (subst p3; rewrite len_app, len_be; lia).
  unfold bind at 1. rewrite (reads_sensor b Hb2 p3). rewrite (app_assoc p3). fold o2.
  replace (len p3 + len o2) with (len (p3 ++ o2)) by (by rewrite len_app).
  unfold bind at 1. rewrite (reads_area b Hb3 (p3 ++ o2)). rewrite (app_assoc (p3 ++ o2)). fold o3.
  replace (len (p3 ++ o2) + len o3) with (len ((p3 ++ o2) ++ o3)) by (by rewrite len_app).
  unfold bind at 1. unfold len at 1. rewrite Nat2Z.id. subst o4. rewrite targets_loop_ok by done.
  unfold return_. f_equal. f_equal; [f_equal|].
  - unfold dwell_dict, dwell_entries. by rewrite !dupdate_app.
  - subst p3 p2. rewrite !len_app, !len_be. lia.
Qed.

(** ** Looking up what was read *)
Lemma dget_dupdate_ne d kvs k : (forall v, ~ In (k, v) kvs) -> dget (dupdate d kvs) k = dget d k.
Proof.
  revert d. unfold dupdate. induction kvs as [|[k' v'] kvs IH]; intros d H; cbn [fold_left fst snd]; [done|].
  rewrite IH by (intros v Hv; apply (H v); by right). apply dget_dset_ne. intros ->. apply (H v'). by left.
Qed.

Lemma dget_dupdate_in d kvs k v : In (k, v) kvs -> (forall w, In (k, w) kvs -> w = v) -> dget (dupdate d kvs) k = Some v.
Proof.
  revert d. induction kvs as [|[k' v'] kvs IH] using rev_ind; intros d Hin Hu; [done|].
  rewrite dupdate_app. unfold dupdate at 1. cbn [fold_left fst snd].
  destruct (String.eqb_spec k' k) as [->|Hne].
  - rewrite dget_dset_eq. f_equal. apply Hu. apply in_app_iff. right. by left.
  - rewrite dget_dset_ne by done. apply IH; [|intros w Hw; apply Hu, in_app_iff; by left].
    apply in_app_iff in Hin as [Hin|[Hin|[]]]; [done|]. by injection Hin.
Qed.

(** No other slot of a layout sets the key. *)
Definition sole (k : string) (s0 : slot) (layout : list slot) : Prop :=
  Forall (fun s => s = s0 \/ forall raw v, ~ In (k, v) (s_value s raw)) layout.

Lemma in_entries table b layout kv : In kv (entries_of table b layout) ->
  exists s, In s layout /\ written table b s = true /\ In kv (s_value s (g_raw b (s_name s))).
Proof.
  unfold entries_of. intros (l & Hl & Hkv)%in_concat. apply in_map_iff in Hl as (s & <- & Hs).
  exists s. unfold slot_entries in Hkv. destruct (written table b s); [done|destruct Hkv].
Qed.

Lemma lookup_slot table b layout s0 k v d :
  In s0 layout -> written table b s0 = true -> s_value s0 (g_raw b (s_name s0)) = [(k, v)] -> sole k s0 layout ->
  dget (dupdate d (entries_of table b layout)) k = Some v.
Proof.
  intros Hin Hw Hv Hs. apply dget_dupdate_in.
  - unfold entries_of. apply in_concat. exists (slot_entries table b s0). split; [by apply in_map|].
    unfold slot_entries. rewrite Hw, Hv. by left.
  - intros w (s & Hsl & _ & Hkv)%in_entries. unfold sole in Hs. rewrite List.Forall_forall in Hs.
    destruct (Hs _ Hsl) as [->|H]; [|by apply H in Hkv]. rewrite Hv in Hkv. destruct Hkv as [[= <-]|[]]. done.
Qed.

Lemma lookup_absent table b layout s0 k d :
  written table b s0 = false -> sole k s0 layout -> dget d k = None ->
  dget (dupdate d (entries_of table b layout)) k = None.
Proof.
  intros Hw Hs Hd. rewrite dget_dupdate_ne; [done|]. intros v (s & Hsl & Hws & Hkv)%in_entries.
  unfold sole in Hs. rewrite List.Forall_forall in Hs. destruct (Hs _ Hsl) as [->|H]; [congruence|by apply H in Hkv].
Qed.

Ltac solve_sole :=
  repeat (constructor; [first [left; reflexivity
                              | right; intros ? ?; cbn [s_value slot_of one In]; let H := fresh in intros H;
                                repeat (destruct H as [H|H]; [discriminate H|]); exact H]|]);
  constructor.
Ltac solve_lookup s0 := apply (lookup_slot _ _ _ s0); [cbn [In app start_layout sensor_layout area_layout target_layout]; tauto|reflexivity|reflexivity|solve_sole].

Lemma entries_of_app table b l k : entries_of table b (l ++ k) = entries_of table b l ++ entries_of table b k.
Proof. unfold entries_of. by rewrite map_app, concat_app. Qed.

Definition raw_of (d : dwell) (name : string) : bytes := g_raw (dw_block d) name.

Lemma dwell_lookups d :
  dget (dwell_dict d) "dwell_index" = Some (unsigned (raw_of d "dwell_index")) /\
  dget (dwell_dict d) "dwell_time_s" = Some (scaled_u _4607_millisec 3 (raw_of d "dwell_time")) /\
  dget (dwell_dict d) "sensor_lat_deg" = Some (scaled_s _4607_sa32 7 (raw_of d "sensor_lat")) /\
  dget (dwell_dict d) "sensor_lon_deg" = Some (scaled_u _4607_ba32 7 (raw_of d "sensor_lon")) /\
  dget (dwell_dict d) "sensor_alt_m" = Some (scaled_s _4607_centimeters 2 (raw_of d "sensor_alt")).
Proof.
  unfold dwell_dict, dwell_entries. rewrite <- !entries_of_app. split_and!.
  - solve_lookup (slot_of "dwell_index" "dwell_index" false 2 unsigned).
  - solve_lookup (slot_of "dwell_time" "dwell_time_s" false 4 (scaled_u _4607_millisec 3)).
  - solve_lookup (slot_of "sensor_lat" "sensor_lat_deg" false 4 (scaled_s _4607_sa32 7)).
  - solve_lookup (slot_of "sensor_lon" "sensor_lon_deg" false 4 (scaled_u _4607_ba32 7)).
  - solve_lookup (slot_of "sensor_alt" "sensor_alt_m" false 4 (scaled_s _4607_centimeters 2)).
Qed.

Lemma index_lookup d t :
  dget (target_dict d t) "target_report_index" =
  if mask_bit _4607_D32 (g_mask (dw_block d)) "index" then Some (unsigned (t "index"%py)) else None.
Proof.
  unfold target_dict. set (s0 := slot_of "index" "target_report_index" true 2 unsigned).
  assert (written _4607_D32 (target_of d t) s0 = mask_bit _4607_D32 (g_mask (dw_block d)) "index") as Hw by done.
  destruct (mask_bit _ _ _).
  - apply (lookup_slot _ _ _ s0); [by left|done|reflexivity|solve_sole].
  - apply (lookup_absent _ _ _ s0); [done|solve_sole|done].
Qed.

(** ** Packets *)

(** The identity of a report: its index where it has one, its place among the
    tracks of the packet otherwise. *)
Definition gmti_uid (job : Z) (d : dwell) (t : string -> bytes) (n : Z) : string :=
  "stanag4607-" +:+ str_int job +:+ "-" +:+ str_int (int_from_bytes (raw_of d "dwell_index")) +:+ "-" +:+
  str_int (if mask_bit _4607_D32 (g_mask (dw_block d)) "index" then int_from_bytes (t "index"%py) else n).

Definition expected_track (now : float) (job : Z) (d : dwell) (t : string -> bytes) (n : Z) : dict :=
  dupdate [("_ts", VFloat now); ("_src", VStr "STANAG 4607"); ("uid", VStr (gmti_uid job d t n)); ("job_id", VInt job);
           ("dwell_index", unsigned (raw_of d "dwell_index")); ("dwell_time_s", scaled_u _4607_millisec 3 (raw_of d "dwell_time"));
           ("sensor_lat_deg", scaled_s _4607_sa32 7 (raw_of d "sensor_lat"));
           ("sensor_lon_deg", scaled_u _4607_ba32 7 (raw_of d "sensor_lon"));
           ("sensor_alt_m", scaled_s _4607_centimeters 2 (raw_of d "sensor_alt"))] (target_dict d t).

Fixpoint dwell_tracks (clock : Z -> float) (job : Z) (d : dwell) (ts : list (string -> bytes)) (n : Z) : list dict :=
  match ts with
  | [] => []
  | t :: ts' => expected_track (clock n) job d t n :: dwell_tracks clock job d ts' (n + 1)
  end.

Lemma gmti_tracks_ok repr clock header job d ts tracks : dget header "job_id" = Some (VInt job) ->
  gmti_tracks repr clock header (dwell_dict d) (map (target_dict d) ts) tracks =
  Ok (tracks ++ dwell_tracks clock job d ts (len tracks)).
Proof.
  intros Hj. destruct (dwell_lookups d) as (H1 & H2 & H3 & H4 & H5).
  revert tracks. induction ts as [|t ts IH]; intros tracks; cbn [map gmti_tracks dwell_tracks]; [by rewrite app_nil_r|].
  unfold gmti_track, ditem. rewrite Hj, H1, H2, H3, H4, H5. cbn [exc_bind]. rewrite IH, <- app_assoc. cbn [app].
  rewrite len_app. change (len [_]) with 1. do 3 f_equal. unfold expected_track, gmti_uid, dget_or. rewrite index_lookup.
  unfold unsigned. by destruct (mask_bit _ _ _).
Qed.

(** ** The other segments

    [runs k n m]: with [n] octets at the cursor, [m] goes on, [k] octets
    further. *)
Definition runs {R} (k n : Z) (m : bytes -> cur R unit) : Prop :=
  forall data p d, 0 <= p -> p + n <= len data -> exists d', m data p d = Next tt (p + k) d'.

Lemma runs_bind {R} k1 n1 k2 n2 n (m1 m2 : bytes -> cur R unit) : 0 <= k1 -> n1 <= n -> k1 + n2 <= n ->
  runs k1 n1 m1 -> runs k2 n2 m2 -> runs (k1 + k2) n (fun data => m1 data ;; m2 data).
Proof.
  intros Hk H1 H2 R1 R2 data p d Hp Hl. destruct (R1 data p d) as [d1 E1]; [lia|lia|].
  destruct (R2 data (p + k1) d1) as [d2 E2]; [lia|lia|]. exists d2. unfold bind. rewrite E1, E2. f_equal. lia.
Qed.

Definition reads_raw (f : bytes -> exc value) (n : Z) : Prop := forall raw, len raw = n -> exists v, f raw = Ok v.

Lemma runs_entry {R} k a b f n : 0 <= a <= b -> b <= n -> reads_raw f (b - a) -> @runs R 0 n (fun data => put_field data k a b f).
Proof.
  intros Ha Hb Hf data p d Hp Hl. destruct (Hf (slice data (p + a) (p + b))) as [v Hv]; [rewrite len_slice; lia|].
  unfold put_field, bind, on_slice, lift. rewrite Hv. unfold set_. eexists. by rewrite Z.add_0_r.
Qed.

Lemma runs_entry_at {R} k a f n : 0 <= a < n -> @runs R 0 n (fun data => entry_at data k a f).
Proof.
  intros Ha data p d Hp Hl. destruct (byte_at_ok data (p + a)) as (b & Hb & _); [lia|].
  unfold entry_at, bind, at_, lift. rewrite Hb. unfold set_. eexists. by rewrite Z.add_0_r.
Qed.

Lemma runs_field {R} k n f : 0 <= n -> reads_raw f n -> @runs R n n (fun data => field data k n f).
Proof.
  intros Hn Hf data p d Hp Hl. destruct (@runs_entry R k 0 n f n ltac:(lia) ltac:(lia) ltac:(by rewrite Z.sub_0_r) data p d Hp Hl) as [d' E].
  unfold field, bind. rewrite E. unfold adv. exists d'. by rewrite Z.add_0_r.
Qed.

Lemma runs_field_octet {R} k f : @runs R 1 1 (fun data => field_octet data k f).
Proof.
  intros data p d Hp Hl. destruct (@runs_entry_at R k 0 f 1 ltac:(lia) data p d Hp Hl) as [d' E].
  unfold field_octet, bind. rewrite E. unfold adv. exists d'. by rewrite Z.add_0_r.
Qed.

Lemma reads_raw_plain_u n : reads_raw (int_field (unpack_u n)) n.
Proof. intros raw H. unfold int_field. rewrite unpack_u_ok by done. by eexists. Qed.
Lemma reads_raw_rounded_u n f k : reads_raw (rounded (unpack_u n) f k) n.
Proof. intros raw H. unfold rounded. rewrite unpack_u_ok by done. by eexists. Qed.
Lemma reads_raw_rounded_s n f k : reads_raw (rounded (unpack_s n) f k) n.
Proof. intros raw H. unfold rounded. rewrite unpack_signed by done. by eexists. Qed.
Lemma reads_raw_text n : reads_raw padded_text n.
Proof. intros raw _. by eexists. Qed.

Ltac raw_ok := first [apply reads_raw_plain_u | apply reads_raw_rounded_u | apply reads_raw_rounded_s | apply reads_raw_text].

Lemma runs_adv {R} k n : @runs R k n (fun _ => adv k).
Proof. intros data p d _ _. by eexists. Qed.

Lemma runs_at {R} a k n (m : bytes -> Z -> cur R unit) : 0 <= a < n -> (forall b, runs k n (fun data => m data b)) ->
  runs k n (fun data => b <- at_ data a ;; m data b).
Proof.
  intros Ha Hm data p d Hp Hl. destruct (byte_at_ok data (p + a)) as (b & Hb & _); [lia|].
  unfold bind, at_, lift. rewrite Hb. by apply Hm.
Qed.

Lemma runs_set {R} k n (m : bytes -> cur R unit) key v : runs k n m -> runs k n (fun data => set_ key v ;; m data).
Proof. intros Hm data p d Hp Hl. by apply (Hm data p (dset key v d)). Qed.

(** The statements of a segment, one after another. *)
Ltac runs_last K N :=
  first [ apply runs_adv | apply runs_field_octet | apply runs_field; [lia|raw_ok] | apply runs_entry; [lia|lia|raw_ok] | apply runs_entry_at; lia ].
Ltac runs_step :=
  lazymatch goal with
  | |- runs ?K ?N (fun data => bind (put_field _ _ _ _ _) _) =>
      apply (runs_bind 0 N K N N (fun data => _) (fun data => _)); [lia|lia|lia|apply runs_entry; [lia|lia|raw_ok]|]
  | |- runs ?K ?N (fun data => bind (entry_at _ _ _ _) _) =>
      apply (runs_bind 0 N K N N (fun data => _) (fun data => _)); [lia|lia|lia|apply runs_entry_at; lia|]
  | |- runs ?K ?N (fun data => bind (field _ _ ?n _) _) =>
      let K' := eval vm_compute in (K - n) in let N' := eval vm_compute in (N - n) in
      apply (runs_bind n n K' N' N (fun data => _) (fun data => _)); [lia|lia|lia|apply runs_field; [lia|raw_ok]|]
  | |- runs ?K ?N (fun data => bind (field_octet _ _ _) _) =>
      let K' := eval vm_compute in (K - 1) in let N' := eval vm_compute in (N - 1) in
      apply (runs_bind 1 1 K' N' N (fun data => _) (fun data => _)); [lia|lia|lia|apply runs_field_octet|]
  | |- runs ?K ?N (fun data => bind (adv ?n) _) =>
      let K' := eval vm_compute in (K - n) in let N' := eval vm_compute in (N - n) in
      apply (runs_bind n 0 K' N' N (fun data => _) (fun data => _)); [lia|lia|lia|apply runs_adv|]
  | |- runs ?K ?N (fun data => bind (set_ _ _) _) => apply runs_set
  | |- runs ?K ?N (fun data => bind (at_ _ _) _) => apply runs_at; [lia|intros ?]
  | |- runs ?K ?N (fun data => bind (corner _ _ _) _) =>
      apply (runs_bind 0 N K N N (fun data => _) (fun data => _)); [lia|lia|lia|unfold corner|]
  | |- runs ?K ?N _ => runs_last K N
  end.

Lemma filled_runs k n (m : bytes -> cur (dict * Z) unit) data p : runs k n m -> 0 <= p -> p + n <= len data ->
  exists r, filled (m data) p = Ok r.
Proof. intros Hm Hp Hl. destruct (Hm data p [] Hp Hl) as [d' E]. unfold filled, run, bind. rewrite E. by eexists. Qed.

Ltac by_runs data n :=
  match goal with |- context [filled ?m _] =>
    match eval pattern data in m with ?f _ => apply (filled_runs n n f); repeat runs_step end
  end.

Lemma mission_ok data p : 0 <= p -> p + 39 <= len data -> exists r, _4607_decode_mission data p = Ok r.
Proof. unfold _4607_decode_mission. by_runs data 39. Qed.
Lemma jobdef_ok data p : 0 <= p -> p + 68 <= len data -> exists r, _4607_decode_jobdef data p = Ok r.
Proof. unfold _4607_decode_jobdef. by_runs data 68. Qed.
Lemma platform_location_ok data p : 0 <= p -> p + 23 <= len data -> exists r, _4607_decode_platform_location data p = Ok r.
Proof. unfold _4607_decode_platform_location. by_runs data 23. Qed.

(** ** Whole packets *)
Inductive segment := Dwell (d : dwell) (extra : bytes) | Other (kind : Z) (body : bytes).

Definition segment_kind (s : segment) : Z := match s with Dwell _ _ => _4607_DWELL_SEGMENT | Other k _ => k end.
Definition segment_body (s : segment) : bytes := match s with Dwell d extra => dwell_octets d ++ extra | Other _ b => b end.
Definition segment_octets (s : segment) : bytes :=
  of_ints [segment_kind s] ++ be 4 (5 + len (segment_body s)) ++ segment_body s.

(** The fixed part of a segment that is read for its errors only. *)
Definition minimum (kind : Z) : Z :=
  if kind =? _4607_MISSION_SEGMENT then 39 else if kind =? _4607_JOB_DEFINITION_SEGMENT then 68
  else if kind =? _4607_PLATFORM_LOCATION_SEGMENT then 23 else 0.
Definition segment_fits (s : segment) : Prop :=
  5 + len (segment_body s) < 2 ^ 32 /\
  match s with
  | Dwell d _ => dwell_fits d
  | Other k b => 0 <= k < 256 /\ k <> _4607_DWELL_SEGMENT /\ minimum k <= len b
  end.

Fixpoint packet_tracks (clock : Z -> float) (job : Z) (segs : list segment) (n : Z) : list dict :=
  match segs with
  | [] => []
  | Dwell d _ :: segs' =>
      dwell_tracks clock job d (dw_targets d) n ++ packet_tracks clock job segs' (n + len (dw_targets d))
  | Other _ _ :: segs' => packet_tracks clock job segs' n
  end.

(** The header: edition and version, the size of the packet, what the decoder
    only copies, and the job. *)
Definition gmti_packet (head mid : bytes) (job : Z) (segs : list segment) (behind : bytes) : bytes :=
  let body := concat (map segment_octets segs) in
  head ++ be 4 (32 + len body) ++ mid ++ be 4 job ++ body ++ behind.

Lemma len_dwell_tracks clock job d ts n : len (dwell_tracks clock job d ts n) = len ts.
Proof. revert n. induction ts as [|t ts IH]; intros n; cbn [dwell_tracks]; [done|]. by rewrite !len_cons, IH. Qed.

Lemma decode_segment_ok repr clock header job s pre post tracks :
  dget header "job_id" = Some (VInt job) -> segment_fits s ->
  decode_segment repr clock header (pre ++ segment_body s ++ post) (segment_kind s) (len pre) tracks =
  Ok (tracks ++ packet_tracks clock job [s] (len tracks)).
Proof.
  intros Hj [_ Hs]. pose proof (len_nonneg pre). pose proof (len_nonneg post). destruct s as [d extra|k b]; cbn [segment_kind segment_body packet_tracks].
  - unfold decode_segment. change (_4607_DWELL_SEGMENT =? ?k) with (2 =? k).
    change (2 =? _4607_MISSION_SEGMENT) with false. change (2 =? _4607_JOB_DEFINITION_SEGMENT) with false.
    change (2 =? _4607_PLATFORM_LOCATION_SEGMENT) with false. change (2 =? _4607_DWELL_SEGMENT) with true. cbv iota.
    rewrite <- app_assoc, decode_dwell_ok by done. cbn [exc_bind]. rewrite app_nil_r. by apply gmti_tracks_ok.
  - destruct Hs as (Hk & Hd & Hm). rewrite app_nil_r. unfold decode_segment, minimum in *. set (data := pre ++ b ++ post).
    assert (len data = len pre + len b + len post) as Hl by (subst data; rewrite !len_app; lia).
    destruct (k =? _4607_MISSION_SEGMENT); [destruct (mission_ok data (len pre)) as [r ->]; [lia|lia|done]|].
    destruct (k =? _4607_JOB_DEFINITION_SEGMENT); [destruct (jobdef_ok data (len pre)) as [r ->]; [lia|lia|done]|].
    destruct (k =? _4607_PLATFORM_LOCATION_SEGMENT); [destruct (platform_location_ok data (len pre)) as [r ->]; [lia|lia|done]|].
    by destruct (Z.eqb_spec k _4607_DWELL_SEGMENT).
Qed.

Lemma packet_tracks_cons clock job s segs n :
  packet_tracks clock job (s :: segs) n =
  packet_tracks clock job [s] n ++ packet_tracks clock job segs (n + len (packet_tracks clock job [s] n)).
Proof. destruct s as [d extra|k b]; cbn [packet_tracks]; [|by rewrite Z.add_0_r]. by rewrite !app_nil_r, len_dwell_tracks. Qed.

Lemma segments_loop_ok repr clock header job segs behind :
  dget header "job_id" = Some (VInt job) -> Forall segment_fits segs ->
  forall fuel pre tracks, (length segs < fuel)%nat ->
  let body := concat (map segment_octets segs) in
  segments_loop repr fuel clock header (pre ++ body ++ behind) (len pre + len body) (len pre) tracks =
  Ok (tracks ++ packet_tracks clock job segs (len tracks)).
Proof.
  intros Hj H. induction H as [|s segs Hs Hsegs IH]; intros [|fuel] pre tracks Hf; cbn [length] in Hf; [lia| |lia|]; cbv zeta.
  - cbn [map concat segments_loop packet_tracks]. change (len (@nil byte)) with 0. replace (len pre + 0 <? len pre + 5) with true by lia.
    by rewrite app_nil_r.
  - cbn [map concat segments_loop]. set (rest := concat (map segment_octets segs)) in *.
    pose proof (len_nonneg rest). pose proof (len_nonneg (segment_body s)). pose proof (len_nonneg pre).
    assert (len (segment_octets s) = 5 + len (segment_body s)) as El
      by (unfold segment_octets; rewrite !len_app, len_be; change (len (of_ints [_])) with 1; lia).
    rewrite len_app, El. destruct (Z.ltb_spec (len pre + (5 + len (segment_body s) + len rest)) (len pre + 5)); [lia|].
    assert (0 <= segment_kind s < 256) as Hk by (destruct s as [d extra|k b]; [done|apply Hs]).
    destruct (of_ints_one (segment_kind s)) as (o & Eo & Ho). rewrite Z.mod_small in Ho by done.
    set (sz := be 4 (5 + len (segment_body s))).
    assert (pre ++ (segment_octets s ++ rest) ++ behind = pre ++ o :: (sz ++ segment_body s ++ rest ++ behind)) as E1
      by (unfold segment_octets; rewrite Eo; rewrite <- !app_assoc; done).
    rewrite E1. rewrite byte_at_mid by done. cbn [exc_bind]. rewrite Ho.
    assert (len sz = 4) as Es by (subst sz; by rewrite len_be).
    assert (pre ++ o :: (sz ++ segment_body s ++ rest ++ behind) = (pre ++ [o]) ++ sz ++ segment_body s ++ rest ++ behind) as E2
      by (by rewrite <- app_assoc).
    rewrite E2. assert (len (pre ++ [o]) = len pre + 1) as E3 by (by rewrite len_app).
    rewrite (slice_mid (pre ++ [o]) sz) by lia. unfold _4607_u32. rewrite unpack_u_ok by done. subst sz.
    rewrite int_from_be_small by (destruct Hs; lia). cbn [exc_bind].
    destruct (Z.ltb_spec (5 + len (segment_body s)) 5); [lia|]. set (sz := be 4 _) in *.
    rewrite (app_assoc (pre ++ [o])). set (pre' := (pre ++ [o]) ++ sz).
    assert (len pre' = len pre + 5) as Ep by (subst pre'; rewrite len_app; lia).
    rewrite <- Ep.
    rewrite (decode_segment_ok repr clock header job s pre' _ tracks Hj Hs). cbn [exc_bind].
    rewrite (app_assoc pre'). replace (len pre + (5 + len (segment_body s))) with (len (pre' ++ segment_body s)) by (rewrite len_app; lia).
    replace (len pre + (5 + len (segment_body s) + len rest)) with (len (pre' ++ segment_body s) + len rest) by (rewrite len_app; lia).
    cbv zeta in IH. rewrite IH by lia. rewrite (packet_tracks_cons clock job s segs), <- app_assoc, len_app. done.
Qed.

Lemma header_ok head mid job total rest : len head = 2 -> len mid = 22 -> 0 <= job < 2 ^ 32 -> 0 <= total < 2 ^ 32 ->
  exists header, _4607_decode_header (head ++ be 4 total ++ mid ++ be 4 job ++ rest) = Ok (Some header) /\
    dget header "packet_size" = Some (VInt total) /\ dget header "job_id" = Some (VInt job).
Proof.
  intros Hh Hm Hj Ht. set (data := head ++ be 4 total ++ mid ++ be 4 job ++ rest).
  assert (len data = 32 + len rest) as Hl by (subst data; rewrite !len_app, !len_be; lia). pose proof (len_nonneg rest).
  assert (slice data 2 6 = be 4 total) as S1 by (subst data; apply slice_mid; rewrite ?len_be; lia).
  assert (slice data 28 32 = be 4 job) as S2.
  { subst data. rewrite 2!app_assoc. rewrite <- (app_assoc _ mid), app_assoc.
    rewrite <- !app_assoc. replace (head ++ be 4 total ++ mid ++ be 4 job ++ rest) with ((head ++ be 4 total ++ mid) ++ be 4 job ++ rest)
      by (by rewrite <- !app_assoc). apply slice_mid; rewrite !len_app, !len_be; lia. }
  destruct (byte_at_ok data 0) as (b0 & B0 & _); [lia|]. destruct (byte_at_ok data 1) as (b1 & B1 & _); [lia|].
  destruct (byte_at_ok data 8) as (b8 & B8 & _); [lia|]. destruct (byte_at_ok data 13) as (b13 & B13 & _); [lia|].
  assert (len (slice data 11 13) = 2 /\ len (slice data 24 28) = 4) as [L1 L2] by (rewrite !len_slice; lia).
  unfold _4607_decode_header. replace (len data <? 32) with false by lia.
  assert (_4607_u32 (be 4 total) = Ok total /\ _4607_u32 (be 4 job) = Ok job) as [U1 U2].
  { unfold _4607_u32. by rewrite !unpack_u_ok, !int_from_be_small by (apply len_be || lia). }
  assert (_4607_u16 (slice data 11 13) = Ok (int_from_bytes (slice data 11 13))) as U3 by (by apply unpack_u_ok).
  assert (_4607_u32 (slice data 24 28) = Ok (int_from_bytes (slice data 24 28))) as U4 by (by apply unpack_u_ok).
  cbv beta iota delta [filled run bind put_field entry_at on_slice at_ lift set_ return_ int_field padded_text text_exact].
  repeat (cbv beta iota; cbn [exc_bind]; rewrite ?Z.add_0_l, ?B0, ?B1, ?B8, ?B13, ?S1, ?S2, ?U1, ?U2, ?U3, ?U4).
  eexists. split; [reflexivity|]. by split.
Qed.

Definition packet_fits (head mid : bytes) (job : Z) (segs : list segment) : Prop :=
  len head = 2 /\ len mid = 22 /\ 0 <= job < 2 ^ 32 /\ Forall segment_fits segs /\
  32 + len (concat (map segment_octets segs)) < 2 ^ 32.

Lemma decode_packet_ok repr clock head mid job segs behind : packet_fits head mid job segs ->
  exists header, _4607_decode_packet repr clock (gmti_packet head mid job segs behind) =
    Ok (Some (header, packet_tracks clock job segs 0)).
Proof.
  intros (Hh & Hm & Hj & Hs & Ht). unfold gmti_packet. set (body := concat (map segment_octets segs)) in *.
  pose proof (len_nonneg body). pose proof (len_nonneg behind).
  destruct (header_ok head mid job (32 + len body) (body ++ behind)) as (header & E & Hp & Hjob); [done|done|done|lia|].
  exists header. unfold _4607_decode_packet. rewrite E. cbn [exc_bind]. unfold ditem. rewrite Hp. cbn [exc_bind].
  set (data := head ++ _). set (pre := head ++ be 4 (32 + len body) ++ mid ++ be 4 job).
  assert (len pre = 32) as Ep by (subst pre; rewrite !len_app, !len_be; lia).
  assert (data = pre ++ body ++ behind) as Ed by (subst data pre; rewrite <- !app_assoc; done).
  replace (Z.min (32 + len body) (len data)) with (len pre + len body) by (rewrite Ed, !len_app; lia).
  rewrite <- Ep, Ed. rewrite (segments_loop_ok repr clock header job segs behind Hjob Hs); [done|].
  unfold fuel_of. rewrite !length_app. fold body. enough (length segs <= length body)%nat by lia. subst body. clear.
  induction segs as [|s segs IH]; [done|]. cbn [map concat length]. rewrite length_app. unfold segment_octets at 1.
  rewrite !length_app, length_of_ints. cbn [length]. lia.
Qed.

(** C10: a packet of any segments is decoded to one track per target report,
    in order: every field the existence mask announces is read from its own
    octets with its own scale, the context is that of the report's dwell, and
    the octets behind the packet are left alone. *)
Theorem gmti_packet_exact repr clock head mid job segs behind : packet_fits head mid job segs ->
  exists header, _4607_decode_packet repr clock (gmti_packet head mid job segs behind) =
    Ok (Some (header, packet_tracks clock job segs 0)).
Proof. apply decode_packet_ok. Qed.

(** A dwell with one target report that has an index and a position, at the
    given revisit. *)
Definition sample_mask : Z := Z.lor (Z.shiftl 1 33) (Z.lor (Z.shiftl 1 32) (Z.shiftl 1 31)).
Definition sample_dwell (revisit lat : Z) : dwell :=
  {| dw_block := {| g_mask := sample_mask; g_raw := fun name =>
       if String.eqb name "revisit_index" then be 2 revisit else if String.eqb name "dwell_index" then be 2 5
       else if String.eqb name "last_dwell" then be 1 1
       else if selem name ["area_range"; "area_angle"] then be 2 0 else be 4 0 |};
     dw_targets := [fun name => if String.eqb name "index" then be 2 1 else if String.eqb name "lat" then be 4 lat else be 4 0] |}.

Definition sample_segments : list segment :=
  [Other 1 (of_ints (repeat 65 39)); Dwell (sample_dwell 0 (2 ^ 29)) []; Dwell (sample_dwell 1 (2 ^ 30)) [x00]].

(** Whether a block fits, decided. *)
Lemma block_fits_decided table b layout :
  forallb (fun s => negb (written table b s) || (len (g_raw b (s_name s)) =? s_width s)) layout = true -> block_fits table b layout.
Proof.
  rewrite forallb_forall. intros H. apply List.Forall_forall. intros s Hs Hw. specialize (H s Hs). rewrite Hw in H. cbn in H. lia.
Qed.

Lemma sample_dwell_fits revisit lat : dwell_fits (sample_dwell revisit lat).
Proof.
  split; [vm_compute; split; [discriminate|reflexivity]|].
  split; [|split; [reflexivity|apply Forall_singleton]]; apply block_fits_decided; reflexivity.
Qed.

Lemma sample_fits : packet_fits (of_ints [51; 49]) (of_ints (repeat 32 22)) 7 sample_segments.
Proof.
  split; [reflexivity|]. split; [reflexivity|]. split; [lia|]. split; [|vm_compute; reflexivity].
  repeat (apply Forall_cons; split); [| | |by apply Forall_nil].
  - split; [vm_compute; reflexivity|]. split; [lia|]. split; [done|vm_compute; discriminate].
  - split; [vm_compute; reflexivity|]. apply sample_dwell_fits.
  - split; [vm_compute; reflexivity|]. apply sample_dwell_fits.
Qed.

Lemma gmti_packet_exact_witness :
  packet_fits (of_ints [51; 49]) (of_ints (repeat 32 22)) 7 sample_segments /\
  (exists header, _4607_decode_packet (fun _ => ""%py) (fun _ => fl 7)
      (gmti_packet (of_ints [51; 49]) (of_ints (repeat 32 22)) 7 sample_segments [x00]) =
    Ok (Some (header, packet_tracks (fun _ => fl 7) 7 sample_segments 0))) /\
  map (fun t => dget t "lat_deg") (packet_tracks (fun _ => fl 7) 7 sample_segments 0) =
    [Some (VFloat (dec 225 1)); Some (VFloat (fl 45))].
Proof.
  split; [exact sample_fits|]. split; [|vm_compute; reflexivity].
  apply (gmti_packet_exact (fun _ => ""%py)). exact sample_fits.
Defined.

(** Two target reports share their identity when they are of dwells with
    the same number in different revisits: here two targets 22.5 degrees apart. *)
Theorem gmti_uid_shared :
  exists header t1 t2, _4607_decode_packet (fun _ => ""%py) (fun _ => fl 7)
      (gmti_packet (of_ints [51; 49]) (of_ints (repeat 32 22)) 7 sample_segments []) = Ok (Some (header, [t1; t2])) /\
    dget t1 "uid" = Some (VStr "stanag4607-7-5-1") /\ dget t2 "uid" = dget t1 "uid" /\
    dget t1 "lat_deg" = Some (VFloat (dec 225 1)) /\ dget t2 "lat_deg" = Some (VFloat (fl 45)).
Proof. do 3 eexists. split; [vm_compute; reflexivity|]. vm_compute. repeat split. Qed.

(** * Whatever a source sends: errors, types and positions of what is published *)
(** The errors of reading beyond the end. *)
Definition mild (e : exn) : Prop := e = StructError \/ e = IndexError.

(** A statement that keeps the schema, forgets no key and sets those of [new]. *)
Definition keeps {R} (S : schema) (new : list string) (m : cur R unit) : Prop :=
  forall p d (T : R -> Prop), 0 <= p -> wt S d ->
  wp m p d (fun _ p' d' => 0 <= p' /\ wt S d' /\ forall k, dmem k d = true \/ In k new -> dmem k d' = true) noB T mild.

Definition typed (f : bytes -> exc value) (t : ty) : Prop := forall raw, returns (f raw) (fun v => has_ty t v = true) mild.

Lemma dmem_set k v d k' : dmem k' d = true \/ In k' [k] -> dmem k' (dset k v d) = true.
Proof. rewrite dmem_dset. intros [->|[->|[]]]; [apply orb_true_r|by rewrite String.eqb_refl]. Qed.

Lemma keeps_then {R} S a b (m1 m2 : cur R unit) : keeps S a m1 -> keeps S b m2 -> keeps S (a ++ b) (m1 ;; m2).
Proof.
  intros H1 H2 p d T Hp Hd. apply wp_bind. eapply wp_weaken; [by apply H1| |done].
  intros _ p1 d1 (Hp1 & Hd1 & K1). eapply wp_weaken; [by apply H2| |done].
  intros _ p2 d2 (Hp2 & Hd2 & K2). split; [done|]. split; [done|]. intros k Hk. apply K2.
  rewrite in_app_iff in Hk. destruct Hk as [Hk|[Hk|Hk]]; [left; apply K1; by left|left; apply K1; by right|by right].
Qed.

Lemma keeps_when {R} S a c (m : cur R unit) : keeps S a m -> keeps S [] (when c m).
Proof.
  intros H p d T Hp Hd. destruct c; cbn [when].
  - eapply wp_weaken; [by apply H| |done]. intros _ p1 d1 (Hp1 & Hd1 & K1). split; [done|]. split; [done|].
    intros k [Hk|[]]. apply K1. by left.
  - apply wp_skip. split; [done|]. split; [done|]. by intros k [Hk|[]].
Qed.

Lemma keeps_adv {R} S n : 0 <= n -> @keeps R S [] (adv n).
Proof. intros Hn p d T Hp Hd. apply wp_adv. split; [lia|]. split; [done|]. by intros k [Hk|[]]. Qed.

Lemma keeps_dset {R} S k v t : field_ty S k = Some t -> has_ty t v = true -> @keeps R S [k] (set_ k v).
Proof.
  intros Ht Hv p d T Hp Hd. unfold wp, set_. split; [done|]. split; [by apply wt_dset; [|apply (field_okI _ _ _ t)]|].
  intros k'. apply dmem_set.
Qed.

Lemma keeps_entry {R} S data k a b f t : field_ty S k = Some t -> typed f t -> @keeps R S [k] (put_field data k a b f).
Proof.
  intros Ht Hf p d T Hp Hd. unfold put_field. apply wp_bind, wp_lift. specialize (Hf (slice data (p + a) (p + b))).
  eapply returns_weaken; [exact Hf| |done]. intros v Hv. by apply (keeps_dset S k v t).
Qed.

Lemma byte_at_mild data i : 0 <= i -> returns (byte_at data i) (fun b => 0 <= b < 256) mild.
Proof.
  intros Hi. destruct (Z.lt_ge_cases i (len data)) as [H|H].
  - by destruct (byte_at_ok data i) as (b & -> & Hb).
  - unfold byte_at, index. replace (i <? 0) with false by lia. cbn zeta. replace (i <? 0) with false by lia.
    rewrite (proj2 (nth_error_None _ _)); [by right|]. unfold len in H. lia.
Qed.

Lemma keeps_at {R} S new data a (m : Z -> cur R unit) : 0 <= a -> (forall b, 0 <= b < 256 -> keeps S new (m b)) ->
  keeps S new (b <- at_ data a ;; m b).
Proof.
  intros Ha Hm p d T Hp Hd. apply wp_bind, wp_lift. eapply returns_weaken; [apply byte_at_mild; lia| |done].
  intros b Hb. by apply Hm.
Qed.

Lemma keeps_entry_at {R} S data k a f t : 0 <= a -> field_ty S k = Some t -> (forall b, 0 <= b < 256 -> has_ty t (f b) = true) ->
  @keeps R S [k] (entry_at data k a f).
Proof. intros Ha Ht Hf. apply keeps_at; [done|]. intros b Hb. apply (keeps_dset S k _ t); [done|by apply Hf]. Qed.

Lemma keeps_field {R} S data k n f t : 0 <= n -> field_ty S k = Some t -> typed f t -> @keeps R S [k] (field data k n f).
Proof. intros Hn Ht Hf. change [k] with ([k] ++ []). apply keeps_then; [by eapply keeps_entry|by apply keeps_adv]. Qed.

Lemma keeps_field_octet {R} S data k f t : field_ty S k = Some t -> (forall b, 0 <= b < 256 -> has_ty t (f b) = true) ->
  @keeps R S [k] (field_octet data k f).
Proof. intros Ht Hf. change [k] with ([k] ++ []). apply keeps_then; [by eapply keeps_entry_at|by apply keeps_adv]. Qed.

Lemma typed_u n : 0 <= n -> typed (int_field (unpack_u n)) (TInt 0 (2 ^ (8 * n) - 1)).
Proof.
  intros Hn raw. unfold int_field, unpack_u. destruct (Z.eqb_spec (len raw) n) as [E|]; [|by left]. cbn.
  pose proof (int_from_bytes_range raw) as H. rewrite E in H. lia.
Qed.
Lemma typed_s n : 0 < n -> typed (int_field (unpack_s n)) (TInt (- 2 ^ (8 * n - 1)) (2 ^ (8 * n - 1) - 1)).
Proof.
  intros Hn raw. unfold int_field, unpack_s, unpack_u. destruct (Z.eqb_spec (len raw) n) as [E|]; [|by left]. cbn.
  pose proof (int_from_bytes_range raw) as H. rewrite E in H.
  pose proof (sign_extend_range (8 * n) _ ltac:(lia) H). lia.
Qed.
Lemma typed_rounded_u n f k : typed (rounded (unpack_u n) f k) TFloat.
Proof. intros raw. unfold rounded, unpack_u. destruct (_ =? _); [done|by left]. Qed.
Lemma typed_rounded_s n f k : typed (rounded (unpack_s n) f k) TFloat.
Proof. intros raw. unfold rounded, unpack_s, unpack_u. destruct (_ =? _); [done|by left]. Qed.
Lemma typed_text : typed padded_text TStr.
Proof. done. Qed.
Lemma typed_text_exact : typed text_exact TStr.
Proof. done. Qed.

Ltac typed_ok :=
  first [ apply typed_rounded_u | apply typed_rounded_s | exact typed_text | exact typed_text_exact
        | apply (typed_u 2 ltac:(lia)) | apply (typed_u 4 ltac:(lia)) | apply (typed_s 1 ltac:(lia))
        | apply (typed_s 2 ltac:(lia)) | apply (typed_s 4 ltac:(lia)) ].
Ltac value_ok := first [ reflexivity | cbn; lia | unfold looked_up; case_match; cbn; first [reflexivity | lia] ].
Ltac octet_ok := intros ? ?; value_ok.
Ltac keeps_step :=
  lazymatch goal with
  | |- keeps _ _ (bind (at_ _ _) _) => apply keeps_at; [lia|intros ? ?]
  | |- keeps _ _ (bind _ _) => apply keeps_then
  | |- keeps _ _ (when _ _) => eapply keeps_when
  | |- keeps _ _ (adv _) => apply keeps_adv; lia
  | |- keeps _ _ (set_ _ _) => eapply keeps_dset; [reflexivity|value_ok]
  | |- keeps _ _ (put_field _ _ _ _ _) => eapply keeps_entry; [reflexivity|typed_ok]
  | |- keeps _ _ (entry_at _ _ _ _) => eapply keeps_entry_at; [lia|reflexivity|octet_ok]
  | |- keeps _ _ (field _ _ _ _) => eapply keeps_field; [lia|reflexivity|typed_ok]
  | |- keeps _ _ (field_octet _ _ _) => eapply keeps_field_octet; [reflexivity|octet_ok]
  end.

(** ** The schemas *)
Definition uint8 : ty := TInt 0 255.
Definition uint16 : ty := TInt 0 65535.
Definition uint32 : ty := TInt 0 4294967295.
Definition sint8 : ty := TInt (-128) 127.
Definition sint16 : ty := TInt (-32768) 32767.
Definition sint32 : ty := TInt (-2147483648) 2147483647.

Definition report_schema : schema :=
  [("target_report_index", uint16); ("lat_deg", TFloat); ("lon_deg", TFloat); ("delta_lat_raw", sint16); ("delta_lon_raw", sint16);
   ("height_m", sint16); ("radial_velocity_ms", TFloat); ("wrap_velocity_ms", TFloat); ("snr_db", sint8);
   ("target_classification", TEither TStr uint8); ("target_classification_code", uint8); ("target_class_probability_pct", uint8);
   ("unc_slant_range_m", TFloat); ("unc_cross_range_m", TFloat); ("unc_height_m", uint8); ("unc_radial_velocity_ms", TFloat);
   ("truth_tag_application", uint8); ("truth_tag_entity", uint32); ("radar_cross_section_dbsm", sint8)].

Definition dwell_schema : schema :=
  [("revisit_index", sint16); ("dwell_index", uint16); ("last_dwell_of_revisit", TBool); ("dwell_time_s", TFloat);
   ("sensor_lat_deg", TFloat); ("sensor_lon_deg", TFloat); ("sensor_alt_m", TFloat); ("scale_lat_raw", sint32); ("scale_lon_raw", uint32);
   ("sensor_unc_along_m", TFloat); ("sensor_unc_cross_m", TFloat); ("sensor_unc_alt_m", TFloat); ("sensor_track_deg", TFloat);
   ("sensor_speed_ms", TFloat); ("sensor_vertical_velocity_ms", TFloat); ("sensor_track_unc_deg", uint8); ("sensor_speed_unc_ms", TFloat);
   ("sensor_vv_unc_ms", TFloat); ("platform_heading_deg", TFloat); ("platform_pitch_deg", TFloat); ("platform_roll_deg", TFloat);
   ("dwell_area_center_lat_deg", TFloat); ("dwell_area_center_lon_deg", TFloat); ("dwell_area_range_half_extent_km", TFloat);
   ("dwell_area_angle_half_extent_deg", TFloat); ("sensor_heading_deg", TFloat); ("sensor_pitch_deg", TFloat);
   ("sensor_roll_deg", TFloat); ("mdv_ms", TFloat)].

Definition header_schema : schema :=
  [("edition", TStr); ("version", TStr); ("packet_size", uint32); ("nationality", TStr); ("security_classification", uint8);
   ("security_system", TStr); ("security_code", uint16); ("exercise_indicator", uint8); ("platform_id", TStr); ("mission_id", uint32);
   ("job_id", uint32)].

Lemma keeps_target {R} data mask : exists new, @keeps R report_schema new (target_fields data mask).
Proof. eexists. unfold target_fields. cbv zeta. repeat keeps_step. Qed.

Definition mission_schema : schema :=
  [("mission_plan", TStr); ("flight_plan", TStr); ("platform_type", uint8); ("platform_config", TStr); ("mission_year", uint16);
   ("mission_month", uint8); ("mission_day", uint8)].
Definition jobdef_schema : schema :=
  [("job_id", uint32); ("sensor_type", TEither TStr uint8); ("sensor_model", TStr); ("target_filtering_flag", uint8); ("radar_priority", uint8);
   ("bounding_area_a_lat_deg", TFloat); ("bounding_area_a_lon_deg", TFloat); ("bounding_area_b_lat_deg", TFloat);
   ("bounding_area_b_lon_deg", TFloat); ("bounding_area_c_lat_deg", TFloat); ("bounding_area_c_lon_deg", TFloat);
   ("bounding_area_d_lat_deg", TFloat); ("bounding_area_d_lon_deg", TFloat); ("radar_mode", TEither TStr uint8);
   ("revisit_interval_s", uint16); ("nominal_pos_unc_along_m", uint16); ("nominal_pos_unc_cross_m", uint16); ("nominal_pos_unc_alt_m", uint16);
   ("nominal_heading_unc_deg", uint8); ("nominal_speed_unc_ms", uint16); ("nominal_sensing_slant_range_unc_m", uint16);
   ("nominal_sensing_cross_range_unc_m", uint16); ("nominal_sensing_vlos_unc_ms", uint16); ("nominal_sensing_mdv_ms", uint8);
   ("nominal_detection_prob_pct", uint8); ("nominal_false_alarm_density", uint8); ("terrain_elevation_model", uint8); ("geoid_model", uint8)].
Definition location_schema : schema :=
  [("location_time_s", TFloat); ("platform_lat_deg", TFloat); ("platform_lon_deg", TFloat); ("platform_alt_m", TFloat);
   ("platform_track_deg", TFloat); ("platform_speed_ms", TFloat); ("platform_vertical_velocity_ms", TFloat)].

Lemma filled_keeps S new (m : cur (dict * Z) unit) p : keeps S new m -> 0 <= p ->
  returns (filled m p) (fun '(d, p') => 0 <= p' /\ wt S d /\ forall k, In k new -> dmem k d = true) mild.
Proof.
  intros Hm Hp. unfold filled.
  eapply (returns_weaken _ (fun r => 0 <= snd r /\ wt S (fst r) /\ forall k, In k new -> dmem k (fst r) = true)); [|by intros [d p']|done].
  apply run_returns, wp_bind. eapply wp_weaken; [apply (Hm p [] _ Hp (wt_nil S))| |done].
  intros _ p' d' (Hp' & Hd' & K). apply wp_return. split; [done|]. split; [done|]. intros k Hk. apply K. by right.
Qed.

Lemma target_mild data mask p : 0 <= p ->
  returns (_4607_decode_target_report data mask p) (fun '(d, p') => 0 <= p' /\ wt report_schema d) mild.
Proof.
  intros Hp. destruct (@keeps_target (dict * Z) data mask) as [new H]. eapply returns_weaken; [by apply (filled_keeps _ _ _ _ H)| |done].
  intros [d p']. tauto.
Qed.

Lemma mission_mild data p : 0 <= p -> returns (_4607_decode_mission data p) (fun _ => True) mild.
Proof.
  intros Hp. eapply returns_weaken; [eapply (filled_keeps mission_schema); [repeat keeps_step|done]|done|done].
Qed.
Lemma jobdef_mild data p : 0 <= p -> returns (_4607_decode_jobdef data p) (fun _ => True) mild.
Proof.
  intros Hp. eapply returns_weaken; [eapply (filled_keeps jobdef_schema); [unfold corner; repeat keeps_step|done]|done|done].
Qed.
Lemma location_mild data p : 0 <= p -> returns (_4607_decode_platform_location data p) (fun _ => True) mild.
Proof.
  intros Hp. eapply returns_weaken; [eapply (filled_keeps location_schema); [repeat keeps_step|done]|done|done].
Qed.

(** The keys that the tracks of a dwell copy. *)
Definition copied : list string := ["dwell_index"; "dwell_time_s"; "sensor_lat_deg"; "sensor_lon_deg"; "sensor_alt_m"].

Lemma keeps_start {R} data : @keeps R dwell_schema ["revisit_index"; "dwell_index"; "last_dwell_of_revisit"] (dwell_start data).
Proof.
  unfold dwell_start. change ["revisit_index"; "dwell_index"; "last_dwell_of_revisit"]%py
    with (["revisit_index"] ++ ["dwell_index"] ++ ["last_dwell_of_revisit"])%py. repeat keeps_step.
Qed.
Lemma keeps_sensor {R} data mask : exists new, @keeps R dwell_schema (["dwell_time_s"; "sensor_lat_deg"; "sensor_lon_deg"; "sensor_alt_m"] ++ new)%py (dwell_sensor data mask).
Proof.
  eexists. unfold dwell_sensor. cbv zeta.
  apply (keeps_then _ ["dwell_time_s"%py]); [keeps_step|]. apply (keeps_then _ ["sensor_lat_deg"%py]); [keeps_step|].
  apply (keeps_then _ ["sensor_lon_deg"%py]); [keeps_step|]. apply (keeps_then _ ["sensor_alt_m"%py]); [keeps_step|]. repeat keeps_step.
Qed.
Lemma keeps_area {R} data mask : exists new, @keeps R dwell_schema new (dwell_area data mask).
Proof. eexists. unfold dwell_area. cbv zeta. repeat keeps_step. Qed.

Lemma unpack_mild n raw : returns (unpack_u n raw) (fun _ => True) mild.
Proof. unfold unpack_u. destruct (_ =? _); [done|by left]. Qed.

Definition dwell_result (r : dict * list dict * Z) : Prop :=
  let '(dwell, targets, _) := r in
  wt dwell_schema dwell /\ (forall k, In k copied -> dmem k dwell = true) /\ Forall (wt report_schema) targets.

Lemma dwell_mild data p : 0 <= p -> returns (_4607_decode_dwell data p) dwell_result mild.
Proof.
  intros Hp. unfold _4607_decode_dwell. apply run_returns.
  apply wp_bind, wp_lift. eapply returns_weaken; [apply unpack_mild| |done]. intros high _.
  apply wp_bind, wp_lift. eapply returns_weaken; [apply unpack_mild| |done]. intros low _. cbv zeta.
  set (mask := Z.lor _ _). apply wp_bind, wp_adv, wp_bind.
  eapply wp_weaken; [apply keeps_start; [lia|apply wt_nil]| |done]. intros _ p1 d1 (Hp1 & Hd1 & K1).
  apply wp_bind, wp_lift. eapply returns_weaken; [apply unpack_mild| |done]. intros count _.
  apply wp_bind, wp_adv, wp_bind. destruct (@keeps_sensor (dict * list dict * Z) data mask) as [new2 H2].
  eapply wp_weaken; [apply H2; [lia|exact Hd1]| |done]. intros _ p2 d2 (Hp2 & Hd2 & K2). apply wp_bind.
  destruct (@keeps_area (dict * list dict * Z) data mask) as [new3 H3].
  eapply wp_weaken; [apply H3; [lia|exact Hd2]| |done]. intros _ p3 d3 (Hp3 & Hd3 & K3). apply wp_bind.
  assert (forall k, In k copied -> dmem k d3 = true) as Hk.
  { intros k Hk. apply K3. left. apply K2. cbn [copied In] in Hk. rewrite in_app_iff. cbn [In].
    destruct Hk as [<-|Hk]; [left; apply K1; right; cbn; tauto|]. right. left. tauto. }
  clearbody mask. clear -Hp3 Hd3 Hk. generalize (Z.to_nat count). intros n.
  match goal with |- wp (for_range _ ?f _) _ _ _ _ _ _ => set (body := f) end.
  assert (Forall (wt report_schema) []) as Ha by constructor. revert Ha p3 Hp3. generalize (@nil dict).
  induction n as [|n IH]; intros acc Ha p3 Hp3; cbn [for_range].
  - apply wp_ret, wp_return. done.
  - apply wp_bind. unfold body at 1. apply wp_bind. unfold wp at 1, call.
    pose proof (target_mild data mask p3 Hp3) as Ht. unfold returns in Ht.
    destruct (_4607_decode_target_report data mask p3) as [[t p4]|e]; [|exact Ht]. destruct Ht as [Hp4 Ht].
    apply wp_ret. apply IH; [|done]. apply Forall_app. split; [done|]. by constructor.
Qed.

(** ** Packets *)

Definition gmti_schema : schema :=
  [("_ts", TFloat); ("_src", TStr); ("uid", TStr); ("job_id", uint32); ("dwell_index", uint16); ("dwell_time_s", TFloat);
   ("sensor_lat_deg", TFloat); ("sensor_lon_deg", TFloat); ("sensor_alt_m", TFloat)] ++ report_schema.

Lemma header_mild data : returns (_4607_decode_header data)
  (fun o => forall d, o = Some d -> 32 <= len data /\ wt header_schema d /\ dmem "packet_size" d = true /\ dmem "job_id" d = true) mild.
Proof.
  unfold _4607_decode_header. destruct (Z.ltb_spec (len data) 32); [done|].
  match goal with |- context [filled ?m 0] => assert (exists new, keeps header_schema new m /\ In "packet_size"%py new /\ In "job_id"%py new) as (new & Hk & H1 & H2) end.
  { exists (["edition"; "version"; "packet_size"; "nationality"; "security_classification"; "security_system"; "security_code";
             "exercise_indicator"; "platform_id"; "mission_id"; "job_id"]%py). split; [|cbn; tauto].
    do 10 (apply (keeps_then _ [_]); [keeps_step|]). keeps_step. }
  pose proof (filled_keeps _ _ _ 0 Hk ltac:(lia)) as Hf. unfold returns in *. destruct (filled _ 0) as [[d p']|e]; [|exact Hf].
  cbn [exc_bind]. destruct Hf as (_ & Hd & K). intros ? [= <-]. split; [done|]. split; [done|]. split; by apply K.
Qed.

Lemma ditem_ok S d k t : wt S d -> dmem k d = true -> field_ty S k = Some t -> exists v, ditem d k = Ok v /\ has_ty t v = true.
Proof.
  unfold dmem, ditem. intros Hd Hk Ht. destruct (dget d k) as [v|] eqn:E; [|done]. exists v. split; [done|].
  by eapply wt_get.
Qed.

Lemma gmti_track_ok repr now header dwell report n :
  wt header_schema header -> dmem "job_id" header = true -> wt dwell_schema dwell -> (forall k, In k copied -> dmem k dwell = true) ->
  wt report_schema report -> exists t, gmti_track repr now header dwell report n = Ok t /\ wt gmti_schema t.
Proof.
  intros Hh Hj Hd Hc Hr. unfold gmti_track.
  destruct (ditem_ok _ _ _ _ Hh Hj eq_refl) as (v0 & -> & T0).
  assert (forall k t, In k copied -> field_ty dwell_schema k = Some t -> exists v, ditem dwell k = Ok v /\ has_ty t v = true) as Hi
    by (intros k t Hk Ht; by apply (ditem_ok dwell_schema); [|apply Hc|]).
  destruct (Hi "dwell_index"%py _ ltac:(cbn; tauto) eq_refl) as (v1 & -> & T1).
  destruct (Hi "dwell_time_s"%py _ ltac:(cbn; tauto) eq_refl) as (v2 & -> & T2).
  destruct (Hi "sensor_lat_deg"%py _ ltac:(cbn; tauto) eq_refl) as (v3 & -> & T3).
  destruct (Hi "sensor_lon_deg"%py _ ltac:(cbn; tauto) eq_refl) as (v4 & -> & T4).
  destruct (Hi "sensor_alt_m"%py _ ltac:(cbn; tauto) eq_refl) as (v5 & -> & T5).
  cbn [exc_bind]. eexists. split; [done|]. apply wt_dupdate.
  - apply wt_literal; [reflexivity|]. unfold fields_ok. cbn [forallb fst snd]. unfold field_ok.
    cbn [field_ty gmti_schema app String.eqb Ascii.eqb Bool.eqb]. cbv iota. by rewrite T0, T1, T2, T3, T4, T5.
  - destruct Hr as [_ Hr]. eapply fields_ok_le; [|exact Hr]. reflexivity.
Qed.

Lemma gmti_tracks_mild repr clock header dwell targets tracks :
  wt header_schema header -> dmem "job_id" header = true -> wt dwell_schema dwell -> (forall k, In k copied -> dmem k dwell = true) ->
  Forall (wt report_schema) targets -> Forall (wt gmti_schema) tracks ->
  returns (gmti_tracks repr clock header dwell targets tracks) (Forall (wt gmti_schema)) mild.
Proof.
  intros Hh Hj Hd Hc Ht. revert tracks. induction Ht as [|t ts Ht _ IH]; intros tracks Hts; cbn [gmti_tracks]; [done|].
  destruct (gmti_track_ok repr (clock (len tracks)) header dwell t (len tracks) Hh Hj Hd Hc Ht) as (x & -> & Hx).
  cbn [exc_bind]. apply IH. apply Forall_app. split; [done|]. by constructor.
Qed.

Lemma returns_let {A B} (m : exc A) (k : A -> exc B) (P : A -> Prop) Q E :
  returns m P E -> (forall a, P a -> returns (k a) Q E) -> returns (let? a := m in k a) Q E.
Proof. destruct m; cbn; auto. Qed.

Lemma segments_mild repr clock header data size : wt header_schema header -> dmem "job_id" header = true -> size <= len data ->
  forall fuel pos tracks, 0 <= pos -> Z.max 0 (len data - pos) < Z.of_nat fuel -> Forall (wt gmti_schema) tracks ->
  returns (segments_loop repr fuel clock header data size pos tracks) (Forall (wt gmti_schema)) mild.
Proof.
  intros Hh Hj Hs. induction fuel as [|fuel IH]; intros pos tracks Hp Hf Ht; [lia|]. cbn [segments_loop].
  destruct (Z.ltb_spec size (pos + 5)); [done|].
  destruct (byte_at_ok data pos) as (kind & -> & _); [lia|]. cbn [exc_bind]. unfold _4607_u32.
  rewrite unpack_u_ok by (rewrite len_slice; lia). cbn [exc_bind]. set (sz := int_from_bytes _).
  destruct (Z.ltb_spec sz 5); [done|]. apply (returns_let _ _ (Forall (wt gmti_schema))).
  - unfold decode_segment. destruct (_ =? _); [|destruct (_ =? _); [|destruct (_ =? _); [|destruct (_ =? _); [|done]]]].
    + eapply returns_let; [apply mission_mild; lia|done].
    + eapply returns_let; [apply jobdef_mild; lia|done].
    + eapply returns_let; [apply location_mild; lia|done].
    + eapply returns_let; [apply dwell_mild; lia|]. intros [[dwell targets] p'] (Hd & Hc & Hts). by apply gmti_tracks_mild.
  - intros tracks' Ht'. apply IH; [lia|lia|done].
Qed.

Definition gmti_published (root : string) (s : string * dict) : Prop :=
  fst s = _4607_TRACK_TOPIC root /\ wt gmti_schema (snd s) /\ dmem "lat_deg" (snd s) = true /\ dmem "lon_deg" (snd s) = true.

(** C37: whatever is put on the raw topic, [on_sample] returns, and what it
    publishes has a position and fits the schema of the layer. *)
Theorem gmti_sample_total repr root clock data :
  exists out, _4607_on_sample repr root clock data = Ok out /\ Forall (gmti_published root) out.
Proof.
  assert (returns (_4607_decode_packet repr clock data) (fun o => forall h ts, o = Some (h, ts) -> Forall (wt gmti_schema) ts) mild) as H.
  { unfold _4607_decode_packet. eapply returns_let; [apply header_mild|]. intros [header|] Hh; [|done].
    destruct (Hh _ eq_refl) as (Hl & Hw & Hp & Hj). destruct (ditem_ok _ _ _ _ Hw Hp eq_refl) as (v & -> & Tv). cbn [exc_bind].
    eapply returns_let; [apply segments_mild; try done|].
    - destruct v; lia.
    - unfold fuel_of, len. lia.
    - intros ts Hts ? ? [= <- <-]. done. }
  unfold _4607_on_sample, returns in *. destruct (_4607_decode_packet repr clock data) as [[[h ts]|]|e].
  - eexists. split; [done|]. specialize (H _ _ eq_refl). rewrite List.Forall_forall in H.
    apply Forall_map, List.Forall_forall. intros t [Ht Hin%andb_true_iff]%filter_In. split; [done|]. split; [by apply H|exact Hin].
  - by eexists.
  - destruct H as [-> | ->]; by eexists.
Qed.
