(* ===== verification/Klv.v ===== *)
(** * KLV metadata of video streams

    The STANAG 4609 section of compose/protocols/vendors/stanag/stanag.py: BER
    lengths and tags, the ST 0601 local set, packets in a stream, and what is
    published. *)

From S2P Require Import Prelude PyFloat PyData Schema Ranges PyText TrackViews Octets.
#[local] Open Scope Z_scope.

Definition _4609_KLV_PREFIX : bytes := of_ints [0x06; 0x0E; 0x2B; 0x34].
Definition _4609_ST0601_LOCAL_SET_KEY : bytes :=
  of_ints [0x06; 0x0e; 0x2b; 0x34; 0x02; 0x0b; 0x01; 0x01; 0x0e; 0x01; 0x03; 0x01; 0x01; 0x00; 0x00; 0x00].
Definition _4609_TRACK_TOPIC (root : string) : string := root +:+ "/air/stanag_4609/camera/unknown/uav".

(** ** Lengths and tags *)
Definition _4609_decode_ber (data : bytes) : exc (Z * Z) :=
  if len data =? 0 then Raise ValueError else
  let? first := byte_at data 0 in
  if first <? 0x80 then Ok (first, 1) else
  let count := Z.land first 0x7F in
  if count =? 0 then Raise ValueError
  else if 8 <? count then Raise ValueError
  else if len data <? 1 + count then Raise ValueError
  else Ok (int_from_bytes (slice data 1 (1 + count)), 1 + count).

(** [value.bit_length()] of an int that is not negative. *)
Definition bit_length (value : Z) : Z := if value =? 0 then 0 else Z.log2 value + 1.

(** [bytes((n,))] *)
Definition byte_of (n : Z) : exc bytes := if (0 <=? n) && (n <? 256) then Ok (of_ints [n]) else Raise ValueError.

Definition _4609_encode_ber (value : Z) : exc bytes :=
  if value <? 0 then Raise ValueError
  else if value <? 0x80 then byte_of value
  else
    let? raw := to_bytes value ((bit_length value + 7) / 8) in
    let? head := byte_of (Z.lor 0x80 (len raw)) in
    Ok (head ++ raw).

Fixpoint oid_loop (n : nat) (data : bytes) (pos value : Z) : exc (Z * Z) :=
  match n with
  | O => Raise ValueError
  | S n' =>
      if len data <=? pos then Raise ValueError else
      let? byte := byte_at data pos in
      let value := Z.lor (Z.shiftl value 7) (Z.land byte 0x7F) in
      if bit byte 0x80 then oid_loop n' data (pos + 1) value else Ok (value, pos + 1)
  end.
Definition _4609_decode_ber_oid (data : bytes) (pos : Z) : exc (Z * Z) := oid_loop 10 data pos 0.

(** ** Mapped numbers *)
Definition _4609_decode_unsigned (raw : bytes) (minimum maximum : float) : float :=
  let value := int_from_bytes raw in
  let scale := Z.shiftl 1 (8 * len raw) - 1 in
  if scale =? 0 then minimum else fadd minimum (fmul (fratio value scale) (fsub maximum minimum)).

Definition _4609_decode_signed (raw : bytes) (minimum maximum : float) : exc float :=
  let value := sign_extend (8 * len raw) (int_from_bytes raw) in
  if 8 * len raw - 1 <? 0 then Raise ValueError else
  let min_raw := - Z.shiftl 1 (8 * len raw - 1) in
  let max_raw := Z.shiftl 1 (8 * len raw - 1) - 1 in
  if value =? min_raw then Raise ValueError
  else Ok (fadd minimum (fmul (fratio (value + max_raw) (2 * max_raw)) (fsub maximum minimum))).

(** ** Local sets *)

(** A dictionary from tags to octets, in insertion order. *)
Abbreviation tag_dict := (list (Z * bytes)).
Fixpoint zget (d : tag_dict) (k : Z) : option bytes :=
  match d with
  | [] => None
  | (k', v) :: d' => if k' =? k then Some v else zget d' k
  end.
Fixpoint zset (k : Z) (v : bytes) (d : tag_dict) : tag_dict :=
  match d with
  | [] => [(k, v)]
  | (k', v') :: d' => if k' =? k then (k, v) :: d' else (k', v') :: zset k v d'
  end.

Fixpoint local_set_loop (fuel : nat) (value : bytes) (pos : Z) (tags : tag_dict) : exc tag_dict :=
  match fuel with
  | O => Raise OutOfFuel
  | S fuel' =>
      if len value <=? pos then Ok tags else
      let? (tag, pos) := _4609_decode_ber_oid value pos in
      let? (tag_len, len_size) := _4609_decode_ber (slice value pos (len value)) in
      let pos := pos + len_size in
      if len value <? pos + tag_len then Raise ValueError else
      local_set_loop fuel' value (pos + tag_len) (zset tag (slice value pos (pos + tag_len)) tags)
  end.
Definition _4609_parse_local_set (value : bytes) : exc tag_dict := local_set_loop (S (length value)) value 0 [].

(** ** Time stamps

    [datetime.fromtimestamp(t, tz=timezone.utc).isoformat()] for [t >= 0]:
    microseconds by [modf] and rounding half to even, the proleptic Gregorian
    calendar, ValueError from the year 10000 on. *)

(** The integer part of a float, and the rest. *)
Definition modf (x : float) : exc (float * Z) :=
  let? n := int_of_float x in Ok (fsub x (fl n), n).

(** Days since 1970-01-01 as year, month and day. *)
Definition civil_date (days : Z) : Z * Z * Z :=
  let z := days + 719468 in
  let era := z / 146097 in
  let doe := z - era * 146097 in
  let yoe := (doe - doe / 1460 + doe / 36524 - doe / 146096) / 365 in
  let doy := doe - (365 * yoe + yoe / 4 - yoe / 100) in
  let mp := (5 * doy + 2) / 153 in
  let d := doy - (153 * mp + 2) / 5 + 1 in
  let m := if mp <? 10 then mp + 3 else mp - 9 in
  (yoe + era * 400 + (if m <=? 2 then 1 else 0), m, d).

Definition isoformat (seconds us : Z) : string :=
  let '(y, m, d) := civil_date (seconds / 86400) in
  let s := seconds mod 86400 in
  fmt_d 4 y +:+ "-" +:+ fmt_d 2 m +:+ "-" +:+ fmt_d 2 d +:+ "T" +:+ fmt_d 2 (s / 3600) +:+ ":" +:+ fmt_d 2 (s / 60 mod 60) +:+ ":" +:+
  fmt_d 2 (s mod 60) +:+ (if us =? 0 then "" else "." +:+ fmt_d 6 us) +:+ "+00:00".

Definition utc_isoformat (t : float) : exc string :=
  let? (fraction, seconds) := modf t in
  let? us := py_round_int (fmul fraction (fl 1000000)) in
  let (seconds, us) := if 1000000 <=? us then (seconds + 1, us - 1000000) else (seconds, us) in
  if 253402300800 <=? seconds then Raise ValueError else Ok (isoformat seconds us).

Example utc_isoformat_ex : utc_isoformat (fratio 1700000000123456 1000000) = Ok "2023-11-14T22:13:20.123456+00:00"%string.
Proof. vm_compute. reflexivity. Qed.

(** ** ST 0601 *)

(** A field of [n] octets that is there and not empty. *)
Definition sized (tags : tag_dict) (tag n : Z) : option bytes :=
  match zget tags tag with
  | Some raw => if negb (len raw =? 0) && (len raw =? n) then Some raw else None
  | None => None
  end.

Definition mapped_signed (raw : option bytes) (size : Z) (minimum maximum : float) : option float :=
  match raw with
  | None => None
  | Some raw =>
      if negb (len raw =? size) then None else
      match _4609_decode_signed raw minimum maximum with
      | Ok x => Some x
      | Raise _ => None         (* ValueError: it raises nothing else *)
      end
  end.

Definition put_rounded (key : string) (digits : Z) (x : option float) (out : dict) : dict :=
  match x with Some x => dset key (VFloat (py_round x digits)) out | None => out end.
Definition put_unsigned (tags : tag_dict) (tag n : Z) (key : string) (lo hi : float) (digits : Z) (out : dict) : dict :=
  put_rounded key digits (option_map (fun raw => _4609_decode_unsigned raw lo hi) (sized tags tag n)) out.
Definition put_signed (tags : tag_dict) (tag : Z) (key : string) (lo hi : float) (digits : Z) (out : dict) : dict :=
  put_rounded key digits (mapped_signed (zget tags tag) 4 lo hi) out.

Definition put_time (tags : tag_dict) (out : dict) : dict :=
  match sized tags 2 8 with
  | None => out
  | Some raw =>
      let timestamp_us := int_from_bytes raw in
      let out := dset "timestamp_us" (VInt timestamp_us) out in
      match utc_isoformat (fratio timestamp_us 1000000) with
      | Ok s => dset "timestamp_iso" (VStr s) out
      | Raise _ => out          (* OverflowError, ValueError: it raises nothing else *)
      end
  end.

Definition known_tags : list Z := [2; 5; 13; 14; 15; 18; 19; 23; 24; 25].
Definition raw_tags (tags : tag_dict) : dict :=
  fold_left (fun d '(tag, raw) => if existsb (Z.eqb tag) known_tags then d else dset (str_int tag) (VStr (hex raw)) d) tags [].

Definition _4609_decode_st0601 (tags : tag_dict) : dict :=
  let out := put_time tags [] in
  let out := put_unsigned tags 5 2 "platform_heading_deg" (fl 0) (fl 360) 3 out in
  let out := put_unsigned tags 15 2 "sensor_alt_m" (fl (-900)) (fl 19000) 2 out in
  let out := put_signed tags 13 "sensor_lat_deg" (fl (-90)) (fl 90) 6 out in
  let out := put_signed tags 14 "sensor_lon_deg" (fl (-180)) (fl 180) 6 out in
  let out := put_unsigned tags 18 4 "sensor_relative_azimuth_deg" (fl 0) (fl 360) 3 out in
  let out := put_signed tags 19 "sensor_relative_elevation_deg" (fl (-180)) (fl 180) 3 out in
  let out := put_signed tags 23 "frame_center_lat_deg" (fl (-90)) (fl 90) 6 out in
  let out := put_signed tags 24 "frame_center_lon_deg" (fl (-180)) (fl 180) 6 out in
  let out := put_unsigned tags 25 2 "frame_center_alt_m" (fl (-900)) (fl 19000) 2 out in
  let raw := raw_tags tags in
  match raw with [] => out | _ => dset "raw_tags_hex" (VDict raw) out end.

(** ** Packets in a stream *)
#[export] Instance byte_eq_decision : EqDecision byte := Byte.byte_eq_dec.

Definition has_prefix (prefix l : bytes) : bool := bool_decide (firstn (length prefix) l = prefix).

Definition _4609_looks_like_klv_key (key : bytes) : bool := (len key =? 16) && has_prefix _4609_KLV_PREFIX key.

(** [data.find(prefix, start)] *)
Fixpoint find_at (prefix data : bytes) (i : Z) : option Z :=
  if has_prefix prefix data then Some i
  else match data with [] => None | _ :: data' => find_at prefix data' (i + 1) end.
Definition find_from (prefix data : bytes) (start : Z) : option Z := find_at prefix (skipn (Z.to_nat start) data) start.

Section Stream.
Variable _4609_MAX_KLV_BYTES : Z.

(** One turn of the loop over the buffer: it goes on with another buffer,
    yields a packet first, or waits for more octets. *)
Inductive turn := Again (buf : bytes) | Yield (key value buf : bytes) | Wait (buf : bytes).

Definition klv_turn (buf : bytes) : turn :=
  if len buf <? 17 then Wait buf else
  if negb (_4609_looks_like_klv_key (slice buf 0 16)) then
    match find_from _4609_KLV_PREFIX buf 1 with
    | None =>
        let keep := Z.min (len buf) (len _4609_KLV_PREFIX - 1) in
        Wait (if keep <? len buf then slice buf (len buf - keep) (len buf) else buf)
    | Some idx => Again (slice buf idx (len buf))
    end
  else
    match byte_at buf 16 with
    | Raise _ => Wait buf            (* there are 17 octets *)
    | Ok first_length =>
        let long := bit first_length 0x80 in
        let length_octets := Z.land first_length 0x7F in
        if long && ((length_octets =? 0) || (8 <? length_octets)) then Again (slice buf 1 (len buf))
        else if long && (len buf <? 17 + length_octets) then Wait buf
        else
          match _4609_decode_ber (slice buf 16 (len buf)) with
          | Raise _ => Wait (slice buf 1 (len buf))
          | Ok (value_len, len_size) =>
              if _4609_MAX_KLV_BYTES <? value_len then Again (slice buf 1 (len buf)) else
              let total_len := 16 + len_size + value_len in
              if len buf <? total_len then Wait buf
              else Yield (slice buf 0 16) (slice buf (16 + len_size) total_len) (slice buf total_len (len buf))
          end
    end.

Fixpoint klv_scan (fuel : nat) (buf : bytes) : list (bytes * bytes) * bytes :=
  match fuel with
  | O => ([], buf)
  | S fuel' =>
      match klv_turn buf with
      | Wait buf => ([], buf)
      | Again buf => klv_scan fuel' buf
      | Yield key value buf => let (out, buf) := klv_scan fuel' buf in ((key, value) :: out, buf)
      end
  end.

(** The generator, on what [stream.read] returns; it ends with the first
    empty chunk. *)
Fixpoint parse_chunks (chunks : list bytes) (buf : bytes) : list (bytes * bytes) :=
  match chunks with
  | [] | [] :: _ => []
  | chunk :: chunks' =>
      let buf := buf ++ chunk in
      let (out, buf) := klv_scan (S (length buf)) buf in
      out ++ parse_chunks chunks' buf
  end.
Definition _4609_parse_klv_packets (chunks : list bytes) : list (bytes * bytes) := parse_chunks chunks [].

Definition _4609_split_klv_packet (packet : bytes) : exc (option (bytes * bytes)) :=
  if len packet <? 17 then Ok None else
  let key := slice packet 0 16 in
  if negb (_4609_looks_like_klv_key key) then Ok None else
  let? (value_len, len_size) := _4609_decode_ber (slice packet 16 (len packet)) in
  if _4609_MAX_KLV_BYTES <? value_len then Ok None else
  let total_len := 16 + len_size + value_len in
  if negb (len packet =? total_len) then Ok None
  else Ok (Some (key, slice packet (16 + len_size) total_len)).

(** ** The ingress bridge

    The loop of [run] of 4609_bridge.py over the packets of a stream: what it
    puts on the raw topic, and how the loop ends. *)
Fixpoint republish (packets : list (bytes * bytes)) : list bytes * exc unit :=
  match packets with
  | [] => ([], Ok tt)
  | (key, val) :: packets' =>
      match _4609_encode_ber (len val) with
      | Raise e => ([], Raise e)
      | Ok length_octets => let (out, r) := republish packets' in ((key ++ length_octets ++ val) :: out, r)
      end
  end.
Definition ingress (chunks : list bytes) : list bytes * exc unit := republish (_4609_parse_klv_packets chunks).

(** ** Publishing *)

(** [base64.b64encode(raw).decode("ascii")] *)
Definition base64_char (n : Z) : ascii :=
  default "="%char (String.get (Z.to_nat n) "ABCDEFGHIJKLMNOPQRSTUVWXYZabcdefghijklmnopqrstuvwxyz0123456789+/").
Fixpoint b64encode (fuel : nat) (raw : bytes) : string :=
  match fuel, raw with
  | S fuel', b0 :: b1 :: b2 :: raw' =>
      let n := byte_val b0 * 65536 + byte_val b1 * 256 + byte_val b2 in
      String (base64_char (n / 262144)) (String (base64_char (n / 4096 mod 64)) (String (base64_char (n / 64 mod 64))
        (String (base64_char (n mod 64)) (b64encode fuel' raw'))))
  | _, [b0; b1] =>
      let n := byte_val b0 * 65536 + byte_val b1 * 256 in
      String (base64_char (n / 262144)) (String (base64_char (n / 4096 mod 64)) (String (base64_char (n / 64 mod 64)) "="))
  | _, [b0] =>
      let n := byte_val b0 * 65536 in
      String (base64_char (n / 262144)) (String (base64_char (n / 4096 mod 64)) "==")
  | _, _ => EmptyString
  end.
Definition base64_text (raw : bytes) : string := b64encode (length raw) raw.

Definition is_some_value (d : dict) (key : string) : option value :=
  match dget d key with Some VNone | None => None | v => v end.
Definition first_some (a b : option value) : option value := match a with Some _ => a | None => b end.
Definition put_value (key : string) (v : option value) (d : dict) : dict := match v with Some v => dset key v d | None => d end.

Inductive klv_sample := KlvTrack (topic : string) (track : dict) | KlvRaw (topic : string) (payload : bytes).

Variable repr : value -> string.

Definition _4609_publish_packet (root : string) (now : float) (packet_index : Z) (key val : bytes) (stream_id source : string) :
    exc (list klv_sample) :=
  let? length_octets := _4609_encode_ber (len val) in
  let raw_packet := key ++ length_octets ++ val in
  let payload := [("_ts", VFloat now); ("_src", VStr source); ("stream_id", VStr stream_id); ("source_tag", VStr source);
                  ("packet_index", VInt packet_index); ("klv_key", VStr (hex key)); ("klv_len", VInt (len val));
                  ("klv_raw_b64", VStr (base64_text raw_packet))] in
  let? payload :=
    if _4609_looks_like_klv_key key && bool_decide (key = _4609_ST0601_LOCAL_SET_KEY) then
      let? tags := _4609_parse_local_set val in
      let decoded := _4609_decode_st0601 tags in
      let payload := dupdate payload decoded in
      let lat := first_some (is_some_value decoded "sensor_lat_deg") (is_some_value decoded "frame_center_lat_deg") in
      let lon := first_some (is_some_value decoded "sensor_lon_deg") (is_some_value decoded "frame_center_lon_deg") in
      let payload := match lat, lon with
                     | Some lat, Some lon => dset "lon_deg" lon (dset "lat_deg" lat payload)
                     | _, _ => payload
                     end in
      let payload := put_value "heading_deg" (dget decoded "platform_heading_deg") payload in
      Ok (put_value "geo_alt_m" (first_some (is_some_value decoded "sensor_alt_m") (is_some_value decoded "frame_center_alt_m")) payload)
    else Ok payload in
  if negb (dmem "lat_deg" payload) || negb (dmem "lon_deg" payload) then Ok [] else
  let payload := dset "uid" (VStr stream_id) payload in
  let obj_key := semantic_topic repr (_4609_TRACK_TOPIC root) payload in
  Ok [KlvTrack (_4609_TRACK_TOPIC root) payload; KlvRaw (native_topic obj_key) raw_packet].

(** [str(sample.key_expr).rstrip("/").rsplit("/", 1)[-1] or _4609_SOURCE] *)
Definition klv_source (key_expr default_source : string) : string :=
  match List.last (TrackViews.split (rstrip (Ascii.eqb "/"%char) key_expr)) "" with
  | EmptyString => default_source
  | s => s
  end.

(** [on_sample] of [_4609_run], with the counter of packets before and after. *)
Definition _4609_on_sample (root default_source : string) (now : float) (counter : Z) (key_expr : string) (data : bytes) :
    exc (list klv_sample * Z) :=
  let? parsed := _4609_split_klv_packet data in
  match parsed with
  | None => Ok ([], counter)
  | Some (key, val) =>
      let source := klv_source key_expr default_source in
      let? out := _4609_publish_packet root now counter key val source source in
      Ok (out, counter + 1)
  end.
End Stream.

(** * What holds of lengths, local sets and streams *)
(** ** BER lengths *)

Lemma bit_length_bounds n : 0 < n -> 2 ^ (bit_length n - 1) <= n < 2 ^ bit_length n /\ 0 < bit_length n.
Proof.
  intros Hn. unfold bit_length. replace (n =? 0) with false by lia. pose proof (Z.log2_nonneg n).
  replace (Z.log2 n + 1 - 1) with (Z.log2 n) by lia. split; [|lia]. by apply Z.log2_spec.
Qed.

Lemma one_to_eight (P : Z -> Prop) k : P 1 -> P 2 -> P 3 -> P 4 -> P 5 -> P 6 -> P 7 -> P 8 -> 1 <= k <= 8 -> P k.
Proof.
  intros H1 H2 H3 H4 H5 H6 H7 H8 Hk.
  assert (k = 1 \/ k = 2 \/ k = 3 \/ k = 4 \/ k = 5 \/ k = 6 \/ k = 7 \/ k = 8) as Hc by lia.
  by destruct Hc as [->|[->|[->|[->|[->|[->|[->| ->]]]]]]].
Qed.

(** The octets of a length, long form. *)
Lemma decode_long digits rest : 1 <= len digits <= 8 ->
  _4609_decode_ber (of_ints [0x80 + len digits] ++ digits ++ rest) = Ok (int_from_bytes digits, 1 + len digits).
Proof.
  intros Hk. destruct (of_ints_one (0x80 + len digits)) as (o & -> & Ho). rewrite Z.mod_small in Ho by lia.
  unfold _4609_decode_ber. cbn [app]. rewrite len_cons, len_app. pose proof (len_nonneg rest).
  destruct (Z.eqb_spec (1 + (len digits + len rest)) 0); [lia|].
  rewrite byte_at_head. cbn [exc_bind]. rewrite Ho. replace (0x80 + len digits <? 0x80) with false by lia.
  assert (Z.land (0x80 + len digits) 0x7F = len digits) as -> by (by apply (one_to_eight (fun k => Z.land (0x80 + k) 0x7F = k))).
  replace (len digits =? 0) with false by lia. replace (8 <? len digits) with false by lia.
  destruct (Z.ltb_spec (1 + (len digits + len rest)) (1 + len digits)); [lia|].
  change (o :: digits ++ rest) with ([o] ++ digits ++ rest). by rewrite slice_mid.
Qed.

Lemma decode_short n rest : 0 <= n < 0x80 -> _4609_decode_ber (of_ints [n] ++ rest) = Ok (n, 1).
Proof.
  intros Hn. destruct (of_ints_one n) as (o & -> & Ho). rewrite Z.mod_small in Ho by lia.
  unfold _4609_decode_ber. cbn [app]. rewrite len_cons. pose proof (len_nonneg rest).
  destruct (Z.eqb_spec (1 + len rest) 0); [lia|]. rewrite byte_at_head. cbn [exc_bind]. rewrite Ho.
  by replace (n <? 0x80) with true by lia.
Qed.

(** The number whose digits to the base 256 are given, the highest first. *)
Fixpoint positional (digits : bytes) : Z :=
  match digits with
  | [] => 0
  | d :: digits' => byte_val d * 256 ^ len digits' + positional digits'
  end.

(** How the basic encoding rules write a length: one octet below 128, or an
    octet that says how many digits follow it, of which there may be zeros in
    front. *)
Inductive writes_length : bytes -> Z -> Prop :=
| wl_short n : 0 <= n < 128 -> writes_length (of_ints [n]) n
| wl_long digits : 1 <= len digits <= 8 -> writes_length (of_ints [128 + len digits] ++ digits) (positional digits).

Lemma positional_int digits : positional digits = int_from_bytes digits.
Proof.
  induction digits as [|d digits IH]; cbn [positional]; [done|].
  change (d :: digits) with ([d] ++ digits). rewrite int_from_bytes_app, int_from_bytes_one, IH.
  f_equal. f_equal. pose proof (len_nonneg digits). rewrite Z.pow_mul_r by lia. done.
Qed.

(** A length that is written is read. *)
Lemma length_reads octets n : writes_length octets n -> forall rest, _4609_decode_ber (octets ++ rest) = Ok (n, len octets).
Proof.
  intros [m Hm|digits Hd] rest.
  - rewrite decode_short by lia. unfold len. by rewrite length_of_ints.
  - rewrite <- app_assoc, decode_long, positional_int by done. rewrite len_app. by unfold len; rewrite length_of_ints.
Qed.

Lemma encode_ber_ok n : 0 <= n < 2 ^ 64 -> exists octets, _4609_encode_ber n = Ok octets /\ writes_length octets n.
Proof.
  intros Hn. unfold _4609_encode_ber. replace (n <? 0) with false by lia.
  destruct (Z.ltb_spec n 0x80) as [Hs|Hs].
  - unfold byte_of. replace ((0 <=? n) && (n <? 256)) with true by lia. eexists. split; [done|]. apply wl_short; lia.
  - destruct (bit_length_bounds n) as [Hb Hp]; [lia|]. set (k := (bit_length n + 7) / 8).
    assert (8 * k >= bit_length n /\ bit_length n <= 64) as [Hk Hl].
    { split; [subst k; pose proof (Z.div_mod (bit_length n + 7) 8); pose proof (Z.mod_pos_bound (bit_length n + 7) 8); lia|].
      destruct (Z.le_gt_cases (bit_length n) 64); [done|].
      assert (2 ^ 64 <= 2 ^ (bit_length n - 1)) by (apply Z.pow_le_mono_r; lia). lia. }
    assert (1 <= k <= 8) as Hk8 by (subst k; split; [apply Z.div_le_lower_bound; lia|apply Z.lt_succ_r, Z.div_lt_upper_bound; lia]).
    assert (2 ^ bit_length n <= 2 ^ (8 * k)) by (apply Z.pow_le_mono_r; lia).
    rewrite to_bytes_ok by lia. cbn [exc_bind]. rewrite len_be, Z2Nat.id by lia.
    unfold byte_of. assert (0 <= Z.lor 0x80 k < 2 ^ 8) as Hr by (apply lor_range; lia). change (2 ^ 8) with 256 in Hr.
    replace ((0 <=? Z.lor 0x80 k) && (Z.lor 0x80 k <? 256)) with true by lia. cbn [exc_bind].
    eexists. split; [done|].
    assert (Z.lor 0x80 k = 128 + len (be (Z.to_nat k) n)) as ->.
    { rewrite len_be, Z2Nat.id by lia. by apply (one_to_eight (fun k => Z.lor 0x80 k = 128 + k)). }
    assert (n = positional (be (Z.to_nat k) n)) as E by (rewrite positional_int, int_from_be_small; [done|rewrite Z2Nat.id; lia]).
    set (digits := be (Z.to_nat k) n) in *. assert (len digits = k) by (subst digits; rewrite len_be; lia).
    clearbody digits. rewrite E. apply wl_long. lia.
Qed.

(** What a length says depends only on its own octets. *)
Lemma decode_ber_prefix a b n k : _4609_decode_ber a = Ok (n, k) -> _4609_decode_ber (a ++ b) = Ok (n, k) /\ 1 <= k <= 9 /\ k <= len a /\ 0 <= n.
Proof.
  unfold _4609_decode_ber. pose proof (len_nonneg a). pose proof (len_nonneg b).
  destruct (Z.eqb_spec (len a) 0); [done|]. destruct (byte_at_ok a 0) as (o & Ho & Hr); [lia|].
  assert (byte_at (a ++ b) 0 = Ok o) as Ho'.
  { destruct a as [|c a]; [done|]. exact Ho. }
  rewrite Ho, Ho'. cbn [exc_bind]. destruct (Z.eqb_spec (len (a ++ b)) 0) as [E|_]; [rewrite len_app in E; lia|].
  destruct (o <? 0x80); [intros [= <- <-]; split; [done|lia]|].
  destruct (Z.eqb_spec (Z.land o 0x7F) 0); [done|]. destruct (Z.ltb_spec 8 (Z.land o 0x7F)); [done|].
  destruct (Z.ltb_spec (len a) (1 + Z.land o 0x7F)); [done|]. intros [= <- <-].
  pose proof (land_range o 0x7F ltac:(lia)).
  destruct (Z.ltb_spec (len (a ++ b)) (1 + Z.land o 0x7F)) as [E|_]; [rewrite len_app in E; lia|].
  rewrite slice_app_l by lia.
  split; [done|]. pose proof (int_from_bytes_range (slice a 1 (1 + Z.land o 127))). lia.
Qed.

(** ** Local sets *)

(** An entry as it is written: the septets of its tag above the last, which
    carry the continuation bit, the last one, its length and its value. *)
Record entry_spec := { e_high : list Z; e_last : Z; e_length : bytes; e_value : bytes }.

Definition e_tag (e : entry_spec) : Z := fold_left (fun v s => v * 128 + s) (e_high e ++ [e_last e]) 0.
Definition e_octets (e : entry_spec) : bytes := of_ints (map (Z.lor 0x80) (e_high e)) ++ of_ints [e_last e] ++ e_length e ++ e_value e.
Definition entry_fits (e : entry_spec) : Prop :=
  Forall (fun s => 0 <= s < 128) (e_high e) /\ (length (e_high e) < 10)%nat /\ 0 <= e_last e < 128 /\
  writes_length (e_length e) (len (e_value e)).

Lemma septet_more s : 0 <= s < 128 -> Z.lor 0x80 s = 128 + s.
Proof.
  intros H. change 0x80 with (Z.shiftl 1 7). by rewrite lor_concat by lia.
Qed.

Lemma more_octet s : 0 <= s < 128 -> exists o, of_ints [Z.lor 0x80 s] = [o] /\ byte_val o = 128 + s.
Proof. intros H. destruct (of_ints_one (Z.lor 0x80 s)) as (o & E & Ho). exists o. split; [done|]. rewrite Ho, septet_more, Z.mod_small by lia. done. Qed.

Lemma septet_of s : 0 <= s < 128 -> Z.land (128 + s) 0x7F = s /\ bit (128 + s) 0x80 = true /\ Z.land s 0x7F = s /\ bit s 0x80 = false.
Proof.
  intros H. change 0x7F with (Z.ones 7). rewrite !Z.land_ones by lia. change 0x80 with (2 ^ 7). rewrite !bit_pow2 by lia.
  change (2 ^ 7) with 128. rewrite (Z.mod_small s) by lia.
  replace (128 + s) with (s + 1 * 128) by lia. rewrite Z.mod_add, Z.mod_small by lia. lia.
Qed.

Lemma oid_loop_ok high last post : Forall (fun s => 0 <= s < 128) high -> 0 <= last < 128 ->
  forall n pre acc, (length high < n)%nat ->
  oid_loop n (pre ++ of_ints (map (Z.lor 0x80) high) ++ of_ints [last] ++ post) (len pre) acc =
  Ok (fold_left (fun v s => v * 128 + s) (high ++ [last]) acc, len pre + len high + 1).
Proof.
  intros Hh Hl. induction Hh as [|s high Hs _ IH]; intros [|n] pre acc Hn; cbn [length] in Hn; try lia; cbn [oid_loop].
  - cbn [map]. change (of_ints []) with (@nil byte). destruct (of_ints_one last) as (o & -> & Ho). rewrite Z.mod_small in Ho by lia.
    cbn [app]. rewrite len_app, len_cons. pose proof (len_nonneg pre). pose proof (len_nonneg post).
    destruct (Z.leb_spec (len pre + (1 + len post)) (len pre)); [lia|]. rewrite byte_at_mid by done. cbn [exc_bind]. rewrite Ho.
    destruct (septet_of last Hl) as (_ & _ & -> & ->). rewrite lor_concat by lia. cbn [fold_left]. change (2 ^ 7) with 128.
    do 2 f_equal. change (len (@nil Z)) with 0. lia.
  - cbn [map]. change (Z.lor 128 s :: map (Z.lor 128) high) with ([Z.lor 128 s] ++ map (Z.lor 128) high). rewrite of_ints_app.
    destruct (more_octet s Hs) as (o & -> & Ho). rewrite <- app_assoc. cbn [app].
    pose proof (len_nonneg pre). set (tl := of_ints (map (Z.lor 128) high) ++ of_ints [last] ++ post). pose proof (len_nonneg tl).
    rewrite len_app, len_cons. destruct (Z.leb_spec (len pre + (1 + len tl)) (len pre)); [lia|].
    rewrite byte_at_mid by done. cbn [exc_bind]. rewrite Ho. destruct (septet_of s Hs) as (-> & -> & _ & _).
    rewrite lor_concat by lia. change (2 ^ 7) with 128. cbn [fold_left app].
    replace (pre ++ o :: tl) with ((pre ++ [o]) ++ tl) by (by rewrite <- app_assoc).
    replace (len pre + 1) with (len (pre ++ [o])) by (by rewrite len_app). subst tl. rewrite IH by lia.
    rewrite len_app, (len_cons s). change (len [o]) with 1. do 2 f_equal. lia.
Qed.

Definition add_entry (tags : tag_dict) (e : entry_spec) : tag_dict := zset (e_tag e) (e_value e) tags.

Lemma local_set_ok entries : Forall entry_fits entries -> forall fuel pre tags,
  (length entries < fuel)%nat ->
  local_set_loop fuel (pre ++ concat (map e_octets entries)) (len pre) tags = Ok (fold_left add_entry entries tags).
Proof.
  induction 1 as [|e es (Hh & Hc & Hl & Hw) _ IH]; intros [|fuel] pre tags Hf; cbn [length] in Hf; try lia; cbn [local_set_loop map concat].
  - rewrite app_nil_r. by rewrite Z.leb_refl.
  - set (rest := concat (map e_octets es)) in *. pose proof (len_nonneg pre). pose proof (len_nonneg rest).
    pose proof (len_nonneg (e_value e)). pose proof (len_nonneg (e_length e)). pose proof (len_nonneg (e_high e)).
    assert (len (e_octets e) = len (e_high e) + 1 + len (e_length e) + len (e_value e)) as El.
    { unfold e_octets. rewrite !len_app. unfold len. rewrite !length_of_ints, length_map. cbn [length]. lia. }
    rewrite len_app, len_app, El. destruct (Z.leb_spec (len pre + (len (e_high e) + 1 + len (e_length e) + len (e_value e) + len rest)) (len pre)); [lia|].
    unfold _4609_decode_ber_oid. unfold e_octets. rewrite <- !app_assoc.
    rewrite (oid_loop_ok (e_high e) (e_last e) (e_length e ++ e_value e ++ rest) Hh Hl 10 pre 0 Hc). cbn [exc_bind].
    set (head := of_ints (map (Z.lor 0x80) (e_high e)) ++ of_ints [e_last e]).
    assert (len head = len (e_high e) + 1) as Eh by (subst head; rewrite len_app; unfold len; rewrite !length_of_ints, length_map; cbn [length]; lia).
    assert (pre ++ of_ints (map (Z.lor 128) (e_high e)) ++ of_ints [e_last e] ++ e_length e ++ e_value e ++ rest =
            (pre ++ head) ++ e_length e ++ e_value e ++ rest) as -> by (subst head; by rewrite <- !app_assoc).
    rewrite slice_to_end by (rewrite ?len_app; lia). rewrite (length_reads _ _ Hw). cbn [exc_bind].
    set (p2 := (pre ++ head) ++ e_length e).
    assert (len p2 = len pre + (len (e_high e) + 1) + len (e_length e)) as E2 by (subst p2; rewrite !len_app; lia).
    rewrite (app_assoc (pre ++ head)). fold p2.
    destruct (Z.ltb_spec (len pre + (len (e_high e) + 1 + len (e_length e) + len (e_value e) + len rest)) (len pre + len (e_high e) + 1 + len (e_length e) + len (e_value e))); [lia|].
    rewrite (slice_mid p2 (e_value e)) by lia. rewrite (app_assoc p2).
    replace (len pre + len (e_high e) + 1 + len (e_length e) + len (e_value e)) with (len (p2 ++ e_value e)) by (rewrite len_app; lia).
    rewrite IH by lia. done.
Qed.

Lemma parse_local_set_ok entries : Forall entry_fits entries ->
  _4609_parse_local_set (concat (map e_octets entries)) = Ok (fold_left add_entry entries []).
Proof.
  intros H. unfold _4609_parse_local_set. apply (local_set_ok entries H _ [] []).
  enough (length entries <= length (concat (map e_octets entries)))%nat by lia. clear.
  induction entries as [|e es IH]; [done|]. cbn [map concat length]. rewrite length_app. unfold e_octets at 1.
  rewrite !length_app, !length_of_ints. cbn [length]. lia.
Qed.

(** ** Where the next packet starts *)
Definition starts (x : bytes) : bool := has_prefix _4609_KLV_PREFIX x.

Lemma starts_app a b : (4 <= length a)%nat -> starts (a ++ b) = starts a.
Proof. intros H. unfold starts, has_prefix. change (length _4609_KLV_PREFIX) with 4%nat. by rewrite take_app_le. Qed.

Lemma starts_short x : (length x < 4)%nat -> starts x = false.
Proof.
  intros H. unfold starts, has_prefix. apply bool_decide_eq_false. intros E%(f_equal length).
  rewrite length_firstn in E. change (length _4609_KLV_PREFIX) with 4%nat in E. lia.
Qed.

Lemma looks_starts x : 16 <= len x -> _4609_looks_like_klv_key (slice x 0 16) = starts x.
Proof.
  intros H. unfold _4609_looks_like_klv_key. rewrite len_slice by lia. cbn [Z.sub Z.eqb andb]. unfold starts, has_prefix.
  unfold slice. cbn [Z.to_nat skipn]. change (length _4609_KLV_PREFIX) with 4%nat.
  replace (Z.to_nat (16 - 0)) with 16%nat by lia. by rewrite take_take.
Qed.

Lemma find_at_ok x i :
  match find_at _4609_KLV_PREFIX x i with
  | Some j => exists k, j = i + Z.of_nat k /\ (k <= length x)%nat /\ starts (skipn k x) = true /\ forall m, (m < k)%nat -> starts (skipn m x) = false
  | None => forall m, starts (skipn m x) = false
  end.
Proof.
  revert i. induction x as [|b x IH]; intros i; cbn [find_at]; fold (starts []) || idtac.
  - change (has_prefix _4609_KLV_PREFIX []) with false. cbv iota. intros m. rewrite skipn_nil. apply starts_short. cbn. lia.
  - fold (starts (b :: x)). destruct (starts (b :: x)) eqn:E.
    + exists 0%nat. split; [lia|]. split; [lia|]. split; [done|]. lia.
    + specialize (IH (i + 1)). destruct (find_at _ x (i + 1)) as [j|].
      * destruct IH as (k & -> & Hk & Hs & Hn). exists (S k). split; [lia|]. split; [cbn [length]; lia|]. split; [done|].
        intros [|m] Hm; [done|]. apply Hn. lia.
      * intros [|m]; [done|]. apply IH.
Qed.

Lemma slice_end {A} (x : list A) i : 0 <= i -> slice x i (len x) = skipn (Z.to_nat i) x.
Proof. intros H. unfold slice, len. apply firstn_all2. rewrite length_skipn. lia. Qed.

(** What [find_from] from the second octet on gives. *)
Lemma find_next x : starts x = false ->
  match find_from _4609_KLV_PREFIX x 1 with
  | Some j => exists k, (0 < k)%nat /\ j = Z.of_nat k /\ (k <= length x)%nat /\ starts (skipn k x) = true /\ forall m, (m < k)%nat -> starts (skipn m x) = false
  | None => forall m, starts (skipn m x) = false
  end.
Proof.
  intros H0. unfold find_from. change (Z.to_nat 1) with 1%nat. destruct x as [|b x]; cbn [skipn]; rewrite ?drop_0.
  - change (find_at _4609_KLV_PREFIX [] 1) with (@None Z). intros m. by rewrite skipn_nil.
  - pose proof (find_at_ok x 1) as H. destruct (find_at _ x 1) as [j|].
    + destruct H as (k & -> & Hk & Hs & Hn). exists (S k). split; [lia|]. split; [lia|]. split; [cbn [length]; lia|]. split; [done|].
      intros [|m] Hm; [done|]. apply Hn. lia.
    + intros [|m]; [done|]. apply H.
Qed.

(** ** The scan of a buffer *)
Section Scan.
Variable maximum : Z.
Abbreviation turn_of := (klv_turn maximum).

Lemma klv_turn_shrinks b :
  match turn_of b with
  | Again b' => exists n, (0 < n <= length b)%nat /\ b' = skipn n b
  | Yield _ _ b' => exists n, (0 < n <= length b)%nat /\ b' = skipn n b
  | Wait _ => True
  end.
Proof.
  unfold klv_turn. destruct (Z.ltb_spec (len b) 17) as [|Hl]; [done|].
  assert (exists n, (0 < n <= length b)%nat /\ slice b 1 (len b) = skipn n b) as H1
    by (exists 1%nat; split; [unfold len in Hl; lia|rewrite slice_end by lia; done]).
  destruct (negb _) eqn:El.
  - rewrite looks_starts in El by lia. apply negb_true_iff in El. pose proof (find_next b El) as Hf.
    destruct (find_from _ _ _) as [j|]; [|done]. destruct Hf as (k & Hk & -> & Hkl & _). exists k. split; [lia|].
    rewrite slice_end by lia. by rewrite Nat2Z.id.
  - destruct (byte_at b 16) as [o|]; [|done]. destruct (_ && _); [exact H1|]. destruct (_ && _); [done|].
    destruct (_4609_decode_ber _) as [[n k]|] eqn:Ed; [|done]. destruct (maximum <? n); [exact H1|].
    destruct (Z.ltb_spec (len b) (16 + k + n)); [done|].
    destruct (decode_ber_prefix _ [] _ _ Ed) as (_ & Hk & _ & Hn). exists (Z.to_nat (16 + k + n)).
    rewrite slice_end by lia. split; [unfold len in *; lia|done].
Qed.

Lemma scan_fuel b : forall f1 f2, (length b < f1)%nat -> (length b < f2)%nat -> klv_scan maximum f1 b = klv_scan maximum f2 b.
Proof.
  remember (length b) as n eqn:En. assert (length b <= n)%nat as Hn by lia. clear En. revert b Hn.
  induction n as [|n IH]; intros b Hn [|f1] [|f2] H1 H2; try lia; cbn [klv_scan];
    pose proof (klv_turn_shrinks b) as Hs; destruct (turn_of b) as [b'|k v b'|b']; try done.
  1, 2: destruct Hs as (m & Hm & _); lia.
  all: destruct Hs as (m & Hm & ->); assert (length (skipn m b) <= n)%nat by (rewrite length_skipn; lia).
  - apply IH; lia.
  - rewrite (IH (skipn m b)) with (f2 := f2) by lia. done.
Qed.

Definition packets (b : bytes) : list (bytes * bytes) := fst (klv_scan maximum (S (length b)) b).
Definition rest_of (b : bytes) : bytes := snd (klv_scan maximum (S (length b)) b).

Lemma scan_turn b :
  klv_scan maximum (S (length b)) b =
  match turn_of b with
  | Wait b' => ([], b')
  | Again b' => (packets b', rest_of b')
  | Yield k v b' => ((k, v) :: packets b', rest_of b')
  end.
Proof.
  cbn [klv_scan]. pose proof (klv_turn_shrinks b) as Hs. destruct (turn_of b) as [b'|k v b'|b']; [| |done].
  all: destruct Hs as (m & Hm & ->); unfold packets, rest_of;
    rewrite (scan_fuel (skipn m b) (length b) (S (length (skipn m b)))) by (rewrite length_skipn; lia);
    by destruct (klv_scan maximum (S (length (skipn m b))) (skipn m b)).
Qed.

Lemma packets_turn b :
  packets b = match turn_of b with Wait _ => [] | Again b' => packets b' | Yield k v b' => (k, v) :: packets b' end.
Proof. unfold packets at 1. rewrite scan_turn. by destruct (turn_of b). Qed.

Lemma rest_turn b :
  rest_of b = match turn_of b with Wait b' => b' | Again b' => rest_of b' | Yield _ _ b' => rest_of b' end.
Proof. unfold rest_of at 1. rewrite scan_turn. by destruct (turn_of b). Qed.

Lemma packets_small b : len b < 17 -> packets b = [].
Proof. intros H. rewrite packets_turn. unfold klv_turn. by replace (len b <? 17) with true by lia. Qed.

Lemma packets_none b : (forall m, starts (skipn m b) = false) -> packets b = [].
Proof.
  intros H. rewrite packets_turn. unfold klv_turn. destruct (Z.ltb_spec (len b) 17); [done|].
  rewrite looks_starts by lia. rewrite (H 0%nat : starts b = false). cbn [negb].
  pose proof (find_next b (H 0%nat)) as Hf. destruct (find_from _ _ _) as [j|]; [|done].
  destruct Hf as (k & _ & _ & _ & Hs & _). by rewrite H in Hs.
Qed.

(** The turn at a buffer of at least 17 octets that does not start with a key. *)
Lemma packets_skip b k : 17 <= len b -> (0 < k <= length b)%nat -> starts (skipn k b) = true ->
  (forall m, (m < k)%nat -> starts (skipn m b) = false) -> packets b = packets (skipn k b).
Proof.
  intros Hl Hk Hs Hn. rewrite packets_turn. unfold klv_turn. replace (len b <? 17) with false by lia.
  assert (starts b = false) as H0 by exact (Hn 0%nat ltac:(lia)). rewrite looks_starts, H0 by lia. cbn [negb].
  pose proof (find_next b H0) as Hf. destruct (find_from _ _ _) as [j|]; [|by rewrite Hf in Hs].
  destruct Hf as (k' & Hk' & -> & Hkl & Hs' & Hn'). rewrite slice_end by lia. rewrite Nat2Z.id.
  assert (k' = k) as ->; [|done]. destruct (Nat.lt_trichotomy k k') as [Hlt|[->|Hlt]]; [|done|].
  - by rewrite Hn' in Hs.
  - by rewrite Hn in Hs'.
Qed.

(** Octets at which no key starts can be dropped. *)
Lemma packets_drop b k : (k <= length b)%nat -> (forall m, (m < k)%nat -> starts (skipn m b) = false) -> packets b = packets (skipn k b).
Proof.
  intros Hk Hn. destruct (decide (k = 0%nat)) as [->|Hk0]; [done|].
  assert (forall n, len (skipn n b) = len b - Z.of_nat (Nat.min n (length b))) as Hlen by (intros n; unfold len; rewrite length_skipn; lia).
  destruct (Z.lt_ge_cases (len b) 17) as [|Hl]; [rewrite !packets_small by (rewrite ?Hlen; lia); done|].
  assert (starts b = false) as H0 by exact (Hn 0%nat ltac:(lia)). pose proof (find_next b H0) as Hf.
  destruct (find_from _4609_KLV_PREFIX b 1) as [j|].
  - destruct Hf as (i & Hi & -> & Hil & Hs & Hm). assert (k <= i)%nat as Hki.
    { destruct (Nat.lt_ge_cases i k) as [H|H]; [by rewrite Hn in Hs|done]. }
    rewrite (packets_skip b i Hl ltac:(lia) Hs Hm). replace (skipn i b) with (skipn (i - k) (skipn k b)) by (rewrite drop_drop; f_equal; lia).
    destruct (decide (i = k)) as [->|Hne]; [by rewrite Nat.sub_diag|].
    destruct (Z.lt_ge_cases (len (skipn k b)) 17) as [Hs17|Hg17].
    + rewrite !packets_small; [done|done|]. revert Hs17. unfold len. rewrite !length_skipn. lia.
    + symmetry. apply packets_skip; [done|rewrite length_skipn; lia|rewrite drop_drop; replace (k + (i - k))%nat with i by lia; done|].
      intros m Hmm. rewrite drop_drop. apply Hm. lia.
  - rewrite packets_none by done. symmetry. apply packets_none. intros m. rewrite drop_drop. apply Hf.
Qed.

(** The turn at a longer buffer, when the shorter one does not wait. *)
Lemma slice_prefix_16 (b c : bytes) : 16 <= len b -> slice (b ++ c) 0 16 = slice b 0 16.
Proof. intros H. apply slice_app_l; lia. Qed.

Lemma byte_16 (b c : bytes) : 17 <= len b -> byte_at (b ++ c) 16 = byte_at b 16.
Proof.
  intros H. unfold byte_at, index. cbn zeta. change (16 <? 0) with false. cbv iota. change (16 <? 0) with false. cbv iota.
  by rewrite nth_error_app1 by (unfold len in H; lia).
Qed.

(** With enough octets for it, a length is never refused. *)
Lemma decode_ber_total b o : 17 <= len b -> byte_at b 16 = Ok o ->
  bit o 0x80 && ((Z.land o 0x7F =? 0) || (8 <? Z.land o 0x7F)) = false ->
  bit o 0x80 && (len b <? 17 + Z.land o 0x7F) = false -> exists r, _4609_decode_ber (slice b 16 (len b)) = Ok r.
Proof.
  intros Hl Ho H1 H2. rewrite slice_end by lia. change (Z.to_nat 16) with 16%nat.
  assert (byte_at (skipn 16 b) 0 = Ok o) as Ho'.
  { unfold byte_at, index in *. change (16 <? 0) with false in Ho. change (0 <? 0) with false. cbn zeta in *. cbv iota in *.
    change (16 <? 0) with false in Ho. change (0 <? 0) with false. cbv iota in *. change (Z.to_nat 0) with 0%nat.
    change (Z.to_nat 16) with 16%nat in Ho. rewrite nth_error_skipn. done. }
  assert (len (skipn 16 b) = len b - 16) as El by (unfold len in *; rewrite length_skipn; lia).
  unfold _4609_decode_ber. rewrite El, Ho'. destruct (Z.eqb_spec (len b - 16) 0); [lia|]. cbn [exc_bind].
  destruct (Z.ltb_spec o 0x80) as [|Hb]; [by eexists|].
  assert (bit o 0x80 = true) as Hbit.
  { destruct (byte_at_ok b 16) as (o' & Ho2 & Hr); [lia|]. rewrite Ho in Ho2. injection Ho2 as <-.
    change 0x80 with (2 ^ 7). rewrite bit_pow2 by lia. lia. }
  rewrite Hbit in *. cbn [andb] in *. apply orb_false_iff in H1 as [-> ->].
  destruct (Z.ltb_spec (len b - 16) (1 + Z.land o 127)); [lia|]. by eexists.
Qed.

Lemma find_from_app b c j : find_from _4609_KLV_PREFIX b 1 = Some j -> starts b = false -> 17 <= len b ->
  find_from _4609_KLV_PREFIX (b ++ c) 1 = Some j.
Proof.
  intros Hf H0 Hl. pose proof (find_next b H0) as Hb. rewrite Hf in Hb. destruct Hb as (k & Hk & -> & Hkl & Hs & Hn).
  assert (4 <= length (skipn k b))%nat as Hk4.
  { destruct (Nat.le_gt_cases 4 (length (skipn k b))); [done|]. by rewrite starts_short in Hs. }
  assert (starts (b ++ c) = false) as H0' by (rewrite starts_app; [done|unfold len in Hl; lia]).
  pose proof (find_next (b ++ c) H0') as Hbc. rewrite length_skipn in Hk4.
  assert (forall m, (m <= k)%nat -> starts (skipn m (b ++ c)) = starts (skipn m b)) as Hsame.
  { intros m Hm. rewrite drop_app_le by lia. apply starts_app. rewrite length_skipn. lia. }
  destruct (find_from _ (b ++ c) 1) as [j'|].
  - destruct Hbc as (k' & Hk' & -> & _ & Hs' & Hn'). f_equal. f_equal.
    destruct (Nat.lt_trichotomy k k') as [H|[->|H]]; [|done|].
    + specialize (Hn' k H). rewrite Hsame, Hs in Hn' by lia. done.
    + rewrite Hsame, Hn in Hs' by lia. done.
  - specialize (Hbc k). rewrite Hsame, Hs in Hbc by lia. done.
Qed.

Lemma turn_app b c :
  match turn_of b with
  | Wait b' => b' = b \/ packets (b ++ c) = packets (b' ++ c) /\ packets b' = []
  | Again b' => turn_of (b ++ c) = Again (b' ++ c)
  | Yield k v b' => turn_of (b ++ c) = Yield k v (b' ++ c)
  end.
Proof.
  unfold klv_turn at 1. destruct (Z.ltb_spec (len b) 17) as [|Hl]; [by left|].
  pose proof (len_nonneg c) as Hc. assert (len (b ++ c) = len b + len c) as Hbc by apply len_app.
  assert (forall i, 0 <= i <= len b -> slice (b ++ c) i (len (b ++ c)) = slice b i (len b) ++ c) as Hend.
  { intros i Hi. rewrite !slice_end by lia. apply drop_app_le. unfold len in Hi. lia. }
  assert (turn_of (b ++ c) = turn_of (b ++ c)) as Ht by done. unfold klv_turn at 2 in Ht.
  replace (len (b ++ c) <? 17) with false in Ht by lia. rewrite slice_prefix_16, byte_16 in Ht by lia.
  rewrite looks_starts in Ht |- * by lia. destruct (starts b) eqn:Es; cbn [negb] in Ht |- *.
  - destruct (byte_at b 16) as [o|] eqn:Eo; [|by left].
    destruct (_ && _) eqn:E1; [rewrite Ht, Hend by lia; done|].
    destruct (bit o 128 && (len b <? 17 + Z.land o 127)) eqn:E2; [by left|].
    assert (bit o 128 && (len (b ++ c) <? 17 + Z.land o 127) = false) as E3.
    { apply andb_false_iff in E2 as [->|E2]; [done|]. apply andb_false_iff. right. lia. }
    rewrite E3 in Ht. destruct (decode_ber_total b o Hl Eo E1 E2) as [[n k] Ed]. rewrite Ed.
    destruct (decode_ber_prefix _ c _ _ Ed) as (Ed' & Hk & Hkl & Hn). rewrite Hend, Ed' in Ht by lia.
    destruct (maximum <? n); [rewrite Ht, Hend by lia; done|].
    destruct (Z.ltb_spec (len b) (16 + k + n)); [by left|].
    destruct (Z.ltb_spec (len (b ++ c)) (16 + k + n)); [lia|]. rewrite Ht, Hend by lia. f_equal. apply slice_app_l; lia.
  - destruct (find_from _ b 1) as [j|] eqn:Ef.
    + rewrite (find_from_app b c j Ef Es Hl) in Ht. rewrite Ht. pose proof (find_next b Es) as Hf. rewrite Ef in Hf.
      destruct Hf as (k & Hk & -> & Hkl & _). rewrite Hend by (unfold len; lia). done.
    + right. change (len _4609_KLV_PREFIX - 1) with 3. replace (Z.min (len b) 3) with 3 by lia.
      replace (3 <? len b) with true by lia. rewrite slice_end by lia. set (k := Z.to_nat (len b - 3)).
      pose proof (find_next b Es) as Hf. rewrite Ef in Hf. assert (k <= length b)%nat by (subst k; unfold len in *; lia). split.
      * rewrite <- drop_app_le by done. apply packets_drop; [rewrite length_app; lia|].
        intros m Hm. rewrite drop_app_le by lia. rewrite starts_app; [apply Hf|]. rewrite length_skipn. subst k. unfold len in *. lia.
      * apply packets_small. unfold len in *. rewrite length_skipn. subst k. lia.
Qed.

Lemma packets_app b c : packets (b ++ c) = packets b ++ packets (rest_of b ++ c) /\ packets (rest_of b) = [].
Proof.
  remember (length b) as n eqn:En. assert (length b <= n)%nat as Hn by lia. clear En. revert b Hn.
  induction n as [|n IH]; intros b Hn; pose proof (turn_app b c) as Ht; pose proof (klv_turn_shrinks b) as Hs;
    rewrite (packets_turn b), (rest_turn b); destruct (turn_of b) as [b'|k v b'|b'] eqn:E.
  1, 2: destruct Hs as (m & Hm & _); lia.
  - destruct Ht as [->|[Ht Hp]]; [|by split]. split; [done|]. rewrite packets_turn. by rewrite E.
  - destruct Hs as (m & Hm & ->). destruct (IH (skipn m b)) as [H1 H2]; [rewrite length_skipn; lia|].
    rewrite packets_turn, Ht. by split.
  - destruct Hs as (m & Hm & ->). destruct (IH (skipn m b)) as [H1 H2]; [rewrite length_skipn; lia|].
    rewrite packets_turn, Ht. cbn [app]. split; [by rewrite H1|done].
  - destruct Ht as [->|[Ht Hp]]; [|by split]. split; [done|]. rewrite packets_turn. by rewrite E.
Qed.

(** However the octets arrive, the packets are those of the whole. *)
Lemma parse_chunks_ok chunks buf : Forall (fun c => c <> []) chunks -> packets buf = [] ->
  parse_chunks maximum chunks buf = packets (buf ++ concat chunks).
Proof.
  intros H. revert buf. induction H as [|c cs Hc _ IH]; intros buf Hb; cbn [parse_chunks concat].
  - by rewrite app_nil_r.
  - destruct c as [|o c]; [done|]. set (x := buf ++ o :: c). destruct (packets_app x (concat cs)) as [H1 H2].
    rewrite app_assoc. fold x. rewrite H1. unfold packets at 1. rewrite <- (IH (rest_of x)) by done.
    unfold rest_of. by destruct (klv_scan maximum (S (length x)) x).
Qed.

(** ** Packets as they are written *)
Record klv_packet := { k_key : bytes; k_length : bytes; k_value : bytes }.
Definition k_octets (p : klv_packet) : bytes := k_key p ++ k_length p ++ k_value p.
Definition klv_fits (p : klv_packet) : Prop :=
  len (k_key p) = 16 /\ starts (k_key p) = true /\ writes_length (k_length p) (len (k_value p)) /\ len (k_value p) <= maximum.

Lemma writes_length_size l n : writes_length l n -> 1 <= len l <= 9.
Proof. intros H. pose proof (length_reads _ _ H) as Hr. clear H; rename Hr into H. specialize (H []). by destruct (decode_ber_prefix _ [] _ _ H) as (_ & Hk & _). Qed.

(** The first octet of a length that can be read. *)
Lemma writes_length_first l n o : writes_length l n -> byte_at l 0 = Ok o ->
  bit o 0x80 && ((Z.land o 0x7F =? 0) || (8 <? Z.land o 0x7F)) = false /\ (bit o 0x80 = true -> len l = 1 + Z.land o 0x7F).
Proof.
  intros Hw Ho. pose proof (length_reads _ _ Hw) as H. clear Hw. specialize (H []). rewrite app_nil_r in H. unfold _4609_decode_ber in H.
  destruct (Z.eqb_spec (len l) 0); [done|]. rewrite Ho in H. cbn [exc_bind] in H.
  destruct (byte_at_ok l 0) as (o' & Ho' & Hr); [pose proof (len_nonneg l); lia|]. rewrite Ho in Ho'. injection Ho' as <-.
  assert (bit o 0x80 = (0x80 <=? o)) as Hb by (change 0x80 with (2 ^ 7); apply bit_pow2; lia).
  rewrite Hb. destruct (Z.ltb_spec o 0x80).
  - replace (128 <=? o) with false by lia. done.
  - destruct (Z.land o 127 =? 0); [done|]. destruct (8 <? Z.land o 127); [done|].
    destruct (len l <? 1 + Z.land o 127); [done|]. injection H as _ H. split; [apply andb_false_r|]. intros _. by symmetry.
Qed.

Lemma packet_turn p tail : klv_fits p -> turn_of (k_octets p ++ tail) = Yield (k_key p) (k_value p) tail.
Proof.
  intros (Hk & Hs & Hw & Hm). unfold k_octets. pose proof (writes_length_size _ _ Hw) as Hl.
  destruct (byte_at_ok (k_length p) 0) as (o & Ho & _); [lia|]. destruct (writes_length_first _ _ _ Hw Ho) as [H1 H2].
  pose proof (len_nonneg (k_value p)). pose proof (len_nonneg tail).
  set (x := (k_key p ++ k_length p ++ k_value p) ++ tail).
  assert (x = k_key p ++ k_length p ++ k_value p ++ tail) as Ex by (subst x; by rewrite <- !app_assoc).
  assert (len x = 16 + len (k_length p) + len (k_value p) + len tail) as El by (rewrite Ex, !len_app; lia).
  unfold klv_turn. destruct (Z.ltb_spec (len x) 17); [lia|].
  assert (slice x 0 16 = k_key p) as E0 by (rewrite Ex; apply slice_first; lia).
  rewrite looks_starts by lia. assert (starts x = true) as -> by (rewrite Ex, starts_app; [done|unfold len in Hk; lia]). cbn [negb].
  assert (byte_at x 16 = Ok o) as ->.
  { rewrite Ex. destruct (k_length p) as [|c l]; [done|]. cbn [app]. rewrite byte_at_mid by done. exact Ho. }
  rewrite H1. replace (bit o 128 && (len x <? 17 + Z.land o 127)) with false.
  2: { symmetry. apply andb_false_iff. destruct (bit o 128); [right; specialize (H2 eq_refl); lia|by left]. }
  assert (slice x 16 (len x) = k_length p ++ k_value p ++ tail) as ->.
  { rewrite slice_end by lia. rewrite Ex. apply drop_app_length'. unfold len in Hk. lia. }
  rewrite (length_reads _ _ Hw). replace (maximum <? len (k_value p)) with false by lia.
  destruct (Z.ltb_spec (len x) (16 + len (k_length p) + len (k_value p))); [lia|]. rewrite E0. f_equal.
  - rewrite Ex, app_assoc. apply slice_mid; rewrite ?len_app; lia.
  - rewrite Ex, 2!app_assoc. apply slice_to_end; rewrite ?len_app; lia.
Qed.

(** Octets between packets at which no key starts. *)
Definition clean (junk : bytes) (p : klv_packet) : Prop :=
  forall m, (m < length junk)%nat -> starts (skipn m (junk ++ k_octets p)) = false.

Lemma starts_extends x tail : starts x = true -> starts (x ++ tail) = true.
Proof.
  intros H. rewrite starts_app; [done|]. destruct (Nat.le_gt_cases 4 (length x)); [done|]. by rewrite starts_short in H.
Qed.

Lemma packets_next junk p tail : klv_fits p -> clean junk p ->
  packets ((junk ++ k_octets p) ++ tail) = (k_key p, k_value p) :: packets tail.
Proof.
  intros Hp Hc. rewrite (packets_drop _ (length junk)).
  - rewrite <- app_assoc, drop_app_length. rewrite packets_turn, packet_turn by done. done.
  - rewrite !length_app. lia.
  - intros m Hm. rewrite drop_app_le by (rewrite length_app; lia). rewrite starts_app; [by apply Hc|].
    rewrite length_skipn, length_app. destruct Hp as (Hk & _). unfold k_octets. rewrite length_app. unfold len in Hk. lia.
Qed.
End Scan.

(** ** What the tags of a local set are *)

Lemma zget_zset t v d u : zget (zset t v d) u = if t =? u then Some v else zget d u.
Proof.
  induction d as [|[k w] d IH]; cbn [zset zget]; [done|]. destruct (Z.eqb_spec k t) as [->|Hk]; cbn [zget].
  - by destruct (t =? u).
  - rewrite IH. destruct (Z.eqb_spec k u), (Z.eqb_spec t u); try done. lia.
Qed.

(** The value of the last entry with a tag. *)
Fixpoint last_value (t : Z) (entries : list entry_spec) : option bytes :=
  match entries with
  | [] => None
  | e :: es => match last_value t es with Some v => Some v | None => if e_tag e =? t then Some (e_value e) else None end
  end.

Lemma zget_entries es d t : zget (fold_left add_entry es d) t = match last_value t es with Some v => Some v | None => zget d t end.
Proof.
  revert d. induction es as [|e es IH]; intros d; cbn [fold_left last_value]; [done|]. rewrite IH. unfold add_entry.
  rewrite zget_zset. by destruct (last_value t es), (e_tag e =? t).
Qed.

(** C24: a local set comes back from its octets: whatever tags it has, and
    however each length is written (in one octet, or as up to eight digits to
    the base 256, the highest first), every tag has the value of its last
    entry. *)
Theorem local_set_roundtrip entries (Hfit : Forall entry_fits entries) :
  exists tags, _4609_parse_local_set (concat (map e_octets entries)) = Ok tags /\ forall t, zget tags t = last_value t entries.
Proof. eexists. split; [by apply parse_local_set_ok|]. intros t. rewrite zget_entries. by destruct (last_value t entries). Qed.

(** A two-octet tag with a long-form length, and a tag given twice. *)
Definition sample_entries : list entry_spec :=
  [{| e_high := [1]; e_last := 2; e_length := of_ints [0x82; 0; 1]; e_value := of_ints [7] |};
   {| e_high := []; e_last := 5; e_length := of_ints [2]; e_value := of_ints [1; 2] |};
   {| e_high := []; e_last := 5; e_length := of_ints [1]; e_value := of_ints [9] |}].

Lemma sample_entries_fit : Forall entry_fits sample_entries.
Proof.
  unfold sample_entries. rewrite !Forall_cons, Forall_nil. unfold entry_fits; cbn [e_high e_last e_length e_value length].
  rewrite !Forall_cons, !Forall_nil. split_and!; try done; try lia; try (by apply wl_short).
  apply (wl_long (of_ints [0; 1])). unfold len; cbn; lia.
Qed.

Lemma local_set_roundtrip_witness :
  Forall entry_fits sample_entries /\
  (exists tags, _4609_parse_local_set (concat (map e_octets sample_entries)) = Ok tags /\ forall t, zget tags t = last_value t sample_entries) /\
  last_value 130 sample_entries = Some (of_ints [7]) /\ last_value 5 sample_entries = Some (of_ints [9]).
Proof.
  split; [exact sample_entries_fit|]. split; [apply local_set_roundtrip; exact sample_entries_fit|].
  split; reflexivity.
Defined.

(** ** From a stream to the decoder *)

Lemma writes_length_bound l n : writes_length l n -> 0 <= n < 2 ^ 64.
Proof.
  intros H. pose proof (length_reads _ _ H) as Hr. clear H; rename Hr into H. specialize (H []). rewrite app_nil_r in H. destruct (decode_ber_prefix _ [] _ _ H) as (_ & _ & _ & Hn). split; [done|].
  unfold _4609_decode_ber in H. destruct (len l =? 0); [done|]. destruct (byte_at l 0) as [o|] eqn:Ho; [|done]. cbn [exc_bind] in H.
  destruct (Z.ltb_spec o 0x80); [injection H as <- _; lia|]. destruct (_ =? 0); [done|].
  destruct (Z.ltb_spec 8 (Z.land o 0x7F)); [done|]. destruct (Z.ltb_spec (len l) (1 + Z.land o 0x7F)); [done|].
  injection H as <- _. pose proof (land_range o 0x7F ltac:(lia)).
  eapply Z.lt_le_trans; [apply int_from_bytes_range|]. apply Z.pow_le_mono_r; [lia|]. rewrite len_slice by lia. lia.
Qed.

(** A packet whose length is written the way [_4609_encode_ber] does. *)
Definition normal (p : klv_packet) : klv_packet :=
  {| k_key := k_key p;
     k_length := match _4609_encode_ber (len (k_value p)) with Ok l => l | Raise _ => [] end;
     k_value := k_value p |}.

Lemma normal_fits maximum p : klv_fits maximum p ->
  _4609_encode_ber (len (k_value p)) = Ok (k_length (normal p)) /\ klv_fits maximum (normal p).
Proof.
  intros (Hk & Hs & Hw & Hm). destruct (encode_ber_ok (len (k_value p))) as (l & E & Hl); [by eapply writes_length_bound|].
  unfold normal, klv_fits. cbn [k_key k_length k_value]. by rewrite E.
Qed.

Lemma republish_ok maximum ps : Forall (klv_fits maximum) ps ->
  republish (map (fun p => (k_key p, k_value p)) ps) = (map (fun p => k_octets (normal p)) ps, Ok tt).
Proof.
  induction 1 as [|p ps Hp _ IH]; cbn [map republish]; [done|]. destruct (normal_fits _ _ Hp) as [-> _]. by rewrite IH.
Qed.

Lemma split_ok maximum p : klv_fits maximum p -> _4609_split_klv_packet maximum (k_octets p) = Ok (Some (k_key p, k_value p)).
Proof.
  intros (Hk & Hs & Hw & Hm). unfold k_octets, _4609_split_klv_packet. pose proof (writes_length_size _ _ Hw) as Hl.
  pose proof (len_nonneg (k_value p)). rewrite !len_app.
  replace (len (k_key p) + (len (k_length p) + len (k_value p)) <? 17) with false by lia.
  rewrite slice_first by lia. assert (_4609_looks_like_klv_key (k_key p) = true) as ->.
  { unfold _4609_looks_like_klv_key. rewrite Hk. exact Hs. }
  cbn [negb]. rewrite slice_to_end by (rewrite ?len_app; lia). rewrite (length_reads _ _ Hw). cbn [exc_bind].
  replace (maximum <? len (k_value p)) with false by lia. rewrite Hk.
  replace (16 + (len (k_length p) + len (k_value p))) with (16 + len (k_length p) + len (k_value p)) by lia. rewrite Z.eqb_refl. cbn [negb].
  do 3 f_equal. rewrite app_assoc. apply slice_to_end; rewrite ?len_app; lia.
Qed.

Lemma stream_packets maximum items tail :
  Forall (fun i => klv_fits maximum i.2 /\ clean i.1 i.2) items -> (forall m, starts (skipn m tail) = false) ->
  packets maximum (concat (map (fun i => i.1 ++ k_octets i.2) items) ++ tail) = map (fun i => (k_key i.2, k_value i.2)) items.
Proof.
  intros Hi Ht. induction Hi as [|[junk p] items [Hp Hc] _ IH]; cbn [map concat].
  - by apply packets_none.
  - rewrite <- app_assoc, packets_next by done. by rewrite IH.
Qed.

(** C11: the KLV packets of a video stream: however its octets are cut into
    reads, whatever lies between the packets as long as no key starts there, and
    however lengths are written, the ingress bridge ends normally and puts one
    raw sample per packet, in order; and the decoder takes each sample apart into
    the key and the value the packet had in the stream. *)
Theorem klv_stream_exact maximum items tail chunks
  (Hi : Forall (fun i => klv_fits maximum i.2 /\ clean i.1 i.2) items)
  (Ht : forall m, starts (skipn m tail) = false)
  (Hc : Forall (fun c => c <> []) chunks)
  (Hs : concat chunks = concat (map (fun i => i.1 ++ k_octets i.2) items) ++ tail) :
  exists samples, ingress maximum chunks = (samples, Ok tt) /\
    samples = map (fun i => k_octets (normal i.2)) items /\
    map (_4609_split_klv_packet maximum) samples = map (fun i => Ok (Some (k_key i.2, k_value i.2))) items.
Proof.
  eexists. split; [|split; [reflexivity|]].
  - unfold ingress, _4609_parse_klv_packets. rewrite parse_chunks_ok by (done || by apply packets_small).
    rewrite app_nil_l, Hs, stream_packets by done. rewrite <- (map_map snd (fun p => (k_key p, k_value p))).
    rewrite (republish_ok maximum) by (apply Forall_map; by eapply Forall_impl; [exact Hi|intros i []]). by rewrite map_map.
  - rewrite map_map. apply map_ext_Forall. eapply Forall_impl; [exact Hi|]. intros [junk p] [Hp _]. cbn [snd] in Hp |- *.
    destruct (normal_fits _ _ Hp) as [_ Hn]. by rewrite (split_ok _ _ Hn).
Qed.

Definition sample_key : bytes := _4609_ST0601_LOCAL_SET_KEY.
Definition sample_packet : klv_packet := {| k_key := sample_key; k_length := of_ints [0x81; 3]; k_value := of_ints [5; 1; 7] |}.
Definition sample_items : list (bytes * klv_packet) := [(of_ints [6; 14], sample_packet); ([], sample_packet)].
Definition sample_octets : bytes := concat (map (fun i => i.1 ++ k_octets i.2) sample_items) ++ of_ints [6; 14; 43].

Lemma clean_ok junk p :
  forallb (fun m => negb (starts (skipn m (junk ++ k_octets p)))) (seq 0 (length junk)) = true -> clean junk p.
Proof.
  intros H m Hm. rewrite forallb_forall in H. specialize (H m). rewrite in_seq in H.
  by apply negb_true_iff, H; lia.
Qed.

Lemma sample_items_fit : Forall (fun i => klv_fits 1048576 i.2 /\ clean i.1 i.2) sample_items.
Proof.
  assert (klv_fits 1048576 sample_packet) as Hp.
  { split; [reflexivity|]. split; [vm_compute; reflexivity|]. split; [|vm_compute; discriminate].
    apply (wl_long (of_ints [3])). unfold len; cbn; lia. }
  unfold sample_items. rewrite !Forall_cons, Forall_nil. cbn [fst snd]. split_and!; try done; by apply clean_ok; vm_compute.
Qed.

Lemma klv_stream_exact_witness :
  exists samples, ingress 1048576 [firstn 30 sample_octets; skipn 30 sample_octets] = (samples, Ok tt) /\
    samples = map (fun i => k_octets (normal i.2)) sample_items /\
    map (_4609_split_klv_packet 1048576) samples = map (fun i => Ok (Some (k_key i.2, k_value i.2))) sample_items.
Proof.
  apply (klv_stream_exact 1048576 sample_items (of_ints [6; 14; 43])).
  - exact sample_items_fit.
  - intros m. apply starts_short. rewrite length_skipn. change (length (of_ints [6; 14; 43])) with 3%nat. lia.
  - rewrite !Forall_cons, Forall_nil. split_and!; done.
  - vm_compute. reflexivity.
Defined.

(** The octets of a raw sample are not those of the stream: of the packet
    above, whose length the sensor wrote in two octets, one is missing. *)
Theorem klv_length_rewritten :
  exists sample, ingress 1048576 [k_octets sample_packet] = ([sample], Ok tt) /\
    k_octets sample_packet <> sample /\ len (k_octets sample_packet) = len sample + 1 /\
    _4609_split_klv_packet 1048576 (k_octets sample_packet) = _4609_split_klv_packet 1048576 sample.
Proof. eexists. split; [vm_compute; reflexivity|]. split; [by vm_compute|]. split; vm_compute; reflexivity. Qed.

(** A local set with a sensor latitude, the reserved word as sensor longitude,
    and a position of the frame's centre. *)
Definition mixed_set : bytes :=
  concat (map (fun '(tag, v) => of_ints [tag; 4] ++ be 4 v) [(13, 0x10000000); (14, 0x80000000); (23, 0x30000000); (24, 0x30000000)]).

(** When only one of the sensor's coordinates is there, the track's position
    is neither the sensor's nor that of the frame's centre: its latitude is of the one,
    its longitude of the other. *)
Theorem klv_position_mixed repr now :
  exists topic track raw tags, _4609_publish_packet repr "efdi" now 0 sample_key mixed_set "cam" "cam" = Ok [KlvTrack topic track; raw] /\
    _4609_parse_local_set mixed_set = Ok tags /\
    (let d := _4609_decode_st0601 tags in
     dget d "sensor_lon_deg" = None /\
     dget track "lat_deg" = dget d "sensor_lat_deg" /\ dget track "lon_deg" = dget d "frame_center_lon_deg" /\
     dget track "lat_deg" <> dget d "frame_center_lat_deg").
Proof. do 4 eexists. split; [vm_compute; reflexivity|]. split; [vm_compute; reflexivity|]. vm_compute. repeat split. discriminate. Qed.
