(* ===== verification/Vsm.v ===== *)
(** * Vehicle telemetry of a VSM

    The STANAG 4586 section of compose/protocols/vendors/stanag/stanag.py in its
    legacy profile: messages, the state of a vehicle, the TCP session with the
    VSM and the subscriber of the raw topic; and that both paths publish the
    same tracks. *)

From S2P Require Import Prelude PyFloat PyData Schema PyText TrackViews Octets Wire Framing Link16.
#[local] Open Scope Z_scope.

Definition _4586_TOPIC_UAV_OUT (root : string) : string := root +:+ "/air/stanag_4586/telemetry/civ/aircraft".
Definition _4586_MSG_VSM_HEARTBEAT : Z := 0x4001.
Definition _4586_MSG_CUCS_HEARTBEAT : Z := 0x4002.
Definition _4586_MSG_VEHICLE_STATE : Z := 0x0001.
Definition _4586_HEADER_SIZE : Z := 6.
Definition _4586_MAX_FRAME_BYTES : Z := 1048576.
Definition _4586_SUPPORTED_PROFILE : string := "legacy_ed3_approx".

(** The environment's STANAG4586_PROFILE is the one profile there is;
    SystemExit otherwise. *)
Definition _4586_require_profile (profile : option string) : bool :=
  String.eqb (strip (default "" profile)) _4586_SUPPORTED_PROFILE.

(** ** Messages *)

(** [struct.pack] of an unsigned number of [size] octets, little-endian. *)
Definition pack_le (size : nat) (n : Z) : exc bytes :=
  if (0 <=? n) && (n <? 2 ^ (8 * Z.of_nat size)) then Ok (le size n) else Raise StructError.

Definition _4586_build_header (msg_type body_len instance : Z) : exc bytes :=
  let total := _4586_HEADER_SIZE + body_len in
  let? t := pack_le 2 msg_type in
  let? s := pack_le 2 total in
  let? i := pack_le 2 instance in
  Ok (t ++ s ++ i).

(** [now] is [int(time.time())]. *)
Definition _4586_build_cucs_heartbeat (now instance : Z) : exc bytes :=
  let? i := pack_le 2 instance in
  let? t := pack_le 4 (Z.land now 0xFFFFFFFF) in
  let? c := pack_le 1 1 in
  let body := i ++ t ++ c in
  let? header := _4586_build_header _4586_MSG_CUCS_HEARTBEAT (len body) instance in
  Ok (header ++ body).

Definition _4586_recv_exact (s : sock) (n : Z) : exc (bytes * sock) := recv_exact s n.

Definition u16_le (data : bytes) (pos : Z) : Z := le_value (slice data pos (pos + 2)).

Definition _4586_recv_message (s : sock) : exc (Z * Z * bytes * sock) :=
  let? (hdr, s) := _4586_recv_exact s _4586_HEADER_SIZE in
  let msg_type := u16_le hdr 0 in
  let total_size := u16_le hdr 2 in
  let instance := u16_le hdr 4 in
  if total_size <? _4586_HEADER_SIZE then Raise ValueError
  else if _4586_MAX_FRAME_BYTES <? total_size then Raise ValueError
  else
    let body_size := total_size - _4586_HEADER_SIZE in
    let? (body, s) := if 0 <? body_size then _4586_recv_exact s body_size else Ok ([], s) in
    Ok (msg_type, instance, body, s).

Definition _4586_recv_message_from_bytes (frame : bytes) : exc (Z * Z * bytes) :=
  if len frame <? _4586_HEADER_SIZE then Raise ValueError else
  let total_size := u16_le frame 2 in
  if negb (total_size =? len frame) then Raise ValueError
  else Ok (u16_le frame 0, u16_le frame 4, skipn 6 frame).

(** ** The state of a vehicle *)
Definition f64_le (body : bytes) (pos : Z) : float := float64_of_bits (le_value (slice body pos (pos + 8))).
Definition f32_le (body : bytes) (pos : Z) : float := float32_of_bits (le_value (slice body pos (pos + 4))).

Definition put_if (b : bool) (key : string) (x : float) (d : dict) : dict := if b then dset key (VFloat x) d else d.

Definition _4586_decode_vehicle_state (now : float) (body : bytes) (instance : Z) : option dict :=
  if len body <? 56 then None else
  let lat := f64_le body 0 in
  let lon := f64_le body 8 in
  let alt_msl := f64_le body 16 in
  let alt_agl := f64_le body 24 in
  let heading := f64_le body 32 in
  let speed := f64_le body 40 in
  let vspeed := f64_le body 48 in
  if negb (fbetween (fl (-90)) lat (fl 90) && fbetween (fl (-180)) lon (fl 180)) then None else
  let track := [("_ts", VFloat now); ("_src", VStr "STANAG 4586"); ("uid", VStr ("stanag_4586-vsm-" +:+ str_int instance));
                ("vsm_instance", VInt instance); ("callsign", VStr ("UAV-VSM-" +:+ str_int instance));
                ("lat_deg", VFloat (py_round lat 6)); ("lon_deg", VFloat (py_round lon 6)); ("alt_m", VFloat (py_round alt_msl 1))] in
  let track := put_if (fbetween (fl (-1000)) alt_agl (fl 100000)) "alt_agl_m" (py_round alt_agl 1) track in
  let track := put_if (fle (fabs heading) (fl 360)) "heading_deg" (py_round (fmod heading (fl 360)) 1) track in
  let track := put_if (fle (fl 0) speed) "speed_ms" (py_round speed 2) track in
  let track := put_if (flt (fabs vspeed) (fl 1000)) "vertical_rate_ms" (py_round vspeed 2) track in
  let fuel := f32_le body 56 in
  Some (put_if ((60 <=? len body) && fbetween (fl 0) fuel (fl 1)) "fuel_pct" (py_round (fmul fuel (fl 100)) 1) track).

(** What one message publishes. *)
Definition publish_message (root : string) (now : float) (msg_type instance : Z) (body : bytes) : list (string * dict) :=
  if msg_type =? _4586_MSG_VEHICLE_STATE then
    match _4586_decode_vehicle_state now body instance with
    | Some track => [(_4586_TOPIC_UAV_OUT root, track)]
    | None => []
    end
  else [].

(** ** The session and the subscriber

    [clock n] is the time at which message [n] is decoded. *)
Fixpoint session_loop (fuel : nat) (root : string) (clock : Z -> float) (n : Z) (s : sock) : list (string * dict) * exn :=
  match fuel with
  | O => ([], OutOfFuel)
  | S fuel' =>
      match _4586_recv_message s with
      | Raise e => ([], e)
      | Ok (msg_type, instance, body, s) =>
          let (out, e) := session_loop fuel' root clock (n + 1) s in
          (publish_message root (clock n) msg_type instance body ++ out, e)
      end
  end.
Definition _4586_run_session (root : string) (clock : Z -> float) (s : sock) : list (string * dict) * exn :=
  session_loop (S (length (pending s))) root clock 0 s.

(** The loop of [on_sample] over the buffer, with the number of the next
    message; an exception is printed and leaves the buffer as it is. *)
Fixpoint raw_loop (fuel : nat) (root : string) (clock : Z -> float) (n : Z) (buffer : bytes) : list (string * dict) * bytes * Z :=
  match fuel with
  | O => ([], buffer, n)
  | S fuel' =>
      if len buffer <? _4586_HEADER_SIZE then ([], buffer, n) else
      let total_size := u16_le buffer 2 in
      if (total_size <? _4586_HEADER_SIZE) || (_4586_MAX_FRAME_BYTES <? total_size) then raw_loop fuel' root clock n (skipn 1 buffer)
      else if len buffer <? total_size then ([], buffer, n)
      else
        match _4586_recv_message_from_bytes (slice buffer 0 total_size) with
        | Raise _ => ([], buffer, n)
        | Ok (msg_type, instance, body) =>
            let '(out, rest, n') := raw_loop fuel' root clock (n + 1) (slice buffer total_size (len buffer)) in
            (publish_message root (clock n) msg_type instance body ++ out, rest, n')
        end
  end.

(** One sample, then the samples of a subscription. *)
Definition _4586_on_sample (root : string) (clock : Z -> float) (n : Z) (buffer data : bytes) : list (string * dict) * bytes * Z :=
  let buffer := buffer ++ data in raw_loop (S (length buffer)) root clock n buffer.
Fixpoint raw_samples (root : string) (clock : Z -> float) (n : Z) (buffer : bytes) (samples : list bytes) : list (string * dict) * bytes * Z :=
  match samples with
  | [] => ([], buffer, n)
  | data :: samples' =>
      let '(out, buffer, n) := _4586_on_sample root clock n buffer data in
      let '(out', buffer, n) := raw_samples root clock n buffer samples' in
      (out ++ out', buffer, n)
  end.

(** ** Messages as they are written *)
Record message := { m_type : Z; m_instance : Z; m_body : bytes }.
Definition m_octets (m : message) : bytes := le 2 (m_type m) ++ le 2 (6 + len (m_body m)) ++ le 2 (m_instance m) ++ m_body m.
Definition message_fits (m : message) : Prop :=
  0 <= m_type m < 65536 /\ 0 <= m_instance m < 65536 /\ 6 + len (m_body m) < 65536.

Lemma build_header_ok m : message_fits m ->
  exists h, _4586_build_header (m_type m) (len (m_body m)) (m_instance m) = Ok h /\ h ++ m_body m = m_octets m.
Proof.
  intros (Ht & Hi & Hb). pose proof (len_nonneg (m_body m)). unfold _4586_build_header, pack_le, _4586_HEADER_SIZE.
  change (2 ^ (8 * Z.of_nat 2)) with 65536.
  repeat match goal with |- context [if ?b then Ok _ else _] => replace b with true by lia; cbn [exc_bind] end.
  eexists. split; [done|]. unfold m_octets. by rewrite <- !app_assoc.
Qed.

Lemma len_octets m : len (m_octets m) = 6 + len (m_body m).
Proof. unfold m_octets. rewrite !len_app, !len_le. lia. Qed.

(** The header of what starts with a message. *)
Lemma header_of m tail : message_fits m ->
  u16_le (m_octets m ++ tail) 0 = m_type m /\ u16_le (m_octets m ++ tail) 2 = 6 + len (m_body m) /\
  u16_le (m_octets m ++ tail) 4 = m_instance m.
Proof.
  intros (Ht & Hi & Hb). pose proof (len_nonneg (m_body m)). unfold u16_le, m_octets. rewrite <- !app_assoc.
  assert (len (le 2 (m_type m)) = 2 /\ len (le 2 (6 + len (m_body m))) = 2 /\ len (le 2 (m_instance m)) = 2) as (L1 & L2 & L3) by (by rewrite !len_le).
  split_and!.
  - rewrite slice_first by lia. by apply le_value_small.
  - rewrite slice_mid by lia. apply le_value_small. change (2 ^ (8 * Z.of_nat 2)) with 65536. lia.
  - rewrite app_assoc, slice_mid by (rewrite len_app; lia). by apply le_value_small.
Qed.

Lemma skip_header m : skipn 6 (m_octets m) = m_body m.
Proof. unfold m_octets, le. rewrite !app_assoc. apply drop_app_length'. by rewrite !length_app, !length_rev, !length_be. Qed.

(** ** The session *)
Fixpoint published (root : string) (clock : Z -> float) (n : Z) (ms : list message) : list (string * dict) :=
  match ms with
  | [] => []
  | m :: ms' => publish_message root (clock n) (m_type m) (m_instance m) (m_body m) ++ published root clock (n + 1) ms'
  end.

Definition stream (ms : list message) : bytes := concat (map m_octets ms).

Lemma recv_message_ok m tail s : message_fits m -> pending s = m_octets m ++ tail ->
  exists s', _4586_recv_message s = Ok (m_type m, m_instance m, m_body m, s') /\ pending s' = tail.
Proof.
  intros Hm Hp. pose proof Hm as (Ht & Hi & Hb). pose proof (len_nonneg (m_body m)). pose proof (len_nonneg tail).
  assert (len (pending s) = 6 + len (m_body m) + len tail) as El by (rewrite Hp, len_app, len_octets; lia).
  unfold _4586_recv_message, _4586_recv_exact, _4586_HEADER_SIZE, _4586_MAX_FRAME_BYTES.
  pose proof (recv_exact_ok s 6 ltac:(lia)) as Hr. destruct (recv_exact s 6) as [[hdr s1]|e]; [|lia].
  destruct Hr as (Hh & Hs1 & _). cbn [exc_bind]. change (Z.to_nat 6) with 6%nat in *.
  set (h := {| m_type := m_type m; m_instance := m_instance m; m_body := [] |}).
  assert (forall i, 0 <= i <= 4 -> u16_le hdr i = u16_le (m_octets m ++ tail) i) as Hu.
  { intros i Hi'. unfold u16_le. subst hdr. rewrite Hp. f_equal.
    rewrite <- (firstn_skipn 6 (m_octets m ++ tail)) at 2. symmetry. apply slice_app_l; [lia|].
    rewrite Hp in El. unfold len in *. rewrite length_firstn. lia. }
  rewrite !Hu by lia. destruct (header_of m tail Hm) as (-> & -> & ->).
  destruct (Z.ltb_spec (6 + len (m_body m)) 6); [lia|]. destruct (Z.ltb_spec 1048576 (6 + len (m_body m))); [lia|].
  replace (6 + len (m_body m) - 6) with (len (m_body m)) by lia.
  assert (pending s1 = m_body m ++ tail) as Hs1'.
  { rewrite Hs1, Hp, drop_app_le, skip_header; [done|]. pose proof (len_octets m). unfold len in *. lia. }
  destruct (Z.ltb_spec 0 (len (m_body m))) as [Hpos|Hz].
  - pose proof (recv_exact_ok s1 (len (m_body m)) ltac:(lia)) as Hr.
    rewrite Hs1' in Hr. destruct (recv_exact s1 (len (m_body m))) as [[body s2]|e]; [|rewrite len_app in Hr; lia].
    destruct Hr as (-> & Hs2 & _). cbn [exc_bind]. unfold len in *. rewrite Nat2Z.id in *. rewrite take_app_length.
    eexists. split; [done|]. by rewrite Hs2, drop_app_length.
  - cbn [exc_bind]. destruct (m_body m) as [|b l]; [|rewrite len_cons in Hz; pose proof (len_nonneg l); lia]. by eexists.
Qed.

Lemma session_ok root clock ms : Forall message_fits ms -> forall fuel n s, pending s = stream ms -> (length ms < fuel)%nat ->
  session_loop fuel root clock n s = (published root clock n ms, EOFError).
Proof.
  induction 1 as [|m ms Hm _ IH]; intros [|fuel] n s Hp Hf; cbn [length] in Hf; try lia; cbn [session_loop published].
  - unfold _4586_recv_message, _4586_recv_exact. pose proof (recv_exact_ok s _4586_HEADER_SIZE ltac:(done)) as Hr.
    destruct (recv_exact s _4586_HEADER_SIZE) as [[hdr s1]|e].
    + destruct Hr as (_ & _ & Hr). by rewrite Hp in Hr.
    + by destruct Hr as [-> _].
  - destruct (recv_message_ok m (stream ms) s Hm Hp) as (s' & -> & Hs'). by rewrite IH by (done || lia).
Qed.

(** ** The subscriber *)
Section Raw.
Variables (root : string) (clock : Z -> float).

Lemma raw_skip_smaller (b : bytes) (i : Z) : 0 < i -> i <= len b -> (length (slice b i (len b)) < length b)%nat.
Proof. intros Hi Hl. unfold slice. rewrite length_firstn, length_skipn. unfold len in *. lia. Qed.

Lemma raw_fuel f : forall f' n b, (length b < f)%nat -> (length b < f')%nat -> raw_loop f root clock n b = raw_loop f' root clock n b.
Proof.
  induction f as [|f IH]; intros [|f'] n b H H'; try lia. cbn [raw_loop]. destruct (Z.ltb_spec (len b) _4586_HEADER_SIZE); [done|].
  unfold _4586_HEADER_SIZE in *.
  destruct (Z.ltb_spec (u16_le b 2) 6) as [Hu|Hu]; cbn [orb].
  - apply IH; rewrite length_skipn; unfold len in *; lia.
  - destruct (_ <? u16_le b 2); [apply IH; rewrite length_skipn; unfold len in *; lia|].
    destruct (Z.ltb_spec (len b) (u16_le b 2)); [done|]. destruct (_4586_recv_message_from_bytes _) as [[[t i] body]|]; [|done].
    pose proof (raw_skip_smaller b (u16_le b 2)). by rewrite (IH f') by lia.
Qed.

Definition raw (n : Z) (b : bytes) : list (string * dict) * bytes * Z := raw_loop (S (length b)) root clock n b.

Lemma u16_app b c : 6 <= len b -> u16_le (b ++ c) 2 = u16_le b 2.
Proof. intros H. unfold u16_le. f_equal. apply slice_app_l; lia. Qed.

Lemma slice_to_end_app (b c : bytes) i : 0 <= i <= len b -> slice (b ++ c) i (len (b ++ c)) = slice b i (len b) ++ c.
Proof.
  intros H. unfold slice, len in *. rewrite length_app, !firstn_all2 by (rewrite ?length_skipn, ?length_app; lia).
  apply drop_app_le. lia.
Qed.

(** A buffer that is scanned in two parts. *)
Lemma raw_app b : forall n c, raw n (b ++ c) =
  let '(out, rest, n') := raw n b in let '(out', rest', n'') := raw n' (rest ++ c) in (out ++ out', rest', n'').
Proof.
  remember (length b) as k eqn:Ek. assert (length b <= k)%nat as Hk by lia. clear Ek. revert b Hk.
  induction k as [|k IH]; intros b Hk n c.
  all: assert (len b <= Z.of_nat (length b)) as Hlb by (unfold len; lia); unfold raw at 2; cbn [raw_loop]; unfold _4586_HEADER_SIZE.
  1: { replace (len b <? 6) with true by lia. by destruct (raw n (b ++ c)) as [[? ?] ?]. }
  destruct (Z.ltb_spec (len b) 6) as [|H6]; [by destruct (raw n (b ++ c)) as [[? ?] ?]|].
  assert (forall n b', (length b' < length b)%nat -> raw_loop (length b) root clock n b' = raw n b') as Hraw.
  { intros n' b' Hb'. apply raw_fuel; unfold len in *; lia. }
  pose proof (len_nonneg c).
  assert (raw n (b ++ c) = raw n (b ++ c)) as E by done. unfold raw at 2 in E. cbn [raw_loop] in E. unfold _4586_HEADER_SIZE in E.
  rewrite u16_app, len_app in E by done. replace (len b + len c <? 6) with false in E by lia.
  assert (forall n b', (length b' < length (b ++ c))%nat -> raw_loop (length (b ++ c)) root clock n b' = raw n b') as Hraw'.
  { intros n' b' Hb'. apply raw_fuel; lia. }
  destruct (orb _ _) eqn:Eo.
  - rewrite drop_app_le in E by (unfold len in *; lia).
    rewrite Hraw' in E by (rewrite !length_app, length_skipn; unfold len in *; lia). rewrite E.
    assert (length (skipn 1 b) < length b)%nat as Hs by (rewrite length_skipn; unfold len in *; lia).
    rewrite IH by lia. by rewrite (Hraw n).
  - apply orb_false_iff in Eo as [Hlow _]. apply Z.ltb_ge in Hlow.
    destruct (Z.ltb_spec (len b) (u16_le b 2)) as [|Hfit]; [by destruct (raw n (b ++ c)) as [[? ?] ?]|].
    replace (len b + len c <? u16_le b 2) with false in E by lia.
    rewrite slice_app_l in E by lia. unfold _4586_recv_message_from_bytes in E |- *.
    rewrite len_slice in E |- * by lia. unfold _4586_HEADER_SIZE in *. replace (u16_le b 2 - 0) with (u16_le b 2) in * by lia.
    replace (u16_le b 2 <? 6) with false in * by lia.
    assert (u16_le (slice b 0 (u16_le b 2)) 2 = u16_le b 2) as Hu.
    { unfold u16_le at 1 3. f_equal. unfold slice. rewrite Z.sub_0_r. cbn [Z.to_nat skipn]. rewrite drop_0.
      change (Z.to_nat 2) with 2%nat. rewrite skipn_firstn_comm, take_take. f_equal. lia. }
    rewrite Hu in E |- *. rewrite Z.eqb_refl in E |- *. cbn [negb] in E |- *.
    replace (len b + len c) with (len (b ++ c)) in E by apply len_app. rewrite slice_to_end_app in E by lia.
    set (b' := slice b (u16_le b 2) (len b)) in *. pose proof (raw_skip_smaller b (u16_le b 2) ltac:(lia) Hfit) as Hs. fold b' in Hs.
    rewrite Hraw' in E by (rewrite !length_app; lia). rewrite E, (IH b') by lia. rewrite (Hraw (n + 1) b') by lia.
    destruct (raw (n + 1) b') as [[out rest] n']. destruct (raw n' (rest ++ c)) as [[out' rest'] n'']. by rewrite app_assoc.
Qed.

(** However the octets are cut into samples, the tracks are those of the whole. *)
Lemma raw_samples_ok samples : forall n buffer, raw n buffer = ([], buffer, n) ->
  raw_samples root clock n buffer samples = raw n (buffer ++ concat samples).
Proof.
  assert (forall b n, let '(_, rest, n') := raw n b in raw n' rest = ([], rest, n')) as Hstop.
  { intros b n. pose proof (raw_app b n []) as H. rewrite app_nil_r in H. destruct (raw n b) as [[out rest] n'].
    rewrite app_nil_r in H. destruct (raw n' rest) as [[out' rest'] n'']. injection H as H <- <-.
    assert (out' = []) as -> by (destruct out' as [|x l]; [done|]; apply (f_equal length) in H; rewrite length_app in H; cbn [length] in H; lia).
    done. }
  induction samples as [|data samples IH]; intros n buffer Hb; cbn [raw_samples concat].
  - by rewrite app_nil_r, Hb.
  - rewrite app_assoc, raw_app. change (_4586_on_sample root clock n buffer data) with (raw n (buffer ++ data)).
    specialize (Hstop (buffer ++ data) n). destruct (raw n (buffer ++ data)) as [[out rest] n']. by rewrite IH.
Qed.

Lemma raw_message m tail n : message_fits m ->
  raw n (m_octets m ++ tail) = let '(out, rest, n') := raw (n + 1) tail in
    (publish_message root (clock n) (m_type m) (m_instance m) (m_body m) ++ out, rest, n').
Proof.
  intros Hm. pose proof Hm as (Ht & Hi & Hb). pose proof (len_nonneg (m_body m)). pose proof (len_nonneg tail). pose proof (len_octets m) as Lm.
  unfold raw at 1. cbn [raw_loop]. unfold _4586_HEADER_SIZE, _4586_MAX_FRAME_BYTES. rewrite len_app, Lm.
  destruct (header_of m tail Hm) as (_ & -> & _).
  destruct (Z.ltb_spec (6 + len (m_body m) + len tail) 6); [lia|]. replace (6 + len (m_body m) <? 6) with false by lia.
  replace (1048576 <? 6 + len (m_body m)) with false by lia. cbn [orb].
  destruct (Z.ltb_spec (6 + len (m_body m) + len tail) (6 + len (m_body m))); [lia|].
  rewrite slice_first by lia. rewrite slice_to_end by (rewrite ?len_app; lia).
  unfold _4586_recv_message_from_bytes, _4586_HEADER_SIZE. rewrite Lm. destruct (Z.ltb_spec (6 + len (m_body m)) 6); [lia|].
  destruct (header_of m [] Hm) as (E1 & E2 & E3). rewrite app_nil_r in E1, E2, E3. rewrite E1, E2, E3, Z.eqb_refl. cbn [negb].
  rewrite skip_header. rewrite (raw_fuel _ (S (length tail))) by (rewrite ?length_app; unfold len in *; lia). done.
Qed.

Lemma raw_stream ms : Forall message_fits ms -> forall n tail,
  raw n (stream ms ++ tail) = let '(out, rest, n') := raw (n + len ms) tail in (published root clock n ms ++ out, rest, n').
Proof.
  unfold stream. induction 1 as [|m ms Hm _ IH]; intros n tail; cbn [map concat published].
  - change (len (@nil message)) with 0. rewrite Z.add_0_r, app_nil_l. by destruct (raw n tail) as [[? ?] ?].
  - rewrite <- app_assoc, raw_message, IH by done. rewrite len_cons, Z.add_assoc.
    destruct (raw _ tail) as [[out rest] n']. by rewrite app_assoc.
Qed.
End Raw.

(** C17: the two ways from a VSM to the fabric agree: for the messages a VSM
    sends, the TCP session, however the network cuts the stream, and the subscriber
    of the raw topic, however the ingress cuts it into samples, publish the same
    tracks, one per message that states a vehicle's state at a place on earth, in
    order; the session then ends with the connection and the subscriber keeps no octet. *)
Theorem vsm_paths_agree root clock ms s samples
  (Hm : Forall message_fits ms) (Hs : pending s = stream ms) (Hc : concat samples = stream ms) :
  _4586_run_session root clock s = (published root clock 0 ms, EOFError) /\
  raw_samples root clock 0 [] samples = (published root clock 0 ms, [], len ms).
Proof.
  split.
  - apply session_ok; [done|done|]. rewrite Hs. clear. induction ms as [|m ms IH]; unfold stream in *; cbn [map concat length] in *; [lia|].
    rewrite length_app. pose proof (len_octets m). pose proof (len_nonneg (m_body m)). unfold len in *. lia.
  - rewrite raw_samples_ok by done. rewrite app_nil_l, Hc. rewrite <- (app_nil_r (stream ms)), raw_stream by done.
    change (raw root clock (0 + len ms) []) with (@nil (string * dict), @nil byte, 0 + len ms). cbv beta iota. by rewrite app_nil_r, Z.add_0_l.
Qed.

(** A heartbeat, and the state of a vehicle at 54.5 N 25.25 E. *)
Definition sample_messages : list message :=
  [{| m_type := _4586_MSG_VSM_HEARTBEAT; m_instance := 3; m_body := of_ints [1; 2] |};
   {| m_type := _4586_MSG_VEHICLE_STATE; m_instance := 3;
      m_body := le 8 0x404B400000000000 ++ le 8 0x4039400000000000 ++ le 8 0x4059000000000000 ++ concat (repeat (le 8 0) 4) ++ le 4 0x3F000000 |}].

Lemma vsm_paths_agree_witness :
  let s := {| pending := stream sample_messages; sizes := [1; 7; 30] |} in
  let samples := [firstn 9 (stream sample_messages); skipn 9 (stream sample_messages)] in
  _4586_run_session "efdi" fl s = (published "efdi" fl 0 sample_messages, EOFError) /\
  raw_samples "efdi" fl 0 [] samples = (published "efdi" fl 0 sample_messages, [], 2) /\
  map (fun '(_, t) => (dget t "lat_deg", dget t "lon_deg", dget t "alt_m", dget t "fuel_pct")) (published "efdi" fl 0 sample_messages) =
    [(Some (VFloat (dec 545 1)), Some (VFloat (dec 2525 2)), Some (VFloat (fl 100)), Some (VFloat (fl 50)))].
Proof.
  cbn zeta. destruct (vsm_paths_agree "efdi" fl sample_messages {| pending := stream sample_messages; sizes := [1; 7; 30] |}
    [firstn 9 (stream sample_messages); skipn 9 (stream sample_messages)]) as [H1 H2].
  - unfold sample_messages. rewrite !Forall_cons, Forall_nil. unfold message_fits. cbn [m_type m_instance m_body]. vm_compute. repeat split; discriminate.
  - done.
  - vm_compute. reflexivity.
  - split; [exact H1|]. split; [exact H2|]. vm_compute. reflexivity.
Defined.

(** One octet too many is not skipped: the size read one octet early makes
    the subscriber hold the next 255 messages of 66 octets back. *)
Theorem vsm_octet_holds_back :
  let m := {| m_type := _4586_MSG_VEHICLE_STATE; m_instance := 1; m_body := m_body (nth 1 sample_messages {| m_type := 0; m_instance := 0; m_body := [] |}) |} in
  message_fits m /\ len (m_octets m) = 66 /\
  let '(out, rest, _) := raw_samples "efdi" fl 0 [] (of_ints [0] :: repeat (m_octets m) 255) in out = [] /\ len rest = 1 + 255 * 66.
Proof. vm_compute. repeat split; discriminate. Qed.
