(* ===== verification/TakLayer.v ===== *)
(** * The layer that draws tracks on TAK clients

    compose/layers/vendors/tak/tak_layer.py: a track becomes a Cursor-on-Target
    event, an event is cut to the size TAK Server takes, the handler of a topic
    keeps what is drawn, trails go with their markers, and dead reckoning moves
    contacts between updates.  The text panel of a marker ([_build_remarks]) is
    a parameter. One reading of the clock serves a whole call of a handler. *)

From Stdlib Require Import SpecFloat.
From S2P Require Import Prelude PyFloat PyData Schema TrackViews PyText PyNum Dedup Echoes Fusion Outline Klv.
From stdpp Require Import gmap strings.
From coqutil Require Import Datatypes.RecordSetters.
Import OCamlLikeNotations.
Import Actions.
#[local] Open Scope Z_scope.
#[local] Open Scope py_scope.
#[local] Open Scope act_scope.

Definition AIR_STALE_S : float := fl 120.
Definition SEA_STALE_S : float := fl 300.
Definition LAND_STALE_S : float := fl 120.
Definition COT_STALE_S : float := AIR_STALE_S.
Definition SAT_STALE_S : float := fl 300.
Definition ENV_STALE_S : float := fl 3600.
Definition MAX_SHAPE_POINTS : Z := 20000.
Definition MAX_COT_BYTES : Z := 65000.
Definition _DR_TICK_S : float := fl 2.
Definition _DR_MIN_MS : float := dec 515 2.
Definition _TRAIL_SUFFIX : string := "-TRAIL".

(** ** XML: [ElementTree.tostring(element, encoding="unicode")] *)
Inductive element := Element (tag : string) (attrs : list (string * string)) (text : string) (children : list element).

(** The first matching replacement of each character. *)
Fixpoint escape (table : list (ascii * string)) (s : string) : string :=
  match s with
  | EmptyString => ""
  | String c s' =>
      match List.find (fun kv => Ascii.eqb (fst kv) c) table with
      | Some (_, t) => t +:+ escape table s'
      | None => String c (escape table s')
      end
  end.
Definition cdata_table : list (ascii * string) := [("&"%char, "&amp;"); ("<"%char, "&lt;"); (">"%char, "&gt;")].
Definition attrib_table : list (ascii * string) :=
  cdata_table ++ [(ascii_of_nat 34, "&quot;"); (ascii_of_nat 13, "&#13;"); (ascii_of_nat 10, "&#10;"); (ascii_of_nat 9, "&#09;")].

Definition quote : string := String (ascii_of_nat 34) "".
Definition show_attr (kv : string * string) : string := " " +:+ fst kv +:+ "=" +:+ quote +:+ escape attrib_table (snd kv) +:+ quote.

Fixpoint tostring (e : element) : string :=
  match e with
  | Element tag attrs text children =>
      "<" +:+ tag +:+ String.concat "" (map show_attr attrs) +:+
      match text, children with
      | EmptyString, [] => " />"
      | _, _ => ">" +:+ escape cdata_table text +:+ String.concat "" (map tostring children) +:+ "</" +:+ tag +:+ ">"
      end
  end.

Definition leaf (tag : string) (attrs : list (string * string)) : element := Element tag attrs "" [].

Definition document (event : element) : string :=
  "<?xml version=" +:+ quote +:+ "1.0" +:+ quote +:+ " encoding=" +:+ quote +:+ "UTF-8" +:+ quote +:+ "?>" +:+ tostring event.

(** ** Time stamps

    [datetime.fromtimestamp(ts, tz=timezone.utc).strftime(...)] with the
    milliseconds cut off, not rounded; ValueError outside the years 1 to 9999, OverflowError
    where the platform's time has no such second, and OSError where its calendar has no such year. *)
Definition _ts (t : float) : exc string :=
  let? seconds := int_of_float t in
  let? us := py_round_int (fmul (fsub t (fl seconds)) (fl 1000000)) in
  let (seconds, us) := if 1000000 <=? us then (seconds + 1, us - 1000000) else if us <? 0 then (seconds - 1, us + 1000000) else (seconds, us) in
  if (seconds <? - 2 ^ 63) || (2 ^ 63 <=? seconds) then Raise OverflowError else
  if (seconds <? -67768040609740800) || (67768036191676799 <? seconds) then Raise OSError else
  if (seconds <? -62135596800) || (253402300800 <=? seconds) then Raise ValueError else
  let '(y, m, d) := civil_date (seconds / 86400) in
  let s := seconds mod 86400 in
  Ok (digits 10 y +:+ "-" +:+ fmt_d 2 m +:+ "-" +:+ fmt_d 2 d +:+ "T" +:+ fmt_d 2 (s / 3600) +:+ ":" +:+ fmt_d 2 (s / 60 mod 60) +:+ ":" +:+
      fmt_d 2 (s mod 60) +:+ "." +:+ fmt_d 3 (us / 1000) +:+ "Z").

Example _ts_ex : _ts (fratio 1700000000123456 1000000) = Ok "2023-11-14T22:13:20.123Z" /\ _ts (dec (-5) 1) = Ok "1969-12-31T23:59:59.500Z".
Proof. split; vm_compute; reflexivity. Qed.

(** ** Numbers of a track *)

(** [number = float(v) * scale] in a try, when it is finite and passes [test]. *)
Definition usable (scale : float) (test : float -> bool) (v : value) : option float :=
  match v with
  | VNone => None
  | _ => match float_of v with
         | Ok x => let number := fmul x scale in if is_finite number && test number then Some number else None
         | Raise _ => None      (* TypeError, ValueError, OverflowError: it raises nothing else *)
         end
  end.

Fixpoint first_usable (track : dict) (test : float -> bool) (fields : list (string * float)) : option float :=
  match fields with
  | [] => None
  | (key, scale) :: fields' =>
      match usable scale test (dget_none track key) with
      | Some x => Some x
      | None => first_usable track test fields'
      end
  end.

Definition unknown_m : float := fl 9999999.
Definition rounded_or (digits : Z) (dflt : float) (x : option float) : float := match x with Some x => py_round x digits | None => dflt end.
Definition at_least_zero (x : float) : bool := fle (fl 0) x.

Definition _hae (track : dict) : float :=
  rounded_or 1 unknown_m (first_usable track (fun x => negb (is_fzero x))
    [("geo_alt_m", fl 1); ("alt_geom_ft", dec 3048 4); ("baro_alt_m", fl 1); ("alt_baro_ft", dec 3048 4); ("alt_3d_ft", dec 3048 4);
     ("mode_c_alt_ft", dec 3048 4); ("alt_ft", dec 3048 4); ("alt_m", fl 1); ("alt_km", fl 1000)]).

Definition _speed_ms (track : dict) : float :=
  rounded_or 2 (fl 0) (first_usable track at_least_zero
    [("speed_ms", fl 1); ("ground_speed_kts", dec 514444 6); ("speed_kts", dec 514444 6); ("sog_ms", fl 1)]).

(** Not scaled: [float(v)] itself. *)
Fixpoint first_plain (track : dict) (test : float -> bool) (keys : list string) : option float :=
  match keys with
  | [] => None
  | key :: keys' =>
      match dget_none track key with
      | VNone => first_plain track test keys'
      | v => match float_of v with
             | Ok x => if is_finite x && test x then Some x else first_plain track test keys'
             | Raise _ => first_plain track test keys'
             end
      end
  end.

Definition _course (track : dict) : float :=
  rounded_or 1 (fl 0) (option_map (fun x => fmod x (fl 360)) (first_plain track (fun _ => true) ["heading_deg"; "track_deg"; "cog_deg"])).

Definition _le (track : dict) : float := rounded_or 1 unknown_m (first_plain track at_least_zero ["height_accuracy_m"]).

Section Tak.
Context `{Libm}.
(** [str] of a float, a list or a dictionary; ["{:.5f}".format]. *)
Variable repr : value -> string.
Variable fixed5 : value -> exc string.
Variable _build_remarks : dict -> string -> exc string.
(** The opt-in icon of a CoT type, and whether tracks of the server's own users are not sent back. *)
Variable usericon : string -> option string.
Variable drop_tak_ingress : bool.
Variable orphan_s : float.

Fixpoint first_radius (track : dict) (pairs : list (string * string * float)) : option float :=
  match pairs with
  | [] => None
  | (x_key, y_key, scale) :: pairs' =>
      match dget_none track x_key, dget_none track y_key with
      | VNone, _ | _, VNone => first_radius track pairs'
      | sx, sy =>
          match (let? x := float_of sx in let? y := float_of sy in m_hypot (fmul x scale) (fmul y scale)) with
          | Ok radius => if is_finite radius && at_least_zero radius then Some radius else first_radius track pairs'
          | Raise _ => first_radius track pairs'
          end
      end
  end.

Definition _ce (track : dict) : float :=
  match first_plain track at_least_zero ["position_uncertainty_m"; "position_accuracy_m"] with
  | Some x => py_round x 1
  | None => rounded_or 1 unknown_m (first_radius track [("sigma_x_m", "sigma_y_m", fl 1); ("track_sigma_x_nm", "track_sigma_y_nm", fl 1852)])
  end.

(** ** Identity and label *)
Definition str (v : value) : string := py_str repr v.

(** [(v or "").strip()] *)
Definition stripped (v : value) : exc string :=
  if truthy v then match v with VStr s => Ok (strip s) | _ => Raise AttributeError end else Ok "".

Fixpoint first_id (track : dict) (fields : list (string * string)) : option string :=
  match fields with
  | [] => None
  | (key, id_prefix) :: fields' =>
      let v := dget_none track key in
      if truthy v then Some ("EFDI-" +:+ id_prefix +:+ "-" +:+ upper (str v)) else first_id track fields'
  end.

Definition ID_FIELDS : list (string * string) :=
  [("icao24", "ICAO"); ("mmsi", "MMSI"); ("sat_id", "SAT"); ("radar_id", "RAD"); ("sensor_id", "SENS"); ("uid", "UID")].

Definition _uid (track : dict) : exc string :=
  match first_id track ID_FIELDS with
  | Some uid => Ok uid
  | None =>
      let src := dget_or track "_src" (VStr "efdi") in
      let? cs := stripped (dget_none track "callsign") in
      if negb (String.eqb cs "") then Ok ("EFDI-" +:+ str src +:+ "-" +:+ cs) else
      let? lat := fixed5 (dget_or track "lat_deg" (VInt 0)) in
      let? lon := fixed5 (dget_or track "lon_deg" (VInt 0)) in
      Ok ("EFDI-" +:+ str src +:+ "-" +:+ lat +:+ "-" +:+ lon)
  end.

Fixpoint first_name (track : dict) (keys : list string) : option string :=
  match keys with
  | [] => None
  | key :: keys' =>
      let v := dget_none track key in
      if truthy v && negb (String.eqb (strip (str v)) "") then Some (strip (str v)) else first_name track keys'
  end.

Definition or_value (a b : value) : value := if truthy a then a else b.

Definition tak_callsign (track : dict) (uid : string) : exc string :=
  match first_name track ["name"; "ship_name"; "sat_name"; "sensor_name"] with
  | Some name => Ok name
  | None =>
      let? reg := stripped (dget_none track "registration") in
      let? atype := stripped (dget_none track "aircraft_type") in
      let? cs := stripped (or_value (dget_none track "callsign") (dget_none track "label")) in
      let track_num := dget_none track "track_num" in
      let label := if negb (String.eqb reg "") then reg else if negb (is_none track_num) then "TRK-" +:+ str track_num else cs in
      if negb (String.eqb label "") && negb (String.eqb atype "") then Ok (label +:+ " (" +:+ atype +:+ ")")
      else if negb (String.eqb label "") then Ok label
      else if negb (String.eqb atype "") then Ok atype
      else
        let? place := stripped (dget_none track "place_name") in
        if negb (String.eqb place "") then Ok place
        else if truthy (dget_none track "mmsi") then Ok (str (dget_none track "mmsi"))
        else Ok (last_chars 12 uid)
  end.

(** ** Shapes *)
Definition _argb (alpha rgb : Z) : Z :=
  let value := Z.lor (Z.shiftl alpha 24) rgb in
  if bit value 0x80000000 then value - Z.shiftl 1 32 else value.

Definition _FILL_ALPHA : Z := 0x33.
Definition level_alpha (color : string) : Z :=
  if String.eqb color "red" then _FILL_ALPHA else if String.eqb color "white" then 0x1A else 0x26.

(** A colour with its stroke, and its fill at the opacity of its level. *)
Definition zone_color (color : string) (alpha rgb : Z) : string * (Z * Z) := (color, (_argb alpha rgb, _argb (level_alpha color) rgb)).
Definition line_color (color : string) (alpha rgb : Z) : string * (Z * Z) := (color, (_argb alpha rgb, 0)).

Definition _SHAPE_COLORS : odict (Z * Z) :=
  [zone_color "red" 0xFF 0xFF2020; zone_color "orange" 0xFF 0xFF8C00; zone_color "yellow" 0xFF 0xFFD000; zone_color "white" 0xCC 0xFFFFFF].
Definition _WASH_COLORS : odict (Z * Z) :=
  [zone_color "red" 0x55 0xFF2020; zone_color "orange" 0x55 0xFF8C00; zone_color "yellow" 0x55 0xFFD000; zone_color "white" 0x55 0xFFFFFF].
Definition _COUNTRY_COLORS : odict (Z * Z) := [zone_color "red" 0xB0 0xFF2020; zone_color "orange" 0xB0 0xFF8C00].
Definition _BORDER_COLORS : odict (Z * Z) := [line_color "red" 0xFF 0xFF2020; line_color "blue" 0xFF 0x2060FF].
Definition _TRAIL_COLORS : odict (Z * Z) := [line_color "orange" 0xCC 0xFF8C00; line_color "red" 0xCC 0xFF2020].

(** [table.get(v)] for a table of strings; a list or a dictionary is no key. *)
Definition lookup_text {A} (table : odict A) (v : value) : exc (option A) :=
  match v with
  | VStr s => Ok (oget table s)
  | _ => if hashable v then Ok None else Raise TypeError
  end.

Definition _shape_colors (track : dict) : exc (odict (Z * Z)) :=
  let? colors := lookup_text [("wash", _WASH_COLORS); ("country", _COUNTRY_COLORS); ("border", _BORDER_COLORS); ("trail", _TRAIL_COLORS)]
                             (dget_none track "shape_style") in
  Ok (default _SHAPE_COLORS colors).

(** [if isinstance(c, (list, tuple)) and len(c) >= 2]: its first two items. *)
Definition pair_of (c : value) : option (value * value) := match c with VList (x :: y :: _) => Some (x, y) | _ => None end.

Definition point_element (track : dict) (lat lon : float) : element :=
  leaf "point" [("lat", str (VFloat (py_round lat 6))); ("lon", str (VFloat (py_round lon 6)));
                ("hae", str (VFloat (_hae track))); ("ce", str (VFloat (_ce track))); ("le", str (VFloat (_le track)))].

(** The vertices of a list that a loop adds; TypeError and ValueError skip one. *)
Fixpoint each_vertex (vertex : value -> exc (list element)) (coordinates : list value) : exc (list element) :=
  match coordinates with
  | [] => Ok []
  | c :: coordinates' =>
      let? here := vertex c in
      let? later := each_vertex vertex coordinates' in
      Ok (here ++ later)
  end.

Definition skipping (r : exc (list element)) : exc (list element) :=
  match r with
  | Raise TypeError | Raise ValueError => Ok []
  | _ => r
  end.

Definition shape_point (track : dict) (coordinate : value) : exc (list element) :=
  match pair_of coordinate with
  | None => Ok []
  | Some (x, y) => skipping (
      let? x_lon := float_of x in
      let? y_lat := float_of y in
      if fbetween (fl (-180)) x_lon (fl 180) && fbetween (fl (-90)) y_lat (fl 90) then Ok [point_element track y_lat x_lon] else Ok [])
  end.

Definition link_point (lat lon hae : float) : element :=
  leaf "link" [("point", str (VFloat lat) +:+ "," +:+ str (VFloat lon) +:+ "," +:+ str (VFloat hae))].

Definition trail_point (track : dict) (coordinate : value) : exc (list element) :=
  match pair_of coordinate with
  | None => Ok []
  | Some (x, y) => skipping (
      let? lat := float_of y in
      let? lon := float_of x in
      Ok [link_point (py_round lat 6) (py_round lon 6) (_hae track)])
  end.

(** The vertices of a coloured zone, as (lat, lon). *)
Fixpoint ring_points (coordinates : list value) : exc (list (float * float)) :=
  match coordinates with
  | [] => Ok []
  | c :: coordinates' =>
      match pair_of c with
      | None => ring_points coordinates'
      | Some (x, y) =>
          let? lat := float_of y in
          let? lon := float_of x in
          let? rest := ring_points coordinates' in
          Ok ((py_round lat 6, py_round lon 6) :: rest)
      end
  end.

Definition closed (ring : list (float * float)) : list (float * float) :=
  match ring with
  | [] => []
  | first :: _ => if float_eq first (List.last ring first) then ring else ring ++ [first]
  end.

(** [coordinates[0]]: a text has characters, which are no vertices. *)
Definition first_ring (coordinates : value) : exc (list value) :=
  match coordinates with
  | VList (VList ring :: _) => Ok ring
  | VList (VStr _ :: _) => Ok []
  | VList (_ :: _) => Raise TypeError
  | VList [] => Raise IndexError
  | VStr "" => Raise IndexError
  | VStr _ => Ok []
  | VDict _ => Raise KeyError
  | _ => Raise TypeError
  end.

Definition shape_cap (l : list value) : list value := slice l 0 MAX_SHAPE_POINTS.
Definition text_is (v : value) (s : string) : bool := match v with VStr t => String.eqb t s | _ => false end.
Definition value_tag (tag v : string) : element := leaf tag [("value", v)].

(** What a geometry adds to the detail of an event, and whether it makes the
    event a drawing. *)
Definition plain_shape (track : dict) (geometry_type coordinates : value) : exc (list element * bool) :=
  let? colors := _shape_colors track in
  let? uncoloured :=
    if text_is geometry_type "Polygon" then
      match coordinates with
      | VList _ => let? c := lookup_text colors (dget_none track "shape_color") in Ok (match c with None => true | Some _ => false end)
      | _ => Ok false
      end
    else Ok false in
  if uncoloured : bool then
    match coordinates with
    | VList (VList ring :: _) =>
        let? points := each_vertex (shape_point track) (shape_cap ring) in
        Ok ([Element "shape" [] "" [Element "polygon" [] "" points]], false)
    | _ => Ok ([], false)
    end
  else
  match text_is geometry_type "LineString" && text_is (dget_none track "shape_style") "trail", coordinates with
  | true, VList line =>
      let? points := each_vertex (trail_point track) (shape_cap line) in
      let? color := lookup_text _TRAIL_COLORS (dget_none track "shape_color") in
      let stroke := str_int (fst (default (_argb 0xCC 0xFF8C00, 0) color)) in
      Ok (points ++ [value_tag "strokeColor" stroke; value_tag "strokeWeight" "2.0"; value_tag "fillColor" "0"; value_tag "color" stroke;
                     leaf "__shapeExtras" [("cpvis", "false"); ("editable", "false")]], true)
  | _, _ =>
      if negb (hashable geometry_type) then Raise TypeError else
      let lines :=
        if text_is geometry_type "MultiLineString" then match coordinates with VList lines => Some lines | _ => None end
        else if text_is geometry_type "LineString" then Some [coordinates] else None in
      match lines with
      | Some (first :: _) =>
          let? points := each_vertex (shape_point track) (shape_cap (match first with VList line => line | _ => [] end)) in
          Ok ([Element "shape" [] "" [Element "line" [] "" points]], false)
      | _ => Ok ([], false)
      end
  end.

Definition coloured_zone (track : dict) (geometry_type coordinates : value) : exc (list element * bool) :=
  if negb (text_is geometry_type "Polygon") then Ok ([], false) else
  let? colors := _shape_colors track in
  let? color := lookup_text colors (dget_none track "shape_color") in
  match color with
  | None => Ok ([], false)
  | Some (stroke, fill) =>
      let? ring := first_ring coordinates in
      let? points := ring_points (shape_cap ring) in
      let? weight := lookup_text [("wash", "1.0"); ("country", "2.0"); ("border", "3.0")] (dget_none track "shape_style") in
      Ok (map (fun '(lat, lon) => link_point lat lon (_hae track)) (closed points) ++
          [leaf "__shapeExtras" [("cpvis", "false"); ("editable", "false")]; value_tag "strokeColor" (str_int stroke);
           value_tag "strokeWeight" (default "3.0" weight); value_tag "color" (str_int stroke); value_tag "fillColor" (str_int fill)], true)
  end.

Definition geometry_detail (track : dict) : exc (list element * bool) :=
  match dget_none track "geometry" with
  | VDict geometry =>
      let geometry_type := dget_none geometry "type" in
      let coordinates := dget_none geometry "coordinates" in
      let? (shape, line) := plain_shape track geometry_type coordinates in
      let? (zone, drawing) := coloured_zone track geometry_type coordinates in
      Ok (shape ++ zone, line || drawing)
  | _ => Ok ([], false)
  end.

(** ** The event of a track *)
Definition in_world (lat lon : float) : bool := fbetween (fl (-90)) lat (fl 90) && fbetween (fl (-180)) lon (fl 180).

(** Where a track is drawn, the time of its event and how long it lasts;
    [float] raises nothing but the three exceptions the source catches. *)
Definition placed (track : dict) (stale_s clock : float) : option (float * float * float) :=
  match dget_none track "lat_deg", dget_none track "lon_deg" with
  | VNone, _ | _, VNone => None
  | lat, lon =>
      match float_of lat, float_of lon, float_of (dget_or track "_ts" (VFloat clock)) with
      | Ok lat, Ok lon, Ok now =>
          if negb (is_finite lat && is_finite lon) then None else
          if negb (in_world lat lon) then None else
          if negb (is_finite stale_s) || fle stale_s (fl 0) then None else
          Some (lat, lon, if is_finite now then now else clock)
      | _, _, _ => None
      end
  end.

Definition access (track : dict) : list (string * string) :=
  match omap (fun key => let v := dget_none track key in if truthy v then Some (str v) else None) ["classification"; "classification_caveat"] with
  | [] => []
  | parts => [("access", String.concat " " parts)]
  end.

Definition sensor (vfov fov range azimuth : string) : element :=
  leaf "sensor" [("vfov", vfov); ("fov", fov); ("hfov", fov); ("range", range); ("azimuth", azimuth); ("model", "Generic"); ("ranges", "0");
                 ("type", "radar"); ("displayMagneticReference", "0"); ("stockTool", "false")].

Definition radar_range (track : dict) : Z :=
  let v := dget_none track "radar_range_m" in
  match (let? x := float_of (if truthy v then v else VInt 0) in int_of_float x) with
  | Ok rng => if (0 <? rng) && (rng <=? 1000000) then rng else 0
  | Raise _ => 0
  end.

Definition sensor_detail (track : dict) : exc (list element) :=
  let sweep_az := dget_none track "sweep_azimuth_deg" in
  let rng := radar_range track in
  if negb (is_none sweep_az) && negb (rng =? 0) then
    let? az := float_of sweep_az in
    let? az := py_round_int az in
    Ok [sensor "1" "5" (str_int rng) (str_int az)]
  else if text_is (dget_none track "sensor_type") "radar" && negb (rng =? 0) then Ok [sensor "90" "360" (str_int rng) "0"]
  else
    let? threat := vcompare nlt (VInt 0) (dget_or track "radius_km" (VInt 0)) in
    if threat : bool then
      let? km := float_of (dget_none track "radius_km") in
      let? threat_range_m := int_of_float (fmul km (fl 1000)) in
      Ok [sensor "90" "360" (str_int threat_range_m) "0"]
    else Ok [].

Definition snapshot_link (track : dict) : list element :=
  match dget_none track "snapshot_url" with
  | VStr url => if startswith "https://" url && (count_chars url <=? 2048)%nat
                then [leaf "link" [("url", url); ("type", "image/jpeg"); ("relation", "r-u")]] else []
  | _ => []
  end.

Definition track_to_cot (track : dict) (cot_type : string) (stale_s clock : float) : exc (option string) :=
  match placed track stale_s clock with
  | None => Ok None
  | Some (lat, lon, now) =>
      let? uid := _uid track in
      let? cs := tak_callsign track uid in
      let? time := _ts now in
      let? stale := _ts (fadd now stale_s) in
      let? (geometry, drawing) := geometry_detail track in
      let? sensors := sensor_detail track in
      let? remarks := _build_remarks track cot_type in
      let icon := match usericon cot_type with Some b64 => [leaf "usericon" [("b64image", b64)]] | None => [] end in
      let detail := [leaf "efdi" [("role", "fabric-export")]] ++ geometry ++ icon ++
        [leaf "contact" [("callsign", cs)];
         leaf "track" [("speed", str (VFloat (_speed_ms track))); ("course", str (VFloat (_course track)))]] ++
        sensors ++ [Element "remarks" [] remarks []] ++ snapshot_link track in
      Ok (Some (document (Element "event"
        ([("version", "2.0"); ("uid", uid); ("type", if drawing : bool then "u-d-f" else cot_type); ("how", if drawing then "h-e" else "m-g");
          ("time", time); ("start", time); ("stale", stale)] ++ access track) ""
        [point_element track lat lon; Element "detail" [] "" detail])))
  end.

(** ** Retraction *)

(** [ts] in a date, or the clock where it is none: of a text or a list,
    [math.isfinite] raises. *)
Definition delete_time (ts : value) (clock : float) : exc float :=
  match ts with
  | VNone => Ok clock
  | _ => let? t := value_float ts in Ok (if is_finite t then t else clock)
  end.

Definition _delete_point_cot (uid : string) (ts : value) (link_type : string) (clock : float) : exc string :=
  let? now := delete_time ts clock in
  let? time := _ts now in
  Ok (document (Element "event"
    [("version", "2.0"); ("uid", uid); ("type", "t-x-d-d"); ("how", "m-g"); ("time", time); ("start", time); ("stale", time)] ""
    [leaf "point" [("lat", "0.0"); ("lon", "0.0"); ("hae", "0.0"); ("ce", "9999999.0"); ("le", "9999999.0")];
     Element "detail" [] "" [leaf "link" [("relation", "p-p"); ("uid", uid); ("type", link_type)]; leaf "__forcedelete" []]])).

(** ** Events that fit *)

(** [[c for c in geometry["coordinates"][0] if ...]] *)
Definition shape_ring (geometry : dict) : exc (list value) :=
  let? coordinates := ditem geometry "coordinates" in
  let? ring := first_ring coordinates in
  Ok (List.filter (fun c => bool_decide (is_Some (pair_of c))) ring).

(** The points [simplify_ring] works on: the first two items of each vertex, the last
    vertex left out where it is the first one again. *)
Definition ring_place (c : value) : exc place :=
  match pair_of c with
  | Some (x, y) => let? x := value_float x in let? y := value_float y in Ok (x, y)
  | None => Raise ValueError
  end.

Definition open_vertices (ring : list value) : exc (list value) :=
  match ring with
  | [] => Raise IndexError
  | first :: _ => Ok (if py_eq first (List.last ring first) then removelast ring else ring)
  end.

Fixpoint each_place (vertices : list value) : exc (list place) :=
  match vertices with
  | [] => Ok []
  | c :: vertices' => let? p := ring_place c in let? ps := each_place vertices' in Ok (p :: ps)
  end.

Definition simplified (ring : list value) (budget : Z) : exc (list value) :=
  let? vertices := open_vertices ring in
  let? points := each_place vertices in
  let? ring := simplify_points points budget in
  Ok (map (fun p : place => VList [VFloat (fst p); VFloat (snd p)]) ring).

Definition byte_len (s : string) : Z := Z.of_nat (String.length s).
Definition cot_fits (xml : string) : bool := byte_len xml <? MAX_COT_BYTES.

Definition shrink (budget : Z) : exc Z := let? b := float_of_int budget in int_of_float (fmul b (dec 95 2)).

(** One turn of the loop: the event of the track drawn with so many vertices. *)
Definition attempt (track : dict) (cot_type : string) (stale_s clock : float) (ring : list value) (budget : Z) : exc (option string) :=
  let? outline := simplified ring budget in
  track_to_cot (dset "geometry" (VDict [("type", VStr "Polygon"); ("coordinates", VList [VList outline])]) track) cot_type stale_s clock.

Fixpoint fit_loop (fuel : nat) (track : dict) (cot_type : string) (stale_s clock : float) (ring : list value) (budget : Z) : exc (list string) :=
  match fuel with
  | O => Raise OutOfFuel
  | S fuel' =>
      if budget <? 8 then Ok [] else
      let? fitted := attempt track cot_type stale_s clock ring budget in
      let again := let? budget := shrink budget in fit_loop fuel' track cot_type stale_s clock ring budget in
      match fitted with
      | Some xml => if cot_fits xml then Ok [xml] else again
      | None => again
      end
  end.

Definition first_budget (ring : list value) (xml : string) : exc Z :=
  let? q := ndiv (NInt (len ring * MAX_COT_BYTES)) (NInt (byte_len xml)) in int_of_float q.

Definition shape_cots (track : dict) (cot_type : string) (stale_s clock : float) : exc (list string) :=
  let? xml := track_to_cot track cot_type stale_s clock in
  match xml with
  | None => Ok []
  | Some xml =>
      match cot_fits xml, dget_none track "geometry" with
      | false, VDict geometry =>
          if negb (text_is (dget_none geometry "type") "Polygon") then Ok [xml] else
          let? ring := shape_ring geometry in
          let? budget := first_budget ring xml in
          fit_loop (S (Z.to_nat budget)) track cot_type stale_s clock ring budget
      | _, _ => Ok [xml]
      end
  end.

(** ** Symbols

    airframe.py and ground_unit.py, as far as this layer uses them. *)
Definition _ROTORCRAFT : list string :=
  ["H1"; "H2"; "H46"; "H47"; "H53"; "H60"; "H64"; "UH1"; "UH60"; "CH47"; "CH53"; "AH64"; "HH60"; "SH60"; "MH60"; "S58"; "S61";
   "S64"; "S65"; "S70"; "S76"; "S92"; "S300"; "NH90"; "EH10"; "EC20"; "EC25"; "EC30"; "EC35"; "EC45"; "EC55"; "EC75"; "AS32"; "AS33";
   "AS35"; "AS50"; "AS55"; "AS65"; "AS3B"; "AS3"; "A109"; "A119"; "A139"; "A149"; "A169"; "A189"; "AW09"; "TIGR"; "LYNX"; "GAZL";
   "PUMA"; "MI2"; "MI4"; "MI6"; "MI8"; "MI14"; "MI17"; "MI24"; "MI26"; "MI28"; "MI34"; "KA26"; "KA27"; "KA29"; "KA31"; "KA32";
   "KA50"; "KA52"; "B06"; "B06T"; "B105"; "B212"; "B214"; "B222"; "B230"; "B407"; "B412"; "B427"; "B429"; "B430"; "B47G"; "B47J";
   "R22"; "R44"; "R66"; "H269"; "H500"; "MD52"; "MD60"; "MD90"; "MDHI"; "EXPL"].

Fixpoint keep_chars (f : ascii -> bool) (s : string) : string :=
  match s with
  | EmptyString => ""
  | String c s' => if f c then String c (keep_chars f s') else keep_chars f s'
  end.
Definition upper_or_digit (c : ascii) : bool := is_digit c || (65 <=? N_of_ascii c)%N && (N_of_ascii c <=? 90)%N.

Definition is_rotorcraft (aircraft_type : value) : bool :=
  selem (keep_chars upper_or_digit (upper (text_or_empty repr aircraft_type))) _ROTORCRAFT.

Definition FUNCTION : odict string :=
  [("infantry", "UCI---"); ("mech_infantry", "UCIZ--"); ("airborne", "UCIA--"); ("armor", "UCA---");
   ("artillery", "UCF---"); ("recon", "UCR---"); ("engineer", "UCE---"); ("air_defence", "UCD---")].
Definition TAK_ROLE_FUNCTION : odict string := [("hq", "UH----"); ("medic", "USM---"); ("rto", "UUS---")].
Definition APP6D_UNIT_FUNCTION : odict string :=
  [("121100", "UCI---"); ("121102", "UCIZ--"); ("120500", "UCA---"); ("130300", "UCF---"); ("121300", "UCR---");
   ("140700", "UCE---"); ("130100", "UCD---"); ("161300", "USM---"); ("111000", "UUS---")].
Definition APP6D_INDIVIDUAL_FUNCTION : odict string :=
  [("110101", "UCI---"); ("110102", "USM---"); ("110103", "UCR---"); ("110104", "UUS---")].
Definition _KNOWN_FUNCTION : list string := map snd FUNCTION ++ map snd TAK_ROLE_FUNCTION.

(** [s.rstrip("-")] *)
Fixpoint rstrip_dashes (s : string) : string :=
  match s with
  | EmptyString => ""
  | String c s' =>
      match rstrip_dashes s' with
      | EmptyString => if Ascii.eqb c "-"%char then "" else String c ""
      | rest => String c rest
      end
  end.
Definition letters (s : string) : list string := map (fun c => String c "") (list_ascii_of_string s).

Definition cot_suffix (arm : value) : string :=
  let function := rstrip_dashes (substring 2 4 (default "UC----" (oget FUNCTION (text_or_empty repr arm)))) in
  String.concat "" (map (fun letter => "-" +:+ letter) (letters function)).

Definition friendly_unit_cot_type (symbol : value) : string :=
  let symbol := strip (text_or_empty repr symbol) in
  let function :=
    if (20 <=? String.length symbol)%nat && all_chars is_digit symbol then
      let table := default [] (oget [("10", APP6D_UNIT_FUNCTION); ("27", APP6D_INDIVIDUAL_FUNCTION)] (substring 4 2 symbol)) in
      default "" (oget table (substring 10 6 symbol))
    else if (10 <=? String.length symbol)%nat && String.eqb (substring 2 1 symbol) "G" then substring 4 6 symbol
    else "" in
  if negb (selem function _KNOWN_FUNCTION) then "a-f-G-U-C"
  else "a-f-G-" +:+ String.concat "-" (letters (rstrip_dashes function)).

Example unit_types : friendly_unit_cot_type (VStr "SFGPUCIZ--*****") = "a-f-G-U-C-I-Z" /\ cot_suffix (VStr "armor") = "-A" /\
  friendly_unit_cot_type (VStr "10031000001211020000") = "a-f-G-U-C-I-Z" /\ friendly_unit_cot_type VNone = "a-f-G-U-C" /\ cot_suffix VNone = "".
Proof. vm_compute. repeat split. Qed.

(** ** The CoT type of a track *)
Definition _CIV_AIR_TYPE : string := "a-n-A-C-F".
Definition _MIL_AIR_TYPE : string := "a-n-A-M-F".
Definition _CIV_SEA_TYPE : string := "a-n-S-X-L".

Definition _wing (cot : string) (track : dict) : string :=
  if is_rotorcraft (dget_none track "aircraft_type") then substring 0 (String.length cot - 1) cot +:+ "H" else cot.

Definition object_class (track : dict) : string :=
  lower (str (fold_right (fun key v => or_value (dget_none track key) v) (VStr "")
    ["sapient_class"; "remote_id_ua_type"; "utm_vehicle_type"; "aartos_category"; "target_type"])).

Definition _unknown_air_type (track : dict) : string :=
  if existsb (fun token => contains token (object_class track)) ["drone"; "uas"; "uav"; "quadcopter"] then "a-u-A-M-F-Q"
  else if truthy (dget_none track "icao24") then _CIV_AIR_TYPE
  else "a-u-A-C-F".

Definition _friendly_air_type (track : dict) : string :=
  if String.eqb (_unknown_air_type track) "a-u-A-M-F-Q" then "a-f-A-M-F-Q" else "a-f-A".

Definition _SENSOR_ALERT_HOT_S : float := fl 60.
Definition _SENSOR_ALERT_WARM_S : float := fl 300.

Definition _sensor_alert_cot_type (track : dict) (clock : float) : exc string :=
  let ts := dget_none track "last_detection_ts" in
  if negb (truthy ts) then Ok "a-n-G-E-S" else
  let? t := float_of ts in
  let age := fsub clock t in
  Ok (if fle age _SENSOR_ALERT_HOT_S then "a-h-G-E-S" else if fle age _SENSOR_ALERT_WARM_S then "a-u-G-E-S" else "a-n-G-E-S").

Definition _RAW_SENSOR_SOURCE_PREFIXES : list string := ["ASTERIX CAT-48"; "ASTERIX CAT-20"].
Definition _is_unfused_sensor_track (track : dict) (key : string) : bool :=
  negb (contains "/fused/" key) && existsb (fun p => startswith p (str (dget_or track "_src" (VStr "")))) _RAW_SENSOR_SOURCE_PREFIXES.

(** What a subscription draws its tracks as: one type, or a type chosen by the
    track. *)
Inductive cot_style := Fixed (cot_type : string) | Chosen (fn : dict -> float -> exc string).
Definition style_type (style : cot_style) (track : dict) (clock : float) : exc string :=
  match style with Fixed cot_type => Ok cot_type | Chosen fn => fn track clock end.
Definition by_track (fn : dict -> string) : cot_style := Chosen (fun track _ => Ok (fn track)).

Definition _TOPIC_COT : list (string * (cot_style * float)) :=
  [("air/**/civ/aircraft/**", (by_track (_wing _CIV_AIR_TYPE), AIR_STALE_S));
   ("air/**/mil/aircraft/**", (by_track (_wing _MIL_AIR_TYPE), AIR_STALE_S));
   ("air/**/unknown/**", (by_track _unknown_air_type, AIR_STALE_S));
   ("land/**/civ/vehicle/**", (Fixed "a-f-G-E-V-C", LAND_STALE_S));
   ("land/**/neutral/station/**", (Fixed "a-n-G-E-S", LAND_STALE_S));
   ("land/**/friendly/unit/**", (by_track (fun track => friendly_unit_cot_type (dget_none track "unit_type")), LAND_STALE_S));
   ("land/**/hostile/unit/**", (by_track (fun track => "a-h-G-U-C" +:+ cot_suffix (dget_none track "arm")), LAND_STALE_S));
   ("land/**/neutral/unit/**", (Fixed "a-n-G-U-C", LAND_STALE_S));
   ("land/**/unknown/unit/**", (Fixed "a-u-G-U-C", LAND_STALE_S));
   ("air/**/friendly/unit/**", (by_track _friendly_air_type, AIR_STALE_S));
   ("sea/**/friendly/unit/**", (Fixed "a-f-S", SEA_STALE_S));
   ("space/**/friendly/unit/**", (Fixed "a-f-P", SAT_STALE_S));
   ("land/**/unknown/vehicle/**", (Fixed "a-u-G-E-V", LAND_STALE_S));
   ("land/**/unknown/person/**", (Fixed "a-u-G-U-C-I", LAND_STALE_S));
   ("land/**/unknown/sensor/**", (Fixed "a-u-G-E-S", LAND_STALE_S));
   ("land/**/neutral/zone/**", (Fixed "a-n-G-I-R", LAND_STALE_S));
   ("land/**/hostile/incident/**", (Fixed "a-h-G-I-E", LAND_STALE_S));
   ("land/**/friendly/incident/**", (Fixed "a-f-G-I-E", LAND_STALE_S));
   ("land/**/neutral/incident/**", (Fixed "a-n-G-I-E", LAND_STALE_S));
   ("land/**/unknown/incident/**", (Fixed "a-u-G-I-E", LAND_STALE_S));
   ("land/**/neutral/alert/**", (Fixed "a-n-G-I-R", LAND_STALE_S));
   ("air/**/friendly/aircraft/**", (by_track (_wing "a-f-A-M-F"), AIR_STALE_S));
   ("air/**/friendly/uav/**", (Fixed "a-f-A-M-F-Q", AIR_STALE_S));
   ("air/**/hostile/aircraft/**", (by_track (_wing "a-h-A-M-F"), AIR_STALE_S));
   ("air/**/neutral/aircraft/**", (by_track (_wing "a-n-A-M-F"), AIR_STALE_S));
   ("air/**/hostile/uav/**", (Fixed "a-h-A-M-F-Q", AIR_STALE_S));
   ("air/**/hostile/missile/**", (Fixed "a-h-A-W-M", AIR_STALE_S));
   ("air/**/hostile/bomb/**", (Fixed "a-h-A-W-B", AIR_STALE_S));
   ("air/**/trail/**", (Fixed "a-h-A", AIR_STALE_S));
   ("sea/**/civ/vessel/**", (Fixed _CIV_SEA_TYPE, SEA_STALE_S));
   ("sea/**/mil/vessel/**", (Fixed "a-n-S-W-C", SEA_STALE_S));
   ("sea/**/friendly/vessel/**", (Fixed "a-f-S-X-L", SEA_STALE_S));
   ("sea/**/hostile/vessel/**", (Fixed "a-h-S-X-L", SEA_STALE_S));
   ("sea/**/neutral/vessel/**", (Fixed "a-n-S-X-L", SEA_STALE_S));
   ("sea/**/unknown/vessel/**", (Fixed "a-u-S-X-L", SEA_STALE_S));
   ("space/**/civ/satellite/**", (Fixed "a-f-P", SAT_STALE_S));
   ("space/**/friendly/satellite/**", (Fixed "a-f-P", SAT_STALE_S));
   ("space/**/hostile/satellite/**", (Fixed "a-h-P", SAT_STALE_S));
   ("space/**/neutral/satellite/**", (Fixed "a-n-P", SAT_STALE_S));
   ("space/**/unknown/satellite/**", (Fixed "a-u-P", SAT_STALE_S));
   ("env/weather/station/**", (Fixed "a-n-G-E-S-E", ENV_STALE_S));
   ("land/**/neutral/sensor/**", (Chosen _sensor_alert_cot_type, fmul LAND_STALE_S (fl 2)))].

Definition _RADAR_COT_TYPE : string := "a-n-G-E-S-R".
Definition _RADAR_COT_TYPE_PASSIVE : string := "a-n-G-U-U-M-S-E-D".
Definition _MIL_RADAR_COT_TYPE : string := "a-f-G-E-S-R".
Definition _MIL_RADAR_COT_TYPE_PASSIVE : string := "a-f-G-U-U-M-S-E-D".

Definition _radar_cot_type (track : dict) (civil : bool) : string :=
  let passive := truthy (dget_none track "passive") in
  if civil then if passive then _RADAR_COT_TYPE_PASSIVE else _RADAR_COT_TYPE
  else if passive then _MIL_RADAR_COT_TYPE_PASSIVE else _MIL_RADAR_COT_TYPE.

Definition _ATC_EXACT : list string :=
  ["TWR"; "GND"; "ATIS"; "APP"; "DEP"; "APCH"; "CTR"; "OPS"; "RAMP"; "CARGO"; "FUEL"; "FIRE"; "MAINT"; "VAGON"].
Definition _ATC_SUFFIX : list string := ["TWR"; "GND"; "ATIS"; "APP"; "CTR"].
Definition _ADS_B_SURFACE_VEHICLE_CATEGORIES : list string := ["C1"; "C2"].

Definition _is_adsb_surface_vehicle (track : dict) : bool :=
  let category := or_value (dget_none track "emitter_category_str") (or_value (dget_none track "category") (VStr "")) in
  selem (upper (strip (str category))) _ADS_B_SURFACE_VEHICLE_CATEGORIES.

Definition _is_ground_station (track : dict) : exc bool :=
  let? cs := stripped (dget_none track "callsign") in
  let cs := upper cs in
  Ok (selem cs _ATC_EXACT || (existsb (fun s => endswith s cs) _ATC_SUFFIX && (String.length cs <=? 8)%nat)).

Definition _NON_JSON_VIEWS : list string := ["sapient"; "proto"; "raw"].

Definition _terminal_view (key : string) : string :=
  let parts := match rev (TrackViews.split key) with
               | version :: tracks :: rest => if String.eqb tracks "tracks" && is_version version then rest else version :: tracks :: rest
               | parts => parts
               end in
  match parts with last :: _ => last | [] => "" end.

Definition _track_stale_s (track : dict) (dflt : float) : exc float :=
  match float_of (dget_none track "stale_s") with
  | Ok wanted => Ok (if is_finite wanted && fbetween (fl 1) wanted (fl 3600) then wanted else dflt)
  | Raise TypeError | Raise ValueError => Ok dflt
  | Raise e => Raise e
  end.

(** ** State

    The tables the layer's threads share, and the file of the trail table. *)
Record reckoned := {
  r_track : dict; r_cot_type : string; r_stale_s : float; r_base_ts : float; r_base_lat : value; r_base_lon : value;
}.

Record layer := {
  _dr_store : odict reckoned;
  _drawn_uids : gset string;
  _marker_memory : memory;
  _twins : suppressions;
  _marker_seen : gmap string float;
  _trail_sent : odict float;
  _trail_saved_at : float;
  _radar_status : gmap string dict;
  _TRAIL_STATE : option (odict float);
}.

Definition new_layer : layer := {|
  _dr_store := []; _drawn_uids := ∅; _marker_memory := ∅; _twins := {| until := ∅; military := ∅ |};
  _marker_seen := ∅; _trail_sent := []; _trail_saved_at := fl 0; _radar_status := ∅; _TRAIL_STATE := None |}.

(** A computation of the layer; what it sends is the CoT text. *)
Abbreviation lm := (act layer string).

Definition forget_reckoned (uid : string) : lm unit := modify (fun l => { l with _dr_store ::= opop uid }).
Definition send_if (xml : option string) : lm unit := match xml with Some xml => emit xml | None => ret tt end.

(** ** A sample of a topic *)
Definition is_trail (uid : string) : bool := endswith _TRAIL_SUFFIX uid.
Definition trail_of (uid : string) : string := uid +:+ _TRAIL_SUFFIX.

(** The tombstone of any vendor. *)
Definition retire (track : dict) (clock : float) : lm unit :=
  uid <- lift (_uid track) ;;
  drawn <- gets (fun l => bool_decide (uid ∈ _drawn_uids l)) ;;
  deleted <- lift (_delete_point_cot uid (dget_none track "_ts") (if drawn || is_trail uid then "u-d-f" else "a-u-G") clock) ;;
  emit deleted ;;
  modify (fun l => { l with _drawn_uids ::= fun s => s ∖ {[uid]} }) ;;
  forget_reckoned uid ;;
  modify (fun l => { l with _marker_seen ::= delete uid }) ;;
  trail <- gets (fun l => oget (_trail_sent l) (trail_of uid)) ;;
  match trail with
  | Some _ =>
      deleted <- lift (_delete_point_cot (trail_of uid) (dget_none track "_ts") "u-d-f" clock) ;;
      emit deleted ;;
      modify (fun l => { l with _trail_sent ::= opop (trail_of uid) }) ;;
      modify (fun l => { l with _drawn_uids ::= fun s => s ∖ {[trail_of uid]} })
  | None => ret tt
  end.

(** What a track is drawn as, and for how long. *)
Definition drawn_as (style : cot_style) (stale_s : float) (track : dict) (clock : float) : exc (string * float) :=
  if _is_adsb_surface_vehicle track then Ok ("a-n-G-E-V", LAND_STALE_S) else
  let? station := _is_ground_station track in
  if station : bool then Ok (_RADAR_COT_TYPE, LAND_STALE_S) else
  let? cot_type := style_type style track clock in
  let? stale := _track_stale_s track stale_s in
  Ok (cot_type, stale).

(** The search of the first 400 characters of an event for the drawing type. *)
Definition is_drawing (xml : string) : bool := contains ("type=" +:+ quote +:+ "u-d-f" +:+ quote) (take_chars 400 xml).

Definition note_sent (uid : string) (first : string) (clock : float) : lm unit :=
  (if is_drawing first then modify (fun l => { l with _drawn_uids ::= fun s => {[uid]} ∪ s }) else ret tt) ;;
  if is_trail uid then modify (fun l => { l with _trail_sent ::= oset uid clock })
  else modify (fun l => { l with _marker_seen ::= <[uid := clock]> }).

Definition reckon_from (track : dict) (uid cot_type : string) (stale_s clock : float) : lm unit :=
  let lat := dget_none track "lat_deg" in
  let lon := dget_none track "lon_deg" in
  now <- lift (float_of (dget_or track "_ts" (VFloat clock))) ;;
  if is_none lat || is_none lon || truthy (dget_none track "_extrap") || text_is (dget_none track "_src") "AARTOS" then ret tt
  else modify (fun l => { l with _dr_store ::= oset uid
    {| r_track := track; r_cot_type := cot_type; r_stale_s := stale_s; r_base_ts := now; r_base_lat := lat; r_base_lon := lon |} }).

Definition draw (style : cot_style) (stale_s : float) (track : dict) (clock : float) : lm unit :=
  chosen <- lift (drawn_as style stale_s track clock) ;;
  uid <- lift (_uid track) ;;
  cot_type <- (fun l => let (memory, cot_type) := settle_marker HOLD_S (_marker_memory l) uid (fst chosen) clock in
                        ({ l with _marker_memory := memory }, [], Ok cot_type)) ;;
  events <- lift (shape_cots track cot_type (snd chosen) clock) ;;
  match events with
  | [] => ret tt
  | first :: _ =>
      for_each events emit ;;
      note_sent uid first clock ;;
      reckon_from track uid cot_type (snd chosen) clock
  end.

Definition on_track (style : cot_style) (stale_s : float) (key : string) (track : dict) (clock : float) : lm unit :=
  if text_is (dget_none track "_ingress") "tak_server" && drop_tak_ingress then ret tt else
  if text_is (dget_or track "_src" (VStr "")) "dronuradaras.lt" && truthy (dget_none track "_delete") then
    uid <- lift (_uid track) ;;
    xml <- lift (track_to_cot track "a-n-G-E-S" (fl 1) clock) ;;
    send_if xml ;;
    forget_reckoned uid
  else if truthy (dget_none track "_delete") then retire track clock else
  if _is_unfused_sensor_track track key then ret tt else
  civil_copy <- gets (fun l => is_civil_copy repr (_twins l) track key clock) ;;
  if civil_copy : bool then ret tt else
  suppressed <- gets (fun l => is_suppressed repr (_twins l) track clock) ;;
  if suppressed : bool then
    uid <- lift (_uid track) ;;
    deleted <- lift (_delete_point_cot uid (dget_none track "_ts") "a-u-G" clock) ;;
    emit deleted ;;
    forget_reckoned uid
  else draw style stale_s track clock.

(** The payload is the value [json.loads] gives, [None] where it raises. *)
Definition track_handler (style : cot_style) (stale_s : float) (key : string) (payload : option value) (clock : float) : lm unit :=
  if selem (_terminal_view key) _NON_JSON_VIEWS then ret tt else
  match payload with
  | None => ret tt
  | Some (VDict track) => on_track style stale_s key track clock
  | Some _ => lift (Raise AttributeError)
  end.

(** ** The status of a radar *)
Definition beam_name (track : dict) : exc string :=
  let name := dget_none track "sensor_name" in
  if truthy name then match name with VStr s => Ok (s +:+ " BEAM") | _ => Raise TypeError end else Ok "RADAR BEAM".

Definition on_status (key : string) (track : dict) (clock : float) : lm unit :=
  let civil := contains "/radar/neutral/radar" key in
  let sac := dget_none track "sac" in
  let sic := dget_none track "sic" in
  let sweep := dmem "sweep_azimuth_deg" track in
  when (negb (is_none sac) && negb sweep)
    (modify (fun l => { l with _radar_status ::= <[str sac +:+ "-" +:+ str (if is_none sic then VInt 0 else sic) := track]> })) ;;
  if sweep then
    if negb (truthy (dget_none track "radar_range_m")) then ret tt else
    rot <- lift (float_of (or_value (dget_none track "rotation_s") (VFloat (fl 4)))) ;;
    name <- lift (beam_name track) ;;
    let beam_track := dset "sensor_name" (VStr name)
      (dset "sensor_id" (VStr ("BEAM-" +:+ str (dget_or track "sensor_id" (VStr "RADAR")))) track) in
    xml <- lift (track_to_cot beam_track (_radar_cot_type track civil) (fmax (fmul rot (dec 6 1)) (fl 1)) clock) ;;
    send_if xml
  else
    xml <- lift (track_to_cot track (_radar_cot_type track civil) (fmul LAND_STALE_S (fl 2)) clock) ;;
    send_if xml.

Definition status_handler (key : string) (payload : option value) (clock : float) : lm unit :=
  if selem (_terminal_view key) _NON_JSON_VIEWS then ret tt else
  match payload with
  | None => ret tt
  | Some (VDict track) => on_status key track clock
  | Some _ => lift (Raise AttributeError)
  end.

(** ** Trails without a marker *)
Definition parent_of (trail_uid : string) : string := take_chars (count_chars trail_uid - 6) trail_uid.

(** When the marker of a trail was last sent; a marker never seen is as old as its trail. *)
Definition last_alive (l : layer) (trail_uid : string) (sent : float) : float :=
  match _marker_seen l !! parent_of trail_uid with
  | Some seen => fmax seen (fl 0)
  | None => fmax (fl 0) sent
  end.
Definition orphaned (l : layer) (clock : float) (kv : string * float) : bool :=
  flt orphan_s (fsub clock (last_alive l (fst kv) (snd kv))).

Definition _TRAIL_STATE_EVERY_S : float := fl 30.

(** [saves] is whether the file can be written. *)
Definition _save_trail_state (saves : bool) (clock : float) : lm unit :=
  due <- gets (fun l => negb (flt (fsub clock (_trail_saved_at l)) _TRAIL_STATE_EVERY_S)) ;;
  if due : bool then
    modify (fun l => { l with _trail_saved_at := clock }) ;;
    when saves (modify (fun l => { l with _TRAIL_STATE := Some (_trail_sent l) }))
  else ret tt.

Definition retract_trail (clock : float) (kv : string * float) : lm unit :=
  gone <- gets (fun l => orphaned l clock kv) ;;
  if gone : bool then
    deleted <- lift (_delete_point_cot (fst kv) (VFloat clock) "u-d-f" clock) ;;
    emit deleted ;;
    modify (fun l => { l with _trail_sent ::= opop (fst kv) }) ;;
    modify (fun l => { l with _drawn_uids ::= fun s => s ∖ {[fst kv]} })
  else ret tt.

Definition _retract_orphan_trails (saves : bool) (clock : float) : lm unit :=
  trails <- gets _trail_sent ;;
  for_each trails (retract_trail clock) ;;
  modify (fun l => { l with _marker_seen ::= filter (fun kv => flt (fl 3600) (fsub clock (snd kv)) = false) }) ;;
  _save_trail_state saves clock.

(** [json.load] of the file; [None] where there is none, or no JSON text. *)
Fixpoint load_trails (saved : dict) : lm unit :=
  match saved with
  | [] => ret tt
  | (uid, sent) :: saved' =>
      sent <- lift (float_of sent) ;;
      modify (fun l => { l with _trail_sent ::= osetdefault uid sent }) ;;
      modify (fun l => { l with _drawn_uids ::= fun s => {[uid]} ∪ s }) ;;
      load_trails saved'
  end.

(** ValueError ends the reading with what was read before; TypeError and OverflowError are not caught. *)
Definition _load_trail_state (saved : option value) : lm unit := fun l =>
  match saved with
  | Some (VDict saved) =>
      match load_trails saved l with
      | (l', sent, Raise ValueError) => (l', sent, Ok tt)
      | r => r
      end
  | _ => (l, [], Ok tt)
  end.

(** ** Dead reckoning *)
Definition tak_extrapolate_pos (lat lon : value) (speed_ms heading_deg dt_s : float) : exc (float * float) :=
  let d := fmul speed_ms dt_s in
  let a := fdiv_raw d (fl 6371000) in
  let az := radians heading_deg in
  let? lat := value_float lat in
  let la := radians lat in
  let? lon := value_float lon in
  let lo := radians lon in
  let? sin_la := m_sin la in
  let? cos_a := m_cos a in
  let? cos_la := m_cos la in
  let? sin_a := m_sin a in
  let? cos_az := m_cos az in
  let? la2 := m_asin (fadd (fmul sin_la cos_a) (fmul (fmul cos_la sin_a) cos_az)) in
  let? sin_az := m_sin az in
  let? sin_la2 := m_sin la2 in
  let? turn := m_atan2 (fmul (fmul sin_az sin_a) cos_la) (fsub cos_a (fmul sin_la sin_la2)) in
  Ok (degrees la2, degrees (fadd lo turn)).

(** One contact of the loop. *)
Definition reckon (clock : float) (st : reckoned) : exc (option string) :=
  let age := fsub clock (r_base_ts st) in
  let max_dr := fmul (r_stale_s st) (dec 85 2) in
  if flt age _DR_TICK_S || flt max_dr age then Ok None else
  let spd := _speed_ms (r_track st) in
  if flt spd _DR_MIN_MS then Ok None else
  if is_none (r_base_lat st) || is_none (r_base_lon st) then Ok None else
  let? (elat, elon) := tak_extrapolate_pos (r_base_lat st) (r_base_lon st) spd (_course (r_track st)) age in
  let et := dset "_extrap" (VBool true) (dset "_ts" (VFloat clock) (dset "lon_deg" (VFloat elon) (dset "lat_deg" (VFloat elat) (r_track st)))) in
  track_to_cot et (r_cot_type st) (fmul _DR_TICK_S (fl 3)) clock.

(** The thread: asleep, in the middle of its loop over the contacts it read, or
    ended by an exception. *)
Inductive dr_thread := Asleep | Reckoning (clock : float) (items : odict reckoned) | Ended.

Definition dr_step (saves : bool) (clock : float) (l : layer) (thread : dr_thread) : layer * dr_thread * list string :=
  match thread with
  | Asleep =>
      match _retract_orphan_trails saves clock l with
      | (l', sent, Ok _) => (l', Reckoning clock (_dr_store l'), sent)
      | (l', sent, Raise _) => (l', Ended, sent)
      end
  | Reckoning _ [] => (l, Asleep, [])
  | Reckoning now ((_, st) :: items) =>
      match reckon now st with
      | Ok (Some xml) => (l, Reckoning now items, [xml])
      | Ok None => (l, Reckoning now items, [])
      | Raise _ => (l, Ended, [])
      end
  | Ended => (l, Ended, [])
  end.

(** ** The layer's life: samples on the session's threads and the steps of the reckoning thread *)
Inductive event :=
| Track (style : cot_style) (stale_s : float) (key : string) (payload : option value) (clock : float)
| Status (key : string) (payload : option value) (clock : float)
| Twin (payload : option value) (clock : float)
| Military (payload : option value) (clock : float)
| Thread (saves : bool) (clock : float).

Definition twins_update (g : suppressions -> suppressions) : lm unit := modify (fun l => { l with _twins ::= g }).

(** The computation of a callback; an exception ends it, not the layer. *)
Definition callback (e : event) : lm unit :=
  match e with
  | Track style stale_s key payload clock => track_handler style stale_s key payload clock
  | Status key payload clock => status_handler key payload clock
  | Twin payload clock => twins_update (fun st => on_twin repr TWIN_TTL_S st payload clock)
  | Military payload clock => twins_update (fun st => on_military repr TWIN_TTL_S st payload clock)
  | Thread _ _ => ret tt
  end.

Definition layer_step (s : layer * dr_thread) (e : event) : layer * dr_thread * list string :=
  let (l, thread) := s in
  match e with
  | Thread saves clock => dr_step saves clock l thread
  | _ => let '(l', sent, _) := callback e l in (l', thread, sent)
  end.

Fixpoint layer_run (s : layer * dr_thread) (events : list event) : layer * dr_thread * list string :=
  match events with
  | [] => (fst s, snd s, [])
  | e :: events' =>
      let '(l, thread, sent) := layer_step s e in
      let '(l', thread', sent') := layer_run (l, thread) events' in
      (l', thread', sent ++ sent')
  end.

End Tak.
