(* ===== verification/TakFacts.v ===== *)
(** * What the TAK layer does

    Theorems about [TakLayer]: an event fits, a deleted contact stays deleted,
    a trail goes with its marker, and what ends dead reckoning. *)

From Stdlib Require Import SpecFloat.
From S2P Require Import Prelude PyFloat Exact PyData Schema TrackViews PyText PyNum Dedup Echoes Fusion Outline TakLayer.
From stdpp Require Import gmap strings.
From coqutil Require Import Datatypes.RecordSetters.
Import OCamlLikeNotations.
Import Actions.
#[local] Open Scope Z_scope.
#[local] Open Scope py_scope.
#[local] Open Scope act_scope.

Section Facts.
Context `{Libm}.
Variable repr : value -> string.
Variable fixed5 : value -> exc string.
Variable _build_remarks : dict -> string -> exc string.
Variable usericon : string -> option string.
Variable drop_tak_ingress : bool.
Variable orphan_s : float.

#[local] Abbreviation track_to_cot := (track_to_cot repr fixed5 _build_remarks usericon).
#[local] Abbreviation attempt := (attempt repr fixed5 _build_remarks usericon).
#[local] Abbreviation shape_cots := (shape_cots repr fixed5 _build_remarks usericon).
#[local] Abbreviation layer_step := (layer_step repr fixed5 _build_remarks usericon drop_tak_ingress orphan_s).
#[local] Abbreviation layer_run := (layer_run repr fixed5 _build_remarks usericon drop_tak_ingress orphan_s).

(** ** Events that fit *)
Lemma shrink_lt b n : 0 < b -> shrink b = Ok n -> n < b.
Proof.
  intros Hb. unfold shrink, float_of_int. destruct (_ <? _); cbn [exc_bind]; [|done]. by apply nineteen_twentieths.
Qed.

(** Each turn has fewer vertices to try, so the loop ends; its errors are those of a turn. *)
Lemma fit_loop_ok track cot_type stale_s clock ring : forall fuel budget, (Z.to_nat budget < fuel)%nat ->
  match fit_loop repr fixed5 _build_remarks usericon fuel track cot_type stale_s clock ring budget with
  | Ok [] => True
  | Ok [xml] => cot_fits xml = true /\ exists b, 8 <= b <= budget /\ attempt track cot_type stale_s clock ring b = Ok (Some xml)
  | Ok _ => False
  | Raise e => exists b, 8 <= b <= budget /\ (attempt track cot_type stale_s clock ring b = Raise e \/ shrink b = Raise e)
  end.
Proof.
  induction fuel as [|fuel IH]; intros budget Hf; [lia|]. cbn [fit_loop]. destruct (Z.ltb_spec budget 8) as [|Hb]; [done|].
  destruct (attempt _ _ _ _ _ budget) as [fitted|e] eqn:Ea; cbn [exc_bind]; [|exists budget; split; [lia|auto]].
  set (again := exc_bind (shrink budget) _).
  assert (match again with
    | Ok [] => True
    | Ok [xml] => cot_fits xml = true /\ exists b, 8 <= b <= budget /\ attempt track cot_type stale_s clock ring b = Ok (Some xml)
    | Ok _ => False
    | Raise e => exists b, 8 <= b <= budget /\ (attempt track cot_type stale_s clock ring b = Raise e \/ shrink b = Raise e)
    end) as Hagain.
  { subst again. destruct (shrink budget) as [next|e] eqn:Es; cbn [exc_bind]; [|exists budget; split; [lia|auto]].
    apply shrink_lt in Es; [|lia]. specialize (IH next ltac:(lia)).
    destruct (fit_loop _ _ _ _ fuel _ _ _ _ _ next) as [[|xml [|? ?]]|e]; [done| |done|].
    - destruct IH as (Hfit & b & Hb' & Hx). split; [done|]. exists b. split; [lia|done].
    - destruct IH as (b & Hb' & Hx). exists b. split; [lia|done]. }
  destruct fitted as [xml|]; [|exact Hagain]. destruct (cot_fits xml) eqn:Ex; [|exact Hagain].
  split; [done|]. exists budget. split; [lia|done].
Qed.

(** Drawing a track ends with no event or one. One event of a polygon is
    below the 65,000 bytes TAK Server takes: the track's own event when that
    fits, and else the event of the same track with a simplified outline. What is not
    a polygon is sent as it is, and an exception is that of an event, of the
    simplification, or of a number of vertices no float holds. *)
Theorem shape_cots_exact track cot_type stale_s clock :
  match shape_cots track cot_type stale_s clock with
  | Ok [] => True
  | Ok [xml] =>
      (track_to_cot track cot_type stale_s clock = Ok (Some xml) /\
       (cot_fits xml = true \/ forall geometry, dget_none track "geometry" = VDict geometry -> text_is (dget_none geometry "type") "Polygon" = false)) \/
      (cot_fits xml = true /\ exists geometry ring budget, dget_none track "geometry" = VDict geometry /\ shape_ring geometry = Ok ring /\
         8 <= budget /\ attempt track cot_type stale_s clock ring budget = Ok (Some xml))
  | Ok _ => False
  | Raise e =>
      track_to_cot track cot_type stale_s clock = Raise e \/
      exists geometry, dget_none track "geometry" = VDict geometry /\
        (shape_ring geometry = Raise e \/
         exists ring, shape_ring geometry = Ok ring /\
           ((exists xml, first_budget ring xml = Raise e) \/ (exists b, attempt track cot_type stale_s clock ring b = Raise e \/ shrink b = Raise e)))
  end.
Proof.
  unfold TakLayer.shape_cots. destruct (track_to_cot _ _ _ _) as [[xml|]|e]; cbn [exc_bind]; [|done|by left].
  destruct (cot_fits xml) eqn:Hfit; [by auto|]. destruct (dget_none track "geometry") as [| | | | | |geometry]; try (left; split; [done|by right]).
  destruct (text_is _ "Polygon") eqn:Hp; cbn [negb]; [|left; split; [done|]; right; by intros ? [= <-]].
  destruct (shape_ring geometry) as [ring|e] eqn:Hr; cbn [exc_bind]; [|right; by eauto].
  destruct (first_budget ring xml) as [budget|e] eqn:Hb; cbn [exc_bind]; [|right; eauto 10].
  pose proof (fit_loop_ok track cot_type stale_s clock ring (S (Z.to_nat budget)) budget ltac:(lia)) as Hl.
  destruct (fit_loop _ _ _ _ _ _ _ _ _ _ _) as [[|x [|? ?]]|e]; [done| |done|].
  - right. destruct Hl as (? & b & ? & ?). split; [done|]. exists geometry, ring, b. split_and!; [done..|lia|done].
  - right. destruct Hl as (b & _ & ?). exists geometry. split; [done|]. right. eauto.
Qed.

(** ** What is deleted stays deleted *)

(** A sample that draws [uid] again: a track of it, not a tombstone. *)
Definition redraws (uid : string) (e : event) : Prop :=
  match e with
  | Track _ _ _ (Some (VDict track)) _ => _uid repr fixed5 track = Ok uid /\ truthy (dget_none track "_delete") = false
  | _ => False
  end.

Definition unknown (uid : string) (l : layer) : Prop := oget (_dr_store l) uid = None.

(** The contact is neither stored nor waiting in the loop. *)
Definition not_reckoned (uid : string) (s : layer * dr_thread) : Prop :=
  unknown uid (fst s) /\ match snd s with Reckoning _ items => oget items uid = None | _ => True end.

(** The contacts the reckoning thread sends during a history. *)
Definition reckoned_now (s : layer * dr_thread) (e : event) : option string :=
  match e, snd s with
  | Thread _ _, Reckoning now ((uid, st) :: _) =>
      match reckon repr fixed5 _build_remarks usericon now st with Ok (Some _) => Some uid | _ => None end
  | _, _ => None
  end.

Fixpoint reckoned_in (s : layer * dr_thread) (events : list event) : list string :=
  match events with
  | [] => []
  | e :: events' =>
      let '(l, thread, _) := layer_step s e in
      match reckoned_now s e with Some uid => uid :: reckoned_in (l, thread) events' | None => reckoned_in (l, thread) events' end
  end.

(** A property of the tables that the layer's updates keep, those of dead
    reckoning for the contacts of [drawn]. *)
Record stable (drawn : string -> Prop) (I : layer -> Prop) : Prop := {
  st_drawn l f : I l -> I { l with _drawn_uids ::= f };
  st_forget l u : I l -> I { l with _dr_store ::= opop u };
  st_reckon l u st : drawn u -> I l -> I { l with _dr_store ::= oset u st };
  st_seen l f : I l -> I { l with _marker_seen ::= f };
  st_trail l u t : I l -> I { l with _trail_sent ::= oset u t };
  st_untrail l u : I l -> I { l with _trail_sent ::= opop u };
  st_twins l f : I l -> I { l with _twins ::= f };
  st_status l f : I l -> I { l with _radar_status ::= f };
  st_memory l m : I l -> I { l with _marker_memory := m };
  st_saved l t : I l -> I { l with _trail_saved_at := t };
  st_file l f : I l -> I { l with _TRAIL_STATE := f };
}.

Section Stable.
Variables (drawn : string -> Prop) (I : layer -> Prop).
Hypothesis HI : stable drawn I.
#[local] Abbreviation keeps m := (hoare I (fun _ : string => True) m (fun _ => True)).

Lemma keeps_send_if xml : keeps (send_if xml).
Proof. destruct xml; [by apply hoare_emit|by apply hoare_ret]. Qed.

Ltac keep_step :=
  match goal with
  | |- hoare _ _ (send_if _) _ => apply keeps_send_if
  | |- hoare _ _ (emit _) _ => by apply hoare_emit
  | |- hoare _ _ (modify _) _ => apply hoare_modify; intros l Hl; destruct HI; by eauto
  | |- hoare _ _ (lift _) _ => by apply hoare_lift
  | |- hoare _ _ (gets _) _ => by apply hoare_gets
  | |- hoare _ _ (ret _) _ => by apply hoare_ret
  | _ => hoare_step
  end.
Ltac keep := repeat keep_step.

Lemma keeps_draw style stale_s track clock : (forall u, _uid repr fixed5 track = Ok u -> drawn u) ->
  keeps (draw repr fixed5 _build_remarks usericon style stale_s track clock).
Proof.
  intros Hu. unfold draw. apply (hoare_bind _ _ _ _ _ (fun _ => True)); [by apply hoare_lift|]. intros chosen _.
  apply (hoare_bind _ _ _ _ _ drawn); [apply hoare_lift; by apply Hu|]. intros u Hd. apply (hoare_bind _ _ _ _ _ (fun _ => True)).
  { intros l Hl. destruct (settle_marker _ _ _ _ _) as [m c]. split_and!; [by apply (st_memory _ _ HI)|by constructor|done]. }
  intros cot_type _. unfold note_sent, reckon_from. keep.
Qed.

Lemma keeps_callback e : (forall u, redraws u e -> drawn u) -> keeps (callback repr fixed5 _build_remarks usericon drop_tak_ingress e).
Proof.
  intros He. destruct e as [style stale_s key payload clock|key payload clock| | |]; cbn [callback]; [| |unfold twins_update; keep..].
  - unfold track_handler. destruct (selem _ _); [keep|]. destruct payload as [[| | | | | |track]|]; try keep.
    unfold on_track. destruct (_ && drop_tak_ingress); [keep|]. unfold forget_reckoned.
    destruct (text_is _ "dronuradaras.lt" && _); [keep|]. destruct (truthy (dget_none track "_delete")) eqn:Hd; [unfold retire, forget_reckoned; keep|].
    destruct (_is_unfused_sensor_track _ _ _); [keep|].
    apply (hoare_bind _ _ _ _ _ (fun _ => True)); [keep|]. intros [] _; [keep|].
    apply (hoare_bind _ _ _ _ _ (fun _ => True)); [keep|]. intros [] _; [keep|].
    apply keeps_draw. intros u Hu. by apply He.
  - unfold status_handler. destruct (selem _ _); [keep|]. destruct payload as [[]|]; try keep. unfold on_status. keep.
Qed.

Lemma keeps_retract saves clock : keeps (_retract_orphan_trails orphan_s saves clock).
Proof. unfold _retract_orphan_trails, retract_trail, _save_trail_state. keep. Qed.

Lemma stable_step s e : I (fst s) -> (forall u, redraws u e -> drawn u) -> I (fst (fst (layer_step s e))).
Proof.
  destruct s as [l thread]. cbn [fst]. intros Hl He. pose proof (keeps_callback e He l Hl) as Hk.
  destruct e as [| | | |saves clock]; cbn [TakLayer.layer_step].
  1-4: destruct (callback _ _ _ _ _ _ l) as [[l' sent] r]; apply Hk.
  destruct thread as [|now [|[u st] items]|]; cbn [dr_step]; [|done| |done].
  - pose proof (keeps_retract saves clock l Hl) as Hr. destruct (_retract_orphan_trails _ _ _ _) as [[l' sent] [[]|e]]; apply Hr.
  - by destruct (reckon _ _ _ _ now st) as [[xml|]|e].
Qed.
End Stable.

Lemma stable_unknown uid : stable (fun u => u <> uid) (unknown uid).
Proof.
  split; intros l; intros; try done; unfold unknown in *; cbn.
  - rewrite oget_opop. by destruct (u =? uid)%string.
  - rewrite oget_oset. by rewrite (proj2 (String.eqb_neq _ _)).
Qed.

Lemma not_reckoned_step uid s e : not_reckoned uid s -> ~ redraws uid e ->
  not_reckoned uid (fst (layer_step s e)) /\ reckoned_now s e <> Some uid.
Proof.
  intros [Hl Ht] He. pose proof (stable_step _ _ (stable_unknown uid) s e Hl ltac:(intros u Hu ->; by apply He)) as Hs.
  unfold not_reckoned. destruct s as [l thread]. destruct e as [| | | |saves clock]; cbn [TakLayer.layer_step fst snd] in *.
  1-4: destruct (callback _ _ _ _ _ _ l) as [[l' sent] r]; done.
  destruct thread as [|now [|[u st] items]|]; cbn [dr_step reckoned_now snd] in *; [|done| |done].
  - destruct (_retract_orphan_trails _ _ _ _) as [[l' sent] [[]|e]]; done.
  - cbn [oget] in Ht. destruct (String.eqb_spec u uid) as [->|Hne]; [done|].
    destruct (reckon _ _ _ _ now st) as [[xml|]|e]; cbn [fst snd]; (split; [done|congruence]).
Qed.

Lemma not_reckoned_run uid events : forall s, not_reckoned uid s -> Forall (fun e => ~ redraws uid e) events ->
  not_reckoned uid (fst (layer_run s events)) /\ ~ In uid (reckoned_in s events).
Proof.
  induction events as [|e events IH]; intros s Hs He; cbn [TakLayer.layer_run reckoned_in]; [split; [by destruct s|by intros []]|].
  inversion He as [|? ? He1 He2]; subst. destruct (not_reckoned_step uid s e Hs He1) as [Hs' Hn].
  destruct (layer_step s e) as [[l thread] sent]. cbn [fst] in Hs'. destruct (IH (l, thread) Hs' He2) as [Hr Hin].
  destruct (layer_run _ _) as [[l' thread'] sent']. split; [exact Hr|].
  destruct (reckoned_now s e) as [u|]; [|done]. intros [->|Hx]; done.
Qed.

Lemma retire_exact track clock uid now t l : _uid repr fixed5 track = Ok uid -> delete_time (dget_none track "_ts") clock = Ok now -> _ts now = Ok t ->
  exists l' d, retire repr fixed5 track clock l =
    (l', d :: (if oget (_trail_sent l) (trail_of uid) then match _delete_point_cot (trail_of uid) (dget_none track "_ts") "u-d-f" clock with Ok d => [d] | Raise _ => [] end else []), Ok tt) /\
  _delete_point_cot uid (dget_none track "_ts") (if bool_decide (uid ∈ _drawn_uids l) || is_trail uid then "u-d-f" else "a-u-G") clock = Ok d /\
  _dr_store l' = opop uid (_dr_store l) /\ _marker_seen l' = delete uid (_marker_seen l) /\
  oget (_trail_sent l') (trail_of uid) = None /\ uid ∉ _drawn_uids l' /\ (is_Some (oget (_trail_sent l) (trail_of uid)) -> trail_of uid ∉ _drawn_uids l').
Proof.
  intros Hu Hd Ht. assert (forall u link, exists d, _delete_point_cot u (dget_none track "_ts") link clock = Ok d) as Hcot.
  { intros u link. unfold _delete_point_cot. rewrite Hd. cbn [exc_bind]. rewrite Ht. cbn [exc_bind]. eauto. }
  destruct (Hcot uid (if bool_decide (uid ∈ _drawn_uids l) || is_trail uid then "u-d-f" else "a-u-G")) as [d Ed].
  destruct (Hcot (trail_of uid) "u-d-f") as [d' Ed'].
  unfold retire, bind, lift, gets, emit, forget_reckoned, modify. rewrite Hu, Ed.
  destruct l as [dr drawn mem tw seen trails saved st file]. cbn [_trail_sent _drawn_uids] in *.
  destruct (oget trails (trail_of uid)) eqn:Et; cbn -[_delete_point_cot trail_of]; rewrite Et, ?Ed'; cbn -[_delete_point_cot trail_of]; eexists _, _;
    (split; [reflexivity|]); (split; [done|]); cbn; split_and!; try done.
  - by rewrite oget_opop, String.eqb_refl.
  - set_solver.
  - set_solver.
  - set_solver.
Qed.


(** ** The end of dead reckoning *)
Definition of_thread (e : event) : Prop := match e with Thread _ _ => True | _ => False end.

Lemma ended_sends_nothing l later : Forall of_thread later -> layer_run (l, Ended) later = (l, Ended, []).
Proof.
  induction later as [|e later IH]; intros Hl; [done|]. inversion Hl as [|? ? He Hl']; subst. destruct e; try done.
  cbn [TakLayer.layer_run TakLayer.layer_step dr_step]. by rewrite IH.
Qed.

(** A position in text ends dead reckoning. [track_to_cot] reads a position
    with [float], which takes text, so such a contact is drawn and stored like any
    other; when it is due to be moved, [math.radians] raises TypeError in the
    thread, and from then on the layer moves no contact and retracts no trail. *)
Theorem string_position_stops_reckoning l uid st items now text
  (Hlat : r_base_lat st = VStr text) (Hlon : is_none (r_base_lon st) = false)
  (Hdue : flt (fsub now (r_base_ts st)) _DR_TICK_S = false /\ flt (fmul (r_stale_s st) (dec 85 2)) (fsub now (r_base_ts st)) = false)
  (Hmoves : flt (_speed_ms (r_track st)) _DR_MIN_MS = false) saves clock later (Hlater : Forall of_thread later) :
  layer_run (l, Reckoning now ((uid, st) :: items)) (Thread saves clock :: later) = (l, Ended, []).
Proof.
  cbn [TakLayer.layer_run TakLayer.layer_step dr_step]. unfold reckon. destruct Hdue as [-> ->]. cbn [orb]. rewrite Hmoves, Hlon, Hlat. cbn [is_none orb].
  unfold tak_extrapolate_pos at 1. cbn [value_float as_number exc_bind]. by rewrite ended_sends_nothing.
Qed.

(** ** One view of an object is drawn *)
Lemma terminal_view_tail stem : _terminal_view (stem +:+ "/" +:+ _VERSION_TAIL) = match rev (TrackViews.split stem) with last :: _ => last | [] => "" end.
Proof. unfold _terminal_view. rewrite split_slash, rev_app_distr. reflexivity. Qed.

(** An object published in every view is drawn from its JSON view and from no
    other: the handlers of both kinds of topic do nothing on the others. *)
Lemma drawn_from_json_only key fmt style stale_s payload clock : plain key = true -> selem fmt _FORMATS = true ->
  let topic := view_key key fmt in
  selem (_terminal_view topic) _NON_JSON_VIEWS = negb (String.eqb fmt "json") /\
  (fmt <> "json" -> track_handler repr fixed5 _build_remarks usericon drop_tak_ingress style stale_s topic payload clock = ret tt /\
                    status_handler repr fixed5 _build_remarks usericon topic payload clock = ret tt).
Proof.
  intros Hk Hf topic. assert (selem (_terminal_view topic) _NON_JSON_VIEWS = negb (String.eqb fmt "json")) as Hv.
  - subst topic. rewrite view_key_stem, terminal_view_tail by done. unfold view_stem. destruct (String.eqb_spec fmt "json") as [->|Hne]; cbn [negb].
    + unfold plain, _has_format in Hk. apply andb_true_iff in Hk as [Hs Hk]. apply String.eqb_eq in Hs. rewrite Hs in Hk.
      destruct (rev (TrackViews.split key)) as [|last ps]; [done|]. apply negb_true_iff in Hk. apply not_true_is_false. intros Hin.
      apply not_true_iff_false in Hk. apply Hk. apply selem_In. apply selem_In in Hin. by right.
    + rewrite split_slash, (split_segment fmt), rev_app_distr by (by apply selem_segment). cbn [rev app]. apply selem_In in Hf. apply selem_In.
      destruct Hf as [E|Hf]; [by destruct Hne|exact Hf].
  - split; [done|]. intros Hne. unfold track_handler, status_handler. rewrite Hv. by rewrite (proj2 (String.eqb_neq _ _) Hne).
Qed.
(** ** A trail has one entry *)
Lemma keys_opop {V} k (d : odict V) : NoDup (map fst d) -> NoDup (map fst (opop k d)).
Proof.
  intros Hd. enough (sublist (map fst (opop k d)) (map fst d)) as Hs by (by eapply sublist_NoDup).
  clear Hd. unfold opop. induction d as [|[k' v'] d IH]; cbn; [done|]. destruct (negb _); cbn; by constructor.
Qed.

Lemma stable_distinct : stable (fun _ => True) (fun l => NoDup (map fst (_trail_sent l))).
Proof. split; intros l; intros; try done; cbn; by apply keyed_oset || by apply keys_opop. Qed.

(** The trails of a layer at work have distinct names. *)
Lemma trails_distinct events : forall s, NoDup (map fst (_trail_sent (fst s))) -> NoDup (map fst (_trail_sent (fst (fst (layer_run s events))))).
Proof.
  induction events as [|e events IH]; intros s Hs; cbn [TakLayer.layer_run]; [done|].
  pose proof (stable_step _ _ stable_distinct s e Hs ltac:(done)) as Hs'. destruct (layer_step s e) as [[l thread] sent].
  specialize (IH (l, thread) Hs'). by destruct (layer_run _ _) as [[l' thread'] sent'].
Qed.
End Facts.

Section Trails.
Variable orphan_s : float.

(** ** Trails and their markers *)
Definition gone (l : layer) (clock : float) (trails : odict float) : odict float := List.filter (orphaned orphan_s l clock) trails.
Definition among (names : list string) (kv : string * float) : bool := selem (fst kv) names.

Lemma filter_twice {A} (f g : A -> bool) l : List.filter f (List.filter g l) = List.filter (fun x => g x && f x) l.
Proof. induction l as [|x l IH]; cbn; [done|]. destruct (g x); cbn; [destruct (f x)|]; by rewrite IH. Qed.

(** What the loop over the trails leaves untouched. *)
Record same_but_trails (l l' : layer) : Prop := {
  s_seen : _marker_seen l' = _marker_seen l;
  s_store : _dr_store l' = _dr_store l;
  s_saved : _trail_saved_at l' = _trail_saved_at l;
  s_file : _TRAIL_STATE l' = _TRAIL_STATE l;
}.

(** One trail that goes. *)
Definition without_trail (uid : string) (l : layer) : layer :=
  { { l with _trail_sent ::= opop uid } with _drawn_uids ::= fun s => s ∖ {[uid]} }.

Lemma retract_trail_ok clock t kv l : is_finite clock = true -> _ts clock = Ok t ->
  exists d, _delete_point_cot (fst kv) (VFloat clock) "u-d-f" clock = Ok d /\
    retract_trail orphan_s clock kv l = if orphaned orphan_s l clock kv then (without_trail (fst kv) l, [d], Ok tt) else (l, [], Ok tt).
Proof.
  intros Hf Ht. assert (exists d, _delete_point_cot (fst kv) (VFloat clock) "u-d-f" clock = Ok d) as [d Ed].
  { unfold _delete_point_cot, delete_time. cbn [value_float as_number exc_bind to_float]. rewrite Hf, Ht. cbn [exc_bind]. eauto. }
  exists d. split; [done|]. unfold retract_trail, bind at 1, gets. destruct (orphaned orphan_s l clock kv); [|done].
  unfold bind, lift, emit, modify. by rewrite Ed.
Qed.

Lemma retract_trails_ok clock t trails : is_finite clock = true -> _ts clock = Ok t -> forall l,
  exists l' sent, for_each trails (retract_trail orphan_s clock) l = (l', sent, Ok tt) /\ same_but_trails l l' /\
    _trail_sent l' = List.filter (fun kv => negb (among (map fst (gone l clock trails)) kv)) (_trail_sent l) /\
    _drawn_uids l' = _drawn_uids l ∖ list_to_set (map fst (gone l clock trails)) /\
    Forall2 (fun kv xml => _delete_point_cot (fst kv) (VFloat clock) "u-d-f" clock = Ok xml) (gone l clock trails) sent.
Proof.
  intros Hf Ht. induction trails as [|kv trails IH]; intros l; cbn [for_each].
  { exists l, []. cbn. split_and!; [done|by split| |set_solver|constructor]. induction (_trail_sent l) as [|kv tr IH]; cbn; [done|by f_equal]. }
  destruct (retract_trail_ok clock t kv l Hf Ht) as (d & Ed & Er). unfold bind at 1. rewrite Er. unfold gone. cbn [List.filter].
  destruct (orphaned orphan_s l clock kv).
  - destruct (IH (without_trail (fst kv) l)) as (l' & sent & -> & Hs & Htr & Hd & Hf2). exists l', (d :: sent). split; [done|].
    split; [by destruct Hs; split|]. fold (gone l clock trails). change (gone (without_trail (fst kv) l) clock trails) with (gone l clock trails) in *.
    cbn [map list_to_set]. split_and!; [| |by constructor].
    + rewrite Htr. change (_trail_sent (without_trail (fst kv) l)) with (List.filter (fun x => negb (String.eqb (fst x) (fst kv))) (_trail_sent l)).
      rewrite filter_twice. apply List.filter_ext. intros [k v]. unfold among. cbn. by rewrite negb_orb.
    + rewrite Hd. cbn. set_solver.
  - destruct (IH l) as (l' & sent & -> & Hs & Htr & Hd & Hf2). exists l', sent. by split_and!.
Qed.

Lemma not_among_gone l clock : NoDup (map fst (_trail_sent l)) ->
  List.filter (fun kv => negb (among (map fst (gone l clock (_trail_sent l))) kv)) (_trail_sent l) =
  List.filter (fun kv => negb (orphaned orphan_s l clock kv)) (_trail_sent l).
Proof.
  intros Hn. apply filter_ext_in. intros [k v] Hin. f_equal. unfold among. cbn [fst].
  destruct (orphaned orphan_s l clock (k, v)) eqn:Eo.
  - apply selem_In, in_map_iff. exists (k, v). split; [done|]. by apply filter_In.
  - apply not_true_is_false. intros Hs. apply selem_In, in_map_iff in Hs as (kv' & Hk & Hin'). apply filter_In in Hin' as [Hin' Ho].
    assert (kv' = (k, v)) as ->; [|congruence]. destruct kv' as [k' v']. cbn in Hk. subst k'. f_equal.
    clear Eo Ho. induction (_trail_sent l) as [|[k0 v0] tr IH]; [done|]. cbn in Hn. apply NoDup_cons in Hn as [Hni Hn].
    destruct Hin as [Hin|Hin], Hin' as [Hin'|Hin']; [congruence|injection Hin as -> ->|injection Hin' as -> ->|by apply IH].
    + destruct Hni. apply list_elem_of_In, in_map_iff. by exists (k, v').
    + destruct Hni. apply list_elem_of_In, in_map_iff. by exists (k, v).
Qed.

(** The tick of the clock keeps exactly the trails whose marker is alive. A
    trail is deleted on the clients, and forgotten, when its marker was last
    sent more than the orphan time ago, or the trail itself was, where no
    marker of it is known; the others stay in their order, and no contact of
    dead reckoning is touched. When half a minute has passed since the table was saved, what
    is left of it is saved. *)
Theorem orphan_trails_exact l saves clock t (Hf : is_finite clock = true) (Ht : _ts clock = Ok t) (Hn : NoDup (map fst (_trail_sent l))) :
  let '(l', sent, r) := _retract_orphan_trails orphan_s saves clock l in
  r = Ok tt /\
  _trail_sent l' = List.filter (fun kv => negb (orphaned orphan_s l clock kv)) (_trail_sent l) /\
  Forall2 (fun kv xml => _delete_point_cot (fst kv) (VFloat clock) "u-d-f" clock = Ok xml) (gone l clock (_trail_sent l)) sent /\
  _drawn_uids l' = _drawn_uids l ∖ list_to_set (map fst (gone l clock (_trail_sent l))) /\
  _dr_store l' = _dr_store l /\
  _TRAIL_STATE l' = (if saves && negb (flt (fsub clock (_trail_saved_at l)) _TRAIL_STATE_EVERY_S) then Some (_trail_sent l') else _TRAIL_STATE l).
Proof.
  destruct (retract_trails_ok clock t (_trail_sent l) Hf Ht l) as (l1 & sent & E & [S1 S2 S3 S4] & Htr & Hd & Hf2).
  unfold _retract_orphan_trails, bind at 1, gets. unfold bind at 1. rewrite E. rewrite not_among_gone in Htr by done.
  destruct l1 as [dr dn mm tw seen tr sv st file]. cbn in S1, S2, S3, S4, Htr, Hd. subst sv.
  unfold _save_trail_state, bind, gets, modify, when. cbn -[_TRAIL_STATE_EVERY_S flt fsub].
  destruct (flt (fsub clock (_trail_saved_at l)) _TRAIL_STATE_EVERY_S); destruct saves; cbn; rewrite ?app_nil_r; by split_and!.
Qed.

(** ** The trail table survives a restart *)
Definition as_json (trails : odict float) : dict := map (fun kv => (fst kv, VFloat (snd kv))) trails.

Lemma osetdefault_new {V} k (v : V) d : k ∉ map fst d -> osetdefault k v d = d ++ [(k, v)].
Proof.
  intros Hk. unfold osetdefault. destruct (oget d k) as [x|] eqn:Eg.
  { destruct Hk. apply oget_In in Eg. apply list_elem_of_In, in_map_iff. by exists (k, x). }
  clear Hk. revert Eg. induction d as [|[k0 v0] d IH]; cbn; [done|]. destruct (String.eqb k0 k); [done|]. intros Eg. by rewrite IH.
Qed.

Lemma load_trails_ok trails : forall l, NoDup (map fst (_trail_sent l ++ trails)) ->
  exists l', load_trails (as_json trails) l = (l', [], Ok tt) /\ _trail_sent l' = _trail_sent l ++ trails /\
    _drawn_uids l' = list_to_set (map fst trails) ∪ _drawn_uids l.
Proof.
  induction trails as [|[k v] trails IH]; intros l Hn; cbn [as_json map load_trails fst snd].
  { exists l. rewrite app_nil_r. split_and!; [done|done|set_solver]. }
  unfold bind, lift, modify. cbn. match goal with |- context [load_trails _ ?l1] => set (l1' := l1) end.
  assert (_trail_sent l1' = _trail_sent l ++ [(k, v)]) as Hl1.
  { change (osetdefault k v (_trail_sent l) = _trail_sent l ++ [(k, v)]). apply osetdefault_new.
    rewrite map_app in Hn. apply NoDup_app in Hn as (_ & Hk & _). intros Hin. apply (Hk k Hin), list_elem_of_In. by left. }
  destruct (IH l1') as (l' & Hl & Ht & Hd). { by rewrite Hl1, <- app_assoc. }
  fold (as_json trails). rewrite Hl. exists l'. split; [done|]. rewrite Ht, Hl1, <- app_assoc, Hd. split; [done|]. subst l1'. cbn. set_solver.
Qed.

(** A layer that starts on the file of another knows its trails, as drawings. *)
Lemma trail_table_survives_restart trails : NoDup (map fst trails) ->
  exists l, _load_trail_state (Some (VDict (as_json trails))) new_layer = (l, [], Ok tt) /\ _trail_sent l = trails /\ _drawn_uids l = list_to_set (map fst trails).
Proof.
  intros Hn. destruct (load_trails_ok trails new_layer Hn) as (l & Hl & Ht & Hd). exists l. unfold _load_trail_state. rewrite Hl.
  split; [done|]. split; [done|]. rewrite Hd. cbn. set_solver.
Qed.

End Trails.

(** ** A layer at work *)
#[local] Existing Instance outline_libm.

Module Sample.
Definition repr (v : value) : string := "0.0".
Definition fixed5 (v : value) : exc string := Ok "0.00000".
Definition remarks (track : dict) (cot_type : string) : exc string := Ok "".
Definition usericon (cot_type : string) : option string := None.
Definition orphan_s : float := fl 180.
Definition step := layer_step repr fixed5 remarks usericon false orphan_s.
Definition run := layer_run repr fixed5 remarks usericon false orphan_s.

Definition topic : string := "efdi/air/neptun/osint/hostile/uav/n1/tracks/v1".
Definition shahed : dict :=
  [("uid", VStr "n1"); ("lat_deg", VFloat (fl 54)); ("lon_deg", VFloat (fl 25)); ("speed_ms", VFloat (fl 50)); ("_ts", VInt 1700000000)].
Definition its_trail : dict :=
  [("uid", VStr "n1-trail"); ("lat_deg", VFloat (fl 54)); ("lon_deg", VFloat (fl 25)); ("_ts", VInt 1700000000); ("shape_style", VStr "trail");
   ("geometry", VDict [("type", VStr "LineString"); ("coordinates", VList [VList [VFloat (fl 25); VFloat (fl 54)]])])].
Definition tombstone : dict := [("uid", VStr "n1"); ("_delete", VBool true)].
Definition seen (track : dict) (clock : Z) : event := Track (Fixed "a-h-A-M-F-Q") AIR_STALE_S topic (Some (VDict track)) (fl clock).
Definition tick (clock : Z) : event := Thread true (fl clock).

(** A drone and its trail, drawn. *)
Definition drawn_layer : layer := fst (fst (run (new_layer, Asleep) [seen shahed 1700000001; seen its_trail 1700000001])).
End Sample.


(** The tombstone comes while the thread is between the list it has read and the
    contact: the delete event goes out, and then the contact again. *)
Lemma tombstone_races_reckoning :
  let '(l, _, sent) := Sample.run (new_layer, Asleep)
    [Sample.seen Sample.shahed 1700000001; Sample.tick 1700000004; Sample.seen Sample.tombstone 1700000005; Sample.tick 1700000005] in
  unknown "EFDI-UID-N1" l /\
  map (fun xml => (contains "EFDI-UID-N1" xml, contains "t-x-d-d" xml)) sent = [(true, false); (true, true); (true, false)].
Proof. vm_compute. split; reflexivity. Qed.

Definition text_position : dict := dset "lat_deg" (VStr "54.5") Sample.shahed.

Lemma string_position_stops_reckoning_witness :
  exists l st xml, Sample.run (new_layer, Asleep) [Sample.seen text_position 1700000001; Sample.tick 1700000004] =
      (l, Reckoning (fl 1700000004) [("EFDI-UID-N1", st)], [xml]) /\
    Sample.run (l, Reckoning (fl 1700000004) [("EFDI-UID-N1", st)]) [Sample.tick 1700000004; Sample.tick 1700000900; Sample.tick 1700001000] = (l, Ended, []).
Proof.
  eexists _, _, _. split; [vm_compute; reflexivity|].
  apply (string_position_stops_reckoning Sample.repr Sample.fixed5 Sample.remarks Sample.usericon false Sample.orphan_s _ _ _ _ _ "54.5");
    [reflexivity|reflexivity|split; vm_compute; reflexivity|vm_compute; reflexivity|by repeat constructor].
Defined.

Lemma orphan_trails_exact_witness :
  exists l' sent, _retract_orphan_trails Sample.orphan_s true (fl 1700000300) Sample.drawn_layer = (l', sent, Ok tt) /\
    length sent = 1%nat /\ _trail_sent l' = [].
Proof.
  pose proof (orphan_trails_exact Sample.orphan_s Sample.drawn_layer true (fl 1700000300) "2023-11-14T22:18:20.000Z"
    ltac:(vm_compute; reflexivity) ltac:(vm_compute; reflexivity) ltac:(vm_compute; apply NoDup_singleton)) as Ho.
  destruct (_retract_orphan_trails _ _ _ _) as [[l' sent] r]. destruct Ho as (-> & Ht & Hf & _). exists l', sent. split; [done|]. split.
  - apply Forall2_length in Hf. rewrite <- Hf. vm_compute. reflexivity.
  - rewrite Ht. vm_compute. reflexivity.
Defined.
